(* ===== verification/_CoqProject ===== *)
-Q . S2P
Prelude.v
Items.v
Mdb.v
Estate.v
Msecurity.v
Pts.v
PtsCorrect.v
Vldb.v
VldbCorrect.v
Buf.v
Fdir.v
FdirPage.v
FdirRep.v
FdirCorrect.v
Vnum.v
Voldb.v
VoldbRep.v
VoldbFree.v
VoldbOps.v
VoldbCorrect.v
VoldbSim.v
VoldbProps.v
Mdir.v
MdirCorrect.v
DList.v
DListCorrect.v
Heap.v
HeapCorrect.v
Hash.v
HashCorrect.v
Vtrans.v
VtransCorrect.v
Vrights.v
VrightsCorrect.v
Svol.v
SvolCorrect.v
Mnode.v
MnodeCorrect.v
Vinfo.v
VinfoCorrect.v
Vld.v
VldCorrect.v
VldModify.v
VldKeep.v
VldFiles.v
VldRemove.v
VldCreate.v
VldExamples.v
Dpart.v
Vtab.v
VtabCorrect.v
Vattach.v
VtabExamples.v
Rxcopy.v
Ropa.v
RopaIp.v
RopaInv.v
RopaCb.v
RopaPair.v
RopaBreak.v
RopaLoop.v
RopaCorrect.v
RopaProps.v
RopaGet.v
RopaQuery.v
RopaExamples.v
Fsacl.v
Connsec.v
Fsprocs.v
Dump.v
Volser.v
RxcopyCorrect.v
FsaclCorrect.v
FsRun.v
DumpCorrect.v
VolserCorrect.v
FsCorrect.v
FsStore.v
FsExamples.v
DumpExamples.v
