(* ===== verification/Prelude.v ===== *)
(** * Verification library of the milko AFS servers

    ** The program

    milko is a set of AFS servers.  The protection server ([milko/pts]) keeps
    users, groups and memberships, the volume location server ([milko/vldb])
    tells which file server holds a volume; both store their records through
    the database layer [milko/lib/mdb] and ask [milko/lib/msecurity] who may
    administer them.  The file server ([milko/fs]) answers the clients'
    operations on files (fsprocs.c) and the administrators' operations on
    volumes (volprocs.c, dump.c).  It does so through the volume layer
    [milko/lib/vld]: volumes are handles of a table, a volume lives on a
    partition ([milko/lib/dpart]) and has a status file ([milko/lib/vstatus]);
    a vnode has an entry in a database of its volume ([milko/lib/voldb]), a
    file on the host, and while it is used a node of a cache; a directory is a
    file in the format of [lib/bufdir], seen through buffers ([fbuf]), by which
    data is moved between a call and a file too.  What clients cache they are
    promised to be told about by [milko/lib/ropa].  The administrators lock
    volumes by transactions.  The utilities [lib/util] (lists, heaps, hash
    tables) are used by all of them.

    ** The files

    Each component has a file of definitions, with the functions named as in C,
    and files of theorems that require it.

    - [Prelude]: notation, tactics, hint databases, machine integers, byte
      order and strings ([strlcpy], C strings), shared list lemmas.  [Estate]:
      the state and error monad of the stateful components with its laws.
      [Items]: lists whose items have an identity.
    - [Mdb] (mdb.c, ndbm.c) and [Msecurity] (msecurity.c): GDBM is a class with
      its documented laws and a [gmap] instance; the superuser test of a
      connection.
    - [Pts] (ptserver.c, pr.c) and [PtsCorrect]: the record [ptserver] is the
      pair of databases and the header kept in memory; every call of the PR
      package is a function named as in pr.c, [pr_execute] is the dispatcher.
      The encodings generated by ydr are a class ([Ydr]) that promises a round
      trip.
    - [Vldb] (vl_db.c, vl_disk.c, vldbserver.c) and [VldbCorrect]: the same for
      the VL package, dispatcher [vl_execute].
    - [Buf]: byte buffers with checked access and frame reasoning.  [Fdir]
      (fdir.c, afs_dir.h, [mmap_truncate] of fbuf.c): all directory operations
      on the bytes of the file.  [FdirPage] and [FdirRep] prove what they do
      to a page and to the representation [dir_rep] of a whole directory,
      [FdirCorrect] has the theorems.
    - [Mdir] (mdir.c, parts of mnode.c) and [MdirCorrect]: the same operations
      on the host file of a vnode with the recorded sizes, and rename.
    - [DList] (list.c), [Heap] (heap.c), [Hash] (hash.c, arlamath.c), each with
      its file of theorems: pointers of the list are addresses in a store, back
      pointers of the heap are addresses of integers, the prev links of the
      hash chains are implied by their order.
    - [Vnum] and [Voldb] (voldb.c, vdb_flat.c): the bytes of the mapped file of
      entries with a script of the failures of the system calls.  [VoldbRep]
      (entries as bytes), [VoldbFree] (the invariant and the free list) and
      [VoldbOps] (runs of the operations) carry [VoldbCorrect], [VoldbSim] and
      [VoldbProps]: the database as a table of vnodes.
    - [Vtrans] (the transactions of vld.c) and [VtransCorrect]: structures in a
      heap, freed when the code frees them.
    - [Vrights] (access lists and status conversion of vld.c) and
      [VrightsCorrect].
    - [Svol] (common.c, svol.c, fvol.c) and [SvolCorrect]: the host files of a
      volume over a model of the POSIX calls.
    - [Mnode] (mnode.c) and [MnodeCorrect]: the cache of nodes.
    - [Vinfo] (vol.c, and the info and quota of vld.c) and [VinfoCorrect].
    - [Vld] (the vnode operations of vld.c), the composition of [Voldb],
      [Mdir], [Svol], [Mnode], [Vinfo] and [Vrights] over one volume handle and
      the cache; its theorems are in [VldCorrect] (opening, rights),
      [VldModify] (changes), [VldKeep] (the cache after a change), [VldFiles]
      (what the cache knows of a file), [VldRemove] (links, removal) and
      [VldCreate] (creation), concrete volumes in [VldExamples].
    - [Dpart] (dpart.c, with its theorems): numbers, names and search of
      partitions.  [Vtab] (the volumes of vld.c, vstatus.c): the table of
      handles, the list of those whose databases are open, creation and
      deletion; [VtabCorrect].  [Vattach]: [vld_init].  [VtabExamples] has
      their witnesses.
    - [Rxcopy] ([copyrx2fd], [copyfd2rx] of fbuf.c) and [RxcopyCorrect]: the
      data of a call and the windows of the file.
    - [Ropa] (ropa.c) over [Hash] and [Heap]: heaps of clients, callbacks and
      pairs, the lists and tables of them, the answers of the clients and a log
      of the messages sent.  [RopaIp] (the table of addresses), [RopaInv],
      [RopaCb] and [RopaPair] (the invariant [rinv] in three parts and what is
      counted), [RopaBreak] and [RopaLoop] (breaking promises) carry
      [RopaCorrect], [RopaProps], [RopaGet] and [RopaQuery]; [RopaExamples] is
      a small server with the witnesses.
    - [Fsacl] (access lists as text, fsprocs.c) and [FsaclCorrect]; [Connsec]
      (connsec.c): who a caller is.
    - [Fsprocs] (fsprocs.c): every procedure of the file server, over the
      record [fserver] of the table of volumes, the cache, the callbacks, the
      transactions and the data of the call.  [FsRun] runs what the procedures
      share, [FsCorrect] and [FsStore] have the theorems, [FsExamples] the servers they
      are instantiated on.
    - [Dump] (dump.c and the walks over a volume of vld.c) and [Volser]
      (volprocs.c), over the same record; [DumpCorrect], [VolserCorrect] and
      the runs of [DumpExamples].

    ** How code becomes definitions

    A C function is a function of the state it changes; its result is its
    status with the new state, status 0 for success. [None] is an execution
    that the code does not survive or C does not define: a failed [assert],
    [err], an access outside an allocation or to freed memory, [free] of a
    pointer that was never set or was freed before, an [int] overflow where the
    code relies on there being none. So a theorem that a call answers [Some]
    says in particular that none of these happens.
    Integers are in [Z] with the wrap-around written out ([uwrap32],
    [swrap32], ...), bytes are [Z] in lists.  What the operating system or a
    library answers ([malloc], [realloc], [ftruncate], mapping a file, POSIX
    calls, GDBM, the clients called back, the time, the peer's name) is a
    parameter or part of the state, with errors among the answers unless a
    theorem says otherwise.  A smaller state works inside a larger one by the
    functions [on_...] ([on_vol], [on_lm], [on_ropa], ...), which put its part
    back.

    ** Abstract specifications

    The detailed definitions are shown to implement:

    - a table of used and free vnodes, [vnode_step] ([voldb_run_refines]), on
      which the vnode operations act ([vld_create_entry_correct],
      [vld_modify_vnode_correct], [vld_adjust_linkcount_correct]);
    - maps from names to fids for directories ([fdir_refines],
      [mdir_ops_correct], [mdir_rename_correct]);
    - the promises made to the clients, [promise]
      ([ropa_break_callback_correct], [ropa_getcallback_correct],
      [heapcleaner_correct], [SRXAFS_StoreStatus_correct]);
    - a map of transactions ([trans_refines]);
    - maps for hash tables ([hash_add_correct]);
    - the rights of a list of access entries ([vld_rights_correct]);
    - the stream of a dump, [dump_bytes], a function of the info and the vnodes
      of the volume ([dump_round_trip]).

    ** The theorems

    - Volume database ([VoldbProps]): [voldb_run_refines],
      [voldb_no_pair_twice], [voldb_new_entry_ftruncate_fails].  The operations
      act on a table of vnodes, no vnode is handed out twice, entries survive;
      and the state a failed [ftruncate] leaves.
    - Vnodes of a volume: creation with everything it gives back on an error,
      change, removal with the last link and rights (the four theorems
      [vld_..._correct] of [VldCreate], [VldModify], [VldRemove] and
      [VldCorrect]), [vld_rights_correct], [svol_create_safe] for host files,
      [vld_update_volsize_correct] for the quota, [mnode_cache_shared]: the
      cache shares one node per fid.
    - Table of volumes: [vld_db_uptodate_opens], [vld_evicted_volume_lost],
      [vld_init_attaches_nothing]; for partitions [dp_names_numbers].
    - File server: [fs_init_req_correct], the guard of every procedure;
      [SRXAFS_FetchStatus_correct], [SRXAFS_StoreStatus_correct] and
      [SRXAFS_FetchData_correct], the volume, the rights, the files and the
      callbacks together.
    - Volume server: [dump_round_trip], what is sent is what is restored;
      [volser_set_then_status], what is set is what is told.
    - Callbacks: [ropa_break_callback_correct], [ropa_getcallback_correct],
      [heapcleaner_correct], [ropa_init_correct].  Whoever was promised to be
      told is told, others are not; promises are made and expire; the start is
      in order.
    - Protection server: the theorems [pts_...] of [PtsCorrect].  The databases
      stay consistent and the membership lists sorted and symmetric; round
      trips; callers without the right change nothing; [pts_answers] tells
      exactly which calls have no result.
    - Volume location server: [vldb_consistent], [vldb_unauthorised_readonly].
    - Directories: [fdir_refines], [fdir_readdir_complete]; of vnodes
      [mdir_ops_correct], [mdir_rename_correct], with the errors of the
      operating system (rename: all but those of mapping a file).
    - Transactions: [trans_memory_safe], [trans_exclusive], [trans_refines].
    - Heaps [heap_remove_correct], hash tables [hash_add_correct].

    Each file of theorems has others that support these, or show a run in
    which the code does not do what it means to.

    ** Loops and their fuel

    - [chain_fuel] (65537) in [Fdir]: the chains link 16-bit numbers; a longer
      walk visits an entry twice and does not end in C either.  Well-formed
      directories never use it up ([chain_length] in [FdirRep]).
    - pages and slots: one round per page or slot is left, so the fuel given
      always suffices; the theorems on the operations answer [Some].
    - [upheap], [downheap], [do_verify] in [Heap]: the size of the heap bounds
      the rounds; the theorems show the results are [Some].
    - [listiter]: the theorem asks for one unit per item and one more.
    - [arlautil_findprime]: the distance to any prime above suffices.
    - [_add] in [Hash]: a table that grows inserts into a larger table; the
      sizes below the largest table that can be had bound the nesting
      ([hash_add_correct]).
    - [scan], [shift_in], [shift_out] in [Pts]: the length of the array.
    - [digits] in [Vinfo]: ten rounds print a number of 32 bits.
    - [find_fuel] in [Dpart]: more than the numbers a partition can have;
      the search always ends ([dp_find_total]).
    - [copy_fuel] in [Rxcopy]: a round that ends the copy or moves a byte, so
      the length and one suffice ([copyrx_loop_run], [copyfd_loop_run]); a
      round that moves none is repeated for ever by the code too, and
      [copyrx2fd_never_returns] has no result for any fuel.
    - [in_fuel] in [Dump]: every round of a parser takes a byte of the input,
      or fails, so its length and one suffice.
    - [break_loop] in [Ropa]: one round per pair of the callback's list, and
      one that finds it empty; [ropa_break_callback_correct] shows that the
      call returns.
    - [heapcleaner]: the size of the heap and one; [heapcleaner_correct] shows
      it returns.

    ** What is not modelled

    Parts of the repository: the transport [rx], the security classes [rxkad]
    and [rxgk] and the threads of [lwp] (network, cryptography over libraries
    that are elsewhere, stacks and assembly); the stub compiler [ydr], whose
    output is not in the repository (the packing of a type is a parameter
    where it matters, with its round trip); the client tools of [appl] and
    [lib/arla], the cell configuration [lib/ko], replacements of C library
    functions and line editing; the overseer [bos], which starts processes;
    logging, start-up and configuration files; the salvager, an offline tool,
    with [vld_set_onode] and [vld_open_volume_by_fd] that only it uses.

    In what is modelled: procedures run one after the other, so a call to a
    client or a read of the call's data does not give way to another
    procedure.  The loop of [break_ccpairs] is modelled for an empty list
    only: no code puts a pair on the list it walks.  Directory entries with
    UTF-8 names are modelled, but the theorems are about plain names, which
    are the only ones the server makes.  When a directory's file was resized
    and then cannot be mapped again the code goes on to free its data twice,
    and the operation has no result ([fbuf_truncate]).  Volumes are of the simple type; the
    read-only type has its names and [open] only.  Freeing of memory matters
    only where it is reused or could still be pointed to. *)

From stdpp Require Export base tactics list gmap sorting.
From stdpp Require Import numbers.
From Stdlib Require Export ZArith Lia.

#[export] Set Default Goal Selector "!".

(** ** Notation and automation *)

Declare Scope milko_scope.
Delimit Scope milko_scope with milko.
Open Scope Z_scope.

(** A C byte buffer, string or key: its bytes, each in [0,256). *)
Abbreviation bytes := (list Z).

Create HintDb milko discriminated.
Create HintDb milko_arith discriminated.
Create Rewrite HintDb milko_len.

(** Destruct the innermost scrutinee of a [match] or [if] of the goal or of
    a hypothesis, keeping the equation. *)
Ltac case_in_goal :=
  match goal with
  | |- context [match ?x with _ => _ end] =>
      lazymatch x with
      | context [match _ with _ => _ end] => fail
      | _ => destruct x eqn:?
      end
  end.

Ltac case_in H :=
  match type of H with
  | context [match ?x with _ => _ end] =>
      lazymatch x with
      | context [match _ with _ => _ end] => fail
      | _ => destruct x eqn:?
      end
  end.

(** Turn boolean comparisons on [Z] in hypotheses into propositions. *)
Ltac zbool :=
  repeat match goal with
  | H : (_ =? _)%Z = true |- _ => apply Z.eqb_eq in H
  | H : (_ =? _)%Z = false |- _ => apply Z.eqb_neq in H
  | H : (_ <? _)%Z = true |- _ => apply Z.ltb_lt in H
  | H : (_ <? _)%Z = false |- _ => apply Z.ltb_ge in H
  | H : (_ <=? _)%Z = true |- _ => apply Z.leb_le in H
  | H : (_ <=? _)%Z = false |- _ => apply Z.leb_gt in H
  | H : negb _ = true |- _ => apply negb_true_iff in H
  | H : negb _ = false |- _ => apply negb_false_iff in H
  | H : _ && _ = true |- _ => apply andb_true_iff in H; destruct H
  | H : _ || _ = false |- _ => apply orb_false_iff in H; destruct H
  end.

(** ** Machine integers *)

(** [int32_t]: the representative of [z] modulo 2^32 in [-2^31, 2^31). *)
Definition swrap32 (z : Z) : Z := (z + 2^31) mod 2^32 - 2^31.
(** [uint32_t], [uint16_t], [uint8_t]. *)
Definition uwrap32 (z : Z) : Z := z mod 2^32.
Definition uwrap64 (z : Z) : Z := z mod 2^64.
Definition swrap64 (z : Z) : Z := (z + 2^63) mod 2^64 - 2^63.
Definition uwrap16 (z : Z) : Z := z mod 2^16.
Definition uwrap8 (z : Z) : Z := z mod 2^8.

Definition is_int32 (z : Z) : Prop := - 2^31 <= z < 2^31.
Definition is_uint32 (z : Z) : Prop := 0 <= z < 2^32.
Definition is_byte (z : Z) : Prop := 0 <= z < 256.

(** Arithmetic on an [int32_t]: an overflow is undefined. *)
Definition int32_arith (n : Z) : option Z :=
  if (- 2^31 <=? n) && (n <? 2^31) then Some n else None.

Lemma int32_arith_Some n m : int32_arith n = Some m <-> m = n /\ is_int32 n.
Proof. unfold int32_arith, is_int32. case_match; zbool; naive_solver lia. Qed.

Lemma int32_arith_None n : int32_arith n = None <-> ~ is_int32 n.
Proof. unfold int32_arith, is_int32. case_match; zbool; naive_solver lia. Qed.

Lemma swrap32_range z : is_int32 (swrap32 z).
Proof.
  unfold is_int32, swrap32.
  pose proof (Z.mod_pos_bound (z + 2^31) (2^32)). lia.
Qed.

Lemma swrap32_small z : is_int32 z -> swrap32 z = z.
Proof.
  unfold is_int32, swrap32. intros ?. rewrite Z.mod_small; lia.
Qed.

Lemma swrap32_uwrap32 z : swrap32 (uwrap32 z) = swrap32 z.
Proof.
  unfold swrap32, uwrap32. f_equal.
  rewrite Zplus_mod_idemp_l. done.
Qed.

(** ** Error numbers (errno.h) *)

Definition ENOENT : Z := 2.
Definition ENOMEM : Z := 12.
Definition EEXIST : Z := 17.
Definition EINVAL : Z := 22.

(** ** Byte order *)

(** [htonl]/[ntohl] and [htons]/[ntohs] seen as the bytes in memory: the most
    significant byte first.  [le32] is the memory image of a [uint32_t] on the
    little-endian hosts the server is built for. *)
Definition be32 (z : Z) : bytes :=
  let u := uwrap32 z in
  [u / 2^24; (u / 2^16) mod 2^8; (u / 2^8) mod 2^8; u mod 2^8].
Definition le32 (z : Z) : bytes := rev (be32 z).
Definition be16 (z : Z) : bytes :=
  let u := uwrap16 z in [u / 2^8; u mod 2^8].

Definition of_be (bs : bytes) : Z := fold_left (fun acc b => acc * 256 + b) bs 0.

Lemma of_be_be32 z : of_be (be32 z) = uwrap32 z.
Proof.
  unfold of_be, be32; simpl.
  pose proof (Z.mod_pos_bound z (2^32)).
  unfold uwrap32. set (u := z mod _) in *. clearbody u.
  Z.div_mod_to_equations. lia.
Qed.

Lemma of_be_be16 z : of_be (be16 z) = uwrap16 z.
Proof.
  unfold of_be, be16; simpl.
  pose proof (Z.mod_pos_bound z (2^16)).
  unfold uwrap16. set (u := z mod _) in *. clearbody u.
  Z.div_mod_to_equations. lia.
Qed.

Lemma be32_inj x y : be32 x = be32 y -> uwrap32 x = uwrap32 y.
Proof. intros H. rewrite <- !of_be_be32. by rewrite H. Qed.

Lemma be32_inj_int32 x y :
  is_int32 x -> is_int32 y -> be32 x = be32 y -> x = y.
Proof.
  intros Hx Hy H%be32_inj.
  rewrite <- (swrap32_small x), <- (swrap32_small y) by done.
  rewrite <- (swrap32_uwrap32 x), <- (swrap32_uwrap32 y). by rewrite H.
Qed.

Lemma le32_inj x y : le32 x = le32 y -> uwrap32 x = uwrap32 y.
Proof.
  unfold le32. intros H. apply be32_inj.
  rewrite <- (rev_involutive (be32 x)), <- (rev_involutive (be32 y)).
  by rewrite H.
Qed.

Lemma length_be32 z : length (be32 z) = 4%nat.
Proof. done. Qed.

Lemma length_le32 z : length (le32 z) = 4%nat.
Proof. done. Qed.

(** ** C strings *)

(** A string value: its bytes before the terminating NUL. *)
Definition is_cstr (s : bytes) : Prop := Forall (fun c => 0 < c < 256) s.

(** The test of a concrete string. *)
Lemma is_cstr_check s : forallb (fun c => (0 <? c) && (c <? 256)) s = true -> is_cstr s.
Proof.
  induction s as [|c s IH]; simpl; [constructor|].
  intros [Hc Hs]%andb_prop. zbool. constructor; [lia|by apply IH].
Qed.

(** [strlcpy (dst, src, n)] for an [n]-byte destination, [n > 0]. *)
Definition strlcpy (n : nat) (src : bytes) : bytes := take (n - 1) src.

Lemma strlcpy_short n s : (length s < n)%nat -> strlcpy n s = s.
Proof. intros ?. unfold strlcpy. apply take_ge. lia. Qed.

Lemma strlcpy_idem n s : strlcpy n (strlcpy n s) = strlcpy n s.
Proof. unfold strlcpy. rewrite take_take. f_equal. lia. Qed.

Lemma strlcpy_length n s : (0 < n)%nat -> (length (strlcpy n s) < n)%nat.
Proof. intros ?. unfold strlcpy. rewrite length_take. lia. Qed.

(** ** Pointers that are held

    A list of pointers, in which one occurs as often as it is held. *)

Definition count (p : Z) (l : list Z) : Z := Z.of_nat (count_occ Z.eq_dec l p).

Lemma count_app p l1 l2 : count p (l1 ++ l2) = count p l1 + count p l2.
Proof. unfold count. rewrite count_occ_app. lia. Qed.

Lemma count_cons p q l : count p (q :: l) = (if decide (p = q) then 1 else 0) + count p l.
Proof.
  unfold count. simpl. destruct (Z.eq_dec q p), (decide (p = q)); subst; try done; lia.
Qed.

Lemma count_perm p l l' : l ≡ₚ l' -> count p l = count p l'.
Proof. intros H. unfold count. f_equal. by apply (Permutation_count_occ Z.eq_dec). Qed.

Lemma count_nonneg p l : 0 <= count p l.
Proof. unfold count. lia. Qed.

Lemma count_zero p l : p ∉ l -> count p l = 0.
Proof.
  intros H. unfold count. rewrite (proj1 (count_occ_not_In Z.eq_dec l p)); [done|].
  by rewrite <- list_elem_of_In.
Qed.

Lemma count_pos p l : p ∈ l -> 1 <= count p l.
Proof.
  intros H. unfold count.
  pose proof (proj1 (count_occ_In Z.eq_dec l p) (proj1 (list_elem_of_In l p) H)). lia.
Qed.

Lemma count_in p l : 1 <= count p l -> p ∈ l.
Proof.
  intros H. destruct (decide (p ∈ l)) as [|Hn]; [done|].
  rewrite (count_zero p l) in H by done. lia.
Qed.

Lemma count_nodup p l : NoDup l -> p ∈ l -> count p l = 1.
Proof.
  intros Hn Hp. unfold count.
  pose proof (proj1 (NoDup_count_occ Z.eq_dec l) (proj1 (NoDup_ListNoDup l) Hn) p).
  pose proof (count_pos p l Hp). unfold count in *. lia.
Qed.

Lemma count_le_length p l : count p l <= Z.of_nat (length l).
Proof. unfold count. pose proof (count_occ_bound Z.eq_dec p l). lia. Qed.

Fixpoint remove1 (p : Z) (l : list Z) : list Z :=
  match l with
  | [] => []
  | q :: l => if decide (p = q) then l else q :: remove1 p l
  end.

Lemma count_remove1 p q l :
  p ∈ l -> count q (remove1 p l) = count q l - (if decide (q = p) then 1 else 0).
Proof.
  induction l as [|x l IH]; intros Hp; [by apply elem_of_nil in Hp|].
  simpl. destruct (decide (p = x)) as [<-|Hx].
  - rewrite count_cons. lia.
  - apply elem_of_cons in Hp as [?|Hp]; [done|]. rewrite !count_cons, (IH Hp). lia.
Qed.

Lemma remove1_sub p q l : q ∈ remove1 p l -> q ∈ l.
Proof.
  induction l as [|x l IH]; simpl; [done|]. destruct (decide (p = x)) as [<-|Hx].
  - by intros; apply list_elem_of_further.
  - intros [->|H]%elem_of_cons; [apply list_elem_of_here|apply list_elem_of_further; auto].
Qed.

Lemma length_remove1 p l : (length (remove1 p l) <= length l)%nat.
Proof. induction l as [|x l IH]; simpl; [lia|]. case_decide; simpl; lia. Qed.

(** ** Concrete runs *)

(** A computation known to succeed has the result it computes. *)
Lemma default_is_some {A} (d : A) (o : option A) :
  (match o with Some _ => true | None => false end) = true -> o = Some (default d o).
Proof. by destruct o. Qed.
