(* ===== verification/Items.v ===== *)
(** * Lists of items with identities

    A list of list.c whose items are kept by pointer: each item has an identity
    of its own, below the one that the next item gets. *)

From S2P Require Import Prelude.

(** [listdel] of an item that is on the list. *)
Fixpoint item_del {A} (i : Z) (l : list (Z * A)) : option (list (Z * A)) :=
  match l with
  | [] => None
  | x :: l => if fst x =? i then Some l else l' ← item_del i l; Some (x :: l')
  end.

Section Items.
Context {A : Type}.

Definition items_ok (n : Z) (l : list (Z * A)) : Prop :=
  NoDup (map fst l) /\ Forall (fun x => fst x < n) l.

Lemma items_mono n n' l : n <= n' -> items_ok n l -> items_ok n' l.
Proof. intros Hn [H1 H2]. split; [done|]. eapply Forall_impl; [exact H2|]. simpl. lia. Qed.

Lemma items_unique n l i p q : items_ok n l -> (i, p) ∈ l -> (i, q) ∈ l -> p = q.
Proof.
  intros [Hnd _] Hp Hq. revert Hnd Hp Hq. induction l as [|[j r] l IH]; [by intros _ ?%not_elem_of_nil|].
  cbn [map fst]. intros [Hj Hnd]%NoDup_cons Hp Hq.
  assert (Hin : forall v, (j, v) ∉ l).
  { intros v Hv. apply Hj. apply list_elem_of_fmap. exists (j, v). done. }
  apply elem_of_cons in Hp as [Hp|Hp]; apply elem_of_cons in Hq as [Hq|Hq]; simplify_eq; try done.
  - by destruct (Hin q).
  - by destruct (Hin p).
  - by apply IH.
Qed.

Lemma items_del n l i p : items_ok n l -> (i, p) ∈ l ->
  exists l1 l2, l = l1 ++ (i, p) :: l2 /\ item_del i l = Some (l1 ++ l2) /\ items_ok n (l1 ++ l2) /\
    forall x, x ∈ l1 ++ l2 <-> x ∈ l /\ fst x <> i.
Proof.
  intros [Hnd Hf] Hin. revert Hnd Hf Hin. induction l as [|[j q] l IH]; [by intros _ _ ?%not_elem_of_nil|].
  cbn [map fst]. intros [Hj Hnd]%NoDup_cons [Hlt Hf]%Forall_cons Hin.
  destruct (Z.eqb_spec j i) as [->|Hne].
  - assert (Hout : forall v, (i, v) ∉ l).
    { intros v Hv. apply Hj. apply list_elem_of_fmap. exists (i, v). done. }
    apply elem_of_cons in Hin as [[= ->]|Hin]; [|by destruct (Hout p)].
    exists [], l. split; [done|]. split; [cbn; by rewrite Z.eqb_refl|]. split; [done|].
    intros [k v]. cbn [app]. rewrite elem_of_cons. cbn. split.
    + intros Hx. split; [by right|]. intros ->. by destruct (Hout v).
    + by intros [[[= -> ->]|Hx] Hk].
  - apply elem_of_cons in Hin as [[= -> ->]|Hin]; [done|].
    destruct (IH Hnd Hf Hin) as (l1 & l2 & -> & Hd & [Hn' Hf'] & Hx).
    exists ((j, q) :: l1), l2. split; [done|]. split; [cbn; rewrite (proj2 (Z.eqb_neq j i)) by done; by rewrite Hd|].
    split.
    + split; [|by constructor]. cbn. apply NoDup_cons. split; [|done]. intros Hj'. apply Hj.
      revert Hj'. rewrite !map_app. cbn. set_solver.
    + intros x. cbn [app]. rewrite !elem_of_cons, Hx. split.
      * intros [->|[? ?]]; [by split; [left|]|]. auto.
      * intros [[?|?] ?]; auto.
Qed.

Lemma items_head n l p : items_ok n l -> items_ok (n + 1) ((n, p) :: l).
Proof.
  intros [H1 H2]. split.
  - cbn. apply NoDup_cons. split; [|done]. intros ([j q] & -> & Hx)%list_elem_of_fmap.
    rewrite Forall_forall in H2. specialize (H2 _ Hx). simpl in H2. lia.
  - constructor; [simpl; lia|]. eapply Forall_impl; [exact H2|]. simpl. lia.
Qed.

Lemma items_perm n l l' : l ≡ₚ l' -> items_ok n l -> items_ok n l'.
Proof. intros Hl [H1 H2]. split; [by rewrite <- Hl|]. by rewrite <- Hl. Qed.
Lemma items_tail n l p : items_ok n l -> items_ok (n + 1) (l ++ [(n, p)]).
Proof. intros H. eapply items_perm; [|by apply (items_head n l p)]. by rewrite Permutation_app_comm. Qed.
Lemma items_tail_ok n i p l : items_ok n ((i, p) :: l) -> items_ok n l /\ forall q, (i, q) ∉ l.
Proof.
  intros [Hnd Hf]. cbn in Hnd. apply NoDup_cons in Hnd as [Hi Hnd]. apply Forall_cons in Hf as [_ Hf].
  split; [done|]. intros q Hq. apply Hi. apply list_elem_of_fmap. by exists (i, q).
Qed.
Lemma items_snoc n l i p : items_ok n (l ++ [(i, p)]) -> items_ok n l /\ forall q, (i, q) ∉ l.
Proof.
  intros H. apply (items_tail_ok n i p l). eapply items_perm; [|exact H]. by rewrite Permutation_app_comm.
Qed.
End Items.
