(* ===== verification/Mdb.v ===== *)
(** * The database layer (milko/lib/mdb)

    [mdb.c] dispatches to the operations that [mdb_NDBM_create] of [ndbm.c]
    installs, and those call GDBM.  GDBM is not part of the repository: it is
    the class [Gdbm] with the documented behaviour of [gdbm_store] (with
    [GDBM_REPLACE]), [gdbm_fetch] and [gdbm_delete] as the laws [GdbmLaws].
    [gmap] is the instance that shows the laws can hold. *)

From S2P Require Import Prelude.


(** ** GDBM as the code relies on it *)

Class Gdbm (F : Type) := {
  gdbm_store : F -> bytes -> bytes -> Z * F;
  gdbm_fetch : F -> bytes -> option bytes;
  gdbm_delete : F -> bytes -> Z * F;
}.

Class GdbmLaws (F : Type) `{Gdbm F} := {
  gdbm_store_eq d k v d' :
    gdbm_store d k v = (0, d') -> gdbm_fetch d' k = Some v;
  gdbm_store_ne d k v d' k' :
    gdbm_store d k v = (0, d') -> k <> k' -> gdbm_fetch d' k' = gdbm_fetch d k';
  gdbm_store_fail d k v r d' k' :
    gdbm_store d k v = (r, d') -> r <> 0 -> gdbm_fetch d' k' = gdbm_fetch d k';
  gdbm_delete_eq d k d' :
    gdbm_delete d k = (0, d') -> gdbm_fetch d' k = None;
  gdbm_delete_ne d k d' k' :
    gdbm_delete d k = (0, d') -> k <> k' -> gdbm_fetch d' k' = gdbm_fetch d k';
  gdbm_delete_fail d k r d' k' :
    gdbm_delete d k = (r, d') -> r <> 0 -> gdbm_fetch d' k' = gdbm_fetch d k';
  gdbm_delete_missing d k :
    gdbm_fetch d k = None -> fst (gdbm_delete d k) <> 0;
}.

(** A database that never fails to write: what the success theorems of the
    servers assume of the disk. *)
Class GdbmReliable (F : Type) `{Gdbm F} := {
  gdbm_store_ok d k v : fst (gdbm_store d k v) = 0;
  gdbm_delete_ok d k : is_Some (gdbm_fetch d k) -> fst (gdbm_delete d k) = 0;
}.

(** ** ndbm.c and mdb.c *)

Section Ndbm.
Context {F : Type} `{Gdbm F}.

Definition NDBM_store (db : F) (key value : bytes) : Z * F :=
  gdbm_store db key value.

(** [inl] is the error code, [inr] the fetched datum. *)
Definition NDBM_fetch (db : F) (key : bytes) : Z + bytes :=
  match gdbm_fetch db key with
  | None => inl ENOENT
  | Some v => inr v
  end.

Definition NDBM_delete (db : F) (key : bytes) : Z * F := gdbm_delete db key.

Definition mdb_fetch (db : F) (key : bytes) : Z + bytes := NDBM_fetch db key.
Definition mdb_store (db : F) (key value : bytes) : Z * F :=
  NDBM_store db key value.
Definition mdb_delete (db : F) (key : bytes) : Z * F := NDBM_delete db key.
End Ndbm.

(** ** Derived facts *)

Section MdbFacts.
Context {F : Type} `{GdbmLaws F}.
Implicit Types (d : F) (k v : bytes).

Lemma mdb_fetch_inr d k v : mdb_fetch d k = inr v <-> gdbm_fetch d k = Some v.
Proof. unfold mdb_fetch, NDBM_fetch. destruct (gdbm_fetch d k); naive_solver. Qed.

Lemma mdb_fetch_inl d k e :
  mdb_fetch d k = inl e <-> gdbm_fetch d k = None /\ e = ENOENT.
Proof. unfold mdb_fetch, NDBM_fetch. destruct (gdbm_fetch d k); naive_solver. Qed.

(** The effect of a successful store on every later fetch. *)
Lemma store_lookup d k v d' k' :
  mdb_store d k v = (0, d') ->
  gdbm_fetch d' k' = if decide (k = k') then Some v else gdbm_fetch d k'.
Proof.
  unfold mdb_store, NDBM_store. intros Hst. case_decide as Hk.
  - subst. by eapply gdbm_store_eq.
  - by eapply gdbm_store_ne.
Qed.

Lemma delete_lookup d k d' k' :
  mdb_delete d k = (0, d') ->
  gdbm_fetch d' k' = if decide (k = k') then None else gdbm_fetch d k'.
Proof.
  unfold mdb_delete, NDBM_delete. intros Hst. case_decide as Hk.
  - subst. by eapply gdbm_delete_eq.
  - by eapply gdbm_delete_ne.
Qed.

Lemma store_fail_same d k v r d' k' :
  mdb_store d k v = (r, d') -> r <> 0 -> gdbm_fetch d' k' = gdbm_fetch d k'.
Proof. apply gdbm_store_fail. Qed.

Context `{!GdbmReliable F}.

Lemma store_succeeds d k v : exists d', mdb_store d k v = (0, d').
Proof.
  unfold mdb_store, NDBM_store.
  pose proof (gdbm_store_ok d k v). destruct (gdbm_store d k v); simpl in *.
  naive_solver.
Qed.

Lemma delete_succeeds d k v :
  gdbm_fetch d k = Some v -> exists d', mdb_delete d k = (0, d').
Proof.
  unfold mdb_delete, NDBM_delete. intros Hf.
  pose proof (gdbm_delete_ok d k). destruct (gdbm_delete d k); simpl in *.
  naive_solver.
Qed.
End MdbFacts.

(** ** A finite map is a GDBM file *)

#[export] Instance gmap_gdbm : Gdbm (gmap bytes bytes) := {|
  gdbm_store d k v := (0, <[k := v]> d);
  gdbm_fetch d k := d !! k;
  gdbm_delete d k :=
    match d !! k with Some _ => (0, delete k d) | None => (-1, d) end;
|}.

#[export] Instance gmap_gdbm_laws : GdbmLaws (gmap bytes bytes).
Proof.
  split; simpl; intros; repeat case_match; simplify_eq; simpl;
    try done; by simplify_map_eq.
Qed.

#[export] Instance gmap_gdbm_reliable : GdbmReliable (gmap bytes bytes).
Proof.
  split; simpl; [done|]. intros d k [v Hv]. by rewrite Hv.
Qed.

(** ** Generated encoders (ydr)

    The (de)serialisation of the on-disk records is generated by ydr from the
    [.xg] files when the program is built.  The class states what the servers
    rely on: an encoding that was produced decodes to the same record, and
    records within the limits of the [.xg] declaration are encoded. *)

Class Ydr (A : Type) := {
  ydr_encode : A -> option bytes;
  ydr_decode : bytes -> option A;
  ydr_fits : A -> Prop;
}.

Class YdrLaws (A : Type) `{Ydr A} := {
  ydr_roundtrip a b : ydr_encode a = Some b -> ydr_decode b = Some a;
  ydr_total a : ydr_fits a -> is_Some (ydr_encode a);
}.

(** ** Word streams

    Length-prefixed lists in a stream of words: the concrete encodings that
    run the models are built from them. *)

Definition enc_list (l : list Z) : bytes := Z.of_nat (length l) :: l.
Definition dec_list (b : bytes) : option (list Z * bytes) :=
  match b with
  | n :: r => Some (take (Z.to_nat n) r, drop (Z.to_nat n) r)
  | [] => None
  end.

Lemma dec_enc_list l r : dec_list (enc_list l ++ r) = Some (l, r).
Proof.
  unfold dec_list, enc_list; simpl. rewrite Nat2Z.id.
  by rewrite take_app_length, drop_app_length.
Qed.

