(* ===== verification/Estate.v ===== *)
(** * A state and error monad

    The operations of the volume layer and of the tables of the servers change
    a state, return an errno, or do something C gives no meaning to.  [EM S A]
    is a function from the state to [None] (an abort, a failed assertion, an
    access outside an array or through a pointer to freed memory), to a state
    and [inl e] (the errno [e] is returned) or to a state and [inr a].  The
    laws are what proofs by symbolic execution use. *)

From S2P Require Import Prelude.

Definition EM (S A : Type) : Type := S -> option (S * (Z + A)).

Section Ops.
Context {S : Type}.

Definition eret {A} (a : A) : EM S A := fun s => Some (s, inr a).
(** [return e;] for an errno *)
Definition efail {A} (e : Z) : EM S A := fun s => Some (s, inl e).
(** Behaviour that is not defined, or the end of the process. *)
Definition eabort {A} : EM S A := fun _ => None.
Definition eassert (b : bool) : EM S unit := if b then eret tt else eabort.
Definition ebind {A B} (m : EM S A) (k : A -> EM S B) : EM S B := fun s =>
  match m s with
  | Some (s', inr a) => k a s'
  | Some (s', inl e) => Some (s', inl e)
  | None => None
  end.
Definition eget : EM S S := fun s => Some (s, inr s).
Definition emod (f : S -> S) : EM S unit := fun s => Some (f s, inr tt).
Definition eopt {A} (o : option A) : EM S A :=
  match o with Some a => eret a | None => eabort end.
(** [ret = f (...); if (ret) goto cleanup;]: the clean-up after an error,
    whose own result is dropped. *)
Definition eonerr {A} (m : EM S A) (cleanup : EM S unit) : EM S A := fun s =>
  match m s with
  | Some (s', inl e) =>
      match cleanup s' with
      | Some (s'', _) => Some (s'', inl e)
      | None => None
      end
  | r => r
  end.
(** The clean-up that follows whatever the result is. *)
Definition efinally {A} (m : EM S A) (cleanup : EM S unit) : EM S A := fun s =>
  match m s with
  | Some (s', r) =>
      match cleanup s' with
      | Some (s'', _) => Some (s'', r)
      | None => None
      end
  | None => None
  end.
(** [f (...);] with its result dropped. *)
Definition eignore {A} (m : EM S A) : EM S unit := fun s =>
  match m s with
  | Some (s', _) => Some (s', inr tt)
  | None => None
  end.
(** [ret = f (...);] with the result kept as a value: [inl] is an errno. *)
Definition etry {A} (m : EM S A) : EM S (Z + A) := fun s =>
  match m s with
  | Some (s', r) => Some (s', inr r)
  | None => None
  end.
(** The result of the call as the number C has it: 0 or the errno. *)
Definition ecode {A} (m : EM S A) : EM S Z := fun s =>
  match m s with
  | Some (s', inl e) => Some (s', inr e)
  | Some (s', inr _) => Some (s', inr 0)
  | None => None
  end.
End Ops.

(** An operation on a part of the state. *)
Definition elift {S T A} (get : S -> T) (put : T -> S -> S) (m : EM T A) : EM S A := fun s =>
  match m (get s) with
  | Some (t, r) => Some (put t s, r)
  | None => None
  end.

Declare Scope em_scope.
Delimit Scope em_scope with em.
Notation "x <-- m ;; k" := (ebind m (fun x => k))
  (at level 100, m at next level, right associativity) : em_scope.
Notation "m ;;! k" := (ebind m (fun _ => k))
  (at level 100, right associativity) : em_scope.

(** ** Laws *)

Section Laws.
Context {S A B : Type}.
Implicit Types (m : EM S A) (k : A -> EM S B) (s : S).

Lemma ebind_ok m k s s' a : m s = Some (s', inr a) -> ebind m k s = k a s'.
Proof. unfold ebind. by intros ->. Qed.
Lemma ebind_err m k s s' e : m s = Some (s', inl e) -> ebind m k s = Some (s', inl e).
Proof. unfold ebind. by intros ->. Qed.
Lemma ebind_none m k s : m s = None -> ebind m k s = None.
Proof. unfold ebind. by intros ->. Qed.
Lemma ebind_ret (a : A) k s : ebind (eret a) k s = k a s.
Proof. done. Qed.
Lemma ebind_get (k : S -> EM S B) s : ebind eget k s = k s s.
Proof. done. Qed.
Lemma ebind_mod f (k : unit -> EM S B) s : ebind (emod f) k s = k tt (f s).
Proof. done. Qed.
Lemma ebind_fail e (k : A -> EM S B) s : ebind (efail e) k s = Some (s, inl e).
Proof. done. Qed.

Lemma elift_run {T C} (get : S -> T) put (m : EM T C) s t r :
  m (get s) = Some (t, r) -> elift get put m s = Some (put t s, r).
Proof. unfold elift. by intros ->. Qed.

(** The first two of a sequence. *)
Lemma ebind_two {C} m (m' : EM S B) (k : EM S C) s s' b :
  ebind m (fun _ => m') s = Some (s', inr b) -> ebind m (fun _ => ebind m' (fun _ => k)) s = k s'.
Proof. unfold ebind. destruct (m s) as [[s1 [e|a]]|]; [done| |done]. by intros ->. Qed.

Lemma eonerr_ok m c s s' (a : A) : m s = Some (s', inr a) -> eonerr m c s = Some (s', inr a).
Proof. unfold eonerr. by intros ->. Qed.
Lemma eonerr_err (m : EM S A) c s s1 s2 e (r : Z + unit) :
  m s = Some (s1, inl e) -> c s1 = Some (s2, r) -> eonerr m c s = Some (s2, inl e).
Proof. unfold eonerr. by intros -> ->. Qed.

Lemma efinally_run m c s s1 s2 r (x : Z + unit) :
  m s = Some (s1, r) -> c s1 = Some (s2, x) -> efinally m c s = Some (s2, r).
Proof. unfold efinally. by intros -> ->. Qed.

(** What a run of a sequence says of its parts. *)
Lemma ebind_inv m k s s' r :
  ebind m k s = Some (s', r) ->
  (exists e, r = inl e /\ m s = Some (s', inl e)) \/
  (exists a s1, m s = Some (s1, inr a) /\ k a s1 = Some (s', r)).
Proof.
  unfold ebind. destruct (m s) as [[s1 [e|a]]|]; [..|done].
  - intros [= <- <-]. left. eauto.
  - intros H. right. eauto.
Qed.
End Laws.

(** Running the first operation of a sequence, whose result is known. *)
Ltac lrun H := rewrite (ebind_ok _ _ _ _ _ H).
