(* ===== verification/Msecurity.v ===== *)
(** * Who may administer the servers (milko/lib/msecurity/msecurity.c)

    The security state of a connection and the superuser test that guards the
    mutating calls of the protection and the volume location servers.  The
    name of the peer comes from rxkad ([rxkad_GetServerInfoNew]); the access
    list is the superuser file, asked through [acl_check] of acl_files.c.
    The model is of the build with Kerberos. *)

From S2P Require Import Prelude.

(** The part of [struct rx_connection] the servers look at: the security
    index and what [rxkad_GetServerInfoNew] answers for the connection. *)
Record rx_conn := {
  securityIndex : Z;
  server_info : option bytes;
}.

(** The module state: [superuser_check_disabled], and what [acl_check] on the
    superuser file answers for a name. *)
Record msec := {
  superuser_check_disabled : bool;
  acl_check : bytes -> bool;
}.

(** [inl] is the error of [sec_getname], [inr] the name. *)
Definition sec_getname (conn : rx_conn) : Z + bytes :=
  if securityIndex conn =? 2 then
    match server_info conn with
    | Some name => inr name
    | None => inl (-1)
    end
  else inl (-1).

Definition sec_is_superuser (ms : msec) (conn : rx_conn) : bool :=
  if superuser_check_disabled ms then true
  else
    match sec_getname conn with
    | inl _ => false
    | inr name =>
        if securityIndex conn =? 2 then acl_check ms name
        else false
    end.

Definition sec_disable_superuser_check (ms : msec) : msec :=
  {| superuser_check_disabled := true; acl_check := acl_check ms |}.

(** A superuser is a named rxkad peer on the list, unless checks are off. *)
Lemma sec_is_superuser_spec ms conn :
  sec_is_superuser ms conn = true <->
  superuser_check_disabled ms = true \/
  (securityIndex conn = 2 /\
   exists name, server_info conn = Some name /\ acl_check ms name = true).
Proof.
  unfold sec_is_superuser, sec_getname.
  destruct (superuser_check_disabled ms); [naive_solver|].
  destruct (Z.eqb_spec (securityIndex conn) 2);
    destruct (server_info conn); naive_solver.
Qed.
