(* ===== verification/Pts.v ===== *)
(** * The protection server (milko/pts: ptserver.c, pr.c)

    Users and groups live in two databases: [idtodata] maps the id (four
    bytes, network order) to the encoded [prentry_disk], [nametoid] maps the
    name to the id; the header with the next free ids is a third kind of key
    of [idtodata].  A call either returns a status, 0 for success, or ends the
    server ([err], a failed [assert]) or does something C leaves undefined: an
    access outside an allocation, [free] of a pointer that was never set, a
    signed overflow.  Both are [None] here. *)

From S2P Require Import Prelude Mdb Msecurity.

(** ** Constants (rxdef/pts.xg, ptserver.c) *)

Definition PR_MAXNAMELEN : nat := 64.
Definition PR_MAXGROUPS : nat := 5000.
Definition PR_MAXLIST : nat := 5000.
Definition PRSIZE : nat := 10.
Definition PR_SYSADMINID : Z := -204.
Definition PR_ANYUSERID : Z := -101.
Definition PR_AUTHUSERID : Z := -102.
Definition PR_ANONYMOUSID : Z := 32766.
Definition PRTYPE : Z := 63.
Definition PRGRP : Z := 2.
Definition PRUSER : Z := 0.
Definition PREXIST : Z := 267264.
Definition PRNOENT : Z := 267268.
Definition PRPERM : Z := 267269.
Definition PRDBBAD : Z := 267275.
Definition PRTOOMANY : Z := 267279.
Definition ILLEGAL_ID : Z := 0x40000000.
Definition ILLEGAL_GROUP : Z := 0x40000000.

(** ** Data *)

Record prheader_disk := {
  h_version : Z;
  h_headerSize : Z;
  h_maxGroup : Z;
  h_maxID : Z;
  h_orphan : list Z;
  h_usercount : Z;
  h_groupcount : Z;
}.

Record prentry_disk := {
  d_flags : Z;
  d_id : Z;
  d_cellid : Z;
  d_owner : Z;
  d_creator : Z;
  d_ngroups : Z;
  d_owned : list Z;
  d_name : bytes;
  d_entries : list Z;
}.

(** The classic entry; the fields the servers never set (hash chains,
    siblings and the like) are zero throughout and are left out. *)
Record prentry := {
  pe_flags : Z;
  pe_id : Z;
  pe_cellid : Z;
  pe_reserved : list Z;
  pe_entries : list Z;
  pe_owner : Z;
  pe_creator : Z;
  pe_ngroups : Z;
  pe_nusers : Z;
  pe_count : Z;
  pe_owned : Z;
  pe_name : bytes;
}.

Record prcheckentry := {
  c_flags : Z;
  c_id : Z;
  c_owner : Z;
  c_creator : Z;
  c_ngroups : Z;
  c_nusers : Z;
  c_count : Z;
  c_reserved : list Z;
  c_name : bytes;
}.

#[export] Instance prentry_disk_eq_dec : EqDecision prentry_disk.
Proof. solve_decision. Defined.

(** A variable length array in memory: the [len] field and the words of the
    block [val] points to.  The generated decoder asks for exactly [len] words;
    [slack] are the words the allocator added to the block, [[]] when it added
    none.  A word outside the block is not there to be read or written. *)
Record darray := { da_len : Z; da_mem : list Z }.

Definition da_load (l slack : list Z) : darray :=
  {| da_len := Z.of_nat (length l); da_mem := l ++ slack |}.

(** What the encoder reads: [len] words; it gives up ([None], the server
    exits) when [len] exceeds what is there. *)
Definition da_unload (a : darray) : option (list Z) :=
  if da_len a <=? Z.of_nat (length (da_mem a))
  then Some (take (Z.to_nat (da_len a)) (da_mem a)) else None.

Definition set_entries (e : prentry_disk) (l : list Z) : prentry_disk :=
  {| d_flags := d_flags e; d_id := d_id e; d_cellid := d_cellid e;
     d_owner := d_owner e; d_creator := d_creator e;
     d_ngroups := d_ngroups e; d_owned := d_owned e; d_name := d_name e;
     d_entries := l |}.

(** The module variables of ptserver.c. *)
Record ptserver (F : Type) := {
  nametoid : F;
  idtodata : F;
  pr_header : prheader_disk;
}.
Arguments nametoid {F}.
Arguments idtodata {F}.
Arguments pr_header {F}.
Arguments Build_ptserver {F}.

(** ** Strings *)

Definition tolower (c : Z) : Z := if (65 <=? c) && (c <=? 90) then c + 32 else c.
Definition strlwr (s : bytes) : bytes := map tolower s.
Definition strcaseeq (s t : bytes) : bool := bool_decide (strlwr s = strlwr t).

(** [strchr (s, c)]: the text before and after the first [c]. *)
Fixpoint strchr (c : Z) (s : bytes) : option (bytes * bytes) :=
  match s with
  | [] => None
  | x :: s' =>
      if x =? c then Some ([], s')
      else match strchr c s' with
           | Some (a, b) => Some (x :: a, b)
           | None => None
           end
  end.

(** ["%d"] *)
Fixpoint digits (fuel : nat) (n : Z) (acc : bytes) : bytes :=
  match fuel with
  | O => acc
  | S f =>
      let acc' := (48 + n mod 10) :: acc in
      if n / 10 =? 0 then acc' else digits f (n / 10) acc'
  end.
Definition decimal (z : Z) : bytes :=
  if z <? 0 then 45 :: digits 10 (- z) [] else digits 10 z [].

(** The name without the local realm, and whether it was local. *)
Definition localize_name (realm name : bytes) : bytes * bool :=
  let localname := strlwr (strlcpy PR_MAXNAMELEN name) in
  match strchr 64 localname with
  | Some (before, after) =>
      if strcaseeq after realm then (before, true) else (localname, false)
  | None => (localname, false)
  end.

Section Ptserver.
Context {F : Type} `{Gdbm F} `{Ydr prentry_disk} `{Ydr prheader_disk}.
(** [netinit_getrealm ()] *)
Variable realm : bytes.
Implicit Types st : ptserver F.

Definition set_idtodata st (d : F) : ptserver F :=
  Build_ptserver (nametoid st) d (pr_header st).
Definition set_nametoid st (d : F) : ptserver F :=
  Build_ptserver d (idtodata st) (pr_header st).
Definition set_header st (h : prheader_disk) : ptserver F :=
  Build_ptserver (nametoid st) (idtodata st) h.
Definition set_maxID (h : prheader_disk) (n : Z) : prheader_disk :=
  {| h_version := h_version h; h_headerSize := h_headerSize h;
     h_maxGroup := h_maxGroup h; h_maxID := n; h_orphan := h_orphan h;
     h_usercount := h_usercount h; h_groupcount := h_groupcount h |}.
Definition set_maxGroup (h : prheader_disk) (n : Z) : prheader_disk :=
  {| h_version := h_version h; h_headerSize := h_headerSize h;
     h_maxGroup := n; h_maxID := h_maxID h; h_orphan := h_orphan h;
     h_usercount := h_usercount h; h_groupcount := h_groupcount h |}.

(** ** The header *)

(** [char headerid = htonl (PR_BADID)]: one byte. *)
Definition header_key : bytes := [128].

Definition write_header st : option (ptserver F) :=
  v ← ydr_encode (pr_header st);
  let '(code, d) := mdb_store (idtodata st) header_key v in
  if code =? 0 then Some (set_idtodata st d) else None.

Definition read_header st : option (ptserver F) :=
  match mdb_fetch (idtodata st) header_key with
  | inl _ => None
  | inr v => h ← ydr_decode v; Some (set_header st h)
  end.

(** [sizeof (prheader_disk) + 4 * PR_MAXGROUPS * sizeof (int32_t) + 16] *)
Definition PRHEADER_DISK_SIZE : Z := 40 + 4 * 5000 * 4 + 16.

Definition create_database st : option (ptserver F) :=
  write_header (set_header st
    {| h_version := 0; h_headerSize := PRHEADER_DISK_SIZE;
       h_maxGroup := -210; h_maxID := 0; h_orphan := h_orphan (pr_header st);
       h_usercount := 0; h_groupcount := 0 |}).

(** ** Reading entries *)

Definition id_key (id : Z) : bytes := be32 id.

Definition get_ydr_disk_entry st (id : Z) : Z + bytes :=
  match mdb_fetch (idtodata st) (id_key id) with
  | inl status => inl (if status =? ENOENT then PRNOENT else status)
  | inr v => inr v
  end.

Definition get_disk_entry st (id : Z) : option (Z + prentry_disk) :=
  match get_ydr_disk_entry st id with
  | inl status => Some (inl status)
  | inr v => e ← ydr_decode v; Some (inr e)
  end.

(** The id is read with [ntohl] from the four bytes of the datum. *)
Definition conv_name_to_id st (name : bytes) : Z + Z :=
  match mdb_fetch (nametoid st) name with
  | inl status => inl (if status =? ENOENT then PRNOENT else status)
  | inr v => inr (swrap32 (of_be (take 4 v)))
  end.

Definition read_prentry st (id : Z) : option (Z + prentry) :=
  r ← get_disk_entry st id;
  match r with
  | inl status => Some (inl status)
  | inr d => Some (inr
      {| pe_flags := d_flags d; pe_id := d_id d; pe_cellid := d_cellid d;
         pe_reserved := replicate 5 0;
         pe_entries := take PRSIZE (d_entries d ++ replicate PRSIZE 0);
         pe_owner := d_owner d; pe_creator := d_creator d;
         pe_ngroups := d_ngroups d; pe_nusers := 0; pe_count := 0;
         pe_owned := match d_owned d with x :: _ => x | [] => 0 end;
         pe_name := strlcpy PR_MAXNAMELEN (d_name d) |})
  end.

Definition conv_id_to_name st (id : Z) : option (Z + bytes) :=
  r ← read_prentry st id;
  match r with
  | inl status => Some (inl status)
  | inr e => Some (inr (strlcpy PR_MAXNAMELEN (pe_name e)))
  end.

(** ** Writing entries *)

Definition store_disk_entry st (e : prentry_disk) : option (Z * ptserver F) :=
  v ← ydr_encode e;
  let '(code, d) := mdb_store (idtodata st) (id_key (d_id e)) v in
  Some (code, set_idtodata st d).

(** [disk_entry.entries.val] is a null pointer here, so a positive [count]
    ends the server. *)
Definition write_prentry st (e : prentry) : option (Z * ptserver F) :=
  if 0 <? pe_count e then None
  else store_disk_entry st
    {| d_flags := pe_flags e; d_id := pe_id e; d_cellid := pe_cellid e;
       d_owner := pe_owner e; d_creator := pe_creator e;
       d_ngroups := pe_ngroups e; d_owned := [];
       d_name := strlcpy PR_MAXNAMELEN (pe_name e); d_entries := [] |}.

Definition write_name st (e : prentry) : Z * ptserver F :=
  let '(code, d) := mdb_store (nametoid st) (pe_name e) (be32 (pe_id e)) in
  (code, set_nametoid st d).

Definition insert_entry st (e : prentry) : option (Z * ptserver F) :=
  match get_ydr_disk_entry st (pe_id e) with
  | inr _ => Some (PREXIST, st)
  | inl status =>
      if negb (status =? PRNOENT) then Some (status, st) else
      match conv_name_to_id st (pe_name e) with
      | inr _ => Some (PREXIST, st)
      | inl status =>
          if negb (status =? PRNOENT) then Some (status, st) else
          let '(status, st) := write_name st e in
          if negb (status =? 0) then Some (status, st)
          else write_prentry st e
      end
  end.

(** [memset (&pr_entry, 0, ...)] and the fields set by the callers. *)
Definition new_prentry (flags : Z) (name : bytes) (id owner creator : Z) : prentry :=
  {| pe_flags := flags; pe_id := id; pe_cellid := 0;
     pe_reserved := replicate 5 0; pe_entries := replicate PRSIZE 0;
     pe_owner := owner; pe_creator := creator; pe_ngroups := 0;
     pe_nusers := 0; pe_count := 0; pe_owned := 0;
     pe_name := strlcpy PR_MAXNAMELEN name |}.

Definition create_group st (name : bytes) (id owner creator : Z) :=
  insert_entry st (new_prentry PRGRP name id owner creator).

Definition create_user st (name : bytes) (id owner creator : Z) :=
  insert_entry st (new_prentry 0 name id owner creator).

(** [inl] is an error, [inr] the id. *)
Definition next_free_group_id st : option ((Z + Z) * ptserver F) :=
  m ← int32_arith (h_maxGroup (pr_header st) - 1);
  if m =? ILLEGAL_GROUP then
    Some (inl (-1), set_header st (set_maxGroup (pr_header st) (m + 1)))
  else
    st ← write_header (set_header st (set_maxGroup (pr_header st) m));
    Some (inr m, st).

Definition next_free_user_id st : option ((Z + Z) * ptserver F) :=
  m ← int32_arith (h_maxID (pr_header st) + 1);
  if m =? ILLEGAL_ID then
    Some (inl (-1), set_header st (set_maxID (pr_header st) (m - 1)))
  else
    st ← write_header (set_header st (set_maxID (pr_header st) m));
    Some (inr m, st).

(** ** Group membership *)

(** [while (val[i] < x && i < len) i++;] -- [val[len]] is read before the
    bound is tested.  [i] grows up to [len], so [len + 1] rounds are enough. *)
Fixpoint scan (fuel : nat) (val : list Z) (len : nat) (x : Z) (i : nat) : option nat :=
  match fuel with
  | O => None
  | S f =>
      v ← val !! i;
      if (v <? x) && (i <? len)%nat then scan f val len x (S i) else Some i
  end.

(** [for (; i < len; i++) { tmp2 = val[i]; val[i] = tmp1; tmp1 = tmp2; }] *)
Fixpoint shift_in (fuel : nat) (val : list Z) (len : nat) (tmp1 : Z) (i : nat)
  : list Z * Z :=
  match fuel with
  | O => (val, tmp1)
  | S f =>
      if (i <? len)%nat
      then shift_in f (<[i := tmp1]> val) len (nth i val 0) (S i)
      else (val, tmp1)
  end.

(** [for (; i < len; i++) val[i - 1] = val[i];] *)
Fixpoint shift_out (fuel : nat) (val : list Z) (len : nat) (i : nat) : list Z :=
  match fuel with
  | O => val
  | S f =>
      if (i <? len)%nat
      then shift_out f (<[(i - 1)%nat := nth i val 0]> val) len (S i)
      else val
  end.

(** The insertion [addtogroup] does in each of the two arrays.  The last
    store is to [val[len]], one past the words the decoder asked for. *)
Definition array_insert (a : darray) (x : Z) : option darray :=
  let len := Z.to_nat (da_len a) in
  i ← scan (S len) (da_mem a) len x 0;
  let '(val, tmp1) := shift_in (S len) (da_mem a) len x i in
  if (len <? length val)%nat
  then Some {| da_len := da_len a + 1; da_mem := <[len := tmp1]> val |}
  else None.

(** The removal [removefromgroup] does in each array; [Some None] is the
    answer PRNOENT. *)
Definition array_remove (a : darray) (x : Z) : option (option darray) :=
  let len := Z.to_nat (da_len a) in
  i ← scan (S len) (da_mem a) len x 0;
  v ← da_mem a !! i;
  if negb (v =? x) then Some None
  else Some (Some {| da_len := uwrap32 (da_len a - 1);
                     da_mem := shift_out (S len) (da_mem a) len (S i) |}).

(** [slack] are the words behind the two decoded arrays. *)
Definition addtogroup st (slack : list Z * list Z) (uid gid : Z)
  : option (Z * ptserver F) :=
  r ← get_disk_entry st uid;
  match r with
  | inl error => Some (error, st)
  | inr uid_entry =>
    r ← get_disk_entry st gid;
    match r with
    | inl error => Some (error, st)
    | inr gid_entry =>
      if (PR_MAXGROUPS - 1 <=? length (d_entries uid_entry))%nat ||
         (PR_MAXLIST - 1 <=? length (d_entries gid_entry))%nat
      then Some (PRNOENT, st)
      else
        ua ← array_insert (da_load (d_entries uid_entry) slack.1) gid;
        ga ← array_insert (da_load (d_entries gid_entry) slack.2) uid;
        ul ← da_unload ua;
        r ← store_disk_entry st (set_entries uid_entry ul);
        let '(error, st) := r in
        if negb (error =? 0) then Some (error, st) else
        gl ← da_unload ga;
        store_disk_entry st (set_entries gid_entry gl)
    end
  end.

Definition removefromgroup st (slack : list Z * list Z) (uid gid : Z)
  : option (Z * ptserver F) :=
  r ← get_disk_entry st uid;
  match r with
  | inl error => Some (error, st)
  | inr uid_entry =>
    r ← get_disk_entry st gid;
    match r with
    | inl error => Some (error, st)
    | inr gid_entry =>
      ra ← array_remove (da_load (d_entries uid_entry) slack.1) gid;
      match ra with
      | None => Some (PRNOENT, st)
      | Some ua =>
        ra ← array_remove (da_load (d_entries gid_entry) slack.2) uid;
        match ra with
        | None => Some (PRNOENT, st)
        | Some ga =>
          ul ← da_unload ua;
          r ← store_disk_entry st (set_entries uid_entry ul);
          let '(error, st) := r in
          if negb (error =? 0) then Some (error, st) else
          gl ← da_unload ga;
          store_disk_entry st (set_entries gid_entry gl)
        end
      end
    end
  end.

(** What [listelements] leaves in its out parameter [elist->val]: nothing,
    a null pointer, or a list of [elist->len] words. *)
Inductive prlist_val :=
  | val_unset
  | val_null
  | val_list (l : list Z).

(** [malloc n] tells whether an allocation of [n] bytes succeeds. *)
Definition listelements st (malloc : Z -> bool) (id : Z) (default_id_p : bool)
  : option (Z * prlist_val) :=
  r ← get_disk_entry st id;
  match r with
  | inl error => Some (error, val_unset)
  | inr e =>
      let len := Z.of_nat (length (d_entries e)) + (if default_id_p then 3 else 0) in
      if negb (malloc (4 * len)) then Some (ENOMEM, val_null)
      else Some (0, val_list (if default_id_p
                 then d_entries e ++ [id; PR_ANYUSERID; PR_AUTHUSERID]
                 else d_entries e))
  end.

(** ** A new database *)

Definition must (r : option (Z * ptserver F)) : option (ptserver F) :=
  '(status, st) ← r; if status =? 0 then Some st else None.

(** The ASCII codes of the names [prserver_create] makes. *)
Definition name_administrators : bytes :=
  [115; 121; 115; 116; 101; 109; 58; 97; 100; 109; 105; 110; 105; 115; 116;
   114; 97; 116; 111; 114; 115].
Definition name_anyuser : bytes :=
  [115; 121; 115; 116; 101; 109; 58; 97; 110; 121; 117; 115; 101; 114].
Definition name_authuser : bytes :=
  [115; 121; 115; 116; 101; 109; 58; 97; 117; 116; 104; 117; 115; 101; 114].
Definition name_anonymous : bytes := [97; 110; 111; 110; 121; 109; 111; 117; 115].

(** [st] is the pair of databases that [open_db] just created. *)
Definition prserver_create st : option (ptserver F) :=
  st ← create_database st;
  st ← must (create_group st name_administrators PR_SYSADMINID PR_SYSADMINID PR_SYSADMINID);
  st ← must (create_group st name_anyuser PR_ANYUSERID PR_SYSADMINID PR_SYSADMINID);
  st ← must (create_group st name_authuser PR_AUTHUSERID PR_SYSADMINID PR_SYSADMINID);
  must (create_group st name_anonymous PR_ANONYMOUSID PR_SYSADMINID PR_SYSADMINID).

(** ** The calls (pr.c) *)

(** What a call sees of its environment: the security module, the
    connection, the heap words behind the two arrays it may decode, and which
    of its allocations of a result succeed.  (The allocations of the decoders
    and of [strdup] are taken to succeed.) *)
Record pr_env := {
  e_sec : msec;
  e_conn : rx_conn;
  e_slack : list Z * list Z;
  e_malloc : Z -> bool;
}.

Definition superuser (env : pr_env) : bool := sec_is_superuser (e_sec env) (e_conn env).

Fixpoint NameToID_loop st (nlist : list bytes) : Z * list Z :=
  match nlist with
  | [] => (0, [])
  | name :: rest =>
      match conv_name_to_id st name with
      | inl status =>
          if status =? PRNOENT then
            let '(s, ids) := NameToID_loop st rest in (s, PR_ANONYMOUSID :: ids)
          else (status, [])
      | inr id => let '(s, ids) := NameToID_loop st rest in (s, id :: ids)
      end
  end.

Definition SPR_NameToID (env : pr_env) st (nlist : list bytes) : Z * list Z :=
  if negb (e_malloc env (4 * Z.of_nat (length nlist))) then (PRDBBAD, [])
  else NameToID_loop st nlist.

Fixpoint IDToName_loop st (ilist : list Z) : option (Z * list bytes) :=
  match ilist with
  | [] => Some (0, [])
  | id :: rest =>
      r ← conv_id_to_name st id;
      match r with
      | inl status =>
          if status =? PRNOENT then
            '(s, ns) ← IDToName_loop st rest;
            Some (s, strlcpy PR_MAXNAMELEN (decimal id) :: ns)
          else Some (status, [])
      | inr name => '(s, ns) ← IDToName_loop st rest; Some (s, name :: ns)
      end
  end.

Definition SPR_IDToName (env : pr_env) st (ilist : list Z)
  : option (Z * list bytes) :=
  if (PR_MAXLIST <=? length ilist)%nat then Some (PRTOOMANY, [])
  else if (length ilist =? 0)%nat then Some (0, [])
  else if negb (e_malloc env (Z.of_nat (length ilist) * Z.of_nat PR_MAXNAMELEN))
  then Some (PRDBBAD, [])
  else IDToName_loop st ilist.

Definition SPR_NewEntry (env : pr_env) st (name : bytes) (flag oid : Z)
  : option (Z * option Z * ptserver F) :=
  if negb (superuser env) then Some (PRPERM, None, st) else
  let '(localname, localp) := localize_name realm name in
  let owner := if localp then oid else PR_SYSADMINID in
  if Z.land flag PRTYPE =? PRUSER then
    '(r, st) ← next_free_user_id st;
    match r with
    | inl error => Some (error, None, st)
    | inr id => '(error, st) ← create_user st localname id owner PR_SYSADMINID;
                Some (error, Some id, st)
    end
  else if Z.land flag PRTYPE =? PRGRP then
    '(r, st) ← next_free_group_id st;
    match r with
    | inl error => Some (error, None, st)
    | inr id => '(error, st) ← create_group st localname id owner PR_SYSADMINID;
                Some (error, Some id, st)
    end
  else Some (PRPERM, None, st).

Definition SPR_INewEntry (env : pr_env) st (name : bytes) (id oid : Z)
  : option (Z * ptserver F) :=
  if negb (superuser env) then Some (PRPERM, st) else
  let '(localname, localp) := localize_name realm name in
  let owner := if localp then oid else PR_SYSADMINID in
  if 0 <? id then create_user st localname id owner PR_SYSADMINID
  else if id <? 0 then create_group st localname id owner PR_SYSADMINID
  else Some (PRPERM, st).

Definition SPR_ListEntry st (id : Z) : option (Z + prcheckentry) :=
  r ← read_prentry st id;
  match r with
  | inl status => Some (inl status)
  | inr e => Some (inr
      {| c_flags := pe_flags e; c_id := pe_id e; c_owner := pe_owner e;
         c_creator := pe_creator e; c_ngroups := pe_ngroups e;
         c_nusers := pe_nusers e; c_count := pe_count e;
         c_reserved := pe_reserved e;
         c_name := strlcpy PR_MAXNAMELEN (pe_name e) |})
  end.

Definition SPR_Delete (env : pr_env) : Z :=
  if negb (superuser env) then PRPERM else -1.

Definition SPR_AddToGroup (env : pr_env) st (uid gid : Z) :=
  if negb (superuser env) then Some (PRPERM, st)
  else addtogroup st (e_slack env) uid gid.

Definition SPR_RemoveFromGroup (env : pr_env) st (id gid : Z) :=
  if negb (superuser env) then Some (PRPERM, st)
  else removefromgroup st (e_slack env) id gid.

Definition SPR_ListMax st : Z * Z :=
  (h_maxID (pr_header st), h_maxGroup (pr_header st)).

Definition SPR_SetMax st (uid gflag : Z) : ptserver F :=
  if negb (gflag =? 0) then set_header st (set_maxGroup (pr_header st) uid)
  else set_header st (set_maxID (pr_header st) uid).

Definition SPR_ListElements (env : pr_env) st (id : Z) :=
  listelements st (e_malloc env) id false.

Definition SPR_GetCPS (env : pr_env) st (id : Z) :=
  listelements st (e_malloc env) id true.

(** [flag] is the caller's out parameter on entry.  On an error [elist.val]
    is freed, whether or not [listelements] has set it. *)
Definition SPR_IsAMemberOf (env : pr_env) st (uid gid flag : Z) : option (Z * Z) :=
  '(ret, elist) ← listelements st (e_malloc env) uid true;
  match elist with
  | val_unset => None
  | val_null => Some (ret, flag)
  | val_list l => Some (0, if bool_decide (gid ∈ l) then 1 else flag)
  end.

(** ** The dispatcher: every call of the package *)

Inductive pr_request :=
  | NameToID (nlist : list bytes)
  | IDToName (ilist : list Z)
  | NewEntry (name : bytes) (flag oid : Z)
  | INewEntry (name : bytes) (id oid : Z)
  | ListEntry (id : Z)
  | DumpEntry (pos : Z)
  | ChangeEntry (id : Z) (name : bytes) (oid newid : Z)
  | SetFieldsEntry (id mask flags ngroups nusers : Z)
  | Delete (id : Z)
  | WhereIsIt (id : Z)
  | AddToGroup (uid gid : Z)
  | RemoveFromGroup (id gid : Z)
  | ListMax
  | SetMax (uid gflag : Z)
  | ListElements (id : Z)
  | GetCPS (id : Z)
  | GetCPS2 (id host : Z)
  | GetHostCPS (host : Z)
  | ListOwned (id : Z)
  | IsAMemberOf (uid gid flag : Z).

Inductive pr_out :=
  | ONone
  | OIds (l : list Z)
  | ONames (l : list bytes)
  | OEntry (e : prcheckentry).

(** Status, results and the new state; [None] when the server exits or the
    call is undefined. *)
Definition pr_execute (env : pr_env) (req : pr_request) st
  : option (Z * pr_out * ptserver F) :=
  let of_list (r : option (Z * prlist_val)) :=
    '(status, elist) ← r;
    Some (status, match elist with val_list l => OIds l | _ => ONone end, st) in
  match req with
  | NameToID l => let '(s, ids) := SPR_NameToID env st l in Some (s, OIds ids, st)
  | IDToName l => '(s, ns) ← SPR_IDToName env st l; Some (s, ONames ns, st)
  | NewEntry name flag oid =>
      '(s, id, st) ← SPR_NewEntry env st name flag oid;
      Some (s, OIds (option_list id), st)
  | INewEntry name id oid =>
      '(s, st) ← SPR_INewEntry env st name id oid; Some (s, ONone, st)
  | ListEntry id =>
      r ← SPR_ListEntry st id;
      match r with
      | inl status => Some (status, ONone, st)
      | inr e => Some (0, OEntry e, st)
      end
  | Delete _ => Some (SPR_Delete env, ONone, st)
  | AddToGroup uid gid =>
      '(s, st) ← SPR_AddToGroup env st uid gid; Some (s, ONone, st)
  | RemoveFromGroup id gid =>
      '(s, st) ← SPR_RemoveFromGroup env st id gid; Some (s, ONone, st)
  | ListMax => let '(u, g) := SPR_ListMax st in Some (0, OIds [u; g], st)
  | SetMax uid gflag => Some (0, ONone, SPR_SetMax st uid gflag)
  | ListElements id => of_list (SPR_ListElements env st id)
  | GetCPS id => of_list (SPR_GetCPS env st id)
  | IsAMemberOf uid gid flag =>
      '(s, f) ← SPR_IsAMemberOf env st uid gid flag; Some (s, OIds [f], st)
  | DumpEntry _ | ChangeEntry _ _ _ _ | SetFieldsEntry _ _ _ _ _
  | WhereIsIt _ | GetCPS2 _ _ | GetHostCPS _ | ListOwned _ =>
      Some (-1, ONone, st)
  end.
End Ptserver.
