(* ===== verification/PtsCorrect.v ===== *)
(** * Correctness of the protection server

    Reference functions for the two array updates, the consistency invariant
    of the two databases, and the theorems on the calls. *)

From S2P Require Import Prelude Mdb Msecurity Pts.

(** ** The membership arrays *)

Section Arrays.
Implicit Types (l : list Z) (x : Z).

(** Reference: insertion before the first element that is not smaller. *)
Fixpoint insert_sorted x l : list Z :=
  match l with
  | [] => [x]
  | y :: l' => if y <? x then y :: insert_sorted x l' else x :: l
  end.

(** Reference: removal of [x] from a sorted list. *)
Fixpoint remove_sorted x l : option (list Z) :=
  match l with
  | [] => None
  | y :: l' =>
      if y <? x then cons y <$> remove_sorted x l'
      else if y =? x then Some l' else None
  end.

(** How far the scanning loop walks. *)
Fixpoint prefix_lt x l : nat :=
  match l with
  | [] => 0%nat
  | y :: l' => if y <? x then S (prefix_lt x l') else 0%nat
  end.

(** How often [x] occurs. *)
Definition occ x l : nat := length (filter (fun y => y = x) l).

Lemma prefix_lt_le x l : (prefix_lt x l <= length l)%nat.
Proof. induction l as [|y l IH]; simpl; [lia|]. case_match; lia. Qed.

(** The scan leaves the block: there is no word behind the array and every
    member is smaller than [x]. *)
Definition scan_outside x l (sl : list Z) : Prop :=
  sl = [] /\ Forall (fun y => y < x) l.

#[export] Instance scan_outside_dec x l sl : Decision (scan_outside x l sl).
Proof. apply _. Defined.

Lemma prefix_lt_all x l : prefix_lt x l = length l <-> Forall (fun y => y < x) l.
Proof.
  induction l as [|y l IH]; simpl; [by split|]. rewrite Forall_cons, <- IH.
  destruct (Z.ltb_spec y x); [|by split; [lia|intros [? _]; lia]].
  split; [intros [= ?]; done|intros [_ ->]; done].
Qed.

Lemma scan_prefix x sl l : forall pre fuel,
  (length l < fuel)%nat ->
  scan fuel (pre ++ l ++ sl) (length pre + length l) x (length pre) =
  if decide (scan_outside x l sl) then None
  else Some (length pre + prefix_lt x l)%nat.
Proof.
  induction l as [|y l IH]; intros pre fuel Hf;
    (destruct fuel as [|fuel]; [simpl in Hf; lia|]);
    cbn [scan app length prefix_lt].
  - destruct sl as [|s sl].
    { rewrite lookup_ge_None_2 by (rewrite app_nil_r; lia). cbn [mbind option_bind].
      by rewrite decide_True by done. }
    rewrite list_lookup_middle by done. cbn [mbind option_bind].
    replace (_ <? _)%nat with false by (symmetry; apply Nat.ltb_ge; lia).
    rewrite andb_false_r, decide_False by (by intros [? _]). f_equal. lia.
  - rewrite list_lookup_middle by done. cbn [mbind option_bind].
    destruct (Z.ltb_spec y x) as [Hy|Hy]; cbn [andb].
    2: { rewrite decide_False; [f_equal; lia|].
         intros [_ Hall]. apply Forall_cons in Hall as [? _]. lia. }
    replace (_ <? _)%nat with true by (symmetry; apply Nat.ltb_lt; lia).
    specialize (IH (pre ++ [y]) fuel). rewrite length_app in IH; simpl in IH.
    rewrite <- app_assoc in IH. simpl in IH, Hf.
    replace (length pre + 1 + length l)%nat with (length pre + S (length l))%nat in IH by lia.
    replace (S (length pre)) with (length pre + 1)%nat by lia.
    rewrite IH by lia.
    replace (length pre + S (prefix_lt x l))%nat
      with (length pre + 1 + prefix_lt x l)%nat by lia.
    apply decide_ext. unfold scan_outside. rewrite Forall_cons. naive_solver.
Qed.

Lemma scan_load x sl l :
  scan (S (length l)) (l ++ sl) (length l) x 0 =
  if decide (scan_outside x l sl) then None else Some (prefix_lt x l).
Proof. apply (scan_prefix x sl l []). lia. Qed.

Lemma shift_in_spec len : forall fuel val t i,
  (i <= len)%nat -> (len < length val)%nat -> (len - i < fuel)%nat ->
  let '(v, t') := shift_in fuel val len t i in
  length v = length val /\
  take (S len) (<[len := t']> v) = take i val ++ t :: take (len - i) (drop i val).
Proof.
  induction fuel as [|fuel IH]; intros val t i Hi Hlen Hf; [lia|]. simpl.
  destruct (Nat.ltb_spec i len) as [Hlt|Hge].
  - specialize (IH (<[i := t]> val) (nth i val 0) (S i)).
    destruct (shift_in _ _ _ _ _) as [v t'].
    destruct IH as [Hl ->]; [by rewrite ?length_insert; lia..|].
    rewrite length_insert in Hl. split; [done|].
    destruct (lookup_lt_is_Some_2 val i) as [y Hy]; [lia|].
    rewrite (nth_lookup_Some _ _ 0 y Hy).
    rewrite (take_S_r _ _ t) by (apply list_lookup_insert_eq; lia).
    rewrite take_insert_ge by lia. rewrite drop_insert_lt by lia.
    replace (len - i)%nat with (S (len - S i)) by lia.
    rewrite (drop_S val y i Hy). simpl. by rewrite <- app_assoc.
  - replace i with len by lia. rewrite Nat.sub_diag, take_0. split; [done|].
    rewrite (take_S_r _ _ t) by (apply list_lookup_insert_eq; lia).
    by rewrite take_insert_ge by lia.
Qed.

Lemma insert_sorted_prefix x l :
  insert_sorted x l = take (prefix_lt x l) l ++ x :: drop (prefix_lt x l) l.
Proof.
  induction l as [|y l IH]; simpl; [done|].
  case_match; simpl; [by rewrite IH|done].
Qed.

(** With a word behind the array the insertion is the sorted one ... *)
Lemma array_insert_insert_sorted l sl x :
  sl <> [] ->
  (array_insert (da_load l sl) x ≫= da_unload) = Some (insert_sorted x l).
Proof.
  intros Hsl. assert (0 < length sl)%nat by (destruct sl; [done|simpl; lia]).
  unfold da_unload, array_insert, da_load; cbn [da_len da_mem].
  rewrite Nat2Z.id, scan_load, decide_False by (by intros [? _]).
  pose proof (prefix_lt_le x l) as Hp. cbn [mbind option_bind].
  pose proof (shift_in_spec (length l) (S (length l)) (l ++ sl) x (prefix_lt x l)) as Hs.
  destruct (shift_in _ _ _ _ _) as [v t].
  rewrite length_app in Hs.
  destruct Hs as [Hl Hs]; [lia..|].
  rewrite (proj2 (Nat.ltb_lt _ _)) by lia. cbn [mbind option_bind da_len da_mem].
  rewrite length_insert, Hl, (proj2 (Z.leb_le _ _)) by lia.
  replace (Z.to_nat (Z.of_nat (length l) + 1)) with (S (length l)) by lia.
  rewrite Hs. f_equal. rewrite insert_sorted_prefix.
  rewrite take_app_le, drop_app_le by lia.
  rewrite take_app_le by (rewrite length_drop; lia).
  by rewrite (take_ge (drop _ l)) by (rewrite length_drop; lia).
Qed.

Lemma length_shift_in fuel : forall val len t i,
  length (shift_in fuel val len t i).1 = length val.
Proof.
  induction fuel as [|f IH]; intros val len t i; simpl; [done|].
  case_match; [|done]. by rewrite IH, length_insert.
Qed.

(** ... and without one it leaves the block. *)
Lemma array_insert_no_room l x : array_insert (da_load l []) x = None.
Proof.
  unfold array_insert, da_load; cbn [da_len da_mem]. rewrite Nat2Z.id, scan_load.
  case_decide; [done|]. cbn [mbind option_bind].
  pose proof (length_shift_in (S (length l)) (l ++ []) (length l) x (prefix_lt x l)) as Hl.
  destruct (shift_in _ _ _ _ _) as [v t]. simpl in Hl. rewrite app_nil_r in Hl.
  by rewrite (proj2 (Nat.ltb_ge _ _)) by lia.
Qed.

Lemma array_insert_spec l sl x :
  (array_insert (da_load l sl) x ≫= da_unload) =
  match sl with [] => None | _ => Some (insert_sorted x l) end.
Proof.
  destruct sl; [by rewrite array_insert_no_room|by apply array_insert_insert_sorted].
Qed.

Lemma shift_out_spec len : forall fuel val i,
  (1 <= i <= len)%nat -> (len <= length val)%nat -> (len - i < fuel)%nat ->
  take (len - 1) (shift_out fuel val len i) =
  take (i - 1) val ++ take (len - i) (drop i val).
Proof.
  induction fuel as [|fuel IH]; intros val i Hi Hlen Hf; [lia|]. simpl.
  destruct (Nat.ltb_spec i len) as [Hlt|Hge].
  - destruct (lookup_lt_is_Some_2 val i) as [y Hy]; [lia|].
    rewrite (nth_lookup_Some _ _ 0 y Hy).
    rewrite IH by (rewrite ?length_insert; lia).
    rewrite drop_insert_lt by lia.
    replace (S i - 1)%nat with (S (i - 1)) by lia.
    rewrite (take_S_r _ _ y) by (apply list_lookup_insert_eq; lia).
    rewrite take_insert_ge by lia.
    replace (len - i)%nat with (S (len - S i)) by lia.
    rewrite (drop_S val y i Hy). simpl. by rewrite <- app_assoc.
  - replace i with len by lia. by rewrite Nat.sub_diag, take_0, app_nil_r.
Qed.

Lemma prefix_lt_remove x l :
  remove_sorted x l =
  if decide (l !! prefix_lt x l = Some x)
  then Some (take (prefix_lt x l) l ++ drop (S (prefix_lt x l)) l) else None.
Proof.
  induction l as [|y l IH]; simpl; [done|].
  destruct (y <? x); simpl.
  - rewrite IH. repeat case_decide; done.
  - destruct (Z.eqb_spec y x).
    + rewrite decide_True by congruence. by rewrite drop_0.
    + by rewrite decide_False by congruence.
Qed.

Lemma length_shift_out fuel : forall val len i,
  length (shift_out fuel val len i) = length val.
Proof.
  induction fuel as [|f IH]; intros val len i; simpl; [done|].
  case_match; [|done]. by rewrite IH, length_insert.
Qed.

Lemma uwrap32_pred n :
  (0 < n)%nat -> Z.of_nat n < 2^32 -> uwrap32 (Z.of_nat n - 1) = Z.of_nat (n - 1).
Proof. intros. unfold uwrap32. rewrite Z.mod_small; lia. Qed.

(** What the removal does once the scan stopped at [i], inside the array or
    on the word behind it. *)
Lemma array_remove_at l sl i :
  (i < length l)%nat -> Z.of_nat (length l) < 2^32 ->
  da_unload {| da_len := uwrap32 (Z.of_nat (length l) - 1);
               da_mem := shift_out (S (length l)) (l ++ sl) (length l) (S i) |}
  = Some (take i l ++ drop (S i) l).
Proof.
  intros Hi Hl. unfold da_unload; cbn [da_len da_mem].
  rewrite length_shift_out, uwrap32_pred, length_app by lia.
  rewrite (proj2 (Z.leb_le _ _)) by lia.
  rewrite Nat2Z.id, shift_out_spec by (rewrite ?length_app; lia).
  replace (S i - 1)%nat with i by lia.
  rewrite take_app_le, drop_app_le by lia.
  rewrite take_app_le by (rewrite length_drop; lia).
  rewrite (take_ge (drop _ l)) by (rewrite length_drop; lia). done.
Qed.

(** The removal without the pointers, when the word behind the array is not
    the id that is looked for. *)
Lemma array_remove_spec l sl x :
  head sl <> Some x -> Z.of_nat (length l) < 2^32 ->
  if decide (scan_outside x l sl) then array_remove (da_load l sl) x = None
  else exists ra, array_remove (da_load l sl) x = Some ra /\
    match ra with
    | None => remove_sorted x l = None
    | Some a => exists l', da_unload a = Some l' /\ remove_sorted x l = Some l'
    end.
Proof.
  intros Hs Hl. unfold array_remove, da_load; cbn [da_len da_mem].
  rewrite Nat2Z.id, scan_load, prefix_lt_remove.
  case_decide as Hout; [done|]. cbn [mbind option_bind].
  pose proof (prefix_lt_le x l) as Hp.
  destruct (decide (prefix_lt x l = length l)) as [Hall|Hne].
  { destruct sl as [|s sl]; [by destruct Hout; split; [|apply prefix_lt_all]|].
    rewrite Hall, list_lookup_middle by done. cbn [mbind option_bind].
    rewrite (proj2 (Z.eqb_neq s x)) by (simpl in Hs; congruence).
    exists None. split; [done|]. by rewrite lookup_ge_None_2, decide_False by (done || lia). }
  set (i := prefix_lt x l) in *.
  destruct (lookup_lt_is_Some_2 l i) as [y Hy]; [lia|].
  rewrite lookup_app_l, Hy by lia. cbn [mbind option_bind].
  destruct (Z.eqb_spec y x) as [->|]; cbn [negb].
  - eexists (Some _). split; [done|]. exists (take i l ++ drop (S i) l).
    rewrite decide_True by done. split; [|done]. by apply array_remove_at; [lia|].
  - exists None. split; [done|]. by rewrite decide_False by congruence.
Qed.

(** When the word behind the array is the id, and every member is smaller, the
    last member is dropped. *)
Lemma array_remove_past_end l y x sl :
  Forall (fun z => z < x) (l ++ [y]) -> Z.of_nat (length l) < 2^31 ->
  exists a, array_remove (da_load (l ++ [y]) (x :: sl)) x = Some (Some a) /\
    da_unload a = Some l.
Proof.
  intros Hall Hlen. apply prefix_lt_all in Hall as Hp.
  unfold array_remove, da_load; cbn [da_len da_mem].
  rewrite Nat2Z.id, scan_load, decide_False by (by intros [? _]).
  cbn [mbind option_bind]. rewrite Hp, list_lookup_middle by done.
  cbn [mbind option_bind]. rewrite Z.eqb_refl. cbn [negb].
  eexists. split; [done|]. unfold da_unload; cbn [da_len da_mem].
  rewrite length_shift_out, uwrap32_pred by (rewrite length_app; simpl; lia).
  rewrite (proj2 (Z.leb_le _ _)) by (rewrite !length_app; simpl; lia).
  rewrite Nat2Z.id. simpl shift_out.
  replace (S (length (l ++ [y])) <? length (l ++ [y]))%nat with false
    by (symmetry; apply Nat.ltb_ge; lia).
  rewrite length_app; simpl length. rewrite <- app_assoc.
  by rewrite (Nat.add_sub (length l) 1), take_app_length.
Qed.

(** ** Facts about the reference functions *)

Lemma insert_sorted_Permutation x l : insert_sorted x l ≡ₚ x :: l.
Proof.
  induction l as [|y l IH]; simpl; [done|]. case_match; [|done].
  rewrite IH. by rewrite Permutation_swap.
Qed.

Lemma remove_sorted_Permutation x l l' :
  remove_sorted x l = Some l' -> l ≡ₚ x :: l'.
Proof.
  revert l'. induction l as [|y l IH]; simpl; intros l' Hr; [done|].
  repeat case_match; zbool; simplify_eq; [|done].
  apply fmap_Some in Hr as (l2 & Hl2 & ->). rewrite (IH _ Hl2).
  by rewrite Permutation_swap.
Qed.

Lemma insert_sorted_Sorted x l :
  StronglySorted Z.le l -> StronglySorted Z.le (insert_sorted x l).
Proof.
  induction 1 as [|y l Hl IH Hy]; simpl; [by repeat constructor|].
  case_match eqn:Hc; zbool.
  - constructor; [done|]. rewrite insert_sorted_Permutation.
    constructor; [lia|done].
  - constructor; [by constructor|].
    constructor; [lia|]. eapply Forall_impl; [done|]. simpl. lia.
Qed.

Lemma remove_sorted_Sorted x l l' :
  StronglySorted Z.le l -> remove_sorted x l = Some l' -> StronglySorted Z.le l'.
Proof.
  intros Hs. revert l'. induction Hs as [|y l Hl IH Hy]; simpl; intros l' Hr; [done|].
  repeat case_match; zbool; simplify_eq; [|done].
  apply fmap_Some in Hr as (l2 & Hl2 & ->).
  constructor; [by eauto|]. apply remove_sorted_Permutation in Hl2.
  rewrite Hl2 in Hy. by inversion Hy.
Qed.

Lemma remove_sorted_member x l :
  StronglySorted Z.le l -> x ∈ l <-> is_Some (remove_sorted x l).
Proof.
  induction 1 as [|y l Hl IH Hy]; simpl.
  - split; [by intros ?%not_elem_of_nil|]. by intros [? ?].
  - rewrite elem_of_cons, IH. rewrite Forall_forall in Hy. repeat case_match; zbool.
    + rewrite fmap_is_Some. split; [|by right]. intros [->|?]; [lia|done].
    + split; [done|by left].
    + split; [|by intros [? ?]]. intros [->|Hm%IH]; [lia|].
      specialize (Hy _ Hm). lia.
Qed.

Lemma insert_remove_sorted x l : remove_sorted x (insert_sorted x l) = Some l.
Proof.
  induction l as [|y l IH]; simpl.
  - by rewrite Z.ltb_irrefl, Z.eqb_refl.
  - case_match eqn:Hc; simpl.
    + by rewrite Hc, IH.
    + by rewrite Z.ltb_irrefl, Z.eqb_refl.
Qed.

Lemma insert_sorted_inside x l sl : ~ scan_outside x (insert_sorted x l) sl.
Proof.
  intros [_ Hall]. rewrite insert_sorted_Permutation in Hall.
  apply Forall_cons in Hall as [? _]. lia.
Qed.

#[export] Instance occ_Permutation x : Proper ((≡ₚ) ==> eq) (occ x).
Proof. intros l l' Hl. unfold occ. by rewrite Hl. Qed.

Lemma occ_cons x y l : occ x (y :: l) = ((if decide (y = x) then 1 else 0) + occ x l)%nat.
Proof. unfold occ. rewrite filter_cons. case_decide; done. Qed.

Lemma occ_insert_sorted x y l :
  occ x (insert_sorted y l) = ((if decide (y = x) then 1 else 0) + occ x l)%nat.
Proof. by rewrite insert_sorted_Permutation, occ_cons. Qed.

Lemma occ_pos x l : (0 < occ x l)%nat <-> x ∈ l.
Proof.
  induction l as [|y l IH].
  - split; [unfold occ; simpl; lia|by intros ?%not_elem_of_nil].
  - rewrite occ_cons, elem_of_cons, <- IH. case_decide; naive_solver lia.
Qed.
End Arrays.

(** ** The abstract view of the databases *)

Section View.
Context {F : Type} `{GdbmLaws F}.
Context `{YdrLaws prentry_disk} `{YdrLaws prheader_disk}.
Implicit Types st : ptserver F.

Definition entry_at st (id : Z) : option prentry_disk :=
  gdbm_fetch (idtodata st) (id_key id) ≫= ydr_decode.

Definition id_of st (name : bytes) : option Z :=
  (fun v => swrap32 (of_be (take 4 v))) <$> gdbm_fetch (nametoid st) name.

Lemma swrap32_be32 id : is_int32 id -> swrap32 (of_be (take 4 (be32 id))) = id.
Proof.
  intros ?. rewrite take_ge by (rewrite length_be32; lia).
  by rewrite of_be_be32, swrap32_uwrap32, swrap32_small.
Qed.

Lemma conv_name_to_id_spec st name :
  conv_name_to_id st name =
  match id_of st name with Some id => inr id | None => inl PRNOENT end.
Proof.
  unfold conv_name_to_id, id_of, mdb_fetch, NDBM_fetch.
  by destruct (gdbm_fetch _ _).
Qed.

(** The consistency invariant: every record decodes and carries its own id,
    names and ids point at each other, membership lists are sorted, name
    existing ids only and are symmetric (counted with repetitions). *)
Record pt_ok st : Prop := {
  ok_decodes id v :
    gdbm_fetch (idtodata st) (id_key id) = Some v -> is_Some (ydr_decode (A:=prentry_disk) v);
  ok_header : h_orphan (pr_header st) = [];
  ok_entry id e : is_int32 id -> entry_at st id = Some e ->
    d_id e = id /\ id_of st (d_name e) = Some id /\
    StronglySorted Z.le (d_entries e) /\
    Z.of_nat (length (d_entries e)) < 5000 /\
    d_owned e = [] /\ Z.of_nat (length (d_name e)) < 64;
  ok_name n id : id_of st n = Some id ->
    exists e, entry_at st id = Some e /\ d_name e = n;
  ok_member u g e : is_int32 u -> entry_at st u = Some e -> g ∈ d_entries e ->
    is_int32 g /\ is_Some (entry_at st g);
  ok_symmetric u g eu eg : is_int32 u -> is_int32 g ->
    entry_at st u = Some eu -> entry_at st g = Some eg ->
    occ g (d_entries eu) = occ u (d_entries eg);
}.

Lemma id_of_int32 st n id : id_of st n = Some id -> is_int32 id.
Proof.
  unfold id_of. intros (v & _ & ->)%fmap_Some. apply swrap32_range.
Qed.

Lemma get_ydr_disk_entry_spec st id :
  get_ydr_disk_entry st id =
  match gdbm_fetch (idtodata st) (id_key id) with
  | Some v => inr v | None => inl PRNOENT end.
Proof.
  unfold get_ydr_disk_entry, mdb_fetch, NDBM_fetch. by destruct (gdbm_fetch _ _).
Qed.

Lemma get_disk_entry_spec st id :
  pt_ok st ->
  get_disk_entry st id =
  match entry_at st id with
  | Some e => Some (inr e) | None => Some (inl PRNOENT) end.
Proof.
  intros Hok. unfold get_disk_entry, entry_at. rewrite get_ydr_disk_entry_spec.
  destruct (gdbm_fetch _ _) as [v|] eqn:Hv; [|done]. simpl.
  destruct (ok_decodes st Hok id v Hv) as [e ->]. done.
Qed.

Lemma entry_at_None st id :
  pt_ok st -> entry_at st id = None <-> gdbm_fetch (idtodata st) (id_key id) = None.
Proof.
  intros Hok. unfold entry_at. destruct (gdbm_fetch _ _) as [v|] eqn:Hv; [|done].
  destruct (ok_decodes st Hok id v Hv) as [e He]. simpl. rewrite He. done.
Qed.

Lemma header_key_ne id : header_key <> id_key id.
Proof. done. Qed.

(** The effect of storing one record. *)
Lemma store_disk_entry_view st e st' :
  is_int32 (d_id e) -> store_disk_entry st e = Some (0, st') ->
  nametoid st' = nametoid st /\ pr_header st' = pr_header st /\
  (forall id, is_int32 id ->
     entry_at st' id = if decide (id = d_id e) then Some e else entry_at st id) /\
  (forall id v, gdbm_fetch (idtodata st') (id_key id) = Some v ->
     ydr_decode v = Some e \/ gdbm_fetch (idtodata st) (id_key id) = Some v).
Proof.
  intros Hid. unfold store_disk_entry.
  destruct (ydr_encode e) as [v|] eqn:Hv; simpl; [|done].
  destruct (mdb_store _ _ _) as [code d] eqn:Hd. intros [= -> <-].
  apply ydr_roundtrip in Hv. split_and!; try done; simpl.
  - intros id Hid'. unfold entry_at; simpl. rewrite (store_lookup _ _ _ _ _ Hd).
    destruct (decide (id = d_id e)) as [->|Hne].
    + by rewrite decide_True.
    + rewrite decide_False; [done|]. intros Heq%be32_inj_int32; [|done|done]. by subst.
  - intros id w. rewrite (store_lookup _ _ _ _ _ Hd). case_decide; naive_solver.
Qed.

Lemma store_disk_entry_total st e `{!GdbmReliable F} :
  ydr_fits e -> exists st', store_disk_entry st e = Some (0, st').
Proof.
  intros [v Hv]%ydr_total. unfold store_disk_entry. rewrite Hv; simpl.
  edestruct (store_succeeds (idtodata st) (id_key (d_id e)) v) as [d ->]. eauto.
Qed.

(** ** The two group operations *)

Definition entries_at st (id : Z) : list Z :=
  match entry_at st id with Some e => d_entries e | None => [] end.

(** The way both operations write their two records. *)
Definition store_pair st (e1 e2 : prentry_disk) : option (Z * ptserver F) :=
  r ← store_disk_entry st e1;
  let '(error, st) := r in
  if negb (error =? 0) then Some (error, st) else store_disk_entry st e2.

(** [addtogroup] without the pointers. *)
Lemma addtogroup_eq st slack u g :
  pt_ok st ->
  addtogroup st slack u g =
  match entry_at st u, entry_at st g with
  | Some eu, Some eg =>
      if (PR_MAXGROUPS - 1 <=? length (d_entries eu))%nat ||
         (PR_MAXLIST - 1 <=? length (d_entries eg))%nat
      then Some (PRNOENT, st)
      else if decide (slack.1 = [] \/ slack.2 = []) then None
      else store_pair st (set_entries eu (insert_sorted g (d_entries eu)))
                         (set_entries eg (insert_sorted u (d_entries eg)))
  | _, _ => Some (PRNOENT, st)
  end.
Proof.
  intros Hok. unfold addtogroup, store_pair.
  rewrite !get_disk_entry_spec by done.
  destruct (entry_at st u) as [eu|]; [|done]. cbn [mbind option_bind].
  destruct (entry_at st g) as [eg|]; [|done]. cbn [mbind option_bind].
  case_match; [done|].
  pose proof (array_insert_spec (d_entries eu) slack.1 g) as Hu.
  pose proof (array_insert_spec (d_entries eg) slack.2 u) as Hg.
  case_decide as Hd.
  - destruct Hd as [-> | ->]; rewrite array_insert_no_room; [done|].
    by destruct (array_insert _ g).
  - destruct (slack.1) as [|s1 sl1]; [naive_solver|].
    destruct (slack.2) as [|s2 sl2]; [naive_solver|].
    destruct (array_insert _ g) as [ua|]; [|done]; simpl in *.
    destruct (array_insert _ u) as [ga|]; [|done]; simpl in *.
    by rewrite Hu, Hg.
Qed.

(** Under symmetry the second list holds [u] when the first holds [g]. *)
Lemma symmetric_inside st u g eu eg lu sl :
  pt_ok st -> is_int32 u -> is_int32 g ->
  entry_at st u = Some eu -> entry_at st g = Some eg ->
  remove_sorted g (d_entries eu) = Some lu -> ~ scan_outside u (d_entries eg) sl.
Proof.
  intros Hok Hu Hg Heu Heg Hr [_ Hall].
  assert (Hin : u ∈ d_entries eg).
  { apply occ_pos. rewrite <- (ok_symmetric st Hok u g eu eg) by done.
    apply occ_pos. apply remove_sorted_Permutation in Hr. rewrite Hr. by left. }
  rewrite Forall_forall in Hall. specialize (Hall u Hin). lia.
Qed.

(** [removefromgroup] without the pointers: the words after the arrays must
    not happen to be the ids that are looked for. *)
Lemma removefromgroup_eq st slack u g :
  pt_ok st -> is_int32 u -> is_int32 g ->
  head slack.1 <> Some g -> head slack.2 <> Some u ->
  removefromgroup st slack u g =
  match entry_at st u, entry_at st g with
  | Some eu, Some eg =>
      if decide (scan_outside g (d_entries eu) slack.1) then None else
      match remove_sorted g (d_entries eu), remove_sorted u (d_entries eg) with
      | Some lu, Some lg => store_pair st (set_entries eu lu) (set_entries eg lg)
      | _, _ => Some (PRNOENT, st)
      end
  | _, _ => Some (PRNOENT, st)
  end.
Proof.
  intros Hok Hu Hg Hs1 Hs2. unfold removefromgroup, store_pair.
  rewrite !get_disk_entry_spec by done.
  destruct (entry_at st u) as [eu|] eqn:Heu; [|done]. cbn [mbind option_bind].
  destruct (entry_at st g) as [eg|] eqn:Heg; [|done]. cbn [mbind option_bind].
  pose proof (ok_entry st Hok u eu Hu Heu) as (_ & _ & _ & Hlu & _).
  pose proof (ok_entry st Hok g eg Hg Heg) as (_ & _ & _ & Hlg & _).
  pose proof (array_remove_spec (d_entries eu) slack.1 g Hs1 ltac:(lia)) as H1'.
  pose proof (array_remove_spec (d_entries eg) slack.2 u Hs2 ltac:(lia)) as H2'.
  destruct (decide (scan_outside g _ _)) as [|Hin]; [by rewrite H1'|].
  destruct H1' as (ra & -> & Hra). cbn [mbind option_bind].
  destruct ra as [ua|]; [|by rewrite Hra].
  destruct Hra as (lu & Hlu' & Hru). rewrite Hru, Hlu'.
  rewrite decide_False in H2' by (by eapply symmetric_inside).
  destruct H2' as (rb & -> & Hrb). cbn [mbind option_bind].
  destruct rb as [ga|]; [|by rewrite Hrb].
  destruct Hrb as (lg & Hlg' & Hrg). by rewrite Hrg, Hlg'.
Qed.

Lemma set_entries_same e : set_entries e (d_entries e) = e.
Proof. by destruct e. Qed.

(** A reliable store answers 0. *)
Lemma store_disk_entry_zero `{!GdbmReliable F} st e r st' :
  store_disk_entry st e = Some (r, st') -> r = 0.
Proof.
  unfold store_disk_entry. destruct (ydr_encode e) as [v|]; simpl; [|done].
  destruct (store_succeeds (idtodata st) (id_key (d_id e)) v) as [d ->].
  naive_solver.
Qed.

Lemma store_pair_view `{!GdbmReliable F} st e1 e2 r st' :
  pt_ok st -> is_int32 (d_id e1) -> is_int32 (d_id e2) ->
  store_pair st e1 e2 = Some (r, st') ->
  r = 0 /\ nametoid st' = nametoid st /\ pr_header st' = pr_header st /\
  (forall id, is_int32 id ->
     entry_at st' id = if decide (id = d_id e2) then Some e2
                       else if decide (id = d_id e1) then Some e1
                       else entry_at st id) /\
  (forall id v, gdbm_fetch (idtodata st') (id_key id) = Some v ->
     is_Some (ydr_decode (A:=prentry_disk) v)).
Proof.
  intros Hok Hi1 Hi2. unfold store_pair.
  destruct (store_disk_entry st e1) as [[r1 st1]|] eqn:Hs1; simpl; [|done].
  pose proof (store_disk_entry_zero _ _ _ _ Hs1) as ->. simpl. intros Hs2.
  pose proof (store_disk_entry_zero _ _ _ _ Hs2) as ->.
  apply store_disk_entry_view in Hs1 as (Hn1 & Hh1 & He1 & Hd1); [|done].
  apply store_disk_entry_view in Hs2 as (Hn2 & Hh2 & He2 & Hd2); [|done].
  split_and!; try congruence.
  - intros id Hid. rewrite He2, He1 by done. done.
  - intros id v [?|[?|?]%Hd1]%Hd2; [by eauto..|]. by eapply ok_decodes.
Qed.

(** Replacing membership lists keeps the invariant when the new lists are
    sorted, short, closed and symmetric. *)
Lemma pt_ok_update st st' (f : Z -> list Z) :
  pt_ok st -> nametoid st' = nametoid st -> pr_header st' = pr_header st ->
  (forall id v, gdbm_fetch (idtodata st') (id_key id) = Some v ->
     is_Some (ydr_decode (A:=prentry_disk) v)) ->
  (forall id, is_int32 id ->
     entry_at st' id = (fun e => set_entries e (f id)) <$> entry_at st id) ->
  (forall id e, is_int32 id -> entry_at st id = Some e ->
     StronglySorted Z.le (f id) /\ Z.of_nat (length (f id)) < 5000 /\
     Forall (fun g => is_int32 g /\ is_Some (entry_at st g)) (f id)) ->
  (forall u g, is_Some (entry_at st u) -> is_Some (entry_at st g) ->
     is_int32 u -> is_int32 g -> occ g (f u) = occ u (f g)) ->
  pt_ok st'.
Proof.
  intros Hok Hn Hh Hdec Hent Hf Hsym.
  assert (Hid : forall n, id_of st' n = id_of st n) by (intros; unfold id_of; by rewrite Hn).
  split.
  - done.
  - rewrite Hh. apply Hok.
  - intros id e Hi. rewrite Hent by done. intros (e0 & He0 & ->)%fmap_Some.
    rewrite Hid. destruct (ok_entry st Hok id e0 Hi He0) as (? & ? & _ & _ & ? & ?).
    destruct (Hf id e0 Hi He0) as (? & ? & _). done.
  - intros n id. rewrite Hid. intros Hnid.
    pose proof (id_of_int32 _ _ _ Hnid) as Hi.
    destruct (ok_name st Hok n id Hnid) as (e & He & <-).
    exists (set_entries e (f id)). rewrite Hent, He by done. done.
  - intros u g e Hu. rewrite Hent by done. intros (e0 & He0 & ->)%fmap_Some Hg.
    destruct (Hf u e0 Hu He0) as (_ & _ & Hall). rewrite Forall_forall in Hall.
    simpl in Hg. destruct (Hall g Hg) as [? [eg Heg]]. split; [done|].
    rewrite Hent, Heg by done. by eexists.
  - intros u g eu eg Hu Hg. rewrite !Hent by done.
    intros (e1 & He1 & ->)%fmap_Some (e2 & He2 & ->)%fmap_Some. simpl. eauto.
Qed.

(** The lists after a store of two records. *)
Definition pair_update st (u g : Z) (lu lg : list Z) (id : Z) : list Z :=
  if decide (id = g) then lg else if decide (id = u) then lu else entries_at st id.

Lemma store_pair_ok `{!GdbmReliable F} st u g eu eg lu lg r st' :
  pt_ok st -> is_int32 u -> is_int32 g ->
  entry_at st u = Some eu -> entry_at st g = Some eg -> (u = g -> lu = lg) ->
  store_pair st (set_entries eu lu) (set_entries eg lg) = Some (r, st') ->
  r = 0 /\ nametoid st' = nametoid st /\ pr_header st' = pr_header st /\
  (forall id v, gdbm_fetch (idtodata st') (id_key id) = Some v ->
     is_Some (ydr_decode (A:=prentry_disk) v)) /\
  (forall id, is_int32 id ->
     entry_at st' id =
       (fun e => set_entries e (pair_update st u g lu lg id)) <$> entry_at st id).
Proof.
  intros Hok Hu Hg Heu Heg Heq Hs.
  destruct (ok_entry st Hok u eu Hu Heu) as [Hiu _].
  destruct (ok_entry st Hok g eg Hg Heg) as [Hig _].
  apply store_pair_view in Hs as (-> & Hn & Hh & He & Hd); [|by simpl; congruence..].
  split_and!; try done. intros id Hid. rewrite He by done. simpl.
  unfold pair_update, entries_at. rewrite Hiu, Hig.
  repeat case_decide; subst; rewrite ?Heu, ?Heg; try done.
  destruct (entry_at st id) as [e|]; simpl; [|done]. by rewrite set_entries_same.
Qed.
Lemma entries_at_ok st id :
  pt_ok st -> is_int32 id ->
  StronglySorted Z.le (entries_at st id) /\
  Z.of_nat (length (entries_at st id)) < 5000 /\
  Forall (fun g => is_int32 g /\ is_Some (entry_at st g)) (entries_at st id).
Proof.
  intros Hok Hid. unfold entries_at. destruct (entry_at st id) as [e|] eqn:He.
  - destruct (ok_entry st Hok id e Hid He) as (_ & _ & ? & ? & _).
    split_and!; [done..|]. apply Forall_forall. intros g Hg.
    by eapply ok_member.
  - simpl. split_and!; [constructor|lia|constructor].
Qed.

Lemma entries_at_symmetric st u g :
  pt_ok st -> is_int32 u -> is_int32 g ->
  is_Some (entry_at st u) -> is_Some (entry_at st g) ->
  occ g (entries_at st u) = occ u (entries_at st g).
Proof.
  intros Hok Hu Hg [eu Heu] [eg Heg]. unfold entries_at. rewrite Heu, Heg.
  by eapply ok_symmetric.
Qed.

Lemma length_insert_sorted x l : length (insert_sorted x l) = S (length l).
Proof. by rewrite insert_sorted_Permutation. Qed.

Lemma below_limit n : (PR_MAXGROUPS - 1 <=? n)%nat = false -> Z.of_nat n < 4999.
Proof.
  intros Hn%Nat.leb_gt. assert (Hm : Z.of_nat (PR_MAXGROUPS - 1) = 4999) by done.
  lia.
Qed.

Lemma limit_below n :
  Z.of_nat n < 4999 ->
  (PR_MAXGROUPS - 1 <=? n)%nat = false /\ (PR_MAXLIST - 1 <=? n)%nat = false.
Proof.
  intros Hn. assert (Hm : Z.of_nat (PR_MAXGROUPS - 1) = 4999) by done.
  split; apply Nat.leb_gt; [lia|]. change PR_MAXLIST with PR_MAXGROUPS. lia.
Qed.

(** The generated encoder has room for a record with up to 4900 members. *)
Definition encoder_room : Prop := forall e : prentry_disk,
  d_owned e = [] -> Z.of_nat (length (d_name e)) < 64 ->
  Z.of_nat (length (d_entries e)) <= 4900 -> ydr_fits e.

Lemma store_pair_total `{!GdbmReliable F} st u g eu eg lu lg :
  pt_ok st -> encoder_room -> is_int32 u -> is_int32 g ->
  entry_at st u = Some eu -> entry_at st g = Some eg ->
  Z.of_nat (length lu) <= 4900 -> Z.of_nat (length lg) <= 4900 ->
  exists st', store_pair st (set_entries eu lu) (set_entries eg lg) = Some (0, st').
Proof.
  intros Hok Hroom Hu Hg Heu Heg Hlu Hlg. unfold store_pair.
  pose proof (ok_entry st Hok u eu Hu Heu) as (_ & _ & _ & _ & ? & ?).
  pose proof (ok_entry st Hok g eg Hg Heg) as (_ & _ & _ & _ & ? & ?).
  destruct (store_disk_entry_total st (set_entries eu lu)) as [s1 ->]; [by apply Hroom|].
  simpl. apply (store_disk_entry_total s1 (set_entries eg lg)). by apply Hroom.
Qed.

(** Adding a pair of ids to each other's lists keeps the invariant. *)
Lemma add_pair_ok st st' u g eu eg :
  pt_ok st -> is_int32 u -> is_int32 g ->
  entry_at st u = Some eu -> entry_at st g = Some eg ->
  Z.of_nat (length (d_entries eu)) < 4999 ->
  Z.of_nat (length (d_entries eg)) < 4999 ->
  nametoid st' = nametoid st -> pr_header st' = pr_header st ->
  (forall id v, gdbm_fetch (idtodata st') (id_key id) = Some v ->
     is_Some (ydr_decode (A:=prentry_disk) v)) ->
  (forall id, is_int32 id -> entry_at st' id =
     (fun e => set_entries e (pair_update st u g
        (insert_sorted g (d_entries eu)) (insert_sorted u (d_entries eg)) id))
     <$> entry_at st id) ->
  pt_ok st'.
Proof.
  intros Hok Hu Hg Heu Heg Hlu Hlg Hn Hh Hd He.
  assert (Hus : entries_at st u = d_entries eu) by (unfold entries_at; by rewrite Heu).
  assert (Hgs : entries_at st g = d_entries eg) by (unfold entries_at; by rewrite Heg).
  rewrite <- Hus, <- Hgs in *. clear Hus Hgs.
  assert (is_Some (entry_at st u)) by by eexists.
  assert (is_Some (entry_at st g)) by by eexists.
  refine (pt_ok_update st st' _ Hok Hn Hh Hd He _ _).
  - intros id e Hid _. unfold pair_update.
    destruct (entries_at_ok st id Hok Hid) as (? & ? & ?).
    repeat case_decide; subst; try done;
      (split_and!; [by apply insert_sorted_Sorted|rewrite length_insert_sorted; lia|]);
      rewrite insert_sorted_Permutation; constructor; by eauto.
  - intros a b Ha Hb Hia Hib. unfold pair_update.
    pose proof (entries_at_symmetric st a b Hok Hia Hib Ha Hb) as Hs.
    repeat case_decide; subst; rewrite ?occ_insert_sorted;
      repeat case_decide; subst; try done; lia.
Qed.

Lemma addtogroup_pt_ok `{!GdbmReliable F} st slack u g r st' :
  pt_ok st -> is_int32 u -> is_int32 g ->
  addtogroup st slack u g = Some (r, st') -> pt_ok st'.
Proof.
  intros Hok Hu Hg. rewrite addtogroup_eq by done.
  destruct (entry_at st u) as [eu|] eqn:Heu; [|naive_solver].
  destruct (entry_at st g) as [eg|] eqn:Heg; [|naive_solver].
  case_match eqn:Hlim; [naive_solver|]. case_decide; [done|]. zbool. intros Hs.
  apply (store_pair_ok st u g eu eg) in Hs as (-> & Hn & Hh & Hd & He); try done.
  - eapply (add_pair_ok st st' u g eu eg); eauto using below_limit.
  - intros ->. congruence.
Qed.

(** Removing a pair of ids from each other's lists keeps the invariant. *)
Lemma remove_pair_ok st st' u g eu eg lu lg :
  pt_ok st -> is_int32 u -> is_int32 g ->
  entry_at st u = Some eu -> entry_at st g = Some eg ->
  remove_sorted g (d_entries eu) = Some lu ->
  remove_sorted u (d_entries eg) = Some lg ->
  nametoid st' = nametoid st -> pr_header st' = pr_header st ->
  (forall id v, gdbm_fetch (idtodata st') (id_key id) = Some v ->
     is_Some (ydr_decode (A:=prentry_disk) v)) ->
  (forall id, is_int32 id -> entry_at st' id =
     (fun e => set_entries e (pair_update st u g lu lg id)) <$> entry_at st id) ->
  pt_ok st'.
Proof.
  intros Hok Hu Hg Heu Heg Hlu Hlg Hn Hh Hd He.
  assert (Hus : entries_at st u = d_entries eu) by (unfold entries_at; by rewrite Heu).
  assert (Hgs : entries_at st g = d_entries eg) by (unfold entries_at; by rewrite Heg).
  rewrite <- Hus in Hlu. rewrite <- Hgs in Hlg. clear Hus Hgs.
  pose proof (remove_sorted_Permutation _ _ _ Hlu) as Hpu.
  pose proof (remove_sorted_Permutation _ _ _ Hlg) as Hpg.
  refine (pt_ok_update st st' _ Hok Hn Hh Hd He _ _).
  - intros id e Hid _. unfold pair_update.
    destruct (entries_at_ok st id Hok Hid) as (Hso & Hl & Hall).
    repeat case_decide; subst; try done.
    + split_and!; [by eapply remove_sorted_Sorted|rewrite Hpg in Hl; simpl in Hl; lia|].
      rewrite Hpg in Hall. by inversion Hall.
    + split_and!; [by eapply remove_sorted_Sorted|rewrite Hpu in Hl; simpl in Hl; lia|].
      rewrite Hpu in Hall. by inversion Hall.
  - intros a b Ha Hb Hia Hib. unfold pair_update.
    pose proof (entries_at_symmetric st a b Hok Hia Hib Ha Hb) as Hs.
    repeat case_decide; subst; rewrite ?Hpu, ?Hpg, ?occ_cons in Hs;
      repeat case_decide; subst; simplify_eq; try done; try lia.
Qed.

Lemma removefromgroup_pt_ok `{!GdbmReliable F} st slack u g r st' :
  pt_ok st -> is_int32 u -> is_int32 g ->
  head slack.1 <> Some g -> head slack.2 <> Some u ->
  removefromgroup st slack u g = Some (r, st') -> pt_ok st'.
Proof.
  intros Hok Hu Hg Hs1 Hs2. rewrite removefromgroup_eq by done.
  destruct (entry_at st u) as [eu|] eqn:Heu; [|naive_solver].
  destruct (entry_at st g) as [eg|] eqn:Heg; [|naive_solver].
  case_decide; [done|].
  destruct (remove_sorted g _) as [lu|] eqn:Hlu; [|naive_solver].
  destruct (remove_sorted u _) as [lg|] eqn:Hlg; [|naive_solver]. intros Hs.
  apply (store_pair_ok st u g eu eg) in Hs as (-> & Hn & Hh & Hd & He); try done.
  - by eapply (remove_pair_ok st st' u g eu eg lu lg).
  - intros ->. congruence.
Qed.
(** ** Creating entries *)

(** The record [write_prentry] stores. *)
Definition disk_of (e : prentry) : prentry_disk :=
  {| d_flags := pe_flags e; d_id := pe_id e; d_cellid := pe_cellid e;
     d_owner := pe_owner e; d_creator := pe_creator e;
     d_ngroups := pe_ngroups e; d_owned := [];
     d_name := strlcpy PR_MAXNAMELEN (pe_name e); d_entries := [] |}.

Lemma insert_entry_eq st e :
  pt_ok st ->
  insert_entry st e =
  match entry_at st (pe_id e), id_of st (pe_name e) with
  | None, None =>
      let '(status, st) := write_name st e in
      if negb (status =? 0) then Some (status, st) else write_prentry st e
  | _, _ => Some (PREXIST, st)
  end.
Proof.
  intros Hok. unfold insert_entry.
  rewrite get_ydr_disk_entry_spec, conv_name_to_id_spec.
  destruct (entry_at st (pe_id e)) as [d|] eqn:He.
  - destruct (gdbm_fetch _ _) eqn:Hf; [done|].
    apply entry_at_None in Hf; [congruence|done].
  - rewrite entry_at_None in He by done. rewrite He. simpl.
    by destruct (id_of st (pe_name e)).
Qed.

(** The effect of a successful insertion. *)
Lemma insert_entry_view `{!GdbmReliable F} st e r st' :
  pt_ok st -> is_int32 (pe_id e) ->
  entry_at st (pe_id e) = None -> id_of st (pe_name e) = None ->
  insert_entry st e = Some (r, st') ->
  r = 0 /\ pr_header st' = pr_header st /\
  (forall id, is_int32 id -> entry_at st' id =
     if decide (id = pe_id e) then Some (disk_of e) else entry_at st id) /\
  (forall n, id_of st' n = if decide (pe_name e = n) then Some (pe_id e) else id_of st n) /\
  (forall id v, gdbm_fetch (idtodata st') (id_key id) = Some v ->
     is_Some (ydr_decode (A:=prentry_disk) v)).
Proof.
  intros Hok Hid He Hn. rewrite insert_entry_eq, He, Hn by done.
  unfold write_name, write_prentry.
  destruct (store_succeeds (nametoid st) (pe_name e) (be32 (pe_id e))) as [d Hd].
  rewrite Hd; simpl. case_match; [done|]. intros Hs.
  pose proof (store_disk_entry_zero _ _ _ _ Hs) as ->.
  apply store_disk_entry_view in Hs as (Hn' & Hh' & He' & Hd'); [|done].
  split_and!; try done.
  - intros n. unfold id_of. rewrite Hn'; simpl.
    rewrite (store_lookup _ _ _ _ _ Hd). case_decide; [|done].
    by rewrite <- (swrap32_be32 (pe_id e)) at 2.
  - intros id v [?|?]%Hd'; [by eexists|]. by eapply ok_decodes.
Qed.

(** Inserting a record without members keeps the invariant. *)
Lemma pt_ok_insert st st' e :
  pt_ok st -> is_int32 (d_id e) -> d_entries e = [] -> d_owned e = [] ->
  Z.of_nat (length (d_name e)) < 64 ->
  entry_at st (d_id e) = None -> id_of st (d_name e) = None ->
  pr_header st' = pr_header st ->
  (forall id v, gdbm_fetch (idtodata st') (id_key id) = Some v ->
     is_Some (ydr_decode (A:=prentry_disk) v)) ->
  (forall id, is_int32 id -> entry_at st' id =
     if decide (id = d_id e) then Some e else entry_at st id) ->
  (forall n, id_of st' n = if decide (d_name e = n) then Some (d_id e) else id_of st n) ->
  pt_ok st'.
Proof.
  intros Hok Hi Hent Hown Hlen He Hn Hh Hd He' Hn'.
  assert (Hmem : forall u eu, is_int32 u -> entry_at st u = Some eu ->
            d_id e ∉ d_entries eu).
  { intros u eu Hu Heu Hin. destruct (ok_member st Hok u _ eu Hu Heu Hin) as [_ [x Hx]].
    congruence. }
  assert (Hocc : forall u eu, is_int32 u -> entry_at st u = Some eu ->
            occ (d_id e) (d_entries eu) = 0%nat).
  { intros u eu Hu Heu. specialize (Hmem u eu Hu Heu). rewrite <- occ_pos in Hmem. lia. }
  split.
  - done.
  - rewrite Hh. apply Hok.
  - intros id e0 Hid. rewrite He', Hn' by done. case_decide as Hc.
    + intros [= <-]. rewrite decide_True, Hent by done. split_and!; simpl; try done.
      all: first [congruence|constructor].
    + intros He0. destruct (ok_entry st Hok id e0 Hid He0) as (? & Hno & ?).
      rewrite decide_False by congruence. done.
  - intros n id. rewrite Hn'. case_decide as Hc.
    + intros [= <-]. exists e. rewrite He', decide_True by done. done.
    + intros Hid. pose proof (id_of_int32 _ _ _ Hid) as Hi'.
      destruct (ok_name st Hok n id Hid) as (e0 & He0 & <-).
      exists e0. rewrite He', decide_False by (done || congruence). done.
  - intros u g e0 Hu. rewrite He' by done. case_decide as Hc.
    + intros [= <-]. rewrite Hent. by intros ?%not_elem_of_nil.
    + intros He0 Hg. destruct (ok_member st Hok u g e0 Hu He0 Hg) as [Hg' Hs].
      split; [done|]. rewrite He' by done. case_decide; [by eexists|done].
  - intros u g eu eg Hu Hg. rewrite !He' by done.
    repeat case_decide; intros Hx Hy; simplify_eq; try done.
    + rewrite Hent, (Hocc g eg) by done. done.
    + rewrite Hent, (Hocc u eu) by done. done.
    + by eapply ok_symmetric.
Qed.

Lemma insert_entry_pt_ok `{!GdbmReliable F} st flags name id owner creator r st' :
  pt_ok st -> is_int32 id ->
  insert_entry st (new_prentry flags name id owner creator) = Some (r, st') ->
  pt_ok st'.
Proof.
  intros Hok Hid. set (e := new_prentry _ _ _ _ _).
  destruct (entry_at st (pe_id e)) as [d|] eqn:He.
  { rewrite insert_entry_eq, He by done. naive_solver. }
  destruct (id_of st (pe_name e)) as [i|] eqn:Hn.
  { rewrite insert_entry_eq, He, Hn by done. naive_solver. }
  intros Hs. apply insert_entry_view in Hs as (-> & Hh & He' & Hn' & Hd); try done.
  assert (Hname : d_name (disk_of e) = pe_name e).
  { unfold disk_of, e; simpl. apply strlcpy_idem. }
  apply (pt_ok_insert st st' (disk_of e)); rewrite ?Hname; try done.
  pose proof (strlcpy_length PR_MAXNAMELEN name ltac:(unfold PR_MAXNAMELEN; lia)).
  assert (Z.of_nat PR_MAXNAMELEN = 64) by done. cbn [pe_name e new_prentry]. lia.
Qed.

(** ** The header *)

Lemma pt_ok_set_header st h :
  pt_ok st -> h_orphan h = [] -> pt_ok (set_header st h).
Proof. intros [????? ?] ?. by split. Qed.

Lemma write_header_view st st' :
  write_header st = Some st' ->
  nametoid st' = nametoid st /\ pr_header st' = pr_header st /\
  (forall id, gdbm_fetch (idtodata st') (id_key id) = gdbm_fetch (idtodata st) (id_key id)) /\
  gdbm_fetch (idtodata st') header_key ≫= ydr_decode = Some (pr_header st).
Proof.
  unfold write_header. destruct (ydr_encode _) as [v|] eqn:Hv; simpl; [|done].
  destruct (mdb_store _ _ _) as [code d] eqn:Hd. case_match; [|done]. zbool. subst.
  intros [= <-]; simpl. split_and!; try done.
  - intros id. rewrite (store_lookup _ _ _ _ _ Hd).
    rewrite decide_False; [done|]. apply header_key_ne.
  - rewrite (store_lookup _ _ _ _ _ Hd), decide_True by done. simpl.
    by apply ydr_roundtrip.
Qed.

Lemma write_header_pt_ok st st' : pt_ok st -> write_header st = Some st' -> pt_ok st'.
Proof.
  intros Hok (Hn & Hh & Hf & _)%write_header_view.
  assert (He : forall id, entry_at st' id = entry_at st id).
  { intros id. unfold entry_at. by rewrite Hf. }
  assert (Hi : forall n, id_of st' n = id_of st n).
  { intros n. unfold id_of. by rewrite Hn. }
  destruct Hok as [Hd Hho Hen Hna Hme Hsy]. split; intros *; rewrite ?Hh, ?Hf, ?He, ?Hi; eauto.
Qed.

Lemma next_free_user_id_pt_ok st x st' :
  pt_ok st -> next_free_user_id st = Some (x, st') ->
  pt_ok st' /\ match x with inr id => is_int32 id | inl _ => True end.
Proof.
  intros Hok. unfold next_free_user_id.
  pose proof (ok_header st Hok) as Hh.
  destruct (int32_arith _) as [m|] eqn:Hm; [|done]. cbn [mbind option_bind].
  apply int32_arith_Some in Hm as [-> Hm].
  case_match; [intros [= <- <-]; split; [by apply pt_ok_set_header|done]|].
  destruct (write_header _) as [st2|] eqn:Hw; simpl; [|done]. intros [= <- <-].
  split; [|done]. eapply write_header_pt_ok; [|done].
  by apply pt_ok_set_header.
Qed.

Lemma next_free_group_id_pt_ok st x st' :
  pt_ok st -> next_free_group_id st = Some (x, st') ->
  pt_ok st' /\ match x with inr id => is_int32 id | inl _ => True end.
Proof.
  intros Hok. unfold next_free_group_id.
  pose proof (ok_header st Hok) as Hh.
  destruct (int32_arith _) as [m|] eqn:Hm; [|done]. cbn [mbind option_bind].
  apply int32_arith_Some in Hm as [-> Hm].
  case_match; [intros [= <- <-]; split; [by apply pt_ok_set_header|done]|].
  destruct (write_header _) as [st2|] eqn:Hw; simpl; [|done]. intros [= <- <-].
  split; [|done]. eapply write_header_pt_ok; [|done].
  by apply pt_ok_set_header.
Qed.
(** ** Every call keeps the invariant *)

(** The ids a call carries are 32 bit words, and when it removes, the words
    behind the two arrays are not the ids it looks for. *)
Definition req_ok (env : pr_env) (req : pr_request) : Prop :=
  match req with
  | INewEntry _ id _ => is_int32 id
  | AddToGroup uid gid => is_int32 uid /\ is_int32 gid
  | RemoveFromGroup uid gid =>
      is_int32 uid /\ is_int32 gid /\
      head (e_slack env).1 <> Some gid /\ head (e_slack env).2 <> Some uid
  | _ => True
  end.

Lemma new_entry_pt_ok `{!GdbmReliable F} realm env st name flag oid s id st' :
  pt_ok st -> SPR_NewEntry realm env st name flag oid = Some (s, id, st') -> pt_ok st'.
Proof.
  intros Hok. unfold SPR_NewEntry, create_user, create_group.
  case_match; [naive_solver|]. destruct (localize_name realm name) as [ln lp].
  case_match.
  - destruct (next_free_user_id st) as [[x st1]|] eqn:Hx; simpl; [|done].
    apply next_free_user_id_pt_ok in Hx as [Hok1 Hid]; [|done].
    destruct x as [?|i]; [naive_solver|].
    destruct (insert_entry st1 _) as [[r st2]|] eqn:Hi; simpl; [|done].
    apply insert_entry_pt_ok in Hi; naive_solver.
  - case_match; [|naive_solver].
    destruct (next_free_group_id st) as [[x st1]|] eqn:Hx; simpl; [|done].
    apply next_free_group_id_pt_ok in Hx as [Hok1 Hid]; [|done].
    destruct x as [?|i]; [naive_solver|].
    destruct (insert_entry st1 _) as [[r st2]|] eqn:Hi; simpl; [|done].
    apply insert_entry_pt_ok in Hi; naive_solver.
Qed.

Lemma inew_entry_pt_ok `{!GdbmReliable F} realm env st name id oid s st' :
  pt_ok st -> is_int32 id ->
  SPR_INewEntry realm env st name id oid = Some (s, st') -> pt_ok st'.
Proof.
  intros Hok Hid. unfold SPR_INewEntry, create_user, create_group.
  case_match; [naive_solver|]. destruct (localize_name realm name) as [ln lp].
  repeat case_match; try naive_solver; by apply insert_entry_pt_ok.
Qed.

Lemma set_max_pt_ok st uid gflag : pt_ok st -> pt_ok (SPR_SetMax st uid gflag).
Proof.
  intros Hok. pose proof (ok_header st Hok). unfold SPR_SetMax.
  case_match; by apply pt_ok_set_header.
Qed.

Lemma pr_execute_pt_ok `{!GdbmReliable F} realm env req st s out st' :
  pt_ok st -> req_ok env req ->
  pr_execute realm env req st = Some (s, out, st') -> pt_ok st'.
Proof.
  intros Hok Hreq. destruct req; simpl in *; try by (intros; simplify_eq).
  - destruct (SPR_NameToID env st nlist). naive_solver.
  - destruct (SPR_IDToName env st ilist) as [[? ?]|]; naive_solver.
  - destruct (SPR_NewEntry _ _ _ _ _ _) as [[[? ?] ?]|] eqn:He; simpl; [|done].
    apply new_entry_pt_ok in He; naive_solver.
  - destruct (SPR_INewEntry _ _ _ _ _ _) as [[? ?]|] eqn:He; simpl; [|done].
    apply inew_entry_pt_ok in He; naive_solver.
  - destruct (SPR_ListEntry st id) as [[?|?]|]; naive_solver.
  - destruct (SPR_AddToGroup _ _ _ _) as [[? ?]|] eqn:He; simpl; [|done].
    revert He. unfold SPR_AddToGroup. case_match; [naive_solver|].
    intros He. destruct Hreq. apply addtogroup_pt_ok in He; naive_solver.
  - destruct (SPR_RemoveFromGroup _ _ _ _) as [[? ?]|] eqn:He; simpl; [|done].
    revert He. unfold SPR_RemoveFromGroup. case_match; [naive_solver|].
    intros He. destruct Hreq as (? & ? & ? & ?).
    apply removefromgroup_pt_ok in He; naive_solver.
  - intros [= <- <- <-]. by apply set_max_pt_ok.
  - destruct (SPR_ListElements env st id) as [[? ?]|]; naive_solver.
  - destruct (SPR_GetCPS env st id) as [[? ?]|]; naive_solver.
  - destruct (SPR_IsAMemberOf env st uid gid flag) as [[? ?]|]; naive_solver.
Qed.

(** ** A new database *)

(** Databases that [open_db] just created, and the zeroed header. *)
Definition pristine st : Prop :=
  (forall k, gdbm_fetch (nametoid st) k = None) /\
  (forall k, gdbm_fetch (idtodata st) k = None) /\ h_orphan (pr_header st) = [].

Lemma pristine_pt_ok st : pristine st -> pt_ok st.
Proof.
  intros (Hn & Hi & Hh).
  assert (He : forall id, entry_at st id = None).
  { intros. unfold entry_at. by rewrite Hi. }
  split; [|done|..]; intros *; rewrite ?He; try done.
  - by rewrite Hi.
  - unfold id_of. by rewrite Hn.
Qed.

Lemma must_pt_ok `{!GdbmReliable F} st flags name id owner creator st' :
  pt_ok st -> is_int32 id ->
  must (insert_entry st (new_prentry flags name id owner creator)) = Some st' ->
  pt_ok st'.
Proof.
  intros Hok Hid. unfold must.
  destruct (insert_entry _ _) as [[r st1]|] eqn:Hi; simpl; [|done].
  apply insert_entry_pt_ok in Hi; [|done..]. case_match; naive_solver.
Qed.

Lemma create_pt_ok `{!GdbmReliable F} st st' :
  pristine st -> prserver_create st = Some st' -> pt_ok st'.
Proof.
  intros Hp. pose proof (pristine_pt_ok st Hp) as Hok. destruct Hp as (_ & _ & Hh).
  unfold prserver_create, create_database, create_group.
  destruct (write_header _) as [st1|] eqn:Hw; simpl; [|done].
  apply write_header_pt_ok in Hw; [|by apply pt_ok_set_header].
  destruct (must (insert_entry st1 _)) as [st2|] eqn:H2'; simpl; [|done].
  apply must_pt_ok in H2'; [|done|by unfold is_int32, PR_SYSADMINID].
  destruct (must (insert_entry st2 _)) as [st3|] eqn:H3'; simpl; [|done].
  apply must_pt_ok in H3'; [|done|by unfold is_int32, PR_ANYUSERID].
  destruct (must (insert_entry st3 _)) as [st4|] eqn:H4'; simpl; [|done].
  apply must_pt_ok in H4'; [|done|by unfold is_int32, PR_AUTHUSERID].
  apply must_pt_ok; [done|by unfold is_int32, PR_ANONYMOUSID].
Qed.

(** A session: calls in the order they are served. *)
Fixpoint pr_run realm (calls : list (pr_env * pr_request)) st : option (ptserver F) :=
  match calls with
  | [] => Some st
  | (env, req) :: calls' =>
      '(_, _, st) ← pr_execute realm env req st; pr_run realm calls' st
  end.

Lemma pr_run_pt_ok `{!GdbmReliable F} realm calls : forall st st',
  pt_ok st -> Forall (fun c => req_ok c.1 c.2) calls ->
  pr_run realm calls st = Some st' -> pt_ok st'.
Proof.
  induction calls as [|[env req] calls IH]; simpl; intros st st' Hok Hall; [naive_solver|].
  inversion Hall; simplify_eq.
  destruct (pr_execute realm env req st) as [[[? ?] st1]|] eqn:He; simpl; [|done].
  apply IH; [|done]. by eapply pr_execute_pt_ok.
Qed.
End View.

(** ** A concrete encoding

    The word stream of the two records, used to run the model and to show
    that the laws assumed of the generated encoders can hold. *)

Module Words.
Definition words_of (e : prentry_disk) : bytes :=
  d_flags e :: d_id e :: d_cellid e :: d_owner e :: d_creator e :: d_ngroups e ::
  enc_list (d_owned e) ++ enc_list (d_name e) ++ enc_list (d_entries e) ++ [].

#[export] Instance ydr_prentry_disk : Ydr prentry_disk := {|
  ydr_encode e := Some (words_of e);
  ydr_decode b :=
    match b with
    | f :: i :: c :: o :: cr :: n :: r =>
        '(ow, r) ← dec_list r; '(na, r) ← dec_list r; '(en, _) ← dec_list r;
        Some (Build_prentry_disk f i c o cr n ow na en)
    | _ => None
    end;
  ydr_fits _ := True;
|}.

#[export] Instance ydr_prentry_disk_laws : YdrLaws prentry_disk.
Proof.
  split; [|by eauto]. intros a b [= <-].
  cbn [ydr_decode ydr_prentry_disk words_of].
  do 3 (rewrite dec_enc_list; cbn [mbind option_bind]). by destruct a.
Qed.

#[export] Instance ydr_prheader_disk : Ydr prheader_disk := {|
  ydr_encode h := Some ([h_version h; h_headerSize h; h_maxGroup h; h_maxID h;
    h_usercount h; h_groupcount h] ++ h_orphan h);
  ydr_decode b :=
    match b with
    | v :: s :: g :: i :: u :: c :: o => Some (Build_prheader_disk v s g i o u c)
    | _ => None
    end;
  ydr_fits _ := True;
|}.

#[export] Instance ydr_prheader_disk_laws : YdrLaws prheader_disk.
Proof. split; [|by eauto]. intros a b [= <-]. by destruct a. Qed.

Abbreviation db := (gmap bytes bytes).

Definition zero_header : prheader_disk := Build_prheader_disk 0 0 0 0 [] 0 0.
Definition empty_server : ptserver db := Build_ptserver ∅ ∅ zero_header.
Definition root_env : pr_env :=
  {| e_sec := {| superuser_check_disabled := true; acl_check := fun _ => false |};
     e_conn := {| securityIndex := 0; server_info := None |};
     e_slack := ([0], [0]); e_malloc := fun _ => true |}.
Definition anon_env : pr_env :=
  {| e_sec := {| superuser_check_disabled := false; acl_check := fun _ => false |};
     e_conn := {| securityIndex := 0; server_info := None |};
     e_slack := ([0], [0]); e_malloc := fun _ => true |}.
(** "alice" and "friends" *)
Definition alice : bytes := [97; 108; 105; 99; 101].
Definition friends : bytes := [102; 114; 105; 101; 110; 100; 115].
(** The server after creation, one new user and one new group. *)
Definition fresh_server : ptserver db := default empty_server (prserver_create empty_server).
Definition calls : list (pr_env * pr_request) :=
  [(root_env, NewEntry alice 0 0); (root_env, NewEntry friends 2 0);
   (root_env, AddToGroup 1 (-211))].
Definition busy_server : ptserver db := default empty_server (pr_run [] calls fresh_server).

Example busy_members :
  (entries_at busy_server 1, entries_at busy_server (-211)) = ([-211], [1]).
Proof. vm_compute. reflexivity. Qed.

Lemma empty_pristine : pristine empty_server.
Proof. split_and!; simpl; intros; by rewrite ?lookup_empty. Qed.

Lemma fresh_created : prserver_create empty_server = Some fresh_server.
Proof. apply default_is_some. vm_compute. reflexivity. Qed.

Lemma busy_ran : pr_run [] calls fresh_server = Some busy_server.
Proof. apply default_is_some. vm_compute. reflexivity. Qed.

Lemma calls_ok : Forall (fun c => req_ok c.1 c.2) calls.
Proof. repeat constructor; by vm_compute. Qed.

Lemma fresh_ok : pt_ok fresh_server.
Proof. apply (create_pt_ok empty_server); [apply empty_pristine|apply fresh_created]. Qed.

Lemma busy_ok : pt_ok busy_server.
Proof. eapply pr_run_pt_ok; [apply fresh_ok|apply calls_ok|apply busy_ran]. Qed.
End Words.

(** ** Theorems on the protection server *)

Section Theorems.
Context {F : Type} `{GdbmLaws F} `{!GdbmReliable F}.
Context `{YdrLaws prentry_disk} `{YdrLaws prheader_disk}.
Implicit Types st : ptserver F.

(** C15: consistency.  Starting from the database [prserver_create] makes, any
    sequence of calls by any callers that all return leaves a state in which
    every record decodes and carries its own id, names and ids index each other
    one to one, and the membership lists are sorted, refer to existing ids and
    are symmetric.  It is assumed that the writes of the database files succeed
    ([GdbmReliable]) and that no RemoveFromGroup finds, in the word behind one
    of the two arrays, the id it looks for there ([req_ok]; see
    [pts_remove_reads_past_end] for what happens otherwise). *)
Theorem pts_consistent realm st0 st1 calls st2 :
  pristine st0 -> prserver_create st0 = Some st1 ->
  Forall (fun c => req_ok c.1 c.2) calls -> pr_run realm calls st1 = Some st2 ->
  pt_ok st2.
Proof.
  intros Hp Hc Hall Hr. apply (pr_run_pt_ok realm calls st1); [|done|done].
  by apply (create_pt_ok st0).
Qed.

(** C26: creating a user under a free id and a free name succeeds; afterwards
    the name resolves to the id and the id to the name (cut to 63 bytes), and
    every other record is unchanged. *)
Theorem pts_create_lookup st name id owner creator :
  pt_ok st -> is_int32 id ->
  entry_at st id = None -> id_of st (strlcpy PR_MAXNAMELEN name) = None ->
  ydr_fits (disk_of (new_prentry 0 name id owner creator)) ->
  exists st', create_user st name id owner creator = Some (0, st') /\
    conv_name_to_id st' (strlcpy PR_MAXNAMELEN name) = inr id /\
    conv_id_to_name st' id = Some (inr (strlcpy PR_MAXNAMELEN name)) /\
    (forall id', is_int32 id' -> id' <> id -> entry_at st' id' = entry_at st id').
Proof.
  intros Hok Hid He Hn Hfit. unfold create_user.
  set (e := new_prentry 0 name id owner creator) in *.
  assert (Hs : exists st', insert_entry st e = Some (0, st')).
  { rewrite insert_entry_eq by done. simpl. rewrite He, Hn.
    unfold write_name, write_prentry.
    destruct (store_succeeds (nametoid st) (pe_name e) (be32 (pe_id e))) as [d ->].
    simpl. by apply store_disk_entry_total. }
  destruct Hs as [st' Hs]. exists st'. rewrite Hs.
  pose proof (insert_entry_pt_ok _ _ _ _ _ _ _ _ Hok Hid Hs) as Hok'.
  apply insert_entry_view in Hs as (_ & _ & He' & Hn' & _); [|done..].
  split_and!; [done|..].
  - rewrite conv_name_to_id_spec, Hn'. simpl. by rewrite decide_True.
  - unfold conv_id_to_name, read_prentry. rewrite get_disk_entry_spec by done.
    rewrite He', decide_True by done. cbn [mbind option_bind pe_name].
    cbn [disk_of d_name pe_name e new_prentry]. by rewrite !strlcpy_idem.
  - intros id' Hid' Hne. rewrite He', decide_False by done. done.
Qed.

(** an id or a name that is in use is never given away again: the
    creation of a user or a group answers PREXIST and changes nothing. *)
Theorem pts_create_exists st name id owner creator :
  pt_ok st ->
  is_Some (entry_at st id) \/ is_Some (id_of st (strlcpy PR_MAXNAMELEN name)) ->
  create_user st name id owner creator = Some (PREXIST, st) /\
  create_group st name id owner creator = Some (PREXIST, st).
Proof.
  intros Hok Hex. unfold create_user, create_group.
  rewrite !insert_entry_eq by done. simpl.
  destruct (entry_at st id); [done|]. destruct Hex as [[? ?]|[i Hi]]; [done|].
  by rewrite Hi.
Qed.

(** the in-place loops of [addtogroup] and [removefromgroup] implement
    insertion into and removal from a sorted list.  The insertion needs a word
    behind the array, whatever it holds, and leaves the block without one.  The
    removal is exact when the word behind the array is not the id looked for;
    it leaves the block when there is no such word and every member is
    smaller. *)
Theorem pts_array_loops l slack x :
  Z.of_nat (length l) < 2^32 ->
  (array_insert (da_load l slack) x ≫= da_unload) =
    (if decide (slack = []) then None else Some (insert_sorted x l)) /\
  (head slack <> Some x ->
   if decide (scan_outside x l slack) then array_remove (da_load l slack) x = None
   else exists ra, array_remove (da_load l slack) x = Some ra /\
     (ra ≫= da_unload) = remove_sorted x l /\ (ra = None <-> remove_sorted x l = None)).
Proof.
  intros Hl. split.
  - rewrite array_insert_spec. by destruct slack.
  - intros Hs. pose proof (array_remove_spec l slack x Hs Hl) as Hr.
    case_decide; [done|]. destruct Hr as (ra & -> & Hra). exists ra.
    split; [done|]. destruct ra as [a|]; [|naive_solver].
    destruct Hra as (l' & Ha & ->). simpl. naive_solver.
Qed.

(** the words after the arrays decide when the ids are absent: when every
    group of [u] is smaller than [g], every member of [g] is smaller than [u],
    and the words behind the two arrays equal [g] and [u], [removefromgroup]
    answers 0 and drops the last, unrelated member of both lists instead of
    reporting that there is nothing to remove. *)
Theorem pts_remove_reads_past_end st u g eu eg lu yu lg yg sl1 sl2 :
  pt_ok st -> encoder_room -> is_int32 u -> is_int32 g -> u <> g ->
  entry_at st u = Some eu -> entry_at st g = Some eg ->
  d_entries eu = lu ++ [yu] -> d_entries eg = lg ++ [yg] ->
  Forall (fun z => z < g) (lu ++ [yu]) -> Forall (fun z => z < u) (lg ++ [yg]) ->
  Z.of_nat (length lu) < 4900 -> Z.of_nat (length lg) < 4900 ->
  exists st', removefromgroup st (g :: sl1, u :: sl2) u g = Some (0, st') /\
    entries_at st' u = lu /\ entries_at st' g = lg.
Proof.
  intros Hok Hroom Hu Hg Hne Heu Heg Hlu Hlg Hau Hag Hnu Hng.
  destruct (store_pair_total st u g eu eg lu lg) as [st' Hs]; [done..|lia|lia|].
  exists st'. split.
  - unfold removefromgroup. rewrite !get_disk_entry_spec, Heu, Heg by done.
    cbn [mbind option_bind fst snd]. rewrite Hlu, Hlg.
    destruct (array_remove_past_end lu yu g sl1 Hau) as (ua & -> & Hua); [lia|].
    destruct (array_remove_past_end lg yg u sl2 Hag) as (ga & -> & Hga); [lia|].
    cbn [mbind option_bind]. by rewrite Hua, Hga.
  - apply (store_pair_ok st u g eu eg) in Hs as (_ & _ & _ & _ & He); try done.
    unfold entries_at. rewrite !He, Heu, Heg by done. unfold pair_update. simpl.
    by rewrite (decide_False (P := u = g)), !(decide_True (P := _ = _)) by done.
Qed.

(** [addtogroup] of two known ids under the limits has no defined result
    when the allocator left no word behind one of the two arrays: the store to
    [val[len]] leaves the block. *)
Theorem pts_add_past_end st slack u g eu eg :
  pt_ok st -> entry_at st u = Some eu -> entry_at st g = Some eg ->
  Z.of_nat (length (d_entries eu)) < 4999 -> Z.of_nat (length (d_entries eg)) < 4999 ->
  addtogroup st slack u g = None <->
  slack.1 = [] \/ slack.2 = [] \/
  store_pair st (set_entries eu (insert_sorted g (d_entries eu)))
    (set_entries eg (insert_sorted u (d_entries eg))) = None.
Proof.
  intros Hok Heu Heg Hlu Hlg. rewrite addtogroup_eq, Heu, Heg by done.
  destruct (limit_below (length (d_entries eu))) as [-> _]; [done|].
  destruct (limit_below (length (d_entries eg))) as [_ ->]; [done|]. simpl.
  case_decide; naive_solver.
Qed.

(** C33: authorisation.  No call of a caller that is not a superuser changes
    either database. *)
Theorem pts_unauthorised_readonly realm env req st s out st' :
  superuser env = false ->
  pr_execute realm env req st = Some (s, out, st') ->
  nametoid st' = nametoid st /\ idtodata st' = idtodata st.
Proof.
  intros Hsu. destruct req; simpl; try by (intros; simplify_eq).
  - destruct (SPR_NameToID env st nlist). naive_solver.
  - destruct (SPR_IDToName env st ilist) as [[? ?]|]; naive_solver.
  - unfold SPR_NewEntry. rewrite Hsu. naive_solver.
  - unfold SPR_INewEntry. rewrite Hsu. naive_solver.
  - destruct (SPR_ListEntry st id) as [[?|?]|]; naive_solver.
  - unfold SPR_AddToGroup. rewrite Hsu. naive_solver.
  - unfold SPR_RemoveFromGroup. rewrite Hsu. naive_solver.
  - intros [= <- <- <-]. unfold SPR_SetMax. by case_match.
  - destruct (SPR_ListElements env st id) as [[? ?]|]; naive_solver.
  - destruct (SPR_GetCPS env st id) as [[? ?]|]; naive_solver.
  - destruct (SPR_IsAMemberOf env st uid gid flag) as [[? ?]|]; naive_solver.
Qed.

(** the one exception of the previous theorem's spirit: [SPR_SetMax] has
    no superuser test, so any caller chooses the id the next user gets. *)
Theorem pts_setmax_unguarded realm env st uid :
  is_int32 uid ->
  exists st', pr_execute realm env (SetMax uid 0) st = Some (0, ONone, st') /\
    h_maxID (pr_header st') = uid /\
    forall id st2, next_free_user_id st' = Some (inr id, st2) -> id = uid + 1.
Proof.
  intros Huid. eexists. split; [done|]. split; [done|]. intros id st2.
  unfold next_free_user_id, SPR_SetMax; simpl.
  destruct (int32_arith _) as [m|] eqn:Hm; [|done]. cbn [mbind option_bind].
  apply int32_arith_Some in Hm as [-> _]. case_match; [done|].
  destruct (write_header _); simpl; [|done]. naive_solver.
Qed.

Lemma idtoname_total st ilist :
  pt_ok st -> exists s ns, IDToName_loop st ilist = Some (s, ns).
Proof.
  intros Hok. induction ilist as [|id ilist IH]; simpl; [by eauto|].
  destruct IH as (s & ns & ->).
  unfold conv_id_to_name, read_prentry. rewrite get_disk_entry_spec by done.
  destruct (entry_at st id); simpl; [by eauto|]. by eauto.
Qed.

Lemma write_header_total st :
  ydr_fits (pr_header st) -> exists st', write_header st = Some st'.
Proof.
  intros [v Hv]%ydr_total. unfold write_header. rewrite Hv; simpl.
  destruct (store_succeeds (idtodata st) header_key v) as [d ->]. simpl. by eauto.
Qed.

Lemma insert_entry_total st flags name id owner creator :
  pt_ok st -> encoder_room ->
  exists r st', insert_entry st (new_prentry flags name id owner creator) = Some (r, st').
Proof.
  intros Hok Hroom. rewrite insert_entry_eq by done.
  set (e := new_prentry _ _ _ _ _).
  destruct (entry_at st (pe_id e)); [by eauto|].
  destruct (id_of st (pe_name e)); [by eauto|].
  unfold write_name, write_prentry.
  destruct (store_succeeds (nametoid st) (pe_name e) (be32 (pe_id e))) as [d ->]. simpl.
  assert (Hfit : ydr_fits (disk_of e)).
  { apply Hroom; simpl; [done| |lia].
    assert (Hl : Z.of_nat PR_MAXNAMELEN = 64) by done.
    pose proof (strlcpy_length PR_MAXNAMELEN (strlcpy PR_MAXNAMELEN name)
      ltac:(unfold PR_MAXNAMELEN; lia)). lia. }
  destruct (store_disk_entry_total (set_nametoid st d) (disk_of e) Hfit) as [st' Hs].
  exists 0, st'. exact Hs.
Qed.

(** What handing out an id needs: the counter does not overflow. *)
Definition header_room : Prop :=
  forall h : prheader_disk, h_orphan h = [] -> ydr_fits h.

Lemma next_user_total st :
  pt_ok st -> header_room ->
  next_free_user_id st = None <-> ~ is_int32 (h_maxID (pr_header st) + 1).
Proof.
  intros Hok Hhead. pose proof (ok_header st Hok) as Hh. rewrite <- int32_arith_None.
  unfold next_free_user_id. destruct (int32_arith _) as [m|]; [|done].
  cbn [mbind option_bind]. case_match; [done|].
  destruct (write_header_total (set_header st (set_maxID (pr_header st) m)))
    as [? ->]; [by apply Hhead|done].
Qed.

Lemma next_group_total st :
  pt_ok st -> header_room ->
  next_free_group_id st = None <-> ~ is_int32 (h_maxGroup (pr_header st) - 1).
Proof.
  intros Hok Hhead. pose proof (ok_header st Hok) as Hh. rewrite <- int32_arith_None.
  unfold next_free_group_id. destruct (int32_arith _) as [m|]; [|done].
  cbn [mbind option_bind]. case_match; [done|].
  destruct (write_header_total (set_header st (set_maxGroup (pr_header st) m)))
    as [? ->]; [by apply Hhead|done].
Qed.

Definition new_entry_fault env st (flag : Z) : Prop :=
  superuser env = true /\
  (Z.land flag PRTYPE = PRUSER /\ ~ is_int32 (h_maxID (pr_header st) + 1) \/
   Z.land flag PRTYPE = PRGRP /\ ~ is_int32 (h_maxGroup (pr_header st) - 1)).

Lemma new_entry_total realm env st name flag oid :
  pt_ok st -> encoder_room -> header_room ->
  SPR_NewEntry realm env st name flag oid = None <-> new_entry_fault env st flag.
Proof.
  intros Hok Hroom Hhead. unfold new_entry_fault.
  pose proof (next_user_total st Hok Hhead) as Hnu.
  pose proof (next_group_total st Hok Hhead) as Hng.
  unfold SPR_NewEntry, create_user, create_group.
  destruct (superuser env); simpl; [|naive_solver].
  destruct (localize_name realm name) as [ln lp].
  set (owner := if lp then oid else PR_SYSADMINID).
  destruct (Z.eqb_spec (Z.land flag PRTYPE) PRUSER) as [Hf|Hf];
    [|destruct (Z.eqb_spec (Z.land flag PRTYPE) PRGRP) as [Hf'|Hf']].
  - assert (Z.land flag PRTYPE <> PRGRP) by (rewrite Hf; done).
    destruct (next_free_user_id st) as [[[e|id] st1]|] eqn:Hx; simpl; [naive_solver| |naive_solver].
    apply next_free_user_id_pt_ok in Hx as [Hok1 _]; [|done].
    destruct (insert_entry_total st1 0 ln id owner PR_SYSADMINID Hok1 Hroom)
      as (? & ? & ->). naive_solver.
  - destruct (next_free_group_id st) as [[[e|id] st1]|] eqn:Hx; simpl; [naive_solver| |naive_solver].
    apply next_free_group_id_pt_ok in Hx as [Hok1 _]; [|done].
    destruct (insert_entry_total st1 PRGRP ln id owner PR_SYSADMINID Hok1 Hroom)
      as (? & ? & ->). naive_solver.
  - naive_solver.
Qed.

Lemma inew_entry_total realm env st name id oid :
  pt_ok st -> encoder_room ->
  exists s st', SPR_INewEntry realm env st name id oid = Some (s, st').
Proof.
  intros Hok Hroom. unfold SPR_INewEntry, create_user, create_group.
  case_match; [by eauto|]. destruct (localize_name realm name) as [ln lp].
  destruct (0 <? id); [by apply insert_entry_total|].
  destruct (id <? 0); [by apply insert_entry_total|by eauto].
Qed.

Definition addtogroup_fault st (slack : list Z * list Z) (u g : Z) : Prop :=
  is_Some (entry_at st u) /\ is_Some (entry_at st g) /\
  (slack.1 = [] \/ slack.2 = []).

Lemma addtogroup_total st slack u g :
  pt_ok st -> encoder_room -> is_int32 u -> is_int32 g ->
  (forall id, Z.of_nat (length (entries_at st id)) < 4900) ->
  addtogroup st slack u g = None <-> addtogroup_fault st slack u g.
Proof.
  intros Hok Hroom Hu Hg Hsmall. rewrite addtogroup_eq by done. unfold addtogroup_fault.
  pose proof (Hsmall u) as Hlu. pose proof (Hsmall g) as Hlg.
  unfold entries_at in Hlu, Hlg.
  destruct (entry_at st u) as [eu|] eqn:Heu; [|by split; [|intros [[? ?] _]]].
  destruct (entry_at st g) as [eg|] eqn:Heg; [|by split; [|intros [_ [[? ?] _]]]].
  destruct (limit_below (length (d_entries eu))) as [-> _]; [lia|].
  destruct (limit_below (length (d_entries eg))) as [_ ->]; [lia|]. simpl.
  case_decide; [by eauto|].
  destruct (store_pair_total st u g eu eg (insert_sorted g (d_entries eu))
    (insert_sorted u (d_entries eg))) as [st1 ->];
    [done..|rewrite length_insert_sorted; lia|rewrite length_insert_sorted; lia|].
  naive_solver.
Qed.

Definition removefromgroup_fault st (slack : list Z * list Z) (u g : Z) : Prop :=
  is_Some (entry_at st u) /\ is_Some (entry_at st g) /\
  slack.1 = [] /\ Forall (fun y => y < g) (entries_at st u).

Lemma removefromgroup_total st slack u g :
  pt_ok st -> encoder_room -> is_int32 u -> is_int32 g ->
  head slack.1 <> Some g -> head slack.2 <> Some u ->
  (forall id, Z.of_nat (length (entries_at st id)) < 4900) ->
  removefromgroup st slack u g = None <-> removefromgroup_fault st slack u g.
Proof.
  intros Hok Hroom Hu Hg Hs1 Hs2 Hsmall. rewrite removefromgroup_eq by done.
  unfold removefromgroup_fault.
  pose proof (Hsmall u) as Hlu. pose proof (Hsmall g) as Hlg.
  unfold entries_at in *.
  destruct (entry_at st u) as [eu|] eqn:Heu; [|by split; [|intros [[? ?] _]]].
  destruct (entry_at st g) as [eg|] eqn:Heg; [|by split; [|intros [_ [[? ?] _]]]].
  case_decide as Hout; [by destruct Hout; split; eauto|].
  assert (Hno : ~ (slack.1 = [] /\ Forall (fun y => y < g) (d_entries eu))) by exact Hout.
  destruct (remove_sorted g _) as [lu|] eqn:Hru; [|naive_solver].
  destruct (remove_sorted u _) as [lg|] eqn:Hrg; [|naive_solver].
  apply remove_sorted_Permutation in Hru, Hrg.
  rewrite Hru in Hlu. rewrite Hrg in Hlg. simpl in Hlu, Hlg.
  destruct (store_pair_total st u g eu eg lu lg) as [st1 ->]; [done..|lia|lia|].
  naive_solver.
Qed.

(** The calls without a defined result, in a state the server can hold. *)
Definition pr_fault env st (req : pr_request) : Prop :=
  match req with
  | NewEntry _ flag _ => new_entry_fault env st flag
  | AddToGroup u g => superuser env = true /\ addtogroup_fault st (e_slack env) u g
  | RemoveFromGroup u g =>
      superuser env = true /\ removefromgroup_fault st (e_slack env) u g
  | IsAMemberOf u _ _ => entry_at st u = None
  | _ => False
  end.

Lemma listelements_total st malloc id b :
  pt_ok st -> exists r, listelements st malloc id b = Some r /\
    (r.2 = val_unset <-> entry_at st id = None).
Proof.
  intros Hok. unfold listelements. rewrite get_disk_entry_spec by done.
  destruct (entry_at st id); cbn [mbind option_bind]; [|by eexists].
  case_match; by eexists.
Qed.

Lemma pr_none_iff {A} (r : option A) (P : Prop) : is_Some r -> ~ P -> r = None <-> P.
Proof. intros [? ->] ?. by split. Qed.

(** C34: which calls have no result.  In a consistent state with at most 4899
    members per list, and encoders that have room for the records the server
    makes, a call returns a status unless it is one of these: IsAMemberOf of
    an unknown id ([free] of a pointer that was never set); a superuser's
    NewEntry when the id counter overflows; a superuser's AddToGroup of two
    known ids when there is no word behind one of the two arrays; a
    superuser's RemoveFromGroup of two known ids when there is no word behind
    the user's array and all the user's groups have smaller ids.  (The ids are
    32 bit words, and the words behind the arrays of RemoveFromGroup are not
    the ids it looks for.) *)
Theorem pts_answers realm env req st :
  pt_ok st -> req_ok env req -> encoder_room -> header_room ->
  (forall id, Z.of_nat (length (entries_at st id)) < 4900) ->
  pr_execute realm env req st = None <-> pr_fault env st req.
Proof.
  intros Hok Hreq Hroom Hhead Hsmall.
  destruct req; simpl in *; try (apply pr_none_iff; [by eexists|tauto]).
  - destruct (SPR_NameToID env st nlist). apply pr_none_iff; [by eexists|tauto].
  - apply pr_none_iff; [|tauto]. unfold SPR_IDToName.
    repeat case_match; simpl; try by eauto.
    destruct (idtoname_total st ilist Hok) as (? & ? & ->). by eauto.
  - rewrite <- (new_entry_total realm env st name flag oid) by done.
    by destruct (SPR_NewEntry _ _ _ _ _ _) as [[[? ?] ?]|].
  - apply pr_none_iff; [|tauto].
    destruct (inew_entry_total realm env st name id oid Hok Hroom) as (? & ? & ->).
    by eauto.
  - apply pr_none_iff; [|tauto].
    unfold SPR_ListEntry, read_prentry. rewrite get_disk_entry_spec by done.
    destruct (entry_at st id); simpl; by eauto.
  - destruct Hreq. rewrite <- addtogroup_total by done. unfold SPR_AddToGroup.
    destruct (superuser env); simpl; [|naive_solver].
    destruct (addtogroup _ _ _ _) as [[? ?]|]; naive_solver.
  - destruct Hreq as (? & ? & ? & ?). rewrite <- removefromgroup_total by done.
    unfold SPR_RemoveFromGroup. destruct (superuser env); simpl; [|naive_solver].
    destruct (removefromgroup _ _ _ _) as [[? ?]|]; naive_solver.
  - apply pr_none_iff; [|tauto]. unfold SPR_ListElements.
    destruct (listelements_total st (e_malloc env) id false Hok) as ([? ?] & -> & _). by eauto.
  - apply pr_none_iff; [|tauto]. unfold SPR_GetCPS.
    destruct (listelements_total st (e_malloc env) id true Hok) as ([? ?] & -> & _). by eauto.
  - unfold SPR_IsAMemberOf.
    destruct (listelements_total st (e_malloc env) uid true Hok) as ([s v] & -> & Hv).
    simpl in *. destruct v; simpl; naive_solver.
Qed.

(** ids survive a restart.  When an id was handed out, the header on
    disk records it: reading the header back, whatever the memory held,
    gives the state that will hand out the following id. *)
Theorem pts_ids_persistent st id st' h :
  next_free_user_id st = Some (inr id, st') ->
  id = h_maxID (pr_header st) + 1 /\ h_maxID (pr_header st') = id /\
  read_header (set_header st' h) = Some st'.
Proof.
  unfold next_free_user_id.
  destruct (int32_arith _) as [m|] eqn:Hm; [|done]. cbn [mbind option_bind].
  apply int32_arith_Some in Hm as [-> _]. case_match; [done|].
  destruct (write_header _) as [st1|] eqn:Hw; simpl; [|done]. intros [= <- <-].
  apply write_header_view in Hw as (Hn & Hh & _ & Hr). simpl in *.
  split_and!; [done|by rewrite Hh|].
  unfold read_header, set_header, mdb_fetch, NDBM_fetch; simpl.
  destruct (gdbm_fetch _ header_key) as [v|]; simpl in *; [|done].
  rewrite Hr. simpl. rewrite <- Hh. by destruct st1.
Qed.
End Theorems.

(** ** The theorems at work on concrete servers *)

Module Witnesses.
Import Words.

Lemma words_room : encoder_room.
Proof. intros e _ _ _. exact I. Qed.

Definition alice_entry : prentry_disk := Build_prentry_disk 0 1 0 (-204) (-204) 0 [] alice [-211].
Definition friends_entry : prentry_disk :=
  Build_prentry_disk 2 (-211) 0 (-204) (-204) 0 [] friends [1].
Definition admin_entry : prentry_disk :=
  Build_prentry_disk 2 (-204) 0 (-204) (-204) 0 [] name_administrators [].

Lemma busy_alice : entry_at busy_server 1 = Some alice_entry.
Proof. vm_compute. reflexivity. Qed.
Lemma busy_admin : entry_at busy_server (-204) = Some admin_entry.
Proof. vm_compute. reflexivity. Qed.

Definition short_record (v : bytes) : bool :=
  match ydr_decode (A:=prentry_disk) v with
  | Some e => Z.of_nat (length (d_entries e)) <? 4900 | None => true end.

Lemma small_by_check (st : ptserver db) id :
  bool_decide (map_Forall (fun _ v => short_record v = true) (idtodata st)) = true ->
  Z.of_nat (length (entries_at st id)) < 4900.
Proof.
  intros Hall%bool_decide_eq_true. unfold entries_at, entry_at. simpl gdbm_fetch.
  destruct (idtodata st !! id_key id) as [v|] eqn:Hv; [|simpl; lia].
  specialize (Hall _ _ Hv). unfold short_record in Hall. cbn [mbind option_bind].
  destruct (ydr_decode v); [by zbool|simpl; lia].
Qed.

Lemma busy_small id : Z.of_nat (length (entries_at busy_server id)) < 4900.
Proof. apply small_by_check. vm_compute. reflexivity. Qed.

Lemma pts_consistent_witness : pt_ok busy_server.
Proof.
  apply (pts_consistent [] empty_server fresh_server calls busy_server).
  - apply empty_pristine.
  - apply fresh_created.
  - apply calls_ok.
  - apply busy_ran.
Defined.

Lemma pts_create_lookup_witness :
  exists st', create_user busy_server [98; 111; 98] 7 0 0 = Some (0, st') /\
    conv_name_to_id st' [98; 111; 98] = inr 7.
Proof.
  destruct (pts_create_lookup busy_server [98; 111; 98] 7 0 0) as (st' & H1 & H2 & _).
  - apply busy_ok.
  - by unfold is_int32.
  - vm_compute. reflexivity.
  - vm_compute. reflexivity.
  - exact I.
  - exists st'. split; [exact H1|exact H2].
Defined.

Lemma pts_create_exists_witness :
  create_user busy_server alice 9 0 0 = Some (PREXIST, busy_server) /\
  create_group busy_server alice 9 0 0 = Some (PREXIST, busy_server).
Proof.
  apply (pts_create_exists busy_server alice 9 0 0).
  - apply busy_ok.
  - right. exists 1. vm_compute. reflexivity.
Defined.

Lemma pts_array_loops_witness :
  (array_insert (da_load [-204; 3] [99]) 2 ≫= da_unload) = Some [-204; 2; 3].
Proof. apply (pts_array_loops [-204; 3] [99] 2). vm_compute. reflexivity. Defined.

(** Two users and two groups, each user in one of the groups. *)
Definition crossed_calls : list (pr_env * pr_request) :=
  [(root_env, INewEntry alice 1 0); (root_env, INewEntry friends (-300) 0);
   (root_env, INewEntry [98] 7 0); (root_env, INewEntry [99] (-5) 0);
   (root_env, AddToGroup 1 (-5)); (root_env, AddToGroup 7 (-300))].
Definition crossed_server : ptserver db :=
  default empty_server (pr_run [] crossed_calls fresh_server).

Lemma crossed_ran : pr_run [] crossed_calls fresh_server = Some crossed_server.
Proof. apply default_is_some. vm_compute. reflexivity. Qed.

Lemma crossed_calls_ok : Forall (fun c => req_ok c.1 c.2) crossed_calls.
Proof. repeat constructor; by vm_compute. Qed.

Lemma crossed_ok : pt_ok crossed_server.
Proof.
  eapply pr_run_pt_ok; [apply fresh_ok|apply crossed_calls_ok|apply crossed_ran].
Qed.

Lemma pts_remove_reads_past_end_witness :
  exists st', removefromgroup crossed_server ([-5], [7]) 7 (-5) = Some (0, st') /\
    entries_at st' 7 = [] /\ entries_at st' (-5) = [].
Proof.
  apply (pts_remove_reads_past_end crossed_server 7 (-5)
    (Build_prentry_disk 0 7 0 (-204) (-204) 0 [] [98] [-300])
    (Build_prentry_disk 2 (-5) 0 (-204) (-204) 0 [] [99] [1]) [] (-300) [] 1 [] []).
  - apply crossed_ok.
  - apply words_room.
  - by unfold is_int32.
  - by unfold is_int32.
  - lia.
  - vm_compute. reflexivity.
  - vm_compute. reflexivity.
  - reflexivity.
  - reflexivity.
  - repeat constructor.
  - repeat constructor.
  - simpl. lia.
  - simpl. lia.
Defined.

Lemma pts_add_past_end_witness :
  addtogroup busy_server ([], [0]) 1 (-204) = None.
Proof.
  apply (pts_add_past_end busy_server ([], [0]) 1 (-204) alice_entry admin_entry).
  - apply busy_ok.
  - apply busy_alice.
  - apply busy_admin.
  - vm_compute. reflexivity.
  - vm_compute. reflexivity.
  - by left.
Defined.


Lemma pts_unauthorised_readonly_witness :
  superuser anon_env = false /\
  (forall s out st', pr_execute [] anon_env (AddToGroup 1 (-204)) busy_server = Some (s, out, st') ->
   nametoid st' = nametoid busy_server /\ idtodata st' = idtodata busy_server).
Proof.
  split; [reflexivity|]. intros s out st' H.
  apply (pts_unauthorised_readonly [] anon_env (AddToGroup 1 (-204)) busy_server s out st').
  - reflexivity.
  - exact H.
Defined.

Lemma pts_setmax_unguarded_witness :
  exists st', pr_execute [] anon_env (SetMax 100 0) busy_server = Some (0, ONone, st') /\
    h_maxID (pr_header st') = 100 /\
    forall id st2, next_free_user_id st' = Some (inr id, st2) -> id = 100 + 1.
Proof.
  apply (pts_setmax_unguarded [] anon_env busy_server 100). by unfold is_int32.
Defined.

Lemma pts_answers_witness :
  pr_execute [] root_env (IsAMemberOf 77 (-211) 0) busy_server = None.
Proof.
  apply (pts_answers [] root_env (IsAMemberOf 77 (-211) 0) busy_server).
  - apply busy_ok.
  - exact I.
  - apply words_room.
  - intros h _. exact I.
  - apply busy_small.
  - vm_compute. reflexivity.
Defined.

Lemma pts_ids_persistent_witness :
  exists st', next_free_user_id busy_server = Some (inr 2, st') /\
    h_maxID (pr_header st') = 2 /\ read_header (set_header st' zero_header) = Some st'.
Proof.
  destruct (next_free_user_id busy_server) as [[[e|id] st']|] eqn:Hx.
  - exfalso. assert (Hb : match next_free_user_id busy_server with
      | Some (inr 2, _) => true | _ => false end = true) by (vm_compute; reflexivity).
    by rewrite Hx in Hb.
  - destruct (pts_ids_persistent busy_server id st' zero_header Hx) as (Hid & Hm & Hr).
    assert (Hid2 : id = 2).
    { assert (Hb : h_maxID (pr_header busy_server) = 1) by (vm_compute; reflexivity).
      rewrite Hid, Hb. reflexivity. }
    rewrite Hid2 in Hm. rewrite Hid2. exists st'.
    split; [reflexivity|]. split; [exact Hm|exact Hr].
  - exfalso. assert (Hb : match next_free_user_id busy_server with
      | Some (inr 2, _) => true | _ => false end = true) by (vm_compute; reflexivity).
    by rewrite Hx in Hb.
Defined.
End Witnesses.
