(* ===== verification/Vldb.v ===== *)
(** * The volume location server (milko/vldb: vl_db.c, vl_disk.c, vldbserver.c)

    Two databases: [nametodata] maps a volume name to its encoded
    [disk_vlentry] (and a five byte key of zeros to the header), [idtoname]
    maps a volume id, as it lies in memory, to the name.  A call returns a
    status, 0 for success; [None] is the end of the process ([err], a failed
    [assert] or an access outside an allocation).  [vldb_flush] writes the
    databases to disk and is not modelled. *)

From S2P Require Import Prelude Mdb Msecurity.

(** ** Constants (rxdef/vldb.xg) *)

Definition MAXNSERVERS : Z := 8.
Definition NMAXNSERVERS : Z := 13.
Definition VLDB_MAXNAMELEN : nat := 65.
Definition RWVOL : nat := 0.
Definition ROVOL : nat := 1.
Definition BACKVOL : nat := 2.
Definition VL_IO : Z := 363521.
Definition VL_NAMEEXIST : Z := 363522.
Definition VL_NOENT : Z := 363524.
Definition VL_BADVOLTYPE : Z := 363529.
Definition VL_PERM : Z := 363546.
Definition RXGEN_OPCODE : Z := -455.
(** [sizeof (vital_vlheader)], ten words. *)
Definition VITAL_VLHEADER_SIZE : Z := 40.

(** ** Data *)

Record vldbentry := {
  v_name : bytes;
  v_volumeType : Z;
  v_nServers : Z;
  v_serverNumber : list Z;
  v_serverPartition : list Z;
  v_serverFlags : list Z;
  v_volumeId : list Z;
  v_cloneId : Z;
  v_flags : Z;
}.

Record nvldbentry := {
  n_name : bytes;
  n_nServers : Z;
  n_serverNumber : list Z;
  n_serverPartition : list Z;
  n_serverFlags : list Z;
  n_volumeId : list Z;
  n_cloneId : Z;
  n_flags : Z;
}.

Record disk_vlentry := {
  k_volumeId : list Z;
  k_flags : Z;
  k_cloneId : Z;
  k_name : bytes;
  k_serverNumber : list Z;
  k_serverPartition : list Z;
  k_serverFlags : list Z;
}.

Record vital_vlheader := {
  l_vldbversion : Z;
  l_headersize : Z;
  l_freePtr : Z;
  l_eofPtr : Z;
  l_allocs : Z;
  l_frees : Z;
  l_MaxVolumeId : Z;
  l_totalEntries : list Z;
}.

#[export] Instance disk_vlentry_eq_dec : EqDecision disk_vlentry.
Proof. solve_decision. Defined.

(** The arrays of the C structures have their declared lengths. *)
Definition vldbentry_shape (e : vldbentry) : Prop :=
  length (v_serverNumber e) = 8%nat /\ length (v_serverPartition e) = 8%nat /\
  length (v_serverFlags e) = 8%nat /\ length (v_volumeId e) = 3%nat.
Definition nvldbentry_shape (e : nvldbentry) : Prop :=
  length (n_serverNumber e) = 13%nat /\ length (n_serverPartition e) = 13%nat /\
  length (n_serverFlags e) = 13%nat /\ length (n_volumeId e) = 3%nat.

(** ** Conversions (vl_disk.c) *)

(** The words of [struct vldbentry] from [serverNumber] on; an index past the
    end of one array runs into the next. *)
Definition v_words (e : vldbentry) : list Z :=
  v_serverNumber e ++ v_serverPartition e ++ v_serverFlags e ++ v_volumeId e ++
  [v_cloneId e; v_flags e].

(** [for (i = 0; i < n; i++) dst[i] = words[off + i]] *)
Definition copy_words (words : list Z) (off n : nat) : list Z :=
  map (fun i => nth (off + i) words 0) (seq 0 n).

(** A negative count makes a length the later encoding cannot honour: the
    process ends, [None]. *)
Definition vldb_entry_to_disk (e : vldbentry) : option disk_vlentry :=
  let nservers := Z.min (v_nServers e) NMAXNSERVERS in
  if nservers <? 0 then None else
  let n := Z.to_nat nservers in
  Some {| k_volumeId := v_volumeId e; k_flags := v_flags e;
          k_cloneId := v_cloneId e; k_name := v_name e;
          k_serverNumber := copy_words (v_words e) 0 n;
          k_serverPartition := copy_words (v_words e) 8 n;
          k_serverFlags := copy_words (v_words e) 16 n |}.

Definition vldb_nentry_to_disk (e : nvldbentry) : option disk_vlentry :=
  let nservers := Z.min (n_nServers e) NMAXNSERVERS in
  if nservers <? 0 then None else
  let n := Z.to_nat nservers in
  Some {| k_volumeId := n_volumeId e; k_flags := n_flags e;
          k_cloneId := n_cloneId e; k_name := n_name e;
          k_serverNumber := copy_words (n_serverNumber e) 0 n;
          k_serverPartition := copy_words (n_serverPartition e) 0 n;
          k_serverFlags := copy_words (n_serverFlags e) 0 n |}.

(** [n] words of an array of [size] zeroed words. *)
Definition fill_array (size n : nat) (l : list Z) : list Z :=
  copy_words l 0 n ++ replicate (size - n) 0.

Definition vldb_disk_to_entry (d : disk_vlentry) : vldbentry :=
  let n := Z.to_nat (Z.min MAXNSERVERS (Z.of_nat (length (k_serverNumber d)))) in
  {| v_name := take VLDB_MAXNAMELEN (k_name d); v_volumeType := 0;
     v_nServers := Z.of_nat n;
     v_serverNumber := fill_array 8 n (k_serverNumber d);
     v_serverPartition := fill_array 8 n (k_serverPartition d);
     v_serverFlags := fill_array 8 n (k_serverFlags d);
     v_volumeId := k_volumeId d; v_cloneId := k_cloneId d; v_flags := k_flags d |}.

Definition vldb_disk_to_nentry (d : disk_vlentry) : nvldbentry :=
  let n := Z.to_nat (Z.min NMAXNSERVERS (Z.of_nat (length (k_serverNumber d)))) in
  {| n_name := take VLDB_MAXNAMELEN (k_name d);
     n_nServers := Z.of_nat n;
     n_serverNumber := fill_array 13 n (k_serverNumber d);
     n_serverPartition := fill_array 13 n (k_serverPartition d);
     n_serverFlags := fill_array 13 n (k_serverFlags d);
     n_volumeId := k_volumeId d; n_cloneId := k_cloneId d; n_flags := k_flags d |}.

(** ** State *)

Record vlserver (F : Type) := {
  idtoname : F;
  nametodata : F;
  vl_header : vital_vlheader;
}.
Arguments idtoname {F}.
Arguments nametodata {F}.
Arguments vl_header {F}.
Arguments Build_vlserver {F}.

Section Vldb.
Context {F : Type} `{Gdbm F} `{Ydr disk_vlentry} `{Ydr vital_vlheader}.
Implicit Types st : vlserver F.

Definition set_idtoname st (d : F) : vlserver F :=
  Build_vlserver d (nametodata st) (vl_header st).
Definition set_nametodata st (d : F) : vlserver F :=
  Build_vlserver (idtoname st) d (vl_header st).
Definition set_vl_header st (h : vital_vlheader) : vlserver F :=
  Build_vlserver (idtoname st) (nametodata st) h.

(** ** Databases (vl_db.c) *)

(** [char headerid[] = "\0\0\0\0"], with its terminator. *)
Definition vl_headerid : bytes := [0; 0; 0; 0; 0].

Definition vldb_write_header st : option (vlserver F) :=
  v ← ydr_encode (vl_header st);
  let '(code, d) := mdb_store (nametodata st) vl_headerid v in
  if code =? 0 then Some (set_nametodata st d) else None.

Definition vldb_read_header st : option (vlserver F) :=
  match mdb_fetch (nametodata st) vl_headerid with
  | inl _ => None
  | inr v => h ← ydr_decode v; Some (set_vl_header st h)
  end.

Definition vl_create_database st : option (vlserver F) :=
  vldb_write_header (set_vl_header st
    {| l_vldbversion := 0; l_headersize := VITAL_VLHEADER_SIZE; l_freePtr := 0;
       l_eofPtr := VITAL_VLHEADER_SIZE; l_allocs := 0; l_frees := 0;
       l_MaxVolumeId := 0x20000000; l_totalEntries := [0; 0; 0] |}).

Definition vldb_write_entry st (e : disk_vlentry) : option (Z * vlserver F) :=
  v ← ydr_encode e;
  let '(ret, d) := mdb_store (nametodata st) (k_name e) v in
  Some (ret, set_nametodata st d).

(** [inl] is the error, [inr] the entry. *)
Definition vldb_read_entry st (name : bytes) : option (Z + disk_vlentry) :=
  match mdb_fetch (nametodata st) name with
  | inl ret => Some (inl ret)
  | inr v => e ← ydr_decode v; Some (inr e)
  end.

Definition vldb_delete_entry st (name : bytes) : Z * vlserver F :=
  let '(ret, d) := mdb_delete (nametodata st) name in
  (ret, set_nametodata st d).

(** The key is the id as it lies in memory, signed or not. *)
Definition vldb_id_to_name st (volid : Z) : Z + bytes :=
  mdb_fetch (idtoname st) (le32 volid).

(** The result of the store is ignored. *)
Definition vldb_write_id st (name : bytes) (volid : Z) : Z * vlserver F :=
  if uwrap32 volid =? 0 then (0, st) else
  let '(_, d) := mdb_store (idtoname st) (le32 volid) name in
  (0, set_idtoname st d).

Definition vldb_delete_id st (volid : Z) : Z * vlserver F :=
  if uwrap32 volid =? 0 then (0, st) else
  let '(ret, d) := mdb_delete (idtoname st) (le32 volid) in
  (ret, set_idtoname st d).

(** ** Calls (vldbserver.c) *)

Definition id_known st (volid : Z) : bool :=
  match vldb_id_to_name st volid with inr _ => true | inl _ => false end.

(** The common part of [SVL_CreateEntry] and [SVL_CreateEntryN] after the
    superuser test: [name] and [ids] of the new entry, [disk] its conversion. *)
Definition create_entry st (name : bytes) (ids : list Z)
    (disk : option disk_vlentry) : option (Z * vlserver F) :=
  if id_known st (nth RWVOL ids 0) || id_known st (nth ROVOL ids 0) ||
     id_known st (nth BACKVOL ids 0)
  then Some (VL_NAMEEXIST, st) else
  r ← vldb_read_entry st name;
  match r with
  | inr _ => Some (VL_NAMEEXIST, st)
  | inl _ =>
      d ← disk;
      r ← vldb_write_entry st d;
      let '(ret, st) := r in
      if negb (ret =? 0) then Some (VL_IO, st) else
      let '(ret, st) := vldb_write_id st name (nth RWVOL ids 0) in
      if negb (ret =? 0) then Some (VL_IO, st) else
      let '(ret, st) := vldb_write_id st name (nth ROVOL ids 0) in
      if negb (ret =? 0) then Some (VL_IO, st) else
      let '(ret, st) := vldb_write_id st name (nth BACKVOL ids 0) in
      if negb (ret =? 0) then Some (VL_IO, st) else
      Some (0, st)
  end.

Definition SVL_CreateEntry (su : bool) st (e : vldbentry) : option (Z * vlserver F) :=
  if negb su then Some (VL_PERM, st) else
  create_entry st (v_name e) (v_volumeId e) (vldb_entry_to_disk e).

Definition SVL_CreateEntryN (su : bool) st (e : nvldbentry) : option (Z * vlserver F) :=
  if negb su then Some (VL_PERM, st) else
  create_entry st (n_name e) (n_volumeId e) (vldb_nentry_to_disk e).

Definition SVL_DeleteEntry (su : bool) st (Volid voltype : Z)
  : option (Z * vlserver F) :=
  if negb su then Some (VL_PERM, st) else
  if negb (voltype =? Z.of_nat RWVOL) && negb (voltype =? Z.of_nat ROVOL) &&
     negb (voltype =? Z.of_nat BACKVOL)
  then Some (VL_BADVOLTYPE, st) else
  match vldb_id_to_name st Volid with
  | inl _ => Some (VL_NOENT, st)
  | inr name =>
    r ← vldb_read_entry st name;
    match r with
    | inl _ => Some (VL_NOENT, st)
    | inr e =>
      if negb (uwrap32 (nth (Z.to_nat voltype) (k_volumeId e) 0) =? uwrap32 Volid)
      then Some (VL_NOENT, st) else
      let '(ret, st) := vldb_delete_id st (nth RWVOL (k_volumeId e) 0) in
      if negb (ret =? 0) then Some (VL_IO, st) else
      let '(ret, st) := vldb_delete_id st (nth ROVOL (k_volumeId e) 0) in
      if negb (ret =? 0) then Some (VL_IO, st) else
      let '(ret, st) := vldb_delete_id st (nth BACKVOL (k_volumeId e) 0) in
      if negb (ret =? 0) then Some (VL_IO, st) else
      let '(ret, st) := vldb_delete_entry st name in
      if negb (ret =? 0) then Some (VL_IO, st) else
      Some (0, st)
    end
  end.

(** [voltype] is not looked at. *)
Definition get_disk_by_id st (Volid : Z) : option (Z + disk_vlentry) :=
  match vldb_id_to_name st Volid with
  | inl _ => Some (inl VL_NOENT)
  | inr name =>
      r ← vldb_read_entry st name;
      match r with
      | inl _ => Some (inl VL_NOENT)
      | inr e => Some (inr e)
      end
  end.

Definition isdigit (c : Z) : bool := (48 <=? c) && (c <=? 57).

Fixpoint atol_acc (s : bytes) (acc : Z) : Z :=
  match s with
  | c :: s' => if isdigit c then atol_acc s' (acc * 10 + (c - 48)) else acc
  | [] => acc
  end.

(** A number that is no [long] (64 bits) has no defined value. *)
Definition atol (s : bytes) : option Z :=
  guard (atol_acc s 0 < 2^63);; Some (atol_acc s 0).

Definition get_disk_by_name st (volumename : bytes) : option (Z + disk_vlentry) :=
  if match volumename with c :: _ => isdigit c | [] => false end
  then n ← atol volumename; get_disk_by_id st (swrap32 n)
  else
    r ← vldb_read_entry st volumename;
    match r with
    | inl _ => Some (inl VL_NOENT)
    | inr e => Some (inr e)
    end.

Definition sum_map {A B} (f : A -> B) (r : Z + A) : Z + B :=
  match r with inl e => inl e | inr a => inr (f a) end.

Definition SVL_GetEntryByID st (Volid : Z) : option (Z + vldbentry) :=
  sum_map vldb_disk_to_entry <$> get_disk_by_id st Volid.
Definition SVL_GetEntryByName st (volumename : bytes) : option (Z + vldbentry) :=
  sum_map vldb_disk_to_entry <$> get_disk_by_name st volumename.
Definition SVL_GetEntryByIDN st (Volid : Z) : option (Z + nvldbentry) :=
  sum_map vldb_disk_to_nentry <$> get_disk_by_id st Volid.
Definition SVL_GetEntryByNameN st (volumename : bytes) : option (Z + nvldbentry) :=
  sum_map vldb_disk_to_nentry <$> get_disk_by_name st volumename.

Definition set_MaxVolumeId (h : vital_vlheader) (n : Z) : vital_vlheader :=
  {| l_vldbversion := l_vldbversion h; l_headersize := l_headersize h;
     l_freePtr := l_freePtr h; l_eofPtr := l_eofPtr h; l_allocs := l_allocs h;
     l_frees := l_frees h; l_MaxVolumeId := n; l_totalEntries := l_totalEntries h |}.

(** [inr] is the lowest of the [bumpcount] new ids. *)
Definition SVL_GetNewVolumeId (su : bool) st (bumpcount : Z)
  : option ((Z + Z) * vlserver F) :=
  if negb su then Some (inl VL_PERM, st) else
  let newvolumid := l_MaxVolumeId (vl_header st) in
  next ← int32_arith (newvolumid + bumpcount);
  st ← vldb_write_header (set_vl_header st
         (set_MaxVolumeId (vl_header st) next));
  Some (inr newvolumid, st).

(** ** The dispatcher *)

Inductive vl_request :=
  | CreateEntry (e : vldbentry)
  | CreateEntryN (e : nvldbentry)
  | DeleteEntry (Volid voltype : Z)
  | GetEntryByID (Volid voltype : Z)
  | GetEntryByName (volumename : bytes)
  | GetEntryByIDN (Volid voltype : Z)
  | GetEntryByNameN (volumename : bytes)
  | GetNewVolumeId (bumpcount : Z)
  | SetLock | ReleaseLock | RegisterAddrs
  | ReplaceEntry | UpdateEntry | UpdateEntryByName | ReplaceEntryN | ChangeAddrs
  | ListEntry | ListAttributes | GetStats | ListAttributesN | ListEntryN
  | GetAddrs | ListAttributesN2
  | GetAddrsU
  | Probe.

Inductive vl_out :=
  | VNone
  | VEntry (e : vldbentry)
  | VNEntry (e : nvldbentry)
  | VId (newvolumid : Z).

(** The calls that neither read nor write the databases. *)
Definition vl_stub (su : bool) (req : vl_request) : Z :=
  match req with
  | SetLock | ReleaseLock | RegisterAddrs => if negb su then VL_PERM else 0
  | GetAddrsU => RXGEN_OPCODE
  | Probe => 0
  | _ => VL_PERM
  end.

Definition vl_execute (ms : msec) (conn : rx_conn) (req : vl_request) st
  : option (Z * vl_out * vlserver F) :=
  let su := sec_is_superuser ms conn in
  let update (r : option (Z * vlserver F)) := '(s, st) ← r; Some (s, VNone, st) in
  let query {A} (f : A -> vl_out) (r : option (Z + A)) :=
    r ← r;
    match r with
    | inl s => Some (s, VNone, st)
    | inr e => Some (0, f e, st)
    end in
  match req with
  | CreateEntry e => update (SVL_CreateEntry su st e)
  | CreateEntryN e => update (SVL_CreateEntryN su st e)
  | DeleteEntry v t => update (SVL_DeleteEntry su st v t)
  | GetEntryByID v _ => query VEntry (SVL_GetEntryByID st v)
  | GetEntryByName n => query VEntry (SVL_GetEntryByName st n)
  | GetEntryByIDN v _ => query VNEntry (SVL_GetEntryByIDN st v)
  | GetEntryByNameN n => query VNEntry (SVL_GetEntryByNameN st n)
  | GetNewVolumeId b =>
      '(r, st) ← SVL_GetNewVolumeId su st b;
      match r with
      | inl s => Some (s, VNone, st)
      | inr id => Some (0, VId id, st)
      end
  | _ => Some (vl_stub su req, VNone, st)
  end.
End Vldb.
