(* ===== verification/VldbCorrect.v ===== *)
(** * Correctness of the volume location server

    The consistency invariant of the two databases, the effect of each call
    on the abstract view, and the theorems. *)

From S2P Require Import Prelude Mdb Msecurity Vldb.

(** ** Conversions *)

Lemma length_copy_words w off n : length (copy_words w off n) = n.
Proof. unfold copy_words. by rewrite length_map, length_seq. Qed.

Lemma copy_words_take w off n :
  (off + n <= length w)%nat -> copy_words w off n = take n (drop off w).
Proof.
  intros Hn. unfold copy_words. apply list_eq. intros i.
  destruct (decide (i < n)%nat).
  - rewrite lookup_take_lt, lookup_drop, list_lookup_fmap, lookup_seq_lt by lia.
    destruct (lookup_lt_is_Some_2 w (off + i)) as [y Hy]; [lia|].
    rewrite Hy. simpl. f_equal. by apply nth_lookup_Some.
  - rewrite !lookup_ge_None_2; [done|..].
    + rewrite length_take. lia.
    + rewrite length_map, length_seq. lia.
Qed.

Lemma fill_array_exact size n l :
  (n <= length l)%nat -> fill_array size n l = take n l ++ replicate (size - n) 0.
Proof. intros. unfold fill_array. rewrite copy_words_take by lia. by rewrite drop_0. Qed.

(** The in-range part of the three server arrays. *)
Lemma v_words_number e n :
  vldbentry_shape e -> (n <= 8)%nat -> copy_words (v_words e) 0 n = take n (v_serverNumber e).
Proof.
  intros (H1 & H2 & H3 & H4) Hn. rewrite copy_words_take, drop_0.
  - unfold v_words. rewrite take_app_le by lia. done.
  - unfold v_words. rewrite !length_app. lia.
Qed.

Lemma v_words_partition e n :
  vldbentry_shape e -> (n <= 8)%nat -> copy_words (v_words e) 8 n = take n (v_serverPartition e).
Proof.
  intros (H1 & H2 & H3 & H4) Hn. rewrite copy_words_take.
  - unfold v_words. rewrite drop_app_length' by lia. by rewrite take_app_le by lia.
  - unfold v_words. rewrite !length_app. lia.
Qed.

Lemma v_words_flags e n :
  vldbentry_shape e -> (n <= 8)%nat -> copy_words (v_words e) 16 n = take n (v_serverFlags e).
Proof.
  intros (H1 & H2 & H3 & H4) Hn. rewrite copy_words_take.
  - unfold v_words. rewrite app_assoc, drop_app_length' by (rewrite length_app; lia).
    by rewrite take_app_le by lia.
  - unfold v_words. rewrite !length_app. lia.
Qed.

(** ** The abstract view *)

Section View.
Context {F : Type} `{GdbmLaws F}.
Context `{YdrLaws disk_vlentry} `{YdrLaws vital_vlheader}.
Implicit Types st : vlserver F.

Definition name_of st (v : Z) : option bytes := gdbm_fetch (idtoname st) (le32 v).
Definition data_at st (n : bytes) : option disk_vlentry :=
  gdbm_fetch (nametodata st) n ≫= ydr_decode.

(** No two volume types share an id (0 means none). *)
Definition ids_distinct (ids : list Z) : Prop :=
  NoDup (filter (fun i => i <> 0) (map uwrap32 ids)).

Definition has_id (ids : list Z) (v : Z) : Prop :=
  uwrap32 v <> 0 /\ uwrap32 v ∈ map uwrap32 ids.

#[export] Instance has_id_dec ids v : Decision (has_id ids v).
Proof. unfold has_id. apply _. Defined.

(** Ids and names index each other, and every entry is stored under its own
    name. *)
Record vl_ok st : Prop := {
  vk_decodes n v : n <> vl_headerid -> gdbm_fetch (nametodata st) n = Some v ->
    is_Some (ydr_decode (A:=disk_vlentry) v);
  vk_id v n : name_of st v = Some n ->
    n <> vl_headerid /\ exists e, data_at st n = Some e /\ has_id (k_volumeId e) v;
  vk_data n e : n <> vl_headerid -> data_at st n = Some e ->
    k_name e = n /\ length (k_volumeId e) = 3%nat /\ ids_distinct (k_volumeId e) /\
    forall v, has_id (k_volumeId e) v -> name_of st v = Some n;
}.

Lemma le32_eq x y : le32 x = le32 y <-> uwrap32 x = uwrap32 y.
Proof.
  split; [apply le32_inj|]. intros Heq. unfold le32, be32. by rewrite Heq.
Qed.

Lemma vldb_id_to_name_spec st v :
  vldb_id_to_name st v =
  match name_of st v with Some n => inr n | None => inl ENOENT end.
Proof. unfold vldb_id_to_name, name_of, mdb_fetch, NDBM_fetch. by destruct (gdbm_fetch _ _). Qed.

Lemma vldb_read_entry_spec st n :
  vl_ok st -> n <> vl_headerid ->
  vldb_read_entry st n =
  match data_at st n with Some e => Some (inr e) | None => Some (inl ENOENT) end.
Proof.
  intros Hok Hn. unfold vldb_read_entry, data_at, mdb_fetch, NDBM_fetch.
  destruct (gdbm_fetch _ _) as [v|] eqn:Hv; [|done]. cbn [mbind option_bind].
  destruct (vk_decodes st Hok n v Hn Hv) as [e ->]. done.
Qed.

Lemma name_of_zero st v : vl_ok st -> uwrap32 v = 0 -> name_of st v = None.
Proof.
  intros Hok Hv. destruct (name_of st v) eqn:Hn; [|done].
  apply vk_id in Hn as (_ & e & _ & [? _]); done.
Qed.

(** The effect of writing and of deleting one id. *)
Lemma vldb_write_id_view `{!GdbmReliable F} st name i :
  exists st', vldb_write_id st name i = (0, st') /\
    nametodata st' = nametodata st /\ vl_header st' = vl_header st /\
    forall v, name_of st' v =
      if decide (has_id [i] v) then Some name else name_of st v.
Proof.
  unfold vldb_write_id. destruct (Z.eqb_spec (uwrap32 i) 0) as [Hi|Hi].
  - exists st. split_and!; try done. intros v. rewrite decide_False; [done|].
    unfold has_id. simpl. rewrite list_elem_of_singleton. lia.
  - destruct (store_succeeds (idtoname st) (le32 i) name) as [d Hd]. rewrite Hd.
    eexists. split_and!; try done. intros v. unfold name_of; simpl.
    rewrite (store_lookup _ _ _ _ _ Hd). unfold has_id. simpl.
    destruct (decide (le32 i = le32 v)) as [Heq|Heq]; rewrite le32_eq in Heq.
    + rewrite decide_True; [done|]. rewrite list_elem_of_singleton. lia.
    + rewrite decide_False; [done|]. rewrite list_elem_of_singleton. intros []; congruence.
Qed.

Lemma vldb_delete_id_view `{!GdbmReliable F} st i :
  uwrap32 i = 0 \/ is_Some (name_of st i) ->
  exists st', vldb_delete_id st i = (0, st') /\
    nametodata st' = nametodata st /\ vl_header st' = vl_header st /\
    forall v, name_of st' v = if decide (has_id [i] v) then None else name_of st v.
Proof.
  intros Hi. unfold vldb_delete_id. destruct (Z.eqb_spec (uwrap32 i) 0) as [Hz|Hz].
  - exists st. split_and!; try done. intros v. rewrite decide_False; [done|].
    unfold has_id. simpl. rewrite list_elem_of_singleton. lia.
  - destruct Hi as [?|[n Hn]]; [done|].
    destruct (delete_succeeds (idtoname st) (le32 i) n Hn) as [d Hd]. rewrite Hd.
    eexists. split_and!; try done. intros v. unfold name_of; simpl.
    rewrite (delete_lookup _ _ _ _ Hd). unfold has_id. simpl.
    destruct (decide (le32 i = le32 v)) as [Heq|Heq]; rewrite le32_eq in Heq.
    + rewrite decide_True; [done|]. rewrite list_elem_of_singleton. lia.
    + rewrite decide_False; [done|]. rewrite list_elem_of_singleton. intros []; congruence.
Qed.

Lemma vldb_write_entry_view st e st' :
  vldb_write_entry st e = Some (0, st') ->
  idtoname st' = idtoname st /\ vl_header st' = vl_header st /\
  (forall n, data_at st' n = if decide (k_name e = n) then Some e else data_at st n) /\
  (forall n v, gdbm_fetch (nametodata st') n = Some v ->
     ydr_decode v = Some e \/ gdbm_fetch (nametodata st) n = Some v).
Proof.
  unfold vldb_write_entry. destruct (ydr_encode e) as [w|] eqn:Hw; simpl; [|done].
  destruct (mdb_store _ _ _) as [ret d] eqn:Hd. intros [= -> <-].
  apply ydr_roundtrip in Hw.
  change (nametodata (set_nametodata st d)) with d. split_and!; try done.
  - intros n. unfold data_at. change (nametodata (set_nametodata st d)) with d.
    rewrite (store_lookup _ _ _ _ _ Hd). by case_decide.
  - intros n v. rewrite (store_lookup _ _ _ _ _ Hd). case_decide; naive_solver.
Qed.

Lemma has_id_three r o b v :
  has_id [r; o; b] v <-> has_id [r] v \/ has_id [o] v \/ has_id [b] v.
Proof. unfold has_id. simpl. rewrite !elem_of_cons, elem_of_nil. naive_solver. Qed.

Lemma ids_distinct_three r o b :
  ids_distinct [r; o; b] <->
  (uwrap32 r <> 0 -> uwrap32 r <> uwrap32 o /\ uwrap32 r <> uwrap32 b) /\
  (uwrap32 o <> 0 -> uwrap32 o <> uwrap32 b).
Proof.
  unfold ids_distinct. simpl map. rewrite !filter_cons, filter_nil.
  repeat case_decide; rewrite ?NoDup_cons, ?elem_of_cons, ?elem_of_nil;
    split; intros; split_and?; try (by apply NoDup_nil); naive_solver lia.
Qed.

Lemma length_three (ids : list Z) : length ids = 3%nat -> exists r o b, ids = [r; o; b].
Proof. destruct ids as [|r [|o [|b [|]]]]; try done. by exists r, o, b. Qed.
Lemma name_of_cong st v w : uwrap32 v = uwrap32 w -> name_of st v = name_of st w.
Proof. intros Heq. unfold name_of. by rewrite (proj2 (le32_eq v w) Heq). Qed.

Lemma has_id_one i v : has_id [i] v <-> uwrap32 v <> 0 /\ uwrap32 v = uwrap32 i.
Proof. unfold has_id. simpl. by rewrite list_elem_of_singleton. Qed.

Lemma create_entry_view_enc `{!GdbmReliable F} st name r o b d w :
  vl_ok st -> name <> vl_headerid -> k_name d = name ->
  name_of st r = None -> name_of st o = None -> name_of st b = None ->
  data_at st name = None -> ydr_encode d = Some w ->
  exists st', create_entry st name [r; o; b] (Some d) = Some (0, st') /\
    vl_header st' = vl_header st /\
    (forall n, data_at st' n = if decide (name = n) then Some d else data_at st n) /\
    (forall v, name_of st' v = if decide (has_id [r; o; b] v) then Some name
                               else name_of st v) /\
    (forall n v, n <> vl_headerid -> gdbm_fetch (nametodata st') n = Some v ->
       is_Some (ydr_decode (A:=disk_vlentry) v)).
Proof.
  intros Hok Hname Hkn Hr Ho Hb Hdata Henc. unfold create_entry, id_known. simpl nth.
  rewrite !vldb_id_to_name_spec, Hr, Ho, Hb. cbn [orb].
  rewrite vldb_read_entry_spec, Hdata by done. cbn [mbind option_bind].
  assert (Hw : exists st1, vldb_write_entry st d = Some (0, st1)).
  { unfold vldb_write_entry. rewrite Henc; simpl.
    destruct (store_succeeds (nametodata st) (k_name d) w) as [dd ->]. by eauto. }
  destruct Hw as [st1 Hw]. rewrite Hw. cbn [mbind option_bind negb Z.eqb].
  apply vldb_write_entry_view in Hw as (Hi1 & Hh1 & Hd1 & Hdec1).
  destruct (vldb_write_id_view st1 name r) as (st2 & -> & Hn2 & Hh2 & Hv2). cbn [negb Z.eqb].
  destruct (vldb_write_id_view st2 name o) as (st3 & -> & Hn3 & Hh3 & Hv3). cbn [negb Z.eqb].
  destruct (vldb_write_id_view st3 name b) as (st4 & -> & Hn4 & Hh4 & Hv4). cbn [negb Z.eqb].
  assert (Hnd : nametodata st4 = nametodata st1) by congruence.
  exists st4. split_and!; [done|congruence|..].
  - intros n. unfold data_at at 1. rewrite Hnd. rewrite <- Hkn. apply Hd1.
  - intros v. rewrite Hv4, Hv3, Hv2. unfold name_of at 1. rewrite Hi1. fold (name_of st v).
    pose proof (has_id_three r o b v).
    repeat case_decide; try done; naive_solver.
  - intros n v Hn. rewrite Hnd. intros [?|?]%Hdec1; [by eexists|]. by eapply vk_decodes.
Qed.

Lemma vl_ok_create st st' name ids d :
  vl_ok st -> name <> vl_headerid -> k_name d = name -> k_volumeId d = ids ->
  length ids = 3%nat -> ids_distinct ids ->
  (forall v, has_id ids v -> name_of st v = None) -> data_at st name = None ->
  (forall n, data_at st' n = if decide (name = n) then Some d else data_at st n) ->
  (forall v, name_of st' v = if decide (has_id ids v) then Some name else name_of st v) ->
  (forall n v, n <> vl_headerid -> gdbm_fetch (nametodata st') n = Some v ->
     is_Some (ydr_decode (A:=disk_vlentry) v)) ->
  vl_ok st'.
Proof.
  intros Hok Hname Hkn Hki Hlen Hdist Hfree Hdata Hd Hv Hdec. split.
  - done.
  - intros v n. rewrite Hv. case_decide as Hc.
    + intros [= <-]. split; [done|]. exists d. rewrite Hd, decide_True by done.
      by rewrite Hki.
    + intros Hn. destruct (vk_id st Hok v n Hn) as (? & e & He & ?).
      split; [done|]. exists e. rewrite Hd, decide_False by congruence. done.
  - intros n e Hn. rewrite Hd. case_decide as Hc.
    + intros [= <-]. rewrite Hki, Hkn. split_and!; try done.
      intros v Hid. rewrite Hv, decide_True by done. by rewrite Hc.
    + intros He. destruct (vk_data st Hok n e Hn He) as (? & ? & ? & Hids).
      split_and!; try done. intros v Hid. rewrite Hv. case_decide as Hc2; [|by apply Hids].
      specialize (Hfree v Hc2). rewrite (Hids v Hid) in Hfree. done.
Qed.

(** The calls that delete the three ids of an entry. *)
Definition delete_ids st (r o b : Z) : Z * vlserver F :=
  let '(ret, st) := vldb_delete_id st r in
  if negb (ret =? 0) then (ret, st) else
  let '(ret, st) := vldb_delete_id st o in
  if negb (ret =? 0) then (ret, st) else vldb_delete_id st b.

Lemma SVL_DeleteEntry_eq su st Volid voltype :
  SVL_DeleteEntry su st Volid voltype =
  if negb su then Some (VL_PERM, st) else
  if negb (voltype =? 0) && negb (voltype =? 1) && negb (voltype =? 2)
  then Some (VL_BADVOLTYPE, st) else
  match name_of st Volid with
  | None => Some (VL_NOENT, st)
  | Some name =>
    r ← vldb_read_entry st name;
    match r with
    | inl _ => Some (VL_NOENT, st)
    | inr e =>
      if negb (uwrap32 (nth (Z.to_nat voltype) (k_volumeId e) 0) =? uwrap32 Volid)
      then Some (VL_NOENT, st) else
      let ids := k_volumeId e in
      let '(ret, st) := delete_ids st (nth 0 ids 0) (nth 1 ids 0) (nth 2 ids 0) in
      if negb (ret =? 0) then Some (VL_IO, st) else
      let '(ret, st) := vldb_delete_entry st name in
      if negb (ret =? 0) then Some (VL_IO, st) else Some (0, st)
    end
  end.
Proof.
  unfold SVL_DeleteEntry, delete_ids.
  change (Z.of_nat RWVOL) with 0. change (Z.of_nat ROVOL) with 1.
  change (Z.of_nat BACKVOL) with 2. do 2 (case_match; [done|]).
  rewrite vldb_id_to_name_spec. destruct (name_of st Volid); [|done].
  destruct (vldb_read_entry st _) as [[?|e]|]; [done| |done]. cbn [mbind option_bind].
  case_match; [done|]. unfold RWVOL, ROVOL, BACKVOL.
  destruct (vldb_delete_id st _) as [r1 st1]. destruct (r1 =? 0) eqn:E1; cbn [negb];
    [|by rewrite E1].
  destruct (vldb_delete_id st1 _) as [r2 st2]. destruct (r2 =? 0) eqn:E2; cbn [negb];
    [|by rewrite E2].
  destruct (vldb_delete_id st2 _) as [r3 st3]. done.
Qed.

Lemma delete_ids_view `{!GdbmReliable F} st r o b :
  ids_distinct [r; o; b] ->
  (forall v, has_id [r; o; b] v -> is_Some (name_of st v)) ->
  exists st', delete_ids st r o b = (0, st') /\
    nametodata st' = nametodata st /\ vl_header st' = vl_header st /\
    forall v, name_of st' v = if decide (has_id [r; o; b] v) then None else name_of st v.
Proof.
  intros Hdist Hsome. rewrite ids_distinct_three in Hdist. destruct Hdist as [Hd1 Hd2].
  assert (Hin : forall i, i ∈ [r; o; b] -> uwrap32 i = 0 \/ is_Some (name_of st i)).
  { intros i Hi. destruct (decide (uwrap32 i = 0)); [by left|right]. apply Hsome.
    split; [done|]. by apply list_elem_of_fmap_2. }
  unfold delete_ids.
  destruct (vldb_delete_id_view st r) as (st1 & -> & Hn1 & Hh1 & Hv1).
  { apply Hin. by left. }
  cbn [negb Z.eqb].
  destruct (vldb_delete_id_view st1 o) as (st2 & -> & Hn2 & Hh2 & Hv2).
  { destruct (Hin o) as [?|?]; [by right; left|by left|]. right.
    rewrite Hv1, decide_False; [done|]. rewrite has_id_one. intros []. naive_solver congruence. }
  cbn [negb Z.eqb].
  destruct (vldb_delete_id_view st2 b) as (st3 & -> & Hn3 & Hh3 & Hv3).
  { destruct (Hin b) as [?|?]; [by right; right; left|by left|]. right.
    rewrite Hv2, decide_False, Hv1, decide_False; [done|..]; rewrite has_id_one;
      intros []; naive_solver congruence. }
  exists st3. split_and!; [done|congruence|congruence|].
  intros v. rewrite Hv3, Hv2, Hv1. pose proof (has_id_three r o b v).
  repeat case_decide; try done; naive_solver.
Qed.
(** ** Calls keep the invariant *)

Lemma not_headerid name : is_cstr name -> name <> vl_headerid.
Proof. intros Hc ->. apply Forall_inv in Hc. simpl in Hc. lia. Qed.

Lemma create_entry_vl_ok `{!GdbmReliable F} st name ids disk s st' :
  vl_ok st -> is_cstr name -> length ids = 3%nat -> ids_distinct ids ->
  (forall d, disk = Some d -> k_name d = name /\ k_volumeId d = ids) ->
  create_entry st name ids disk = Some (s, st') -> vl_ok st'.
Proof.
  intros Hok Hname%not_headerid Hlen Hdist Hdisk Hc.
  destruct (length_three ids Hlen) as (r & o & b & ->).
  destruct (name_of st r) eqn:Hr; [|destruct (name_of st o) eqn:Ho;
    [|destruct (name_of st b) eqn:Hb; [|destruct (data_at st name) eqn:Hdata]]];
    try (revert Hc; unfold create_entry, id_known; simpl nth;
      rewrite !vldb_id_to_name_spec, ?Hr, ?Ho, ?Hb; cbn [orb];
      rewrite ?vldb_read_entry_spec, ?Hdata by done; naive_solver).
  destruct disk as [d|].
  2:{ revert Hc. unfold create_entry, id_known. simpl nth.
      rewrite !vldb_id_to_name_spec, Hr, Ho, Hb. cbn [orb].
      rewrite vldb_read_entry_spec, Hdata by done. done. }
  destruct (Hdisk d eq_refl) as [Hkn Hki].
  destruct (ydr_encode d) as [w|] eqn:Hw.
  2:{ revert Hc. unfold create_entry, id_known, vldb_write_entry. simpl nth.
      rewrite !vldb_id_to_name_spec, Hr, Ho, Hb. cbn [orb].
      rewrite vldb_read_entry_spec, Hdata by done. cbn [mbind option_bind]. by rewrite Hw. }
  destruct (create_entry_view_enc st name r o b d w) as (st2 & Hc2 & _ & Hd & Hv & Hdec); try done.
  assert (st' = st2) as -> by congruence.
  apply (vl_ok_create st st2 name [r; o; b] d); try done.
  intros v. rewrite has_id_three, !has_id_one.
  intros [[_ ->%(name_of_cong st)]|[[_ ->%(name_of_cong st)]|[_ ->%(name_of_cong st)]]]; done.
Qed.

Lemma delete_entry_view `{!GdbmReliable F} st Volid voltype name e :
  vl_ok st -> 0 <= voltype <= 2 ->
  name_of st Volid = Some name -> data_at st name = Some e ->
  uwrap32 (nth (Z.to_nat voltype) (k_volumeId e) 0) = uwrap32 Volid ->
  exists st', SVL_DeleteEntry true st Volid voltype = Some (0, st') /\
    vl_header st' = vl_header st /\
    (forall n, data_at st' n = if decide (name = n) then None else data_at st n) /\
    (forall v, name_of st' v =
       if decide (has_id (k_volumeId e) v) then None else name_of st v) /\
    (forall n v, gdbm_fetch (nametodata st') n = Some v ->
       gdbm_fetch (nametodata st) n = Some v).
Proof.
  intros Hok Hvt Hn He Hid. destruct (vk_id st Hok Volid name Hn) as (Hname & _).
  destruct (vk_data st Hok name e Hname He) as (Hkn & Hlen & Hdist & Hids).
  destruct (length_three _ Hlen) as (r & o & b & Hrob). rewrite Hrob in *.
  destruct (delete_ids_view st r o b) as (st1 & Hdel & Hn1 & Hh1 & Hv1); [done|by eauto|].
  assert (Hf : exists w, gdbm_fetch (nametodata st1) name = Some w).
  { rewrite Hn1. unfold data_at in He. destruct (gdbm_fetch _ _); [by eauto|done]. }
  destruct Hf as [w Hf].
  destruct (delete_succeeds (nametodata st1) name w Hf) as [d Hd].
  exists (set_nametodata st1 d). split_and!; [|done|..].
  - rewrite SVL_DeleteEntry_eq. cbn [negb]. rewrite Hn.
    replace (negb (voltype =? 0) && negb (voltype =? 1) && negb (voltype =? 2))
      with false by lia.
    rewrite vldb_read_entry_spec, He by done. cbn [mbind option_bind].
    rewrite Hrob, Hid, Z.eqb_refl. cbn [negb nth]. rewrite Hdel. cbn [negb Z.eqb].
    unfold vldb_delete_entry. rewrite Hd. done.
  - intros n. unfold data_at. change (nametodata (set_nametodata st1 d)) with d.
    rewrite (delete_lookup _ _ _ _ Hd), Hn1. by case_decide.
  - intros v. apply Hv1.
  - intros n v. change (nametodata (set_nametodata st1 d)) with d.
    rewrite (delete_lookup _ _ _ _ Hd), Hn1. by case_decide.
Qed.

Lemma vl_ok_delete st st' name e :
  vl_ok st -> name <> vl_headerid -> data_at st name = Some e ->
  (forall n, data_at st' n = if decide (name = n) then None else data_at st n) ->
  (forall v, name_of st' v =
     if decide (has_id (k_volumeId e) v) then None else name_of st v) ->
  (forall n v, gdbm_fetch (nametodata st') n = Some v ->
     gdbm_fetch (nametodata st) n = Some v) -> vl_ok st'.
Proof.
  intros Hok Hname He Hd Hv Hf.
  destruct (vk_data st Hok name e Hname He) as (_ & _ & _ & Hids). split.
  - intros n v Hn Hnv. by eapply vk_decodes, Hf.
  - intros v n. rewrite Hv. case_decide as Hc; [done|]. intros Hn.
    destruct (vk_id st Hok v n Hn) as (Hnn & e' & He' & Hid). split; [done|].
    exists e'. rewrite Hd. case_decide as Hc2; [|done]. by simplify_eq.
  - intros n e' Hn. rewrite Hd. case_decide as Hc; [done|]. intros He'.
    destruct (vk_data st Hok n e' Hn He') as (? & ? & ? & Hids').
    split_and!; try done. intros v Hid. rewrite Hv. case_decide as Hc2; [|by apply Hids'].
    specialize (Hids v Hc2). rewrite (Hids' v Hid) in Hids. congruence.
Qed.

Lemma SVL_DeleteEntry_vl_ok `{!GdbmReliable F} su st Volid voltype s st' :
  vl_ok st -> SVL_DeleteEntry su st Volid voltype = Some (s, st') -> vl_ok st'.
Proof.
  intros Hok. destruct su; [|unfold SVL_DeleteEntry; naive_solver].
  destruct (decide (0 <= voltype <= 2)) as [Hvt|Hvt].
  2:{ rewrite SVL_DeleteEntry_eq. cbn [negb].
      replace (negb (voltype =? 0) && negb (voltype =? 1) && negb (voltype =? 2))
        with true by lia. naive_solver. }
  destruct (name_of st Volid) as [name|] eqn:Hn.
  2:{ rewrite SVL_DeleteEntry_eq, Hn. repeat case_match; naive_solver. }
  destruct (vk_id st Hok Volid name Hn) as (Hname & e & He & _).
  destruct (Z.eqb_spec (uwrap32 (nth (Z.to_nat voltype) (k_volumeId e) 0)) (uwrap32 Volid))
    as [Hid|Hid].
  - destruct (delete_entry_view st Volid voltype name e Hok Hvt Hn He Hid)
      as (st2 & Hdel & _ & Hd & Hv & Hf).
    rewrite Hdel. intros [= <- <-]. by eapply (vl_ok_delete st).
  - rewrite SVL_DeleteEntry_eq, Hn, vldb_read_entry_spec, He by done. cbn [mbind option_bind].
    rewrite (proj2 (Z.eqb_neq _ _) Hid). cbn [negb]. repeat case_match; naive_solver.
Qed.

Lemma vldb_write_header_view st st' :
  vldb_write_header st = Some st' ->
  idtoname st' = idtoname st /\ vl_header st' = vl_header st /\
  (forall n, n <> vl_headerid ->
     gdbm_fetch (nametodata st') n = gdbm_fetch (nametodata st) n) /\
  gdbm_fetch (nametodata st') vl_headerid ≫= ydr_decode = Some (vl_header st).
Proof.
  unfold vldb_write_header. destruct (ydr_encode _) as [v|] eqn:Hv; simpl; [|done].
  destruct (mdb_store _ _ _) as [code d] eqn:Hd. case_match; [|done]. zbool. subst.
  intros [= <-]. change (nametodata (set_nametodata st d)) with d.
  split_and!; try done.
  - intros n Hn. by rewrite (store_lookup _ _ _ _ _ Hd), decide_False by done.
  - rewrite (store_lookup _ _ _ _ _ Hd), decide_True by done. simpl.
    by apply ydr_roundtrip.
Qed.

Lemma vldb_write_header_vl_ok st st' :
  vl_ok st -> vldb_write_header st = Some st' -> vl_ok st'.
Proof.
  intros Hok (Hi & _ & Hf & _)%vldb_write_header_view.
  assert (Hn : forall v, name_of st' v = name_of st v).
  { intros. unfold name_of. by rewrite Hi. }
  assert (Hd : forall n, n <> vl_headerid -> data_at st' n = data_at st n).
  { intros. unfold data_at. by rewrite Hf. }
  split.
  - intros n v Hne. rewrite Hf by done. by apply vk_decodes.
  - intros v n. rewrite Hn. intros (Hne & e & He & ?)%(vk_id st Hok).
    split; [done|]. exists e. by rewrite Hd.
  - intros n e Hne. rewrite Hd by done. intros He.
    destruct (vk_data st Hok n e Hne He) as (? & ? & ? & ?).
    split_and!; try done. intros v. rewrite Hn. auto.
Qed.

Lemma vl_ok_header st h : vl_ok st -> vl_ok (set_vl_header st h).
Proof. intros [???]. by split. Qed.

(** Arguments as the RPC layer delivers them; the ids of a new entry differ. *)
Definition vl_req_ok (req : vl_request) : Prop :=
  match req with
  | CreateEntry e => is_cstr (v_name e) /\ vldbentry_shape e /\ ids_distinct (v_volumeId e)
  | CreateEntryN e => is_cstr (n_name e) /\ nvldbentry_shape e /\ ids_distinct (n_volumeId e)
  | _ => True
  end.

Lemma vl_execute_vl_ok `{!GdbmReliable F} ms conn req st s out st' :
  vl_ok st -> vl_req_ok req ->
  vl_execute ms conn req st = Some (s, out, st') -> vl_ok st'.
Proof.
  intros Hok Hreq. unfold vl_execute. set (su := sec_is_superuser ms conn).
  destruct req; simpl in Hreq; try (intros; by simplify_eq).
  - destruct (SVL_CreateEntry su st e) as [[r st1]|] eqn:Hc; simpl; [|done].
    intros [= <- <- <-]. revert Hc. unfold SVL_CreateEntry. case_match; [naive_solver|].
    destruct Hreq as (? & (? & ? & ? & ?) & ?). apply create_entry_vl_ok; try done.
    unfold vldb_entry_to_disk. case_match; [done|]. by intros d [= <-].
  - destruct (SVL_CreateEntryN su st e) as [[r st1]|] eqn:Hc; simpl; [|done].
    intros [= <- <- <-]. revert Hc. unfold SVL_CreateEntryN. case_match; [naive_solver|].
    destruct Hreq as (? & (? & ? & ? & ?) & ?). apply create_entry_vl_ok; try done.
    unfold vldb_nentry_to_disk. case_match; [done|]. by intros d [= <-].
  - destruct (SVL_DeleteEntry su st Volid voltype) as [[r st1]|] eqn:Hc; simpl; [|done].
    intros [= <- <- <-]. by eapply SVL_DeleteEntry_vl_ok.
  - destruct (SVL_GetEntryByID st Volid) as [[?|?]|]; naive_solver.
  - destruct (SVL_GetEntryByName st volumename) as [[?|?]|]; naive_solver.
  - destruct (SVL_GetEntryByIDN st Volid) as [[?|?]|]; naive_solver.
  - destruct (SVL_GetEntryByNameN st volumename) as [[?|?]|]; naive_solver.
  - unfold SVL_GetNewVolumeId. case_match; [naive_solver|].
    destruct (int32_arith _) as [k|]; [|done]. cbn [mbind option_bind].
    destruct (vldb_write_header _) as [st1|] eqn:Hw; simpl; [|done].
    intros [= <- <- <-]. eapply vldb_write_header_vl_ok; [|exact Hw].
    by apply vl_ok_header.
Qed.
End View.

(** ** Theorems on the volume location server *)

Section Theorems.
Context {F : Type} `{GdbmLaws F} `{!GdbmReliable F}.
Context `{YdrLaws disk_vlentry} `{YdrLaws vital_vlheader}.
Implicit Types st : vlserver F.

(** A session: calls in the order they are served. *)
Fixpoint vl_run (ms : msec) (calls : list (rx_conn * vl_request)) st
  : option (vlserver F) :=
  match calls with
  | [] => Some st
  | (conn, req) :: calls' =>
      '(_, _, st) ← vl_execute ms conn req st; vl_run ms calls' st
  end.


(** What a client gets back of an entry with at most eight servers. *)
Definition normalised (e : vldbentry) : vldbentry :=
  let n := Z.to_nat (v_nServers e) in
  {| v_name := take VLDB_MAXNAMELEN (v_name e); v_volumeType := 0;
     v_nServers := v_nServers e;
     v_serverNumber := take n (v_serverNumber e) ++ replicate (8 - n) 0;
     v_serverPartition := take n (v_serverPartition e) ++ replicate (8 - n) 0;
     v_serverFlags := take n (v_serverFlags e) ++ replicate (8 - n) 0;
     v_volumeId := v_volumeId e; v_cloneId := v_cloneId e; v_flags := v_flags e |}.

Lemma entry_disk_roundtrip e d :
  vldbentry_shape e -> 0 <= v_nServers e <= 8 ->
  vldb_entry_to_disk e = Some d -> vldb_disk_to_entry d = normalised e.
Proof.
  intros Hs Hn. unfold vldb_entry_to_disk, NMAXNSERVERS.
  rewrite Z.min_l by lia. case_match; zbool; [lia|]. intros [= <-].
  set (n := Z.to_nat (v_nServers e)). assert (Hn8 : (n <= 8)%nat) by lia.
  pose proof Hs as (L1 & L2 & L3 & _).
  unfold vldb_disk_to_entry, normalised, MAXNSERVERS. simpl.
  rewrite v_words_number, v_words_partition, v_words_flags by done. fold n.
  rewrite length_take, L1. replace (n `min` 8)%nat with n by lia.
  rewrite Z.min_r, Nat2Z.id by lia.
  rewrite !fill_array_exact by (rewrite length_take; lia).
  rewrite !take_take, Nat.min_id. f_equal. lia.
Qed.

(** a created entry is found.  When no id and no name of [e] is in use
    and [e] lists at most eight servers, the creation succeeds and every
    non-zero id, and the name unless it starts with a digit, answer [e]. *)
Theorem vldb_create_lookup st e d :
  vl_ok st -> is_cstr (v_name e) -> vldbentry_shape e -> 0 <= v_nServers e <= 8 ->
  (forall v, v ∈ v_volumeId e -> name_of st v = None) ->
  data_at st (v_name e) = None -> ids_distinct (v_volumeId e) ->
  vldb_entry_to_disk e = Some d -> ydr_fits d ->
  exists st', SVL_CreateEntry true st e = Some (0, st') /\
    (forall v, has_id (v_volumeId e) v ->
       SVL_GetEntryByID st' v = Some (inr (normalised e))) /\
    (match v_name e with c :: _ => isdigit c | [] => false end = false ->
     SVL_GetEntryByName st' (v_name e) = Some (inr (normalised e))).
Proof.
  intros Hok Hname Hs Hn Hfree Hdata Hdist Hdisk [w Hw]%ydr_total.
  pose proof (entry_disk_roundtrip e d Hs Hn Hdisk) as Hrt.
  assert (Hkd : k_name d = v_name e /\ k_volumeId d = v_volumeId e).
  { unfold vldb_entry_to_disk in Hdisk. case_match; [done|]. by simplify_eq. }
  destruct Hkd as [Hkn Hki]. pose proof (not_headerid _ Hname) as Hnh.
  destruct Hs as (_ & _ & _ & Hlen).
  destruct (length_three _ Hlen) as (r & o & b & Hrob).
  destruct (create_entry_view_enc st (v_name e) r o b d w) as (st' & Hc & _ & Hd & Hv & Hdec);
    try done; try (apply Hfree; rewrite Hrob; set_solver).
  assert (Hce : SVL_CreateEntry true st e = Some (0, st')).
  { unfold SVL_CreateEntry. simpl negb. rewrite Hrob, Hdisk. exact Hc. }
  assert (Hok' : vl_ok st').
  { apply (create_entry_vl_ok st (v_name e) (v_volumeId e) (Some d) 0); try done.
    - by intros d' [= <-].
    - rewrite Hrob. exact Hc. }
  assert (Hat : vldb_read_entry st' (v_name e) = Some (inr d)).
  { rewrite vldb_read_entry_spec, Hd, decide_True by done. done. }
  exists st'. split_and!; [done|..].
  - intros v Hid. unfold SVL_GetEntryByID, get_disk_by_id.
    rewrite vldb_id_to_name_spec, Hv, <- Hrob, decide_True by done.
    rewrite Hat. simpl. by rewrite Hrt.
  - intros Hdig. unfold SVL_GetEntryByName, get_disk_by_name. rewrite Hdig, Hat.
    simpl. by rewrite Hrt.
Qed.

(** deletion.  Deleting an entry through one of its ids (with the right
    volume type) succeeds, makes all its ids and its name unknown, keeps the
    invariant and leaves every other entry as it was. *)
Theorem vldb_delete_removes st Volid voltype name e :
  vl_ok st -> 0 <= voltype <= 2 ->
  name_of st Volid = Some name -> data_at st name = Some e ->
  uwrap32 (nth (Z.to_nat voltype) (k_volumeId e) 0) = uwrap32 Volid ->
  exists st', SVL_DeleteEntry true st Volid voltype = Some (0, st') /\ vl_ok st' /\
    (forall v, has_id (k_volumeId e) v -> SVL_GetEntryByID st' v = Some (inl VL_NOENT)) /\
    data_at st' name = None /\
    (forall n, n <> name -> data_at st' n = data_at st n).
Proof.
  intros Hok Hvt Hn He Hid. destruct (vk_id st Hok Volid name Hn) as (Hname & _).
  destruct (delete_entry_view st Volid voltype name e Hok Hvt Hn He Hid)
    as (st' & Hdel & _ & Hd & Hv & Hf).
  exists st'. split_and!; [done|by eapply (vl_ok_delete st)|..].
  - intros v Hidv. unfold SVL_GetEntryByID, get_disk_by_id.
    rewrite vldb_id_to_name_spec, Hv, decide_True by done. done.
  - by rewrite Hd, decide_True.
  - intros n Hne. by rewrite Hd, decide_False.
Qed.

(** an entry whose read-write and read-only ids coincide can be stored
    but not deleted: the second deletion of the id fails, VL_IO is answered
    and the data stays behind with its id gone. *)
Theorem vldb_duplicate_ids_stuck st name r b e :
  uwrap32 r <> 0 -> name_of st r = Some name -> k_volumeId e = [r; r; b] ->
  vldb_read_entry st name = Some (inr e) ->
  exists st', SVL_DeleteEntry true st r 0 = Some (VL_IO, st') /\
    name_of st' r = None /\ vldb_read_entry st' name = Some (inr e).
Proof.
  intros Hr Hn Hk Hread.
  destruct (vldb_delete_id_view st r) as (st1 & Hd1 & Hn1 & Hh1 & Hv1).
  { right. by eexists. }
  assert (Hgone : name_of st1 r = None).
  { rewrite Hv1, decide_True; [done|]. by rewrite has_id_one. }
  destruct (vldb_delete_id st1 r) as [ret st2] eqn:Hd2.
  assert (Hret : ret <> 0 /\ nametodata st2 = nametodata st1 /\ name_of st2 r = None).
  { revert Hd2. unfold vldb_delete_id. rewrite (proj2 (Z.eqb_neq _ _) Hr).
    destruct (mdb_delete _ _) as [c d] eqn:Hm. intros [= <- <-].
    assert (Hc : c <> 0).
    { pose proof (gdbm_delete_missing (idtoname st1) (le32 r) Hgone) as Hmiss.
      unfold mdb_delete, NDBM_delete in Hm. by rewrite Hm in Hmiss. }
    split_and!; try done. unfold name_of. change (idtoname (set_idtoname st1 d)) with d.
    rewrite (gdbm_delete_fail _ _ _ _ (le32 r) Hm Hc). exact Hgone. }
  destruct Hret as (Hc & Hnd & Hgone2). exists st2. split_and!; [|done|].
  - rewrite SVL_DeleteEntry_eq. cbn [negb Z.eqb andb]. rewrite Hn, Hread.
    cbn [mbind option_bind]. rewrite Hk. cbn [Z.to_nat nth]. rewrite Z.eqb_refl. cbn [negb].
    unfold delete_ids. rewrite Hd1. cbn [negb Z.eqb]. rewrite Hd2.
    rewrite (proj2 (Z.eqb_neq _ _) Hc). cbn [negb].
    by rewrite (proj2 (Z.eqb_neq _ _) Hc).
  - unfold vldb_read_entry. rewrite Hnd, Hn1. exact Hread.
Qed.

(** [vldb_entry_to_disk] bounds the server count by 13 although the
    arrays of [struct vldbentry] have eight slots: with nine servers the ninth
    server number is the first partition and the ninth partition the first
    flag word. *)
Theorem vldb_entry_to_disk_overreads e d :
  vldbentry_shape e -> v_nServers e = 9 -> vldb_entry_to_disk e = Some d ->
  k_serverNumber d !! 8%nat = v_serverPartition e !! 0%nat /\
  k_serverPartition d !! 8%nat = v_serverFlags e !! 0%nat.
Proof.
  intros (L1 & L2 & L3 & L4) Hn. unfold vldb_entry_to_disk. rewrite Hn. intros [= <-].
  cbn [k_serverNumber k_serverPartition]. change (Z.to_nat (Z.min 9 NMAXNSERVERS)) with 9%nat.
  rewrite !copy_words_take by (unfold v_words; rewrite !length_app; simpl; lia).
  rewrite !lookup_take_lt, !lookup_drop by lia. unfold v_words. split.
  - rewrite lookup_app_r, L1 by lia. by rewrite lookup_app_l by lia.
  - rewrite lookup_app_r, L1 by lia. rewrite lookup_app_r, L2 by lia.
    by rewrite lookup_app_l by lia.
Qed.

(** volume id allocation.  A superuser's request for [n] ids answers the
    first one; the counter on disk and in memory moves by [n], so the range of
    the next request starts where this one ends.  Nothing checks [n]: after a
    negative one the next request starts before this one, in ids that were
    given away already. *)
Theorem vldb_new_ids_next st n id st1 m id' st2 :
  SVL_GetNewVolumeId true st n = Some (inr id, st1) ->
  SVL_GetNewVolumeId true st1 m = Some (inr id', st2) ->
  id = l_MaxVolumeId (vl_header st) /\ id' = id + n /\
  (forall h, vldb_read_header (set_vl_header st1 h) = Some st1).
Proof.
  unfold SVL_GetNewVolumeId. cbn [negb].
  destruct (int32_arith (l_MaxVolumeId (vl_header st) + n)) as [k|] eqn:Hk; [|done].
  cbn [mbind option_bind]. apply int32_arith_Some in Hk as [-> _].
  destruct (vldb_write_header _) as [sa|] eqn:Hw1; simpl; [|done]. intros [= <- <-].
  destruct (int32_arith (l_MaxVolumeId (vl_header sa) + m)) as [k|] eqn:Hk'; [|done].
  cbn [mbind option_bind].
  destruct (vldb_write_header (set_vl_header sa _)) as [sb|] eqn:Hw2; simpl; [|done].
  intros [= <- <-].
  apply vldb_write_header_view in Hw1 as (Hi & Hh & _ & Hd).
  split; [done|]. split; [by rewrite Hh|].
  intros h. unfold vldb_read_header, mdb_fetch, NDBM_fetch.
  change (nametodata (set_vl_header sa h)) with (nametodata sa).
  destruct (gdbm_fetch (nametodata sa) vl_headerid) as [v|]; cbn [mbind option_bind] in *; [|done].
  rewrite Hd. cbn [mbind option_bind]. rewrite <- Hh. by destruct sa.
Qed.

(** C35: authorisation.  No call of a caller that is not a superuser changes
    the databases or the header. *)
Theorem vldb_unauthorised_readonly ms conn req st s out st' :
  sec_is_superuser ms conn = false ->
  vl_execute ms conn req st = Some (s, out, st') -> st' = st.
Proof.
  intros Hsu. unfold vl_execute. rewrite Hsu. destruct req;
    cbn [SVL_CreateEntry SVL_CreateEntryN SVL_DeleteEntry SVL_GetNewVolumeId
         negb mbind option_bind]; try (intros; by simplify_eq).
  - destruct (SVL_GetEntryByID st Volid) as [[?|?]|]; naive_solver.
  - destruct (SVL_GetEntryByName st volumename) as [[?|?]|]; naive_solver.
  - destruct (SVL_GetEntryByIDN st Volid) as [[?|?]|]; naive_solver.
  - destruct (SVL_GetEntryByNameN st volumename) as [[?|?]|]; naive_solver.
Qed.
End Theorems.

(** ** Concrete servers *)

Module Concrete.
Definition words_of (e : disk_vlentry) : bytes :=
  k_flags e :: k_cloneId e :: enc_list (k_volumeId e) ++ enc_list (k_name e) ++
  enc_list (k_serverNumber e) ++ enc_list (k_serverPartition e) ++
  enc_list (k_serverFlags e) ++ [].

#[export] Instance ydr_disk_vlentry : Ydr disk_vlentry := {|
  ydr_encode e := Some (words_of e);
  ydr_decode b :=
    match b with
    | f :: c :: r =>
        '(vi, r) ← dec_list r; '(na, r) ← dec_list r; '(sn, r) ← dec_list r;
        '(sp, r) ← dec_list r; '(sf, r) ← dec_list r;
        Some (Build_disk_vlentry vi f c na sn sp sf)
    | _ => None
    end;
  ydr_fits _ := True;
|}.

#[export] Instance ydr_disk_vlentry_laws : YdrLaws disk_vlentry.
Proof.
  split; [|by eauto]. intros a b [= <-]. cbn [ydr_decode ydr_disk_vlentry words_of].
  do 5 (rewrite dec_enc_list; cbn [mbind option_bind]). by destruct a.
Qed.

#[export] Instance ydr_vital_vlheader : Ydr vital_vlheader := {|
  ydr_encode h := Some ([l_vldbversion h; l_headersize h; l_freePtr h; l_eofPtr h;
    l_allocs h; l_frees h; l_MaxVolumeId h] ++ l_totalEntries h);
  ydr_decode b :=
    match b with
    | v :: s :: f :: e :: a :: r :: m :: t => Some (Build_vital_vlheader v s f e a r m t)
    | _ => None
    end;
  ydr_fits _ := True;
|}.

#[export] Instance ydr_vital_vlheader_laws : YdrLaws vital_vlheader.
Proof. split; [|by eauto]. intros a b [= <-]. by destruct a. Qed.

Abbreviation db := (gmap bytes bytes).
Definition no_check : msec :=
  {| superuser_check_disabled := true; acl_check := fun _ => false |}.
Definition strict : msec :=
  {| superuser_check_disabled := false; acl_check := fun _ => false |}.
Definition anon : rx_conn := {| securityIndex := 0; server_info := None |}.
Definition empty_server : vlserver db :=
  Build_vlserver ∅ ∅ (Build_vital_vlheader 0 0 0 0 0 0 0 []).
Definition root_cell : vldbentry :=
  {| v_name := [114; 111; 111; 116]; v_volumeType := 0; v_nServers := 1;
     v_serverNumber := 167772161 :: replicate 7 0; v_serverPartition := replicate 8 0;
     v_serverFlags := 4 :: replicate 7 0; v_volumeId := [536870912; 0; 536870914];
     v_cloneId := 0; v_flags := 4096 |}.
Definition fresh_server : vlserver db := default empty_server (vl_create_database empty_server).
Definition calls : list (rx_conn * vl_request) := [(anon, CreateEntry root_cell)].
Definition root_server : vlserver db := default empty_server (vl_run no_check calls fresh_server).

Lemma vl_fresh_created : vl_create_database empty_server = Some fresh_server.
Proof. apply default_is_some. vm_compute. reflexivity. Qed.
Lemma root_ran : vl_run no_check calls fresh_server = Some root_server.
Proof. apply default_is_some. vm_compute. reflexivity. Qed.
Lemma vl_calls_ok : Forall (fun c => vl_req_ok c.2) calls.
Proof.
  repeat constructor; simpl; try lia; try set_solver.
Qed.
End Concrete.

(** ** The theorems at work *)

Module Witnesses.
Import Concrete.

Lemma vl_fresh_ok : vl_ok fresh_server.
Proof.
  eapply vldb_write_header_vl_ok; [|exact vl_fresh_created]. apply vl_ok_header. split.
  - intros n v _. simpl. by rewrite lookup_empty.
  - intros v n. unfold name_of; simpl. by rewrite lookup_empty.
  - intros n e _. unfold data_at; simpl. by rewrite lookup_empty.
Qed.

Definition root_disk : disk_vlentry :=
  default (Build_disk_vlentry [] 0 0 [] [] [] []) (vldb_entry_to_disk root_cell).


Lemma vl_root_ok : vl_ok root_server.
Proof.
  assert (Hrun : exists s o, vl_execute no_check anon (CreateEntry root_cell) fresh_server =
    Some (s, o, root_server)).
  { pose proof root_ran as Hr. unfold calls in Hr. cbn [vl_run] in Hr.
    destruct (vl_execute _ _ _ _) as [[[s o] st]|] eqn:He; [|discriminate Hr].
    exists s, o. cbn [mbind option_bind] in Hr. injection Hr as ->. reflexivity. }
  destruct Hrun as (s & o & Hrun).
  eapply vl_execute_vl_ok; [apply vl_fresh_ok| |exact Hrun].
  pose proof vl_calls_ok as Hc. by inversion Hc.
Qed.

Lemma vldb_create_lookup_witness :
  exists st', SVL_CreateEntry true fresh_server root_cell = Some (0, st') /\
    (forall v, has_id (v_volumeId root_cell) v ->
       SVL_GetEntryByID st' v = Some (inr (normalised root_cell))) /\
    (false = false -> SVL_GetEntryByName st' (v_name root_cell) = Some (inr (normalised root_cell))).
Proof.
  apply (vldb_create_lookup fresh_server root_cell root_disk).
  - apply vl_fresh_ok.
  - repeat constructor; simpl; lia.
  - repeat split.
  - simpl. lia.
  - intros v Hv. vm_compute in Hv.
    repeat (apply elem_of_cons in Hv as [->|Hv]; [vm_compute; reflexivity|]).
    by apply not_elem_of_nil in Hv.
  - vm_compute. reflexivity.
  - apply ids_distinct_three. vm_compute. split; [intros _; split|intros []]; done.
  - vm_compute. reflexivity.
  - exact I.
Defined.

Lemma vldb_delete_removes_witness :
  exists st', SVL_DeleteEntry true root_server 536870914 2 = Some (0, st') /\ vl_ok st' /\
    (forall v, has_id (k_volumeId root_disk) v -> SVL_GetEntryByID st' v = Some (inl VL_NOENT)) /\
    data_at st' (v_name root_cell) = None /\
    (forall n, n <> v_name root_cell -> data_at st' n = data_at root_server n).
Proof.
  apply (vldb_delete_removes root_server 536870914 2 (v_name root_cell) root_disk).
  - apply vl_root_ok.
  - lia.
  - vm_compute. reflexivity.
  - vm_compute. reflexivity.
  - vm_compute. reflexivity.
Defined.

(** The same volume registered with one id for both types. *)
Definition twin_disk : disk_vlentry := Build_disk_vlentry [7; 7; 0] 0 0 [116] [] [] [].
Definition twin_server : vlserver db :=
  Build_vlserver {[le32 7 := [116]]} {[[116] := words_of twin_disk]}
    (Build_vital_vlheader 0 0 0 0 0 0 0 []).

Lemma vldb_duplicate_ids_stuck_witness :
  exists st', SVL_DeleteEntry true twin_server 7 0 = Some (VL_IO, st') /\
    name_of st' 7 = None /\ vldb_read_entry st' [116] = Some (inr twin_disk).
Proof.
  apply (vldb_duplicate_ids_stuck twin_server [116] 7 0 twin_disk).
  - vm_compute. discriminate.
  - vm_compute. reflexivity.
  - reflexivity.
  - vm_compute. reflexivity.
Defined.

Definition nine_servers : vldbentry :=
  {| v_name := [110]; v_volumeType := 0; v_nServers := 9;
     v_serverNumber := replicate 8 1; v_serverPartition := 77 :: replicate 7 0;
     v_serverFlags := 4 :: replicate 7 0; v_volumeId := [1; 0; 0];
     v_cloneId := 0; v_flags := 0 |}.

Lemma vldb_entry_to_disk_overreads_witness :
  exists d, vldb_entry_to_disk nine_servers = Some d /\
    k_serverNumber d !! 8%nat = Some 77 /\ k_serverPartition d !! 8%nat = Some 4.
Proof.
  destruct (vldb_entry_to_disk nine_servers) as [d|] eqn:Hd; [|discriminate Hd].
  exists d. split; [reflexivity|].
  apply (vldb_entry_to_disk_overreads nine_servers d).
  - repeat split.
  - reflexivity.
  - exact Hd.
Defined.

Lemma vldb_new_ids_next_witness :
  exists id st1 id' st2, SVL_GetNewVolumeId true fresh_server 3 = Some (inr id, st1) /\
    SVL_GetNewVolumeId true st1 (-2) = Some (inr id', st2) /\ id' = id + 3.
Proof.
  destruct (SVL_GetNewVolumeId true fresh_server 3) as [[[e|id] st1]|] eqn:H1;
    [vm_compute in H1; discriminate H1| |vm_compute in H1; discriminate H1].
  assert (Hs : exists id' st2, SVL_GetNewVolumeId true st1 (-2) = Some (inr id', st2)).
  { vm_compute in H1. injection H1 as _ <-. vm_compute. eauto. }
  destruct Hs as (id' & st2 & H2). exists id, st1, id', st2.
  destruct (vldb_new_ids_next fresh_server 3 id st1 (-2) id' st2) as (_ & Hid & _).
  - exact H1.
  - exact H2.
  - split; [reflexivity|]. split; [exact H2|exact Hid].
Defined.

Lemma vldb_unauthorised_readonly_witness :
  vl_execute strict anon (DeleteEntry 536870914 2) root_server =
  Some (VL_PERM, VNone, root_server).
Proof.
  destruct (vl_execute strict anon (DeleteEntry 536870914 2) root_server)
    as [[[s o] st]|] eqn:He; [|discriminate He].
  pose proof (vldb_unauthorised_readonly strict anon (DeleteEntry 536870914 2)
    root_server s o st eq_refl He) as ->.
  unfold vl_execute in He. simpl in He. symmetry. exact He.
Defined.
End Witnesses.
