(* ===== verification/Buf.v ===== *)
(** * Byte buffers

    The memory an operation works on, as a list of bytes addressed from 0:
    an [fbuf] (lib/bufdir/fbuf.h) or the image of an on-disk structure.  The
    accessors [rd8], [rd16], [rd32] and [wr] are the accesses of the code; an
    access outside the buffer has no defined result and is [None].  The total
    functions [ld8], [ld16], [ld32] and [st] are used to state what the
    accesses see and leave behind. *)

From S2P Require Import Prelude.

Definition blen (b : bytes) : Z := Z.of_nat (length b).

(** ** Accesses *)

Definition rd8 (b : bytes) (a : Z) : option Z :=
  if 0 <=? a then b !! Z.to_nat a else None.
Definition rd16 (b : bytes) (a : Z) : option Z :=
  x ← rd8 b a; y ← rd8 b (a + 1); Some (x * 2^8 + y).
Definition rd32 (b : bytes) (a : Z) : option Z :=
  x ← rd16 b a; y ← rd16 b (a + 2); Some (x * 2^16 + y).

(** Is [n] bytes at [a] inside the buffer? *)
Definition in_buf (b : bytes) (a n : Z) : bool := (0 <=? a) && (a + n <=? blen b).

Definition st (b : bytes) (a : Z) (bs : bytes) : bytes :=
  if in_buf b a (blen bs)
  then take (Z.to_nat a) b ++ bs ++ drop (Z.to_nat a + length bs) b
  else b.
Definition wr (b : bytes) (a : Z) (bs : bytes) : option bytes :=
  if in_buf b a (blen bs) then Some (st b a bs) else None.

(** [strcmp (b + a, s) == 0]: the comparison stops at the first difference. *)
Fixpoint cstr_eq (b : bytes) (a : Z) (s : bytes) : option bool :=
  x ← rd8 b a;
  match s with
  | [] => Some (x =? 0)
  | c :: s => if x =? c then cstr_eq b (a + 1) s else Some false
  end.

(** The C string at [a]; [fuel] bounds the bytes up to the end of the buffer. *)
Fixpoint cstr_read (fuel : nat) (b : bytes) (a : Z) : option bytes :=
  match fuel with
  | O => None
  | S fuel =>
      x ← rd8 b a;
      if x =? 0 then Some [] else s ← cstr_read fuel b (a + 1); Some (x :: s)
  end.
Definition rd_cstr (b : bytes) (a : Z) : option bytes := cstr_read (length b) b a.

(** ** What the accesses see *)

Definition ld8 (b : bytes) (a : Z) : Z := default 0 (rd8 b a).
Definition ld16 (b : bytes) (a : Z) : Z := ld8 b a * 2^8 + ld8 b (a + 1).
Definition ld32 (b : bytes) (a : Z) : Z := ld16 b a * 2^16 + ld16 b (a + 2).

(** The string [s] with its NUL is at [a]. *)
Definition cstr_at (b : bytes) (a : Z) (s : bytes) : Prop :=
  (forall i c, s !! i = Some c -> ld8 b (a + Z.of_nat i) = c) /\
  ld8 b (a + blen s) = 0.

(** [b'] has the size of [b] and, outside the region [R], its contents. *)
Definition same_but (R : Z -> Prop) (b b' : bytes) : Prop :=
  blen b' = blen b /\ forall i, ~ R i -> ld8 b' i = ld8 b i.
Definition range (lo hi : Z) (i : Z) : Prop := lo <= i < hi.

Lemma blen_nonneg b : 0 <= blen b.
Proof. unfold blen. lia. Qed.

Lemma blen_nil : blen [] = 0.
Proof. done. Qed.
Lemma blen_cons c b : blen (c :: b) = 1 + blen b.
Proof. unfold blen. simpl. lia. Qed.
Lemma blen_app b1 b2 : blen (b1 ++ b2) = blen b1 + blen b2.
Proof. unfold blen. rewrite length_app. lia. Qed.
Lemma blen_be16 z : blen (be16 z) = 2.
Proof. done. Qed.
Lemma blen_be32 z : blen (be32 z) = 4.
Proof. done. Qed.
Lemma blen_replicate n c : blen (replicate n c) = Z.of_nat n.
Proof. unfold blen. by rewrite length_replicate. Qed.
#[export] Hint Rewrite blen_nil blen_cons blen_app blen_be16 blen_be32 blen_replicate : milko_len.

Lemma rd8_in b a : 0 <= a < blen b -> rd8 b a = Some (ld8 b a).
Proof.
  unfold ld8, rd8, blen. intros ?. destruct (Z.leb_spec 0 a); [|lia].
  destruct (b !! Z.to_nat a) eqn:E; [done|]. apply lookup_ge_None in E. lia.
Qed.

Lemma rd8_out b a : ~ (0 <= a < blen b) -> rd8 b a = None.
Proof.
  unfold rd8, blen. intros ?. destruct (Z.leb_spec 0 a); [|done].
  apply lookup_ge_None. lia.
Qed.

Lemma ld8_out b a : ~ (0 <= a < blen b) -> ld8 b a = 0.
Proof. intros ?. unfold ld8. by rewrite rd8_out. Qed.

Lemma rd16_in b a : 0 <= a -> a + 2 <= blen b -> rd16 b a = Some (ld16 b a).
Proof. intros ??. unfold rd16. by rewrite !rd8_in by lia. Qed.

Lemma rd32_in b a : 0 <= a -> a + 4 <= blen b -> rd32 b a = Some (ld32 b a).
Proof. intros ??. unfold rd32. by rewrite !rd16_in by lia. Qed.

Lemma in_buf_true b a n : 0 <= a -> a + n <= blen b -> in_buf b a n = true.
Proof. intros. unfold in_buf. rewrite andb_true_iff, !Z.leb_le. lia. Qed.

Lemma wr_in b a bs : 0 <= a -> a + blen bs <= blen b -> wr b a bs = Some (st b a bs).
Proof. intros. unfold wr. by rewrite in_buf_true. Qed.

Lemma blen_st b a bs : blen (st b a bs) = blen b.
Proof.
  unfold st, in_buf, blen. destruct (_ && _) eqn:E; [|done]. zbool.
  rewrite !length_app, length_take, length_drop. lia.
Qed.

Lemma st_splice c a x : 0 <= a -> a + blen x <= blen c ->
  st c a x = take (Z.to_nat a) c ++ x ++ drop (Z.to_nat a + length x) c.
Proof. intros Ha Hx. unfold st. by rewrite (in_buf_true c a (blen x) Ha Hx). Qed.

(** Adjacent stores are one store. *)
Lemma st_app c a x y : 0 <= a -> a + blen x + blen y <= blen c ->
  st (st c a x) (a + blen x) y = st c a (x ++ y).
Proof.
  intros Ha Hxy. pose proof (blen_nonneg x). pose proof (blen_nonneg y).
  rewrite (st_splice (st c a x)) by (rewrite ?blen_st; lia).
  rewrite !(st_splice c) by (rewrite ?blen_app; lia).
  set (k := Z.to_nat a). replace (Z.to_nat (a + blen x)) with (k + length x)%nat by (unfold blen, k in *; lia).
  assert (Hk : (k + length x + length y <= length c)%nat) by (unfold blen, k in *; lia).
  assert (Ht : length (take k c ++ x) = (k + length x)%nat) by (rewrite length_app, length_take; lia).
  rewrite (app_assoc (take k c) x), take_app_length' by (by rewrite Ht).
  rewrite drop_app_ge by lia. rewrite Ht, drop_drop, length_app, <- !app_assoc.
  do 4 f_equal. lia.
Qed.

#[export] Hint Rewrite blen_st : milko_len.

Lemma ld8_st_out b a bs i : ~ (a <= i < a + blen bs) -> ld8 (st b a bs) i = ld8 b i.
Proof.
  intros Hi. destruct (decide (0 <= i < blen b)) as [Hr|Hr].
  2:{ by rewrite !ld8_out by (rewrite ?blen_st; done). }
  unfold st, in_buf. destruct (_ && _) eqn:E; [|done]. zbool.
  unfold blen in *. unfold ld8, rd8. destruct (Z.leb_spec 0 i); [|lia].
  f_equal. destruct (decide (i < a)).
  - rewrite lookup_app_l by (rewrite length_take; lia). rewrite lookup_take_lt by lia. done.
  - rewrite lookup_app_r by (rewrite length_take; lia).
    rewrite lookup_app_r by (rewrite length_take; lia).
    rewrite lookup_drop, length_take. f_equal. lia.
Qed.

Lemma ld8_st_in b a bs i c :
  0 <= a -> a + blen bs <= blen b -> bs !! i = Some c ->
  ld8 (st b a bs) (a + Z.of_nat i) = c.
Proof.
  intros Ha Hb Hc. pose proof (lookup_lt_Some _ _ _ Hc) as Hi.
  unfold st. rewrite in_buf_true by done. unfold blen in *. unfold ld8, rd8.
  destruct (Z.leb_spec 0 (a + Z.of_nat i)); [|lia].
  rewrite lookup_app_r by (rewrite length_take; lia).
  rewrite lookup_app_l by (rewrite length_take; lia).
  rewrite length_take.
  replace (Z.to_nat (a + Z.of_nat i) - Z.to_nat a `min` length b)%nat with i by lia.
  by rewrite Hc.
Qed.

Lemma st_same_but b a bs : same_but (range a (a + blen bs)) b (st b a bs).
Proof. split; [apply blen_st|]. intros i Hi. by apply ld8_st_out. Qed.

Lemma ld16_st b a z :
  0 <= a -> a + 2 <= blen b -> ld16 (st b a (be16 z)) a = uwrap16 z.
Proof.
  intros Ha Hb. rewrite <- of_be_be16. unfold ld16.
  replace a with (a + Z.of_nat 0) at 2 by lia. change (a + 1) with (a + Z.of_nat 1).
  erewrite !ld8_st_in; try done; try reflexivity.
Qed.

Lemma ld32_st b a z :
  0 <= a -> a + 4 <= blen b -> ld32 (st b a (be32 z)) a = uwrap32 z.
Proof.
  intros Ha Hb. rewrite <- of_be_be32. unfold ld32, ld16.
  replace (a + 2 + 1) with (a + Z.of_nat 3) by lia.
  change (a + 2) with (a + Z.of_nat 2). change (a + 1) with (a + Z.of_nat 1).
  replace a with (a + Z.of_nat 0) at 2 by lia.
  erewrite !ld8_st_in; try done; try reflexivity.
  unfold of_be, be32. simpl. lia.
Qed.

(** ** Frames *)

Lemma same_but_refl R b : same_but R b b.
Proof. done. Qed.

Lemma same_but_weaken (R R' : Z -> Prop) b b' :
  same_but R b b' -> (forall i, R i -> R' i) -> same_but R' b b'.
Proof. intros [Hl Hs] HR. split; [done|]. intros i Hi. apply Hs. naive_solver. Qed.

Lemma same_but_trans R b1 b2 b3 :
  same_but R b1 b2 -> same_but R b2 b3 -> same_but R b1 b3.
Proof.
  intros [H1 H2] [H3 H4]. split; [congruence|]. intros i Hi. by rewrite H4, H2.
Qed.

(** Agreement outside a region, the size left open. *)
Definition agree (R : Z -> Prop) (b b' : bytes) : Prop :=
  forall i, ~ R i -> ld8 b' i = ld8 b i.

Lemma same_but_agree R b b' : same_but R b b' -> agree R b b'.
Proof. by intros [_ H]. Qed.

Lemma agree_trans R b1 b2 b3 : agree R b1 b2 -> agree R b2 b3 -> agree R b1 b3.
Proof. intros H1 H2 i Hi. by rewrite H2, H1. Qed.

Lemma agree_weaken (R R' : Z -> Prop) b b' :
  agree R b b' -> (forall i, R i -> R' i) -> agree R' b b'.
Proof. intros Hs HR i Hi. apply Hs. naive_solver. Qed.

Section Agree.
Context (R : Z -> Prop) (b b' : bytes) (Hs : agree R b b').

Lemma agree_ld16 i : (forall j, i <= j < i + 2 -> ~ R j) -> ld16 b' i = ld16 b i.
Proof using Hs. intros H. unfold ld16. rewrite !Hs; [done| |]; apply H; lia. Qed.

Lemma agree_ld32 i : (forall j, i <= j < i + 4 -> ~ R j) -> ld32 b' i = ld32 b i.
Proof using Hs.
  intros H. unfold ld32. rewrite !agree_ld16; [done| |]; intros j Hj; apply H; lia.
Qed.

Lemma agree_cstr_at a s :
  (forall j, a <= j < a + blen s + 1 -> ~ R j) -> cstr_at b a s -> cstr_at b' a s.
Proof using Hs.
  intros Hr [H1 H2]. split.
  - intros i c Hc. pose proof (lookup_lt_Some _ _ _ Hc). unfold blen in *.
    rewrite Hs by (apply Hr; lia). by apply H1.
  - pose proof (blen_nonneg s). by rewrite Hs by (apply Hr; lia).
Qed.
End Agree.

Section Frame.
Context (R : Z -> Prop) (b b' : bytes) (Hs : same_but R b b').

Lemma same_but_ld8 i : ~ R i -> ld8 b' i = ld8 b i.
Proof using Hs. destruct Hs as [_ H]. apply H. Qed.

Lemma same_but_ld16 i : (forall j, i <= j < i + 2 -> ~ R j) -> ld16 b' i = ld16 b i.
Proof using Hs. apply (agree_ld16 _ _ _ (same_but_agree _ _ _ Hs)). Qed.

Lemma same_but_ld32 i : (forall j, i <= j < i + 4 -> ~ R j) -> ld32 b' i = ld32 b i.
Proof using Hs. apply (agree_ld32 _ _ _ (same_but_agree _ _ _ Hs)). Qed.

Lemma same_but_cstr_at a s :
  (forall j, a <= j < a + blen s + 1 -> ~ R j) -> cstr_at b a s -> cstr_at b' a s.
Proof using Hs. apply (agree_cstr_at _ _ _ (same_but_agree _ _ _ Hs)). Qed.
End Frame.

Lemma ld16_st_out b a bs i :
  a + blen bs <= i \/ i + 2 <= a -> ld16 (st b a bs) i = ld16 b i.
Proof. intros. eapply same_but_ld16; [apply st_same_but|]. unfold range. lia. Qed.

Lemma ld32_st_out b a bs i :
  a + blen bs <= i \/ i + 4 <= a -> ld32 (st b a bs) i = ld32 b i.
Proof. intros. eapply same_but_ld32; [apply st_same_but|]. unfold range. lia. Qed.

Lemma cstr_at_st_out b a bs i s :
  a + blen bs <= i \/ i + blen s + 1 <= a -> cstr_at b i s -> cstr_at (st b a bs) i s.
Proof. intros ?. eapply same_but_cstr_at; [apply st_same_but|]. unfold range. lia. Qed.

Lemma ld8_st b a c : 0 <= a < blen b -> ld8 (st b a [c]) a = c.
Proof.
  intros. replace a with (a + Z.of_nat 0) at 2 by lia.
  apply ld8_st_in; autorewrite with milko_len; (lia || done).
Qed.

(** A store within a region changes nothing outside the region. *)
Lemma st_same_within (R : Z -> Prop) b b' a bs :
  same_but R b b' -> (forall i, a <= i < a + blen bs -> R i) -> same_but R b (st b' a bs).
Proof.
  intros H HR. eapply same_but_trans; [done|].
  eapply same_but_weaken; [apply st_same_but|]. exact HR.
Qed.

(** ** Strings in memory *)

Lemma cstr_at_cons b a c s :
  cstr_at b a (c :: s) <-> ld8 b a = c /\ cstr_at b (a + 1) s.
Proof.
  unfold cstr_at, blen. split.
  - intros [H1 H2]. split; [|split].
    + rewrite <- (H1 0%nat c); [f_equal; lia|done].
    + intros i x Hx. rewrite <- (H1 (S i) x Hx). f_equal. lia.
    + rewrite <- H2. f_equal. simpl. lia.
  - intros (Hc & H1 & H2). split.
    + intros [|i] x Hx; simpl in Hx.
      * simplify_eq. f_equal. lia.
      * rewrite <- (H1 i x Hx). f_equal. lia.
    + rewrite <- H2. f_equal. simpl. lia.
Qed.

Lemma cstr_at_nil b a : cstr_at b a [] <-> ld8 b a = 0.
Proof.
  unfold cstr_at, blen. simpl. rewrite Z.add_0_r. split; [by intros [_ ?]|].
  intros ?. split; [|done]. intros i c. by rewrite lookup_nil.
Qed.

Lemma cstr_at_st b a s :
  0 <= a -> a + blen s + 1 <= blen b -> cstr_at (st b a (s ++ [0])) a s.
Proof.
  intros Ha Hb. unfold blen in *. split.
  - intros i c Hc. apply ld8_st_in; unfold blen; rewrite ?length_app; simpl; try lia.
    by apply lookup_app_l_Some.
  - apply ld8_st_in; unfold blen; rewrite ?length_app; simpl; try lia.
    rewrite lookup_app_r, Nat.sub_diag by lia. done.
Qed.

(** Comparing with a string in memory decides equality of the strings. *)
Lemma cstr_eq_spec b a s name :
  is_cstr s -> is_cstr name -> cstr_at b a s -> 0 <= a -> a + blen s + 1 <= blen b ->
  cstr_eq b a name = Some (bool_decide (s = name)).
Proof.
  intros Hs. revert a name. induction Hs as [|c s Hc Hs IH]; intros a name Hn Hat Ha Hb.
  - apply cstr_at_nil in Hat. unfold blen in Hb. simpl in Hb.
    destruct name as [|x name]; simpl; rewrite rd8_in by (unfold blen; lia);
      cbn [mbind option_bind]; rewrite Hat; [done|].
    inversion Hn; subst. destruct (Z.eqb_spec 0 x); [lia|]. done.
  - apply cstr_at_cons in Hat as [Hx Hat].
    assert (Hb' : a + 1 + blen s + 1 <= blen b) by (unfold blen in *; simpl in *; lia).
    pose proof (blen_nonneg s).
    destruct name as [|x name]; simpl; rewrite rd8_in by lia;
      cbn [mbind option_bind]; rewrite Hx.
    + destruct (Z.eqb_spec c 0); [lia|]. done.
    + inversion Hn; subst. destruct (Z.eqb_spec (ld8 b a) x) as [->|Hne].
      * rewrite IH by (done || lia). f_equal. apply bool_decide_ext. naive_solver.
      * rewrite bool_decide_eq_false_2; [done|naive_solver].
Qed.

Lemma cstr_read_spec b s a fuel :
  is_cstr s -> cstr_at b a s -> 0 <= a -> a + blen s + 1 <= blen b ->
  (length s < fuel)%nat -> cstr_read fuel b a = Some s.
Proof.
  intros Hs. revert a fuel. induction Hs as [|c s Hc Hs IH]; intros a fuel Hat Ha Hb Hf.
  - apply cstr_at_nil in Hat. unfold blen in Hb. simpl in *. destruct fuel as [|fuel]; [lia|].
    simpl. rewrite rd8_in by (unfold blen; lia). cbn [mbind option_bind]. by rewrite Hat.
  - apply cstr_at_cons in Hat as [Hx Hat].
    assert (Hb' : a + 1 + blen s + 1 <= blen b) by (unfold blen in *; simpl in *; lia).
    pose proof (blen_nonneg s). simpl in Hf. destruct fuel as [|fuel]; [lia|].
    simpl. rewrite rd8_in by lia. cbn [mbind option_bind]. rewrite Hx.
    destruct (Z.eqb_spec c 0); [lia|]. rewrite IH by (done || lia). done.
Qed.

Lemma rd_cstr_spec b s a :
  is_cstr s -> cstr_at b a s -> 0 <= a -> a + blen s + 1 <= blen b -> rd_cstr b a = Some s.
Proof. intros. apply cstr_read_spec; try done. unfold blen in *. lia. Qed.
