(* ===== verification/Fdir.v ===== *)
(** * AFS directories in memory (lib/bufdir/fdir.c, lib/bufdir/afs_dir.h)

    A directory is a file of 2048-byte pages seen through an [fbuf], here its
    bytes.  A page has a 32-byte header (page count, tag, free count, a bitmap
    of used slots) and 63 slots of 32 bytes; on page 0 the directory header
    (free counts of the pages and a hash table of 128 chains) takes the first
    twelve of them.  A pointer into the directory is its offset in the
    buffer.

    Results are in [option]: [None] stands for the executions the code does
    not define or does not survive: an access outside the buffer, a failed
    [assert], or a chain of entries that never ends. *)

From S2P Require Import Prelude Buf.

Definition AFSDIR_PAGESIZE : Z := 2048.
Definition ADIRHASHSIZE : Z := 128.
Definition ENTRIESPERPAGE : Z := 64.
Definition AFSDIR_FIRST : Z := 1.
Definition AFSDIR_UTFENT : Z := 4.
Definition MAXPAGES : Z := 128.
Definition AFSDIRMAGIC : Z := 1234.
Definition AFSDIRMAGIC_UTF8 : Z := 12345.

Record AFSFid := { Volume : Z; Vnode : Z; Unique : Z }.
#[export] Instance AFSFid_eq_dec : EqDecision AFSFid.
Proof. solve_decision. Defined.
#[export] Instance AFSFid_countable : Countable AFSFid.
Proof.
  apply (inj_countable' (fun f => (Volume f, Vnode f, Unique f))
    (fun x => Build_AFSFid (fst (fst x)) (snd (fst x)) (snd x))).
  by intros [].
Defined.
Record VenusFid := { Cell : Z; fid : AFSFid }.

(** ** Layout *)

(** PageHeader: pgcount at 0, tag at 2, freecount at 4, bitmap at 5. *)
Definition pg_pgcount (page : Z) : Z := page.
Definition pg_tag (page : Z) : Z := page + 2.
Definition pg_freecount (page : Z) : Z := page + 4.
Definition pg_bitmap (page i : Z) : Z := page + 5 + i.
(** DirHeader, after the header of page 0: map and hash. *)
Definition dh_map (pageno : Z) : Z := 32 + pageno.
Definition dh_hash (h : Z) : Z := 160 + 2 * h.
(** DirEntry: flag at 0, length at 1, next at 2, Vnode at 4, Unique at 8,
    name at 12, fill at 28. *)
Definition pg_entry (page off : Z) : Z := page + 32 + 32 * off.
Definition e_flag (entry : Z) : Z := entry.
Definition e_length (entry : Z) : Z := entry + 1.
Definition e_next (entry : Z) : Z := entry + 2.
Definition e_Vnode (entry : Z) : Z := entry + 4.
Definition e_Unique (entry : Z) : Z := entry + 8.
Definition e_name (entry : Z) : Z := entry + 12.
Definition e_fill (entry : Z) : Z := entry + 28.

(** A 16-bit field in host order. *)
Definition rd16_host (b : bytes) (a : Z) : option Z :=
  x ← rd8 b a; y ← rd8 b (a + 1); Some (y * 2^8 + x).
Definition le16 (z : Z) : bytes := rev (be16 z).

(** ** Names *)

Fixpoint hash_loop (s : Z) (entry : bytes) : Z :=
  match entry with
  | [] => s
  | c :: entry => hash_loop (swrap32 (s * 173 + c)) entry
  end.

Definition hashentry (sentry : bytes) : Z :=
  let s := hash_loop 0 sentry in
  let h := Z.land s (ADIRHASHSIZE - 1) in
  if h =? 0 then h else if s <? 0 then ADIRHASHSIZE - h else h.

Definition additional_entries (filename : bytes) (raw_utf norm_utf : option bytes) : Z :=
  let len := blen filename - 16 + 1 + 32 - 1 in
  let len :=
    match raw_utf with
    | None => len
    | Some raw =>
        let len := if len mod 4 =? 0 then len else len + (4 - len mod 4) in
        len + 8 + blen raw + match norm_utf with Some norm => blen norm | None => 0 end
    end in
  len / 32.

(** ** Pages and entries *)

Definition getpage (pageno : Z) : Z := AFSDIR_PAGESIZE * pageno.

(** [npages] as every operation computes it. *)
Definition dir_npages (b : bytes) : option Z :=
  pgcount ← rd16 b (pg_pgcount 0);
  Some (if pgcount <? blen b / AFSDIR_PAGESIZE then blen b / AFSDIR_PAGESIZE else pgcount).

(** The tag test of [getentry] and [fdir_dirp]. *)
Definition tag_ok (b : bytes) (page : Z) : option bool :=
  tag ← rd16 b (pg_tag page);
  Some ((tag =? AFSDIRMAGIC) || (tag =? AFSDIRMAGIC_UTF8)).

(** [Some None] is the NULL pointer. *)
Definition getentry (b : bytes) (num npages : Z) : option (option Z) :=
  let idx := num / ENTRIESPERPAGE in
  if npages <=? idx then Some None else
  ok ← tag_ok b (getpage idx);
  Some (if (ok : bool) then Some (pg_entry (getpage idx) (num mod ENTRIESPERPAGE)) else None).

(** A chain longer than the 65536 entry numbers visits one of them twice and
    never ends. *)
Definition chain_fuel : nat := Z.to_nat 65537.

Fixpoint find_chain (fuel : nat) (b name : bytes) (npages i : Z) : option (option Z) :=
  match fuel with
  | O => None
  | S fuel =>
      if i =? 0 then Some None else
      e ← getentry b (uwrap16 (i - 1)) npages;
      match e with
      | None => Some None
      | Some entry =>
          eq ← cstr_eq b (e_name entry) name;
          if (eq : bool) then Some (Some entry) else
          next ← rd16 b (e_next entry);
          find_chain fuel b name npages next
      end
  end.

Definition find_entry (b name : bytes) (npages : Z) : option (option Z) :=
  i ← rd16 b (dh_hash (hashentry name));
  find_chain chain_fuel b name npages i.

(** [None] inside is the return value -1. *)
Definition find_by_name (b name : bytes) (dir : VenusFid) (npages : Z)
  : option (option VenusFid) :=
  e ← find_entry b name npages;
  match e with
  | None => Some None
  | Some entry =>
      vnode ← rd32 b (e_Vnode entry);
      unique ← rd32 b (e_Unique entry);
      Some (Some {| Cell := Cell dir;
                    fid := {| Volume := Volume (fid dir); Vnode := vnode; Unique := unique |} |})
  end.

Definition used_slot (b : bytes) (page off : Z) : option bool :=
  x ← rd8 b (pg_bitmap page (off / 8));
  Some (negb (Z.land x (Z.shiftl 1 (off mod 8)) =? 0)).

Definition first_slotp (b : bytes) (page off : Z) : option bool :=
  used ← used_slot b page (off + 1);
  if (used : bool) then
    flag ← rd8 b (e_flag (pg_entry page off));
    Some (negb (Z.land flag AFSDIR_FIRST =? 0))
  else Some false.

(** The test of [n] bitmap bytes from [i] for zero. *)
Fixpoint bitmap_zero (n : nat) (b : bytes) (page i : Z) : option bool :=
  match n with
  | O => Some true
  | S n =>
      x ← rd8 b (pg_bitmap page i);
      if negb (x =? 0) then Some false else bitmap_zero n b page (i + 1)
  end.

Definition is_page_empty (b : bytes) (pageno : Z) : option bool :=
  if pageno <? MAXPAGES then
    m ← rd8 b (dh_map pageno); Some (m =? ENTRIESPERPAGE - 1)
  else
    let page := getpage pageno in
    x ← rd8 b (pg_bitmap page 0);
    if negb (x =? 1) then Some false else bitmap_zero 7 b page 1.

(** ** Reading operations *)

(** [inl] is the error returned. *)
Definition fdir_lookup (b : bytes) (dir : VenusFid) (name : bytes) : option (Z + VenusFid) :=
  npages ← dir_npages b;
  r ← find_by_name b name dir npages;
  Some (match r with Some file => inr file | None => inl ENOENT end).

Definition fdir_emptyp (b : bytes) : option bool :=
  npages ← dir_npages b;
  if npages =? 1 then m ← rd8 b (dh_map 0); Some (m =? 49) else Some false.

(** The strings of an entry with a UTF-8 name: addresses of the raw and, when
    different, of the normalised name.  [Some None] skips the entry.  The
    pointer to the second half counts in units of [DirEntry2]. *)
Definition utf_names (b : bytes) (page entry : Z) : option (option (Z * option Z)) :=
  length ← rd8 b (e_length entry);
  let direntry2 := entry + 8 * (4 * length) in
  if page + AFSDIR_PAGESIZE - 8 <? direntry2 then Some None else
  raw_offset ← rd16_host b (direntry2 + 4);
  norm_offset ← rd16_host b (direntry2 + 6);
  let raw_utf := entry + raw_offset in
  let norm_utf := if raw_offset =? norm_offset then None else Some (entry + norm_offset) in
  if page + AFSDIR_PAGESIZE <? raw_utf then Some None else Some (Some (raw_utf, norm_utf)).

Definition rd_cstr_opt (b : bytes) (a : option Z) : option (option bytes) :=
  match a with
  | None => Some None
  | Some a => s ← rd_cstr b a; Some (Some s)
  end.

(** What the loop of [fdir_readdir] does with the entry at [entry]: skip it
    ([Some None]), or the fid, the name and the number of extra slots. *)
Definition readdir_entry (b : bytes) (dir : VenusFid) (page entry : Z)
  : option (option (VenusFid * bytes * Z)) :=
  flag ← rd8 b (e_flag entry);
  if Z.land flag AFSDIR_FIRST =? 0 then Some None else
  vnode ← rd32 b (e_Vnode entry);
  unique ← rd32 b (e_Unique entry);
  let f := {| Cell := Cell dir;
              fid := {| Volume := Volume (fid dir); Vnode := vnode; Unique := unique |} |} in
  names ← (if Z.land flag AFSDIR_UTFENT =? 0 then Some (Some (None, None))
           else r ← utf_names b page entry;
                Some (match r with Some (raw, norm) => Some (Some raw, norm) | None => None end));
  match names with
  | None => Some None
  | Some (raw, norm) =>
      ename ← rd_cstr b (e_name entry);
      raw_utf ← rd_cstr_opt b raw;
      norm_utf ← rd_cstr_opt b norm;
      Some (Some (f, default ename raw_utf, additional_entries ename raw_utf norm_utf))
  end.

Section Readdir.
(** The callback with the value [arg] points to. *)
Context {A : Type} (func : VenusFid -> bytes -> A -> Z * A).

(** One page from slot [j]; the boolean is the [goto done]. *)
Fixpoint readdir_page (fuel : nat) (b : bytes) (dir : VenusFid) (page j : Z) (arg : A)
  : option (bool * Z * A) :=
  match fuel with
  | O => None
  | S fuel =>
      if negb (j <? ENTRIESPERPAGE - 1) then Some (false, j, arg) else
      first ← first_slotp b page j;
      if negb first then readdir_page fuel b dir page (j + 1) arg else
      e ← readdir_entry b dir page (pg_entry page j);
      match e with
      | None => readdir_page fuel b dir page (j + 1) arg
      | Some (f, name, nentries) =>
          let '(ret, arg) := func f name arg in
          if ret <? 0 then Some (true, j, arg) else
          let j := j + nentries in
          if negb (ret =? 0) then Some (true, j, arg)
          else readdir_page fuel b dir page (j + 1) arg
      end
  end.

Fixpoint readdir_pages (fuel : nat) (b : bytes) (dir : VenusFid) (npages i j : Z) (arg : A)
  : option (Z * Z * A) :=
  match fuel with
  | O => None
  | S fuel =>
      if negb (i <? npages) then Some (i, j, arg) else
      '(finished, j, arg) ← readdir_page 64 b dir (getpage i) j arg;
      if (finished : bool) then Some (i, j, arg)
      else readdir_pages fuel b dir npages (i + 1) 0 arg
  end.

(** Status, callback value and the new [*offset]; [offset] is [None] for a
    NULL pointer. *)
Definition fdir_readdir (b : bytes) (arg : A) (dir : VenusFid) (offset : option Z)
  : option (Z * A * option Z) :=
  npages ← dir_npages b;
  let o := default 0 offset in
  if negb (o =? 0) && (o / ENTRIESPERPAGE =? 0) && (o mod ENTRIESPERPAGE <? 12)
  then Some (EINVAL, arg, offset) else
  let '(i, j) := if negb (o =? 0) then (o / ENTRIESPERPAGE, o mod ENTRIESPERPAGE) else (0, 12) in
  '(i, j, arg) ← readdir_pages (S (Z.to_nat npages)) b dir npages i j arg;
  Some (0, arg, (fun _ => uwrap32 (i * ENTRIESPERPAGE + j)) <$> offset).
End Readdir.

Fixpoint dirp_loop (fuel : nat) (b : bytes) (npages num : Z) : option bool :=
  match fuel with
  | O => None
  | S fuel =>
      if negb (num <? npages) then Some true else
      ok ← tag_ok b (getpage num);
      if negb ok then Some false else dirp_loop fuel b npages (num + 1)
  end.

Definition fdir_dirp (b : bytes) : option bool :=
  if blen b <? AFSDIR_PAGESIZE then Some false else
  npages ← dir_npages b;
  dirp_loop (S (Z.to_nat npages)) b npages 0.

(** ** Updates of a page *)

(** [inl] is the return value -1. *)
Definition update_fid_by_name (b name : bytes) (f : VenusFid) (npages : Z)
  : option (option bytes) :=
  e ← find_entry b name npages;
  match e with
  | None => Some None
  | Some entry =>
      b ← wr b (e_Vnode entry) (be32 (Vnode (fid f)));
      b ← wr b (e_Unique entry) (be32 (Unique (fid f)));
      Some (Some b)
  end.

Definition set_used (b : bytes) (page off : Z) : option bytes :=
  x ← rd8 b (pg_bitmap page (off / 8));
  wr b (pg_bitmap page (off / 8)) [uwrap8 (Z.lor x (Z.shiftl 1 (off mod 8)))].

Definition set_unused (b : bytes) (page off : Z) : option bytes :=
  x ← rd8 b (pg_bitmap page (off / 8));
  wr b (pg_bitmap page (off / 8)) [uwrap8 (Z.land x (Z.lnot (Z.shiftl 1 (off mod 8))))].

(** The loops that mark [n] slots from [off]. *)
Fixpoint mark_used (n : nat) (b : bytes) (page off : Z) : option bytes :=
  match n with
  | O => Some b
  | S n => b ← set_used b page off; mark_used n b page (off + 1)
  end.
Fixpoint mark_unused (n : nat) (b : bytes) (page off : Z) : option bytes :=
  match n with
  | O => Some b
  | S n => b ← set_unused b page off; mark_unused n b page (off + 1)
  end.

(** The inner loop of [add_to_page]: free slots from [off], [n] at most. *)
Fixpoint free_run (n : nat) (b : bytes) (page off : Z) : option Z :=
  match n with
  | O => Some 0
  | S n =>
      used ← used_slot b page off;
      if (used : bool) then Some 0 else j ← free_run n b page (off + 1); Some (1 + j)
  end.

(** The outer loop: the slot where [n] free ones start. *)
Fixpoint search_page (fuel : nat) (b : bytes) (page n i : Z) : option (option Z) :=
  match fuel with
  | O => None
  | S fuel =>
      if negb (i <? uwrap32 (ENTRIESPERPAGE - n)) then Some None else
      j ← free_run (Z.to_nat n) b page (i + 1);
      if j =? n then Some (Some i) else search_page fuel b page n (i + j + 1)
  end.

(** The second half of an entry that has a UTF-8 name. *)
Definition fill_utf (b : bytes) (entry : Z) (filename raw_name : bytes) : option bytes :=
  flag ← rd8 b (e_flag entry);
  b ← wr b (e_flag entry) [Z.lor flag AFSDIR_UTFENT];
  let fnl := blen filename + 1 in
  let fnl2 := if fnl mod 4 =? 0 then fnl else fnl + (4 - fnl mod 4) in
  b ← wr b (e_name entry + fnl) (replicate (Z.to_nat (fnl2 - fnl)) 0);
  b ← wr b (e_length entry) [uwrap8 (Z.shiftr (12 + fnl2) 2)];
  let entry2 := e_name entry + fnl2 in
  b ← wr b entry2 [0; 0; 0; 0];
  b ← wr b (entry2 + 4) (le16 (12 + fnl2 + 8));
  b ← wr b (entry2 + 6) (le16 (12 + fnl2 + 8));
  wr b (entry + uwrap16 (12 + fnl2 + 8)) (raw_name ++ [0]).

Definition fill_entry (b : bytes) (page i n : Z) (filename : bytes)
    (raw_name : option bytes) (f : AFSFid) (next : Z) : option bytes :=
  let entry := pg_entry page i in
  b ← wr b (e_flag entry) [AFSDIR_FIRST];
  b ← wr b (e_length entry) [0];
  b ← wr b (e_next entry) (be16 next);
  b ← wr b (e_Vnode entry) (be32 (Vnode f));
  b ← wr b (e_Unique entry) (be32 (Unique f));
  b ← wr b (e_name entry) (filename ++ [0]);
  b ← match raw_name with Some raw => fill_utf b entry filename raw | None => Some b end;
  wr b (e_fill (pg_entry page (i + n - 1))) [0; 0; 0; 0].

(** The free count of a page that has one, changed by [n]. *)
Definition adjust_map (b : bytes) (pageno n : Z) : option bytes :=
  if pageno <? MAXPAGES then
    m ← rd8 b (dh_map pageno); wr b (dh_map pageno) [uwrap8 (m + n)]
  else Some b.

(** The index of the new entry in the page, or -1. *)
Definition add_to_page (b : bytes) (page pageno : Z) (filename : bytes)
    (raw_name : option bytes) (f : AFSFid) (next : Z) : option (Z * bytes) :=
  let n := 1 + additional_entries filename raw_name None in
  full ← (if pageno <? MAXPAGES then m ← rd8 b (dh_map pageno); Some (m <? n) else Some false);
  if (full : bool) then Some (-1, b) else
  r ← search_page (S (Z.to_nat (uwrap32 (ENTRIESPERPAGE - n)))) b page n 0;
  match r with
  | None => Some (-1, b)
  | Some i =>
      b ← mark_used (Z.to_nat n) b page (i + 1);
      b ← fill_entry b page i n filename raw_name f next;
      b ← adjust_map b pageno (- n);
      Some (i, b)
  end.

Definition remove_from_page (b : bytes) (page pageno off : Z) : option bytes :=
  let entry := pg_entry page off in
  name ← rd_cstr b (e_name entry);
  let n := 1 + additional_entries name None None in
  b ← adjust_map b pageno n;
  b ← wr b (e_next entry) (be16 0);
  b ← wr b (e_Vnode entry) (be32 0);
  b ← wr b (e_Unique entry) (be32 0);
  mark_unused (Z.to_nat n) b page (off + 1).

(** ** Operations that change the directory *)

Definition fdir_changefid (b name : bytes) (file : VenusFid) : option (Z * bytes) :=
  npages ← dir_npages b;
  r ← update_fid_by_name b name file npages;
  Some (match r with Some b => (0, b) | None => (ENOENT, b) end).

(** The file resized by a successful truncation: new bytes are zero. *)
Definition resize (b : bytes) (len : Z) : bytes :=
  take (Z.to_nat len) b ++ replicate (Z.to_nat len - length b) 0.

Section Updates.
(** What becomes of a change of the file's size to the given length: [Some 0]
    when it succeeds, [Some e] when unmapping the buffer or [ftruncate] fails
    with [e], [None] when the file was resized but could not be mapped again. *)
Context (truncate_errno : Z -> option Z).

(** [mmap_truncate].  The bytes are those of the file, which shared pages have
    reached.  After the error [e] the file has its old size; the buffer is
    unmapped unless [munmap] itself failed, and nothing here touches it again.
    When the file cannot be mapped again there is no result: [f->data] has been
    freed and is still set, and the [fbuf_end] that every caller goes on to
    frees it a second time. *)
Definition fbuf_truncate (b : bytes) (len : Z) : option (Z * bytes) :=
  e ← truncate_errno len;
  Some (if e =? 0 then (0, resize b len) else (e, b)).

(** The address of the new page and the buffer, or an error. *)
Definition create_new_page (b : bytes) (utf8_page : bool) : option (Z * Z * bytes) :=
  let len := blen b in
  '(ret, b) ← fbuf_truncate b (len + AFSDIR_PAGESIZE);
  if negb (ret =? 0) then Some (ret, 0, b) else
  let page1 := len in
  b ← wr b (pg_pgcount page1) (be16 0);
  b ← wr b (pg_tag page1) (be16 (if utf8_page then AFSDIRMAGIC_UTF8 else AFSDIRMAGIC));
  b ← wr b (pg_freecount page1) [ENTRIESPERPAGE - 1];
  b ← wr b (pg_bitmap page1 0) (replicate 8 0);
  b ← set_used b page1 0;
  Some (0, page1, b).

(** The entry of a fresh directory: the chain must be empty and the page must
    have room ([assert]). *)
Definition mkdir_entry (b : bytes) (page : Z) (name : bytes) (f : AFSFid) : option bytes :=
  h ← rd16 b (dh_hash (hashentry name));
  guard (h = 0);;
  '(ind, b) ← add_to_page b page 0 name None f 0;
  guard (0 <= ind);;
  wr b (dh_hash (hashentry name)) (be16 (ind + 1)).

Definition dot_name : bytes := [46].
Definition dot_dot_name : bytes := [46; 46].

Definition fdir_mkdir (b : bytes) (dot dot_dot : AFSFid) (utf8_dir : bool)
  : option (Z * bytes) :=
  '(ret, page, b) ← create_new_page b utf8_dir;
  if negb (ret =? 0) then Some (ret, b) else
  b ← wr b (dh_map 0) (replicate 384 0);
  let tmp := ENTRIESPERPAGE - (32 + 384) / 32 in
  let tmp := if utf8_dir then tmp - 32 else tmp in
  b ← wr b (pg_freecount 0) [tmp];
  b ← wr b (dh_map 0) [tmp];
  b ← wr b (pg_pgcount 0) (be16 1);
  b ← mark_used 13 b page 0;
  b ← (if utf8_dir then mark_used 32 b page 13 else Some b);
  b ← mkdir_entry b page dot_name dot;
  b ← mkdir_entry b page dot_dot_name dot_dot;
  Some (0, b).

(** The loop over the pages: the page number, the index on it (or -1) and the
    buffer. *)
Fixpoint add_pages (fuel : nat) (b : bytes) (npages i : Z) (name : bytes)
    (raw_name : option bytes) (f : AFSFid) (next : Z) : option (Z * Z * bytes) :=
  match fuel with
  | O => None
  | S fuel =>
      if negb (i <? npages) then Some (i, -1, b) else
      '(ind, b) ← add_to_page b (getpage i) i name raw_name f next;
      if 0 <=? ind then Some (i, ind, b)
      else add_pages fuel b npages (i + 1) name raw_name f next
  end.

Definition fdir_creat (b name : bytes) (utf8name : option bytes) (f : AFSFid)
  : option (Z * bytes) :=
  if blen b =? 0 then Some (EINVAL, b) else
  npages ← dir_npages b;
  e ← find_entry b name npages;
  match e with
  | Some _ => Some (EEXIST, b)
  | None =>
      tag ← rd16 b (pg_tag 0);
      let is_utf := tag =? AFSDIRMAGIC_UTF8 in
      let utf8_dir := is_utf || match utf8name with Some _ => true | None => false end in
      let utf8name := if is_utf then utf8name else None in
      let hash_value := hashentry name in
      next ← rd16 b (dh_hash hash_value);
      '(i, ind, b) ← add_pages (S (Z.to_nat npages)) b npages 0 name utf8name f next;
      if negb (i =? npages) then
        b ← wr b (dh_hash hash_value) (be16 (ind + i * ENTRIESPERPAGE + 1));
        Some (0, b)
      else
        '(ret, page, b) ← create_new_page b utf8_dir;
        if negb (ret =? 0) then Some (ret, b) else
        b ← wr b (pg_pgcount 0) (be16 (npages + 1));
        b ← (if i <? MAXPAGES then wr b (dh_map i) [ENTRIESPERPAGE - 1] else Some b);
        '(ind, b) ← add_to_page b page i name utf8name f next;
        guard (0 <= ind);;
        b ← wr b (dh_hash hash_value) (be16 (ind + i * ENTRIESPERPAGE + 1));
        Some (0, b)
  end.

(** The search of [fdir_remove]: the entry's number plus one, its address and
    the address of the entry before it in the chain. *)
Fixpoint remove_chain (fuel : nat) (b name : bytes) (npages i : Z) (prev_entry : option Z)
  : option (option (Z * Z * option Z)) :=
  match fuel with
  | O => None
  | S fuel =>
      if i =? 0 then Some None else
      e ← getentry b (uwrap16 (i - 1)) npages;
      match e with
      | None => Some None
      | Some entry =>
          eq ← cstr_eq b (e_name entry) name;
          if (eq : bool) then Some (Some (i, entry, prev_entry)) else
          next ← rd16 b (e_next entry);
          remove_chain fuel b name npages next (Some entry)
      end
  end.

(** The loop that gives up empty pages at the end; the new length and number
    of pages. *)
Fixpoint shrink (fuel : nat) (b : bytes) (len pageno npages : Z) : option (Z * Z) :=
  match fuel with
  | O => None
  | S fuel =>
      let len := len - AFSDIR_PAGESIZE in
      let pageno := uwrap32 (pageno - 1) in
      let npages := npages - 1 in
      empty ← is_page_empty b pageno;
      if (empty : bool) then shrink fuel b len pageno npages else Some (len, npages)
  end.

(** Status, the fid ([Vnode], [Unique]) of the removed entry, the buffer. *)
Definition fdir_remove (b name : bytes) : option (Z * option (Z * Z) * bytes) :=
  let len := blen b in
  npages ← dir_npages b;
  let hash_value := hashentry name in
  i ← rd16 b (dh_hash hash_value);
  r ← remove_chain chain_fuel b name npages i None;
  match r with
  | None => Some (ENOENT, None, b)
  | Some (i, entry, prev_entry) =>
      vnode ← rd32 b (e_Vnode entry);
      unique ← rd32 b (e_Unique entry);
      next ← rd16 b (e_next entry);
      b ← match prev_entry with
          | None => wr b (dh_hash hash_value) (be16 next)
          | Some prev => wr b (e_next prev) (be16 next)
          end;
      let pageno := (i - 1) / ENTRIESPERPAGE in
      b ← remove_from_page b (getpage pageno) pageno ((i - 1) mod ENTRIESPERPAGE);
      empty ← (if pageno =? npages - 1 then is_page_empty b pageno else Some false);
      if (empty : bool) then
        '(len, npages) ← shrink (S (S (Z.to_nat pageno))) b len pageno npages;
        b ← wr b (pg_pgcount 0) (be16 npages);
        '(_, b) ← fbuf_truncate b len;
        Some (0, Some (vnode, unique), b)
      else Some (0, Some (vnode, unique), b)
  end.
End Updates.
