(* ===== verification/FdirPage.v ===== *)
(** * Pages of a directory

    What the operations of [Fdir] on one page do to its bytes: the bitmap of
    used slots, the first-fit search, filling an entry in and creating a new
    page.  The results are stated with [same_but]: which bytes may change. *)

From S2P Require Import Prelude Buf Fdir.

(** ** Addresses *)

Abbreviation loc := (Z * Z)%type.
(** The entry number (without the offset of one that chains use) and the
    address of a place. *)
Definition num (l : loc) : Z := 64 * l.1 + l.2.
Definition ent (l : loc) : Z := pg_entry (getpage l.1) l.2.

Ltac addr :=
  unfold ent, num, pg_entry, getpage, pg_bitmap, pg_tag, pg_pgcount, pg_freecount,
    dh_map, dh_hash, e_flag, e_length, e_next, e_Vnode, e_Unique, e_name, e_fill,
    AFSDIR_PAGESIZE, ENTRIESPERPAGE, MAXPAGES, ADIRHASHSIZE, range in *;
  cbn [fst snd] in *.
Ltac alia := addr; autorewrite with milko_len; lia.

(** Slots taken by a name. *)
Definition nslots (name : bytes) : Z := 1 + (blen name + 16) / 32.

Lemma additional_entries_plain name : 1 + additional_entries name None None = nslots name.
Proof. unfold additional_entries, nslots. do 2 f_equal. lia. Qed.

Lemma nslots_bounds name : 1 <= nslots name /\ blen name + 17 <= 32 * nslots name.
Proof.
  unfold nslots. pose proof (blen_nonneg name). Z.to_euclidean_division_equations. lia.
Qed.

Lemma hashentry_range name : 0 <= hashentry name < 128.
Proof.
  unfold hashentry, ADIRHASHSIZE. change (128 - 1) with (Z.ones 7).
  rewrite Z.land_ones by lia. pose proof (Z.mod_pos_bound (hash_loop 0 name) (2^7)).
  repeat case_in_goal; zbool; lia.
Qed.

(** ** The bitmap of a page *)

Definition bit (b : bytes) (p k : Z) : bool :=
  Z.testbit (ld8 b (pg_bitmap (getpage p) (k / 8))) (k mod 8).

(** Page [p] lies in the buffer. *)
Definition page_in (b : bytes) (p : Z) : Prop := 0 <= p /\ 2048 * (p + 1) <= blen b.

Lemma div8_range k : 0 <= k < 64 -> 0 <= k / 8 < 8.
Proof. intros. Z.to_euclidean_division_equations. lia. Qed.

Lemma land_shiftl_testbit x n :
  0 <= n -> negb (Z.land x (Z.shiftl 1 n) =? 0) = Z.testbit x n.
Proof.
  intros Hn. rewrite Z.shiftl_1_l. destruct (Z.testbit x n) eqn:Hx.
  - apply negb_true_iff, Z.eqb_neq. intros H0.
    assert (Z.testbit (Z.land x (2 ^ n)) n = true) as Ht
      by (rewrite Z.land_spec, Hx, Z.pow2_bits_true by done; done).
    by rewrite H0, Z.bits_0 in Ht.
  - apply negb_false_iff, Z.eqb_eq. apply Z.bits_inj'. intros m Hm.
    rewrite Z.land_spec, Z.bits_0. destruct (decide (m = n)) as [->|Hne].
    + by rewrite Hx.
    + by rewrite Z.pow2_bits_false, andb_false_r by done.
Qed.

Lemma used_slot_spec b p k :
  page_in b p -> 0 <= k < 64 -> used_slot b (getpage p) k = Some (bit b p k).
Proof.
  intros [Hp Hb] Hk. pose proof (div8_range k Hk). unfold used_slot.
  rewrite rd8_in by alia. cbn [mbind option_bind].
  by rewrite land_shiftl_testbit by (apply Z.mod_pos_bound; lia).
Qed.

Definition bitmap_range (p : Z) : Z -> Prop :=
  range (pg_bitmap (getpage p) 0) (pg_bitmap (getpage p) 8).

Lemma bit_same R b b' p k :
  same_but R b b' -> ~ R (pg_bitmap (getpage p) (k / 8)) -> bit b' p k = bit b p k.
Proof. intros Hs Hr. unfold bit. by rewrite (same_but_ld8 _ _ _ Hs). Qed.

Lemma bit_agree R b b' p k :
  agree R b b' -> ~ R (pg_bitmap (getpage p) (k / 8)) -> bit b' p k = bit b p k.
Proof. intros Hs Hr. unfold bit. by rewrite Hs. Qed.

Lemma testbit_uwrap8 x n : 0 <= n < 8 -> Z.testbit (uwrap8 x) n = Z.testbit x n.
Proof. intros. unfold uwrap8. by rewrite Z.mod_pow2_bits_low by lia. Qed.

(** The write of one bitmap byte, for [set_used] and [set_unused]. *)
Lemma bitmap_write b p k y (f : bool -> bool) :
  page_in b p -> 0 <= k < 64 ->
  (forall n, 0 <= n < 8 -> Z.testbit y n =
     let x := Z.testbit (ld8 b (pg_bitmap (getpage p) (k / 8))) n in
     if n =? k mod 8 then f x else x) ->
  let b' := st b (pg_bitmap (getpage p) (k / 8)) [y] in
  same_but (bitmap_range p) b b' /\
  forall k', 0 <= k' < 64 -> bit b' p k' = if k' =? k then f (bit b p k') else bit b p k'.
Proof.
  intros [Hp Hb] Hk Hy b'. pose proof (div8_range k Hk).
  assert (Hs : same_but (range (pg_bitmap (getpage p) (k / 8)) (pg_bitmap (getpage p) (k / 8) + 1))
    b b') by apply st_same_but.
  split.
  { eapply same_but_weaken; [done|]. unfold bitmap_range. intros i. alia. }
  intros k' Hk'. pose proof (div8_range k' Hk'). unfold bit.
  pose proof (Z.mod_pos_bound k' 8). pose proof (Z.mod_pos_bound k 8).
  pose proof (Z.div_mod k' 8). pose proof (Z.div_mod k 8).
  destruct (decide (k' / 8 = k / 8)) as [He|He].
  - rewrite He. unfold b'. replace (pg_bitmap (getpage p) (k / 8))
      with (pg_bitmap (getpage p) (k / 8) + Z.of_nat 0) at 2 by lia.
    rewrite (ld8_st_in _ _ [y] 0 y) by (done || alia).
    rewrite Hy by lia. cbv zeta.
    destruct (Z.eqb_spec (k' mod 8) (k mod 8)), (Z.eqb_spec k' k); try done; lia.
  - rewrite (same_but_ld8 _ _ _ Hs) by alia. destruct (Z.eqb_spec k' k); [congruence|done].
Qed.

Lemma set_used_spec b p k :
  page_in b p -> 0 <= k < 64 ->
  exists b', set_used b (getpage p) k = Some b' /\ same_but (bitmap_range p) b b' /\
    forall k', 0 <= k' < 64 -> bit b' p k' = (k' =? k) || bit b p k'.
Proof.
  intros Hp Hk. pose proof (div8_range k Hk). destruct Hp as [Hp Hb]. unfold set_used.
  rewrite rd8_in by alia. cbn [mbind option_bind]. rewrite wr_in by alia.
  eexists. split; [done|].
  destruct (bitmap_write b p k (uwrap8 (Z.lor (ld8 b (pg_bitmap (getpage p) (k / 8)))
    (Z.shiftl 1 (k mod 8)))) (fun _ => true)) as [H1 H2]; [done|done| |].
  { intros n Hn. rewrite testbit_uwrap8, Z.lor_spec, Z.shiftl_1_l by done.
    pose proof (Z.mod_pos_bound k 8). rewrite Z.pow2_bits_eqb by lia. cbv zeta.
    rewrite (Z.eqb_sym (k mod 8) n). destruct (n =? k mod 8); [apply orb_true_r|apply orb_false_r]. }
  split; [done|]. intros k' Hk'. rewrite H2 by done. by destruct (k' =? k).
Qed.

Lemma set_unused_spec b p k :
  page_in b p -> 0 <= k < 64 ->
  exists b', set_unused b (getpage p) k = Some b' /\ same_but (bitmap_range p) b b' /\
    forall k', 0 <= k' < 64 -> bit b' p k' = negb (k' =? k) && bit b p k'.
Proof.
  intros Hp Hk. pose proof (div8_range k Hk). destruct Hp as [Hp Hb]. unfold set_unused.
  rewrite rd8_in by alia. cbn [mbind option_bind]. rewrite wr_in by alia.
  eexists. split; [done|].
  destruct (bitmap_write b p k (uwrap8 (Z.land (ld8 b (pg_bitmap (getpage p) (k / 8)))
    (Z.lnot (Z.shiftl 1 (k mod 8))))) (fun _ => false)) as [H1 H2]; [done|done| |].
  { intros n Hn. rewrite testbit_uwrap8, Z.land_spec, Z.lnot_spec, Z.shiftl_1_l by lia.
    pose proof (Z.mod_pos_bound k 8). rewrite Z.pow2_bits_eqb by lia. cbv zeta.
    rewrite (Z.eqb_sym (k mod 8) n).
    destruct (n =? k mod 8); [apply andb_false_r|apply andb_true_r]. }
  split; [done|]. intros k' Hk'. rewrite H2 by done. by destruct (k' =? k).
Qed.

(** Is [k] one of the [n] slots from [off]? *)
Definition within (off n k : Z) : bool := (off <=? k) && (k <? off + n).

Lemma withinP off n k :
  BoolSpec (off <= k < off + n) (~ (off <= k < off + n)) (within off n k).
Proof.
  unfold within. destruct (Z.leb_spec off k), (Z.ltb_spec k (off + n)); constructor; lia.
Qed.

Lemma page_in_same R b b' p : same_but R b b' -> page_in b p -> page_in b' p.
Proof. intros [Hl _] [? ?]. split; [done|]. lia. Qed.

Lemma mark_used_spec n b p off :
  page_in b p -> 0 <= off -> off + Z.of_nat n <= 64 ->
  exists b', mark_used n b (getpage p) off = Some b' /\ same_but (bitmap_range p) b b' /\
    forall k, 0 <= k < 64 -> bit b' p k = within off (Z.of_nat n) k || bit b p k.
Proof.
  revert b off. induction n as [|n IH]; intros b off Hp Ho Hn.
  - exists b. split; [done|]. split; [apply same_but_refl|]. intros k Hk.
    destruct (withinP off (Z.of_nat 0) k); [lia|done].
  - destruct (set_used_spec b p off) as (b1 & Hw & Hs & Hb); [done|lia|].
    destruct (IH b1 (off + 1)) as (b2 & Hw2 & Hs2 & Hb2);
      [by eapply page_in_same|lia|lia|].
    exists b2. simpl. rewrite Hw. split; [exact Hw2|].
    split; [by eapply same_but_trans|]. intros k Hk. rewrite Hb2, Hb by done.
    destruct (withinP (off + 1) (Z.of_nat n) k), (Z.eqb_spec k off),
      (withinP off (Z.of_nat (S n)) k); try done; lia.
Qed.

Lemma mark_unused_spec n b p off :
  page_in b p -> 0 <= off -> off + Z.of_nat n <= 64 ->
  exists b', mark_unused n b (getpage p) off = Some b' /\ same_but (bitmap_range p) b b' /\
    forall k, 0 <= k < 64 -> bit b' p k = negb (within off (Z.of_nat n) k) && bit b p k.
Proof.
  revert b off. induction n as [|n IH]; intros b off Hp Ho Hn.
  - exists b. split; [done|]. split; [apply same_but_refl|]. intros k Hk.
    destruct (withinP off (Z.of_nat 0) k); [lia|done].
  - destruct (set_unused_spec b p off) as (b1 & Hw & Hs & Hb); [done|lia|].
    destruct (IH b1 (off + 1)) as (b2 & Hw2 & Hs2 & Hb2);
      [by eapply page_in_same|lia|lia|].
    exists b2. simpl. rewrite Hw. split; [exact Hw2|].
    split; [by eapply same_but_trans|]. intros k Hk. rewrite Hb2, Hb by done.
    destruct (withinP (off + 1) (Z.of_nat n) k), (Z.eqb_spec k off),
      (withinP off (Z.of_nat (S n)) k); try done; lia.
Qed.

(** ** Free slots *)

Fixpoint cnt (g : Z -> bool) (l : list Z) : Z :=
  match l with
  | [] => 0
  | k :: l => (if g k then 1 else 0) + cnt g l
  end.

Lemma cnt_app g l1 l2 : cnt g (l1 ++ l2) = cnt g l1 + cnt g l2.
Proof. induction l1 as [|k l1 IH]; simpl; [done|]. rewrite IH. lia. Qed.

Lemma cnt_ext g g' l : (forall k, k ∈ l -> g k = g' k) -> cnt g l = cnt g' l.
Proof.
  induction l as [|k l IH]; intros H; simpl; [done|].
  rewrite (H k), IH; [done| |]; [intros; apply H; by right|by left].
Qed.

Lemma cnt_const g l v : (forall k, k ∈ l -> g k = v) -> cnt g l = if v then Z.of_nat (length l) else 0.
Proof.
  induction l as [|k l IH]; intros H; simpl; [by destruct v|].
  rewrite (H k) by constructor. rewrite IH by (intros; apply H; by constructor).
  destruct v; lia.
Qed.

Lemma cnt_bounds g l : 0 <= cnt g l <= Z.of_nat (length l).
Proof. induction l as [|k l IH]; simpl; [lia|]. destruct (g k); lia. Qed.

(** Turning a run of [n] places from false to true adds [n]. *)
Lemma cnt_run g g' m i n :
  0 <= i -> 0 <= n -> i + n <= m ->
  (forall k, 0 <= k < m -> g' k = within i n k || g k) ->
  (forall k, i <= k < i + n -> g k = false) ->
  cnt g' (seqZ 0 m) = cnt g (seqZ 0 m) + n.
Proof.
  intros Hi Hn Hm Hg Hf.
  replace (seqZ 0 m) with (seqZ 0 i ++ seqZ i n ++ seqZ (i + n) (m - i - n)).
  2:{ rewrite <- seqZ_app by lia. rewrite <- (Z.add_0_l i) at 2. rewrite <- seqZ_app by lia.
      f_equal. lia. }
  rewrite !cnt_app.
  rewrite (cnt_ext g' g (seqZ 0 i)), (cnt_ext g' g (seqZ (i + n) _)).
  - rewrite (cnt_const g' _ true), (cnt_const g (seqZ i n) false).
    + rewrite length_seqZ. lia.
    + intros k Hk%elem_of_seqZ. by apply Hf.
    + intros k Hk%elem_of_seqZ. rewrite Hg by lia. by destruct (withinP i n k).
  - intros k Hk%elem_of_seqZ. rewrite Hg by lia. by destruct (withinP i n k); [lia|].
  - intros k Hk%elem_of_seqZ. rewrite Hg by lia. by destruct (withinP i n k); [lia|].
Qed.

Definition free_slots (b : bytes) (p : Z) : Z :=
  cnt (fun k => negb (bit b p (k + 1))) (seqZ 0 63).

Lemma free_slots_bounds b p : 0 <= free_slots b p <= 63.
Proof. unfold free_slots. pose proof (cnt_bounds (fun k => negb (bit b p (k + 1))) (seqZ 0 63)).
  rewrite length_seqZ in *. lia.
Qed.

Lemma free_slots_ext b b' p :
  (forall k, 0 < k < 64 -> bit b' p k = bit b p k) -> free_slots b' p = free_slots b p.
Proof.
  intros H. apply cnt_ext. intros k Hk%elem_of_seqZ. by rewrite H by lia.
Qed.

(** Slots [s .. s+n-1] are free: their bits are [s+1 .. s+n]. *)
Definition run_free (b : bytes) (p n s : Z) : Prop :=
  forall k, s + 1 <= k < s + 1 + n -> bit b p k = false.

(** [b'] has in addition the run of [n] slots from [s] marked. *)
Lemma free_slots_mark b b' p n s :
  0 <= s -> 0 <= n -> s + n <= 63 -> run_free b p n s ->
  (forall k, 0 <= k < 64 -> bit b' p k = within (s + 1) n k || bit b p k) ->
  free_slots b' p = free_slots b p - n.
Proof.
  intros Hs Hn Hm Hf Hb.
  enough (free_slots b p = free_slots b' p + n) by lia.
  apply (cnt_run _ _ _ s n); try lia.
  - intros k Hk. rewrite Hb by lia.
    destruct (withinP s n k), (withinP (s + 1) n (k + 1)); simpl; try lia; [|done].
    rewrite Hf by lia. done.
  - intros k Hk. rewrite Hb by lia. by destruct (withinP (s + 1) n (k + 1)); [|lia].
Qed.

(** ** The first-fit search *)

Lemma free_run_spec n b p off :
  page_in b p -> 0 <= off -> off + Z.of_nat n <= 64 ->
  exists r, free_run n b (getpage p) off = Some r /\ 0 <= r <= Z.of_nat n /\
    (forall k, off <= k < off + r -> bit b p k = false) /\
    (r < Z.of_nat n -> bit b p (off + r) = true).
Proof.
  intros Hp. revert off. induction n as [|n IH]; intros off Ho Hn.
  - exists 0. split; [done|]. split_and!; [lia|lia| |lia]. intros. lia.
  - simpl. rewrite used_slot_spec by (done || lia). cbn [mbind option_bind].
    destruct (bit b p off) eqn:Hb.
    + exists 0. split_and!; [done|lia|lia| |].
      * intros. lia.
      * intros _. by rewrite Z.add_0_r.
    + destruct (IH (off + 1)) as (r & -> & Hr & Hf & Hu); [lia|lia|].
      exists (1 + r). cbn [mbind option_bind]. split_and!; [done|lia|lia| |].
      * intros k Hk. destruct (decide (k = off)) as [->|]; [done|]. apply Hf. lia.
      * intros Hlt. rewrite <- Hu by lia. f_equal. lia.
Qed.

(** The answer of the search from [i]: the first place where a run of [n]
    free slots starts. *)
Definition first_fit (b : bytes) (p n i : Z) (r : option Z) : Prop :=
  match r with
  | Some s => i <= s /\ s + n <= 63 /\ run_free b p n s /\
      forall s', i <= s' < s -> ~ run_free b p n s'
  | None => forall s', i <= s' -> s' + n <= 63 -> ~ run_free b p n s'
  end.

Lemma search_page_spec fuel b p n i :
  page_in b p -> 1 <= n <= 63 -> 0 <= i -> (Z.to_nat (64 - n - i) < fuel)%nat ->
  exists r, search_page fuel b (getpage p) n i = Some r /\ first_fit b p n i r.
Proof.
  intros Hp Hn. revert i. induction fuel as [|fuel IH]; intros i Hi Hf; [lia|]. simpl.
  replace (uwrap32 (ENTRIESPERPAGE - n)) with (64 - n)
    by (unfold uwrap32, ENTRIESPERPAGE; rewrite Z.mod_small; lia).
  destruct (Z.ltb_spec i (64 - n)) as [Hlt|Hge]; cbn [negb].
  2:{ exists None. split; [done|]. intros s'. lia. }
  destruct (free_run_spec (Z.to_nat n) b p (i + 1)) as (j & -> & Hj & Hfree & Hused);
    [done|lia|lia|].
  cbn [mbind option_bind]. destruct (Z.eqb_spec j n) as [->|Hne].
  - exists (Some i). split; [done|]. split_and!; [lia|lia|exact Hfree|lia].
  - destruct (IH (i + j + 1)) as (r & Hr & Hfit); [lia|lia|].
    exists r. split; [done|].
    assert (Hno : forall s', i <= s' < i + j + 1 -> ~ run_free b p n s').
    { intros s' Hs' Hrun. assert (bit b p (i + 1 + j) = true) as Ht by (apply Hused; lia).
      rewrite Hrun in Ht by lia. done. }
    destruct r as [s|]; simpl in *.
    + destruct Hfit as (H1 & H2 & H3 & H4). split_and!; [lia|done|done|].
      intros s' Hs'. destruct (decide (s' < i + j + 1)); [apply Hno; lia|apply H4; lia].
    + intros s' H1 H2. destruct (decide (s' < i + j + 1)); [apply Hno; lia|by apply Hfit; lia].
Qed.

(** ** Entries *)

Record dent := { d_name : bytes; d_vnode : Z; d_unique : Z }.
Definition d_slots (d : dent) : Z := nslots (d_name d).

(** The entry [d] is at place [l]. *)
Record entry_at (b : bytes) (l : loc) (d : dent) : Prop := {
  ea_flag : ld8 b (e_flag (ent l)) = AFSDIR_FIRST;
  ea_vnode : ld32 b (e_Vnode (ent l)) = d_vnode d;
  ea_unique : ld32 b (e_Unique (ent l)) = d_unique d;
  ea_name : cstr_at b (e_name (ent l)) (d_name d);
}.

Definition slots_range (l : loc) (n : Z) : Z -> Prop := range (ent l) (ent l + 32 * n).

(** The bytes of an entry other than its [next] field. *)
Definition body_range (l : loc) (n i : Z) : Prop :=
  slots_range l n i /\ ~ range (e_next (ent l)) (e_next (ent l) + 2) i.

Lemma entry_at_body R b b' l d :
  agree R b b' -> (forall i, body_range l (d_slots d) i -> ~ R i) ->
  entry_at b l d -> entry_at b' l d.
Proof.
  intros Hs HR [H1 H2 H3 H4]. unfold body_range, slots_range, d_slots in HR.
  pose proof (nslots_bounds (d_name d)) as [Hn1 Hn2]. pose proof (blen_nonneg (d_name d)).
  split.
  - rewrite Hs; [done|]. apply HR. alia.
  - rewrite (agree_ld32 _ _ _ Hs); [done|]. intros j Hj. apply HR. alia.
  - rewrite (agree_ld32 _ _ _ Hs); [done|]. intros j Hj. apply HR. alia.
  - eapply agree_cstr_at; [done| |done]. intros j Hj. apply HR. alia.
Qed.

Lemma entry_at_agree R b b' l d :
  agree R b b' -> (forall i, slots_range l (d_slots d) i -> ~ R i) ->
  entry_at b l d -> entry_at b' l d.
Proof. intros Hs HR. eapply entry_at_body; [done|]. intros i [Hi _]. by apply HR. Qed.

Lemma entry_at_same R b b' l d :
  same_but R b b' -> (forall i, slots_range l (d_slots d) i -> ~ R i) ->
  entry_at b l d -> entry_at b' l d.
Proof. intros Hs. apply entry_at_agree. by apply same_but_agree. Qed.

Definition new_dent (name : bytes) (f : AFSFid) : dent :=
  {| d_name := name; d_vnode := uwrap32 (Vnode f); d_unique := uwrap32 (Unique f) |}.

Lemma fill_entry_spec b p i name f next :
  page_in b p -> 0 <= i -> i + nslots name <= 63 ->
  exists b', fill_entry b (getpage p) i (nslots name) name None f next = Some b' /\
    same_but (slots_range (p, i) (nslots name)) b b' /\
    entry_at b' (p, i) (new_dent name f) /\ ld16 b' (e_next (ent (p, i))) = uwrap16 next.
Proof.
  intros [Hp Hb] Hi Hn. pose proof (nslots_bounds name) as [Hn1 Hn2].
  pose proof (blen_nonneg name). unfold fill_entry. change (pg_entry (getpage p) i) with (ent (p, i)).
  do 7 (rewrite wr_in by alia; cbn [mbind option_bind]).
  eexists. split; [reflexivity|]. split_and!.
  - unfold slots_range. repeat (apply st_same_within; [|intros ?; alia]).
    apply same_but_refl.
  - split.
    + repeat (rewrite ld8_st_out by alia). by rewrite ld8_st by alia.
    + repeat (rewrite ld32_st_out by alia). by rewrite ld32_st by alia.
    + repeat (rewrite ld32_st_out by alia). by rewrite ld32_st by alia.
    + cbn [d_name new_dent]. apply cstr_at_st_out; [alia|]. apply cstr_at_st; alia.
  - repeat (rewrite ld16_st_out by alia). by rewrite ld16_st by alia.
Qed.

(** ** Adding to a page *)

Definition map_range (p i : Z) : Prop := p < 128 /\ i = dh_map p.

Lemma adjust_map_spec b p n :
  0 <= p -> page_in b 0 ->
  exists b', adjust_map b p n = Some b' /\ same_but (map_range p) b b' /\
    (p < 128 -> ld8 b' (dh_map p) = uwrap8 (ld8 b (dh_map p) + n)).
Proof.
  intros Hp [_ Hb]. unfold adjust_map. destruct (Z.ltb_spec p MAXPAGES) as [Hlt|Hge].
  - rewrite rd8_in by alia. cbn [mbind option_bind]. rewrite wr_in by alia.
    eexists. split; [done|]. split.
    + apply st_same_within; [apply same_but_refl|]. unfold map_range. intros i. alia.
    + intros _. by rewrite ld8_st by alia.
  - exists b. split; [done|]. split; [apply same_but_refl|]. alia.
Qed.

(** The bytes an entry's creation or removal may change. *)
Definition touched (l : loc) (n : Z) (i : Z) : Prop :=
  bitmap_range l.1 i \/ slots_range l n i \/ map_range l.1 i.

(** [b'] is [b] with the entry added at place [l]. *)
Record added (b b' : bytes) (l : loc) (name : bytes) (f : AFSFid) (next : Z) : Prop := {
  ad_same : same_but (touched l (nslots name)) b b';
  ad_bits k : 0 <= k < 64 -> bit b' l.1 k = within (l.2 + 1) (nslots name) k || bit b l.1 k;
  ad_entry : entry_at b' l (new_dent name f);
  ad_next : ld16 b' (e_next (ent l)) = uwrap16 next;
  ad_map : l.1 < 128 -> ld8 b' (dh_map l.1) = uwrap8 (ld8 b (dh_map l.1) - nslots name);
}.

(** The slots of the directory header are marked. *)
Definition reserved (b : bytes) (p : Z) : Prop :=
  p = 0 -> forall k, 1 <= k <= 12 -> bit b 0 k = true.

Lemma run_free_reserved b p n s :
  reserved b p -> 0 <= s -> 1 <= n -> run_free b p n s -> p = 0 -> 12 <= s.
Proof.
  intros Hr Hs Hn Hf ->. destruct (decide (12 <= s)); [done|].
  assert (bit b 0 (s + 1) = true) as Ht by (apply Hr; lia).
  rewrite Hf in Ht by lia. done.
Qed.

Ltac disj := unfold touched, bitmap_range, slots_range, map_range, d_slots in *; intros; alia.

Lemma add_entry_at b p s name f next :
  page_in b p -> page_in b 0 -> 0 <= s -> s + nslots name <= 63 -> (p = 0 -> 12 <= s) ->
  exists b', (b ← mark_used (Z.to_nat (nslots name)) b (getpage p) (s + 1);
              b ← fill_entry b (getpage p) s (nslots name) name None f next;
              adjust_map b p (- nslots name)) = Some b' /\ added b b' (p, s) name f next.
Proof.
  intros Hp H0 Hs Hn Hres. pose proof (nslots_bounds name) as [Hn1 Hn2].
  destruct (mark_used_spec (Z.to_nat (nslots name)) b p (s + 1)) as (b1 & -> & Hs1 & Hb1);
    [done|lia|lia|]. rewrite Z2Nat.id in Hb1 by lia. cbn [mbind option_bind].
  destruct (fill_entry_spec b1 p s name f next) as (b2 & -> & Hs2 & He2 & Hx2);
    [by eapply page_in_same|done|done|]. cbn [mbind option_bind].
  destruct (adjust_map_spec b2 p (- nslots name)) as (b3 & -> & Hs3 & Hm3);
    [apply Hp| by do 2 (eapply page_in_same; [done|])|].
  exists b3. split; [done|]. destruct Hp as [Hp Hb], H0 as [_ H0]. split.
  - eapply same_but_trans; [eapply same_but_trans|];
      (eapply same_but_weaken; [done|]); unfold touched; naive_solver.
  - intros k Hk. pose proof (div8_range k Hk). cbn [fst snd].
    rewrite (bit_same _ _ _ _ _ Hs3), (bit_same _ _ _ _ _ Hs2) by disj. auto.
  - eapply entry_at_same; [done| |done]. cbn [d_name new_dent d_slots]. disj.
  - rewrite (same_but_ld16 _ _ _ Hs3) by disj. done.
  - cbn [fst]. intros Hlt. rewrite Hm3 by done. do 2 f_equal.
    rewrite (same_but_ld8 _ _ _ Hs2), (same_but_ld8 _ _ _ Hs1) by disj. done.
Qed.

Lemma add_to_page_spec b p name f next :
  page_in b p -> page_in b 0 -> nslots name <= 63 -> reserved b p ->
  (add_to_page b (getpage p) p name None f next = Some (-1, b) /\
   (p < 128 /\ ld8 b (dh_map p) < nslots name \/
    forall s, 0 <= s -> s + nslots name <= 63 -> ~ run_free b p (nslots name) s)) \/
  (exists s b', add_to_page b (getpage p) p name None f next = Some (s, b') /\
     0 <= s /\ s + nslots name <= 63 /\ (p = 0 -> 12 <= s) /\
     run_free b p (nslots name) s /\ added b b' (p, s) name f next).
Proof.
  intros Hp H0 Hn Hr. pose proof (nslots_bounds name) as [Hn1 Hn2].
  unfold add_to_page. rewrite additional_entries_plain.
  assert (exists full : bool, (if p <? MAXPAGES then m ← rd8 b (dh_map p); Some (m <? nslots name)
    else Some false) = Some full /\ (full = true -> p < 128 /\ ld8 b (dh_map p) < nslots name))
    as (full & -> & Hfull).
  { destruct (Z.ltb_spec p MAXPAGES); [|by exists false].
    destruct Hp, H0. rewrite rd8_in by alia. eexists. split; [done|]. intros ?. zbool. alia. }
  cbn [mbind option_bind]. destruct full; [left; eauto|].
  destruct (search_page_spec (S (Z.to_nat (uwrap32 (ENTRIESPERPAGE - nslots name)))) b p
    (nslots name) 0) as (r & -> & Hfit); [done|done|done| |].
  { unfold uwrap32, ENTRIESPERPAGE. rewrite Z.mod_small by lia. lia. }
  cbn [mbind option_bind]. destruct r as [s|]; [|left; auto].
  destruct Hfit as (Hs & Hm & Hf & _). right.
  assert (p = 0 -> 12 <= s) by (by eapply run_free_reserved).
  destruct (add_entry_at b p s name f next) as (b' & Hb' & Ha); [done..|].
  exists s, b'. split; [|done].
  destruct (mark_used _ _ _ _) as [b1|]; [|done]. cbn [mbind option_bind] in *.
  destruct (fill_entry _ _ _ _ _ _ _ _) as [b2|]; [|done]. cbn [mbind option_bind] in *.
  by rewrite Hb'.
Qed.

