(* ===== verification/FdirRep.v ===== *)
(** * Representation of directories

    A directory buffer is described by a finite map from places (page, slot)
    to entries and, for each of the 128 hash values, the list of places of its
    chain ([dir_rep]).  This file shows that the representation determines the
    answers of the search and is kept by every update of [Fdir]. *)

From S2P Require Import Prelude Buf Fdir FdirPage.

(** ** The representation invariant *)

(** Slot [k] of page [p] belongs to the entry [d] at [l]. *)
Definition covers (l : loc) (d : dent) (p k : Z) : Prop :=
  p = l.1 /\ l.2 <= k < l.2 + d_slots d.

Record dent_ok (P : Z) (l : loc) (d : dent) : Prop := {
  do_page : 0 <= l.1 < P;
  do_slot : 0 <= l.2 /\ l.2 + d_slots d <= 63;
  do_header : l.1 = 0 -> 12 <= l.2;
  do_name : is_cstr (d_name d);
}.

(** The chain that starts with [i] runs through the places [c]. *)
Fixpoint linked (b : bytes) (i : Z) (c : list loc) : Prop :=
  match c with
  | [] => i = 0
  | l :: c => i = num l + 1 /\ linked b (ld16 b (e_next (ent l))) c
  end.

(** The buffer [b] is a directory of [P] pages with the entries [ents]; the
    entries with hash value [h] are chained in the order [chain h]. *)
Record dir_rep (b : bytes) (P : Z) (ents : gmap loc dent) (chain : Z -> list loc) : Prop := {
  dr_len : blen b = 2048 * P;
  dr_pages : 1 <= P <= 1023;
  dr_count : ld16 b (pg_pgcount 0) <= P;
  dr_tag p : 0 <= p < P -> ld16 b (pg_tag (getpage p)) = AFSDIRMAGIC;
  dr_ok l d : ents !! l = Some d -> dent_ok P l d;
  dr_entry l d : ents !! l = Some d -> entry_at b l d;
  dr_disj l d l' d' p k : ents !! l = Some d -> ents !! l' = Some d' ->
    covers l d p k -> covers l' d' p k -> l = l';
  dr_bits p k : 0 <= p < P -> 0 <= k < 63 ->
    bit b p (k + 1) = true <->
    (p = 0 /\ k < 12) \/ exists l d, ents !! l = Some d /\ covers l d p k;
  dr_map p : 0 <= p < P -> p < 128 -> ld8 b (dh_map p) = free_slots b p;
  dr_chain h : 0 <= h < 128 -> linked b (ld16 b (dh_hash h)) (chain h);
  dr_mem h l : 0 <= h < 128 ->
    l ∈ chain h <-> exists d, ents !! l = Some d /\ hashentry (d_name d) = h;
  dr_nodup h : 0 <= h < 128 -> NoDup (chain h);
  dr_names l d l' d' : ents !! l = Some d -> ents !! l' = Some d' ->
    d_name d = d_name d' -> l = l';
}.

(** The buffer is a well-formed directory. *)
Definition dir_ok (b : bytes) : Prop := exists P ents chain, dir_rep b P ents chain.

Lemma linked_same b b' i c :
  (forall l, l ∈ c -> ld16 b' (e_next (ent l)) = ld16 b (e_next (ent l))) ->
  linked b i c -> linked b' i c.
Proof.
  revert i. induction c as [|l c IH]; intros i H; [done|]. intros [Hi Hl]. split; [done|].
  rewrite H by constructor. apply IH; [|done]. intros. apply H. by constructor.
Qed.

Section Rep.
Context (b : bytes) (P : Z) (ents : gmap loc dent) (chain : Z -> list loc).
Hypothesis (Hrep : dir_rep b P ents chain).

Lemma rep_page_in p : 0 <= p < P -> page_in b p.
Proof using Hrep. intros. destruct Hrep. split; lia. Qed.

Lemma rep_npages : dir_npages b = Some P.
Proof using Hrep.
  destruct Hrep as [Hl HP Hc _]. unfold dir_npages. rewrite rd16_in by alia.
  cbn [mbind option_bind]. rewrite Hl. unfold AFSDIR_PAGESIZE.
  rewrite Z.mul_comm, Z.div_mul by lia.
  destruct (Z.ltb_spec (ld16 b (pg_pgcount 0)) P); f_equal; lia.
Qed.

Lemma rep_tag_ok p : 0 <= p < P -> tag_ok b (getpage p) = Some true.
Proof using Hrep.
  intros Hp. destruct Hrep as [Hl HP _ Ht]. unfold tag_ok. rewrite rd16_in by alia.
  cbn [mbind option_bind]. by rewrite Ht.
Qed.

Lemma rep_getentry l d : ents !! l = Some d -> getentry b (num l) P = Some (Some (ent l)).
Proof using Hrep.
  intros Hl. destruct (dr_ok _ _ _ _ Hrep _ _ Hl) as [Hp Hs _ _].
  pose proof (nslots_bounds (d_name d)) as [? _]. unfold d_slots in Hs.
  assert (Hd : num l / ENTRIESPERPAGE = l.1 /\ num l mod ENTRIESPERPAGE = l.2).
  { unfold num, ENTRIESPERPAGE. Z.to_euclidean_division_equations. lia. }
  unfold getentry. destruct Hd as [-> ->]. destruct (Z.leb_spec P l.1); [lia|].
  by rewrite rep_tag_ok by lia.
Qed.

Lemma rep_num_bounds l d : ents !! l = Some d -> 0 <= num l < 65535.
Proof using Hrep.
  intros Hl. destruct (dr_ok _ _ _ _ Hrep _ _ Hl) as [Hp Hs _ _].
  pose proof (dr_pages _ _ _ _ Hrep). pose proof (nslots_bounds (d_name d)) as [? _].
  unfold d_slots in *. alia.
Qed.

(** Addresses of an entry are inside its page. *)
Lemma rep_entry_bounds l d :
  ents !! l = Some d -> 0 <= l.1 < P /\ 0 <= l.2 /\ 1 <= d_slots d /\ l.2 + d_slots d <= 63 /\
    2048 * (l.1 + 1) <= blen b /\ blen (d_name d) + 17 <= 32 * d_slots d.
Proof using Hrep.
  intros Hl. destruct (dr_ok _ _ _ _ Hrep _ _ Hl) as [Hp Hs _ _].
  pose proof (dr_len _ _ _ _ Hrep). pose proof (nslots_bounds (d_name d)).
  unfold d_slots in *. lia.
Qed.

(** Two entries share no slot. *)
Lemma rep_disjoint l d l' d' :
  ents !! l = Some d -> ents !! l' = Some d' -> l' <> l ->
  l'.1 <> l.1 \/ l'.2 + d_slots d' <= l.2 \/ l.2 + d_slots d <= l'.2.
Proof using Hrep.
  intros Hl Hl' Hne. destruct (rep_entry_bounds _ _ Hl) as (? & ? & ? & ? & _).
  destruct (rep_entry_bounds _ _ Hl') as (? & ? & ? & ? & _).
  destruct (decide (l'.1 <> l.1 \/ l'.2 + d_slots d' <= l.2 \/ l.2 + d_slots d <= l'.2)); [done|].
  destruct Hne. apply (dr_disj _ _ _ _ Hrep l' d' l d l.1 (Z.max l.2 l'.2)); try done;
    unfold covers; lia.
Qed.

Lemma rep_slots_disjoint l d l' d' i :
  ents !! l = Some d -> ents !! l' = Some d' -> l' <> l ->
  slots_range l (d_slots d) i -> ~ slots_range l' (d_slots d') i.
Proof using Hrep.
  intros Hl Hl' Hne. destruct (rep_entry_bounds _ _ Hl) as (? & ? & ? & ? & _).
  destruct (rep_entry_bounds _ _ Hl') as (? & ? & ? & ? & _).
  pose proof (rep_disjoint _ _ _ _ Hl Hl' Hne). unfold slots_range. alia.
Qed.

(** The slots of an entry are apart from bitmaps, map and hash table. *)
Lemma rep_slots_header l d i p h :
  ents !! l = Some d -> 0 <= p -> 0 <= h < 128 -> slots_range l (d_slots d) i ->
  ~ bitmap_range p i /\ ~ map_range p i /\ ~ range (dh_hash h) (dh_hash h + 2) i.
Proof using Hrep.
  intros Hl Hp Hh. destruct (rep_entry_bounds _ _ Hl) as (? & ? & ? & ? & _).
  pose proof (do_header _ _ _ (dr_ok _ _ _ _ Hrep _ _ Hl)).
  unfold slots_range, bitmap_range, map_range. alia.
Qed.

Lemma rep_next_slot l d i :
  ents !! l = Some d -> range (e_next (ent l)) (e_next (ent l) + 2) i ->
  slots_range l (d_slots d) i.
Proof using Hrep.
  intros Hl. destruct (rep_entry_bounds _ _ Hl) as (? & ? & ? & ? & _).
  unfold slots_range. alia.
Qed.

Lemma rep_compare l d name :
  ents !! l = Some d -> is_cstr name ->
  cstr_eq b (e_name (ent l)) name = Some (bool_decide (d_name d = name)).
Proof using Hrep.
  intros Hl Hn. destruct (dr_ok _ _ _ _ Hrep _ _ Hl) as [_ _ _ Hc].
  destruct (rep_entry_bounds _ _ Hl) as (? & ? & ? & ? & ? & ?).
  pose proof (blen_nonneg (d_name d)).
  apply cstr_eq_spec; [done|done|apply (dr_entry _ _ _ _ Hrep _ _ Hl)|alia|alia].
Qed.

(** What the search of a chain answers. *)
Lemma remove_chain_spec name c i prev fuel :
  is_cstr name -> linked b i c -> (forall l, l ∈ c -> is_Some (ents !! l)) ->
  (length c < fuel)%nat ->
  (exists c1 l d c2, c = c1 ++ l :: c2 /\ ents !! l = Some d /\ d_name d = name /\
     remove_chain fuel b name P i prev =
     Some (Some (num l + 1, ent l, from_option (fun l => Some (ent l)) prev (last c1)))) \/
  ((forall l d, l ∈ c -> ents !! l = Some d -> d_name d <> name) /\
   remove_chain fuel b name P i prev = Some None).
Proof using Hrep.
  intros Hn. revert i prev fuel. induction c as [|l c IH]; intros i prev fuel Hl Hm Hf;
    (destruct fuel as [|fuel]; [simpl in Hf; lia|]); simpl remove_chain.
  - simpl in Hl. subst i. right. split; [|done]. intros l d H%not_elem_of_nil. done.
  - destruct Hl as [-> Hl]. destruct (Hm l) as [d Hd]; [constructor|].
    pose proof (rep_num_bounds _ _ Hd).
    destruct (Z.eqb_spec (num l + 1) 0); [lia|].
    replace (uwrap16 (num l + 1 - 1)) with (num l)
      by (unfold uwrap16; rewrite Z.mod_small; lia).
    rewrite (rep_getentry _ _ Hd). cbn [mbind option_bind].
    rewrite (rep_compare _ _ _ Hd Hn). cbn [mbind option_bind].
    case_bool_decide as Heq.
    + left. exists [], l, d, c. done.
    + destruct (rep_entry_bounds _ _ Hd) as (? & ? & ? & ? & ? & ?).
      rewrite rd16_in by alia. cbn [mbind option_bind].
      destruct (IH _ (Some (ent l)) fuel Hl) as [(c1 & l' & d' & c2 & -> & Hd' & Hn' & ->)|[Hno ->]].
      * intros. apply Hm. by constructor.
      * simpl in Hf. lia.
      * left. exists (l :: c1), l', d', c2. split_and!; try done.
        rewrite last_cons. by destruct (last c1).
      * right. split; [|done]. intros l' d' [->|Hin]%elem_of_cons Hd'; [congruence|eauto].
Qed.

Lemma chain_length h : 0 <= h < 128 -> (length (chain h) < chain_fuel)%nat.
Proof using Hrep.
  intros Hh.
  assert (Hinc : num <$> chain h ⊆ seqZ 0 65535).
  { intros x (l & -> & Hl)%list_elem_of_fmap_1. apply elem_of_seqZ.
    apply (dr_mem _ _ _ _ Hrep) in Hl as (d & Hd & _); [|done].
    pose proof (rep_num_bounds _ _ Hd). lia. }
  assert (Hnd : NoDup (num <$> chain h)).
  { apply NoDup_fmap_2_strong; [|by apply (dr_nodup _ _ _ _ Hrep)].
    intros l l' Hl Hl' Heq.
    apply (dr_mem _ _ _ _ Hrep) in Hl as (d & Hd & _), Hl' as (d' & Hd' & _); [|done|done].
    pose proof (rep_entry_bounds _ _ Hd). pose proof (rep_entry_bounds _ _ Hd').
    destruct l as [p k], l' as [p' k']. unfold num in Heq. simpl in *. f_equal; lia. }
  pose proof (NoDup_submseteq _ _ Hnd Hinc) as Hsub%submseteq_length.
  rewrite length_fmap, length_seqZ in Hsub. unfold chain_fuel. lia.
Qed.
End Rep.

(** ** Lookups *)

Lemma find_chain_remove fuel b name P i prev :
  find_chain fuel b name P i =
  remove_chain fuel b name P i prev ≫=
    (fun r => Some (option_map (fun x : Z * Z * option Z => x.1.2) r)).
Proof.
  revert i prev. induction fuel as [|fuel IH]; intros i prev; simpl; [done|].
  destruct (i =? 0); [done|].
  destruct (getentry b (uwrap16 (i - 1)) P) as [[entry|]|]; cbn [mbind option_bind]; try done.
  destruct (cstr_eq b (e_name entry) name) as [[|]|]; cbn [mbind option_bind]; try done.
  destruct (rd16 b (e_next entry)) as [next|]; cbn [mbind option_bind]; [apply IH|done].
Qed.

(** No entry is called [name]. *)
Definition no_name (ents : gmap loc dent) (name : bytes) : Prop :=
  forall l d, ents !! l = Some d -> d_name d <> name.

(** The fid an entry denotes in the directory [dir]. *)
Definition dent_fid (dir : VenusFid) (d : dent) : VenusFid :=
  {| Cell := Cell dir;
     fid := {| Volume := Volume (fid dir); Vnode := d_vnode d; Unique := d_unique d |} |}.

Section Lookup.
Context (b : bytes) (P : Z) (ents : gmap loc dent) (chain : Z -> list loc).
Hypothesis (Hrep : dir_rep b P ents chain).

Lemma rep_hash_in h : 0 <= h < 128 -> rd16 b (dh_hash h) = Some (ld16 b (dh_hash h)).
Proof using Hrep. intros. destruct Hrep. rewrite rd16_in by alia. done. Qed.

Lemma rep_search name :
  is_cstr name ->
  (exists c1 l d c2, chain (hashentry name) = c1 ++ l :: c2 /\ ents !! l = Some d /\
     d_name d = name /\
     remove_chain chain_fuel b name P (ld16 b (dh_hash (hashentry name))) None =
     Some (Some (num l + 1, ent l, ent <$> last c1))) \/
  (no_name ents name /\
   remove_chain chain_fuel b name P (ld16 b (dh_hash (hashentry name))) None = Some None).
Proof using Hrep.
  intros Hn. pose proof (hashentry_range name) as Hh.
  destruct (remove_chain_spec _ _ _ _ Hrep name (chain (hashentry name))
    (ld16 b (dh_hash (hashentry name))) None chain_fuel Hn)
    as [(c1 & l & d & c2 & Hc & Hl & Hd & ->)|[Hno ->]].
  - by apply (dr_chain _ _ _ _ Hrep).
  - intros l Hl. apply (dr_mem _ _ _ _ Hrep) in Hl as (d & -> & _); done.
  - by eapply chain_length.
  - left. exists c1, l, d, c2. split_and!; done.
  - right. split; [|done]. intros l d Hl Hd. eapply Hno; [|done|done].
    apply (dr_mem _ _ _ _ Hrep); [done|]. exists d. by rewrite Hd.
Qed.

Lemma find_entry_spec name :
  is_cstr name ->
  (exists l d, ents !! l = Some d /\ d_name d = name /\
     find_entry b name P = Some (Some (ent l))) \/
  (no_name ents name /\ find_entry b name P = Some None).
Proof using Hrep.
  intros Hn. unfold find_entry. rewrite rep_hash_in by apply hashentry_range.
  cbn [mbind option_bind]. rewrite (find_chain_remove _ _ _ _ _ None).
  destruct (rep_search name Hn) as [(c1 & l & d & c2 & _ & Hl & Hd & ->)|[Hno ->]].
  - left. by exists l, d.
  - by right.
Qed.

Lemma fdir_lookup_spec dir name :
  is_cstr name ->
  (exists l d, ents !! l = Some d /\ d_name d = name /\
     fdir_lookup b dir name = Some (inr (dent_fid dir d))) \/
  (no_name ents name /\ fdir_lookup b dir name = Some (inl ENOENT)).
Proof using Hrep.
  intros Hn. unfold fdir_lookup, find_by_name. rewrite (rep_npages _ _ _ _ Hrep).
  cbn [mbind option_bind].
  destruct (find_entry_spec name Hn) as [(l & d & Hl & Hd & ->)|[Hno ->]]; [left|by right].
  exists l, d. split_and!; [done|done|]. cbn [mbind option_bind].
  destruct (rep_entry_bounds _ _ _ _ Hrep _ _ Hl) as (? & ? & ? & ? & ? & ?).
  destruct (dr_entry _ _ _ _ Hrep _ _ Hl) as [_ Hv Hu _].
  rewrite !rd32_in by alia. cbn [mbind option_bind]. by rewrite Hv, Hu.
Qed.

Lemma fdir_lookup_found dir l d :
  ents !! l = Some d -> fdir_lookup b dir (d_name d) = Some (inr (dent_fid dir d)).
Proof using Hrep.
  intros Hl. destruct (dr_ok _ _ _ _ Hrep _ _ Hl) as [_ _ _ Hc].
  destruct (fdir_lookup_spec dir (d_name d) Hc) as [(l' & d' & Hl' & Hd' & ->)|[Hno _]].
  - rewrite (dr_names _ _ _ _ Hrep _ _ _ _ Hl' Hl Hd') in Hl'. by simplify_eq.
  - by destruct (Hno _ _ Hl).
Qed.

Lemma fdir_lookup_none dir name :
  is_cstr name -> no_name ents name -> fdir_lookup b dir name = Some (inl ENOENT).
Proof using Hrep.
  intros Hc Hno. destruct (fdir_lookup_spec dir name Hc) as [(l & d & Hl & Hd & _)|[_ ->]]; [|done].
  by destruct (Hno _ _ Hl).
Qed.
End Lookup.

(** Directories with the same entries of a name answer the same. *)
Lemma fdir_lookup_ext b P ents chain b' P' ents' chain' dir name :
  dir_rep b P ents chain -> dir_rep b' P' ents' chain' -> is_cstr name ->
  (forall l d, d_name d = name -> ents' !! l = Some d <-> ents !! l = Some d) ->
  fdir_lookup b' dir name = fdir_lookup b dir name.
Proof.
  intros Hr Hr' Hn Hext.
  destruct (fdir_lookup_spec _ _ _ _ Hr dir name Hn) as [(l & d & Hl & Hd & ->)|[Hno ->]].
  - subst name. eapply fdir_lookup_found; [done|]. by apply Hext.
  - eapply fdir_lookup_none; [done|done|]. intros l d Hl Hd.
    apply (Hno l d); [by apply Hext|done].
Qed.

(** ** Preservation: adding an entry *)

Section Add.
Context (b : bytes) (P : Z) (ents : gmap loc dent) (chain : Z -> list loc).
Hypothesis (Hrep : dir_rep b P ents chain).
Context (l : loc) (name : bytes).
Hypothesis (Hpage : 0 <= l.1 < P) (Hslot : 0 <= l.2) (Hfit : l.2 + nslots name <= 63).
Hypothesis (Hfree : run_free b l.1 (nslots name) l.2).

(** Slots of an existing entry are not in the run. *)
Lemma add_disjoint l' d' :
  ents !! l' = Some d' -> l'.1 = l.1 ->
  l'.2 + d_slots d' <= l.2 \/ l.2 + nslots name <= l'.2.
Proof using Hrep Hfree Hpage Hslot Hfit.
  intros Hl' Hp. destruct (rep_entry_bounds _ _ _ _ Hrep _ _ Hl') as (? & ? & ? & ? & _).
  destruct (decide (l'.2 + d_slots d' <= l.2 \/ l.2 + nslots name <= l'.2)) as [|Hno]; [done|].
  pose proof (nslots_bounds name) as [? _].
  assert (bit b l.1 (Z.max l.2 l'.2 + 1) = true) as Ht.
  { apply (dr_bits _ _ _ _ Hrep); [done|lia|]. right. exists l', d'. split; [done|].
    split; [done|lia]. }
  rewrite Hfree in Ht by lia. done.
Qed.

Lemma add_fresh : ents !! l = None.
Proof using Hrep Hfree Hpage Hslot Hfit.
  destruct (ents !! l) as [d|] eqn:Hl; [|done].
  destruct (rep_entry_bounds _ _ _ _ Hrep _ _ Hl) as (? & ? & ? & ? & _).
  pose proof (nslots_bounds name) as [? _]. destruct (add_disjoint _ _ Hl eq_refl); lia.
Qed.
End Add.

Lemma chain_start_small b P ents chain i c :
  dir_rep b P ents chain -> (forall l, l ∈ c -> is_Some (ents !! l)) ->
  linked b i c -> uwrap16 i = i.
Proof.
  intros Hrep. destruct c as [|l' c]; simpl; intros Hm Hl; [by subst|]. destruct Hl as [-> _].
  destruct (Hm l') as [d' Hd']; [constructor|].
  pose proof (rep_num_bounds _ _ _ _ Hrep _ _ Hd'). unfold uwrap16. rewrite Z.mod_small; lia.
Qed.

Lemma chain_members b P ents chain h l :
  dir_rep b P ents chain -> 0 <= h < 128 -> l ∈ chain h -> is_Some (ents !! l).
Proof. intros Hrep Hh Hl. apply (dr_mem _ _ _ _ Hrep) in Hl as (d & -> & _); done. Qed.

(** The chains after [l] was put in front of the chain of [h]. *)
Definition push_chain (chain : Z -> list loc) (h : Z) (l : loc) (h' : Z) : list loc :=
  if h' =? h then l :: chain h else chain h'.

Definition hash_range (h : Z) : Z -> Prop := range (dh_hash h) (dh_hash h + 2).

Section AddRep.
Context (b : bytes) (P : Z) (ents : gmap loc dent) (chain : Z -> list loc).
Hypothesis (Hrep : dir_rep b P ents chain).
Context (l : loc) (name : bytes) (f : AFSFid) (b1 : bytes).
Let h := hashentry name.
Hypothesis (Hpage : 0 <= l.1 < P) (Hslot : 0 <= l.2) (Hfit : l.2 + nslots name <= 63)
  (Hheader : l.1 = 0 -> 12 <= l.2).
Hypothesis (Hfree : run_free b l.1 (nslots name) l.2).
Hypothesis (Hadd : added b b1 l name f (ld16 b (dh_hash h))).
Let b2 := st b1 (dh_hash h) (be16 (num l + 1)).

Lemma add_same : same_but (fun i => touched l (nslots name) i \/ hash_range h i) b b2.
Proof using Hadd.
  apply st_same_within.
  - eapply same_but_weaken; [apply (ad_same _ _ _ _ _ _ Hadd)|]. auto.
  - intros i. unfold hash_range, range. autorewrite with milko_len. auto.
Qed.

Lemma add_len : blen b1 = 2048 * P.
Proof using Hrep Hadd. destruct (ad_same _ _ _ _ _ _ Hadd) as [-> _]. apply Hrep. Qed.

(** Everything the hash table's write does not touch is as after [added]. *)
Lemma add_hash_same : same_but (hash_range h) b1 b2.
Proof using. apply st_same_but. Qed.

Lemma add_bits p k :
  0 <= p < P -> 0 <= k < 64 ->
  bit b2 p k = (p =? l.1) && within (l.2 + 1) (nslots name) k || bit b p k.
Proof using Hrep Hadd Hpage Hslot Hfit Hheader.
  intros Hp Hk. pose proof (div8_range k Hk). pose proof (hashentry_range name).
  pose proof (dr_pages _ _ _ _ Hrep). destruct (Z.eqb_spec p l.1) as [->|Hne].
  - rewrite (bit_same _ _ _ _ _ add_hash_same) by (unfold hash_range; alia).
    by rewrite (ad_bits _ _ _ _ _ _ Hadd).
  - simpl. apply (bit_same _ _ _ _ _ add_same). unfold hash_range. disj.
Qed.

Lemma add_free p :
  0 <= p < P ->
  free_slots b2 p = free_slots b p - if p =? l.1 then nslots name else 0.
Proof using Hrep Hadd Hpage Hslot Hfit Hheader Hfree.
  intros Hp. pose proof (nslots_bounds name) as [? _]. destruct (Z.eqb_spec p l.1) as [->|Hne].
  - apply free_slots_mark with l.2; try done; [lia|]. intros k Hk.
    by rewrite add_bits, Z.eqb_refl by done.
  - rewrite Z.sub_0_r. apply free_slots_ext. intros k Hk. rewrite add_bits by lia.
    by destruct (Z.eqb_spec p l.1).
Qed.

Lemma add_entries l' d' :
  ents !! l' = Some d' -> entry_at b2 l' d' /\
    ld16 b2 (e_next (ent l')) = ld16 b (e_next (ent l')).
Proof using Hrep Hadd Hpage Hslot Hfit Hheader Hfree.
  intros Hl'. pose proof (hashentry_range name).
  destruct (rep_entry_bounds _ _ _ _ Hrep _ _ Hl') as (? & ? & ? & ? & ? & _).
  pose proof (do_header _ _ _ (dr_ok _ _ _ _ Hrep _ _ Hl')).
  assert (Hdis : l'.1 <> l.1 \/ l'.2 + d_slots d' <= l.2 \/ l.2 + nslots name <= l'.2).
  { destruct (decide (l'.1 = l.1)); [right|by left]. by eapply add_disjoint. }
  pose proof (nslots_bounds name) as [? _].
  assert (Hout : forall i, slots_range l' (d_slots d') i ->
    ~ (touched l (nslots name) i \/ hash_range h i)).
  { clear - Hdis H H0 H1 H2 H3 H4 H5 H6 Hpage Hslot Hfit Hheader. intros i. subst h.
    unfold hash_range, touched, bitmap_range, slots_range, map_range. alia. }
  split.
  - eapply entry_at_same; [apply add_same|done|]. by apply (dr_entry _ _ _ _ Hrep).
  - apply (same_but_ld16 _ _ _ add_same). intros j Hj. apply Hout. unfold slots_range. alia.
Qed.

Lemma add_new_entry : entry_at b2 l (new_dent name f) /\
  ld16 b2 (e_next (ent l)) = uwrap16 (ld16 b (dh_hash h)).
Proof using Hadd Hpage Hslot Hfit Hheader.
  pose proof (hashentry_range name). pose proof (nslots_bounds name) as [? _]. split.
  - eapply entry_at_same; [apply add_hash_same| |apply (ad_entry _ _ _ _ _ _ Hadd)].
    subst h. cbn [new_dent d_name d_slots]. unfold hash_range. disj.
  - rewrite (same_but_ld16 _ _ _ add_hash_same) by (subst h; unfold hash_range; alia).
    apply (ad_next _ _ _ _ _ _ Hadd).
Qed.

Lemma add_hash h' :
  0 <= h' < 128 ->
  ld16 b2 (dh_hash h') = if h' =? h then uwrap16 (num l + 1) else ld16 b (dh_hash h').
Proof using Hrep Hadd Hpage Hslot Hfit Hheader.
  intros Hh'. pose proof (hashentry_range name). pose proof add_len.
  pose proof (dr_pages _ _ _ _ Hrep). destruct (Z.eqb_spec h' h) as [->|Hne].
  - unfold b2. subst h. by rewrite ld16_st by alia.
  - apply (same_but_ld16 _ _ _ add_same). subst h. unfold hash_range. disj.
Qed.

Hypothesis (Hname : is_cstr name) (Hnew : no_name ents name).

Let ents' := <[l := new_dent name f]> ents.

Lemma add_disj l1 d1 l2 d2 p k :
  ents' !! l1 = Some d1 -> ents' !! l2 = Some d2 ->
  covers l1 d1 p k -> covers l2 d2 p k -> l1 = l2.
Proof using Hrep Hpage Hslot Hfit Hfree.
  intros H1 H2 [Hp1 Hk1] [Hp2 Hk2].
  apply lookup_insert_Some in H1 as [[<- <-]|[_ H1]], H2 as [[<- <-]|[_ H2]]; try done.
  - destruct (add_disjoint _ _ _ _ Hrep _ _ Hpage Hslot Hfit Hfree _ _ H2);
      unfold d_slots in *; cbn [d_name new_dent] in *; [congruence|lia..].
  - destruct (add_disjoint _ _ _ _ Hrep _ _ Hpage Hslot Hfit Hfree _ _ H1);
      unfold d_slots in *; cbn [d_name new_dent] in *; [congruence|lia..].
  - eapply (dr_disj _ _ _ _ Hrep _ _ _ _ p k H1 H2); by split.
Qed.

Lemma add_slots p k :
  0 <= p < P -> 0 <= k < 63 ->
  bit b2 p (k + 1) = true <->
  (p = 0 /\ k < 12) \/ exists l' d', ents' !! l' = Some d' /\ covers l' d' p k.
Proof using Hrep Hadd Hpage Hslot Hfit Hheader Hfree.
  pose proof (add_fresh _ _ _ _ Hrep _ _ Hpage Hslot Hfit Hfree) as Hfr.
  intros Hp Hk. rewrite add_bits, orb_true_iff, (dr_bits _ _ _ _ Hrep) by lia. split.
  - intros [Hin|[?|(l' & d' & Hl' & Hc)]]; [|by left|].
    + zbool. right. exists l, (new_dent name f). unfold ents'. rewrite lookup_insert_eq.
      split; [done|]. subst p. destruct (withinP (l.2 + 1) (nslots name) (k + 1)); [|done].
      split; [done|]. unfold d_slots. cbn [d_name new_dent]. lia.
    + right. exists l', d'. unfold ents'. by rewrite lookup_insert_ne by congruence.
  - intros [?|(l' & d' & [[<- <-]|[_ Hl']]%lookup_insert_Some & Hc)]; [naive_solver| |].
    + left. destruct Hc as [-> Hc]. unfold d_slots in Hc. cbn [d_name new_dent] in Hc.
      rewrite Z.eqb_refl. by destruct (withinP (l.2 + 1) (nslots name) (k + 1)); [|lia].
    + right. right. by exists l', d'.
Qed.

Lemma add_maps p : 0 <= p < P -> p < 128 -> ld8 b2 (dh_map p) = free_slots b2 p.
Proof using Hrep Hadd Hpage Hslot Hfit Hheader Hfree.
  intros Hp Hlt. pose proof (hashentry_range name) as Hhr.
  rewrite add_free by done. destruct (Z.eqb_spec p l.1) as [->|Hne].
  - rewrite (same_but_ld8 _ _ _ add_hash_same) by (subst h; unfold hash_range; alia).
    rewrite (ad_map _ _ _ _ _ _ Hadd), (dr_map _ _ _ _ Hrep) by done.
    pose proof (add_free l.1 Hp) as Hf. rewrite Z.eqb_refl in Hf.
    pose proof (free_slots_bounds b2 l.1). pose proof (free_slots_bounds b l.1).
    pose proof (nslots_bounds name). unfold uwrap8. rewrite Z.mod_small; lia.
  - rewrite Z.sub_0_r, (same_but_ld8 _ _ _ add_same); [by apply (dr_map _ _ _ _ Hrep)|].
    subst h. unfold hash_range. disj.
Qed.

Lemma add_chains h' :
  0 <= h' < 128 -> linked b2 (ld16 b2 (dh_hash h')) (push_chain chain h l h').
Proof using Hrep Hadd Hpage Hslot Hfit Hheader Hfree.
  intros Hh'. rewrite add_hash by done. unfold push_chain. destruct add_new_entry as [_ Hnext].
  pose proof (dr_pages _ _ _ _ Hrep). pose proof (nslots_bounds name) as [Hns _].
  assert (Hold : forall g, 0 <= g < 128 -> linked b2 (ld16 b (dh_hash g)) (chain g)).
  { intros g Hg. eapply linked_same; [|by apply (dr_chain _ _ _ _ Hrep)].
    intros l' Hl'. apply (dr_mem _ _ _ _ Hrep) in Hl' as (d' & Hd' & _); [|done].
    by eapply add_entries. }
  destruct (Z.eqb_spec h' h) as [->|Hne]; [|by apply Hold]. split.
  - unfold uwrap16. rewrite Z.mod_small; alia.
  - rewrite Hnext, (chain_start_small b P ents chain _ (chain h));
      [by apply Hold|done| |by apply (dr_chain _ _ _ _ Hrep)].
    intros l'. by apply (chain_members _ _ _ _ _ _ Hrep).
Qed.

Lemma add_members h' l' :
  0 <= h' < 128 ->
  l' ∈ push_chain chain h l h' <-> exists d, ents' !! l' = Some d /\ hashentry (d_name d) = h'.
Proof using Hrep Hpage Hslot Hfit Hfree.
  pose proof (add_fresh _ _ _ _ Hrep _ _ Hpage Hslot Hfit Hfree) as Hfr.
  intros Hh'. unfold push_chain, ents'. rewrite lookup_insert.
  destruct (Z.eqb_spec h' h) as [->|Hne].
  - rewrite elem_of_cons, (dr_mem _ _ _ _ Hrep) by done. case_decide as Hll.
    + subst l'. split; [|naive_solver]. intros _. by eexists.
    + naive_solver.
  - rewrite (dr_mem _ _ _ _ Hrep) by done. case_decide as Hll; [|done].
    subst l'. rewrite Hfr. split; [naive_solver|]. intros (d & [= <-] & Hd). by subst.
Qed.

Lemma rep_add : dir_rep b2 P ents' (push_chain chain h l).
Proof using Hrep Hadd Hpage Hslot Hfit Hheader Hfree Hname Hnew.
  pose proof (add_fresh _ _ _ _ Hrep _ _ Hpage Hslot Hfit Hfree) as Hfr.
  pose proof (hashentry_range name) as Hhr. pose proof (dr_pages _ _ _ _ Hrep) as HP.
  split.
  - unfold b2. rewrite blen_st. apply add_len.
  - done.
  - rewrite (same_but_ld16 _ _ _ add_same); [apply Hrep|]. subst h. unfold hash_range. disj.
  - intros p Hp. rewrite (same_but_ld16 _ _ _ add_same); [by apply Hrep|].
    subst h. unfold hash_range. disj.
  - intros l' d' [[<- <-]|[_ Hl']]%lookup_insert_Some; [by split|by apply (dr_ok _ _ _ _ Hrep)].
  - intros l' d' [[<- <-]|[_ Hl']]%lookup_insert_Some; [apply add_new_entry|by apply add_entries].
  - apply add_disj.
  - apply add_slots.
  - apply add_maps.
  - apply add_chains.
  - apply add_members.
  - intros h' Hh'. unfold push_chain. destruct (Z.eqb_spec h' h) as [->|Hne];
      [|by apply (dr_nodup _ _ _ _ Hrep)].
    constructor; [|by apply (dr_nodup _ _ _ _ Hrep)]. rewrite (dr_mem _ _ _ _ Hrep) by done.
    intros (d & Hd & _). congruence.
  - intros l1 d1 l2 d2 H1 H2 Hn.
    apply lookup_insert_Some in H1 as [[<- <-]|[_ H1]], H2 as [[<- <-]|[_ H2]]; try done.
    + by destruct (Hnew _ _ H2).
    + by destruct (Hnew _ _ H1).
    + by eapply (dr_names _ _ _ _ Hrep).
Qed.
End AddRep.

(** ** New pages *)

Lemma resize_grow b len :
  blen b <= len -> blen (resize b len) = len /\ forall i, ld8 (resize b len) i = ld8 b i.
Proof.
  intros Hl. unfold resize. rewrite take_ge by (unfold blen in Hl; lia). split.
  { rewrite blen_app, blen_replicate. unfold blen in *. lia. }
  intros i. unfold ld8, rd8. destruct (Z.leb_spec 0 i); [|done].
  destruct (decide (Z.to_nat i < length b)%nat).
  - by rewrite lookup_app_l.
  - rewrite lookup_app_r, (lookup_ge_None_2 b) by lia. simpl.
    destruct (_ !! _) eqn:E; [|done]. by apply lookup_replicate in E as [-> _].
Qed.

Lemma resize_shrink b len i :
  0 <= len <= blen b -> blen (resize b len) = len /\
  (i < len -> ld8 (resize b len) i = ld8 b i).
Proof.
  unfold resize, blen. intros Hl.
  replace (Z.to_nat len - length b)%nat with 0%nat by lia. simpl. rewrite app_nil_r, length_take.
  split; [lia|]. intros Hi. unfold ld8, rd8. destruct (Z.leb_spec 0 i); [|done].
  by rewrite lookup_take_lt by lia.
Qed.

(** The header part of a page. *)
Definition header_range (p : Z) : Z -> Prop := range (getpage p) (getpage p + 13).

Lemma create_new_page_spec te b P :
  0 <= P -> blen b = 2048 * P -> te (blen b + AFSDIR_PAGESIZE) = Some 0 ->
  exists b', create_new_page te b false = Some (0, getpage P, b') /\
    blen b' = 2048 * (P + 1) /\ agree (header_range P) b b' /\
    ld16 b' (pg_tag (getpage P)) = AFSDIRMAGIC /\
    forall k, 0 <= k < 64 -> bit b' P k = (k =? 0).
Proof.
  intros HP Hl Hte. unfold create_new_page, fbuf_truncate. rewrite Hte.
  cbn [mbind option_bind Z.eqb negb].
  destruct (resize_grow b (blen b + AFSDIR_PAGESIZE)) as [Hlen Hld]; [alia|].
  set (b0 := resize b (blen b + AFSDIR_PAGESIZE)) in *.
  assert (Hb0 : blen b0 = 2048 * (P + 1)) by alia.
  replace (blen b) with (getpage P) by alia.
  do 4 (rewrite wr_in by alia; cbn [mbind option_bind]).
  set (b1 := st _ (pg_bitmap _ _) _).
  assert (Hb1 : blen b1 = 2048 * (P + 1)) by (unfold b1; autorewrite with milko_len; done).
  assert (Hs1 : same_but (header_range P) b0 b1).
  { unfold header_range, b1. repeat (apply st_same_within; [|intros ?; alia]).
    apply same_but_refl. }
  destruct (set_used_spec b1 P 0) as (b2 & -> & Hs2 & Hb2); [split; lia|lia|].
  cbn [mbind option_bind]. exists b2. split_and!; [done| | | |].
  - destruct Hs2 as [-> _]. done.
  - eapply agree_trans with b0; [intros i _; apply Hld|].
    eapply agree_trans; [by apply same_but_agree|].
    eapply agree_weaken; [by apply same_but_agree|]. unfold bitmap_range, header_range.
    intros i. alia.
  - rewrite (same_but_ld16 _ _ _ Hs2) by (unfold bitmap_range; alia). unfold b1.
    rewrite !ld16_st_out by alia. by rewrite ld16_st by alia.
  - intros k Hk. rewrite Hb2 by done. destruct (Z.eqb_spec k 0); [done|]. simpl.
    pose proof (div8_range k Hk). unfold bit. unfold b1.
    replace (pg_bitmap (getpage P) (k / 8)) with
      (pg_bitmap (getpage P) 0 + Z.of_nat (Z.to_nat (k / 8))) by alia.
    rewrite (ld8_st_in _ _ _ _ 0) by (alia || (apply lookup_replicate; lia)).
    apply Z.bits_0.
Qed.

(** Entries and chains that a change stays away from. *)
Section FrameRep.
Context (b : bytes) (P : Z) (ents : gmap loc dent) (chain : Z -> list loc).
Hypothesis (Hrep : dir_rep b P ents chain).
Context (R : Z -> Prop) (b' : bytes).
Hypothesis (Ha : agree R b b').
Hypothesis (Hout : forall l d i, ents !! l = Some d -> slots_range l (d_slots d) i -> ~ R i).

Lemma frame_entry l d : ents !! l = Some d -> entry_at b' l d.
Proof using Hrep Ha Hout.
  intros Hl. eapply entry_at_agree; [done| |by apply (dr_entry _ _ _ _ Hrep)]. eauto.
Qed.

Lemma frame_next l d :
  ents !! l = Some d -> ld16 b' (e_next (ent l)) = ld16 b (e_next (ent l)).
Proof using Hrep Ha Hout.
  intros Hl. destruct (rep_entry_bounds _ _ _ _ Hrep _ _ Hl) as (? & ? & ? & _).
  apply (agree_ld16 _ _ _ Ha). intros j Hj. eapply Hout; [done|]. unfold slots_range. alia.
Qed.

Lemma frame_chain h :
  0 <= h < 128 -> (forall i, hash_range h i -> ~ R i) ->
  linked b' (ld16 b' (dh_hash h)) (chain h).
Proof using Hrep Ha Hout.
  intros Hh HR. rewrite (agree_ld16 _ _ _ Ha) by exact HR.
  eapply linked_same; [|by apply (dr_chain _ _ _ _ Hrep)].
  intros l Hl. apply (dr_mem _ _ _ _ Hrep) in Hl as (d & Hd & _); [|done].
  by eapply frame_next.
Qed.

(** The directory after a change away from entries and hash table that may
    add or drop pages. *)
Lemma rep_frame P' :
  blen b' = 2048 * P' -> 1 <= P' <= 1023 -> ld16 b' (pg_pgcount 0) <= P' ->
  (forall l d, ents !! l = Some d -> l.1 < P') ->
  (forall h i, 0 <= h < 128 -> hash_range h i -> ~ R i) ->
  (forall p, 0 <= p < P' -> ld16 b' (pg_tag (getpage p)) = AFSDIRMAGIC) ->
  (forall p k, 0 <= p < P' -> 0 < k < 64 -> bit b' p k = (p <? P) && bit b p k) ->
  (forall p, P <= p < P' -> p < 128 -> ld8 b' (dh_map p) = 63) ->
  (forall p, 0 <= p < P -> ~ R (dh_map p)) ->
  dir_rep b' P' ents chain.
Proof using Hrep Ha Hout.
  intros Hlen HP Hcnt Hin Hhash Htag Hbit Hmap Hmapout.
  assert (Hold : forall p k, 0 <= p < P' -> p < P -> 0 < k < 64 -> bit b' p k = bit b p k).
  { intros p k ? ? ?. rewrite Hbit by done. by destruct (Z.ltb_spec p P); [|lia]. }
  assert (Hnew : forall p k, P <= p < P' -> 0 < k < 64 -> bit b' p k = false).
  { intros p k ? ?. pose proof (dr_pages _ _ _ _ Hrep). rewrite Hbit by lia.
    by destruct (Z.ltb_spec p P); [lia|]. }
  split; try done; try apply Hrep.
  - intros l d Hl. pose proof (Hin _ _ Hl). destruct (dr_ok _ _ _ _ Hrep _ _ Hl).
    split; try done. lia.
  - apply frame_entry.
  - intros p k Hp Hk. destruct (decide (p < P)) as [Hlt|Hge].
    + rewrite Hold by lia. apply (dr_bits _ _ _ _ Hrep); lia.
    + rewrite Hnew by lia. split; [done|]. pose proof (dr_pages _ _ _ _ Hrep).
      intros [?|(l & d & Hl & -> & _)]; [lia|]. destruct (dr_ok _ _ _ _ Hrep _ _ Hl). lia.
  - intros p Hp Hlt. destruct (decide (p < P)).
    + rewrite Ha by (apply Hmapout; lia).
      rewrite (free_slots_ext b b') by (intros; apply Hold; lia).
      apply (dr_map _ _ _ _ Hrep); lia.
    + rewrite Hmap by lia. unfold free_slots. rewrite (cnt_const _ _ true); [done|].
      intros k Hk%elem_of_seqZ. by rewrite Hnew by lia.
  - intros h Hh. apply frame_chain; [done|]. intros i. by apply Hhash.
Qed.
End FrameRep.

Lemma rep_new_page b P ents chain b1 b2 b3 :
  dir_rep b P ents chain -> P < 1023 ->
  blen b1 = 2048 * (P + 1) -> agree (header_range P) b b1 ->
  ld16 b1 (pg_tag (getpage P)) = AFSDIRMAGIC ->
  (forall k, 0 <= k < 64 -> bit b1 P k = (k =? 0)) ->
  b2 = st b1 (pg_pgcount 0) (be16 (P + 1)) ->
  (if P <? MAXPAGES then wr b2 (dh_map P) [ENTRIESPERPAGE - 1] else Some b2) = Some b3 ->
  dir_rep b3 (P + 1) ents chain.
Proof.
  intros Hrep HP Hl1 Ha1 Ht1 Hb1 -> Hb3. pose proof (dr_pages _ _ _ _ Hrep) as HP1.
  set (b2 := st _ _ _) in *.
  assert (same_but (map_range P) b2 b3 /\
    (P < 128 -> ld8 b3 (dh_map P) = 63)) as [Hs3 Hm3].
  { assert (blen b2 = 2048 * (P + 1)) by (unfold b2; by autorewrite with milko_len).
    destruct (Z.ltb_spec P MAXPAGES).
    - rewrite wr_in in Hb3 by alia. simplify_eq. split.
      + apply st_same_within; [apply same_but_refl|]. unfold map_range. intros i. alia.
      + intros _. by rewrite ld8_st by alia.
    - simplify_eq. split; [apply same_but_refl|]. alia. }
  assert (Hs2 : same_but (range 0 2) b1 b2).
  { unfold b2. apply st_same_within; [apply same_but_refl|]. intros i. alia. }
  set (R := fun i => header_range P i \/ range 0 2 i \/ map_range P i).
  assert (Ha : agree R b b3).
  { eapply agree_trans; [eapply agree_weaken; [done|]|]; [unfold R; tauto|].
    eapply agree_trans; (eapply agree_weaken; [by apply same_but_agree|]); unfold R; tauto. }
  apply (rep_frame _ _ _ _ Hrep R b3 Ha).
  - intros l d i Hl. destruct (rep_entry_bounds _ _ _ _ Hrep _ _ Hl) as (? & ? & ? & ? & _).
    pose proof (do_header _ _ _ (dr_ok _ _ _ _ Hrep _ _ Hl)). unfold R, header_range. disj.
  - destruct Hs3 as [-> _], Hs2 as [-> _]. done.
  - lia.
  - rewrite (same_but_ld16 _ _ _ Hs3) by disj. unfold b2.
    rewrite ld16_st by alia. unfold uwrap16. rewrite Z.mod_small; lia.
  - intros l d Hl. destruct (dr_ok _ _ _ _ Hrep _ _ Hl). lia.
  - unfold R, header_range, hash_range. disj.
  - intros p Hp. destruct (decide (p = P)) as [->|Hne].
    + rewrite (same_but_ld16 _ _ _ Hs3), (same_but_ld16 _ _ _ Hs2) by disj. done.
    + rewrite (agree_ld16 _ _ _ Ha); [apply (dr_tag _ _ _ _ Hrep); lia|].
      unfold R, header_range. disj.
  - intros p k Hp Hk. pose proof (div8_range k). destruct (Z.ltb_spec p P).
    + apply (bit_agree _ _ _ _ _ Ha). unfold R, header_range. disj.
    + replace p with P by lia.
      rewrite (bit_same _ _ _ _ _ Hs3), (bit_same _ _ _ _ _ Hs2), Hb1 by disj.
      by destruct (Z.eqb_spec k 0); [lia|].
  - intros p Hp Hlt. replace p with P in * by lia. auto.
  - unfold R, header_range. disj.
Qed.

(** ** Creating an entry *)

Lemma rep_reserved b P ents chain p : dir_rep b P ents chain -> 0 <= p < P -> reserved b p.
Proof.
  intros Hrep Hp -> k Hk. replace k with (k - 1 + 1) by lia.
  apply (dr_bits _ _ _ _ Hrep); [done|lia|]. left. lia.
Qed.

(** Where an entry of [n] slots was placed. *)
Record placed (b : bytes) (P n : Z) (l : loc) : Prop := {
  pl_page : 0 <= l.1 < P;
  pl_slot : 0 <= l.2;
  pl_fit : l.2 + n <= 63;
  pl_header : l.1 = 0 -> 12 <= l.2;
  pl_free : run_free b l.1 n l.2;
}.

Section AddPages.
Context (b : bytes) (P : Z) (ents : gmap loc dent) (chain : Z -> list loc).
Hypothesis (Hrep : dir_rep b P ents chain).
Context (name : bytes) (f : AFSFid) (next : Z).
Hypothesis (Hn : nslots name <= 63).

(** One page: the entry is placed, or nothing changes and the page has no
    room. *)
Lemma rep_add_to_page p :
  0 <= p < P ->
  (add_to_page b (getpage p) p name None f next = Some (-1, b) /\
   forall s, 0 <= s -> s + nslots name <= 63 -> ~ run_free b p (nslots name) s) \/
  (exists s b', add_to_page b (getpage p) p name None f next = Some (s, b') /\
     placed b P (nslots name) (p, s) /\ added b b' (p, s) name f next).
Proof using Hrep Hn.
  intros Hp. pose proof (dr_pages _ _ _ _ Hrep) as HP.
  pose proof (nslots_bounds name) as [Hn1 _].
  destruct (add_to_page_spec b p name f next) as [[Hr Hno]|(s & b' & Hr & H1 & H2 & H3 & H4 & H5)];
    [by eapply rep_page_in|eapply rep_page_in; [done|lia]|done|by eapply rep_reserved| |].
  - left. split; [done|]. intros s Hs Hf Hrun. destruct Hno as [[Hlt Hm]|Hno]; [|by eapply Hno].
    rewrite (dr_map _ _ _ _ Hrep) in Hm by done.
    assert (nslots name <= free_slots b p); [|lia]. unfold free_slots.
    pose proof (cnt_run (fun k => negb (within s (nslots name) k) && negb (bit b p (k + 1)))
      (fun k => negb (bit b p (k + 1))) 63 s (nslots name)) as Hc.
    rewrite Hc; try lia.
    + pose proof (cnt_bounds (fun k => negb (within s (nslots name) k) && negb (bit b p (k + 1)))
        (seqZ 0 63)). lia.
    + intros k Hk. destruct (withinP s (nslots name) k); [|done]. simpl. by rewrite Hrun by lia.
    + intros k Hk. by destruct (withinP s (nslots name) k); [|lia].
  - right. by exists s, b'.
Qed.

Lemma add_pages_spec fuel i :
  0 <= i <= P -> (Z.to_nat (P - i) < fuel)%nat ->
  (exists p s b', add_pages fuel b P i name None f next = Some (p, s, b') /\
     placed b P (nslots name) (p, s) /\ added b b' (p, s) name f next) \/
  (add_pages fuel b P i name None f next = Some (P, -1, b) /\
   forall p s, i <= p < P -> 0 <= s -> s + nslots name <= 63 -> ~ run_free b p (nslots name) s).
Proof using Hrep Hn.
  revert i. induction fuel as [|fuel IH]; intros i Hi Hf; [lia|]. simpl add_pages.
  destruct (Z.ltb_spec i P) as [Hlt|Hge]; cbn [negb].
  2:{ right. replace i with P by lia. split; [done|]. lia. }
  destruct (rep_add_to_page i) as [[-> Hno]|(s & b' & -> & Hpl & Had)]; [lia| |].
  - cbn [mbind option_bind]. change (0 <=? -1) with false. cbv iota.
    destruct (IH (i + 1)) as [Hs|[-> Hno']]; [lia|lia|by left|].
    right. split; [done|]. intros p s Hp. destruct (decide (p = i)) as [->|]; [apply Hno|].
    apply Hno'. lia.
  - left. exists i, s, b'. cbn [mbind option_bind]. destruct Hpl. cbn [fst snd] in *.
    destruct (Z.leb_spec 0 s); [done|lia].
Qed.
End AddPages.

(** The directory [b'] has, in addition to the entries of [b], the entry
    [name] for [f]. *)
Definition has_new (b' : bytes) (P' : Z) (ents : gmap loc dent) (name : bytes) (f : AFSFid) : Prop :=
  exists l chain', ents !! l = None /\ dir_rep b' P' (<[l := new_dent name f]> ents) chain'.

Section Creat.
Context (ents : gmap loc dent) (chain : Z -> list loc) (name : bytes) (f : AFSFid).
Hypothesis (Hname : is_cstr name) (Hn : nslots name <= 63) (Hno : no_name ents name).

(** The entry placed on a page and put in front of its chain. *)
Lemma rep_link b b1 P l :
  dir_rep b P ents chain -> placed b P (nslots name) l ->
  added b b1 l name f (ld16 b (dh_hash (hashentry name))) ->
  exists b2, wr b1 (dh_hash (hashentry name)) (be16 (l.2 + l.1 * ENTRIESPERPAGE + 1)) = Some b2 /\
    has_new b2 P ents name f.
Proof using Hname Hn Hno.
  intros Hrep [H1 H2 H3 H4 H5] Had. pose proof (hashentry_range name) as Hh.
  pose proof (dr_pages _ _ _ _ Hrep) as HP.
  pose proof (dr_len _ _ _ _ Hrep) as Hlen. destruct (ad_same _ _ _ _ _ _ Had) as [Hl1 _].
  rewrite wr_in by alia. eexists. split; [done|].
  replace (l.2 + l.1 * ENTRIESPERPAGE + 1) with (num l + 1) by alia.
  exists l, (push_chain chain (hashentry name) l). split.
  - by apply (add_fresh _ _ _ _ Hrep _ _ H1 H2 H3 H5).
  - by apply (rep_add b P ents chain Hrep l name f b1).
Qed.

(** A page without entries takes any name. *)
Lemma empty_page_fits b P p :
  dir_rep b P ents chain -> 0 < p < P -> (forall l d, ents !! l = Some d -> l.1 <> p) ->
  run_free b p (nslots name) 0.
Proof using Hn.
  intros Hrep Hp Hempty k Hk. destruct (bit b p k) eqn:Hb; [|done].
  replace k with (k - 1 + 1) in Hb by lia.
  apply (dr_bits _ _ _ _ Hrep) in Hb as [?|(l & d & Hl & -> & _)]; [lia| |lia|lia].
  by destruct (Hempty _ _ Hl).
Qed.

(** The end of [fdir_creat] after all pages refused the entry. *)
Lemma creat_on_new_page te b P :
  dir_rep b P ents chain -> P < 1023 -> te (blen b + AFSDIR_PAGESIZE) = Some 0 ->
  exists page b1 b2 b3 ind b4 b5,
    create_new_page te b false = Some (0, page, b1) /\
    wr b1 (pg_pgcount 0) (be16 (P + 1)) = Some b2 /\
    (if P <? MAXPAGES then wr b2 (dh_map P) [ENTRIESPERPAGE - 1] else Some b2) = Some b3 /\
    add_to_page b3 page P name None f (ld16 b (dh_hash (hashentry name))) = Some (ind, b4) /\
    0 <= ind /\
    wr b4 (dh_hash (hashentry name)) (be16 (ind + P * ENTRIESPERPAGE + 1)) = Some b5 /\
    has_new b5 (P + 1) ents name f.
Proof using Hname Hn Hno.
  intros Hrep HP Hte. pose proof (dr_pages _ _ _ _ Hrep) as HP1.
  pose proof (dr_len _ _ _ _ Hrep) as Hlen. pose proof (hashentry_range name) as Hh.
  destruct (create_new_page_spec te b P) as (b1 & Hc & Hl1 & Ha1 & Ht1 & Hb1); [lia|done|done|].
  exists (getpage P), b1, (st b1 (pg_pgcount 0) (be16 (P + 1))).
  assert (exists b3, (if P <? MAXPAGES then wr (st b1 (pg_pgcount 0) (be16 (P + 1))) (dh_map P)
    [ENTRIESPERPAGE - 1] else Some (st b1 (pg_pgcount 0) (be16 (P + 1)))) = Some b3) as [b3 Hb3].
  { destruct (Z.ltb_spec P MAXPAGES); [|by eexists]. rewrite wr_in by alia. by eexists. }
  pose proof (rep_new_page _ _ _ _ _ _ _ Hrep HP Hl1 Ha1 Ht1 Hb1 eq_refl Hb3) as Hrep3.
  assert (Hnext : ld16 b (dh_hash (hashentry name)) = ld16 b3 (dh_hash (hashentry name))).
  { pose proof (dr_chain _ _ _ _ Hrep _ Hh) as Hc1. pose proof (dr_chain _ _ _ _ Hrep3 _ Hh) as Hc2.
    destruct (chain (hashentry name)) as [|l c]; simpl in *; [congruence|].
    destruct Hc1, Hc2. congruence. }
  rewrite Hnext.
  destruct (rep_add_to_page _ _ _ _ Hrep3 name f (ld16 b3 (dh_hash (hashentry name))) Hn P)
    as [[_ Hfull]|(s & b4 & Hadd & Hpl & Had)]; [lia| |].
  { destruct (Hfull 0); [lia|lia|]. eapply empty_page_fits; [done|lia|].
    intros l d Hl. destruct (dr_ok _ _ _ _ Hrep _ _ Hl). lia. }
  destruct (rep_link b3 b4 (P + 1) (P, s)) as (b5 & Hw & Hnew); [done..|].
  exists b3, s, b4, b5. cbn [fst snd] in Hw. rewrite wr_in by alia.
  split_and!; try done. by destruct Hpl.
Qed.
End Creat.

Lemma create_new_page_fails te b utf8 e :
  te (blen b + AFSDIR_PAGESIZE) = Some e -> e <> 0 ->
  create_new_page te b utf8 = Some (e, 0, b).
Proof.
  intros Hte He%Z.eqb_neq. unfold create_new_page, fbuf_truncate.
  rewrite Hte. cbn [mbind option_bind]. by rewrite He; cbn; rewrite He.
Qed.

Lemma create_new_page_lost te b utf8 :
  te (blen b + AFSDIR_PAGESIZE) = None -> create_new_page te b utf8 = None.
Proof. intros Hte. unfold create_new_page, fbuf_truncate. by rewrite Hte. Qed.

Lemma fdir_creat_spec te b P ents chain name f :
  dir_rep b P ents chain -> is_cstr name -> nslots name <= 63 -> no_name ents name -> P < 1023 ->
  (exists b' P', fdir_creat te b name None f = Some (0, b') /\ P <= P' <= P + 1 /\
     has_new b' P' ents name f) \/
  (exists e, te (blen b + AFSDIR_PAGESIZE) = Some e /\ e <> 0 /\
   fdir_creat te b name None f = Some (e, b)) \/
  (te (blen b + AFSDIR_PAGESIZE) = None /\ fdir_creat te b name None f = None).
Proof.
  intros Hrep Hname Hn Hno HP. pose proof (dr_pages _ _ _ _ Hrep) as HP1.
  pose proof (dr_len _ _ _ _ Hrep) as Hlen.
  unfold fdir_creat. destruct (Z.eqb_spec (blen b) 0); [lia|].
  rewrite (rep_npages _ _ _ _ Hrep). cbn [mbind option_bind].
  destruct (find_entry_spec _ _ _ _ Hrep name Hname) as [(l & d & Hl & Hd & _)|[_ ->]];
    [by destruct (Hno _ _ Hl)|]. cbn [mbind option_bind].
  rewrite (rd16_in b (pg_tag 0)) by alia. cbn [mbind option_bind].
  change (pg_tag 0) with (pg_tag (getpage 0)). rewrite (dr_tag _ _ _ _ Hrep) by lia.
  change (AFSDIRMAGIC =? AFSDIRMAGIC_UTF8) with false. cbn [orb]. cbv iota zeta.
  rewrite (rep_hash_in _ _ _ _ Hrep) by apply hashentry_range. cbn [mbind option_bind].
  destruct (add_pages_spec _ _ _ _ Hrep name f (ld16 b (dh_hash (hashentry name))) Hn
    (S (Z.to_nat P)) 0) as [(p & s & b1 & -> & Hpl & Had)|[-> _]]; [lia|lia| |].
  - cbn [mbind option_bind]. pose proof (pl_page _ _ _ _ Hpl). cbn [fst] in *.
    destruct (Z.eqb_spec p P); [lia|]. cbn [negb].
    destruct (rep_link ents chain name f Hname Hn Hno b b1 P (p, s)) as (b2 & Hw & Hnew); [done..|].
    cbn [fst snd] in Hw. rewrite Hw. left. exists b2, P. split; [done|]. split; [lia|done].
  - cbn [mbind option_bind]. rewrite Z.eqb_refl. cbn [negb].
    destruct (te (blen b + AFSDIR_PAGESIZE)) as [e|] eqn:Hte.
    2:{ do 2 right. split; [done|]. by rewrite create_new_page_lost. }
    destruct (decide (e = 0)) as [->|He].
    + destruct (creat_on_new_page ents chain name f Hname Hn Hno te b P Hrep HP Hte)
        as (page & b1 & b2 & b3 & ind & b4 & b5 & -> & Hw1 & Hw2 & Hw3 & Hind & Hw4 & Hnew).
      cbn [mbind option_bind Z.eqb negb]. rewrite Hw1. cbn [mbind option_bind].
      rewrite Hw2. cbn [mbind option_bind]. rewrite Hw3. cbn [mbind option_bind].
      rewrite option_guard_True by done. cbn [mbind option_bind]. rewrite Hw4.
      left. exists b5, (P + 1). split; [done|]. split; [lia|done].
    + right. left. exists e. split_and!; [done|done|].
      rewrite (create_new_page_fails _ _ _ e) by done. cbn [mbind option_bind].
      by destruct (Z.eqb_spec e 0).
Qed.

(** ** Removing an entry *)

(** [b'] is [b] with the slots of the entry of [n] slots at [l] given up. *)
Record removed (b b' : bytes) (l : loc) (n : Z) : Prop := {
  rm_same : same_but (touched l n) b b';
  rm_bits k : 0 <= k < 64 -> bit b' l.1 k = negb (within (l.2 + 1) n k) && bit b l.1 k;
  rm_map : l.1 < 128 -> ld8 b' (dh_map l.1) = uwrap8 (ld8 b (dh_map l.1) + n);
}.

Lemma remove_from_page_spec b P l d :
  blen b = 2048 * P -> dent_ok P l d -> cstr_at b (e_name (ent l)) (d_name d) ->
  exists b', remove_from_page b (getpage l.1) l.1 l.2 = Some b' /\ removed b b' l (d_slots d).
Proof.
  intros Hlen [Hp [Hs Hf] Hh Hn] Hat. pose proof (nslots_bounds (d_name d)) as [Hn1 Hn2].
  pose proof (blen_nonneg (d_name d)). unfold d_slots in *.
  unfold remove_from_page. change (pg_entry (getpage l.1) l.2) with (ent l).
  rewrite (rd_cstr_spec b (d_name d)) by (done || alia).
  cbn [mbind option_bind]. rewrite additional_entries_plain.
  destruct (adjust_map_spec b l.1 (nslots (d_name d))) as (b1 & -> & Hs1 & Hm1);
    [lia|split; lia|]. assert (Hl1 : blen b1 = 2048 * P) by (destruct Hs1; congruence).
  cbn [mbind option_bind]. do 3 (rewrite wr_in by alia; cbn [mbind option_bind]).
  set (b2 := st _ (e_Unique _) _).
  assert (Hs2 : same_but (slots_range l (nslots (d_name d))) b1 b2).
  { unfold b2, slots_range. repeat (apply st_same_within; [|intros ?; alia]). apply same_but_refl. }
  assert (Hl2 : blen b2 = 2048 * P) by (destruct Hs2; congruence).
  destruct (mark_unused_spec (Z.to_nat (nslots (d_name d))) b2 l.1 (l.2 + 1))
    as (b3 & -> & Hs3 & Hb3); [split; lia|lia|lia|]. rewrite Z2Nat.id in Hb3 by lia.
  exists b3. split; [done|]. split.
  - eapply same_but_trans; [eapply same_but_trans|];
      (eapply same_but_weaken; [done|]); unfold touched; tauto.
  - intros k Hk. pose proof (div8_range k Hk). rewrite Hb3 by done.
    by rewrite (bit_same _ _ _ _ _ Hs2), (bit_same _ _ _ _ _ Hs1) by disj.
  - intros Hlt. rewrite (same_but_ld8 _ _ _ Hs3), (same_but_ld8 _ _ _ Hs2) by disj. auto.
Qed.

(** Unmarking a run of marked slots. *)
Lemma free_slots_unmark b b' p n s :
  0 <= s -> 0 <= n -> s + n <= 63 -> (forall k, s + 1 <= k < s + 1 + n -> bit b p k = true) ->
  (forall k, 0 <= k < 64 -> bit b' p k = negb (within (s + 1) n k) && bit b p k) ->
  free_slots b' p = free_slots b p + n.
Proof.
  intros Hs Hn Hm Hf Hb. apply (cnt_run _ _ _ s n); try lia.
  - intros k Hk. rewrite Hb by lia.
    destruct (withinP s n k), (withinP (s + 1) n (k + 1)); simpl; try lia; done.
  - intros k Hk. by rewrite Hf by lia.
Qed.

(** A chain with one element taken out: the element before it, or the start,
    gets its successor. *)
Lemma linked_unlink b b' i i' c1 l c2 :
  linked b i (c1 ++ l :: c2) -> NoDup (c1 ++ l :: c2) ->
  (forall x, x ∈ c1 ++ c2 -> last c1 <> Some x ->
     ld16 b' (e_next (ent x)) = ld16 b (e_next (ent x))) ->
  match last c1 with
  | None => i' = ld16 b (e_next (ent l))
  | Some x => i' = i /\ ld16 b' (e_next (ent x)) = ld16 b (e_next (ent l))
  end ->
  linked b' i' (c1 ++ c2).
Proof.
  revert i i'. induction c1 as [|x c1 IH]; intros i i' Hl Hnd Hsame Hlast.
  - simpl in *. destruct Hl as [_ Hl]. subst i'. eapply linked_same; [|done].
    intros y Hy. by apply Hsame.
  - simpl in Hl. destruct Hl as [-> Hl]. simpl in Hnd. apply NoDup_cons in Hnd as [Hx Hnd].
    rewrite last_cons in Hlast, Hsame. destruct (last c1) as [y|] eqn:Hy.
    + destruct Hlast as [-> Hlast]. simpl. split; [done|].
      rewrite Hsame; [|simpl; by left|].
      * eapply IH; [done|done| |done]. intros z Hz Hne. apply Hsame; [simpl; by right|done].
      * intros [= ->]. apply Hx. apply elem_of_app. left. by apply last_Some_elem_of in Hy.
    + apply last_None in Hy as ->. destruct Hlast as [-> Hlast]. simpl in *. split; [done|].
      rewrite Hlast. destruct Hl as [_ Hl]. eapply linked_same; [|done].
      intros z Hz. apply Hsame; [by right|]. intros [= ->]. apply Hx. by right.
Qed.

Lemma linked_suffix b i c1 l c2 :
  linked b i (c1 ++ l :: c2) -> linked b (ld16 b (e_next (ent l))) c2.
Proof. revert i. induction c1 as [|x c1 IH]; intros i [_ Hl]; [done|]. by eapply IH. Qed.

Section RemoveRep.
Context (b : bytes) (P : Z) (ents : gmap loc dent) (chain : Z -> list loc).
Hypothesis (Hrep : dir_rep b P ents chain).
Context (l : loc) (d : dent) (c1 c2 : list loc).
Hypothesis (Hl : ents !! l = Some d).
Let h := hashentry (d_name d).
Hypothesis (Hc : chain h = c1 ++ l :: c2).
(** The field that points to the entry. *)
Definition link_addr : Z :=
  match last c1 with None => dh_hash (hashentry (d_name d)) | Some x => e_next (ent x) end.
Let b1 := st b link_addr (be16 (ld16 b (e_next (ent l)))).
Context (b2 : bytes).
Hypothesis (Hrm : removed b1 b2 l (d_slots d)).

Definition drop_chain (h' : Z) : list loc :=
  if h' =? hashentry (d_name d) then c1 ++ c2 else chain h'.

Lemma rm_h_range : 0 <= h < 128.
Proof using. apply hashentry_range. Qed.

Lemma rm_nodup : NoDup (c1 ++ l :: c2).
Proof using Hrep Hc. rewrite <- Hc. apply (dr_nodup _ _ _ _ Hrep), rm_h_range. Qed.

Lemma rm_other x : x ∈ c1 ++ c2 -> x <> l.
Proof using Hrep Hc.
  intros Hx ->. pose proof rm_nodup as Hnd. apply NoDup_app in Hnd as (_ & H1 & H2).
  apply NoDup_cons in H2 as [H2 _]. apply elem_of_app in Hx as [Hx|Hx]; [|done].
  apply (H1 _ Hx). constructor.
Qed.

Lemma rm_chain_entry x : x ∈ c1 ++ c2 -> exists dx, ents !! x = Some dx.
Proof using Hrep Hc.
  intros Hx. eapply (chain_members _ _ _ _ h); [done|apply rm_h_range|]. rewrite Hc.
  apply elem_of_app in Hx as [?|?]; apply elem_of_app; [by left|right; by right].
Qed.

Lemma rm_next_small : uwrap16 (ld16 b (e_next (ent l))) = ld16 b (e_next (ent l)).
Proof using Hrep Hc.
  eapply chain_start_small; [done| |].
  - intros x Hx. apply rm_chain_entry, elem_of_app. by right.
  - eapply linked_suffix. rewrite <- Hc. apply (dr_chain _ _ _ _ Hrep), rm_h_range.
Qed.

(** The link is in the hash table or in an entry of the chain. *)
Lemma rm_link_cases :
  (last c1 = None /\ link_addr = dh_hash h) \/
  exists x dx, last c1 = Some x /\ x ∈ c1 ++ c2 /\ link_addr = e_next (ent x) /\
    ents !! x = Some dx /\ x <> l.
Proof using Hrep Hc.
  unfold link_addr. destruct (last c1) as [x|] eqn:Hx; [right|by left].
  assert (x ∈ c1 ++ c2) by (apply elem_of_app; left; by apply last_Some_elem_of in Hx).
  destruct (rm_chain_entry x) as [dx Hdx]; [done|].
  exists x, dx. split_and!; try done. by apply rm_other.
Qed.

(** The write that takes the entry out of its chain. *)
Lemma unlink_write :
  match ent <$> last c1 with
  | None => wr b (dh_hash (hashentry (d_name d))) (be16 (ld16 b (e_next (ent l))))
  | Some prev => wr b (e_next prev) (be16 (ld16 b (e_next (ent l))))
  end = Some b1.
Proof using Hrep Hc.
  pose proof (dr_pages _ _ _ _ Hrep) as HP. pose proof (dr_len _ _ _ _ Hrep) as Hlen.
  pose proof rm_h_range. unfold b1.
  destruct rm_link_cases as [[Hn ->]|(x & dx & Hx & _ & -> & Hdx & _)].
  - rewrite Hn. simpl. by rewrite wr_in by alia.
  - rewrite Hx. simpl. destruct (rep_entry_bounds _ _ _ _ Hrep _ _ Hdx) as (? & ? & ? & ? & ? & _).
    by rewrite wr_in by alia.
Qed.

Lemma unlink_entry : entry_at b1 l d.
Proof using Hrep Hl Hc.
  eapply entry_at_same; [apply st_same_but| |by apply (dr_entry _ _ _ _ Hrep)].
  autorewrite with milko_len. intros i Hi.
  destruct rm_link_cases as [[_ ->]|(x & dx & _ & _ & -> & Hx & Hne)].
  - by destruct (rep_slots_header _ _ _ _ Hrep _ _ i 0 h Hl) as (_ & _ & ?);
      [done|apply rm_h_range|done|].
  - intros Hr%(rep_next_slot _ _ _ _ Hrep _ _ _ Hx).
    by eapply (rep_slots_disjoint _ _ _ _ Hrep l d x dx).
Qed.

Definition rm_region (i : Z) : Prop :=
  touched l (d_slots d) i \/ range link_addr (link_addr + 2) i.

Lemma rm_same_all : same_but rm_region b b2.
Proof using Hrm.
  apply same_but_trans with b1.
  - apply st_same_within; [apply same_but_refl|]. intros i Hi. right. exact Hi.
  - eapply same_but_weaken; [apply (rm_same _ _ _ _ Hrm)|]. intros i Hi. by left.
Qed.

Lemma rm_bits_all p k :
  0 <= p < P -> 0 <= k < 64 ->
  bit b2 p k = negb ((p =? l.1) && within (l.2 + 1) (d_slots d) k) && bit b p k.
Proof using Hrep Hl Hc Hrm.
  intros Hp Hk. pose proof (div8_range k Hk). pose proof rm_h_range.
  pose proof (dr_pages _ _ _ _ Hrep).
  destruct (rep_entry_bounds _ _ _ _ Hrep _ _ Hl) as (? & ? & ? & ? & _).
  pose proof (do_header _ _ _ (dr_ok _ _ _ _ Hrep _ _ Hl)) as Hh1.
  assert (Hlink : ~ range link_addr (link_addr + 2) (pg_bitmap (getpage p) (k / 8))).
  { destruct rm_link_cases as [[_ ->]|(x & dx & _ & _ & -> & Hx & _)]; [alia|].
    destruct (rep_entry_bounds _ _ _ _ Hrep _ _ Hx) as (? & ? & ? & ? & _). alia. }
  destruct (Z.eqb_spec p l.1) as [->|Hne].
  - rewrite (rm_bits _ _ _ _ Hrm) by done. cbn [andb]. f_equal.
    eapply bit_same; [|exact Hlink]. apply st_same_but.
  - apply (bit_same _ _ _ _ _ rm_same_all). intros [Ht|Ht]; [|done]. revert Ht. disj.
Qed.

(** Outside its [next] field another entry is untouched. *)
Lemma rm_entry_out l' d' i :
  ents !! l' = Some d' -> l' <> l -> body_range l' (d_slots d') i -> ~ rm_region i.
Proof using Hrep Hl Hc.
  intros Hl' Hne [Hi Hnx] Hr.
  destruct (rep_entry_bounds _ _ _ _ Hrep _ _ Hl) as ([Hp _] & _).
  destruct (rep_slots_header _ _ _ _ Hrep _ _ i l.1 h Hl' Hp rm_h_range Hi) as (H1 & H2 & H3).
  destruct Hr as [[?|[Hr|?]]|Hr]; try done.
  { by eapply (rep_slots_disjoint _ _ _ _ Hrep l' d' l d). }
  destruct rm_link_cases as [[_ Ha]|(x & dx & _ & _ & Ha & Hx & _)]; rewrite Ha in Hr; [done|].
  destruct (decide (x = l')) as [->|Hxl]; [done|].
  eapply (rep_slots_disjoint _ _ _ _ Hrep l' d' x dx); [done..|].
  by eapply rep_next_slot.
Qed.

Lemma rm_entries l' d' : ents !! l' = Some d' -> l' <> l -> entry_at b2 l' d'.
Proof using Hrep Hl Hc Hrm.
  intros Hl' Hne. eapply entry_at_body; [apply same_but_agree, rm_same_all| |].
  - intros i. by apply rm_entry_out.
  - by apply (dr_entry _ _ _ _ Hrep).
Qed.

Lemma rm_b1_len : blen b1 = 2048 * P.
Proof using Hrep. unfold b1. rewrite blen_st. apply Hrep. Qed.

(** The link itself holds the successor of the removed entry. *)
Lemma rm_link_value :
  ld16 b2 link_addr = ld16 b (e_next (ent l)).
Proof using Hrep Hl Hc Hrm.
  pose proof (dr_len _ _ _ _ Hrep). pose proof (dr_pages _ _ _ _ Hrep). pose proof rm_h_range.
  assert (Hin : 0 <= link_addr /\ link_addr + 2 <= blen b /\
    forall i, range link_addr (link_addr + 2) i -> ~ touched l (d_slots d) i).
  { destruct (rep_entry_bounds _ _ _ _ Hrep _ _ Hl) as (? & ? & ? & ? & _).
    pose proof (do_header _ _ _ (dr_ok _ _ _ _ Hrep _ _ Hl)).
    destruct rm_link_cases as [[_ ->]|(x & dx & _ & _ & -> & Hx & Hne)]; [split_and!; disj|].
    destruct (rep_entry_bounds _ _ _ _ Hrep _ _ Hx) as (? & ? & ? & ? & ? & _).
    split_and!; [alia|alia|]. intros i Hi. apply (rep_next_slot _ _ _ _ Hrep _ _ _ Hx) in Hi.
    destruct (rep_slots_header _ _ _ _ Hrep _ _ i l.1 h Hx) as (? & ? & ?); [lia|done|done|].
    intros [?|[?|?]]; try done. by eapply (rep_slots_disjoint _ _ _ _ Hrep x dx l d). }
  destruct Hin as (Ha & Hb & Hout). rewrite (same_but_ld16 _ _ _ (rm_same _ _ _ _ Hrm)).
  - unfold b1. rewrite ld16_st by done. apply rm_next_small.
  - intros j Hj. apply Hout. exact Hj.
Qed.

Lemma rm_next l' d' :
  ents !! l' = Some d' -> l' <> l -> last c1 <> Some l' ->
  ld16 b2 (e_next (ent l')) = ld16 b (e_next (ent l')).
Proof using Hrep Hl Hc Hrm.
  intros Hl' Hne Hlast. apply (same_but_ld16 _ _ _ rm_same_all). intros j Hj.
  apply (rep_next_slot _ _ _ _ Hrep _ _ _ Hl') in Hj.
  destruct (rep_entry_bounds _ _ _ _ Hrep _ _ Hl) as ([Hp _] & _).
  destruct (rep_slots_header _ _ _ _ Hrep _ _ j l.1 h Hl' Hp rm_h_range Hj) as (H1 & H2 & H3).
  intros [[?|[Hr|?]]|Hr]; try done.
  { by eapply (rep_slots_disjoint _ _ _ _ Hrep l' d' l d). }
  destruct rm_link_cases as [[_ Ha]|(x & dx & Hx1 & _ & Ha & Hx & _)]; rewrite Ha in Hr; [done|].
  eapply (rep_slots_disjoint _ _ _ _ Hrep l' d' x dx); [done|done|congruence|done|].
  by eapply rep_next_slot.
Qed.

Lemma rm_hash h' :
  0 <= h' < 128 -> h' <> h \/ last c1 <> None ->
  ld16 b2 (dh_hash h') = ld16 b (dh_hash h').
Proof using Hrep Hl Hc Hrm.
  intros Hh' Hor. apply (same_but_ld16 _ _ _ rm_same_all). intros j Hj.
  destruct (rep_entry_bounds _ _ _ _ Hrep _ _ Hl) as ([Hp _] & ? & ? & ? & _).
  pose proof (do_header _ _ _ (dr_ok _ _ _ _ Hrep _ _ Hl)). pose proof rm_h_range.
  intros [Ht|Hr]; [revert Ht; disj|].
  destruct rm_link_cases as [[Hn Ha]|(x & dx & _ & _ & Ha & Hx & _)]; rewrite Ha in Hr.
  { destruct Hor; [alia|done]. }
  apply (rep_next_slot _ _ _ _ Hrep _ _ _ Hx) in Hr.
  by destruct (rep_slots_header _ _ _ _ Hrep _ _ j 0 h' Hx) as (_ & _ & ?).
Qed.

Lemma rm_chains h' :
  0 <= h' < 128 -> linked b2 (ld16 b2 (dh_hash h')) (drop_chain h').
Proof using Hrep Hl Hc Hrm.
  intros Hh'. pose proof (dr_chain _ _ _ _ Hrep _ Hh') as Hch.
  unfold drop_chain. fold h. destruct (Z.eqb_spec h' h) as [->|Hne].
  - rewrite Hc in Hch. eapply linked_unlink; [done|apply rm_nodup| |].
    + intros x Hx Hlast. destruct (rm_chain_entry x Hx) as [dx Hdx].
      eapply rm_next; [done|by apply rm_other|done].
    + pose proof rm_link_value as Hv. destruct rm_link_cases as
        [[Hn Ha]|(x & dx & Hx1 & _ & Ha & _)]; rewrite Ha in Hv.
      * by rewrite Hn.
      * rewrite Hx1. split; [|done]. apply rm_hash; [done|]. right. congruence.
  - rewrite rm_hash by auto. eapply linked_same; [|done].
    intros x Hx. apply (dr_mem _ _ _ _ Hrep) in Hx as (dx & Hdx & Hhx); [|done].
    eapply rm_next; [done| |].
    + intros ->. naive_solver.
    + intros Hlast. apply last_Some_elem_of in Hlast.
      assert (Hin : x ∈ chain h) by (rewrite Hc; apply elem_of_app; by left).
      apply (dr_mem _ _ _ _ Hrep) in Hin as (dx' & Hdx' & ?); [|apply rm_h_range].
      by simplify_eq.
Qed.

Lemma rm_free p :
  0 <= p < P -> free_slots b2 p = free_slots b p + if p =? l.1 then d_slots d else 0.
Proof using Hrep Hl Hc Hrm.
  intros Hp. destruct (rep_entry_bounds _ _ _ _ Hrep _ _ Hl) as (? & ? & ? & ? & _).
  destruct (Z.eqb_spec p l.1) as [->|Hne].
  - apply free_slots_unmark with l.2; try lia.
    + intros k Hk. replace k with (k - 1 + 1) by lia.
      apply (dr_bits _ _ _ _ Hrep); [done|lia|]. right. exists l, d. split; [done|].
      unfold covers. lia.
    + intros k Hk. by rewrite rm_bits_all, Z.eqb_refl by done.
  - rewrite Z.add_0_r. apply free_slots_ext. intros k Hk. rewrite rm_bits_all by lia.
    by destruct (Z.eqb_spec p l.1).
Qed.

Lemma rm_maps p :
  0 <= p < P -> p < 128 -> ld8 b2 (dh_map p) = free_slots b2 p.
Proof using Hrep Hl Hc Hrm.
  intros Hp Hlt. pose proof rm_h_range. pose proof (dr_pages _ _ _ _ Hrep).
  assert (Hlink : ~ range link_addr (link_addr + 2) (dh_map p)).
  { destruct rm_link_cases as [[_ ->]|(x & dx & _ & _ & -> & Hx & _)]; [alia|].
    intros Hr%(rep_next_slot _ _ _ _ Hrep _ _ _ Hx).
    destruct (rep_slots_header _ _ _ _ Hrep _ _ (dh_map p) p h Hx) as (_ & Hm & _);
      [lia|done|done|]. by apply Hm. }
  rewrite rm_free by done. rewrite <- (dr_map _ _ _ _ Hrep) by done.
  destruct (Z.eqb_spec p l.1) as [->|Hne].
  - rewrite (rm_map _ _ _ _ Hrm) by done.
    unfold b1. rewrite (same_but_ld8 _ _ _ (st_same_but b link_addr _)) by exact Hlink.
    pose proof (rm_free l.1 Hp) as Hf. rewrite Z.eqb_refl in Hf.
    pose proof (free_slots_bounds b2 l.1). rewrite (dr_map _ _ _ _ Hrep) by done.
    pose proof (free_slots_bounds b l.1).
    destruct (rep_entry_bounds _ _ _ _ Hrep _ _ Hl) as (? & ? & ? & ? & _).
    unfold uwrap8. rewrite Z.mod_small; lia.
  - rewrite Z.add_0_r. apply (same_but_ld8 _ _ _ rm_same_all).
    destruct (rep_entry_bounds _ _ _ _ Hrep _ _ Hl) as (? & ? & ? & ? & _).
    pose proof (do_header _ _ _ (dr_ok _ _ _ _ Hrep _ _ Hl)).
    intros [Ht|Ht]; [|done]. revert Ht. disj.
Qed.

Lemma rm_slots p k :
  0 <= p < P -> 0 <= k < 63 ->
  bit b2 p (k + 1) = true <->
  (p = 0 /\ k < 12) \/ exists l' d', delete l ents !! l' = Some d' /\ covers l' d' p k.
Proof using Hrep Hl Hc Hrm.
  intros Hp Hk. rewrite rm_bits_all, andb_true_iff, (dr_bits _ _ _ _ Hrep) by lia.
  destruct (rep_entry_bounds _ _ _ _ Hrep _ _ Hl) as (? & ? & ? & ? & _).
  pose proof (do_header _ _ _ (dr_ok _ _ _ _ Hrep _ _ Hl)).
  rewrite negb_true_iff, andb_false_iff, Z.eqb_neq. split.
  - intros [Hno [?|(l' & d' & Hl' & Hcov)]]; [by left|right]. exists l', d'. split; [|done].
    apply lookup_delete_Some. split; [|done]. intros <-. simplify_eq.
    destruct Hcov as [-> Hcov]. destruct Hno as [?|Hno]; [done|].
    by destruct (withinP (l.2 + 1) (d_slots d) (k + 1)); [|lia].
  - intros Hor. split.
    + destruct (withinP (l.2 + 1) (d_slots d) (k + 1)) as [Hin|]; [left|by right]. intros ->.
      destruct Hor as [?|(l' & d' & [Hne Hl']%lookup_delete_Some & Hcov)]; [lia|].
      destruct Hcov as [Hp1 Hcov].
      destruct (rep_disjoint _ _ _ _ Hrep _ _ _ _ Hl Hl'); [done|congruence|lia].
    + destruct Hor as [?|(l' & d' & [Hne Hl']%lookup_delete_Some & Hcov)]; [by left|right; eauto].
Qed.

Lemma rm_members h' x :
  0 <= h' < 128 ->
  x ∈ drop_chain h' <-> exists dx, delete l ents !! x = Some dx /\ hashentry (d_name dx) = h'.
Proof using Hrep Hl Hc.
  intros Hh'. pose proof (dr_mem _ _ _ _ Hrep h' x Hh') as Hm.
  assert (Hdel : (exists dx, delete l ents !! x = Some dx /\ hashentry (d_name dx) = h') <->
    x <> l /\ x ∈ chain h').
  { rewrite Hm. setoid_rewrite lookup_delete_Some. naive_solver. }
  rewrite Hdel. unfold drop_chain. fold h. destruct (Z.eqb_spec h' h) as [->|Hne].
  - rewrite Hc, !elem_of_app, elem_of_cons. split.
    + intros Hx. split; [|tauto]. apply rm_other. by apply elem_of_app.
    + tauto.
  - split; [|tauto]. intros Hx. split; [|done]. intros ->. apply Hm in Hx as (dx & Hdx & Hhx).
    by simplify_eq.
Qed.

Lemma rep_remove : dir_rep b2 P (delete l ents) drop_chain.
Proof using Hrep Hl Hc Hrm.
  pose proof rm_h_range as Hh. pose proof (dr_pages _ _ _ _ Hrep) as HP.
  destruct (rep_entry_bounds _ _ _ _ Hrep _ _ Hl) as (? & ? & ? & ? & _).
  pose proof (do_header _ _ _ (dr_ok _ _ _ _ Hrep _ _ Hl)).
  assert (Hhead : forall p i, 0 <= p -> range (getpage p) (getpage p + 5) i -> ~ rm_region i).
  { intros p i Hp Hi [Ht|Hr]; [revert Ht; disj|].
    destruct rm_link_cases as [[_ Ha]|(x & dx & _ & _ & Ha & Hx & _)]; rewrite Ha in Hr; [alia|].
    destruct (rep_entry_bounds _ _ _ _ Hrep _ _ Hx) as (? & ? & ? & ? & _). alia. }
  split.
  - destruct rm_same_all as [-> _]. apply Hrep.
  - done.
  - rewrite (same_but_ld16 _ _ _ rm_same_all); [apply Hrep|]. intros j Hj.
    apply (Hhead 0); [done|alia].
  - intros p Hp. rewrite (same_but_ld16 _ _ _ rm_same_all); [by apply Hrep|]. intros j Hj.
    apply (Hhead p); [lia|alia].
  - intros l' d' [_ Hl']%lookup_delete_Some. by apply (dr_ok _ _ _ _ Hrep).
  - intros l' d' [Hne Hl']%lookup_delete_Some. by apply rm_entries.
  - intros l1 d1 l2 d2 p k [_ H1']%lookup_delete_Some [_ H2']%lookup_delete_Some.
    by apply (dr_disj _ _ _ _ Hrep).
  - apply rm_slots.
  - apply rm_maps.
  - apply rm_chains.
  - apply rm_members.
  - intros h' Hh'. unfold drop_chain. fold h. destruct (Z.eqb_spec h' h) as [->|Hne];
      [|by apply (dr_nodup _ _ _ _ Hrep)].
    pose proof rm_nodup as Hnd. apply NoDup_app in Hnd as (N1 & N2 & N3).
    apply NoDup_app. split_and!; [done| |by apply NoDup_cons in N3 as [_ ?]].
    intros x Hx Hx2. apply (N2 x Hx). by right.
  - intros l1 d1 l2 d2 [_ H1']%lookup_delete_Some [_ H2']%lookup_delete_Some.
    by apply (dr_names _ _ _ _ Hrep).
Qed.
End RemoveRep.

(** ** Giving up empty pages *)

Definition page_unused (ents : gmap loc dent) (p : Z) : Prop :=
  forall l d, ents !! l = Some d -> l.1 <> p.

Lemma cnt_full g l : cnt g l = Z.of_nat (length l) -> forall k, k ∈ l -> g k = true.
Proof.
  induction l as [|x l IH]; intros Hc k Hk; [by apply not_elem_of_nil in Hk|].
  simpl in Hc. pose proof (cnt_bounds g l).
  destruct (g x) eqn:Hx; [|lia].
  apply elem_of_cons in Hk as [->|Hk]; [done|]. apply IH; [lia|done].
Qed.

Lemma bitmap_zero_spec n b p i :
  page_in b p -> 0 <= i -> i + Z.of_nat n <= 8 ->
  exists e, bitmap_zero n b (getpage p) i = Some e /\
    (e = true -> forall j, i <= j < i + Z.of_nat n -> ld8 b (pg_bitmap (getpage p) j) = 0).
Proof.
  intros [Hp Hb]. revert i. induction n as [|n IH]; intros i Hi Hn.
  - exists true. split; [done|]. lia.
  - simpl. rewrite rd8_in by alia. cbn [mbind option_bind].
    destruct (Z.eqb_spec (ld8 b (pg_bitmap (getpage p) i)) 0) as [Hz|]; cbn [negb];
      [|by exists false].
    destruct (IH (i + 1)) as (e & -> & He); [lia|lia|]. exists e. split; [done|].
    intros Ht j Hj. destruct (decide (j = i)) as [->|]; [done|]. apply He; [done|lia].
Qed.

Section Shrink.
Context (b : bytes) (P : Z) (ents : gmap loc dent) (chain : Z -> list loc).
Hypothesis (Hrep : dir_rep b P ents chain).

(** A page all of whose slots are free. *)
Lemma all_free_unused p :
  0 <= p < P -> (forall k, 0 <= k < 63 -> bit b p (k + 1) = false) -> p <> 0 /\ page_unused ents p.
Proof using Hrep.
  intros Hp Hf. split.
  - intros ->. assert (bit b 0 (0 + 1) = true) as Ht; [|by rewrite Hf in Ht].
    apply (dr_bits _ _ _ _ Hrep); [done|done|]. by left.
  - intros l d Hl Hlp. destruct (rep_entry_bounds _ _ _ _ Hrep _ _ Hl) as (? & ? & ? & ? & _).
    assert (bit b p (l.2 + 1) = true) as Ht; [|rewrite Hf in Ht; [done|lia]].
    apply (dr_bits _ _ _ _ Hrep); [done|lia|]. right. exists l, d. split; [done|].
    unfold covers. lia.
Qed.

Lemma is_page_empty_spec p :
  0 <= p < P ->
  exists e, is_page_empty b p = Some e /\ (e = true -> p <> 0 /\ page_unused ents p).
Proof using Hrep.
  intros Hp. pose proof (rep_page_in _ _ _ _ Hrep _ Hp) as [_ Hb].
  pose proof (dr_pages _ _ _ _ Hrep). pose proof (dr_len _ _ _ _ Hrep).
  unfold is_page_empty. destruct (Z.ltb_spec p MAXPAGES) as [Hlt|Hge].
  - rewrite rd8_in by alia. cbn [mbind option_bind]. eexists. split; [done|].
    intros He%Z.eqb_eq. apply all_free_unused; [done|]. intros k Hk.
    rewrite (dr_map _ _ _ _ Hrep) in He by done.
    assert (negb (bit b p (k + 1)) = true) as Hn; [|by apply negb_true_iff in Hn].
    apply (cnt_full (fun k => negb (bit b p (k + 1))) (seqZ 0 63)).
    + rewrite length_seqZ. exact He.
    + apply elem_of_seqZ. lia.
  - rewrite rd8_in by alia. cbn [mbind option_bind].
    destruct (Z.eqb_spec (ld8 b (pg_bitmap (getpage p) 0)) 1) as [Hone|]; cbn [negb];
      [|by exists false].
    destruct (bitmap_zero_spec 7 b p 1) as (e & -> & He); [split; lia|lia|lia|].
    exists e. split; [done|]. intros Ht. apply all_free_unused; [done|]. intros k Hk.
    pose proof (div8_range (k + 1)). unfold bit.
    destruct (decide ((k + 1) / 8 = 0)) as [Hz|Hne].
    + rewrite Hz, Hone. destruct (Z.testbit 1 ((k + 1) mod 8)) eqn:Hbit; [|done].
      replace ((k + 1) mod 8) with (k + 1) in Hbit
        by (Z.to_euclidean_division_equations; lia).
      change 1 with (2 ^ 0) in Hbit at 1. rewrite Z.pow2_bits_false in Hbit by lia. done.
    + rewrite He by (done || lia). apply Z.bits_0.
Qed.

Lemma shrink_spec fuel pageno :
  0 < pageno < P -> page_unused ents pageno -> (Z.to_nat pageno < fuel)%nat ->
  exists P', shrink fuel b (2048 * (pageno + 1)) pageno (pageno + 1) = Some (2048 * P', P') /\
    1 <= P' <= pageno /\ forall l d, ents !! l = Some d -> ~ (P' <= l.1 <= pageno).
Proof using Hrep.
  pose proof (dr_pages _ _ _ _ Hrep) as HP.
  revert pageno. induction fuel as [|fuel IH]; intros pageno Hp Hun Hf; [lia|]. simpl.
  replace (uwrap32 (pageno - 1)) with (pageno - 1)
    by (unfold uwrap32; rewrite Z.mod_small; lia).
  destruct (is_page_empty_spec (pageno - 1)) as (e & -> & He); [lia|].
  cbn [mbind option_bind]. destruct e.
  - destruct (He eq_refl) as [Hne Hun'].
    destruct (IH (pageno - 1)) as (P' & Hs & HP' & Hno); [lia|done|lia|].
    exists P'. replace (2048 * (pageno + 1) - AFSDIR_PAGESIZE) with (2048 * (pageno - 1 + 1)) by alia.
    replace (pageno + 1 - 1) with (pageno - 1 + 1) by lia. split; [done|]. split; [lia|].
    intros l d Hl Hr. destruct (decide (l.1 = pageno)); [by eapply Hun|].
    eapply Hno; [done|lia].
  - exists pageno. split; [do 2 f_equal; alia|]. split; [lia|].
    intros l d Hl Hr. apply (Hun l d Hl). lia.
Qed.
End Shrink.

(** Writing a smaller page count. *)
Lemma rep_set_count b P ents chain n :
  dir_rep b P ents chain -> 0 <= n <= P ->
  dir_rep (st b (pg_pgcount 0) (be16 n)) P ents chain.
Proof.
  intros Hrep Hn. pose proof (dr_pages _ _ _ _ Hrep) as HP. pose proof (dr_len _ _ _ _ Hrep) as Hl.
  set (b' := st _ _ _).
  assert (Hs : same_but (range 0 2) b b').
  { apply st_same_within; [apply same_but_refl|]. intros i. alia. }
  pose proof (same_but_agree _ _ _ Hs) as Ha.
  apply (rep_frame _ _ _ _ Hrep (range 0 2) b' Ha).
  - intros l d i Hl'. destruct (rep_entry_bounds _ _ _ _ Hrep _ _ Hl') as (? & ? & ? & ? & _). disj.
  - unfold b'. by rewrite blen_st.
  - done.
  - unfold b'. rewrite ld16_st by alia. unfold uwrap16. rewrite Z.mod_small; lia.
  - intros l d Hl'. destruct (dr_ok _ _ _ _ Hrep _ _ Hl'). lia.
  - unfold hash_range. disj.
  - intros p Hp. rewrite (agree_ld16 _ _ _ Ha) by disj. by apply Hrep.
  - intros p k Hp Hk. pose proof (div8_range k). destruct (Z.ltb_spec p P); [|lia].
    apply (bit_agree _ _ _ _ _ Ha). alia.
  - lia.
  - disj.
Qed.

(** Cutting off pages without entries. *)
Lemma rep_cut b P ents chain P' :
  dir_rep b P ents chain -> 1 <= P' <= P -> ld16 b (pg_pgcount 0) <= P' ->
  (forall l d, ents !! l = Some d -> l.1 < P') ->
  dir_rep (resize b (2048 * P')) P' ents chain.
Proof.
  intros Hrep HP' Hcnt Hin. pose proof (dr_pages _ _ _ _ Hrep) as HP.
  pose proof (dr_len _ _ _ _ Hrep) as Hl. set (b' := resize _ _).
  assert (Ha : agree (fun i => 2048 * P' <= i) b b').
  { intros i Hi. apply resize_shrink; lia. }
  apply (rep_frame _ _ _ _ Hrep _ b' Ha).
  - intros l d i Hl'. destruct (rep_entry_bounds _ _ _ _ Hrep _ _ Hl') as (? & ? & ? & ? & _).
    pose proof (Hin _ _ Hl'). disj.
  - apply (resize_shrink b _ 0). lia.
  - lia.
  - rewrite (agree_ld16 _ _ _ Ha) by disj. done.
  - done.
  - unfold hash_range. disj.
  - intros p Hp. rewrite (agree_ld16 _ _ _ Ha) by disj. apply Hrep. lia.
  - intros p k Hp Hk. pose proof (div8_range k). destruct (Z.ltb_spec p P); [|lia].
    apply (bit_agree _ _ _ _ _ Ha). alia.
  - lia.
  - intros p Hp. disj.
Qed.

Section Remove.
Context (te : Z -> option Z) (b : bytes) (P : Z) (ents : gmap loc dent) (chain : Z -> list loc).
Hypothesis (Hrep : dir_rep b P ents chain).

(** The end of [fdir_remove]: empty pages at the end are given up; the entries
    stay. *)
Lemma remove_tail p (r : Z * Z) :
  0 <= p < P ->
  let tail :=
    empty ← (if p =? P - 1 then is_page_empty b p else Some false);
    if (empty : bool) then
      '(len, npages) ← shrink (S (S (Z.to_nat p))) b (2048 * P) p P;
      b' ← wr b (pg_pgcount 0) (be16 npages);
      '(_, b') ← fbuf_truncate te b' len;
      Some (0, Some r, b')
    else Some (0, Some r, b) in
  (exists b' P', tail = Some (0, Some r, b') /\
    1 <= P' <= P /\ dir_rep b' P' ents chain) \/
  (tail = None /\ exists P', 1 <= P' < P /\ te (2048 * P') = None).
Proof using Hrep.
  intros Hp tail. subst tail.
  pose proof (dr_pages _ _ _ _ Hrep) as HP. pose proof (dr_len _ _ _ _ Hrep) as Hlen.
  destruct (Z.eqb_spec p (P - 1)) as [->|Hne]; [|by left; exists b, P; split_and!; try lia].
  destruct (is_page_empty_spec _ _ _ _ Hrep (P - 1) Hp) as (e & -> & He).
  cbn [mbind option_bind]. destruct e; [|by left; exists b, P; split_and!; try lia].
  destruct (He eq_refl) as [Hne Hun].
  destruct (shrink_spec _ _ _ _ Hrep (S (S (Z.to_nat (P - 1)))) (P - 1))
    as (P' & Hs & HP' & Hno); [lia|done|lia|].
  replace (P - 1 + 1) with P in Hs by lia. rewrite Hs. cbn [mbind option_bind].
  rewrite wr_in by alia. cbn [mbind option_bind].
  assert (Hr' : dir_rep (st b (pg_pgcount 0) (be16 P')) P ents chain)
    by (apply rep_set_count; [done|lia]).
  unfold fbuf_truncate. destruct (te (2048 * P')) as [e|] eqn:Hte; cbn [mbind option_bind].
  2:{ right. split; [done|]. exists P'. split; [lia|done]. }
  left. destruct (Z.eqb_spec e 0).
  - eexists _, P'. split; [done|]. split; [lia|]. apply rep_cut with P; [done|lia| |].
    + rewrite ld16_st by alia. unfold uwrap16. rewrite Z.mod_small; lia.
    + intros l d Hl. pose proof (Hno _ _ Hl). destruct (dr_ok _ _ _ _ Hrep _ _ Hl). lia.
  - eexists _, P. split; [done|]. split; [lia|done].
Qed.
End Remove.

Lemma fdir_remove_spec te b P ents chain name :
  dir_rep b P ents chain -> is_cstr name ->
  (exists l d b' P' chain', ents !! l = Some d /\ d_name d = name /\
     fdir_remove te b name = Some (0, Some (d_vnode d, d_unique d), b') /\
     1 <= P' <= P /\ dir_rep b' P' (delete l ents) chain') \/
  (fdir_remove te b name = None /\ exists P', 1 <= P' < P /\ te (2048 * P') = None) \/
  (no_name ents name /\ fdir_remove te b name = Some (ENOENT, None, b)).
Proof.
  intros Hrep Hname. pose proof (dr_pages _ _ _ _ Hrep) as HP.
  pose proof (dr_len _ _ _ _ Hrep) as Hlen. pose proof (hashentry_range name) as Hh.
  unfold fdir_remove. rewrite (rep_npages _ _ _ _ Hrep). cbn [mbind option_bind].
  rewrite (rep_hash_in _ _ _ _ Hrep) by done. cbn [mbind option_bind].
  destruct (rep_search _ _ _ _ Hrep name Hname) as [(c1 & l & d & c2 & Hc & Hl & Hd & ->)|[Hno ->]];
    [|by right; right]. subst name. cbn [mbind option_bind].
  pose proof (rep_num_bounds _ _ _ _ Hrep _ _ Hl).
  destruct (rep_entry_bounds _ _ _ _ Hrep _ _ Hl) as (? & ? & ? & ? & ? & ?).
  destruct (dr_entry _ _ _ _ Hrep _ _ Hl) as [_ Hv Hu _].
  rewrite !rd32_in by alia. cbn [mbind option_bind]. rewrite Hv, Hu.
  rewrite rd16_in by alia. cbn [mbind option_bind].
  rewrite (unlink_write _ _ _ _ Hrep l d c1 c2 Hc). cbn [mbind option_bind].
  replace ((num l + 1 - 1) / ENTRIESPERPAGE) with l.1
    by (addr; Z.to_euclidean_division_equations; lia).
  replace ((num l + 1 - 1) mod ENTRIESPERPAGE) with l.2
    by (addr; Z.to_euclidean_division_equations; lia).
  set (b1 := st b _ _).
  destruct (remove_from_page_spec b1 P l d) as (b2 & -> & Hremoved).
  { unfold b1. by rewrite blen_st. }
  { by apply (dr_ok _ _ _ _ Hrep). }
  { apply (unlink_entry _ _ _ _ Hrep l d c1 c2 Hl Hc). }
  cbn [mbind option_bind].
  pose proof (rep_remove _ _ _ _ Hrep l d c1 c2 Hl Hc b2 Hremoved) as Hrep2.
  rewrite Hlen.
  destruct (remove_tail te _ _ _ _ Hrep2 l.1 (d_vnode d, d_unique d))
    as [(b' & P' & Htail & HP' & Hr')|[Htail HP']]; [done|left|right; left; done].
  exists l, d, b', P', (drop_chain chain d c1 c2). done.
Qed.

(** ** Changing a fid *)

Section ChangeFid.
Context (b : bytes) (P : Z) (ents : gmap loc dent) (chain : Z -> list loc).
Hypothesis (Hrep : dir_rep b P ents chain).
Context (l : loc) (d : dent) (f : AFSFid).
Hypothesis (Hl : ents !! l = Some d).
Let d' := new_dent (d_name d) f.
Let b' := st (st b (e_Vnode (ent l)) (be32 (Vnode f))) (e_Unique (ent l)) (be32 (Unique f)).

(** The entries keep their names, places and sizes. *)
Lemma cf_old x dx :
  <[l := d']> ents !! x = Some dx -> exists dx0, ents !! x = Some dx0 /\ d_name dx0 = d_name dx.
Proof using Hl.
  intros [[<- <-]|[_ Hx]]%lookup_insert_Some; [by exists d|by exists dx].
Qed.

Lemma cf_new x dx :
  ents !! x = Some dx -> exists dx0, <[l := d']> ents !! x = Some dx0 /\ d_name dx0 = d_name dx.
Proof using Hl.
  intros Hx. destruct (decide (x = l)) as [->|Hne].
  - exists d'. rewrite lookup_insert_eq. simplify_eq. done.
  - exists dx. by rewrite lookup_insert_ne by done.
Qed.

Lemma cf_same : same_but (range (ent l + 4) (ent l + 12)) b b'.
Proof using. unfold b'. repeat (apply st_same_within; [|intros ?; alia]). apply same_but_refl. Qed.

Lemma cf_region i : range (ent l + 4) (ent l + 12) i -> slots_range l (d_slots d) i.
Proof using Hrep Hl.
  destruct (rep_entry_bounds _ _ _ _ Hrep _ _ Hl) as (_ & _ & ? & _). unfold slots_range. alia.
Qed.

Lemma cf_entry : entry_at b' l d'.
Proof using Hrep Hl.
  destruct (rep_entry_bounds _ _ _ _ Hrep _ _ Hl) as (? & ? & ? & ? & ? & ?).
  destruct (dr_entry _ _ _ _ Hrep _ _ Hl) as [H1' H2' H3' H4']. unfold b'. split.
  - by rewrite !ld8_st_out by alia.
  - rewrite ld32_st_out by alia. by rewrite ld32_st by alia.
  - by rewrite ld32_st by alia.
  - do 2 (apply cstr_at_st_out; [alia|]). done.
Qed.

Lemma cf_next x dx : ents !! x = Some dx -> ld16 b' (e_next (ent x)) = ld16 b (e_next (ent x)).
Proof using Hrep Hl.
  intros Hx. apply (same_but_ld16 _ _ _ cf_same). intros j Hj Hr.
  destruct (decide (x = l)) as [->|Hne]; [alia|].
  eapply (rep_slots_disjoint _ _ _ _ Hrep l d x dx); [done|done|done|by apply cf_region|].
  eapply rep_next_slot; [done|done|]. exact Hj.
Qed.

Lemma rep_changefid : dir_rep b' P (<[l := d']> ents) chain.
Proof using Hrep Hl.
  destruct (rep_entry_bounds _ _ _ _ Hrep _ _ Hl) as (? & ? & ? & ? & ? & ?).
  pose proof (do_header _ _ _ (dr_ok _ _ _ _ Hrep _ _ Hl)).
  assert (Hbit : forall p k, 0 <= p -> 0 <= k < 64 -> bit b' p k = bit b p k).
  { intros p k Hp Hk. pose proof (div8_range k Hk). apply (bit_same _ _ _ _ _ cf_same). alia. }
  split.
  - destruct cf_same as [-> _]. apply Hrep.
  - apply Hrep.
  - rewrite (same_but_ld16 _ _ _ cf_same) by disj. apply Hrep.
  - intros p Hp. rewrite (same_but_ld16 _ _ _ cf_same) by disj. by apply Hrep.
  - intros x dx (dx0 & Hx & Hn)%cf_old. destruct (dr_ok _ _ _ _ Hrep _ _ Hx).
    unfold d_slots in *. split; unfold d_slots; rewrite <- ?Hn; done.
  - intros x dx [[<- <-]|[Hne Hx]]%lookup_insert_Some; [apply cf_entry|].
    eapply entry_at_same; [apply cf_same| |by apply (dr_entry _ _ _ _ Hrep)].
    intros i Hi Hr%cf_region. by eapply (rep_slots_disjoint _ _ _ _ Hrep l d x dx).
  - intros x dx y dy p k (dx0 & Hx & Hnx)%cf_old (dy0 & Hy & Hny)%cf_old.
    unfold covers, d_slots. rewrite <- Hnx, <- Hny. intros ??.
    by eapply (dr_disj _ _ _ _ Hrep x dx0 y dy0).
  - intros p k Hp Hk. rewrite Hbit, (dr_bits _ _ _ _ Hrep) by lia. unfold covers, d_slots.
    split; intros [?|(x & dx & Hx & Hc)]; [by left|right|by left|right].
    + destruct (cf_new _ _ Hx) as (dx0 & Hx0 & Hn). exists x, dx0. by rewrite Hn.
    + destruct (cf_old _ _ Hx) as (dx0 & Hx0 & Hn). exists x, dx0. by rewrite Hn.
  - intros p Hp Hlt. rewrite (same_but_ld8 _ _ _ cf_same) by disj.
    rewrite (free_slots_ext b b') by (intros; apply Hbit; lia). by apply (dr_map _ _ _ _ Hrep).
  - intros h Hh. rewrite (same_but_ld16 _ _ _ cf_same) by disj.
    eapply linked_same; [|by apply (dr_chain _ _ _ _ Hrep)].
    intros x Hx. destruct (chain_members _ _ _ _ _ _ Hrep Hh Hx). by eapply cf_next.
  - intros h x Hh. rewrite (dr_mem _ _ _ _ Hrep) by done. split; intros (dx & Hx & Hhx).
    + destruct (cf_new _ _ Hx) as (dx0 & Hx0 & Hn). exists dx0. by rewrite Hn.
    + destruct (cf_old _ _ Hx) as (dx0 & Hx0 & Hn). exists dx0. by rewrite Hn.
  - apply Hrep.
  - intros x dx y dy (dx0 & Hx & Hnx)%cf_old (dy0 & Hy & Hny)%cf_old Hn.
    eapply (dr_names _ _ _ _ Hrep x dx0 y dy0); congruence.
Qed.
End ChangeFid.

Lemma fdir_changefid_spec b P ents chain name f :
  dir_rep b P ents chain -> is_cstr name ->
  (exists l d b', ents !! l = Some d /\ d_name d = name /\
     fdir_changefid b name f = Some (0, b') /\
     dir_rep b' P (<[l := new_dent name (fid f)]> ents) chain) \/
  (no_name ents name /\ fdir_changefid b name f = Some (ENOENT, b)).
Proof.
  intros Hrep Hname. unfold fdir_changefid, update_fid_by_name.
  rewrite (rep_npages _ _ _ _ Hrep). cbn [mbind option_bind].
  destruct (find_entry_spec _ _ _ _ Hrep name Hname) as [(l & d & Hl & Hd & ->)|[Hno ->]];
    [left|by right]. cbn [mbind option_bind].
  destruct (rep_entry_bounds _ _ _ _ Hrep _ _ Hl) as (? & ? & ? & ? & ? & ?).
  do 2 (rewrite wr_in by alia; cbn [mbind option_bind]).
  eexists l, d, _. split_and!; [done|done|done|]. subst name. by apply rep_changefid.
Qed.

(** ** Creating a directory *)

(** A directory without entries: one page, the header's slots marked. *)
Lemma rep_empty b :
  blen b = 2048 -> ld16 b (pg_pgcount 0) = 1 -> ld16 b (pg_tag 0) = AFSDIRMAGIC ->
  (forall k, 0 < k < 64 -> bit b 0 k = (k <=? 12)) -> ld8 b (dh_map 0) = 51 ->
  (forall h, 0 <= h < 128 -> ld16 b (dh_hash h) = 0) ->
  dir_rep b 1 ∅ (fun _ => []).
Proof.
  intros Hlen Hcnt Htag Hbits Hmap Hhash. split; try (intros *; by rewrite lookup_empty).
  - lia.
  - lia.
  - lia.
  - intros p Hp. by replace p with 0 by lia.
  - intros p k Hp Hk. replace p with 0 by lia. rewrite Hbits by lia. rewrite Z.leb_le. split.
    + intros ?. left. lia.
    + intros [?|(l & d & Hl & _)]; [lia|by rewrite lookup_empty in Hl].
  - intros p Hp _. replace p with 0 by lia. rewrite Hmap. unfold free_slots.
    rewrite (cnt_ext _ (fun k => negb (k + 1 <=? 12))); [done|].
    intros k Hk%elem_of_seqZ. by rewrite Hbits by lia.
  - intros h Hh. simpl. by apply Hhash.
  - intros h l Hh. rewrite elem_of_nil. split; [done|]. intros (d & Hd & _).
    by rewrite lookup_empty in Hd.
  - intros h _. constructor.
Qed.

Lemma ld8_st_zeros b a n i :
  0 <= a -> a + Z.of_nat n <= blen b -> a <= i < a + Z.of_nat n ->
  ld8 (st b a (replicate n 0)) i = 0.
Proof.
  intros Ha Hb Hi. replace i with (a + Z.of_nat (Z.to_nat (i - a))) by lia.
  apply ld8_st_in; [done|by rewrite blen_replicate|]. apply lookup_replicate. lia.
Qed.

(** The header that [fdir_mkdir] sets up on the first page. *)
Lemma mkdir_header_spec b1 :
  blen b1 = 2048 -> ld16 b1 (pg_tag 0) = AFSDIRMAGIC ->
  (forall k, 0 <= k < 64 -> bit b1 0 k = (k =? 0)) ->
  exists b2, (b ← wr b1 (dh_map 0) (replicate 384 0);
    b ← wr b (pg_freecount 0) [51];
    b ← wr b (dh_map 0) [51];
    b ← wr b (pg_pgcount 0) (be16 1);
    mark_used 13 b 0 0) = Some b2 /\ dir_rep b2 1 ∅ (fun _ => []).
Proof.
  intros Hlen Htag Hbits.
  do 4 (rewrite wr_in by alia; cbn [mbind option_bind]).
  set (b3 := st _ (pg_pgcount 0) _).
  assert (Hl3 : blen b3 = 2048) by (unfold b3; by autorewrite with milko_len).
  destruct (mark_used_spec 13 b3 0 0) as (b2 & Hm & Hs & Hb2); [split; lia|lia|lia|].
  exists b2. split; [exact Hm|]. change (Z.of_nat 13) with 13 in Hb2.
  assert (Hdh : forall i, 33 <= i < 416 -> ld8 b2 i = 0).
  { intros i Hi. rewrite (same_but_ld8 _ _ _ Hs) by disj. unfold b3.
    rewrite !ld8_st_out by alia. apply ld8_st_zeros; alia. }
  apply rep_empty.
  - destruct Hs as [-> _]. done.
  - rewrite (same_but_ld16 _ _ _ Hs) by disj. unfold b3. by rewrite ld16_st by alia.
  - rewrite (same_but_ld16 _ _ _ Hs) by disj. unfold b3. by rewrite !ld16_st_out by alia.
  - intros k Hk. pose proof (div8_range k). rewrite Hb2 by lia.
    assert (Hbit : bit b3 0 k = false).
    { unfold b3. unfold bit. rewrite !ld8_st_out by alia. fold (bit b1 0 k). rewrite Hbits by lia.
      by destruct (Z.eqb_spec k 0); [lia|]. }
    rewrite Hbit, orb_false_r. destruct (withinP 0 13 k), (Z.leb_spec k 12); try done; lia.
  - rewrite (same_but_ld8 _ _ _ Hs) by disj. unfold b3. rewrite ld8_st_out by alia.
    by rewrite ld8_st by alia.
  - intros h Hh. unfold ld16. rewrite !Hdh by alia. done.
Qed.

Lemma mkdir_entry_spec b ents chain name f :
  dir_rep b 1 ents chain -> is_cstr name -> no_name ents name -> nslots name = 1 ->
  (forall l d, ents !! l = Some d -> hashentry (d_name d) <> hashentry name) ->
  (exists s, 12 <= s < 63 /\ bit b 0 (s + 1) = false) ->
  exists b', mkdir_entry b 0 name f = Some b' /\ has_new b' 1 ents name f.
Proof.
  intros Hrep Hname Hno Hn Hhash (s0 & Hs0 & Hfree). pose proof (hashentry_range name) as Hh.
  assert (H0 : ld16 b (dh_hash (hashentry name)) = 0).
  { pose proof (dr_chain _ _ _ _ Hrep _ Hh) as Hl.
    destruct (chain (hashentry name)) as [|l c] eqn:Hc; [done|].
    assert (l ∈ chain (hashentry name)) as Hin by (rewrite Hc; constructor).
    apply (dr_mem _ _ _ _ Hrep) in Hin as (d & Hd & Hhd); [|done]. by destruct (Hhash _ _ Hd). }
  unfold mkdir_entry. rewrite (rep_hash_in _ _ _ _ Hrep), H0 by done. cbn [mbind option_bind].
  rewrite option_guard_True by done. cbn [mbind option_bind].
  change (add_to_page b 0) with (add_to_page b (getpage 0)).
  destruct (rep_add_to_page _ _ _ _ Hrep name f (ld16 b (dh_hash (hashentry name)))) with (p := 0)
    as [[_ Hfull]|(s & b1 & Hadd & Hpl & Had)]; [lia|lia| |].
  { destruct (Hfull s0); [lia|lia|]. intros k Hk. by replace k with (s0 + 1) by lia. }
  rewrite H0 in Hadd. rewrite Hadd.
  cbn [mbind option_bind]. pose proof (pl_slot _ _ _ _ Hpl). cbn [snd] in *.
  rewrite option_guard_True by done. cbn [mbind option_bind].
  destruct (rep_link ents chain name f) with (b := b) (b1 := b1) (P := 1) (l := (0, s))
    as (b2 & Hw & Hnew); [done|lia|done..|].
  exists b2. split; [|done]. cbn [fst snd] in Hw. rewrite <- Hw. do 2 f_equal. lia.
Qed.

Lemma rep_free_exists b P ents chain p n :
  dir_rep b P ents chain -> 0 <= p < P ->
  (forall l d, ents !! l = Some d -> l.1 = p -> l.2 + d_slots d <= n) -> 12 <= n < 63 ->
  bit b p (n + 1) = false.
Proof.
  intros Hrep Hp Hlt Hn. destruct (bit b p (n + 1)) eqn:Hb; [|done].
  apply (dr_bits _ _ _ _ Hrep) in Hb as [?|(l & d & Hl & -> & Hc)]; [lia| |done|lia].
  pose proof (Hlt _ _ Hl eq_refl). lia.
Qed.

Lemma fdir_mkdir_spec te dot dot_dot :
  te AFSDIR_PAGESIZE = Some 0 ->
  exists b l1 l2 chain, fdir_mkdir te [] dot dot_dot false = Some (0, b) /\ l1 <> l2 /\
    dir_rep b 1 (<[l2 := new_dent dot_dot_name dot_dot]> {[l1 := new_dent dot_name dot]}) chain.
Proof.
  intros Hte. unfold fdir_mkdir.
  destruct (create_new_page_spec te [] 0) as (b1 & -> & Hl1 & _ & Ht1 & Hb1); [lia|done|done|].
  cbn [mbind option_bind Z.eqb negb].
  change (ENTRIESPERPAGE - (32 + 384) / 32) with 51. change (getpage 0) with 0.
  destruct (mkdir_header_spec b1) as (b2 & Hh & Hrep); [done|done|done|]. revert Hh.
  do 4 (rewrite wr_in by alia; cbn [mbind option_bind]). intros ->. cbn [mbind option_bind].
  destruct (mkdir_entry_spec b2 ∅ (fun _ => []) dot_name dot) as (b3 & -> & l1 & ch1 & _ & Hrep1);
    [done|repeat constructor; lia|intros l d; by rewrite lookup_empty|done
    |intros l d; by rewrite lookup_empty| |].
  { exists 12. split; [lia|]. eapply rep_free_exists; [done|lia| |lia].
    intros l d. by rewrite lookup_empty. }
  cbn [mbind option_bind]. rewrite insert_empty in Hrep1.
  assert (Hone : forall l d, ({[l1 := new_dent dot_name dot]} : gmap loc dent) !! l = Some d ->
    l = l1 /\ d = new_dent dot_name dot) by (intros l d [<- <-]%lookup_singleton_Some; done).
  destruct (mkdir_entry_spec b3 {[l1 := new_dent dot_name dot]} ch1 dot_dot_name dot_dot)
    as (b4 & -> & l2 & ch2 & Hfr & Hrep2);
    [done|repeat constructor; lia| |done| | |].
  - intros l d [_ ->]%Hone. done.
  - intros l d [_ ->]%Hone. vm_compute. done.
  - destruct (decide (l1.2 = 12)).
    + exists 13. split; [lia|]. eapply rep_free_exists; [done|lia| |lia].
      intros l d [-> ->]%Hone. change (d_slots _) with 1. lia.
    + exists 12. split; [lia|].
      destruct (bit b3 0 (12 + 1)) eqn:Hb; [|done].
      apply (dr_bits _ _ _ _ Hrep1) in Hb as [?|(l & d & [-> ->]%Hone & _ & Hc)]; [lia| |lia|lia].
      change (d_slots _) with 1 in Hc. lia.
  - exists b4, l1, l2, ch2. cbn [mbind option_bind]. split_and!; [done| |done].
    intros ->. by rewrite lookup_singleton_eq in Hfr.
Qed.

