(* ===== verification/FdirCorrect.v ===== *)
(** * Correctness of the directory operations

    The theorems on [Fdir]: the operations refine a finite map from names to
    fids, listing a directory delivers every entry once, the emptiness test,
    the search for space. *)

From S2P Require Import Prelude Buf Fdir FdirPage FdirRep.

(** ** Reading a directory *)

(** The entries of page [p] from slot [j] on, in order, and those of all
    pages. *)
Definition page_entries (ents : gmap loc dent) (p j : Z) : list dent :=
  omap (fun k => ents !! (p, k)) (seqZ j (63 - j)).
Definition dir_entries (ents : gmap loc dent) (P i : Z) : list dent :=
  mjoin ((fun p => page_entries ents p (if p =? 0 then 12 else 0)) <$> seqZ i (P - i)).

Lemma page_entries_skip ents p j j' :
  j <= j' <= 63 -> (forall k, j <= k < j' -> ents !! (p, k) = None) ->
  page_entries ents p j = page_entries ents p j'.
Proof.
  intros Hj Hnone. unfold page_entries.
  replace (63 - j) with ((j' - j) + (63 - j')) by lia. rewrite seqZ_app by lia.
  replace (j + (j' - j)) with j' by lia. rewrite omap_app.
  replace (omap _ (seqZ j (j' - j))) with (@nil dent); [done|].
  assert (H : Forall (fun k => ents !! (p, k) = None) (seqZ j (j' - j))).
  { apply Forall_forall. intros k Hk%elem_of_seqZ. apply Hnone. lia. }
  induction H as [|k ks Hk _ IH]; simpl; [done|]. by rewrite Hk.
Qed.

Lemma page_entries_cons ents p j d :
  0 <= j < 63 -> ents !! (p, j) = Some d ->
  page_entries ents p j = d :: page_entries ents p (j + 1).
Proof.
  intros Hj Hd. unfold page_entries. rewrite seqZ_cons by lia. simpl. rewrite Hd.
  do 2 f_equal. f_equal; lia.
Qed.

Section ReadPage.
Context (b : bytes) (P : Z) (ents : gmap loc dent) (chain : Z -> list loc).
Hypothesis (Hrep : dir_rep b P ents chain).
Context {A : Type} (func : VenusFid -> bytes -> A -> Z * A) (dir : VenusFid).

(** The callback applied to the entries until it answers something other than
    0. *)
Fixpoint visit (ds : list dent) (arg : A) : bool * A :=
  match ds with
  | [] => (false, arg)
  | d :: ds =>
      let '(ret, arg) := func (dent_fid dir d) (d_name d) arg in
      if ret =? 0 then visit ds arg else (true, arg)
  end.

Lemma visit_app ds ds' arg :
  visit (ds ++ ds') arg =
  let '(stop, arg) := visit ds arg in if stop then (true, arg) else visit ds' arg.
Proof.
  revert arg. induction ds as [|d ds IH]; intros arg; simpl; [done|].
  destruct (func _ _ _) as [ret arg']. by destruct (ret =? 0).
Qed.

Lemma rep_readdir_entry l d :
  ents !! l = Some d ->
  readdir_entry b dir (getpage l.1) (ent l) =
  Some (Some (dent_fid dir d, d_name d, d_slots d - 1)).
Proof using Hrep.
  intros Hl. destruct (rep_entry_bounds _ _ _ _ Hrep _ _ Hl) as (? & ? & ? & ? & ? & ?).
  destruct (dr_ok _ _ _ _ Hrep _ _ Hl) as [_ _ _ Hn]. pose proof (blen_nonneg (d_name d)).
  destruct (dr_entry _ _ _ _ Hrep _ _ Hl) as [Hf Hv Hu Ha]. unfold readdir_entry.
  rewrite rd8_in by alia. cbn [mbind option_bind]. rewrite Hf.
  change (Z.land AFSDIR_FIRST AFSDIR_FIRST =? 0) with false.
  change (Z.land AFSDIR_FIRST AFSDIR_UTFENT =? 0) with true. cbv iota.
  rewrite !rd32_in by alia. cbn [mbind option_bind].
  rewrite (rd_cstr_spec b (d_name d)) by (done || alia). cbn [mbind option_bind rd_cstr_opt].
  rewrite Hv, Hu. do 3 f_equal. unfold d_slots. rewrite <- additional_entries_plain. lia.
Qed.

(** Slot [j] of page [p] does not lie inside an entry. *)
Definition at_boundary (p j : Z) : Prop :=
  (p = 0 -> 12 <= j) /\ forall l d, ents !! l = Some d -> covers l d p j -> l = (p, j).

Lemma boundary_next p j d :
  0 <= j -> at_boundary p j -> ents !! (p, j) = Some d -> at_boundary p (j + d_slots d).
Proof using Hrep.
  intros Hj [H12 Hb] Hd. destruct (rep_entry_bounds _ _ _ _ Hrep _ _ Hd) as (_ & _ & Hs & _).
  split; [lia|]. intros l d' Hl [Hp Hc]. cbn [fst snd] in *.
  destruct (decide (l = (p, j))) as [->|Hne].
  - simplify_eq. cbn [snd] in Hc. lia.
  - destruct (rep_disjoint _ _ _ _ Hrep _ _ _ _ Hd Hl Hne) as [?|Hdis]; [by destruct l|].
    cbn [fst snd] in *. destruct (decide (l.2 < j + d_slots d)).
    + destruct Hne. apply (Hb l d' Hl). unfold covers. lia.
    + destruct l as [p' k]. cbn [fst snd] in *. f_equal; lia.
Qed.

Lemma boundary_free p j :
  0 <= p < P -> 0 <= j < 63 -> at_boundary p j -> bit b p (j + 1) = false ->
  ents !! (p, j) = None /\ at_boundary p (j + 1).
Proof using Hrep.
  intros Hp Hj [H12 Hb] Hbit.
  assert (Hnc : forall l d, ents !! l = Some d -> ~ covers l d p j).
  { intros l d Hl Hc. assert (bit b p (j + 1) = true); [|congruence].
    apply (dr_bits _ _ _ _ Hrep); [done|done|]. right. eauto. }
  split.
  - destruct (ents !! (p, j)) as [d|] eqn:Hd; [|done].
    destruct (rep_entry_bounds _ _ _ _ Hrep _ _ Hd) as (_ & _ & ? & _).
    destruct (Hnc _ _ Hd). split; [done|]. cbn [snd]. lia.
  - split; [lia|]. intros l d Hl [Hp1 Hc].
    destruct (decide (l.2 <= j)).
    + destruct (Hnc _ _ Hl). split; [done|lia].
    + destruct l as [p' k]. cbn [fst snd] in *. f_equal; lia.
Qed.

Lemma readdir_page_spec fuel p j arg :
  0 <= p < P -> 0 <= j <= 63 -> at_boundary p j -> (Z.to_nat (63 - j) < fuel)%nat ->
  exists j', readdir_page func fuel b dir (getpage p) j arg =
    let '(stop, arg) := visit (page_entries ents p j) arg in Some (stop, j', arg).
Proof using Hrep.
  intros Hp. revert j arg. induction fuel as [|fuel IH]; intros j arg Hj Hbd Hf; [lia|].
  simpl readdir_page. change (ENTRIESPERPAGE - 1) with 63.
  destruct (Z.ltb_spec j 63) as [Hlt|Hge]; cbn [negb].
  2:{ exists j. replace j with 63 by lia. done. }
  unfold first_slotp. rewrite used_slot_spec by (lia || by eapply rep_page_in).
  cbn [mbind option_bind]. destruct (bit b p (j + 1)) eqn:Hbit.
  - assert (exists d, ents !! (p, j) = Some d) as [d Hd].
    { apply (dr_bits _ _ _ _ Hrep) in Hbit as [[-> ?]|(l & d & Hl & Hc)];
        [destruct Hbd as [H12 _]; specialize (H12 eq_refl); lia| |done|lia].
      exists d. destruct Hbd as [_ Hb]. by rewrite <- (Hb l d Hl Hc). }
    change (pg_entry (getpage p) j) with (ent (p, j)).
    destruct (rep_entry_bounds _ _ _ _ Hrep _ _ Hd) as (? & ? & Hs & Hs2 & ? & _).
    cbn [fst snd] in *.
    rewrite rd8_in by alia. cbn [mbind option_bind].
    rewrite (ea_flag _ _ _ (dr_entry _ _ _ _ Hrep _ _ Hd)).
    change (negb (Z.land AFSDIR_FIRST AFSDIR_FIRST =? 0)) with true. cbn [negb].
    pose proof (rep_readdir_entry _ _ Hd) as Hre. cbn [fst] in Hre. rewrite Hre.
    cbn [mbind option_bind].
    rewrite (page_entries_cons ents p j d) by (done || lia).
    rewrite (page_entries_skip ents p (j + 1) (j + d_slots d)); [|lia|].
    2:{ intros k Hk. destruct (ents !! (p, k)) as [d'|] eqn:Hd'; [|done].
        destruct (rep_entry_bounds _ _ _ _ Hrep _ _ Hd') as (_ & _ & ? & _).
        assert ((p, j) = (p, k)) as [= <-]; [|lia].
        apply (dr_disj _ _ _ _ Hrep _ _ _ _ p k Hd Hd'); split; cbn [fst snd]; done || lia. }
    simpl visit. destruct (func _ _ _) as [ret arg'] eqn:Hfun.
    destruct (Z.ltb_spec ret 0); [exists j; by destruct (Z.eqb_spec ret 0); [lia|]|].
    destruct (Z.eqb_spec ret 0); cbn [negb]; [|by eexists].
    replace (j + (d_slots d - 1) + 1) with (j + d_slots d) by lia.
    apply IH; [lia|by apply boundary_next|lia].
  - cbn [negb]. destruct (boundary_free p j) as [Hnone Hnext]; [done|lia|done|done|].
    rewrite (page_entries_skip ents p j (j + 1)); [|lia|].
    + apply IH; [lia|done|lia].
    + intros k Hk. by replace k with j by lia.
Qed.
End ReadPage.

Section ReadDir.
Context (b : bytes) (P : Z) (ents : gmap loc dent) (chain : Z -> list loc).
Hypothesis (Hrep : dir_rep b P ents chain).

Lemma boundary_start p : at_boundary ents p (if p =? 0 then 12 else 0).
Proof using Hrep.
  split; [intros ->; done|]. intros l d Hl [Hp Hc].
  destruct (rep_entry_bounds _ _ _ _ Hrep _ _ Hl) as (_ & ? & ? & _).
  pose proof (do_header _ _ _ (dr_ok _ _ _ _ Hrep _ _ Hl)).
  destruct l as [p' k]. cbn [fst snd] in *. subst p'.
  destruct (Z.eqb_spec p 0); f_equal; lia.
Qed.

Lemma dir_entries_step i :
  0 <= i < P ->
  dir_entries ents P i =
  page_entries ents i (if i =? 0 then 12 else 0) ++ dir_entries ents P (i + 1).
Proof using.
  intros Hi. unfold dir_entries. rewrite (seqZ_cons i) by lia. simpl.
  do 3 f_equal. f_equal; lia.
Qed.

Context {A : Type} (func : VenusFid -> bytes -> A -> Z * A) (dir : VenusFid).

Lemma readdir_pages_spec fuel i arg :
  0 <= i <= P -> (Z.to_nat (P - i) < fuel)%nat ->
  exists i' j', readdir_pages func fuel b dir P i (if i =? 0 then 12 else 0) arg =
    Some (i', j', (visit func dir (dir_entries ents P i) arg).2).
Proof using Hrep.
  pose proof (dr_pages _ _ _ _ Hrep) as HP.
  revert i arg. induction fuel as [|fuel IH]; intros i arg Hi Hf; [lia|].
  cbn [readdir_pages]. destruct (Z.ltb_spec i P) as [Hlt|Hge]; cbn [negb].
  2:{ replace i with P by lia. unfold dir_entries. rewrite Z.sub_diag. by do 2 eexists. }
  rewrite dir_entries_step, visit_app by lia.
  destruct (readdir_page_spec _ _ _ _ Hrep func dir 64 i (if i =? 0 then 12 else 0) arg)
    as (j' & ->); [lia|case_match; lia|apply boundary_start|case_match; lia|].
  destruct (visit _ _ (page_entries _ _ _) _) as [stop arg1].
  cbn [mbind option_bind]. destruct stop; [by do 2 eexists|].
  destruct (IH (i + 1) arg1) as (i' & j'' & Hr); [lia|lia|].
  destruct (Z.eqb_spec (i + 1) 0); [lia|]. rewrite Hr. by do 2 eexists.
Qed.

Lemma fdir_readdir_spec arg :
  fdir_readdir func b arg dir None = Some (0, (visit func dir (dir_entries ents P 0) arg).2, None).
Proof using Hrep.
  pose proof (dr_pages _ _ _ _ Hrep) as HP.
  unfold fdir_readdir. rewrite (rep_npages _ _ _ _ Hrep). cbn [mbind option_bind].
  change (default 0 (@None Z)) with 0. cbn [negb Z.eqb andb].
  destruct (readdir_pages_spec (S (Z.to_nat P)) 0 arg) as (i' & j' & Hr); [lia|lia|].
  change (if 0 =? 0 then 12 else 0) with 12 in Hr. rewrite Hr. done.
Qed.

Lemma elem_of_dir_entries d : d ∈ dir_entries ents P 0 <-> exists l, ents !! l = Some d.
Proof using Hrep.
  unfold dir_entries. rewrite list_elem_of_join. split.
  - intros (ds & Hd & Hds). apply list_elem_of_fmap_1 in Hds as (p & -> & _).
    unfold page_entries in Hd. apply list_elem_of_omap in Hd as (k & _ & Hk). by exists (p, k).
  - intros [l Hl]. destruct (rep_entry_bounds _ _ _ _ Hrep _ _ Hl) as (? & ? & ? & ? & _).
    pose proof (do_header _ _ _ (dr_ok _ _ _ _ Hrep _ _ Hl)).
    eexists. split; [|apply list_elem_of_fmap_2, (elem_of_seqZ _ _ l.1); lia].
    unfold page_entries. apply list_elem_of_omap. exists l.2. split; [|by destruct l].
    apply elem_of_seqZ. destruct (Z.eqb_spec l.1 0); lia.
Qed.

Lemma NoDup_page_entries p j :
  NoDup (d_name <$> page_entries ents p j).
Proof using Hrep.
  unfold page_entries. pose proof (NoDup_seqZ j (63 - j)) as Hnd.
  induction Hnd as [|k ks Hk Hnd IH]; simpl; [constructor|].
  destruct (ents !! (p, k)) as [d|] eqn:Hd; [|done]. simpl. constructor; [|done].
  intros (d' & Hn & Hd')%list_elem_of_fmap_1. apply list_elem_of_omap in Hd' as (k' & Hk' & Hd').
  assert ((p, k) = (p, k')) as [= <-] by (by eapply (dr_names _ _ _ _ Hrep)). done.
Qed.

Lemma NoDup_dir_entries i : NoDup (d_name <$> dir_entries ents P i).
Proof using Hrep.
  unfold dir_entries. pose proof (NoDup_seqZ i (P - i)) as Hnd.
  induction Hnd as [|p ps Hp Hnd IH]; [constructor|]. cbn [fmap list_fmap mjoin list_join].
  rewrite fmap_app. apply NoDup_app. split_and!; [apply NoDup_page_entries| |done].
  intros n (d & -> & Hd)%list_elem_of_fmap_1 (d' & Hn & Hd')%list_elem_of_fmap_1.
  apply list_elem_of_omap in Hd as (k & _ & Hd).
  apply list_elem_of_join in Hd' as (ds & Hd' & (p' & -> & Hp')%list_elem_of_fmap_1).
  apply list_elem_of_omap in Hd' as (k' & _ & Hd').
  assert ((p, k) = (p', k')) as [= <- _] by (by eapply (dr_names _ _ _ _ Hrep)). done.
Qed.
End ReadDir.

Lemma rep_dirp b P ents chain : dir_rep b P ents chain -> fdir_dirp b = Some true.
Proof.
  intros Hrep. pose proof (dr_pages _ _ _ _ Hrep) as HP. pose proof (dr_len _ _ _ _ Hrep) as Hl.
  unfold fdir_dirp. destruct (Z.ltb_spec (blen b) AFSDIR_PAGESIZE); [alia|].
  rewrite (rep_npages _ _ _ _ Hrep). cbn [mbind option_bind].
  assert (Hloop : forall fuel num, 0 <= num -> (Z.to_nat (P - num) < fuel)%nat ->
    dirp_loop fuel b P num = Some true).
  { induction fuel as [|fuel IH]; intros num Hnum Hf; [lia|]. simpl.
    destruct (Z.ltb_spec num P); [|done]. cbn [negb].
    rewrite (rep_tag_ok _ _ _ _ Hrep) by lia. cbn [mbind option_bind negb]. apply IH; lia. }
  apply Hloop; lia.
Qed.

(** ** Empty directories *)

Lemma cnt_filter g l :
  cnt g l + Z.of_nat (length (filter (fun k => g k = false) l)) = Z.of_nat (length l).
Proof.
  induction l as [|k l IH]; [done|]. rewrite filter_cons. simpl cnt.
  destruct (g k) eqn:Hk; case_decide; try done; simpl length; lia.
Qed.

(** Distinct used slots bound the count from above, all of them from below. *)
Lemma cnt_used_le g l used :
  NoDup used -> (forall k, k ∈ used -> k ∈ l /\ g k = false) ->
  cnt g l <= Z.of_nat (length l) - Z.of_nat (length used).
Proof.
  intros Hnd Hu. pose proof (cnt_filter g l).
  assert (used ⊆+ filter (fun k => g k = false) l) as Hs%submseteq_length; [|lia].
  apply NoDup_submseteq; [done|]. intros k Hk. apply list_elem_of_filter.
  destruct (Hu k Hk). done.
Qed.

Lemma cnt_used_ge g l used :
  NoDup l -> (forall k, k ∈ l -> g k = false -> k ∈ used) ->
  Z.of_nat (length l) - Z.of_nat (length used) <= cnt g l.
Proof.
  intros Hnd Hu. pose proof (cnt_filter g l).
  assert (filter (fun k => g k = false) l ⊆+ used) as Hs%submseteq_length; [|lia].
  apply NoDup_submseteq; [by apply NoDup_filter|].
  intros k [Hg Hk]%list_elem_of_filter. by apply Hu.
Qed.

Section Emptyp.
Context (b : bytes) (P : Z) (ents : gmap loc dent) (chain : Z -> list loc).
Hypothesis (Hrep : dir_rep b P ents chain).
Context (l1 l2 : loc) (d1 d2 : dent).
Hypothesis (Hl1 : ents !! l1 = Some d1) (Hl2 : ents !! l2 = Some d2).
Hypothesis (Hn1 : d_name d1 = dot_name) (Hn2 : d_name d2 = dot_dot_name).

Lemma emptyp_value : fdir_emptyp b = Some ((P =? 1) && (free_slots b 0 =? 49)).
Proof using Hrep.
  pose proof (dr_pages _ _ _ _ Hrep) as HP. pose proof (dr_len _ _ _ _ Hrep) as Hlen.
  unfold fdir_emptyp. rewrite (rep_npages _ _ _ _ Hrep). cbn [mbind option_bind].
  destruct (P =? 1); [|done]. rewrite rd8_in by alia. cbn [mbind option_bind].
  by rewrite (dr_map _ _ _ _ Hrep) by lia.
Qed.

Lemma dots_distinct : l1 <> l2.
Proof using Hl1 Hl2 Hn1 Hn2. intros ->. simplify_eq. by rewrite Hn1 in Hn2. Qed.

Lemma used_slot_bit l d :
  ents !! l = Some d -> l.1 = 0 -> l.2 ∈ seqZ 0 63 /\ negb (bit b 0 (l.2 + 1)) = false.
Proof using Hrep.
  intros Hl H0. destruct (rep_entry_bounds _ _ _ _ Hrep _ _ Hl) as (? & ? & ? & ? & _).
  split; [apply elem_of_seqZ; lia|]. apply negb_false_iff.
  apply (dr_bits _ _ _ _ Hrep); [lia|lia|]. right. exists l, d. split; [done|].
  unfold covers. lia.
Qed.

Lemma header_slot_bit k : k ∈ seqZ 0 12 -> k ∈ seqZ 0 63 /\ negb (bit b 0 (k + 1)) = false.
Proof using Hrep.
  intros Hk%elem_of_seqZ. pose proof (dr_pages _ _ _ _ Hrep).
  split; [apply elem_of_seqZ; lia|]. apply negb_false_iff.
  apply (dr_bits _ _ _ _ Hrep); [lia|lia|]. left. lia.
Qed.

(** When the directory counts as empty there is no third entry. *)
Lemma emptyp_sound l d :
  fdir_emptyp b = Some true -> ents !! l = Some d -> l = l1 \/ l = l2.
Proof using Hrep Hl1 Hl2 Hn1 Hn2.
  rewrite emptyp_value. intros [= [HP Hf]%andb_prop] Hl. zbool.
  destruct (decide (l = l1)) as [|Hne1]; [by left|].
  destruct (decide (l = l2)) as [|Hne2]; [by right|]. exfalso. pose proof dots_distinct as Hd12.
  assert (Hpage : forall x dx, ents !! x = Some dx -> x.1 = 0 /\ 12 <= x.2).
  { intros x dx Hx. destruct (dr_ok _ _ _ _ Hrep _ _ Hx) as [? _ Hh _].
    assert (x.1 = 0) as H0 by lia. split; [done|by apply Hh]. }
  destruct (Hpage _ _ Hl1) as [P1 S1], (Hpage _ _ Hl2) as [P2 S2], (Hpage _ _ Hl) as [P3 S3].
  assert (free_slots b 0 <= 63 - 15); [|lia].
  apply (cnt_used_le _ (seqZ 0 63) (seqZ 0 12 ++ [l1.2; l2.2; l.2])).
  - apply NoDup_app. split_and!; [apply NoDup_seqZ| |].
    + intros k Hk%elem_of_seqZ. rewrite !elem_of_cons, elem_of_nil. lia.
    + destruct l, l1, l2. cbn [fst snd] in *.
      repeat constructor; rewrite ?elem_of_cons, ?elem_of_nil; naive_solver congruence.
  - intros k [Hk|Hk]%elem_of_app; [by apply header_slot_bit|].
    rewrite !elem_of_cons, elem_of_nil in Hk.
    destruct Hk as [->|[->|[->|[]]]]; by eapply used_slot_bit.
Qed.

(** One page with these two entries only counts as empty. *)
Lemma emptyp_complete :
  P = 1 -> (forall l d, ents !! l = Some d -> l = l1 \/ l = l2) -> fdir_emptyp b = Some true.
Proof using Hrep Hl1 Hl2 Hn1 Hn2.
  intros HP Honly. rewrite emptyp_value, HP. simpl. do 2 f_equal. apply Z.eqb_eq.
  pose proof dots_distinct as Hd12.
  assert (Hpage : forall x dx, ents !! x = Some dx -> x.1 = 0 /\ 12 <= x.2).
  { intros x dx Hx. destruct (dr_ok _ _ _ _ Hrep _ _ Hx) as [? _ Hh _].
    assert (x.1 = 0) as H0 by lia. split; [done|by apply Hh]. }
  destruct (Hpage _ _ Hl1) as [P1 S1], (Hpage _ _ Hl2) as [P2 S2].
  assert (d_slots d1 = 1 /\ d_slots d2 = 1) as [Hs1 Hs2]
    by (unfold d_slots; rewrite Hn1, Hn2; done).
  apply Z.le_antisymm.
  - apply (cnt_used_le _ (seqZ 0 63) (seqZ 0 12 ++ [l1.2; l2.2])).
    + apply NoDup_app. split_and!; [apply NoDup_seqZ| |].
      * intros k Hk%elem_of_seqZ. rewrite !elem_of_cons, elem_of_nil. lia.
      * destruct l1, l2. cbn [fst snd] in *.
        repeat constructor; rewrite ?elem_of_cons, ?elem_of_nil; naive_solver congruence.
    + intros k [Hk|Hk]%elem_of_app; [by apply header_slot_bit|].
      rewrite !elem_of_cons, elem_of_nil in Hk.
      destruct Hk as [->|[->|[]]]; by eapply used_slot_bit.
  - apply (cnt_used_ge _ (seqZ 0 63) (seqZ 0 12 ++ [l1.2; l2.2])); [apply NoDup_seqZ|].
    intros k Hk%elem_of_seqZ Hb%negb_false_iff.
    apply (dr_bits _ _ _ _ Hrep) in Hb as [[_ ?]|(l & d & Hl & _ & Hc)]; [| |lia|lia].
    + apply elem_of_app. left. apply elem_of_seqZ. lia.
    + apply elem_of_app. right. rewrite !elem_of_cons.
      destruct (Honly _ _ Hl) as [->| ->]; simplify_eq; lia.
Qed.
End Emptyp.

(** ** The abstract directory *)

(** Names the server accepts: C strings of at most 255 bytes. *)
Definition name_ok (name : bytes) : Prop := is_cstr name /\ blen name <= 255.

Lemma name_ok_slots name : blen name <= 255 -> nslots name <= 63.
Proof. intros. unfold nslots. Z.to_euclidean_division_equations. lia. Qed.

(** A directory as its clients see it: the vnode and uniquifier of a name. *)
Abbreviation absdir := (gmap bytes (Z * Z)).

Definition view (ents : gmap loc dent) (m : absdir) : Prop :=
  forall n v u, m !! n = Some (v, u) <->
    exists l, ents !! l = Some {| d_name := n; d_vnode := v; d_unique := u |}.

Inductive dir_op :=
  | OpLookup (name : bytes)
  | OpCreat (name : bytes) (f : AFSFid)
  | OpRemove (name : bytes)
  | OpChangeFid (name : bytes) (f : VenusFid).

(** The answer to an operation: its status and the fid it delivers. *)
Abbreviation dir_out := (Z * option (Z * Z))%type.

Definition abs_step (m : absdir) (op : dir_op) : dir_out * absdir :=
  match op with
  | OpLookup name =>
      match m !! name with Some f => ((0, Some f), m) | None => ((ENOENT, None), m) end
  | OpCreat name f =>
      match m !! name with
      | Some _ => ((EEXIST, None), m)
      | None => ((0, None), <[name := (uwrap32 (Vnode f), uwrap32 (Unique f))]> m)
      end
  | OpRemove name =>
      match m !! name with
      | Some f => ((0, Some f), delete name m)
      | None => ((ENOENT, None), m)
      end
  | OpChangeFid name f =>
      match m !! name with
      | Some _ => ((0, None), <[name := (uwrap32 (Vnode (fid f)), uwrap32 (Unique (fid f)))]> m)
      | None => ((ENOENT, None), m)
      end
  end.

Definition dir_step (te : Z -> option Z) (dir : VenusFid) (b : bytes) (op : dir_op)
  : option (dir_out * bytes) :=
  match op with
  | OpLookup name =>
      r ← fdir_lookup b dir name;
      Some (match r with
            | inr f => ((0, Some (Vnode (fid f), Unique (fid f))), b)
            | inl e => ((e, None), b)
            end)
  | OpCreat name f => '(s, b) ← fdir_creat te b name None f; Some ((s, None), b)
  | OpRemove name => '(s, r, b) ← fdir_remove te b name; Some ((s, r), b)
  | OpChangeFid name f => '(s, b) ← fdir_changefid b name f; Some ((s, None), b)
  end.

Fixpoint abs_run (m : absdir) (ops : list dir_op) : list dir_out * absdir :=
  match ops with
  | [] => ([], m)
  | op :: ops =>
      let '(o, m) := abs_step m op in let '(os, m) := abs_run m ops in (o :: os, m)
  end.

Fixpoint dir_run (te : Z -> option Z) (dir : VenusFid) (b : bytes) (ops : list dir_op)
  : option (list dir_out * bytes) :=
  match ops with
  | [] => Some ([], b)
  | op :: ops =>
      '(o, b) ← dir_step te dir b op; '(os, b) ← dir_run te dir b ops; Some (o :: os, b)
  end.

Definition op_name (op : dir_op) : bytes :=
  match op with
  | OpLookup n | OpCreat n _ | OpRemove n | OpChangeFid n _ => n
  end.

Section View.
Context (b : bytes) (P : Z) (ents : gmap loc dent) (chain : Z -> list loc) (m : absdir).
Hypothesis (Hrep : dir_rep b P ents chain) (Hview : view ents m).

Lemma view_found l d : ents !! l = Some d -> m !! d_name d = Some (d_vnode d, d_unique d).
Proof using Hview. intros Hl. apply Hview. exists l. by destruct d. Qed.

Lemma view_none name : no_name ents name -> m !! name = None.
Proof using Hview.
  intros Hno. destruct (m !! name) as [[v u]|] eqn:Hm; [|done].
  apply Hview in Hm as [l Hl]. by destruct (Hno _ _ Hl).
Qed.

Lemma view_no_name name : m !! name = None -> no_name ents name.
Proof using Hview. intros Hm l d Hl Hd. apply view_found in Hl. congruence. Qed.

Lemma view_add l name f :
  ents !! l = None -> no_name ents name ->
  view (<[l := new_dent name f]> ents) (<[name := (uwrap32 (Vnode f), uwrap32 (Unique f))]> m).
Proof using Hview.
  intros Hl Hno n v u. rewrite lookup_insert_Some. split.
  - intros [[<- [= <- <-]]|[Hne Hm]].
    + exists l. by rewrite lookup_insert_eq.
    + apply Hview in Hm as [l' Hl']. exists l'. rewrite lookup_insert_ne; [done|congruence].
  - intros [l' [[<- Hd]|[Hne Hl']]%lookup_insert_Some].
    + left. unfold new_dent in Hd. by simplify_eq.
    + right. split; [|by apply Hview; exists l']. intros ->. by destruct (Hno _ _ Hl').
Qed.

Lemma view_delete l d : ents !! l = Some d -> view (delete l ents) (delete (d_name d) m).
Proof using Hrep Hview.
  intros Hl n v u. rewrite lookup_delete_Some, (Hview n v u). split.
  - intros [Hne [l' Hl']]. exists l'. rewrite lookup_delete_ne; [done|].
    intros ->. by simplify_eq.
  - intros [l' [Hne Hl']%lookup_delete_Some]. split; [|by eexists].
    intros Hn. apply Hne. by eapply (dr_names _ _ _ _ Hrep).
Qed.

Lemma view_change l d f :
  ents !! l = Some d ->
  view (<[l := new_dent (d_name d) f]> ents)
    (<[d_name d := (uwrap32 (Vnode f), uwrap32 (Unique f))]> m).
Proof using Hrep Hview.
  intros Hl n v u. rewrite lookup_insert_Some. split.
  - intros [[<- [= <- <-]]|[Hne Hm]].
    + exists l. by rewrite lookup_insert_eq.
    + apply Hview in Hm as [l' Hl']. exists l'. rewrite lookup_insert_ne; [done|].
      intros ->. by simplify_eq.
  - intros [l' [[<- Hd]|[Hne Hl']]%lookup_insert_Some].
    + left. unfold new_dent in Hd. by simplify_eq.
    + right. split; [|by apply Hview; exists l']. intros Hn. apply Hne.
      by eapply (dr_names _ _ _ _ Hrep).
Qed.

(** One operation, when the file can be resized. *)
Lemma dir_step_refines te dir op :
  (forall len, te len = Some 0) -> name_ok (op_name op) -> P < 1023 ->
  exists b' P' ents' chain', dir_step te dir b op = Some ((abs_step m op).1, b') /\
    P' <= P + 1 /\ dir_rep b' P' ents' chain' /\ view ents' (abs_step m op).2.
Proof using Hrep Hview.
  intros Hte [Hc Hlen] HP. pose proof (name_ok_slots _ Hlen) as Hn. destruct op as [n|n f|n|n f];
    cbn [op_name] in *; cbn [dir_step abs_step].
  - destruct (fdir_lookup_spec _ _ _ _ Hrep dir n Hc) as [(l & d & Hl & <- & ->)|[Hno ->]].
    + rewrite (view_found _ _ Hl). exists b, P, ents, chain. split_and!; try done. lia.
    + rewrite (view_none _ Hno). exists b, P, ents, chain. split_and!; try done. lia.
  - destruct (m !! n) as [[v u]|] eqn:Hm.
    + exists b, P, ents, chain. split_and!; try done; [|lia].
      unfold fdir_creat. pose proof (dr_len _ _ _ _ Hrep). pose proof (dr_pages _ _ _ _ Hrep).
      destruct (Z.eqb_spec (blen b) 0); [lia|]. rewrite (rep_npages _ _ _ _ Hrep).
      cbn [mbind option_bind].
      destruct (find_entry_spec _ _ _ _ Hrep n Hc) as [(l & d & _ & _ & ->)|[Hno _]]; [done|].
      rewrite (view_none _ Hno) in Hm. done.
    + destruct (fdir_creat_spec te _ _ _ _ n f Hrep Hc Hn) as
        [(b' & P' & -> & HP' & l & chain' & Hl & Hr')|[(e & Hf & He & _)|[Hf _]]];
        [by apply view_no_name|done| |by rewrite Hte in Hf; congruence|by rewrite Hte in Hf].
      eexists b', P', _, chain'. split_and!; [done|lia|done|].
      apply view_add; [done|by apply view_no_name].
  - destruct (fdir_remove_spec te _ _ _ _ n Hrep Hc) as
      [(l & d & b' & P' & chain' & Hl & <- & -> & HP' & Hr')|[(_ & P' & _ & Hf)|[Hno ->]]].
    + rewrite (view_found _ _ Hl). eexists b', P', _, chain'. split_and!; [done|lia|done|].
      by apply view_delete.
    + by rewrite Hte in Hf.
    + rewrite (view_none _ Hno). exists b, P, ents, chain. split_and!; try done. lia.
  - destruct (fdir_changefid_spec _ _ _ _ n f Hrep Hc) as
      [(l & d & b' & Hl & <- & -> & Hr')|[Hno ->]].
    + rewrite (view_found _ _ Hl). eexists b', P, _, chain. split_and!; [done|lia|done|].
      by apply view_change.
    + rewrite (view_none _ Hno). exists b, P, ents, chain. split_and!; try done. lia.
Qed.
End View.

Lemma dir_run_refines te dir ops b P ents chain m :
  (forall len, te len = Some 0) -> Forall (fun op => name_ok (op_name op)) ops ->
  P + Z.of_nat (length ops) <= 1023 -> dir_rep b P ents chain -> view ents m ->
  exists b', dir_run te dir b ops = Some ((abs_run m ops).1, b') /\ dir_ok b'.
Proof.
  intros Hte Hops. revert b P ents chain m.
  induction Hops as [|op ops Hop Hops IH]; intros b P ents chain m HP Hrep Hview.
  - exists b. split; [done|]. by exists P, ents, chain.
  - simpl length in HP.
    destruct (dir_step_refines _ _ _ _ _ Hrep Hview te dir op) as
      (b1 & P1 & ents1 & chain1 & Hstep & HP1 & Hrep1 & Hview1); [done|done|lia|].
    destruct (IH b1 P1 ents1 chain1 (abs_step m op).2) as (b2 & Hrun & Hok); [lia|done|done|].
    exists b2. split; [|done]. cbn [dir_run abs_run]. rewrite Hstep. cbn [mbind option_bind].
    rewrite Hrun. cbn [mbind option_bind]. destruct (abs_step m op) as [o m1].
    cbn [fst snd] in *. by destruct (abs_run m1 ops).
Qed.

(** ** The theorems *)

(** The contents of a new directory. *)
Definition fresh_abs (dot dot_dot : AFSFid) : absdir :=
  <[dot_dot_name := (uwrap32 (Vnode dot_dot), uwrap32 (Unique dot_dot))]>
    {[dot_name := (uwrap32 (Vnode dot), uwrap32 (Unique dot))]}.

Lemma view_fresh dot dot_dot l1 l2 :
  l1 <> l2 ->
  view (<[l2 := new_dent dot_dot_name dot_dot]> {[l1 := new_dent dot_name dot]})
    (fresh_abs dot dot_dot).
Proof.
  intros Hne.
  assert (Hv0 : view ∅ ∅).
  { intros n v u. rewrite lookup_empty. split; [done|]. intros [l Hl]. by rewrite lookup_empty in Hl. }
  assert (Hv1 : view {[l1 := new_dent dot_name dot]}
    {[dot_name := (uwrap32 (Vnode dot), uwrap32 (Unique dot))]}).
  { rewrite <- !insert_empty. apply (view_add _ _ Hv0); [apply lookup_empty|].
    intros l d. by rewrite lookup_empty. }
  apply (view_add _ _ Hv1).
  - by rewrite lookup_singleton_ne.
  - intros l d [<- <-]%lookup_singleton_Some. done.
Qed.

(** C16: refinement.  A directory made by [fdir_mkdir] and worked on with any
    sequence of up to 1022 lookups, creations, removals and fid changes (with
    names of at most 255 bytes, the file growing and shrinking as asked)
    answers like a finite map from names to fids that starts with [.] and
    [..].  In particular no operation leaves the buffer, fails an assertion or
    loops, and the directory stays well-formed.  ([te]: every change of the
    file's size succeeds.) *)
Theorem fdir_refines te dir dot dot_dot ops :
  (forall len, te len = Some 0) -> Forall (fun op => name_ok (op_name op)) ops ->
  (length ops <= 1022)%nat ->
  exists b0 b, fdir_mkdir te [] dot dot_dot false = Some (0, b0) /\
    dir_run te dir b0 ops = Some ((abs_run (fresh_abs dot dot_dot) ops).1, b) /\ dir_ok b.
Proof.
  intros Hte Hops Hlen.
  destruct (fdir_mkdir_spec te dot dot_dot (Hte _)) as (b0 & l1 & l2 & chain & Hm & Hne & Hrep).
  pose proof (view_fresh dot dot_dot l1 l2 Hne) as Hview.
  destruct (dir_run_refines te dir ops b0 1 _ chain _ Hte Hops ltac:(lia) Hrep Hview)
    as (b & Hr & Hok).
  by exists b0, b.
Qed.

(** creation.  In a well-formed directory that lacks [name] and has not
    reached its maximal size, [fdir_creat] either adds the entry, leaving
    every other name as it was, or reports why the file could not grow, which
    is then as before; it has no result when the file has grown and cannot be
    mapped again. *)
Theorem fdir_creat_correct te dir b name f :
  dir_ok b -> name_ok name -> blen b < 2048 * 1023 ->
  fdir_lookup b dir name = Some (inl ENOENT) ->
  (exists b', fdir_creat te b name None f = Some (0, b') /\ dir_ok b' /\
     fdir_lookup b' dir name = Some (inr (dent_fid dir (new_dent name f))) /\
     forall n, is_cstr n -> n <> name -> fdir_lookup b' dir n = fdir_lookup b dir n) \/
  (exists e, e <> 0 /\ te (blen b + AFSDIR_PAGESIZE) = Some e /\
     fdir_creat te b name None f = Some (e, b)) \/
  (te (blen b + AFSDIR_PAGESIZE) = None /\ fdir_creat te b name None f = None).
Proof.
  intros (P & ents & chain & Hrep) [Hc Hlen] Hsize Hlook.
  destruct (fdir_lookup_spec _ _ _ _ Hrep dir name Hc) as [(l & d & _ & _ & Hl)|[Hno _]];
    [rewrite Hl in Hlook; done|].
  pose proof (dr_len _ _ _ _ Hrep).
  destruct (fdir_creat_spec te _ _ _ _ name f Hrep Hc (name_ok_slots _ Hlen) Hno)
    as [(b' & P' & Hr & _ & l & chain' & Hfr & Hrep')|[(e & Hte & He & Hr)|Hte]];
    [lia| |right; left; eauto|by right; right].
  left. exists b'. split_and!; [done|by eexists _, _, _| |].
  - apply (fdir_lookup_found _ _ _ _ Hrep' dir l (new_dent name f)). apply lookup_insert_eq.
  - intros n Hn Hne. eapply fdir_lookup_ext; [done|done|done|]. intros l' d' Hd'.
    rewrite lookup_insert_Some. split; [|].
    + intros [[_ <-]|[_ ?]]; [by destruct Hne|done].
    + intros Hl'. right. split; [|done]. intros ->. congruence.
Qed.

(** removal.  Removing a name of a well-formed directory answers its fid;
    afterwards the name is unknown, all others are as before, the directory is
    well-formed and not longer, whether or not the file could be shortened.
    There is no result when it was shortened and cannot be mapped again. *)
Theorem fdir_remove_correct te dir b name f :
  dir_ok b -> is_cstr name -> fdir_lookup b dir name = Some (inr f) ->
  (exists b', fdir_remove te b name = Some (0, Some (Vnode (fid f), Unique (fid f)), b') /\
    dir_ok b' /\ blen b' <= blen b /\ fdir_lookup b' dir name = Some (inl ENOENT) /\
    forall n, is_cstr n -> n <> name -> fdir_lookup b' dir n = fdir_lookup b dir n) \/
  (fdir_remove te b name = None /\ exists len, len < blen b /\ te len = None).
Proof.
  intros (P & ents & chain & Hrep) Hc Hlook.
  destruct (fdir_remove_spec te _ _ _ _ name Hrep Hc)
    as [(l & d & b' & P' & chain' & Hl & Hd & Hr & HP' & Hrep')|[(Hr & P' & HP' & Hte)|[Hno _]]].
  2:{ right. pose proof (dr_len _ _ _ _ Hrep). split; [done|]. exists (2048 * P'). split; [lia|done]. }
  2:{ rewrite (fdir_lookup_none _ _ _ _ Hrep dir name Hc Hno) in Hlook. done. }
  pose proof (fdir_lookup_found _ _ _ _ Hrep dir l d Hl) as Hf. rewrite Hd, Hlook in Hf.
  injection Hf as ->. left. exists b'. pose proof (dr_len _ _ _ _ Hrep).
  pose proof (dr_len _ _ _ _ Hrep'). split_and!; [done|by eexists _, _, _|lia| |].
  - apply (fdir_lookup_none _ _ _ _ Hrep' dir name Hc).
    intros l' d' [Hne Hl']%lookup_delete_Some Hd'. apply Hne.
    eapply (dr_names _ _ _ _ Hrep); [done..|congruence].
  - intros n Hn Hne. eapply fdir_lookup_ext; [done|done|done|]. intros l' d' Hd'.
    rewrite lookup_delete_Some. split; [tauto|]. intros Hl'. split; [|done]. intros ->.
    by simplify_eq.
Qed.

(** The callback that collects what it is given. *)
Definition collect (f : VenusFid) (name : bytes) (acc : list (VenusFid * bytes))
  : Z * list (VenusFid * bytes) := (0, acc ++ [(f, name)]).

Lemma visit_collect dir ds acc :
  visit collect dir ds acc = (false, acc ++ ((fun d => (dent_fid dir d, d_name d)) <$> ds)).
Proof.
  revert acc. induction ds as [|d ds IH]; intros acc; simpl; [by rewrite app_nil_r|].
  rewrite IH. by rewrite <- app_assoc.
Qed.

(** C36: listing.  [fdir_readdir] on a well-formed directory delivers every
    entry exactly once: no name twice, and a name with a fid exactly when
    looking the name up gives the fid. *)
Theorem fdir_readdir_complete dir b :
  dir_ok b ->
  exists es, fdir_readdir collect b [] dir None = Some (0, es, None) /\ NoDup es.*2 /\
    forall f n, (f, n) ∈ es <-> is_cstr n /\ fdir_lookup b dir n = Some (inr f).
Proof.
  intros (P & ents & chain & Hrep).
  rewrite (fdir_readdir_spec _ _ _ _ Hrep), visit_collect. eexists. split; [done|].
  cbn [snd app]. split.
  - rewrite <- list_fmap_compose. eapply (NoDup_dir_entries _ _ _ _ Hrep).
  - intros f n. rewrite list_elem_of_fmap. setoid_rewrite (elem_of_dir_entries _ _ _ _ Hrep).
    split.
    + intros (d & [= -> ->] & l & Hl).
      split; [apply (dr_ok _ _ _ _ Hrep _ _ Hl)|by eapply fdir_lookup_found].
    + intros [Hc Hf].
      destruct (fdir_lookup_spec _ _ _ _ Hrep dir n Hc) as [(l & d & Hl & <- & Hd)|[_ Hd]];
        rewrite Hf in Hd; [|done]. injection Hd as ->. eauto.
Qed.

(** emptiness.  When [fdir_emptyp] holds of a well-formed directory with
    [.] and [..], no other name is in it; a directory of one page with nothing
    else in it is recognised as empty. *)
Theorem fdir_emptyp_correct dir b f1 f2 :
  dir_ok b -> fdir_lookup b dir dot_name = Some (inr f1) ->
  fdir_lookup b dir dot_dot_name = Some (inr f2) ->
  let others := forall n, is_cstr n -> n <> dot_name -> n <> dot_dot_name ->
                  fdir_lookup b dir n = Some (inl ENOENT) in
  (fdir_emptyp b = Some true -> others) /\
  (others -> blen b = AFSDIR_PAGESIZE -> fdir_emptyp b = Some true).
Proof.
  intros (P & ents & chain & Hrep) Hd1 Hd2 others.
  assert (Hc1 : is_cstr dot_name) by (repeat constructor; lia).
  assert (Hc2 : is_cstr dot_dot_name) by (repeat constructor; lia).
  destruct (fdir_lookup_spec _ _ _ _ Hrep dir _ Hc1) as [(l1 & d1 & Hl1 & Hn1 & _)|[_ He]];
    [|rewrite He in Hd1; done].
  destruct (fdir_lookup_spec _ _ _ _ Hrep dir _ Hc2) as [(l2 & d2 & Hl2 & Hn2 & _)|[_ He]];
    [|rewrite He in Hd2; done].
  split.
  - intros Hem n Hc Hne1 Hne2. apply (fdir_lookup_none _ _ _ _ Hrep dir n Hc).
    intros l d Hl Hd.
    destruct (emptyp_sound _ _ _ _ Hrep l1 l2 d1 d2 Hl1 Hl2 Hn1 Hn2 l d Hem Hl) as [->| ->];
      simplify_eq.
  - intros Ho Hlen. apply (emptyp_complete _ _ _ _ Hrep l1 l2 d1 d2 Hl1 Hl2 Hn1 Hn2).
    + pose proof (dr_len _ _ _ _ Hrep). alia.
    + intros l d Hl. pose proof (do_name _ _ _ (dr_ok _ _ _ _ Hrep _ _ Hl)) as Hc.
      pose proof (fdir_lookup_found _ _ _ _ Hrep dir l d Hl) as Hf.
      destruct (decide (d_name d = dot_name)) as [Hn|Hne1].
      { left. eapply (dr_names _ _ _ _ Hrep); [done..|congruence]. }
      destruct (decide (d_name d = dot_dot_name)) as [Hn|Hne2].
      { right. eapply (dr_names _ _ _ _ Hrep); [done..|congruence]. }
      rewrite Ho in Hf; done.
Qed.

Lemma add_to_page_search b page p name f next s b' :
  add_to_page b page p name None f next = Some (s, b') -> 0 <= s ->
  search_page (S (Z.to_nat (uwrap32 (ENTRIESPERPAGE - nslots name)))) b page (nslots name) 0 =
  Some (Some s).
Proof.
  unfold add_to_page. rewrite additional_entries_plain. intros Hr Hs. revert Hr.
  destruct (if p <? MAXPAGES then _ else _) as [[|]|]; cbn [mbind option_bind]; try done.
  { intros [= <- _]. lia. }
  destruct (search_page _ _ _ _ _) as [[i|]|]; cbn [mbind option_bind]; try done.
  - intros (b1 & _ & (b2 & _ & (b3 & _ & [= <- _])%bind_Some)%bind_Some)%bind_Some. done.
  - intros [= <- _]. lia.
Qed.

(** allocation.  [add_to_page] on a page of a well-formed directory is
    first fit: it uses the lowest slot from which enough slots are free (the
    skips of its loop lose none) and gives up exactly when there is none (the
    test of the free count refuses no page that has room). *)
Theorem fdir_add_first_fit b p name f next :
  dir_ok b -> 0 <= p < blen b / AFSDIR_PAGESIZE -> name_ok name ->
  (exists s b', add_to_page b (getpage p) p name None f next = Some (s, b') /\ 0 <= s /\
     first_fit b p (nslots name) 0 (Some s)) \/
  (add_to_page b (getpage p) p name None f next = Some (-1, b) /\
     first_fit b p (nslots name) 0 None).
Proof.
  intros (P & ents & chain & Hrep) Hp [Hc Hlen].
  pose proof (name_ok_slots _ Hlen) as Hn. pose proof (nslots_bounds name) as [Hn1 _].
  rewrite (dr_len _ _ _ _ Hrep), Z.mul_comm in Hp. unfold AFSDIR_PAGESIZE in Hp.
  rewrite Z.div_mul in Hp by done.
  destruct (rep_add_to_page _ _ _ _ Hrep name f next Hn p Hp) as [[Hr Hno]|(s & b' & Hr & Hpl & _)].
  - right. split; [done|]. intros s. apply Hno.
  - left. exists s, b'. pose proof (pl_slot _ _ _ _ Hpl) as Hs. cbn [snd] in Hs.
    split_and!; [done|done|]. pose proof (add_to_page_search _ _ _ _ _ _ _ _ Hr Hs) as Hsearch.
    destruct (search_page_spec (S (Z.to_nat (uwrap32 (ENTRIESPERPAGE - nslots name)))) b p
      (nslots name) 0) as (r & Hr' & Hfit); [by eapply rep_page_in|lia|lia| |].
    { unfold uwrap32, ENTRIESPERPAGE. rewrite Z.mod_small by lia. lia. }
    rewrite Hsearch in Hr'. by simplify_eq.
Qed.

(** a new directory.  [fdir_mkdir] makes a well-formed one-page directory
    that passes [fdir_dirp] and [fdir_emptyp] and in which exactly [.] and
    [..] are found. *)
Theorem fdir_mkdir_correct te dir dot dot_dot :
  te AFSDIR_PAGESIZE = Some 0 ->
  exists b, fdir_mkdir te [] dot dot_dot false = Some (0, b) /\ dir_ok b /\
    blen b = AFSDIR_PAGESIZE /\ fdir_dirp b = Some true /\ fdir_emptyp b = Some true /\
    fdir_lookup b dir dot_name = Some (inr (dent_fid dir (new_dent dot_name dot))) /\
    fdir_lookup b dir dot_dot_name = Some (inr (dent_fid dir (new_dent dot_dot_name dot_dot))) /\
    forall n, is_cstr n -> n <> dot_name -> n <> dot_dot_name ->
      fdir_lookup b dir n = Some (inl ENOENT).
Proof.
  intros Hte. destruct (fdir_mkdir_spec te dot dot_dot Hte) as (b & l1 & l2 & ch & Hm & Hne & Hrep).
  assert (Hl1 : (<[l2 := new_dent dot_dot_name dot_dot]> {[l1 := new_dent dot_name dot]}
    : gmap loc dent) !! l1 = Some (new_dent dot_name dot))
    by (rewrite lookup_insert_ne by done; apply lookup_singleton_eq).
  assert (Hl2 : (<[l2 := new_dent dot_dot_name dot_dot]> {[l1 := new_dent dot_name dot]}
    : gmap loc dent) !! l2 = Some (new_dent dot_dot_name dot_dot)) by apply lookup_insert_eq.
  exists b. split_and!.
  - done.
  - by eexists _, _, _.
  - apply (dr_len _ _ _ _ Hrep).
  - by eapply rep_dirp.
  - apply (emptyp_complete _ _ _ _ Hrep l1 l2 _ _ Hl1 Hl2); [done..|].
    intros l d [[<- _]|[_ [<- _]%lookup_singleton_Some]]%lookup_insert_Some; auto.
  - apply (fdir_lookup_found _ _ _ _ Hrep dir _ _ Hl1).
  - apply (fdir_lookup_found _ _ _ _ Hrep dir _ _ Hl2).
  - intros n Hc Hn1 Hn2. apply (fdir_lookup_none _ _ _ _ Hrep dir n Hc).
    intros l d [[_ <-]|[_ [_ <-]%lookup_singleton_Some]]%lookup_insert_Some Hd; by subst n.
Qed.

(** The callback stops the loop at an entry. *)
Lemma readdir_page_stop {A} (func : VenusFid -> bytes -> A -> Z * A)
    fuel b P ents chain dir l d arg arg' :
  dir_rep b P ents chain -> ents !! l = Some d ->
  func (dent_fid dir d) (d_name d) arg = (1, arg') ->
  readdir_page func (S fuel) b dir (getpage l.1) l.2 arg =
  Some (true, l.2 + (d_slots d - 1), arg').
Proof.
  intros Hrep Hl Hfun. destruct (rep_entry_bounds _ _ _ _ Hrep _ _ Hl) as (Hp & Hk & ? & Hf & Hb & _).
  cbn [readdir_page]. change (ENTRIESPERPAGE - 1) with 63.
  destruct (Z.ltb_spec l.2 63); [|lia]. cbn [negb].
  unfold first_slotp. rewrite used_slot_spec by (lia || by eapply rep_page_in).
  cbn [mbind option_bind]. rewrite (proj2 (dr_bits _ _ _ _ Hrep l.1 l.2 Hp ltac:(lia))).
  2:{ right. exists l, d. split; [done|]. unfold covers. lia. }
  change (pg_entry (getpage l.1) l.2) with (ent l).
  rewrite rd8_in by alia. cbn [mbind option_bind].
  rewrite (ea_flag _ _ _ (dr_entry _ _ _ _ Hrep _ _ Hl)).
  change (negb (Z.land AFSDIR_FIRST AFSDIR_FIRST =? 0)) with true. cbn [negb].
  rewrite (rep_readdir_entry _ _ _ _ Hrep dir _ _ Hl). cbn [mbind option_bind].
  by rewrite Hfun.
Qed.

(** a listing interrupted by the callback.  When a listing starts at the
    offset of an entry of one slot and the callback answers 1 for it, the
    offset left behind is that of the entry itself, so the next call delivers
    it again. *)
Theorem fdir_readdir_redelivers {A} (func : VenusFid -> bytes -> A -> Z * A)
    b P ents chain dir l d arg arg' :
  dir_rep b P ents chain -> ents !! l = Some d -> d_slots d = 1 ->
  func (dent_fid dir d) (d_name d) arg = (1, arg') ->
  fdir_readdir func b arg dir (Some (num l)) = Some (0, arg', Some (num l)).
Proof.
  intros Hrep Hl Hs Hfun. destruct (rep_entry_bounds _ _ _ _ Hrep _ _ Hl) as (Hp & Hk & _ & Hf & Hb & _).
  pose proof (do_header _ _ _ (dr_ok _ _ _ _ Hrep _ _ Hl)) as Hh.
  pose proof (dr_pages _ _ _ _ Hrep) as HP.
  unfold fdir_readdir. rewrite (rep_npages _ _ _ _ Hrep). cbn [mbind option_bind].
  assert (Hd : num l / ENTRIESPERPAGE = l.1 /\ num l mod ENTRIESPERPAGE = l.2).
  { unfold num, ENTRIESPERPAGE. Z.to_euclidean_division_equations. lia. }
  cbv zeta. change (default 0 (Some (num l))) with (num l). destruct Hd as [-> ->].
  assert (Hnz : (num l =? 0) = false) by (apply Z.eqb_neq; alia). rewrite Hnz. cbn [negb andb].
  replace ((l.1 =? 0) && (l.2 <? 12)) with false.
  2:{ destruct (Z.eqb_spec l.1 0), (Z.ltb_spec l.2 12); try done. lia. }
  cbn [readdir_pages]. destruct (Z.ltb_spec l.1 P); [|lia]. cbn [negb].
  rewrite (readdir_page_stop func 63 _ _ _ _ _ _ _ _ _ Hrep Hl Hfun).
  cbn [mbind option_bind]. rewrite Hs. cbn [fmap option_fmap option_map]. do 3 f_equal.
  unfold uwrap32. replace (l.1 * ENTRIESPERPAGE + (l.2 + (1 - 1))) with (num l) by alia.
  rewrite Z.mod_small; alia.
Qed.

(** ** A concrete directory *)

Module Concrete.

Definition te0 : Z -> option Z := fun _ => Some 0.
Definition here : VenusFid := {| Cell := 1; fid := {| Volume := 5; Vnode := 1; Unique := 1 |} |}.
Definition file_fid (n : Z) : AFSFid := {| Volume := 5; Vnode := n; Unique := n + 1 |}.
(** "readme" and a name of two slots. *)
Definition readme : bytes := [114; 101; 97; 100; 109; 101].
Definition long_name : bytes := replicate 20 120.
Definition fresh : bytes :=
  match fdir_mkdir te0 [] (file_fid 1) (file_fid 3) false with Some (_, b) => b | None => [] end.
Definition ops : list dir_op :=
  [OpCreat readme (file_fid 4); OpCreat long_name (file_fid 6); OpCreat readme (file_fid 8);
   OpRemove readme; OpLookup readme; OpCreat readme (file_fid 10); OpLookup long_name].
Definition filled : bytes :=
  match dir_run te0 here fresh ops with Some (_, b) => b | None => [] end.

Lemma ops_ok : Forall (fun op => name_ok (op_name op)) ops.
Proof.
  repeat constructor; try (apply is_cstr_check; reflexivity); vm_compute; discriminate.
Qed.

Lemma dir_fresh_ok : dir_ok fresh.
Proof.
  destruct (fdir_mkdir_spec te0 (file_fid 1) (file_fid 3) eq_refl)
    as (b & l1 & l2 & ch & Hm & _ & Hrep).
  unfold fresh. rewrite Hm. by eexists _, _, _.
Qed.

Lemma dir_filled_ok : dir_ok filled.
Proof.
  destruct (fdir_mkdir_spec te0 (file_fid 1) (file_fid 3) eq_refl)
    as (b & l1 & l2 & ch & Hm & Hne & Hrep).
  destruct (dir_run_refines te0 here ops b 1 _ ch _ (fun _ => eq_refl) ops_ok ltac:(simpl; lia)
    Hrep (view_fresh _ _ l1 l2 Hne)) as (b' & Hr & Hok).
  assert (Hf : fresh = b) by (unfold fresh; by rewrite Hm).
  unfold filled. rewrite Hf, Hr. exact Hok.
Qed.
End Concrete.

(** ** The theorems at work *)

Module Witnesses.
Import Concrete.

Lemma fdir_refines_witness :
  exists b0 b, fdir_mkdir te0 [] (file_fid 1) (file_fid 3) false = Some (0, b0) /\
    dir_run te0 here b0 ops =
    Some ([(0, None); (0, None); (EEXIST, None); (0, Some (4, 5)); (ENOENT, None); (0, None);
           (0, Some (6, 7))], b) /\ dir_ok b.
Proof.
  destruct (fdir_refines te0 here (file_fid 1) (file_fid 3) ops) as (b0 & b & Hm & Hr & Hok).
  - intros len. reflexivity.
  - apply ops_ok.
  - simpl. lia.
  - exists b0, b. split; [exact Hm|]. split; [|exact Hok]. rewrite Hr. vm_compute. reflexivity.
Defined.

Lemma fdir_creat_correct_witness :
  (exists b', fdir_creat te0 fresh readme None (file_fid 4) = Some (0, b') /\ dir_ok b' /\
     fdir_lookup b' here readme = Some (inr (dent_fid here (new_dent readme (file_fid 4)))) /\
     forall n, is_cstr n -> n <> readme -> fdir_lookup b' here n = fdir_lookup fresh here n) \/
  (exists e, e <> 0 /\ te0 (blen fresh + AFSDIR_PAGESIZE) = Some e /\
     fdir_creat te0 fresh readme None (file_fid 4) = Some (e, fresh)) \/
  (te0 (blen fresh + AFSDIR_PAGESIZE) = None /\
     fdir_creat te0 fresh readme None (file_fid 4) = None).
Proof.
  apply (fdir_creat_correct te0 here fresh readme (file_fid 4)).
  - apply dir_fresh_ok.
  - split; [apply is_cstr_check; reflexivity|vm_compute; discriminate].
  - vm_compute. reflexivity.
  - vm_compute. reflexivity.
Defined.

Lemma fdir_remove_correct_witness :
  (exists b', fdir_remove te0 filled long_name = Some (0, Some (6, 7), b') /\
    dir_ok b' /\ blen b' <= blen filled /\ fdir_lookup b' here long_name = Some (inl ENOENT) /\
    forall n, is_cstr n -> n <> long_name -> fdir_lookup b' here n = fdir_lookup filled here n) \/
  (fdir_remove te0 filled long_name = None /\ exists len, len < blen filled /\ te0 len = None).
Proof.
  apply (fdir_remove_correct te0 here filled long_name
    (dent_fid here (new_dent long_name (file_fid 6)))).
  - apply dir_filled_ok.
  - apply is_cstr_check; reflexivity.
  - vm_compute. reflexivity.
Defined.

Lemma fdir_readdir_complete_witness :
  exists es, fdir_readdir collect filled [] here None = Some (0, es, None) /\ NoDup es.*2 /\
    forall f n, (f, n) ∈ es <-> is_cstr n /\ fdir_lookup filled here n = Some (inr f).
Proof. apply (fdir_readdir_complete here filled). apply dir_filled_ok. Defined.

Lemma fdir_emptyp_correct_witness :
  fdir_emptyp fresh = Some true /\
  forall n, is_cstr n -> n <> dot_name -> n <> dot_dot_name ->
    fdir_lookup fresh here n = Some (inl ENOENT).
Proof.
  assert (H : fdir_emptyp fresh = Some true) by (vm_compute; reflexivity).
  split; [exact H|].
  destruct (fdir_emptyp_correct here fresh (dent_fid here (new_dent dot_name (file_fid 1)))
    (dent_fid here (new_dent dot_dot_name (file_fid 3)))) as [Hs _].
  - apply dir_fresh_ok.
  - vm_compute. reflexivity.
  - vm_compute. reflexivity.
  - apply Hs, H.
Defined.

Lemma fdir_add_first_fit_witness :
  (exists s b', add_to_page filled (getpage 0) 0 long_name None (file_fid 12) 0 = Some (s, b') /\
     0 <= s /\ first_fit filled 0 (nslots long_name) 0 (Some s)) \/
  (add_to_page filled (getpage 0) 0 long_name None (file_fid 12) 0 = Some (-1, filled) /\
     first_fit filled 0 (nslots long_name) 0 None).
Proof.
  apply (fdir_add_first_fit filled 0 long_name (file_fid 12) 0).
  - apply dir_filled_ok.
  - vm_compute. split; [discriminate|reflexivity].
  - split; [apply is_cstr_check; reflexivity|vm_compute; discriminate].
Defined.

Lemma fdir_mkdir_correct_witness :
  exists b, fdir_mkdir te0 [] (file_fid 1) (file_fid 3) false = Some (0, b) /\ dir_ok b /\
    fdir_emptyp b = Some true.
Proof.
  destruct (fdir_mkdir_correct te0 here (file_fid 1) (file_fid 3))
    as (b & Hm & Hok & _ & _ & He & _).
  - reflexivity.
  - exists b. split; [exact Hm|]. split; [exact Hok|exact He].
Defined.

(** A callback that asks to stop after each entry. *)
Definition one_at_a_time (f : VenusFid) (name : bytes) (acc : list bytes) : Z * list bytes :=
  (1, acc ++ [name]).

Lemma fdir_readdir_redelivers_witness :
  exists b o, fdir_readdir one_at_a_time b [] here (Some o) = Some (0, [dot_name], Some o).
Proof.
  destruct (fdir_mkdir_spec te0 (file_fid 1) (file_fid 3) eq_refl)
    as (b & l1 & l2 & ch & _ & Hne & Hrep).
  exists b, (num l1).
  apply (fdir_readdir_redelivers one_at_a_time b 1 _ ch here l1
    (new_dent dot_name (file_fid 1)) [] [dot_name] Hrep).
  - rewrite lookup_insert_ne by (intros ->; apply Hne; reflexivity). apply lookup_singleton_eq.
  - reflexivity.
  - reflexivity.
Defined.
End Witnesses.
