(* ===== verification/Vnum.v ===== *)
(** * Vnode numbers

    The numbers of vnodes (milko/lib/voldb/voldb.c): the odd ones are
    directories, the even ones from 2 on are files, and each kind has its
    own database, whose entries are counted from 0. *)

From S2P Require Import Prelude.

Definition afs_dir_p (vno : Z) : bool := negb (Z.land vno 1 =? 0).
(** [assert (vno)] *)
Definition dir_afs2local (vno : Z) : option Z :=
  if vno =? 0 then None else Some (Z.shiftr (swrap32 (vno - 1)) 1).
Definition dir_local2afs (vno : Z) : Z := swrap32 (swrap32 (Z.shiftl vno 1) + 1).
Definition file_afs2local (vno : Z) : option Z :=
  if vno =? 0 then None else Some (swrap32 (Z.shiftr vno 1 - 1)).
Definition file_local2afs (vno : Z) : Z := swrap32 (Z.shiftl (swrap32 (vno + 1)) 1).

Lemma afs_dir_p_odd vno : afs_dir_p vno = Z.odd vno.
Proof.
  unfold afs_dir_p. change 1 with (Z.ones 1). rewrite Z.land_ones by lia.
  change (2^1) with 2. rewrite Zmod_odd. by destruct (Z.odd vno).
Qed.

(** The entries of the two databases as vnode numbers. *)
Lemma dir_local2afs_eq k : 0 <= k < 2^30 -> dir_local2afs k = 2 * k + 1.
Proof.
  intros Hk. unfold dir_local2afs. rewrite Z.shiftl_mul_pow2 by lia.
  rewrite !swrap32_small by (unfold is_int32; rewrite ?swrap32_small; unfold is_int32; lia). lia.
Qed.

Lemma file_local2afs_eq k : 0 <= k < 2^30 - 1 -> file_local2afs k = 2 * (k + 1).
Proof.
  intros Hk. unfold file_local2afs. rewrite Z.shiftl_mul_pow2 by lia.
  rewrite (swrap32_small (k + 1)) by (unfold is_int32; lia).
  rewrite swrap32_small by (unfold is_int32; lia). lia.
Qed.

Lemma dir_afs2local_eq k : 0 <= k < 2^30 -> dir_afs2local (2 * k + 1) = Some k.
Proof.
  intros Hk. unfold dir_afs2local. destruct (Z.eqb_spec (2 * k + 1) 0); [lia|].
  replace (2 * k + 1 - 1) with (2 * k) by lia. rewrite swrap32_small by (unfold is_int32; lia).
  rewrite Z.shiftr_div_pow2 by lia. change (2^1) with 2. f_equal.
  rewrite Z.mul_comm. by apply Z.div_mul.
Qed.

Lemma file_afs2local_eq k : 0 <= k < 2^30 - 1 -> file_afs2local (2 * (k + 1)) = Some k.
Proof.
  intros Hk. unfold file_afs2local. destruct (Z.eqb_spec (2 * (k + 1)) 0); [lia|].
  rewrite Z.shiftr_div_pow2 by lia. change (2^1) with 2.
  rewrite (Z.mul_comm 2), Z.div_mul by lia. rewrite swrap32_small by (unfold is_int32; lia).
  f_equal. lia.
Qed.
