(* ===== verification/Voldb.v ===== *)
(** * Volume database

    milko/lib/voldb: the file that holds the vnode entries of a volume
    (voldb.h, voldb_internal.h, voldb.c) in its one format, the flat database
    (vdb_flat.c).  The file is a header of 40 bytes and then the entries, all
    of one size; free entries form a list through [nextptr], and the header
    holds its first entry.  The file is mapped shared, so a store into the
    mapping is a change of the file.

    A handle [voldb] carries the file and the errnos the operating system will
    answer with, so that every failure the code can meet is a run of the
    model.  [VM] is the monad of the operations: [None] is an abort, a failed
    assertion or an access outside the mapping, [inl] a returned errno,
    [inr] success. *)

From S2P Require Import Prelude Buf.

Definition EIO : Z := 5.

Definition TYPE_FILE : Z := 1.
Definition TYPE_DIR : Z := 2.
Definition TYPE_LINK : Z := 3.

Definition FS_MAX_ACL : nat := 8.
Definition VOLDB_HEADER_SIZE : Z := 10 * 4.
Definition VOLDB_HEADER_HALF : Z := VOLDB_HEADER_SIZE / 2.
Definition VOLDB_FILE : Z := 0x1.
Definition VOLDB_DIR : Z := 0x2.
Definition VOLDB_DEFAULT_TYPE : Z := 0.
Definition VOLDB_FREELIST_END : Z := 0xffffffff.
Definition VOLDB_ENTRY_USED : Z := 0xfffffffe.
Definition VOLDB_ENTEND_NUM : Z := 10.
Definition VOLDB_MAGIC_HEADER : Z := 0x47111147.
Definition VOLDB_FILE_SIZE : Z := 19 * 4 + 404.
Definition VOLDB_DIR_SIZE : Z := VOLDB_FILE_SIZE + Z.of_nat FS_MAX_ACL * 2 * 2 * 4.
Definition ONODE_OPAQUE_SIZE : Z := 404.

(** ** Data *)

(** [onode_opaque]: the name of an inode in the backing store. *)
Record onode_opaque := Onode { onode_size : Z; onode_data : bytes }.
Definition zero_onode : onode_opaque := Onode 0 (replicate 100 0).

(** The generated coder of [onode_opaque] (ydr): 404 bytes. *)
Class OnodeCoder := {
  ydr_encode_onode_opaque : onode_opaque -> bytes;
  ydr_decode_onode_opaque : bytes -> onode_opaque;
}.

Definition onode_wf (o : onode_opaque) : Prop :=
  is_int32 (onode_size o) /\ length (onode_data o) = 100%nat /\
  Forall is_byte (onode_data o).

(** What the code relies on: the coder writes 404 bytes, and decoding gives
    back what was encoded. *)
Class OnodeCoderOk `{OnodeCoder} : Prop := {
  ydr_encode_onode_len o : onode_wf o ->
    length (ydr_encode_onode_opaque o) = Z.to_nat ONODE_OPAQUE_SIZE;
  ydr_encode_onode_bytes o : onode_wf o -> Forall is_byte (ydr_encode_onode_opaque o);
  ydr_onode_round_trip o : onode_wf o ->
    ydr_decode_onode_opaque (ydr_encode_onode_opaque o) = o;
  ydr_decode_onode_wf bs :
    length bs = Z.to_nat ONODE_OPAQUE_SIZE -> Forall is_byte bs ->
    onode_wf (ydr_decode_onode_opaque bs);
}.

Record acl_entry := AclEntry { owner : Z; flags : Z }.
Definition zero_acl : acl_entry := AclEntry 0 0.

(** [struct voldb_file_entry]; [struct voldb_dir_entry] starts with the same
    fields. *)
Record voldb_file_entry := FileEntry {
  nextptr : Z; unique : Z; ino : onode_opaque; spare2 : Z;
  InterfaceVersion : Z; FileType : Z; LinkCount : Z; Length : Z; spare3 : Z;
  DataVersion : Z; Author : Z; Owner : Z; UnixModeBits : Z;
  ParentVnode : Z; ParentUnique : Z; SegSize : Z; ServerModTime : Z;
  spare4 : Z; Group : Z; spare5 : Z
}.
Record voldb_dir_entry := DirEntry {
  dfile : voldb_file_entry; negacl : list acl_entry; acl : list acl_entry
}.
Inductive voldb_entry_u :=
  | u_dir (d : voldb_dir_entry)
  | u_file (f : voldb_file_entry).
Record voldb_entry := Entry { type : Z; u : voldb_entry_u }.

(** [memset (&e, 0, sizeof (e))] *)
Definition zero_entry : voldb_file_entry :=
  FileEntry 0 0 zero_onode 0 0 0 0 0 0 0 0 0 0 0 0 0 0 0 0 0.

Definition set_nextptr (v : Z) (e : voldb_file_entry) : voldb_file_entry :=
  let 'FileEntry _ a2 a3 a4 a5 a6 a7 a8 a9 a10 a11 a12 a13 a14 a15 a16 a17 a18 a19 a20 := e in
  FileEntry v a2 a3 a4 a5 a6 a7 a8 a9 a10 a11 a12 a13 a14 a15 a16 a17 a18 a19 a20.
Definition set_unique (v : Z) (e : voldb_file_entry) : voldb_file_entry :=
  let 'FileEntry a1 _ a3 a4 a5 a6 a7 a8 a9 a10 a11 a12 a13 a14 a15 a16 a17 a18 a19 a20 := e in
  FileEntry a1 v a3 a4 a5 a6 a7 a8 a9 a10 a11 a12 a13 a14 a15 a16 a17 a18 a19 a20.
Definition set_ino (v : onode_opaque) (e : voldb_file_entry) : voldb_file_entry :=
  let 'FileEntry a1 a2 _ a4 a5 a6 a7 a8 a9 a10 a11 a12 a13 a14 a15 a16 a17 a18 a19 a20 := e in
  FileEntry a1 a2 v a4 a5 a6 a7 a8 a9 a10 a11 a12 a13 a14 a15 a16 a17 a18 a19 a20.
Definition set_FileType (v : Z) (e : voldb_file_entry) : voldb_file_entry :=
  let 'FileEntry a1 a2 a3 a4 a5 _ a7 a8 a9 a10 a11 a12 a13 a14 a15 a16 a17 a18 a19 a20 := e in
  FileEntry a1 a2 a3 a4 a5 v a7 a8 a9 a10 a11 a12 a13 a14 a15 a16 a17 a18 a19 a20.
Definition set_LinkCount (v : Z) (e : voldb_file_entry) : voldb_file_entry :=
  let 'FileEntry a1 a2 a3 a4 a5 a6 _ a8 a9 a10 a11 a12 a13 a14 a15 a16 a17 a18 a19 a20 := e in
  FileEntry a1 a2 a3 a4 a5 a6 v a8 a9 a10 a11 a12 a13 a14 a15 a16 a17 a18 a19 a20.
Definition set_Parent (v w : Z) (e : voldb_file_entry) : voldb_file_entry :=
  let 'FileEntry a1 a2 a3 a4 a5 a6 a7 a8 a9 a10 a11 a12 a13 _ _ a16 a17 a18 a19 a20 := e in
  FileEntry a1 a2 a3 a4 a5 a6 a7 a8 a9 a10 a11 a12 a13 v w a16 a17 a18 a19 a20.
Definition set_ServerModTime (v : Z) (e : voldb_file_entry) : voldb_file_entry :=
  let 'FileEntry a1 a2 a3 a4 a5 a6 a7 a8 a9 a10 a11 a12 a13 a14 a15 a16 _ a18 a19 a20 := e in
  FileEntry a1 a2 a3 a4 a5 a6 a7 a8 a9 a10 a11 a12 a13 a14 a15 a16 v a18 a19 a20.

(** The handle: [struct voldb] with its header, and behind it the file of
    [db_fd] and the results of the coming system calls (0 or an errno; past
    the end of the list they succeed).  [ptr] is [None] for a null [db->ptr]. *)
Record vdbflat := Vdbflat {
  freeptr : Z;                  (* the 32 bits of the int *)
  mapped : bool                 (* is the file mapped at ptr? *)
}.
Record voldb := Voldb {
  magic : Z; num : Z; hflags : Z;
  db_type : Z; size : Z; db_fd : Z; volume : Z; ptr : option vdbflat;
  db_file : bytes; db_os : list Z
}.

Definition set_hdr (m n f : Z) (d : voldb) : voldb :=
  let 'Voldb _ _ _ t s fd v p fl os := d in Voldb m n f t s fd v p fl os.
Definition set_num (n : Z) (d : voldb) : voldb :=
  let 'Voldb m _ f t s fd v p fl os := d in Voldb m n f t s fd v p fl os.
Definition set_size (s : Z) (d : voldb) : voldb :=
  let 'Voldb m n f t _ fd v p fl os := d in Voldb m n f t s fd v p fl os.
Definition set_ptr (p : option vdbflat) (d : voldb) : voldb :=
  let 'Voldb m n f t s fd v _ fl os := d in Voldb m n f t s fd v p fl os.
Definition set_file (fl : bytes) (d : voldb) : voldb :=
  let 'Voldb m n f t s fd v p _ os := d in Voldb m n f t s fd v p fl os.
Definition set_os (os : list Z) (d : voldb) : voldb :=
  let 'Voldb m n f t s fd v p fl _ := d in Voldb m n f t s fd v p fl os.

(** ** The monad of the operations *)

Definition VM (A : Type) : Type := voldb -> option (voldb * (Z + A)).

Definition vret {A} (a : A) : VM A := fun d => Some (d, inr a).
(** [return errno;] *)
Definition vfail {A} (e : Z) : VM A := fun d => Some (d, inl e).
(** [abort ()], a failed [assert], an access outside the mapping *)
Definition vabort {A} : VM A := fun _ => None.
Definition vassert (b : bool) : VM unit := if b then vret tt else vabort.
Definition vbind {A B} (m : VM A) (k : A -> VM B) : VM B := fun d =>
  match m d with
  | Some (d', inr a) => k a d'
  | Some (d', inl e) => Some (d', inl e)
  | None => None
  end.
Definition vget : VM voldb := fun d => Some (d, inr d).
Definition vmod (f : voldb -> voldb) : VM unit := fun d => Some (f d, inr tt).
Definition vopt {A} (o : option A) : VM A :=
  match o with Some a => vret a | None => vabort end.

Declare Scope vm_scope.
Delimit Scope vm_scope with vm.
Notation "x <- m ;; k" := (vbind m (fun x => k))
  (at level 100, m at next level, right associativity) : vm_scope.
Notation "m ;;; k" := (vbind m (fun _ => k))
  (at level 100, right associativity) : vm_scope.
Open Scope vm_scope.

(** The result of the next system call. *)
Definition sys : VM Z := fun d =>
  match db_os d with
  | [] => Some (d, inr 0)
  | r :: os => Some (set_os os d, inr r)
  end.
(** [if (call (...)) return errno;] *)
Definition sys_check : VM unit := r <- sys ;; if r =? 0 then vret tt else vfail r.

Fixpoint vfor (l : list Z) (f : Z -> VM unit) : VM unit :=
  match l with
  | [] => vret tt
  | i :: l => f i ;;; vfor l f
  end.

(** [db->ptr], which is dereferenced. *)
Definition vdb_of : VM vdbflat := d <- vget ;; vopt (ptr d).
Definition set_freeptr (v : Z) : VM unit :=
  w <- vdb_of ;; vmod (set_ptr (Some (Vdbflat v (mapped w)))).
Definition set_mapped (b : bool) : VM unit :=
  w <- vdb_of ;; vmod (set_ptr (Some (Vdbflat (freeptr w) b))).

(** Reads and stores through the mapping. *)
Definition vmap : VM bytes :=
  w <- vdb_of ;; d <- vget ;; if mapped w then vret (db_file d) else vabort.
Definition vread {A} (f : bytes -> option A) : VM A := b <- vmap ;; vopt (f b).
Definition vwrite (f : bytes -> option bytes) : VM unit :=
  b <- vmap ;; b' <- vopt (f b) ;; vmod (set_file b').

(** ** Runs of words

    [memcpy (&tmp, ptr, 4); x = ntohl (tmp); ptr += 4] repeated, and its
    inverse. *)

Fixpoint get_words (b : bytes) (a : Z) (n : nat) : option (list Z) :=
  match n with
  | O => Some []
  | S n => w ← rd32 b a; ws ← get_words b (a + 4) n; Some (w :: ws)
  end.
Fixpoint put_words (b : bytes) (a : Z) (ws : list Z) : option bytes :=
  match ws with
  | [] => Some b
  | w :: ws => b ← wr b a (be32 w); put_words b (a + 4) ws
  end.

(** [n] bytes at [a]. *)
Definition get_bytes (b : bytes) (a n : Z) : option bytes :=
  if in_buf b a n then Some (take (Z.to_nat n) (drop (Z.to_nat a) b)) else None.

(** ** Entries in the file *)

Section Coder.
Context `{OnodeCoder}.

(** The words after the onode, in the order of the file. *)
Definition entry_words (e : voldb_file_entry) : list Z :=
  [spare2 e; InterfaceVersion e; FileType e; LinkCount e; Length e; spare3 e;
   DataVersion e; Author e; Owner e; UnixModeBits e; ParentVnode e;
   ParentUnique e; SegSize e; ServerModTime e; spare4 e; Group e; spare5 e].

(** The stores of [vdbflat_put_file] from [ptr = a] on. *)
Definition put_entry_at (b : bytes) (a : Z) (e : voldb_file_entry) : option bytes :=
  b ← put_words b a [nextptr e; unique e];
  b ← wr b (a + 8) (ydr_encode_onode_opaque (ino e));
  put_words b (a + 8 + ONODE_OPAQUE_SIZE) (entry_words e).

(** The loads of [vdbflat_get_file]. *)
Definition get_entry_at (b : bytes) (a : Z) : option voldb_file_entry :=
  n ← rd32 b a;
  q ← rd32 b (a + 4);
  o ← get_bytes b (a + 8) ONODE_OPAQUE_SIZE;
  ws ← get_words b (a + 8 + ONODE_OPAQUE_SIZE) 17;
  match ws with
  | [s2; iv; ft; lc; ln; s3; dv; au; ow; um; pv; pu; sg; sm; s4; gr; s5] =>
      Some (FileEntry n q (ydr_decode_onode_opaque o)
              s2 iv ft lc ln s3 dv au ow um pv pu sg sm s4 gr s5)
  | _ => None
  end.

(** The loops over an ACL: [owner] and [flags] of each of the 8 entries. *)
Definition acl_words (l : list acl_entry) : list Z :=
  flat_map (fun i => let x := nth i l zero_acl in [owner x; flags x]) (seq 0 FS_MAX_ACL).
Fixpoint words_acl (ws : list Z) : list acl_entry :=
  match ws with
  | o :: f :: ws => AclEntry o f :: words_acl ws
  | _ => []
  end.
Definition put_acls_at (b : bytes) (a : Z) (e : voldb_dir_entry) : option bytes :=
  put_words b a (acl_words (negacl e) ++ acl_words (acl e)).
Definition get_acls_at (b : bytes) (a : Z) : option (list acl_entry * list acl_entry) :=
  n ← get_words b a (2 * FS_MAX_ACL);
  p ← get_words b (a + 4 * 2 * Z.of_nat FS_MAX_ACL) (2 * FS_MAX_ACL);
  Some (words_acl n, words_acl p).

Definition has_flag (d : voldb) (f : Z) : bool := negb (Z.land (hflags d) f =? 0).
(** [db->hdr.flags & (VOLDB_FILE|VOLDB_DIR)] *)
Definition kind_bits (d : voldb) : Z := Z.land (hflags d) (Z.lor VOLDB_FILE VOLDB_DIR).

(** The address of entry [num] of [vdb->u.file] or [vdb->u.dir]: the product is of 32 bits. *)
Definition entry_addr (sz k : Z) : Z := VOLDB_HEADER_SIZE + uwrap32 (sz * k).

(** ** vdb_flat.c *)

Definition vdbflat_get_file (k : Z) : VM voldb_file_entry :=
  d <- vget ;;
  if negb (has_flag d VOLDB_FILE) then vfail EINVAL else
  if num d <? k then vfail EINVAL else
  vread (fun b => get_entry_at b (entry_addr VOLDB_FILE_SIZE k)).

Definition vdbflat_put_file (k : Z) (e : voldb_file_entry) : VM unit :=
  d <- vget ;;
  if negb (has_flag d VOLDB_FILE) then vfail EINVAL else
  if num d <? k then vfail EINVAL else
  vwrite (fun b => put_entry_at b (entry_addr VOLDB_FILE_SIZE k) e).

Definition vdbflat_get_dir (k : Z) : VM voldb_dir_entry :=
  d <- vget ;;
  if negb (has_flag d VOLDB_DIR) then vfail EINVAL else
  if num d <? k then vfail EINVAL else
  let a := entry_addr VOLDB_DIR_SIZE k in
  f <- vread (fun b => get_entry_at b a) ;;
  l <- vread (fun b => get_acls_at b (a + VOLDB_FILE_SIZE)) ;;
  vret (DirEntry f (fst l) (snd l)).

(** The ACLs are not stored. *)
Definition vdbflat_put_dir (k : Z) (e : voldb_dir_entry) : VM unit :=
  d <- vget ;;
  if negb (has_flag d VOLDB_DIR) then vfail EINVAL else
  if num d <? k then vfail EINVAL else
  vwrite (fun b => put_entry_at b (entry_addr VOLDB_DIR_SIZE k) (dfile e)).

Definition vdbflat_put_acl (k : Z) (e : voldb_dir_entry) : VM unit :=
  d <- vget ;;
  if negb (has_flag d VOLDB_DIR) then vfail EINVAL else
  if num d <? k then vfail EINVAL else
  vwrite (fun b => put_acls_at b (entry_addr VOLDB_DIR_SIZE k + VOLDB_FILE_SIZE) e).

(** [VOLDB_FUNC (db, f)]: [voltypes] has one element. *)
Definition VOLDB_FUNC {A} (f : VM A) : VM A :=
  d <- vget ;; if db_type d =? 0 then f else vabort.

Definition voldb_get_dir (k : Z) : VM voldb_dir_entry := VOLDB_FUNC (vdbflat_get_dir k).
Definition voldb_get_file (k : Z) : VM voldb_file_entry := VOLDB_FUNC (vdbflat_get_file k).
Definition voldb_put_dir (k : Z) (e : voldb_dir_entry) : VM unit :=
  VOLDB_FUNC (vdbflat_put_dir k e).
Definition voldb_put_file (k : Z) (e : voldb_file_entry) : VM unit :=
  VOLDB_FUNC (vdbflat_put_file k e).

(** [set_volhdr_union_ptr]: the entries follow the header. *)
Definition set_volhdr_union_ptr : VM unit :=
  d <- vget ;;
  if has_flag d VOLDB_DIR then vret tt
  else if has_flag d VOLDB_FILE then vret tt
  else vabort.

(** [vdbflat_write_header (db, d, sz)]; [d] is the header as
    [voldb_write_hdr] leaves it. *)
Definition vdbflat_write_header (data : bytes) : VM unit :=
  vassert (blen data =? VOLDB_HEADER_SIZE) ;;;
  d <- vget ;;
  let i := match ptr d with
           | None => VOLDB_FREELIST_END
           | Some w => freeptr w
           end in
  data <- vopt (wr data VOLDB_HEADER_HALF (be32 i)) ;;
  vwrite (fun b => wr b 0 data) ;;;
  sys_check.

(** [voldb_write_hdr] (voldb.c): only 12 of the 40 bytes are filled in here,
    the others are those the stack holds. *)
Context (stack : voldb -> bytes).

Definition voldb_write_hdr : VM unit :=
  d <- vget ;;
  data <- vopt (wr (stack d) 0 (be32 (magic d))) ;;
  data <- vopt (wr data 4 (be32 (num d))) ;;
  data <- vopt (wr data 8 (be32 (hflags d))) ;;
  VOLDB_FUNC (vdbflat_write_header data).

(** [voldb_parse_header (db, d, sz)] *)
Definition voldb_parse_header : VM unit :=
  m <- vread (fun b => rd32 b 0) ;;
  n <- vread (fun b => rd32 b 4) ;;
  f <- vread (fun b => rd32 b 8) ;;
  vmod (set_hdr m n f).

(** The size of an entry by the kind in the header. *)
Definition kind_size (d : voldb) : option Z :=
  if kind_bits d =? VOLDB_FILE then Some VOLDB_FILE_SIZE
  else if kind_bits d =? VOLDB_DIR then Some VOLDB_DIR_SIZE
  else None.

(** [calloc], which fails when its result is not 0. *)
Definition vcalloc : VM unit := r <- sys ;; if r =? 0 then vret tt else vfail ENOMEM.

(** A [munmap] that must succeed, then the error. *)
Definition unmap_fail {A} (e : Z) : VM A :=
  r <- sys ;; vassert (r =? 0) ;;; vmod (set_ptr None) ;;; vfail e.

(** [vdb] is put behind [ptr] from the start; the error paths, which free it,
    reset [ptr]. *)
Definition vdbflat_init (createp : bool) : VM unit :=
  d <- vget ;;
  vassert (VOLDB_HEADER_SIZE <=? size d) ;;;
  vcalloc ;;;
  sys_check ;;;
  vmod (set_ptr (Some (Vdbflat 0 true))) ;;;
  (if createp then set_freeptr VOLDB_FREELIST_END
   else voldb_parse_header ;;;
        i <- vread (fun b => rd32 b VOLDB_HEADER_HALF) ;;
        set_freeptr i) ;;;
  d <- vget ;;
  match kind_size d with
  | None => unmap_fail EIO
  | Some sz =>
      if negb ((size d - VOLDB_HEADER_SIZE) mod sz =? 0) then unmap_fail EIO else
      if negb (num d =? (size d - VOLDB_HEADER_SIZE) / sz) then unmap_fail EINVAL else
      set_volhdr_union_ptr
  end.

Definition vdbflat_close : VM unit :=
  d <- vget ;;
  vassert (magic d =? VOLDB_MAGIC_HEADER) ;;;
  w <- vdb_of ;;
  vmod (set_ptr None) ;;;
  r <- sys ;; vassert (r =? 0) ;;;
  sys_check.

(** The loops of [vdbflat_extend_db] over the new entries. *)
Definition put_new_entry (dirp : bool) (next i : Z) : VM unit :=
  d <- vget ;;
  let e := set_nextptr (if i <? uwrap32 (num d - 1) then i + 1 else next) zero_entry in
  let put := if dirp
             then voldb_put_dir i (DirEntry e (replicate FS_MAX_ACL zero_acl)
                                              (replicate FS_MAX_ACL zero_acl))
             else voldb_put_file i e in
  (* a failing put aborts *)
  fun s => match put s with Some (s, inr _) => Some (s, inr tt) | _ => None end.

Definition vdbflat_extend_db (n : Z) : VM unit :=
  d <- vget ;;
  let oldnum := num d in
  if negb (magic d =? VOLDB_MAGIC_HEADER) then vfail EINVAL else
  match kind_size d with
  | None => vfail EINVAL
  | Some sz =>
      let newsize := uwrap64 (size d + uwrap32 (n * sz)) in
      sys_check ;;;                                     (* munmap *)
      set_mapped false ;;;
      sys_check ;;;                                     (* ftruncate *)
      vmod (fun d => set_file (resize (Z.to_nat newsize) 0 (db_file d)) d) ;;;
      vmod (set_size newsize) ;;;
      vmod (fun d => set_num (uwrap32 (num d + n)) d) ;;;
      sys_check ;;;                                     (* mmap *)
      set_mapped true ;;;
      set_volhdr_union_ptr ;;;
      d <- vget ;;
      w <- vdb_of ;;
      vfor (seqZ oldnum (num d - oldnum))
           (put_new_entry (kind_bits d =? VOLDB_DIR) (freeptr w)) ;;;
      set_freeptr oldnum ;;;
      voldb_write_hdr
  end.

(** The body of [vdbflat_new_entry] for an entry taken off the free list:
    what is stored, the new free pointer and the new uniquifier. *)
Definition use_entry (ft : Z) (e : voldb_file_entry) : voldb_file_entry * Z * Z :=
  let newunique := uwrap32 (unique e + 1) in
  (set_FileType ft (set_nextptr VOLDB_ENTRY_USED (set_unique newunique e)),
   nextptr e, newunique).

(** [vdbflat_new_entry] once the free list is not empty. *)
Definition take_free_entry : VM (Z * Z) :=
  w <- vdb_of ;;
  d <- vget ;;
  let oldfreeptr := freeptr w in
  r <- (if Z.land (hflags d) VOLDB_DIR =? VOLDB_DIR then
          e <- voldb_get_dir oldfreeptr ;;
          vassert (negb (nextptr (dfile e) =? VOLDB_ENTRY_USED)) ;;;
          let '(f, newfreeptr, newunique) := use_entry TYPE_DIR (dfile e) in
          voldb_put_dir oldfreeptr (DirEntry f (negacl e) (acl e)) ;;;
          vret (newfreeptr, newunique)
        else if Z.land (hflags d) VOLDB_FILE =? VOLDB_FILE then
          e <- voldb_get_file oldfreeptr ;;
          vassert (negb (nextptr e =? VOLDB_ENTRY_USED)) ;;;
          let '(f, newfreeptr, newunique) := use_entry TYPE_FILE e in
          voldb_put_file oldfreeptr f ;;;
          vret (newfreeptr, newunique)
        else vabort) ;;
  set_freeptr (fst r) ;;;
  voldb_write_hdr ;;;
  vret (oldfreeptr, snd r).

Definition vdbflat_new_entry : VM (Z * Z) :=
  w <- vdb_of ;;
  (if freeptr w =? VOLDB_FREELIST_END
   then vdbflat_extend_db VOLDB_ENTEND_NUM
   else vret tt) ;;;
  take_free_entry.

(** What [vdbflat_del_entry] stores. *)
Definition free_entry (next : Z) (e : voldb_file_entry) : voldb_file_entry :=
  set_ino zero_onode (set_nextptr next (set_LinkCount 0 (set_Parent 0 0 (set_FileType 0 e)))).

(** Returns the onode of the entry, which goes to [*ino] unless that is null. *)
Definition vdbflat_del_entry (k : Z) : VM onode_opaque :=
  w <- vdb_of ;;
  d <- vget ;;
  o <- (if kind_bits d =? VOLDB_DIR then
          e <- voldb_get_dir k ;;
          vassert (nextptr (dfile e) =? VOLDB_ENTRY_USED) ;;;
          voldb_put_dir k (DirEntry (free_entry (freeptr w) (dfile e)) (negacl e) (acl e)) ;;;
          vret (ino (dfile e))
        else if kind_bits d =? VOLDB_FILE then
          e <- voldb_get_file k ;;
          vassert (nextptr e =? VOLDB_ENTRY_USED) ;;;
          voldb_put_file k (free_entry (freeptr w) e) ;;;
          vret (ino e)
        else vfail EINVAL) ;;
  set_freeptr k ;;;
  voldb_write_hdr ;;;
  vret o.

Definition vdbflat_flush : VM unit := vdb_of ;;; sys_check.

Definition vdbflat_expand (k : Z) : VM unit :=
  d <- vget ;;
  let entriesneeded := swrap32 (uwrap32 k - num d + 1) in
  if 0 <? entriesneeded
  then vdbflat_extend_db (uwrap32 (entriesneeded + VOLDB_ENTEND_NUM))
  else vret tt.

(** One round of the loop of [vdbflat_rebuild]: the new value of [freeptr]. *)
Definition rebuild_entry (i fp : Z) : VM Z :=
  d <- vget ;;
  if Z.land (hflags d) VOLDB_DIR =? VOLDB_DIR then
    e <- voldb_get_dir i ;;
    if nextptr (dfile e) =? VOLDB_ENTRY_USED
    then vassert (FileType (dfile e) =? TYPE_DIR) ;;; vret fp
    else voldb_put_dir i (DirEntry (set_nextptr VOLDB_FREELIST_END (dfile e)) (negacl e) (acl e)) ;;;
         vret i
  else
    e <- voldb_get_file i ;;
    if nextptr e =? VOLDB_ENTRY_USED
    then vassert (FileType e =? TYPE_FILE) ;;; vret fp
    else voldb_put_file i (set_nextptr VOLDB_FREELIST_END e) ;;; vret i.

Fixpoint rebuild_loop (l : list Z) (fp : Z) : VM Z :=
  match l with
  | [] => vret fp
  | i :: l => fp <- rebuild_entry i fp ;; rebuild_loop l fp
  end.

(** [i] is an [int] that runs from [num - 1] down to 0. *)
Definition vdbflat_rebuild : VM unit :=
  d <- vget ;;
  fp <- rebuild_loop (rev (seqZ 0 (swrap32 (num d - 1) + 1))) VOLDB_FREELIST_END ;;
  set_freeptr fp.

(** ** voldb.c *)

(** The bound of the code divides the size of what an element of [voltypes]
    points to by the size of an element: it is the 13 function pointers of a
    [struct voldb_type], not the one element of the array. *)
Definition voltypes_bound : Z := 13.

(** Run from a state that holds the file behind [fd]; [isreg] is
    [S_ISREG (sb.st_mode)]. *)
Definition voldb_init (fd ty vol : Z) (isreg : bool) : VM unit :=
  if (ty <? 0) || (voltypes_bound <=? ty) then vfail EINVAL else
  sys_check ;;;                                         (* fstat *)
  if negb isreg then vfail EINVAL else
  vcalloc ;;;
  vmod (fun d => Voldb 0 0 0 0 (blen (db_file d)) fd vol None (db_file d) (db_os d)) ;;;
  VOLDB_FUNC (vdbflat_init false).

(** The result of [vdbflat_close] is ignored. *)
Definition voldb_close : VM unit := fun d =>
  match VOLDB_FUNC vdbflat_close d with
  | Some (d, _) => Some (d, inr tt)
  | None => None
  end.

Definition voldb_put_acl (k : Z) (e : voldb_dir_entry) : VM unit :=
  d <- vget ;;
  vassert (Z.land (hflags d) VOLDB_DIR =? VOLDB_DIR) ;;;
  VOLDB_FUNC (vdbflat_put_acl k e).

(** [e->u.dir] and [e->u.file] are the same memory; a caller that sets the
    type and fills the other member of the union is outside the model. *)
Definition voldb_put_entry (k : Z) (e : voldb_entry) : VM unit :=
  d <- vget ;;
  match u e with
  | u_dir f =>
      vassert (type e =? TYPE_DIR) ;;;
      vassert (Z.land (hflags d) VOLDB_DIR =? VOLDB_DIR) ;;;
      vassert (FileType (dfile f) =? type e) ;;;
      voldb_put_dir (uwrap32 k) f
  | u_file f =>
      vassert ((type e =? TYPE_FILE) || (type e =? TYPE_LINK)) ;;;
      vassert (Z.land (hflags d) VOLDB_FILE =? VOLDB_FILE) ;;;
      vassert (FileType f =? type e) ;;;
      voldb_put_file (uwrap32 k) f
  end.

Definition voldb_get_size : VM (Z * Z) :=
  d <- vget ;; vret (swrap32 (size d), swrap32 (num d)).

Definition voldb_get_entry (k : Z) : VM voldb_entry :=
  d <- vget ;;
  if Z.land (hflags d) VOLDB_DIR =? VOLDB_DIR then
    e <- voldb_get_dir (uwrap32 k) ;; vret (Entry TYPE_DIR (u_dir e))
  else if Z.land (hflags d) VOLDB_FILE =? VOLDB_FILE then
    e <- voldb_get_file (uwrap32 k) ;; vret (Entry (swrap32 (FileType e)) (u_file e))
  else vabort.

Definition voldb_expand (k : Z) : VM unit := VOLDB_FUNC (vdbflat_expand k).
Definition voldb_rebuild : VM unit := VOLDB_FUNC vdbflat_rebuild.

(** [struct voldb db] is on the stack: its [fd] and [volume] are never set,
    and [vdbflat_close] closes that [fd]. *)
Definition voldb_create_header (ty fl : Z) : VM unit :=
  sys_check ;;;                                         (* fstat *)
  d <- vget ;;
  if negb (blen (db_file d) =? 0) then vfail EINVAL else
  sys_check ;;;                                         (* ftruncate *)
  vmod (fun d => Voldb VOLDB_MAGIC_HEADER 0 (uwrap32 fl) ty VOLDB_HEADER_SIZE (db_fd d)
                   (volume d) None (resize (Z.to_nat VOLDB_HEADER_SIZE) 0 (db_file d))
                   (db_os d)) ;;;
  fun d =>
  match (VOLDB_FUNC (vdbflat_init true) ;;; voldb_write_hdr ;;; VOLDB_FUNC vdbflat_close) d with
  | Some (d, inr _) => Some (d, inr tt)
  | _ => None                                           (* abort () *)
  end.

Definition voldb_flush : VM unit := voldb_write_hdr ;;; VOLDB_FUNC vdbflat_flush.

Definition voldb_new_entry : VM (Z * Z) :=
  d <- vget ;;
  vassert (negb (kind_bits d =? Z.lor VOLDB_FILE VOLDB_DIR)) ;;;
  vassert (negb (kind_bits d =? 0)) ;;;
  VOLDB_FUNC vdbflat_new_entry.

Definition voldb_del_entry (k : Z) : VM onode_opaque := VOLDB_FUNC (vdbflat_del_entry k).

Definition voldb_header_info : VM (Z * Z) := d <- vget ;; vret (num d, hflags d).
Definition voldb_get_volume (d : voldb) : Z := uwrap32 (volume d).

Definition voldb_update_time (e : voldb_entry) (t : Z) : option voldb_entry :=
  match u e with
  | u_dir f =>
      if type e =? TYPE_DIR
      then Some (Entry (type e)
                   (u_dir (DirEntry (set_ServerModTime (uwrap32 t) (dfile f)) (negacl f) (acl f))))
      else None
  | u_file f =>
      if (type e =? TYPE_FILE) || (type e =? TYPE_LINK)
      then Some (Entry (type e) (u_file (set_ServerModTime (uwrap32 t) f)))
      else None
  end.

End Coder.
