(* ===== verification/VoldbRep.v ===== *)
(** * Volume database: entries as bytes

    What the loads and stores of the flat database do to the file: an entry
    is stored as one run of bytes ([enc_entry]), it is read back field by
    field, and it depends on nothing but its own bytes. *)

From S2P Require Import Prelude Buf Voldb.

(** ** Runs of bytes *)

Definition words_bytes (ws : list Z) : bytes := flat_map be32 ws.

Lemma blen_words_bytes ws : blen (words_bytes ws) = 4 * Z.of_nat (length ws).
Proof.
  unfold words_bytes. induction ws as [|w ws IH]; [done|].
  cbn [flat_map]. rewrite blen_app, blen_be32, IH. simpl length. lia.
Qed.
#[export] Hint Rewrite blen_words_bytes : milko_len.

Lemma put_words_in b a ws :
  0 <= a -> a + 4 * Z.of_nat (length ws) <= blen b ->
  put_words b a ws = Some (st b a (words_bytes ws)).
Proof.
  revert b a. induction ws as [|w ws IH]; intros b a Ha Hb; cbn [put_words].
  - f_equal. unfold words_bytes, st. cbn [flat_map].
    destruct (in_buf _ _ _) eqn:E; [|done]. simpl. rewrite Nat.add_0_r. by rewrite take_drop.
  - simpl length in Hb. rewrite wr_in by (autorewrite with milko_len; lia).
    cbn [mbind option_bind]. rewrite IH by (rewrite ?blen_st; lia).
    f_equal. unfold words_bytes. cbn [flat_map].
    change 4 with (blen (be32 w)) at 1.
    rewrite st_app; [done|lia|].
    change (flat_map be32 ws) with (words_bytes ws). autorewrite with milko_len. lia.
Qed.

(** Bytes of a stored run. *)
Lemma ld8_st_mid b a p x q i :
  0 <= a -> a + blen (p ++ x ++ q) <= blen b -> 0 <= i < blen x ->
  ld8 (st b a (p ++ x ++ q)) (a + blen p + i) = default 0 (x !! Z.to_nat i).
Proof.
  intros Ha Hb Hi. rewrite !blen_app in Hb.
  destruct (lookup_lt_is_Some_2 x (Z.to_nat i)) as [z Hz]; [unfold blen in *; lia|].
  rewrite Hz. replace (a + blen p + i) with (a + Z.of_nat (length p + Z.to_nat i))
    by (unfold blen in *; lia).
  apply ld8_st_in; rewrite ?blen_app; try lia.
  rewrite lookup_app_r by lia. replace (_ + _ - _)%nat with (Z.to_nat i) by lia.
  by apply lookup_app_l_Some.
Qed.

Lemma ld32_st_mid b a p w q :
  0 <= a -> a + blen (p ++ be32 w ++ q) <= blen b ->
  ld32 (st b a (p ++ be32 w ++ q)) (a + blen p) = uwrap32 w.
Proof.
  intros Ha Hb. rewrite <- of_be_be32. unfold ld32, ld16.
  replace (a + blen p) with (a + blen p + 0) at 1 by lia.
  replace (a + blen p + 2 + 1) with (a + blen p + 3) by lia.
  rewrite !ld8_st_mid by (rewrite ?blen_be32; lia || done).
  unfold of_be, be32. simpl. lia.
Qed.

Lemma get_words_st b a p ws q :
  0 <= a -> a + blen (p ++ words_bytes ws ++ q) <= blen b ->
  get_words (st b a (p ++ words_bytes ws ++ q)) (a + blen p) (length ws)
  = Some (map uwrap32 ws).
Proof.
  revert p. induction ws as [|w ws IH]; intros p Ha Hb; [done|].
  pose proof (blen_nonneg p). pose proof (blen_nonneg q).
  unfold words_bytes in *. cbn [flat_map length get_words map] in *.
  rewrite <- !app_assoc in *.
  assert (Hlen : 0 <= blen (flat_map be32 ws)) by apply blen_nonneg.
  pose proof Hb as Hb'. rewrite !blen_app, blen_be32 in Hb'.
  rewrite rd32_in by (rewrite ?blen_st; lia). cbn [mbind option_bind].
  rewrite ld32_st_mid by done.
  replace (a + blen p + 4) with (a + blen (p ++ be32 w)) by (autorewrite with milko_len; lia).
  rewrite (app_assoc p) in Hb |- *. rewrite IH by done. done.
Qed.

Lemma get_bytes_st b a p x q :
  0 <= a -> a + blen (p ++ x ++ q) <= blen b ->
  get_bytes (st b a (p ++ x ++ q)) (a + blen p) (blen x) = Some x.
Proof.
  intros Ha Hb. pose proof Hb as Hb'. rewrite !blen_app in Hb'.
  pose proof (blen_nonneg p). pose proof (blen_nonneg q). pose proof (blen_nonneg x).
  unfold get_bytes. rewrite in_buf_true by (rewrite ?blen_st; lia). f_equal.
  unfold st. rewrite in_buf_true by (rewrite ?blen_app; lia).
  unfold blen in *. rewrite !length_app in *.
  rewrite drop_app_ge by (rewrite length_take; lia). rewrite length_take.
  replace (Z.to_nat (a + Z.of_nat (length p)) - Z.to_nat a `min` length b)%nat
    with (length p) by lia.
  rewrite <- !app_assoc, drop_app_length, Nat2Z.id. by rewrite take_app_length.
Qed.

(** ** Reads that see the same bytes *)

(** [b'] extends or changes [b] outside [lo, hi). *)
Definition same_in (lo hi : Z) (b b' : bytes) : Prop :=
  hi <= blen b /\ hi <= blen b' /\ forall i, lo <= i < hi -> ld8 b' i = ld8 b i.

Lemma same_in_weaken lo hi lo' hi' b b' :
  same_in lo hi b b' -> lo <= lo' -> hi' <= hi -> same_in lo' hi' b b'.
Proof. intros (H1 & H2 & H3) ??. split; [lia|split; [lia|]]. intros. apply H3. lia. Qed.

Lemma same_in_st lo hi b a x :
  hi <= blen b -> hi <= a \/ a + blen x <= lo -> same_in lo hi b (st b a x).
Proof.
  intros H1 H2. split; [done|]. rewrite blen_st. split; [done|].
  intros i Hi. apply ld8_st_out. lia.
Qed.

Section SameIn.
Context (lo hi : Z) (b b' : bytes) (Hs : same_in lo hi b b').

Lemma same_in_rd8 a : 0 <= lo <= a -> a + 1 <= hi -> rd8 b' a = rd8 b a.
Proof.
  intros Ha Hb. destruct Hs as (H1 & H2 & H3). rewrite !rd8_in by lia. f_equal. apply H3. lia.
Qed.

Lemma same_in_rd32 a : 0 <= lo <= a -> a + 4 <= hi -> rd32 b' a = rd32 b a.
Proof. intros Ha Hb. unfold rd32, rd16. by rewrite !same_in_rd8 by lia. Qed.

Lemma same_in_get_words a n :
  0 <= lo <= a -> a + 4 * Z.of_nat n <= hi -> get_words b' a n = get_words b a n.
Proof.
  revert a. induction n as [|n IH]; intros a Ha Hb; [done|]. cbn [get_words].
  rewrite same_in_rd32 by lia. by rewrite IH by lia.
Qed.

Lemma same_in_get_bytes a n :
  0 <= lo <= a -> a + n <= hi -> 0 <= n -> get_bytes b' a n = get_bytes b a n.
Proof.
  intros Ha Hb Hn. destruct Hs as (H1 & H2 & H3). unfold get_bytes.
  rewrite !in_buf_true by lia. f_equal.
  apply list_eq_same_length with (n := Z.to_nat n).
  1,2: rewrite length_take, length_drop; unfold blen in *; lia.
  intros i c c' Hi. rewrite !lookup_take_lt by lia. rewrite !lookup_drop. intros Hc Hc'.
  pose proof (same_in_rd8 (a + Z.of_nat i)) as E. unfold rd8 in E.
  destruct (Z.leb_spec 0 (a + Z.of_nat i)); [|lia].
  replace (Z.to_nat (a + Z.of_nat i)) with (Z.to_nat a + i)%nat in E by lia.
  rewrite Hc, Hc' in E. assert (Some c = Some c') as [=]; [|done]. apply E; lia.
Qed.

End SameIn.

(** ** Entries *)

Section Coder.
Context `{OnodeCoderOk}.

Definition enc_entry (e : voldb_file_entry) : bytes :=
  words_bytes [nextptr e; unique e] ++ ydr_encode_onode_opaque (ino e)
  ++ words_bytes (entry_words e).

(** The words of an entry are of 32 bits. *)
Definition entry_wf (e : voldb_file_entry) : Prop :=
  Forall is_uint32 (nextptr e :: unique e :: entry_words e) /\ onode_wf (ino e).

Lemma blen_encode_onode o :
  onode_wf o -> blen (ydr_encode_onode_opaque o) = ONODE_OPAQUE_SIZE.
Proof. intros Ho. unfold blen. rewrite ydr_encode_onode_len by done. done. Qed.

Lemma blen_enc_entry e : onode_wf (ino e) -> blen (enc_entry e) = VOLDB_FILE_SIZE.
Proof. intros Ho. unfold enc_entry. autorewrite with milko_len. by rewrite blen_encode_onode. Qed.

Lemma put_entry_at_in b a e :
  0 <= a -> a + VOLDB_FILE_SIZE <= blen b -> onode_wf (ino e) ->
  put_entry_at b a e = Some (st b a (enc_entry e)).
Proof.
  intros Ha Hb Ho. unfold put_entry_at.
  change VOLDB_FILE_SIZE with 480 in Hb.
  rewrite put_words_in by (simpl length; lia). cbn [mbind option_bind].
  rewrite wr_in by (rewrite ?blen_st, ?blen_encode_onode by done; change ONODE_OPAQUE_SIZE with 404; lia).
  cbn [mbind option_bind].
  rewrite put_words_in by (rewrite ?blen_st; change ONODE_OPAQUE_SIZE with 404; simpl length; lia).
  f_equal. pose proof (blen_encode_onode (ino e) Ho) as Hl.
  change 8 with (blen (words_bytes [nextptr e; unique e])).
  rewrite st_app; [|lia|rewrite Hl; autorewrite with milko_len; change ONODE_OPAQUE_SIZE with 404; simpl; lia].
  rewrite <- Hl, <- Z.add_assoc, <- blen_app.
  rewrite st_app; [by rewrite <- app_assoc|lia|].
  rewrite blen_app, Hl. autorewrite with milko_len. change ONODE_OPAQUE_SIZE with 404. simpl. lia.
Qed.

Lemma uwrap32_small z : is_uint32 z -> uwrap32 z = z.
Proof. intros. by apply Z.mod_small. Qed.

Lemma map_uwrap32_small ws : Forall is_uint32 ws -> map uwrap32 ws = ws.
Proof. induction 1; [done|]. simpl. rewrite uwrap32_small by done. by f_equal. Qed.

(** What was stored is read back. *)
Lemma get_entry_at_st b a e :
  0 <= a -> a + VOLDB_FILE_SIZE <= blen b -> entry_wf e ->
  get_entry_at (st b a (enc_entry e)) a = Some e.
Proof.
  intros Ha Hb [Hw Ho]. pose proof (blen_encode_onode (ino e) Ho) as Hl.
  pose proof (blen_enc_entry e Ho) as Hlen. set (b' := st b a (enc_entry e)).
  assert (Hhd : get_words b' a 2 = Some [nextptr e; unique e]).
  { pose proof (get_words_st b a [] [nextptr e; unique e]
      (ydr_encode_onode_opaque (ino e) ++ words_bytes (entry_words e)) Ha) as E.
    rewrite blen_nil, Z.add_0_r in E. unfold b', enc_entry.
    cbn [app length] in E. rewrite E.
    - f_equal. apply map_uwrap32_small. by inversion Hw as [|?? ? Hw2]; inversion Hw2; subst; auto.
    - unfold enc_entry in Hlen. rewrite Hlen. lia. }
  assert (Ho' : get_bytes b' (a + 8) ONODE_OPAQUE_SIZE = Some (ydr_encode_onode_opaque (ino e))).
  { rewrite <- Hl. unfold b', enc_entry.
    change 8 with (blen (words_bytes [nextptr e; unique e])).
    apply get_bytes_st; [done|]. unfold enc_entry in Hlen. lia. }
  assert (Htl : get_words b' (a + 8 + ONODE_OPAQUE_SIZE) 17 = Some (entry_words e)).
  { rewrite <- Hl. unfold b', enc_entry.
    change 8 with (blen (words_bytes [nextptr e; unique e])).
    rewrite <- Z.add_assoc, <- blen_app, app_assoc, <- (app_nil_r (words_bytes (entry_words e))).
    change 17%nat with (length (entry_words e)).
    rewrite get_words_st; [|done|].
    - f_equal. apply map_uwrap32_small. by inversion Hw as [|?? ? Hw2]; inversion Hw2; subst.
    - rewrite app_nil_r, <- app_assoc. unfold enc_entry in Hlen. lia. }
  unfold get_entry_at. cbn [get_words] in Hhd.
  destruct (rd32 b' a) as [n|]; [|discriminate]. destruct (rd32 b' (a + 4)) as [q|]; [|discriminate].
  cbn [mbind option_bind] in Hhd |- *. injection Hhd as -> ->.
  rewrite Ho', Htl. cbn [mbind option_bind entry_words].
  rewrite ydr_onode_round_trip by exact Ho. destruct e. reflexivity.
Qed.

Lemma same_in_get_entry_at b b' a :
  0 <= a -> same_in a (a + VOLDB_FILE_SIZE) b b' -> get_entry_at b' a = get_entry_at b a.
Proof.
  intros Ha Hs. unfold get_entry_at. change VOLDB_FILE_SIZE with 480 in Hs.
  change ONODE_OPAQUE_SIZE with 404.
  rewrite !(same_in_rd32 _ _ _ _ Hs) by lia. rewrite (same_in_get_bytes _ _ _ _ Hs) by lia.
  by rewrite (same_in_get_words _ _ _ _ Hs) by lia.
Qed.

(** The entry at [a]. *)
Definition entry_at (b : bytes) (a : Z) : voldb_file_entry :=
  default zero_entry (get_entry_at b a).

Lemma ld32_range b a : Forall is_byte b -> is_uint32 (ld32 b a).
Proof.
  intros Hb. assert (H8 : forall i, is_byte (ld8 b i)).
  { intros i. unfold ld8, rd8. destruct (0 <=? i); [|unfold is_byte; simpl; lia].
    destruct (b !! Z.to_nat i) eqn:E; [|unfold is_byte; simpl; lia].
    by eapply Forall_lookup_1 in Hb. }
  unfold ld32, ld16. pose proof (H8 a). pose proof (H8 (a + 1)). pose proof (H8 (a + 2)).
  pose proof (H8 (a + 2 + 1)). unfold is_byte, is_uint32 in *. lia.
Qed.

Lemma get_words_in b a n :
  0 <= a -> a + 4 * Z.of_nat n <= blen b -> Forall is_byte b ->
  exists ws, get_words b a n = Some ws /\ length ws = n /\ Forall is_uint32 ws.
Proof.
  intros Ha Hb Hby. revert a Ha Hb. induction n as [|n IH]; intros a Ha Hb.
  - exists []. done.
  - cbn [get_words]. rewrite rd32_in by lia. cbn [mbind option_bind].
    destruct (IH (a + 4)) as (ws & E & Hl & Hw); [lia|lia|]. rewrite E.
    exists (ld32 b a :: ws). split; [done|]. split; [simpl; lia|].
    constructor; [by apply ld32_range|done].
Qed.

Lemma get_bytes_in b a n :
  0 <= a -> 0 <= n -> a + n <= blen b -> Forall is_byte b ->
  exists x, get_bytes b a n = Some x /\ length x = Z.to_nat n /\ Forall is_byte x.
Proof.
  intros Ha Hn Hb Hby. unfold get_bytes. rewrite in_buf_true by lia. eexists. split; [done|].
  split; [rewrite length_take, length_drop; unfold blen in *; lia|].
  by apply Forall_take, Forall_drop.
Qed.

Lemma get_entry_at_in b a :
  0 <= a -> a + VOLDB_FILE_SIZE <= blen b -> Forall is_byte b ->
  get_entry_at b a = Some (entry_at b a) /\ entry_wf (entry_at b a).
Proof.
  intros Ha Hb Hby. change VOLDB_FILE_SIZE with 480 in Hb.
  enough (exists e, get_entry_at b a = Some e /\ entry_wf e) as (e & E & Hwf).
  { unfold entry_at. rewrite E. done. }
  unfold get_entry_at. rewrite !rd32_in by lia. cbn [mbind option_bind].
  destruct (get_bytes_in b (a + 8) ONODE_OPAQUE_SIZE) as (x & -> & Hxl & Hxb);
    [lia|done|change ONODE_OPAQUE_SIZE with 404; lia|done|].
  destruct (get_words_in b (a + 8 + ONODE_OPAQUE_SIZE) 17) as (ws & -> & Hwl & Hww);
    [change ONODE_OPAQUE_SIZE with 404; lia|change ONODE_OPAQUE_SIZE with 404; lia|done|].
  cbn [mbind option_bind].
  do 17 (destruct ws as [|? ws]; [done|]). destruct ws; [|done].
  eexists. split; [done|]. split.
  - constructor; [by apply ld32_range|]. constructor; [by apply ld32_range|]. exact Hww.
  - by apply ydr_decode_onode_wf.
Qed.

Lemma entry_at_st b a e :
  0 <= a -> a + VOLDB_FILE_SIZE <= blen b -> entry_wf e ->
  entry_at (st b a (enc_entry e)) a = e.
Proof. intros. unfold entry_at. by rewrite get_entry_at_st. Qed.

Lemma same_in_entry_at b b' a :
  0 <= a -> same_in a (a + VOLDB_FILE_SIZE) b b' -> entry_at b' a = entry_at b a.
Proof. intros. unfold entry_at. by erewrite same_in_get_entry_at. Qed.

End Coder.

(** ** The ACLs of a directory entry *)

Definition acl_wf (l : list acl_entry) : Prop :=
  length l = FS_MAX_ACL /\ Forall (fun x => is_uint32 (owner x) /\ is_uint32 (flags x)) l.

Lemma acl_words_flat l :
  length l = FS_MAX_ACL -> acl_words l = flat_map (fun x => [owner x; flags x]) l.
Proof.
  intros Hl. do 8 (destruct l as [|? l]; [discriminate|]). by destruct l; [|discriminate].
Qed.

Lemma words_acl_words l : acl_wf l -> words_acl (map uwrap32 (acl_words l)) = l.
Proof.
  intros [Hl Hw]. rewrite acl_words_flat by done. clear Hl.
  induction Hw as [|x l [Ho Hf] Hw IH]; [done|]. cbn [flat_map map app words_acl].
  rewrite !uwrap32_small by done. rewrite IH. by destruct x.
Qed.

Lemma length_acl_words l : length (acl_words l) = (2 * FS_MAX_ACL)%nat.
Proof. done. Qed.

Definition acls_size : Z := VOLDB_DIR_SIZE - VOLDB_FILE_SIZE.
Definition enc_acls (e : voldb_dir_entry) : bytes :=
  words_bytes (acl_words (negacl e) ++ acl_words (acl e)).

Lemma blen_enc_acls e : blen (enc_acls e) = acls_size.
Proof. unfold enc_acls. rewrite blen_words_bytes, length_app, !length_acl_words. done. Qed.

Lemma put_acls_at_in b a e :
  0 <= a -> a + acls_size <= blen b -> put_acls_at b a e = Some (st b a (enc_acls e)).
Proof.
  intros Ha Hb. unfold put_acls_at. apply put_words_in; [done|].
  rewrite length_app, !length_acl_words. change acls_size with 128 in Hb. simpl. lia.
Qed.

Lemma get_acls_at_st b a e :
  0 <= a -> a + acls_size <= blen b -> acl_wf (negacl e) -> acl_wf (acl e) ->
  get_acls_at (st b a (enc_acls e)) a = Some (negacl e, acl e).
Proof.
  intros Ha Hb Hn Hp. unfold get_acls_at.
  pose proof (blen_enc_acls e) as Hlen. unfold enc_acls in *.
  unfold words_bytes in *. rewrite flat_map_app in *.
  fold (words_bytes (acl_words (negacl e))) (words_bytes (acl_words (acl e))) in *.
  pose proof (get_words_st b a [] (acl_words (negacl e)) (words_bytes (acl_words (acl e)))) as E1.
  pose proof (get_words_st b a (words_bytes (acl_words (negacl e))) (acl_words (acl e)) []) as E2.
  rewrite blen_nil, Z.add_0_r, length_acl_words in E1. cbn [app] in E1.
  rewrite app_nil_r, length_acl_words, blen_words_bytes, length_acl_words in E2.
  rewrite E1 by lia. cbn [mbind option_bind].
  change (a + 4 * 2 * Z.of_nat FS_MAX_ACL) with (a + 4 * Z.of_nat (2 * FS_MAX_ACL)).
  rewrite E2 by lia. cbn [mbind option_bind]. by rewrite !words_acl_words.
Qed.

Definition acls_at (b : bytes) (a : Z) : list acl_entry * list acl_entry :=
  default ([], []) (get_acls_at b a).

Lemma words_acl_wf ws :
  length ws = (2 * FS_MAX_ACL)%nat -> Forall is_uint32 ws -> acl_wf (words_acl ws).
Proof.
  intros Hl Hw. change (2 * FS_MAX_ACL)%nat with 16%nat in Hl.
  do 16 (destruct ws as [|? ws]; [discriminate|]). destruct ws; [|discriminate].
  split; [done|]. cbn [words_acl].
  repeat (apply Forall_cons in Hw as [? Hw]). by repeat (constructor; [by split|]).
Qed.

Lemma get_acls_at_in b a :
  0 <= a -> a + acls_size <= blen b -> Forall is_byte b ->
  get_acls_at b a = Some (acls_at b a) /\
  acl_wf (fst (acls_at b a)) /\ acl_wf (snd (acls_at b a)).
Proof.
  intros Ha Hb Hby. change acls_size with 128 in Hb.
  enough (exists p, get_acls_at b a = Some p /\ acl_wf (fst p) /\ acl_wf (snd p)) as (p & E & Hwf).
  { unfold acls_at. rewrite E. done. }
  unfold get_acls_at.
  destruct (get_words_in b a (2 * FS_MAX_ACL)) as (x & -> & Hxl & Hxb);
    [lia|change (Z.of_nat (2 * FS_MAX_ACL)) with 16; lia|done|].
  cbn [mbind option_bind].
  destruct (get_words_in b (a + 4 * 2 * Z.of_nat FS_MAX_ACL) (2 * FS_MAX_ACL))
    as (y & -> & Hyl & Hyb);
    [change (Z.of_nat FS_MAX_ACL) with 8; lia
    |change (Z.of_nat FS_MAX_ACL) with 8; change (Z.of_nat (2 * FS_MAX_ACL)) with 16; lia|done|].
  cbn [mbind option_bind]. eexists. split; [done|]. cbn [fst snd].
  split; by apply words_acl_wf.
Qed.

Lemma same_in_acls_at b b' a :
  0 <= a -> same_in a (a + acls_size) b b' -> acls_at b' a = acls_at b a.
Proof.
  intros Ha Hs. unfold acls_at, get_acls_at. change acls_size with 128 in Hs.
  change (Z.of_nat FS_MAX_ACL) with 8. change (2 * FS_MAX_ACL)%nat with 16%nat.
  by rewrite !(same_in_get_words _ _ _ _ Hs) by lia.
Qed.

(** Nothing is read past the end. *)
Lemma get_entry_at_out `{OnodeCoder} b a : blen b <= a -> get_entry_at b a = None.
Proof.
  intros Ha. assert (E : rd32 b a = None).
  { unfold rd32, rd16. by rewrite (rd8_out b a) by lia. }
  unfold get_entry_at. by rewrite E.
Qed.

(** ** Bytes stay bytes *)

Lemma be32_bytes z : Forall is_byte (be32 z).
Proof.
  unfold be32, is_byte. cbv zeta.
  assert (0 <= uwrap32 z < 2^32) by (apply Z.mod_pos_bound; lia).
  apply Forall_cons. split; [split; [apply Z.div_pos|apply Z.div_lt_upper_bound]; lia|].
  repeat (apply Forall_cons; split; [apply Z.mod_pos_bound; lia|]). by apply Forall_nil.
Qed.

Lemma words_bytes_bytes ws : Forall is_byte (words_bytes ws).
Proof.
  unfold words_bytes. induction ws; [done|]. cbn [flat_map].
  apply Forall_app. split; [apply be32_bytes|done].
Qed.

Lemma st_bytes b a x : Forall is_byte b -> Forall is_byte x -> Forall is_byte (st b a x).
Proof.
  intros Hb Hx. unfold st. destruct (in_buf _ _ _); [|done].
  apply Forall_app. split; [by apply Forall_take|].
  apply Forall_app. split; [done|by apply Forall_drop].
Qed.

Lemma enc_entry_bytes `{OnodeCoderOk} e : onode_wf (ino e) -> Forall is_byte (enc_entry e).
Proof.
  intros Ho. unfold enc_entry. apply Forall_app. split; [apply words_bytes_bytes|].
  apply Forall_app. split; [by apply ydr_encode_onode_bytes|apply words_bytes_bytes].
Qed.

Lemma resize_bytes n b : Forall is_byte b -> Forall is_byte (resize n 0 b).
Proof.
  intros Hb. apply Forall_lookup. intros i x Hx.
  pose proof (lookup_lt_Some _ _ _ Hx) as Hi. rewrite length_resize in Hi.
  destruct (decide (i < length b)%nat).
  - rewrite lookup_resize in Hx by lia. by eapply Forall_lookup_1.
  - rewrite lookup_resize_new in Hx by lia. simplify_eq. unfold is_byte. lia.
Qed.
