(* ===== verification/VoldbFree.v ===== *)
(** * Volume database: the state of a handle

    The invariant of an open database ([voldb_wf]), the entries seen through
    it ([slot]), what each access does to them, and the free list as a list
    of entry numbers ([free_chain]). *)

From S2P Require Import Prelude Buf Voldb VoldbRep.

(** ** The monad *)

Lemma vbind_ok {A B} (m : VM A) (k : A -> VM B) d d' a :
  m d = Some (d', inr a) -> vbind m k d = k a d'.
Proof. intros E. unfold vbind. by rewrite E. Qed.

Lemma vbind_err {A B} (m : VM A) (k : A -> VM B) d d' e :
  m d = Some (d', inl e) -> vbind m k d = Some (d', inl e).
Proof. intros E. unfold vbind. by rewrite E. Qed.

Lemma vbind_none {A B} (m : VM A) (k : A -> VM B) d : m d = None -> vbind m k d = None.
Proof. intros E. unfold vbind. by rewrite E. Qed.

Lemma vbind_get {B} (k : voldb -> VM B) d : vbind vget k d = k d d.
Proof. done. Qed.
Lemma vbind_ret {A B} (a : A) (k : A -> VM B) d : vbind (vret a) k d = k a d.
Proof. done. Qed.
Lemma vbind_mod {B} f (k : unit -> VM B) d : vbind (vmod f) k d = k tt (f d).
Proof. done. Qed.

Lemma vassert_true (b : bool) d : b = true -> vassert b d = Some (d, inr tt).
Proof. by intros ->. Qed.

(** One step of a run: the first action succeeds. *)
Ltac vstep E := rewrite (vbind_ok _ _ _ _ _ E); cbv beta.

Section Handle.
Context `{OnodeCoderOk}.

Definition esize (d : voldb) : Z := default 0 (kind_size d).
Definition addr (d : voldb) (k : Z) : Z := entry_addr (esize d) k.
Definition slot (d : voldb) (k : Z) : voldb_file_entry := entry_at (db_file d) (addr d k).
Definition put_slot (k : Z) (e : voldb_file_entry) (d : voldb) : voldb :=
  set_file (st (db_file d) (addr d k) (enc_entry e)) d.
Definition slot_acls (d : voldb) (k : Z) : list acl_entry * list acl_entry :=
  acls_at (db_file d) (addr d k + VOLDB_FILE_SIZE).
Definition put_slot_acls (k : Z) (e : voldb_dir_entry) (d : voldb) : voldb :=
  set_file (st (db_file d) (addr d k + VOLDB_FILE_SIZE) (enc_acls e)) d.

(** An open database: one kind of entries, the file mapped, its size that of
    the header and [num] entries. *)
Record voldb_wf (d : voldb) : Prop := {
  wf_type : db_type d = 0;
  wf_magic : magic d = VOLDB_MAGIC_HEADER;
  wf_kind : is_Some (kind_size d);
  wf_flags : is_uint32 (hflags d);
  wf_ptr : exists f, ptr d = Some (Vdbflat f true) /\ is_uint32 f;
  wf_len : blen (db_file d) = size d;
  wf_size : size d = VOLDB_HEADER_SIZE + num d * esize d;
  wf_bound : size d < 2^32;
  wf_num : 0 <= num d;
  wf_bytes : Forall is_byte (db_file d);
}.

Definition the_freeptr (d : voldb) : Z := default 0 (freeptr <$> ptr d).

(** The two kinds of databases. *)
Definition is_file_db (d : voldb) : Prop :=
  kind_bits d = VOLDB_FILE /\ kind_size d = Some VOLDB_FILE_SIZE /\
  Z.land (hflags d) VOLDB_FILE = VOLDB_FILE /\ Z.land (hflags d) VOLDB_DIR = 0.
Definition is_dir_db (d : voldb) : Prop :=
  kind_bits d = VOLDB_DIR /\ kind_size d = Some VOLDB_DIR_SIZE /\
  Z.land (hflags d) VOLDB_FILE = 0 /\ Z.land (hflags d) VOLDB_DIR = VOLDB_DIR.

Lemma kind_cases d : is_Some (kind_size d) -> is_file_db d \/ is_dir_db d.
Proof.
  assert (Hf : Z.land (hflags d) VOLDB_FILE = Z.land (kind_bits d) VOLDB_FILE).
  { unfold kind_bits. rewrite <- Z.land_assoc. done. }
  assert (Hd : Z.land (hflags d) VOLDB_DIR = Z.land (kind_bits d) VOLDB_DIR).
  { unfold kind_bits. rewrite <- Z.land_assoc. done. }
  unfold is_file_db, is_dir_db, kind_size. rewrite Hf, Hd.
  destruct (Z.eqb_spec (kind_bits d) VOLDB_FILE) as [->|].
  { intros _. left. done. }
  destruct (Z.eqb_spec (kind_bits d) VOLDB_DIR) as [->|].
  { intros _. right. done. }
  by intros [? ?].
Qed.

Lemma esize_cases d : voldb_wf d -> esize d = VOLDB_FILE_SIZE \/ esize d = VOLDB_DIR_SIZE.
Proof.
  intros Hwf. unfold esize.
  destruct (kind_cases d (wf_kind _ Hwf)) as [(_ & -> & _)|(_ & -> & _)]; auto.
Qed.

Lemma esize_bounds d : voldb_wf d -> 480 <= esize d <= 608.
Proof.
  intros Hwf. destruct (esize_cases d Hwf) as [-> | ->];
    [change VOLDB_FILE_SIZE with 480|change VOLDB_DIR_SIZE with 608]; lia.
Qed.

(** The entries lie one after the other in the file. *)
Lemma addr_eq d k : voldb_wf d -> 0 <= k < num d ->
  addr d k = VOLDB_HEADER_SIZE + esize d * k.
Proof.
  intros Hwf Hk. unfold addr, entry_addr. f_equal. apply Z.mod_small.
  pose proof (esize_bounds d Hwf). pose proof (wf_size d Hwf). pose proof (wf_bound d Hwf).
  change VOLDB_HEADER_SIZE with 40 in *. nia.
Qed.

Lemma addr_range d k : voldb_wf d -> 0 <= k < num d ->
  40 <= addr d k /\ addr d k + esize d <= blen (db_file d).
Proof.
  intros Hwf Hk. rewrite (addr_eq d k Hwf Hk), (wf_len d Hwf), (wf_size d Hwf).
  pose proof (esize_bounds d Hwf). change VOLDB_HEADER_SIZE with 40. nia.
Qed.

Lemma addr_disjoint d j k : voldb_wf d -> 0 <= j < num d -> 0 <= k < num d -> j <> k ->
  addr d j + esize d <= addr d k \/ addr d k + esize d <= addr d j.
Proof.
  intros Hwf Hj Hk Hne. rewrite (addr_eq d j Hwf Hj), (addr_eq d k Hwf Hk).
  pose proof (esize_bounds d Hwf). destruct (Z.lt_ge_cases j k); [left|right]; nia.
Qed.

(** Entry numbers never look like the marks of the free list. *)
Lemma num_small d : voldb_wf d -> num d < VOLDB_ENTRY_USED.
Proof.
  intros Hwf. pose proof (esize_bounds d Hwf). pose proof (wf_size d Hwf).
  pose proof (wf_bound d Hwf). pose proof (wf_num d Hwf).
  change VOLDB_HEADER_SIZE with 40 in *. change VOLDB_ENTRY_USED with (2^32 - 2). nia.
Qed.

(** ** Accesses *)

Lemma vmap_ok d : voldb_wf d -> vmap d = Some (d, inr (db_file d)).
Proof.
  intros Hwf. destruct (wf_ptr d Hwf) as (f & Hp & _). unfold vmap, vdb_of, vbind, vget, vopt.
  rewrite Hp. done.
Qed.

Lemma vread_ok {A} (f : bytes -> option A) d a :
  voldb_wf d -> f (db_file d) = Some a -> vread f d = Some (d, inr a).
Proof.
  intros Hwf Hf. unfold vread. vstep (vmap_ok d Hwf). by rewrite Hf.
Qed.

Lemma vwrite_ok (f : bytes -> option bytes) d b :
  voldb_wf d -> f (db_file d) = Some b -> vwrite f d = Some (set_file b d, inr tt).
Proof.
  intros Hwf Hf. unfold vwrite. vstep (vmap_ok d Hwf). unfold vbind. rewrite Hf. done.
Qed.

Lemma func_ok {A} (f : VM A) d : voldb_wf d -> VOLDB_FUNC f d = f d.
Proof.
  intros Hwf. unfold VOLDB_FUNC, vbind, vget. by rewrite (wf_type d Hwf).
Qed.

Lemma get_file_ok d k : voldb_wf d -> is_file_db d -> 0 <= k < num d ->
  voldb_get_file k d = Some (d, inr (slot d k)).
Proof.
  intros Hwf (_ & Hks & Hf & _) Hk. unfold voldb_get_file. rewrite func_ok by done.
  unfold vdbflat_get_file, has_flag. unfold vbind at 1, vget. rewrite Hf.
  change (negb (negb (VOLDB_FILE =? 0))) with false. cbv iota.
  destruct (Z.ltb_spec (num d) k); [lia|].
  apply vread_ok; [done|]. pose proof (addr_range d k Hwf Hk) as Ha.
  unfold slot, addr, esize in *. rewrite Hks in *. cbn [default] in *. unfold default, id in *.
  apply get_entry_at_in; [lia|lia|apply (wf_bytes d Hwf)].
Qed.

Lemma put_file_ok d k e : voldb_wf d -> is_file_db d -> 0 <= k < num d -> onode_wf (ino e) ->
  voldb_put_file k e d = Some (put_slot k e d, inr tt).
Proof.
  intros Hwf (_ & Hks & Hf & _) Hk Ho. unfold voldb_put_file. rewrite func_ok by done.
  unfold vdbflat_put_file, has_flag. unfold vbind at 1, vget. rewrite Hf.
  change (negb (negb (VOLDB_FILE =? 0))) with false. cbv iota.
  destruct (Z.ltb_spec (num d) k); [lia|].
  apply vwrite_ok; [done|]. pose proof (addr_range d k Hwf Hk) as Ha.
  unfold addr, esize in *. rewrite Hks in *. unfold default, id in *.
  apply put_entry_at_in; [lia|lia|done].
Qed.

Lemma get_dir_ok d k : voldb_wf d -> is_dir_db d -> 0 <= k < num d ->
  voldb_get_dir k d
  = Some (d, inr (DirEntry (slot d k) (fst (slot_acls d k)) (snd (slot_acls d k)))).
Proof.
  intros Hwf (_ & Hks & _ & Hf) Hk. unfold voldb_get_dir. rewrite func_ok by done.
  unfold vdbflat_get_dir, has_flag. unfold vbind at 1, vget. rewrite Hf.
  change (negb (negb (VOLDB_DIR =? 0))) with false. cbv iota.
  destruct (Z.ltb_spec (num d) k); [lia|].
  pose proof (addr_range d k Hwf Hk) as Ha. pose proof (wf_bytes d Hwf).
  unfold slot, slot_acls, addr, esize in *. rewrite Hks in *. unfold default, id in *. cbv zeta.
  assert (VOLDB_DIR_SIZE = VOLDB_FILE_SIZE + acls_size) by done.
  assert (0 <= acls_size) by done. assert (0 <= VOLDB_FILE_SIZE) by done.
  rewrite (vbind_ok _ _ d d (entry_at (db_file d) (entry_addr VOLDB_DIR_SIZE k))).
  2:{ apply vread_ok; [done|]. apply get_entry_at_in; [lia|lia|done]. }
  rewrite (vbind_ok _ _ d d (acls_at (db_file d) (entry_addr VOLDB_DIR_SIZE k + VOLDB_FILE_SIZE))).
  2:{ apply vread_ok; [done|]. apply get_acls_at_in; [lia|lia|done]. }
  done.
Qed.

Lemma put_dir_ok d k e :
  voldb_wf d -> is_dir_db d -> 0 <= k < num d -> onode_wf (ino (dfile e)) ->
  voldb_put_dir k e d = Some (put_slot k (dfile e) d, inr tt).
Proof.
  intros Hwf (_ & Hks & _ & Hf) Hk Ho. unfold voldb_put_dir. rewrite func_ok by done.
  unfold vdbflat_put_dir, has_flag. unfold vbind at 1, vget. rewrite Hf.
  change (negb (negb (VOLDB_DIR =? 0))) with false. cbv iota.
  destruct (Z.ltb_spec (num d) k); [lia|].
  apply vwrite_ok; [done|]. pose proof (addr_range d k Hwf Hk) as Ha.
  unfold addr, esize in *. rewrite Hks in *. unfold default, id in *.
  assert (VOLDB_DIR_SIZE = VOLDB_FILE_SIZE + acls_size) by done. assert (0 <= acls_size) by done.
  apply put_entry_at_in; [lia|lia|done].
Qed.

Lemma put_acl_ok d k e : voldb_wf d -> is_dir_db d -> 0 <= k < num d ->
  vdbflat_put_acl k e d = Some (put_slot_acls k e d, inr tt).
Proof.
  intros Hwf (_ & Hks & _ & Hf) Hk.
  unfold vdbflat_put_acl, has_flag. unfold vbind at 1, vget. rewrite Hf.
  change (negb (negb (VOLDB_DIR =? 0))) with false. cbv iota.
  destruct (Z.ltb_spec (num d) k); [lia|].
  apply vwrite_ok; [done|]. pose proof (addr_range d k Hwf Hk) as Ha.
  unfold addr, esize in *. rewrite Hks in *. unfold default, id in *.
  assert (VOLDB_DIR_SIZE = VOLDB_FILE_SIZE + acls_size) by done. assert (0 <= VOLDB_FILE_SIZE) by done.
  apply put_acls_at_in; lia.
Qed.

(** ** Stores and the invariant *)

(** Everything but the file is the same. *)
Lemma set_file_file f d : db_file (set_file f d) = f.
Proof. by destruct d. Qed.

Lemma set_file_addr f d k : addr (set_file f d) k = addr d k.
Proof. by destruct d. Qed.

Lemma set_file_wf f d :
  voldb_wf d -> blen f = blen (db_file d) -> Forall is_byte f -> voldb_wf (set_file f d).
Proof. intros [] ??. destruct d. split; simpl in *; try done; congruence. Qed.

Lemma slot_wf d k : voldb_wf d -> 0 <= k < num d -> entry_wf (slot d k).
Proof.
  intros Hwf Hk. pose proof (addr_range d k Hwf Hk). pose proof (esize_bounds d Hwf).
  apply get_entry_at_in; [lia| |apply (wf_bytes d Hwf)]. change VOLDB_FILE_SIZE with 480. lia.
Qed.

Section PutSlot.
Context (d : voldb) (k : Z) (e : voldb_file_entry).
Context (Hwf : voldb_wf d) (Hk : 0 <= k < num d).

Lemma put_slot_wf : onode_wf (ino e) -> voldb_wf (put_slot k e d).
Proof.
  intros Ho. apply set_file_wf; [done|apply blen_st|].
  apply st_bytes; [apply (wf_bytes d Hwf)|by apply enc_entry_bytes].
Qed.

Lemma slot_put_slot : entry_wf e -> slot (put_slot k e d) k = e.
Proof.
  intros He. unfold slot, put_slot. rewrite set_file_file, set_file_addr.
  pose proof (addr_range d k Hwf Hk). pose proof (esize_bounds d Hwf).
  apply entry_at_st; [lia| |done]. change VOLDB_FILE_SIZE with 480. lia.
Qed.

Lemma slot_put_slot_ne j :
  onode_wf (ino e) -> 0 <= j < num d -> j <> k -> slot (put_slot k e d) j = slot d j.
Proof.
  intros Ho Hj Hne. unfold slot, put_slot. rewrite set_file_file, set_file_addr.
  pose proof (addr_range d k Hwf Hk). pose proof (addr_range d j Hwf Hj).
  pose proof (addr_disjoint d j k Hwf Hj Hk Hne). pose proof (esize_bounds d Hwf).
  apply same_in_entry_at; [lia|]. apply same_in_st.
  - change VOLDB_FILE_SIZE with 480. lia.
  - rewrite blen_enc_entry by done. change VOLDB_FILE_SIZE with 480. lia.
Qed.

(** The stores leave the header alone. *)
Lemma put_slot_header i : i + 4 <= 40 -> ld32 (db_file (put_slot k e d)) i = ld32 (db_file d) i.
Proof.
  intros Hi. unfold put_slot. rewrite set_file_file. pose proof (addr_range d k Hwf Hk).
  apply ld32_st_out. lia.
Qed.
End PutSlot.

Lemma put_slot_acls_slot d k e j : voldb_wf d -> is_dir_db d ->
  0 <= k < num d -> 0 <= j < num d -> slot (put_slot_acls k e d) j = slot d j.
Proof.
  intros Hwf (_ & Hks & _) Hk Hj. unfold slot, put_slot_acls. rewrite set_file_file, set_file_addr.
  pose proof (addr_range d k Hwf Hk). pose proof (addr_range d j Hwf Hj).
  pose proof (esize_bounds d Hwf).
  assert (esize d = VOLDB_FILE_SIZE + acls_size) as He by (unfold esize; by rewrite Hks).
  apply same_in_entry_at; [lia|]. change VOLDB_FILE_SIZE with 480 in *.
  apply same_in_st; [lia|]. rewrite blen_enc_acls. change acls_size with 128 in *.
  destruct (decide (j = k)) as [->|Hne]; [lia|].
  pose proof (addr_disjoint d j k Hwf Hj Hk Hne). lia.
Qed.

(** ** The free list *)

Fixpoint free_chain (d : voldb) (fp : Z) (fl : list Z) : Prop :=
  match fl with
  | [] => fp = VOLDB_FREELIST_END
  | k :: fl => fp = k /\ 0 <= k < num d /\ free_chain d (nextptr (slot d k)) fl
  end.

Lemma free_chain_range d fp fl k : free_chain d fp fl -> k ∈ fl -> 0 <= k < num d.
Proof.
  revert fp. induction fl as [|j fl IH]; intros fp; [by intros _ ?%not_elem_of_nil|].
  intros (_ & Hj & Hc) [->|Hk]%elem_of_cons; [done|by eapply IH].
Qed.

(** The list depends on the [nextptr] of its entries only. *)
Lemma free_chain_ext d d' fp fl :
  num d <= num d' -> (forall k, k ∈ fl -> nextptr (slot d' k) = nextptr (slot d k)) ->
  free_chain d fp fl -> free_chain d' fp fl.
Proof.
  intros Hn. revert fp. induction fl as [|j fl IH]; intros fp Hs; [done|].
  intros (-> & Hj & Hc). split; [done|]. split; [lia|].
  rewrite Hs by apply list_elem_of_here. apply IH; [|done].
  intros k Hk. apply Hs. by apply list_elem_of_further.
Qed.

(** Free entries are not marked as used. *)
Lemma free_chain_unused d fp fl k :
  voldb_wf d -> free_chain d fp fl -> k ∈ fl -> nextptr (slot d k) <> VOLDB_ENTRY_USED.
Proof.
  intros Hwf. revert fp. induction fl as [|j fl IH]; intros fp; [by intros _ ?%not_elem_of_nil|].
  intros (_ & Hj & Hc) [->|Hk]%elem_of_cons; [|by eapply IH].
  pose proof (num_small d Hwf). destruct fl as [|i fl]; cbn [free_chain] in Hc.
  - rewrite Hc. done.
  - destruct Hc as (-> & Hi & _). lia.
Qed.

(** The header in the file, which a reopening of the database reads. *)
Definition header_on_disk (d : voldb) : Prop :=
  ld32 (db_file d) 0 = magic d /\ ld32 (db_file d) 4 = num d /\
  ld32 (db_file d) 8 = hflags d /\ ld32 (db_file d) VOLDB_HEADER_HALF = the_freeptr d.

(** The database with the free list [fl]: the entries outside it are the
    used ones. *)
Record voldb_ok (d : voldb) (fl : list Z) : Prop := {
  ok_wf : voldb_wf d;
  ok_chain : free_chain d (the_freeptr d) fl;
  ok_nodup : NoDup fl;
  ok_used k : 0 <= k < num d -> k ∉ fl -> nextptr (slot d k) = VOLDB_ENTRY_USED;
  ok_header : header_on_disk d;
}.

End Handle.
