(* ===== verification/VoldbOps.v ===== *)
(** * Volume database: what the operations do

    The successful runs of the operations, as changes of the entries and of
    the free list. *)

From S2P Require Import Prelude Buf Voldb VoldbRep VoldbFree.

Lemma ld32_st_sub b a x i :
  0 <= a -> a + blen x <= blen b -> 0 <= i -> i + 4 <= blen x ->
  ld32 (st b a x) (a + i) = ld32 x i.
Proof.
  intros Ha Hb Hi Hx.
  assert (H8 : forall j, i <= j < i + 4 -> ld8 (st b a x) (a + j) = ld8 x j).
  { intros j Hj. replace (a + j) with (a + Z.of_nat (Z.to_nat j)) by lia.
    destruct (lookup_lt_is_Some_2 x (Z.to_nat j)) as [z Hz]; [unfold blen in *; lia|].
    rewrite (ld8_st_in _ _ _ _ z) by done. unfold ld8, rd8.
    destruct (Z.leb_spec 0 j); [|lia]. by rewrite Hz. }
  unfold ld32, ld16. replace (a + i + 2 + 1) with (a + (i + 2 + 1)) by lia.
  replace (a + i + 2) with (a + (i + 2)) by lia. replace (a + i + 1) with (a + (i + 1)) by lia.
  by rewrite !H8 by lia.
Qed.

Lemma uwrap32_range z : is_uint32 (uwrap32 z).
Proof. unfold is_uint32, uwrap32. apply Z.mod_pos_bound. lia. Qed.

(** Well-formedness of an entry some fields of which were set. *)
Ltac entry_wf_tac :=
  let Hw := fresh in let Ho := fresh in
  intros [Hw Ho]; unfold entry_wf, entry_words in *; cbn -[uwrap32] in *;
  split; [|first [exact Ho|idtac]];
  repeat (let Hx := fresh in apply Forall_cons in Hw as [Hx Hw]);
  repeat (apply Forall_cons; split; [first [assumption|apply uwrap32_range|done]|]);
  try exact (List.Forall_nil _).

(** The 40 bytes [voldb_write_hdr] finds on its stack. *)
Class StackOk (stack : voldb -> bytes) : Prop := {
  stack_len d : blen (stack d) = VOLDB_HEADER_SIZE;
  stack_bytes d : Forall is_byte (stack d);
}.

Section Ops.
Context `{OnodeCoderOk} (stack : voldb -> bytes) `{!StackOk stack}.

(** ** Writing the header *)

Definition with_freeptr (v : Z) (d : voldb) : voldb := set_ptr (Some (Vdbflat v true)) d.

Definition hdr_image (d : voldb) : bytes :=
  st (st (st (st (stack d) 0 (be32 (magic d))) 4 (be32 (num d))) 8 (be32 (hflags d)))
     VOLDB_HEADER_HALF (be32 (the_freeptr d)).
Definition put_hdr (d : voldb) : voldb := set_file (st (db_file d) 0 (hdr_image d)) d.

Lemma blen_hdr_image d : blen (hdr_image d) = 40.
Proof. unfold hdr_image. rewrite !blen_st, stack_len. done. Qed.

Lemma hdr_image_bytes d : Forall is_byte (hdr_image d).
Proof. unfold hdr_image. repeat (apply st_bytes; [|apply be32_bytes]). apply stack_bytes. Qed.

Lemma hdr_image_words d :
  ld32 (hdr_image d) 0 = uwrap32 (magic d) /\ ld32 (hdr_image d) 4 = uwrap32 (num d) /\
  ld32 (hdr_image d) 8 = uwrap32 (hflags d) /\
  ld32 (hdr_image d) VOLDB_HEADER_HALF = uwrap32 (the_freeptr d).
Proof.
  pose proof (stack_len d) as Hs. change VOLDB_HEADER_SIZE with 40 in Hs.
  unfold hdr_image. change VOLDB_HEADER_HALF with 20.
  split; [|split; [|split]].
  - rewrite 3!ld32_st_out by (rewrite blen_be32; lia). apply ld32_st; rewrite ?blen_st; lia.
  - rewrite 2!ld32_st_out by (rewrite blen_be32; lia). apply ld32_st; rewrite ?blen_st; lia.
  - rewrite ld32_st_out by (rewrite blen_be32; lia). apply ld32_st; rewrite ?blen_st; lia.
  - apply ld32_st; rewrite ?blen_st; lia.
Qed.

Lemma size_header d : voldb_wf d -> 40 <= blen (db_file d).
Proof.
  intros Hwf. rewrite (wf_len d Hwf), (wf_size d Hwf). pose proof (wf_num d Hwf).
  pose proof (esize_bounds d Hwf). change VOLDB_HEADER_SIZE with 40. nia.
Qed.

Lemma write_hdr_run d : voldb_wf d -> voldb_write_hdr stack d = sys_check (put_hdr d).
Proof.
  intros Hwf. pose proof (stack_len d) as Hs. change VOLDB_HEADER_SIZE with 40 in Hs.
  destruct (wf_ptr d Hwf) as (f & Hp & Hf).
  unfold voldb_write_hdr. unfold vbind at 1, vget.
  rewrite (wr_in (stack d)) by (rewrite ?blen_be32; lia). cbn [vopt]. unfold vbind at 1, vret.
  rewrite wr_in by (rewrite ?blen_be32, ?blen_st; lia). cbn [vopt]. unfold vbind at 1, vret.
  rewrite wr_in by (rewrite ?blen_be32, ?blen_st; lia). cbn [vopt]. unfold vbind at 1, vret.
  rewrite func_ok by done. unfold vdbflat_write_header.
  rewrite (vbind_ok _ _ d d tt).
  2:{ apply vassert_true. rewrite !blen_st, Hs. done. }
  unfold vbind at 1, vget. cbv beta. rewrite Hp. cbn [freeptr].
  rewrite wr_in.
  2:{ done. }
  2:{ rewrite blen_be32, !blen_st. change VOLDB_HEADER_HALF with 20. lia. }
  cbn [vopt]. unfold vbind at 1, vret.
  rewrite (vbind_ok _ _ d (put_hdr d) tt); [done|].
  assert (E : the_freeptr d = f) by (unfold the_freeptr; by rewrite Hp).
  unfold put_hdr, hdr_image. rewrite E. apply vwrite_ok; [done|].
  rewrite wr_in; [done|lia|]. rewrite !blen_st, Hs. pose proof (size_header d Hwf). lia.
Qed.

Lemma put_hdr_wf d : voldb_wf d -> voldb_wf (put_hdr d).
Proof.
  intros Hwf. apply set_file_wf; [done|apply blen_st|].
  apply st_bytes; [apply (wf_bytes d Hwf)|apply hdr_image_bytes].
Qed.

Lemma put_hdr_slot d k : voldb_wf d -> 0 <= k < num d -> slot (put_hdr d) k = slot d k.
Proof.
  intros Hwf Hk. unfold slot, put_hdr. rewrite set_file_file, set_file_addr.
  pose proof (addr_range d k Hwf Hk). pose proof (esize_bounds d Hwf).
  apply same_in_entry_at; [lia|]. change VOLDB_FILE_SIZE with 480.
  apply same_in_st; [lia|]. rewrite blen_hdr_image. lia.
Qed.

Lemma the_freeptr_uint32 d : voldb_wf d -> is_uint32 (the_freeptr d).
Proof. intros Hwf. destruct (wf_ptr d Hwf) as (f & Hp & Hf). unfold the_freeptr. by rewrite Hp. Qed.

Lemma put_hdr_header d : voldb_wf d -> header_on_disk (put_hdr d).
Proof.
  intros Hwf. pose proof (size_header d Hwf). pose proof (blen_hdr_image d).
  destruct (hdr_image_words d) as (E1 & E2 & E3 & E4).
  assert (Hld : forall i, 0 <= i -> i + 4 <= 40 ->
    ld32 (db_file (put_hdr d)) i = ld32 (hdr_image d) i).
  { intros i Hi1 Hi2. unfold put_hdr. rewrite set_file_file.
    rewrite <- (Z.add_0_l i) at 1. apply ld32_st_sub; lia. }
  unfold header_on_disk. rewrite !Hld by done. rewrite E1, E2, E3, E4.
  pose proof (num_small d Hwf). pose proof (wf_num d Hwf).
  assert (magic (put_hdr d) = magic d /\ num (put_hdr d) = num d /\ hflags (put_hdr d) = hflags d
          /\ the_freeptr (put_hdr d) = the_freeptr d) as (-> & -> & -> & ->)
    by (by destruct d).
  rewrite (wf_magic d Hwf). split; [done|].
  rewrite !uwrap32_small; [done|by apply the_freeptr_uint32|apply (wf_flags d Hwf)|].
  unfold is_uint32. change VOLDB_ENTRY_USED with (2^32 - 2) in *. lia.
Qed.

(** ** The free pointer *)

Lemma set_freeptr_ok v d : voldb_wf d -> set_freeptr v d = Some (with_freeptr v d, inr tt).
Proof.
  intros Hwf. destruct (wf_ptr d Hwf) as (f & Hp & Hf).
  unfold set_freeptr, vbind, vdb_of, vget, vopt, vbind. rewrite Hp. done.
Qed.

Lemma with_freeptr_wf v d : voldb_wf d -> is_uint32 v -> voldb_wf (with_freeptr v d).
Proof. intros [] ?. destruct d. split; simpl in *; try done. by exists v. Qed.

Lemma with_freeptr_slot v d k : slot (with_freeptr v d) k = slot d k.
Proof. by destruct d. Qed.

(** Setting the free pointer and writing the header, with which the
    operations end. *)
Definition commit (v : Z) (d : voldb) : voldb := put_hdr (with_freeptr v d).

Lemma commit_num v d : num (commit v d) = num d.
Proof. by destruct d. Qed.
Lemma commit_hflags v d : hflags (commit v d) = hflags d.
Proof. by destruct d. Qed.
Lemma commit_size v d : size (commit v d) = size d.
Proof. by destruct d. Qed.

Lemma commit_os v d : db_os (commit v d) = db_os d.
Proof. by destruct d. Qed.

Lemma commit_slot v d k : voldb_wf d -> is_uint32 v -> 0 <= k < num d ->
  slot (commit v d) k = slot d k.
Proof.
  intros Hwf Hv Hk. unfold commit. rewrite put_hdr_slot, with_freeptr_slot.
  - done.
  - by apply with_freeptr_wf.
  - by destruct d.
Qed.

Lemma commit_run v d : voldb_wf d -> is_uint32 v ->
  (set_freeptr v ;;; voldb_write_hdr stack)%vm d = sys_check (commit v d).
Proof.
  intros Hwf Hv. vstep (set_freeptr_ok v d Hwf). apply write_hdr_run. by apply with_freeptr_wf.
Qed.

Lemma commit_ok v d fl : voldb_wf d -> is_uint32 v ->
  free_chain d v fl -> NoDup fl ->
  (forall k, 0 <= k < num d -> k ∉ fl -> nextptr (slot d k) = VOLDB_ENTRY_USED) ->
  voldb_ok (commit v d) fl.
Proof.
  intros Hwf Hv Hc Hnd Hu. split.
  - by apply put_hdr_wf, with_freeptr_wf.
  - assert (the_freeptr (commit v d) = v) as -> by (by destruct d).
    apply (free_chain_ext d); [by rewrite commit_num| |done].
    intros k Hk. rewrite commit_slot; [done..|]. by eapply free_chain_range.
  - done.
  - intros k. rewrite commit_num. intros Hk Hn. rewrite commit_slot by done. by apply Hu.
  - by apply put_hdr_header, with_freeptr_wf.
Qed.

Lemma sys_check_nil d : db_os d = [] -> sys_check d = Some (d, inr tt).
Proof. intros Ho. unfold sys_check, vbind, sys. by rewrite Ho. Qed.

(** ** Taking an entry *)

Definition kind_type (d : voldb) : Z := if kind_bits d =? VOLDB_DIR then TYPE_DIR else TYPE_FILE.

Definition taken (k : Z) (d : voldb) : voldb :=
  commit (nextptr (slot d k)) (put_slot k (fst (fst (use_entry (kind_type d) (slot d k)))) d).

Lemma entry_wf_use ft e : entry_wf e -> is_uint32 ft -> entry_wf (fst (fst (use_entry ft e))).
Proof. intros He Hf. revert He. destruct e. entry_wf_tac. Qed.

Lemma entry_wf_nextptr e : entry_wf e -> is_uint32 (nextptr e).
Proof. intros [Hw _]. by apply Forall_cons in Hw as [? _]. Qed.

Lemma entry_wf_unique e : entry_wf e -> is_uint32 (unique e).
Proof. intros [Hw _]. apply Forall_cons in Hw as [_ Hw]. by apply Forall_cons in Hw as [? _]. Qed.

Lemma kind_type_uint32 d : is_uint32 (kind_type d).
Proof. unfold kind_type. by destruct (_ =? _). Qed.

Lemma take_free_entry_run d k :
  voldb_wf d -> the_freeptr d = k -> 0 <= k < num d ->
  nextptr (slot d k) <> VOLDB_ENTRY_USED -> db_os d = [] ->
  take_free_entry stack d = Some (taken k d, inr (k, uwrap32 (unique (slot d k) + 1))).
Proof.
  intros Hwf Hfp Hk Hn Hos. destruct (wf_ptr d Hwf) as (f & Hp & Hf).
  assert (Ef : f = k) by (rewrite <- Hfp; unfold the_freeptr; by rewrite Hp). subst f.
  pose proof (slot_wf d k Hwf Hk) as Hsw.
  set (e' := fst (fst (use_entry (kind_type d) (slot d k)))).
  assert (He' : entry_wf e') by (by apply entry_wf_use, kind_type_uint32).
  assert (Hwf' : voldb_wf (put_slot k e' d)) by (apply put_slot_wf; [done..|apply He']).
  unfold take_free_entry. rewrite (vbind_ok _ _ d d (Vdbflat k true))
    by (unfold vdb_of, vbind, vget, vopt; by rewrite Hp).
  unfold vbind at 1, vget. cbv beta. cbn [freeptr].
  rewrite (vbind_ok _ _ d (put_slot k e' d)
            (nextptr (slot d k), uwrap32 (unique (slot d k) + 1))).
  2:{ destruct (kind_cases d (wf_kind d Hwf)) as [Hkd|Hkd].
      - pose proof Hkd as (Hb & Hks & Hl1 & Hl2). rewrite Hl1, Hl2.
        change (0 =? VOLDB_DIR) with false. rewrite Z.eqb_refl.
        vstep (get_file_ok d k Hwf Hkd Hk).
        rewrite (vbind_ok _ _ d d tt) by (apply vassert_true; by rewrite (proj2 (Z.eqb_neq _ _) Hn)).
        cbn [use_entry].
        assert (Ee : set_FileType TYPE_FILE (set_nextptr VOLDB_ENTRY_USED
                  (set_unique (uwrap32 (unique (slot d k) + 1)) (slot d k))) = e').
        { unfold e', use_entry, kind_type. rewrite Hb. done. }
        rewrite Ee. vstep (put_file_ok d k e' Hwf Hkd Hk (proj2 He')). done.
      - pose proof Hkd as (Hb & Hks & Hl1 & Hl2). rewrite Hl2, Z.eqb_refl.
        vstep (get_dir_ok d k Hwf Hkd Hk). cbn [dfile negacl acl].
        rewrite (vbind_ok _ _ d d tt) by (apply vassert_true; by rewrite (proj2 (Z.eqb_neq _ _) Hn)).
        cbn [use_entry].
        assert (Ee : set_FileType TYPE_DIR (set_nextptr VOLDB_ENTRY_USED
                  (set_unique (uwrap32 (unique (slot d k) + 1)) (slot d k))) = e').
        { unfold e', use_entry, kind_type. rewrite Hb. done. }
        rewrite Ee.
        vstep (put_dir_ok d k (DirEntry e' (fst (slot_acls d k)) (snd (slot_acls d k)))
                 Hwf Hkd Hk (proj2 He')). done. }
  cbn [fst snd].
  pose proof (commit_run (nextptr (slot d k)) _ Hwf' (entry_wf_nextptr _ Hsw)) as Hc.
  unfold vbind in Hc |- *.
  rewrite (set_freeptr_ok _ _ Hwf') in Hc |- *. rewrite Hc.
  fold e'. unfold taken. rewrite sys_check_nil by (rewrite commit_os; by destruct d). done.
Qed.

Lemma taken_num k d : num (taken k d) = num d.
Proof. unfold taken. rewrite commit_num. by destruct d. Qed.

Section Taken.
Context (d : voldb) (k : Z) (fl : list Z) (Hok : voldb_ok d (k :: fl)).

Lemma taken_facts :
  voldb_wf d /\ the_freeptr d = k /\ 0 <= k < num d /\ nextptr (slot d k) <> VOLDB_ENTRY_USED.
Proof.
  destruct Hok as [Hwf Hc _ _ _]. split; [done|].
  pose proof (free_chain_unused d _ _ k Hwf Hc ltac:(apply list_elem_of_here)).
  by destruct Hc as (-> & Hk & _).
Qed.

Lemma taken_slot : slot (taken k d) k = fst (fst (use_entry (kind_type d) (slot d k))).
Proof.
  destruct taken_facts as (Hwf & _ & Hk & _). pose proof (slot_wf d k Hwf Hk) as Hsw.
  pose proof (entry_wf_use (kind_type d) _ Hsw (kind_type_uint32 d)) as He.
  unfold taken. rewrite commit_slot; [by apply slot_put_slot|apply put_slot_wf; [done..|apply He]| |by destruct d].
  by apply entry_wf_nextptr.
Qed.

Lemma taken_slot_ne j : 0 <= j < num d -> j <> k -> slot (taken k d) j = slot d j.
Proof.
  intros Hj Hne. destruct taken_facts as (Hwf & _ & Hk & _). pose proof (slot_wf d k Hwf Hk) as Hsw.
  pose proof (entry_wf_use (kind_type d) _ Hsw (kind_type_uint32 d)) as He.
  unfold taken. rewrite commit_slot; [apply slot_put_slot_ne; try done; apply He
    |apply put_slot_wf; [done..|apply He]| |by destruct d].
  by apply entry_wf_nextptr.
Qed.

Lemma taken_ok : voldb_ok (taken k d) fl.
Proof.
  destruct taken_facts as (Hwf & _ & Hk & _). destruct Hok as [_ Hc Hnd Hu _].
  pose proof (slot_wf d k Hwf Hk) as Hsw.
  pose proof (entry_wf_use (kind_type d) _ Hsw (kind_type_uint32 d)) as He.
  apply NoDup_cons in Hnd as [Hni Hnd]. destruct Hc as (_ & _ & Hc).
  apply commit_ok.
  - apply put_slot_wf; [done..|apply He].
  - by apply entry_wf_nextptr.
  - apply (free_chain_ext d); [by destruct d| |done].
    intros j Hj. rewrite slot_put_slot_ne; [done..|apply He| |].
    + by eapply free_chain_range.
    + by intros ->.
  - done.
  - intros j Hj Hn. assert (num (put_slot k (fst (fst (use_entry (kind_type d) (slot d k)))) d) = num d)
      as Hnum by (by destruct d). rewrite Hnum in Hj.
    destruct (decide (j = k)) as [->|Hne].
    + rewrite slot_put_slot by done. by destruct (slot d k).
    + rewrite slot_put_slot_ne; [|done..|apply He|done|done]. apply Hu; [done|].
      by apply not_elem_of_cons.
Qed.
End Taken.

(** ** Freeing an entry *)

Definition deleted (k : Z) (d : voldb) : voldb :=
  commit k (put_slot k (free_entry (the_freeptr d) (slot d k)) d).

Lemma zero_onode_wf : onode_wf zero_onode.
Proof.
  split; [done|]. split; [done|]. apply Forall_replicate. done.
Qed.

Lemma entry_wf_free v e : entry_wf e -> is_uint32 v -> entry_wf (free_entry v e).
Proof.
  intros He Hv. revert He. destruct e. unfold free_entry, set_Parent. entry_wf_tac.
  apply zero_onode_wf.
Qed.

Lemma vdb_of_ok d : voldb_wf d -> vdb_of d = Some (d, inr (Vdbflat (the_freeptr d) true)).
Proof.
  intros Hwf. destruct (wf_ptr d Hwf) as (f & Hp & Hf).
  unfold vdb_of, vbind, vget, vopt, the_freeptr. by rewrite Hp.
Qed.

Section Deleted.
Context (d : voldb) (k : Z) (fl : list Z) (Hok : voldb_ok d fl).
Context (Hk : 0 <= k < num d) (Hfl : k ∉ fl).

Lemma free_entry_slot_wf : entry_wf (free_entry (the_freeptr d) (slot d k)).
Proof.
  apply entry_wf_free; [by apply slot_wf; [apply Hok|]|apply the_freeptr_uint32, Hok].
Qed.

Lemma deleted_put_wf :
  voldb_wf (put_slot k (free_entry (the_freeptr d) (slot d k)) d).
Proof. apply put_slot_wf; [apply Hok|apply free_entry_slot_wf]. Qed.

Lemma entry_uint32 : is_uint32 k.
Proof.
  pose proof (num_small d (ok_wf _ _ Hok)). change VOLDB_ENTRY_USED with (2^32 - 2) in *.
  unfold is_uint32. lia.
Qed.

Lemma del_entry_run :
  db_os d = [] ->
  vdbflat_del_entry stack k d = Some (deleted k d, inr (ino (slot d k))).
Proof.
  intros Hos. pose proof (ok_wf _ _ Hok) as Hwf. pose proof (ok_used _ _ Hok k Hk Hfl) as Hu.
  pose proof free_entry_slot_wf as He. set (e' := free_entry (the_freeptr d) (slot d k)) in *.
  unfold vdbflat_del_entry. vstep (vdb_of_ok d Hwf). unfold vbind at 1, vget. cbv beta.
  cbn [freeptr].
  rewrite (vbind_ok _ _ d (put_slot k e' d) (ino (slot d k))).
  2:{ destruct (kind_cases d (wf_kind d Hwf)) as [Hkd|Hkd].
      - pose proof Hkd as (Hb & _). rewrite Hb.
        change (VOLDB_FILE =? VOLDB_DIR) with false. change (VOLDB_FILE =? VOLDB_FILE) with true.
        cbv iota. vstep (get_file_ok d k Hwf Hkd Hk).
        rewrite (vbind_ok _ _ d d tt) by (apply vassert_true; by rewrite Hu).
        vstep (put_file_ok d k e' Hwf Hkd Hk (proj2 He)). done.
      - pose proof Hkd as (Hb & _). rewrite Hb. change (VOLDB_DIR =? VOLDB_DIR) with true.
        cbv iota. vstep (get_dir_ok d k Hwf Hkd Hk). cbn [dfile negacl acl].
        rewrite (vbind_ok _ _ d d tt) by (apply vassert_true; by rewrite Hu).
        vstep (put_dir_ok d k (DirEntry e' (fst (slot_acls d k)) (snd (slot_acls d k)))
                 Hwf Hkd Hk (proj2 He)). done. }
  pose proof (commit_run k _ deleted_put_wf entry_uint32) as Hc. fold e' in Hc.
  unfold vbind in Hc |- *. pose proof deleted_put_wf as Hpw. fold e' in Hpw.
  rewrite (set_freeptr_ok _ _ Hpw) in Hc |- *. rewrite Hc.
  unfold deleted. fold e'. rewrite sys_check_nil by (rewrite commit_os; by destruct d). done.
Qed.

Lemma deleted_num : num (deleted k d) = num d.
Proof. unfold deleted. rewrite commit_num. by destruct d. Qed.

Lemma deleted_slot : slot (deleted k d) k = free_entry (the_freeptr d) (slot d k).
Proof.
  unfold deleted. rewrite commit_slot;
    [|apply deleted_put_wf|apply entry_uint32|by destruct d].
  apply slot_put_slot; [apply Hok|done|apply free_entry_slot_wf].
Qed.

Lemma deleted_slot_ne j : 0 <= j < num d -> j <> k -> slot (deleted k d) j = slot d j.
Proof.
  intros Hj Hne. unfold deleted. rewrite commit_slot;
    [|apply deleted_put_wf|apply entry_uint32|by destruct d].
  apply slot_put_slot_ne; [apply Hok|done|apply free_entry_slot_wf|done|done].
Qed.

Lemma deleted_ok : voldb_ok (deleted k d) (k :: fl).
Proof.
  pose proof deleted_put_wf as Hpw. pose proof free_entry_slot_wf as He.
  destruct Hok as [Hwf Hc Hnd Hu _].
  set (e' := free_entry (the_freeptr d) (slot d k)) in *.
  assert (Hnum : num (put_slot k e' d) = num d) by (by destruct d).
  unfold deleted. fold e'. apply commit_ok; [done|apply entry_uint32| | |].
  - split; [done|]. split; [by rewrite Hnum|]. rewrite slot_put_slot by done.
    replace (nextptr e') with (the_freeptr d) by (unfold e'; by destruct (slot d k)).
    apply (free_chain_ext d); [lia| |done]. intros j Hj.
    rewrite slot_put_slot_ne; [done..|apply He| |].
    + by eapply free_chain_range.
    + by intros ->.
  - by constructor.
  - rewrite Hnum. intros j Hj [Hne Hn]%not_elem_of_cons.
    rewrite slot_put_slot_ne; [|done..|apply He|done|done]. by apply Hu.
Qed.
End Deleted.

(** ** Growing the database *)

(** The state between the remapping and the stores of the new entries. *)
Definition grown (n : Z) (d : voldb) : voldb :=
  let sz := size d + n * esize d in
  Voldb (magic d) (num d + n) (hflags d) (db_type d) sz (db_fd d) (volume d)
    (Some (Vdbflat (the_freeptr d) true)) (resize (Z.to_nat sz) 0 (db_file d)) (db_os d).

Lemma ld8_resize b n i :
  (length b <= n)%nat -> 0 <= i < blen b -> ld8 (resize n 0 b) i = ld8 b i.
Proof.
  intros Hn Hi. unfold ld8, rd8, blen in *. destruct (Z.leb_spec 0 i); [|lia].
  by rewrite lookup_resize by lia.
Qed.

Section Grown.
Context (d : voldb) (n : Z) (Hwf : voldb_wf d).
Context (Hn : 0 < n) (Hsz : size d + n * esize d < 2^32).

Lemma grown_wf : voldb_wf (grown n d).
Proof.
  pose proof (esize_bounds d Hwf). pose proof (size_header d Hwf). pose proof (wf_len d Hwf).
  pose proof (the_freeptr_uint32 d Hwf).
  assert (He : esize (grown n d) = esize d) by (by destruct d).
  destruct Hwf. split; cbn [grown db_type magic hflags ptr size num db_file]; try done.
  - by eexists.
  - unfold blen in *. rewrite length_resize. nia.
  - rewrite He. nia.
  - lia.
  - by apply resize_bytes.
Qed.

Lemma grown_slot k : 0 <= k < num d -> slot (grown n d) k = slot d k.
Proof.
  intros Hk. pose proof (esize_bounds d Hwf). pose proof (addr_range d k Hwf Hk).
  assert (Ha : addr (grown n d) k = addr d k) by (by destruct d).
  pose proof (wf_len d Hwf).
  unfold slot. rewrite Ha. apply same_in_entry_at; [lia|]. change VOLDB_FILE_SIZE with 480.
  unfold same_in. cbn [grown db_file]. split; [lia|]. split.
  - unfold blen in *. rewrite length_resize. nia.
  - intros i Hi. apply ld8_resize; [unfold blen in *; nia|lia].
Qed.
End Grown.

(** The entry that [vdbflat_extend_db] stores as number [i]. *)
Definition new_ent (nm next i : Z) : voldb_file_entry :=
  set_nextptr (if i <? nm - 1 then i + 1 else next) zero_entry.

Lemma new_ent_wf nm next i :
  is_uint32 next -> 0 <= i -> nm < 2^32 -> entry_wf (new_ent nm next i).
Proof.
  intros Hn Hi Hnm. split.
  - unfold entry_words, new_ent. cbn [set_nextptr zero_entry nextptr unique spare2 InterfaceVersion
      FileType LinkCount Length spare3 DataVersion Author Owner UnixModeBits ParentVnode
      ParentUnique SegSize ServerModTime spare4 Group spare5].
    constructor; [destruct (Z.ltb_spec i (nm - 1)); unfold is_uint32 in *; lia|].
    repeat (constructor; [done|]). constructor.
  - apply zero_onode_wf.
Qed.

Lemma put_new_entry_run d dirp next i :
  voldb_wf d -> 0 <= i < num d -> is_uint32 next -> dirp = (kind_bits d =? VOLDB_DIR) ->
  put_new_entry dirp next i d = Some (put_slot i (new_ent (num d) next i) d, inr tt).
Proof.
  intros Hwf Hi Hnext ->. pose proof (num_small d Hwf) as Hs.
  change VOLDB_ENTRY_USED with (2^32 - 2) in Hs.
  pose proof (new_ent_wf (num d) next i Hnext ltac:(lia) ltac:(lia)) as He.
  unfold put_new_entry, vbind, vget. rewrite uwrap32_small by (unfold is_uint32; lia).
  fold (new_ent (num d) next i).
  destruct (kind_cases d (wf_kind d Hwf)) as [Hkd|Hkd]; pose proof Hkd as (-> & _).
  - change (VOLDB_FILE =? VOLDB_DIR) with false. cbv iota.
    by rewrite (put_file_ok d i _ Hwf Hkd Hi (proj2 He)).
  - change (VOLDB_DIR =? VOLDB_DIR) with true. cbv iota.
    by rewrite (put_dir_ok d i (DirEntry (new_ent (num d) next i)
      (replicate FS_MAX_ACL zero_acl) (replicate FS_MAX_ACL zero_acl)) Hwf Hkd Hi (proj2 He)).
Qed.

(** The loop over the new entries: only they change. *)
Lemma put_new_entries_run d dirp next l :
  voldb_wf d -> Forall (fun i => 0 <= i < num d) l -> NoDup l -> is_uint32 next ->
  dirp = (kind_bits d =? VOLDB_DIR) ->
  exists d', vfor l (put_new_entry dirp next) d = Some (d', inr tt) /\
    voldb_wf d' /\ d' = set_file (db_file d') d /\
    (forall i, i ∈ l -> slot d' i = new_ent (num d) next i) /\
    (forall i, 0 <= i < num d -> i ∉ l -> slot d' i = slot d i).
Proof.
  intros Hwf Hl Hnd Hnext Hd. revert d Hwf Hl Hd. induction l as [|i l IH]; intros d Hwf Hl Hd.
  { exists d. split; [done|]. split; [done|]. split; [by destruct d|].
    split; [by intros i ?%not_elem_of_nil|done]. }
  apply Forall_cons in Hl as [Hi Hl]. apply NoDup_cons in Hnd as [Hni Hnd].
  pose proof (num_small d Hwf) as Hs. change VOLDB_ENTRY_USED with (2^32 - 2) in Hs.
  pose proof (new_ent_wf (num d) next i Hnext ltac:(lia) ltac:(lia)) as He.
  set (d1 := put_slot i (new_ent (num d) next i) d).
  assert (Hnum : num d1 = num d) by (by destruct d).
  destruct (IH Hnd d1) as (d' & Hrun & Hwf' & Hf & Hin & Hout).
  - apply put_slot_wf; [done|apply He].
  - by rewrite Hnum.
  - by destruct d.
  - exists d'. cbn [vfor]. rewrite (vbind_ok _ _ _ _ _ (put_new_entry_run d dirp next i Hwf Hi Hnext Hd)).
    split; [done|]. split; [done|]. split; [rewrite Hf; by destruct d|]. split.
    + intros j [->|Hj]%elem_of_cons; [|rewrite <- Hnum; by apply Hin].
      rewrite Hout by (try rewrite Hnum; done). by apply slot_put_slot.
    + intros j Hj [Hne Hnj]%not_elem_of_cons. rewrite Hout by (try rewrite Hnum; done).
      apply slot_put_slot_ne; [done|done|apply He|done|done].
Qed.

(** The new entries are linked one to the next, the last one to the old list. *)
Lemma free_chain_new d fp fl (m : nat) i :
  free_chain d fp fl -> i + Z.of_nat m = num d -> 0 <= i -> (0 < m)%nat ->
  (forall j, i <= j < num d -> slot d j = new_ent (num d) fp j) ->
  free_chain d i (seqZ i (Z.of_nat m) ++ fl).
Proof.
  intros Hc. revert i. induction m as [|m IH]; intros i Hm Hi Hpos Hs; [lia|].
  rewrite seqZ_cons by lia. cbn [app free_chain]. split; [done|]. split; [lia|].
  rewrite Hs by lia. unfold new_ent. destruct m as [|m].
  - destruct (Z.ltb_spec i (num d - 1)); [lia|]. rewrite seqZ_nil by lia. done.
  - destruct (Z.ltb_spec i (num d - 1)); [|lia].
    replace (Z.pred (Z.of_nat (S (S m)))) with (Z.of_nat (S m)) by lia.
    apply IH; [lia..|]. intros j Hj. apply Hs. lia.
Qed.

Theorem extend_db_run d fl n :
  voldb_ok d fl -> 0 < n -> size d + n * esize d < 2^32 -> db_os d = [] ->
  exists d', vdbflat_extend_db stack n d = Some (d', inr tt) /\
    voldb_ok d' (seqZ (num d) n ++ fl) /\ db_os d' = [] /\
    num d' = num d + n /\ hflags d' = hflags d /\ size d' = size d + n * esize d /\
    (forall k, 0 <= k < num d -> slot d' k = slot d k) /\
    (forall k, num d <= k < num d + n ->
       slot d' k = new_ent (num d + n) (the_freeptr d) k).
Proof.
  intros Hok Hn Hsz Hos. destruct Hok as [Hwf Hc Hnd Hu _].
  pose proof (esize_bounds d Hwf) as Hes. pose proof (size_header d Hwf) as Hsh.
  rewrite (wf_len d Hwf) in Hsh. pose proof (wf_num d Hwf) as Hnum.
  pose proof (grown_wf d n Hwf Hn Hsz) as Hgw.
  pose proof (the_freeptr_uint32 d Hwf) as Hfp.
  assert (Hgn : num (grown n d) = num d + n) by done.
  destruct (put_new_entries_run (grown n d) (kind_bits d =? VOLDB_DIR) (the_freeptr d)
              (seqZ (num d) n) Hgw) as (d1 & Hrun & Hwf1 & Hf1 & Hin & Hout).
  { apply Forall_seqZ. rewrite Hgn. lia. }
  { apply NoDup_seqZ. }
  { done. }
  { done. }
  rewrite Hgn in *.
  assert (Hnum1 : num d1 = num d + n) by (by rewrite Hf1).
  assert (Hold : forall k, 0 <= k < num d -> slot d1 k = slot d k).
  { intros k Hk. rewrite Hout; [by apply grown_slot|lia|]. rewrite elem_of_seqZ. lia. }
  assert (Hnew : forall k, num d <= k < num d + n ->
            slot d1 k = new_ent (num d + n) (the_freeptr d) k).
  { intros k Hk. apply Hin. rewrite elem_of_seqZ. lia. }
  assert (Hu32 : is_uint32 (num d)).
  { pose proof (num_small d Hwf). change VOLDB_ENTRY_USED with (2^32 - 2) in *.
    unfold is_uint32. lia. }
  exists (commit (num d) d1). split; [|split; [|split; [|split; [|split; [|split; [|split]]]]]].
  - unfold vdbflat_extend_db. unfold vbind at 1, vget. cbv zeta beta.
    rewrite (wf_magic d Hwf), Z.eqb_refl. cbn [negb].
    assert (Hks : kind_size d = Some (esize d)).
    { unfold esize. by destruct (wf_kind d Hwf) as [? ->]. }
    rewrite Hks. vstep (sys_check_nil d Hos).
    assert (E : uwrap64 (size d + uwrap32 (n * esize d)) = size d + n * esize d).
    { unfold uwrap64. rewrite uwrap32_small by (unfold is_uint32; nia).
      apply Z.mod_small. nia. }
    rewrite E. assert (E2 : uwrap32 (num d + n) = num d + n).
    { apply uwrap32_small. unfold is_uint32. rewrite (wf_size d Hwf) in Hsz.
      change VOLDB_HEADER_SIZE with 40 in Hsz. nia. }
    pose proof (wf_ptr d Hwf) as (f & Hp & _).
    assert (Ef : the_freeptr d = f) by (unfold the_freeptr; by rewrite Hp).
    assert (Eg : grown n d = Voldb (magic d) (num d + n) (hflags d) (db_type d)
                   (size d + n * esize d) (db_fd d) (volume d) (Some (Vdbflat f true))
                   (resize (Z.to_nat (size d + n * esize d)) 0 (db_file d)) [])
      by (unfold grown; by rewrite Ef, Hos).
    rewrite Ef in *.
    rewrite (vbind_ok _ _ d (set_ptr (Some (Vdbflat f false)) d) tt)
      by (unfold set_mapped, vdb_of, vbind, vget, vopt, vmod; by rewrite Hp).
    rewrite (vbind_ok _ _ _ (set_ptr (Some (Vdbflat f false)) d) tt)
      by (apply sys_check_nil; by destruct d).
    unfold vbind at 1, vmod at 1. unfold vbind at 1, vmod at 1. unfold vbind at 1, vmod at 1.
    rewrite (vbind_ok _ _ _
      (set_num (num d + n) (set_size (size d + n * esize d)
        (set_file (resize (Z.to_nat (size d + n * esize d)) 0 (db_file d))
           (set_ptr (Some (Vdbflat f false)) d)))) tt).
    2:{ destruct d. cbn in Hos, E2 |- *. subst db_os. rewrite E2. done. }
    rewrite (vbind_ok _ _ _ (grown n d) tt) by (rewrite Eg; destruct d; cbn in Hos; by subst db_os).
    rewrite (vbind_ok _ _ _ (grown n d) tt).
    2:{ unfold set_volhdr_union_ptr, vbind, vget, has_flag.
        destruct (kind_cases _ (wf_kind _ Hgw)) as [(_ & _ & -> & ->)|(_ & _ & _ & ->)]; done. }
    unfold vbind at 1, vget. cbv beta. vstep (vdb_of_ok _ Hgw). cbn [freeptr].
    change (the_freeptr (grown n d)) with (the_freeptr d). rewrite Hgn, Ef.
    replace (num d + n - num d) with n by lia.
    change (kind_bits (grown n d)) with (kind_bits d). vstep Hrun.
    rewrite commit_run by done. apply sys_check_nil. rewrite commit_os, Hf1. by destruct d.
  - apply commit_ok; [done|done| | |].
    + replace n with (Z.of_nat (Z.to_nat n)) at 1 by lia.
      apply (free_chain_new _ (the_freeptr d)); [|lia|lia|lia|].
      * apply (free_chain_ext d); [lia| |done]. intros k Hk. rewrite Hold; [done|].
        by eapply free_chain_range.
      * intros j Hj. rewrite Hnum1 in *. by apply Hnew.
    + apply NoDup_app. split; [apply NoDup_seqZ|]. split; [|done].
      intros k Hk Hkf. rewrite elem_of_seqZ in Hk.
      pose proof (free_chain_range _ _ _ _ Hc Hkf). lia.
    + rewrite Hnum1. intros k Hk [Hk1 Hk2]%not_elem_of_app. rewrite elem_of_seqZ in Hk1.
      rewrite Hold by lia. apply Hu; [lia|done].
  - rewrite commit_os, Hf1. by destruct d.
  - by rewrite commit_num.
  - rewrite commit_hflags, Hf1. done.
  - rewrite commit_size, Hf1. done.
  - intros k Hk. rewrite commit_slot; [by apply Hold|done|done|lia].
  - intros k Hk. rewrite commit_slot; [by apply Hnew|done|done|lia].
Qed.

End Ops.
