(* ===== verification/VoldbCorrect.v ===== *)
(** * Volume database: correctness

    The flat database as an allocator of vnodes: a table from entry numbers
    to used and free entries ([vnodes]), the steps it may make
    ([vnode_step]), and the proof that the operations on the file are such
    steps. *)

From S2P Require Import Prelude Buf Voldb VoldbRep VoldbFree VoldbOps.

(** ** The specification *)

(** An entry without the link the free list stores in it. *)
Definition content (e : voldb_file_entry) : voldb_file_entry := set_nextptr 0 e.

Inductive aslot :=
  | AFree (e : voldb_file_entry)
  | AUsed (e : voldb_file_entry).
Abbreviation vnodes := (gmap Z aslot).

(** What a client sees: a number and a uniquifier handed out, an entry given
    back with its onode, an entry read or stored, the table enlarged, the
    database written out ([ESync]: a flush, or a close and an open). *)
Inductive event :=
  | ENew (k u : Z)
  | EDel (k : Z) (o : onode_opaque)
  | EGet (k : Z) (e : voldb_file_entry)
  | EPut (k : Z) (e : voldb_file_entry)
  | EExpand (k : Z)
  | ESync.

(** New free entries, nothing else. *)
Definition grows (s s' : vnodes) : Prop :=
  forall k, s' !! k = s !! k \/ (s !! k = None /\ s' !! k = Some (AFree zero_entry)).
Definition no_free (s : vnodes) : Prop := forall k e, s !! k <> Some (AFree e).

(** The entry handed out: what was left of the free one, marked with the kind
    of the database, and with the next uniquifier. *)
Definition fresh (ft : Z) (e : voldb_file_entry) : voldb_file_entry :=
  set_FileType ft (set_unique (uwrap32 (unique e + 1)) e).

Definition slot_entry (x : aslot) : voldb_file_entry :=
  match x with AFree e => e | AUsed e => e end.

Inductive vnode_step (ft : Z) : vnodes -> event -> vnodes -> Prop :=
  | step_new s s0 k e :
      (s0 = s \/ no_free s /\ grows s s0) -> s0 !! k = Some (AFree e) ->
      vnode_step ft s (ENew k (unique (fresh ft e))) (<[k := AUsed (fresh ft e)]> s0)
  | step_del s k e :
      s !! k = Some (AUsed e) ->
      vnode_step ft s (EDel k (ino e)) (<[k := AFree (free_entry 0 e)]> s)
  | step_get s k x :
      s !! k = Some x -> vnode_step ft s (EGet k (slot_entry x)) s
  | step_put s k e e' :
      s !! k = Some (AUsed e) -> unique e' = unique e ->
      vnode_step ft s (EPut k e') (<[k := AUsed e']> s)
  | step_expand s s' k :
      grows s s' -> is_Some (s' !! k) -> vnode_step ft s (EExpand k) s'
  | step_sync s : vnode_step ft s ESync s.

Inductive vnode_run (ft : Z) : vnodes -> list event -> vnodes -> Prop :=
  | vnode_run_nil s : vnode_run ft s [] s
  | vnode_run_cons s ev s1 evs s2 :
      vnode_step ft s ev s1 -> vnode_run ft s1 evs s2 -> vnode_run ft s (ev :: evs) s2.

(** The numbers handed out, with their uniquifiers. *)
Definition alloc_of (ev : event) : option (Z * Z) :=
  match ev with ENew k u => Some (k, u) | _ => None end.
Definition allocs (evs : list event) : list (Z * Z) := omap alloc_of evs.

(** ** Uniquifiers count the uses of an entry *)

Definition uniq (s : vnodes) (k : Z) : Z := from_option (fun x => unique (slot_entry x)) 0 (s !! k).

(** The uniquifiers handed out for entry [k]. *)
Definition allocs_at (k : Z) (evs : list event) : list Z :=
  omap (fun ev => '(k', u) ← alloc_of ev; if k' =? k then Some u else None) evs.

Lemma grows_uniq s s' k : grows s s' -> uniq s' k = uniq s k.
Proof. intros Hg. unfold uniq. destruct (Hg k) as [-> |[-> ->]]; done. Qed.

Lemma uniq_insert_ne s k j x : k <> j -> uniq (<[k := x]> s) j = uniq s j.
Proof. intros Hne. unfold uniq. by rewrite lookup_insert_ne. Qed.

Lemma uniq_insert s k x : uniq (<[k := x]> s) k = unique (slot_entry x).
Proof. unfold uniq. by rewrite lookup_insert_eq. Qed.

Lemma unique_fresh ft e : unique (fresh ft e) = uwrap32 (unique e + 1).
Proof. by destruct e. Qed.

(** A step changes the uniquifier of an entry by handing it out only. *)
Lemma vnode_step_uniq ft s ev s' k :
  vnode_step ft s ev s' ->
  match alloc_of ev with
  | Some (k', u) => if k' =? k then u = uwrap32 (uniq s k + 1) /\ uniq s' k = u
                    else uniq s' k = uniq s k
  | None => uniq s' k = uniq s k
  end.
Proof.
  intros Hs. inversion Hs as [? s0 j e Hg Hl|? j e Hl| |? j e e' Hl Hu|? ? j Hg|]; subst;
    cbn [alloc_of]; try done.
  - assert (Hus : uniq s0 k = uniq s k) by (destruct Hg as [->|[_ Hg]]; [done|by apply grows_uniq]).
    destruct (Z.eqb_spec j k) as [->|Hne].
    + rewrite uniq_insert, unique_fresh. cbn [slot_entry]. rewrite unique_fresh, <- Hus.
      unfold uniq. by rewrite Hl.
    + by rewrite uniq_insert_ne.
  - destruct (decide (j = k)) as [->|Hne]; [|by apply uniq_insert_ne].
    rewrite uniq_insert. unfold uniq. rewrite Hl. by destruct e.
  - destruct (decide (j = k)) as [->|Hne]; [|by apply uniq_insert_ne].
    rewrite uniq_insert. unfold uniq. rewrite Hl. done.
  - by apply grows_uniq.
Qed.

(** So the uniquifiers of an entry are consecutive. *)
Lemma allocs_at_count ft s evs s' k :
  vnode_run ft s evs s' -> is_uint32 (uniq s k) ->
  allocs_at k evs = (fun i => uwrap32 (uniq s k + i)) <$> seqZ 1 (Z.of_nat (length (allocs_at k evs))).
Proof.
  induction 1 as [|s ev s1 evs s2 Hstep Hrun IH]; intros Hu; [done|].
  pose proof (vnode_step_uniq ft s ev s1 k Hstep) as Hk. unfold allocs_at in *. cbn [omap list_omap].
  destruct (alloc_of ev) as [[k' u]|] eqn:Ea; cbn [mbind option_bind].
  2:{ rewrite <- Hk. apply IH. by rewrite Hk. }
  destruct (Z.eqb_spec k' k) as [->|Hne].
  2:{ rewrite <- Hk. apply IH. by rewrite Hk. }
  destruct Hk as [Hu1 Hu2].
  assert (Hr : is_uint32 (uniq s1 k)) by (rewrite Hu2, Hu1; apply uwrap32_range).
  cbn [length]. rewrite seqZ_cons by lia. cbn [fmap list_fmap]. f_equal; [done|].
  rewrite (IH Hr) at 1. rewrite Hu2, Hu1.
  replace (Z.pred (Z.of_nat (S _))) with (Z.of_nat (length (omap
    (fun ev => '(k', u) ← alloc_of ev; if k' =? k then Some u else None) evs))) by lia.
  change (Z.succ 1) with (1 + 1). rewrite <- fmap_add_seqZ, <- list_fmap_compose.
  apply list_fmap_ext. intros _ i _. unfold compose, uwrap32.
  rewrite Zplus_mod_idemp_l. f_equal. lia.
Qed.

Lemma allocs_at_elem k u evs : (k, u) ∈ allocs evs -> u ∈ allocs_at k evs.
Proof.
  unfold allocs, allocs_at. rewrite !list_elem_of_omap. intros (ev & Hin & Hev). exists ev.
  split; [done|]. rewrite Hev. cbn. by rewrite Z.eqb_refl.
Qed.

Lemma length_allocs_at k evs : (length (allocs_at k evs) <= length evs)%nat.
Proof.
  unfold allocs_at. induction evs as [|ev evs IH]; [done|]. cbn [omap list_omap].
  destruct (_ ≫= _); simpl; lia.
Qed.

(** Within 2^32 operations no pair is handed out twice. *)
Lemma vnode_run_allocs_nodup ft s evs s' :
  vnode_run ft s evs s' -> (forall k, is_uint32 (uniq s k)) ->
  Z.of_nat (length evs) < 2^32 -> NoDup (allocs evs).
Proof.
  intros Hrun Hu Hlen.
  assert (Hat : forall k, NoDup (allocs_at k evs)).
  { intros k. rewrite (allocs_at_count _ _ _ _ k Hrun (Hu k)).
    pose proof (length_allocs_at k evs) as Hl.
    apply NoDup_fmap_2_strong; [|apply NoDup_seqZ].
    intros i j Hi Hj. rewrite !elem_of_seqZ in *. unfold uwrap32. intros E.
    pose proof (Z.div_mod (uniq s k + i) (2^32) ltac:(lia)).
    pose proof (Z.div_mod (uniq s k + j) (2^32) ltac:(lia)).
    rewrite E in *. nia. }
  clear Hrun Hlen Hu. induction evs as [|ev evs IH]; [constructor|].
  unfold allocs in *. cbn [omap list_omap].
  assert (Htl : forall k, NoDup (allocs_at k evs)).
  { intros k. specialize (Hat k). unfold allocs_at in *. cbn [omap list_omap] in Hat.
    destruct (_ ≫= _); [|done]. by apply NoDup_cons in Hat as [_ ?]. }
  destruct (alloc_of ev) as [[k u]|] eqn:Ea; [|by apply IH].
  constructor; [|by apply IH]. intros Hin%allocs_at_elem.
  specialize (Hat k). unfold allocs_at in Hat, Hin. cbn [omap list_omap] in Hat.
  rewrite Ea in Hat. cbn [mbind option_bind] in Hat. rewrite Z.eqb_refl in Hat.
  by apply NoDup_cons in Hat as [? _].
Qed.

(** ** The table a database stands for *)

Section Refinement.
Context `{OnodeCoderOk} (stack : voldb -> bytes) `{!StackOk stack}.

Definition aslot_of (d : voldb) (fl : list Z) (k : Z) : aslot :=
  if decide (k ∈ fl) then AFree (content (slot d k)) else AUsed (content (slot d k)).
Definition abs (d : voldb) (fl : list Z) : vnodes :=
  list_to_map ((fun k => (k, aslot_of d fl k)) <$> seqZ 0 (num d)).

Lemma lookup_abs d fl k :
  abs d fl !! k = if decide (0 <= k < num d) then Some (aslot_of d fl k) else None.
Proof.
  unfold abs. destruct (decide _) as [Hk|Hk].
  - apply elem_of_list_to_map_1.
    + rewrite <- list_fmap_compose. cbn. rewrite list_fmap_id. apply NoDup_seqZ.
    + apply list_elem_of_fmap. exists k. split; [done|]. rewrite elem_of_seqZ. lia.
  - apply not_elem_of_list_to_map_1. rewrite <- list_fmap_compose. cbn. rewrite list_fmap_id.
    rewrite elem_of_seqZ. lia.
Qed.

Lemma lookup_abs_in d fl k : 0 <= k < num d -> abs d fl !! k = Some (aslot_of d fl k).
Proof. intros Hk. rewrite lookup_abs. by destruct (decide _). Qed.

Lemma abs_free d fl k : 0 <= k < num d -> k ∈ fl -> abs d fl !! k = Some (AFree (content (slot d k))).
Proof. intros Hk Hf. rewrite lookup_abs_in by done. unfold aslot_of. by destruct (decide _). Qed.

Lemma abs_used d fl k : 0 <= k < num d -> k ∉ fl -> abs d fl !! k = Some (AUsed (content (slot d k))).
Proof. intros Hk Hf. rewrite lookup_abs_in by done. unfold aslot_of. by destruct (decide _). Qed.

(** Changing the entry [k] and its membership of the free list. *)
Lemma abs_insert d fl d' fl' k :
  num d' = num d -> 0 <= k < num d ->
  (forall j, 0 <= j < num d -> j <> k -> slot d' j = slot d j /\ (j ∈ fl' <-> j ∈ fl)) ->
  abs d' fl' = <[k := aslot_of d' fl' k]> (abs d fl).
Proof.
  intros Hn Hk Hj. apply map_eq. intros j. destruct (decide (j = k)) as [->|Hne].
  - rewrite lookup_insert_eq, lookup_abs, Hn. by destruct (decide _).
  - rewrite lookup_insert_ne by done. rewrite !lookup_abs, Hn.
    destruct (decide (0 <= j < num d)) as [Hr|]; [|done]. destruct (Hj j Hr Hne) as [Hs Hi].
    unfold aslot_of. rewrite Hs. f_equal. by destruct (decide (j ∈ fl')), (decide (j ∈ fl)); try tauto.
Qed.

Lemma abs_uniq d fl k : voldb_wf d -> is_uint32 (uniq (abs d fl) k).
Proof.
  intros Hwf. unfold uniq. rewrite lookup_abs. destruct (decide _) as [Hk|]; [|done].
  pose proof (entry_wf_unique _ (slot_wf d k Hwf Hk)) as Hu. unfold aslot_of.
  by destruct (decide _); cbn [from_option slot_entry]; destruct (slot d k).
Qed.

Lemma abs_grows d fl d' fl' n next :
  0 <= num d -> num d' = num d + n -> 0 < n ->
  (forall k, 0 <= k < num d -> slot d' k = slot d k /\ (k ∈ fl' <-> k ∈ fl)) ->
  (forall k, num d <= k < num d + n -> slot d' k = new_ent (num d + n) next k /\ k ∈ fl') ->
  grows (abs d fl) (abs d' fl').
Proof.
  intros H0' Hn Hpos Hold Hnew k. rewrite !lookup_abs, Hn.
  destruct (decide (0 <= k < num d)) as [Hk|Hk].
  - left. destruct (decide _); [|lia]. destruct (Hold k Hk) as [Hs Hi].
    unfold aslot_of. rewrite Hs. f_equal. by destruct (decide (k ∈ fl')), (decide (k ∈ fl)); try tauto.
  - destruct (decide (0 <= k < num d + n)) as [Hk2|]; [|by left].
    right. split; [done|]. destruct (Hnew k) as [Hs Hi]; [lia|].
    unfold aslot_of. rewrite Hs. by destruct (decide _).
Qed.

(** ** Allocation *)

Lemma kind_asserts d : voldb_wf d ->
  negb (kind_bits d =? Z.lor VOLDB_FILE VOLDB_DIR) = true /\ negb (kind_bits d =? 0) = true.
Proof. intros Hwf. by destruct (kind_cases d (wf_kind d Hwf)) as [(-> & _)|(-> & _)]. Qed.

Lemma fresh_use ft e : content (fst (fst (use_entry ft e))) = fresh ft (content e).
Proof. by destruct e. Qed.

Lemma taken_step d k fl : voldb_ok d (k :: fl) ->
  abs (taken stack k d) fl
  = <[k := AUsed (fresh (kind_type d) (content (slot d k)))]> (abs d (k :: fl)).
Proof.
  intros Hok. pose proof (taken_facts d k fl Hok) as (Hwf & _ & Hk & _).
  pose proof (ok_nodup _ _ Hok) as Hnd. apply NoDup_cons in Hnd as [Hni _].
  rewrite (abs_insert d (k :: fl) _ fl k).
  - f_equal. unfold aslot_of. destruct (decide _); [done|].
    by rewrite (taken_slot stack d k fl Hok), fresh_use.
  - apply taken_num.
  - done.
  - intros j Hj Hne. split; [by eapply taken_slot_ne|]. rewrite elem_of_cons. naive_solver.
Qed.

(** The work of [voldb_new_entry], with the table after it. *)
Lemma new_entry_run d fl :
  voldb_ok d fl -> db_os d = [] -> size d + VOLDB_ENTEND_NUM * VOLDB_DIR_SIZE < 2^32 ->
  exists d' fl' k u, voldb_new_entry stack d = Some (d', inr (k, u)) /\
    voldb_ok d' fl' /\ db_os d' = [] /\ hflags d' = hflags d /\
    vnode_step (kind_type d) (abs d fl) (ENew k u) (abs d' fl').
Proof.
  intros Hok Hos Hsz. pose proof (ok_wf _ _ Hok) as Hwf.
  destruct (kind_asserts d Hwf) as [Ha1 Ha2].
  unfold voldb_new_entry. unfold vbind at 1, vget. rewrite Ha1, Ha2. cbn [vassert].
  unfold vbind at 1, vret at 1. unfold vbind at 1, vret at 1. rewrite func_ok by done.
  unfold vdbflat_new_entry. vstep (vdb_of_ok d Hwf). cbn [freeptr].
  destruct fl as [|k fl].
  - pose proof (ok_chain _ _ Hok) as Hc. cbn [free_chain] in Hc. rewrite Hc, Z.eqb_refl.
    pose proof (esize_bounds d Hwf) as Hes.
    destruct (extend_db_run stack d [] VOLDB_ENTEND_NUM Hok)
      as (d1 & Hrun & Hok1 & Hos1 & Hn1 & Hf1 & _ & Hold & Hnew).
    { done. }
    { change VOLDB_ENTEND_NUM with 10 in *. change VOLDB_DIR_SIZE with 608 in *. nia. }
    { done. }
    vstep Hrun. change VOLDB_ENTEND_NUM with 10 in *.
    rewrite app_nil_r, seqZ_cons in Hok1 by done. pose proof (wf_num d Hwf) as Hnn.
    pose proof (taken_facts d1 _ _ Hok1) as (Hwf1 & Hfp1 & Hk1 & Hu1).
    rewrite (take_free_entry_run stack d1 (num d)) by done.
    eexists _, _, _, _. split; [done|].
    split; [by apply (taken_ok stack)|]. split; [by destruct d1|].
    split; [unfold taken; rewrite commit_hflags; by destruct d1|].
    assert (Hkt : kind_type d1 = kind_type d) by (unfold kind_type, kind_bits; by rewrite Hf1).
    rewrite taken_step, Hkt by done.
    assert (Eu : uwrap32 (unique (slot d1 (num d)) + 1)
                 = unique (fresh (kind_type d) (content (slot d1 (num d)))))
      by (rewrite unique_fresh; by destruct (slot d1 (num d))).
    rewrite Eu. apply step_new.
    + right. split.
      * intros k e. rewrite lookup_abs. destruct (decide _); [|done]. unfold aslot_of.
        destruct (decide (k ∈ [])) as [Hin|]; [by apply not_elem_of_nil in Hin|done].
      * rewrite <- seqZ_cons by done.
        apply (abs_grows d [] d1 _ 10 (the_freeptr d)); [done|done|done| |].
        -- intros k Hk. split; [by apply Hold|]. rewrite elem_of_seqZ, elem_of_nil. lia.
        -- intros k Hk. split; [by apply Hnew|]. rewrite elem_of_seqZ. lia.
    + apply abs_free; [done|apply list_elem_of_here].
  - pose proof (taken_facts d k fl Hok) as (_ & Hfp & Hk & Hu). rewrite Hfp.
    pose proof (num_small d Hwf) as Hs. change VOLDB_ENTRY_USED with (2^32 - 2) in Hs.
    destruct (Z.eqb_spec k VOLDB_FREELIST_END) as [E|_].
    { change VOLDB_FREELIST_END with (2^32 - 1) in E. lia. }
    unfold vbind at 1, vret at 1.
    rewrite (take_free_entry_run stack d k) by done.
    eexists _, _, _, _. split; [done|].
    split; [by apply (taken_ok stack)|]. split; [by destruct d|].
    split; [unfold taken; rewrite commit_hflags; by destruct d|].
    rewrite taken_step by done.
    assert (Eu : uwrap32 (unique (slot d k) + 1)
                 = unique (fresh (kind_type d) (content (slot d k))))
      by (rewrite unique_fresh; by destruct (slot d k)).
    rewrite Eu. apply step_new; [by left|]. apply abs_free; [done|apply list_elem_of_here].
Qed.

(** ** Freeing *)

Lemma del_entry_step d fl k :
  voldb_ok d fl -> 0 <= k < num d -> k ∉ fl ->
  vnode_step (kind_type d) (abs d fl) (EDel k (ino (slot d k))) (abs (deleted stack k d) (k :: fl)).
Proof.
  intros Hok Hk Hf.
  rewrite (abs_insert d fl _ (k :: fl) k); [|by eapply deleted_num|done|].
  - assert (E : aslot_of (deleted stack k d) (k :: fl) k
                = AFree (free_entry 0 (content (slot d k)))).
    { unfold aslot_of. destruct (decide _) as [_|Hn]; [|exfalso; apply Hn, list_elem_of_here].
      rewrite (deleted_slot stack d k fl) by done. by destruct (slot d k). }
    rewrite E. replace (ino (slot d k)) with (ino (content (slot d k))) by (by destruct (slot d k)).
    apply step_del. by apply abs_used.
  - intros j Hj Hne. split; [by apply (deleted_slot_ne stack d k fl)|].
    rewrite elem_of_cons. naive_solver.
Qed.

(** An access past the last entry leaves the file. *)
Lemma get_file_past d : voldb_wf d -> is_file_db d -> voldb_get_file (num d) d = None.
Proof.
  intros Hwf (_ & Hks & Hf & _). unfold voldb_get_file. rewrite func_ok by done.
  unfold vdbflat_get_file, has_flag. unfold vbind at 1, vget. rewrite Hf.
  change (negb (negb (VOLDB_FILE =? 0))) with false. cbv iota. rewrite Z.ltb_irrefl.
  unfold vread. vstep (vmap_ok d Hwf).
  assert (Ha : entry_addr VOLDB_FILE_SIZE (num d) = blen (db_file d)).
  { rewrite (wf_len d Hwf), (wf_size d Hwf). unfold entry_addr, esize. rewrite Hks.
    f_equal. pose proof (wf_size d Hwf) as Hs. pose proof (wf_bound d Hwf) as Hb.
    pose proof (wf_num d Hwf). unfold esize in Hs. rewrite Hks in Hs.
    cbn [default] in Hs |- *. unfold default, id in *.
    rewrite uwrap32_small; [lia|]. unfold is_uint32. change VOLDB_FILE_SIZE with 480 in *.
    change VOLDB_HEADER_SIZE with 40 in *. lia. }
  by rewrite Ha, get_entry_at_out by lia.
Qed.

Lemma get_dir_past d : voldb_wf d -> is_dir_db d -> voldb_get_dir (num d) d = None.
Proof.
  intros Hwf (_ & Hks & _ & Hf). unfold voldb_get_dir. rewrite func_ok by done.
  unfold vdbflat_get_dir, has_flag. unfold vbind at 1, vget. rewrite Hf.
  change (negb (negb (VOLDB_DIR =? 0))) with false. cbv iota. rewrite Z.ltb_irrefl.
  assert (Ha : entry_addr VOLDB_DIR_SIZE (num d) = blen (db_file d)).
  { rewrite (wf_len d Hwf), (wf_size d Hwf). unfold entry_addr, esize. rewrite Hks.
    f_equal. pose proof (wf_size d Hwf) as Hs. pose proof (wf_bound d Hwf) as Hb.
    pose proof (wf_num d Hwf). unfold esize in Hs. rewrite Hks in Hs.
    cbn [default] in Hs |- *. unfold default, id in *.
    rewrite uwrap32_small; [lia|]. unfold is_uint32. change VOLDB_DIR_SIZE with 608 in *.
    change VOLDB_HEADER_SIZE with 40 in *. lia. }
  cbv zeta. rewrite Ha. unfold vread. unfold vbind at 1, vbind at 1. rewrite (vmap_ok d Hwf).
  by rewrite get_entry_at_out by lia.
Qed.

Lemma get_file_beyond d k : voldb_wf d -> is_file_db d -> num d < k ->
  voldb_get_file k d = Some (d, inl EINVAL).
Proof.
  intros Hwf (_ & _ & Hf & _) Hk. unfold voldb_get_file. rewrite func_ok by done.
  unfold vdbflat_get_file, has_flag. unfold vbind at 1, vget. rewrite Hf.
  change (negb (negb (VOLDB_FILE =? 0))) with false. cbv iota.
  by destruct (Z.ltb_spec (num d) k); [|lia].
Qed.

Lemma get_dir_beyond d k : voldb_wf d -> is_dir_db d -> num d < k ->
  voldb_get_dir k d = Some (d, inl EINVAL).
Proof.
  intros Hwf (_ & _ & _ & Hf) Hk. unfold voldb_get_dir. rewrite func_ok by done.
  unfold vdbflat_get_dir, has_flag. unfold vbind at 1, vget. rewrite Hf.
  change (negb (negb (VOLDB_DIR =? 0))) with false. cbv iota.
  by destruct (Z.ltb_spec (num d) k); [|lia].
Qed.

(** ** Opening and closing *)

Definition reopened (fd vol : Z) (d : voldb) : voldb :=
  Voldb (magic d) (num d) (hflags d) 0 (size d) fd vol (Some (Vdbflat (the_freeptr d) true))
    (db_file d) [].

Lemma reopened_wf fd vol d : voldb_wf d -> voldb_wf (reopened fd vol d).
Proof.
  intros Hwf. pose proof (the_freeptr_uint32 d Hwf). destruct Hwf. split; try done. by eexists.
Qed.

Lemma reopened_ok fd vol d fl : voldb_ok d fl -> voldb_ok (reopened fd vol d) fl.
Proof.
  intros [Hwf Hc Hnd Hu Hh]. split; try done; [by apply reopened_wf|].
  by apply (free_chain_ext d).
Qed.

Lemma reopened_abs fd vol d fl : abs (reopened fd vol d) fl = abs d fl.
Proof. done. Qed.

Lemma rd32_header d i z : voldb_wf d -> 0 <= i -> i + 4 <= 40 -> ld32 (db_file d) i = z ->
  rd32 (db_file d) i = Some z.
Proof. intros Hwf Hi Hl <-. pose proof (size_header d Hwf). apply rd32_in; lia. Qed.

Lemma init_run d fl fd ty vol d0 :
  voldb_ok d fl -> 0 <= ty < voltypes_bound -> db_file d0 = db_file d -> db_os d0 = [] ->
  voldb_init fd ty vol true d0 = Some (reopened fd vol d, inr tt).
Proof.
  intros Hok Hty Hf Hos. pose proof (ok_wf _ _ Hok) as Hwf.
  destruct (ok_header _ _ Hok) as (H1 & H2 & H3 & H4).
  unfold voldb_init. destruct (Z.ltb_spec ty 0); [lia|].
  destruct (Z.leb_spec voltypes_bound ty); [lia|]. cbn [orb negb].
  vstep (sys_check_nil d0 Hos).
  rewrite (vbind_ok _ _ d0 d0 tt) by (unfold vcalloc, vbind, sys; by rewrite Hos).
  unfold vbind at 1, vmod. rewrite Hf, Hos, (wf_len d Hwf).
  set (d1 := Voldb 0 0 0 0 (size d) fd vol None (db_file d) []).
  change (VOLDB_FUNC (vdbflat_init false) d1) with (vdbflat_init false d1).
  unfold vdbflat_init. unfold vbind at 1, vget. cbv beta.
  pose proof (size_header d Hwf) as Hsh. rewrite (wf_len d Hwf) in Hsh.
  rewrite (vbind_ok _ _ d1 d1 tt).
  2:{ apply vassert_true. apply Z.leb_le. change VOLDB_HEADER_SIZE with 40. cbn. lia. }
  rewrite (vbind_ok _ _ d1 d1 tt) by done. rewrite (vbind_ok _ _ d1 d1 tt) by done.
  unfold vbind at 1, vmod. cbv beta.
  assert (Hrd : forall i z f m n fg, 0 <= i -> i + 4 <= 40 -> ld32 (db_file d) i = z ->
    vread (fun b => rd32 b i) (Voldb m n fg 0 (size d) fd vol (Some (Vdbflat f true)) (db_file d) [])
    = Some (Voldb m n fg 0 (size d) fd vol (Some (Vdbflat f true)) (db_file d) [], inr z)).
  { intros i z f m n fg Hi1 Hi2 Hz. unfold vread, vbind, vmap, vdb_of, vbind, vget, vopt. cbn.
    by rewrite (rd32_header d i z Hwf Hi1 Hi2 Hz). }
  rewrite (vbind_ok _ _ _ (reopened fd vol d) tt).
  2:{ rewrite (vbind_ok _ _ _ (Voldb (magic d) (num d) (hflags d) 0 (size d) fd vol
        (Some (Vdbflat 0 true)) (db_file d) []) tt).
      - vstep (Hrd VOLDB_HEADER_HALF _ 0 (magic d) (num d) (hflags d) ltac:(done) ltac:(done) H4).
        done.
      - unfold voldb_parse_header. change (set_ptr _ d1) with
          (Voldb 0 0 0 0 (size d) fd vol (Some (Vdbflat 0 true)) (db_file d) []).
        vstep (Hrd 0 _ 0 0 0 0 ltac:(done) ltac:(done) H1).
        vstep (Hrd 4 _ 0 0 0 0 ltac:(done) ltac:(done) H2).
        vstep (Hrd 8 _ 0 0 0 0 ltac:(done) ltac:(done) H3). done. }
  unfold vbind at 1, vget. cbv beta. pose proof (reopened_wf fd vol d Hwf) as Hrwf.
  assert (Hks : kind_size (reopened fd vol d) = Some (esize d)).
  { change (kind_size d = Some (esize d)). unfold esize. by destruct (wf_kind d Hwf) as [? ->]. }
  rewrite Hks. cbn [reopened size num]. rewrite (wf_size d Hwf).
  replace (VOLDB_HEADER_SIZE + num d * esize d - VOLDB_HEADER_SIZE) with (num d * esize d) by lia.
  pose proof (esize_bounds d Hwf). rewrite Z.mod_mul, Z.div_mul, !Z.eqb_refl by lia. cbn [negb].
  unfold set_volhdr_union_ptr, vbind, vget, has_flag.
  destruct (kind_cases _ (wf_kind _ Hrwf)) as [(_ & _ & -> & ->)|(_ & _ & _ & ->)]; done.
Qed.

Lemma flat_close_run d : voldb_wf d -> db_os d = [] ->
  VOLDB_FUNC vdbflat_close d = Some (set_ptr None d, inr tt).
Proof.
  intros Hwf Hos. rewrite func_ok by done. unfold vdbflat_close.
  unfold vbind at 1, vget. rewrite (vbind_ok _ _ d d tt)
    by (apply vassert_true; rewrite (wf_magic d Hwf); done).
  vstep (vdb_of_ok d Hwf). unfold vbind, vmod, sys, sys_check, vbind, sys.
  destruct d. cbn in Hos. by subst db_os.
Qed.

Lemma close_run d : voldb_wf d -> db_os d = [] ->
  voldb_close d = Some (set_ptr None d, inr tt).
Proof. intros Hwf Hos. unfold voldb_close. by rewrite flat_close_run. Qed.

(** ** The steps of the program *)

Definition entry_file (x : voldb_entry) : voldb_file_entry :=
  match u x with u_dir e => dfile e | u_file e => e end.

(** A client is expected to store well-formed entries into entries that are
    in use, and to keep their uniquifier and mark; the bounds keep the file
    within 32 bits. *)
Inductive voldb_step : voldb -> event -> voldb -> Prop :=
  | do_new d d' k u :
      size d + VOLDB_ENTEND_NUM * VOLDB_DIR_SIZE < 2^32 ->
      voldb_new_entry stack d = Some (d', inr (k, u)) -> voldb_step d (ENew k u) d'
  | do_del d d' k o :
      0 <= k -> voldb_del_entry stack k d = Some (d', inr o) -> voldb_step d (EDel k o) d'
  | do_get d d' k x :
      0 <= k < 2^31 -> voldb_get_entry k d = Some (d', inr x) ->
      voldb_step d (EGet k (content (entry_file x))) d'
  | do_put d d' k x :
      0 <= k < num d -> nextptr (slot d k) = VOLDB_ENTRY_USED ->
      entry_wf (entry_file x) -> nextptr (entry_file x) = VOLDB_ENTRY_USED ->
      unique (entry_file x) = unique (slot d k) ->
      voldb_put_entry k x d = Some (d', inr tt) ->
      voldb_step d (EPut k (content (entry_file x))) d'
  | do_expand d d' k :
      0 <= k < 2^31 -> size d + (k + 11) * VOLDB_DIR_SIZE < 2^32 ->
      voldb_expand stack k d = Some (d', inr tt) -> voldb_step d (EExpand k) d'
  | do_flush d d' :
      voldb_flush stack d = Some (d', inr tt) -> voldb_step d ESync d'
  | do_reopen d d' fd vol :
      (voldb_close ;;; voldb_init fd VOLDB_DEFAULT_TYPE vol true) d = Some (d', inr tt) ->
      voldb_step d ESync d'.

Inductive voldb_run : voldb -> list event -> voldb -> Prop :=
  | voldb_run_nil d : voldb_run d [] d
  | voldb_run_cons d ev d1 evs d2 :
      voldb_step d ev d1 -> voldb_run d1 evs d2 -> voldb_run d (ev :: evs) d2.

End Refinement.
