(* ===== verification/VoldbSim.v ===== *)
(** * Volume database: the operations as steps of the specification

    Every successful operation on a database in order leaves it in order and
    is a step of [vnode_step]; the properties of the database. *)

From S2P Require Import Prelude Buf Voldb VoldbRep VoldbFree VoldbOps VoldbCorrect.

Section Sim.
Context `{OnodeCoderOk} (stack : voldb -> bytes) `{!StackOk stack}.

(** The accesses of both kinds at once. *)
Lemma get_entry_ok d k : voldb_wf d -> 0 <= k < num d -> k < 2^31 ->
  exists x, voldb_get_entry k d = Some (d, inr x) /\ entry_file x = slot d k.
Proof.
  intros Hwf Hk Hk31. unfold voldb_get_entry. unfold vbind at 1, vget.
  rewrite uwrap32_small by (unfold is_uint32; lia).
  destruct (kind_cases d (wf_kind d Hwf)) as [Hkd|Hkd].
  - pose proof Hkd as (_ & _ & -> & ->). change (0 =? VOLDB_DIR) with false. cbv iota.
    rewrite Z.eqb_refl. vstep (get_file_ok d k Hwf Hkd Hk). by eexists.
  - pose proof Hkd as (_ & _ & _ & ->). rewrite Z.eqb_refl.
    vstep (get_dir_ok d k Hwf Hkd Hk). by eexists.
Qed.

Lemma get_entry_success d k d' x :
  voldb_wf d -> 0 <= k < 2^31 -> voldb_get_entry k d = Some (d', inr x) -> k < num d.
Proof.
  intros Hwf Hk. unfold voldb_get_entry. unfold vbind at 1, vget.
  rewrite uwrap32_small by (unfold is_uint32; lia).
  destruct (Z.lt_trichotomy k (num d)) as [|[->|Hgt]]; [done| |].
  - destruct (kind_cases d (wf_kind d Hwf)) as [Hkd|Hkd].
    + pose proof Hkd as (_ & _ & -> & ->). change (0 =? VOLDB_DIR) with false. cbv iota.
      rewrite Z.eqb_refl. unfold vbind. by rewrite get_file_past.
    + pose proof Hkd as (_ & _ & _ & ->). rewrite Z.eqb_refl. unfold vbind. by rewrite get_dir_past.
  - destruct (kind_cases d (wf_kind d Hwf)) as [Hkd|Hkd].
    + pose proof Hkd as (_ & _ & -> & ->). change (0 =? VOLDB_DIR) with false. cbv iota.
      rewrite Z.eqb_refl. unfold vbind. by rewrite get_file_beyond.
    + pose proof Hkd as (_ & _ & _ & ->). rewrite Z.eqb_refl. unfold vbind. by rewrite get_dir_beyond.
Qed.

Lemma put_entry_success d k x d' :
  voldb_wf d -> 0 <= k < num d -> entry_wf (entry_file x) ->
  voldb_put_entry k x d = Some (d', inr tt) -> d' = put_slot k (entry_file x) d.
Proof.
  intros Hwf Hk He. pose proof (num_small d Hwf) as Hs. change VOLDB_ENTRY_USED with (2^32 - 2) in Hs.
  unfold voldb_put_entry. unfold vbind at 1, vget. rewrite uwrap32_small by (unfold is_uint32; lia).
  unfold entry_file in *. unfold vassert, vbind, vabort, vret.
  destruct (kind_cases d (wf_kind d Hwf)) as [Hkd|Hkd]; destruct (u x) as [f|f].
  - destruct (type x =? TYPE_DIR); [|done]. pose proof Hkd as (_ & _ & _ & ->). done.
  - destruct (_ || _); [|done]. pose proof Hkd as (_ & _ & -> & _). rewrite Z.eqb_refl.
    destruct (_ =? type x); [|done].
    rewrite (put_file_ok d k f Hwf Hkd Hk (proj2 He)). intros [= <-]. done.
  - destruct (type x =? TYPE_DIR); [|done]. pose proof Hkd as (_ & _ & _ & ->). rewrite Z.eqb_refl.
    destruct (_ =? type x); [|done].
    rewrite (put_dir_ok d k f Hwf Hkd Hk (proj2 He)). intros [= <-]. done.
  - destruct (_ || _); [|done]. pose proof Hkd as (_ & _ & -> & _). done.
Qed.

Lemma del_entry_success d fl k d' o :
  voldb_ok d fl -> 0 <= k -> vdbflat_del_entry stack k d = Some (d', inr o) ->
  k < num d /\ k ∉ fl.
Proof.
  intros Hok Hk. pose proof (ok_wf _ _ Hok) as Hwf.
  unfold vdbflat_del_entry. vstep (vdb_of_ok d Hwf). unfold vbind at 1, vget. cbv beta.
  intros Hrun. assert (Hlt : k < num d).
  { destruct (Z.lt_trichotomy k (num d)) as [|[->|Hgt]]; [done| |];
      exfalso; revert Hrun; destruct (kind_cases d (wf_kind d Hwf)) as [Hkd|Hkd];
      pose proof Hkd as (-> & _).
    - change (VOLDB_FILE =? VOLDB_DIR) with false. change (VOLDB_FILE =? VOLDB_FILE) with true.
      cbv iota. unfold vbind. by rewrite get_file_past.
    - change (VOLDB_DIR =? VOLDB_DIR) with true. cbv iota. unfold vbind. by rewrite get_dir_past.
    - change (VOLDB_FILE =? VOLDB_DIR) with false. change (VOLDB_FILE =? VOLDB_FILE) with true.
      cbv iota. unfold vbind. by rewrite get_file_beyond.
    - change (VOLDB_DIR =? VOLDB_DIR) with true. cbv iota. unfold vbind. by rewrite get_dir_beyond. }
  split; [done|]. intros Hin.
  pose proof (free_chain_unused d _ _ k Hwf (ok_chain _ _ Hok) Hin) as Hn.
  revert Hrun. destruct (kind_cases d (wf_kind d Hwf)) as [Hkd|Hkd]; pose proof Hkd as (-> & _).
  - change (VOLDB_FILE =? VOLDB_DIR) with false. change (VOLDB_FILE =? VOLDB_FILE) with true.
    cbv iota. unfold vbind. rewrite (get_file_ok d k Hwf Hkd (conj Hk Hlt)).
    by rewrite (proj2 (Z.eqb_neq _ _) Hn).
  - change (VOLDB_DIR =? VOLDB_DIR) with true. cbv iota. unfold vbind.
    rewrite (get_dir_ok d k Hwf Hkd (conj Hk Hlt)). cbn [dfile].
    by rewrite (proj2 (Z.eqb_neq _ _) Hn).
Qed.

(** Storing into a used entry. *)
Lemma put_slot_ok d fl k e :
  voldb_ok d fl -> 0 <= k < num d -> k ∉ fl -> entry_wf e -> nextptr e = VOLDB_ENTRY_USED ->
  voldb_ok (put_slot k e d) fl.
Proof.
  intros [Hwf Hc Hnd Hu Hh] Hk Hf He Hn.
  assert (Hnum : num (put_slot k e d) = num d) by (by destruct d).
  split.
  - apply put_slot_wf; [done|apply He].
  - replace (the_freeptr (put_slot k e d)) with (the_freeptr d) by (by destruct d).
    apply (free_chain_ext d); [lia| |done]. intros j Hj.
    rewrite slot_put_slot_ne; [done..|apply He| |]; [by eapply free_chain_range|by intros ->].
  - done.
  - rewrite Hnum. intros j Hj Hjf. destruct (decide (j = k)) as [->|Hne].
    + by rewrite slot_put_slot.
    + rewrite slot_put_slot_ne; [by apply Hu|done..|apply He|done|done].
  - destruct Hh as (H1 & H2 & H3 & H4). unfold header_on_disk.
    change VOLDB_HEADER_HALF with 20 in *. rewrite !put_slot_header by done.
    replace (the_freeptr (put_slot k e d)) with (the_freeptr d) by (by destruct d). by destruct d.
Qed.

Lemma put_hdr_ok d fl : voldb_ok d fl -> voldb_ok (put_hdr stack d) fl.
Proof.
  intros [Hwf Hc Hnd Hu Hh]. split.
  - by apply put_hdr_wf.
  - replace (the_freeptr (put_hdr stack d)) with (the_freeptr d) by (by destruct d).
    apply (free_chain_ext d); [by destruct d| |done].
    intros k Hk. rewrite put_hdr_slot; [done..|]. by eapply free_chain_range.
  - done.
  - replace (num (put_hdr stack d)) with (num d) by (by destruct d).
    intros k Hk Hn. rewrite put_hdr_slot by done. by apply Hu.
  - by apply put_hdr_header.
Qed.

Lemma put_hdr_abs d fl : voldb_wf d -> abs (put_hdr stack d) fl = abs d fl.
Proof.
  intros Hwf. apply map_eq. intros k. rewrite !lookup_abs.
  replace (num (put_hdr stack d)) with (num d) by (by destruct d).
  destruct (decide _); [|done]. unfold aslot_of. by rewrite put_hdr_slot.
Qed.

(** The simulation, an operation at a time. *)

Definition sim (d : voldb) (fl : list Z) (ev : event) (d' : voldb) : Prop :=
  exists fl', voldb_ok d' fl' /\ db_os d' = [] /\ hflags d' = hflags d /\
    vnode_step (kind_type d) (abs d fl) ev (abs d' fl').

Section One.
Context (d : voldb) (fl : list Z) (Hok : voldb_ok d fl) (Hos : db_os d = []).

Lemma sim_new d' k u :
  size d + VOLDB_ENTEND_NUM * VOLDB_DIR_SIZE < 2^32 ->
  voldb_new_entry stack d = Some (d', inr (k, u)) -> sim d fl (ENew k u) d'.
Proof.
  intros Hsz Hrun. destruct (new_entry_run stack d fl Hok Hos Hsz) as (d1 & fl' & k1 & u1 & E & Hs).
  rewrite E in Hrun. simplify_eq. by exists fl'.
Qed.

Lemma sim_del d' k o :
  0 <= k -> voldb_del_entry stack k d = Some (d', inr o) -> sim d fl (EDel k o) d'.
Proof.
  intros Hk Hrun. unfold voldb_del_entry in Hrun. rewrite func_ok in Hrun by apply Hok.
  destruct (del_entry_success d fl k d' o Hok Hk Hrun) as [Hlt Hf].
  rewrite (del_entry_run stack d k fl) in Hrun by done. simplify_eq.
  exists (k :: fl). split; [by eapply deleted_ok|]. split; [by destruct d|].
  split; [unfold deleted; rewrite commit_hflags; by destruct d|]. by apply del_entry_step.
Qed.

Lemma sim_get d' k x :
  0 <= k < 2^31 -> voldb_get_entry k d = Some (d', inr x) ->
  sim d fl (EGet k (content (entry_file x))) d'.
Proof.
  intros Hk Hrun. pose proof (ok_wf _ _ Hok) as Hwf.
  pose proof (get_entry_success d k d' x Hwf Hk Hrun) as Hlt.
  destruct (get_entry_ok d k Hwf (conj (proj1 Hk) Hlt) (proj2 Hk)) as (x' & E & Hx).
  rewrite E in Hrun. simplify_eq. exists fl. split; [done|]. split; [done|]. split; [done|].
  rewrite Hx. replace (content (slot d' k)) with (slot_entry (aslot_of d' fl k))
    by (unfold aslot_of; by destruct (decide _)).
  apply step_get, lookup_abs_in. lia.
Qed.

Lemma sim_put d' k x :
  0 <= k < num d -> nextptr (slot d k) = VOLDB_ENTRY_USED ->
  entry_wf (entry_file x) -> nextptr (entry_file x) = VOLDB_ENTRY_USED ->
  unique (entry_file x) = unique (slot d k) ->
  voldb_put_entry k x d = Some (d', inr tt) -> sim d fl (EPut k (content (entry_file x))) d'.
Proof.
  intros Hk Hused He Hn Hu Hrun. pose proof (ok_wf _ _ Hok) as Hwf.
  rewrite (put_entry_success d k x d' Hwf Hk He Hrun).
  assert (Hf : k ∉ fl).
  { intros Hin. by apply (free_chain_unused d _ _ k Hwf (ok_chain _ _ Hok) Hin). }
  exists fl. split; [by apply put_slot_ok|]. split; [by destruct d|]. split; [by destruct d|].
  rewrite (abs_insert d fl (put_slot k (entry_file x) d) fl k); [|by destruct d|done|].
  - assert (E : aslot_of (put_slot k (entry_file x) d) fl k = AUsed (content (entry_file x))).
    { unfold aslot_of. rewrite slot_put_slot by done. by destruct (decide _). }
    rewrite E. apply (step_put _ _ _ (content (slot d k))); [by apply abs_used|].
    by destruct (entry_file x), (slot d k).
  - intros j Hj Hne. split; [|done]. apply slot_put_slot_ne; [done..|apply He|done|done].
Qed.

Lemma sim_expand d' k :
  0 <= k < 2^31 -> size d + (k + 11) * VOLDB_DIR_SIZE < 2^32 ->
  voldb_expand stack k d = Some (d', inr tt) -> sim d fl (EExpand k) d'.
Proof.
  intros Hk Hsz Hrun. pose proof (ok_wf _ _ Hok) as Hwf. unfold voldb_expand in Hrun.
  rewrite func_ok in Hrun by done. unfold vdbflat_expand in Hrun. unfold vbind at 1, vget in Hrun.
  pose proof (wf_num d Hwf) as Hn. pose proof (esize_bounds d Hwf) as Hes.
  assert (Hn31 : num d < 2^31).
  { pose proof (wf_size d Hwf) as Hs. pose proof (wf_bound d Hwf).
    change VOLDB_HEADER_SIZE with 40 in Hs. nia. }
  change VOLDB_DIR_SIZE with 608 in *.
  assert (0 <= size d) by (rewrite <- (wf_len d Hwf); apply blen_nonneg).
  rewrite (uwrap32_small k), (swrap32_small (k - num d + 1)) in Hrun
    by (unfold is_uint32, is_int32; lia).
  destruct (Z.ltb_spec 0 (k - num d + 1)) as [Hpos|Hneg].
  - change VOLDB_ENTEND_NUM with 10 in Hrun. rewrite uwrap32_small in Hrun by (unfold is_uint32; lia).
    destruct (extend_db_run stack d fl (k - num d + 1 + 10) Hok)
      as (d1 & E & Hok1 & Hos1 & Hn1 & Hf1 & _ & Hold & Hnew); [lia|nia|done|].
    rewrite E in Hrun. simplify_eq. eexists. split; [done|]. split; [done|]. split; [done|].
    apply step_expand.
    + apply (abs_grows d fl d' _ (k - num d + 1 + 10) (the_freeptr d)); [done|done|lia| |].
      * intros j Hj. split; [by apply Hold|]. rewrite elem_of_app, elem_of_seqZ. intuition lia.
      * intros j Hj. split; [by apply Hnew|]. rewrite elem_of_app, elem_of_seqZ. left. lia.
    + rewrite lookup_abs_in; [done|lia].
  - unfold vret in Hrun. simplify_eq. exists fl. split; [done|]. split; [done|]. split; [done|].
    apply step_expand; [by left|]. rewrite lookup_abs_in; [done|lia].
Qed.

Lemma sim_flush d' : voldb_flush stack d = Some (d', inr tt) -> sim d fl ESync d'.
Proof.
  intros Hrun. pose proof (ok_wf _ _ Hok) as Hwf. pose proof (put_hdr_wf stack d Hwf) as Hwf'.
  unfold voldb_flush in Hrun.
  assert (Hos' : db_os (put_hdr stack d) = []) by (by destruct d).
  rewrite (vbind_ok _ _ d (put_hdr stack d) tt) in Hrun
    by (rewrite write_hdr_run by done; by apply sys_check_nil).
  rewrite func_ok in Hrun by done. unfold vdbflat_flush in Hrun.
  rewrite (vbind_ok _ _ _ _ _ (vdb_of_ok _ Hwf')), sys_check_nil in Hrun by done. simplify_eq.
  exists fl. split; [by apply put_hdr_ok|]. split; [done|]. split; [by destruct d|].
  rewrite put_hdr_abs by done. apply step_sync.
Qed.

Lemma sim_reopen d' fd vol :
  (voldb_close ;;; voldb_init fd VOLDB_DEFAULT_TYPE vol true)%vm d = Some (d', inr tt) ->
  sim d fl ESync d'.
Proof.
  pose proof (ok_wf _ _ Hok) as Hwf. vstep (close_run d Hwf Hos).
  rewrite (init_run d fl fd VOLDB_DEFAULT_TYPE vol); [|done|done|by destruct d|by destruct d].
  intros [= <-]. exists fl. split; [by apply reopened_ok|]. split; [done|]. split; [done|].
  rewrite reopened_abs. apply step_sync.
Qed.
End One.

Lemma step_sim d fl ev d' :
  voldb_ok d fl -> db_os d = [] -> voldb_step stack d ev d' -> sim d fl ev d'.
Proof.
  intros Hok Hos Hs. inversion Hs; subst;
    eauto using sim_new, sim_del, sim_get, sim_put, sim_expand, sim_flush, sim_reopen.
Qed.

Lemma run_sim d fl evs d' :
  voldb_ok d fl -> db_os d = [] -> voldb_run stack d evs d' ->
  exists fl', voldb_ok d' fl' /\ db_os d' = [] /\
    vnode_run (kind_type d) (abs d fl) evs (abs d' fl').
Proof.
  intros Hok Hos Hrun. revert fl Hok Hos.
  induction Hrun as [d|d ev d1 evs d2 Hs _ IH]; intros fl Hok Hos.
  { exists fl. split; [done|]. split; [done|]. constructor. }
  destruct (step_sim _ _ _ _ Hok Hos Hs) as (fl1 & Hok1 & Hos1 & Hf1 & Hst).
  destruct (IH fl1 Hok1 Hos1) as (fl2 & Hok2 & Hos2 & Hr).
  exists fl2. split; [done|]. split; [done|]. econstructor; [done|].
  replace (kind_type d) with (kind_type d1); [done|]. unfold kind_type, kind_bits. by rewrite Hf1.
Qed.

End Sim.
