(* ===== verification/VoldbProps.v ===== *)
(** * Volume database: the properties

    The promises of the volume database to the file server, the runs in
    which the code breaks them, and concrete databases on which the
    properties are instantiated. *)

From S2P Require Import Prelude Buf Voldb VoldbRep VoldbFree VoldbOps VoldbCorrect VoldbSim.

(** ** A coder of onodes *)

(** One word for the size and one for each byte, as ydr codes an [int32_t]
    and an array of [char]. *)
#[export] Instance word_coder : OnodeCoder := {
  ydr_encode_onode_opaque o := words_bytes (onode_size o :: onode_data o);
  ydr_decode_onode_opaque bs :=
    match get_words bs 0 101 with
    | Some (s :: ws) => Onode (swrap32 s) (map (fun w => w mod 256) ws)
    | _ => zero_onode
    end;
}.

Lemma st_whole b x : blen x = blen b -> st b 0 x = x.
Proof.
  intros Hl. unfold st. rewrite in_buf_true by lia. simpl.
  rewrite drop_ge by (unfold blen in *; lia). by rewrite app_nil_r.
Qed.

Lemma get_words_whole ws : get_words (words_bytes ws) 0 (length ws) = Some (map uwrap32 ws).
Proof.
  pose proof (get_words_st (words_bytes ws) 0 [] ws []) as E. rewrite app_nil_r in E.
  cbn [app] in E. rewrite st_whole in E by done. apply E; [done|lia].
Qed.

#[export] Instance word_coder_ok : OnodeCoderOk.
Proof.
  split.
  - intros o (_ & Hl & _). pose proof (blen_words_bytes (onode_size o :: onode_data o)) as E.
    unfold blen in E. cbn [ydr_encode_onode_opaque word_coder]. simpl length in E |- *.
    change (Z.to_nat ONODE_OPAQUE_SIZE) with 404%nat. lia.
  - intros o _. apply words_bytes_bytes.
  - intros [s ds] (Hs & Hl & Hd). cbn [onode_size onode_data] in *.
    cbn [ydr_encode_onode_opaque ydr_decode_onode_opaque word_coder onode_size onode_data].
    replace 101%nat with (length (s :: ds)) by (simpl; lia). rewrite get_words_whole. cbn [map].
    rewrite swrap32_uwrap32, swrap32_small by done. f_equal.
    rewrite map_map. etransitivity; [|apply map_id]. apply map_ext_in. intros x Hx%list_elem_of_In.
    eapply Forall_forall in Hd; [|done]. unfold is_byte, uwrap32 in *.
    rewrite (Z.mod_small x) by lia. by rewrite Z.mod_small by lia.
  - intros bs Hl Hb. change (Z.to_nat ONODE_OPAQUE_SIZE) with 404%nat in Hl.
    destruct (get_words_in bs 0 101) as (ws & E & Hwl & Hw); [done|unfold blen; lia|done|].
    cbn [ydr_decode_onode_opaque word_coder]. rewrite E. destruct ws as [|s ws]; [done|].
    split; [apply swrap32_range|]. cbn [onode_data]. split; [rewrite length_map; simpl in Hwl; lia|].
    apply Forall_forall. intros x Hx%list_elem_of_In. apply in_map_iff in Hx as (y & <- & _).
    by apply Z.mod_pos_bound.
Qed.

Definition zero_stack (d : voldb) : bytes := replicate 40 0.
#[export] Instance zero_stack_ok : StackOk zero_stack.
Proof. split; intros d; [done|]. by apply Forall_replicate. Qed.

(** ** Creating a database *)

Section Props.
Context `{OnodeCoderOk} (stack : voldb -> bytes) `{!StackOk stack}.

(** The state in which [voldb_create_header] writes the header. *)
Definition blank (fl fd vol : Z) : voldb :=
  Voldb VOLDB_MAGIC_HEADER 0 fl 0 VOLDB_HEADER_SIZE fd vol
    (Some (Vdbflat VOLDB_FREELIST_END true)) (replicate 40 0) [].

Lemma blank_wf fl fd vol : fl = VOLDB_FILE \/ fl = VOLDB_DIR -> voldb_wf (blank fl fd vol).
Proof.
  intros Hfl. split; try done.
  - destruct Hfl as [-> | ->]; by eexists.
  - by destruct Hfl as [-> | ->].
  - by eexists.
  - by apply Forall_replicate.
Qed.

Lemma blank_ok fl fd vol :
  fl = VOLDB_FILE \/ fl = VOLDB_DIR -> voldb_ok (put_hdr stack (blank fl fd vol)) [].
Proof.
  intros Hfl. pose proof (blank_wf fl fd vol Hfl) as Hwf. split.
  - by apply put_hdr_wf.
  - done.
  - constructor.
  - intros k Hk. cbn in Hk. lia.
  - by apply put_hdr_header.
Qed.

Lemma create_run fl d : fl = VOLDB_FILE \/ fl = VOLDB_DIR -> db_file d = [] -> db_os d = [] ->
  voldb_create_header stack 0 fl d
  = Some (set_ptr None (put_hdr stack (blank fl (db_fd d) (volume d))), inr tt).
Proof.
  intros Hfl Hf Hos. pose proof (blank_wf fl (db_fd d) (volume d) Hfl) as Hwf.
  unfold voldb_create_header. vstep (sys_check_nil d Hos). unfold vbind at 1, vget. cbv beta.
  rewrite Hf. change (negb (blen [] =? 0)) with false. cbv iota. vstep (sys_check_nil d Hos).
  unfold vbind at 1, vmod. cbv beta. rewrite Hf, Hos.
  assert (Efl : uwrap32 fl = fl) by (by destruct Hfl as [-> | ->]). rewrite Efl.
  change (resize (Z.to_nat VOLDB_HEADER_SIZE) 0 []) with (replicate 40 0).
  rewrite (vbind_ok _ _ _ (blank fl (db_fd d) (volume d)) tt)
    by (destruct Hfl as [-> | ->]; done).
  rewrite (vbind_ok _ _ _ (put_hdr stack (blank fl (db_fd d) (volume d))) tt)
    by (rewrite write_hdr_run by done; by apply sys_check_nil).
  pose proof (put_hdr_wf stack _ Hwf) as Hwf'.
  by rewrite (flat_close_run _ (put_hdr_wf stack _ Hwf) eq_refl).
Qed.

(** ** Accesses *)

(** The accesses to entries by number, in a database of files: an entry
    inside is read without a change, a number beyond the end is [EINVAL], but
    the number one past the last entry passes the test of the code and reads
    outside the file. *)
Theorem vdbflat_get_file_bounds d k :
  voldb_wf d -> is_file_db d -> 0 <= k ->
  voldb_get_file k d =
    if k <? num d then Some (d, inr (slot d k))
    else if k =? num d then None
    else Some (d, inl EINVAL).
Proof.
  intros Hwf Hkd Hk. destruct (Z.ltb_spec k (num d)); [by apply get_file_ok|].
  destruct (Z.eqb_spec k (num d)) as [->|]; [by apply get_file_past|].
  apply get_file_beyond; [done..|lia].
Qed.

(** What is stored in an entry is read back, and no other entry changes. *)
Theorem voldb_put_get d k e :
  voldb_wf d -> is_file_db d -> 0 <= k < num d -> entry_wf e ->
  exists d', voldb_put_file k e d = Some (d', inr tt) /\
    voldb_get_file k d' = Some (d', inr e) /\
    (forall j, 0 <= j < num d -> j <> k ->
       voldb_get_file j d' = Some (d', inr (slot d j)) /\
       voldb_get_file j d = Some (d, inr (slot d j))) /\
    d' = set_file (db_file d') d.
Proof.
  intros Hwf Hkd Hk He. exists (put_slot k e d).
  pose proof (put_slot_wf d k e Hwf (proj2 He)) as Hwf'.
  assert (Hkd' : is_file_db (put_slot k e d)) by (by destruct d).
  assert (Hn : num (put_slot k e d) = num d) by (by destruct d).
  split; [by apply put_file_ok; [..|apply He]|].
  split; [rewrite get_file_ok by (try rewrite Hn; done); by rewrite slot_put_slot|].
  split; [|by destruct d]. intros j Hj Hne. split; [|by apply get_file_ok].
  rewrite get_file_ok by (try rewrite Hn; done). rewrite slot_put_slot_ne; try done. apply He.
Qed.

(** A directory entry is stored in two parts, and is read back whole; storing
    the entry alone keeps the ACLs of the database. *)
Theorem voldb_dir_put_get d k e :
  voldb_wf d -> is_dir_db d -> 0 <= k < num d -> entry_wf (dfile e) ->
  acl_wf (negacl e) -> acl_wf (acl e) ->
  exists d1 d2, voldb_put_dir k e d = Some (d1, inr tt) /\
    voldb_get_dir k d1
    = Some (d1, inr (DirEntry (dfile e) (fst (slot_acls d k)) (snd (slot_acls d k)))) /\
    voldb_put_acl k e d1 = Some (d2, inr tt) /\
    voldb_get_dir k d2 = Some (d2, inr e).
Proof.
  intros Hwf Hkd Hk He Hn Hp. pose proof Hkd as (_ & Hks & _ & Hfl).
  set (d1 := put_slot k (dfile e) d). exists d1, (put_slot_acls k e d1).
  pose proof (put_slot_wf d k (dfile e) Hwf (proj2 He)) as Hwf1. fold d1 in Hwf1.
  assert (Hkd1 : is_dir_db d1) by (by destruct d).
  assert (Hn1 : num d1 = num d) by (by destruct d).
  pose proof (addr_range d k Hwf Hk) as Ha. pose proof (wf_len d Hwf) as Hl.
  assert (Hsz : esize d = VOLDB_FILE_SIZE + acls_size) by (unfold esize; by rewrite Hks).
  assert (Hacls : slot_acls d1 k = slot_acls d k).
  { unfold slot_acls, d1, put_slot. rewrite set_file_file, set_file_addr.
    assert (0 <= acls_size) by done. assert (0 <= VOLDB_FILE_SIZE) by done.
    apply same_in_acls_at; [lia|]. apply same_in_st; [lia|].
    rewrite blen_enc_entry by apply He. lia. }
  set (d2 := put_slot_acls k e d1).
  assert (Hwf2 : voldb_wf d2).
  { apply set_file_wf; [done|apply blen_st|]. apply st_bytes; [apply (wf_bytes _ Hwf1)|].
    apply words_bytes_bytes. }
  assert (Hkd2 : is_dir_db d2) by (by destruct d).
  split; [by apply put_dir_ok; [..|apply He]|]. split; [|split].
  - rewrite get_dir_ok by (try rewrite Hn1; done). unfold d1 at 2. rewrite slot_put_slot by done.
    by rewrite Hacls.
  - unfold voldb_put_acl. unfold vbind at 1, vget. rewrite (proj2 (proj2 (proj2 Hkd1))).
    change (VOLDB_DIR =? VOLDB_DIR) with true. cbn [vassert]. unfold vbind at 1, vret.
    rewrite func_ok by done. apply put_acl_ok; [done..|by rewrite Hn1].
  - assert (Hnn2 : num d2 = num d) by (by destruct d).
    rewrite get_dir_ok by (try rewrite Hnn2; done). unfold d2 at 2.
    rewrite put_slot_acls_slot by (try rewrite Hn1; done). unfold d1 at 1.
    rewrite slot_put_slot by done.
    assert (Hs2 : slot_acls d2 k = (negacl e, acl e)).
    { unfold slot_acls, d2, put_slot_acls. rewrite set_file_file, set_file_addr.
      assert (Ha1 : addr d1 k = addr d k) by (by destruct d). rewrite Ha1. unfold acls_at.
      assert (0 <= VOLDB_FILE_SIZE) by done.
      rewrite get_acls_at_st; [done|lia| |done|done].
      unfold d1, put_slot. rewrite set_file_file, blen_st. lia. }
    rewrite Hs2. by destruct e.
Qed.

(** ** Allocation *)

(** Allocation.  On a database in order whose file can still grow,
    [voldb_new_entry] succeeds.  The entry it answers was free in the table,
    or is one of the new entries the file was extended by when there was no
    free one; it is now used, its uniquifier is the next one, and it is the
    only entry that changed; the database is in order again. *)
Theorem voldb_new_entry_ok d fl :
  voldb_ok d fl -> db_os d = [] -> size d + VOLDB_ENTEND_NUM * VOLDB_DIR_SIZE < 2^32 ->
  exists d' fl' k u, voldb_new_entry stack d = Some (d', inr (k, u)) /\
    voldb_ok d' fl' /\ db_os d' = [] /\
    vnode_step (kind_type d) (abs d fl) (ENew k u) (abs d' fl').
Proof.
  intros Hok Hos Hsz.
  destruct (new_entry_run stack d fl Hok Hos Hsz) as (d' & fl' & k & u & E & H1 & H2 & _ & H3).
  by exists d', fl', k, u.
Qed.

(** Deletion.  [voldb_del_entry] on a used entry answers its onode and
    makes it the first free entry; no other entry changes, and the database
    is in order again. *)
Theorem voldb_del_entry_ok d fl k :
  voldb_ok d fl -> db_os d = [] -> 0 <= k < num d -> nextptr (slot d k) = VOLDB_ENTRY_USED ->
  exists d', voldb_del_entry stack k d = Some (d', inr (ino (slot d k))) /\
    voldb_ok d' (k :: fl) /\ db_os d' = [] /\
    vnode_step (kind_type d) (abs d fl) (EDel k (ino (slot d k))) (abs d' (k :: fl)).
Proof.
  intros Hok Hos Hk Hu. pose proof (ok_wf _ _ Hok) as Hwf.
  assert (Hf : k ∉ fl).
  { intros Hin. by apply (free_chain_unused d _ _ k Hwf (ok_chain _ _ Hok) Hin). }
  exists (deleted stack k d). unfold voldb_del_entry. rewrite func_ok by done.
  rewrite (del_entry_run stack d k fl) by done. split; [done|].
  split; [by eapply deleted_ok|]. split; [by destruct d|]. by apply del_entry_step.
Qed.

(** C1: Refinement.  Starting from a database in order, any sequence of
    successful allocations, deletions, reads, stores, expansions, flushes and
    reopenings is a run of the abstract table of vnodes, and leaves a database
    in order: its free list is a chain of exactly the entries not in use, and
    the header in the file is that of the handle. *)
Theorem voldb_run_refines d fl evs d' :
  voldb_ok d fl -> db_os d = [] -> voldb_run stack d evs d' ->
  exists fl', voldb_ok d' fl' /\ vnode_run (kind_type d) (abs d fl) evs (abs d' fl').
Proof.
  intros Hok Hos Hrun. destruct (run_sim stack d fl evs d' Hok Hos Hrun) as (fl' & H1 & _ & H2).
  by exists fl'.
Qed.

(** C25: Fids are not reused.  Within 2^32 operations of any kind, deletions and
    reopenings included, no pair of a number and a uniquifier is handed out
    twice. *)
Theorem voldb_no_pair_twice d fl evs d' :
  voldb_ok d fl -> db_os d = [] -> voldb_run stack d evs d' ->
  Z.of_nat (length evs) < 2^32 -> NoDup (allocs evs).
Proof.
  intros Hok Hos Hrun Hlen. destruct (run_sim stack d fl evs d' Hok Hos Hrun) as (fl' & _ & _ & Hr).
  eapply vnode_run_allocs_nodup; [done| |done]. intros k. apply abs_uniq. apply Hok.
Qed.

(** ** Opening *)

(** Closing a database in order and opening its file gives the same table,
    in order. *)
Theorem voldb_reopen d fl fd vol :
  voldb_ok d fl -> db_os d = [] ->
  exists d', (voldb_close ;;; voldb_init fd VOLDB_DEFAULT_TYPE vol true)%vm d
             = Some (d', inr tt) /\
    voldb_ok d' fl /\ abs d' fl = abs d fl /\ num d' = num d /\ hflags d' = hflags d /\
    db_file d' = db_file d.
Proof.
  intros Hok Hos. exists (reopened fd vol d). vstep (close_run d (ok_wf _ _ Hok) Hos).
  rewrite (init_run d fl fd VOLDB_DEFAULT_TYPE vol); [|done|done|by destruct d|by destruct d].
  split; [done|]. split; [by apply reopened_ok|]. done.
Qed.

(** A new database.  [voldb_create_header] on an empty file and then
    [voldb_init] give an empty database in order, of the kind that was asked
    for. *)
Theorem voldb_create_open fl fd vol d :
  fl = VOLDB_FILE \/ fl = VOLDB_DIR -> db_file d = [] -> db_os d = [] ->
  exists d', (voldb_create_header stack VOLDB_DEFAULT_TYPE fl ;;;
              voldb_init fd VOLDB_DEFAULT_TYPE vol true)%vm d = Some (d', inr tt) /\
    voldb_ok d' [] /\ db_os d' = [] /\ num d' = 0 /\ hflags d' = fl.
Proof.
  intros Hfl Hf Hos. vstep (create_run fl d Hfl Hf Hos).
  pose proof (blank_ok fl (db_fd d) (volume d) Hfl) as Hok.
  exists (reopened fd vol (put_hdr stack (blank fl (db_fd d) (volume d)))).
  rewrite (init_run _ [] fd VOLDB_DEFAULT_TYPE vol _ Hok); [|done..].
  split; [done|]. split; [by apply reopened_ok|]. done.
Qed.

(** ** A failing extension *)

(** The handle without its mapping. *)
Definition unmapped (d : voldb) : voldb :=
  set_os [] (set_ptr (Some (Vdbflat (the_freeptr d) false)) d).

Lemma unmapped_extend n d :
  voldb_wf d -> vdbflat_extend_db stack n (unmapped d) = vdbflat_extend_db stack n (set_os [] d).
Proof.
  intros Hwf. destruct (wf_ptr d Hwf) as (f & Hp & _).
  destruct (wf_kind d Hwf) as [sz Hks]. pose proof (wf_magic d Hwf) as Hm.
  assert (Hks1 : kind_size (unmapped d) = Some sz) by (by destruct d).
  assert (Hks2 : kind_size (set_os [] d) = Some sz) by (by destruct d).
  unfold vdbflat_extend_db. rewrite !vbind_get. cbv zeta.
  rewrite Hks1, Hks2. unfold unmapped. destruct d. cbn in Hp, Hm |- *. by subst ptr magic.
Qed.

Lemma unmapped_get_entry d k : voldb_wf d -> 0 <= k <= num d -> k < 2^31 ->
  voldb_get_entry k (unmapped d) = None.
Proof.
  intros Hwf Hk Hk31. pose proof (kind_cases d (wf_kind d Hwf)) as Hkd.
  pose proof (wf_type d Hwf) as Ht. unfold voldb_get_entry. unfold vbind at 1, vget.
  rewrite uwrap32_small by (unfold is_uint32; lia).
  unfold unmapped, is_file_db, is_dir_db, kind_bits in *. destruct d. cbn in Ht, Hkd, Hk |- *. subst db_type.
  destruct Hkd as [(_ & _ & Hf & Hd)|(_ & _ & Hf & Hd)]; rewrite ?Hd, ?Hf.
  - change (0 =? VOLDB_DIR) with false. rewrite Z.eqb_refl.
    unfold voldb_get_file, VOLDB_FUNC, vdbflat_get_file, has_flag, vbind, vget. cbn -[Z.land].
    rewrite Hf. change (VOLDB_FILE =? 0) with false. cbn [negb].
    by destruct (Z.ltb_spec num k); [lia|].
  - rewrite Z.eqb_refl.
    unfold voldb_get_dir, VOLDB_FUNC, vdbflat_get_dir, has_flag, vbind, vget. cbn -[Z.land].
    rewrite Hd. change (VOLDB_DIR =? 0) with false. cbn [negb].
    by destruct (Z.ltb_spec num k); [lia|].
Qed.

Lemma set_os_ok os d fl : voldb_ok d fl -> voldb_ok (set_os os d) fl.
Proof.
  intros [Hwf Hc Hnd Hu Hh]. assert (Hwf' : voldb_wf (set_os os d)) by (destruct Hwf; by destruct d).
  split; [done| |done| |by destruct d].
  - replace (the_freeptr (set_os os d)) with (the_freeptr d) by (by destruct d).
    apply (free_chain_ext d); [by destruct d| |done]. intros. by destruct d.
  - intros k Hk. replace (slot (set_os os d) k) with (slot d k) by (by destruct d).
    apply Hu. by destruct d.
Qed.

Lemma unmapped_facts d f : voldb_wf d -> ptr d = Some (Vdbflat f true) ->
  db_type (unmapped d) = 0 /\ ptr (unmapped d) = Some (Vdbflat f false) /\
  kind_bits (unmapped d) = kind_bits d.
Proof.
  intros Hwf Hp. pose proof (wf_type d Hwf). unfold unmapped, the_freeptr. rewrite Hp.
  by destruct d.
Qed.

Lemma wr_be32 s x i : blen s = 40 -> 0 <= i -> i + 4 <= 40 ->
  exists s', wr s i (be32 x) = Some s' /\ blen s' = 40.
Proof.
  intros Hl Hi1 Hi2. eexists. split; [apply wr_in; rewrite ?blen_be32; lia|]. by rewrite blen_st.
Qed.

Lemma unmapped_flush d : voldb_wf d -> voldb_flush stack (unmapped d) = None.
Proof.
  intros Hwf. destruct (wf_ptr d Hwf) as (f & Hp & _).
  destruct (unmapped_facts d f Hwf Hp) as (Ht1 & Hp1 & _).
  pose proof (stack_len (unmapped d)) as Hl. change VOLDB_HEADER_SIZE with 40 in Hl.
  set (d1 := unmapped d) in *. unfold voldb_flush, voldb_write_hdr.
  unfold vbind at 1. rewrite vbind_get.
  destruct (wr_be32 (stack d1) (magic d1) 0) as (s1 & -> & Hs1); [done..|].
  cbn [vopt]. rewrite vbind_ret.
  destruct (wr_be32 s1 (num d1) 4) as (s2 & -> & Hs2); [done..|].
  cbn [vopt]. rewrite vbind_ret.
  destruct (wr_be32 s2 (hflags d1) 8) as (s3 & -> & Hs3); [done..|].
  cbn [vopt]. rewrite vbind_ret.
  unfold VOLDB_FUNC. rewrite vbind_get, Ht1. change (0 =? 0) with true. cbv iota.
  unfold vdbflat_write_header. rewrite (vbind_ok _ _ d1 d1 tt)
    by (apply vassert_true; rewrite Hs3; done).
  rewrite vbind_get, Hp1. cbn [freeptr].
  destruct (wr_be32 s3 f VOLDB_HEADER_HALF) as (s4 & -> & Hs4); [done..|].
  cbn [vopt]. rewrite vbind_ret.
  unfold vwrite, vmap, vdb_of, vbind, vget. by rewrite Hp1.
Qed.

Lemma unmapped_new_entry d : voldb_wf d -> the_freeptr d = VOLDB_FREELIST_END ->
  voldb_new_entry stack (unmapped d) = voldb_new_entry stack (set_os [] d).
Proof.
  intros Hwf Hc. destruct (wf_ptr d Hwf) as (f & Hp & _).
  destruct (unmapped_facts d f Hwf Hp) as (Ht1 & Hp1 & Hk1).
  destruct (kind_asserts d Hwf) as [Ha1 Ha2].
  assert (Ht2 : db_type (set_os [] d) = 0) by (rewrite <- (wf_type d Hwf); by destruct d).
  assert (Hk2 : kind_bits (set_os [] d) = kind_bits d) by (by destruct d).
  assert (Hp2 : ptr (set_os [] d) = Some (Vdbflat f true)) by (rewrite <- Hp; by destruct d).
  assert (Ef : f = VOLDB_FREELIST_END) by (rewrite <- Hc; unfold the_freeptr; by rewrite Hp).
  unfold voldb_new_entry. rewrite !vbind_get, Hk1, Hk2, Ha1, Ha2. cbn [vassert].
  rewrite !vbind_ret. unfold VOLDB_FUNC. rewrite !vbind_get, Ht1, Ht2.
  change (0 =? 0) with true. cbv iota. unfold vdbflat_new_entry.
  rewrite (vbind_ok vdb_of _ (unmapped d) (unmapped d) (Vdbflat f false))
    by (unfold vdb_of; rewrite vbind_get; by rewrite Hp1).
  rewrite (vbind_ok vdb_of _ (set_os [] d) (set_os [] d) (Vdbflat f true))
    by (unfold vdb_of; rewrite vbind_get; by rewrite Hp2).
  cbn [freeptr]. rewrite Ef, Z.eqb_refl. unfold vbind. by rewrite unmapped_extend.
Qed.

Lemma ftruncate_fails_run d e :
  voldb_wf d -> the_freeptr d = VOLDB_FREELIST_END -> db_os d = [0; e] -> e <> 0 ->
  voldb_new_entry stack d = Some (unmapped d, inl e).
Proof.
  intros Hwf Hc Hos He.
  destruct (kind_asserts d Hwf) as [Ha1 Ha2]. destruct (wf_ptr d Hwf) as (f & Hp & _).
  unfold voldb_new_entry. rewrite vbind_get, Ha1, Ha2. cbn [vassert].
  rewrite !vbind_ret, func_ok by done.
  unfold vdbflat_new_entry. vstep (vdb_of_ok d Hwf). cbn [freeptr]. rewrite Hc, Z.eqb_refl.
  apply vbind_err. unfold vdbflat_extend_db. rewrite vbind_get. cbv zeta.
  rewrite (wf_magic d Hwf), Z.eqb_refl. cbn [negb].
  destruct (wf_kind d Hwf) as [sz Hks]. rewrite Hks.
  rewrite (vbind_ok _ _ _ (set_os [e] d) tt)
    by (unfold sys_check, vbind, sys; by rewrite Hos).
  rewrite (vbind_ok _ _ _ (set_ptr (Some (Vdbflat f false)) (set_os [e] d)) tt)
    by (destruct d; cbn in Hp; by subst ptr).
  apply vbind_err. unfold unmapped, the_freeptr. rewrite Hp. unfold sys_check, vbind, sys.
  destruct d. cbn. by rewrite (proj2 (Z.eqb_neq _ _) He).
Qed.

(** C39: When [ftruncate] fails during an allocation, its errno is returned but
    the file stays unmapped: reading an entry and flushing then fault, until
    a later allocation succeeds, which puts the database in order again. *)
Theorem voldb_new_entry_ftruncate_fails d e :
  voldb_ok d [] -> db_os d = [0; e] -> e <> 0 ->
  size d + VOLDB_ENTEND_NUM * VOLDB_DIR_SIZE < 2^32 ->
  voldb_new_entry stack d = Some (unmapped d, inl e) /\
  (forall k, 0 <= k <= num d -> k < 2^31 -> voldb_get_entry k (unmapped d) = None) /\
  voldb_flush stack (unmapped d) = None /\
  exists d' fl' k u, voldb_new_entry stack (unmapped d) = Some (d', inr (k, u)) /\
    voldb_ok d' fl' /\ vnode_step (kind_type d) (abs d []) (ENew k u) (abs d' fl').
Proof.
  intros Hok Hos He Hsz. pose proof (ok_wf _ _ Hok) as Hwf. pose proof (ok_chain _ _ Hok) as Hc.
  split; [by apply ftruncate_fails_run|].
  split; [intros k Hk Hk31; by apply unmapped_get_entry|].
  split; [by apply unmapped_flush|].
  destruct (new_entry_run stack (set_os [] d) [] (set_os_ok [] d [] Hok)) as
    (d' & fl' & k & u & E & Hok' & _ & _ & Hst); [by destruct d|by destruct d|].
  exists d', fl', k, u. split; [by rewrite unmapped_new_entry|]. split; [done|].
  by destruct d.
Qed.

(** ** Rebuilding the free list *)

#[local] Opaque entry_at.

Definition end_entry (e : voldb_file_entry) : voldb_file_entry := set_nextptr VOLDB_FREELIST_END e.

Lemma end_entry_wf e : entry_wf e -> entry_wf (end_entry e).
Proof. intros He. revert He. unfold end_entry. destruct e. entry_wf_tac. Qed.

Lemma rebuild_entry_run d i fp : voldb_wf d -> 0 <= i < num d ->
  rebuild_entry i fp d =
    if nextptr (slot d i) =? VOLDB_ENTRY_USED
    then if FileType (slot d i) =? kind_type d then Some (d, inr fp) else None
    else Some (put_slot i (end_entry (slot d i)) d, inr i).
Proof.
  intros Hwf Hi. pose proof (end_entry_wf _ (slot_wf d i Hwf Hi)) as He.
  unfold rebuild_entry. rewrite vbind_get. unfold kind_type.
  destruct (kind_cases d (wf_kind d Hwf)) as [Hkd|Hkd]; pose proof Hkd as (-> & _ & _ & ->).
  - change (0 =? VOLDB_DIR) with false. change (VOLDB_FILE =? VOLDB_DIR) with false. cbv iota.
    vstep (get_file_ok d i Hwf Hkd Hi). destruct (_ =? VOLDB_ENTRY_USED).
    + by destruct (_ =? TYPE_FILE).
    + vstep (put_file_ok d i _ Hwf Hkd Hi (proj2 He)). done.
  - rewrite !Z.eqb_refl. vstep (get_dir_ok d i Hwf Hkd Hi). cbn [dfile].
    destruct (_ =? VOLDB_ENTRY_USED).
    + by destruct (_ =? TYPE_DIR).
    + rewrite (vbind_ok _ _ _ _ _ (put_dir_ok d i (DirEntry (end_entry (slot d i)) _ _)
        Hwf Hkd Hi (proj2 He))). done.
Qed.

Lemma rev_seqZ_S (n : nat) :
  rev (seqZ 0 (Z.of_nat (S n))) = Z.of_nat n :: rev (seqZ 0 (Z.of_nat n)).
Proof. by rewrite seqZ_S, rev_app_distr. Qed.

(** Is the entry one of the used ones, which the loop keeps? *)
Definition used_at (d : voldb) (i : Z) : Prop := nextptr (slot d i) = VOLDB_ENTRY_USED.

Lemma rebuild_loop_run (n : nat) d fp :
  voldb_wf d -> Z.of_nat n <= num d ->
  (forall i, 0 <= i < Z.of_nat n -> used_at d i -> FileType (slot d i) = kind_type d) ->
  exists d' fp', rebuild_loop (rev (seqZ 0 (Z.of_nat n))) fp d = Some (d', inr fp') /\
    voldb_wf d' /\ num d' = num d /\
    (forall i, 0 <= i < num d -> Z.of_nat n <= i \/ used_at d i -> slot d' i = slot d i) /\
    (forall i, 0 <= i < Z.of_nat n -> ~ used_at d i -> slot d' i = end_entry (slot d i)) /\
    (fp' = fp /\ (forall i, 0 <= i < Z.of_nat n -> used_at d i) \/
     0 <= fp' < Z.of_nat n /\ ~ used_at d fp' /\ (forall i, 0 <= i < fp' -> used_at d i)).
Proof.
  revert d fp. induction n as [|n IH]; intros d fp Hwf Hn Hft.
  { exists d, fp. split; [done|]. split; [done|]. split; [done|]. split; [done|].
    split; [lia|]. left. split; [done|]. lia. }
  rewrite rev_seqZ_S. cbn [rebuild_loop].
  assert (Hi : 0 <= Z.of_nat n < num d) by lia.
  pose proof (rebuild_entry_run d (Z.of_nat n) fp Hwf Hi) as Hr. unfold used_at in *.
  destruct (Z.eqb_spec (nextptr (slot d (Z.of_nat n))) VOLDB_ENTRY_USED) as [Hu|Hu].
  - rewrite (Hft (Z.of_nat n)), Z.eqb_refl in Hr by (done || lia). vstep Hr.
    destruct (IH d fp Hwf) as (d' & fp' & E & Hwf' & Hn' & Hout & Hin & Hfp); [lia| |].
    { intros i Hir. apply Hft. lia. }
    exists d', fp'. split; [done|]. split; [done|]. split; [done|]. split; [|split].
    + intros i Hir [Hge|Hui]; apply Hout; try done; [lia|by right].
    + intros i Hir Hui. apply Hin; [|done].
      destruct (decide (i = Z.of_nat n)) as [->|]; [done|lia].
    + destruct Hfp as [[-> Hall]|(Hr' & Hnu & Hall)].
      * left. split; [done|]. intros i Hir.
        destruct (decide (i = Z.of_nat n)) as [->|]; [done|]. apply Hall. lia.
      * right. split; [lia|exact (conj Hnu Hall)].
  - vstep Hr. set (d1 := put_slot _ _ d) in *.
    pose proof (end_entry_wf _ (slot_wf d _ Hwf Hi)) as He.
    assert (Hwf1 : voldb_wf d1) by (apply put_slot_wf; [exact Hwf|apply He]).
    assert (Hn1 : num d1 = num d) by (by destruct d).
    assert (Hs1 : forall i, 0 <= i < num d -> i <> Z.of_nat n -> slot d1 i = slot d i)
      by (intros j Hj Hnej; apply slot_put_slot_ne;
          [exact Hwf|exact Hi|apply He|exact Hj|exact Hnej]).
    assert (Hkt : kind_type d1 = kind_type d) by (by destruct d).
    destruct (IH d1 (Z.of_nat n) Hwf1) as (d' & fp' & E & Hwf' & Hn' & Hout & Hin & Hfp).
    { lia. }
    { intros i Hir. rewrite Hs1, Hkt by lia. apply Hft. lia. }
    exists d', fp'. split; [done|]. split; [done|]. split; [lia|]. split; [|split].
    + intros i Hir Hor. assert (Hne : i <> Z.of_nat n) by (destruct Hor; [lia|by intros ->]).
      rewrite Hout; [by apply Hs1|lia|]. rewrite Hs1 by lia.
      destruct Hor; [left; lia|by right].
    + intros i Hir Hui. destruct (decide (i = Z.of_nat n)) as [->|Hne].
      * rewrite Hout by lia. unfold d1. by rewrite slot_put_slot.
      * rewrite Hin; rewrite ?Hs1 by lia; [reflexivity|lia|exact Hui].
    + right. destruct Hfp as [[-> Hall]|(Hr' & Hnu & Hall)].
      * split; [lia|]. split; [done|]. intros i Hir. rewrite <- Hs1 by lia. by apply Hall.
      * split; [lia|]. rewrite Hs1 in Hnu by lia. split; [done|].
        intros i Hir. rewrite <- Hs1 by lia. by apply Hall.
Qed.

Lemma rebuild_loop_num d : voldb_wf d ->
  rev (seqZ 0 (swrap32 (num d - 1) + 1)) = rev (seqZ 0 (Z.of_nat (Z.to_nat (num d)))).
Proof.
  intros Hwf. pose proof (wf_num d Hwf). pose proof (esize_bounds d Hwf).
  pose proof (wf_size d Hwf) as Hs. pose proof (wf_bound d Hwf).
  change VOLDB_HEADER_SIZE with 40 in Hs.
  rewrite swrap32_small by (unfold is_int32; nia). f_equal. f_equal. lia.
Qed.

(** The rebuilt free list is the lowest free entry alone: every free entry is
    made the end of a list, so that all the others are lost. *)
Theorem voldb_rebuild_loses d fl :
  voldb_ok d fl ->
  (forall i, 0 <= i < num d -> i ∉ fl -> FileType (slot d i) = kind_type d) ->
  exists d', voldb_rebuild d = Some (d', inr tt) /\ voldb_wf d' /\ num d' = num d /\
    (forall i, 0 <= i < num d -> i ∉ fl -> slot d' i = slot d i) /\
    (forall i, i ∈ fl -> slot d' i = end_entry (slot d i)) /\
    (fl = [] /\ free_chain d' (the_freeptr d') [] \/
     exists m, m ∈ fl /\ (forall i, i ∈ fl -> m <= i) /\ free_chain d' (the_freeptr d') [m]).
Proof.
  intros Hok Hft. pose proof (ok_wf _ _ Hok) as Hwf. pose proof (wf_num d Hwf) as Hn0.
  assert (Hfree : forall i, 0 <= i < num d -> (i ∈ fl <-> ~ used_at d i)).
  { intros i Hi. split.
    - intros Hin. by apply (free_chain_unused d _ _ i Hwf (ok_chain _ _ Hok)).
    - intros Hu. destruct (decide (i ∈ fl)) as [|Hni]; [done|].
      by destruct (Hu (ok_used _ _ Hok i Hi Hni)). }
  assert (Hused : forall i, 0 <= i < num d -> used_at d i -> i ∉ fl).
  { intros i Hi Hu Hin. by apply (Hfree i Hi) in Hin. }
  destruct (rebuild_loop_run (Z.to_nat (num d)) d VOLDB_FREELIST_END Hwf)
    as (d1 & fp & E & Hwf1 & Hn1 & Hout & Hin & Hfp); [lia| |].
  { intros i Hi Hu. apply Hft; [lia|]. apply Hused; [lia|done]. }
  rewrite Z2Nat.id in Hin, Hfp by done.
  exists (with_freeptr fp d1). split; [|split; [|split; [by destruct d1|split; [|split]]]].
  - unfold voldb_rebuild. rewrite func_ok by done. unfold vdbflat_rebuild. rewrite vbind_get.
    rewrite rebuild_loop_num by done. vstep E. by apply set_freeptr_ok.
  - apply with_freeptr_wf; [done|]. destruct Hfp as [[-> _]|(Hr & _)]; [done|].
    pose proof (num_small d Hwf). change VOLDB_ENTRY_USED with (2^32 - 2) in *.
    unfold is_uint32. lia.
  - intros i Hi Hni. rewrite with_freeptr_slot. apply Hout; [done|]. right.
    by apply (ok_used _ _ Hok).
  - intros i Hif. pose proof (free_chain_range _ _ _ _ (ok_chain _ _ Hok) Hif) as Hi.
    rewrite with_freeptr_slot. apply Hin; [done|]. by apply Hfree.
  - assert (Hf : the_freeptr (with_freeptr fp d1) = fp) by (by destruct d1). rewrite Hf.
    destruct Hfp as [[-> Hall]|(Hr & Hnu & Hall)].
    + left. split; [|done]. destruct fl as [|k fl]; [done|].
      pose proof (ok_chain _ _ Hok) as (_ & Hk & _).
      destruct (Hused k Hk (Hall k Hk)). apply list_elem_of_here.
    + right. exists fp. split; [by apply Hfree|]. split.
      * intros i Hif. pose proof (free_chain_range _ _ _ _ (ok_chain _ _ Hok) Hif) as Hi.
        destruct (Z.le_gt_cases fp i); [done|]. apply (Hfree i Hi) in Hif.
        destruct Hif. apply Hall. lia.
      * split; [done|]. split; [destruct d1; cbn in *; lia|].
        cbn [free_chain]. rewrite with_freeptr_slot, Hin by done. by destruct (slot d fp).
Qed.

(** A used entry that is a symbolic link, which databases of files hold
    beside files, makes the rebuild abort. *)
Theorem voldb_rebuild_link_aborts d fl k :
  voldb_ok d fl -> is_file_db d -> 0 <= k < num d -> k ∉ fl ->
  FileType (slot d k) = TYPE_LINK ->
  (forall i, k < i < num d -> i ∉ fl -> FileType (slot d i) = TYPE_FILE) ->
  voldb_rebuild d = None.
Proof.
  intros Hok Hkd Hk Hf Hl Hft. pose proof (ok_wf _ _ Hok) as Hwf.
  unfold voldb_rebuild. rewrite func_ok by done. unfold vdbflat_rebuild. rewrite vbind_get.
  rewrite rebuild_loop_num by done. apply vbind_none.
  assert (Hkt : kind_type d = TYPE_FILE) by (unfold kind_type; by rewrite (proj1 Hkd)).
  assert (Hu : used_at d k) by (by apply (ok_used _ _ Hok)).
  assert (Hft' : forall i, k < i < num d -> used_at d i -> FileType (slot d i) = TYPE_FILE).
  { intros i Hi Hui. apply Hft; [done|]. intros Hin.
    by apply (free_chain_unused d _ _ i Hwf (ok_chain _ _ Hok) Hin). }
  assert (Hn : Z.of_nat (Z.to_nat (num d)) = num d) by lia.
  assert (Hkn : k < Z.of_nat (Z.to_nat (num d))) by lia.
  assert (Hle : Z.of_nat (Z.to_nat (num d)) <= num d) by lia. clear Hn Hok Hf Hft.
  generalize VOLDB_FREELIST_END as fp. revert Hkn Hle.
  induction (Z.to_nat (num d)) as [|n IH] in d, Hwf, Hkd, Hk, Hl, Hkt, Hu, Hft' |- *;
    intros Hkn Hle fp; [lia|].
  rewrite rev_seqZ_S. cbn [rebuild_loop].
  assert (Hi : 0 <= Z.of_nat n < num d) by lia.
  pose proof (rebuild_entry_run d (Z.of_nat n) fp Hwf Hi) as Hr. rewrite Hkt in Hr.
  unfold used_at in *. destruct (decide (Z.of_nat n = k)) as [Ek|Hne].
  { subst k. apply vbind_none. rewrite Hr, Hu, Hl. done. }
  destruct (Z.eqb_spec (nextptr (slot d (Z.of_nat n))) VOLDB_ENTRY_USED) as [Hun|Hun].
  - rewrite Hft', Z.eqb_refl in Hr by (assumption || lia). vstep Hr. apply IH; try assumption; lia.
  - vstep Hr. set (d1 := put_slot _ _ d).
    pose proof (end_entry_wf _ (slot_wf d _ Hwf Hi)) as He.
    assert (Hwf1 : voldb_wf d1) by (apply put_slot_wf; [exact Hwf|apply He]).
    assert (Hn1 : num d1 = num d) by (by destruct d).
    assert (Hs1 : forall i, 0 <= i < num d -> i <> Z.of_nat n -> slot d1 i = slot d i)
      by (intros j Hj Hnej; apply slot_put_slot_ne;
          [exact Hwf|exact Hi|apply He|exact Hj|exact Hnej]).
    assert (Hkd1 : is_file_db d1) by (by destruct d).
    assert (Hkt1 : kind_type d1 = TYPE_FILE) by (rewrite <- Hkt; by destruct d).
    apply (IH d1 Hkd1); rewrite ?Hn1, ?Hs1 by lia; try assumption; try lia.
    intros i Hir. destruct (decide (i = Z.of_nat n)) as [->|Hnei].
    + unfold d1. rewrite slot_put_slot by done. by destruct (slot d (Z.of_nat n)).
    + rewrite Hs1 by lia. by apply Hft'.
Qed.

End Props.

#[local] Transparent entry_at.

(** ** Concrete databases *)

(** The state after a run. *)
Definition after {A} (m : VM A) (d : voldb) : voldb :=
  match m d with Some (d', _) => d' | None => d end.

Lemma after_run {A} (m : VM A) d d' (r : Z + A) : m d = Some (d', r) -> after m d = d'.
Proof. unfold after. by intros ->. Qed.

(** An empty database of files, opened; one entry taken; a second; the first
    one given back. *)
Definition fresh_db (fl : Z) : voldb := reopened 3 7 (put_hdr zero_stack (blank fl 3 7)).
Definition db0 : voldb := fresh_db VOLDB_FILE.
Definition db1 : voldb := Eval vm_compute in after (voldb_new_entry zero_stack) db0.
Definition db2 : voldb := Eval vm_compute in after (voldb_new_entry zero_stack) db1.
Definition db3 : voldb := Eval vm_compute in after (voldb_del_entry zero_stack 0) db2.
Definition db4 : voldb := Eval vm_compute in after (voldb_new_entry zero_stack) db3.
Definition ddb1 : voldb := Eval vm_compute in after (voldb_new_entry zero_stack) (fresh_db VOLDB_DIR).

Lemma fresh_db_ok fl : fl = VOLDB_FILE \/ fl = VOLDB_DIR -> voldb_ok (fresh_db fl) [].
Proof. intros Hfl. exact (reopened_ok 3 7 _ [] (blank_ok zero_stack fl 3 7 Hfl)). Qed.

Lemma after_new_ok d fl :
  voldb_ok d fl -> db_os d = [] -> size d + VOLDB_ENTEND_NUM * VOLDB_DIR_SIZE < 2^32 ->
  (exists fl', voldb_ok (after (voldb_new_entry zero_stack) d) fl') /\
  db_os (after (voldb_new_entry zero_stack) d) = [].
Proof.
  intros Hok Hos Hsz.
  destruct (new_entry_run zero_stack d fl Hok Hos Hsz) as (d' & fl' & k & u & E & Hok' & Hos' & _).
  unfold after. rewrite E. split; [by exists fl'|done].
Qed.

Lemma db1_eq : voldb_new_entry zero_stack db0 = Some (db1, inr (0, 1)).
Proof. vm_compute. reflexivity. Qed.
Lemma ddb1_eq : voldb_new_entry zero_stack (fresh_db VOLDB_DIR) = Some (ddb1, inr (0, 1)).
Proof. vm_compute. reflexivity. Qed.
Lemma db1_ok : (exists fl, voldb_ok db1 fl) /\ db_os db1 = [].
Proof. rewrite <- (after_run _ _ _ _ db1_eq). apply (after_new_ok db0 []); [apply fresh_db_ok; by left|done|done]. Qed.
Lemma ddb1_ok : (exists fl, voldb_ok ddb1 fl) /\ db_os ddb1 = [].
Proof.
  rewrite <- (after_run _ _ _ _ ddb1_eq).
  apply (after_new_ok (fresh_db VOLDB_DIR) []); [apply fresh_db_ok; by right|done|done].
Qed.

(** Taking two entries, giving back the first and taking one again. *)
Definition run_events : list event := [ENew 0 1; ENew 1 1; EDel 0 zero_onode; ENew 0 2].

Lemma db2_eq : voldb_new_entry zero_stack db1 = Some (db2, inr (1, 1)).
Proof. vm_compute. reflexivity. Qed.
Lemma db3_eq : voldb_del_entry zero_stack 0 db2 = Some (db3, inr zero_onode).
Proof. vm_compute. reflexivity. Qed.
Lemma db4_eq : voldb_new_entry zero_stack db3 = Some (db4, inr (0, 2)).
Proof. vm_compute. reflexivity. Qed.
Lemma db_sizes : size db1 = 4840 /\ size db3 = 4840.
Proof. vm_compute. done. Qed.

Lemma db_run : voldb_run zero_stack db0 run_events db4.
Proof.
  destruct db_sizes as [Hs1 Hs3].
  apply (voldb_run_cons _ _ _ db1); [apply do_new; [done|exact db1_eq]|].
  apply (voldb_run_cons _ _ _ db2); [apply do_new; [by rewrite Hs1|exact db2_eq]|].
  apply (voldb_run_cons _ _ _ db3); [apply do_del; [done|exact db3_eq]|].
  apply (voldb_run_cons _ _ _ db4); [apply do_new; [by rewrite Hs3|exact db4_eq]|].
  constructor.
Qed.

Example vdbflat_get_file_bounds_witness :
  voldb_get_file 0 db0 = None /\ voldb_get_file 1 db0 = Some (db0, inl EINVAL).
Proof.
  assert (Hwf : voldb_wf db0) by (apply (fresh_db_ok VOLDB_FILE); by left).
  assert (Hf : is_file_db db0) by done.
  split.
  - rewrite (vdbflat_get_file_bounds db0 0 Hwf Hf ltac:(done)). reflexivity.
  - rewrite (vdbflat_get_file_bounds db0 1 Hwf Hf ltac:(done)). reflexivity.
Defined.

Example voldb_new_entry_ok_witness :
  exists d' fl' k u, voldb_new_entry zero_stack db0 = Some (d', inr (k, u)) /\ voldb_ok d' fl'.
Proof.
  destruct (voldb_new_entry_ok zero_stack db0 []
              (fresh_db_ok VOLDB_FILE ltac:(by left)) eq_refl eq_refl)
    as (d' & fl' & k & u & E & Hok & _).
  exists d', fl', k, u. split; [exact E|exact Hok].
Defined.

Example voldb_del_entry_ok_witness :
  exists fl d', voldb_del_entry zero_stack 0 db1 = Some (d', inr (ino (slot db1 0))) /\
    voldb_ok d' (0 :: fl).
Proof.
  destruct db1_ok as [[fl Hok] Hos].
  destruct (voldb_del_entry_ok zero_stack db1 fl 0 Hok Hos) as (d' & E & Hok' & _).
  - vm_compute. split; [discriminate|reflexivity].
  - vm_compute. reflexivity.
  - exists fl, d'. split; [exact E|exact Hok'].
Defined.

Example voldb_run_refines_witness :
  exists fl', voldb_ok db4 fl' /\
    vnode_run (kind_type db0) (abs db0 []) run_events (abs db4 fl').
Proof.
  exact (voldb_run_refines zero_stack db0 [] run_events db4
           (fresh_db_ok VOLDB_FILE ltac:(by left)) eq_refl db_run).
Defined.

Example voldb_no_pair_twice_witness :
  allocs run_events = [(0, 1); (1, 1); (0, 2)] /\ NoDup (allocs run_events).
Proof.
  split; [reflexivity|].
  exact (voldb_no_pair_twice zero_stack db0 [] run_events db4
           (fresh_db_ok VOLDB_FILE ltac:(by left)) eq_refl db_run eq_refl).
Defined.

Example voldb_create_open_witness :
  exists d', (voldb_create_header zero_stack VOLDB_DEFAULT_TYPE VOLDB_DIR ;;;
              voldb_init 4 VOLDB_DEFAULT_TYPE 9 true)%vm (Voldb 0 0 0 0 0 4 0 None [] [])
             = Some (d', inr tt) /\ voldb_ok d' [] /\ num d' = 0.
Proof.
  destruct (voldb_create_open zero_stack VOLDB_DIR 4 9 (Voldb 0 0 0 0 0 4 0 None [] [])
              ltac:(by right) eq_refl eq_refl) as (d' & E & Hok & _ & Hn & _).
  exists d'. split; [exact E|]. split; [exact Hok|exact Hn].
Defined.

(** A directory entry with one right in each of its ACLs. *)
Definition dir_example : voldb_dir_entry :=
  DirEntry (new_ent 0 VOLDB_ENTRY_USED 0)
    (AclEntry 101 1 :: replicate 7 zero_acl) (AclEntry 7 127 :: replicate 7 zero_acl).

Example voldb_dir_put_get_witness :
  exists d1 d2, voldb_put_dir 0 dir_example ddb1 = Some (d1, inr tt) /\
    voldb_put_acl 0 dir_example d1 = Some (d2, inr tt) /\
    voldb_get_dir 0 d2 = Some (d2, inr dir_example).
Proof.
  destruct ddb1_ok as [[fl Hok] _].
  destruct (voldb_dir_put_get ddb1 0 dir_example (ok_wf _ _ Hok))
    as (d1 & d2 & E1 & _ & E2 & E3).
  - vm_compute. repeat split; reflexivity.
  - vm_compute. split; [discriminate|reflexivity].
  - by apply new_ent_wf.
  - split; [reflexivity|]. repeat constructor; done.
  - split; [reflexivity|]. repeat constructor; done.
  - exists d1, d2. split; [exact E1|]. split; [exact E2|exact E3].
Defined.

Example voldb_new_entry_ftruncate_fails_witness :
  voldb_new_entry zero_stack (set_os [0; 28] db0) = Some (unmapped (set_os [0; 28] db0), inl 28) /\
  voldb_flush zero_stack (unmapped (set_os [0; 28] db0)) = None.
Proof.
  destruct (voldb_new_entry_ftruncate_fails zero_stack (set_os [0; 28] db0) 28
              (set_os_ok _ _ _ (fresh_db_ok VOLDB_FILE ltac:(by left))) eq_refl
              ltac:(discriminate) eq_refl) as (E & _ & Hfl & _).
  split; [exact E|exact Hfl].
Defined.

(** One used entry and nine free ones. *)
Definition used_kinds_ok (d : voldb) : bool :=
  forallb (fun i => negb (nextptr (slot d i) =? VOLDB_ENTRY_USED)
                    || (FileType (slot d i) =? kind_type d)) (seqZ 0 (num d)).

Lemma used_kinds_ok_spec d fl i : used_kinds_ok d = true ->
  voldb_ok d fl -> 0 <= i < num d -> i ∉ fl -> FileType (slot d i) = kind_type d.
Proof.
  intros Hall Hok Hi Hn. pose proof (ok_used _ _ Hok i Hi Hn) as Hu.
  unfold used_kinds_ok in Hall. rewrite forallb_forall in Hall.
  specialize (Hall i). rewrite <- list_elem_of_In, elem_of_seqZ in Hall.
  specialize (Hall ltac:(lia)). rewrite Hu, Z.eqb_refl in Hall. by apply Z.eqb_eq in Hall.
Qed.

Lemma db1_used : used_kinds_ok db1 = true.
Proof. vm_compute. reflexivity. Qed.

Example voldb_rebuild_loses_witness :
  exists fl d', voldb_ok db1 fl /\ voldb_rebuild db1 = Some (d', inr tt) /\
    (forall i, i ∈ fl -> slot d' i = end_entry (slot db1 i)) /\
    (fl = [] /\ free_chain d' (the_freeptr d') [] \/
     exists m, m ∈ fl /\ (forall i, i ∈ fl -> m <= i) /\ free_chain d' (the_freeptr d') [m]).
Proof.
  destruct db1_ok as [[fl Hok] _].
  destruct (voldb_rebuild_loses db1 fl Hok (fun i => used_kinds_ok_spec db1 fl i db1_used Hok))
    as (d' & E & _ & _ & _ & Hin & Hc).
  exists fl, d'. split; [exact Hok|]. split; [exact E|]. split; [exact Hin|exact Hc].
Defined.
