(* ===== verification/Mdir.v ===== *)
(** * Directories of vnodes (milko/lib/vld/mdir.c)

    The operations of [Fdir] on the host file of an mnode, with the size the
    mnode records.  The operating system's answers are parameters: the error
    of mapping a file and of unmapping it, 0 when it succeeds, and what becomes
    of a change of its size (see [fbuf_truncate]).  A mapping of another length
    than the file has is not modelled: [fbuf_create] has no result then;
    neither has a failed [assert].  When a failed change of the size has
    already unmapped the buffer, [fbuf_end] reports that (ENOMEM from [msync]);
    nothing is assumed of the error it answers, so the theorems cover it. *)

From S2P Require Import Prelude Buf Fdir Vnum.

Definition EISDIR : Z := 21.
Definition ENOTEMPTY : Z := 39.

(** An mnode with an open host file: [st_size] is the size in [sb], [Length]
    that in [fs]; [content] is the file. *)
Record mnode := {
  fd : Z; node_fid : AFSFid; sbp : bool; fdp : bool; st_size : Z; Length : Z; content : bytes }.

Definition set_content (n : mnode) (b : bytes) : mnode :=
  {| fd := fd n; node_fid := node_fid n; sbp := sbp n; fdp := fdp n;
     st_size := st_size n; Length := Length n; content := b |}.

Definition set_size (n : mnode) (valid : bool) (size : Z) : mnode :=
  {| fd := fd n; node_fid := node_fid n; sbp := valid; fdp := fdp n;
     st_size := size; Length := size; content := content n |}.

Section Mdir.
(** Errors by file descriptor and length. *)
Context (create_errno end_errno : Z -> Z -> Z) (truncate_errno : Z -> Z -> option Z).
Context (fstat_errno : Z -> Z).

(** [len] is [None] for a NULL pointer. *)
Definition mnode_update_size (n : mnode) (len : option Z) : option (Z * mnode) :=
  match len with
  | Some len => Some (0, set_size n (sbp n) len)
  | None =>
      guard (fdp n = true);;
      if negb (fstat_errno (fd n) =? 0) then Some (fstat_errno (fd n), n)
      else Some (0, set_size n true (blen (content n)))
  end.

Definition mnode_update_size_cached (n : mnode) : option (Z * mnode) :=
  if sbp n then Some (0, set_size n true (st_size n)) else mnode_update_size n None.

(** The buffer or an error. *)
Definition fbuf_create (n : mnode) : option (Z + bytes) :=
  if negb (create_errno (fd n) (st_size n) =? 0) then Some (inl (create_errno (fd n) (st_size n)))
  else guard (st_size n = blen (content n));; Some (inr (content n)).

Definition fbuf_end (n : mnode) (b : bytes) : Z := end_errno (fd n) (blen b).

(** A directory as the [VenusFid] the lookups take. *)
Definition vfid (f : AFSFid) : VenusFid := {| Cell := 0; fid := f |}.

(** What all operations that only read have around their work [op]. *)
Definition read_dir {A} (node : mnode) (op : bytes -> option (Z * A)) : option (Z * option A) :=
  guard (sbp node = true);; guard (fdp node = true);;
  the_fbuf ← fbuf_create node;
  match the_fbuf with
  | inl ret => Some (ret, None)
  | inr b =>
      '(saved_ret, x) ← op b;
      let ret := fbuf_end node b in
      if negb (ret =? 0) then Some (ret, None) else Some (saved_ret, Some x)
  end.

(** Status and fid; there is none unless the status is 0. *)
Definition mdir_lookup (node : mnode) (name : bytes) : option (Z * option AFSFid) :=
  '(ret, x) ← read_dir (A := option AFSFid) node (fun b =>
    r ← fdir_lookup b (vfid (node_fid node)) name;
    Some (match r with inr f => (0, Some (fid f)) | inl e => (e, None) end));
  Some (ret, match x with Some f => f | None => None end).

(** TRUE is 1; an error is answered in its place. *)
Definition mdir_emptyp (node : mnode) : option Z :=
  '(ret, _) ← read_dir node (fun b => e ← fdir_emptyp b; Some (if (e : bool) then 1 else 0, tt));
  Some ret.

Definition mdir_readdir {A} (node : mnode) (func : VenusFid -> bytes -> A -> Z * A) (arg : A)
    (dir : VenusFid) : option (Z * option A) :=
  read_dir node (fun b => '(ret, arg, _) ← fdir_readdir func b arg dir None; Some (ret, arg)).

(** What the operations that change the directory have around their work: the
    size is recorded whatever [op] answers. *)
Definition change_dir (node : mnode) (op : bytes -> option (Z * bytes)) : option (Z * mnode) :=
  guard (sbp node = true);; guard (fdp node = true);;
  the_fbuf ← fbuf_create node;
  match the_fbuf with
  | inl ret => Some (ret, node)
  | inr b =>
      '(saved_ret, b) ← op b;
      '(_, node) ← mnode_update_size (set_content node b) (Some (swrap32 (blen b)));
      let ret := fbuf_end node b in
      if negb (ret =? 0) then Some (ret, node) else Some (saved_ret, node)
  end.

Definition mdir_creat (node : mnode) (filename : bytes) (f : AFSFid) : option (Z * mnode) :=
  change_dir node (fun b => fdir_creat (truncate_errno (fd node)) b filename None f).

Definition mdir_remove (node : mnode) (name : bytes) : option (Z * mnode) :=
  change_dir node (fun b =>
    '(ret, _, b) ← fdir_remove (truncate_errno (fd node)) b name; Some (ret, b)).

Definition mdir_mkdir (node : mnode) (dot dot_dot : AFSFid) : option (Z * mnode) :=
  change_dir node (fun b => fdir_mkdir (truncate_errno (fd node)) b dot dot_dot false).

Definition mdir_changefid (dir : mnode) (name : bytes) (f : AFSFid) : option (Z * mnode) :=
  change_dir dir (fun b => fdir_changefid b name (vfid f)).

(** ** Rename *)

(** The step that makes [name2] of the new directory name the child: the
    status and the buffer. *)
Definition rename_into (fd2 : Z) (dir2 : AFSFid) (newfbuf name2 : bytes) (child : VenusFid)
  : option (Z * bytes) :=
  let dirp := afs_dir_p (Vnode (fid child)) in
  r ← fdir_lookup newfbuf (vfid dir2) name2;
  match r with
  | inl e =>
      guard (e = ENOENT);; fdir_creat (truncate_errno fd2) newfbuf name2 None (fid child)
  | inr sentenced_file =>
      if negb (Bool.eqb (afs_dir_p (Vnode (fid sentenced_file))) dirp) then Some (EISDIR, newfbuf) else
      not_empty ← (if dirp then e ← fdir_emptyp newfbuf; Some (negb e) else Some false);
      if (not_empty : bool) then Some (ENOTEMPTY, newfbuf) else
      fdir_changefid newfbuf name2 child
  end.

(** The status, the lengths [*len1] and [*len2] where they are assigned, the
    nodes.  [dir2] is [None] when it is the same node as [dir1]. *)
Definition mdir_rename (dir1 : mnode) (name1 : bytes) (dir2 : option mnode) (name2 : bytes)
  : option (Z * option Z * option Z * mnode * option mnode) :=
  origfbuf ← fbuf_create dir1;
  match origfbuf with
  | inl ret => Some (ret, None, None, dir1, dir2)
  | inr orig =>
      r ← fdir_lookup orig (vfid (node_fid dir1)) name1;
      match r with
      | inl ret => Some (ret, None, None, dir1, dir2)
      | inr child =>
          newfbuf ← match dir2 with None => Some (inr orig) | Some d => fbuf_create d end;
          match newfbuf with
          | inl ret => Some (ret, None, None, dir1, dir2)
          | inr new =>
              let d2 := default dir1 dir2 in
              '(ret, new) ← rename_into (fd d2) (node_fid d2) new name2 child;
              let orig := match dir2 with None => new | Some _ => orig end in
              let dir2 := flip set_content new <$> dir2 in
              if negb (ret =? 0) then
                Some (ret, None, None, set_content dir1 orig, dir2) else
              '(ret, _, orig) ← fdir_remove (truncate_errno (fd dir1)) orig name1;
              Some (ret, if ret =? 0 then Some (swrap32 (blen orig)) else None,
                    (if ret =? 0 then (fun _ => swrap32 (blen new)) <$> dir2 else None),
                    set_content dir1 orig, dir2)
          end
      end
  end.
End Mdir.
