(* ===== verification/MdirCorrect.v ===== *)
(** * Correctness of the directories of vnodes

    The operations on an mnode act on its directory as on a map from names to
    fids and keep the recorded size right; rename is described by a function
    on such maps. *)

From S2P Require Import Prelude Buf Fdir FdirPage FdirRep FdirCorrect Vnum Mdir.

(** ** Directories as maps *)

(** The buffer is a well-formed directory of [P] pages that holds [m]. *)
Definition dir_map (b : bytes) (P : Z) (m : absdir) : Prop :=
  exists ents chain, dir_rep b P ents chain /\ view ents m.

Definition fid_in (dir : VenusFid) (v : Z * Z) : VenusFid :=
  {| Cell := Cell dir; fid := {| Volume := Volume (fid dir); Vnode := v.1; Unique := v.2 |} |}.

(** A fid as an entry stores it. *)
Definition stored (f : AFSFid) : Z * Z := (uwrap32 (Vnode f), uwrap32 (Unique f)).

Lemma dir_map_len b P m : dir_map b P m -> 1 <= P /\ blen b = 2048 * P.
Proof. intros (ents & ch & Hrep & _). split; [apply Hrep|apply Hrep]. Qed.

Lemma dir_map_ok b P m : dir_map b P m -> dir_ok b.
Proof. intros (ents & ch & Hrep & _). by eexists _, _, _. Qed.

Lemma map_lookup b P m dir name :
  dir_map b P m -> is_cstr name ->
  fdir_lookup b dir name =
  Some (match m !! name with Some v => inr (fid_in dir v) | None => inl ENOENT end).
Proof.
  intros (ents & ch & Hrep & Hv) Hc.
  destruct (fdir_lookup_spec _ _ _ _ Hrep dir name Hc) as [(l & d & Hl & <- & ->)|[Hno ->]].
  - by rewrite (view_found _ _ Hv _ _ Hl).
  - by rewrite (view_none _ _ Hv _ Hno).
Qed.

Lemma map_creat te b P m name f :
  dir_map b P m -> name_ok name -> P < 1023 ->
  (exists b' P', fdir_creat te b name None f = Some ((abs_step m (OpCreat name f)).1.1, b') /\
     P <= P' <= P + 1 /\ dir_map b' P' (abs_step m (OpCreat name f)).2) \/
  (exists e, te (blen b + AFSDIR_PAGESIZE) = Some e /\ e <> 0 /\ m !! name = None /\
   fdir_creat te b name None f = Some (e, b)) \/
  (te (blen b + AFSDIR_PAGESIZE) = None /\ m !! name = None /\
   fdir_creat te b name None f = None).
Proof.
  intros (ents & ch & Hrep & Hv) [Hc Hlen] HP. cbn [abs_step].
  pose proof (dr_len _ _ _ _ Hrep). pose proof (dr_pages _ _ _ _ Hrep).
  destruct (m !! name) as [v|] eqn:Hm.
  - left. exists b, P. split_and!; [|lia|lia|by exists ents, ch].
    unfold fdir_creat. destruct (Z.eqb_spec (blen b) 0); [lia|].
    rewrite (rep_npages _ _ _ _ Hrep). cbn [mbind option_bind].
    destruct (find_entry_spec _ _ _ _ Hrep name Hc) as [(l & d & _ & _ & ->)|[Hno _]]; [done|].
    by rewrite (view_none _ _ Hv _ Hno) in Hm.
  - pose proof (view_no_name _ _ Hv name Hm) as Hno.
    destruct (fdir_creat_spec te _ _ _ _ name f Hrep Hc (name_ok_slots _ Hlen) Hno HP) as
      [(b' & P' & -> & HP' & l & ch' & Hl & Hr')|[(e & Hf & He & ->)|[Hf ->]]];
      [left|by right; left; eauto|by right; right].
    exists b', P'. split_and!; [done|lia|lia|]. eexists _, ch'. split; [done|].
    by apply view_add.
Qed.

Lemma map_remove te b P m name :
  dir_map b P m -> is_cstr name ->
  (exists b' P', fdir_remove te b name =
    Some ((abs_step m (OpRemove name)).1.1, (abs_step m (OpRemove name)).1.2, b') /\
    1 <= P' <= P /\ dir_map b' P' (abs_step m (OpRemove name)).2) \/
  (fdir_remove te b name = None /\ exists P', 1 <= P' < P /\ te (2048 * P') = None).
Proof.
  intros (ents & ch & Hrep & Hv) Hc. cbn [abs_step]. pose proof (dr_pages _ _ _ _ Hrep).
  destruct (fdir_remove_spec te _ _ _ _ name Hrep Hc) as
    [(l & d & b' & P' & ch' & Hl & <- & -> & HP' & Hr')|[Hf|[Hno ->]]]; [left|by right|left].
  - rewrite (view_found _ _ Hv _ _ Hl). exists b', P'. split_and!; [done|lia|lia|].
    eexists _, ch'. split; [done|]. by eapply view_delete.
  - rewrite (view_none _ _ Hv _ Hno). exists b, P. split_and!; [done|lia|lia|]. by exists ents, ch.
Qed.

Lemma map_changefid b P m name f :
  dir_map b P m -> is_cstr name ->
  exists b', fdir_changefid b name f = Some ((abs_step m (OpChangeFid name f)).1.1, b') /\
    dir_map b' P (abs_step m (OpChangeFid name f)).2.
Proof.
  intros (ents & ch & Hrep & Hv) Hc. cbn [abs_step].
  destruct (fdir_changefid_spec _ _ _ _ name f Hrep Hc) as
    [(l & d & b' & Hl & <- & -> & Hr')|[Hno ->]].
  - rewrite (view_found _ _ Hv _ _ Hl). exists b'. split; [done|].
    eexists _, ch. split; [done|]. by eapply view_change.
  - rewrite (view_none _ _ Hv _ Hno). exists b. split; [done|]. by exists ents, ch.
Qed.

(** A directory with its two dots and another name does not count as empty. *)
Lemma map_not_empty b P m name v :
  dir_map b P m -> is_Some (m !! dot_name) -> is_Some (m !! dot_dot_name) ->
  name <> dot_name -> name <> dot_dot_name -> m !! name = Some v ->
  fdir_emptyp b = Some false.
Proof.
  intros (ents & ch & Hrep & Hv) [[v1 u1] H1] [[v2 u2] H2] Hn1 Hn2 Hn. destruct v as [v u].
  apply Hv in H1 as [l1 H1], H2 as [l2 H2], Hn as [l Hn].
  destruct (fdir_emptyp b) as [[|]|] eqn:He; [exfalso|done|].
  - destruct (emptyp_sound _ _ _ _ Hrep l1 l2 _ _ H1 H2 eq_refl eq_refl l _ He Hn) as [->| ->];
      simplify_eq.
  - by rewrite (emptyp_value _ _ _ _ Hrep) in He.
Qed.

(** ** The recorded size *)

(** The mnode's file is open, its status valid, its size right, and it is a
    directory that holds [m]. *)
Record node_ok (n : mnode) (P : Z) (m : absdir) : Prop := {
  no_sbp : sbp n = true;
  no_fdp : fdp n = true;
  no_size : st_size n = blen (content n);
  no_length : Length n = st_size n;
  no_dir : dir_map (content n) P m }.

Lemma swrap32_nonneg z : 0 <= z < 2^31 -> swrap32 z = z.
Proof. intros. apply swrap32_small. unfold is_int32. lia. Qed.

Section Nodes.
Context (create_errno end_errno : Z -> Z -> Z) (truncate_errno : Z -> Z -> option Z)
  (fstat_errno : Z -> Z).

Abbreviation change_dir := (change_dir create_errno end_errno fstat_errno).

(** An operation that changes the directory from [m] to [m'] or fails. *)
Lemma change_dir_spec n P m op s b' P' m' :
  node_ok n P m -> op (content n) = Some (s, b') -> dir_map b' P' m' -> P' <= 1023 ->
  exists r n', change_dir n op = Some (r, n') /\ node_fid n' = node_fid n /\
    ((n' = n /\ r = create_errno (fd n) (st_size n) /\ r <> 0) \/
     (node_ok n' P' m' /\ content n' = b' /\
      r = if end_errno (fd n) (blen b') =? 0 then s else end_errno (fd n) (blen b'))).
Proof.
  intros [Hs Hf Hsz Hlen Hd] Hop Hd' HP'. unfold Mdir.change_dir.
  rewrite option_guard_True by done. cbn [mbind option_bind].
  rewrite option_guard_True by done. unfold fbuf_create.
  destruct (Z.eqb_spec (create_errno (fd n) (st_size n)) 0) as [He|He]; cbn [negb mbind option_bind].
  2:{ do 2 eexists. split_and!; [done|done|by left]. }
  rewrite option_guard_True by done. cbn [mbind option_bind]. rewrite Hop.
  cbn [mbind option_bind mnode_update_size].
  destruct (dir_map_len _ _ _ Hd') as [HP1 Hl'].
  assert (Hn' : node_ok (set_size (set_content n b') (sbp n) (swrap32 (blen b'))) P' m').
  { split; cbn; [done|done|apply swrap32_nonneg; lia|done|done]. }
  unfold fbuf_end. cbn [fd set_size set_content].
  destruct (Z.eqb_spec (end_errno (fd n) (blen b')) 0); cbn [negb];
    do 2 eexists; (split_and!; [done|done|right]); split_and!; done.
Qed.

(** One operation on a node. *)
Definition mdir_step (n : mnode) (op : dir_op) : option (dir_out * mnode) :=
  match op with
  | OpLookup name =>
      '(r, f) ← mdir_lookup create_errno end_errno n name;
      Some ((r, match f with Some f => Some (Vnode f, Unique f) | None => None end), n)
  | OpCreat name f =>
      '(r, n) ← mdir_creat create_errno end_errno truncate_errno fstat_errno n name f;
      Some ((r, None), n)
  | OpRemove name =>
      '(r, n) ← mdir_remove create_errno end_errno truncate_errno fstat_errno n name;
      Some ((r, None), n)
  | OpChangeFid name f =>
      '(r, n) ← mdir_changefid create_errno end_errno fstat_errno n name (fid f);
      Some ((r, None), n)
  end.

(** The answer expected: [mdir_remove] does not deliver the fid. *)
Definition mdir_out (op : dir_op) (o : dir_out) : dir_out :=
  match op with OpRemove _ => (o.1, None) | _ => o end.

Definition os_ok : Prop :=
  (forall d l, create_errno d l = 0) /\ (forall d l, end_errno d l = 0) /\
  (forall d l, truncate_errno d l = Some 0).

(** What a step may come to: it is done, or an error is reported and it is
    either done or not begun. *)
Definition step_result (n : mnode) (P : Z) (m : absdir) (op : dir_op) (r : dir_out) (n' : mnode)
  : Prop :=
  exists P' m', node_ok n' P' m' /\ P' <= P + 1 /\ node_fid n' = node_fid n /\
    ((r = mdir_out op (abs_step m op).1 /\ m' = (abs_step m op).2) \/
     (r.1 <> 0 /\ ~ os_ok /\ (m' = m \/ m' = (abs_step m op).2))).

Lemma change_dir_result n P m op work b' P' :
  node_ok n P m -> P <= 1022 -> P' <= P + 1 ->
  work (content n) = Some ((abs_step m op).1.1, b') -> dir_map b' P' (abs_step m op).2 ->
  mdir_out op (abs_step m op).1 = ((abs_step m op).1.1, None) ->
  exists r n', change_dir n work = Some (r, n') /\ step_result n P m op (r, None) n'.
Proof.
  intros Hn HP HP' Hw Hd Hout.
  destruct (change_dir_spec n P m work _ b' P' _ Hn Hw Hd ltac:(lia))
    as (r & n' & Hc & Hfid & Hor).
  exists r, n'. split; [done|]. destruct Hor as [(-> & Hr & Hr0)|(Hn' & Hb & Hr)].
  - exists P, m. split_and!; [done|lia|done|right]. split_and!; [done| |by left].
    intros (Hce & _). by rewrite Hce in Hr.
  - exists P', (abs_step m op).2. split_and!; [done|lia|done|].
    rewrite Hr. destruct (Z.eqb_spec (end_errno (fd n) (blen b')) 0) as [|He]; [by left|right].
    split_and!; [done| |by right]. intros (_ & Hee & _). by apply He.
Qed.

(** A lookup leaves the node alone. *)
Lemma mdir_lookup_spec n P m name :
  node_ok n P m -> is_cstr name ->
  exists r f, mdir_lookup create_errno end_errno n name = Some (r, f) /\
    ((r <> 0 /\ f = None /\ ~ os_ok) \/
     match m !! name with
     | Some v => r = 0 /\ f = Some (fid (fid_in (vfid (node_fid n)) v))
     | None => r = ENOENT /\ f = None
     end).
Proof.
  intros [Hs Hf Hsz Hlen Hd] Hc. unfold mdir_lookup, read_dir.
  rewrite option_guard_True by done. cbn [mbind option_bind].
  rewrite option_guard_True by done. unfold fbuf_create.
  destruct (Z.eqb_spec (create_errno (fd n) (st_size n)) 0) as [He|He]; cbn [negb mbind option_bind].
  2:{ do 2 eexists. split; [done|]. left. split_and!; [done|done|]. intros (Hce & _). by apply He. }
  rewrite option_guard_True by done. cbn [mbind option_bind].
  rewrite (map_lookup _ _ _ _ _ Hd Hc). unfold fbuf_end.
  destruct (m !! name) as [v|]; cbn [mbind option_bind];
    (destruct (Z.eqb_spec (end_errno (fd n) (blen (content n))) 0) as [Hee|Hee]; cbn;
      do 2 eexists; (split; [done|]);
      [by right|left; split_and!; [done|done|intros (_ & Hee' & _); by apply Hee]]).
Qed.

(** The file was resized and could not be mapped again. *)
Definition remap_fails (n : mnode) : Prop := exists len, truncate_errno (fd n) len = None.

Lemma change_dir_none n P m op :
  node_ok n P m -> create_errno (fd n) (st_size n) = 0 -> op (content n) = None ->
  change_dir n op = None.
Proof.
  intros [Hs Hf Hsz _ _] Hc Hop. unfold Mdir.change_dir.
  rewrite option_guard_True by done. cbn [mbind option_bind].
  rewrite option_guard_True by done. unfold fbuf_create. rewrite Hc.
  cbn [negb Z.eqb mbind option_bind]. rewrite option_guard_True by done.
  cbn [mbind option_bind]. by rewrite Hop.
Qed.

(** An operation without a result: the file cannot even be mapped, or the
    whole has none. *)
Lemma change_dir_lost n P m op work :
  node_ok n P m -> P < 1023 -> work (content n) = None -> remap_fails n ->
  (exists r n', change_dir n work = Some (r, n') /\ step_result n P m op (r, None) n') \/
  (change_dir n work = None /\ remap_fails n).
Proof.
  intros Hn HP Hw Hl. destruct (decide (create_errno (fd n) (st_size n) = 0)) as [Hc|Hc].
  { right. split; [|done]. by eapply change_dir_none. }
  left. exists (create_errno (fd n) (st_size n)), n. split.
  - pose proof Hn as [Hs Hf _ _ _]. unfold Mdir.change_dir.
    rewrite option_guard_True by done. cbn [mbind option_bind].
    rewrite option_guard_True by done. unfold fbuf_create.
    by destruct (Z.eqb_spec (create_errno (fd n) (st_size n)) 0).
  - exists P, m. split_and!; [done|lia|done|right]. split_and!; [done| |by left].
    intros (Hce & _). by rewrite Hce in Hc.
Qed.

Lemma step_lookup n P m name :
  node_ok n P m -> name_ok name -> P < 1023 ->
  exists r n', mdir_step n (OpLookup name) = Some (r, n') /\
    step_result n P m (OpLookup name) r n'.
Proof.
  intros Hn [Hc Hlen] HP. cbn [mdir_step].
  destruct (mdir_lookup_spec n P m name Hn Hc) as (r & f & -> & Hor).
  cbn [mbind option_bind]. do 2 eexists. split; [done|].
  exists P, m. split_and!; [done|lia|done|]. destruct Hor as [(Hr & -> & Ho)|Hm].
  - right. split_and!; [done|done|by left].
  - left. cbn [abs_step mdir_out]. destruct (m !! name) as [[v u]|]; destruct Hm as [-> ->]; done.
Qed.

Lemma step_creat n P m name f :
  node_ok n P m -> name_ok name -> P < 1023 ->
  (exists r n', mdir_step n (OpCreat name f) = Some (r, n') /\
    step_result n P m (OpCreat name f) r n') \/
  (mdir_step n (OpCreat name f) = None /\ remap_fails n).
Proof.
  intros Hn Hname HP. pose proof (no_dir _ _ _ Hn) as Hd. cbn [mdir_step]. unfold mdir_creat.
  set (work := fun b => fdir_creat (truncate_errno (fd n)) b name None f).
  destruct (map_creat (truncate_errno (fd n)) _ _ _ name f Hd Hname HP)
    as [(b' & P' & Hw & HP' & Hd')|[(e & Hte & He & Hm & Hw)|(Hte & Hm & Hw)]].
  - left. destruct (change_dir_result n P m (OpCreat name f) work b' P')
      as (r & n' & Hs & Hr); [done|lia|lia|done|done| |].
    { cbn [abs_step mdir_out]. by destruct (m !! name). }
    rewrite Hs. by exists (r, None), n'.
  - left. destruct (change_dir_spec n P m work _ _ P m Hn Hw Hd ltac:(lia))
      as (r & n' & Hs & Hfid & Hor).
    rewrite Hs. cbn [mbind option_bind]. exists (r, None), n'. split; [done|].
    assert (Ho : ~ os_ok) by (intros (_ & _ & Ht); rewrite Ht in Hte; congruence).
    exists P, m. destruct Hor as [(-> & Hr & Hr0)|(Hn' & _ & Hr)].
    + split_and!; [done|lia|done|right]. split_and!; [done|done|by left].
    + split_and!; [done|lia|done|right]. split_and!; [|done|by left].
      cbn [fst]. rewrite Hr. by destruct (Z.eqb_spec (end_errno (fd n) (blen (content n))) 0).
  - destruct (change_dir_lost n P m (OpCreat name f) work Hn HP Hw) as [(r & n' & Hs & Hr)|[Hs Hl]];
      [by eexists| |]; rewrite Hs; [left; by exists (r, None), n'|by right].
Qed.

Lemma step_remove n P m name :
  node_ok n P m -> name_ok name -> P < 1023 ->
  (exists r n', mdir_step n (OpRemove name) = Some (r, n') /\
    step_result n P m (OpRemove name) r n') \/
  (mdir_step n (OpRemove name) = None /\ remap_fails n).
Proof.
  intros Hn [Hc Hlen] HP. pose proof (no_dir _ _ _ Hn) as Hd. cbn [mdir_step]. unfold mdir_remove.
  set (work := fun b => '(ret, _, b) ← fdir_remove (truncate_errno (fd n)) b name; Some (ret, b)).
  destruct (map_remove (truncate_errno (fd n)) _ _ _ name Hd Hc)
    as [(b' & P' & Hw & HP' & Hd')|(Hw & P' & _ & Hte)].
  - left. destruct (change_dir_result n P m (OpRemove name) work b' P')
      as (r & n' & Hs & Hr); [done|lia|lia|by unfold work; rewrite Hw|done|done|].
    rewrite Hs. by exists (r, None), n'.
  - assert (Hw' : work (content n) = None) by (unfold work; by rewrite Hw).
    destruct (change_dir_lost n P m (OpRemove name) work Hn HP Hw') as [(r & n' & Hs & Hr)|[Hs Hl]];
      [by eexists| |]; rewrite Hs; [left; by exists (r, None), n'|by right].
Qed.

Lemma step_changefid n P m name f :
  node_ok n P m -> name_ok name -> P < 1023 ->
  exists r n', mdir_step n (OpChangeFid name f) = Some (r, n') /\
    step_result n P m (OpChangeFid name f) r n'.
Proof.
  intros Hn [Hc Hlen] HP. pose proof (no_dir _ _ _ Hn) as Hd. cbn [mdir_step].
  destruct (map_changefid _ _ _ name (vfid (fid f)) Hd Hc) as (b' & Hw & Hd').
  destruct (change_dir_result n P m (OpChangeFid name f)
    (fun b => fdir_changefid b name (vfid (fid f))) b' P) as (r & n' & Hs & Hr);
    [done|lia|lia|done|done| |].
  { cbn [abs_step mdir_out]. by destruct (m !! name). }
  unfold mdir_changefid. rewrite Hs. by exists (r, None), n'.
Qed.

(** C28: On an mnode whose recorded size is that of its file and whose file is
    a directory holding the map [m], looking up, adding, removing and changing
    a name come to the same as on the map, or report an error of the operating
    system and are then done or not begun; the node is as before in that its
    recorded sizes are right and its file is well-formed.  The one other
    outcome is that there is no result, because the file was resized and could
    not be mapped again. *)
Theorem mdir_ops_correct n P m op :
  node_ok n P m -> name_ok (op_name op) -> P < 1023 ->
  (exists r n', mdir_step n op = Some (r, n') /\ step_result n P m op r n') \/
  (mdir_step n op = None /\ remap_fails n).
Proof.
  intros Hn Hname HP.
  destruct op as [name|name f|name|name f]; cbn [op_name] in *.
  - left. by apply step_lookup.
  - by apply step_creat.
  - by apply step_remove.
  - left. by apply step_changefid.
Qed.
End Nodes.

(** ** Rename *)

(** The status of giving the child [c] the name [name2] in the directory [t]:
    the name must be free or be that of another file; a name of a directory
    is never accepted. *)
Definition into_status (t : absdir) (name2 : bytes) (c : Z * Z) : Z :=
  match t !! name2 with
  | None => 0
  | Some v =>
      if negb (Bool.eqb (afs_dir_p v.1) (afs_dir_p c.1)) then EISDIR
      else if afs_dir_p c.1 then ENOTEMPTY else 0
  end.

(** Rename on maps; [m2] is [None] within one directory. *)
Definition abs_rename (m1 : absdir) (m2 : option absdir) (name1 name2 : bytes)
  : Z * absdir * option absdir :=
  match m1 !! name1 with
  | None => (ENOENT, m1, m2)
  | Some c =>
      let t := default m1 m2 in
      let moved := <[name2 := (uwrap32 c.1, uwrap32 c.2)]> t in
      if negb (into_status t name2 c =? 0) then (into_status t name2 c, m1, m2) else
      match m2 with
      | None => (0, delete name1 moved, None)
      | Some _ => (0, delete name1 m1, Some moved)
      end
  end.

Definition has_dots (m : absdir) : Prop := is_Some (m !! dot_name) /\ is_Some (m !! dot_dot_name).

(** A name for an entry other than the dots. *)
Definition plain_name (name : bytes) : Prop :=
  name_ok name /\ name <> dot_name /\ name <> dot_dot_name.

Section Rename.
Context (create_errno : Z -> Z -> Z) (truncate_errno : Z -> Z -> option Z).

(** A file was resized and cannot be mapped again. *)
Definition lost : Prop := exists d l, truncate_errno d l = None.

Lemma rename_into_spec fd2 d2 b P t name2 dir c :
  dir_map b P t -> has_dots t -> plain_name name2 -> P < 1023 ->
  (exists s b', rename_into truncate_errno fd2 d2 b name2 (fid_in dir c) = Some (s, b') /\
    ((s = 0 /\ into_status t name2 c = 0 /\
      exists P', P' <= P + 1 /\ dir_map b' P' (<[name2 := (uwrap32 c.1, uwrap32 c.2)]> t)) \/
     (s <> 0 /\ b' = b /\
      (s = into_status t name2 c \/
       (t !! name2 = None /\ truncate_errno fd2 (blen b + AFSDIR_PAGESIZE) = Some s))))) \/
  (rename_into truncate_errno fd2 d2 b name2 (fid_in dir c) = None /\ lost).
Proof.
  intros Hd [Hd1 Hd2] ((Hc & Hlen) & Hn1 & Hn2) HP. unfold rename_into, into_status. cbv zeta.
  rewrite (map_lookup _ _ _ _ _ Hd Hc). cbn [mbind option_bind].
  cbn [fid_in fid Vnode fst]. destruct (t !! name2) as [v|] eqn:Ht.
  - cbn [fid_in fid Vnode].
    destruct (Bool.eqb (afs_dir_p v.1) (afs_dir_p c.1)); cbn [negb].
    2:{ left. exists EISDIR, b. split; [done|]. right. split_and!; [done|done|by left]. }
    destruct (afs_dir_p c.1).
    + rewrite (map_not_empty _ _ _ name2 v Hd Hd1 Hd2 Hn1 Hn2 Ht). cbn [mbind option_bind negb].
      left. exists ENOTEMPTY, b. split; [done|]. right. split_and!; [done|done|by left].
    + cbn [mbind option_bind].
      destruct (map_changefid _ _ _ name2 (fid_in dir c) Hd Hc) as (b' & Hw & Hd').
      cbn [abs_step] in Hw, Hd'. rewrite Ht in Hw, Hd'. cbn [fst snd] in Hw, Hd'.
      left. exists 0, b'. split; [exact Hw|]. left. split_and!; [done|done|].
      exists P. split; [lia|exact Hd'].
  - rewrite option_guard_True by done. cbn [mbind option_bind].
    destruct (map_creat (truncate_errno fd2) _ _ _ name2 (fid (fid_in dir c)) Hd (conj Hc Hlen) HP)
      as [(b' & P' & Hw & HP' & Hd')|[(e & Hte & He & _ & Hw)|(Hte & _ & Hw)]].
    + cbn [abs_step] in Hw, Hd'. rewrite Ht in Hw, Hd'. cbn [fst snd] in Hw, Hd'.
      left. exists 0, b'. split; [exact Hw|]. left. split_and!; [done|done|].
      exists P'. split; [lia|exact Hd'].
    + left. eexists _, b. split; [exact Hw|]. right. split_and!; [done|done|by right].
    + right. split; [exact Hw|]. by eexists _, _.
Qed.

(** The other directory of a rename, [None] when it is [n1] itself. *)
Definition target_ok (n1 : mnode) (P1 : Z) (m1 : absdir) (dir2 : option mnode) (P2 : Z)
    (m2 : option absdir) : Prop :=
  match dir2, m2 with
  | None, None => P2 = P1
  | Some n2, Some m2 => node_ok n2 P2 m2
  | _, _ => False
  end.

Definition dirs_hold (n1 : mnode) (m1 : absdir) (dir2 : option mnode) (m2 : option absdir) : Prop :=
  (exists P, dir_map (content n1) P m1) /\
  match dir2, m2 with
  | None, None => True
  | Some n2, Some m2 => exists P, dir_map (content n2) P m2
  | _, _ => False
  end.

(** The lengths delivered: those of the files when the rename is done. *)
Definition lengths_ok (r : Z) (n1 : mnode) (dir2 : option mnode) (l1 l2 : option Z) : Prop :=
  if r =? 0 then l1 = Some (blen (content n1)) /\ l2 = (fun n => blen (content n)) <$> dir2
  else l1 = None /\ l2 = None.

Lemma node_create n P m :
  node_ok n P m -> create_errno (fd n) (st_size n) = 0 ->
  fbuf_create create_errno n = Some (inr (content n)).
Proof.
  intros [_ _ Hsz _ _] He. unfold fbuf_create. rewrite He. cbn [negb Z.eqb].
  by rewrite option_guard_True.
Qed.

Lemma set_content_same n : set_content n (content n) = n.
Proof. by destruct n. Qed.

(** Taking out a name that is there. *)
Lemma remove_present d b P m name v :
  dir_map b P m -> is_cstr name -> m !! name = Some v -> P <= 1023 ->
  (exists b', fdir_remove (truncate_errno d) b name = Some (0, Some v, b') /\
    (exists P', dir_map b' P' (delete name m)) /\ swrap32 (blen b') = blen b') \/
  (fdir_remove (truncate_errno d) b name = None /\ lost).
Proof.
  intros Hd Hc Hm HP.
  destruct (map_remove (truncate_errno d) _ _ _ name Hd Hc)
    as [(b' & P' & Hw & HP' & Hd')|(Hw & P' & _ & Hte)].
  2:{ right. split; [done|]. by eexists _, _. }
  left.
  cbn [abs_step] in Hw, Hd'. rewrite Hm in Hw, Hd'. exists b'. split_and!; [done|by exists P'|].
  destruct (dir_map_len _ _ _ Hd') as [? Hl]. apply swrap32_nonneg. lia.
Qed.

(** The outcome of a rename, the errors of changing the size of a file
    included. *)
Definition rename_result (n1 : mnode) (dir2 : option mnode) (m1 : absdir) (m2 : option absdir)
    (name1 name2 : bytes) (res : option (Z * option Z * option Z * mnode * option mnode)) : Prop :=
  (exists r l1 l2 n1' dir2', res = Some (r, l1, l2, n1', dir2') /\
    lengths_ok r n1' dir2' l1 l2 /\
    ((r = (abs_rename m1 m2 name1 name2).1.1 /\
      dirs_hold n1' (abs_rename m1 m2 name1 name2).1.2 dir2' (abs_rename m1 m2 name1 name2).2) \/
     (r <> 0 /\ default m1 m2 !! name2 = None /\ (exists d l, truncate_errno d l = Some r) /\
      n1' = n1 /\ dir2' = dir2))) \/
  (res = None /\ lost).

Lemma rename_same_dir n1 P1 m1 name1 name2 :
  node_ok n1 P1 m1 -> has_dots m1 -> is_cstr name1 -> plain_name name2 -> P1 < 1023 ->
  (forall d l, create_errno d l = 0) ->
  rename_result n1 None m1 None name1 name2
    (mdir_rename create_errno truncate_errno n1 name1 None name2).
Proof.
  intros Hn1 Hdots Hc1 Hp2 HP1 Hce. pose proof (no_dir _ _ _ Hn1) as Hd1.
  unfold mdir_rename, rename_result, abs_rename. rewrite (node_create _ _ _ Hn1) by done.
  cbn [mbind option_bind]. rewrite (map_lookup _ _ _ _ _ Hd1 Hc1). cbn [mbind option_bind].
  destruct (m1 !! name1) as [c|] eqn:Hm1.
  2:{ left. do 5 eexists. split_and!; [done|done|]. left.
      split; [done|]. split; [by exists P1|done]. }
  cbn [default fmap option_fmap option_map].
  destruct (rename_into_spec (fd n1) (node_fid n1) (content n1) P1 m1 name2
    (vfid (node_fid n1)) c Hd1 Hdots Hp2 HP1) as [(s & b' & -> & Hor)|[-> Hlost]]; [|by right].
  cbn [mbind option_bind]. destruct Hor as [(-> & -> & P' & HP' & Hd')|(Hs & -> & Hor)].
  - cbn [Z.eqb negb].
    destruct (decide (name1 = name2)) as [->|Hne].
    + edestruct (remove_present (fd n1) b' P'
        (<[name2 := (uwrap32 c.1, uwrap32 c.2)]> m1) name2)
        as [(b2 & -> & Hd2 & Hl)|[-> Hlost]];
        [exact Hd'|done|apply lookup_insert_eq|lia| |by right].
      left. do 5 eexists. split; [done|]. split; [cbn; by rewrite Hl|].
      left. split; [done|]. by split.
    + destruct (remove_present (fd n1) b' P' _ name1 c Hd' Hc1)
        as [(b2 & -> & Hd2 & Hl)|[-> Hlost]]; [by rewrite lookup_insert_ne|lia| |by right].
      left. do 5 eexists. split; [done|]. split; [cbn; by rewrite Hl|].
      left. split; [done|]. by split.
  - destruct (Z.eqb_spec s 0) as [|_]; [done|]. cbn [negb]. rewrite set_content_same.
    left. do 5 eexists. split_and!; [done| |].
    { unfold lengths_ok. by destruct (Z.eqb_spec s 0). }
    destruct Hor as [Hs'|[Ht Hs']].
    + left. rewrite <- Hs'. destruct (Z.eqb_spec s 0) as [|_]; [done|]. cbn [negb fst snd].
      split; [done|]. split; [by exists P1|done].
    + right. split_and!; [done|done|eauto|done|done].
Qed.

Lemma rename_two_dirs n1 P1 m1 n2 P2 m2 name1 name2 :
  node_ok n1 P1 m1 -> node_ok n2 P2 m2 -> has_dots m2 -> is_cstr name1 -> plain_name name2 ->
  P1 < 1023 -> P2 < 1023 -> (forall d l, create_errno d l = 0) ->
  rename_result n1 (Some n2) m1 (Some m2) name1 name2
    (mdir_rename create_errno truncate_errno n1 name1 (Some n2) name2).
Proof.
  intros Hn1 Hn2 Hdots Hc1 Hp2 HP1 HP2 Hce. pose proof (no_dir _ _ _ Hn1) as Hd1.
  pose proof (no_dir _ _ _ Hn2) as Hd2.
  unfold mdir_rename, rename_result, abs_rename. rewrite (node_create _ _ _ Hn1) by done.
  cbn [mbind option_bind]. rewrite (map_lookup _ _ _ _ _ Hd1 Hc1). cbn [mbind option_bind].
  destruct (m1 !! name1) as [c|] eqn:Hm1.
  2:{ left. do 5 eexists. split_and!; [done|done|]. left.
      split; [done|]. split; [by exists P1|by exists P2]. }
  rewrite (node_create _ _ _ Hn2) by done.
  cbn [mbind option_bind fmap option_fmap option_map flip]. cbv zeta.
  change (default n1 (Some n2)) with n2. change (default m1 (Some m2)) with m2.
  destruct (rename_into_spec (fd n2) (node_fid n2) (content n2) P2 m2 name2
    (vfid (node_fid n1)) c Hd2 Hdots Hp2 HP2) as [(s & b' & -> & Hor)|[-> Hlost]]; [|by right].
  cbn [mbind option_bind]. destruct Hor as [(-> & -> & P' & HP' & Hd')|(Hs & -> & Hor)].
  - cbn [Z.eqb negb].
    destruct (remove_present (fd n1) (content n1) P1 _ name1 c Hd1 Hc1 Hm1)
        as [(b2 & -> & Hd3 & Hl)|[-> Hlost]]; [lia| |by right].
    destruct (dir_map_len _ _ _ Hd') as [? Hl'].
    left. do 5 eexists. split; [done|]. split; [cbn; rewrite Hl, swrap32_nonneg by lia; done|].
    left. split; [done|]. split; [done|by exists P'].
  - destruct (Z.eqb_spec s 0) as [|_]; [done|]. cbn [negb]. rewrite !set_content_same.
    left. do 5 eexists. split_and!; [done| |].
    { unfold lengths_ok. by destruct (Z.eqb_spec s 0). }
    destruct Hor as [Hs'|[Ht Hs']].
    + left. rewrite <- Hs'. destruct (Z.eqb_spec s 0) as [|_]; [done|]. cbn [negb fst snd].
      split; [done|]. split; [by exists P1|by exists P2].
    + right. split_and!; [done|done|eauto|done|done].
Qed.

(** C27: Renaming [name1] of a directory to [name2] of the same or of another
    directory.  The child's fid is stored under [name2], which must be free or
    name a file when the child is one, and [name1] is taken out; every other
    name is left alone, the directories stay well-formed, and the lengths
    delivered are those of the files.  A missing [name1], a [name2] of another
    kind, or a child and a [name2] that are directories (the parent is tested
    for emptiness, not the directory replaced) are refused and change
    nothing, as does a directory that cannot grow.  Every file can be
    mapped; when it cannot be mapped again after its size was changed, there is
    no result. *)
Theorem mdir_rename_correct n1 P1 m1 dir2 P2 m2 name1 name2 :
  node_ok n1 P1 m1 -> target_ok n1 P1 m1 dir2 P2 m2 -> has_dots (default m1 m2) ->
  is_cstr name1 -> plain_name name2 -> P1 < 1023 -> P2 < 1023 ->
  (forall d l, create_errno d l = 0) ->
  rename_result n1 dir2 m1 m2 name1 name2
    (mdir_rename create_errno truncate_errno n1 name1 dir2 name2).
Proof.
  intros Hn1 Ht Hdots Hc1 Hp2 HP1 HP2 Hce. destruct dir2 as [n2|], m2 as [m2|]; try done.
  - by apply rename_two_dirs with P1 P2.
  - by apply rename_same_dir with P1.
Qed.

(** Renaming a file to its own name answers success and takes the name
    out of the directory (unless the file, then resized, cannot be mapped
    again). *)
Theorem mdir_rename_self_loses n1 P1 m1 name v :
  node_ok n1 P1 m1 -> has_dots m1 -> plain_name name -> P1 < 1023 ->
  (forall d l, create_errno d l = 0) -> m1 !! name = Some v -> afs_dir_p v.1 = false ->
  (exists len n1', mdir_rename create_errno truncate_errno n1 name None name =
      Some (0, Some len, None, n1', None) /\
    (exists P, dir_map (content n1') P (delete name m1)) /\
    fdir_lookup (content n1') (vfid (node_fid n1)) name = Some (inl ENOENT)) \/
  (mdir_rename create_errno truncate_errno n1 name None name = None /\ lost).
Proof.
  intros Hn1 Hdots Hp HP1 Hce Hm Hv.
  destruct (rename_same_dir n1 P1 m1 name name Hn1 Hdots (proj1 (proj1 Hp)) Hp HP1 Hce)
    as [(r & l1 & l2 & n1' & dir2' & Hr & Hl & Hor)|Hlost]; [left|by right].
  destruct Hor as [[Hr0 Hd]|(_ & Hno & _)]; [|cbn in Hno; congruence].
  assert (Habs : abs_rename m1 None name name = (0, delete name m1, None)).
  { unfold abs_rename, into_status. cbn [default]. rewrite Hm, Hv.
    rewrite Bool.eqb_reflx. cbn [negb Z.eqb]. by rewrite delete_insert_eq. }
  rewrite Habs in Hr0, Hd. cbn [fst snd] in Hr0, Hd. subst r.
  destruct Hd as [[P Hd] Hd2]. destruct dir2'; [done|]. cbn in Hl. destruct Hl as [-> ->].
  do 2 eexists. split_and!; [done|by exists P|].
  rewrite (map_lookup _ _ _ _ _ Hd (proj1 (proj1 Hp))). by rewrite lookup_delete_eq.
Qed.
End Rename.

(** ** The theorems at work *)

Module Witnesses.
Import FdirCorrect.Concrete.

Definition no_errno (d l : Z) : Z := 0.
Definition resized (d l : Z) : option Z := Some 0.
Definition node_of (b : bytes) : mnode :=
  {| fd := 7; node_fid := file_fid 1; sbp := true; fdp := true; st_size := blen b;
     Length := blen b; content := b |}.

Definition dots_only : absdir := fresh_abs (file_fid 1) (file_fid 3).

Lemma fresh_map : dir_map fresh 1 dots_only.
Proof.
  destruct (fdir_mkdir_spec te0 (file_fid 1) (file_fid 3) eq_refl)
    as (b & l1 & l2 & ch & Hm & Hne & Hrep).
  unfold fresh. rewrite Hm. eexists _, _. split; [exact Hrep|]. by apply view_fresh.
Qed.

Lemma readme_ok : plain_name readme.
Proof.
  split_and!; [|done|done]. split; [apply is_cstr_check; reflexivity|vm_compute; discriminate].
Qed.

(** A directory with one file in it. *)
Definition one_file : bytes :=
  match fdir_creat te0 fresh readme None (file_fid 4) with Some (_, b) => b | None => [] end.

Lemma one_file_map : exists P, P <= 2 /\ dir_map one_file P (<[readme := (4, 5)]> dots_only).
Proof.
  destruct (map_creat te0 fresh 1 dots_only readme (file_fid 4) fresh_map (proj1 readme_ok))
    as [(b' & P' & Hw & HP' & Hd')|[(e & [= <-] & He & _)|(Hte & _)]]; [lia| |done|done].
  unfold one_file. rewrite Hw. exists P'. split; [lia|exact Hd'].
Qed.

Lemma node_of_ok b P m : dir_map b P m -> node_ok (node_of b) P m.
Proof. by split. Qed.

Lemma mdir_ops_correct_witness :
  (exists r n', mdir_step no_errno no_errno resized (fun _ => 0) (node_of fresh)
      (OpCreat readme (file_fid 4)) = Some (r, n') /\
    step_result no_errno no_errno resized (node_of fresh) 1 dots_only
      (OpCreat readme (file_fid 4)) r n') \/
  (mdir_step no_errno no_errno resized (fun _ => 0) (node_of fresh) (OpCreat readme (file_fid 4)) = None /\
    remap_fails resized (node_of fresh)).
Proof.
  apply (mdir_ops_correct no_errno no_errno resized (fun _ => 0)).
  - apply node_of_ok, fresh_map.
  - apply readme_ok.
  - lia.
Defined.

Lemma dots_stay : has_dots (<[readme := (4, 5)]> dots_only).
Proof. split; vm_compute; eauto. Qed.

Lemma mdir_rename_correct_witness :
  exists P, P <= 2 /\
  rename_result resized (node_of fresh) (Some (node_of one_file)) dots_only
    (Some (<[readme := (4, 5)]> dots_only)) dot_name readme
    (mdir_rename no_errno resized (node_of fresh) dot_name (Some (node_of one_file)) readme) /\
  rename_result resized (node_of one_file) None (<[readme := (4, 5)]> dots_only) None readme
    long_name (mdir_rename no_errno resized (node_of one_file) readme None long_name).
Proof.
  destruct one_file_map as (P & HP & Hd). exists P. split; [exact HP|]. split.
  - apply (mdir_rename_correct no_errno resized (node_of fresh) 1 dots_only
      (Some (node_of one_file)) P (Some (<[readme := (4, 5)]> dots_only))).
    + apply node_of_ok, fresh_map.
    + apply node_of_ok, Hd.
    + apply dots_stay.
    + apply is_cstr_check; reflexivity.
    + apply readme_ok.
    + lia.
    + lia.
    + reflexivity.
  - apply (mdir_rename_correct no_errno resized (node_of one_file) P
      (<[readme := (4, 5)]> dots_only) None P None).
    + apply node_of_ok, Hd.
    + reflexivity.
    + apply dots_stay.
    + apply is_cstr_check; reflexivity.
    + split_and!; [split; [apply is_cstr_check; reflexivity|vm_compute; discriminate]|done|done].
    + lia.
    + lia.
    + reflexivity.
Defined.

Lemma mdir_rename_self_loses_witness :
  exists len n1', mdir_rename no_errno resized (node_of one_file) readme None readme =
      Some (0, Some len, None, n1', None) /\
    fdir_lookup (content n1') (vfid (file_fid 1)) readme = Some (inl ENOENT).
Proof.
  destruct one_file_map as (P & HP & Hd).
  destruct (mdir_rename_self_loses no_errno resized (node_of one_file) P
    (<[readme := (4, 5)]> dots_only) readme (4, 5)) as [(len & n1' & Hr & _ & Hl)|[_ (d & l & Hx)]].
  - apply node_of_ok, Hd.
  - apply dots_stay.
  - apply readme_ok.
  - lia.
  - reflexivity.
  - apply lookup_insert_eq.
  - reflexivity.
  - exists len, n1'. split; [exact Hr|exact Hl].
  - discriminate Hx.
Defined.
End Witnesses.
