(* ===== verification/DList.v ===== *)
(** * Doubly linked lists (lib/util/list.c, lib/util/list.h)

    The items live in a store from addresses to their contents; a pointer is
    an address or [None] for NULL.  Reading or writing through a pointer that
    holds no item (NULL, or an item already freed) has no defined result: the
    operations answer [None] then.  [malloc] is a parameter: it gives an
    address without an item, or NULL. *)

From S2P Require Import Prelude.

Section DList.
Context {D : Type}.

Record listitem := { data : D; prev : option Z; next : option Z }.
Record List := { head : option Z; tail : option Z }.

(** The store of items. *)
Abbreviation store := (gmap Z listitem).

Context (malloc : store -> option Z).

Definition set_prev (p : option Z) (it : listitem) : listitem :=
  {| data := data it; prev := p; next := next it |}.
Definition set_next (n : option Z) (it : listitem) : listitem :=
  {| data := data it; prev := prev it; next := n |}.

(** An assignment to a field of the item at [a]. *)
Definition update (m : store) (a : Z) (f : listitem -> listitem) : option store :=
  it ← m !! a; Some (<[a := f it]> m).
(** The same through a pointer that may be NULL, with the alternative
    assignment to the list. *)
Definition update_or (m : store) (p : option Z) (f : listitem -> listitem)
    (l l' : List) : option (store * List) :=
  match p with
  | Some a => m ← update m a f; Some (m, l)
  | None => Some (m, l')
  end.
Definition set_head (l : List) (p : option Z) : List := {| head := p; tail := tail l |}.
Definition set_tail (l : List) (p : option Z) : List := {| head := head l; tail := p |}.

(** ** Operations *)

Definition listnew : List := {| head := None; tail := None |}.

(** The new item or NULL, the list, the store. *)
Definition listaddbefore (m : store) (list : List) (old_item : Z) (d : D)
  : option (option Z * List * store) :=
  match malloc m with
  | None => Some (None, list, m)
  | Some item =>
      old ← m !! old_item;
      let m := <[item := {| data := d; prev := prev old; next := Some old_item |}]> m in
      '(m, list) ← update_or m (prev old) (set_next (Some item)) list (set_head list (Some item));
      m ← update m old_item (set_prev (Some item));
      Some (Some item, list, m)
  end.

Definition listaddafter (m : store) (list : List) (old_item : Z) (d : D)
  : option (option Z * List * store) :=
  match malloc m with
  | None => Some (None, list, m)
  | Some item =>
      old ← m !! old_item;
      let m := <[item := {| data := d; prev := Some old_item; next := next old |}]> m in
      '(m, list) ← update_or m (next old) (set_prev (Some item)) list (set_tail list (Some item));
      m ← update m old_item (set_next (Some item));
      Some (Some item, list, m)
  end.

Definition listaddhead (m : store) (list : List) (d : D)
  : option (option Z * List * store) :=
  match malloc m with
  | None => Some (None, list, m)
  | Some item =>
      let m := <[item := {| data := d; prev := None; next := head list |}]> m in
      '(m, _) ← update_or m (head list) (set_prev (Some item)) list list;
      let list := set_head list (Some item) in
      let list := match tail list with None => set_tail list (Some item) | Some _ => list end in
      Some (Some item, list, m)
  end.

Definition listaddtail (m : store) (list : List) (d : D)
  : option (option Z * List * store) :=
  match malloc m with
  | None => Some (None, list, m)
  | Some item =>
      let m := <[item := {| data := d; prev := tail list; next := None |}]> m in
      '(m, _) ← update_or m (tail list) (set_next (Some item)) list list;
      let list := set_tail list (Some item) in
      let list := match head list with None => set_head list (Some item) | Some _ => list end in
      Some (Some item, list, m)
  end.

(** The data or NULL, the list, the store. *)
Definition listdelhead (m : store) (list : List) : option (option D * List * store) :=
  match head list with
  | None => Some (None, list, m)
  | Some item =>
      it ← m !! item;
      let list := set_head list (next it) in
      '(m, _) ← update_or m (next it) (set_prev None) list list;
      let m := delete item m in
      let list := if decide (tail list = Some item) then set_tail list None else list in
      Some (Some (data it), list, m)
  end.

Definition listdeltail (m : store) (list : List) : option (option D * List * store) :=
  match tail list with
  | None => Some (None, list, m)
  | Some item =>
      it ← m !! item;
      let list := set_tail list (prev it) in
      '(m, _) ← update_or m (prev it) (set_next None) list list;
      let m := delete item m in
      let list := if decide (head list = Some item) then set_head list None else list in
      Some (Some (data it), list, m)
  end.

Definition listdel (m : store) (list : List) (item : Z) : option (List * store) :=
  it ← m !! item;
  '(m, _) ← update_or m (prev it) (set_next (next it)) list list;
  it ← m !! item;
  '(m, _) ← update_or m (next it) (set_prev (prev it)) list list;
  it ← m !! item;
  let list := if decide (Some item = head list) then set_head list (next it) else list in
  let list := if decide (Some item = tail list) then set_tail list (prev it) else list in
  Some (list, delete item m).

(** [listiter]: the callback may change store and list; the next item is read
    after it ran.  [fuel] bounds the number of items visited. *)
Section Iter.
Context {A : Type} (fn : store -> List -> Z -> A -> option (bool * store * List * A)).

Fixpoint listiter_from (fuel : nat) (m : store) (list : List) (item : option Z) (arg : A)
  : option (store * List * A) :=
  match item, fuel with
  | None, _ => Some (m, list, arg)
  | Some _, O => None
  | Some item, S fuel =>
      '(stop, m, list, arg) ← fn m list item arg;
      if (stop : bool) then Some (m, list, arg) else
      it ← m !! item;
      listiter_from fuel m list (next it) arg
  end.

Definition listiter (fuel : nat) (m : store) (list : List) (arg : A)
  : option (store * List * A) := listiter_from fuel m list (head list) arg.
End Iter.
End DList.
Arguments listitem : clear implicits.
