(* ===== verification/DListCorrect.v ===== *)
(** * Correctness of the doubly linked lists

    A list in the store is described by the sequence of its items (address and
    data); every operation of [DList] is shown to act on the sequence and to
    leave other lists of the store alone. *)

From S2P Require Import Prelude DList.

Section Rep.
Context {D : Type}.
Implicit Types (m : gmap Z (listitem D)) (xs ys : list (Z * D)).

(** The first address of [xs], or [n]; the last one, or [p]. *)
Definition first xs (n : option Z) : option Z :=
  match xs with [] => n | (a, _) :: _ => Some a end.
Definition lastp (p : option Z) xs : option Z :=
  match last xs with Some (a, _) => Some a | None => p end.

(** The items [xs] are linked in this order, between [p] and [n]. *)
Fixpoint dll m (p : option Z) xs (n : option Z) : Prop :=
  match xs with
  | [] => True
  | (a, d) :: xs =>
      m !! a = Some {| data := d; prev := p; next := first xs n |} /\ dll m (Some a) xs n
  end.

(** The list [l] of the store [m] has the items [xs]. *)
Record is_list m (l : List) xs : Prop := {
  il_nodup : NoDup xs.*1;
  il_dll : dll m None xs None;
  il_head : head l = first xs None;
  il_tail : tail l = lastp None xs;
}.

Lemma first_app xs ys n : first (xs ++ ys) n = first xs (first ys n).
Proof. by destruct xs as [|[a d] xs]. Qed.

Lemma lastp_app p xs ys : lastp p (xs ++ ys) = lastp (lastp p xs) ys.
Proof.
  unfold lastp. rewrite last_app. destruct (last ys) as [[a d]|]; [done|].
  by destruct (last xs) as [[a d]|].
Qed.

Lemma lastp_cons p a d xs : lastp p ((a, d) :: xs) = lastp (Some a) xs.
Proof. unfold lastp. rewrite last_cons. by destruct (last xs) as [[a' d']|]. Qed.

Lemma lastp_is_Some a xs : exists b, lastp (Some a) xs = Some b.
Proof. unfold lastp. destruct (last xs) as [[b d]|]; eauto. Qed.

Lemma dll_app m p xs ys n :
  dll m p (xs ++ ys) n <-> dll m p xs (first ys n) /\ dll m (lastp p xs) ys n.
Proof.
  revert p. induction xs as [|[a d] xs IH]; intros p; cbn [app dll].
  - naive_solver.
  - rewrite IH, first_app, lastp_cons. naive_solver.
Qed.

Lemma dll_frame m m' p xs n :
  (forall a, a ∈ xs.*1 -> m' !! a = m !! a) -> dll m p xs n -> dll m' p xs n.
Proof.
  revert p. induction xs as [|[a d] xs IH]; intros p Hf; [done|]. intros [H1 H2].
  split; [rewrite Hf; [done|by left]|]. apply IH; [|done]. intros b Hb. apply Hf. by right.
Qed.

Lemma dll_lookup m p xs n a d :
  dll m p xs n -> (a, d) ∈ xs -> exists it, m !! a = Some it /\ data it = d.
Proof.
  revert p. induction xs as [|[b e] xs IH]; intros p Hd Hin; [by apply not_elem_of_nil in Hin|].
  destruct Hd as [H1 H2]. apply elem_of_cons in Hin as [[= -> ->]|Hin]; [by eexists|].
  by eapply IH.
Qed.

(** ** Changing the links at the ends *)

Definition relink_r m xs (n : option Z) : gmap Z (listitem D) :=
  match last xs with Some (a, _) => alter (set_next n) a m | None => m end.
Definition relink_l m ys (p : option Z) : gmap Z (listitem D) :=
  match ys with (a, _) :: _ => alter (set_prev p) a m | [] => m end.

Lemma relink_r_other m xs n a : a ∉ xs.*1 -> relink_r m xs n !! a = m !! a.
Proof.
  unfold relink_r. destruct (last xs) as [[b d]|] eqn:Hl; [|done]. intros Ha.
  apply lookup_alter_ne. intros ->. apply Ha. apply last_Some_elem_of in Hl.
  by apply (list_elem_of_fmap_2 fst) in Hl.
Qed.

Lemma relink_l_other m ys p a : a ∉ ys.*1 -> relink_l m ys p !! a = m !! a.
Proof.
  destruct ys as [|[b d] ys]; [done|]. intros Ha. apply lookup_alter_ne. intros ->.
  apply Ha. by left.
Qed.

Lemma dll_relink_r m p xs n n' :
  NoDup xs.*1 -> dll m p xs n -> dll (relink_r m xs n') p xs n'.
Proof.
  revert p. induction xs as [|[a d] xs IH]; intros p Hnd; [done|]. intros [H1 H2].
  cbn [fmap list_fmap fst] in Hnd. apply NoDup_cons in Hnd as [Ha Hnd].
  destruct xs as [|[b e] xs].
  - split; [|done]. unfold relink_r. simpl. rewrite lookup_alter_eq, H1. done.
  - assert (Hr : relink_r m ((a, d) :: (b, e) :: xs) n' = relink_r m ((b, e) :: xs) n') by done.
    rewrite Hr. split; [|by apply IH]. by rewrite relink_r_other.
Qed.

Lemma dll_relink_l m p p' ys n :
  NoDup ys.*1 -> dll m p ys n -> dll (relink_l m ys p') p' ys n.
Proof.
  destruct ys as [|[a d] ys]; intros Hnd; [done|]. intros [H1 H2].
  apply NoDup_cons in Hnd as [Ha Hnd]. split.
  - simpl. by rewrite lookup_alter_eq, H1.
  - eapply dll_frame; [|done]. intros b Hb. simpl. apply lookup_alter_ne. by intros ->.
Qed.

Lemma relink_comm m xs ys n p :
  (forall a, a ∈ xs.*1 -> a ∉ ys.*1) ->
  relink_r (relink_l m ys p) xs n = relink_l (relink_r m xs n) ys p.
Proof.
  intros Hdis. unfold relink_r, relink_l. destruct (last xs) as [[a d]|] eqn:Hl; [|done].
  destruct ys as [|[b e] ys]; [done|]. apply alter_alter_ne. intros ->.
  apply last_Some_elem_of in Hl. apply (list_elem_of_fmap_2 fst) in Hl.
  apply (Hdis _ Hl). by left.
Qed.

(** ** Inserting and deleting an item *)

Definition linked_in m xs a d ys : gmap Z (listitem D) :=
  relink_l (relink_r (<[a := {| data := d; prev := lastp None xs; next := first ys None |}]> m)
    xs (Some a)) ys (Some a).
Definition linked_out m xs a ys : gmap Z (listitem D) :=
  delete a (relink_l (relink_r m xs (first ys None)) ys (lastp None xs)).

Lemma nodup_app_inv xs ys :
  NoDup (xs ++ ys).*1 -> NoDup xs.*1 /\ NoDup ys.*1 /\ forall a, a ∈ xs.*1 -> a ∉ ys.*1.
Proof. rewrite fmap_app. intros (H1 & H2 & H3)%NoDup_app. done. Qed.

Lemma dll_insert m xs a d ys :
  NoDup (xs ++ ys).*1 -> a ∉ (xs ++ ys).*1 -> dll m None (xs ++ ys) None ->
  dll (linked_in m xs a d ys) None (xs ++ (a, d) :: ys) None.
Proof.
  intros Hnd Ha Hd. apply nodup_app_inv in Hnd as (Nx & Ny & Hdis).
  rewrite fmap_app, not_elem_of_app in Ha. destruct Ha as [Hax Hay].
  apply dll_app in Hd as [Hx Hy]. unfold linked_in.
  set (m0 := <[a := _]> m).
  assert (Hm0 : forall b, b <> a -> m0 !! b = m !! b) by (intros; by apply lookup_insert_ne).
  apply dll_app. split; [|split].
  - apply dll_frame with (relink_r m0 xs (Some a)).
    + intros b Hb. apply relink_l_other. auto.
    + eapply dll_relink_r; [done|]. eapply dll_frame; [|done]. intros b Hb. apply Hm0.
      by intros ->.
  - rewrite relink_l_other, relink_r_other by done. apply lookup_insert_eq.
  - eapply dll_relink_l; [done|]. apply dll_frame with m; [|done].
    intros b Hb. rewrite relink_r_other by (intros Hb'; by apply (Hdis b)). apply Hm0.
    by intros ->.
Qed.

Lemma dll_delete m xs a d ys :
  NoDup (xs ++ (a, d) :: ys).*1 -> dll m None (xs ++ (a, d) :: ys) None ->
  dll (linked_out m xs a ys) None (xs ++ ys) None.
Proof.
  intros Hnd Hd. apply nodup_app_inv in Hnd as (Nx & Ny & Hdis).
  apply NoDup_cons in Ny as [Hay Ny]. apply dll_app in Hd as [Hx [_ Hy]].
  assert (Hax : a ∉ xs.*1) by (intros Hin; apply (Hdis a Hin); by left).
  assert (Hdis' : forall b, b ∈ xs.*1 -> b ∉ ys.*1)
    by (intros b Hb Hb'; apply (Hdis b Hb); by right).
  unfold linked_out. apply dll_app. split.
  - apply dll_frame with (relink_r m xs (first ys None)); [|by eapply dll_relink_r].
    intros b Hb. rewrite lookup_delete_ne by (intros ->; done). apply relink_l_other. auto.
  - apply dll_frame with (relink_l (relink_r m xs (first ys None)) ys (lastp None xs)).
    + intros b Hb. apply lookup_delete_ne. by intros ->.
    + eapply dll_relink_l; [done|]. apply dll_frame with m; [|done].
      intros b Hb. apply relink_r_other. intros Hb'. by apply (Hdis' b).
Qed.

(** Items of other lists are untouched. *)
Lemma linked_in_other m xs a d ys b :
  b <> a -> b ∉ (xs ++ ys).*1 -> linked_in m xs a d ys !! b = m !! b.
Proof.
  rewrite fmap_app, not_elem_of_app. intros Hne [H1 H2]. unfold linked_in.
  rewrite relink_l_other, relink_r_other by done. by apply lookup_insert_ne.
Qed.

Lemma linked_out_other m xs a d ys b :
  b ∉ (xs ++ (a, d) :: ys).*1 -> linked_out m xs a ys !! b = m !! b.
Proof.
  rewrite fmap_app, not_elem_of_app. intros [H1 H2]. unfold linked_out.
  rewrite lookup_delete_ne by (intros <-; apply H2; by left).
  rewrite relink_l_other by (intros Hb; apply H2; by right). by apply relink_r_other.
Qed.

(** ** Assignments through pointers *)

Lemma update_alter m a it f : m !! a = Some it -> update m a f = Some (alter f a m).
Proof.
  intros Ha. unfold update. rewrite Ha. cbn [mbind option_bind]. f_equal.
  apply map_eq. intros b. destruct (decide (b = a)) as [->|Hne].
  - by rewrite lookup_insert_eq, lookup_alter_eq, Ha.
  - by rewrite lookup_insert_ne, lookup_alter_ne by done.
Qed.

Lemma lastp_in p xs n m :
  dll m p xs n -> match last xs with Some (a, _) => is_Some (m !! a) | None => True end.
Proof.
  intros Hd. destruct (last xs) as [[a d]|] eqn:Hl; [|done].
  apply last_Some_elem_of in Hl. destruct (dll_lookup _ _ _ _ _ _ Hd Hl) as (it & -> & _).
  by eexists.
Qed.

Lemma update_or_last m p xs n n' l l' :
  dll m p xs n ->
  update_or m (lastp None xs) (set_next n') l l' =
  Some (relink_r m xs n', match xs with [] => l' | _ => l end).
Proof.
  intros Hd. pose proof (lastp_in _ _ _ _ Hd) as Hin. unfold update_or, lastp, relink_r.
  destruct (last xs) as [[a d]|] eqn:Hl.
  - destruct Hin as [it Ha]. rewrite (update_alter _ _ _ _ Ha). by destruct xs.
  - apply last_None in Hl as ->. done.
Qed.

Lemma update_or_first m p ys n p' l l' :
  dll m p ys n ->
  update_or m (first ys None) (set_prev p') l l' =
  Some (relink_l m ys p', match ys with [] => l' | _ => l end).
Proof.
  intros Hd. destruct ys as [|[a d] ys]; [done|]. destruct Hd as [Ha _].
  simpl. by rewrite (update_alter _ _ _ _ Ha).
Qed.

(** ** The operations as insertion and deletion *)

Section Ops.
Context (malloc : gmap Z (listitem D) -> option Z).
Hypothesis malloc_fresh : forall m a, malloc m = Some a -> m !! a = None.

Lemma fresh_not_in m a p xs n : malloc m = Some a -> dll m p xs n -> a ∉ xs.*1.
Proof using malloc_fresh.
  intros Ha%malloc_fresh Hd ([b e] & -> & Hin)%list_elem_of_fmap_1.
  destruct (dll_lookup _ _ _ _ _ _ Hd Hin) as (it & Hit & _). simpl in *. congruence.
Qed.

(** The result of an insertion between [xs] and [ys]. *)
Definition inserted m xs a d ys (r : option (option Z * List * gmap Z (listitem D))) : Prop :=
  exists l', r = Some (Some a, l', linked_in m xs a d ys) /\
    is_list (linked_in m xs a d ys) l' (xs ++ (a, d) :: ys).

Lemma inserted_intro m l xs a d ys l' :
  is_list m l (xs ++ ys) -> malloc m = Some a ->
  head l' = first xs (Some a) -> tail l' = lastp (Some a) ys ->
  is_list (linked_in m xs a d ys) l' (xs ++ (a, d) :: ys).
Proof using malloc_fresh.
  intros [Hnd Hd _ _] Ha Hh Ht. pose proof (fresh_not_in _ _ _ _ _ Ha Hd) as Hni. split.
  - rewrite fmap_app in *. cbn [fmap list_fmap fst]. apply NoDup_app in Hnd as (H1 & H2 & H3).
    rewrite not_elem_of_app in Hni. destruct Hni as [N1 N2]. apply NoDup_app.
    split_and!; [done| |by constructor]. intros b Hb. rewrite not_elem_of_cons.
    split; [by intros ->|auto].
  - by apply dll_insert.
  - by rewrite first_app.
  - by rewrite lastp_app, lastp_cons.
Qed.

(** The store after the new item was filled in still has the old items. *)
Lemma dll_new_item m a it p xs n :
  malloc m = Some a -> dll m p xs n -> dll (<[a := it]> m) p xs n.
Proof using malloc_fresh.
  intros Ha Hd. pose proof (fresh_not_in _ _ _ _ _ Ha Hd) as Hni.
  eapply dll_frame; [|done]. intros b Hb. apply lookup_insert_ne. by intros ->.
Qed.

Lemma listaddhead_spec m l xs a d :
  is_list m l xs -> malloc m = Some a -> inserted m [] a d xs (listaddhead malloc m l d).
Proof using malloc_fresh.
  intros Hl Ha. pose proof Hl as [Hnd Hd Hh Ht].
  unfold listaddhead. rewrite Ha, Hh.
  rewrite (update_or_first _ None xs None) by (by apply dll_new_item).
  cbn [mbind option_bind]. eexists. split; [done|].
  apply (inserted_intro m l); [done|done|simpl; by destruct (tail l)|].
  simpl. rewrite Ht. destruct xs as [|[b e] xs]; [done|]. rewrite !lastp_cons in *.
  destruct (lastp_is_Some b xs) as [c Hc]. rewrite Hc in *. done.
Qed.

Lemma listaddtail_spec m l xs a d :
  is_list m l xs -> malloc m = Some a -> inserted m xs a d [] (listaddtail malloc m l d).
Proof using malloc_fresh.
  intros Hl Ha. pose proof Hl as [Hnd Hd Hh Ht].
  unfold listaddtail. rewrite Ha, Ht.
  rewrite (update_or_last _ None xs None) by (by apply dll_new_item).
  cbn [mbind option_bind]. eexists. split; [done|].
  apply (inserted_intro m l); [by rewrite app_nil_r|done| |]; unfold set_tail; simpl; rewrite Hh;
    by destruct xs as [|[b e] xs].
Qed.

Lemma listaddbefore_spec m l xs b e ys a d :
  is_list m l (xs ++ (b, e) :: ys) -> malloc m = Some a ->
  inserted m xs a d ((b, e) :: ys) (listaddbefore malloc m l b d).
Proof using malloc_fresh.
  intros Hl Ha. pose proof Hl as [Hnd Hd Hh Ht].
  pose proof Hd as [Hx [Hb Hy]]%dll_app. unfold listaddbefore. rewrite Ha, Hb.
  cbn [mbind option_bind prev]. set (m0 := <[a := _]> m).
  rewrite (update_or_last m0 None xs (Some b)) by (by apply dll_new_item).
  cbn [mbind option_bind].
  assert (Hb0 : relink_r m0 xs (Some a) !! b =
    Some {| data := e; prev := lastp None xs; next := first ys None |}).
  { apply nodup_app_inv in Hnd as (_ & _ & Hdis).
    rewrite relink_r_other by (intros Hin; apply (Hdis b Hin); by left).
    unfold m0. rewrite lookup_insert_ne; [done|]. intros <-.
    apply malloc_fresh in Ha. congruence. }
  rewrite (update_alter _ _ _ _ Hb0). cbn [mbind option_bind].
  eexists. split; [done|]. apply (inserted_intro m l); [done|done| |].
  - destruct xs as [|[c f] xs]; [done|]. rewrite Hh. done.
  - rewrite lastp_cons. destruct xs as [|[c f] xs]; simpl; rewrite Ht, ?lastp_app, lastp_cons; done.
Qed.

Lemma listaddafter_spec m l xs b e ys a d :
  is_list m l (xs ++ (b, e) :: ys) -> malloc m = Some a ->
  inserted m (xs ++ [(b, e)]) a d ys (listaddafter malloc m l b d).
Proof using malloc_fresh.
  intros Hl Ha. pose proof Hl as [Hnd Hd Hh Ht].
  pose proof Hd as [Hx [Hb Hy]]%dll_app.
  unfold listaddafter. rewrite Ha, Hb. cbn [mbind option_bind next].
  replace (Some b) with (lastp None (xs ++ [(b, e)])) at 1
    by (by rewrite lastp_app, lastp_cons).
  set (m0 := <[a := _]> m).
  rewrite (update_or_first m0 (Some b) ys None) by (by apply dll_new_item).
  cbn [mbind option_bind].
  assert (Hnd' := Hnd). rewrite cons_middle, app_assoc in Hnd'.
  apply nodup_app_inv in Hnd' as (_ & _ & Hdis).
  assert (Hb0 : relink_l m0 ys (Some a) !! b =
    Some {| data := e; prev := lastp None xs; next := first ys None |}).
  { rewrite relink_l_other.
    - unfold m0. rewrite lookup_insert_ne; [done|]. intros <-. apply malloc_fresh in Ha. congruence.
    - apply Hdis. rewrite fmap_app. apply elem_of_app. right. by left. }
  rewrite (update_alter _ _ _ _ Hb0). cbn [mbind option_bind].
  assert (Hm : alter (set_next (Some a)) b (relink_l m0 ys (Some a)) =
    linked_in m (xs ++ [(b, e)]) a d ys).
  { unfold linked_in. rewrite <- relink_comm by done. unfold relink_r. by rewrite last_snoc. }
  rewrite Hm. eexists. split; [done|]. apply (inserted_intro m l); [|done| |].
  - by rewrite <- app_assoc.
  - rewrite first_app. cbn [first].
    assert (Hf : head l = first xs (Some b)) by (rewrite Hh, first_app; done).
    by destruct ys as [|[c f] ys].
  - destruct ys as [|[c f] ys]; [done|]. simpl. rewrite Ht, lastp_app, !lastp_cons. done.
Qed.
End Ops.

(** The result of deleting the item at [a]. *)
Lemma deleted_intro m l xs a d ys l' :
  is_list m l (xs ++ (a, d) :: ys) ->
  head l' = first xs (first ys None) -> tail l' = lastp (lastp None xs) ys ->
  is_list (linked_out m xs a ys) l' (xs ++ ys).
Proof.
  intros [Hnd Hd _ _] Hh Ht. split.
  - rewrite fmap_app in *. apply NoDup_app in Hnd as (H1 & H2 & H3).
    apply NoDup_cons in H3 as [_ H3]. apply NoDup_app. split_and!; [done| |done].
    intros b Hb Hb'. apply (H2 b Hb). by right.
  - by apply (dll_delete m xs a d ys).
  - by rewrite first_app.
  - by rewrite lastp_app.
Qed.

Lemma is_list_nil_r m l xs : is_list m l (xs ++ []) -> is_list m l xs.
Proof. by rewrite app_nil_r. Qed.

Lemma listdelhead_spec m l a d ys :
  is_list m l ((a, d) :: ys) ->
  exists l', listdelhead m l = Some (Some d, l', linked_out m [] a ys) /\
    is_list (linked_out m [] a ys) l' ys.
Proof.
  intros Hl. pose proof Hl as [Hnd [Ha Hy] Hh Ht].
  unfold listdelhead. rewrite Hh. cbn [first]. rewrite Ha. cbn [mbind option_bind next].
  rewrite (update_or_first m (Some a) ys None) by done. cbn [mbind option_bind].
  eexists. split; [done|]. apply (deleted_intro m l [] a d ys); [done| |].
  - by case_decide.
  - unfold set_head in *. cbn [tail] in *. rewrite Ht, lastp_cons.
    destruct ys as [|[b e] ys].
    + by rewrite decide_True.
    + rewrite !lastp_cons. apply NoDup_cons in Hnd as [Hni _]. rewrite decide_False; [done|].
      unfold lastp. destruct (last ys) as [[c f]|] eqn:Hlast.
      * intros [= ->]. apply Hni. right. apply last_Some_elem_of in Hlast.
        by apply (list_elem_of_fmap_2 fst) in Hlast.
      * intros [= ->]. apply Hni. by left.
Qed.

Lemma listdeltail_spec m l xs a d :
  is_list m l (xs ++ [(a, d)]) ->
  exists l', listdeltail m l = Some (Some d, l', linked_out m xs a []) /\
    is_list (linked_out m xs a []) l' xs.
Proof.
  intros Hl. pose proof Hl as [Hnd Hd Hh Ht]. pose proof Hd as [Hx [Ha _]]%dll_app.
  unfold listdeltail. rewrite Ht, lastp_app, lastp_cons. cbn [lastp last].
  rewrite Ha. cbn [mbind option_bind prev].
  rewrite (update_or_last m None xs (Some a)) by done. cbn [mbind option_bind].
  eexists. split; [done|]. eapply is_list_nil_r.
  apply (deleted_intro m l xs a d []); [done| |].
  - unfold set_tail in *. cbn [head] in *. rewrite Hh.
    apply nodup_app_inv in Hnd as (_ & _ & Hdis). destruct xs as [|[b e] xs].
    + by rewrite decide_True.
    + rewrite decide_False; [done|]. intros [= ->]. apply (Hdis a); by left.
  - by case_decide.
Qed.

Lemma listdel_spec m l xs a d ys :
  is_list m l (xs ++ (a, d) :: ys) ->
  exists l', listdel m l a = Some (l', linked_out m xs a ys) /\
    is_list (linked_out m xs a ys) l' (xs ++ ys).
Proof.
  intros Hl. pose proof Hl as [Hnd Hd Hh Ht]. pose proof Hd as [Hx [Ha Hy]]%dll_app.
  pose proof Hnd as (Nx & Ny & Hdis)%nodup_app_inv. apply NoDup_cons in Ny as [Hay Ny].
  assert (Hax : a ∉ xs.*1) by (intros Hin; apply (Hdis a Hin); by left).
  unfold listdel. rewrite Ha. cbn [mbind option_bind prev next].
  rewrite (update_or_last m None xs (Some a)) by done. cbn [mbind option_bind].
  rewrite relink_r_other, Ha by done. cbn [mbind option_bind prev next].
  rewrite (update_or_first _ (Some a) ys None).
  2:{ apply dll_frame with m; [|done]. intros b Hb. apply relink_r_other. intros Hb'.
      apply (Hdis b Hb'). by right. }
  cbn [mbind option_bind]. rewrite relink_l_other, relink_r_other, Ha by done.
  cbn [mbind option_bind prev next]. eexists. split; [done|].
  apply (deleted_intro m l xs a d ys); [done| |].
  - assert (Hhd : head (if decide (Some a = head l) then set_head l (first ys None) else l) =
      first xs (first ys None)).
    { rewrite Hh, first_app. cbn [first]. destruct xs as [|[b e] xs]; simpl.
      - by rewrite decide_True.
      - rewrite decide_False; [by rewrite Hh|]. intros [= ->]. apply Hax. by left. }
    rewrite <- Hhd. by repeat case_decide.
  - assert (Htl : tail (if decide (Some a = head l) then set_head l (first ys None) else l) = tail l)
      by (by case_decide).
    rewrite Htl, Ht, lastp_app, lastp_cons. destruct ys as [|[b e] ys].
    + by rewrite decide_True.
    + rewrite decide_False; [by rewrite Htl, Ht, lastp_app, !lastp_cons|].
      rewrite lastp_cons. unfold lastp. destruct (last ys) as [[c f]|] eqn:Hlast.
      * intros [= ->]. apply Hay. right. apply last_Some_elem_of in Hlast.
        by apply (list_elem_of_fmap_2 fst) in Hlast.
      * intros [= ->]. apply Hay. by left.
Qed.
End Rep.

(** ** The theorems *)

Section Theorems.
Context {D : Type}.
Implicit Types (m : gmap Z (listitem D)) (xs ys zs : list (Z * D)).

(** The list structure for given items is unique. *)
Lemma is_list_unique m l l' xs : is_list m l xs -> is_list m l' xs -> l = l'.
Proof.
  intros [_ _ H1 H2] [_ _ H3 H4]. destruct l, l'. simpl in *. congruence.
Qed.

Lemma is_list_frame m m' l xs :
  (forall a, a ∈ xs.*1 -> m' !! a = m !! a) -> is_list m l xs -> is_list m' l xs.
Proof. intros Hf [H1 H2 H3 H4]. split; try done. by eapply dll_frame. Qed.

(** insertion.  [listaddhead], [listaddtail], [listaddbefore] and
    [listaddafter] put the new item at the head, at the tail, directly before
    and directly after the given item, and keep all other items and every
    other list in the store. *)
Theorem dlist_insert_correct malloc m l xs ys a d l2 zs :
  (forall m a, malloc m = Some a -> m !! a = None) ->
  is_list m l (xs ++ ys) -> malloc m = Some a ->
  is_list m l2 zs -> (forall b, b ∈ zs.*1 -> b ∉ (xs ++ ys).*1) ->
  exists l' m', is_list m' l' (xs ++ (a, d) :: ys) /\ is_list m' l2 zs /\
    (xs = [] -> listaddhead malloc m l d = Some (Some a, l', m')) /\
    (ys = [] -> listaddtail malloc m l d = Some (Some a, l', m')) /\
    (forall b e ys', ys = (b, e) :: ys' ->
       listaddbefore malloc m l b d = Some (Some a, l', m')) /\
    (forall b e xs', xs = xs' ++ [(b, e)] ->
       listaddafter malloc m l b d = Some (Some a, l', m')).
Proof.
  intros Hf Hl Ha Hz Hdis. set (m' := linked_in m xs a d ys).
  set (l' := {| head := first xs (Some a); tail := lastp (Some a) ys |}).
  assert (Hl' : is_list m' l' (xs ++ (a, d) :: ys)) by (by apply (inserted_intro malloc Hf m l)).
  assert (Hins : forall r, inserted m xs a d ys r -> r = Some (Some a, l', m')).
  { intros r (l1 & -> & Hl1). by rewrite (is_list_unique _ _ _ _ Hl1 Hl'). }
  exists l', m'. split_and!; [done| |..].
  - eapply is_list_frame; [|done]. intros b Hb. apply linked_in_other; [|by apply Hdis].
    intros ->. destruct Hz as [_ Hz _ _]. by apply (fresh_not_in malloc Hf _ _ _ _ _ Ha Hz).
  - intros ->. apply Hins. by apply listaddhead_spec.
  - intros ->. apply Hins. rewrite app_nil_r in Hl. by apply listaddtail_spec.
  - intros b e ys' ->. apply Hins. by apply listaddbefore_spec.
  - intros b e xs' ->. apply Hins. rewrite <- app_assoc in Hl. by apply (listaddafter_spec malloc Hf m l xs' b e).
Qed.

(** deletion.  [listdelhead], [listdeltail] and [listdel] take out the
    first, the last and the given item, answer its data (the first two), free
    it, and keep all other items and every other list. *)
Theorem dlist_delete_correct m l xs ys a d l2 zs :
  is_list m l (xs ++ (a, d) :: ys) ->
  is_list m l2 zs -> (forall b, b ∈ zs.*1 -> b ∉ (xs ++ (a, d) :: ys).*1) ->
  exists l' m', is_list m' l' (xs ++ ys) /\ is_list m' l2 zs /\ m' !! a = None /\
    listdel m l a = Some (l', m') /\
    (xs = [] -> listdelhead m l = Some (Some d, l', m')) /\
    (ys = [] -> listdeltail m l = Some (Some d, l', m')).
Proof.
  intros Hl Hz Hdis. destruct (listdel_spec m l xs a d ys Hl) as (l' & Hdel & Hl').
  exists l', (linked_out m xs a ys). split_and!; [done| |apply lookup_delete_eq|done|..].
  - eapply is_list_frame; [|done]. intros b Hb. apply (linked_out_other _ _ _ d). by apply Hdis.
  - intros ->. destruct (listdelhead_spec m l a d ys Hl) as (l1 & -> & Hl1).
    by rewrite (is_list_unique _ _ _ _ Hl1 Hl').
  - intros ->. rewrite app_nil_r in Hl'.
    destruct (listdeltail_spec m l xs a d Hl) as (l1 & -> & Hl1).
    by rewrite (is_list_unique _ _ _ _ Hl1 Hl').
Qed.

(** What a callback that only looks at items makes of a list. *)
Fixpoint iter_items {A} (f : D -> A -> bool * A) xs (arg : A) : A :=
  match xs with
  | [] => arg
  | (_, d) :: xs => let '(stop, arg) := f d arg in if stop then arg else iter_items f xs arg
  end.

(** The callback made from a function of the data. *)
Definition reader {A} (f : D -> A -> bool * A) (m : gmap Z (listitem D)) (l : List) (item : Z)
    (arg : A) : option (bool * gmap Z (listitem D) * List * A) :=
  it ← m !! item; let '(stop, arg) := f (data it) arg in Some (stop, m, l, arg).

Lemma reader_eq {A} (f : D -> A -> bool * A) m l a arg it :
  m !! a = Some it ->
  reader f m l a arg = Some ((f (data it) arg).1, m, l, (f (data it) arg).2).
Proof. intros Ha. unfold reader. rewrite Ha. cbn. by destruct (f (data it) arg). Qed.

(** iteration.  [listiter] ends after at most one round per item and
    calls the function on the items in order until it answers true. *)
Theorem listiter_correct {A} (f : D -> A -> bool * A) m l xs fuel arg :
  is_list m l xs -> (length xs <= fuel)%nat ->
  listiter (reader f) fuel m l arg = Some (m, l, iter_items f xs arg).
Proof.
  intros [_ Hd Hh _] Hf. unfold listiter. rewrite Hh. clear Hh. revert Hd Hf.
  generalize (@None Z) at 1. revert fuel arg.
  induction xs as [|[a d] xs IH]; intros fuel arg p Hd Hf; [by destruct fuel|].
  destruct Hd as [Ha Hd]. destruct fuel as [|fuel]; [simpl in Hf; lia|].
  cbn [first listiter_from iter_items]. rewrite (reader_eq f m l a arg _ Ha).
  cbn [data]. destruct (f d arg) as [stop arg']. cbn [mbind option_bind fst snd].
  destruct stop; [done|]. rewrite Ha. cbn [mbind option_bind next].
  eapply IH; [done|]. simpl in Hf. lia.
Qed.
End Theorems.

(** ** A concrete store *)

Module Concrete.
(** An allocator: an address that is in use by no item. *)
Definition fresh_malloc (m : gmap Z (listitem Z)) : option Z := Some (fresh (dom m)).

Lemma fresh_malloc_fresh m a : fresh_malloc m = Some a -> m !! a = None.
Proof.
  intros [= <-]. apply not_elem_of_dom. apply is_fresh.
Qed.

Definition item (d : Z) (p n : option Z) : listitem Z := {| data := d; prev := p; next := n |}.
(** A list of two items and one of one item. *)
Definition two_lists : gmap Z (listitem Z) :=
  <[10 := item 1 None (Some 20)]> (<[20 := item 2 (Some 10) None]> {[30 := item 3 None None]}).
Definition list_a : List := {| head := Some 10; tail := Some 20 |}.
Definition list_b : List := {| head := Some 30; tail := Some 30 |}.

Lemma list_a_ok : is_list two_lists list_a [(10, 1); (20, 2)].
Proof.
  split; [|repeat split|done|done].
  refine (bool_decide_unpack _ _). vm_compute. exact I.
Qed.
Lemma list_b_ok : is_list two_lists list_b [(30, 3)].
Proof. split; [|repeat split|done|done]. refine (bool_decide_unpack _ _). vm_compute. exact I. Qed.
Lemma lists_apart b : b ∈ ([(30, 3)] : list (Z * Z)).*1 -> b ∉ ([(10, 1); (20, 2)] : list (Z * Z)).*1.
Proof. simpl. rewrite !elem_of_cons, elem_of_nil. lia. Qed.
End Concrete.

(** ** The theorems at work *)

Module Witnesses.
Import Concrete.

Lemma dlist_insert_correct_witness :
  exists a l' m', fresh_malloc two_lists = Some a /\
    is_list m' l' [(10, 1); (a, 7); (20, 2)] /\ is_list m' list_b [(30, 3)] /\
    listaddbefore fresh_malloc two_lists list_a 20 7 = Some (Some a, l', m') /\
    listaddafter fresh_malloc two_lists list_a 10 7 = Some (Some a, l', m').
Proof.
  destruct (dlist_insert_correct fresh_malloc two_lists list_a [(10, 1)] [(20, 2)]
    (fresh (dom two_lists)) 7 list_b [(30, 3)]) as (l' & m' & H1 & H2 & _ & _ & H3 & H4).
  - exact fresh_malloc_fresh.
  - exact list_a_ok.
  - reflexivity.
  - exact list_b_ok.
  - exact lists_apart.
  - exists (fresh (dom two_lists)), l', m'. split; [reflexivity|]. split; [exact H1|].
    split; [exact H2|]. split; [exact (H3 20 2 [] eq_refl)|exact (H4 10 1 [] eq_refl)].
Defined.

Lemma dlist_delete_correct_witness :
  exists l' m', is_list m' l' [(20, 2)] /\ is_list m' list_b [(30, 3)] /\
    listdelhead two_lists list_a = Some (Some 1, l', m').
Proof.
  destruct (dlist_delete_correct two_lists list_a [] [(20, 2)] 10 1 list_b [(30, 3)])
    as (l' & m' & H1 & H2 & _ & _ & H3 & _).
  - exact list_a_ok.
  - exact list_b_ok.
  - exact lists_apart.
  - exists l', m'. split; [exact H1|]. split; [exact H2|exact (H3 eq_refl)].
Defined.

Lemma listiter_correct_witness :
  listiter (reader (fun d (s : Z) => (false, s + d))) 2 two_lists list_a 0 =
  Some (two_lists, list_a, 3).
Proof.
  apply (listiter_correct (fun d (s : Z) => (false, s + d)) two_lists list_a
    [(10, 1); (20, 2)] 2 0).
  - exact list_a_ok.
  - simpl. lia.
Defined.
End Witnesses.
