(* ===== verification/Heap.v ===== *)
(** * Binary heaps with back pointers (lib/util/heap.c)

    The heap is an array of elements, each with a pointer to the index of its
    place.  The store [ptrs] holds the integers the elements point to;
    [dummy] is the address of the variable used for elements without a
    pointer.  A slot of the array that holds no element is [None]; using it,
    leaving the array or failing an [assert] has no defined result ([None]). *)

From S2P Require Import Prelude.

Section Heap.
Context {T : Type} (cmp : T -> T -> Z).
(** Does [realloc] to this number of elements succeed? *)
Context (realloc_ok : Z -> bool).
Context (dummy : Z).

Record heap_element := { data : T; ptr : Z }.
Record Heap := { max_sz : Z; sz : Z; slots : list (option heap_element) }.
(** The heap and the integers pointed to. *)
Abbreviation state := (Heap * gmap Z Z)%type.

Definition set_slots (h : Heap) (s : list (option heap_element)) : Heap :=
  {| max_sz := max_sz h; sz := sz h; slots := s |}.
Definition set_sz (h : Heap) (n : Z) : Heap :=
  {| max_sz := max_sz h; sz := n; slots := slots h |}.

(** [ret_ok] and [data_ok]: do the allocations of the heap and of its array
    succeed?  The answer is NULL ([Some None]) when the first fails.  The
    failure of the second is looked for only in a heap whose [sz] is not 0,
    which no new heap is; the loop then writes through the null pointer, unless
    there is nothing to write. *)
Definition heap_new (ret_ok data_ok : bool) (n : Z) : option (option Heap) :=
  if negb ret_ok then Some None
  else if data_ok || (n =? 0) then
    Some (Some {| max_sz := n; sz := 0; slots := replicate (Z.to_nat n) None |})
  else None.

Definition parent (n : Z) : Z := (n + 1) / 2 - 1.
Definition left_child (n : Z) : Z := 2 * n + 1.
Definition right_child (n : Z) : Z := 2 * n + 2.

Definition get (h : Heap) (n : Z) : option heap_element := mjoin (slots h !! Z.to_nat n).
Definition put (h : Heap) (n : Z) (el : option heap_element) : option Heap :=
  guard (0 <= n < Z.of_nat (length (slots h)));;
  Some (set_slots h (<[Z.to_nat n := el]> (slots h))).

Definition assign (s : state) (n : Z) (el : heap_element) : option state :=
  h ← put s.1 n (Some el); Some (h, <[ptr el := n]> s.2).

(** The loops; the number of levels of the heap bounds them, its size does
    so amply. *)
Fixpoint upheap_loop (fuel : nat) (s : state) (n : Z) (v : heap_element) : option state :=
  match fuel with
  | O => None
  | S fuel =>
      if negb (0 <? n) then assign s n v else
      p ← get s.1 (parent n);
      if 0 <? cmp (data p) (data v) then
        s ← assign s n p; upheap_loop fuel s (parent n) v
      else assign s n v
  end.

Definition upheap (s : state) (n : Z) : option state :=
  v ← get s.1 n; upheap_loop (S (Z.to_nat n)) s n v.

(** The child [downheap] compares with and the result of the comparison. *)
Definition choose_child (h : Heap) (n : Z) (v : heap_element) : option (Z * Z) :=
  guard (left_child n < sz h);;
  l ← get h (left_child n);
  let cmp1 := cmp (data v) (data l) in
  if right_child n <? sz h then
    r ← get h (right_child n);
    let cmp2 := cmp (data v) (data r) in
    Some (if cmp1 <? cmp2 then (right_child n, cmp2) else (left_child n, cmp1))
  else Some (left_child n, cmp1).

Fixpoint downheap_loop (fuel : nat) (s : state) (n : Z) (v : heap_element) : option state :=
  match fuel with
  | O => None
  | S fuel =>
      if negb (n <? sz s.1 / 2) then assign s n v else
      '(new_n, cmp1) ← choose_child s.1 n v;
      if 0 <? cmp1 then
        c ← get s.1 new_n; s ← assign s n c; downheap_loop fuel s new_n v
      else assign s n v
  end.

Definition downheap (s : state) (n : Z) : option state :=
  v ← get s.1 n; downheap_loop (S (Z.to_nat (sz s.1))) s n v.

(** ** Operations *)

(** Double the array when it is full; [None] inside when [realloc] fails. *)
Definition grow (h : Heap) : option Heap :=
  if sz h =? max_sz h then
    let new_sz := uwrap32 (max_sz h * 2) in
    if realloc_ok new_sz then
      Some {| max_sz := new_sz; sz := sz h;
              slots := take (Z.to_nat new_sz) (slots h) ++
                replicate (Z.to_nat new_sz - length (slots h)) None |}
    else None
  else Some h.

Definition heap_insert (s : state) (d : T) (p : option Z) : option (Z * state) :=
  match grow s.1 with
  | None => Some (-1, s)
  | Some h =>
      h ← put h (sz h) (Some {| data := d; ptr := default dummy p |});
      s ← upheap (h, s.2) (sz h);
      Some (0, (set_sz s.1 (sz s.1 + 1), s.2))
  end.

(** [Some None] is NULL. *)
Definition heap_head (h : Heap) : option (option T) :=
  if sz h =? 0 then Some None else el ← get h 0; Some (Some (data el)).

Definition remove_this (s : state) (n : Z) : option state :=
  guard (n < sz s.1);;
  let h := set_sz s.1 (sz s.1 - 1) in
  last ← slots h !! Z.to_nat (sz h);
  h ← put h n last;
  h ← put h (sz h) None;
  if negb (n =? sz h) then
    s ← downheap (h, s.2) n; upheap s n
  else Some (h, s.2).

Definition heap_remove_head (s : state) : option state := remove_this s 0.

Definition heap_remove (s : state) (p : Z) : option (Z * state) :=
  if sz s.1 =? 0 then Some (-1, s) else
  el ← slots s.1 !! Z.to_nat p;
  guard (option_map ptr el <> Some dummy);;
  s ← remove_this s p; Some (0, s).

(** The test of the child [c] of [n]; [rec] is [do_verify]. *)
Definition verify_child (rec : Heap -> Z -> option bool) (h : Heap) (n c : Z) : option bool :=
  if c <? sz h then
    x ← get h n; y ← get h c;
    if 0 <? cmp (data x) (data y) then Some false else rec h c
  else Some true.

(** [do_verify] visits the subtree of [n]; [fuel] bounds its depth. *)
Fixpoint do_verify (fuel : nat) (h : Heap) (n : Z) : option bool :=
  match fuel with
  | O => None
  | S fuel =>
      l ← verify_child (do_verify fuel) h n (left_child n);
      if negb l then Some false else verify_child (do_verify fuel) h n (right_child n)
  end.

Definition heap_verify (h : Heap) : option bool := do_verify (S (Z.to_nat (sz h))) h 0.
End Heap.
Arguments heap_element : clear implicits.
Arguments Heap : clear implicits.
