(* ===== verification/HeapCorrect.v ===== *)
(** * Correctness of the heaps

    For a comparison that is the difference of keys, as the callers of
    [heap_new] pass: the heap order is kept by insertion and removal, the
    elements and their back pointers are exactly those they should be, and the
    head is a least element. *)

From S2P Require Import Prelude Heap.

(** ** Lists indexed like the array *)

Section Order.
Context {T : Type} (key : T -> Z) (dummy : Z).
Definition diff (a b : T) : Z := key a - key b.
Implicit Types (C : list (heap_element T)) (el v p : heap_element T).

Definition at_ C (i : Z) : option (heap_element T) := C !! Z.to_nat i.
Definition hlen C : Z := Z.of_nat (length C).
(** The key at index [i]. *)
Definition K C (i : Z) : Z := from_option (fun el => key (data el)) 0 (at_ C i).

Lemma at_in C i : 0 <= i < hlen C -> exists el, at_ C i = Some el.
Proof.
  unfold hlen, at_. intros Hi. destruct (C !! Z.to_nat i) eqn:E; [by eexists|].
  apply lookup_ge_None in E. lia.
Qed.

Lemma K_at C i el : at_ C i = Some el -> K C i = key (data el).
Proof. unfold K. by intros ->. Qed.

(** The list with the elements at [i] and [j] exchanged. *)
Definition swap C (i j : Z) : list (heap_element T) :=
  match at_ C i, at_ C j with
  | Some x, Some y => <[Z.to_nat j := x]> (<[Z.to_nat i := y]> C)
  | _, _ => C
  end.

Lemma swap_at C i j k :
  0 <= i < hlen C -> 0 <= j < hlen C -> 0 <= k ->
  at_ (swap C i j) k = if k =? j then at_ C i else if k =? i then at_ C j else at_ C k.
Proof.
  intros Hi Hj Hk. unfold swap. destruct (at_in C i Hi) as [x Hx], (at_in C j Hj) as [y Hy].
  rewrite Hx, Hy. unfold at_, hlen in *.
  destruct (Z.eqb_spec k j) as [->|Hkj].
  - apply list_lookup_insert_eq. rewrite length_insert. lia.
  - rewrite list_lookup_insert_ne by lia. destruct (Z.eqb_spec k i) as [->|Hki].
    + apply list_lookup_insert_eq. lia.
    + apply list_lookup_insert_ne. lia.
Qed.

Lemma swap_K C i j k :
  0 <= i < hlen C -> 0 <= j < hlen C -> 0 <= k ->
  K (swap C i j) k = if k =? j then K C i else if k =? i then K C j else K C k.
Proof. intros. unfold K. rewrite swap_at by done. by destruct (k =? j), (k =? i). Qed.

Lemma hlen_swap C i j : hlen (swap C i j) = hlen C.
Proof.
  unfold swap, hlen. destruct (at_ C i), (at_ C j); rewrite ?length_insert; done.
Qed.

(** Replacing an element, up to order. *)
Lemma insert_perm C (n : nat) x y :
  C !! n = Some x -> x :: <[n := y]> C ≡ₚ y :: C.
Proof.
  revert n. induction C as [|z C IH]; intros [|n] Hn; simpl in *; [done|done| |].
  - simplify_eq. by apply Permutation_swap.
  - rewrite Permutation_swap, (IH _ Hn). by apply Permutation_swap.
Qed.

Lemma swap_perm C i j : 0 <= i -> 0 <= j -> i <> j -> swap C i j ≡ₚ C.
Proof.
  intros Hi Hj Hne. unfold swap.
  destruct (at_ C i) as [x|] eqn:Hx; [|done]. destruct (at_ C j) as [y|] eqn:Hy; [|done].
  apply (Permutation_cons_inv (a := y)).
  rewrite (insert_perm (<[Z.to_nat i := y]> C) (Z.to_nat j) y x)
    by (rewrite list_lookup_insert_ne; [done|lia]).
  by apply insert_perm.
Qed.

(** ** The heap order *)

(** The edge above index [i] is in order. *)
Definition edge C (i : Z) : Prop := K C (parent i) <= K C i.
Definition heap_order C : Prop := forall i, 0 < i < hlen C -> edge C i.

Lemma parent_lt i : 0 < i -> 0 <= parent i < i.
Proof. unfold parent. intros. Z.to_euclidean_division_equations. lia. Qed.

Lemma parent_child n i :
  0 <= n -> 0 < i -> parent i = n <-> i = left_child n \/ i = right_child n.
Proof. unfold parent, left_child, right_child. intros. Z.to_euclidean_division_equations. lia. Qed.

(** In order but for the edge above [n]; ready for [upheap]. *)
Definition up_ok C (n : Z) : Prop :=
  (forall i, 0 < i < hlen C -> i <> n -> edge C i) /\
  (forall i, 0 < i < hlen C -> parent i = n -> 0 < n -> K C (parent n) <= K C i).

(** In order but for the edges around [n]; ready for [downheap]. *)
Definition down_ok C (n : Z) : Prop :=
  (forall i, 0 < i < hlen C -> i <> n -> parent i <> n -> edge C i) /\
  (forall i, 0 < i < hlen C -> parent i = n -> 0 < n -> K C (parent n) <= K C i).

Lemma heap_up_ok C n : heap_order C -> 0 <= n -> up_ok C n.
Proof.
  intros Hh Hn. split; [intros; by apply Hh|]. intros i Hi Hp Hn0.
  pose proof (parent_lt i ltac:(lia)). pose proof (Hh i Hi) as H1. pose proof (Hh n ltac:(lia)) as H2.
  unfold edge in *. rewrite Hp in H1. lia.
Qed.

(** One step of [upheap]: the element at [n] goes to the parent's place. *)
Lemma up_ok_step C n :
  up_ok C n -> 0 < n < hlen C -> K C n < K C (parent n) -> up_ok (swap C n (parent n)) (parent n).
Proof.
  intros [H1 H2] Hn Hlt. pose proof (parent_lt n ltac:(lia)) as Hp. split.
  - rewrite hlen_swap. intros i Hi Hne. pose proof (parent_lt i ltac:(lia)). unfold edge.
    rewrite !swap_K by lia.
    destruct (Z.eqb_spec i (parent n)); [done|]. destruct (Z.eqb_spec i n) as [->|Hin].
    + rewrite Z.eqb_refl. lia.
    + pose proof (H1 i Hi Hin) as He. unfold edge in He.
      destruct (Z.eqb_spec (parent i) (parent n)) as [Heq|]; [rewrite Heq in He; lia|].
      destruct (Z.eqb_spec (parent i) n) as [Heq|]; [apply H2; lia|done].
  - rewrite hlen_swap. intros i Hi Hpi Hpos. pose proof (parent_lt (parent n) Hpos).
    pose proof (H1 (parent n) ltac:(lia) ltac:(lia)) as Hpp. unfold edge in Hpp.
    rewrite !swap_K by lia.
    destruct (Z.eqb_spec (parent (parent n)) (parent n)); [lia|].
    destruct (Z.eqb_spec (parent (parent n)) n); [lia|].
    destruct (Z.eqb_spec i (parent n)) as [->|]; [lia|].
    destruct (Z.eqb_spec i n) as [->|Hin]; [done|].
    pose proof (H1 i Hi Hin) as He. unfold edge in He. rewrite Hpi in He. lia.
Qed.

(** One step of [downheap]: the element at [n] changes places with its least
    child. *)
Lemma down_ok_step C n c :
  down_ok C n -> 0 <= n -> 0 < c < hlen C -> parent c = n -> K C c < K C n ->
  (forall i, 0 < i < hlen C -> parent i = n -> K C c <= K C i) ->
  down_ok (swap C n c) c /\ edge (swap C n c) c.
Proof.
  intros [H1 H2] Hn Hc Hp Hlt Hmin. pose proof (parent_lt c ltac:(lia)) as Hpc.
  split; [split|].
  - rewrite hlen_swap. intros i Hi Hne Hpi. pose proof (parent_lt i ltac:(lia)). unfold edge.
    rewrite !swap_K by lia.
    destruct (Z.eqb_spec i c); [done|]. destruct (Z.eqb_spec (parent i) c); [done|].
    destruct (Z.eqb_spec i n) as [->|Hin].
    + destruct (Z.eqb_spec (parent n) n); [lia|]. apply H2; lia.
    + destruct (Z.eqb_spec (parent i) n) as [Heq|Hpn]; [by apply Hmin|by apply H1].
  - rewrite hlen_swap. intros i Hi Hpi Hc0. pose proof (parent_lt i ltac:(lia)).
    rewrite Hp, !swap_K by lia.
    destruct (Z.eqb_spec n c); [lia|]. rewrite Z.eqb_refl.
    destruct (Z.eqb_spec i c); [lia|]. destruct (Z.eqb_spec i n); [lia|].
    pose proof (H1 i Hi ltac:(lia) ltac:(lia)) as He. unfold edge in He. by rewrite Hpi in He.
  - unfold edge. rewrite Hp, !swap_K by lia. rewrite Z.eqb_refl.
    destruct (Z.eqb_spec n c); [lia|]. rewrite Z.eqb_refl. lia.
Qed.

(** Where [downheap] ends. *)
Lemma down_up_ok C n0 n :
  down_ok C n -> 0 <= n0 <= n -> n < hlen C -> (n <> n0 -> edge C n) ->
  (forall i, 0 < i < hlen C -> parent i = n -> K C n <= K C i) -> up_ok C n0.
Proof.
  intros [H1 H2] Hn0 Hn Hedge Hch.
  assert (Hall : forall i, 0 < i < hlen C -> i <> n0 -> edge C i).
  { intros i Hi Hne. destruct (decide (i = n)) as [->|Hin]; [by apply Hedge|].
    destruct (decide (parent i = n)) as [Hp|Hp]; [|by apply H1].
    unfold edge. rewrite Hp. by apply Hch. }
  split; [done|]. intros i Hi Hp Hpos. pose proof (parent_lt i ltac:(lia)).
  destruct (decide (n = n0)) as [->|Hne]; [by apply H2|].
  pose proof (Hall i Hi ltac:(lia)) as He. unfold edge in He. rewrite Hp in He.
  pose proof (parent_lt n0 Hpos). pose proof (H1 n0 ltac:(lia) ltac:(lia) ltac:(lia)) as He0.
  unfold edge in He0. lia.
Qed.

(** The head of a heap is a least element. *)
Lemma heap_order_min C i : heap_order C -> 0 <= i < hlen C -> K C 0 <= K C i.
Proof.
  intros Hh. assert (Hind : forall n, 0 <= n -> forall i, 0 <= i <= n -> i < hlen C -> K C 0 <= K C i).
  { intros n Hn. pattern n. apply Z_lt_induction; [|exact Hn]. clear n Hn.
    intros n IH j Hj Hlen. destruct (decide (j = 0)) as [->|Hne]; [done|].
    pose proof (parent_lt j ltac:(lia)). pose proof (Hh j ltac:(lia)) as He. unfold edge in He.
    pose proof (IH (parent j) ltac:(lia) (parent j) ltac:(lia) ltac:(lia)). lia. }
  intros Hi. apply (Hind i); lia.
Qed.

(** ** The state of the loops *)

(** No two elements share a back pointer (other than [dummy]). *)
Definition own_ptrs C : list Z := filter (fun a => a <> dummy) (ptr <$> C).
Definition distinct C : Prop := NoDup (own_ptrs C).

Global Instance distinct_proper : Proper ((≡ₚ) ==> iff) distinct.
Proof. intros C C' HC. unfold distinct, own_ptrs. by rewrite HC. Qed.

Lemma own_ptrs_elem C el : el ∈ C -> ptr el <> dummy -> ptr el ∈ own_ptrs C.
Proof. intros Hel Hd. apply list_elem_of_filter. split; [done|by apply list_elem_of_fmap_2]. Qed.

Lemma distinct_at C i j x y :
  distinct C -> 0 <= i -> 0 <= j -> at_ C i = Some x -> at_ C j = Some y ->
  ptr x = ptr y -> ptr x <> dummy -> i = j.
Proof.
  unfold at_. intros Hd Hi Hj Hx Hy Hxy Hne.
  enough (Z.to_nat i = Z.to_nat j) by lia. revert Hx Hy.
  generalize (Z.to_nat i), (Z.to_nat j). clear Hi Hj i j. revert Hd.
  induction C as [|z C IH]; intros Hd i j Hx Hy; [done|].
  unfold distinct, own_ptrs in Hd. cbn [fmap list_fmap] in Hd. rewrite filter_cons in Hd.
  assert (Htl : distinct C) by (case_decide; [by apply NoDup_cons in Hd as [_ ?]|done]).
  assert (Hhd : forall k w, C !! k = Some w -> ptr w = ptr z -> ptr z <> dummy -> False).
  { intros k w Hk Hw Hz. rewrite decide_True in Hd by done. apply NoDup_cons in Hd as [Hn _].
    apply Hn. rewrite <- Hw. apply own_ptrs_elem; [by eapply list_elem_of_lookup_2|congruence]. }
  destruct i as [|i], j as [|j]; simpl in *; [done| | |f_equal; eauto].
  - simplify_eq. destruct (Hhd j y); congruence.
  - simplify_eq. destruct (Hhd i x); congruence.
Qed.

(** The back pointers of all elements but the one at [n] are right. *)
Definition ptrs_but (ps : gmap Z Z) C (n : Z) : Prop :=
  forall i el, 0 <= i -> i <> n -> at_ C i = Some el -> ptr el <> dummy -> ps !! ptr el = Some i.

(** The array holds [C] but for the slot [n], whose element is kept aside. *)
Record at_hole (h : Heap T) (ps : gmap Z Z) C (n : Z) (rest : list (option (heap_element T))) : Prop := {
  ah_slots : exists x, slots h = (Some <$> <[Z.to_nat n := x]> C) ++ rest;
  ah_ptrs : ptrs_but ps C n;
  ah_in : 0 <= n < hlen C;
  ah_distinct : distinct C;
}.

(** The array holds [C] and all back pointers are right. *)
Record live (h : Heap T) (ps : gmap Z Z) C (rest : list (option (heap_element T))) : Prop := {
  lv_slots : slots h = (Some <$> C) ++ rest;
  lv_ptrs : ptrs_but ps C (-1);
  lv_distinct : distinct C;
}.

Lemma get_app (h : Heap T) E rest k :
  slots h = (Some <$> E) ++ rest -> 0 <= k < hlen E -> get h k = at_ E k.
Proof.
  intros Hs Hk. unfold get, at_, hlen in *. rewrite Hs, lookup_app_l by (rewrite length_fmap; lia).
  rewrite list_lookup_fmap. by destruct (E !! Z.to_nat k).
Qed.

Lemma hlen_insert C n x : hlen (<[n := x]> C) = hlen C.
Proof. unfold hlen. by rewrite length_insert. Qed.

Lemma get_at_hole h ps C n rest k :
  at_hole h ps C n rest -> 0 <= k < hlen C -> k <> n -> get h k = at_ C k.
Proof.
  intros [[x Hx] _ Hn _] Hk Hne. rewrite (get_app _ _ _ _ Hx) by (by rewrite hlen_insert).
  unfold at_. apply list_lookup_insert_ne. lia.
Qed.

Lemma assign_spec h ps E rest n el :
  slots h = (Some <$> E) ++ rest -> 0 <= n < hlen E ->
  assign (h, ps) n el =
  Some (set_slots h ((Some <$> <[Z.to_nat n := el]> E) ++ rest), <[ptr el := n]> ps).
Proof.
  intros Hs Hn. unfold assign, put. cbn [fst snd]. unfold hlen in Hn.
  rewrite Hs, option_guard_True by (rewrite length_app, length_fmap; lia).
  cbn [mbind option_bind]. rewrite insert_app_l by (rewrite length_fmap; lia).
  by rewrite list_fmap_insert.
Qed.

(** The element kept aside is put down. *)
Lemma assign_final h ps C n rest v :
  at_hole h ps C n rest -> at_ C n = Some v ->
  exists h' ps', assign (h, ps) n v = Some (h', ps') /\ live h' ps' C rest /\
    sz h' = sz h /\ max_sz h' = max_sz h.
Proof.
  intros [[x Hx] Hp Hn Hd] Hv.
  rewrite (assign_spec _ _ _ _ _ _ Hx) by (by rewrite hlen_insert).
  do 2 eexists. split; [done|]. split; [split|done]; [| |done].
  - simpl. rewrite list_insert_insert_eq. unfold at_ in Hv. by rewrite list_insert_id.
  - intros i el Hi _ Hel Hne. destruct (decide (i = n)) as [->|Hin].
    + rewrite Hv in Hel. simplify_eq. apply lookup_insert_eq.
    + rewrite lookup_insert_ne; [by apply Hp|]. intros Heq.
      apply Hin. eapply (distinct_at C i n el v); try done; lia.
Qed.

(** The element at [m] moves to [n]; the hole is now [m]. *)
Lemma assign_move h ps C n m rest v p :
  at_hole h ps C n rest -> at_ C n = Some v -> 0 <= m < hlen C -> m <> n -> at_ C m = Some p ->
  exists h' ps', assign (h, ps) n p = Some (h', ps') /\ at_hole h' ps' (swap C n m) m rest /\
    sz h' = sz h /\ max_sz h' = max_sz h.
Proof.
  intros [[x Hx] Hp Hn Hd] Hv Hm Hne Hmp.
  rewrite (assign_spec _ _ _ _ _ _ Hx) by (by rewrite hlen_insert).
  do 2 eexists. split; [done|]. split; [split|done].
  - exists p. simpl. do 2 f_equal. unfold swap. rewrite Hv, Hmp, !list_insert_insert_eq.
    symmetry. apply list_insert_id. unfold at_ in Hmp. by rewrite list_lookup_insert_ne by lia.
  - intros i el Hi Him Hel Hdm. rewrite swap_at in Hel by lia.
    destruct (Z.eqb_spec i m); [done|]. destruct (Z.eqb_spec i n) as [->|Hin].
    + rewrite Hmp in Hel. simplify_eq. apply lookup_insert_eq.
    + rewrite lookup_insert_ne; [by apply Hp|]. intros Heq. apply Him.
      eapply (distinct_at C i m el p); try done; lia.
  - by rewrite hlen_swap.
  - by rewrite swap_perm by lia.
Qed.

(** ** The loops *)

Lemma upheap_loop_spec fuel h ps C n rest v :
  at_hole h ps C n rest -> at_ C n = Some v -> up_ok C n -> (Z.to_nat n < fuel)%nat ->
  exists h' ps' C', upheap_loop diff fuel (h, ps) n v = Some (h', ps') /\
    live h' ps' C' rest /\ C' ≡ₚ C /\ heap_order C' /\ sz h' = sz h /\ max_sz h' = max_sz h.
Proof.
  revert h ps C n. induction fuel as [|fuel IH]; intros h ps C n Hh Hv Hup Hf; [lia|].
  pose proof (ah_in _ _ _ _ _ Hh) as Hn.
  assert (Hstop : (0 < n -> edge C n) ->
    exists h' ps' C', assign (h, ps) n v = Some (h', ps') /\ live h' ps' C' rest /\ C' ≡ₚ C /\
      heap_order C' /\ sz h' = sz h /\ max_sz h' = max_sz h).
  { intros Hedge. destruct (assign_final _ _ _ _ _ _ Hh Hv) as (h' & ps' & Ha & Hl & Hs & Hm).
    exists h', ps', C. split_and!; try done. intros i Hi.
    destruct (decide (i = n)) as [->|Hne]; [by apply Hedge; lia|by apply Hup]. }
  cbn [upheap_loop]. destruct (Z.ltb_spec 0 n) as [Hpos|Hz]; cbn [negb]; [|apply Hstop; lia].
  pose proof (parent_lt n Hpos) as Hpar. cbn [fst].
  rewrite (get_at_hole _ _ _ _ _ _ Hh) by lia.
  destruct (at_in C (parent n)) as [p Hp]; [lia|]. rewrite Hp. cbn [mbind option_bind].
  unfold diff at 1. rewrite <- (K_at _ _ _ Hp), <- (K_at _ _ _ Hv).
  destruct (Z.ltb_spec 0 (K C (parent n) - K C n)).
  - destruct (assign_move _ _ _ _ (parent n) _ v p Hh Hv)
      as (h1 & ps1 & -> & Hh1 & Hs1 & Hm1); [lia|lia|done|]. cbn [mbind option_bind].
    destruct (IH h1 ps1 (swap C n (parent n)) (parent n) Hh1)
      as (h' & ps' & C' & Hr & Hl & HC & Ho & Hs & Hm).
    + rewrite swap_at by lia. by rewrite Z.eqb_refl.
    + apply up_ok_step; [done|lia|lia].
    + lia.
    + exists h', ps', C'. split_and!; try done; [|congruence|congruence].
      by rewrite HC, swap_perm by lia.
  - apply Hstop. intros _. unfold edge. lia.
Qed.

(** The child that the loop compares with is a least one. *)
Lemma choose_child_spec h ps C n rest v :
  at_hole h ps C n rest -> at_ C n = Some v -> sz h = hlen C -> left_child n < hlen C ->
  exists c, choose_child diff h n v = Some (c, K C n - K C c) /\
    0 < c < hlen C /\ parent c = n /\
    forall i, 0 < i < hlen C -> parent i = n -> K C c <= K C i.
Proof.
  intros Hh Hv Hsz Hleft. pose proof (ah_in _ _ _ _ _ Hh) as Hn. unfold choose_child.
  rewrite option_guard_True by lia. cbn [mbind option_bind].
  assert (Hlc : 0 < left_child n /\ left_child n <> n) by (unfold left_child; lia).
  assert (Hrc : 0 < right_child n /\ right_child n <> n) by (unfold right_child; lia).
  rewrite (get_at_hole _ _ _ _ _ (left_child n) Hh) by lia.
  destruct (at_in C (left_child n)) as [l Hl]; [lia|]. rewrite Hl. cbn [mbind option_bind].
  unfold diff. rewrite <- (K_at _ _ _ Hl), <- (K_at _ _ _ Hv), Hsz.
  assert (Hpl : parent (left_child n) = n) by (apply parent_child; lia).
  assert (Hpr : parent (right_child n) = n) by (apply parent_child; lia).
  destruct (Z.ltb_spec (right_child n) (hlen C)) as [Hr|Hr].
  - rewrite (get_at_hole _ _ _ _ _ _ Hh) by lia.
    destruct (at_in C (right_child n)) as [r Hrr]; [lia|]. rewrite Hrr. cbn [mbind option_bind].
    rewrite <- (K_at _ _ _ Hrr).
    destruct (Z.ltb_spec (K C n - K C (left_child n)) (K C n - K C (right_child n))).
    + exists (right_child n). split_and!; try done; [lia|]. intros i Hi Hpi.
      apply parent_child in Hpi as [->| ->]; lia.
    + exists (left_child n). split_and!; try done; [lia|]. intros i Hi Hpi.
      apply parent_child in Hpi as [->| ->]; lia.
  - exists (left_child n). split_and!; try done; [lia|]. intros i Hi Hpi.
    apply parent_child in Hpi as [->| ->]; lia.
Qed.

(** [downheap] from [n0]: afterwards only the edge above [n0] may be wrong. *)
Lemma downheap_loop_spec fuel h ps C n0 n rest v :
  at_hole h ps C n rest -> at_ C n = Some v -> sz h = hlen C ->
  down_ok C n -> 0 <= n0 <= n -> (n <> n0 -> edge C n) -> (Z.to_nat (hlen C - n) < fuel)%nat ->
  exists h' ps' C', downheap_loop diff fuel (h, ps) n v = Some (h', ps') /\
    live h' ps' C' rest /\ C' ≡ₚ C /\ up_ok C' n0 /\ sz h' = sz h /\ max_sz h' = max_sz h.
Proof.
  revert h ps C n. induction fuel as [|fuel IH]; intros h ps C n Hh Hv Hsz Hdn Hn0 Hedge Hf; [lia|].
  pose proof (ah_in _ _ _ _ _ Hh) as Hn.
  assert (Hstop : (forall i, 0 < i < hlen C -> parent i = n -> K C n <= K C i) ->
    exists h' ps' C', assign (h, ps) n v = Some (h', ps') /\ live h' ps' C' rest /\ C' ≡ₚ C /\
      up_ok C' n0 /\ sz h' = sz h /\ max_sz h' = max_sz h).
  { intros Hch. destruct (assign_final _ _ _ _ _ _ Hh Hv) as (h' & ps' & Ha & Hl & Hs & Hm).
    exists h', ps', C. split_and!; try done. apply (down_up_ok C n0 n); done || lia. }
  cbn [downheap_loop fst].
  destruct (Z.ltb_spec n (sz h / 2)) as [Hlt|Hge]; cbn [negb].
  2:{ apply Hstop. intros i Hi Hp. exfalso. rewrite Hsz in Hge.
      apply parent_child in Hp; [|lia|lia]. unfold left_child, right_child in Hp.
      Z.to_euclidean_division_equations. lia. }
  destruct (choose_child_spec _ _ _ _ _ _ Hh Hv Hsz) as (c & -> & Hc & Hp & Hmin).
  { rewrite Hsz in Hlt. unfold left_child. Z.to_euclidean_division_equations. lia. }
  pose proof (parent_lt c ltac:(lia)) as Hpc.
  cbn [mbind option_bind]. destruct (Z.ltb_spec 0 (K C n - K C c)).
  - rewrite (get_at_hole _ _ _ _ _ c Hh) by lia.
    destruct (at_in C c) as [p Hcp]; [lia|]. rewrite Hcp. cbn [mbind option_bind].
    destruct (assign_move _ _ _ _ c _ v p Hh Hv) as (h1 & ps1 & -> & Hh1 & Hs1 & Hm1);
      [lia|lia|done|]. cbn [mbind option_bind].
    destruct (down_ok_step C n c Hdn) as [Hdn' Hedge']; [lia|done|done|lia|done|].
    destruct (IH h1 ps1 (swap C n c) c Hh1) as (h' & ps' & C' & Hr & Hl & HC & Ho & Hs & Hm).
    + rewrite swap_at by lia. by rewrite Z.eqb_refl.
    + rewrite hlen_swap. congruence.
    + done.
    + lia.
    + done.
    + rewrite hlen_swap. lia.
    + exists h', ps', C'. split_and!; try done; [|congruence|congruence].
      by rewrite HC, swap_perm by lia.
  - apply Hstop. intros i Hi Hpi. pose proof (Hmin i Hi Hpi). lia.
Qed.
End Order.

(** ** Operations *)

Section Ops.
Context {T : Type} (key : T -> Z) (dummy : Z).
Implicit Types (C : list (heap_element T)) (h : Heap T) (ps : gmap Z Z).

(** The heap [h] holds the elements [C] (in the order of the array). *)
Record heap_ok h ps C : Prop := {
  ho_live : exists rest, live dummy h ps C rest;
  ho_sz : sz h = hlen C;
  ho_max : max_sz h = Z.of_nat (length (slots h));
  ho_order : heap_order key C;
}.

(** A new heap is a correct heap without elements. *)
Lemma heap_new_ok ret_ok data_ok n h ps :
  0 <= n -> heap_new ret_ok data_ok n = Some (Some h) -> heap_ok h ps [].
Proof.
  intros Hn. unfold heap_new. repeat case_match; try done. intros [= <-].
  split; [|done|simpl; rewrite length_replicate; lia|].
  - eexists. split; [done|by intros ??|by constructor].
  - intros i. unfold hlen. simpl. lia.
Qed.

Lemma live_at_hole h ps C rest n :
  live dummy h ps C rest -> 0 <= n < hlen C -> at_hole dummy h ps C n rest.
Proof.
  intros [Hs Hp Hd] Hn. destruct (at_in C n Hn) as [x Hx]. split; [|by intros i el Hi _; apply Hp; lia|done|done].
  exists x. unfold at_ in Hx. by rewrite list_insert_id.
Qed.

Lemma upheap_spec h ps C n rest :
  at_hole dummy h ps C n rest -> get h n = at_ C n -> up_ok key C n ->
  exists h' ps' C', upheap (diff key) (h, ps) n = Some (h', ps') /\
    live dummy h' ps' C' rest /\ C' ≡ₚ C /\ heap_order key C' /\ sz h' = sz h /\ max_sz h' = max_sz h.
Proof.
  intros Hh Hg Hup. destruct (at_in C n (ah_in _ _ _ _ _ _ Hh)) as [v Hv].
  unfold upheap. cbn [fst]. rewrite Hg, Hv. cbn [mbind option_bind].
  apply upheap_loop_spec with (C := C); try done. lia.
Qed.

Lemma downheap_spec h ps C n rest :
  at_hole dummy h ps C n rest -> get h n = at_ C n -> sz h = hlen C -> down_ok key C n ->
  exists h' ps' C', downheap (diff key) (h, ps) n = Some (h', ps') /\
    live dummy h' ps' C' rest /\ C' ≡ₚ C /\ up_ok key C' n /\ sz h' = sz h /\ max_sz h' = max_sz h.
Proof.
  intros Hh Hg Hsz Hdn. pose proof (ah_in _ _ _ _ _ _ Hh) as Hn.
  destruct (at_in C n Hn) as [v Hv]. unfold downheap. cbn [fst]. rewrite Hg, Hv.
  cbn [mbind option_bind]. apply downheap_loop_spec with (C := C); try done; lia.
Qed.

Lemma distinct_cons C el :
  distinct dummy C -> (ptr el = dummy \/ ptr el ∉ own_ptrs dummy C) -> distinct dummy (el :: C).
Proof.
  intros Hd Hel. unfold distinct, own_ptrs in *. rewrite fmap_cons, filter_cons.
  case_decide; [|done]. constructor; [|done]. by destruct Hel.
Qed.

(** Putting an element into the first free slot. *)
Lemma put_new h ps C rest el :
  live dummy h ps C rest -> sz h = hlen C -> (0 < length rest)%nat ->
  (ptr el = dummy \/ ptr el ∉ own_ptrs dummy C) ->
  exists h' rest', put h (sz h) (Some el) = Some h' /\
    slots h' = (Some <$> (C ++ [el])) ++ rest' /\ length rest = S (length rest') /\
    at_hole dummy h' ps (C ++ [el]) (hlen C) rest' /\ sz h' = sz h /\ max_sz h' = max_sz h.
Proof.
  intros [Hs Hp Hd] Hsz Hr Hel. destruct rest as [|r rest]; [simpl in Hr; lia|].
  unfold put. rewrite Hs, Hsz. unfold hlen.
  rewrite option_guard_True by (rewrite length_app, length_fmap; simpl; lia).
  cbn [mbind option_bind]. eexists _, rest. split; [done|].
  assert (Hslots : slots (set_slots h (<[Z.to_nat (Z.of_nat (length C)) := Some el]>
    ((Some <$> C) ++ r :: rest))) = (Some <$> (C ++ [el])) ++ rest).
  { simpl. rewrite fmap_app, <- app_assoc. simpl.
    rewrite insert_app_r_alt by (rewrite length_fmap; lia). rewrite length_fmap.
    by replace (Z.to_nat (Z.of_nat (length C)) - length C)%nat with 0%nat by lia. }
  split_and!; try done. split.
  - exists el. rewrite Hslots. do 2 f_equal.
    replace (Z.to_nat (Z.of_nat (length C))) with (length C) by lia.
    rewrite list_insert_id; [done|]. by rewrite lookup_app_r, Nat.sub_diag by lia.
  - intros i x Hi Hne Hx Hdx. apply Hp; [done|lia| |done]. unfold at_ in *.
    destruct (decide (Z.to_nat i < length C)%nat).
    + by rewrite lookup_app_l in Hx.
    + rewrite lookup_app_r in Hx by lia. apply lookup_lt_Some in Hx. simpl in Hx. lia.
  - unfold hlen. rewrite length_app. simpl. lia.
  - rewrite (Permutation_app_comm C [el]). by apply distinct_cons.
Qed.

Lemma grow_spec ro h ps C :
  heap_ok h ps C -> 0 < max_sz h -> max_sz h * 2 < 2^32 ->
  sz h < max_sz h \/ ro (max_sz h * 2) = true ->
  exists h1 rest, grow ro h = Some h1 /\ live dummy h1 ps C rest /\ sz h1 = hlen C /\
    max_sz h1 = Z.of_nat (length (slots h1)) /\ (0 < length rest)%nat.
Proof.
  intros [[rest Hl] Hsz Hmax Ho] Hpos Hsmall Hroom. unfold grow.
  pose proof (lv_slots _ _ _ _ _ Hl) as Hs.
  assert (Hlen : length (slots h) = (length C + length rest)%nat)
    by (rewrite Hs, length_app, length_fmap; done).
  unfold hlen in *. destruct (Z.eqb_spec (sz h) (max_sz h)) as [Heq|Hne].
  - destruct Hroom as [?|Hro]; [lia|].
    assert (Hw : uwrap32 (max_sz h * 2) = max_sz h * 2) by (unfold uwrap32; rewrite Z.mod_small; lia).
    rewrite Hw, Hro. eexists _, (rest ++ replicate (Z.to_nat (max_sz h * 2) - length (slots h)) None).
    split; [done|]. split; [|split_and!; [done| |]].
    + split; [|apply Hl|apply Hl]. simpl. rewrite take_ge by lia. by rewrite Hs, app_assoc.
    + simpl. rewrite take_ge, length_app, length_replicate by lia. lia.
    + rewrite length_app, length_replicate. lia.
  - exists h, rest. split_and!; try done. lia.
Qed.

Lemma K_app_l C C2 i : 0 <= i < hlen C -> K key (C ++ C2) i = K key C i.
Proof. unfold K, at_, hlen. intros. by rewrite lookup_app_l by lia. Qed.

Lemma up_ok_snoc C el : heap_order key C -> up_ok key (C ++ [el]) (hlen C).
Proof.
  intros Hh. assert (Hlen : hlen (C ++ [el]) = hlen C + 1)
    by (unfold hlen; rewrite length_app; simpl; lia).
  split.
  - intros i Hi Hne. pose proof (parent_lt i ltac:(lia)). unfold edge.
    rewrite !K_app_l by lia. apply Hh. lia.
  - intros i Hi Hp. pose proof (parent_lt i ltac:(lia)). lia.
Qed.

Lemma heap_insert_spec ro h ps C d p :
  heap_ok h ps C -> 0 < max_sz h -> max_sz h * 2 < 2^32 ->
  sz h < max_sz h \/ ro (max_sz h * 2) = true ->
  (default dummy p = dummy \/ default dummy p ∉ own_ptrs dummy C) ->
  exists h' ps' C', heap_insert (diff key) ro dummy (h, ps) d p = Some (0, (h', ps')) /\
    heap_ok h' ps' C' /\ C' ≡ₚ {| data := d; ptr := default dummy p |} :: C.
Proof.
  intros Hok Hpos Hsmall Hroom Hp.
  destruct (grow_spec ro h ps C Hok Hpos Hsmall Hroom) as (h1 & rest & Hg & Hl & Hsz & Hmax & Hr).
  unfold heap_insert. cbn [fst snd]. rewrite Hg.
  set (el := {| data := d; ptr := default dummy p |}).
  destruct (put_new h1 ps C rest el Hl Hsz Hr Hp) as
    (h2 & rest2 & -> & Hs2 & Hlen2 & Hh2 & Hsz2 & Hmax2). cbn [mbind option_bind].
  assert (Hlen : hlen (C ++ [el]) = hlen C + 1)
    by (unfold hlen; rewrite length_app; simpl; lia).
  rewrite Hsz2, Hsz.
  destruct (upheap_spec h2 ps (C ++ [el]) (hlen C) rest2 Hh2) as
    (h3 & ps3 & C' & -> & Hl3 & HC & Ho & Hs3 & Hm3).
  { eapply get_app; [done|]. unfold hlen in *. lia. }
  { apply up_ok_snoc, Hok. }
  cbn [mbind option_bind fst snd]. do 2 eexists. exists C'. split; [done|].
  assert (HlC : hlen C' = hlen C + 1) by (rewrite <- Hlen; unfold hlen; by rewrite HC).
  split; [|by rewrite HC, Permutation_app_comm].
  pose proof (lv_slots _ _ _ _ _ Hl) as E1. pose proof (lv_slots _ _ _ _ _ Hl3) as E3.
  split; [|simpl; lia| |done].
  - exists rest2. by destruct Hl3.
  - simpl. rewrite Hm3, Hmax2, Hmax, E1, E3, !length_app, !length_fmap. unfold hlen in HlC. lia.
Qed.

(** The elements after the one at [n] was replaced by the last one. *)
Definition cut C : list (heap_element T) := take (length C - 1) C.
Definition moved C (n : Z) (l : heap_element T) : list (heap_element T) :=
  <[Z.to_nat n := l]> (cut C).

Lemma cut_snoc C l : C !! (length C - 1)%nat = Some l -> C = cut C ++ [l].
Proof.
  intros Hl. unfold cut. rewrite <- (take_drop (length C - 1) C) at 1. f_equal.
  pose proof (lookup_lt_Some _ _ _ Hl). rewrite (drop_S _ _ _ Hl).
  rewrite drop_ge by lia. done.
Qed.

Lemma hlen_cut C l : C !! (length C - 1)%nat = Some l -> hlen (cut C) = hlen C - 1.
Proof.
  intros Hl. unfold hlen. rewrite (cut_snoc C l Hl) at 2. rewrite length_app. simpl. lia.
Qed.

Lemma moved_perm C n l e :
  C !! (length C - 1)%nat = Some l -> 0 <= n < hlen C - 1 -> at_ C n = Some e ->
  e :: moved C n l ≡ₚ C.
Proof.
  intros Hl Hn He. rewrite (cut_snoc C l Hl) at 2. rewrite (Permutation_app_comm (cut C)).
  apply insert_perm. unfold cut, at_, hlen in *. by rewrite lookup_take_lt by lia.
Qed.

Lemma moved_K C n l i :
  C !! (length C - 1)%nat = Some l -> 0 <= n < hlen C - 1 -> 0 <= i < hlen C - 1 -> i <> n ->
  K key (moved C n l) i = K key C i.
Proof.
  intros Hl Hn Hi Hne. unfold K, at_, moved, cut, hlen in *.
  rewrite list_lookup_insert_ne by lia. by rewrite lookup_take_lt by lia.
Qed.

Lemma hlen_moved C n l : C !! (length C - 1)%nat = Some l -> hlen (moved C n l) = hlen C - 1.
Proof. intros Hl. unfold moved. rewrite hlen_insert. by eapply hlen_cut. Qed.

Lemma moved_down_ok C n l :
  heap_order key C -> C !! (length C - 1)%nat = Some l -> 0 <= n < hlen C - 1 ->
  down_ok key (moved C n l) n.
Proof.
  intros Hh Hl Hn. split; rewrite (hlen_moved C n l Hl).
  - intros i Hi Hne Hp. pose proof (parent_lt i ltac:(lia)). unfold edge.
    rewrite !(moved_K C n l) by (done || lia). apply Hh. lia.
  - intros i Hi Hp Hpos. pose proof (parent_lt i ltac:(lia)). pose proof (parent_lt n Hpos).
    rewrite !(moved_K C n l) by (done || lia).
    pose proof (Hh i ltac:(lia)) as H1. pose proof (Hh n ltac:(lia)) as H2.
    unfold edge in *. rewrite Hp in H1. lia.
Qed.

Lemma put_app h (E : list (option (heap_element T))) x rest el :
  slots h = E ++ x :: rest ->
  put h (Z.of_nat (length E)) el = Some (set_slots h (E ++ el :: rest)).
Proof.
  intros Hs. unfold put. rewrite Hs, option_guard_True by (rewrite length_app; simpl; lia).
  cbn [mbind option_bind]. rewrite Nat2Z.id, insert_app_r_alt, Nat.sub_diag by lia. done.
Qed.

Lemma ptrs_but_cut ps C m :
  ptrs_but dummy ps C (-1) -> ptrs_but dummy ps (cut C) m.
Proof.
  intros Hp i el Hi _ Hel. apply Hp; [done|lia|]. unfold at_, cut in *.
  by apply lookup_take_Some in Hel as [? _].
Qed.

(** The array after the last element was moved to [n] and its slot cleared. *)
Lemma remove_array h ps C rest n l :
  live dummy h ps C rest -> sz h = hlen C -> C !! (length C - 1)%nat = Some l -> 0 <= n < hlen C ->
  let h0 := set_sz h (sz h - 1) in
  exists h1 h2, slots h0 !! Z.to_nat (sz h0) = Some (Some l) /\
    put h0 n (Some l) = Some h1 /\ put h1 (sz h1) None = Some h2 /\
    slots h2 = (Some <$> moved C n l) ++ None :: rest /\ sz h2 = sz h - 1 /\
    max_sz h2 = max_sz h /\ length (slots h2) = length (slots h).
Proof.
  intros [Hs _ _] Hsz Hl Hn h0. pose proof (hlen_cut C l Hl) as Hcut.
  assert (Hs0 : slots h0 = (Some <$> cut C) ++ Some l :: rest).
  { simpl. rewrite Hs, (cut_snoc C l Hl) at 1. by rewrite fmap_app, <- app_assoc. }
  assert (Hlen : length (Some <$> cut C) = Z.to_nat (sz h - 1))
    by (rewrite length_fmap; unfold hlen in *; lia).
  set (h1 := set_slots h0 ((Some <$> moved C n l) ++ Some l :: rest)).
  assert (Hput : put h0 n (Some l) = Some h1).
  { unfold put. rewrite Hs0, option_guard_True by (rewrite length_app; simpl; lia).
    cbn [mbind option_bind]. unfold h1. do 2 f_equal. unfold moved. rewrite list_fmap_insert.
    destruct (decide (Z.to_nat n < length (Some <$> cut C))%nat).
    - by rewrite insert_app_l.
    - rewrite (list_insert_ge (Some <$> cut C)) by lia. rewrite insert_app_r_alt by lia.
      by replace (Z.to_nat n - length (Some <$> cut C))%nat with 0%nat by (unfold hlen in *; lia). }
  assert (Hlm : sz h1 = Z.of_nat (length (Some <$> moved C n l)))
    by (unfold moved; rewrite list_fmap_insert, length_insert; simpl; unfold hlen in *; lia).
  exists h1, (set_slots h1 ((Some <$> moved C n l) ++ None :: rest)). split_and!; try done.
  - rewrite Hs0, lookup_app_r by (simpl; lia). simpl sz. by rewrite Hlen, Nat.sub_diag.
  - rewrite Hlm. by apply (put_app h1 _ (Some l)).
  - rewrite Hs. simpl. rewrite !length_app, !length_fmap. simpl.
    pose proof (hlen_moved C n l Hl). unfold hlen in *. lia.
Qed.

Lemma remove_hole h ps C rest n l h2 :
  live dummy h ps C rest -> C !! (length C - 1)%nat = Some l -> 0 <= n < hlen C - 1 ->
  slots h2 = (Some <$> moved C n l) ++ None :: rest ->
  at_hole dummy h2 ps (moved C n l) n (None :: rest).
Proof.
  intros [_ Hp Hd] Hl Hn Hs. pose proof (hlen_moved C n l Hl) as Hlen.
  destruct (at_in C n) as [e He]; [lia|]. split.
  - exists l. rewrite Hs. unfold moved. by rewrite list_insert_insert_eq.
  - intros i el Hi Hne Hel. apply Hp; [done|lia|]. unfold at_, moved, cut in *.
    rewrite list_lookup_insert_ne in Hel by lia. by apply lookup_take_Some in Hel as [? _].
  - lia.
  - rewrite <- (moved_perm C n l e Hl Hn He) in Hd. unfold distinct, own_ptrs in *.
    rewrite fmap_cons, filter_cons in Hd. case_decide; [by apply NoDup_cons in Hd as [_ ?]|done].
Qed.

Lemma remove_last_ok h ps C rest e h2 :
  heap_ok h ps C -> live dummy h ps C rest -> C !! (length C - 1)%nat = Some e ->
  slots h2 = (Some <$> cut C) ++ None :: rest -> sz h2 = sz h - 1 -> max_sz h2 = max_sz h ->
  length (slots h2) = length (slots h) -> heap_ok h2 ps (cut C).
Proof.
  intros [_ Hsz Hmax Ho] [Hs Hp Hd] Hl Hs2 Hsz2 Hm2 Hlen2. pose proof (hlen_cut C e Hl) as Hcut.
  split; [exists (None :: rest)|lia|congruence|].
  - split; [done| |].
    + intros i el Hi _ Hel. apply Hp; [done|lia|]. unfold at_, cut in *.
      by apply lookup_take_Some in Hel as [? _].
    + unfold distinct in *. rewrite (cut_snoc C e Hl) in Hd. unfold own_ptrs in *.
      rewrite fmap_app, filter_app in Hd. by apply NoDup_app in Hd as (? & _ & _).
  - intros i Hi. pose proof (parent_lt i ltac:(lia)). pose proof (Ho i ltac:(lia)) as H1.
    unfold edge in *. rewrite (cut_snoc C e Hl) in H1. by rewrite !K_app_l in H1 by lia.
Qed.

Lemma remove_this_spec h ps C n e :
  heap_ok h ps C -> 0 <= n < hlen C -> at_ C n = Some e ->
  exists h' ps' C', remove_this (diff key) (h, ps) n = Some (h', ps') /\
    heap_ok h' ps' C' /\ e :: C' ≡ₚ C.
Proof.
  intros Hok Hn He. pose proof Hok as [[rest Hl] Hsz Hmax Ho].
  destruct (lookup_lt_is_Some_2 C (length C - 1)) as [l Hlast]; [unfold hlen in Hn; lia|].
  destruct (remove_array h ps C rest n l Hl Hsz Hlast Hn) as
    (h1 & h2 & Hlk & Hp1 & Hp2 & Hs2 & Hsz2 & Hm2 & Hlen2).
  unfold remove_this. cbn [fst snd]. rewrite option_guard_True by lia. cbn [mbind option_bind].
  rewrite Hlk. cbn [mbind option_bind]. rewrite Hp1. cbn [mbind option_bind].
  rewrite Hp2. cbn [mbind option_bind]. rewrite Hsz2.
  destruct (Z.eqb_spec n (sz h - 1)) as [Heq|Hne]; cbn [negb].
  - assert (Hm : moved C n l = cut C)
      by (unfold moved; apply list_insert_ge; unfold cut; rewrite length_take; unfold hlen in *; lia).
    assert (e = l) as ->.
    { unfold at_ in He. replace (Z.to_nat n) with (length C - 1)%nat in He by (unfold hlen in *; lia).
      congruence. }
    rewrite Hm in Hs2. exists h2, ps, (cut C). split; [done|]. split.
    + by apply (remove_last_ok h ps C rest l).
    + rewrite (cut_snoc C l Hlast) at 2. by rewrite (Permutation_app_comm (cut C)).
  - assert (Hn' : 0 <= n < hlen C - 1) by lia.
    pose proof (remove_hole _ _ _ _ _ _ _ Hl Hlast Hn' Hs2) as Hh2.
    pose proof (hlen_moved C n l Hlast) as Hlm.
    destruct (downheap_spec h2 ps (moved C n l) n _ Hh2) as
      (h3 & ps3 & C3 & -> & Hl3 & HC3 & Hup & Hs3 & Hm3).
    { eapply get_app; [done|lia]. }
    { lia. }
    { by apply moved_down_ok. }
    cbn [mbind option_bind].
    assert (Hl3' : hlen C3 = hlen C - 1) by (rewrite <- Hlm; unfold hlen; by rewrite HC3).
    destruct (upheap_spec h3 ps3 C3 n _ (live_at_hole _ _ _ _ n Hl3 ltac:(lia))) as
      (h4 & ps4 & C4 & -> & Hl4 & HC4 & Ho4 & Hs4 & Hm4); [|done|].
    { eapply get_app; [apply Hl3|lia]. }
    exists h4, ps4, C4. split; [done|]. split.
    + pose proof (lv_slots _ _ _ _ _ Hl4) as E4.
      assert (HlC4 : hlen C4 = hlen C - 1) by (rewrite <- Hl3'; unfold hlen; by rewrite HC4).
      split; [by eexists|lia| |done].
      rewrite Hm4, Hm3, Hm2, Hmax, <- Hlen2, Hs2, E4, !length_app, !length_fmap.
      unfold hlen in *. lia.
    + rewrite HC4, HC3. by apply moved_perm.
Qed.
End Ops.

(** ** Verification *)

Section Verify.
Context {T : Type} (key : T -> Z) (dummy : Z).

(** Index [i] lies strictly below [n]. *)
Inductive below (n : Z) : Z -> Prop :=
  | below_child i : 0 < i -> parent i = n -> below n i
  | below_step i : 0 < i -> below n (parent i) -> below n i.

Lemma below_lt n i : below n i -> n < i.
Proof. induction 1 as [i Hi Hp|i Hi Hb IH]; pose proof (parent_lt i Hi); lia. Qed.

Lemma below_root i : 0 < i -> below 0 i.
Proof.
  intros Hi. assert (Hind : forall n, 0 <= n -> 0 < n -> below 0 n).
  { intros n Hn. pattern n. apply Z_lt_induction; [|exact Hn]. clear n Hn. intros n IH Hpos.
    pose proof (parent_lt n Hpos). destruct (decide (parent n = 0)).
    - by apply below_child.
    - apply below_step; [done|]. apply IH; lia. }
  apply Hind; lia.
Qed.

(** The indices below [n] are its children and what is below those. *)
Lemma below_children n i :
  0 <= n -> below n i <->
  exists c, (c = left_child n \/ c = right_child n) /\ (i = c \/ below c i).
Proof.
  intros Hn. split.
  - induction 1 as [i Hi Hp|i Hi Hb IH].
    + exists i. split; [by apply parent_child|by left].
    + destruct IH as (c & Hc & [Heq|Hbc]); exists c; (split; [done|right]).
      * by apply below_child.
      * by apply below_step.
  - intros (c & Hc & Hi). assert (Hc0 : 0 < c) by (unfold left_child, right_child in Hc; lia).
    assert (Hpc : parent c = n) by (by apply parent_child).
    destruct Hi as [->|Hb]; [by apply below_child|].
    induction Hb as [i Hi Hp|i Hi Hb IH].
    + apply below_step; [done|]. rewrite Hp. by apply below_child.
    + by apply below_step.
Qed.

Lemma do_verify_spec fuel h ps C rest n :
  live dummy h ps C rest -> sz h = hlen C -> 0 <= n < hlen C \/ n = 0 -> (Z.to_nat (hlen C - n) < fuel)%nat ->
  exists b, do_verify (diff key) fuel h n = Some b /\
    (b = true <-> forall i, below n i -> i < hlen C -> edge key C i).
Proof.
  intros Hl Hsz. revert n. induction fuel as [|fuel IH]; intros n Hn Hf; [lia|].
  cbn [do_verify]. set (child := verify_child (diff key) (do_verify (diff key) fuel) h n).
  assert (Hchild : forall c, c = left_child n \/ c = right_child n ->
    exists b, child c = Some b /\ (b = true <-> (c < hlen C -> edge key C c /\
      forall i, below c i -> i < hlen C -> edge key C i))).
  { intros c Hc. assert (Hcn : 0 <= n /\ n < c) by (unfold left_child, right_child in Hc; lia).
    assert (Hpc : parent c = n) by (apply parent_child; lia).
    unfold child, verify_child. destruct (Z.ltb_spec c (sz h)) as [Hlt|Hge].
    2:{ exists true. split; [done|]. split; [intros _ ?; lia|done]. }
    rewrite !(get_app _ _ _ _ (lv_slots _ _ _ _ _ Hl)) by lia.
    destruct (at_in C n) as [x Hx]; [lia|]. destruct (at_in C c) as [y Hy]; [lia|].
    rewrite Hx, Hy. cbn [mbind option_bind]. unfold diff at 1.
    rewrite <- (K_at key _ _ _ Hx), <- (K_at key _ _ _ Hy).
    destruct (Z.ltb_spec 0 (K key C n - K key C c)).
    - exists false. split; [done|]. split; [done|]. intros He.
      destruct (He ltac:(lia)) as [He1 _]. unfold edge in He1. rewrite Hpc in He1. lia.
    - destruct (IH c) as (b & -> & Hb); [lia|lia|]. exists b. split; [done|]. rewrite Hb.
      split; [intros Hall _; split; [unfold edge; rewrite Hpc; lia|done]|].
      intros Hall. by apply Hall; lia. }
  destruct (Hchild (left_child n)) as (bl & -> & Hbl); [by left|].
  destruct (Hchild (right_child n)) as (br & -> & Hbr); [by right|].
  cbn [mbind option_bind].
  assert (Hn0 : 0 <= n) by lia.
  assert (Hall : (forall i, below n i -> i < hlen C -> edge key C i) <-> bl = true /\ br = true).
  { rewrite Hbl, Hbr. setoid_rewrite (below_children n _ Hn0). split.
    - intros Ha. split; intros Hc; (split; [apply Ha; [eauto|done]|]); intros i Hb; apply Ha; eauto.
    - intros [Hal Har] i (c & [->| ->] & [->|Hb]) Hi.
      + by destruct (Hal Hi).
      + pose proof (below_lt _ _ Hb). destruct Hal as [_ Hal]; [lia|]. by apply Hal.
      + by destruct (Har Hi).
      + pose proof (below_lt _ _ Hb). destruct Har as [_ Har]; [lia|]. by apply Har. }
  destruct bl; cbn [negb].
  - exists br. split; [done|]. rewrite Hall. tauto.
  - exists false. split; [done|]. rewrite Hall. split; [done|]. by intros [? _].
Qed.
End Verify.

(** ** The theorems *)

(** insertion.  With a comparison by difference of keys, [heap_insert]
    into a heap that has room, or whose array can be doubled, adds exactly the
    new element; the order and all back pointers are right afterwards.  When
    the array cannot grow, -1 is answered and nothing changes. *)
Theorem heap_insert_correct {T} (key : T -> Z) ro dummy h ps C d p :
  heap_ok key dummy h ps C -> 0 < max_sz h -> max_sz h * 2 < 2^32 ->
  (default dummy p = dummy \/ default dummy p ∉ own_ptrs dummy C) ->
  (exists h' ps' C', heap_insert (diff key) ro dummy (h, ps) d p = Some (0, (h', ps')) /\
     heap_ok key dummy h' ps' C' /\ C' ≡ₚ {| data := d; ptr := default dummy p |} :: C) \/
  (sz h = max_sz h /\ ro (max_sz h * 2) = false /\
     heap_insert (diff key) ro dummy (h, ps) d p = Some (-1, (h, ps))).
Proof.
  intros Hok Hpos Hsmall Hp.
  destruct (decide (sz h = max_sz h)) as [Heq|Hne];
    [destruct (ro (max_sz h * 2)) eqn:Hro|].
  - left. apply heap_insert_spec; auto.
  - right. split_and!; [done|done|]. unfold heap_insert, grow. cbn [fst snd].
    assert (Hw : uwrap32 (max_sz h * 2) = max_sz h * 2) by (unfold uwrap32; rewrite Z.mod_small; lia).
    apply Z.eqb_eq in Heq. by rewrite Heq, Hw, Hro.
  - left. apply heap_insert_spec; auto. left. destruct Hok as [[rest [Hs _ _]] Hsz Hmax _].
    rewrite Hs, length_app, length_fmap in Hmax. unfold hlen in *. lia.
Qed.

(** C37: removal.  [heap_remove] with the index an element's back pointer
    holds takes out this element, [heap_remove_head] the one [heap_head]
    answers, which has a least key; the rest stays a heap with right back
    pointers. *)
Theorem heap_remove_correct {T} (key : T -> Z) dummy h ps C el :
  heap_ok key dummy h ps C -> el ∈ C ->
  (ptr el <> dummy ->
     exists i h' ps' C', ps !! ptr el = Some i /\
       heap_remove (diff key) dummy (h, ps) i = Some (0, (h', ps')) /\
       heap_ok key dummy h' ps' C' /\ el :: C' ≡ₚ C) /\
  (exists x h' ps' C', heap_head h = Some (Some (data x)) /\ key (data x) <= key (data el) /\
     heap_remove_head (diff key) (h, ps) = Some (h', ps') /\
     heap_ok key dummy h' ps' C' /\ x :: C' ≡ₚ C).
Proof.
  intros Hok Hel. pose proof Hok as [[rest Hl] Hsz _ Ho].
  apply list_elem_of_lookup in Hel as [k Hk]. pose proof (lookup_lt_Some _ _ _ Hk) as Hlt.
  set (i := Z.of_nat k). assert (Hi : 0 <= i < hlen C) by (unfold hlen; lia).
  assert (Hat : at_ C i = Some el) by (unfold at_, i; by rewrite Nat2Z.id).
  split.
  - intros Hd. destruct (remove_this_spec key dummy h ps C i el Hok Hi Hat)
      as (h' & ps' & C' & Hr & Hok' & HC). exists i, h', ps', C'. split_and!; try done.
    + apply (lv_ptrs _ _ _ _ _ Hl); [lia|lia|done|done].
    + unfold heap_remove. cbn [fst]. destruct (Z.eqb_spec (sz h) 0); [lia|].
      assert (Hlk : slots h !! Z.to_nat i = Some (Some el)).
      { rewrite (lv_slots _ _ _ _ _ Hl), lookup_app_l by (rewrite length_fmap; unfold hlen in *; lia).
        rewrite list_lookup_fmap. unfold at_ in Hat. by rewrite Hat. }
      rewrite Hlk. cbn [mbind option_bind]. rewrite option_guard_True by (simpl; congruence).
      cbn [mbind option_bind]. by rewrite Hr.
  - destruct (at_in C 0) as [x Hx]; [lia|].
    destruct (remove_this_spec key dummy h ps C 0 x Hok ltac:(lia) Hx)
      as (h' & ps' & C' & Hr & Hok' & HC). exists x, h', ps', C'. split_and!; try done.
    + unfold heap_head. destruct (Z.eqb_spec (sz h) 0); [lia|].
      rewrite (get_app _ _ _ _ (lv_slots _ _ _ _ _ Hl)), Hx by lia. done.
    + pose proof (heap_order_min key C i Ho Hi) as Hmin.
      by rewrite (K_at key _ _ _ Hx), (K_at key _ _ _ Hat) in Hmin.
Qed.

(** verification.  [heap_verify] ends, and answers whether the heap
    order holds. *)
Theorem heap_verify_correct {T} (key : T -> Z) dummy h ps C rest :
  live dummy h ps C rest -> sz h = hlen C ->
  exists b, heap_verify (diff key) h = Some b /\ (b = true <-> heap_order key C).
Proof.
  intros Hl Hsz. destruct (do_verify_spec key dummy (S (Z.to_nat (sz h))) h ps C rest 0 Hl Hsz)
    as (b & Hb & Hiff); [by right|lia|].
  exists b. split; [done|]. rewrite Hiff. split.
  - intros H i Hi. apply H; [apply below_root; lia|lia].
  - intros H i Hb' Hi. apply H. pose proof (below_lt _ _ Hb'). lia.
Qed.

(** ** A concrete heap *)

Module Concrete.
(** A comparison that answers only -1, 0 or 1. *)
Definition sign_cmp (a b : Z) : Z := Z.sgn (a - b).

Definition insert_all (cmp : Z -> Z -> Z) (ds : list Z) : option (Heap Z * gmap Z Z) :=
  fold_left (fun s d => s ← s; '(_, s) ← heap_insert cmp (fun _ => true) 0 s d (Some (100 + d));
                        Some s) ds (h ← mjoin (heap_new true true 2); Some (h, ∅)).

Definition no_heap : Heap Z * gmap Z Z := ({| max_sz := 0; sz := 0; slots := [] |}, ∅).
(** Six elements, and the same without the head, under [sign_cmp]. *)
Definition six : Heap Z * gmap Z Z :=
  default no_heap (insert_all sign_cmp [1; 3; 2; 5; 6; 7]).
Definition five : Heap Z * gmap Z Z := default no_heap (heap_remove_head sign_cmp six).

Definition el (d : Z) : heap_element Z := {| data := d; ptr := 100 + d |}.
Definition three : Heap Z :=
  {| max_sz := 3; sz := 3; slots := [Some (el 1); Some (el 3); Some (el 2)] |}.
Definition three_ptrs : gmap Z Z := <[101 := 0]> (<[103 := 1]> {[102 := 2]}).

Lemma three_live : live 0 three three_ptrs [el 1; el 3; el 2] [].
Proof.
  split; [done| |refine (bool_decide_unpack _ _); vm_compute; exact I].
  intros i x Hi _ Hx _. unfold at_ in Hx.
  destruct (Z.to_nat i) as [|[|[|k]]] eqn:E; simpl in Hx; simplify_eq;
    [replace i with 0 by lia|replace i with 1 by lia|replace i with 2 by lia]; reflexivity.
Qed.

Lemma three_ok : heap_ok (fun d => d) 0 three three_ptrs [el 1; el 3; el 2].
Proof.
  split; [by eexists; apply three_live|done|done|].
  intros i Hi. unfold hlen in Hi. simpl in Hi.
  assert (i = 1 \/ i = 2) as [->| ->] by lia; vm_compute; discriminate.
Qed.
End Concrete.

(** the comparison must measure.  [downheap] picks the child by the size
    of the comparison's answer.  An instance: with a comparison that answers
    only its sign, a correct heap of six elements is left incorrect by the
    removal of its head. *)
Theorem heap_sign_comparator :
  exists s s', Concrete.insert_all Concrete.sign_cmp [1; 3; 2; 5; 6; 7] = Some s /\
    heap_verify Concrete.sign_cmp s.1 = Some true /\
    heap_remove_head Concrete.sign_cmp s = Some s' /\
    heap_verify Concrete.sign_cmp s'.1 = Some false.
Proof.
  exists Concrete.six, Concrete.five. split_and!.
  - apply default_is_some. vm_compute. reflexivity.
  - vm_compute. reflexivity.
  - apply default_is_some. vm_compute. reflexivity.
  - vm_compute. reflexivity.
Qed.

(** ** The theorems at work *)

Module Witnesses.
Import Concrete.

Lemma heap_insert_correct_witness :
  (exists h' ps' C', heap_insert (diff (fun d => d)) (fun _ => true) 0 (three, three_ptrs) 0
       (Some 100) = Some (0, (h', ps')) /\
     heap_ok (fun d => d) 0 h' ps' C' /\ C' ≡ₚ [el 0; el 1; el 3; el 2]) \/
  (sz three = max_sz three /\ true = false /\
     heap_insert (diff (fun d => d)) (fun _ => true) 0 (three, three_ptrs) 0 (Some 100) =
     Some (-1, (three, three_ptrs))).
Proof.
  apply (heap_insert_correct (fun d => d) (fun _ => true) 0 three three_ptrs
    [el 1; el 3; el 2] 0 (Some 100)).
  - exact three_ok.
  - reflexivity.
  - reflexivity.
  - right. refine (bool_decide_unpack _ _). vm_compute. exact I.
Defined.

Lemma heap_remove_correct_witness :
  exists i h' ps' C', three_ptrs !! 103 = Some i /\
    heap_remove (diff (fun d => d)) 0 (three, three_ptrs) i = Some (0, (h', ps')) /\
    heap_ok (fun d => d) 0 h' ps' C' /\ el 3 :: C' ≡ₚ [el 1; el 3; el 2].
Proof.
  destruct (heap_remove_correct (fun d => d) 0 three three_ptrs [el 1; el 3; el 2] (el 3))
    as [H _].
  - exact three_ok.
  - right. left.
  - apply H. discriminate.
Defined.

Lemma heap_verify_correct_witness :
  exists b, heap_verify (diff (fun d => d)) three = Some b /\
    (b = true <-> heap_order (fun d => d) [el 1; el 3; el 2]).
Proof.
  apply (heap_verify_correct (fun d => d) 0 three three_ptrs [el 1; el 3; el 2] []).
  - exact three_live.
  - reflexivity.
Defined.
End Witnesses.
