(* ===== verification/Hash.v ===== *)
(** * Hash tables (lib/util/hash.c, lib/util/arlamath.c)

    A bucket is its chain of entries, first entry first, with the length the
    code keeps for it; the [prev] links of the chain are implied.  The user's
    comparison and hash function are parameters.  A failed [assert] or an
    access outside the table has no result ([None]); so have the loops when
    their fuel is used up. *)

From S2P Require Import Prelude.

(** ** Primes (arlamath.c) *)

Fixpoint isprime_loop (fuel : nat) (p i : Z) : option Z :=
  match fuel with
  | O => None
  | S fuel =>
      if negb (i <? p) then Some 1 else
      let q := p / i in
      if i * q =? p then Some 0 else
      guard (i * i < 2^31);;
      if p <? i * i then Some 1 else isprime_loop fuel p (i + 1)
  end.

Definition arlautil_isprime (p : Z) : option Z := isprime_loop (S (Z.to_nat p)) p 2.

Fixpoint findprime_loop (fuel : nat) (p : Z) : option Z :=
  match fuel with
  | O => None
  | S fuel =>
      b ← arlautil_isprime p;
      if negb (b =? 0) then Some p else guard (p + 2 < 2^31);; findprime_loop fuel (p + 2)
  end.

Definition arlautil_findprime (fuel : nat) (p : Z) : option Z :=
  let p := if p mod 2 =? 0 then p + 1 else p in findprime_loop fuel p.

(** ** Tables *)

Definition HASHTAB_GROW : Z := 1.
Definition HASHTAB_INITAL_SIZE : Z := 17.
Definition HASHTAB_MAX_BUCKET_LEN : Z := 20.

Section Hashtab.
Context {T : Type} (cmp : T -> T -> Z) (hash : T -> Z).
(** The search for a prime, and which allocations succeed: a table of the
    given size, the entry of an element. *)
Context (findprime : Z -> option Z) (malloc_table : Z -> bool) (malloc_entry : T -> bool).

Record ht_bucket := { e : list T; len : Z }.
Record Hashtab := { flags : Z; sz : Z; maxbucketlen : Z; tab : list ht_bucket }.

Definition set_tab (htab : Hashtab) (n : Z) (t : list ht_bucket) : Hashtab :=
  {| flags := flags htab; sz := n; maxbucketlen := maxbucketlen htab; tab := t |}.

Definition grows (flags : Z) : bool := negb (Z.land flags HASHTAB_GROW =? 0).

(** [Some None] is NULL. *)
Definition hashtabnewf (n flags : Z) : option (option Hashtab) :=
  guard (0 < n \/ grows flags = true);;
  let n := if (n =? 0) && grows flags then HASHTAB_INITAL_SIZE else n in
  if malloc_table n then
    Some (Some {| flags := flags; sz := n; maxbucketlen := HASHTAB_MAX_BUCKET_LEN;
                  tab := replicate (Z.to_nat n) {| e := []; len := 0 |} |})
  else Some None.

Definition hashtabnew (n : Z) : option (option Hashtab) := hashtabnewf n 0.

(** The index of the bucket of [ptr]. *)
Definition slot (htab : Hashtab) (ptr : T) : Z := hash ptr mod sz htab.

Fixpoint chain_search (ptr : T) (chain : list T) : option T :=
  match chain with
  | [] => None
  | x :: chain => if cmp ptr x =? 0 then Some x else chain_search ptr chain
  end.

Definition _search (htab : Hashtab) (ptr : T) : option (option T) :=
  b ← tab htab !! Z.to_nat (slot htab ptr); Some (chain_search ptr (e b)).

Definition hashtabsearch (htab : Hashtab) (ptr : T) : option (option T) := _search htab ptr.

(** [hashtabcleantab]: the condition may change [arg]. *)
Section Clean.
Context {A : Type} (cond : T -> A -> option (bool * A)).

Fixpoint clean_chain (chain : list T) (n : Z) (arg : A) : option (list T * Z * A) :=
  match chain with
  | [] => Some ([], n, arg)
  | g :: chain =>
      '(b, arg) ← cond g arg;
      if (b : bool) then
        guard (0 < n);; clean_chain chain (n - 1) arg
      else '(chain, n, arg) ← clean_chain chain n arg; Some (g :: chain, n, arg)
  end.

Fixpoint clean_buckets (t : list ht_bucket) (arg : A) : option (list ht_bucket * A) :=
  match t with
  | [] => Some ([], arg)
  | h :: t =>
      '(c, n, arg) ← clean_chain (e h) (len h) arg;
      '(t, arg) ← clean_buckets t arg;
      Some ({| e := c; len := n |} :: t, arg)
  end.

Definition hashtabcleantab (htab : Hashtab) (arg : A) : option (Hashtab * A) :=
  '(t, arg) ← clean_buckets (tab htab) arg; Some (set_tab htab (sz htab) t, arg).

(** [hashtabforeach]: the callback stops the iteration by answering true. *)
Fixpoint each_entry (l : list T) (arg : A) : option (bool * A) :=
  match l with
  | [] => Some (false, arg)
  | g :: l => '(b, arg) ← cond g arg; if (b : bool) then Some (true, arg) else each_entry l arg
  end.

Fixpoint each_bucket (t : list ht_bucket) (arg : A) : option A :=
  match t with
  | [] => Some arg
  | h :: t =>
      '(b, arg) ← each_entry (e h) arg; if (b : bool) then Some arg else each_bucket t arg
  end.

Definition hashtabforeach (htab : Hashtab) (arg : A) : option A := each_bucket (tab htab) arg.
End Clean.

(** The condition [_resize]: every entry goes to the new table; [add] is
    [_add]. *)
Definition _resize (add : Hashtab -> T -> bool -> option (bool * Hashtab)) (ptr : T) (h : Hashtab)
  : option (bool * Hashtab) :=
  '(_, h) ← add h ptr true; Some (true, h).

Definition _might_resize (add : Hashtab -> T -> bool -> option (bool * Hashtab))
    (htab : Hashtab) (bucket_len : Z) : option Hashtab :=
  if maxbucketlen htab <? bucket_len then
    guard (sz htab * 2 < 2^31);;
    new_size ← findprime (sz htab * 2);
    guard (sz htab < new_size);;
    nhtab ← hashtabnewf new_size (flags htab);
    match nhtab with
    | None => Some htab
    | Some nhtab =>
        '(_, nhtab) ← hashtabcleantab (_resize add) htab nhtab;
        Some (set_tab htab (sz nhtab) (tab nhtab))
    end
  else Some htab.

(** Put [ptr] in the place of the entry that compares equal. *)
Fixpoint replace_entry (ptr : T) (chain : list T) : list T :=
  match chain with
  | [] => []
  | x :: chain => if cmp ptr x =? 0 then ptr :: chain else x :: replace_entry ptr chain
  end.

Definition set_chain (htab : Hashtab) (i : Z) (b : ht_bucket) : Hashtab :=
  set_tab htab (sz htab) (<[Z.to_nat i := b]> (tab htab)).

(** [_add]: is the answer other than NULL, and the table.  A table that
    grows may have to grow again while its entries move, hence the fuel. *)
Fixpoint _add (fuel : nat) (htab : Hashtab) (ptr : T) (unique : bool) : option (bool * Hashtab) :=
  match fuel with
  | O => None
  | S fuel =>
      h ← _search htab ptr;
      b ← tab htab !! Z.to_nat (slot htab ptr);
      match h with
      | Some _ =>
          if unique then Some (false, htab) else
          Some (true, set_chain htab (slot htab ptr)
                        {| e := replace_entry ptr (e b); len := len b |})
      | None =>
          if negb (malloc_entry ptr) then Some (false, htab) else
          let htab := set_chain htab (slot htab ptr) {| e := ptr :: e b; len := len b + 1 |} in
          htab ← (if grows (flags htab) then _might_resize (_add fuel) htab (len b + 1)
                  else Some htab);
          Some (true, htab)
      end
  end.

Definition hashtabaddreplace (fuel : nat) (htab : Hashtab) (ptr : T) := _add fuel htab ptr false.
Definition hashtabadd (fuel : nat) (htab : Hashtab) (ptr : T) := _add fuel htab ptr true.

(** Take out the entry that compares equal. *)
Fixpoint delete_entry (ptr : T) (chain : list T) : list T :=
  match chain with
  | [] => []
  | x :: chain => if cmp ptr x =? 0 then chain else x :: delete_entry ptr chain
  end.

(** The length of the bucket is left as it is. *)
Definition _hashtabdel (htab : Hashtab) (ptr : T) : option (Z * Hashtab) :=
  h ← _search htab ptr;
  b ← tab htab !! Z.to_nat (slot htab ptr);
  match h with
  | Some _ =>
      Some (0, set_chain htab (slot htab ptr) {| e := delete_entry ptr (e b); len := len b |})
  | None => Some (-1, htab)
  end.
End Hashtab.
Arguments ht_bucket : clear implicits.
Arguments Hashtab : clear implicits.

(** ** Hash functions for strings *)

(** A [char] is signed on the hosts of the server. *)
Definition schar (c : Z) : Z := if c <? 128 then c else c - 256.

Definition hashadd (s : bytes) : Z := fold_left (fun i c => uwrap32 (i + schar c)) s 0.

(** [toupper] in the C locale. *)
Definition toupper (c : Z) : Z := if (97 <=? c) && (c <=? 122) then c - 32 else c.

Definition hashcaseadd (s : bytes) : Z := fold_left (fun i c => uwrap32 (i + toupper c)) s 0.

Definition TWELVE : Z := 4.
Definition SEVENTYFIVE : Z := 24.
Definition HIGH_BITS : Z := uwrap32 (Z.lnot (Z.shiftr (2^32 - 1) TWELVE)).

Definition jpw_step (h c : Z) : Z :=
  let h := uwrap32 (uwrap32 (Z.shiftl h TWELVE) + c) in
  let g := Z.land h HIGH_BITS in
  if negb (g =? 0)
  then Z.land (Z.lxor h (Z.shiftr g SEVENTYFIVE)) (uwrap32 (Z.lnot HIGH_BITS)) else h.

Definition hashjpw (ss : bytes) : Z := fold_left jpw_step ss 0.
