(* ===== verification/HashCorrect.v ===== *)
(** * Correctness of the hash tables

    The prime search answers the next prime; a table holds a set of elements
    that differ in their keys, and search, insertion, replacement and deletion
    act on it as on a map, whether or not the table grows on the way. *)

From Stdlib Require Import Znumtheory.
From S2P Require Import Prelude Hash.

(** ** Primes *)

(** Below [46340 * 46340] the squares the code takes are [int]s. *)
Definition int_square : Z := 46340 * 46340.

Lemma isprime_loop_spec fuel p i :
  2 <= i <= p -> p < int_square -> (i - 1) * (i - 1) <= p ->
  (Z.to_nat (p - i) < fuel)%nat -> (forall j, 2 <= j < i -> ~ (j | p)) ->
  exists b, isprime_loop fuel p i = Some b /\
    ((b = 1 /\ forall j, 2 <= j < p -> ~ (j | p)) \/ (b = 0 /\ exists j, 2 <= j < p /\ (j | p))).
Proof.
  unfold int_square.
  revert i. induction fuel as [|fuel IH]; intros i Hi Hp Hsm Hf Hno; [lia|]. cbn [isprime_loop].
  destruct (Z.ltb_spec i p) as [Hlt|Hge]; cbn [negb].
  2:{ exists 1. split; [done|]. left. split; [done|]. intros j Hj. apply Hno. lia. }
  destruct (Z.eqb_spec (i * (p / i)) p) as [Hd|Hd].
  { exists 0. split; [done|]. right. split; [done|]. exists i. split; [lia|].
    exists (p / i). lia. }
  assert (Hni : ~ (i | p)).
  { intros [q Hq]. apply Hd. rewrite Hq, Z.div_mul by lia. lia. }
  assert (i <= 46340) by nia. rewrite option_guard_True by nia.
  destruct (Z.ltb_spec p (i * i)) as [Hsq|Hsq].
  - exists 1. split; [done|]. left. split; [done|]. intros j Hj [q Hq].
    destruct (decide (j < i)); [by apply (Hno j); [lia|exists q]|].
    destruct (decide (j = i)) as [->|]; [by apply Hni; exists q|].
    assert (0 < q) by nia. assert (q < i) by nia.
    destruct (decide (q = 1)) as [->|]; [lia|].
    apply (Hno q); [lia|]. exists j. lia.
  - apply IH; [lia|lia|nia|lia|]. intros j Hj. destruct (decide (j = i)) as [->|]; [done|].
    apply Hno. lia.
Qed.

Lemma prime_no_divisor p : 2 <= p -> Z.prime p <-> forall j, 2 <= j < p -> ~ (j | p).
Proof.
  intros Hp. split.
  - intros [_ Hno] j Hj. apply Hno. lia.
  - intros Hno. split; [lia|]. intros n Hn. apply Hno. lia.
Qed.

(** [arlautil_isprime] decides primality of numbers from 2 on. *)
Lemma isprime_spec p :
  2 <= p < int_square ->
  exists b, arlautil_isprime p = Some b /\ ((b = 1 /\ Z.prime p) \/ (b = 0 /\ ~ Z.prime p)).
Proof.
  intros Hp. destruct (isprime_loop_spec (S (Z.to_nat p)) p 2) as (b & Hb & Hor); try lia.
  exists b. split; [done|]. rewrite (prime_no_divisor p) by lia.
  destruct Hor as [?|(-> & j & Hj & Hd)]; [by left|right].
  split; [done|]. intros Hno. by apply (Hno j).
Qed.

Lemma even_not_prime p : 2 < p -> Z.odd p = false -> ~ Z.prime p.
Proof.
  intros Hp Hodd [_ Hno]. apply (Hno 2); [lia|].
  rewrite <- Z.negb_even, negb_false_iff in Hodd. apply Z.even_spec in Hodd as [m ->].
  exists m. lia.
Qed.

Lemma findprime_loop_spec k p :
  2 < p -> Z.odd p = true -> Z.prime (p + 2 * Z.of_nat k) -> p + 2 * Z.of_nat k < int_square ->
  forall fuel, (k < fuel)%nat ->
  exists q, findprime_loop fuel p = Some q /\ Z.prime q /\ p <= q <= p + 2 * Z.of_nat k /\
    forall j, p <= j < q -> ~ Z.prime j.
Proof.
  revert p. induction k as [|k IH]; intros p Hp Hodd Hpr Hb [|fuel] Hf; try lia;
    cbn [findprime_loop]; (destruct (isprime_spec p) as (b & -> & [[-> Hq]|[-> Hn]]); [lia| |]);
    try (exists p; cbn; split_and!; [done|done|lia|lia|lia]).
  { by rewrite Z.add_0_r in Hpr. }
  cbn [mbind option_bind Z.eqb negb].
  rewrite option_guard_True by (unfold int_square in *; lia).
  destruct (IH (p + 2)) with (fuel := fuel) as (q & Hq & Hqp & Hr & Hno).
  { lia. }
  { rewrite Z.odd_add, Hodd. done. }
  { by replace (p + 2 + 2 * Z.of_nat k) with (p + 2 * Z.of_nat (S k)) by lia. }
  { lia. }
  { lia. }
  exists q. split_and!; [exact Hq|done|lia|lia|].
  intros j Hj. destruct (decide (j = p)) as [->|]; [done|].
  destruct (decide (j = p + 1)) as [->|]; [|apply Hno; lia].
  apply even_not_prime; [lia|]. by rewrite Z.odd_add, Hodd.
Qed.

(** The prime search: for [p] from 2 on, and a prime [r] above it whose
    neighbourhood is within an [int]'s square, [arlautil_findprime] comes back
    (given as many rounds as [r] is away) with a prime, the first one from
    [p] on except that 2 itself is skipped, and no intermediate product
    overflows. *)
Theorem findprime_next_prime p r :
  2 <= p <= r -> 2 < r -> Z.prime r -> r < int_square ->
  forall fuel, (Z.to_nat (r - p) < fuel)%nat ->
  exists q, arlautil_findprime fuel p = Some q /\ Z.prime q /\ p <= q <= r /\
    forall j, 2 < j -> p <= j < q -> ~ Z.prime j.
Proof.
  intros Hp Hr Hpr Hb fuel Hf. unfold arlautil_findprime. cbv zeta.
  set (p' := if p mod 2 =? 0 then p + 1 else p).
  assert (Hodd : Z.odd p' = true /\ p <= p' <= p + 1 /\ (p' = p \/ Z.odd p = false)).
  { unfold p'. rewrite Zmod_odd. destruct (Z.odd p) eqn:E; cbn [Z.eqb].
    - split_and!; [done|lia|lia|by left].
    - rewrite Z.odd_add, E. split_and!; [done|lia|lia|by right]. }
  assert (Hror : Z.odd r = true).
  { destruct (Z.odd r) eqn:E; [done|]. exfalso. by apply (even_not_prime r). }
  destruct Hodd as (Hodd & Hle & Hor).
  assert (Hle' : p' <= r).
  { destruct Hor as [->|Hev]; [lia|]. destruct (decide (p = r)) as [->|]; [congruence|lia]. }
  assert (Hk : exists k, r = p' + 2 * Z.of_nat k).
  { apply Zodd_bool_iff, Zodd_ex_iff in Hodd as [a Ha], Hror as [b Hb'].
    exists (Z.to_nat (b - a)). lia. }
  destruct Hk as [k ->].
  destruct (findprime_loop_spec k p') with (fuel := fuel) as (q & Hq & Hqp & Hqr & Hno).
  { destruct (decide (p' = 2)) as [E|]; [by rewrite E in Hodd|lia]. }
  { done. } { done. } { done. } { lia. }
  exists q. split_and!; [exact Hq|done|lia|lia|].
  intros j Hj Hjq. destruct (decide (p' <= j)) as [|]; [apply Hno; lia|].
  assert (j = p) as -> by lia. destruct Hor as [|Hev]; [lia|].
  by apply even_not_prime.
Qed.

(** ** Tables as maps *)

Section Map.
Context {T K : Type} `{Countable K} (key : T -> K) (cmp : T -> T -> Z) (hash : T -> Z).
Context (N : Z).

Abbreviation slot := (Hash.slot hash).

(** What a bucket at index [i] of a table holds: no two entries with one key,
    all of them hashed to [i], and no more of them than [len] says. *)
Definition bucket_ok (htab : Hashtab T) (i : nat) (b : ht_bucket T) : Prop :=
  Z.of_nat (length (e b)) <= len b /\ NoDup (key <$> e b) /\
  Forall (fun x => Z.to_nat (slot htab x) = i) (e b).

Definition ht_ok (htab : Hashtab T) : Prop :=
  0 < sz htab < N /\ length (tab htab) = Z.to_nat (sz htab) /\
  forall i b, tab htab !! i = Some b -> bucket_ok htab i b.

(** The entries of a table, in the order [hashtabforeach] meets them. *)
Definition elems (t : list (ht_bucket T)) : list T := t ≫= e.

(** The table holds the map [m] from keys to elements. *)
Definition rep (htab : Hashtab T) (m : gmap K T) : Prop :=
  ht_ok htab /\ forall k x, m !! k = Some x <-> x ∈ elems (tab htab) /\ key x = k.

(** The map after an insertion, and whether it is answered NULL. *)
Definition add_result (m : gmap K T) (p : T) (unique : bool) : bool * gmap K T :=
  match m !! key p with
  | Some _ => if unique then (false, m) else (true, <[key p := p]> m)
  | None => (true, <[key p := p]> m)
  end.

Lemma slot_range htab x : 0 < sz htab -> 0 <= slot htab x < sz htab.
Proof. intros. by apply Z.mod_pos_bound. Qed.

Lemma elem_of_elems htab x :
  ht_ok htab ->
  x ∈ elems (tab htab) <-> exists b, tab htab !! Z.to_nat (slot htab x) = Some b /\ x ∈ e b.
Proof.
  intros (Hsz & Hlen & Hb). unfold elems. rewrite list_elem_of_bind. split.
  - intros (b & Hx & Hin). apply list_elem_of_lookup in Hin as [i Hi].
    destruct (Hb i b Hi) as (_ & _ & Hf). rewrite Forall_forall in Hf.
    rewrite (Hf x Hx). by exists b.
  - intros (b & Hl & Hx). exists b. split; [done|]. by eapply list_elem_of_lookup_2.
Qed.

Lemma ht_ok_lookup htab p :
  ht_ok htab -> exists b, tab htab !! Z.to_nat (slot htab p) = Some b /\
    bucket_ok htab (Z.to_nat (slot htab p)) b.
Proof.
  intros (Hsz & Hlen & Hb). pose proof (slot_range htab p).
  destruct (lookup_lt_is_Some_2 (tab htab) (Z.to_nat (slot htab p))) as [b Hl]; [lia|].
  exists b. split; [done|]. by apply Hb.
Qed.

Section Keys.
Context (Hcmp : forall x y, cmp x y = 0 <-> key x = key y).
Context (Hhash : forall x y, key x = key y -> hash x = hash y).

Lemma cmp_key x y : (cmp x y =? 0) = bool_decide (key x = key y).
Proof.
  apply eq_true_iff_eq. rewrite bool_decide_eq_true, Z.eqb_eq. apply Hcmp.
Qed.

Lemma chain_search_spec p l :
  match chain_search cmp p l with
  | Some x => x ∈ l /\ key x = key p
  | None => forall x, x ∈ l -> key x <> key p
  end.
Proof.
  induction l as [|y l IH]; cbn [chain_search]; [by intros x ?%not_elem_of_nil|].
  rewrite cmp_key. case_bool_decide as Hk.
  - split; [by left|done].
  - destruct (chain_search cmp p l) as [x|].
    + destruct IH. split; [by right|done].
    + intros x [->|Hx]%elem_of_cons; [congruence|by apply IH].
Qed.

Lemma slot_key htab x y : key x = key y -> slot htab x = slot htab y.
Proof. intros Hk. unfold Hash.slot. by rewrite (Hhash x y Hk). Qed.

(** The bucket of a key, and how it tells what the map holds there. *)
Lemma rep_bucket htab m p :
  rep htab m ->
  exists b, tab htab !! Z.to_nat (slot htab p) = Some b /\
    bucket_ok htab (Z.to_nat (slot htab p)) b /\ chain_search cmp p (e b) = m !! key p.
Proof.
  intros [Hok Hm]. destruct (ht_ok_lookup htab p Hok) as (b & Hl & Hbok).
  exists b. split_and!; [done|done|]. pose proof (chain_search_spec p (e b)) as Hf.
  symmetry. destruct (chain_search cmp p (e b)) as [x|].
  - destruct Hf as [Hx Hk]. apply Hm. split; [|done].
    apply elem_of_elems; [done|]. exists b. by rewrite (slot_key htab x p Hk).
  - apply eq_None_not_Some. intros [x Hx]. apply Hm in Hx as [Hx Hk].
    apply elem_of_elems in Hx as (b' & Hl' & Hx); [|done].
    rewrite (slot_key htab x p Hk) in Hl'. simplify_eq. by apply (Hf x).
Qed.

(** Search finds what the map holds at the key. *)
Lemma search_lookup htab m p : rep htab m -> _search cmp hash htab p = Some (m !! key p).
Proof.
  intros Hrep. destruct (rep_bucket htab m p Hrep) as (b & Hl & _ & Hf).
  unfold _search. rewrite Hl. cbn [mbind option_bind]. by rewrite Hf.
Qed.

(** Storing a bucket: the map changes at the keys of this bucket only. *)
Lemma rep_set_chain htab m m' i b :
  rep htab m -> 0 <= i < sz htab -> bucket_ok htab (Z.to_nat i) b ->
  (forall k x, m' !! k = Some x <->
     (x ∈ e b \/ (m !! k = Some x /\ slot htab x <> i)) /\ key x = k) ->
  rep (set_chain htab i b) m'.
Proof.
  intros [Hok Hm] Hi Hb Hm'. pose proof Hok as (Hsz & Hlen & Hbs).
  assert (Hok' : ht_ok (set_chain htab i b)).
  { split_and!; cbn; [lia|lia|by rewrite length_insert|]. intros j c Hj.
    destruct (decide (j = Z.to_nat i)) as [->|].
    - rewrite list_lookup_insert_eq in Hj by lia. by simplify_eq.
    - rewrite list_lookup_insert_ne in Hj by done. by apply Hbs. }
  split; [done|]. intros k x. rewrite Hm', (elem_of_elems _ x Hok').
  change (slot (set_chain htab i b) x) with (slot htab x).
  change (tab (set_chain htab i b)) with (<[Z.to_nat i:=b]> (tab htab)).
  pose proof (slot_range htab x). destruct (decide (slot htab x = i)) as [He|Hne].
  - rewrite He, list_lookup_insert_eq by lia. split.
    + intros [[Hx|[_ []]] Hk]; [|done]. split; [by exists b|done].
    + intros [(c & [= <-] & Hx) Hk]. by split; [left|].
  - rewrite list_lookup_insert_ne by lia. split.
    + intros [[Hx|[Hx _]] Hk].
      * destruct Hb as (_ & _ & Hf). rewrite Forall_forall in Hf. specialize (Hf x Hx). lia.
      * apply Hm in Hx as [Hx _]. apply elem_of_elems in Hx; [|done]. done.
    + intros [Hx Hk]. split; [right|done]. split; [|done]. apply Hm. split; [|done].
      by apply elem_of_elems.
Qed.

Lemma replace_entry_keys p l : key <$> replace_entry cmp p l = key <$> l.
Proof.
  induction l as [|y l IH]; [done|]. cbn [replace_entry]. rewrite cmp_key.
  case_bool_decide as Hk; cbn; [by rewrite Hk|by rewrite IH].
Qed.

Lemma elem_of_replace_entry p l x :
  NoDup (key <$> l) -> (exists y, y ∈ l /\ key y = key p) ->
  x ∈ replace_entry cmp p l <-> x = p \/ (x ∈ l /\ key x <> key p).
Proof.
  induction l as [|y l IH]; intros Hnd (z & Hz & Hk).
  { by apply not_elem_of_nil in Hz. }
  cbn [replace_entry]. rewrite cmp_key. apply NoDup_cons in Hnd as [Hy Hnd].
  case_bool_decide as Hky.
  - rewrite !elem_of_cons. split.
    + intros [->|Hx]; [by left|]. right. split; [by right|]. intros Hkx. apply Hy.
      apply list_elem_of_fmap. exists x. split; [congruence|done].
    + intros [->|[[->|Hx] Hn]]; [by left|congruence|by right].
  - rewrite !elem_of_cons, IH; [|done|].
    + split; [|naive_solver]. intros [->|[->|[? ?]]]; [right; split; [by left|congruence]|by left|].
      right. split; [by right|done].
    + exists z. split; [|done]. apply elem_of_cons in Hz as [->|]; [congruence|done].
Qed.

Lemma elem_of_delete_entry p l x :
  NoDup (key <$> l) -> x ∈ delete_entry cmp p l <-> x ∈ l /\ key x <> key p.
Proof.
  induction l as [|y l IH]; intros Hnd; cbn [delete_entry].
  { split; [by intros ?%not_elem_of_nil|by intros [?%not_elem_of_nil _]]. }
  rewrite cmp_key. apply NoDup_cons in Hnd as [Hy Hnd]. case_bool_decide as Hky.
  - rewrite elem_of_cons. split.
    + intros Hx. split; [by right|]. intros Hkx. apply Hy.
      apply list_elem_of_fmap. exists x. split; [congruence|done].
    + intros [[->|Hx] Hn]; [congruence|done].
  - rewrite !elem_of_cons, IH by done. split; [|naive_solver].
    intros [->|[? ?]]; [split; [by left|congruence]|split; [by right|done]].
Qed.

Lemma delete_entry_sublist p l : delete_entry cmp p l `sublist_of` l.
Proof.
  induction l as [|y l IH]; [done|]. cbn [delete_entry].
  destruct (_ =? _); [by apply sublist_cons|by apply sublist_skip].
Qed.

(** Deletion takes the key out of the map. *)
Lemma del_delete htab m p :
  rep htab m ->
  exists htab', _hashtabdel cmp hash htab p =
    Some (if m !! key p is Some _ then 0 else -1, htab') /\ rep htab' (delete (key p) m).
Proof.
  intros Hrep. destruct (rep_bucket htab m p Hrep) as (b & Hl & (Hlen & Hnd & Hf) & _).
  unfold _hashtabdel. rewrite (search_lookup htab m p Hrep), Hl. cbn [mbind option_bind].
  destruct (m !! key p) as [x|] eqn:Hx; eexists; (split; [done|]).
  2:{ by rewrite delete_id. }
  apply rep_set_chain with m; [done|apply slot_range, Hrep| |].
  - pose proof (delete_entry_sublist p (e b)) as Hsub. split_and!; cbn.
    + apply sublist_length in Hsub. lia.
    + eapply sublist_NoDup; [exact Hnd|]. by apply fmap_sublist.
    + rewrite Forall_forall in Hf |- *. intros y [Hy _]%elem_of_delete_entry; [by apply Hf|done].
  - intros k y. cbn [e]. rewrite elem_of_delete_entry by done.
    rewrite lookup_delete_Some. split.
    + intros [Hk Hy]. pose proof Hy as Hy'. apply Hrep in Hy' as [Hin Hky].
      split; [|done]. destruct (decide (slot htab y = slot htab p)) as [Hs|]; [left|by right].
      split; [|congruence]. apply elem_of_elems in Hin as (c & Hc & Hin); [|apply Hrep].
      rewrite Hs in Hc. congruence.
    + intros [[[Hy Hn]|[Hy Hs]] Hky].
      * split; [congruence|]. apply Hrep. split; [|done]. apply elem_of_elems; [apply Hrep|].
        exists b. split; [|done]. rewrite Forall_forall in Hf. by rewrite (Hf y Hy).
      * split; [|done]. intros <-. by apply Hs, slot_key.
Qed.

(** *** Growing *)

(** The entries [l] of a table go into another by [add]. *)
Fixpoint adds (add : Hashtab T -> T -> bool -> option (bool * Hashtab T)) (l : list T)
    (h : Hashtab T) : option (Hashtab T) :=
  match l with
  | [] => Some h
  | x :: l => '(_, h) ← add h x true; adds add l h
  end.

Lemma adds_app add l1 l2 h : adds add (l1 ++ l2) h = (h' ← adds add l1 h; adds add l2 h').
Proof.
  revert h. induction l1 as [|x l1 IH]; intros h; [done|]. cbn.
  destruct (add h x true) as [[r h1]|]; [|done]. cbn. apply IH.
Qed.

(** Cleaning a table with [_resize] empties it into the other one. *)
Lemma clean_chain_resize add l n h h' :
  Z.of_nat (length l) <= n -> adds add l h = Some h' ->
  exists n', clean_chain (_resize add) l n h = Some ([], n', h').
Proof.
  revert n h. induction l as [|x l IH]; intros n h Hn Ha; cbn [clean_chain]; cbn [adds length] in *.
  { simplify_eq. by eexists. }
  destruct (add h x true) as [[r h1]|] eqn:E; [|done]. cbn [mbind option_bind] in Ha.
  assert (Hr : _resize add x h = Some (true, h1)) by (unfold _resize; by rewrite E).
  rewrite Hr. cbn [mbind option_bind].
  rewrite option_guard_True by lia. apply IH; [lia|done].
Qed.

Lemma clean_buckets_resize add t h h' :
  Forall (fun b => Z.of_nat (length (e b)) <= len b) t -> adds add (elems t) h = Some h' ->
  exists t', clean_buckets (_resize add) t h = Some (t', h').
Proof.
  intros Hf. revert h. induction Hf as [|b t Hb Hf IH]; intros h Ha; cbn in *.
  { simplify_eq. by eexists. }
  rewrite adds_app in Ha. destruct (adds add (e b) h) as [h1|] eqn:E; [|done].
  destruct (clean_chain_resize add _ _ _ _ Hb E) as [n' ->]. cbn in *.
  destruct (IH h1 Ha) as [t' ->]. by eexists.
Qed.

(** The keys of a table are different throughout. *)
Lemma elems_NoDup htab : ht_ok htab -> NoDup (key <$> elems (tab htab)).
Proof.
  intros (Hsz & Hlen & Hb). clear Hlen.
  assert (Hg : forall t i0,
    (forall i b, t !! i = Some b -> bucket_ok htab (i0 + i) b) -> NoDup (key <$> elems t)).
  { induction t as [|b t IH]; intros i0 Ht; [constructor|]. cbn. rewrite fmap_app.
    apply NoDup_app. destruct (Ht 0%nat b eq_refl) as (_ & Hnd & Hf).
    rewrite Nat.add_0_r in Hf. split_and!; [done| |].
    - intros k (x & -> & Hx)%list_elem_of_fmap (y & Hk & Hy)%list_elem_of_fmap.
      unfold elems in Hy. apply list_elem_of_bind in Hy as (c & Hy & Hc).
      apply list_elem_of_lookup in Hc as [j Hc].
      destruct (Ht (S j) c Hc) as (_ & _ & Hf'). rewrite Forall_forall in Hf, Hf'.
      pose proof (Hf x Hx) as E1. pose proof (Hf' y Hy) as E2. cbv beta in E1, E2.
      rewrite (slot_key htab x y Hk) in E1. lia.
    - apply (IH (S i0)). intros i c Hc. specialize (Ht (S i) c Hc).
      by replace (S i0 + i)%nat with (i0 + S i)%nat by lia. }
  apply (Hg _ 0%nat). exact Hb.
Qed.

Lemma rep_ext h1 h2 m : sz h1 = sz h2 -> tab h1 = tab h2 -> rep h1 m -> rep h2 m.
Proof.
  unfold rep, ht_ok, bucket_ok, Hash.slot. by intros -> ->.
Qed.

(** A new table is empty. *)
Lemma rep_new n f b :
  0 < n < N ->
  rep {| flags := f; sz := n; maxbucketlen := b;
         tab := replicate (Z.to_nat n) {| e := []; len := 0 |} |} ∅.
Proof.
  intros Hn. split.
  - split_and!; cbn; [lia|lia|by rewrite length_replicate|].
    intros i c [-> Hi]%lookup_replicate. split_and!; cbn; [lia|constructor|constructor].
  - intros k x. rewrite lookup_empty. split; [done|]. cbn. unfold elems.
    intros [(c & Hx & [-> _]%elem_of_replicate)%list_elem_of_bind _].
    by apply not_elem_of_nil in Hx.
Qed.

Section Grow.
Context (findprime : Z -> option Z) (malloc_table : Z -> bool) (malloc_entry : T -> bool).
Context (Hmt : forall n, N <= n -> malloc_table n = false) (HN : N <= 2^30).
Context (Hme : forall x, malloc_entry x = true).
Context (Hfp : forall p, 2 <= p < 2 * N -> exists q, findprime p = Some q /\ p <= q).

Abbreviation add := (_add cmp hash findprime malloc_table malloc_entry).

(** What an insertion does on a table of at least [s] buckets. *)
Definition add_ok (ad : Hashtab T -> T -> bool -> option (bool * Hashtab T)) (s : Z) : Prop :=
  forall htab m p u, rep htab m -> s <= sz htab ->
  exists htab', ad htab p u = Some (fst (add_result m p u), htab') /\
    rep htab' (snd (add_result m p u)) /\ sz htab <= sz htab' /\ flags htab' = flags htab.

Lemma adds_spec ad s l h m :
  add_ok ad s -> rep h m -> s <= sz h -> NoDup (key <$> l) ->
  (forall x, x ∈ l -> m !! key x = None) ->
  exists h' m', adds ad l h = Some h' /\ rep h' m' /\ sz h <= sz h' /\
    (forall k x, m' !! k = Some x <-> m !! k = Some x \/ (x ∈ l /\ key x = k)).
Proof.
  intros Had. revert h m. induction l as [|x l IH]; intros h m Hrep Hs Hnd Hm.
  { exists h, m. split_and!; [done|done|lia|]. intros k y. rewrite elem_of_nil. naive_solver. }
  apply NoDup_cons in Hnd as [Hx Hnd].
  destruct (Had h m x true Hrep Hs) as (h1 & Ha & Hrep1 & Hsz1 & _).
  assert (Hr : add_result m x true = (true, <[key x:=x]> m)).
  { unfold add_result. by rewrite (Hm x (list_elem_of_here _ _)). }
  rewrite Hr in Ha, Hrep1. cbn in Ha, Hrep1.
  destruct (IH h1 (<[key x:=x]> m)) as (h' & m' & Ha' & Hrep' & Hsz' & Hm'); [done|lia|done| |].
  { intros y Hy. rewrite lookup_insert_ne; [by apply Hm; right|].
    intros Hk. apply Hx. rewrite Hk. by apply list_elem_of_fmap_2. }
  exists h', m'. split_and!; [by cbn [adds]; rewrite Ha|done|lia|].
  intros k y. rewrite Hm', elem_of_cons, lookup_insert_Some.
  pose proof (Hm x (list_elem_of_here _ _)). naive_solver.
Qed.

(** Growing keeps the map. *)
Lemma might_resize_rep ad htab m n :
  add_ok ad (sz htab + 1) -> rep htab m ->
  exists htab', _might_resize findprime malloc_table ad htab n = Some htab' /\ rep htab' m /\
    sz htab <= sz htab' /\ flags htab' = flags htab.
Proof.
  intros Had Hrep. pose proof Hrep as [Hok Hm]. pose proof Hok as (Hsz & Hlen & Hb).
  unfold _might_resize. destruct (_ <? _); [|by exists htab].
  rewrite option_guard_True by lia.
  destruct (Hfp (sz htab * 2)) as (q & -> & Hq); [lia|]. cbn [mbind option_bind].
  rewrite option_guard_True by lia.
  unfold hashtabnewf. rewrite option_guard_True by (left; lia).
  replace (q =? 0) with false by (symmetry; apply Z.eqb_neq; lia). cbn [andb].
  destruct (malloc_table q) eqn:Emt; [|by exists htab]. cbn [mbind option_bind].
  assert (Hq' : q < N).
  { destruct (decide (q < N)); [done|]. rewrite Hmt in Emt by lia. done. }
  destruct (adds_spec ad (sz htab + 1) (elems (tab htab))
    {| flags := flags htab; sz := q; maxbucketlen := HASHTAB_MAX_BUCKET_LEN;
       tab := replicate (Z.to_nat q) {| e := []; len := 0 |} |} ∅)
    as (h' & m' & Ha & Hrep' & Hsz' & Hm').
  { done. } { apply rep_new. lia. } { cbn. lia. } { by apply elems_NoDup. }
  { intros x _. by rewrite lookup_empty. }
  edestruct (clean_buckets_resize ad (tab htab)) as [t' Ht']; [|exact Ha|].
  { apply Forall_forall. intros b [i Hi]%list_elem_of_lookup. by destruct (Hb i b Hi). }
  unfold hashtabcleantab. rewrite Ht'. cbn [mbind option_bind].
  assert (m' = m) as ->.
  { apply map_eq. intros k. apply option_eq. intros x. rewrite Hm', Hm, lookup_empty.
    naive_solver. }
  eexists. split_and!; [done| |cbn in *; lia|done].
  by apply rep_ext with h'.
Qed.

(** A bucket with [p] in it, in the place of an entry with its key if there
    was one. *)
Lemma rep_store htab m p b c n :
  rep htab m -> tab htab !! Z.to_nat (slot htab p) = Some b ->
  Z.of_nat (length c) <= n -> NoDup (key <$> c) ->
  (forall x, x ∈ c <-> x = p \/ (x ∈ e b /\ key x <> key p)) ->
  rep (set_chain htab (slot htab p) {| e := c; len := n |}) (<[key p:=p]> m).
Proof.
  intros Hrep Hl Hn Hnd Hc. pose proof Hrep as [Hok Hm]. pose proof Hok as (Hsz & _ & Hb).
  destruct (Hb _ _ Hl) as (_ & _ & Hfa). rewrite Forall_forall in Hfa.
  apply rep_set_chain with m; [done|apply slot_range; lia| |].
  - split_and!; [done|done|]. apply Forall_forall. intros x Hx.
    apply Hc in Hx as [->|[Hx _]]; [done|by apply Hfa].
  - intros k x. cbn [e]. rewrite Hc, lookup_insert_Some. split.
    + intros [[Hk Hp]|[Hk Hx]]; [subst; by split; [left; left|]|].
      pose proof Hx as Hx'. apply Hm in Hx' as [Hin Hkx]. split; [|done].
      destruct (decide (slot htab x = slot htab p)) as [Hs|]; [left; right|by right].
      split; [|congruence]. apply elem_of_elems in Hin as (b' & Hl' & Hin); [|done].
      rewrite Hs in Hl'. congruence.
    + intros [[[->|[Hx Hne]]|[Hx Hs]] Hk]; [by left|right|right].
      * split; [congruence|]. apply Hm. split; [|done]. apply elem_of_elems; [done|].
        exists b. split; [|done]. by rewrite (Hfa x Hx).
      * split; [|done]. intros <-. by apply Hs, slot_key.
Qed.

Lemma add_spec fuel s : (Z.to_nat (N - s) < fuel)%nat -> add_ok (add fuel) s.
Proof.
  revert s. induction fuel as [|fuel IH]; intros s Hf htab m p u Hrep Hs; [lia|].
  cbn [_add]. rewrite (search_lookup htab m p Hrep). cbn [mbind option_bind].
  destruct (rep_bucket htab m p Hrep) as (b & Hl & (Hlen & Hnd & Hfa) & Hfe).
  rewrite Hl. cbn [mbind option_bind]. unfold add_result.
  pose proof Hrep as [Hok Hm]. pose proof Hok as (Hsz & _).
  pose proof (chain_search_spec p (e b)) as Hspec. rewrite Hfe in Hspec.
  destruct (m !! key p) as [x|] eqn:Hx.
  - destruct u; eexists; (split_and!; [done| |cbn; lia|done]); [done|].
    apply rep_store with b; [done|done| | |].
    + pose proof (f_equal length (replace_entry_keys p (e b))) as El.
      rewrite !length_fmap in El. lia.
    + by rewrite replace_entry_keys.
    + intros y. apply elem_of_replace_entry; [done|]. by exists x.
  - rewrite Hme. cbn [negb fst snd].
    assert (Hrep' : rep (set_chain htab (slot htab p) {| e := p :: e b; len := len b + 1 |})
                        (<[key p:=p]> m)).
    { apply rep_store with b; [done|done|cbn; lia| |].
      - apply NoDup_cons. split; [|done]. intros (y & Hk & Hy)%list_elem_of_fmap.
        by apply (Hspec y).
      - intros y. rewrite elem_of_cons. split; [|naive_solver].
        intros [->|Hy]; [by left|right]. split; [done|by apply Hspec]. }
    destruct (grows _); [|by eexists; split_and!; [done|done|cbn; lia|done]].
    destruct (might_resize_rep (add fuel)
      (set_chain htab (slot htab p) {| e := p :: e b; len := len b + 1 |})
      (<[key p:=p]> m) (len b + 1)) as (h' & Hr & Hrh & Hrs & Hfl); [apply IH; cbn; lia|done|].
    rewrite Hr. cbn [mbind option_bind]. by exists h'.
Qed.

(** C38: Insertion, with the growth it may bring: in a table that holds the map
    [m], with no allocation of an entry failing, tables of [N] buckets or more
    refused, and a prime search that answers, [hashtabadd] adds the element if
    its key is not there and answers NULL and changes nothing if it is, while
    [hashtabaddreplace] puts it in either way.  Rounds of growing nest no
    deeper than the sizes up to [N]. *)
Theorem hash_add_correct fuel htab m p :
  rep htab m -> (Z.to_nat (N - sz htab) < fuel)%nat ->
  (exists htab', hashtabadd cmp hash findprime malloc_table malloc_entry fuel htab p =
     Some (bool_decide (m !! key p = None), htab') /\
     rep htab' (if m !! key p is Some _ then m else <[key p := p]> m)) /\
  (exists htab', hashtabaddreplace cmp hash findprime malloc_table malloc_entry fuel htab p =
     Some (true, htab') /\ rep htab' (<[key p := p]> m)).
Proof.
  intros Hrep Hf. unfold hashtabadd, hashtabaddreplace.
  pose proof (add_spec fuel (sz htab) Hf htab m p) as Hs.
  destruct (Hs true) as (h1 & H1 & R1 & _); [done|lia|].
  destruct (Hs false) as (h2 & H2 & R2 & _); [done|lia|].
  rewrite H1, H2. unfold add_result in *.
  destruct (m !! key p); cbn in *; split; by eexists.
Qed.
End Grow.

(** A new table holds the empty map; search answers what the map holds at
    the key of the element asked for; deletion takes that key out, and answers
    -1 exactly when it was not there. *)
Theorem hash_search_del_correct (malloc_table : Z -> bool) n f htab m p :
  rep htab m -> 0 < n < N -> malloc_table n = true ->
  (exists h0, hashtabnewf malloc_table n f = Some (Some h0) /\ rep h0 ∅) /\
  hashtabsearch cmp hash htab p = Some (m !! key p) /\
  (exists htab', _hashtabdel cmp hash htab p =
     Some (if m !! key p is Some _ then 0 else -1, htab') /\ rep htab' (delete (key p) m)).
Proof.
  intros Hrep Hn Hmt. split_and!; [|by apply search_lookup|by apply del_delete].
  unfold hashtabnewf. rewrite option_guard_True by (left; lia).
  replace (n =? 0) with false by (symmetry; apply Z.eqb_neq; lia). cbn [mbind option_bind andb].
  rewrite Hmt. eexists. split; [done|]. by apply rep_new.
Qed.
End Keys.
End Map.

(** ** Hash functions *)

Lemma hashcaseadd_toupper s t : toupper <$> s = toupper <$> t -> hashcaseadd s = hashcaseadd t.
Proof.
  unfold hashcaseadd. generalize 0. revert t.
  induction s as [|c s IH]; intros [|d t] z Heq; try discriminate; [done|].
  cbn in Heq |- *. injection Heq as -> Heq. by apply IH.
Qed.

Lemma high_bits_zero h : 0 <= h < 2^32 -> Z.land h HIGH_BITS = 0 -> h < 2^28.
Proof.
  intros Hh Hz. change HIGH_BITS with (Z.shiftl 15 28) in Hz.
  assert (Hs : Z.shiftr h 28 = 0).
  { apply Z.bits_inj'. intros i Hi. rewrite Z.bits_0, Z.shiftr_spec by done.
    destruct (decide (i < 4)) as [Hlt|].
    - assert (Hb : Z.testbit (Z.land h (Z.shiftl 15 28)) (i + 28) = false) by
        (rewrite Hz; apply Z.bits_0).
      rewrite Z.land_spec, Z.shiftl_spec in Hb by lia. replace (i + 28 - 28) with i in Hb by lia.
      assert (Z.testbit 15 i = true) as Ht.
      { assert (i = 0 \/ i = 1 \/ i = 2 \/ i = 3) as [-> | [-> | [-> | ->]]] by lia; done. }
      by rewrite Ht, andb_true_r in Hb.
    - destruct (decide (h = 0)) as [->|]; [apply Z.bits_0|]. apply Z.bits_above_log2; [lia|].
      apply Z.log2_lt_pow2; [lia|]. apply Z.lt_le_trans with (2^32); [lia|].
      apply Z.pow_le_mono_r; lia. }
  rewrite Z.shiftr_div_pow2 in Hs by lia. apply Z.div_small_iff in Hs; lia.
Qed.

Lemma jpw_step_range h c : 0 <= jpw_step h c < 2^28.
Proof.
  unfold jpw_step. set (h' := uwrap32 _).
  assert (Hr : 0 <= h' < 2^32) by (apply Z.mod_pos_bound; lia).
  destruct (Z.eqb_spec (Z.land h' HIGH_BITS) 0) as [Hz|Hz]; cbn [negb].
  - split; [lia|by apply high_bits_zero].
  - change (uwrap32 (Z.lnot HIGH_BITS)) with (Z.ones 28). rewrite Z.land_ones by lia.
    apply Z.mod_pos_bound. lia.
Qed.

(** [hashjpw] stays below 2^28, and [hashcaseadd] gives strings that differ in
    case only one bucket, as a comparison that ignores case requires. *)
Theorem hash_functions_correct s :
  0 <= hashjpw s < 2^28 /\
  forall t, toupper <$> s = toupper <$> t -> hashcaseadd s = hashcaseadd t.
Proof.
  assert (Hfold : forall (f : Z -> Z -> Z) n l z, 0 <= z < n -> (forall a b, 0 <= f a b < n) ->
    0 <= fold_left f l z < n).
  { intros f n l. induction l as [|c l IH]; intros z Hz Hf; [done|]. by apply IH. }
  split; [|intros t; apply hashcaseadd_toupper].
  apply (Hfold jpw_step); [lia|]. intros. apply jpw_step_range.
Qed.

(** ** Names as keys *)

(** Names without regard to case, in tables of at most 64 buckets. *)
Definition casecmp (x y : bytes) : Z := if decide (toupper <$> x = toupper <$> y) then 0 else 1.

Definition small_table (n : Z) : bool := n <? 64.

Abbreviation nadd := (hashtabadd casecmp hashcaseadd (arlautil_findprime 100) small_table (const true) 100).

Abbreviation ndel := (_hashtabdel casecmp hashcaseadd).

(** Insert and delete one name [n] times over. *)
Fixpoint churn (n : nat) (x : bytes) (htab : Hashtab bytes) : option (Hashtab bytes) :=
  match n with
  | O => Some htab
  | S n => '(_, htab) ← nadd htab x; '(_, htab) ← ndel htab x; churn n x htab
  end.

Definition names17 : Hashtab bytes :=
  {| flags := HASHTAB_GROW; sz := 17; maxbucketlen := HASHTAB_MAX_BUCKET_LEN;
     tab := replicate 17 {| e := []; len := 0 |} |}.

(** Deletion leaves the length of the bucket as it was.  An instance: a growing table
    in which one name is inserted and deleted 21 times over ends up empty with
    37 buckets in place of its 17. *)
Theorem hash_churn_grows :
  hashtabnewf small_table 17 HASHTAB_GROW = Some (Some names17) /\
  (fun h => (sz h, elems (tab h))) <$> churn 21 [97; 98] names17 = Some (37, []).
Proof. split; [reflexivity|]. vm_compute. reflexivity. Qed.

Module Witnesses.

Lemma findprime_witness :
  exists q, arlautil_findprime 5 34 = Some q /\ Z.prime q /\ 34 <= q <= 37 /\
    forall j, 2 < j -> 34 <= j < q -> ~ Z.prime j.
Proof.
  apply (findprime_next_prime 34 37); [lia|lia| |reflexivity|vm_compute; lia].
  split; [lia|]. intros n Hn [q Hq].
  assert (Hall : forallb (fun n => negb (37 mod n =? 0)) (seqZ 2 35) = true) by reflexivity.
  rewrite forallb_forall in Hall. specialize (Hall n).
  rewrite Hq, Z.mod_mul in Hall by lia. discriminate Hall.
  apply list_elem_of_In, elem_of_seqZ. lia.
Defined.

Definition upkey (x : bytes) : list Z := toupper <$> x.

Lemma casecmp_key x y : casecmp x y = 0 <-> upkey x = upkey y.
Proof. unfold casecmp, upkey. destruct (decide _); split; done. Qed.

Lemma small_findprime p :
  2 <= p < 2 * 64 -> exists q, arlautil_findprime 100 p = Some q /\ p <= q.
Proof.
  intros Hp.
  assert (Hall : forallb (fun p => match arlautil_findprime 100 p with
    Some q => p <=? q | None => false end) (seqZ 2 126) = true) by (vm_compute; reflexivity).
  rewrite forallb_forall in Hall. specialize (Hall p).
  destruct (arlautil_findprime 100 p) as [q|].
  - exists q. split; [done|]. apply Z.leb_le, Hall, list_elem_of_In, elem_of_seqZ. lia.
  - discriminate Hall. apply list_elem_of_In, elem_of_seqZ. lia.
Qed.

Lemma hash_add_correct_witness :
  exists h0, hashtabnewf small_table 17 HASHTAB_GROW = Some (Some h0) /\
  (exists htab', nadd h0 [97; 98] = Some (true, htab') /\
     rep upkey hashcaseadd 64 htab' {[ [65; 66] := [97; 98] ]}).
Proof.
  eexists. split; [reflexivity|].
  destruct (hash_add_correct upkey casecmp hashcaseadd 64 casecmp_key hashcaseadd_toupper
    (arlautil_findprime 100) small_table (const true)
    (fun n Hn => proj2 (Z.ltb_ge n 64) Hn) ltac:(lia) (fun _ => eq_refl) small_findprime
    100 _ ∅ [97; 98] (rep_new upkey hashcaseadd 64 17 HASHTAB_GROW 20 ltac:(lia)))
    as [H _].
  - vm_compute. lia.
  - exact H.
Defined.

Lemma hash_search_del_correct_witness :
  exists h0, hashtabnewf small_table 17 HASHTAB_GROW = Some (Some h0) /\
    hashtabsearch casecmp hashcaseadd h0 [97; 98] = Some None.
Proof.
  eexists. split; [reflexivity|].
  apply (hash_search_del_correct upkey casecmp hashcaseadd 64 casecmp_key
    hashcaseadd_toupper small_table 17 HASHTAB_GROW _ ∅ [97; 98]
    (rep_new upkey hashcaseadd 64 17 HASHTAB_GROW 20 ltac:(lia))); [lia|reflexivity].
Defined.
End Witnesses.
