(* ===== verification/Vtrans.v ===== *)
(** * Volume transactions

    The table of transactions of the volume server (milko/lib/vld/vld.c,
    vld_create_trans to vld_check_busy; struct trans in vld.h).  A procedure
    of the volume server names a transaction by its id; between
    [vld_get_trans] and [vld_put_trans] it holds a pointer to the structure
    itself, which [vld_end_trans] may take out of the table in the meantime.
    The model therefore keeps the structures in a heap, the table as an array
    of pointers, and frees what the code frees: a use of a freed structure, a
    read past the end of the table and an overflow of [perm_tid] abort the
    run. *)

From S2P Require Import Prelude Estate.

Local Open Scope em_scope.

Definition MAX_TRANSACTIONS : nat := 100.
Definition ITOffline : Z := 0x1.
Definition ITBusy : Z := 0x2.
Definition ITCreate : Z := 0x10.
Definition VOFFLINE : Z := 106.
Definition VBUSY : Z := 110.

(** [int16_t] and [int8_t] *)
Definition swrap16 (z : Z) : Z := (z + 2^15) mod 2^16 - 2^15.
Definition swrap8 (z : Z) : Z := (z + 2^7) mod 2^8 - 2^7.

(** [struct trans]; its [volume] is set to null and never used. *)
Record trans := Trans {
  tid : Z; time : Z; creationTime : Z; returnCode : Z;
  volid : Z; partition : Z;
  refCount : Z;                 (* int16_t *)
  iflags : Z;                   (* int16_t *)
  vflags : Z;                   (* int8_t *)
  tflags : Z; incremental : Z
}.

Definition set_refCount (v : Z) (t : trans) : trans :=
  let 'Trans a b c d e f _ h i j k := t in Trans a b c d e f v h i j k.
Definition set_iflags (v : Z) (t : trans) : trans :=
  let 'Trans a b c d e f g _ i j k := t in Trans a b c d e f g v i j k.
Definition set_vflags (v : Z) (t : trans) : trans :=
  let 'Trans a b c d e f g h _ j k := t in Trans a b c d e f g h v j k.

(** [transactions], [perm_tid] and the structures that are allocated, by
    address. *)
Record tstate := TState {
  transactions : list (option Z);
  perm_tid : Z;
  theap : gmap Z trans
}.

Definition trans_boot : tstate := TState (replicate MAX_TRANSACTIONS None) 1 ∅.

Definition set_slot (i : nat) (p : option Z) (s : tstate) : tstate :=
  TState (<[i := p]> (transactions s)) (perm_tid s) (theap s).
Definition set_theap (h : gmap Z trans) (s : tstate) : tstate :=
  TState (transactions s) (perm_tid s) h.

Definition TM : Type -> Type := EM tstate.

(** [*p] *)
Definition deref (p : Z) : TM trans := s <-- eget ;; eopt (theap s !! p).
Definition store (p : Z) (t : trans) : TM unit :=
  emod (fun s => set_theap (<[p := t]> (theap s)) s).
Definition free (p : Z) : TM unit := emod (fun s => set_theap (delete p (theap s)) s).

(** The loops of the functions below: the first slot from [i] on whose
    transaction satisfies [c], with the pointer in it. *)
Fixpoint scan (h : gmap Z trans) (c : trans -> bool) (i : nat) (l : list (option Z))
    : option (option (nat * Z)) :=
  match l with
  | [] => Some None
  | None :: l => scan h c (S i) l
  | Some p :: l =>
      t ← h !! p;
      if c t then Some (Some (i, p)) else scan h c (S i) l
  end.
Definition find_trans (c : trans -> bool) : TM (option (nat * Z)) :=
  s <-- eget ;; eopt (scan (theap s) c 0 (transactions s)).

(** The loop of [vld_create_trans]: the first empty slot. *)
Fixpoint find_empty (i : nat) (l : list (option Z)) : option nat :=
  match l with
  | [] => None
  | None :: _ => Some i
  | Some _ :: l => find_empty (S i) l
  end.

Definition busy_match (vol part : Z) (t : trans) : bool :=
  ((part =? -1) || (partition t =? part)) && (volid t =? vol).

Definition vld_check_busy (vol part : Z) : TM unit :=
  r <-- find_trans (busy_match vol part) ;;
  match r with
  | None => eret tt
  | Some (_, p) =>
      t <-- deref p ;;
      if negb (Z.land (iflags t) ITOffline =? 0) then efail VOFFLINE else
      if negb (Z.land (iflags t) ITBusy =? 0) then efail VBUSY else
      efail EINVAL
  end.

(** [now] is the result of [time] and [alloc] that of [malloc].  When every
    slot is taken the loop ends with [i] equal to MAX_TRANSACTIONS and the
    test that follows reads past the array. *)
Definition vld_create_trans (now : Z) (alloc : option Z) (part vol : Z) : TM Z :=
  vld_check_busy vol part ;;!
  s <-- eget ;;
  match find_empty 0 (transactions s) with
  | None => eabort
  | Some i =>
      match alloc with
      | None => efail ENOMEM
      | Some p =>
          let t := perm_tid s in
          eassert (t + 1 <? 2^31) ;;!
          emod (fun s => TState (<[i := Some p]> (transactions s)) (t + 1)
                  (<[p := Trans t (swrap32 now) (swrap32 now) 0 vol part 1 0 0 0 0]> (theap s))) ;;!
          eret t
      end
  end.

Definition vld_get_trans (transid : Z) : TM Z :=
  r <-- find_trans (fun t => tid t =? transid) ;;
  match r with
  | Some (_, p) =>
      t <-- deref p ;;
      store p (set_refCount (swrap16 (refCount t + 1)) t) ;;!
      eret p
  | None => efail EINVAL
  end.

Definition vld_put_trans (p : Z) : TM unit :=
  t <-- deref p ;;
  let t := set_refCount (swrap16 (refCount t - 1)) t in
  store p t ;;!
  if refCount t <? 1 then free p else eret tt.

Definition vld_verify_trans (transid : Z) : TM unit :=
  r <-- find_trans (fun t => tid t =? transid) ;;
  match r with Some _ => eret tt | None => efail ENOENT end.

(** Returns the [*rcode] it stores when the pointer is not null. *)
Definition vld_end_trans (transid : Z) : TM Z :=
  r <-- find_trans (fun t => tid t =? transid) ;;
  match r with
  | Some (i, p) =>
      t <-- deref p ;;
      vld_put_trans p ;;!
      emod (set_slot i None) ;;!
      eret (returnCode t)
  | None => efail ENOENT
  end.

Definition vld_trans_set_iflags (transid f : Z) : TM unit :=
  r <-- find_trans (fun t => tid t =? transid) ;;
  match r with
  | Some (_, p) => t <-- deref p ;; store p (set_iflags (swrap16 f) t)
  | None => efail EINVAL
  end.

Definition vld_trans_set_vflags (transid f : Z) : TM unit :=
  r <-- find_trans (fun t => tid t =? transid) ;;
  match r with
  | Some (_, p) => t <-- deref p ;; store p (set_vflags (swrap8 f) t)
  | None => efail EINVAL
  end.

Definition vld_trans_get_vflags (transid : Z) : TM Z :=
  r <-- find_trans (fun t => tid t =? transid) ;;
  match r with
  | Some (_, p) => t <-- deref p ;; eret (vflags t)
  | None => efail EINVAL
  end.
