(* ===== verification/VtransCorrect.v ===== *)
(** * Correctness of the transaction table

    [tinv s held]: the table and the pointers [held] by running procedures
    account for every allocated structure; ids and volumes are not shared.
    Each function is executed symbolically under [tinv]; the step relation of
    the table is proved safe and a refinement of a finite map from ids to
    volumes. *)

From S2P Require Import Prelude Estate Vtrans.

Local Open Scope em_scope.

(** ** Vocabulary *)

(** The pointers in the table, in its order. *)
Definition live (l : list (option Z)) : list Z := omap id l.
Definition in_table (p : Z) (s : tstate) : Z := count p (live (transactions s)).

Record tinv (s : tstate) (held : list Z) : Prop := {
  ti_len : length (transactions s) = MAX_TRANSACTIONS;
  ti_nodup : NoDup (live (transactions s));
  ti_table : forall p, p ∈ live (transactions s) -> is_Some (theap s !! p);
  ti_held : forall p, p ∈ held -> is_Some (theap s !! p);
  ti_refs : forall p t, theap s !! p = Some t ->
    refCount t = in_table p s + count p held /\ 1 <= refCount t;
  ti_tids : forall p t, theap s !! p = Some t -> 1 <= tid t < perm_tid s;
  ti_tid_inj : forall p q t u, theap s !! p = Some t -> theap s !! q = Some u ->
    tid t = tid u -> p = q;
  ti_volumes : forall p q t u, p ∈ live (transactions s) -> q ∈ live (transactions s) ->
    theap s !! p = Some t -> theap s !! q = Some u ->
    volid t = volid u -> partition t = partition u -> p = q;
  ti_perm : 1 <= perm_tid s < 2^31
}.

(** ** Lists of pointers *)

Lemma live_app l1 l2 : live (l1 ++ l2) = live l1 ++ live l2.
Proof. unfold live. apply omap_app. Qed.

(** ** The loops *)

Lemma scan_spec h c l : forall i,
  (forall p, p ∈ live l -> is_Some (h !! p)) ->
  (exists j p t l1 l2, scan h c i l = Some (Some ((i + j)%nat, p)) /\
     l = l1 ++ Some p :: l2 /\ length l1 = j /\ h !! p = Some t /\ c t = true) \/
  (scan h c i l = Some None /\
     forall p t, p ∈ live l -> h !! p = Some t -> c t = false).
Proof.
  induction l as [|[q|] l IH]; intros i Hl; simpl.
  - right. split; [done|]. intros p t Hp. by apply elem_of_nil in Hp.
  - destruct (Hl q (list_elem_of_here _ _)) as [t Ht]. rewrite Ht. simpl.
    destruct (c t) eqn:Hc.
    + left. exists O, q, t, [], l. rewrite Nat.add_0_r. done.
    + destruct (IH (S i)) as [(j & p & t' & l1 & l2 & Hs & -> & Hj & Hp & Hct)|[Hs Hall]].
      { intros p Hp. apply Hl. by apply list_elem_of_further. }
      * left. exists (S j), p, t', (Some q :: l1), l2. rewrite Hs, Nat.add_succ_r. simpl.
        split_and!; [done..|by rewrite Hj|done|done].
      * right. split; [done|]. intros p t' [->|Hp]%elem_of_cons Ht'; [congruence|eauto].
  - destruct (IH (S i)) as [(j & p & t' & l1 & l2 & Hs & -> & Hj & Hp & Hct)|[Hs Hall]].
    { exact Hl. }
    + left. exists (S j), p, t', (None :: l1), l2. rewrite Hs, Nat.add_succ_r. simpl.
      split_and!; [done..|by rewrite Hj|done|done].
    + right. split; [done|]. exact Hall.
Qed.

Lemma find_empty_spec l : forall i,
  match find_empty i l with
  | Some k => exists j l1 l2, k = (i + j)%nat /\ l = l1 ++ None :: l2 /\ length l1 = j
  | None => length (live l) = length l
  end.
Proof.
  induction l as [|[q|] l IH]; intros i; simpl; [done|..].
  - specialize (IH (S i)). destruct (find_empty (S i) l) as [k|].
    + destruct IH as (j & l1 & l2 & -> & -> & Hj). exists (S j), (Some q :: l1), l2.
      split_and!; [lia|done|simpl; by rewrite Hj].
    + by rewrite IH.
  - exists O, [], l. split_and!; [lia|done|done].
Qed.

(** What a search of the table gives under the invariant. *)
Lemma find_trans_run s held c :
  tinv s held ->
  (exists i p t l1 l2, find_trans c s = Some (s, inr (Some (i, p))) /\
     transactions s = l1 ++ Some p :: l2 /\ length l1 = i /\
     theap s !! p = Some t /\ c t = true) \/
  (find_trans c s = Some (s, inr None) /\
     forall p t, p ∈ live (transactions s) -> theap s !! p = Some t -> c t = false).
Proof.
  intros Hi. unfold find_trans. rewrite ebind_get. unfold eopt.
  destruct (scan_spec (theap s) c (transactions s) 0 (ti_table _ _ Hi))
    as [(j & p & t & l1 & l2 & Hs & Hl & Hj & Hp & Hc)|[Hs Hall]]; rewrite Hs.
  - left. exists j, p, t, l1, l2. done.
  - right. done.
Qed.

(** ** The heap *)

Lemma swrap16_small z : - 2^15 <= z < 2^15 -> swrap16 z = z.
Proof. intros ?. unfold swrap16. rewrite Z.mod_small; lia. Qed.

(** The structure [p] is changed in place: its counter follows the pointers
    [held'], everything that identifies it stays. *)
Lemma tinv_store s held held' p t t' :
  tinv s held -> theap s !! p = Some t ->
  tid t' = tid t -> volid t' = volid t -> partition t' = partition t ->
  refCount t' = refCount t + (count p held' - count p held) -> 1 <= refCount t' ->
  (forall q, q <> p -> count q held' = count q held) ->
  tinv (set_theap (<[p := t']> (theap s)) s) held'.
Proof.
  intros Hi Hp Ht Hv Hq Hr Hr1 Hoth.
  assert (Hlk : forall q u, <[p := t']> (theap s) !! q = Some u ->
    exists u0, theap s !! q = Some u0 /\ tid u = tid u0 /\ volid u = volid u0 /\
      partition u = partition u0).
  { intros q u. destruct (decide (q = p)) as [->|Hn].
    - rewrite lookup_insert_eq. intros [= <-]. eauto.
    - rewrite lookup_insert_ne by done. eauto. }
  split; simpl.
  - apply (ti_len _ _ Hi).
  - apply (ti_nodup _ _ Hi).
  - intros q Hql. destruct (decide (q = p)) as [->|Hn];
      [rewrite lookup_insert_eq; eauto|rewrite lookup_insert_ne by done].
    by apply (ti_table _ _ Hi).
  - intros q Hql. destruct (decide (q = p)) as [->|Hn];
      [rewrite lookup_insert_eq; eauto|rewrite lookup_insert_ne by done].
    apply (ti_held _ _ Hi). apply count_in. rewrite <- Hoth by done. by apply count_pos.
  - intros q u. destruct (decide (q = p)) as [->|Hn].
    + rewrite lookup_insert_eq. intros [= <-].
      destruct (ti_refs _ _ Hi p t Hp) as [He _]. unfold in_table in *. simpl. lia.
    + rewrite lookup_insert_ne by done. intros Hu.
      destruct (ti_refs _ _ Hi q u Hu) as [He ?]. unfold in_table in *. simpl.
      rewrite (Hoth q) by done. lia.
  - intros q u (u0 & Hu0 & -> & _)%Hlk. by apply (ti_tids _ _ Hi q).
  - intros q r u v (u0 & Hu0 & -> & _)%Hlk (v0 & Hv0 & -> & _)%Hlk.
    by apply (ti_tid_inj _ _ Hi).
  - intros q r u v Hql Hrl (u0 & Hu0 & _ & -> & ->)%Hlk (v0 & Hv0 & _ & -> & ->)%Hlk.
    by apply (ti_volumes _ _ Hi).
  - apply (ti_perm _ _ Hi).
Qed.

(** The heap after [vld_put_trans]. *)
Definition put_heap (p : Z) (t : trans) (h : gmap Z trans) : gmap Z trans :=
  let t' := set_refCount (swrap16 (refCount t - 1)) t in
  if refCount t' <? 1 then delete p (<[p := t']> h) else <[p := t']> h.

Lemma put_run s p t :
  theap s !! p = Some t ->
  vld_put_trans p s = Some (set_theap (put_heap p t (theap s)) s, inr tt).
Proof.
  intros Hp. unfold vld_put_trans, deref, ebind, eget. rewrite Hp. simpl.
  unfold store, emod, put_heap. by case_match.
Qed.

(** A reference to [p] is given up, by the table or by a procedure. *)
Lemma tinv_release s held l' held' p t :
  tinv s held -> theap s !! p = Some t ->
  length l' = MAX_TRANSACTIONS -> NoDup (live l') ->
  (forall q, q ∈ live l' -> q ∈ live (transactions s)) ->
  (forall q, count q (live l') + count q held' =
     in_table q s + count q held - (if decide (q = p) then 1 else 0)) ->
  (forall q, q ∈ held' -> q ∈ held) ->
  refCount t < 2^15 ->
  tinv (TState l' (perm_tid s) (put_heap p t (theap s))) held'.
Proof.
  intros Hi Hp Hlen Hnd Hsub Hcnt Hheld Hbound.
  destruct (ti_refs _ _ Hi p t Hp) as [Href Hpos].
  assert (Hw : swrap16 (refCount t - 1) = refCount t - 1) by (apply swrap16_small; lia).
  set (t' := set_refCount (refCount t - 1) t).
  assert (Hr' : refCount t' = refCount t - 1) by (by destruct t).
  assert (Hph : put_heap p t (theap s) =
    if refCount t - 1 <? 1 then delete p (theap s) else <[p := t']> (theap s)).
  { unfold put_heap. rewrite Hw. fold t'. rewrite Hr'. by case_match; [rewrite delete_insert_eq|]. }
  assert (Hp' : count p (live l') + count p held' = refCount t - 1).
  { rewrite Hcnt, Href. by destruct (decide (p = p)). }
  assert (Hlk : forall q u, put_heap p t (theap s) !! q = Some u ->
    exists u0, theap s !! q = Some u0 /\ tid u = tid u0 /\ volid u = volid u0 /\
      partition u = partition u0).
  { intros q u. rewrite Hph. case_match.
    - intros [_ Hq]%lookup_delete_Some. eauto.
    - destruct (decide (q = p)) as [->|Hn].
      + rewrite lookup_insert_eq. intros [= <-]. exists t. by destruct t.
      + rewrite lookup_insert_ne by done. eauto. }
  assert (Hsome : forall q, q ∈ live l' \/ q ∈ held' -> is_Some (put_heap p t (theap s) !! q)).
  { intros q Hq. assert (1 <= count q (live l') + count q held').
    { pose proof (count_nonneg q (live l')). pose proof (count_nonneg q held').
      destruct Hq as [Hq%count_pos|Hq%count_pos]; lia. }
    rewrite Hph. case_match; zbool.
    - rewrite lookup_delete_ne by (intros <-; lia).
      destruct Hq; [apply (ti_table _ _ Hi)|apply (ti_held _ _ Hi)]; auto.
    - destruct (decide (q = p)) as [->|Hn];
        [rewrite lookup_insert_eq; eauto|rewrite lookup_insert_ne by done].
      destruct Hq; [apply (ti_table _ _ Hi)|apply (ti_held _ _ Hi)]; auto. }
  split; simpl.
  - done.
  - done.
  - auto.
  - auto.
  - intros q u. unfold in_table. simpl. rewrite Hph. case_match; zbool.
    + intros [Hn Hu]%lookup_delete_Some. rewrite Hcnt.
      destruct (ti_refs _ _ Hi q u Hu). case_decide; [congruence|]. lia.
    + destruct (decide (q = p)) as [->|Hn].
      * rewrite lookup_insert_eq. intros [= <-]. lia.
      * rewrite lookup_insert_ne by done. intros Hu. rewrite Hcnt.
        destruct (ti_refs _ _ Hi q u Hu). case_decide; [congruence|]. lia.
  - intros q u (u0 & Hu0 & -> & _)%Hlk. by apply (ti_tids _ _ Hi q).
  - intros q r u v (u0 & Hu0 & -> & _)%Hlk (v0 & Hv0 & -> & _)%Hlk.
    by apply (ti_tid_inj _ _ Hi).
  - intros q r u v Hql Hrl (u0 & Hu0 & _ & -> & ->)%Hlk (v0 & Hv0 & _ & -> & ->)%Hlk.
    apply (ti_volumes _ _ Hi); auto.
  - apply (ti_perm _ _ Hi).
Qed.

(** ** The abstract table

    What the clients of the table rely on: a finite map from transaction ids
    to the volume and the flags of the transaction, and the next id. *)

Record tinfo := TInfo { i_vol : Z; i_part : Z; i_iflags : Z; i_vflags : Z; i_rcode : Z }.
Definition info (t : trans) : tinfo :=
  TInfo (volid t) (partition t) (iflags t) (vflags t) (returnCode t).

Definition abs_list (s : tstate) : list (Z * tinfo) :=
  omap (fun p => t ← theap s !! p; Some (tid t, info t)) (live (transactions s)).
Definition abs (s : tstate) : gmap Z tinfo := list_to_map (abs_list s).

Definition info_match (vol part : Z) (i : tinfo) : bool :=
  ((part =? -1) || (i_part i =? part)) && (i_vol i =? vol).
Definition busy_code (i : tinfo) : Z :=
  if negb (Z.land (i_iflags i) ITOffline =? 0) then VOFFLINE
  else if negb (Z.land (i_iflags i) ITBusy =? 0) then VBUSY else EINVAL.
Definition with_iflags (f : Z) (i : tinfo) : tinfo :=
  TInfo (i_vol i) (i_part i) f (i_vflags i) (i_rcode i).
Definition with_vflags (f : Z) (i : tinfo) : tinfo :=
  TInfo (i_vol i) (i_part i) (i_iflags i) f (i_rcode i).

Inductive tcall :=
  | CCreate (now : Z) (alloc : option Z) (part vol : Z)
  | CGet (t : Z) | CPut (p : Z) | CVerify (t : Z) | CEnd (t : Z)
  | CSetIflags (t f : Z) | CSetVflags (t f : Z) | CGetVflags (t : Z)
  | CBusy (vol part : Z).

Definition zero (m : TM unit) : TM Z := m ;;! eret 0.
Definition run_call (c : tcall) : TM Z :=
  match c with
  | CCreate now alloc part vol => vld_create_trans now alloc part vol
  | CGet t => vld_get_trans t
  | CPut p => zero (vld_put_trans p)
  | CVerify t => zero (vld_verify_trans t)
  | CEnd t => vld_end_trans t
  | CSetIflags t f => zero (vld_trans_set_iflags t f)
  | CSetVflags t f => zero (vld_trans_set_vflags t f)
  | CGetVflags t => vld_trans_get_vflags t
  | CBusy vol part => zero (vld_check_busy vol part)
  end.

(** The abstract steps.  With the partition -1 several transactions may
    match; the answer is that of one of them. *)
Inductive spec_step : gmap Z tinfo * Z -> tcall -> Z + Z -> gmap Z tinfo * Z -> Prop :=
  | SCreate a n now p part vol :
      (forall k i, a !! k = Some i -> info_match vol part i = false) ->
      spec_step (a, n) (CCreate now (Some p) part vol) (inr n)
        (<[n := TInfo vol part 0 0 0]> a, n + 1)
  | SCreateBusy a n now alloc part vol k i :
      a !! k = Some i -> info_match vol part i = true ->
      spec_step (a, n) (CCreate now alloc part vol) (inl (busy_code i)) (a, n)
  | SCreateMem a n now part vol :
      (forall k i, a !! k = Some i -> info_match vol part i = false) ->
      spec_step (a, n) (CCreate now None part vol) (inl ENOMEM) (a, n)
  | SGet a n k i p : a !! k = Some i -> spec_step (a, n) (CGet k) (inr p) (a, n)
  | SGetNone a n k : a !! k = None -> spec_step (a, n) (CGet k) (inl EINVAL) (a, n)
  | SPut a n p : spec_step (a, n) (CPut p) (inr 0) (a, n)
  | SVerify a n k i : a !! k = Some i -> spec_step (a, n) (CVerify k) (inr 0) (a, n)
  | SVerifyNone a n k : a !! k = None -> spec_step (a, n) (CVerify k) (inl ENOENT) (a, n)
  | SEnd a n k i : a !! k = Some i ->
      spec_step (a, n) (CEnd k) (inr (i_rcode i)) (delete k a, n)
  | SEndNone a n k : a !! k = None -> spec_step (a, n) (CEnd k) (inl ENOENT) (a, n)
  | SSetIflags a n k f i : a !! k = Some i ->
      spec_step (a, n) (CSetIflags k f) (inr 0) (<[k := with_iflags (swrap16 f) i]> a, n)
  | SSetIflagsNone a n k f : a !! k = None ->
      spec_step (a, n) (CSetIflags k f) (inl EINVAL) (a, n)
  | SSetVflags a n k f i : a !! k = Some i ->
      spec_step (a, n) (CSetVflags k f) (inr 0) (<[k := with_vflags (swrap8 f) i]> a, n)
  | SSetVflagsNone a n k f : a !! k = None ->
      spec_step (a, n) (CSetVflags k f) (inl EINVAL) (a, n)
  | SGetVflags a n k i : a !! k = Some i ->
      spec_step (a, n) (CGetVflags k) (inr (i_vflags i)) (a, n)
  | SGetVflagsNone a n k : a !! k = None ->
      spec_step (a, n) (CGetVflags k) (inl EINVAL) (a, n)
  | SFree a n vol part :
      (forall k i, a !! k = Some i -> info_match vol part i = false) ->
      spec_step (a, n) (CBusy vol part) (inr 0) (a, n)
  | SBusy a n vol part k i :
      a !! k = Some i -> info_match vol part i = true ->
      spec_step (a, n) (CBusy vol part) (inl (busy_code i)) (a, n).

(** ** Running procedures

    The pointers they hold, and what they and the C library promise: only a
    pointer that was got is put back, [malloc] gives memory that is not in
    use, fewer than 2^15 - 2 pointers are held, and a create finds an empty
    slot and an id. *)

Definition held_after (c : tcall) (r : Z + Z) (held : list Z) : list Z :=
  match c, r with
  | CGet _, inr p => p :: held
  | CPut p, inr _ => remove1 p held
  | _, _ => held
  end.

Definition max_held : Z := 2^15 - 2.
Definition permitted (s : tstate) (held : list Z) (c : tcall) : Prop :=
  match c with
  | CCreate _ alloc _ _ =>
      match alloc with Some p => theap s !! p = None | None => True end /\
      is_Some (find_empty 0 (transactions s)) /\ perm_tid s + 1 < 2^31
  | CGet _ => Z.of_nat (length held) < max_held
  | CPut p => p ∈ held
  | _ => True
  end.

Inductive tstep : tstate * list Z -> tcall -> Z + Z -> tstate * list Z -> Prop :=
  | TStep s held c s' r :
      permitted s held c -> run_call c s = Some (s', r) ->
      tstep (s, held) c r (s', held_after c r held).

Inductive reach : tstate -> list Z -> Prop :=
  | reach_boot : reach trans_boot []
  | reach_step s held c r s' held' :
      reach s held -> tstep (s, held) c r (s', held') -> reach s' held'.

(** ** The abstraction under the invariant *)

Lemma abs_list_elem s k i :
  (k, i) ∈ abs_list s <->
  exists p t, p ∈ live (transactions s) /\ theap s !! p = Some t /\ tid t = k /\ info t = i.
Proof.
  unfold abs_list. rewrite list_elem_of_omap. split.
  - intros (p & Hp & He). destruct (theap s !! p) as [t|] eqn:Ht; simpl in He; [|done].
    injection He as <- <-. eauto 10.
  - intros (p & t & Hp & Ht & <- & <-). exists p. by rewrite Ht.
Qed.

Lemma abs_list_nodup s held : tinv s held -> NoDup (abs_list s).*1.
Proof.
  intros Hi. pose proof (ti_nodup _ _ Hi) as Hnd. unfold abs_list.
  induction (live (transactions s)) as [|p l IH]; simpl; [constructor|].
  apply NoDup_cons in Hnd as [Hp Hnd].
  destruct (theap s !! p) as [t|] eqn:Ht; simpl; [|auto].
  constructor; [|auto]. intros ([k i] & He & (q & Hq & Hs)%list_elem_of_omap)%list_elem_of_fmap.
  simpl in He. destruct (theap s !! q) as [u|] eqn:Hu; simpl in Hs; [|done].
  injection Hs as <- <-. by rewrite (ti_tid_inj _ _ Hi p q t u) in Hp.
Qed.

Lemma abs_lookup s held k i :
  tinv s held ->
  abs s !! k = Some i <->
  exists p t, p ∈ live (transactions s) /\ theap s !! p = Some t /\ tid t = k /\ info t = i.
Proof.
  intros Hi. rewrite <- abs_list_elem. unfold abs. symmetry.
  apply elem_of_list_to_map. by apply (abs_list_nodup s held).
Qed.

Lemma abs_lookup_none s held k :
  tinv s held ->
  (forall p t, p ∈ live (transactions s) -> theap s !! p = Some t -> (tid t =? k) = false) ->
  abs s !! k = None.
Proof.
  intros Hi Hall. destruct (abs s !! k) as [i|] eqn:Hk; [|done].
  apply (abs_lookup s held) in Hk as (p & t & Hp & Ht & Hid & _); [|done].
  specialize (Hall p t Hp Ht). zbool. congruence.
Qed.

(** Two states with the same transactions have the same abstraction. *)
Lemma abs_ext s held s' held' a :
  tinv s held -> tinv s' held' ->
  (forall k i, (exists p t, p ∈ live (transactions s') /\ theap s' !! p = Some t /\
      tid t = k /\ info t = i) <-> a !! k = Some i) ->
  abs s' = a.
Proof.
  intros Hi Hi' Hx. apply map_eq. intros k. apply option_eq. intros i.
  rewrite (abs_lookup s' held'), Hx; done.
Qed.

Lemma find_tid_run s held k :
  tinv s held ->
  (exists i p t l1 l2, find_trans (fun t => tid t =? k) s = Some (s, inr (Some (i, p))) /\
     transactions s = l1 ++ Some p :: l2 /\ length l1 = i /\
     theap s !! p = Some t /\ p ∈ live (transactions s) /\ tid t = k /\
     abs s !! k = Some (info t)) \/
  (find_trans (fun t => tid t =? k) s = Some (s, inr None) /\ abs s !! k = None).
Proof.
  intros Hi. destruct (find_trans_run s held (fun t => tid t =? k) Hi)
    as [(i & p & t & l1 & l2 & Hr & Hl & Hn & Hp & Hc)|[Hr Hall]].
  - left. exists i, p, t, l1, l2. zbool.
    assert (Hpl : p ∈ live (transactions s)).
    { rewrite Hl, live_app. apply elem_of_app. right. simpl. apply list_elem_of_here. }
    split_and!; try done. apply (abs_lookup s held); eauto 10.
  - right. split; [done|]. by apply (abs_lookup_none s held).
Qed.

(** ** Each call *)

Definition call_sound (s : tstate) (held : list Z) (c : tcall) : Prop :=
  exists s' r, run_call c s = Some (s', r) /\ tinv s' (held_after c r held) /\
    spec_step (abs s, perm_tid s) c r (abs s', perm_tid s').

Lemma deref_run s p t : theap s !! p = Some t -> deref p s = Some (s, inr t).
Proof. intros Hp. unfold deref. rewrite ebind_get. unfold eopt. by rewrite Hp. Qed.

Lemma refs_bound s held p t :
  tinv s held -> Z.of_nat (length held) <= max_held -> theap s !! p = Some t ->
  1 <= refCount t <= 1 + Z.of_nat (length held).
Proof.
  intros Hi Hh Hp. destruct (ti_refs _ _ Hi p t Hp) as [Hr ?].
  pose proof (count_le_length p held). unfold in_table in Hr.
  destruct (decide (p ∈ live (transactions s))) as [Hl|Hl].
  - rewrite (count_nodup p _ (ti_nodup _ _ Hi) Hl) in Hr. lia.
  - rewrite (count_zero p (live _)) in Hr by done. lia.
Qed.

Lemma find_busy_run s held vol part :
  tinv s held ->
  (exists k i, vld_check_busy vol part s = Some (s, inl (busy_code i)) /\
     abs s !! k = Some i /\ info_match vol part i = true) \/
  (vld_check_busy vol part s = Some (s, inr tt) /\
     forall k i, abs s !! k = Some i -> info_match vol part i = false).
Proof.
  intros Hi. unfold vld_check_busy.
  destruct (find_trans_run s held (busy_match vol part) Hi)
    as [(i & p & t & l1 & l2 & Hr & Hl & Hn & Hp & Hc)|[Hr Hall]].
  - left. exists (tid t), (info t). split_and!; [|apply (abs_lookup s held); [done|]|done].
    + rewrite (ebind_ok _ _ _ _ _ Hr), (ebind_ok _ _ _ _ _ (deref_run s p t Hp)).
      unfold busy_code. simpl. by repeat case_match.
    + exists p, t. rewrite Hl, live_app. split_and!; try done.
      apply elem_of_app. right. apply list_elem_of_here.
  - right. rewrite (ebind_ok _ _ _ _ _ Hr). split; [done|].
    intros k i (p & t & Hp & Ht & <- & <-)%(abs_lookup s held); [|done].
    by apply Hall with p.
Qed.

Lemma run_busy s held vol part : tinv s held -> call_sound s held (CBusy vol part).
Proof.
  intros Hi. unfold call_sound. simpl. unfold zero.
  destruct (find_busy_run s held vol part Hi) as [(k & i & Hr & Hk & Hm)|[Hr Hall]].
  - exists s, (inl (busy_code i)). rewrite (ebind_err _ _ _ _ _ Hr).
    split_and!; [done..|]. by apply SBusy with k.
  - exists s, (inr 0). rewrite (ebind_ok _ _ _ _ _ Hr). split_and!; [done..|].
    by apply SFree.
Qed.

Lemma tid_set_refCount v t : tid (set_refCount v t) = tid t. Proof. by destruct t. Qed.
Lemma volid_set_refCount v t : volid (set_refCount v t) = volid t. Proof. by destruct t. Qed.
Lemma partition_set_refCount v t : partition (set_refCount v t) = partition t.
Proof. by destruct t. Qed.
Lemma refCount_set_refCount v t : refCount (set_refCount v t) = v. Proof. by destruct t. Qed.
Lemma info_set_refCount v t : info (set_refCount v t) = info t. Proof. by destruct t. Qed.

(** A change of a structure that keeps its id keeps or updates the abstract
    table. *)
Lemma abs_store s held p t t' held' :
  tinv s held -> tinv (set_theap (<[p := t']> (theap s)) s) held' ->
  theap s !! p = Some t -> p ∈ live (transactions s) -> tid t' = tid t ->
  abs (set_theap (<[p := t']> (theap s)) s) = <[tid t := info t']> (abs s).
Proof.
  intros Hi Hi' Hp Hl Ht. apply (abs_ext s held _ held'); [done..|]. intros k i.
  destruct (decide (k = tid t)) as [->|Hk].
  - rewrite lookup_insert_eq. split.
    + intros (q & u & Hq & Hu & Hid & <-). simpl in Hq, Hu.
      destruct (decide (q = p)) as [->|Hn].
      * rewrite lookup_insert_eq in Hu. congruence.
      * rewrite lookup_insert_ne in Hu by done.
        destruct Hn. by apply (ti_tid_inj _ _ Hi q p u t).
    + intros [= <-]. exists p, t'. split_and!; [done| |done..]. simpl. by rewrite lookup_insert_eq.
  - rewrite lookup_insert_ne by done. rewrite (abs_lookup s held) by done.
    split; intros (q & u & Hq & Hu & Hid & <-); exists q, u; simpl in *.
    + destruct (decide (q = p)) as [->|Hn]; [rewrite lookup_insert_eq in Hu; congruence|].
      by rewrite lookup_insert_ne in Hu by done.
    + destruct (decide (q = p)) as [->|Hn]; [congruence|]. by rewrite lookup_insert_ne by done.
Qed.

Lemma run_get s held k :
  tinv s held -> Z.of_nat (length held) < max_held -> call_sound s held (CGet k).
Proof.
  intros Hi Hb. unfold call_sound, run_call, vld_get_trans.
  destruct (find_tid_run s held k Hi)
    as [(i & p & t & l1 & l2 & Hr & Hl & Hn & Hp & Hpl & Hid & Ha)|[Hr Ha]].
  - destruct (refs_bound s held p t Hi) as [Hr1 Hr2]; [lia|done|].
    assert (Hw : swrap16 (refCount t + 1) = refCount t + 1).
    { apply swrap16_small. unfold max_held in Hb. lia. }
    set (t' := set_refCount (refCount t + 1) t).
    assert (Hi' : tinv (set_theap (<[p := t']> (theap s)) s) (p :: held)).
    { apply (tinv_store s held _ p t); try done.
      - apply tid_set_refCount.
      - apply volid_set_refCount.
      - apply partition_set_refCount.
      - unfold t'. rewrite refCount_set_refCount, count_cons. case_decide; [lia|done].
      - unfold t'. rewrite refCount_set_refCount. lia.
      - intros q Hq. rewrite count_cons. by case_decide. }
    exists (set_theap (<[p := t']> (theap s)) s), (inr p).
    rewrite (ebind_ok _ _ _ _ _ Hr), (ebind_ok _ _ _ _ _ (deref_run s p t Hp)), Hw.
    split_and!; [done|done|].
    rewrite (abs_store s held p t t' (p :: held)) by (done || apply tid_set_refCount).
    unfold t'. rewrite info_set_refCount, insert_id; [by apply SGet with (info t)|by rewrite Hid].
  - exists s, (inl EINVAL). rewrite (ebind_ok _ _ _ _ _ Hr).
    split_and!; [done..|by apply SGetNone].
Qed.

Lemma run_verify s held k : tinv s held -> call_sound s held (CVerify k).
Proof.
  intros Hi. unfold call_sound, run_call, vld_verify_trans, zero.
  destruct (find_tid_run s held k Hi)
    as [(i & p & t & l1 & l2 & Hr & _ & _ & _ & _ & _ & Ha)|[Hr Ha]].
  - exists s, (inr 0). unfold ebind at 1. rewrite (ebind_ok _ _ _ _ _ Hr).
    split_and!; [done..|by apply SVerify with (info t)].
  - exists s, (inl ENOENT). unfold ebind at 1. rewrite (ebind_ok _ _ _ _ _ Hr).
    split_and!; [done..|by apply SVerifyNone].
Qed.

Lemma run_get_vflags s held k : tinv s held -> call_sound s held (CGetVflags k).
Proof.
  intros Hi. unfold call_sound, run_call, vld_trans_get_vflags.
  destruct (find_tid_run s held k Hi)
    as [(i & p & t & l1 & l2 & Hr & _ & _ & Hp & _ & _ & Ha)|[Hr Ha]].
  - exists s, (inr (vflags t)).
    rewrite (ebind_ok _ _ _ _ _ Hr), (ebind_ok _ _ _ _ _ (deref_run s p t Hp)).
    split_and!; [done..|]. by apply (SGetVflags _ _ _ (info t)).
  - exists s, (inl EINVAL). rewrite (ebind_ok _ _ _ _ _ Hr).
    split_and!; [done..|by apply SGetVflagsNone].
Qed.

(** The functions that set flags. *)
Definition update_trans (k : Z) (g : trans -> trans) : TM unit :=
  r <-- find_trans (fun t => tid t =? k) ;;
  match r with
  | Some (_, p) => t <-- deref p ;; store p (g t)
  | None => efail EINVAL
  end.

Lemma update_run s held k g :
  tinv s held ->
  (forall t, tid (g t) = tid t /\ volid (g t) = volid t /\ partition (g t) = partition t /\
     refCount (g t) = refCount t) ->
  (exists t s', update_trans k g s = Some (s', inr tt) /\ tinv s' held /\
     abs s !! k = Some (info t) /\ abs s' = <[k := info (g t)]> (abs s) /\
     perm_tid s' = perm_tid s) \/
  (update_trans k g s = Some (s, inl EINVAL) /\ abs s !! k = None).
Proof.
  intros Hi Hg. unfold update_trans.
  destruct (find_tid_run s held k Hi)
    as [(i & p & t & l1 & l2 & Hr & _ & _ & Hp & Hpl & Hid & Ha)|[Hr Ha]];
    rewrite (ebind_ok _ _ _ _ _ Hr); [left|by right].
  destruct (Hg t) as (Ht & Hv & Hq & Hc). destruct (ti_refs _ _ Hi p t Hp).
  assert (Hi' : tinv (set_theap (<[p := g t]> (theap s)) s) held)
    by (apply (tinv_store s held held p t (g t)); try done; lia).
  exists t, (set_theap (<[p := g t]> (theap s)) s).
  rewrite (ebind_ok _ _ _ _ _ (deref_run s p t Hp)). split_and!; try done.
  by rewrite (abs_store s held p t (g t) held), Hid.
Qed.

Lemma zero_ok (m : TM unit) s s' : m s = Some (s', inr tt) -> zero m s = Some (s', inr 0).
Proof. intros H. unfold zero. by rewrite (ebind_ok _ _ _ _ _ H). Qed.
Lemma zero_err (m : TM unit) s s' e : m s = Some (s', inl e) -> zero m s = Some (s', inl e).
Proof. intros H. unfold zero. by rewrite (ebind_err _ _ _ _ _ H). Qed.

Lemma run_set_iflags s held k f : tinv s held -> call_sound s held (CSetIflags k f).
Proof.
  intros Hi. destruct (update_run s held k (set_iflags (swrap16 f)) Hi)
    as [(t & s' & Hr & Hi' & Ha & Ha' & Hp)|[Hr Ha]]; [by intros []|..].
  - exists s', (inr 0). split_and!; [by apply zero_ok|done|]. rewrite Ha', Hp.
    replace (info (set_iflags (swrap16 f) t)) with (with_iflags (swrap16 f) (info t))
      by (by destruct t). by apply SSetIflags.
  - exists s, (inl EINVAL). split_and!; [by apply zero_err|done|by apply SSetIflagsNone].
Qed.

Lemma run_set_vflags s held k f : tinv s held -> call_sound s held (CSetVflags k f).
Proof.
  intros Hi. destruct (update_run s held k (set_vflags (swrap8 f)) Hi)
    as [(t & s' & Hr & Hi' & Ha & Ha' & Hp)|[Hr Ha]]; [by intros []|..].
  - exists s', (inr 0). split_and!; [by apply zero_ok|done|]. rewrite Ha', Hp.
    replace (info (set_vflags (swrap8 f) t)) with (with_vflags (swrap8 f) (info t))
      by (by destruct t). by apply SSetVflags.
  - exists s, (inl EINVAL). split_and!; [by apply zero_err|done|by apply SSetVflagsNone].
Qed.

(** Freeing a structure or lowering its counter leaves the others. *)
Lemma put_heap_ne p t h q : q <> p -> put_heap p t h !! q = h !! q.
Proof.
  intros Hn. unfold put_heap.
  case_match; rewrite ?lookup_delete_ne, lookup_insert_ne; done.
Qed.

Lemma put_heap_info p t h q u :
  h !! p = Some t -> put_heap p t h !! q = Some u ->
  exists u0, h !! q = Some u0 /\ tid u = tid u0 /\ info u = info u0.
Proof.
  intros Hp. destruct (decide (q = p)) as [->|Hn].
  - unfold put_heap. case_match.
    + by rewrite lookup_delete_eq.
    + rewrite lookup_insert_eq. intros [= <-]. exists t. by destruct t.
  - rewrite put_heap_ne by done. eauto.
Qed.

Lemma run_put s held p :
  tinv s held -> Z.of_nat (length held) <= max_held -> p ∈ held -> call_sound s held (CPut p).
Proof.
  intros Hi Hb Hp. destruct (ti_held _ _ Hi p Hp) as [t Ht].
  pose proof (refs_bound s held p t Hi Hb Ht) as [_ Hr].
  assert (Hi' : tinv (set_theap (put_heap p t (theap s)) s) (remove1 p held)).
  { apply (tinv_release s held (transactions s) _ p t); try done.
    - apply (ti_len _ _ Hi).
    - apply (ti_nodup _ _ Hi).
    - intros q. rewrite count_remove1 by done. unfold in_table. lia.
    - intros q. apply remove1_sub.
    - unfold max_held in *. lia. }
  exists (set_theap (put_heap p t (theap s)) s), (inr 0). split_and!; [|done|].
  - apply zero_ok. by apply put_run.
  - simpl. rewrite (abs_ext s held (set_theap (put_heap p t (theap s)) s) (remove1 p held) (abs s));
      [constructor|done..|].
    intros k i. rewrite (abs_lookup s held) by done. split; intros (q & u & Hq & Hu & Hk & He).
    + destruct (put_heap_info p t (theap s) q u Ht Hu) as (u0 & Hu0 & ? & ?).
      exists q, u0. split_and!; [done..|congruence|congruence].
    + destruct (ti_table _ _ Hi' q Hq) as [u' Hu']. exists q, u'.
      destruct (put_heap_info p t (theap s) q u' Ht Hu') as (u0 & Hu0 & ? & ?).
      rewrite Hu in Hu0. injection Hu0 as <-.
      split_and!; [done..|congruence|congruence].
Qed.

(** *** Taking a transaction out of the table *)

Lemma live_slot l1 p l2 :
  live (l1 ++ Some p :: l2) = live l1 ++ p :: live l2 /\
  live (l1 ++ None :: l2) = live l1 ++ live l2.
Proof. by rewrite !live_app. Qed.

Lemma end_run s held k :
  tinv s held -> Z.of_nat (length held) <= max_held ->
  (exists s' t p, vld_end_trans k s = Some (s', inr (returnCode t)) /\ tinv s' held /\
     theap s !! p = Some t /\ abs s !! k = Some (info t) /\
     abs s' = delete k (abs s) /\ perm_tid s' = perm_tid s /\
     theap s' = put_heap p t (theap s)) \/
  (vld_end_trans k s = Some (s, inl ENOENT) /\ abs s !! k = None).
Proof.
  intros Hi Hb. unfold vld_end_trans.
  destruct (find_tid_run s held k Hi)
    as [(i & p & t & l1 & l2 & Hr & Hl & Hn & Hp & Hpl & Hid & Ha)|[Hr Ha]];
    rewrite (ebind_ok _ _ _ _ _ Hr); [left|by right].
  pose proof (ti_nodup _ _ Hi) as Hnd. destruct (live_slot l1 p l2) as [Hls Hln].
  rewrite Hl, Hls in Hnd.
  set (s' := TState (l1 ++ None :: l2) (perm_tid s) (put_heap p t (theap s))).
  assert (Hset : set_slot i None (set_theap (put_heap p t (theap s)) s) = s').
  { unfold set_slot. simpl. rewrite Hl, <- Hn, insert_app_r_alt, Nat.sub_diag by lia. done. }
  assert (Hin : forall q, q ∈ live (transactions s) <-> q = p \/ q ∈ live (transactions s')).
  { intros q. simpl. rewrite Hl, Hls, Hln, !elem_of_app, elem_of_cons. tauto. }
  assert (Hpn : p ∉ live (transactions s')).
  { simpl. rewrite Hln. apply NoDup_app in Hnd as (_ & Hd & [Hp2 _]%NoDup_cons).
    rewrite elem_of_app. intros [H1|H2]; [|done]. apply (Hd p H1). apply list_elem_of_here. }
  assert (Hi' : tinv s' held).
  { apply (tinv_release s held (l1 ++ None :: l2) held p t); try done.
    - rewrite <- (ti_len _ _ Hi), Hl, !length_app. done.
    - rewrite Hln. apply NoDup_app in Hnd as (H1 & Hd & [_ H2]%NoDup_cons).
      apply NoDup_app. split_and!; [done| |done]. intros x Hx Hx'. apply (Hd x Hx).
      by apply list_elem_of_further.
    - intros q Hq. apply Hin. by right.
    - intros q. unfold in_table. rewrite Hl, Hls, Hln, !count_app, count_cons. lia.
    - pose proof (refs_bound s held p t Hi Hb Hp). unfold max_held in *. lia. }
  exists s', t, p.
  rewrite (ebind_ok _ _ _ _ _ (deref_run s p t Hp)), (ebind_ok _ _ _ _ _ (put_run s p t Hp)).
  rewrite ebind_mod, Hset. split_and!; try done.
  apply (abs_ext s held s' held); [done..|]. intros k' i'. rewrite lookup_delete_Some.
  rewrite (abs_lookup s held) by done. split.
  - intros (q & u & Hq & Hu & <- & <-). assert (Hqp : q <> p) by (intros ->; done).
    simpl in Hu. rewrite put_heap_ne in Hu by done. split.
    + intros He. destruct Hqp. apply (ti_tid_inj _ _ Hi q p u t); congruence.
    + exists q, u. split_and!; try done. apply Hin. by right.
  - intros (Hk & q & u & [->|Hq]%Hin & Hu & <- & <-); [congruence|].
    exists q, u. split_and!; [done| |done..]. simpl. by rewrite put_heap_ne by (intros ->; done).
Qed.

Lemma run_end s held k :
  tinv s held -> Z.of_nat (length held) <= max_held -> call_sound s held (CEnd k).
Proof.
  intros Hi Hb. destruct (end_run s held k Hi Hb)
    as [(s' & t & p & Hr & Hi' & _ & Ha & Ha' & Hp & _)|[Hr Ha]].
  - exists s', (inr (returnCode t)). split_and!; [done..|]. rewrite Ha', Hp.
    by apply (SEnd _ _ k (info t)).
  - exists s, (inl ENOENT). split_and!; [done..|by apply SEndNone].
Qed.

(** *** Creating a transaction *)

Section Create.
Context (s : tstate) (held : list Z) (l1 l2 : list (option Z)) (p : Z) (t : trans).
Context (Hi : tinv s held) (Hl : transactions s = l1 ++ None :: l2).
Context (Hp : theap s !! p = None) (Ht : tid t = perm_tid s) (Hr : refCount t = 1).
Context (Hnew : forall q u, q ∈ live (transactions s) -> theap s !! q = Some u ->
  volid u = volid t -> partition u = partition t -> False).
Context (Hpt : perm_tid s + 1 < 2^31).

Definition created : tstate :=
  TState (l1 ++ Some p :: l2) (perm_tid s + 1) (<[p := t]> (theap s)).

Lemma created_in q : q ∈ live (transactions created) <-> q = p \/ q ∈ live (transactions s).
Proof.
  destruct (live_slot l1 p l2) as [Hls Hln].
  simpl. rewrite Hl, Hls, Hln, !elem_of_app, elem_of_cons. tauto.
Qed.

Lemma created_fresh : (p ∉ live (transactions s)) /\ (p ∉ held).
Proof.
  split; [intros [u Hu]%(ti_table _ _ Hi)|intros [u Hu]%(ti_held _ _ Hi)]; congruence.
Qed.

Lemma created_lookup q u :
  theap created !! q = Some u <-> (q = p /\ u = t) \/ (q <> p /\ theap s !! q = Some u).
Proof. simpl. rewrite lookup_insert_Some. naive_solver. Qed.

Lemma created_nodup : NoDup (live (transactions created)).
Proof.
  pose proof (ti_nodup _ _ Hi) as Hnd. destruct created_fresh as [Hpl _].
  destruct (live_slot l1 p l2) as [Hls Hln]. simpl. rewrite Hls. rewrite Hl, Hln in Hnd, Hpl.
  rewrite <- Permutation_middle. by apply NoDup_cons.
Qed.

Lemma created_refs q u :
  theap created !! q = Some u ->
  refCount u = in_table q created + count q held /\ 1 <= refCount u.
Proof.
  assert (Hcnt : in_table q created = in_table q s + (if decide (q = p) then 1 else 0)).
  { destruct (live_slot l1 p l2) as [Hls Hln].
    unfold in_table. simpl. rewrite Hl, Hls, Hln, !count_app, count_cons. lia. }
  destruct created_fresh as [Hpl Hph]. rewrite Hcnt.
  intros [[-> ->]|[Hq Hu]]%created_lookup.
  - unfold in_table. rewrite (count_zero p (live _)), (count_zero p held) by done.
    case_decide; [lia|done].
  - destruct (ti_refs _ _ Hi q u Hu). case_decide; [done|lia].
Qed.

Lemma tinv_create : tinv created held.
Proof.
  split.
  - rewrite <- (ti_len _ _ Hi), Hl. simpl. by rewrite !length_app.
  - apply created_nodup.
  - intros q [->|Hq]%created_in; [exists t; apply created_lookup; auto|].
    destruct (ti_table _ _ Hi q Hq) as [u Hu]. exists u. apply created_lookup. right.
    split; [intros ->; congruence|done].
  - intros q Hq. destruct (ti_held _ _ Hi q Hq) as [u Hu]. exists u. apply created_lookup. right.
    split; [intros ->; congruence|done].
  - apply created_refs.
  - pose proof (ti_perm _ _ Hi).
    intros q u [[-> ->]|[Hq Hu]]%created_lookup; simpl; [lia|].
    pose proof (ti_tids _ _ Hi q u Hu). lia.
  - intros q r u v [[-> ->]|[Hq Hu]]%created_lookup [[-> ->]|[Hr' Hv]]%created_lookup Huv; [done|..].
    + pose proof (ti_tids _ _ Hi r v Hv). lia.
    + pose proof (ti_tids _ _ Hi q u Hu). lia.
    + by apply (ti_tid_inj _ _ Hi q r u v).
  - intros q r u v Hq%created_in Hr'%created_in
      [[-> ->]|[Hqp Hu]]%created_lookup [[-> ->]|[Hrp Hv]]%created_lookup Hvol Hpart; [done|..].
    + destruct Hr' as [?|Hr']; [done|]. by destruct (Hnew r v).
    + destruct Hq as [?|Hq]; [done|]. by destruct (Hnew q u).
    + destruct Hq as [?|Hq]; [congruence|]. destruct Hr' as [?|Hr']; [congruence|].
      by apply (ti_volumes _ _ Hi q r u v).
  - pose proof (ti_perm _ _ Hi). simpl. lia.
Qed.

Lemma abs_create : abs created = <[perm_tid s := info t]> (abs s).
Proof.
  apply (abs_ext s held _ held); [done|apply tinv_create|]. intros k i.
  rewrite lookup_insert_Some, (abs_lookup s held) by done. split.
  - intros (q & u & Hq%created_in & [[-> ->]|[Hqp Hu]]%created_lookup & <- & <-).
    + left. done.
    + right. pose proof (ti_tids _ _ Hi q u Hu). split; [lia|]. exists q, u.
      destruct Hq as [?|Hq]; done.
  - intros [[<- <-]|(Hk & q & u & Hq & Hu & <- & <-)].
    + exists p, t. split_and!; [by apply created_in; left|by apply created_lookup; left|done..].
    + exists q, u. split_and!; [by apply created_in; right| |done..]. apply created_lookup. right.
      split; [intros ->; congruence|done].
Qed.
End Create.

Lemma run_create s held now alloc part vol :
  tinv s held -> permitted s held (CCreate now alloc part vol) ->
  call_sound s held (CCreate now alloc part vol).
Proof.
  intros Hi (Hal & [i He] & Hpt). unfold call_sound. cbn [run_call].
  destruct (find_busy_run s held vol part Hi) as [(k & x & Hr & Hk & Hm)|[Hr Hall]].
  { exists s, (inl (busy_code x)). unfold vld_create_trans. rewrite (ebind_err _ _ _ _ _ Hr).
    split_and!; [done..|]. by apply SCreateBusy with k. }
  unfold vld_create_trans. rewrite (ebind_ok _ _ _ _ _ Hr), ebind_get, He.
  pose proof (find_empty_spec (transactions s) 0) as Hs. rewrite He in Hs.
  destruct Hs as (j & l1 & l2 & Hij & Hl & Hn). simpl in Hij. subst i.
  destruct alloc as [p|].
  2:{ exists s, (inl ENOMEM). split_and!; [done..|]. by apply SCreateMem. }
  set (t := Trans (perm_tid s) (swrap32 now) (swrap32 now) 0 vol part 1 0 0 0 0).
  assert (Hnew : forall q u, q ∈ live (transactions s) -> theap s !! q = Some u ->
      volid u = volid t -> partition u = partition t -> False).
  { intros q u Hq Hu Hv Hp. specialize (Hall (tid u) (info u)).
    rewrite (abs_lookup s held) in Hall by done. unfold info_match in Hall. simpl in *.
    rewrite Hv, Hp, !Z.eqb_refl, orb_true_r in Hall. discriminate Hall. eauto 10. }
  exists (created s l1 l2 p t), (inr (perm_tid s)).
  rewrite (proj2 (Z.ltb_lt _ _) Hpt). unfold eassert. rewrite ebind_ret, ebind_mod.
  split_and!; [|by apply tinv_create|rewrite (abs_create s held) by done; by apply SCreate].
  unfold eret, created. rewrite Hl, <- Hn, insert_app_r_alt, Nat.sub_diag by lia. done.
Qed.

(** ** Runs *)

Lemma tinv_boot : tinv trans_boot [].
Proof.
  assert (Hl : live (transactions trans_boot) = []) by reflexivity.
  split; rewrite ?Hl; simpl; try done.
  - constructor.
  - intros p Hp. by apply elem_of_nil in Hp.
  - intros p Hp. by apply elem_of_nil in Hp.
Qed.

Lemma call_sound_all s held c :
  tinv s held -> Z.of_nat (length held) <= max_held -> permitted s held c -> call_sound s held c.
Proof.
  intros Hi Hb Hp. destruct c.
  - by apply run_create.
  - by apply run_get.
  - by apply run_put.
  - by apply run_verify.
  - by apply run_end.
  - by apply run_set_iflags.
  - by apply run_set_vflags.
  - by apply run_get_vflags.
  - by apply run_busy.
Qed.

Lemma held_bound s held c r :
  Z.of_nat (length held) <= max_held -> permitted s held c ->
  Z.of_nat (length (held_after c r held)) <= max_held.
Proof.
  intros Hb Hp. destruct c, r; simpl in *; try done; [lia|].
  pose proof (length_remove1 p held). lia.
Qed.

Lemma reach_inv s held : reach s held -> tinv s held /\ Z.of_nat (length held) <= max_held.
Proof.
  induction 1 as [|s held c r s' held' _ [Hi Hb] Hst].
  - split; [apply tinv_boot|done].
  - inversion Hst as [? ? ? ? ? Hp Hr]; subst. split; [|by apply (held_bound s)].
    destruct (call_sound_all s held c Hi Hb Hp) as (s1 & r1 & Hr1 & Hi1 & _).
    rewrite Hr in Hr1. by injection Hr1 as <- <-.
Qed.

(** A permitted call in a reachable state, with all that is known of it. *)
Lemma reach_call s held c :
  reach s held -> permitted s held c ->
  exists s' r, run_call c s = Some (s', r) /\ reach s' (held_after c r held) /\
    spec_step (abs s, perm_tid s) c r (abs s', perm_tid s').
Proof.
  intros Hre Hp. destruct (reach_inv _ _ Hre) as [Hi Hb].
  destruct (call_sound_all s held c Hi Hb Hp) as (s' & r & Hr & _ & Hs).
  exists s', r. split_and!; [done| |done]. apply (reach_step s held c r); [done|by constructor].
Qed.

(** Concrete runs: the states a list of calls leads through. *)
Definition permittedb (s : tstate) (held : list Z) (c : tcall) : bool :=
  match c with
  | CCreate _ alloc _ _ =>
      match alloc with
      | Some p => match theap s !! p with Some _ => false | None => true end
      | None => true
      end && match find_empty 0 (transactions s) with Some _ => true | None => false end &&
      (perm_tid s + 1 <? 2^31)
  | CGet _ => Z.of_nat (length held) <? max_held
  | CPut p => existsb (Z.eqb p) held
  | _ => true
  end.
Fixpoint run_calls (cs : list tcall) (s : tstate) (held : list Z) : option (tstate * list Z) :=
  match cs with
  | [] => Some (s, held)
  | c :: cs =>
      if permittedb s held c then
        match run_call c s with
        | Some (s', r) => run_calls cs s' (held_after c r held)
        | None => None
        end
      else None
  end.

Lemma permittedb_ok s held c : permittedb s held c = true -> permitted s held c.
Proof.
  destruct c; simpl; try done.
  - intros H. zbool. split_and!; [|by destruct (find_empty 0 _)|done].
    destruct alloc as [p|]; [|done]. by destruct (theap s !! p).
  - intros H. by zbool.
  - intros [q [Hq Hpq]]%existsb_exists. zbool. subst. by apply list_elem_of_In.
Qed.

Lemma run_calls_reach cs : forall s held s' held',
  reach s held -> run_calls cs s held = Some (s', held') -> reach s' held'.
Proof.
  induction cs as [|c cs IH]; intros s held s' held' Hre; simpl.
  - by intros [= <- <-].
  - destruct (permittedb s held c) eqn:Hp; [|done].
    destruct (run_call c s) as [[s1 r]|] eqn:Hr; [|done]. apply IH.
    apply (reach_step s held c r); [done|]. constructor; [by apply permittedb_ok|done].
Qed.

(** ** Theorems *)


(** C17: The table refines a finite map from transaction ids to volumes with
    flags: each call of a reachable state is a step of the abstract table, with
    the same answer.  In particular a create answers the next id and is refused
    with VOFFLINE, VBUSY or EINVAL, by the flags of the other transaction, when
    one is open on the volume and partition. *)
Theorem trans_refines s held c r s' held' :
  reach s held -> tstep (s, held) c r (s', held') ->
  spec_step (abs s, perm_tid s) c r (abs s', perm_tid s').
Proof.
  intros Hre Hst. inversion Hst as [? ? ? ? ? Hp Hr]; subst.
  destruct (reach_call s held c Hre Hp) as (s1 & r1 & Hr1 & _ & Hs).
  rewrite Hr in Hr1. by injection Hr1 as <- <-.
Qed.

(** C22: Mutual exclusion: in a reachable state no two open transactions are
    on the same volume and partition, and every open id was given out before
    the next one. *)
Theorem trans_exclusive s held k1 k2 i1 i2 :
  reach s held -> abs s !! k1 = Some i1 -> abs s !! k2 = Some i2 ->
  i_vol i1 = i_vol i2 -> i_part i1 = i_part i2 -> k1 = k2 /\ 1 <= k1 < perm_tid s.
Proof.
  intros Hre H1 H2 Hv Hp. destruct (reach_inv _ _ Hre) as [Hi _].
  apply (abs_lookup s held) in H1 as (p & t & Hpl & Ht & <- & <-); [|done].
  apply (abs_lookup s held) in H2 as (q & u & Hql & Hu & <- & <-); [|done].
  rewrite <- (ti_volumes _ _ Hi p q t u) in Hu by done. rewrite Ht in Hu. injection Hu as <-.
  split; [done|]. by apply (ti_tids _ _ Hi p).
Qed.

(** A create when all 100 slots are in use, on a volume that is not busy,
    reads the table past its end. *)
Theorem trans_table_full s held now alloc part vol :
  reach s held -> find_empty 0 (transactions s) = None ->
  (forall k i, abs s !! k = Some i -> info_match vol part i = false) ->
  vld_create_trans now alloc part vol s = None.
Proof.
  intros Hre Hf Hall. destruct (reach_inv _ _ Hre) as [Hi _]. unfold vld_create_trans.
  destruct (find_busy_run s held vol part Hi) as [(k & x & Hr & Hk & Hm)|[Hr _]].
  - by rewrite (Hall k x Hk) in Hm.
  - by rewrite (ebind_ok _ _ _ _ _ Hr), ebind_get, Hf.
Qed.

(** ** Concrete runs *)

Module Witnesses.

Definition ran (cs : list tcall) : tstate * list Z :=
  default (trans_boot, []) (run_calls cs trans_boot []).

Lemma ran_reach cs :
  match run_calls cs trans_boot [] with Some _ => true | None => false end = true ->
  reach (ran cs).1 (ran cs).2.
Proof.
  unfold ran. destruct (run_calls cs trans_boot []) as [[s held]|] eqn:Hr; [|done].
  intros _. by apply (run_calls_reach cs trans_boot [] s held (reach_boot)).
Qed.

(** Transaction 1 on volume 7 of partition 0, busy, held by a procedure that
    is not finished while the transaction is ended; transaction 2 on volume 8. *)
Definition demo : list tcall :=
  [CCreate 1000 (Some 16) 0 7; CSetIflags 1 ITBusy; CCreate 1001 (Some 32) 0 7; CGet 1;
   CCreate 1002 (Some 48) 0 8; CBusy 7 (-1)].
Definition demo_ended : list tcall := demo ++ [CEnd 1].
Definition full : list tcall := map (fun i => CCreate 0 (Some i) 0 i) (seqZ 1 100).


Lemma trans_refines_witness :
  spec_step (abs (ran demo).1, perm_tid (ran demo).1) (CCreate 5 (Some 64) 0 7) (inl VBUSY)
    (abs (ran demo).1, perm_tid (ran demo).1).
Proof.
  apply (trans_refines (ran demo).1 (ran demo).2 _ _ (ran demo).1 (ran demo).2).
  - apply ran_reach. by vm_compute.
  - refine (TStep _ _ (CCreate 5 (Some 64) 0 7) _ (inl VBUSY) _ _); [|by vm_compute].
    apply permittedb_ok. by vm_compute.
Defined.

Lemma trans_exclusive_witness : 2 = 2 /\ 1 <= 2 < perm_tid (ran demo).1.
Proof.
  apply (trans_exclusive (ran demo).1 (ran demo).2 2 2 (TInfo 8 0 0 0 0) (TInfo 8 0 0 0 0)).
  - apply ran_reach. by vm_compute.
  - by vm_compute.
  - by vm_compute.
  - done.
  - done.
Defined.

Lemma trans_table_full_witness : vld_create_trans 0 (Some 500) 0 101 (ran full).1 = None.
Proof.
  apply (trans_table_full (ran full).1 (ran full).2).
  - apply ran_reach. by vm_compute.
  - by vm_compute.
  - assert (H : map_Forall (fun _ i => info_match 101 0 i = false) (abs (ran full).1))
      by (apply (bool_decide_unpack _); by vm_compute).
    intros k i Hk. apply (H k i Hk).
Defined.

End Witnesses.
