(* ===== verification/Vrights.v ===== *)
(** * Rights and status of vnodes

    The parts of milko/lib/vld/vld.c that compute on the entry of a vnode
    alone: the evaluation of the access lists by [vld_check_rights], the
    conversion of an AFSStoreStatus into an entry, the author, and the test of
    volume names. *)

From S2P Require Import Prelude Voldb.

Definition EPERM : Z := 1.
Definition EACCES : Z := 13.

Definition PR_ANYUSERID : Z := -101.
Definition PR_SYSADMINID : Z := -204.

Definition PRSFS_READ : Z := 1.
Definition PRSFS_WRITE : Z := 2.
Definition PRSFS_INSERT : Z := 4.
Definition PRSFS_LOOKUP : Z := 8.
Definition PRSFS_DELETE : Z := 16.
Definition PRSFS_LOCK : Z := 32.
Definition PRSFS_ADMINISTER : Z := 64.

(** [volop_flags] (mnode.h) *)
Definition VOLOP_READ : Z := 0x001.
Definition VOLOP_WRITE : Z := 0x002.
Definition VOLOP_INSERT : Z := 0x004.
Definition VOLOP_LOOKUP : Z := 0x008.
Definition VOLOP_DELETE : Z := 0x010.
Definition VOLOP_LOCK : Z := 0x020.
Definition VOLOP_ADMIN : Z := 0x040.
Definition VOLOP_GETSTATUS : Z := 0x080.

(** [struct fs_security_context]; [cps] is [None] for a null pointer. *)
Record fs_security_context := SecCtx {
  cps : option (list Z); uid : Z; superuser : bool
}.

(** [struct msec]; [sec] is [None] for a null pointer. *)
Record msec := Msec {
  sec : option fs_security_context;
  caller_access : Z; anonymous_access : Z;
  mflags : Z; loop : Z
}.
Definition set_access (c a : Z) (m : msec) : msec :=
  Msec (sec m) c a (mflags m) (loop m).

(** [AFSStoreStatus] *)
Record AFSStoreStatus := StoreStatus {
  Mask : Z; ClientModTime : Z; ss_Owner : Z; ss_Group : Z; ss_UnixModeBits : Z; ss_SegSize : Z
}.
Definition SS_MODTIME : Z := 0x01.
Definition SS_OWNER : Z := 0x02.
Definition SS_GROUP : Z := 0x04.
Definition SS_MODEBITS : Z := 0x08.
Definition SS_SEGSIZE : Z := 0x10.

(** ** Access lists *)

Definition check_flags : list (Z * Z) :=
  [(VOLOP_READ, PRSFS_READ); (VOLOP_WRITE, PRSFS_WRITE); (VOLOP_INSERT, PRSFS_INSERT);
   (VOLOP_DELETE, PRSFS_DELETE); (VOLOP_LOOKUP, PRSFS_LOOKUP); (VOLOP_LOCK, PRSFS_LOCK);
   (VOLOP_ADMIN, PRSFS_ADMINISTER); (VOLOP_GETSTATUS, PRSFS_READ)].

(** [acl[i].owner == id]: the owner is unsigned, the id is signed. *)
Definition owner_is (x : acl_entry) (id : Z) : bool := owner x =? uwrap32 id.

(** The loop over [j], with the assignment as [f]. *)
Fixpoint member_loop (f : Z -> Z) (x : acl_entry) (ids : list Z) (access : Z) : Z :=
  match ids with
  | [] => access
  | id :: ids => member_loop f x ids (if owner_is x id then f access else access)
  end.

(** The two loops over [i]: [grant] for [acl], [revoke] for [negacl]. *)
Definition grant (x : acl_entry) (access : Z) : Z := swrap32 (Z.lor access (flags x)).
Definition revoke (x : acl_entry) (access : Z) : Z :=
  swrap32 (Z.land access (uwrap32 (Z.lnot (flags x)))).

Definition acl_step (f : acl_entry -> Z -> Z) (ids : list Z) (l : list acl_entry)
    (access : Z * Z) (i : nat) : Z * Z :=
  let x := nth i l zero_acl in
  let c := member_loop (f x) x ids (fst access) in
  let a := if owner_is x PR_ANYUSERID then f x (snd access) else snd access in
  (c, a).
Definition acl_loop (f : acl_entry -> Z -> Z) (ids : list Z) (l : list acl_entry)
    (access : Z * Z) : Z * Z :=
  fold_left (acl_step f ids l) (seq 0 FS_MAX_ACL) access.

(** The loop over [check_flags], which ends at the first refusal. *)
Fixpoint check_loop (want caller : Z) (l : list (Z * Z)) : Z :=
  match l with
  | [] => 0
  | (op, privs) :: l =>
      if (Z.land want op =? op) && negb (Z.land privs caller =? privs)
      then EACCES
      else check_loop want caller l
  end.

(** [vld_check_rights] from the directory [d] whose lists hold on: the rights
    it leaves in [m] and its result. *)
Definition dir_access (d : voldb_dir_entry) (ids : list Z) (super : bool) : Z * Z :=
  let r := acl_loop grant ids (acl d) (0, 0) in
  let '(caller, anonymous) := acl_loop revoke ids (negacl d) r in
  (if super then swrap32 (Z.lor caller (Z.lor PRSFS_LOOKUP PRSFS_ADMINISTER)) else caller,
   anonymous).
Definition check_dir_rights (d : voldb_dir_entry) (ids : list Z) (m : msec) (super : bool)
    : msec * Z :=
  let '(caller, anonymous) := dir_access d ids super in
  (set_access caller anonymous m, check_loop (mflags m) caller check_flags).

(** ** Status *)

Definition set_Owner (v : Z) (e : voldb_file_entry) : voldb_file_entry :=
  let 'FileEntry a1 a2 a3 a4 a5 a6 a7 a8 a9 a10 a11 _ a13 a14 a15 a16 a17 a18 a19 a20 := e in
  FileEntry a1 a2 a3 a4 a5 a6 a7 a8 a9 a10 a11 v a13 a14 a15 a16 a17 a18 a19 a20.
Definition set_Group (v : Z) (e : voldb_file_entry) : voldb_file_entry :=
  let 'FileEntry a1 a2 a3 a4 a5 a6 a7 a8 a9 a10 a11 a12 a13 a14 a15 a16 a17 a18 _ a20 := e in
  FileEntry a1 a2 a3 a4 a5 a6 a7 a8 a9 a10 a11 a12 a13 a14 a15 a16 a17 a18 v a20.
Definition set_UnixModeBits (v : Z) (e : voldb_file_entry) : voldb_file_entry :=
  let 'FileEntry a1 a2 a3 a4 a5 a6 a7 a8 a9 a10 a11 a12 _ a14 a15 a16 a17 a18 a19 a20 := e in
  FileEntry a1 a2 a3 a4 a5 a6 a7 a8 a9 a10 a11 a12 v a14 a15 a16 a17 a18 a19 a20.
Definition set_SegSize (v : Z) (e : voldb_file_entry) : voldb_file_entry :=
  let 'FileEntry a1 a2 a3 a4 a5 a6 a7 a8 a9 a10 a11 a12 a13 a14 a15 _ a17 a18 a19 a20 := e in
  FileEntry a1 a2 a3 a4 a5 a6 a7 a8 a9 a10 a11 a12 a13 a14 a15 v a17 a18 a19 a20.
Definition set_Author (v : Z) (e : voldb_file_entry) : voldb_file_entry :=
  let 'FileEntry a1 a2 a3 a4 a5 a6 a7 a8 a9 a10 _ a12 a13 a14 a15 a16 a17 a18 a19 a20 := e in
  FileEntry a1 a2 a3 a4 a5 a6 a7 a8 a9 a10 v a12 a13 a14 a15 a16 a17 a18 a19 a20.

(** The entry of a directory starts with that of a file. *)
Definition set_dfile (f : voldb_file_entry -> voldb_file_entry) (e : voldb_dir_entry)
    : voldb_dir_entry :=
  DirEntry (f (dfile e)) (negacl e) (acl e).

(** [ss->Mask & bit] *)
Definition masked (ss : AFSStoreStatus) (bit : Z) : bool := negb (Z.land (Mask ss) bit =? 0).
Definition when {A} (b : bool) (f : A -> A) (x : A) : A := if b then f x else x.

(** The assignments of the two functions below, which differ in the mode bits
    they keep. *)
Definition store_fields (mode : Z) (ss : AFSStoreStatus) (e : voldb_file_entry)
    : voldb_file_entry :=
  let e := when (masked ss SS_OWNER) (set_Owner (ss_Owner ss)) e in
  let e := when (masked ss SS_MODTIME) (set_ServerModTime (ClientModTime ss)) e in
  let e := when (masked ss SS_GROUP) (set_Group (ss_Group ss)) e in
  let e := when (masked ss SS_MODEBITS) (set_UnixModeBits (Z.land mode (ss_UnixModeBits ss))) e in
  when (masked ss SS_SEGSIZE) (set_SegSize (ss_SegSize ss)) e.

(** The mode masks 07777 and 0777. *)
Definition vld_storestatus_to_dent (e : voldb_dir_entry) (ss : AFSStoreStatus)
    : voldb_dir_entry :=
  set_dfile (store_fields (8^4 - 1) ss) e.
Definition vld_storestatus_to_fent (e : voldb_file_entry) (ss : AFSStoreStatus)
    : voldb_file_entry :=
  store_fields (8^3 - 1) ss e.

(** [None] is an abort, or an entry whose type is not that of its union. *)
Definition vld_storestatus_to_ent (e : voldb_entry) (ss : AFSStoreStatus)
    : option voldb_entry :=
  match u e with
  | u_dir d =>
      if type e =? TYPE_DIR then Some (Entry (type e) (u_dir (vld_storestatus_to_dent d ss)))
      else None
  | u_file f =>
      if (type e =? TYPE_FILE) || (type e =? TYPE_LINK)
      then Some (Entry (type e) (u_file (vld_storestatus_to_fent f ss)))
      else None
  end.

(** [m] is [None] for a null pointer; the uid is stored in an unsigned field. *)
Definition vld_set_author (e : voldb_entry) (m : option msec) : option voldb_entry :=
  match m with
  | None => Some e
  | Some m =>
      s ← sec m;
      match u e with
      | u_dir d =>
          if type e =? TYPE_DIR
          then Some (Entry (type e) (u_dir (set_dfile (set_Author (uwrap32 (uid s))) d)))
          else None
      | u_file f =>
          if (type e =? TYPE_FILE) || (type e =? TYPE_LINK)
          then Some (Entry (type e) (u_file (set_Author (uwrap32 (uid s)) f)))
          else None
      end
  end.

(** ** Names of volumes *)

(** The value of a byte as a [char], which is signed. *)
Definition char_of (c : Z) : Z := if c <? 128 then c else c - 256.

(** 0 for a valid name, else its first bad character.  [None] is a null
    pointer. *)
Fixpoint volname_loop (name : bytes) : Z :=
  match name with
  | [] => 0
  | b :: name =>
      let c := char_of b in
      if negb (((97 <=? c) && (c <=? 122)) || ((65 <=? c) && (c <=? 90)) ||
               ((48 <=? c) && (c <=? 57)) || (c =? 46))
      then c else volname_loop name
  end.
Definition VLD_VALID_VOLNAME (name : option bytes) : Z :=
  match name with Some s => volname_loop s | None => 0 end.
