(* ===== verification/VrightsCorrect.v ===== *)
(** * Correctness of the rights and the status conversion

    The loops of [Vrights] against reference definitions: an access right is a
    bit that some positive entry of a member grants and no negative entry of a
    member takes away. *)

From S2P Require Import Prelude Voldb Vrights.

(** ** Bits of machine words *)

Lemma swrap32_testbit z k : 0 <= k < 32 -> Z.testbit (swrap32 z) k = Z.testbit z k.
Proof.
  intros Hk. assert (H : swrap32 z mod 2^32 = z mod 2^32).
  { unfold swrap32. rewrite Zminus_mod, Zmod_mod, <- Zminus_mod. f_equal. lia. }
  rewrite <- (Z.mod_pow2_bits_low (swrap32 z) 32 k) by lia.
  rewrite H. apply Z.mod_pow2_bits_low. lia.
Qed.

Lemma uwrap32_testbit z k : 0 <= k < 32 -> Z.testbit (uwrap32 z) k = Z.testbit z k.
Proof. intros Hk. unfold uwrap32. apply Z.mod_pow2_bits_low. lia. Qed.

Lemma grant_testbit x a k :
  0 <= k < 32 -> Z.testbit (grant x a) k = Z.testbit a k || Z.testbit (flags x) k.
Proof. intros Hk. unfold grant. by rewrite swrap32_testbit, Z.lor_spec. Qed.

Lemma revoke_testbit x a k :
  0 <= k < 32 -> Z.testbit (revoke x a) k = Z.testbit a k && negb (Z.testbit (flags x) k).
Proof.
  intros Hk. unfold revoke.
  by rewrite swrap32_testbit, Z.land_spec, uwrap32_testbit, Z.lnot_spec by lia.
Qed.

(** ** The reference definition *)

(** Is bit [k] set in one of the first 8 entries of [l] whose owner is one of
    [ids]? *)
Definition acl_bit (ids : list Z) (l : list acl_entry) (k : Z) : bool :=
  existsb (fun i => let x := nth i l zero_acl in
                    existsb (owner_is x) ids && Z.testbit (flags x) k) (seq 0 FS_MAX_ACL).

(** The rights of the members [ids]. *)
Definition right_bit (ids : list Z) (d : voldb_dir_entry) (k : Z) : bool :=
  acl_bit ids (acl d) k && negb (acl_bit ids (negacl d) k).

(** ** The loops *)

(** A step of the loop over the members sets or clears a bit. *)
Lemma member_loop_testbit (f : Z -> Z) x (ids : list Z) k (g : bool -> bool) :
  (forall a, Z.testbit (f a) k = g (Z.testbit a k)) ->
  (forall b, g (g b) = g b) ->
  forall a, Z.testbit (member_loop f x ids a) k =
            if existsb (owner_is x) ids then g (Z.testbit a k) else Z.testbit a k.
Proof.
  intros Hf Hg. induction ids as [|id ids IH]; intros a; simpl; [done|].
  rewrite IH. destruct (owner_is x id); simpl; [|done].
  rewrite Hf. by destruct (existsb _ _); rewrite ?Hg.
Qed.

(** Both lists at once: [f] changes a bit by the function [g] of the bit and
    that of the entry. *)
Section Loop.
Context (f : acl_entry -> Z -> Z) (g : bool -> bool -> bool) (k : Z).
Context (Hf : forall x a, Z.testbit (f x a) k = g (Z.testbit (flags x) k) (Z.testbit a k)).
Context (Hidem : forall b c, g b (g b c) = g b c).
Context (Hneutral : forall c, g false c = c).
Context (Hor : forall b b' c, g b (g b' c) = g (b' || b) c).

Lemma acl_fold_testbit ids l js : forall a,
  let bit ids := existsb (fun i => let x := nth i l zero_acl in
                   existsb (owner_is x) ids && Z.testbit (flags x) k) js in
  let r := fold_left (acl_step f ids l) js a in
  Z.testbit (fst r) k = g (bit ids) (Z.testbit (fst a) k) /\
  Z.testbit (snd r) k = g (bit [PR_ANYUSERID]) (Z.testbit (snd a) k).
Proof.
  induction js as [|i js IH]; intros [c a]; simpl; [by rewrite !Hneutral|].
  destruct (IH (acl_step f ids l (c, a) i)) as [H1 H2]. simpl in H1, H2. rewrite H1, H2.
  set (x := nth i l zero_acl). clear H1 H2 IH. split.
  - rewrite (member_loop_testbit (f x) x ids k (g (Z.testbit (flags x) k))) by auto.
    destruct (existsb (owner_is x) ids); simpl; [by rewrite Hor|].
    by rewrite <- (orb_false_l (existsb _ _)), <- Hor.
  - rewrite orb_false_r. destruct (owner_is x PR_ANYUSERID); simpl; [by rewrite Hf, Hor|done].
Qed.
End Loop.

Lemma grant_loop_testbit ids l a k :
  0 <= k < 32 ->
  let r := acl_loop grant ids l a in
  Z.testbit (fst r) k = acl_bit ids l k || Z.testbit (fst a) k /\
  Z.testbit (snd r) k = acl_bit [PR_ANYUSERID] l k || Z.testbit (snd a) k.
Proof.
  intros Hk. apply (acl_fold_testbit grant orb k).
  - intros x b. rewrite grant_testbit by assumption. apply orb_comm.
  - intros [] []; reflexivity.
  - reflexivity.
  - intros [] [] []; reflexivity.
Qed.

Lemma revoke_loop_testbit ids l a k :
  0 <= k < 32 ->
  let r := acl_loop revoke ids l a in
  Z.testbit (fst r) k = negb (acl_bit ids l k) && Z.testbit (fst a) k /\
  Z.testbit (snd r) k = negb (acl_bit [PR_ANYUSERID] l k) && Z.testbit (snd a) k.
Proof.
  intros Hk. apply (acl_fold_testbit revoke (fun b c => negb b && c) k).
  - intros x b. rewrite revoke_testbit by assumption. apply andb_comm.
  - intros [] []; reflexivity.
  - reflexivity.
  - intros [] [] []; reflexivity.
Qed.

Lemma superuser_bits k :
  0 <= k -> Z.testbit (Z.lor PRSFS_LOOKUP PRSFS_ADMINISTER) k = (k =? 3) || (k =? 6).
Proof.
  intros Hk. change (Z.lor PRSFS_LOOKUP PRSFS_ADMINISTER) with (Z.lor (2^3) (2^6)).
  rewrite Z.lor_spec, !Z.pow2_bits_eqb by lia. f_equal; apply Z.eqb_sym.
Qed.

Lemma dir_access_testbit d ids super k :
  0 <= k < 32 ->
  Z.testbit (fst (dir_access d ids super)) k =
    right_bit ids d k || super && ((k =? 3) || (k =? 6)) /\
  Z.testbit (snd (dir_access d ids super)) k = right_bit [PR_ANYUSERID] d k.
Proof.
  intros Hk. unfold dir_access, right_bit.
  destruct (grant_loop_testbit ids (acl d) (0, 0) k Hk) as [Hg1 Hg2].
  cbn [fst snd] in Hg1, Hg2. rewrite Z.bits_0, orb_false_r in Hg1, Hg2.
  set (r := acl_loop grant ids (acl d) (0, 0)) in *.
  destruct (revoke_loop_testbit ids (negacl d) r k Hk) as [Hr1 Hr2].
  destruct (acl_loop revoke ids (negacl d) r) as [c a]. cbn [fst snd] in *.
  rewrite Hg1, andb_comm in Hr1. rewrite Hg2, andb_comm in Hr2.
  split; [|exact Hr2]. destruct super; cbn [andb]; [|by rewrite Hr1, orb_false_r].
  rewrite swrap32_testbit, Z.lor_spec, Hr1, superuser_bits by lia. reflexivity.
Qed.

Lemma check_loop_spec want caller l :
  (check_loop want caller l = 0 \/ check_loop want caller l = EACCES) /\
  (check_loop want caller l = 0 <->
   forall op privs, (op, privs) ∈ l -> Z.land want op = op -> Z.land privs caller = privs).
Proof.
  induction l as [|[op privs] l [IH1 IH2]]; simpl.
  - split; [by left|]. split; [|done]. intros _ op privs H. by apply elem_of_nil in H.
  - destruct (_ && _) eqn:Hb; zbool.
    + split; [by right|]. split; [done|]. intros Hall. exfalso.
      apply H0. apply (Hall op privs); [apply list_elem_of_here|done].
    + split; [done|]. rewrite IH2. split; intros Hall op' privs'.
      * rewrite elem_of_cons. intros [[= -> ->]|Hin] Ho; [|eauto].
        apply andb_false_iff in Hb as [Hb|Hb]; zbool; done.
      * intros Hin. apply Hall. by apply list_elem_of_further.
Qed.

(** A set of rights that is a single bit. *)
Lemma land_bit_eq k caller :
  0 <= k -> Z.land (2^k) caller = 2^k <-> Z.testbit caller k = true.
Proof.
  intros Hk. split.
  - intros H. assert (Ht : Z.testbit (Z.land (2^k) caller) k = true)
      by (rewrite H; by apply Z.pow2_bits_true).
    by rewrite Z.land_spec, Z.pow2_bits_true in Ht.
  - intros H. apply Z.bits_inj'. intros n Hn. rewrite Z.land_spec, Z.pow2_bits_eqb by done.
    destruct (Z.eqb_spec k n) as [<-|]; [by rewrite H|done].
Qed.

(** ** Theorems *)

(** The rights an operation needs, as the bits of [check_flags]. *)
Definition needed : list (Z * Z) :=
  [(VOLOP_READ, 0); (VOLOP_WRITE, 1); (VOLOP_INSERT, 2); (VOLOP_DELETE, 4);
   (VOLOP_LOOKUP, 3); (VOLOP_LOCK, 5); (VOLOP_ADMIN, 6); (VOLOP_GETSTATUS, 0)].

Lemma check_flags_needed : check_flags = map (fun x => (fst x, 2 ^ snd x)) needed.
Proof. reflexivity. Qed.

Lemma needed_range op k : (op, k) ∈ needed -> 0 <= k < 32.
Proof.
  intros H. unfold needed in H. repeat (apply elem_of_cons in H as [[= -> ->]|H]; [lia|]).
  by apply elem_of_nil in H.
Qed.

(** C20: The rights of a caller are the reference definition's: a right holds
    when a positive entry of one of the caller's groups has it and no negative
    one of them, or for lookup and administration when the caller is a
    superuser; anonymous rights are those of system:anyuser; and the check
    succeeds exactly when every operation asked for has its right, else it
    answers EACCES. *)
Theorem vld_rights_correct d ids m super :
  let '(m', ret) := check_dir_rights d ids m super in
  (forall k, 0 <= k < 32 ->
     Z.testbit (caller_access m') k =
       right_bit ids d k || super && ((k =? 3) || (k =? 6)) /\
     Z.testbit (anonymous_access m') k = right_bit [PR_ANYUSERID] d k) /\
  (ret = 0 \/ ret = EACCES) /\
  (ret = 0 <->
   forall op k, (op, k) ∈ needed -> Z.land (mflags m) op = op ->
     right_bit ids d k || super && ((k =? 3) || (k =? 6)) = true).
Proof.
  unfold check_dir_rights. pose proof (dir_access_testbit d ids super) as Ht.
  destruct (dir_access d ids super) as [c a]. cbn [fst snd] in Ht.
  destruct (check_loop_spec (mflags m) c check_flags) as [Hr Hz].
  split_and!; [exact Ht|apply Hr..|]. rewrite Hz, check_flags_needed. split.
  - intros H op k Hin Hop. pose proof (needed_range op k Hin) as Hk.
    rewrite <- (proj1 (Ht k Hk)). apply land_bit_eq; [lia|].
    apply (H op); [|done]. apply list_elem_of_fmap. exists (op, k). split; [reflexivity|done].
  - intros H op privs ([op' k] & [= -> ->] & Hin)%list_elem_of_fmap Hop.
    pose proof (needed_range op' k Hin) as Hk. apply land_bit_eq; [cbn; lia|].
    cbn [fst snd]. rewrite (proj1 (Ht k Hk)). by apply (H op').
Qed.

(** Storing a status changes exactly the fields of its mask: owner, group,
    modification time, segment size and the mode bits, of which a directory
    keeps 12 and a file 9. *)
Theorem vld_storestatus_fields e ss e' :
  vld_storestatus_to_ent e ss = Some e' ->
  let file x := match u x with u_dir d => dfile d | u_file f => f end in
  let f := file e in let f' := file e' in
  let m := match u e with u_dir _ => 8^4 | u_file _ => 8^3 end in
  type e' = type e /\
  Owner f' = (if masked ss SS_OWNER then ss_Owner ss else Owner f) /\
  Group f' = (if masked ss SS_GROUP then ss_Group ss else Group f) /\
  ServerModTime f' = (if masked ss SS_MODTIME then ClientModTime ss else ServerModTime f) /\
  SegSize f' = (if masked ss SS_SEGSIZE then ss_SegSize ss else SegSize f) /\
  UnixModeBits f' = (if masked ss SS_MODEBITS then ss_UnixModeBits ss mod m else UnixModeBits f) /\
  [nextptr f'; unique f'; FileType f'; LinkCount f'; Length f'; DataVersion f'; Author f';
   ParentVnode f'; ParentUnique f'] =
  [nextptr f; unique f; FileType f; LinkCount f; Length f; DataVersion f; Author f;
   ParentVnode f; ParentUnique f] /\ ino f' = ino f.
Proof.
  assert (Hm : forall n x, 0 <= n -> Z.land (2^n - 1) x = x mod 2^n).
  { intros n x Hn. rewrite Z.land_comm, <- (Z.land_ones x n) by done.
    by rewrite Z.ones_equiv, Z.sub_1_r. }
  unfold vld_storestatus_to_ent. destruct (u e) as [d|f0] eqn:Hu; case_match; [|done| |done];
    intros [= <-]; cbn [u type dfile]; unfold vld_storestatus_to_dent, vld_storestatus_to_fent,
      set_dfile, store_fields; cbn [dfile].
  - change (8^4 - 1) with (2^12 - 1). rewrite Hm by lia. change (8^4) with (2^12).
    destruct (dfile d), (masked ss SS_OWNER), (masked ss SS_MODTIME), (masked ss SS_GROUP),
      (masked ss SS_MODEBITS), (masked ss SS_SEGSIZE); split_and!; reflexivity.
  - change (8^3 - 1) with (2^9 - 1). rewrite Hm by lia. change (8^3) with (2^9).
    destruct f0, (masked ss SS_OWNER), (masked ss SS_MODTIME), (masked ss SS_GROUP),
      (masked ss SS_MODEBITS), (masked ss SS_SEGSIZE); split_and!; reflexivity.
Qed.

(** A volume name is valid exactly when it consists of letters, digits
    and dots; the empty name and the null pointer are. *)
Theorem vld_valid_volname name :
  Forall (fun c => 0 < c < 256) (default [] name) ->
  VLD_VALID_VOLNAME name = 0 <->
  Forall (fun c => 97 <= c <= 122 \/ 65 <= c <= 90 \/ 48 <= c <= 57 \/ c = 46) (default [] name).
Proof.
  destruct name as [s|]; simpl; [|by split; intros; constructor].
  induction s as [|c s IH]; intros Hs; simpl; [split; [constructor|done]|].
  apply Forall_cons in Hs as [Hc Hs]. rewrite Forall_cons. unfold char_of at 1.
  destruct (negb _) eqn:Hb.
  - split.
    + intros H0. unfold char_of in *. destruct (c <? 128) eqn:?; zbool; lia.
    + intros [H0 _]. unfold char_of in Hb. exfalso. apply negb_true_iff in Hb.
      rewrite !orb_false_iff, !andb_false_iff in Hb.
      destruct (c <? 128) eqn:?; zbool; lia.
  - rewrite (IH Hs). split; [|by intros [_ ?]]. intros H; split; [|done].
    unfold char_of in Hb. apply negb_false_iff in Hb.
    rewrite !orb_true_iff, !andb_true_iff in Hb. destruct (c <? 128) eqn:?; zbool; lia.
Qed.

(** ** Concrete inputs *)

Module Witnesses.

(** "root.cell" is valid, "a b" is not. *)
Definition root_cell : bytes := [114; 111; 111; 116; 46; 99; 101; 108; 108].

Lemma vld_valid_volname_witness :
  VLD_VALID_VOLNAME (Some root_cell) = 0 /\ VLD_VALID_VOLNAME (Some [97; 32; 98]) = 32.
Proof.
  split; [|reflexivity]. apply (vld_valid_volname (Some root_cell)).
  - by repeat constructor.
  - simpl. repeat constructor; lia.
Defined.

Definition a_file : voldb_entry := Entry TYPE_FILE (u_file (set_FileType TYPE_FILE zero_entry)).
Definition chmod : AFSStoreStatus := StoreStatus SS_MODEBITS 77 5 6 (2048 + 420) 9.

(** A set-uid bit is dropped from the mode of a file. *)
Lemma vld_storestatus_fields_witness :
  match vld_storestatus_to_ent a_file chmod with
  | Some (Entry _ (u_file f)) => UnixModeBits f = 420 /\ Owner f = 0
  | _ => False
  end.
Proof.
  destruct (vld_storestatus_to_ent a_file chmod) as [[t v]|] eqn:He; [|discriminate He].
  pose proof (vld_storestatus_fields a_file chmod _ He) as (_ & Ho & _ & _ & _ & Hm & _).
  destruct v as [d|f]; [discriminate He|]. split; [exact Hm|exact Ho].
Defined.

(** Group 7 may read and write, user 5 of the group may not write. *)
Definition a_dir : voldb_dir_entry :=
  DirEntry zero_entry [AclEntry 5 PRSFS_WRITE] [AclEntry 7 3; AclEntry (uwrap32 PR_ANYUSERID) 8].
Example rights_of_user_5 :
  dir_access a_dir [5; 7; PR_ANYUSERID] false = (9, 8).
Proof. reflexivity. Qed.

End Witnesses.
