(* ===== verification/Svol.v ===== *)
(** * Files of a volume on the host

    milko/lib/vld/common.c keeps the file of each vnode under a name made from
    the number of its host inode, four directories deep; svol.c is the volume
    type made of these functions, fvol.c (read-only volumes of existing files)
    adds names of another kind.  The host file system is what the code uses of
    POSIX: [hostfs] has directories, names of inodes, their contents and the
    open descriptors; every call first meets the error, if any, that [hos]
    has for it.  The names [mkstemp] makes up and the numbers of new inodes
    are the host's choice. *)

From S2P Require Import Prelude Estate Buf Voldb.

Local Open Scope em_scope.

Definition MAXPATHLEN : Z := 4096.

(** ** The host *)

Record hostfs := Host {
  hdirs : gset bytes;           (* directories, by path *)
  hnames : gmap bytes Z;        (* files: the inode of a path *)
  hfiles : gmap Z bytes;        (* contents by inode *)
  hfds : gmap Z Z;              (* the inodes of open descriptors *)
  hos : list Z                  (* errors of the coming calls, 0 for none *)
}.

(** What is left to the host: the name [mkstemp] makes from a template, the
    inode and the descriptor of a new file.  There may be no name and no inode
    left. *)
Class HostChoice := {
  tmpname : hostfs -> bytes -> option bytes;
  new_ino : hostfs -> option Z;
  new_fd : hostfs -> Z
}.

(** The directory of a path. *)
Fixpoint drop_base (r : bytes) : bytes :=
  match r with
  | [] => []
  | c :: r => if c =? 47 then r else drop_base r
  end.
Definition dirname (p : bytes) : bytes := rev (drop_base (rev p)).

Definition ino_used (s : hostfs) (i : Z) : Prop :=
  (exists p, hnames s !! p = Some i) \/ (exists fd, hfds s !! fd = Some i).

(** What POSIX promises of these choices. *)
Class HostChoiceOk `{HostChoice} : Prop := {
  tmpname_fresh s t p : tmpname s t = Some p -> hnames s !! p = None /\ (p ∉ hdirs s);
  tmpname_shape s p x q : length x = 6%nat -> tmpname s (p ++ x) = Some q ->
    exists y, q = p ++ y /\ length y = 6%nat /\ Forall (fun c => c <> 47) y;
  new_ino_fresh s i : new_ino s = Some i -> ~ ino_used s i;
  new_ino_range s i : new_ino s = Some i -> 0 <= i < 2^64;
  new_fd_fresh s : hfds s !! new_fd s = None
}.

Definition HM : Type -> Type := EM hostfs.

(** The error of the next call. *)
Definition hsys : HM Z := fun s =>
  match hos s with
  | [] => Some (s, inr 0)
  | r :: l => Some (Host (hdirs s) (hnames s) (hfiles s) (hfds s) l, inr r)
  end.

(** A call that can also fail with the result of [why], else changes the
    state by [f]: 0 or the errno. *)
Definition hcall (why : hostfs -> Z) (f : hostfs -> hostfs) : HM Z :=
  r <-- hsys ;;
  if negb (r =? 0) then eret r else
  s <-- eget ;;
  if negb (why s =? 0) then eret (why s) else emod f ;;! eret 0.

Definition in_dirs (p : bytes) (s : hostfs) : bool := bool_decide (p ∈ hdirs s).

Definition mkdir (p : bytes) : HM Z :=
  hcall (fun s => match hnames s !! p with
                  | Some _ => EEXIST
                  | None => if in_dirs p s then EEXIST
                            else if in_dirs (dirname p) s then 0 else ENOENT
                  end)
        (fun s => Host ({[p]} ∪ hdirs s) (hnames s) (hfiles s) (hfds s) (hos s)).

Definition EISDIR : Z := 21.
Definition ENOSPC : Z := 28.

(** [unlink] and [rename] of files. *)
Definition unlink (p : bytes) : HM Z :=
  hcall (fun s => match hnames s !! p with
                  | Some _ => 0
                  | None => if in_dirs p s then EISDIR else ENOENT
                  end)
        (fun s => Host (hdirs s) (delete p (hnames s)) (hfiles s) (hfds s) (hos s)).

Definition rename (p q : bytes) : HM Z :=
  hcall (fun s => match hnames s !! p with
                  | None => ENOENT
                  | Some _ => if in_dirs q s then EISDIR
                              else if in_dirs (dirname q) s then 0 else ENOENT
                  end)
        (fun s => match hnames s !! p with
                  | None => s
                  | Some i => Host (hdirs s) (<[q := i]> (delete p (hnames s))) (hfiles s)
                                (hfds s) (hos s)
                  end).

Definition hclose (fd : Z) : HM unit :=
  emod (fun s => Host (hdirs s) (hnames s) (hfiles s) (delete fd (hfds s)) (hos s)).

(** [open] of an existing file: a descriptor or the errno. *)
Definition hopen `{HostChoice} (p : bytes) : HM (Z + Z) :=
  r <-- hsys ;;
  if negb (r =? 0) then eret (inl r) else
  s <-- eget ;;
  match hnames s !! p with
  | None => eret (inl (if in_dirs p s then EISDIR else ENOENT))
  | Some i =>
      emod (fun s => Host (hdirs s) (hnames s) (hfiles s) (<[new_fd s := i]> (hfds s)) (hos s)) ;;!
      eret (inr (new_fd s))
  end.

(** [mkstemp]: the name it leaves in the template and the descriptor. *)
Definition mkstemp `{HostChoice} (template : bytes) : HM (Z + bytes * Z) :=
  r <-- hsys ;;
  if negb (r =? 0) then eret (inl r) else
  s <-- eget ;;
  if negb (in_dirs (dirname template) s) then eret (inl ENOENT) else
  match tmpname s template, new_ino s with
  | None, _ => eret (inl EEXIST)
  | _, None => eret (inl ENOSPC)
  | Some p, Some i =>
      emod (fun s => Host (hdirs s) (<[p := i]> (hnames s)) (<[i := []]> (hfiles s))
                       (<[new_fd s := i]> (hfds s)) (hos s)) ;;!
      eret (inr (p, new_fd s))
  end.

(** [fstat]: the inode number, which is all that is used, and the size. *)
Definition hfstat (fd : Z) : HM (Z + Z * Z) :=
  r <-- hsys ;;
  if negb (r =? 0) then eret (inl r) else
  s <-- eget ;;
  match hfds s !! fd with
  | None => eret (inl 9)
  | Some i => eret (inr (i, blen (default [] (hfiles s !! i))))
  end.

(** ** Names *)

(** [%02x] of a byte *)
Definition hexdigit (d : Z) : Z := if d <? 10 then 48 + d else 87 + d.
Definition hex2 (b : Z) : bytes := [hexdigit (b / 16); hexdigit (b mod 16)].
Definition slash : bytes := [47].
Definition byte_at (num k : Z) : Z := Z.land (Z.shiftr num k) 0xff.

(** [snprintf] into a buffer of [MAXPATHLEN] bytes: [None] when the text does
    not fit. *)
Definition snprintf (s : bytes) : option bytes := if blen s <? MAXPATHLEN then Some s else None.

(** The first [n] directories below the partition. *)
Fixpoint name_path (part : bytes) (num : Z) (ks : list Z) : bytes :=
  match ks with
  | [] => part
  | k :: ks => name_path (part ++ slash ++ hex2 (byte_at num k)) num ks
  end.

(** [num] is an [int32_t]: an inode number loses its upper half. *)
Definition local_create_name (part : bytes) (num : Z) : Z + bytes :=
  match snprintf (name_path part (swrap32 num) [24; 16; 8; 0]) with
  | Some p => inr p
  | None => inl ENOMEM
  end.

(** ** Opaque names of inodes *)

(** [memcpy] of an [ino_t] on a little-endian host *)
Definition le64 (z : Z) : bytes := le32 (z mod 2^32) ++ le32 (z / 2^32).
Definition of_le (b : bytes) : Z := of_be (rev b).

Definition local_ino2opaque (ino : Z) (o : onode_opaque) : option onode_opaque :=
  d ← wr (onode_data o) 0 [76];
  d ← wr d 1 (le64 ino);
  Some (Onode 9 d).

(** The opaque name is changed too: its size is set. *)
Definition local_opaque2ino (o : onode_opaque) : option (Z + Z * onode_opaque) :=
  c ← rd8 (onode_data o) 0;
  if negb (c =? 76) then Some (inl EINVAL) else
  if negb (in_buf (onode_data o) 1 8) then None else
  Some (inr (of_le (take 8 (drop 1 (onode_data o))), Onode 9 (onode_data o))).

Definition local_opaquep (o : onode_opaque) : option bool :=
  if onode_size o <? 1 then Some false else
  c ← rd8 (onode_data o) 0; Some (c =? 76).

(** ** common.c *)

Section Local.
Context `{HostChoice}.

Definition local_unlink_file (part : bytes) (o : onode_opaque) : HM unit :=
  r <-- eopt (local_opaque2ino o) ;;
  match r with
  | inl e => efail e
  | inr (ino, _) =>
      match local_create_name part ino with
      | inl e => efail e
      | inr name => e <-- unlink name ;; if e =? 0 then eret tt else efail e
      end
  end.

Definition local_open_file (part : bytes) (o : onode_opaque) : HM Z :=
  r <-- eopt (local_opaque2ino o) ;;
  match r with
  | inl e => efail e
  | inr (ino, _) =>
      match local_create_name part ino with
      | inl e => efail e
      | inr p => r <-- hopen p ;; match r with inl e => efail e | inr fd => eret fd end
      end
  end.

(** The descriptor and the size that are left in the mnode. *)
Definition created_fd : Type := option (Z * Z).

(** [goto error] *)
Definition create_error (nodename : bytes) (n : created_fd) (e : Z)
    : HM (created_fd * (Z + onode_opaque)) :=
  unlink nodename ;;! eret (n, inl e).

(** A directory of the first levels: [mkdir] may fail. *)
Definition create_dir (nodename : bytes) (n : created_fd) (path : bytes)
    (k : HM (created_fd * (Z + onode_opaque))) : HM (created_fd * (Z + onode_opaque)) :=
  match snprintf path with
  | None => create_error nodename n ENOMEM
  | Some name => mkdir name ;;! k
  end.

(** [withn] is [n != NULL]; [o] is the memory the opaque name goes to.  The
    result is what is left in [n], and the opaque name or the error. *)
Definition local_create_file (part : bytes) (o : onode_opaque) (withn : bool)
    : HM (created_fd * (Z + onode_opaque)) :=
  let template := part ++ [47; 105; 110; 111; 100; 101; 88; 88; 88; 88; 88; 88] in
  match snprintf template with
  | None => create_error (take (Z.to_nat (MAXPATHLEN - 1)) template) None ENOMEM
  | Some template =>
      r <-- mkstemp template ;;
      match r with
      | inl e => eret (None, inl e)
      | inr (nodename, fd) =>
          r <-- hfstat fd ;;
          match r with
          | inl e => hclose fd ;;! create_error nodename None e
          | inr (ino, sz) =>
              (if withn then eret tt else hclose fd) ;;!
              let n := if withn then Some (fd, sz) else None in
              create_dir nodename n (name_path part ino [24]) (
              create_dir nodename n (name_path part ino [24; 16]) (
              match snprintf (name_path part ino [24; 16; 8]) with
              | None => create_error nodename n ENOMEM
              | Some name =>
                  e <-- mkdir name ;;
                  if negb (e =? 0) then create_error nodename n e else
                  match local_create_name part ino with
                  | inl e => create_error nodename n e
                  | inr name =>
                      e <-- rename nodename name ;;
                      if negb (e =? 0) then create_error nodename n e else
                      o <-- eopt (local_ino2opaque ino o) ;;
                      eret (n, inr o)
                  end
              end))
          end
      end
  end.

(** ** svol.c: [svol_icreate], [svol_iopen] and [svol_unlink] *)

Definition svol_icreate := local_create_file.
Definition svol_iopen := local_open_file.
Definition svol_unlink := local_unlink_file.

End Local.

(** ** fvol.c: names by an offset in the file of names *)

Definition num2opaque (num : Z) (o : onode_opaque) : option onode_opaque :=
  d ← wr (onode_data o) 0 [70];
  d ← wr d 1 (be32 num);
  Some (Onode 5 d).

Definition opaque2num (o : onode_opaque) : option (Z + Z) :=
  if uwrap64 (onode_size o) <? 5 then Some (inl EINVAL) else
  c ← rd8 (onode_data o) 0;
  if negb (c =? 70) then Some (inl EINVAL) else
  w ← rd32 (onode_data o) 1; Some (inr (swrap32 w)).

Definition fvol_offset2opaque := num2opaque.

(** [getfilename]: the C string at [off] of the file of names.  The offset is
    compared as a [size_t]. *)
Definition getfilename (names : bytes) (off : Z) : option (Z + bytes) :=
  if uwrap64 (blen names - 1) <? uwrap64 off then Some (inl ENOENT) else
  s ← rd_cstr names off; Some (inr s).

(** [fvol_iopen]: the inode file, or the file whose name is at the offset. *)
Definition fvol_iopen `{HostChoice} (part : bytes) (names : bytes) (o : onode_opaque) : HM Z :=
  l <-- eopt (local_opaquep o) ;;
  if l : bool then local_open_file part o else
  r <-- eopt (opaque2num o) ;;
  match r with
  | inl e => efail e
  | inr num =>
      r <-- eopt (getfilename names num) ;;
      match r with
      | inl e => efail e
      | inr name => r <-- hopen name ;; match r with inl e => efail e | inr fd => eret fd end
      end
  end.
