(* ===== verification/SvolCorrect.v ===== *)
(** * Correctness of the files of a volume

    Names: the name of an inode depends on its low 32 bits and on nothing
    else.  Creation: no file that exists is touched, the new one can be opened
    by the opaque name that is returned, and a group of 256 inode numbers can
    be used for one creation only. *)

From S2P Require Import Prelude Estate Buf Voldb Svol.

Local Open Scope em_scope.

(** ** Names *)

Lemma hexdigit_inj d e :
  0 <= d < 16 -> 0 <= e < 16 -> hexdigit d = hexdigit e -> d = e.
Proof. unfold hexdigit. intros Hd He. do 2 case_match; zbool; lia. Qed.

Lemma hex2_inj a b : 0 <= a < 256 -> 0 <= b < 256 -> hex2 a = hex2 b -> a = b.
Proof.
  intros Ha Hb [= H1 H2]. apply hexdigit_inj in H1, H2; Z.div_mod_to_equations; lia.
Qed.

Lemma hex2_no_slash b : 0 <= b < 256 -> Forall (fun c => c <> 47) (hex2 b).
Proof.
  intros Hb. unfold hex2, hexdigit.
  repeat constructor; case_match; zbool; Z.div_mod_to_equations; lia.
Qed.

Lemma byte_at_range num k : 0 <= k -> 0 <= byte_at num k < 256.
Proof.
  intros Hk. unfold byte_at. change 0xff with (Z.ones 8). rewrite Z.land_ones by lia.
  apply Z.mod_pos_bound. lia.
Qed.

(** The bytes of the name are those of the low half of the inode number. *)
Lemma byte_at_swrap32 num k : 0 <= k <= 24 -> byte_at (swrap32 num) k = byte_at num k.
Proof.
  intros Hk. unfold byte_at. change 0xff with (Z.ones 8). rewrite !Z.land_ones by lia.
  rewrite !Z.shiftr_div_pow2 by lia.
  assert (H : swrap32 num = num - 2^32 * ((num + 2^31) / 2^32)).
  { unfold swrap32. rewrite Z.mod_eq by lia. lia. }
  rewrite H. set (q := (num + 2^31) / 2^32). clearbody q.
  replace (2^32) with (2^k * 2^(32 - k)) by (rewrite <- Z.pow_add_r by lia; f_equal; lia).
  replace (num - 2^k * 2^(32-k) * q) with (num + (- (2^(32-k) * q)) * 2^k) by lia.
  rewrite Z.div_add by (apply Z.pow_nonzero; lia).
  replace (2^(32 - k)) with (2^8 * 2^(24 - k)) by (rewrite <- Z.pow_add_r by lia; f_equal; lia).
  replace (num / 2^k + - (2^8 * 2^(24-k) * q)) with (num / 2^k + (- (2^(24-k) * q)) * 2^8) by lia.
  by rewrite Z.mod_add by lia.
Qed.

Lemma name_path_swrap32 num ks : forall part,
  Forall (fun k => 0 <= k <= 24) ks -> name_path part (swrap32 num) ks = name_path part num ks.
Proof.
  induction ks as [|k ks IH]; intros part Hks; simpl; [done|].
  apply Forall_cons in Hks as [Hk Hks]. by rewrite byte_at_swrap32, IH.
Qed.

Lemma name_path_app part num ks : name_path part num ks = part ++ name_path [] num ks.
Proof.
  revert part. induction ks as [|k ks IH]; intros part; simpl; [by rewrite app_nil_r|].
  rewrite IH. symmetry. rewrite IH. by rewrite <- !app_assoc.
Qed.

Lemma name_path_length part num ks :
  length (name_path part num ks) = (length part + 3 * length ks)%nat.
Proof.
  revert part. induction ks as [|k ks IH]; intros part; simpl; [lia|].
  rewrite IH, length_app. simpl. lia.
Qed.

(** The paths are the same exactly when the bytes of the numbers are. *)
Lemma name_path_inj part a b ks :
  Forall (fun k => 0 <= k) ks ->
  name_path part a ks = name_path part b ks <->
  Forall (fun k => byte_at a k = byte_at b k) ks.
Proof.
  intros Hks. rewrite (name_path_app part a), (name_path_app part b).
  split; [intros H%app_inv_head|intros H; f_equal]; revert H;
    induction ks as [|k ks IH]; try done; apply Forall_cons in Hks as [Hk Hks]; simpl.
  - rewrite (name_path_app _ a), (name_path_app _ b). simpl. intros [= H1 H2 H3].
    rewrite Forall_cons. split; [|by apply IH].
    apply hex2_inj; [by apply byte_at_range..|]. unfold hex2. by rewrite H1, H2.
  - rewrite Forall_cons. intros [H1 H2]. rewrite H1.
    rewrite (name_path_app _ a), (name_path_app _ b). f_equal. by apply IH.
Qed.

(** ** Directories of paths *)

Lemma drop_base_app x r :
  Forall (fun c => c <> 47) x -> drop_base (x ++ 47 :: r) = r.
Proof.
  induction x as [|c x IH]; intros Hx; simpl; [done|].
  apply Forall_cons in Hx as [Hc Hx]. destruct (Z.eqb_spec c 47); [done|]. by apply IH.
Qed.

Lemma dirname_app p x : Forall (fun c => c <> 47) x -> dirname (p ++ slash ++ x) = p.
Proof.
  intros Hx. unfold dirname, slash. rewrite rev_app_distr. simpl.
  rewrite <- app_assoc. simpl. rewrite drop_base_app; [apply rev_involutive|].
  by apply Forall_rev.
Qed.

Lemma name_path_snoc part num ks k :
  name_path part num (ks ++ [k]) = name_path part num ks ++ slash ++ hex2 (byte_at num k).
Proof. revert part. induction ks as [|k' ks IH]; intros part; simpl; [done|]. by rewrite IH. Qed.

Lemma dirname_name part num ks k :
  0 <= k -> dirname (name_path part num (ks ++ [k])) = name_path part num ks.
Proof.
  intros Hk. rewrite name_path_snoc. apply dirname_app, hex2_no_slash. by apply byte_at_range.
Qed.

(** ** Opaque names *)

Lemma length_le64 z : length (le64 z) = 8%nat.
Proof. done. Qed.

Lemma of_be_app a b : of_be (a ++ b) = of_be a * 256 ^ Z.of_nat (length b) + of_be b.
Proof.
  unfold of_be. rewrite fold_left_app. generalize (fold_left (λ acc c, acc * 256 + c) a 0).
  induction b as [|c b IH] using rev_ind; intros x; simpl; [lia|].
  rewrite !fold_left_app, IH, length_app, Nat2Z.inj_add, Z.pow_add_r by lia. simpl. lia.
Qed.

Lemma of_le_le64 z : 0 <= z < 2^64 -> of_le (le64 z) = z.
Proof.
  intros Hz. unfold of_le, le64, le32. rewrite rev_app_distr, !rev_involutive, of_be_app.
  rewrite !of_be_be32, length_be32. unfold uwrap32. rewrite Zmod_mod.
  rewrite (Z.mod_small (z / 2^32)) by (Z.div_mod_to_equations; lia).
  pose proof (Z.div_mod z (2^32)). lia.
Qed.

Lemma wr_inv b a bs b' :
  wr b a bs = Some b' ->
  b' = take (Z.to_nat a) b ++ bs ++ drop (Z.to_nat a + length bs) b /\
  0 <= a /\ a + blen bs <= blen b.
Proof.
  unfold wr, st. destruct (in_buf b a (blen bs)) eqn:E; [|done]. intros [= <-].
  unfold in_buf in E. zbool. split_and!; lia || done.
Qed.

(** A tag and a number at the start of the opaque bytes. *)
Lemma tagged_write b c bs b1 b2 :
  wr b 0 [c] = Some b1 -> wr b1 1 bs = Some b2 -> exists t, b2 = c :: bs ++ t.
Proof.
  intros (-> & _ & H1)%wr_inv (-> & _ & H2)%wr_inv.
  change (Z.to_nat 0) with O. change (Z.to_nat 1) with 1%nat. simpl. eauto.
Qed.

Lemma local_opaque_round_trip ino o o' :
  0 <= ino < 2^64 -> local_ino2opaque ino o = Some o' ->
  local_opaque2ino o' = Some (inr (ino, o')) /\ local_opaquep o' = Some true.
Proof.
  intros Hi. unfold local_ino2opaque, local_opaque2ino, local_opaquep.
  destruct (wr (onode_data o) 0 [76]) as [d|] eqn:H1; [|done].
  simpl. destruct (wr d 1 (le64 ino)) as [d'|] eqn:H2; [|done]. intros [= <-].
  destruct (tagged_write _ _ _ _ _ H1 H2) as [t ->]. cbn [onode_data onode_size].
  assert (Hb : in_buf (76 :: le64 ino ++ t) 1 8 = true).
  { unfold in_buf, blen. cbn [length]. rewrite length_app, length_le64. apply andb_true_iff.
    split; apply Z.leb_le; lia. }
  rewrite Hb. split; [|reflexivity].
  assert (Ht : take 8 (drop 1 (76 :: le64 ino ++ t)) = le64 ino)
    by (apply (take_app_length' (le64 ino) t 8); reflexivity).
  rewrite Ht, of_le_le64 by done. reflexivity.
Qed.

Lemma fvol_opaque_round_trip num o o' :
  is_int32 num -> num2opaque num o = Some o' ->
  opaque2num o' = Some (inr num) /\ local_opaquep o' = Some false.
Proof.
  intros Hn. unfold num2opaque, opaque2num, local_opaquep.
  destruct (wr (onode_data o) 0 [70]) as [d|] eqn:H1; [|done].
  simpl. destruct (wr d 1 (be32 num)) as [d'|] eqn:H2; [|done]. intros [= <-].
  destruct (tagged_write _ _ _ _ _ H1 H2) as [t ->]. cbn [onode_data onode_size].
  split; [|reflexivity].
  assert (Hu : 0 <= uwrap32 num < 2^32) by (apply Z.mod_pos_bound; lia).
  assert (Hr : rd32 (70 :: be32 num ++ t) 1 = Some (uwrap32 num)).
  { change (rd32 (70 :: be32 num ++ t) 1) with
      (Some (((uwrap32 num / 2^24) * 2^8 + (uwrap32 num / 2^16) mod 2^8) * 2^16 +
             ((uwrap32 num / 2^8) mod 2^8 * 2^8 + uwrap32 num mod 2^8))).
    f_equal. set (u := uwrap32 num) in *. clearbody u. Z.div_mod_to_equations. lia. }
  rewrite Hr. change (Some (inr (swrap32 (uwrap32 num))) = Some (inr num : Z + Z)).
  by rewrite swrap32_uwrap32, swrap32_small.
Qed.

(** ** Calls to the host *)

Definition next (s : hostfs) : hostfs :=
  Host (hdirs s) (hnames s) (hfiles s) (hfds s) (tl (hos s)).

Lemma hsys_run s : hsys s = Some (next s, inr (hd 0 (hos s))).
Proof. unfold hsys, next. by destruct s as [? ? ? ? []]. Qed.

(** A call ends with 0 and its effect, or with an errno and none. *)
Lemma hcall_run why f s :
  exists c, hcall why f s = Some (if c =? 0 then f (next s) else next s, inr c) /\
    (c = 0 -> why (next s) = 0) /\ (hd 0 (hos s) = 0 -> c = why (next s)).
Proof.
  unfold hcall. rewrite (ebind_ok _ _ _ _ _ (hsys_run s)).
  destruct (Z.eqb_spec (hd 0 (hos s)) 0) as [H0|H0]; simpl.
  - rewrite ebind_get. exists (why (next s)).
    destruct (Z.eqb_spec (why (next s)) 0) as [Hw|Hw]; simpl; [|done].
    rewrite ebind_mod, Hw. done.
  - exists (hd 0 (hos s)). destruct (Z.eqb_spec (hd 0 (hos s)) 0); done.
Qed.

(** Why [mkdir] and [rename] fail. *)
Definition mkdir_why (p : bytes) (s : hostfs) : Z :=
  match hnames s !! p with
  | Some _ => EEXIST
  | None => if in_dirs p s then EEXIST else if in_dirs (dirname p) s then 0 else ENOENT
  end.
Definition rename_why (p q : bytes) (s : hostfs) : Z :=
  match hnames s !! p with
  | None => ENOENT
  | Some _ => if in_dirs q s then EISDIR else if in_dirs (dirname q) s then 0 else ENOENT
  end.
Definition unlink_why (p : bytes) (s : hostfs) : Z :=
  match hnames s !! p with
  | Some _ => 0
  | None => if in_dirs p s then EISDIR else ENOENT
  end.

(** *** Well-formed file systems *)

Record fs_wf (s : hostfs) : Prop := {
  wf_dir : forall p i, hnames s !! p = Some i -> dirname p ∈ hdirs s;
  wf_disjoint : forall p, p ∈ hdirs s -> hnames s !! p = None
}.

Lemma next_wf s : fs_wf s -> fs_wf (next s).
Proof. by intros [H1 H2]; split. Qed.

Section Create.
Context `{HostChoiceOk}.
Context (part : bytes).

(** The state in the course of a creation: the file has its temporary name
    [p] and the inode [i], and directories are added. *)
Record creating (s0 : hostfs) (p : bytes) (i : Z) (s : hostfs) : Prop := {
  cr_wf : fs_wf s;
  cr_dirs : hdirs s0 ⊆ hdirs s;
  cr_fresh : hnames s0 !! p = None;
  cr_names : hnames s = <[p := i]> (hnames s0);
  cr_files : hfiles s !! i = Some [];
  cr_ino : ~ ino_used s0 i;
  cr_range : 0 <= i < 2^64
}.

Lemma in_dirs_spec p s : in_dirs p s = true <-> p ∈ hdirs s.
Proof. unfold in_dirs. apply bool_decide_eq_true. Qed.

Lemma mkdir_run p0 i s0 s p :
  creating s0 p0 i s ->
  exists c s', mkdir p s = Some (s', inr c) /\ creating s0 p0 i s' /\ hdirs s ⊆ hdirs s' /\
    (c = 0 -> (p ∉ hdirs s) /\ p ∈ hdirs s') /\
    (hos s = [] -> p ∈ hdirs s -> c = EEXIST) /\
    (hos s = [] -> hnames s !! p = None -> dirname p ∈ hdirs s ->
       p ∈ hdirs s' /\ (c = 0 \/ p ∈ hdirs s)) /\
    (hos s = [] -> hos s' = []) /\ hdirs s' ⊆ {[p]} ∪ hdirs s.
Proof.
  intros Hc.
  destruct (hcall_run (mkdir_why p)
    (fun s => Host ({[p]} ∪ hdirs s) (hnames s) (hfiles s) (hfds s) (hos s)) s) as (c & Hr & Hw & Hd).
  change (mkdir_why p (next s)) with (mkdir_why p s) in *. unfold mkdir_why in Hw, Hd.
  eexists c, _. split; [exact Hr|].
  assert (Hlast : hos s = [] -> hd 0 (hos s) = 0) by (by intros ->).
  destruct (Z.eqb_spec c 0) as [Hc0|Hne].
  - specialize (Hw Hc0). destruct (hnames s !! p) eqn:Hp; [done|].
    destruct (in_dirs p s) eqn:Hin; [done|]. destruct (in_dirs (dirname p) s) eqn:Hq; [|done].
    assert (Hnin : p ∉ hdirs s) by (rewrite <- in_dirs_spec; by rewrite Hin).
    apply in_dirs_spec in Hq. split_and!.
    + destruct Hc as [[Hw1 Hw2] ? ? ? ? ? ?]. split; simpl; try done; [|set_solver].
      split; simpl; [intros x j Hj; apply elem_of_union_r; eauto|].
      intros x [->%elem_of_singleton|Hx]%elem_of_union; auto.
    + simpl. set_solver.
    + intros _. simpl. set_solver.
    + intros _ Hp'. apply in_dirs_spec in Hp'. congruence.
    + intros _ _ _. simpl. split; [set_solver|by left].
    + simpl. by intros ->.
    + done.
  - split_and!.
    + destruct Hc. split; [by apply next_wf|done..].
    + done.
    + done.
    + intros Ho Hp. rewrite (Hd (Hlast Ho)), (wf_disjoint _ (cr_wf _ _ _ _ Hc) p Hp).
      apply in_dirs_spec in Hp. by rewrite Hp.
    + intros Ho Hp Hq. specialize (Hd (Hlast Ho)). rewrite Hp in Hd.
      destruct (in_dirs p s) eqn:Hin; [apply in_dirs_spec in Hin; simpl; auto|].
      apply in_dirs_spec in Hq. by rewrite Hq in Hd.
    + simpl. by intros ->.
    + simpl. set_solver.
Qed.

(** *** The error path *)

Lemma create_error_run s0 p i s n e :
  creating s0 p i s ->
  exists s', create_error p n e s = Some (s', inr (n, inl e)) /\ fs_wf s' /\
    (forall q j, hnames s0 !! q = Some j -> hnames s' !! q = Some j) /\
    (hos s = [] -> hnames s' = hnames s0 /\ hdirs s' = hdirs s).
Proof.
  intros Hc. unfold create_error.
  destruct (hcall_run (unlink_why p)
    (fun s => Host (hdirs s) (delete p (hnames s)) (hfiles s) (hfds s) (hos s)) s) as (c & Hr & Hw & Hd).
  rewrite (ebind_ok _ _ _ _ _ Hr). eexists. split; [done|].
  assert (Hp : hnames (next s) !! p = Some i).
  { simpl. rewrite (cr_names _ _ _ _ Hc). apply lookup_insert_eq. }
  unfold unlink_why in Hd. rewrite Hp in Hd. destruct (cr_wf _ _ _ _ Hc) as [Hw1 Hw2].
  assert (Hdel : delete p (hnames s) = hnames s0).
  { rewrite (cr_names _ _ _ _ Hc), delete_insert_id; [done|]. apply (cr_fresh _ _ _ _ Hc). }
  destruct (Z.eqb_spec c 0) as [Hc0|Hne]; simpl.
  - rewrite Hdel. split_and!; try done.
    split; simpl.
    + intros q j Hq. apply (Hw1 q j). rewrite (cr_names _ _ _ _ Hc).
      rewrite lookup_insert_ne; [done|]. intros <-. rewrite (cr_fresh _ _ _ _ Hc) in Hq. done.
    + intros q Hq. specialize (Hw2 q Hq). rewrite (cr_names _ _ _ _ Hc) in Hw2.
      by apply lookup_insert_None in Hw2 as [? _].
  - split_and!; [by split| |by intros Ho; rewrite Ho in Hd; destruct Hne; apply Hd].
    intros q j Hq. rewrite (cr_names _ _ _ _ Hc), lookup_insert_ne; [done|].
    intros <-. rewrite (cr_fresh _ _ _ _ Hc) in Hq. done.
Qed.

(** *** The whole creation *)

Definition file_name (i : Z) : bytes := name_path part i [24; 16; 8; 0].

Lemma create_name_eq i name : local_create_name part i = inr name -> name = file_name i.
Proof.
  unfold local_create_name, snprintf. case_match; [|done]. intros [= <-].
  unfold snprintf in *. case_match; simplify_eq.
  apply name_path_swrap32. repeat constructor; lia.
Qed.

Lemma file_name_dir i : dirname (file_name i) = name_path part i [24; 16; 8].
Proof. apply (dirname_name part i [24; 16; 8] 0). lia. Qed.

(** What a creation guarantees whatever the host answers. *)
Definition created_ok (s0 s' : hostfs) (r : Z + onode_opaque) : Prop :=
  fs_wf s' /\
  (forall q j, hnames s0 !! q = Some j -> hnames s' !! q = Some j) /\
  match r with
  | inl e => True
  | inr o => exists i name,
      local_opaque2ino o = Some (inr (i, o)) /\ local_create_name part i = inr name /\
      hnames s0 !! name = None /\ hnames s' = <[name := i]> (hnames s0) /\
      hfiles s' !! i = Some [] /\ ~ ino_used s0 i
  end.

Lemma create_error_ok s0 p i s n e :
  creating s0 p i s ->
  exists s', create_error p n e s = Some (s', inr (n, inl e)) /\ created_ok s0 s' (inl e).
Proof.
  intros Hc. destruct (create_error_run s0 p i s n e Hc) as (s' & Hr & Hw & Hk & _).
  exists s'. done.
Qed.

(** [rename] to a name in a directory that has just been made. *)
Lemma rename_run s0 p i s q :
  creating s0 p i s -> dirname q ∈ hdirs s -> hnames s !! q = None ->
  exists c s', rename p q s = Some (s', inr c) /\
    (c <> 0 -> creating s0 p i s') /\
    (c = 0 -> fs_wf s' /\ hnames s' = <[q := i]> (hnames s0) /\ hfiles s' = hfiles s) /\
    (hos s = [] -> (q ∉ hdirs s) -> c = 0).
Proof.
  intros Hc Hq Hn.
  assert (Hp : hnames s !! p = Some i).
  { rewrite (cr_names _ _ _ _ Hc). apply lookup_insert_eq. }
  destruct (hcall_run (rename_why p q) (fun s => match hnames s !! p with
                  | None => s
                  | Some i => Host (hdirs s) (<[q := i]> (delete p (hnames s))) (hfiles s)
                                (hfds s) (hos s) end) s) as (c & Hr & Hw & Hd).
  change (rename_why p q (next s)) with (rename_why p q s) in *. unfold rename_why in Hw, Hd.
  rewrite Hp in Hw, Hd. rewrite (proj2 (in_dirs_spec _ _) Hq) in Hw, Hd.
  eexists c, _. split; [exact Hr|]. split_and!.
  - intros Hne. destruct (Z.eqb_spec c 0); [done|]. destruct Hc.
    split; [by apply next_wf|done..].
  - intros ->. cbn [Z.eqb]. specialize (Hw eq_refl). change (hnames (next s)) with (hnames s).
    rewrite Hp. destruct (in_dirs q s) eqn:Hin; [done|].
    assert (Hnin : q ∉ hdirs s) by (rewrite <- in_dirs_spec; by rewrite Hin).
    assert (Hdel : delete p (hnames s) = hnames s0).
    { rewrite (cr_names _ _ _ _ Hc), delete_insert_id; [done|]. apply (cr_fresh _ _ _ _ Hc). }
    destruct (cr_wf _ _ _ _ Hc) as [Hw1 Hw2].
    split_and!; simpl; [|by rewrite Hdel|done]. split; simpl.
    + intros x j [[<- <-]|[Hx [_ Hj]%lookup_delete_Some]]%lookup_insert_Some; [done|eauto].
    + intros x Hx. rewrite lookup_insert_ne by (intros <-; done).
      apply lookup_delete_None. right. auto.
  - intros Ho Hnd. rewrite Ho in Hd. specialize (Hd eq_refl).
    destruct (in_dirs q s) eqn:Hin; [apply in_dirs_spec in Hin; done|done].
Qed.

(** From the third directory on. *)
Definition create_tail (p : bytes) (i : Z) (n : created_fd) (o : onode_opaque)
    : HM (created_fd * (Z + onode_opaque)) :=
  match snprintf (name_path part i [24; 16; 8]) with
  | None => create_error p n ENOMEM
  | Some name =>
      e <-- mkdir name ;;
      if negb (e =? 0) then create_error p n e else
      match local_create_name part i with
      | inl e => create_error p n e
      | inr name =>
          e <-- rename p name ;;
          if negb (e =? 0) then create_error p n e else
          o <-- eopt (local_ino2opaque i o) ;;
          eret (n, inr o)
      end
  end.

Lemma ino2opaque_some i o :
  (9 <= length (onode_data o))%nat -> exists o', local_ino2opaque i o = Some o'.
Proof.
  intros Hl. unfold local_ino2opaque.
  rewrite wr_in by (unfold blen; simpl; lia). cbn [mbind option_bind].
  rewrite wr_in; [eauto|lia|]. rewrite blen_st. unfold blen. rewrite length_le64. lia.
Qed.

Lemma create_tail_run s0 p i s n o :
  creating s0 p i s -> (9 <= length (onode_data o))%nat ->
  exists s' r, create_tail p i n o s = Some (s', inr (n, r)) /\ created_ok s0 s' r.
Proof.
  intros Hc Hl. unfold create_tail.
  assert (Hfit : forall x, snprintf x = Some x \/ snprintf x = None)
    by (intros x; unfold snprintf; case_match; auto).
  destruct (Hfit (name_path part i [24; 16; 8])) as [->| ->].
  2:{ destruct (create_error_ok s0 p i s n ENOMEM Hc) as (s' & ? & ?). eauto. }
  destruct (mkdir_run p i s0 s (name_path part i [24; 16; 8]) Hc)
    as (c & s1 & Hr & Hc1 & Hsub & Hz & _).
  rewrite (ebind_ok _ _ _ _ _ Hr). destruct (Z.eqb_spec c 0) as [->|Hne]; simpl.
  2:{ destruct (create_error_ok s0 p i s1 n c Hc1) as (s' & ? & ?). eauto. }
  destruct (Hz eq_refl) as [Hnew Hin].
  destruct (local_create_name part i) as [e|name] eqn:Hname.
  { destruct (create_error_ok s0 p i s1 n e Hc1) as (s' & ? & ?). eauto. }
  pose proof (create_name_eq i name Hname) as Hfn.
  assert (Hfree : hnames s !! name = None).
  { destruct (hnames s !! name) as [j|] eqn:Hj; [|done].
    apply (wf_dir _ (cr_wf _ _ _ _ Hc)) in Hj. by rewrite Hfn, file_name_dir in Hj. }
  assert (Hfree1 : hnames s1 !! name = None).
  { rewrite (cr_names _ _ _ _ Hc1), <- (cr_names _ _ _ _ Hc). done. }
  destruct (rename_run s0 p i s1 name Hc1) as (c & s2 & Hr2 & Hbad & Hgood & _);
    [by rewrite Hfn, file_name_dir|done|].
  rewrite (ebind_ok _ _ _ _ _ Hr2). destruct (Z.eqb_spec c 0) as [->|Hne]; simpl.
  2:{ destruct (create_error_ok s0 p i s2 n c (Hbad Hne)) as (s' & ? & ?). eauto. }
  destruct (Hgood eq_refl) as (Hwf2 & Hn2 & Hf2).
  destruct (ino2opaque_some i o Hl) as [o' Ho]. unfold eopt. rewrite Ho, ebind_ret.
  exists s2, (inr o'). split; [done|].
  assert (Hfree0 : hnames s0 !! name = None).
  { rewrite (cr_names _ _ _ _ Hc) in Hfree. by apply lookup_insert_None in Hfree as [? _]. }
  split_and!; [done| |].
  - intros q j Hq. rewrite Hn2, lookup_insert_ne by (intros <-; congruence). done.
  - exists i, name. split_and!; try done.
    + by apply (local_opaque_round_trip i o o' (cr_range _ _ _ _ Hc)).
    + rewrite Hf2. apply (cr_files _ _ _ _ Hc1).
    + apply (cr_ino _ _ _ _ Hc).
Qed.

Lemma create_dir_run s0 p i n path k s :
  creating s0 p i s ->
  (forall s1, creating s0 p i s1 ->
     exists s' r, k s1 = Some (s', inr (n, r)) /\ created_ok s0 s' r) ->
  exists s' r, create_dir p n path k s = Some (s', inr (n, r)) /\ created_ok s0 s' r.
Proof.
  intros Hc Hk. unfold create_dir. destruct (snprintf path) as [name|].
  - destruct (mkdir_run p i s0 s name Hc) as (c & s1 & Hr & Hc1 & _).
    rewrite (ebind_ok _ _ _ _ _ Hr). by apply Hk.
  - destruct (create_error_ok s0 p i s n ENOMEM Hc) as (s' & ? & ?). eauto.
Qed.

Definition inode_template : bytes := [47; 105; 110; 111; 100; 101].
Definition xs : bytes := [88; 88; 88; 88; 88; 88].

Lemma tmpname_dirname s p :
  tmpname s (part ++ inode_template ++ xs) = Some p ->
  dirname p = dirname (part ++ inode_template ++ xs) /\ length p = (length part + 12)%nat.
Proof.
  rewrite app_assoc. intros Ht. destruct (tmpname_shape s (part ++ inode_template) xs p eq_refl Ht)
    as (y & -> & Hl & Hy). split; [|rewrite !length_app, Hl; simpl; lia]. rewrite <- !app_assoc.
  change (dirname (part ++ slash ++ ([105; 110; 111; 100; 101] ++ y)) =
          dirname (part ++ slash ++ ([105; 110; 111; 100; 101] ++ xs))).
  assert (Hx : forall z, Forall (fun c => c <> 47) z ->
    Forall (fun c => c <> 47) ([105; 110; 111; 100; 101] ++ z)).
  { intros z Hz. apply Forall_app. split; [repeat constructor; lia|done]. }
  rewrite !dirname_app; [done| |]; apply Hx; [|done]. repeat constructor; lia.
Qed.

(** [mkstemp] starts a creation. *)
Lemma mkstemp_run s :
  fs_wf s ->
  (exists e, mkstemp (part ++ inode_template ++ xs) s = Some (next s, inr (inl e)) /\
     (hos s = [] -> part ∈ hdirs s ->
        is_Some (tmpname s (part ++ inode_template ++ xs)) -> is_Some (new_ino s) -> False)) \/
  (exists s' p fd i, mkstemp (part ++ inode_template ++ xs) s = Some (s', inr (inr (p, fd))) /\
     creating s p i s' /\ hfds s' !! fd = Some i /\ hos s' = tl (hos s) /\ hdirs s' = hdirs s /\
     new_ino (next s) = Some i /\ length p = (length part + 12)%nat).
Proof.
  intros Hw. set (t := part ++ inode_template ++ xs).
  assert (Hdt : dirname t = part).
  { apply (dirname_app part [105; 110; 111; 100; 101; 88; 88; 88; 88; 88; 88]).
    repeat constructor; lia. }
  assert (Hnext : hos s = [] -> next s = s) by (intros Ho; destruct s; simpl in Ho; rewrite Ho; reflexivity).
  unfold mkstemp. rewrite (ebind_ok _ _ _ _ _ (hsys_run s)).
  destruct (Z.eqb_spec (hd 0 (hos s)) 0) as [H1|H1]; simpl.
  2:{ left. exists (hd 0 (hos s)). split; [done|]. intros Ho. by rewrite Ho in H1. }
  rewrite ebind_get. change (in_dirs (dirname t) (next s)) with (in_dirs (dirname t) s).
  destruct (in_dirs (dirname t) s) eqn:Hin; simpl.
  2:{ left. exists ENOENT. split; [done|]. intros _ Hp. rewrite Hdt in Hin.
      apply in_dirs_spec in Hp. congruence. }
  destruct (tmpname (next s) t) as [p|] eqn:Htmp.
  2:{ left. exists EEXIST. split; [done|]. intros Ho _ [p Hp] _. rewrite Hnext in Htmp by done.
      rewrite Hp in Htmp. discriminate Htmp. }
  destruct (new_ino (next s)) as [i|] eqn:Hino.
  2:{ left. exists ENOSPC. split; [done|]. intros Ho _ _ [i Hi]. rewrite Hnext in Hino by done.
      rewrite Hi in Hino. discriminate Hino. }
  right. rewrite ebind_mod. apply in_dirs_spec in Hin.
  destruct (tmpname_fresh (next s) t p Htmp) as [Hf1 Hf2].
  destruct (tmpname_dirname (next s) p Htmp) as [Hpd Hpl].
  eexists _, p, (new_fd (next s)), i.
  split_and!; [done| |apply lookup_insert_eq|done..].
  destruct Hw as [Hw1 Hw2].
  split; simpl; try done.
  - split; simpl.
    + intros q j [[<- <-]|[Hq Hj]]%lookup_insert_Some; [|eauto].
      unfold t in Hin. by rewrite Hpd.
    + intros q Hq. rewrite lookup_insert_ne; [auto|]. intros <-. done.
  - apply lookup_insert_eq.
  - by apply (new_ino_fresh (next s)).
  - by apply (new_ino_range (next s)).
Qed.

Lemma hclose_run s0 p i fd s :
  creating s0 p i s ->
  exists s', hclose fd s = Some (s', inr tt) /\ creating s0 p i s' /\ hos s' = hos s /\
    hdirs s' = hdirs s.
Proof.
  intros Hc. eexists. split; [done|]. destruct Hc as [[? ?] ? ? ? ? ? ?]. done.
Qed.

Lemma hfstat_run s0 p i fd s :
  creating s0 p i s -> hfds s !! fd = Some i ->
  exists s' r, hfstat fd s = Some (s', inr r) /\ creating s0 p i s' /\ hos s' = tl (hos s) /\
    hdirs s' = hdirs s /\ hfds s' = hfds s /\
    match r with inl _ => hos s <> [] | inr (j, z) => j = i /\ z = 0 end.
Proof.
  intros Hc Hfd. assert (Hc' : creating s0 p i (next s)) by (destruct Hc as [[? ?] ? ? ? ? ? ?]; done).
  unfold hfstat. rewrite (ebind_ok _ _ _ _ _ (hsys_run s)).
  destruct (Z.eqb_spec (hd 0 (hos s)) 0) as [H1|H1]; simpl.
  - rewrite ebind_get. simpl. rewrite Hfd, (cr_files _ _ _ _ Hc). eexists _, _.
    split_and!; [done|exact Hc'|done..].
  - eexists _, _. split_and!; [done|exact Hc'|done|done|done|]. intros Ho. by rewrite Ho in H1.
Qed.

(** All names fit in the buffers. *)
Context (Hfit : blen part + 12 < MAXPATHLEN).

Lemma snprintf_fits x : (length x <= length part + 12)%nat -> snprintf x = Some x.
Proof.
  intros Hx. unfold snprintf. rewrite (proj2 (Z.ltb_lt _ _)); [done|].
  unfold blen in *. lia.
Qed.

Lemma name_fits num ks : (length ks <= 4)%nat -> snprintf (name_path part num ks) = Some (name_path part num ks).
Proof. intros Hk. apply snprintf_fits. rewrite name_path_length. lia. Qed.

(** After [mkstemp] and [fstat]. *)
Definition create_levels (p : bytes) (i : Z) (n : created_fd) (o : onode_opaque)
    : HM (created_fd * (Z + onode_opaque)) :=
  create_dir p n (name_path part i [24]) (
  create_dir p n (name_path part i [24; 16]) (create_tail p i n o)).

Lemma create_start_run s o withn :
  fs_wf s ->
  (exists s' e, svol_icreate part o withn s = Some (s', inr (None, inl e)) /\
     created_ok s s' (inl e) /\
     (hos s = [] -> part ∈ hdirs s ->
        is_Some (tmpname s (part ++ inode_template ++ xs)) -> is_Some (new_ino s) -> False)) \/
  (exists s1 p i n, creating s p i s1 /\ svol_icreate part o withn s = create_levels p i n o s1 /\
     (hos s = [] -> hos s1 = [] /\ new_ino s = Some i) /\ hdirs s1 = hdirs s /\
     length p = (length part + 12)%nat /\
     (withn = true -> exists fd, n = Some (fd, 0) /\ hfds s1 !! fd = Some i)).
Proof.
  intros Hw. unfold svol_icreate, local_create_file.
  change (part ++ [47; 105; 110; 111; 100; 101; 88; 88; 88; 88; 88; 88])
    with (part ++ inode_template ++ xs).
  rewrite snprintf_fits by (rewrite !length_app; simpl; lia).
  destruct (mkstemp_run s Hw)
    as [(e & Hr & Hno)|(s1 & p & fd & i & Hr & Hc & Hfd & Ho & Hd & Hi & Hp)];
    rewrite (ebind_ok _ _ _ _ _ Hr).
  { left. exists (next s), e. split_and!; [done..| |done]. split_and!; [by apply next_wf|done|done]. }
  destruct (hfstat_run s p i fd s1 Hc Hfd) as (s2 & r & Hr2 & Hc2 & Ho2 & Hd2 & Hfd2 & Hz).
  rewrite (ebind_ok _ _ _ _ _ Hr2). destruct r as [e|[j z]].
  { left. destruct (hclose_run s p i fd s2 Hc2) as (s3 & Hr3 & Hc3 & _).
    rewrite (ebind_ok _ _ _ _ _ Hr3).
    destruct (create_error_ok s p i s3 None e Hc3) as (s' & Hr' & Hok).
    exists s', e. split_and!; [done..|]. intros Hos. rewrite Ho, Hos in Hz. done. }
  destruct Hz as [-> ->]. right.
  assert (Hos : hos s = [] -> hos s2 = []) by (intros Hos; by rewrite Ho2, Ho, Hos).
  assert (Hi2 : hos s = [] -> new_ino s = Some i).
  { intros Hos'. rewrite <- Hi. f_equal. destruct s. simpl in Hos'. by subst. }
  destruct withn.
  - exists s2, p, i, (Some (fd, 0)). rewrite ebind_ret. split_and!; try done; [auto|congruence|].
    intros _. exists fd. by rewrite Hfd2.
  - destruct (hclose_run s p i fd s2 Hc2) as (s3 & Hr3 & Hc3 & Ho3 & Hd3).
    exists s3, p, i, None. rewrite (ebind_ok _ _ _ _ _ Hr3).
    split_and!; try done; [|congruence]. rewrite Ho3. auto.
Qed.

Lemma local_create_run s o withn :
  fs_wf s -> (9 <= length (onode_data o))%nat ->
  exists s' n r, svol_icreate part o withn s = Some (s', inr (n, r)) /\ created_ok s s' r.
Proof.
  intros Hw Hl. destruct (create_start_run s o withn Hw)
    as [(s' & e & Hr & Hok & _)|(s1 & p & i & n & Hc & -> & _)]; [eauto|].
  destruct (create_dir_run s p i n (name_path part i [24])
    (create_dir p n (name_path part i [24; 16]) (create_tail p i n o)) s1 Hc) as (s' & r & Hr & Hok).
  - intros s2 Hc2. apply (create_dir_run s p i n _ _ s2 Hc2).
    intros s3 Hc3. by apply create_tail_run.
  - exists s', n, r. done.
Qed.

(** The rest of a creation leaves descriptors and contents alone. *)
Definition keeps_files {A} (m : HM A) : Prop :=
  forall s s' r, m s = Some (s', r) -> hfds s' = hfds s /\ hfiles s' = hfiles s.

Lemma keeps_bind {A B} (m : HM A) (k : A -> HM B) :
  keeps_files m -> (forall a, keeps_files (k a)) -> keeps_files (ebind m k).
Proof.
  intros Hm Hk s s' r [(e & _ & Hr)|(a & s1 & Hr & Hr')]%ebind_inv; [by eapply Hm|].
  destruct (Hm _ _ _ Hr), (Hk a _ _ _ Hr'). split; congruence.
Qed.
Lemma keeps_ret {A} (a : A) : keeps_files (eret a).
Proof. by intros s s' r [= <- <-]. Qed.
Lemma keeps_opt {A} (o : option A) : keeps_files (eopt o).
Proof. destruct o; [apply keeps_ret|done]. Qed.
Lemma keeps_hcall why f :
  (forall s, hfds (f s) = hfds s /\ hfiles (f s) = hfiles s) -> keeps_files (hcall why f).
Proof.
  intros Hf s s' r Hr. destruct (hcall_run why f s) as (c & Hc & _). rewrite Hc in Hr.
  injection Hr as <- _. destruct (c =? 0); [exact (Hf (next s))|done].
Qed.

Lemma keeps_levels p i n o : keeps_files (create_levels p i n o).
Proof.
  assert (Hu : forall q, keeps_files (unlink q)) by (intros q; by apply keeps_hcall).
  assert (Hm : forall q, keeps_files (mkdir q)) by (intros q; by apply keeps_hcall).
  assert (Hr : forall q q', keeps_files (rename q q')).
  { intros q q'. apply keeps_hcall. intros s. by destruct (hnames s !! q). }
  assert (He : forall e, keeps_files (create_error p n e)).
  { intros e. apply keeps_bind; [done|]. intros _. apply keeps_ret. }
  assert (Hd : forall path k, keeps_files k -> keeps_files (create_dir p n path k)).
  { intros path k Hk. unfold create_dir. destruct (snprintf path); [|done]. by apply keeps_bind. }
  apply Hd, Hd. unfold create_tail. destruct (snprintf _); [|done].
  apply keeps_bind; [done|]. intros c. destruct (negb (c =? 0)); [done|].
  destruct (local_create_name part i); [done|].
  apply keeps_bind; [done|]. intros c'. destruct (negb (c' =? 0)); [done|].
  apply keeps_bind; [apply keeps_opt|]. intros o'. apply keeps_ret.
Qed.

(** What a creation answers: an error, or [o] with the name of an inode in it. *)
Definition names_inode (o : onode_opaque) (x : created_fd * (Z + onode_opaque)) : Prop :=
  match snd x with inr o' => exists j, local_ino2opaque j o = Some o' | inl _ => True end.
Definition yields {A} (P : A -> Prop) (m : HM A) : Prop :=
  forall s s' a, m s = Some (s', inr a) -> P a.

Lemma yields_bind {A B} (P : B -> Prop) (m : HM A) (k : A -> HM B) :
  (forall a, yields P (k a)) -> yields P (ebind m k).
Proof. intros Hk s s' b [(e & [=] & _)|(a & s1 & _ & Hr')]%ebind_inv. by eapply Hk. Qed.
Lemma yields_ret {A} (P : A -> Prop) a : P a -> yields P (eret a).
Proof. by intros HP s s' b [= <- <-]. Qed.

Lemma levels_name p i n o : yields (names_inode o) (create_levels p i n o).
Proof.
  assert (He : forall e, yields (names_inode o) (create_error p n e)).
  { intros e. apply yields_bind. intros _. by apply yields_ret. }
  assert (Hd : forall path k, yields (names_inode o) k -> yields (names_inode o) (create_dir p n path k)).
  { intros path k Hk. unfold create_dir. destruct (snprintf path); [|done]. by apply yields_bind. }
  apply Hd, Hd. unfold create_tail. destruct (snprintf _); [|done].
  apply yields_bind. intros c. destruct (negb (c =? 0)); [done|].
  destruct (local_create_name part i); [done|].
  apply yields_bind. intros c'. destruct (negb (c' =? 0)); [done|].
  destruct (local_ino2opaque i o) as [o'|] eqn:Ho; [|by intros s s' a].
  cbn [eopt]. intros s s' a [= <- <-]. by exists i.
Qed.

(** A creation for a node: on success the node's descriptor is that of an
    empty file. *)
Lemma local_create_node_run s o :
  fs_wf s -> (9 <= length (onode_data o))%nat ->
  exists s' n r, svol_icreate part o true s = Some (s', inr (n, r)) /\ created_ok s s' r /\
    match r with
    | inr o' => (exists fd i, n = Some (fd, 0) /\ hfds s' !! fd = Some i /\ hfiles s' !! i = Some []) /\
        exists j, local_ino2opaque j o = Some o'
    | inl _ => True
    end.
Proof.
  intros Hw Hl. destruct (local_create_run s o true Hw Hl) as (s' & n & r & Hr & Hok).
  exists s', n, r. split; [done|]. split; [done|]. destruct r as [|o']; [done|].
  destruct (create_start_run s o true Hw)
    as [(s2 & e & Hr2 & _)|(s1 & p & i & n1 & Hc & Hlev & _ & _ & _ & Hn)]; [congruence|].
  destruct (Hn eq_refl) as (fd & -> & Hfd). rewrite Hlev in Hr.
  destruct (keeps_levels p i (Some (fd, 0)) o s1 s' _ Hr) as [Ef Ei].
  destruct (create_dir_run s p i (Some (fd, 0)) (name_path part i [24])
    (create_dir p (Some (fd, 0)) (name_path part i [24; 16]) (create_tail p i (Some (fd, 0)) o)) s1 Hc)
    as (s3 & r3 & Hr3 & _).
  - intros s2 Hc2. apply (create_dir_run s p i _ _ _ s2 Hc2). intros s3 Hc3. by apply create_tail_run.
  - pose proof (levels_name p i (Some (fd, 0)) o s1 s' _ Hr) as Hname.
    unfold create_levels in Hr. rewrite Hr3 in Hr. injection Hr as <- <- ->. split; [|exact Hname].
    exists fd, i. split; [done|]. rewrite Ef, Ei. split; [done|]. apply (cr_files _ _ _ _ Hc).
Qed.

(** *** Without errors of the host *)

Lemma create_dir_ok s0 p i n ks k K s :
  creating s0 p i s -> hos s = [] -> 0 <= k -> (length ks <= 2)%nat ->
  length p = (length part + 12)%nat ->
  name_path part i ks ∈ hdirs s -> hnames s0 !! name_path part i (ks ++ [k]) = None ->
  exists s1, create_dir p n (name_path part i (ks ++ [k])) K s = K s1 /\
    creating s0 p i s1 /\ hos s1 = [] /\ name_path part i (ks ++ [k]) ∈ hdirs s1 /\
    hdirs s1 ⊆ {[name_path part i (ks ++ [k])]} ∪ hdirs s /\ hdirs s ⊆ hdirs s1.
Proof.
  intros Hc Ho Hk Hks Hp Hpar Hfree. unfold create_dir.
  rewrite name_fits by (rewrite length_app; simpl; lia).
  destruct (mkdir_run p i s0 s (name_path part i (ks ++ [k])) Hc)
    as (c & s1 & Hr & Hc1 & Hsub & _ & _ & Hin & Ho1 & Hup).
  exists s1. rewrite (ebind_ok _ _ _ _ _ Hr). split_and!; auto. apply Hin; [done| |].
  - rewrite (cr_names _ _ _ _ Hc), lookup_insert_ne; [done|]. intros E.
    apply (f_equal length) in E. rewrite name_path_length, length_app in E. simpl in E. lia.
  - rewrite dirname_name by done. done.
Qed.

Lemma create_tail_ok s0 p i n o s :
  creating s0 p i s -> hos s = [] -> (9 <= length (onode_data o))%nat ->
  length p = (length part + 12)%nat ->
  name_path part i [24; 16] ∈ hdirs s -> hnames s0 !! name_path part i [24; 16; 8] = None ->
  (file_name i ∉ hdirs s) ->
  exists s' r, create_tail p i n o s = Some (s', inr (n, r)) /\
    (name_path part i [24; 16; 8] ∈ hdirs s -> r = inl EEXIST /\ hnames s' = hnames s0) /\
    ((name_path part i [24; 16; 8] ∉ hdirs s) -> exists o', r = inr o').
Proof.
  intros Hc Ho Hl Hp Hd2 Hfree Hnd. unfold create_tail. rewrite name_fits by (simpl; lia).
  destruct (mkdir_run p i s0 s (name_path part i [24; 16; 8]) Hc)
    as (c & s1 & Hr & Hc1 & Hsub & Hz & Hex & Hin & Ho1 & Hup).
  rewrite (ebind_ok _ _ _ _ _ Hr). specialize (Hex Ho). specialize (Ho1 Ho).
  destruct (Hin Ho) as [Hin1 Hc0].
  { rewrite (cr_names _ _ _ _ Hc), lookup_insert_ne; [done|]. intros E.
    apply (f_equal length) in E. rewrite name_path_length in E. simpl in E. lia. }
  { change [24; 16; 8] with ([24; 16] ++ [8]). by rewrite dirname_name. }
  destruct (decide (name_path part i [24; 16; 8] ∈ hdirs s)) as [Hd|Hd].
  - rewrite (Hex Hd). change (negb (EEXIST =? 0)) with true. cbn iota.
    destruct (create_error_run s0 p i s1 n EEXIST Hc1) as (s' & Hr' & _ & _ & Hn).
    exists s', (inl EEXIST). split_and!; [done| |done]. intros _. by destruct (Hn Ho1).
  - destruct Hc0 as [->|?]; [|done]. cbn [Z.eqb negb].
    assert (Hname : local_create_name part i = inr (file_name i)).
    { unfold local_create_name. rewrite name_fits by (simpl; lia). f_equal.
      apply name_path_swrap32. repeat constructor; lia. }
    rewrite Hname.
    assert (Hfree1 : hnames s1 !! file_name i = None).
    { rewrite (cr_names _ _ _ _ Hc1), <- (cr_names _ _ _ _ Hc).
      destruct (hnames s !! file_name i) as [j|] eqn:Hj; [|done].
      apply (wf_dir _ (cr_wf _ _ _ _ Hc)) in Hj. by rewrite file_name_dir in Hj. }
    destruct (rename_run s0 p i s1 (file_name i) Hc1) as (c & s2 & Hr2 & _ & _ & Hok);
      [by rewrite file_name_dir|done|].
    rewrite (ebind_ok _ _ _ _ _ Hr2). rewrite Hok; [|done|].
    2:{ intros Hx%Hup%elem_of_union. destruct Hx as [Hx%elem_of_singleton|Hx]; [|done].
        apply (f_equal length) in Hx. unfold file_name in Hx. rewrite !name_path_length in Hx.
        simpl in Hx. lia. }
    cbn [Z.eqb negb]. destruct (ino2opaque_some i o Hl) as [o' Ho']. unfold eopt.
    rewrite Ho', ebind_ret. exists s2, (inr o'). split_and!; [done|done|eauto].
Qed.
End Create.

(** ** Theorems *)

Lemma low_bytes a b :
  Forall (fun k => byte_at a k = byte_at b k) [24; 16; 8; 0] <-> a mod 2^32 = b mod 2^32.
Proof.
  assert (Hb : forall x k, 0 <= k -> byte_at x k = x / 2^k mod 2^8).
  { intros x k Hk. unfold byte_at. change 0xff with (Z.ones 8).
    rewrite Z.land_ones, Z.shiftr_div_pow2 by lia. done. }
  assert (Hs : forall x, x mod 2^32 =
    x / 2^24 mod 2^8 * 2^24 + x / 2^16 mod 2^8 * 2^16 + x / 2^8 mod 2^8 * 2^8 + x / 2^0 mod 2^8).
  { intros x. change (2^0) with 1. rewrite Z.div_1_r. Z.div_mod_to_equations. lia. }
  assert (Hm : forall x k, 0 <= k <= 24 -> (x mod 2^32) / 2^k mod 2^8 = x / 2^k mod 2^8).
  { intros x k Hk. rewrite <- !Hb by lia. unfold byte_at. change 0xff with (Z.ones 8).
    apply Z.bits_inj'. intros n Hn. rewrite !Z.land_spec, !Z.shiftr_spec by lia.
    destruct (Z.ltb_spec n 8); [|by rewrite Z.ones_spec_high, !andb_false_r by lia].
    by rewrite Z.mod_pow2_bits_low by lia. }
  rewrite !Forall_cons, !Hb by lia. split.
  - intros (H1 & H2 & H3 & H4 & _). rewrite (Hs a), (Hs b). congruence.
  - intros H. rewrite <- !(Hm a), <- !(Hm b), H by lia. repeat constructor.
Qed.

(** Names of inodes: two inodes of a partition get the same name exactly
    when they agree in their low 32 bits. *)
Theorem local_name_inode part a b :
  blen part + 12 < MAXPATHLEN ->
  local_create_name part a = local_create_name part b <-> a mod 2^32 = b mod 2^32.
Proof.
  intros Hfit. unfold local_create_name. rewrite !name_fits by (done || simpl; lia).
  rewrite !name_path_swrap32 by (repeat constructor; lia). rewrite <- low_bytes.
  rewrite <- (name_path_inj part a b [24; 16; 8; 0]) by (repeat constructor; lia).
  split; [by intros [= ?]|by intros ->].
Qed.

(** C23: Creating the file of a vnode, whatever errors the host answers with,
    ends with a descriptor and an opaque name or with an error; no file that
    exists changes its name or is replaced, and on success one name is added,
    for an inode that was not in use, which is empty and to which the opaque
    name leads. *)
Theorem svol_create_safe `{HostChoiceOk} part s o withn :
  blen part + 12 < MAXPATHLEN -> fs_wf s -> onode_wf o ->
  exists s' n r, svol_icreate part o withn s = Some (s', inr (n, r)) /\ created_ok part s s' r.
Proof.
  intros Hfit Hw (_ & Hl & _). apply local_create_run; [done..|]. lia.
Qed.

(** Calls without an error of the host's own. *)
Lemma hsys_ok s : hos s = [] -> hsys s = Some (s, inr 0).
Proof. unfold hsys. by intros ->. Qed.

Lemma hopen_ok `{HostChoice} s p i :
  hos s = [] -> hnames s !! p = Some i ->
  exists s1 fd, hopen p s = Some (s1, inr (inr fd)) /\ hfds s1 !! fd = Some i /\
    hfiles s1 = hfiles s /\ hnames s1 = hnames s.
Proof.
  intros Ho Hp. unfold hopen. rewrite (ebind_ok _ _ _ _ _ (hsys_ok s Ho)). cbn [Z.eqb negb].
  rewrite ebind_get, Hp. eexists _, _. split_and!; [done|apply lookup_insert_eq|done..].
Qed.

Lemma unlink_ok s p i :
  hos s = [] -> hnames s !! p = Some i ->
  exists s1, unlink p s = Some (s1, inr 0) /\ hnames s1 = delete p (hnames s).
Proof.
  intros Ho Hp. unfold unlink, hcall. rewrite (ebind_ok _ _ _ _ _ (hsys_ok s Ho)).
  cbn [Z.eqb negb]. rewrite ebind_get, Hp. eexists. split; [reflexivity|done].
Qed.

Definition with_os (os : list Z) (s : hostfs) : hostfs :=
  Host (hdirs s) (hnames s) (hfiles s) (hfds s) os.

(** The opaque name that a creation returns opens the new, empty file, and
    unlinking it takes back the creation. *)
Theorem svol_create_open `{HostChoiceOk} part s o withn s' n o' :
  blen part + 12 < MAXPATHLEN -> fs_wf s -> onode_wf o ->
  svol_icreate part o withn s = Some (s', inr (n, inr o')) ->
  (exists s1 fd i, svol_iopen part o' (with_os [] s') = Some (s1, inr fd) /\
     hfds s1 !! fd = Some i /\ hfiles s1 !! i = Some [] /\ hnames s1 = hnames s') /\
  (exists s2, svol_unlink part o' (with_os [] s') = Some (s2, inr tt) /\ hnames s2 = hnames s).
Proof.
  intros Hfit Hw (_ & Hl & _) Hr.
  destruct (local_create_run part Hfit s o withn Hw) as (s1 & n1 & r & Hr1 & Hok); [lia|].
  rewrite Hr in Hr1. injection Hr1 as <- <- <-.
  destruct Hok as (_ & _ & i & name & Hop & Hname & Hfree & Hnames & Hfile & _). split.
  - unfold svol_iopen, local_open_file. rewrite Hop. unfold eopt. rewrite ebind_ret, Hname.
    destruct (hopen_ok (with_os [] s') name i eq_refl) as (s1 & fd & Hr1 & Hfd & Hf & Hn).
    { simpl. rewrite Hnames. apply lookup_insert_eq. }
    rewrite (ebind_ok _ _ _ _ _ Hr1). exists s1, fd, i. by rewrite Hf.
  - unfold svol_unlink, local_unlink_file. rewrite Hop. unfold eopt. rewrite ebind_ret, Hname.
    destruct (unlink_ok (with_os [] s') name i eq_refl) as (s2 & Hr2 & Hn2).
    { simpl. rewrite Hnames. apply lookup_insert_eq. }
    rewrite (ebind_ok _ _ _ _ _ Hr2). exists s2. split; [done|].
    rewrite Hn2. simpl. by rewrite Hnames, delete_insert_id.
Qed.

(** A creation on a host that reports no error of its own succeeds
    exactly when the third directory of the new inode's name is not there yet,
    else it answers EEXIST and leaves no file: of a group of 256 inode numbers
    only one can ever be used. *)
Theorem svol_create_once `{HostChoiceOk} part s o withn i :
  blen part + 12 < MAXPATHLEN -> fs_wf s -> onode_wf o -> hos s = [] -> part ∈ hdirs s ->
  is_Some (tmpname s (part ++ inode_template ++ xs)) -> new_ino s = Some i ->
  (forall k, (k <= 3)%nat -> hnames s !! name_path part i (take k [24; 16; 8]) = None) ->
  (file_name part i ∉ hdirs s) ->
  exists s' n r, svol_icreate part o withn s = Some (s', inr (n, r)) /\
    (name_path part i [24; 16; 8] ∈ hdirs s -> r = inl EEXIST /\ hnames s' = hnames s) /\
    ((name_path part i [24; 16; 8] ∉ hdirs s) -> exists o', r = inr o').
Proof.
  intros Hfit Hw (_ & Hl & _) Ho Hpart Htmp Hino Hfree Hnd.
  destruct (create_start_run part Hfit s o withn Hw)
    as [(s' & e & _ & _ & Hno)|(s1 & p & i' & n & Hc & -> & Hs1 & Hd1 & Hp & _)].
  { exfalso. apply Hno; eauto. }
  destruct (Hs1 Ho) as [Ho1 Hi]. rewrite Hino in Hi. injection Hi as <-. unfold create_levels.
  pose proof (Hfree 1%nat ltac:(lia)) as Hf1. pose proof (Hfree 2%nat ltac:(lia)) as Hf2.
  pose proof (Hfree 3%nat ltac:(lia)) as Hf3. cbn [take] in Hf1, Hf2, Hf3.
  destruct (create_dir_ok part Hfit s p i n [] 24
    (create_dir p n (name_path part i [24; 16]) (create_tail part p i n o)) s1)
    as (s2 & Hr2 & Hc2 & Ho2 & Hin2 & Hup2 & Hsub2); simpl; try done; [lia|by rewrite Hd1|].
  simpl in Hr2. rewrite Hr2.
  destruct (create_dir_ok part Hfit s p i n [24] 16 (create_tail part p i n o) s2)
    as (s3 & Hr3 & Hc3 & Ho3 & Hin3 & Hup3 & Hsub3); try done; [simpl; lia|].
  simpl in Hr3. simpl. rewrite Hr3.
  assert (Hsame : forall q, length q <> (length part + 3)%nat -> length q <> (length part + 6)%nat ->
    q ∈ hdirs s3 <-> q ∈ hdirs s).
  { intros q H1 H2. rewrite <- Hd1. split; [|set_solver].
    intros [Hq%elem_of_singleton|[Hq%elem_of_singleton|Hq]%Hup2%elem_of_union]%Hup3%elem_of_union;
      [| |done]; apply (f_equal length) in Hq; rewrite name_path_length in Hq; simpl in Hq; lia. }
  assert (Hlen : forall ks, length (name_path part i ks) = (length part + 3 * length ks)%nat)
    by (intros ks; apply name_path_length).
  destruct (create_tail_ok part Hfit s p i n o s3) as (s' & r & Hr & Hbad & Hgood); try done; [lia| |].
  { rewrite Hsame; [done|..]; unfold file_name; rewrite Hlen; simpl; lia. }
  exists s', n, r. split; [done|]. rewrite Hsame in Hbad, Hgood by (rewrite Hlen; simpl; lia). done.
Qed.

(** ** A concrete host *)

Module Witnesses.

Definition name_used (s : hostfs) (p : bytes) : bool :=
  bool_decide (is_Some (hnames s !! p)) || bool_decide (p ∈ hdirs s).
Definition ino_usedb (s : hostfs) (i : Z) : bool :=
  existsb (fun x => snd x =? i) (map_to_list (hnames s)) ||
  existsb (fun x => snd x =? i) (map_to_list (hfds s)).

(** Names end in six letters, inodes are counted from 1000. *)
#[local] Instance demo_host : HostChoice := {
  tmpname s t := find (fun q => negb (name_used s q))
    (map (fun c => take (length t - 6) t ++ [c; 97; 97; 97; 97; 97]) (seqZ 97 26));
  new_ino s := find (fun i => negb (ino_usedb s i)) (seqZ 1000 100);
  new_fd s := fresh (dom (hfds s) : gset Z)
}.

Lemma ino_usedb_spec s i : ino_usedb s i = false -> ~ ino_used s i.
Proof.
  unfold ino_usedb. intros [H1 H2]%orb_false_iff [[p Hp]|[fd Hfd]].
  - eapply not_true_iff_false; [exact H1|]. apply existsb_exists. exists (p, i).
    split; [|apply Z.eqb_refl]. by apply list_elem_of_In, elem_of_map_to_list.
  - eapply not_true_iff_false; [exact H2|]. apply existsb_exists. exists (fd, i).
    split; [|apply Z.eqb_refl]. by apply list_elem_of_In, elem_of_map_to_list.
Qed.

#[local] Instance demo_host_ok : HostChoiceOk.
Proof.
  split.
  - intros s t p [_ Hp]%find_some. apply negb_true_iff, orb_false_iff in Hp as [H1 H2].
    apply bool_decide_eq_false in H1, H2. split; [|done].
    destruct (hnames s !! p); [destruct H1; eauto|done].
  - intros s p x q Hx [Hin _]%find_some. apply in_map_iff in Hin as (c & <- & Hc).
    exists [c; 97; 97; 97; 97; 97]. rewrite length_app, Hx.
    replace (length p + 6 - 6)%nat with (length p) by lia. rewrite take_app_length.
    split_and!; [done..|]. apply list_elem_of_In, elem_of_seqZ in Hc.
    repeat constructor; lia.
  - intros s i [_ Hi]%find_some. apply ino_usedb_spec. by apply negb_true_iff.
  - intros s i [Hi _]%find_some. apply list_elem_of_In, elem_of_seqZ in Hi. lia.
  - intros s. apply (not_elem_of_dom (D := gset Z)). exact (is_fresh (dom (hfds s) : gset Z)).
Qed.

Definition vicepa : bytes := [47; 118; 105; 99; 101; 112; 97].
Definition empty_host : hostfs := Host {[vicepa]} ∅ ∅ ∅ [].

Lemma fs_wf_check s :
  bool_decide (map_Forall (fun p _ => dirname p ∈ hdirs s) (hnames s)) &&
  bool_decide (set_Forall (fun p => hnames s !! p = None) (hdirs s)) = true -> fs_wf s.
Proof.
  intros [H1%bool_decide_eq_true H2%bool_decide_eq_true]%andb_true_iff.
  split; [intros p i Hp; by apply (H1 p i)|exact H2].
Qed.

Lemma empty_onode_wf : onode_wf zero_onode.
Proof.
  split; [|split; [reflexivity|]]; [done|].
  unfold zero_onode, onode_data. apply Forall_replicate. unfold is_byte. lia.
Qed.

(** The third call fails: the first directory is not made. *)
Lemma svol_create_safe_witness :
  exists s' n r, svol_icreate vicepa zero_onode true (with_os [0; 0; 5] empty_host) =
                 Some (s', inr (n, r)) /\
    created_ok vicepa (with_os [0; 0; 5] empty_host) s' r.
Proof.
  apply svol_create_safe; [done|by apply fs_wf_check|apply empty_onode_wf].
Defined.

Definition created_in (s : hostfs) : bool :=
  match svol_icreate vicepa zero_onode true s with Some (_, inr (_, inr _)) => true | _ => false end.

Lemma svol_create_open_witness :
  exists s' o', (exists n, svol_icreate vicepa zero_onode true empty_host = Some (s', inr (n, inr o'))) /\
    exists s2, svol_unlink vicepa o' (with_os [] s') = Some (s2, inr tt) /\ hnames s2 = ∅.
Proof.
  assert (Hc : created_in empty_host = true) by (vm_compute; reflexivity). unfold created_in in Hc.
  destruct (svol_icreate vicepa zero_onode true empty_host) as [[s' [e|[n [e|o']]]]|] eqn:E;
    [discriminate Hc|discriminate Hc| |discriminate Hc].
  exists s', o'. split; [by exists n|].
  apply (svol_create_open vicepa empty_host zero_onode true s' n o');
    [done|by apply fs_wf_check|apply empty_onode_wf|exact E].
Defined.

(** After one creation (inode 1000) the next one (inode 1001) is refused. *)
Definition after_one : hostfs :=
  match svol_icreate vicepa zero_onode false empty_host with
  | Some (s, _) => s
  | None => empty_host
  end.

Lemma svol_create_once_witness :
  exists s' n, svol_icreate vicepa zero_onode false after_one = Some (s', inr (n, inl EEXIST)) /\
    hnames s' = hnames after_one.
Proof.
  destruct (svol_create_once vicepa after_one zero_onode false 1001)
    as (s' & n & r & Hr & Hbad & _).
  - done.
  - apply fs_wf_check. by vm_compute.
  - apply empty_onode_wf.
  - by vm_compute.
  - apply in_dirs_spec. by vm_compute.
  - apply (bool_decide_unpack _). by vm_compute.
  - by vm_compute.
  - intros k Hk. destruct k as [|[|[|[|k]]]]; [by vm_compute..|lia].
  - intros Hd%in_dirs_spec. vm_compute in Hd. discriminate Hd.
  - destruct Hbad as [-> Hn].
    + apply in_dirs_spec. by vm_compute.
    + exists s', n. exact (conj Hr Hn).
Defined.

(** The inodes 1 and 2^32 + 1. *)
Lemma local_name_inode_witness :
  local_create_name vicepa 1 = local_create_name vicepa (2^32 + 1) <-> 1 mod 2^32 = (2^32 + 1) mod 2^32.
Proof. apply local_name_inode. done. Defined.

End Witnesses.
