(* ===== verification/Mnode.v ===== *)
(** * The cache of mnodes

    milko/lib/vld/mnode.c: a fixed set of nodes, each of which may hold the
    file descriptor, the status and the database entry of one vnode; a hash
    table finds the node of a fid, a reference counter keeps nodes that
    procedures work on, and a list in order of use gives the node to take for
    a new fid.  Nodes are shared by pointer: the model has a heap of nodes, the
    list of pointers, the table and the counter of free nodes.  The hash table
    is the finite map that [HashCorrect] shows it to be: [hashtabadd] does
    nothing when the fid is there, [hashtabdel] removes whatever node has the
    fid.  The list is that of [DListCorrect]; a node is on it once when its
    [li] is not null. *)

From S2P Require Import Prelude Estate Fdir Voldb Svol.

Local Open Scope em_scope.

Record AFSFetchStatus := FetchStatus {
  fs_InterfaceVersion : Z; fs_FileType : Z; fs_LinkCount : Z; fs_Length : Z;
  fs_DataVersion : Z; fs_Author : Z; fs_Owner : Z; fs_CallerAccess : Z;
  fs_AnonymousAccess : Z; fs_UnixModeBits : Z; fs_ParentVnode : Z; fs_ParentUnique : Z;
  fs_ResidencyMask : Z; fs_ClientModTime : Z; fs_ServerModTime : Z; fs_Group : Z;
  fs_SyncCounter : Z; fs_DataVersionHigh : Z; fs_LockCount : Z; fs_LengthHigh : Z;
  fs_ErrorCode : Z
}.
Definition zero_status : AFSFetchStatus :=
  FetchStatus 0 0 0 0 0 0 0 0 0 0 0 0 0 0 0 0 0 0 0 0 0.

(** [struct mnode]: [usedp] is never used, of [sb] only the size is. *)
Record mnode := Mnode {
  mfd : Z; ref : Z; st_size : Z; fs : AFSFetchStatus; mfid : AFSFid; e : voldb_entry;
  removedp : bool; fdp : bool; sbp : bool; fsp : bool; ep : bool;
  li : bool                     (* is [li] not null? *)
}.
(** [memset (n, 0, sizeof ( *n))] *)
Definition zero_mnode : mnode :=
  Mnode 0 0 0 zero_status (Build_AFSFid 0 0 0) (Entry 0 (u_file zero_entry))
    false false false false false false.

Definition set_ref (v : Z) (n : mnode) : mnode :=
  let 'Mnode a _ c d f g h i j k l m := n in Mnode a v c d f g h i j k l m.
Definition set_mfid (v : AFSFid) (n : mnode) : mnode :=
  let 'Mnode a b c d _ g h i j k l m := n in Mnode a b c d v g h i j k l m.
Definition set_removedp (v : bool) (n : mnode) : mnode :=
  let 'Mnode a b c d f g _ i j k l m := n in Mnode a b c d f g v i j k l m.
Definition set_fdp (v : bool) (n : mnode) : mnode :=
  let 'Mnode a b c d f g h _ j k l m := n in Mnode a b c d f g h v j k l m.
Definition set_li (v : bool) (n : mnode) : mnode :=
  let 'Mnode a b c d f g h i j k l _ := n in Mnode a b c d f g h i j k l v.
(** [memset (&node->flags, 0, sizeof (node->flags))] *)
Definition clear_flags (n : mnode) : mnode :=
  let 'Mnode a b c d f g _ _ _ _ _ m := n in Mnode a b c d f g false false false false false m.

Record mstate := MState {
  nodes : gmap Z mnode;         (* by address *)
  lru : list Z;                 (* head first *)
  htab : gmap AFSFid Z;
  numfree : Z;                  (* unsigned long; 2^64 operations are needed to wrap it *)
  mhost : hostfs
}.

Definition set_nodes (x : gmap Z mnode) (s : mstate) : mstate :=
  MState x (lru s) (htab s) (numfree s) (mhost s).
Definition set_lru (x : list Z) (s : mstate) : mstate :=
  MState (nodes s) x (htab s) (numfree s) (mhost s).
Definition set_htab (x : gmap AFSFid Z) (s : mstate) : mstate :=
  MState (nodes s) (lru s) x (numfree s) (mhost s).
Definition set_numfree (x : Z) (s : mstate) : mstate :=
  MState (nodes s) (lru s) (htab s) x (mhost s).
Definition set_mhost (x : hostfs) (s : mstate) : mstate :=
  MState (nodes s) (lru s) (htab s) (numfree s) x.

Definition MM : Type -> Type := EM mstate.

Definition node (p : Z) : MM mnode := s <-- eget ;; eopt (nodes s !! p).
Definition put_node (p : Z) (n : mnode) : MM unit :=
  emod (fun s => set_nodes (<[p := n]> (nodes s)) s).
Definition upd_node (p : Z) (f : mnode -> mnode) : MM unit := n <-- node p ;; put_node p (f n).
Definition on_host {A} (m : HM A) : MM A := fun s =>
  match m (mhost s) with
  | Some (h, r) => Some (set_mhost h s, r)
  | None => None
  end.

(** [listdel (mnode_lru, res->li)] *)
Fixpoint list_del (p : Z) (l : list Z) : option (list Z) :=
  match l with
  | [] => None
  | q :: l => if p =? q then Some l else l' ← list_del p l; Some (q :: l')
  end.
Definition lru_del (p : Z) : MM unit :=
  s <-- eget ;; l <-- eopt (list_del p (lru s)) ;; emod (set_lru l).
(** [listaddhead] and [listaddtail], with the assignment to [li]. *)
Definition lru_addhead (p : Z) : MM unit :=
  emod (fun s => set_lru (p :: lru s) s) ;;! upd_node p (set_li true).
Definition lru_addtail (p : Z) : MM unit :=
  emod (fun s => set_lru (lru s ++ [p]) s) ;;! upd_node p (set_li true).
(** [if (n->li) listdel (mnode_lru, n->li);] *)
Definition lru_unlink (p : Z) : MM unit :=
  n <-- node p ;; if li n then lru_del p else eret tt.

Definition htab_add (f : AFSFid) (p : Z) : MM unit :=
  emod (fun s => set_htab (match htab s !! f with Some _ => htab s | None => <[f := p]> (htab s) end) s).
Definition htab_del (f : AFSFid) : MM unit := emod (fun s => set_htab (delete f (htab s)) s).

(** [mnode_init]: the nodes have the addresses 1 to [num]. *)
Definition mnode_init (num : nat) (h : hostfs) : mstate :=
  let ps := seqZ 1 (Z.of_nat num) in
  MState (list_to_map (map (fun p => (p, set_li true zero_mnode)) ps)) (rev ps) ∅ (Z.of_nat num) h.

Definition reset_node (p : Z) (f : AFSFid) : MM unit :=
  n <-- node p ;;
  eassert (ref n =? 0) ;;!
  (if fdp n then on_host (hclose (mfd n)) else eret tt) ;;!
  put_node p (set_mfid f zero_mnode).

(** [listdeltail]: null on an empty list. *)
Definition lru_deltail : MM (option Z) :=
  s <-- eget ;;
  match last (lru s) with
  | None => eret None
  | Some p => emod (set_lru (removelast (lru s))) ;;! eret (Some p)
  end.

(** [fresh] is the address [malloc] gives and what the memory holds; when it
    fails the loop yields and searches again.  The body of the loop with what
    follows it. *)
Definition mnode_find (fresh : Z * mnode) (f : AFSFid) : MM Z :=
  s <-- eget ;;
  res <-- (match htab s !! f with
           | Some p =>
               n <-- node p ;;
               if removedp n then efail ENOENT else
               (if li n then lru_del p else eret tt) ;;!
               (if ref n =? 0 then emod (fun s => set_numfree (numfree s - 1) s) else eret tt) ;;!
               upd_node p (fun n => set_ref (ref n + 1) n) ;;!
               eret p
           | None =>
               if negb (numfree s =? 0) then
                 r <-- lru_deltail ;;
                 p <-- eopt r ;;                         (* assert (res) *)
                 n <-- node p ;;
                 eassert (ref n =? 0) ;;!
                 htab_del (mfid n) ;;!
                 reset_node p f ;;!
                 htab_add f p ;;!
                 upd_node p (fun n => set_ref (ref n + 1) n) ;;!
                 eret p
               else
                 put_node (fst fresh) (snd fresh) ;;!
                 reset_node (fst fresh) f ;;!
                 htab_add f (fst fresh) ;;!
                 upd_node (fst fresh) (fun n => set_ref (ref n + 1) n) ;;!
                 eret (fst fresh)
           end) ;;
  n <-- node res ;;
  eassert (negb (removedp n)) ;;!
  lru_addhead res ;;!
  eret res.

Definition mnode_free (p : Z) (bad : bool) : MM unit :=
  lru_unlink p ;;!
  (if bad then
     n <-- node p ;;
     (if fdp n then on_host (hclose (mfd n)) else eret tt) ;;!
     upd_node p clear_flags
   else eret tt) ;;!
  upd_node p (fun n => set_ref (ref n - 1) n) ;;!
  n <-- node p ;;
  if ref n =? 0 then
    (if fdp n then on_host (hclose (mfd n)) ;;! upd_node p (set_fdp false) else eret tt) ;;!
    (if removedp n then htab_del (mfid n) ;;! upd_node p (set_removedp false) else eret tt) ;;!
    emod (fun s => set_numfree (numfree s + 1) s) ;;!
    lru_addtail p
  else lru_addhead p.

Definition mnode_remove (f : AFSFid) : MM unit :=
  s <-- eget ;;
  match htab s !! f with
  | None => eret tt
  | Some p =>
      n <-- node p ;;
      (if (ref n =? 0) && fdp n
       then on_host (hclose (mfd n)) ;;! upd_node p (set_fdp false) else eret tt) ;;!
      lru_unlink p ;;!
      lru_addhead p ;;!
      upd_node p (set_removedp true)
  end.
