(* ===== verification/MnodeCorrect.v ===== *)
(** * Correctness of the mnode cache

    Each operation is run symbolically to its final state; an invariant over
    the nodes that procedures hold gives sharing (one node per fid) and the
    order of the list (nodes in use before free ones). *)

From S2P Require Import Prelude Estate Fdir Voldb Svol Mnode.

Local Open Scope em_scope.

(** One step of a run: the first operation of a sequence by its lemma. *)
Ltac erun H := erewrite ebind_ok; [|eapply H; first [eassumption|apply lookup_insert_eq]].

(** ** Running the operations *)

Lemma node_run p s n : nodes s !! p = Some n -> node p s = Some (s, inr n).
Proof. intros Hp. unfold node. rewrite ebind_get. unfold eopt. by rewrite Hp. Qed.

Lemma upd_node_run p f s n :
  nodes s !! p = Some n ->
  upd_node p f s = Some (set_nodes (<[p := f n]> (nodes s)) s, inr tt).
Proof. intros Hp. unfold upd_node. by rewrite (ebind_ok _ _ _ _ _ (node_run p s n Hp)). Qed.

Lemma put_node_run p n s : put_node p n s = Some (set_nodes (<[p := n]> (nodes s)) s, inr tt).
Proof. done. Qed.

Lemma lru_del_run p s l :
  list_del p (lru s) = Some l -> lru_del p s = Some (set_lru l s, inr tt).
Proof. intros Hl. unfold lru_del. rewrite ebind_get. unfold eopt. by rewrite Hl. Qed.

Lemma lru_unlink_run p s n l :
  nodes s !! p = Some n -> li n = true -> list_del p (lru s) = Some l ->
  lru_unlink p s = Some (set_lru l s, inr tt).
Proof.
  intros Hp Hn Hl. unfold lru_unlink. rewrite (ebind_ok _ _ _ _ _ (node_run p s n Hp)), Hn.
  by apply lru_del_run.
Qed.

Lemma lru_addhead_run p s n :
  nodes s !! p = Some n ->
  lru_addhead p s =
    Some (set_nodes (<[p := set_li true n]> (nodes s)) (set_lru (p :: lru s) s), inr tt).
Proof. intros Hp. unfold lru_addhead. rewrite ebind_mod. by rewrite (upd_node_run _ _ _ n). Qed.

Lemma lru_addtail_run p s n :
  nodes s !! p = Some n ->
  lru_addtail p s =
    Some (set_nodes (<[p := set_li true n]> (nodes s)) (set_lru (lru s ++ [p]) s), inr tt).
Proof. intros Hp. unfold lru_addtail. rewrite ebind_mod. by rewrite (upd_node_run _ _ _ n). Qed.

Lemma hclose_when_run (b : bool) fd s :
  exists h, (if b then on_host (hclose fd) else eret tt) s = Some (set_mhost h s, inr tt).
Proof.
  destruct b; [unfold on_host, hclose; cbn; eauto|]. exists (mhost s). by destruct s.
Qed.

Lemma reset_node_run p f s n :
  nodes s !! p = Some n -> ref n = 0 ->
  exists h, reset_node p f s =
    Some (set_nodes (<[p := set_mfid f zero_mnode]> (nodes s)) (set_mhost h s), inr tt).
Proof.
  intros Hp Hr. destruct (hclose_when_run (fdp n) (mfd n) s) as [h Hh]. exists h.
  unfold reset_node. erun node_run. rewrite Hr. cbn [Z.eqb eassert]. rewrite ebind_ret.
  by rewrite (ebind_ok _ _ _ _ _ Hh).
Qed.

(** *** The list *)

Lemma list_del_perm p l : NoDup l -> p ∈ l -> exists l', list_del p l = Some l' /\ p :: l' ≡ₚ l.
Proof.
  induction l as [|q l IH]; intros Hn Hp; [by apply elem_of_nil in Hp|].
  apply NoDup_cons in Hn as [Hq Hn]. simpl. destruct (Z.eqb_spec p q) as [<-|Hpq]; [eauto|].
  apply elem_of_cons in Hp as [?|Hp]; [done|]. destruct (IH Hn Hp) as (l' & -> & Hl).
  exists (q :: l'). split; [done|]. by rewrite <- Hl, Permutation_swap.
Qed.

Lemma list_del_app p l1 l2 :
  list_del p (l1 ++ l2) =
    match list_del p l1 with
    | Some l => Some (l ++ l2)
    | None => match list_del p l2 with Some l => Some (l1 ++ l) | None => None end
    end.
Proof.
  induction l1 as [|q l1 IH]; simpl; [by case_match|].
  destruct (p =? q); [done|]. rewrite IH.
  destruct (list_del p l1), (list_del p l2); done.
Qed.

Lemma list_del_none p l : p ∉ l -> list_del p l = None.
Proof.
  induction l as [|q l IH]; [done|]. intros H. apply not_elem_of_cons in H as [H1 H2]. simpl.
  destruct (Z.eqb_spec p q); [done|]. by rewrite IH.
Qed.

(** *** Final states *)

Definition taken (n : mnode) : mnode := set_li true (set_ref (ref n + 1) n).

Lemma find_hit_run fresh f s p n l :
  htab s !! f = Some p -> nodes s !! p = Some n -> removedp n = false -> li n = true ->
  list_del p (lru s) = Some l ->
  mnode_find fresh f s =
    Some (MState (<[p := taken n]> (nodes s)) (p :: l) (htab s)
            (if ref n =? 0 then numfree s - 1 else numfree s) (mhost s), inr p).
Proof.
  intros Hf Hp Hr Hl Hd. unfold mnode_find. rewrite ebind_get, Hf.
  set (s1 := MState (<[p := set_ref (ref n + 1) n]> (nodes s)) l (htab s)
    (if ref n =? 0 then numfree s - 1 else numfree s) (mhost s)).
  match goal with |- ebind ?m _ _ = _ => assert (H1 : m s = Some (s1, inr p)) end.
  { erun node_run. rewrite Hr, Hl. erun lru_del_run. destruct (ref n =? 0) eqn:Href.
    - rewrite ebind_mod. by erun upd_node_run.
    - rewrite ebind_ret. by erun upd_node_run. }
  rewrite (ebind_ok _ _ _ _ _ H1).
  assert (Hp1 : nodes s1 !! p = Some (set_ref (ref n + 1) n)) by apply lookup_insert_eq.
  rewrite (ebind_ok _ _ _ _ _ (node_run p s1 _ Hp1)).
  replace (removedp (set_ref (ref n + 1) n)) with (removedp n) by (by destruct n).
  rewrite Hr. cbn [negb eassert]. rewrite ebind_ret.
  rewrite (ebind_ok _ _ _ _ _ (lru_addhead_run p s1 _ Hp1)).
  unfold eret, set_nodes, set_lru, s1. cbn. by rewrite insert_insert_eq.
Qed.

(** A removed node that is still in use is not found. *)
Lemma find_removed_run fresh f s p n :
  htab s !! f = Some p -> nodes s !! p = Some n -> removedp n = true ->
  mnode_find fresh f s = Some (s, inl ENOENT).
Proof.
  intros Hf Hp Hr. unfold mnode_find. rewrite ebind_get, Hf.
  apply ebind_err. by rewrite (ebind_ok _ _ _ _ _ (node_run p s n Hp)), Hr.
Qed.

(** The node at the tail becomes the node of [f]. *)
Definition renewed (f : AFSFid) : mnode := taken (set_mfid f zero_mnode).

Lemma find_miss_run fresh f s l p n :
  htab s !! f = None -> numfree s <> 0 -> lru s = l ++ [p] -> nodes s !! p = Some n ->
  ref n = 0 ->
  exists h, mnode_find fresh f s =
    Some (MState (<[p := renewed f]> (nodes s)) (p :: l)
            (<[f := p]> (delete (mfid n) (htab s))) (numfree s) h, inr p).
Proof.
  intros Hf Hnf Hl Hp Hr. unfold mnode_find. rewrite ebind_get, Hf.
  rewrite (proj2 (Z.eqb_neq _ _) Hnf). cbn [negb].
  destruct (reset_node_run p f (set_htab (delete (mfid n) (htab s)) (set_lru l s)) n Hp Hr)
    as [h Hh]. exists h.
  set (n0 := set_mfid f zero_mnode).
  set (s1 := MState (<[p := set_ref 1 n0]> (nodes s)) l (<[f := p]> (delete (mfid n) (htab s)))
               (numfree s) h).
  assert (Hfdel : delete (mfid n) (htab s) !! f = None).
  { apply lookup_delete_None. by right. }
  match goal with |- ebind ?m _ _ = _ => assert (H1 : m s = Some (s1, inr p)) end.
  { assert (Ht : lru_deltail s = Some (set_lru l s, inr (Some p))).
    { unfold lru_deltail. rewrite ebind_get, Hl, last_snoc, removelast_last. done. }
    rewrite (ebind_ok _ _ _ _ _ Ht). unfold eopt at 1. rewrite ebind_ret.
    erewrite ebind_ok; [|by apply node_run]. rewrite Hr. cbn [Z.eqb eassert].
    rewrite ebind_ret. unfold htab_del. rewrite ebind_mod. cbn [set_lru htab] in *.
    rewrite (ebind_ok _ _ _ _ _ Hh).
    unfold htab_add. rewrite ebind_mod. cbn [set_nodes set_mhost set_htab set_lru htab].
    rewrite Hfdel. erun upd_node_run.
    unfold eret, s1, set_nodes, set_htab. cbn. by rewrite insert_insert_eq. }
  rewrite (ebind_ok _ _ _ _ _ H1).
  assert (Hp1 : nodes s1 !! p = Some (set_ref 1 n0)) by apply lookup_insert_eq.
  rewrite (ebind_ok _ _ _ _ _ (node_run p s1 _ Hp1)). cbn [n0 negb eassert removedp set_ref set_mfid zero_mnode].
  rewrite ebind_ret. rewrite (ebind_ok _ _ _ _ _ (lru_addhead_run p s1 _ Hp1)).
  unfold eret, set_nodes, set_lru, s1. cbn. by rewrite insert_insert_eq.
Qed.

Lemma set_nodes_nodes s x y : set_nodes y (set_nodes x s) = set_nodes y s.
Proof. done. Qed.

(** A store that writes what is there. *)
Lemma set_fdp_id (n : mnode) : fdp n = false -> set_fdp false n = n.
Proof. destruct n; simpl; by intros ->. Qed.
Lemma set_removedp_id (n : mnode) : removedp n = false -> set_removedp false n = n.
Proof. destruct n; simpl; by intros ->. Qed.

Definition cleared (bad : bool) (n : mnode) : mnode := if bad then clear_flags n else n.
Definition kept (bad : bool) (n : mnode) : mnode := set_li true (set_ref (ref n - 1) (cleared bad n)).
Definition released (bad : bool) (n : mnode) : mnode :=
  set_li true (set_removedp false (set_fdp false (set_ref (ref n - 1) (cleared bad n)))).

(** A conditional close followed by the clearing of a flag. *)
Lemma close_fd_run (b : bool) p s n :
  nodes s !! p = Some n -> b = fdp n ->
  exists h, (if b then on_host (hclose (mfd n)) ;;! upd_node p (set_fdp false) else eret tt) s =
    Some (set_nodes (<[p := set_fdp false n]> (nodes s)) (set_mhost h s), inr tt).
Proof.
  intros Hp ->. destruct (fdp n) eqn:Hf.
  - unfold on_host at 1, hclose. eexists. erewrite ebind_ok; [|reflexivity].
    erewrite upd_node_run; [reflexivity|exact Hp].
  - exists (mhost s). rewrite set_fdp_id by done. rewrite insert_id by done. by destruct s.
Qed.

Lemma mnode_free_run p bad s n l :
  nodes s !! p = Some n -> li n = true -> list_del p (lru s) = Some l ->
  exists h, mnode_free p bad s =
    Some (if ref n - 1 =? 0
          then MState (<[p := released bad n]> (nodes s)) (l ++ [p])
                 (if removedp (cleared bad n) then delete (mfid n) (htab s) else htab s)
                 (numfree s + 1) h
          else MState (<[p := kept bad n]> (nodes s)) (p :: l) (htab s) (numfree s) h, inr tt).
Proof.
  intros Hp Hl Hd. unfold mnode_free.
  erewrite ebind_ok; [|by eapply lru_unlink_run].
  set (c := cleared bad n).
  assert (Hc : exists h1, (if bad then n <-- node p ;;
     (if fdp n then on_host (hclose (mfd n)) else eret tt) ;;! upd_node p clear_flags
     else eret tt) (set_lru l s) =
     Some (set_nodes (<[p := c]> (nodes s)) (set_mhost h1 (set_lru l s)), inr tt)).
  { destruct bad.
    - destruct (hclose_when_run (fdp n) (mfd n) (set_lru l s)) as [h1 Hh]. exists h1.
      erewrite ebind_ok; [|by apply node_run]. rewrite (ebind_ok _ _ _ _ _ Hh).
      erewrite upd_node_run; [|exact Hp]. done.
    - exists (mhost s). unfold c, cleared. rewrite insert_id by done. by destruct s. }
  destruct Hc as [h1 Hc]. rewrite (ebind_ok _ _ _ _ _ Hc).
  erun upd_node_run. cbn [nodes set_nodes set_mhost set_lru]. rewrite insert_insert_eq.
  erewrite ebind_ok; [|apply node_run, lookup_insert_eq].
  assert (Href : ref (set_ref (ref c - 1) c) = ref n - 1) by (unfold c, cleared; by destruct bad, n).
  assert (Hrc : ref c = ref n) by (unfold c, cleared; by destruct bad, n).
  rewrite Href, Hrc. set (c1 := set_ref (ref n - 1) c). destruct (ref n - 1 =? 0).
  2:{ exists h1. erewrite lru_addhead_run; [|apply lookup_insert_eq]. cbn.
      rewrite insert_insert_eq. done. }
  match goal with |- context [ebind (if fdp c1 then _ else _) _ ?st] =>
    destruct (close_fd_run (fdp c1) p st c1 (lookup_insert_eq _ _ _) eq_refl) as [h2 Hh2] end.
  rewrite (ebind_ok _ _ _ _ _ Hh2). cbn [nodes set_nodes set_mhost set_lru]. rewrite insert_insert_eq.
  exists h2. set (c2 := set_fdp false c1).
  assert (Hm : mfid c1 = mfid n) by (unfold c1, c, cleared; by destruct bad, n).
  assert (Hrm : removedp c1 = removedp c) by (unfold c1; by destruct c). rewrite Hrm, Hm.
  destruct (removedp c) eqn:Hrem.
  - unfold htab_del. erewrite ebind_ok.
    2:{ rewrite ebind_mod. apply upd_node_run. apply lookup_insert_eq. }
    rewrite ebind_mod. erewrite lru_addtail_run; [|apply lookup_insert_eq]. cbn.
    by rewrite !insert_insert_eq.
  - rewrite ebind_ret, ebind_mod. erewrite lru_addtail_run; [|apply lookup_insert_eq]. cbn.
    rewrite insert_insert_eq. do 4 f_equal. unfold released. fold c c1 c2.
    rewrite (set_removedp_id c2); [done|]. unfold c2, c1. by destruct c.
Qed.

Lemma mnode_remove_run f s p n l :
  htab s !! f = Some p -> nodes s !! p = Some n -> li n = true -> ref n <> 0 ->
  list_del p (lru s) = Some l ->
  mnode_remove f s =
    Some (MState (<[p := set_removedp true (set_li true n)]> (nodes s)) (p :: l) (htab s)
            (numfree s) (mhost s), inr tt).
Proof.
  intros Hf Hp Hl Hr Hd. unfold mnode_remove. rewrite ebind_get, Hf. erun node_run.
  rewrite (proj2 (Z.eqb_neq _ _) Hr). cbn [andb]. rewrite ebind_ret.
  erewrite ebind_ok; [|by eapply lru_unlink_run].
  erewrite ebind_ok; [|apply lru_addhead_run; exact Hp].
  erewrite upd_node_run; [|apply lookup_insert_eq]. cbn. by rewrite insert_insert_eq.
Qed.

Lemma mnode_remove_none f s : htab s !! f = None -> mnode_remove f s = Some (s, inr tt).
Proof. intros Hf. unfold mnode_remove. by rewrite ebind_get, Hf. Qed.

(** ** The invariant

    [held]: the nodes procedures work on, as often as they hold them; [dead]:
    the fids of vnodes that were removed, and that of a fresh node; [miss]: how
    often a node was taken for a new fid.  [numfree] is not lowered then: it
    counts the free nodes and these. *)

Definition zero_fid : AFSFid := Build_AFSFid 0 0 0.

Record minv (num : nat) (s : mstate) (held : list Z) (dead : list AFSFid) (miss : Z) : Prop := {
  mi_perm : lru s ≡ₚ seqZ 1 (Z.of_nat num);
  mi_nodes : forall p, p ∈ lru s <-> is_Some (nodes s !! p);
  mi_held : forall p, p ∈ held -> p ∈ lru s;
  mi_node : forall p n, nodes s !! p = Some n ->
    li n = true /\ ref n = count p held /\
    (htab s !! mfid n = Some p \/
     htab s !! mfid n = None /\ (p ∉ held) /\ mfid n ∈ dead) /\
    (removedp n = true -> p ∈ held /\ mfid n ∈ dead);
  mi_key : forall f p, htab s !! f = Some p -> exists n, nodes s !! p = Some n /\ mfid n = f;
  mi_order : exists u v, lru s = u ++ v /\ Forall (fun p => p ∈ held) u /\
    Forall (fun p => p ∉ held) v /\ numfree s = Z.of_nat (length v) + miss;
  mi_miss : 0 <= miss /\ (forall f p, htab s !! f = Some p -> 1 <= miss)
}.

Lemma mi_nodup num s held dead miss : minv num s held dead miss -> NoDup (lru s).
Proof. intros Hi. rewrite (mi_perm _ _ _ _ _ Hi). apply NoDup_seqZ. Qed.

Lemma minv_init num h : minv num (mnode_init num h) [] [zero_fid] 0.
Proof.
  set (ps := seqZ 1 (Z.of_nat num)).
  assert (Hlk : forall p n, nodes (mnode_init num h) !! p = Some n <->
    p ∈ ps /\ n = set_li true zero_mnode).
  { intros p n. unfold mnode_init. cbn [nodes]. fold ps.
    rewrite <- elem_of_list_to_map.
    - rewrite list_elem_of_fmap. split; [intros (q & [= -> ->] & Hq); done|].
      intros [Hp ->]. by exists p.
    - rewrite <- list_fmap_compose. simpl. rewrite list_fmap_id. apply NoDup_seqZ. }
  split.
  - apply Permutation_sym, Permutation_rev.
  - intros p. change (lru (mnode_init num h)) with (rev ps). rewrite <- (Permutation_rev ps). split.
    + intros Hp. exists (set_li true zero_mnode). by apply Hlk.
    + intros [n Hn%Hlk]. apply Hn.
  - intros p Hp. by apply elem_of_nil in Hp.
  - intros p n [Hp ->]%Hlk. split_and!; [done|done| |done]. right. cbn.
    split_and!; [apply lookup_empty|apply not_elem_of_nil|apply list_elem_of_here].
  - intros f p Hf. cbn in Hf. by rewrite lookup_empty in Hf.
  - exists [], (rev ps). split_and!; [done|constructor| |].
    + apply Forall_forall. intros p _. apply not_elem_of_nil.
    + simpl. rewrite length_rev. unfold ps. rewrite length_seqZ. lia.
  - split; [done|]. intros f p Hf. cbn in Hf. by rewrite lookup_empty in Hf.
Qed.

(** Taking a node out of the list leaves the order of the others. *)
Lemma list_del_order p (l u v held : list Z) :
  l = u ++ v -> NoDup l -> p ∈ l ->
  Forall (fun q => q ∈ held) u -> Forall (fun q => q ∉ held) v ->
  exists u' v', list_del p l = Some (u' ++ v') /\
    Forall (fun q => q ∈ held /\ q <> p) u' /\ Forall (fun q => (q ∉ held) /\ q <> p) v' /\
    length v = (length v' + (if decide (p ∈ held) then 0 else 1))%nat.
Proof.
  intros -> Hnd Hp Hu Hv. apply NoDup_app in Hnd as (Hndu & Hd & Hndv).
  assert (Hne : forall x, NoDup x -> forall y, p :: y ≡ₚ x -> Forall (fun q => q <> p) y).
  { intros x Hx y Hy. rewrite <- Hy in Hx. apply NoDup_cons in Hx as [Hx _].
    apply Forall_forall. intros q Hq ->. done. }
  rewrite list_del_app. destruct (decide (p ∈ u)) as [Hpu|Hpu].
  - destruct (list_del_perm p u Hndu Hpu) as (u' & -> & Hu'). exists u', v. split; [done|].
    assert (Hpv : p ∉ v) by (by apply Hd). split_and!.
    + rewrite <- Hu' in Hu. apply Forall_cons in Hu as [_ Hu]. apply Forall_and.
      split; [done|by apply (Hne u)].
    + apply Forall_and. split; [done|]. apply Forall_forall. by intros q Hq ->.
    + rewrite decide_True; [lia|]. by eapply Forall_forall in Hu.
  - apply elem_of_app in Hp as [?|Hpv]; [done|]. rewrite (list_del_none p u Hpu).
    destruct (list_del_perm p v Hndv Hpv) as (v' & -> & Hv'). exists u, v'. split; [done|]. split_and!.
    + apply Forall_and. split; [done|]. apply Forall_forall. by intros q Hq ->.
    + pose proof Hv as Hv2. rewrite <- Hv' in Hv2. apply Forall_cons in Hv2 as [_ Hv2].
      apply Forall_and. split; [done|by apply (Hne v)].
    + rewrite <- Hv'. simpl. rewrite decide_False; [lia|]. by eapply Forall_forall in Hv.
Qed.

Lemma lru_split num s held dead miss p :
  minv num s held dead miss -> p ∈ lru s ->
  exists u v, list_del p (lru s) = Some (u ++ v) /\ p :: u ++ v ≡ₚ lru s /\
    Forall (fun q => q ∈ held /\ q <> p) u /\ Forall (fun q => (q ∉ held) /\ q <> p) v /\
    numfree s = Z.of_nat (length v) + (if decide (p ∈ held) then 0 else 1) + miss.
Proof.
  intros Hi Hp. destruct (mi_order _ _ _ _ _ Hi) as (u0 & v0 & Hl & Hu & Hv & Hn).
  pose proof (mi_nodup _ _ _ _ _ Hi) as Hnd.
  destruct (list_del_order p (lru s) u0 v0 held Hl Hnd Hp Hu Hv) as (u & v & Hd & Hu' & Hv' & Hlen).
  exists u, v. destruct (list_del_perm p (lru s) Hnd Hp) as (l & Hd' & Hperm).
  rewrite Hd in Hd'. injection Hd' as <-. split_and!; try done. rewrite Hn, Hlen. case_decide; lia.
Qed.

(** A change of one node [p] that keeps its fid, with the table unchanged. *)
Lemma minv_change num s held dead miss held' dead' p n n' l k :
  minv num s held dead miss ->
  nodes s !! p = Some n -> mfid n' = mfid n -> li n' = true -> ref n' = count p held' ->
  (removedp n' = true -> p ∈ held' /\ mfid n ∈ dead') ->
  (htab s !! mfid n = Some p \/ ((p ∉ held') /\ mfid n ∈ dead')) ->
  (forall q, q <> p -> count q held' = count q held) ->
  (forall f, f ∈ dead -> f ∈ dead') ->
  l ≡ₚ lru s ->
  (exists u v, l = u ++ v /\ Forall (fun q => q ∈ held') u /\ Forall (fun q => q ∉ held') v /\
     k = Z.of_nat (length v) + miss) ->
  forall h, minv num (MState (<[p := n']> (nodes s)) l (htab s) k h) held' dead' miss.
Proof.
  intros Hi Hp Hfid Hli Href Hrem Hown Hcnt Hdead Hl Hord h.
  assert (Hheld : forall q, q <> p -> q ∈ held' <-> q ∈ held).
  { intros q Hq. specialize (Hcnt q Hq). split; intros H; apply count_in;
      apply count_pos in H; lia. }
  assert (Hpl : p ∈ lru s) by (apply (mi_nodes _ _ _ _ _ Hi); eauto).
  split; simpl.
  - rewrite Hl. apply (mi_perm _ _ _ _ _ Hi).
  - intros q. rewrite Hl, (mi_nodes _ _ _ _ _ Hi). destruct (decide (q = p)) as [->|Hq].
    + rewrite lookup_insert_eq, Hp. split; intros; eauto.
    + by rewrite lookup_insert_ne.
  - intros q Hq. rewrite Hl. destruct (decide (q = p)) as [->|Hqp]; [done|].
    apply (mi_held _ _ _ _ _ Hi). by apply Hheld.
  - intros q m. destruct (decide (q = p)) as [->|Hq].
    + rewrite lookup_insert_eq. intros [= <-]. rewrite Hfid. split_and!; try done.
      destruct Hown as [?|[? ?]]; [by left|].
      destruct (mi_node _ _ _ _ _ Hi p n Hp) as (_ & _ & [Ho|[Ho _]] & _); [by left|by right].
    + rewrite lookup_insert_ne by done. intros Hm.
      destruct (mi_node _ _ _ _ _ Hi q m Hm) as (H1 & H2 & H3 & H4). rewrite (Hcnt q Hq).
      split_and!; [done|done| |].
      * destruct H3 as [?|(? & ? & ?)]; [by left|right]. rewrite Hheld by done. auto.
      * rewrite Hheld by done. intros Hr. destruct (H4 Hr). auto.
  - intros f q Hf. destruct (mi_key _ _ _ _ _ Hi f q Hf) as (m & Hm & Hmf).
    destruct (decide (q = p)) as [->|Hq].
    + exists n'. rewrite lookup_insert_eq. split; [done|]. congruence.
    + exists m. by rewrite lookup_insert_ne.
  - done.
  - apply (mi_miss _ _ _ _ _ Hi).
Qed.

Lemma find_hit_inv num fresh s held dead miss f p n :
  minv num s held dead miss -> htab s !! f = Some p -> nodes s !! p = Some n ->
  removedp n = false ->
  exists s', mnode_find fresh f s = Some (s', inr p) /\ minv num s' (p :: held) dead miss /\
    nodes s' = <[p := taken n]> (nodes s) /\ htab s' = htab s.
Proof.
  intros Hi Hf Hp Hr. destruct (mi_node _ _ _ _ _ Hi p n Hp) as (Hli & Href & Hown & _).
  destruct (mi_key _ _ _ _ _ Hi f p Hf) as (n' & Hn' & Hfid). rewrite Hp in Hn'. injection Hn' as <-.
  assert (Hpl : p ∈ lru s) by (apply (mi_nodes _ _ _ _ _ Hi); eauto).
  destruct (lru_split _ _ _ _ _ p Hi Hpl) as (u & v & Hd & Hperm & Hu & Hv & Hnf).
  pose proof (find_hit_run fresh f s p n (u ++ v) Hf Hp Hr Hli Hd) as Hrun.
  eexists. split; [exact Hrun|]. split_and!; [|done|done].
  apply (minv_change num s held dead miss (p :: held) dead p n); try done.
  - by destruct n.
  - by destruct n.
  - rewrite count_cons, decide_True by done. rewrite <- Href. destruct n; simpl; lia.
  - destruct n; simpl in *. by rewrite Hr.
  - left. by rewrite Hfid.
  - intros q Hq. rewrite count_cons. by rewrite decide_False.
  - exists (p :: u), v. split_and!; [done|..].
    + constructor; [apply list_elem_of_here|]. eapply Forall_impl; [exact Hu|].
      intros q [Hq _]. by apply list_elem_of_further.
    + eapply Forall_impl; [exact Hv|]. intros q [Hq Hne]. by apply not_elem_of_cons.
    + rewrite Hnf, Href. destruct (decide (p ∈ held)) as [Hh|Hh].
      * apply count_pos in Hh. rewrite (proj2 (Z.eqb_neq _ _)) by lia. lia.
      * rewrite (count_zero p held Hh). simpl. lia.
Qed.

Lemma remove1_held p q (l : list Z) : q <> p -> q ∈ remove1 p l <-> q ∈ l.
Proof.
  intros Hq. split; [apply remove1_sub|]. intros H. apply count_in.
  destruct (decide (p ∈ l)) as [Hp|Hp].
  - rewrite count_remove1, decide_False by done. apply count_pos in H. lia.
  - assert (E : remove1 p l = l).
    { clear H. induction l as [|x l IH]; [done|]. apply not_elem_of_cons in Hp as [Hx Hp].
      simpl. rewrite decide_False by done. by rewrite IH. }
    rewrite E. by apply count_pos.
Qed.

(** The free nodes are at the tail. *)
Lemma free_at_tail num s held dead miss :
  minv num s held dead miss -> (exists p, p ∈ lru s /\ (p ∉ held)) ->
  exists l p, lru s = l ++ [p] /\ p ∈ lru s /\ (p ∉ held) /\
    exists u v, l = u ++ v /\ Forall (fun q => q ∈ held) u /\ Forall (fun q => q ∉ held) v /\
      numfree s = Z.of_nat (length v) + 1 + miss.
Proof.
  intros Hi (q & Hq & Hqh). destruct (mi_order _ _ _ _ _ Hi) as (u & v & Hl & Hu & Hv & Hn).
  destruct v as [|x v _] using rev_ind.
  { rewrite Hl, app_nil_r in Hq. by eapply Forall_forall in Hu. }
  apply Forall_app in Hv as [Hv [Hx _]%Forall_cons]. exists (u ++ v), x.
  assert (Hlx : lru s = (u ++ v) ++ [x]) by (by rewrite <- app_assoc).
  split_and!; [done| |exact Hx|].
  - rewrite Hlx. apply elem_of_app. right. apply list_elem_of_here.
  - exists u, v. split_and!; try done. rewrite Hn, length_app. simpl. lia.
Qed.

Lemma find_miss_inv num fresh s held dead miss f :
  minv num s held dead miss -> htab s !! f = None -> f ∉ dead ->
  (exists p, p ∈ lru s /\ (p ∉ held)) ->
  exists s' p, mnode_find fresh f s = Some (s', inr p) /\
    minv num s' (p :: held) dead (miss + 1) /\ (p ∉ held) /\
    nodes s' = <[p := renewed f]> (nodes s) /\ htab s' !! f = Some p.
Proof.
  intros Hi Hf Hdead Hfree.
  destruct (free_at_tail _ _ _ _ _ Hi Hfree) as (l & p & Hl & Hp & Hph & u & v & Huv & Hu & Hv & Hn).
  destruct (proj1 (mi_nodes _ _ _ _ _ Hi p) Hp) as [n Hpn].
  destruct (mi_node _ _ _ _ _ Hi p n Hpn) as (Hli & Href & Hown & _).
  pose proof (mi_miss _ _ _ _ _ Hi) as [Hm Hm1].
  destruct (find_miss_run fresh f s l p n) as [h Hrun]; try done; [lia|by rewrite Href, count_zero|].
  eexists _, p. split; [exact Hrun|].
  assert (Hfp : mfid (renewed f) = f) by done.
  assert (Hperm : p :: l ≡ₚ lru s) by (rewrite Hl; apply Permutation_cons_append).
  assert (Hdel : forall g q, delete (mfid n) (htab s) !! g = Some q ->
    htab s !! g = Some q /\ q <> p).
  { intros g q [Hg Hq]%lookup_delete_Some. split; [done|]. intros ->.
    destruct (mi_key _ _ _ _ _ Hi g p Hq) as (n' & Hn' & Hg'). congruence. }
  split_and!; [|done|done|apply lookup_insert_eq].
  split; simpl.
  - rewrite Hperm. apply (mi_perm _ _ _ _ _ Hi).
  - intros q. rewrite Hperm, (mi_nodes _ _ _ _ _ Hi). destruct (decide (q = p)) as [->|Hq].
    + rewrite lookup_insert_eq, Hpn. split; eauto.
    + by rewrite lookup_insert_ne.
  - intros q [->|Hq]%elem_of_cons; rewrite Hperm; [done|]. by apply (mi_held _ _ _ _ _ Hi).
  - intros q m. destruct (decide (q = p)) as [->|Hq].
    + rewrite lookup_insert_eq. intros [= <-]. split_and!; [done| |left; by rewrite Hfp, lookup_insert_eq|done].
      rewrite count_cons, decide_True, (count_zero p held) by done. done.
    + rewrite lookup_insert_ne by done. intros Hmq.
      destruct (mi_node _ _ _ _ _ Hi q m Hmq) as (H1 & H2 & H3 & H4). split_and!; [done| | |].
      * by rewrite count_cons, decide_False.
      * assert (Hmf : mfid m <> f).
        { intros E. rewrite E in H3. destruct H3 as [?|(_ & _ & ?)]; [congruence|done]. }
        rewrite lookup_insert_ne by done.
        destruct H3 as [H3|(H3 & H5 & H6)]; [left|right].
        -- apply lookup_delete_Some. split; [|done]. intros E. rewrite <- E in H3.
           destruct Hown as [Ho|[Ho _]]; congruence.
        -- split_and!; [apply lookup_delete_None; by right| |done]. by apply not_elem_of_cons.
      * intros Hr. destruct (H4 Hr). split; [by apply list_elem_of_further|done].
  - intros g q [[<- <-]|[Hg Hq]]%lookup_insert_Some.
    + exists (renewed f). by rewrite lookup_insert_eq.
    + apply Hdel in Hq as [Hq Hqp]. rewrite lookup_insert_ne by done.
      by apply (mi_key _ _ _ _ _ Hi).
  - exists (p :: u), v. split_and!; [by rewrite Huv|..].
    + constructor; [apply list_elem_of_here|]. eapply Forall_impl; [exact Hu|].
      intros q Hq. by apply list_elem_of_further.
    + apply Forall_forall. intros q Hq. apply not_elem_of_cons. split.
      * intros ->. pose proof (mi_nodup _ _ _ _ _ Hi) as Hnd. rewrite Hl, Huv in Hnd.
        apply NoDup_app in Hnd as (_ & Hd & _). apply (Hd p); [|apply list_elem_of_here].
        apply elem_of_app. by right.
      * by eapply Forall_forall in Hv.
    + lia.
  - split; [lia|]. intros; lia.
Qed.

Lemma mnode_free_inv num s held dead miss p bad :
  minv num s held dead miss -> p ∈ held ->
  exists s' n n', mnode_free p bad s = Some (s', inr tt) /\
    minv num s' (remove1 p held) dead miss /\
    nodes s !! p = Some n /\ nodes s' = <[p := n']> (nodes s) /\ mfid n' = mfid n /\
    e n' = e n /\ (ep n' = true -> ep n = true) /\ fs n' = fs n /\
    (fsp n' = true -> fsp n = true /\ sbp n' = sbp n).
Proof.
  intros Hi Hp. pose proof (mi_held _ _ _ _ _ Hi p Hp) as Hpl.
  destruct (proj1 (mi_nodes _ _ _ _ _ Hi p) Hpl) as [n Hpn].
  destruct (mi_node _ _ _ _ _ Hi p n Hpn) as (Hli & Href & Hown & Hrem).
  destruct (lru_split _ _ _ _ _ p Hi Hpl) as (u & v & Hd & Hperm & Hu & Hv & Hnf).
  rewrite decide_True in Hnf by done.
  destruct (mnode_free_run p bad s n (u ++ v) Hpn Hli Hd) as [h Hrun].
  assert (Hcp : count p (remove1 p held) = ref n - 1)
    by (rewrite count_remove1, decide_True by done; lia).
  assert (Hcq : forall q, q <> p -> count q (remove1 p held) = count q held)
    by (intros q Hq; rewrite count_remove1, decide_False by done; lia).
  assert (Hin : htab s !! mfid n = Some p) by (by destruct Hown as [?|(_ & ? & _)]).
  assert (Hu' : Forall (fun q => q ∈ remove1 p held) u).
  { eapply Forall_impl; [exact Hu|]. intros q [Hq Hne]. by apply remove1_held. }
  assert (Hv' : Forall (fun q => q ∉ remove1 p held) v).
  { eapply Forall_impl; [exact Hv|]. intros q [Hq Hne]. by rewrite remove1_held. }
  assert (Hcr : removedp (cleared bad n) = true -> removedp n = true)
    by (by destruct bad, n).
  destruct (Z.eqb_spec (ref n - 1) 0) as [Hz|Hnz].
  2:{ eexists _, n, (kept bad n). split; [exact Hrun|]. split_and!; [|done|done|by destruct bad, n..].
      apply (minv_change num s held dead miss (remove1 p held) dead p n); try done.
      - by destruct bad, n.
      - by destruct bad, n.
      - rewrite Hcp. by destruct bad, n.
      - intros Hr. assert (Hr' : removedp n = true) by (apply Hcr; by destruct bad, n).
        destruct (Hrem Hr') as [_ ?]. split; [|done]. apply count_in. pose proof (count_pos p held Hp). lia.
      - by left.
      - exists (p :: u), v. split_and!; [done| |done|lia]. constructor; [|done].
        apply count_in. pose proof (count_pos p held Hp). lia. }
  assert (Hpn' : p ∉ remove1 p held) by (intros H%count_pos; lia).
  eexists _, n, (released bad n). split; [exact Hrun|].
  split_and!; [|done|done|by destruct bad, n..].
  assert (Hbase : minv num (MState (<[p := released bad n]> (nodes s)) ((u ++ v) ++ [p])
      (htab s) (numfree s + 1) h) (remove1 p held) dead miss).
  { apply (minv_change num s held dead miss (remove1 p held) dead p n); try done.
    - by destruct bad, n.
    - by destruct bad, n.
    - rewrite Hcp. by destruct bad, n.
    - by destruct bad, n.
    - by left.
    - rewrite <- Hperm. symmetry. apply Permutation_cons_append.
    - exists u, (v ++ [p]). split_and!; [by rewrite app_assoc|done| |].
      + apply Forall_app. split; [done|]. by constructor.
      + rewrite length_app. simpl. lia. }
  destruct (removedp (cleared bad n)) eqn:Hr; [|done].
  (* the fid of a removed vnode leaves the table *)
  destruct Hbase as [H1 H2 H3 H4 H5 H6 H7]. cbn in *. split; cbn; try done.
  - intros q m Hm. destruct (H4 q m Hm) as (Ha & Hb & Hc & He). split_and!; try done.
    destruct (decide (mfid m = mfid n)) as [E|E].
    + right. rewrite E. split_and!; [apply lookup_delete_eq| |by apply (Hrem (Hcr eq_refl))].
      destruct Hc as [Hc|(_ & Hc & _)]; [|done]. rewrite E, Hin in Hc. by injection Hc as <-.
    + rewrite lookup_delete_ne by done. done.
  - intros f q [_ Hq]%lookup_delete_Some. auto.
  - split; [apply H7|]. intros f q [_ Hq]%lookup_delete_Some. by apply (proj2 H7 f q).
Qed.

Lemma mnode_remove_inv num s held dead miss f :
  minv num s held dead miss -> (forall p, htab s !! f = Some p -> p ∈ held) ->
  exists s', mnode_remove f s = Some (s', inr tt) /\ minv num s' held (f :: dead) miss /\
    htab s' = htab s /\
    (forall p n, nodes s !! p = Some n -> exists n', nodes s' !! p = Some n' /\ e n' = e n /\ mfid n' = mfid n).
Proof.
  intros Hi Hh. destruct (htab s !! f) as [p|] eqn:Hf.
  2:{ exists s. split_and!; [by apply mnode_remove_none| |done|by eauto].
      destruct Hi as [H1 H2 H3 H4 H5 H6 H7]. split; try done.
      intros q m Hm. destruct (H4 q m Hm) as (Ha & Hb & Hc & He). split_and!; try done.
      - destruct Hc as [?|(? & ? & ?)]; [by left|right]. split_and!; [done..|].
        by apply list_elem_of_further.
      - intros Hr. destruct (He Hr). split; [done|]. by apply list_elem_of_further. }
  specialize (Hh p eq_refl). destruct (mi_key _ _ _ _ _ Hi f p Hf) as (n & Hpn & Hfid).
  destruct (mi_node _ _ _ _ _ Hi p n Hpn) as (Hli & Href & _ & _).
  pose proof (mi_held _ _ _ _ _ Hi p Hh) as Hpl.
  destruct (lru_split _ _ _ _ _ p Hi Hpl) as (u & v & Hd & Hperm & Hu & Hv & Hnf).
  rewrite decide_True in Hnf by done. pose proof (count_pos p held Hh) as Hpos.
  pose proof (mnode_remove_run f s p n (u ++ v) Hf Hpn Hli ltac:(lia) Hd) as Hrun.
  eexists. split; [exact Hrun|]. split; [|split; [done|]].
  2:{ intros q m Hm. cbn [nodes]. destruct (decide (q = p)) as [->|Hq].
      - rewrite lookup_insert_eq. eexists. split; [reflexivity|]. rewrite Hpn in Hm. injection Hm as <-.
        by destruct n.
      - rewrite lookup_insert_ne by done. by eauto. }
  apply (minv_change num s held dead miss held (f :: dead) p n); try done.
  - by destruct n.
  - by destruct n.
  - by destruct n.
  - intros _. split; [done|]. rewrite Hfid. apply list_elem_of_here.
  - left. by rewrite Hfid.
  - intros g Hg. by apply list_elem_of_further.
  - exists (p :: u), v. split_and!; [done| | |lia].
    + constructor; [done|]. eapply Forall_impl; [exact Hu|]. by intros q [Hq _].
    + eapply Forall_impl; [exact Hv|]. by intros q [Hq _].
Qed.

(** ** Runs

    The steps of the procedures that use the cache: they free what they found,
    remove vnodes they hold a node of, do not look for a vnode that was
    removed, and store into the nodes they hold. *)

Definition same_identity (g : mnode -> mnode) : Prop :=
  forall n, mfid (g n) = mfid n /\ li (g n) = li n /\ ref (g n) = ref n /\ removedp (g n) = removedp n.

Definition missed (f : AFSFid) (s : mstate) : Z :=
  match htab s !! f with Some _ => 0 | None => 1 end.

Inductive reach (num : nat) : mstate -> list Z -> list AFSFid -> Z -> Prop :=
  | reach_init h : reach num (mnode_init num h) [] [zero_fid] 0
  | reach_find s held dead miss fresh f s' p :
      reach num s held dead miss -> f ∉ dead ->
      mnode_find fresh f s = Some (s', inr p) ->
      reach num s' (p :: held) dead (miss + missed f s)
  | reach_free s held dead miss p bad s' :
      reach num s held dead miss -> p ∈ held ->
      mnode_free p bad s = Some (s', inr tt) -> reach num s' (remove1 p held) dead miss
  | reach_remove s held dead miss f s' :
      reach num s held dead miss -> (forall p, htab s !! f = Some p -> p ∈ held) ->
      mnode_remove f s = Some (s', inr tt) -> reach num s' held (f :: dead) miss
  | reach_use s held dead miss p g s' :
      reach num s held dead miss -> p ∈ held -> same_identity g ->
      upd_node p g s = Some (s', inr tt) -> reach num s' held dead miss.

(** All nodes in use: the tail is one of them. *)
Lemma find_exhausted num fresh s held dead miss f :
  (0 < num)%nat -> minv num s held dead miss -> htab s !! f = None ->
  Forall (fun p => p ∈ held) (lru s) -> mnode_find fresh f s = None.
Proof.
  intros Hnum Hi Hf Hall.
  destruct (lru s) as [|p0 l0] eqn:Hl0.
  { pose proof (mi_perm _ _ _ _ _ Hi) as Hp. rewrite Hl0 in Hp.
    apply Permutation_length in Hp. rewrite length_seqZ in Hp. simpl in Hp. lia. }
  assert (Hex : exists l p, lru s = l ++ [p]).
  { rewrite Hl0. destruct (exists_last (l := p0 :: l0)) as (l & p & E); [done|]. eauto. }
  destruct Hex as (l & p & Hl). rewrite <- Hl0, Hl in Hall.
  apply Forall_app in Hall as [_ [Hp _]%Forall_cons].
  assert (Hpl : p ∈ lru s) by (by apply (mi_held _ _ _ _ _ Hi)).
  destruct (proj1 (mi_nodes _ _ _ _ _ Hi p) Hpl) as [n Hpn].
  destruct (mi_node _ _ _ _ _ Hi p n Hpn) as (_ & Href & Hown & _).
  assert (Hin : htab s !! mfid n = Some p) by (by destruct Hown as [?|(_ & ? & _)]).
  pose proof (proj2 (mi_miss _ _ _ _ _ Hi) _ _ Hin) as Hm.
  destruct (mi_order _ _ _ _ _ Hi) as (u & v & _ & _ & _ & Hn).
  unfold mnode_find. rewrite ebind_get, Hf. rewrite (proj2 (Z.eqb_neq _ _)) by lia. cbn [negb].
  apply ebind_none. erewrite ebind_ok.
  2:{ unfold lru_deltail. rewrite ebind_get, Hl, last_snoc, removelast_last. done. }
  unfold eopt at 1. rewrite ebind_ret.
  erewrite ebind_ok; [|by apply node_run]. pose proof (count_pos p held Hp).
  rewrite (proj2 (Z.eqb_neq (ref n) 0)) by lia. done.
Qed.

Lemma all_held_dec (l held : list Z) :
  Forall (fun p => p ∈ held) l \/ exists p, p ∈ l /\ (p ∉ held).
Proof.
  induction l as [|p l [IH|(q & Hq & Hh)]]; [by left| |].
  - destruct (decide (p ∈ held)) as [Hp|Hp]; [left; by constructor|].
    right. exists p. split; [apply list_elem_of_here|done].
  - right. exists q. split; [by apply list_elem_of_further|done].
Qed.

Lemma upd_node_inv num s held dead miss p g s' :
  minv num s held dead miss -> p ∈ held -> same_identity g ->
  upd_node p g s = Some (s', inr tt) -> minv num s' held dead miss.
Proof.
  intros Hi Hp Hg Hs. pose proof (mi_held _ _ _ _ _ Hi p Hp) as Hpl.
  destruct (proj1 (mi_nodes _ _ _ _ _ Hi p) Hpl) as [n Hpn].
  rewrite (upd_node_run p g s n Hpn) in Hs. injection Hs as <-.
  destruct (mi_node _ _ _ _ _ Hi p n Hpn) as (Hli & Href & Hown & Hrem).
  destruct (Hg n) as (Hf & Hl & Hr & Hrm).
  apply (minv_change num s held dead miss held dead p n); try done; try congruence.
  - rewrite Hrm. done.
  - destruct Hown as [?|(_ & ? & ?)]; auto.
  - apply (mi_order _ _ _ _ _ Hi).
Qed.

Lemma reach_minv num s held dead miss :
  (0 < num)%nat -> reach num s held dead miss -> minv num s held dead miss.
Proof.
  intros Hnum. induction 1 as [h|s held dead miss fresh f s' p _ IH Hd Hr|s held dead miss p bad s' _ IH Hp Hr
    |s held dead miss f s' _ IH Hp Hr|s held dead miss p g s' _ IH Hp Hg Hr].
  - apply minv_init.
  - unfold missed. destruct (htab s !! f) as [q|] eqn:Hf.
    + destruct (mi_key _ _ _ _ _ IH f q Hf) as (n & Hn & Hfid).
      destruct (mi_node _ _ _ _ _ IH q n Hn) as (_ & _ & _ & Hrem).
      destruct (removedp n) eqn:Hrn; [destruct (Hrem eq_refl); congruence|].
      destruct (find_hit_inv num fresh s held dead miss f q n IH Hf Hn Hrn) as (s1 & Hr1 & Hi & _).
      rewrite Hr in Hr1. injection Hr1 as <- <-. by rewrite Z.add_0_r.
    + destruct (all_held_dec (lru s) held) as [Hall|Hfree].
      * by rewrite (find_exhausted num fresh s held dead miss f Hnum IH Hf Hall) in Hr.
      * destruct (find_miss_inv num fresh s held dead miss f IH Hf Hd Hfree) as (s1 & q & Hr1 & Hi & _).
        rewrite Hr in Hr1. injection Hr1 as <- <-. done.
  - destruct (mnode_free_inv num s held dead miss p bad IH Hp) as (s1 & n & n' & Hr1 & Hi & _).
    rewrite Hr in Hr1. by injection Hr1 as <-.
  - destruct (mnode_remove_inv num s held dead miss f IH Hp) as (s1 & Hr1 & Hi & _).
    rewrite Hr in Hr1. by injection Hr1 as <-.
  - by apply (upd_node_inv num s held dead miss p g s').
Qed.

(** ** Theorems *)


(** Looking for the fid of a vnode that was not removed: the node that has
    it, with all that is cached in it, or, when there is none, a free node that
    is cleared; when no node is free the assertion on the node at the tail
    fails. *)
Theorem mnode_find_correct num s held dead miss fresh f :
  (0 < num)%nat -> reach num s held dead miss -> f ∉ dead ->
  match htab s !! f with
  | Some p => exists s' n, mnode_find fresh f s = Some (s', inr p) /\
      nodes s !! p = Some n /\ mfid n = f /\ nodes s' = <[p := taken n]> (nodes s)
  | None =>
      if forallb (fun p => existsb (Z.eqb p) held) (lru s) then mnode_find fresh f s = None
      else exists s' p, mnode_find fresh f s = Some (s', inr p) /\ (p ∉ held) /\
             nodes s' = <[p := renewed f]> (nodes s) /\ htab s' !! f = Some p
  end.
Proof.
  intros Hnum Hre Hd. pose proof (reach_minv num s held dead miss Hnum Hre) as Hi.
  destruct (htab s !! f) as [p|] eqn:Hf.
  - destruct (mi_key _ _ _ _ _ Hi f p Hf) as (n & Hn & Hfid).
    destruct (mi_node _ _ _ _ _ Hi p n Hn) as (_ & _ & _ & Hrem).
    destruct (removedp n) eqn:Hrn; [destruct (Hrem eq_refl); congruence|].
    destruct (find_hit_inv num fresh s held dead miss f p n Hi Hf Hn Hrn) as (s' & Hr & _ & Hns & _).
    exists s', n. done.
  - assert (Hb : forall l, forallb (fun p => existsb (Z.eqb p) held) l = true <->
      Forall (fun p => p ∈ held) l).
    { intros l. rewrite forallb_forall, Forall_forall. split; intros H p Hp.
      - apply list_elem_of_In, H, existsb_exists in Hp as (q & Hq & E). zbool. subst.
        by apply list_elem_of_In.
      - apply existsb_exists. exists p. split; [|apply Z.eqb_refl].
        by apply list_elem_of_In, H, list_elem_of_In. }
    destruct (forallb _ (lru s)) eqn:E.
    + apply (find_exhausted num fresh s held dead miss f Hnum Hi Hf). by apply Hb.
    + destruct (all_held_dec (lru s) held) as [Hall|Hfree].
      * apply Hb in Hall. congruence.
      * destruct (find_miss_inv num fresh s held dead miss f Hi Hf Hd Hfree)
          as (s' & p & Hr & _ & Hp & Hn & Ht). eauto 10.
Qed.

(** ** Concrete runs *)

Module Witnesses.

Definition no_host : hostfs := Host ∅ ∅ ∅ ∅ [].
Definition fid_a : AFSFid := Build_AFSFid 7 2 1.
Definition fid_b : AFSFid := Build_AFSFid 7 4 1.
Definition fid_c : AFSFid := Build_AFSFid 7 6 1.
Definition memory : Z * mnode := (99, zero_mnode).

Definition s0 : mstate := mnode_init 1 no_host.
Definition s1 : mstate :=
  match mnode_find memory fid_a s0 with Some (s, _) => s | None => s0 end.

Lemma s1_reach : reach 1 s1 [1] [zero_fid] 1.
Proof.
  apply (reach_find 1 s0 [] [zero_fid] 0 memory fid_a s1 1 (reach_init 1 no_host)).
  - intros [?|?%elem_of_nil]%elem_of_cons; done.
  - by vm_compute.
Qed.


(** The only node is in use: another fid finds none, and the process ends. *)
Lemma mnode_find_correct_witness : mnode_find memory fid_b s1 = None.
Proof.
  refine (mnode_find_correct 1 s1 [1] [zero_fid] 1 memory fid_b _ s1_reach _); [lia|].
  intros [?|?%elem_of_nil]%elem_of_cons; done.
Defined.

(** A vnode that was removed is looked for again, by a client with an old fid:
    the node that was its first one still has the fid, and when that node is
    taken for another vnode the entry of the second one leaves the table.  The
    next search gives the vnode two nodes in use. *)
Definition stale_run : MM ((Z * AFSFid * Z) * (Z * AFSFid * Z)) :=
  a <-- mnode_find memory fid_a ;;
  b <-- mnode_find memory fid_b ;;
  mnode_remove fid_a ;;!
  mnode_free a false ;;!
  mnode_free b false ;;!
  a2 <-- mnode_find memory fid_a ;;
  mnode_find memory fid_c ;;!
  a3 <-- mnode_find memory fid_a ;;
  n2 <-- node a2 ;;
  n3 <-- node a3 ;;
  eret ((a2, mfid n2, ref n2), (a3, mfid n3, ref n3)).

Lemma mnode_two_nodes :
  match stale_run (mnode_init 3 no_host) with
  | Some (_, r) => r = inr ((2, fid_a, 1), (3, fid_a, 1))
  | None => False
  end.
Proof. by vm_compute. Qed.

End Witnesses.
