(* ===== verification/Vinfo.v ===== *)
(** * The info file of a volume and its quota

    milko/lib/voldb/vol.c keeps the [volintInfo] of a volume in a host file
    ([vol_create], [vol_read_header], [vol_write_header], and the name of the
    volume's own file); the functions of milko/lib/vld/vld.c over it hold a
    copy in the volume handle, which is read once and written back, and guard
    the size of the volume by its quota. *)

From S2P Require Import Prelude Estate Buf Voldb Svol.

Local Open Scope em_scope.

Definition VNAMESIZE : nat := 32.
Definition VOVERQUOTA : Z := 109.
Definition VOLSER_MAXVOLNAME : Z := 65.
Definition AFS_SETMAXQUOTA : Z := 2.

(** [struct volintInfo] *)
Record volintInfo := VolInfo {
  vi_name : bytes; vi_volid : Z; vi_type : Z; backupID : Z; parentID : Z; cloneID : Z;
  vi_status : Z; copyDate : Z; inUse : Z; needsSalvaged : Z; destroyMe : Z;
  creationDate : Z; accessDate : Z; updateDate : Z; backupDate : Z; dayUse : Z;
  filecount : Z; maxquota : Z; vi_size : Z; vi_flags : Z;
  spare0 : Z; spare1 : Z; spare2 : Z; spare3 : Z
}.

Definition set_vi_size (v : Z) (i : volintInfo) : volintInfo :=
  let 'VolInfo a b c d f g h j k l m n o p q r s t _ w x y z aa := i in
  VolInfo a b c d f g h j k l m n o p q r s t v w x y z aa.
Definition set_maxquota (v : Z) (i : volintInfo) : volintInfo :=
  let 'VolInfo a b c d f g h j k l m n o p q r s _ u w x y z aa := i in
  VolInfo a b c d f g h j k l m n o p q r s v u w x y z aa.

(** The generated coder of the structure, and its size in the file. *)
Class InfoCoder := {
  VOLINTINFO_SIZE : Z;
  ydr_encode_volintInfo : volintInfo -> option bytes;
  ydr_decode_volintInfo : bytes -> option volintInfo
}.

Definition info_wf (i : volintInfo) : Prop :=
  is_cstr (vi_name i) /\ (length (vi_name i) < VNAMESIZE)%nat /\
  Forall is_int32 [vi_volid i; vi_type i; backupID i; parentID i; cloneID i; vi_status i;
    copyDate i; creationDate i; accessDate i; updateDate i; backupDate i; dayUse i;
    filecount i; maxquota i; vi_size i; vi_flags i; spare0 i; spare1 i; spare2 i; spare3 i] /\
  Forall (fun c => -128 <= c < 128) [inUse i; needsSalvaged i; destroyMe i].

(** What the code relies on: encoding fills the file's size, and decoding
    gives back what was encoded. *)
Class InfoCoderOk `{InfoCoder} : Prop := {
  info_size_pos : 0 < VOLINTINFO_SIZE;
  info_encode_ok i : info_wf i ->
    exists b, ydr_encode_volintInfo i = Some b /\ blen b = VOLINTINFO_SIZE /\
      ydr_decode_volintInfo b = Some i
}.

(** ** Files by descriptor *)

(** [read] and [write] of a whole buffer from the start of the file: the bytes
    or a negative result. *)
Definition EBADF : Z := 9.
Definition hread (fd n : Z) : HM (Z + bytes) :=
  r <-- hsys ;;
  if negb (r =? 0) then eret (inl r) else
  s <-- eget ;;
  match hfds s !! fd with
  | None => eret (inl EBADF)
  | Some i => eret (inr (take (Z.to_nat n) (default [] (hfiles s !! i))))
  end.
Definition hwrite (fd : Z) (b : bytes) : HM Z :=
  r <-- hsys ;;
  if negb (r =? 0) then eret r else
  s <-- eget ;;
  match hfds s !! fd with
  | None => eret EBADF
  | Some i =>
      let c := default [] (hfiles s !! i) in
      emod (fun s => Host (hdirs s) (hnames s) (<[i := b ++ drop (length b) c]> (hfiles s))
                       (hfds s) (hos s)) ;;!
      eret 0
  end.

(** ** vol.c *)

Section Vol.
Context `{InfoCoder} `{HostChoice}.

(** Decimal digits; [%08u] pads them to 8. *)
Fixpoint digits (fuel : nat) (n : Z) : bytes :=
  match fuel with
  | O => []
  | S fuel => if n <? 10 then [48 + n] else digits fuel (n / 10) ++ [48 + n mod 10]
  end.
Definition pad8 (d : bytes) : bytes := replicate (8 - length d) 48 ++ d.
Definition vol_text (num : Z) : bytes := [118; 111; 108] ++ pad8 (digits 10 (uwrap32 num)).

Definition vol_getname (num sz : Z) : Z + bytes :=
  let s := vol_text num in
  if sz <=? blen s then inl ENOMEM else inr s.

(** [root] is [dpart_root]. *)
Definition vol_getfullname (root : bytes) (part num sz : Z) : Z + bytes :=
  match vol_getname num VOLSER_MAXVOLNAME with
  | inl e => inl e
  | inr volname =>
      let part := uwrap32 part in
      if part <=? 25 then
        let s := root ++ [47; 118; 105; 99; 101; 112; 97 + part; 47] ++ volname in
        if sz <=? blen s then inl ENOMEM else inr s
      else inl EINVAL
  end.

(** The result of a failing [read] is -1, and that is what is returned. *)
Definition vol_read_header (fd : Z) : HM volintInfo :=
  r <-- hfstat fd ;;
  match r with
  | inl e => efail e
  | inr (_, st_size) =>
      if negb (st_size =? VOLINTINFO_SIZE) then efail EINVAL else
      r <-- hsys ;;                                       (* lseek *)
      if negb (r =? 0) then efail r else
      r <-- hread fd VOLINTINFO_SIZE ;;
      match r with
      | inl _ => efail (-1)
      | inr [] => eabort                                  (* 0, with [info] unset *)
      | inr buf => eopt (ydr_decode_volintInfo buf)
      end
  end.

Definition vol_write_header (fd : Z) (info : volintInfo) : HM unit :=
  r <-- hsys ;;                                           (* lseek *)
  if negb (r =? 0) then efail r else
  b <-- eopt (ydr_encode_volintInfo info) ;;
  r <-- hwrite fd b ;;
  if negb (r =? 0) then efail r else eret tt.

(** [now] is the second [gettimeofday] gives. *)
Definition new_info (num : Z) (name : bytes) (type parent now : Z) : volintInfo :=
  let t := swrap32 now in
  VolInfo (strlcpy VNAMESIZE name) (swrap32 num) (swrap32 type) 0 (swrap32 parent) 0 0 0 1 0 99
    t t t t 0 1 5000 0 0 0 0 0 0.
Definition vol_create (now fd num : Z) (name : bytes) (type parent : Z) : HM unit := fun s =>
  match vol_write_header fd (new_info num name type parent now) s with
  | Some (s, r) =>
      match hclose fd s with
      | Some (s, _) => Some (s, r)
      | None => None
      end
  | None => None
  end.

(** ** The handle *)

(** The part of [volume_handle] these functions use, and the host. *)
Record vinfo := Vinfo {
  infop : bool; info : volintInfo; sino : onode_opaque; vpart : bytes; vhost : hostfs
}.
Definition set_info (i : volintInfo) (s : vinfo) : vinfo :=
  Vinfo (infop s) i (sino s) (vpart s) (vhost s).
Definition set_infop (b : bool) (s : vinfo) : vinfo :=
  Vinfo b (info s) (sino s) (vpart s) (vhost s).
Definition set_vhost (h : hostfs) (s : vinfo) : vinfo :=
  Vinfo (infop s) (info s) (sino s) (vpart s) h.

Definition IM : Type -> Type := EM vinfo.
Definition ihost {A} (m : HM A) : IM A := elift vhost set_vhost m.

(** [iopen] is that of the volume's type, [close] follows whatever the file
    operation answers. *)
Definition with_sino {A} (op : Z -> HM A) : IM A :=
  s <-- eget ;;
  fd <-- ihost (svol_iopen (vpart s) (sino s)) ;;
  r <-- etry (ihost (op fd)) ;;
  ihost (hclose fd) ;;!
  match r with inl e => efail e | inr a => eret a end.

Definition vld_info_uptodatep : IM unit :=
  s <-- eget ;;
  if infop s then eret tt else
  i <-- with_sino vol_read_header ;;
  emod (set_info i) ;;! emod (set_infop true).

Definition vld_info_write : IM unit :=
  s <-- eget ;; with_sino (fun fd => vol_write_header fd (info s)).

Definition over_quota (i : volintInfo) (diff : Z) : bool :=
  maxquota i <? swrap32 (vi_size i + diff).

Definition vld_check_quota (diff : Z) : IM unit :=
  vld_info_uptodatep ;;!
  s <-- eget ;;
  if over_quota (info s) diff then efail VOVERQUOTA else eret tt.

Definition vld_update_volsize (diff : Z) : IM unit :=
  vld_info_uptodatep ;;!
  s <-- eget ;;
  if over_quota (info s) diff then efail VOVERQUOTA else
  let sz := swrap32 (vi_size (info s) + diff) in
  emod (fun s => set_info (set_vi_size sz (info s)) s) ;;!
  eassert (0 <=? sz) ;;!
  vld_info_write.

(** [struct AFSFetchVolumeStatus], with the name; the two messages are set to
    the empty string. *)
Record AFSFetchVolumeStatus := VolStatus {
  Vid : Z; ParentId : Z; Online : Z; InService : Z; Blessed : Z; NeedsSalvage : Z;
  vs_Type : Z; MinQuota : Z; MaxQuota : Z; BlocksInUse : Z;
  PartBlocksAvail : Z; PartMaxBlocks : Z
}.

(** [vol], [type] and [offlinep] are fields of the handle; [stats] is the
    answer of [dp_getstats]. *)
Definition vld_get_volstats (vol vtype : Z) (offlinep : bool) (stats : Z + Z * Z)
    : IM (AFSFetchVolumeStatus * bytes) :=
  vld_info_uptodatep ;;!
  match stats with
  | inl e => efail e
  | inr (availblocks, totalblocks) =>
      s <-- eget ;;
      let i := info s in
      eret (VolStatus (swrap32 vol) (parentID i) (if offlinep then 0 else 1) (inUse i) (inUse i)
              (needsSalvaged i) vtype 0 (maxquota i) (vi_size i)
              (swrap32 availblocks) (swrap32 totalblocks),
            strlcpy VNAMESIZE (vi_name i))
  end.

(** The info is not written back. *)
Definition vld_set_volstats (mask maxq : Z) : IM unit :=
  vld_info_uptodatep ;;!
  if Z.land mask AFS_SETMAXQUOTA =? AFS_SETMAXQUOTA
  then emod (fun s => set_info (set_maxquota maxq (info s)) s)
  else eret tt.

End Vol.
