(* ===== verification/VinfoCorrect.v ===== *)
(** * Correctness of the info file and the quota

    The info of a volume is on disk what was written last; a change of the
    volume's size is refused, aborts or is durable, and keeps the size between
    0 and the quota. *)

From S2P Require Import Prelude Estate Buf Voldb Svol SvolCorrect Vinfo.

Local Open Scope em_scope.

Section Vinfo.
Context `{InfoCoderOk} `{HostChoice}.

(** ** What is in the file *)

(** The info in the file of the opaque name [o]. *)
Definition disk_info (part : bytes) (o : onode_opaque) (h : hostfs) : option volintInfo :=
  r ← local_opaque2ino o;
  match r with
  | inl _ => None
  | inr (ino, _) =>
      match local_create_name part ino with
      | inl _ => None
      | inr name =>
          i ← hnames h !! name;
          c ← hfiles h !! i;
          if blen c =? VOLINTINFO_SIZE then ydr_decode_volintInfo c else None
      end
  end.

(** The file of the info is that of a volume: of the right size. *)
Definition info_file_ok (part : bytes) (o : onode_opaque) (h : hostfs) : Prop :=
  forall ino o' name i, local_opaque2ino o = Some (inr (ino, o')) ->
    local_create_name part ino = inr name -> hnames h !! name = Some i ->
    blen (default [] (hfiles h !! i)) = VOLINTINFO_SIZE.

Lemma hopen_inv p s s' r :
  hopen p s = Some (s', inr r) ->
  hnames s' = hnames s /\ hfiles s' = hfiles s /\ hdirs s' = hdirs s /\
  match r with
  | inr fd => exists i, hnames s !! p = Some i /\ hfds s' !! fd = Some i
  | inl _ => True
  end.
Proof.
  unfold hopen. rewrite (ebind_ok _ _ _ _ _ (hsys_run s)).
  destruct (negb (hd 0 (hos s) =? 0)); [intros [= <- <-]; done|].
  rewrite ebind_get. simpl. destruct (hnames s !! p) as [i|] eqn:Hp; [|intros [= <- <-]; done].
  intros [= <- <-]. split_and!; try done. exists i. split; [done|apply lookup_insert_eq].
Qed.

(** Opening an info file: an error, or a descriptor of its inode. *)
Lemma svol_iopen_inv part o s s' r :
  svol_iopen part o s = Some (s', r) ->
  hnames s' = hnames s /\ hfiles s' = hfiles s /\ hdirs s' = hdirs s /\
  match r with
  | inr fd => exists ino o' name i, local_opaque2ino o = Some (inr (ino, o')) /\
      local_create_name part ino = inr name /\ hnames s !! name = Some i /\ hfds s' !! fd = Some i
  | inl _ => True
  end.
Proof.
  unfold svol_iopen, local_open_file.
  destruct (local_opaque2ino o) as [[e|[ino o']]|]; unfold eopt.
  - rewrite ebind_ret. by intros [= <- <-].
  - rewrite ebind_ret. destruct (local_create_name part ino) as [e|name] eqn:Hn.
    + by intros [= <- <-].
    + intros [(e & -> & He)|(x & s1 & Hx & Hk)]%ebind_inv.
      * unfold hopen in He. exfalso. revert He. rewrite (ebind_ok _ _ _ _ _ (hsys_run s)).
        destruct (negb _); [done|]. rewrite ebind_get. by case_match.
      * pose proof (hopen_inv _ _ _ _ Hx) as (Hx1 & Hx2 & Hx3 & Hx4). destruct x as [e|fd].
        -- injection Hk as <- <-. done.
        -- injection Hk as <- <-. split_and!; try done. destruct Hx4 as (i & ? & ?). eauto 10.
  - done.
Qed.

Lemma hwrite_run fd b s i c :
  hfds s !! fd = Some i -> hfiles s !! i = c -> length b = length (default [] c) ->
  exists s' r, hwrite fd b s = Some (s', inr r) /\ hnames s' = hnames s /\ hfds s' = hfds s /\
    (r = 0 -> hfiles s' = <[i := b]> (hfiles s)) /\ (r <> 0 -> hfiles s' = hfiles s).
Proof.
  intros Hfd Hc Hl. unfold hwrite. rewrite (ebind_ok _ _ _ _ _ (hsys_run s)).
  destruct (Z.eqb_spec (hd 0 (hos s)) 0) as [E|E]; cbn [negb].
  - rewrite ebind_get. cbn [next hfds hfiles]. rewrite Hfd, Hc. eexists _, 0. split; [reflexivity|].
    split_and!; try done. intros _. cbn. by rewrite drop_ge, app_nil_r by lia.
  - by eexists _, _.
Qed.

(** Writing the info through a descriptor. *)
Lemma write_header_run fd i s ino :
  info_wf i -> hfds s !! fd = Some ino ->
  blen (default [] (hfiles s !! ino)) = VOLINTINFO_SIZE ->
  exists b s' r, ydr_encode_volintInfo i = Some b /\ blen b = VOLINTINFO_SIZE /\
    ydr_decode_volintInfo b = Some i /\
    vol_write_header fd i s = Some (s', r) /\ hnames s' = hnames s /\ hfds s' = hfds s /\
    match r with
    | inr _ => hfiles s' = <[ino := b]> (hfiles s)
    | inl _ => hfiles s' = hfiles s
    end.
Proof.
  intros Hi Hfd Hl. destruct (info_encode_ok i Hi) as (b & Hb & Hlen & Hdec).
  unfold vol_write_header. rewrite (ebind_ok _ _ _ _ _ (hsys_run s)).
  destruct (negb (hd 0 (hos s) =? 0)).
  { exists b, (next s), (inl (hd 0 (hos s))). done. }
  rewrite Hb. unfold eopt. rewrite ebind_ret.
  destruct (hwrite_run fd b (next s) ino (hfiles s !! ino)) as (s' & r & Hr & Hn & Hf & Hx0 & Hx1);
    [done..|unfold blen in *; lia|].
  rewrite (ebind_ok _ _ _ _ _ Hr). destruct (Z.eqb_spec r 0) as [E|E]; cbn [negb].
  - exists b, s', (inr tt). rewrite (Hx0 E). done.
  - exists b, s', (inl r). rewrite (Hx1 E). done.
Qed.

(** ** The handle *)

Record vinfo_ok (s : vinfo) : Prop := {
  vo_wf : info_wf (info s);
  vo_sino : exists ino o', local_opaque2ino (sino s) = Some (inr (ino, o'));
  vo_file : info_file_ok (vpart s) (sino s) (vhost s)
}.

Definition on_disk (s : vinfo) : option volintInfo := disk_info (vpart s) (sino s) (vhost s).

Lemma disk_info_ext part o h h' :
  hnames h = hnames h' -> hfiles h = hfiles h' -> disk_info part o h = disk_info part o h'.
Proof. unfold disk_info. by intros -> ->. Qed.

Lemma info_file_ok_ext part o h h' :
  hnames h = hnames h' -> hfiles h = hfiles h' ->
  info_file_ok part o h -> info_file_ok part o h'.
Proof. unfold info_file_ok. by intros -> ->. Qed.

Lemma hopen_some p s : exists s' r, hopen p s = Some (s', inr r).
Proof.
  unfold hopen. rewrite (ebind_ok _ _ _ _ _ (hsys_run s)).
  destruct (negb (hd 0 (hos s) =? 0)); [by eexists _, _|]. rewrite ebind_get.
  destruct (hnames (next s) !! p); by eexists _, _.
Qed.

Lemma svol_iopen_some part o s ino o' :
  local_opaque2ino o = Some (inr (ino, o')) -> exists s' r, svol_iopen part o s = Some (s', r).
Proof.
  intros Ho. unfold svol_iopen, local_open_file. rewrite Ho. unfold eopt. rewrite ebind_ret.
  destruct (local_create_name part ino) as [e|name]; [by eexists _, _|].
  destruct (hopen_some name s) as (s' & r & Hr). rewrite (ebind_ok _ _ _ _ _ Hr).
  destruct r; by eexists _, _.
Qed.

(** Writing back: the disk has the info of the handle, or what it had. *)
Lemma info_write_run s :
  vinfo_ok s ->
  exists h r, vld_info_write s = Some (set_vhost h s, r) /\ hnames h = hnames (vhost s) /\
    info_file_ok (vpart s) (sino s) h /\
    disk_info (vpart s) (sino s) h = match r with inr _ => Some (info s) | inl _ => on_disk s end.
Proof.
  intros [Hwf (ino & o' & Ho) Hfile]. unfold vld_info_write, with_sino.
  rewrite !ebind_get. unfold ihost.
  destruct (svol_iopen_some (vpart s) (sino s) (vhost s) ino o' Ho) as (h1 & r1 & Hr1).
  pose proof (svol_iopen_inv _ _ _ _ _ Hr1) as (E1 & E2 & E3 & E4).
  unfold ebind at 1. rewrite (elift_run vhost set_vhost _ _ _ _ Hr1). destruct r1 as [e|fd].
  { exists h1, (inl e). split_and!; [done|done| |].
    - by apply (info_file_ok_ext _ _ (vhost s)).
    - symmetry. by apply disk_info_ext. }
  destruct E4 as (ino' & o'' & name & i & Ho2 & Hname & Hni & Hfd).
  pose proof (Hfile ino' o'' name i Ho2 Hname Hni) as Hlen. rewrite <- E2 in Hlen.
  destruct (write_header_run fd (info s) h1 i Hwf Hfd Hlen)
    as (b & h2 & r2 & Hb & Hbl & Hdec & Hr2 & En & Ef & Eh).
  set (h3 := Host (hdirs h2) (hnames h2) (hfiles h2) (delete fd (hfds h2)) (hos h2)).
  exists h3, r2. split.
  { unfold etry, ebind. rewrite (elift_run vhost set_vhost _ (set_vhost h1 s) h2 r2 Hr2).
    rewrite (elift_run vhost set_vhost _ (set_vhost h2 (set_vhost h1 s)) h3 (inr tt) eq_refl).
    by destruct r2 as [e|[]]. }
  assert (Enm : hnames h3 = hnames (vhost s)) by (simpl; congruence). split; [done|].
  destruct r2 as [e|[]].
  - split; [|symmetry; apply disk_info_ext; simpl; congruence].
    apply (info_file_ok_ext _ _ (vhost s)); simpl; congruence.
  - split.
    + intros j jo nm k Hj Hn Hk. rewrite Enm in Hk. rewrite Ho2 in Hj. injection Hj as <- <-.
      rewrite Hname in Hn. injection Hn as <-. rewrite Hni in Hk. injection Hk as <-.
      simpl. rewrite Eh, lookup_insert_eq. done.
    + unfold disk_info. rewrite Ho2. simpl. rewrite Hname, En, E1, Hni, Eh. simpl.
      rewrite lookup_insert_eq. simpl. by rewrite Hbl, Z.eqb_refl.
Qed.

Lemma uptodate_cached s : infop s = true -> vld_info_uptodatep s = Some (s, inr tt).
Proof. intros Hi. unfold vld_info_uptodatep. by rewrite ebind_get, Hi. Qed.

(** ** Theorems *)

Lemma info_wf_size i v : info_wf i -> is_int32 v -> info_wf (set_vi_size v i).
Proof.
  destruct i. intros (H1' & H2' & H3' & H4') Hv. split_and!; try done. simpl in *.
  rewrite !Forall_cons in *. tauto.
Qed.

(** C24: Changing the size of a volume whose info has been read: when the
    new size would be over the quota the change is refused, growth or not;
    when it would be negative the process ends; otherwise the handle has the
    new size, between 0 and the quota, and if the write succeeds the info file
    has the whole info of the handle, else it has what it had before. *)
Theorem vld_update_volsize_correct s diff :
  vinfo_ok s -> infop s = true -> is_int32 (vi_size (info s) + diff) ->
  let sz := vi_size (info s) + diff in
  let s1 := set_info (set_vi_size sz (info s)) s in
  if maxquota (info s) <? sz then vld_update_volsize diff s = Some (s, inl VOVERQUOTA)
  else if sz <? 0 then vld_update_volsize diff s = None
  else exists h r, vld_update_volsize diff s = Some (set_vhost h s1, r) /\
         0 <= vi_size (info s1) <= maxquota (info s1) /\ vinfo_ok (set_vhost h s1) /\
         on_disk (set_vhost h s1) = match r with inr _ => Some (info s1) | inl _ => on_disk s end.
Proof.
  intros Hok Hinfo Hrange. cbv zeta. set (sz := vi_size (info s) + diff) in *.
  unfold vld_update_volsize. rewrite (ebind_ok _ _ _ _ _ (uptodate_cached s Hinfo)), ebind_get.
  unfold over_quota. fold sz. rewrite swrap32_small by done.
  destruct (maxquota (info s) <? sz) eqn:Hq; [done|]. rewrite ebind_mod.
  rewrite (Z.leb_antisym sz 0). destruct (sz <? 0) eqn:Hneg; cbn [negb eassert]; [done|].
  rewrite ebind_ret. set (s1 := set_info (set_vi_size sz (info s)) s).
  assert (Hok1 : vinfo_ok s1).
  { destruct Hok as [Hwf Hs Hf]. split; [|done|done]. by apply info_wf_size. }
  destruct (info_write_run s1 Hok1) as (h & r & Hr & Hn & Hf & Hd).
  change (set_info (set_vi_size sz (info s)) s) with s1. exists h, r. split; [exact Hr|].
  zbool. split_and!; [| |destruct Hok1 as [Hwf Hs _]; by split|exact Hd];
    unfold s1; simpl; destruct (info s); simpl in *; lia.
Qed.

(** Reading through a descriptor. *)
Lemma hfstat_ok fd h ino c :
  hos h = [] -> hfds h !! fd = Some ino -> hfiles h !! ino = Some c ->
  hfstat fd h = Some (h, inr (inr (ino, blen c))).
Proof.
  intros Ho Hfd Hc. unfold hfstat. rewrite (ebind_ok _ _ _ _ _ (hsys_ok h Ho)). cbn [Z.eqb negb].
  by rewrite ebind_get, Hfd, Hc.
Qed.

Lemma hread_ok fd h ino c n :
  hos h = [] -> hfds h !! fd = Some ino -> hfiles h !! ino = Some c -> blen c = n ->
  hread fd n h = Some (h, inr (inr c)).
Proof.
  intros Ho Hfd Hc <-. unfold hread. rewrite (ebind_ok _ _ _ _ _ (hsys_ok h Ho)). cbn [Z.eqb negb].
  rewrite ebind_get, Hfd, Hc. change (default [] (Some c)) with c.
  by rewrite take_ge by (unfold blen; lia).
Qed.

Lemma read_header_run fd h ino c i :
  hos h = [] -> hfds h !! fd = Some ino -> hfiles h !! ino = Some c ->
  blen c = VOLINTINFO_SIZE -> ydr_decode_volintInfo c = Some i ->
  vol_read_header fd h = Some (h, inr i).
Proof.
  intros Ho Hfd Hc Hl Hd. pose proof info_size_pos as Hpos. unfold vol_read_header.
  rewrite (ebind_ok _ _ _ _ _ (hfstat_ok fd h ino c Ho Hfd Hc)).
  rewrite Hl, Z.eqb_refl. cbn [negb]. rewrite (ebind_ok _ _ _ _ _ (hsys_ok h Ho)). cbn [Z.eqb negb].
  rewrite (ebind_ok _ _ _ _ _ (hread_ok fd h ino c _ Ho Hfd Hc Hl)).
  destruct c as [|x c]; [unfold blen in Hl; simpl in Hl; lia|]. unfold eopt. by rewrite Hd.
Qed.

(** The info that was written is what the next handle of the volume
    reads, when the host reports no error. *)
Theorem vld_info_round_trip s s1 junk :
  vinfo_ok s -> vld_info_write s = Some (s1, inr tt) ->
  exists s2, vld_info_uptodatep
    (Vinfo false junk (sino s) (vpart s) (with_os [] (vhost s1))) = Some (s2, inr tt) /\
    info s2 = info s /\ infop s2 = true.
Proof.
  intros Hok Hw. destruct (info_write_run s Hok) as (h & r & Hr & Hn & _ & Hd).
  rewrite Hw in Hr. injection Hr as -> <-. cbn [vhost set_vhost].
  unfold disk_info in Hd.
  destruct (local_opaque2ino (sino s)) as [[e|[ino o']]|] eqn:Ho; [discriminate Hd| |discriminate Hd].
  cbn in Hd. destruct (local_create_name (vpart s) ino) as [e|name] eqn:Hname; [discriminate Hd|].
  destruct (hnames h !! name) as [j|] eqn:Hj; [|discriminate Hd]. cbn in Hd.
  destruct (hfiles h !! j) as [c|] eqn:Hc; [|discriminate Hd]. cbn in Hd.
  destruct (Z.eqb_spec (blen c) VOLINTINFO_SIZE) as [Hl|]; [|discriminate Hd].
  destruct (hopen_ok (with_os [] h) name j eq_refl Hj) as (h1 & fd & Hop & Hfd & Hf1 & Hn1).
  assert (Hio : svol_iopen (vpart s) (sino s) (with_os [] h) = Some (h1, inr fd)).
  { unfold svol_iopen, local_open_file. rewrite Ho. unfold eopt. rewrite ebind_ret, Hname.
    by rewrite (ebind_ok _ _ _ _ _ Hop). }
  assert (Ho1 : hos h1 = []).
  { revert Hop. unfold hopen. rewrite (ebind_ok _ _ _ _ _ (hsys_ok (with_os [] h) eq_refl)).
    cbn [Z.eqb negb]. rewrite ebind_get. change (hnames (with_os [] h)) with (hnames h). rewrite Hj.
    by intros [= <- _]. }
  assert (Hc1 : hfiles h1 !! j = Some c) by (rewrite Hf1; exact Hc).
  pose proof (read_header_run fd h1 j c (info s) Ho1 Hfd Hc1 Hl Hd) as Hrd.
  set (s0 := Vinfo false junk (sino s) (vpart s) (with_os [] h)).
  unfold vld_info_uptodatep. rewrite ebind_get. cbn [s0 infop].
  unfold with_sino. unfold ebind at 1. rewrite ebind_get. unfold ihost.
  rewrite (ebind_ok _ _ _ _ _ (elift_run vhost set_vhost _ s0 _ _ Hio)).
  unfold etry at 1. unfold ebind at 1.
  rewrite (elift_run vhost set_vhost _ (set_vhost h1 s0) h1 (inr (info s)) Hrd).
  unfold ebind at 1. rewrite (elift_run vhost set_vhost _ _ _ (inr tt) eq_refl).
  eexists. split; [reflexivity|]. done.
Qed.

(** A check of the quota answers VOVERQUOTA exactly when the size plus
    what is asked for is over the quota, and changes nothing. *)
Theorem vld_check_quota_correct s diff :
  infop s = true -> is_int32 (vi_size (info s) + diff) ->
  vld_check_quota diff s =
    Some (s, if maxquota (info s) <? vi_size (info s) + diff then inl VOVERQUOTA else inr tt).
Proof.
  intros Hi Hr. unfold vld_check_quota.
  rewrite (ebind_ok _ _ _ _ _ (uptodate_cached s Hi)), ebind_get. unfold over_quota.
  rewrite swrap32_small by done. by case_match.
Qed.

(** Setting a quota changes the handle and not the info file. *)
Theorem vld_set_volstats_not_stored s maxq :
  infop s = true ->
  exists s', vld_set_volstats AFS_SETMAXQUOTA maxq s = Some (s', inr tt) /\
    maxquota (info s') = maxq /\ on_disk s' = on_disk s.
Proof.
  intros Hi. unfold vld_set_volstats. rewrite (ebind_ok _ _ _ _ _ (uptodate_cached s Hi)).
  eexists. split; [reflexivity|]. split; [by destruct s as [? []]|done].
Qed.

End Vinfo.

(** ** A concrete coder *)

Module Witnesses.
Import SvolCorrect.Witnesses.
#[local] Existing Instance demo_host.
#[local] Existing Instance demo_host_ok.

Fixpoint dec_words (n : nat) (b : bytes) : list Z :=
  match n with
  | O => []
  | S n => swrap32 (of_be (take 4 b)) :: dec_words n (drop 4 b)
  end.
Fixpoint cut_name (b : bytes) : bytes :=
  match b with
  | [] => []
  | c :: b => if c =? 0 then [] else c :: cut_name b
  end.
Definition words (i : volintInfo) : list Z :=
  [vi_volid i; vi_type i; backupID i; parentID i; cloneID i; vi_status i;
   copyDate i; creationDate i; accessDate i; updateDate i; backupDate i; dayUse i;
   filecount i; maxquota i; vi_size i; vi_flags i; spare0 i; spare1 i; spare2 i; spare3 i;
   inUse i; needsSalvaged i; destroyMe i].

(** The name in 32 bytes, then 23 words. *)
#[local] Instance word_info : InfoCoder := {
  VOLINTINFO_SIZE := 124;
  ydr_encode_volintInfo i :=
    Some (vi_name i ++ replicate (32 - length (vi_name i)) 0 ++ flat_map be32 (words i));
  ydr_decode_volintInfo b :=
    match dec_words 23 (drop 32 b) with
    | [a1; a2; a3; a4; a5; a6; a7; a8; a9; a10; a11; a12; a13; a14; a15; a16; a17; a18; a19;
       a20; c1; c2; c3] =>
        Some (VolInfo (cut_name (take 32 b)) a1 a2 a3 a4 a5 a6 a7 c1 c2 c3 a8 a9 a10 a11 a12
                a13 a14 a15 a16 a17 a18 a19 a20)
    | _ => None
    end
}.

Lemma dec_words_enc ws : Forall is_int32 ws -> dec_words (length ws) (flat_map be32 ws) = ws.
Proof.
  induction ws as [|w ws IH]; intros Hw; [done|]. apply Forall_cons in Hw as [Hw Hws].
  change (flat_map be32 (w :: ws)) with (be32 w ++ flat_map be32 ws). cbn [length dec_words].
  rewrite take_app_length' by (by rewrite length_be32).
  rewrite drop_app_length' by (by rewrite length_be32).
  rewrite of_be_be32, swrap32_uwrap32, swrap32_small, IH by done. done.
Qed.

Lemma cut_name_pad n k : is_cstr n -> cut_name (n ++ replicate k 0) = n.
Proof.
  induction n as [|c n IH]; intros Hn; simpl.
  - destruct k; [done|]. done.
  - apply Forall_cons in Hn as [Hc Hn]. destruct (Z.eqb_spec c 0); [lia|]. by rewrite IH.
Qed.

#[local] Instance word_info_ok : InfoCoderOk.
Proof.
  split; [done|]. intros i (Hn & Hl & Hw & Hc). eexists. split; [reflexivity|].
  assert (Hpad : length (vi_name i ++ replicate (32 - length (vi_name i)) 0) = 32%nat).
  { rewrite length_app, length_replicate. unfold VNAMESIZE in Hl. lia. }
  rewrite app_assoc. split.
  - unfold blen. rewrite length_app, Hpad. done.
  - unfold ydr_decode_volintInfo, word_info.
    rewrite drop_app_length', take_app_length' by done.
    assert (Hwords : Forall is_int32 (words i)).
    { assert (Hc' : Forall is_int32 [inUse i; needsSalvaged i; destroyMe i]).
      { eapply Forall_impl; [exact Hc|]. unfold is_int32. intros; lia. }
      change (words i) with ([vi_volid i; vi_type i; backupID i; parentID i; cloneID i; vi_status i;
        copyDate i; creationDate i; accessDate i; updateDate i; backupDate i; dayUse i;
        filecount i; maxquota i; vi_size i; vi_flags i; spare0 i; spare1 i; spare2 i; spare3 i] ++
        [inUse i; needsSalvaged i; destroyMe i]). by apply Forall_app. }
    rewrite (dec_words_enc (words i) Hwords : dec_words 23 _ = _), cut_name_pad by done.
    by destruct i.
Qed.

(** A volume of quota 5000 whose info file is inode 7. *)
Definition opaque7 : onode_opaque :=
  default zero_onode (local_ino2opaque 7 zero_onode).
Definition info7 : volintInfo := new_info 5 [118; 49] 0 0 1000.
Definition name7 : bytes := file_name vicepa 7.
Definition host7 : hostfs :=
  Host {[vicepa]} {[name7 := 7]} {[7 := replicate 124 0]} ∅ [].
Definition handle7 : vinfo := Vinfo true info7 opaque7 vicepa host7.

Lemma handle7_ok : vinfo_ok handle7.
Proof.
  split.
  - split_and!; [by repeat constructor|simpl; unfold VNAMESIZE; lia|by repeat constructor|
      by repeat constructor].
  - exists 7, opaque7. by vm_compute.
  - intros ino o' name i _ _ Hn. change (({[name7 := 7]} : gmap bytes Z) !! name = Some i) in Hn.
    apply lookup_singleton_Some in Hn as [_ <-]. by vm_compute.
Qed.

Lemma vld_update_volsize_correct_witness :
  vld_update_volsize 5001 handle7 = Some (handle7, inl VOVERQUOTA) /\
  exists h, vld_update_volsize 3 handle7 =
    Some (set_vhost h (set_info (set_vi_size 3 info7) handle7), inr tt).
Proof.
  pose proof (vld_update_volsize_correct handle7 5001 handle7_ok eq_refl) as H1.
  pose proof (vld_update_volsize_correct handle7 3 handle7_ok eq_refl) as H2.
  split; [apply H1; vm_compute; split; congruence|].
  destruct H2 as (h & r & Hr & _); [vm_compute; split; congruence|].
  exists h. rewrite Hr. do 2 f_equal.
  assert (Hok : match vld_update_volsize 3 handle7 with Some (_, inr _) => true | _ => false end = true)
    by (vm_compute; reflexivity).
  rewrite Hr in Hok. destruct r as [e|[]]; [discriminate Hok|reflexivity].
Defined.

Lemma vld_check_quota_correct_witness :
  vld_check_quota 5001 handle7 = Some (handle7, inl VOVERQUOTA).
Proof. apply (vld_check_quota_correct handle7 5001); [done|vm_compute; split; congruence]. Defined.

Lemma vld_set_volstats_not_stored_witness :
  exists s', vld_set_volstats AFS_SETMAXQUOTA 9 handle7 = Some (s', inr tt) /\
    maxquota (info s') = 9 /\ on_disk s' = on_disk handle7.
Proof. apply vld_set_volstats_not_stored. done. Defined.

Definition written7 : vinfo :=
  match vld_info_write handle7 with Some (s, _) => s | None => handle7 end.
Lemma vld_info_round_trip_witness :
  exists s2, vld_info_uptodatep
    (Vinfo false (set_vi_size 77 info7) (sino handle7) (vpart handle7) (with_os [] (vhost written7)))
    = Some (s2, inr tt) /\ info s2 = info7 /\ infop s2 = true.
Proof.
  apply (vld_info_round_trip handle7 written7); [apply handle7_ok|]. vm_compute. reflexivity.
Defined.

End Witnesses.
