(* ===== verification/Vld.v ===== *)
(** * The volume layer: operations on the vnodes of a volume

    The functions of milko/lib/vld/vld.c that create, open, check, change and
    remove a vnode.  They are the composition of the mnode cache ([Mnode]),
    the two databases of the volume ([Voldb]), the host files of a simple
    volume ([Svol]), the directories in them ([Mdir]), the info and the quota
    ([Vinfo]) and the rights ([Vrights]); the state is that of one volume
    handle and of the cache.

    A node is known by its address; what the operations of [Mdir] do to a node
    and to its host file is copied from and to the cache's node and the host. *)

From S2P Require Import Prelude Estate Buf Fdir Vnum Mdir Voldb Vrights Svol Mnode Vinfo.

Local Open Scope em_scope.

Definition ENTRY_DISK_SIZE : Z := 1.
Definition DIR_DISK_SIZE : Z := 2.

(** ** State *)

(** The fields of [volume_handle] that are used here; a database is [None]
    for a null pointer. *)
Record lstate := LState {
  lm : mstate;
  linfop : bool; linfo : volintInfo; lsino : onode_opaque; lpart : bytes;
  lvol : Z; lvoldbp : bool; ldir : option voldb; lfile : option voldb
}.
Definition LM : Type -> Type := EM lstate.

Definition set_lm (m : mstate) (s : lstate) : lstate :=
  LState m (linfop s) (linfo s) (lsino s) (lpart s) (lvol s) (lvoldbp s) (ldir s) (lfile s).
Definition set_ldb (dirp : bool) (d : voldb) (s : lstate) : lstate :=
  LState (lm s) (linfop s) (linfo s) (lsino s) (lpart s) (lvol s) (lvoldbp s)
    (if dirp then Some d else ldir s) (if dirp then lfile s else Some d).
(** [VLD_VOLH_DIR (vol)] and [VLD_VOLH_FILE (vol)] *)
Definition ldb (dirp : bool) (s : lstate) : option voldb := if dirp then ldir s else lfile s.

Definition lhost (s : lstate) : hostfs := mhost (lm s).
Definition set_lhost (h : hostfs) (s : lstate) : lstate := set_lm (set_mhost h (lm s)) s.
(** The handle as [Vinfo] has it. *)
Definition linfos (s : lstate) : vinfo :=
  Vinfo (linfop s) (linfo s) (lsino s) (lpart s) (lhost s).
Definition set_linfos (v : vinfo) (s : lstate) : lstate :=
  LState (set_mhost (vhost v) (lm s)) (infop v) (info v) (Vinfo.sino v) (vpart v) (lvol s)
    (lvoldbp s) (ldir s) (lfile s).

Definition on_mn {A} (m : MM A) : LM A := elift lm set_lm m.
Definition on_hostfs {A} (m : HM A) : LM A := elift lhost set_lhost m.
Definition on_info {A} (m : IM A) : LM A := elift linfos set_linfos m.
Definition on_db {A} (dirp : bool) (m : VM A) : LM A := fun s =>
  d ← ldb dirp s;
  '(d, r) ← m d;
  Some (set_ldb dirp d s, r).

(** ** Fields *)

Definition set_DataVersion (v : Z) (e : voldb_file_entry) : voldb_file_entry :=
  let 'FileEntry a1 a2 a3 a4 a5 a6 a7 a8 a9 _ a11 a12 a13 a14 a15 a16 a17 a18 a19 a20 := e in
  FileEntry a1 a2 a3 a4 a5 a6 a7 a8 a9 v a11 a12 a13 a14 a15 a16 a17 a18 a19 a20.
Definition set_Length (v : Z) (e : voldb_file_entry) : voldb_file_entry :=
  let 'FileEntry a1 a2 a3 a4 a5 a6 a7 _ a9 a10 a11 a12 a13 a14 a15 a16 a17 a18 a19 a20 := e in
  FileEntry a1 a2 a3 a4 a5 a6 a7 v a9 a10 a11 a12 a13 a14 a15 a16 a17 a18 a19 a20.

(** The fields that [u.dir] and [u.file] start with are the same memory. *)
Definition fent (e : voldb_entry) : voldb_file_entry :=
  match u e with u_dir d => dfile d | u_file f => f end.
Definition upd_fent (f : voldb_file_entry -> voldb_file_entry) (e : voldb_entry) : voldb_entry :=
  Entry (type e) (match u e with u_dir d => u_dir (set_dfile f d) | u_file x => u_file (f x) end).
Definition set_type (t : Z) (e : voldb_entry) : voldb_entry := Entry t (u e).

Definition set_e (v : voldb_entry) (n : mnode) : mnode :=
  let 'Mnode a b c d f _ h i j k l m := n in Mnode a b c d f v h i j k l m.
Definition set_ep (v : bool) (n : mnode) : mnode :=
  let 'Mnode a b c d f g h i j k _ m := n in Mnode a b c d f g h i j k v m.
Definition set_fsp (v : bool) (n : mnode) : mnode :=
  let 'Mnode a b c d f g h i j _ l m := n in Mnode a b c d f g h i j v l m.
Definition set_fs (v : AFSFetchStatus) (n : mnode) : mnode :=
  let 'Mnode a b c _ f g h i j k l m := n in Mnode a b c v f g h i j k l m.
Definition set_fd (v : Z) (n : mnode) : mnode :=
  let 'Mnode _ b c d f g h i j k l m := n in Mnode v b c d f g h i j k l m.
Definition set_sb (valid : bool) (size : Z) (n : mnode) : mnode :=
  let 'Mnode a b _ d f g h i _ k l m := n in Mnode a b size d f g h i valid k l m.
(** What [local_create_file] leaves in a node. *)
Definition set_opened (fd size : Z) (n : mnode) : mnode :=
  set_fdp true (set_sb true size (set_fd fd n)).

Definition set_fs_Length (v : Z) (f : AFSFetchStatus) : AFSFetchStatus :=
  let 'FetchStatus a b c _ x g h i j k l m n o p q r s t y z := f in
  FetchStatus a b c v x g h i j k l m n o p q r s t y z.
Definition set_fs_LinkCount (v : Z) (f : AFSFetchStatus) : AFSFetchStatus :=
  let 'FetchStatus a b _ d x g h i j k l m n o p q r s t y z := f in
  FetchStatus a b v d x g h i j k l m n o p q r s t y z.

(** [ftruncate] of a descriptor: 0 or -1; the errno is not looked at. *)
Definition hftruncate (fd len : Z) : HM Z :=
  r <-- hsys ;;
  if negb (r =? 0) then eret (-1) else
  s <-- eget ;;
  match hfds s !! fd with
  | None => eret (-1)
  | Some i =>
      if len <? 0 then eret (-1) else
      emod (fun s => Host (hdirs s) (hnames s)
                       (<[i := resize (default [] (hfiles s !! i)) len]> (hfiles s))
                       (hfds s) (hos s)) ;;!
      eret 0
  end.

(** ** Nodes and their host files *)

(** The node as [Mdir] has it, with the contents of its open file. *)
Definition node_content (h : hostfs) (n : mnode) : bytes :=
  match hfds h !! mfd n with Some i => default [] (hfiles h !! i) | None => [] end.
Definition as_mdir (h : hostfs) (n : mnode) : Mdir.mnode :=
  {| Mdir.fd := mfd n; Mdir.node_fid := mfid n; Mdir.sbp := sbp n; Mdir.fdp := fdp n;
     Mdir.st_size := st_size n; Mdir.Length := fs_Length (fs n);
     Mdir.content := node_content h n |}.
Definition from_mdir (x : Mdir.mnode) (n : mnode) : mnode :=
  set_fs (set_fs_Length (Mdir.Length x) (fs n)) (set_sb (Mdir.sbp x) (Mdir.st_size x) n).
Definition host_content (fd : Z) (b : bytes) (h : hostfs) : hostfs :=
  match hfds h !! fd with
  | Some i => Host (hdirs h) (hnames h) (<[i := b]> (hfiles h)) (hfds h) (hos h)
  | None => h
  end.

(** An operation of [Mdir] on a node: its status. *)
Definition on_mdir (p : Z) (op : Mdir.mnode -> option (Z * Mdir.mnode)) : LM Z :=
  n <-- on_mn (node p) ;;
  s <-- eget ;;
  r <-- eopt (op (as_mdir (lhost s) n)) ;;
  on_mn (put_node p (from_mdir (snd r) n)) ;;!
  emod (fun s => set_lhost (host_content (mfd n) (Mdir.content (snd r)) (lhost s)) s) ;;!
  eret (fst r).

(** [if (ret) return ret;] of a status *)
Definition echeck (m : LM Z) : LM unit := r <-- m ;; if r =? 0 then eret tt else efail r.
(** [if (ret) ret = e;] *)
Definition emap_err {A} (f : Z -> Z) (m : LM A) : LM A :=
  r <-- etry m ;; match r with inl e => efail (f e) | inr a => eret a end.

(** The database of a vnode and its number in it. *)
Definition vnode_db (f : AFSFid) : LM (bool * Z) :=
  let vno := swrap32 (Vnode f) in
  if afs_dir_p vno then k <-- eopt (dir_afs2local vno) ;; eret (true, k)
  else k <-- eopt (file_afs2local vno) ;; eret (false, k).

Section Vld.
Context `{OnodeCoder} `{InfoCoder} `{HostChoice}.
(** The bytes of the header buffer that are not set (see [Voldb]), the memory
    [malloc] gives (see [Mnode]), the errors of mapping a file, unmapping it,
    changing its size, and of [fstat] (see [Mdir]), and the onode variables
    before they are set. *)
Context (stack : voldb -> bytes) (fresh : Z * mnode).
Context (create_errno end_errno : Z -> Z -> Z) (truncate_errno : Z -> Z -> option Z)
  (fstat_errno : Z -> Z).
Context (junk : onode_opaque).

(** [VOLOP_ICREATE], [VOLOP_IOPEN] and [VOLOP_IUNLINK] of a simple volume. *)
Definition volop_icreate (p : Z) : LM onode_opaque :=
  s <-- eget ;;
  r <-- on_hostfs (svol_icreate (lpart s) junk true) ;;
  match fst r with
  | Some (fd, size) => on_mn (upd_node p (set_opened fd size))
  | None => eret tt
  end ;;!
  match snd r with inl e => efail e | inr o => eret o end.
Definition volop_iunlink (o : onode_opaque) : LM unit :=
  s <-- eget ;; on_hostfs (svol_unlink (lpart s) o).
Definition volop_iopen (o : onode_opaque) (p : Z) : LM unit :=
  n <-- on_mn (node p) ;;
  if fdp n then eret tt else
  s <-- eget ;;
  fd <-- on_hostfs (svol_iopen (lpart s) o) ;;
  on_mn (upd_node p (fun n => set_fdp true (set_fd fd n))).

(** ** Status *)

(** [vld_dent_to_fetchstatus] and [vld_fent_to_fetchstatus], whose text is the
    same but for the type of the entry. *)
Definition fill_status (creationDate : Z) (x : voldb_file_entry) (f : AFSFetchStatus)
    : AFSFetchStatus :=
  FetchStatus 1 (FileType x) (LinkCount x) (fs_Length f) (DataVersion x) (Author x) (Owner x)
    0 0 (UnixModeBits x) (ParentVnode x) (ParentUnique x) 1 (ServerModTime x) (ServerModTime x)
    (Group x) 0 (uwrap32 creationDate) 0 0 0.
Definition vld_fent_to_fetchstatus (x : voldb_file_entry) (p : Z) : LM unit :=
  echeck (on_mdir p (mnode_update_size_cached fstat_errno)) ;;!
  s <-- eget ;;
  on_mn (upd_node p (fun n => set_fs (fill_status (creationDate (linfo s)) x (fs n)) n)).
Definition vld_dent_to_fetchstatus (x : voldb_dir_entry) (p : Z) : LM unit :=
  vld_fent_to_fetchstatus (dfile x) p.

Definition vld_ent_to_fetchstatus (x : voldb_entry) (p : Z) : LM unit :=
  n <-- on_mn (node p) ;;
  if fsp n then eret tt else
  eassert (ep n) ;;!
  match u x with
  | u_dir d => eassert (type x =? TYPE_DIR) ;;! vld_dent_to_fetchstatus d p
  | u_file f =>
      eassert ((type x =? TYPE_FILE) || (type x =? TYPE_LINK)) ;;! vld_fent_to_fetchstatus f p
  end ;;!
  on_mn (upd_node p (set_fsp true)).

(** [if (n->flags.ep == FALSE) ret = voldb_get_entry (db, real_mnode, &n->e);] *)
Definition read_entry (p : Z) (db : bool * Z) : LM unit :=
  n <-- on_mn (node p) ;;
  if ep n then eret tt else
  x <-- on_db (fst db) (voldb_get_entry (snd db)) ;;
  on_mn (upd_node p (set_e x)).

(** ** Opening and rights *)

(** [flags] is [m->flags]; nothing else of [m] is looked at. *)
Definition vld_open_vnode (p flags : Z) : LM unit :=
  n <-- on_mn (node p) ;;
  if (Z.land flags VOLOP_GETSTATUS =? 0) && fsp n && ep n then eret tt else
  db <-- vnode_db (mfid n) ;;
  read_entry p db ;;! on_mn (upd_node p (set_ep true)) ;;!
  n <-- on_mn (node p) ;;
  volop_iopen (ino (fent (e n))) p ;;!
  on_mn (upd_node p (set_fdp true)) ;;!
  if Z.land flags VOLOP_GETSTATUS =? VOLOP_GETSTATUS
  then n <-- on_mn (node p) ;; vld_ent_to_fetchstatus (e n) p
  else eret tt.

(** [parent_n]: the directory whose lists hold for a node. *)
Definition rights_node (p : Z) (n : mnode) : LM Z :=
  if type (e n) =? TYPE_DIR then eret p else
  let f := Build_AFSFid (Volume (mfid n)) (fs_ParentVnode (fs n)) (fs_ParentUnique (fs n)) in
  q <-- emap_err (fun _ => EACCES) (on_mn (mnode_find fresh f)) ;;
  emap_err (fun _ => EACCES)
    (eonerr (vld_open_vnode q VOLOP_GETSTATUS) (on_mn (mnode_free q false))) ;;!
  nq <-- on_mn (node q) ;;
  eassert (ep nq) ;;!
  eret q.

(** The accesses are left in [m].  A parent that is no directory is outside
    the model: the lists would be read from what lies behind a file's entry. *)
Definition vld_check_rights (p : Z) (m : msec) : LM msec :=
  n <-- on_mn (node p) ;;
  eassert (fsp n) ;;! eassert (ep n) ;;!
  eassert (loop m <=? 1) ;;!
  sc <-- eopt (sec m) ;;
  match cps sc with
  | None => efail EPERM
  | Some ids =>
      q <-- rights_node p n ;;
      nq <-- on_mn (node q) ;;
      d <-- eopt (match u (e nq) with u_dir d => Some d | u_file _ => None end) ;;
      let '(m, right_ret) := check_dir_rights d ids m (superuser sc) in
      (if q =? p then eret tt else on_mn (mnode_free q false)) ;;!
      if right_ret =? 0 then eret m else efail right_ret
  end.

(** ** Change *)

(** The number of KiB by which the size of a volume changes. *)
Definition kib_diff (len Length : Z) : Z := swrap32 (uwrap32 (Z.quot len 1024) - Length / 1024).

Definition modify_length (p len : Z) : LM unit :=
  s <-- eget ;; eassert (linfop s) ;;!
  n <-- on_mn (node p) ;;
  let diff := kib_diff len (Length (fent (e n))) in
  on_info (vld_update_volsize diff) ;;!
  r <-- on_hostfs (hftruncate (mfd n) len) ;;
  if negb (r =? 0) then eignore (on_info (vld_update_volsize (swrap32 (- diff)))) ;;! efail r else
  on_mn (upd_node p (fun n => set_sb (sbp n) len (set_e (upd_fent (set_Length (uwrap32 len)) (e n)) n))).

(** [m->flags & (VOLOP_WRITE|VOLOP_INSERT|VOLOP_DELETE)] *)
Definition writes (flags : Z) : bool :=
  negb (Z.land flags (Z.lor VOLOP_WRITE (Z.lor VOLOP_INSERT VOLOP_DELETE)) =? 0).
Definition touch (now : Z) (x : voldb_file_entry) : voldb_file_entry :=
  set_ServerModTime (uwrap32 now) (set_DataVersion (uwrap32 (DataVersion x + 1)) x).

(** [ss] and [len] are [None] for a null pointer. *)
Definition vld_modify_vnode (now p flags : Z) (ss : option AFSStoreStatus) (len : option Z)
    : LM unit :=
  n <-- on_mn (node p) ;;
  eassert (fdp n) ;;! eassert (ep n) ;;!
  db <-- vnode_db (mfid n) ;;
  match ss with
  | Some ss =>
      if Mask ss =? 0 then eret tt else
      x <-- eopt (vld_storestatus_to_ent (e n) ss) ;; on_mn (upd_node p (set_e x))
  | None => eret tt
  end ;;!
  match len with Some len => modify_length p len | None => eret tt end ;;!
  (if writes flags then on_mn (upd_node p (fun n => set_e (upd_fent (touch now) (e n)) n))
   else eret tt) ;;!
  n <-- on_mn (node p) ;;
  on_db (fst db) (voldb_put_entry (snd db) (e n)) ;;!
  on_mn (upd_node p (set_fsp false)) ;;!
  vld_ent_to_fetchstatus (e n) p.

Definition vld_put_acl (p flags : Z) : LM unit :=
  n <-- on_mn (node p) ;;
  eassert (fdp n) ;;! eassert (ep n) ;;!
  db <-- vnode_db (mfid n) ;;
  if negb (fst db) then efail EINVAL else
  d <-- eopt (match u (e n) with u_dir d => Some d | u_file _ => None end) ;;
  on_db true (voldb_put_acl (uwrap32 (snd db)) d) ;;!
  on_mn (upd_node p (set_fsp false)) ;;!
  if Z.land flags VOLOP_GETSTATUS =? VOLOP_GETSTATUS then vld_ent_to_fetchstatus (e n) p
  else eret tt.

(** The onode the entry had. *)
Definition vld_set_onode (f : AFSFid) (new : onode_opaque) : LM onode_opaque :=
  db <-- vnode_db f ;;
  x <-- on_db (fst db) (voldb_get_entry (snd db)) ;;
  on_db (fst db) (voldb_put_entry (snd db) (upd_fent (set_ino new) x)) ;;!
  eret (ino (fent x)).

(** ** Removal and links *)

(** The result of [vld_update_volsize] is not looked at. *)
Definition vld_remove_node (p : Z) : LM unit :=
  s <-- eget ;; eassert (linfop s) ;;!
  n <-- on_mn (node p) ;;
  on_mn (mnode_remove (mfid n)) ;;!
  db <-- vnode_db (mfid n) ;;
  o <-- on_db (fst db) (voldb_del_entry stack (uwrap32 (snd db))) ;;
  n <-- on_mn (node p) ;;
  let diff := swrap32 (Length (fent (e n))) in
  eignore (on_info (vld_update_volsize (- (ENTRY_DISK_SIZE + Z.quot diff 1024)))) ;;!
  volop_iunlink o.

(** [LinkCount] is unsigned: the assertion that it is not negative holds. *)
Definition vld_adjust_linkcount (p adjust : Z) : LM unit :=
  n <-- on_mn (node p) ;;
  db <-- vnode_db (mfid n) ;;
  read_entry p db ;;!
  on_mn (upd_node p (fun n =>
    set_fs (set_fs_LinkCount (uwrap32 (fs_LinkCount (fs n) + adjust)) (fs n))
      (set_e (upd_fent (fun x => set_LinkCount (uwrap32 (LinkCount x + adjust)) x) (e n)) n))) ;;!
  n <-- on_mn (node p) ;;
  if LinkCount (fent (e n)) =? 0 then vld_remove_node p else
  on_db (fst db) (voldb_put_entry (snd db) (e n)) ;;!
  on_mn (upd_node p (set_ep true)).

(** ** Creation *)

Definition convert_local2afs (dirp : bool) (k : Z) : Z :=
  uwrap32 (if dirp then dir_local2afs (swrap32 k) else file_local2afs (swrap32 k)).

(** The entry of the new vnode before author and status are set; a directory
    gets the lists of its parent. *)
Definition new_vnode_entry (ty : Z) (child_ino : onode_opaque) (pfid : AFSFid)
    (parent : voldb_entry) (x : voldb_entry) : option voldb_entry :=
  let links := if ty =? TYPE_DIR then 2 else 1 in
  let x := upd_fent (fun f =>
    set_Parent (Vnode pfid) (Unique pfid) (set_DataVersion 0 (set_LinkCount links
      (set_FileType ty (set_ino child_ino f))))) x in
  if ty =? TYPE_DIR then
    match u x, u parent with
    | u_dir d, u_dir q => Some (Entry (type x) (u_dir (DirEntry (dfile d) (negacl q) (acl q))))
    | _, _ => None
    end
  else Some x.

(** From the [mdir_mkdir] on; [want] is [ret_n] not null. *)
Definition create_fill (now : Z) (pfid : AFSFid) (parent : voldb_entry) (child : AFSFid) (k ty : Z)
    (x : voldb_entry) (child_ino : onode_opaque) (ss : AFSStoreStatus) (m : option msec)
    (want : bool) (p : Z) : LM unit :=
  let dirp := ty =? TYPE_DIR in
  s <-- eget ;;
  (if dirp then
     emap_err (fun _ => EIO) (echeck (on_mdir p (fun n =>
       mdir_mkdir create_errno end_errno truncate_errno fstat_errno n
         (Build_AFSFid (lvol s) (Vnode child) (Unique child))
         (Build_AFSFid (lvol s) (Vnode pfid) (Unique pfid)))))
   else eret tt) ;;!
  x <-- eopt (new_vnode_entry ty child_ino pfid parent x) ;;
  x <-- eopt (voldb_update_time x now) ;;
  x <-- eopt (vld_set_author x m) ;;
  x <-- eopt (vld_storestatus_to_ent x ss) ;;
  emap_err (fun _ => EIO) (on_db dirp (voldb_put_entry k x)) ;;!
  match u x with
  | u_dir d => on_db dirp (voldb_put_acl k d)
  | u_file _ => eret tt
  end ;;!
  if negb want then eret tt else
  n <-- on_mn (node p) ;;
  (if ep n then eret tt else
   y <-- on_db dirp (voldb_get_entry k) ;;
   on_mn (upd_node p (fun n => set_ep true (set_e y n)))) ;;!
  (if match m with Some m => Z.land (mflags m) VOLOP_GETSTATUS =? VOLOP_GETSTATUS | None => false end
   then n <-- on_mn (node p) ;; eassert (fdp n) ;;! vld_ent_to_fetchstatus x p
   else eret tt) ;;!
  n <-- on_mn (node p) ;;
  on_info (vld_update_volsize (swrap32 (ENTRY_DISK_SIZE + Length (fent (e n)) / 1024))).

(** The fid of the new vnode and, when it is asked for, its node; [q] is the
    node of the parent. *)
Definition vld_create_entry (now q ty : Z) (ss : AFSStoreStatus) (m : option msec) (want : bool)
    : LM (AFSFid * option Z) :=
  eassert ((ty =? TYPE_DIR) || (ty =? TYPE_FILE) || (ty =? TYPE_LINK)) ;;!
  let dirp := ty =? TYPE_DIR in
  on_info (vld_check_quota (ENTRY_DISK_SIZE + if dirp then DIR_DISK_SIZE else 0)) ;;!
  r <-- on_db dirp (voldb_new_entry stack) ;;
  let '(real_mnode, unique) := r in
  eonerr (
    x <-- on_db dirp (voldb_get_entry (swrap32 real_mnode)) ;;
    parent <-- on_mn (node q) ;;
    let pfid := mfid parent in
    let child := Build_AFSFid (Volume pfid) (convert_local2afs dirp real_mnode) unique in
    p <-- on_mn (mnode_find fresh child) ;;
    o <-- eonerr (volop_icreate p) (on_mn (mnode_free p false)) ;;
    eonerr (create_fill now pfid (e parent) child real_mnode ty (set_type ty x) o ss m want p)
      (on_mn (mnode_free p true) ;;! eignore (volop_iunlink o)) ;;!
    if want then eret (child, Some p) else
    on_mn (mnode_free p false) ;;! eret (child, None))
  (eignore (on_db dirp (voldb_del_entry stack real_mnode))).

(** ** The databases as a whole *)

Definition vld_db_flush : LM unit :=
  s <-- eget ;;
  if lvoldbp s then
    match ldir s, lfile s with
    | Some _, Some _ =>
        r <-- ecode (on_db true (voldb_flush stack)) ;; eassert (r =? 0) ;;!
        r <-- ecode (on_db false (voldb_flush stack)) ;; eassert (r =? 0)
    | _, _ => eabort
    end
  else match ldir s, lfile s with None, None => eret tt | _, _ => eabort end.

End Vld.
