(* ===== verification/VldCorrect.v ===== *)
(** * The volume layer: opening vnodes and their rights

    The operations of [Vld] on one node change that node, the host and nothing
    else of the cache; a cache whose entries are those of the databases stays
    so; and the rights of a file are those of its parent in the database. *)

From S2P Require Import Prelude Estate Buf Fdir Vnum Mdir Voldb VoldbRep Vrights VrightsCorrect.
From S2P Require Import Svol SvolCorrect Mnode MnodeCorrect Vinfo Vld.

Local Open Scope em_scope.

(** ** The entry of a vnode in its database *)

Definition db_number (f : AFSFid) : option (bool * Z) :=
  let vno := swrap32 (Vnode f) in
  if afs_dir_p vno then k ← dir_afs2local vno; Some (true, k)
  else k ← file_afs2local vno; Some (false, k).

Definition db_entry `{OnodeCoder} (s : lstate) (f : AFSFid) : option voldb_entry :=
  '(dirp, k) ← db_number f;
  d ← ldb dirp s;
  match voldb_get_entry k d with Some (_, inr x) => Some x | _ => None end.

Lemma vnode_db_run f s :
  vnode_db f s = match db_number f with Some x => Some (s, inr x) | None => None end.
Proof.
  unfold vnode_db, db_number.
  destruct (afs_dir_p _); [destruct (dir_afs2local _)|destruct (file_afs2local _)]; done.
Qed.

(** Reading does not change a database. *)
Definition pure_vm {A} (m : VM A) : Prop := forall d d' r, m d = Some (d', r) -> d' = d.

Lemma pure_vbind {A B} (m : VM A) (k : A -> VM B) :
  pure_vm m -> (forall a, pure_vm (k a)) -> pure_vm (vbind m k).
Proof.
  intros Hm Hk d d' r. unfold vbind. destruct (m d) as [[d1 [e|a]]|] eqn:E; [..|done].
  - intros [= <- <-]. by apply (Hm _ _ _ E).
  - intros Hr. rewrite <- (Hm _ _ _ E). by apply (Hk a _ _ _ Hr).
Qed.
Lemma pure_vret {A} (a : A) : pure_vm (vret a).
Proof. by intros d d' r [= <- <-]. Qed.
Lemma pure_vfail {A} e : pure_vm (A := A) (vfail e).
Proof. by intros d d' r [= <- <-]. Qed.
Lemma pure_vabort {A} : pure_vm (A := A) vabort.
Proof. by intros d d' r [=]. Qed.
Lemma pure_vget : pure_vm vget.
Proof. by intros d d' r [= <- <-]. Qed.
Lemma pure_vopt {A} (o : option A) : pure_vm (vopt o).
Proof. destruct o; [apply pure_vret|apply pure_vabort]. Qed.
Create HintDb pure.
#[export] Hint Resolve pure_vret pure_vfail pure_vabort pure_vget pure_vopt : pure.
Ltac pure_run :=
  repeat first [apply pure_vbind; [|intros ?] | progress eauto with pure | case_match].

Lemma pure_vread {A} (f : bytes -> option A) : pure_vm (vread f).
Proof. unfold vread, vmap, vdb_of. pure_run. Qed.
#[export] Hint Resolve pure_vread : pure.

Lemma pure_get_entry `{OnodeCoder} k : pure_vm (voldb_get_entry k).
Proof.
  unfold voldb_get_entry, voldb_get_dir, voldb_get_file, VOLDB_FUNC, vdbflat_get_dir,
    vdbflat_get_file. pure_run.
Qed.

(** ** A change of one node and of the host *)

Definition with_node (p : Z) (n : mnode) (h : hostfs) (s : lstate) : lstate :=
  set_lm (MState (<[p := n]> (nodes (lm s))) (lru (lm s)) (htab (lm s)) (numfree (lm s)) h) s.

Lemma with_node_with_node p n h n' h' s :
  with_node p n' h' (with_node p n h s) = with_node p n' h' s.
Proof. unfold with_node, set_lm. simpl. by rewrite insert_insert_eq. Qed.

Lemma with_node_lookup p n h s : nodes (lm (with_node p n h s)) !! p = Some n.
Proof. apply lookup_insert_eq. Qed.

Lemma with_node_id p n s : nodes (lm s) !! p = Some n -> with_node p n (lhost s) s = s.
Proof.
  intros Hn. unfold with_node, lhost. rewrite insert_id by done. by destruct s as [[] ? ? ? ? ? ? ? ?].
Qed.

Section Steps.
Context (s : lstate) (p : Z) (n : mnode) (Hn : nodes (lm s) !! p = Some n).

Lemma node_step : on_mn (node p) s = Some (s, inr n).
Proof.
  unfold on_mn. rewrite (elift_run lm set_lm _ _ _ _ (node_run p (lm s) n Hn)).
  by destruct s as [[] ? ? ? ? ? ? ? ?].
Qed.

Lemma upd_step g : on_mn (upd_node p g) s = Some (with_node p (g n) (lhost s) s, inr tt).
Proof. unfold on_mn. by rewrite (elift_run lm set_lm _ _ _ _ (upd_node_run p g (lm s) n Hn)). Qed.

Lemma host_step {A} (m : HM A) h r :
  m (lhost s) = Some (h, r) -> on_hostfs m s = Some (with_node p n h s, r).
Proof.
  intros Hm. unfold on_hostfs. rewrite (elift_run lhost set_lhost _ _ _ _ Hm).
  unfold set_lhost, set_mhost, with_node. by rewrite insert_id.
Qed.
End Steps.

(** The volume as [with_node] leaves it: the same databases and info. *)
Definition same_volume (s s' : lstate) : Prop :=
  ldir s' = ldir s /\ lfile s' = lfile s /\ linfop s' = linfop s /\ linfo s' = linfo s /\
  lsino s' = lsino s /\ lpart s' = lpart s /\ lvol s' = lvol s /\ lvoldbp s' = lvoldbp s.

Lemma same_volume_refl s : same_volume s s.
Proof. by split_and!. Qed.
Lemma same_volume_trans s1 s2 s3 : same_volume s1 s2 -> same_volume s2 s3 -> same_volume s1 s3.
Proof. unfold same_volume. intuition congruence. Qed.
Lemma same_volume_set_lm s m : same_volume s (set_lm m s).
Proof. by split_and!. Qed.
Lemma db_entry_same `{OnodeCoder} s s' f : same_volume s s' -> db_entry s' f = db_entry s f.
Proof.
  intros (E1 & E2 & _). unfold db_entry. destruct (db_number f) as [[dirp k]|]; [|done].
  simpl. by destruct dirp; simpl; rewrite ?E1, ?E2.
Qed.

(** ** Opening *)

(** An entry whose union has the member its type says. *)
Definition typed (x : voldb_entry) : Prop :=
  match u x with
  | u_dir _ => type x = TYPE_DIR
  | u_file _ => type x = TYPE_FILE \/ type x = TYPE_LINK
  end.

Section Open.
Context `{OnodeCoder} `{HostChoice} (fstat_errno : Z -> Z).

(** What no operation on a node by a procedure that holds it changes. *)
Definition kept_identity (n n' : mnode) : Prop :=
  mfid n' = mfid n /\ li n' = li n /\ ref n' = ref n /\ removedp n' = removedp n.

(** The size of a node is known or can be found out. *)
Lemma update_size_step s p n :
  nodes (lm s) !! p = Some n -> sbp n || fdp n = true ->
  exists h (v : Z + Z), let r := match v with inl e => e | inr _ => 0 end in
    let n' := match v with inl _ => n | inr l => set_fs (set_fs_Length l (fs n)) (set_sb true l n) end in
    on_mdir p (mnode_update_size_cached fstat_errno) s = Some (with_node p n' h s, inr r) /\
    match v with inl e => e <> 0 | inr _ => True end.
Proof.
  intros Hn Hb. unfold on_mdir. lrun (node_step s p n Hn). rewrite ebind_get.
  set (x := as_mdir (lhost s) n). assert (Hx : Mdir.sbp x = sbp n /\ Mdir.fdp x = fdp n) by done.
  assert (Hr : exists v : Z + Z, mnode_update_size_cached fstat_errno x =
    Some (match v with inl e => e | inr _ => 0 end,
          match v with inl _ => x | inr l => Mdir.set_size x true l end) /\
    match v with inl e => e <> 0 /\ sbp n = false | inr _ => True end).
  { unfold mnode_update_size_cached. destruct Hx as [-> E]. destruct (sbp n).
    - exists (inr (Mdir.st_size x)). done.
    - unfold mnode_update_size. rewrite E. simpl in Hb. rewrite Hb. simpl.
      destruct (fstat_errno (mfd n) =? 0) eqn:Hf; simpl; zbool.
      + exists (inr (blen (node_content (lhost s) n))). done.
      + exists (inl (fstat_errno (mfd n))). done. }
  destruct Hr as (v & Hr & Hv). rewrite Hr. unfold eopt. rewrite ebind_ret. cbn [fst snd].
  assert (Hput : forall n', on_mn (put_node p n') s = Some (with_node p n' (lhost s) s, inr tt)).
  { intros n'. unfold on_mn. by rewrite (elift_run lm set_lm _ _ _ _ (put_node_run p n' (lm s))). }
  set (y := match v with inl _ => x | inr l => Mdir.set_size x true l end).
  lrun (Hput (from_mdir y n)). rewrite ebind_mod.
  exists (host_content (mfd n) (Mdir.content y) (lhost s)), v. split; [|by destruct v; [apply Hv|]].
  assert (Hy : from_mdir y n = match v with
    | inl _ => n
    | inr l => set_fs (set_fs_Length l (fs n)) (set_sb true l n) end).
  { unfold y. destruct v as [e|l].
    - destruct Hv as [_ Hs]. unfold x, from_mdir, as_mdir. simpl. rewrite Hs.
      destruct n as [? ? ? [] ? ? ? ? ? ? ? ?]; simpl in *; by subst.
    - by destruct n as [? ? ? [] ? ? ? ? ? ? ? ?]. }
  by rewrite <- Hy.
Qed.

Lemma fent_to_fetchstatus_step s p n x :
  nodes (lm s) !! p = Some n -> sbp n || fdp n = true ->
  exists h r n', vld_fent_to_fetchstatus fstat_errno x p s = Some (with_node p n' h s, r) /\
    kept_identity n n' /\ e n' = e n /\ ep n' = ep n /\ fdp n' = fdp n /\ mfd n' = mfd n /\
    fsp n' = fsp n /\
    (r = inr tt -> sbp n' = true /\
       exists l, fs n' = fill_status (creationDate (linfo s)) x (set_fs_Length l (fs n))).
Proof.
  intros Hn Hb. unfold vld_fent_to_fetchstatus, echeck.
  destruct (update_size_step s p n Hn Hb) as (h & v & Hr & Hv). cbv zeta in Hr.
  unfold ebind at 1. rewrite (ebind_ok _ _ _ _ _ Hr). destruct v as [e0|l].
  - rewrite (proj2 (Z.eqb_neq e0 0) Hv). unfold efail. eexists _, _, n.
    split; [reflexivity|]. by split_and!.
  - rewrite Z.eqb_refl. unfold eret at 1. rewrite ebind_get.
    set (n1 := set_fs (set_fs_Length l (fs n)) (set_sb true l n)).
    rewrite (upd_step _ p n1 (with_node_lookup _ _ _ _)), with_node_with_node.
    eexists _, _, _. split; [reflexivity|]. unfold kept_identity.
    destruct n; split_and!; try done. intros _. split; [done|]. exists l. done.
Qed.

Lemma kept_refl n : kept_identity n n.
Proof. by split_and!. Qed.
Lemma kept_trans n1 n2 n3 : kept_identity n1 n2 -> kept_identity n2 n3 -> kept_identity n1 n3.
Proof. unfold kept_identity. intuition congruence. Qed.

(** The status that is filled in from an entry. *)
Definition status_of (s : lstate) (x : voldb_entry) (f : AFSFetchStatus) : Prop :=
  exists f0 l, f = fill_status (creationDate (linfo s)) (fent x) (set_fs_Length l f0).

(** The status that is shown after a step is the one of before or that of the
    entry; its length is known. *)
Definition shown_by (s : lstate) (x : voldb_entry) (n n' : mnode) : Prop :=
  (fs n' = fs n /\ fsp n = true /\ sbp n' = sbp n) \/ (status_of s x (fs n') /\ sbp n' = true).

Lemma ent_to_fetchstatus_step s p n x :
  nodes (lm s) !! p = Some n -> ep n = true -> sbp n || fdp n = true -> typed x ->
  exists h r n', vld_ent_to_fetchstatus fstat_errno x p s = Some (with_node p n' h s, r) /\
    kept_identity n n' /\ e n' = e n /\ ep n' = true /\ fdp n' = fdp n /\ mfd n' = mfd n /\
    (r = inr tt -> fsp n' = true) /\
    (fsp n' = true -> shown_by s x n n').
Proof.
  intros Hn Hep Hb Hx. unfold vld_ent_to_fetchstatus. lrun (node_step s p n Hn).
  destruct (fsp n) eqn:Hf.
  - exists (lhost s), (inr tt), n. rewrite with_node_id by done. split; [done|].
    split_and!; try done; auto. intros _. by left.
  - rewrite Hep. unfold eassert at 1. rewrite ebind_ret.
    destruct (fent_to_fetchstatus_step s p n (fent x) Hn Hb)
      as (h & r & n1 & Hr & Hk & He & Hep1 & Hfd & Hmfd & Hfsp1 & Hst).
    assert (Hrun : match u x with
      | u_dir d => eassert (type x =? TYPE_DIR) ;;! vld_dent_to_fetchstatus fstat_errno d p
      | u_file f => eassert ((type x =? TYPE_FILE) || (type x =? TYPE_LINK)) ;;!
                    vld_fent_to_fetchstatus fstat_errno f p
      end s = Some (with_node p n1 h s, r)).
    { unfold typed, fent in *. destruct (u x).
      - rewrite Hx, Z.eqb_refl. exact Hr.
      - replace ((type x =? TYPE_FILE) || (type x =? TYPE_LINK)) with true; [exact Hr|].
        by destruct Hx as [-> | ->]. }
    unfold ebind at 1. rewrite Hrun. destruct r as [e0|[]].
    + exists h, (inl e0), n1. split_and!; try done; congruence.
    + rewrite (upd_step _ p n1 (with_node_lookup _ _ _ _)), with_node_with_node.
      eexists _, _, _. split; [reflexivity|].
      assert (E : e (set_fsp true n1) = e n1 /\ ep (set_fsp true n1) = ep n1 /\
        fdp (set_fsp true n1) = fdp n1 /\ mfd (set_fsp true n1) = mfd n1 /\
        fs (set_fsp true n1) = fs n1 /\ fsp (set_fsp true n1) = true /\
        sbp (set_fsp true n1) = sbp n1 /\
        kept_identity n1 (set_fsp true n1)) by (unfold kept_identity; by destruct n1).
      destruct E as (-> & -> & -> & -> & Efs & Efsp & Esb & Hk1).
      split; [by eapply kept_trans|]. split_and!; try done; [congruence|].
      intros _. right. rewrite Efs, Esb. destruct (Hst eq_refl) as (Hsb1 & l & ->).
      split; [|done]. by exists (fs n), l.
Qed.

(** A file that is opened: the host answers a descriptor or an errno. *)
Lemma local_opaque2ino_total o : onode_wf o -> exists r, local_opaque2ino o = Some r.
Proof.
  intros (_ & Hl & _). unfold local_opaque2ino.
  assert (Hc : exists c, rd8 (onode_data o) 0 = Some c).
  { destruct (onode_data o) as [|c l]; [done|]. by exists c. }
  destruct Hc as [c ->]. cbn [mbind option_bind]. destruct (negb (c =? 76)); [eauto|].
  assert (H18 : in_buf (onode_data o) 1 8 = true) by (unfold in_buf, blen; by rewrite Hl).
  rewrite H18. cbn [negb]. eauto.
Qed.

Lemma svol_iopen_total part o h : onode_wf o -> exists h' r, svol_iopen part o h = Some (h', r).
Proof.
  intros Ho. unfold svol_iopen, local_open_file.
  destruct (local_opaque2ino_total o Ho) as [r Hr]. rewrite Hr. unfold eopt. rewrite ebind_ret.
  destruct r as [e0|[ino o']]; [by eexists _, _|].
  destruct (local_create_name part _) as [e0|name]; [by eexists _, _|].
  unfold hopen. unfold ebind at 1 2. rewrite hsys_run.
  destruct (negb _); [by eexists _, _|]. rewrite ebind_get.
  destruct (hnames _ !! name); by eexists _, _.
Qed.

Lemma volop_iopen_step s p n o :
  nodes (lm s) !! p = Some n -> onode_wf o ->
  exists h r n', volop_iopen o p s = Some (with_node p n' h s, r) /\
    kept_identity n n' /\ e n' = e n /\ ep n' = ep n /\ fsp n' = fsp n /\ fs n' = fs n /\
    sbp n' = sbp n /\ (r = inr tt -> fdp n' = true).
Proof.
  intros Hn Ho. unfold volop_iopen. lrun (node_step s p n Hn). destruct (fdp n) eqn:Hf.
  - exists (lhost s), (inr tt), n. rewrite with_node_id by done. by split_and!.
  - rewrite ebind_get.
    destruct (svol_iopen_total (lpart s) o (lhost s) Ho) as (h & r & Hr).
    unfold ebind. rewrite (host_step s p n Hn _ h r Hr). destruct r as [e0|fd].
    + exists h, (inl e0), n. by split_and!.
    + rewrite (upd_step _ p n (with_node_lookup _ _ _ _)), with_node_with_node.
      eexists _, _, _. split; [reflexivity|]. unfold kept_identity. by destruct n.
Qed.

(** Opening a node leaves the entry of the database in it, and on success a
    descriptor and the status. *)
Lemma open_vnode_step s p flags n x :
  nodes (lm s) !! p = Some n -> db_entry s (mfid n) = Some x -> typed x ->
  onode_wf (ino (fent x)) -> (ep n = true -> e n = x) ->
  exists h r n', vld_open_vnode fstat_errno p flags s = Some (with_node p n' h s, r) /\
    kept_identity n n' /\ ep n' = true /\ e n' = x /\
    (r = inr tt -> Z.land flags VOLOP_GETSTATUS = VOLOP_GETSTATUS -> fsp n' = true /\ fdp n' = true) /\
    (fsp n' = true -> shown_by s x n n').
Proof.
  intros Hn Hx Ht Ho He. unfold vld_open_vnode. lrun (node_step s p n Hn).
  destruct ((Z.land flags VOLOP_GETSTATUS =? 0) && fsp n && ep n) eqn:Hc.
  { zbool. exists (lhost s), (inr tt), n. rewrite with_node_id by done.
    split; [done|]. split; [apply kept_refl|]. split_and!; auto; [intros _ E; rewrite E in *; done|]. intros _. by left. }
  clear Hc. rewrite (ebind_ok _ _ s s (default (true, 0) (db_number (mfid n)))).
  2:{ rewrite vnode_db_run. unfold db_entry in Hx. by destruct (db_number (mfid n)). }
  set (n1 := set_ep true (set_e x n)).
  assert (Hread : (read_entry p (default (true, 0) (db_number (mfid n))) ;;!
    on_mn (upd_node p (set_ep true))) s = Some (with_node p n1 (lhost s) s, inr tt)).
  { unfold read_entry. unfold ebind at 1 2. rewrite (node_step s p n Hn). destruct (ep n) eqn:Hep.
    - unfold eret at 1. rewrite (upd_step s p n Hn). unfold n1. rewrite <- (He eq_refl).
      by destruct n.
    - unfold db_entry in Hx. destruct (db_number (mfid n)) as [[dirp k]|]; [|done].
      simpl in Hx. simpl default. cbn [fst snd].
      destruct (ldb dirp s) as [d|] eqn:Hd; [|done]. simpl in Hx.
      destruct (voldb_get_entry k d) as [[d' [e0|y]]|] eqn:Hg; [done| |done]. injection Hx as ->.
      pose proof (pure_get_entry k d d' (inr x) Hg) as ->.
      rewrite (ebind_ok _ _ s s x).
      2:{ unfold on_db. rewrite Hd. simpl. rewrite Hg. simpl. f_equal. f_equal.
          destruct s, dirp; simpl in *; by subst. }
      rewrite (upd_step s p n Hn), (upd_step _ p _ (with_node_lookup _ _ _ _)), with_node_with_node.
      done. }
  rewrite (ebind_two _ _ _ _ _ _ Hread). clear Hread.
  set (s1 := with_node p n1 (lhost s) s).
  pose proof (with_node_lookup p n1 (lhost s) s) as Hn1. fold s1 in Hn1.
  lrun (node_step s1 p n1 Hn1).
  assert (E1 : e n1 = x /\ ep n1 = true /\ kept_identity n n1 /\ fsp n1 = fsp n /\ fs n1 = fs n /\ sbp n1 = sbp n).
  { unfold n1, kept_identity. by destruct n. }
  destruct E1 as (-> & Hep1 & Hk1 & Hfsp1 & Hfs1 & Hsb1).
  destruct (volop_iopen_step s1 p n1 (ino (fent x)) Hn1 Ho)
    as (h2 & r2 & n2 & Hr2 & Hk2 & He2 & Hep2 & Hfsp2 & Hfs2 & Hsb2 & Hfd2).
  assert (Hex : e n1 = x) by (unfold n1; by destruct n).
  unfold s1 in Hr2. rewrite with_node_with_node in Hr2.
  destruct r2 as [e2|[]].
  { rewrite (ebind_err _ _ _ _ _ Hr2). exists h2, (inl e2), n2.
    split_and!; try done; try congruence; [by eapply kept_trans|]. intros Hf. left. split_and!; congruence. }
  lrun Hr2. set (s2 := with_node p n2 h2 s).
  lrun (upd_step s2 p n2 (with_node_lookup _ _ _ _) (set_fdp true)).
  set (n3 := set_fdp true n2).
  assert (E3 : e n3 = e n2 /\ ep n3 = ep n2 /\ kept_identity n2 n3 /\ fsp n3 = fsp n2 /\
    fs n3 = fs n2 /\ sbp n3 = sbp n2 /\ fdp n3 = true) by (unfold n3, kept_identity; by destruct n2).
  destruct E3 as (He3 & Hep3 & Hk3 & Hfsp3 & Hfs3 & Hsb3 & Hfdp3).
  assert (Hk : kept_identity n n3) by (eauto using kept_trans).
  unfold s2. rewrite with_node_with_node.
  change (lhost (with_node p n2 h2 s)) with h2. set (s3 := with_node p n3 h2 s).
  pose proof (with_node_lookup p n3 h2 s) as Hn3. fold s3 in Hn3.
  destruct (Z.land flags VOLOP_GETSTATUS =? VOLOP_GETSTATUS) eqn:Hg; zbool.
  - lrun (node_step s3 p n3 Hn3). rewrite He3, He2, Hex.
    destruct (ent_to_fetchstatus_step s3 p n3 x Hn3) as
      (h4 & r4 & n4 & Hr4 & Hk4 & He4 & Hep4 & Hfd4 & _ & Hst4); [congruence| |done|].
    { rewrite Hfdp3. apply orb_true_r. }
    destruct Hst4 as [Hst4 Hs4].
    rewrite Hr4. unfold s3. rewrite with_node_with_node. exists h4, r4, n4.
    split_and!; try done; [by eapply kept_trans|congruence| |].
    + intros Hr _. split; [auto|congruence].
    + intros Hf. destruct (Hs4 Hf) as [(Hs1 & Hs2 & Hs3)|Hs]; [left; split_and!; congruence|by right].
  - exists h2, (inr tt), n3. split_and!; try done; try congruence. intros Hf. left. split_and!; congruence.
Qed.
End Open.

(** ** The cache and the databases *)

(** What is cached of a vnode of the volume that was not removed is what its
    database has, and the status that is shown is that of the entry.  The cache
    has nodes of other volumes too. *)
Definition shown_ok `{OnodeCoder} (s : lstate) (n : mnode) : Prop :=
  (ep n = true -> db_entry s (mfid n) = Some (e n)) /\
  (fsp n = true -> sbp n = true /\ exists x, db_entry s (mfid n) = Some x /\ status_of s x (fs n)).
Definition coherent `{OnodeCoder} (dead : list AFSFid) (s : lstate) : Prop :=
  forall p n, nodes (lm s) !! p = Some n -> Volume (mfid n) = lvol s -> mfid n ∉ dead -> shown_ok s n.

Lemma shown_same `{OnodeCoder} s s' n : same_volume s s' -> shown_ok s n -> shown_ok s' n.
Proof.
  intros Hv. unfold shown_ok, status_of. rewrite (db_entry_same s s') by done.
  by replace (linfo s') with (linfo s) by (symmetry; apply Hv).
Qed.

Lemma coherent_change `{OnodeCoder} dead s s' p n' :
  coherent dead s -> same_volume s s' -> nodes (lm s') = <[p := n']> (nodes (lm s)) ->
  (Volume (mfid n') = lvol s -> mfid n' ∉ dead -> shown_ok s n') -> coherent dead s'.
Proof.
  intros Hc Hv Hn Hp q m Hq Hvol Hd. apply (shown_same s s'); [done|].
  replace (lvol s') with (lvol s) in Hvol by (symmetry; apply Hv). revert Hq. rewrite Hn.
  destruct (decide (q = p)) as [->|Hne].
  - rewrite lookup_insert_eq. intros [= <-]. auto.
  - rewrite lookup_insert_ne by done. intros Hq. by apply (Hc q).
Qed.

Lemma minv_with_node num s held dead miss p n n' h :
  minv num (lm s) held dead miss -> nodes (lm s) !! p = Some n -> kept_identity n n' ->
  minv num (lm (with_node p n' h s)) held dead miss.
Proof.
  intros Hi Hp (Hf & Hl & Hr & Hd). destruct (mi_node _ _ _ _ _ Hi p n Hp) as (Hli & Href & Hown & Hrem).
  apply (minv_change num (lm s) held dead miss held dead p n); try done; try congruence.
  - rewrite Hd. done.
  - destruct Hown as [?|(_ & ? & ?)]; auto.
  - apply (mi_order _ _ _ _ _ Hi).
Qed.

(** The fids of the nodes are those of before and those of [l]. *)
Definition new_fids (l : list AFSFid) (s s' : lstate) : Prop := forall q m, nodes (lm s') !! q = Some m ->
  mfid m ∈ l \/ exists q0 m0, nodes (lm s) !! q0 = Some m0 /\ mfid m0 = mfid m.
Lemma new_fids_refl l s : new_fids l s s.
Proof. intros q m Hm. right. by eauto. Qed.
Lemma new_fids_trans l s1 s2 s3 : new_fids l s1 s2 -> new_fids l s2 s3 -> new_fids l s1 s3.
Proof.
  intros H1 H2 q m Hm. destruct (H2 q m Hm) as [?|(q0 & m0 & Hm0 & <-)]; [by left|]. by apply (H1 q0).
Qed.
Lemma new_fids_insert l s s' q n' : nodes (lm s') = <[q := n']> (nodes (lm s)) ->
  mfid n' ∈ l \/ (exists n, nodes (lm s) !! q = Some n /\ mfid n' = mfid n) -> new_fids l s s'.
Proof.
  intros E Hq q1 m. rewrite E. destruct (decide (q1 = q)) as [->|Hne].
  - rewrite lookup_insert_eq. intros [= <-]. destruct Hq as [?|(n & Hn & ->)]; [by left|]. right. by eauto.
  - rewrite lookup_insert_ne by done. intros Hm. right. by eauto.
Qed.

(** Looking for a vnode: its node, with what is cached of it or nothing. *)
Lemma find_step `{OnodeCoder} num fresh s held dead miss f :
  minv num (lm s) held dead miss -> coherent dead s -> f ∉ dead ->
  is_Some (htab (lm s) !! f) \/ (exists q, q ∈ lru (lm s) /\ (q ∉ held)) ->
  exists s' q n miss', on_mn (mnode_find fresh f) s = Some (s', inr q) /\
    minv num (lm s') (q :: held) dead miss' /\ coherent dead s' /\ same_volume s s' /\
    nodes (lm s') = <[q := n]> (nodes (lm s)) /\ mfid n = f /\
    (htab (lm s) !! f = Some q \/ (q ∉ held)).
Proof.
  intros Hi Hc Hd Hfree. unfold on_mn. destruct (htab (lm s) !! f) as [q|] eqn:Hf.
  - destruct (mi_key _ _ _ _ _ Hi f q Hf) as (n & Hn & Hfid).
    destruct (mi_node _ _ _ _ _ Hi q n Hn) as (_ & _ & _ & Hrem).
    destruct (removedp n) eqn:Hrn; [destruct (Hrem eq_refl); congruence|].
    destruct (find_hit_inv num fresh (lm s) held dead miss f q n Hi Hf Hn Hrn)
      as (m' & Hr & Hi' & Hns & _).
    exists (set_lm m' s), q, (MnodeCorrect.taken n), miss.
    rewrite (elift_run lm set_lm _ _ _ _ Hr). split_and!; try done; [|by destruct n|by left].
    apply (coherent_change dead s _ q (MnodeCorrect.taken n)); try done.
    intros Hv Hnd. specialize (Hc q n Hn). destruct n; simpl in *. auto.
  - destruct Hfree as [[? [=]]|Hfree].
    destruct (find_miss_inv num fresh (lm s) held dead miss f Hi Hf Hd Hfree)
      as (m' & q & Hr & Hi' & Hq & Hns & _).
    exists (set_lm m' s), q, (renewed f), (miss + 1).
    rewrite (elift_run lm set_lm _ _ _ _ Hr). split_and!; try done; [|by right].
    apply (coherent_change dead s _ q (renewed f)); done.
Qed.

Lemma free_step `{OnodeCoder} num s held dead miss p bad :
  minv num (lm s) (p :: held) dead miss -> coherent dead s ->
  exists s' n n', on_mn (mnode_free p bad) s = Some (s', inr tt) /\
    minv num (lm s') held dead miss /\ coherent dead s' /\ same_volume s s' /\
    nodes (lm s) !! p = Some n /\ nodes (lm s') = <[p := n']> (nodes (lm s)) /\ e n' = e n /\
    new_fids [] s s'.
Proof.
  intros Hi Hc. destruct (mnode_free_inv num (lm s) (p :: held) dead miss p bad Hi)
    as (m' & n & n' & Hr & Hi' & Hn & Hns & Hfid & He & Hep & Hfs & Hfsp); [apply list_elem_of_here|].
  simpl in Hi'. rewrite decide_True in Hi' by done.
  exists (set_lm m' s), n, n'. unfold on_mn. rewrite (elift_run lm set_lm _ _ _ _ Hr).
  split_and!; try done.
  2:{ apply (new_fids_insert _ _ _ p n'); [done|]. right. by exists n. }
  apply (coherent_change dead s _ p n'); try done.
  unfold shown_ok. rewrite Hfid, He, Hfs. intros Hv Hd. destruct (Hc p n Hn Hv Hd) as [H1 H2].
  split; [auto|]. intros Hf. destruct (Hfsp Hf) as [Hf' ->]. auto.
Qed.

(** ** Rights *)

Definition parent_fid (n : mnode) : AFSFid :=
  Build_AFSFid (Volume (mfid n)) (fs_ParentVnode (fs n)) (fs_ParentUnique (fs n)).

(** The entry whose lists hold for a node. *)
Definition governing `{OnodeCoder} (s : lstate) (n : mnode) : option voldb_entry :=
  if type (e n) =? TYPE_DIR then Some (e n) else db_entry s (parent_fid n).

(** A node after its vnode was opened. *)
Lemma shown_opened `{OnodeCoder} s n n' x : db_entry s (mfid n) = Some x -> shown_ok s n ->
  kept_identity n n' -> e n' = x -> (fsp n' = true -> shown_by s x n n') -> shown_ok s n'.
Proof.
  intros Hx [_ Hs] (Hf & _) He Hst. unfold shown_ok. rewrite Hf, He, Hx. split; [done|].
  intros H'. destruct (Hst H') as [(-> & Hn & ->)|[? ->]]; [|by eauto].
  destruct (Hs Hn) as (-> & y & Hy & ?). split; [done|]. exists x. split; congruence.
Qed.

Section Rights.
Context `{OnodeCoder} `{HostChoice}.
Context (fresh : Z * mnode) (fstat_errno : Z -> Z).
Context (num : nat) (s : lstate) (held : list Z) (dead : list AFSFid) (miss p : Z) (n : mnode).
Context (Hi : minv num (lm s) held dead miss) (Hc : coherent dead s).
Context (Hp : p ∈ held) (Hn : nodes (lm s) !! p = Some n) (Hvol : Volume (mfid n) = lvol s).

(** The parent's node, opened; or EACCES with the parent given back. *)
Lemma rights_node_step d :
  type (e n) <> TYPE_DIR -> parent_fid n ∉ dead -> parent_fid n <> mfid n ->
  is_Some (htab (lm s) !! parent_fid n) \/ (exists q, q ∈ lru (lm s) /\ (q ∉ held)) ->
  db_entry s (parent_fid n) = Some (Entry TYPE_DIR (u_dir d)) -> onode_wf (ino (dfile d)) ->
  exists s' r miss', rights_node fresh fstat_errno p n s = Some (s', r) /\
    coherent dead s' /\ same_volume s s' /\ nodes (lm s') !! p = Some n /\ new_fids [parent_fid n] s s' /\
    match r with
    | inr q => minv num (lm s') (q :: held) dead miss' /\ q <> p /\
        exists nq, nodes (lm s') !! q = Some nq /\ e nq = Entry TYPE_DIR (u_dir d)
    | inl err => err = EACCES /\ minv num (lm s') held dead miss'
    end.
Proof.
  intros Ht Hpd Hpf Hfree Hx Ho. unfold rights_node. rewrite (proj2 (Z.eqb_neq _ _) Ht).
  fold (parent_fid n). cbv zeta.
  destruct (find_step num fresh s held dead miss (parent_fid n) Hi Hc Hpd Hfree)
    as (s1 & q & n1 & miss1 & Hr1 & Hi1 & Hc1 & Hv1 & Hns1 & Hf1 & Hq1).
  assert (Hqp : q <> p).
  { intros ->. destruct Hq1 as [Hq1|]; [|done]. apply Hpf.
    destruct (mi_key _ _ _ _ _ Hi _ _ Hq1) as (m & Hm & <-). congruence. }
  unfold emap_err at 1, etry at 1. unfold ebind at 1 2. rewrite Hr1. unfold eret at 1.
  assert (Hn1 : nodes (lm s1) !! q = Some n1) by (rewrite Hns1; apply lookup_insert_eq).
  rewrite <- (db_entry_same s s1), <- Hf1 in Hx by done.
  assert (Hvf : Volume (mfid n1) = lvol s1) by (rewrite Hf1; etransitivity; [exact Hvol|symmetry; apply Hv1]).
  assert (Hsh : shown_ok s1 n1) by (apply (Hc1 q n1 Hn1 Hvf); by rewrite Hf1).
  destruct (open_vnode_step fstat_errno s1 q VOLOP_GETSTATUS n1 _ Hn1 Hx) as
    (h2 & r2 & n2 & Hr2 & Hk2 & Hep2 & He2 & _ & Hst2); [done|done| |].
  { intros Hep. rewrite (proj1 Hsh Hep) in Hx. by injection Hx. }
  set (s2 := with_node q n2 h2 s1) in *.
  assert (Hp2 : nodes (lm s2) !! p = Some n).
  { unfold s2, with_node. cbn [lm set_lm nodes]. by rewrite lookup_insert_ne, Hns1, lookup_insert_ne. }
  assert (Hi2 : minv num (lm s2) (q :: held) dead miss1) by (by eapply minv_with_node).
  assert (Hv2 : same_volume s1 s2) by apply same_volume_set_lm.
  assert (Hc2 : coherent dead s2).
  { apply (coherent_change dead s1 s2 q n2); [done..|]. intros _ _.
    by apply (shown_opened s1 n1 n2 _ Hx Hsh). }
  assert (Hw2 : new_fids [parent_fid n] s s2).
  { apply (new_fids_trans _ _ s1).
    - apply (new_fids_insert _ _ _ q n1 Hns1). left. rewrite Hf1. left.
    - apply (new_fids_insert _ _ _ q n2); [done|]. right. exists n1. split; [done|apply Hk2]. }
  destruct r2 as [e2|[]].
  - destruct (free_step num s2 held dead miss1 q false Hi2 Hc2)
      as (s3 & _ & n3 & Hr3 & Hi3 & Hc3 & Hv3 & _ & Hns3 & _ & Hw3).
    exists s3, (inl EACCES), miss1. split.
    { unfold emap_err at 1, etry, eonerr. unfold ebind at 1 2. rewrite Hr2, Hr3. done. }
    split_and!; try done; [by eapply same_volume_trans|by rewrite Hns3, lookup_insert_ne|].
    eapply new_fids_trans; [exact Hw2|]. intros q' m Hm. destruct (Hw3 q' m Hm) as [[]%elem_of_nil|?]; by right.
  - exists s2, (inr q), miss1. split.
    { unfold emap_err at 1, etry, eonerr. unfold ebind at 1 2. rewrite Hr2. unfold eret at 1 2.
      lrun (node_step s2 q n2 (with_node_lookup _ _ _ _)). by rewrite Hep2. }
    split_and!; try done.
    exists n2. split; [apply with_node_lookup|done].
Qed.

Lemma check_rights_run m sc ids d :
  ep n = true -> fsp n = true -> loop m <= 1 -> sec m = Some sc -> cps sc = Some ids ->
  governing s n = Some (Entry TYPE_DIR (u_dir d)) -> onode_wf (ino (dfile d)) ->
  (type (e n) <> TYPE_DIR -> (parent_fid n ∉ dead) /\ parent_fid n <> mfid n /\
     (is_Some (htab (lm s) !! parent_fid n) \/ exists q, q ∈ lru (lm s) /\ (q ∉ held))) ->
  exists s' r miss', vld_check_rights fresh fstat_errno p m s = Some (s', r) /\
    minv num (lm s') held dead miss' /\ coherent dead s' /\ same_volume s s' /\ nodes (lm s') !! p = Some n /\
    (new_fids (if type (e n) =? TYPE_DIR then [] else [parent_fid n]) s s') /\
    ((let '(m', ret) := check_dir_rights d ids m (superuser sc) in
      r = if ret =? 0 then inr m' else inl ret) \/
     (type (e n) <> TYPE_DIR /\ r = inl EACCES)).
Proof.
  intros Hep Hfsp Hloop Hsec Hcps Hg Ho Hpar. unfold vld_check_rights.
  lrun (node_step s p n Hn). rewrite Hfsp, Hep, (proj2 (Z.leb_le _ _) Hloop), Hsec.
  unfold eassert, eopt at 1. rewrite !ebind_ret, Hcps.
  destruct (check_dir_rights d ids m (superuser sc)) as [m' ret] eqn:Hch.
  unfold governing in Hg. destruct (type (e n) =? TYPE_DIR) eqn:Ht.
  - injection Hg as He. exists s, (if ret =? 0 then inr m' else inl ret), miss. split.
    { rewrite (ebind_ok _ _ s s p) by (unfold rights_node; by rewrite Ht).
      lrun (node_step s p n Hn). rewrite He. cbn [u eopt]. rewrite ebind_ret, Hch, Z.eqb_refl.
      by destruct (ret =? 0). }
    split_and!; try done; [apply new_fids_refl|by left].
  - apply Z.eqb_neq in Ht. destruct (Hpar Ht) as (Hpd & Hpf & Hfree).
    destruct (rights_node_step d Ht Hpd Hpf Hfree Hg Ho) as (s1 & r1 & miss1 & Hr1 & Hc1 & Hv1 & Hp1 & Hw1 & Hres).
    destruct r1 as [err|q].
    + destruct Hres as [-> Hi1]. exists s1, (inl EACCES), miss1.
      rewrite (ebind_err _ _ _ _ _ Hr1). split_and!; try done. by right.
    + destruct Hres as (Hi1 & Hqp & nq & Hnq & Heq). lrun Hr1. lrun (node_step s1 q nq Hnq).
      rewrite Heq. cbn [u eopt]. rewrite ebind_ret, Hch, (proj2 (Z.eqb_neq q p) Hqp).
      destruct (free_step num s1 held dead miss1 q false Hi1 Hc1)
        as (s2 & _ & n2 & Hr2 & Hi2 & Hc2 & Hv2 & _ & Hns2 & _ & Hw2).
      exists s2, (if ret =? 0 then inr m' else inl ret), miss1. lrun Hr2.
      split_and!; try done;
        [by destruct (ret =? 0)|by eapply same_volume_trans|by rewrite Hns2, lookup_insert_ne| |by left].
      eapply new_fids_trans; [exact Hw1|]. intros q' m0 Hm. destruct (Hw2 q' m0 Hm) as [[]%elem_of_nil|?]; by right.
Qed.

(** C5: In a state in which the cache is in order and agrees with the
    databases of the volume, the rights of a directory are those its own access lists give
    and the rights of a file those of its parent's entry in the database of
    directories: the answer is the one of [check_dir_rights] on that entry, or
    EACCES when the parent of a file cannot be opened.  The check always
    returns, the counters of all nodes are what they were, the databases are
    not changed and the cache still agrees with them. *)
Theorem vld_check_rights_correct m sc ids d :
  ep n = true -> fsp n = true -> loop m <= 1 -> sec m = Some sc -> cps sc = Some ids ->
  governing s n = Some (Entry TYPE_DIR (u_dir d)) -> onode_wf (ino (dfile d)) ->
  (type (e n) <> TYPE_DIR -> (parent_fid n ∉ dead) /\ parent_fid n <> mfid n /\
     (is_Some (htab (lm s) !! parent_fid n) \/ exists q, q ∈ lru (lm s) /\ (q ∉ held))) ->
  exists s' r miss', vld_check_rights fresh fstat_errno p m s = Some (s', r) /\
    minv num (lm s') held dead miss' /\ coherent dead s' /\ same_volume s s' /\
    ((let '(m', ret) := check_dir_rights d ids m (superuser sc) in
      r = if ret =? 0 then inr m' else inl ret) \/
     (type (e n) <> TYPE_DIR /\ r = inl EACCES)).
Proof.
  intros Hep Hfsp Hloop Hsec Hcps Hg Ho Hpar.
  destruct (check_rights_run m sc ids d Hep Hfsp Hloop Hsec Hcps Hg Ho Hpar)
    as (s' & r & miss' & Hr & Hi' & Hc' & Hv & _ & _ & Hres). by exists s', r, miss'.
Qed.
End Rights.
