(* ===== verification/VldModify.v ===== *)
(** * The volume layer: changes of a vnode

    [vld_modify_vnode] and the change of the size of the volume: what is
    stored in the database, accounted to the volume, done to the host file and
    shown in the status. *)

From S2P Require Import Prelude Estate Buf Fdir Vnum Mdir Voldb VoldbRep VoldbFree VoldbOps.
From S2P Require Import VoldbCorrect VoldbSim Vrights Svol SvolCorrect Mnode MnodeCorrect Vinfo.
From S2P Require Import VinfoCorrect Vld VldCorrect.

Local Open Scope em_scope.

(** ** Steps of the host and of the info *)

Lemma set_lhost_run {A} (m : HM A) s h r :
  m (lhost s) = Some (h, r) -> on_hostfs m s = Some (set_lhost h s, r).
Proof. intros Hm. unfold on_hostfs. by rewrite (elift_run lhost set_lhost _ _ _ _ Hm). Qed.

(** The volume with the size [v]. *)
Definition sized (v : Z) (s : lstate) : lstate :=
  LState (lm s) (linfop s) (set_vi_size v (linfo s)) (lsino s) (lpart s) (lvol s) (lvoldbp s)
    (ldir s) (lfile s).

Section Info.
Context `{InfoCoderOk} `{HostChoice}.

Lemma with_sino_total {A} (op : Z -> HM A) v :
  onode_wf (Vinfo.sino v) -> (forall fd h, exists h' r, op fd h = Some (h', r)) ->
  exists h r, with_sino op v = Some (set_vhost h v, r).
Proof.
  intros Ho Hop. unfold with_sino. rewrite ebind_get. unfold ihost.
  destruct (svol_iopen_total (vpart v) (Vinfo.sino v) (vhost v) Ho) as (h1 & r1 & Hr1).
  destruct r1 as [e1|fd].
  { exists h1, (inl e1). by rewrite (ebind_err _ _ _ _ _ (elift_run vhost set_vhost _ _ _ _ Hr1)). }
  lrun (elift_run vhost set_vhost _ _ _ _ Hr1).
  destruct (Hop fd h1) as (h2 & r2 & Hr2).
  exists (Host (hdirs h2) (hnames h2) (hfiles h2) (delete fd (hfds h2)) (hos h2)), r2.
  assert (Ht : etry (elift vhost set_vhost (op fd)) (set_vhost h1 v) = Some (set_vhost h2 v, inr r2)).
  { unfold etry. by rewrite (elift_run vhost set_vhost _ (set_vhost h1 v) h2 r2 Hr2). }
  lrun Ht.
  rewrite (ebind_ok _ _ _ _ _ (elift_run vhost set_vhost (hclose fd) (set_vhost h2 v) _ (inr tt) eq_refl)).
  by destruct r2.
Qed.

Lemma vol_write_header_total i fd h : info_wf i -> exists h' r, vol_write_header fd i h = Some (h', r).
Proof.
  intros Hi. unfold vol_write_header. lrun (hsys_run h).
  destruct (negb (hd 0 (hos h) =? 0)); [by eexists _, _|].
  destruct (info_encode_ok i Hi) as (b & -> & _). unfold eopt. rewrite ebind_ret.
  unfold hwrite. unfold ebind at 1 2. rewrite hsys_run.
  destruct (negb _); [unfold eret at 1; destruct (negb _); by eexists _, _|]. rewrite ebind_get.
  destruct (hfds _ !! fd); [rewrite ebind_mod|]; unfold eret at 1; destruct (negb _);
    by eexists _, _.
Qed.

(** The size of the volume: refused, or changed in the handle; the result of
    the write is the result. *)
Lemma update_volsize_step s diff :
  linfop s = true -> info_wf (linfo s) -> onode_wf (lsino s) ->
  let sz := vi_size (linfo s) + diff in is_int32 sz -> 0 <= sz ->
  if maxquota (linfo s) <? sz then on_info (vld_update_volsize diff) s = Some (s, inl VOVERQUOTA)
  else exists h r, on_info (vld_update_volsize diff) s = Some (set_lhost h (sized sz s), r).
Proof.
  intros Hip Hwf Ho sz Hsz Hpos. unfold on_info, elift, vld_update_volsize.
  rewrite (ebind_ok _ _ _ _ _ (uptodate_cached (linfos s) Hip)), ebind_get.
  unfold over_quota. cbn [linfos info]. fold sz. rewrite swrap32_small by done.
  destruct (maxquota (linfo s) <? sz).
  - unfold efail. f_equal. f_equal. by destruct s as [[] ? ? ? ? ? ? ? ?].
  - rewrite ebind_mod. rewrite (proj2 (Z.leb_le 0 sz) Hpos). unfold eassert. rewrite ebind_ret.
    unfold vld_info_write. rewrite ebind_get.
    set (v := set_info (set_vi_size sz (linfo s)) (linfos s)).
    change (set_info (set_vi_size sz (info (linfos s))) (linfos s)) with v.
    destruct (with_sino_total (fun fd => vol_write_header fd (info v)) v) as (h & r & ->).
    + done.
    + intros fd h. apply vol_write_header_total. by apply info_wf_size.
    + exists h, r. done.
Qed.
End Info.

Lemma hftruncate_total fd len h :
  exists h' c, hftruncate fd len h = Some (h', inr c) /\
    (c = 0 -> exists i, hfds h' !! fd = Some i /\ 0 <= len /\
       blen (default [] (hfiles h' !! i)) = len).
Proof.
  unfold hftruncate. lrun (hsys_run h).
  destruct (negb (hd 0 (hos h) =? 0)); [by eexists _, (-1)|]. rewrite ebind_get.
  destruct (hfds (next h) !! fd) as [i|] eqn:Hi; [|by eexists _, (-1)].
  destruct (Z.ltb_spec len 0); [by eexists _, (-1)|]. rewrite ebind_mod.
  eexists _, 0. split; [reflexivity|]. intros _. exists i. split_and!; [exact Hi|done|].
  cbn [hfiles]. rewrite lookup_insert_eq. cbn [default]. unfold blen, resize, default, id.
  rewrite length_app, length_take, length_replicate. lia.
Qed.

(** ** The status of a node whose size is known *)

Lemma node_content_refresh n m h :
  node_content (host_content (mfd n) (node_content h n) h) m = node_content h m.
Proof.
  unfold host_content. destruct (hfds h !! mfd n) as [i|] eqn:Hi; [|done].
  unfold node_content. rewrite Hi. cbn [hfds hfiles]. destruct (hfds h !! mfd m) as [j|]; [|done].
  destruct (decide (j = i)) as [->|Hne]; [by rewrite lookup_insert_eq|by rewrite lookup_insert_ne].
Qed.

Section Status.
Context `{OnodeCoder} `{HostChoice} (fstat_errno : Z -> Z).

(** The node with the status of the entry [x]. *)
Definition shown (s : lstate) (x : voldb_entry) (n : mnode) : mnode :=
  set_fsp true (set_fs (fill_status (creationDate (linfo s)) (fent x)
    (set_fs_Length (st_size n) (fs n))) n).

Lemma ent_to_fetchstatus_cached s p n x :
  nodes (lm s) !! p = Some n -> ep n = true -> sbp n = true -> fsp n = false -> typed x ->
  vld_ent_to_fetchstatus fstat_errno x p s =
    Some (with_node p (shown s x n) (host_content (mfd n) (node_content (lhost s) n) (lhost s)) s,
          inr tt).
Proof.
  intros Hn Hep Hb Hf Hx. unfold vld_ent_to_fetchstatus. lrun (node_step s p n Hn).
  rewrite Hf, Hep. unfold eassert at 1. rewrite ebind_ret.
  set (h := host_content (mfd n) (node_content (lhost s) n) (lhost s)).
  set (n1 := set_fs (set_fs_Length (st_size n) (fs n)) n).
  assert (Hr1 : on_mdir p (mnode_update_size_cached fstat_errno) s = Some (with_node p n1 h s, inr 0)).
  { unfold on_mdir. lrun (node_step s p n Hn). rewrite ebind_get.
    unfold mnode_update_size_cached. change (Mdir.sbp (as_mdir (lhost s) n)) with (sbp n).
    rewrite Hb. unfold eopt. rewrite ebind_ret. cbn [fst snd].
    assert (Hy : from_mdir (Mdir.set_size (as_mdir (lhost s) n) true (Mdir.st_size (as_mdir (lhost s) n))) n = n1).
    { unfold n1. destruct n; simpl in *. by subst. }
    rewrite Hy. rewrite (ebind_ok _ _ s (with_node p n1 (lhost s) s) tt).
    2:{ unfold on_mn. by rewrite (elift_run lm set_lm _ _ _ _ (put_node_run p n1 (lm s))). }
    done. }
  set (n2 := set_fs (fill_status (creationDate (linfo s)) (fent x) (fs n1)) n1).
  assert (Hr2 : vld_fent_to_fetchstatus fstat_errno (fent x) p s = Some (with_node p n2 h s, inr tt)).
  { unfold vld_fent_to_fetchstatus, echeck. unfold ebind at 1 2. rewrite Hr1, Z.eqb_refl.
    unfold eret at 1. rewrite ebind_get.
    rewrite (upd_step _ p n1 (with_node_lookup _ _ _ _)), with_node_with_node. done. }
  rewrite (ebind_ok _ _ s (with_node p n2 h s) tt).
  - rewrite (upd_step _ p n2 (with_node_lookup _ _ _ _)), with_node_with_node.
    unfold shown, n2, n1. by destruct n as [? ? ? [] ? ? ? ? ? ? ? ?].
  - unfold typed, fent in *. destruct (u x).
    + rewrite Hx, Z.eqb_refl. exact Hr2.
    + replace ((type x =? TYPE_FILE) || (type x =? TYPE_LINK)) with true; [exact Hr2|].
      by destruct Hx as [-> | ->].
Qed.
End Status.

(** ** The entry of a vnode in its database *)

(** The vnode [f] has the used entry [k] of the database [d]. *)
Record vnode_at `{OnodeCoderOk} (s : lstate) (f : AFSFid) (dirp : bool) (k : Z) (d : voldb)
    (fl : list Z) : Prop := {
  va_number : db_number f = Some (dirp, k);
  va_db : ldb dirp s = Some d;
  va_ok : voldb_ok d fl;
  va_kind : if dirp then is_dir_db d else is_file_db d;
  va_range : 0 <= k < num d;
  va_used : k ∉ fl
}.

(** An entry that can be stored: of the kind of the database and of words of
    32 bits. *)
Record storable (dirp : bool) (x : voldb_entry) : Prop := {
  st_union : match u x with u_dir _ => dirp = true | u_file _ => dirp = false end;
  st_typed : typed x;
  st_FileType : FileType (fent x) = type x;
  st_wf : entry_wf (fent x);
  st_next : nextptr (fent x) = VOLDB_ENTRY_USED
}.

Section Put.
Context `{OnodeCoderOk}.

Lemma put_entry_run (dirp : bool) d fl k x :
  voldb_ok d fl -> (if dirp then is_dir_db d else is_file_db d) -> 0 <= k < num d ->
  storable dirp x -> voldb_put_entry k x d = Some (put_slot k (fent x) d, inr tt).
Proof.
  intros Hok Hkd Hk [Hu Ht Hft Hwf _]. pose proof (ok_wf _ _ Hok) as Hdb.
  pose proof (num_small d Hdb) as Hs. change VOLDB_ENTRY_USED with (2^32 - 2) in Hs.
  unfold voldb_put_entry. rewrite vbind_get. unfold fent, typed in *.
  rewrite uwrap32_small by (unfold is_uint32; lia).
  destruct (u x) as [f|f]; subst dirp.
  - rewrite Ht, Hft, Ht. pose proof Hkd as (_ & _ & _ & ->). rewrite !Z.eqb_refl.
    exact (put_dir_ok d k f Hdb Hkd Hk (proj2 Hwf)).
  - rewrite Hft, Z.eqb_refl. pose proof Hkd as (_ & _ & -> & _). rewrite Z.eqb_refl.
    replace ((type x =? TYPE_FILE) || (type x =? TYPE_LINK)) with true by (by destruct Ht as [-> | ->]).
    exact (put_file_ok d k f Hdb Hkd Hk (proj2 Hwf)).
Qed.

Lemma on_db_run {A} dirp (m : VM A) s d d' r :
  ldb dirp s = Some d -> m d = Some (d', r) -> on_db dirp m s = Some (set_ldb dirp d' s, r).
Proof. intros Hd Hr. unfold on_db. rewrite Hd. simpl. by rewrite Hr. Qed.
End Put.

(** ** [vld_modify_vnode] *)

Definition modified (now flags : Z) (len : option Z) (x : voldb_entry) : voldb_entry :=
  let x := match len with Some l => upd_fent (set_Length (uwrap32 l)) x | None => x end in
  if writes flags then upd_fent (touch now) x else x.

Lemma uwrap32_uint32 z : is_uint32 (uwrap32 z).
Proof. apply Z.mod_pos_bound. lia. Qed.

Lemma storable_upd `{OnodeCoderOk} dirp x f :
  storable dirp x -> (forall y, entry_wf y -> entry_wf (f y)) ->
  (forall y, FileType (f y) = FileType y /\ nextptr (f y) = nextptr y) ->
  storable dirp (upd_fent f x).
Proof.
  intros [Hu Ht Hft Hwf Hn] Hfw Hff. unfold upd_fent.
  assert (E : fent (upd_fent f x) = f (fent x)) by (unfold upd_fent, fent; by destruct (u x)).
  unfold upd_fent in E. split; rewrite ?E.
  - simpl. by destruct (u x).
  - unfold typed in *. simpl. by destruct (u x).
  - rewrite (proj1 (Hff _)). done.
  - by apply Hfw.
  - by rewrite (proj2 (Hff _)).
Qed.

(** A store of a word of 32 bits into an entry. *)
Ltac entry_wf_set :=
  let Hw := fresh in let Ho := fresh in let y := fresh in
  intros y [Hw Ho]; destruct y; split; [|exact Ho]; unfold entry_words in *; cbn in Hw |- *;
  repeat (let Hh := fresh in apply Forall_cons in Hw as [Hh Hw]);
  repeat (apply Forall_cons; split; [assumption|]); constructor.

Section EntryWf.
Context `{OnodeCoderOk} (v : Z) (Hv : is_uint32 v).
Lemma set_Length_wf y : entry_wf y -> entry_wf (set_Length v y).
Proof. revert y. entry_wf_set. Qed.
Lemma set_DataVersion_wf y : entry_wf y -> entry_wf (set_DataVersion v y).
Proof. revert y. entry_wf_set. Qed.
Lemma set_ServerModTime_wf y : entry_wf y -> entry_wf (set_ServerModTime v y).
Proof. revert y. entry_wf_set. Qed.
Lemma set_LinkCount_wf y : entry_wf y -> entry_wf (set_LinkCount v y).
Proof. revert y. entry_wf_set. Qed.
Lemma set_FileType_wf y : entry_wf y -> entry_wf (set_FileType v y).
Proof. revert y. entry_wf_set. Qed.
Lemma set_Owner_wf y : entry_wf y -> entry_wf (set_Owner v y).
Proof. revert y. entry_wf_set. Qed.
Lemma set_Author_wf y : entry_wf y -> entry_wf (set_Author v y).
Proof. revert y. entry_wf_set. Qed.
Lemma set_Group_wf y : entry_wf y -> entry_wf (set_Group v y).
Proof. revert y. entry_wf_set. Qed.
Lemma set_UnixModeBits_wf y : entry_wf y -> entry_wf (set_UnixModeBits v y).
Proof. revert y. entry_wf_set. Qed.
Lemma set_SegSize_wf y : entry_wf y -> entry_wf (set_SegSize v y).
Proof. revert y. entry_wf_set. Qed.
Lemma set_Parent_wf w y : is_uint32 w -> entry_wf y -> entry_wf (set_Parent v w y).
Proof. intros Hw'. revert y. entry_wf_set. Qed.
Lemma set_ino_wf o y : onode_wf o -> entry_wf y -> entry_wf (set_ino o y).
Proof. intros Ho' [Hw _]. destruct y. by split. Qed.
End EntryWf.
Create HintDb entry_wf.
#[export] Hint Resolve set_Length_wf set_DataVersion_wf set_ServerModTime_wf set_LinkCount_wf
  set_FileType_wf set_Owner_wf set_Author_wf set_Group_wf set_UnixModeBits_wf set_SegSize_wf
  set_Parent_wf set_ino_wf uwrap32_uint32 : entry_wf.

Lemma storable_modified `{OnodeCoderOk} dirp now flags len x :
  storable dirp x -> storable dirp (modified now flags len x).
Proof.
  intros Hx. unfold modified.
  assert (H1 : storable dirp (match len with
    | Some l => upd_fent (set_Length (uwrap32 l)) x | None => x end)).
  { destruct len as [l|]; [|done]. apply storable_upd; [done| |by intros []]. eauto with entry_wf. }
  destruct (writes flags); [|done]. apply storable_upd; [done| |by intros []].
  unfold touch. eauto with entry_wf.
Qed.

Definition status_wf (ss : AFSStoreStatus) : Prop :=
  is_uint32 (ClientModTime ss) /\ is_uint32 (ss_Owner ss) /\ is_uint32 (ss_Group ss) /\
  is_uint32 (ss_UnixModeBits ss) /\ is_uint32 (ss_SegSize ss).

Lemma when_wf `{OnodeCoderOk} (b : bool) f e :
  entry_wf e -> (entry_wf e -> entry_wf (f e)) -> entry_wf (when b f e).
Proof. destruct b; auto. Qed.

Lemma land_uint32 a b : is_uint32 a -> is_uint32 b -> is_uint32 (Z.land a b).
Proof.
  unfold is_uint32. intros Ha Hb. split; [apply Z.land_nonneg; lia|].
  rewrite <- (Z.mod_small a (2^32)), <- Z.land_ones by lia.
  rewrite <- Z.land_assoc, (Z.land_comm (Z.ones 32)), Z.land_assoc, Z.land_ones by lia.
  apply Z.mod_pos_bound. lia.
Qed.

Lemma store_fields_wf `{OnodeCoderOk} mode ss e :
  is_uint32 mode -> status_wf ss -> entry_wf e -> entry_wf (store_fields mode ss e).
Proof.
  intros Hm (H1' & H2' & H3' & H4' & H5') He. unfold store_fields.
  pose proof (land_uint32 _ _ Hm H4').
  repeat (apply when_wf; [|eauto with entry_wf]). done.
Qed.

(** Storing a status into an entry that can be stored. *)
Lemma storestatus_storable `{OnodeCoderOk} dirp x ss :
  storable dirp x -> status_wf ss ->
  exists x1, vld_storestatus_to_ent x ss = Some x1 /\ storable dirp x1 /\
    Length (fent x1) = Length (fent x).
Proof.
  intros Hx Hss. pose proof Hx as [Hu Ht _ _ _]. unfold typed in Ht.
  assert (Hf : forall mode y, FileType (store_fields mode ss y) = FileType y /\
    nextptr (store_fields mode ss y) = nextptr y).
  { intros mode y. unfold store_fields, when. destruct y. by repeat case_match. }
  assert (Hl : forall mode y, Length (store_fields mode ss y) = Length y).
  { intros mode y. unfold store_fields, when. destruct y. by repeat case_match. }
  assert (Hmode : is_uint32 (8^4 - 1) /\ is_uint32 (8^3 - 1)) by (unfold is_uint32; lia).
  destruct x as [t [d|f]]; unfold vld_storestatus_to_ent; cbn [u type] in *.
  - rewrite (proj2 (Z.eqb_eq _ _) Ht). eexists. split; [reflexivity|]. split.
    + apply (storable_upd dirp (Entry t (u_dir d)) (store_fields (8^4 - 1) ss)); [done| |auto].
      intros y. apply store_fields_wf; tauto.
    + apply Hl.
  - replace ((t =? TYPE_FILE) || (t =? TYPE_LINK)) with true by (by destruct Ht as [-> | ->]).
    eexists. split; [reflexivity|]. split.
    + apply (storable_upd dirp (Entry t (u_file f)) (store_fields (8^3 - 1) ss)); [done| |auto].
      intros y. apply store_fields_wf; tauto.
    + apply Hl.
Qed.

Lemma kib_diff_eq len L :
  0 <= len < 2^31 -> is_uint32 L -> kib_diff len L = len / 1024 - L / 1024 /\
  -2^22 <= kib_diff len L <= 2^22.
Proof.
  unfold is_uint32. intros Hlen HL.
  assert (H1 : 0 <= len / 1024 <= 2^21) by (split; [apply Z.div_pos|apply Z.div_le_upper_bound]; lia).
  assert (H2 : 0 <= L / 1024 <= 2^22) by (split; [apply Z.div_pos|apply Z.div_le_upper_bound]; lia).
  assert (E : kib_diff len L = len / 1024 - L / 1024); [|lia].
  unfold kib_diff. rewrite Z.quot_div_nonneg by lia.
  rewrite uwrap32_small by (unfold is_uint32; lia). apply swrap32_small. unfold is_int32. lia.
Qed.

Section Modify.
Context `{OnodeCoderOk} `{InfoCoderOk} `{HostChoice}.
Context (fstat_errno : Z -> Z).

(** The info is read and can be written. *)
Record info_ready (s : lstate) : Prop := {
  ir_infop : linfop s = true;
  ir_wf : info_wf (linfo s);
  ir_sino : onode_wf (lsino s);
  ir_size : 0 <= vi_size (linfo s)
}.

Lemma info_ready_sized s h v :
  info_ready s -> is_int32 v -> 0 <= v -> info_ready (set_lhost h (sized v s)).
Proof.
  intros [H1' H2' H3' H4'] Hv Hp. split; try done.
  - by apply info_wf_size.
  - simpl. destruct (linfo s). done.
Qed.

Lemma vi_size_sized v s : vi_size (linfo (sized v s)) = v.
Proof. unfold sized. simpl. by destruct (linfo s). Qed.

Lemma modify_length_step s p n len :
  nodes (lm s) !! p = Some n -> info_ready s -> 0 <= len < 2^31 -> is_uint32 (Length (fent (e n))) ->
  let diff := len / 1024 - Length (fent (e n)) / 1024 in
  let sz := vi_size (linfo s) + diff in
  is_int32 sz -> 0 <= sz ->
  exists s' r, modify_length p len s = Some (s', r) /\
    match r with
    | inr _ => sz <= maxquota (linfo s) /\ exists h,
        s' = with_node p (set_sb (sbp n) len (set_e (upd_fent (set_Length (uwrap32 len)) (e n)) n)) h
               (sized sz s) /\
        blen (node_content h n) = len
    | inl err => ldir s' = ldir s /\ lfile s' = lfile s /\ nodes (lm s') = nodes (lm s) /\
        (maxquota (linfo s) < sz -> err = VOVERQUOTA /\ s' = s)
    end.
Proof.
  intros Hn Hi Hlen HL diff sz Hsz Hpos. destruct (kib_diff_eq len _ Hlen HL) as [Hd Hdr].
  fold diff in Hd. unfold modify_length. rewrite ebind_get, (ir_infop _ Hi). unfold eassert.
  rewrite ebind_ret. lrun (node_step s p n Hn). rewrite Hd.
  pose proof (update_volsize_step s diff (ir_infop _ Hi) (ir_wf _ Hi) (ir_sino _ Hi) Hsz Hpos) as Hup.
  fold sz in Hup. destruct (maxquota (linfo s) <? sz) eqn:Hq.
  { exists s, (inl VOVERQUOTA). rewrite (ebind_err _ _ _ _ _ Hup). by split_and!. }
  zbool. destruct Hup as (h1 & r1 & Hr1). destruct r1 as [e1|[]].
  { eexists _, (inl e1). rewrite (ebind_err _ _ _ _ _ Hr1). split_and!; try done. lia. }
  lrun Hr1. set (s1 := set_lhost h1 (sized sz s)) in *.
  destruct (hftruncate_total (mfd n) len (lhost s1)) as (h2 & c & Hr2 & Hc).
  lrun (set_lhost_run _ _ _ _ Hr2). destruct (Z.eqb_spec c 0) as [E|E]; cbn [negb].
  - set (n' := set_sb (sbp n) len (set_e (upd_fent (set_Length (uwrap32 len)) (e n)) n)).
    exists (with_node p n' h2 (sized sz s)), (inr tt). split.
    { rewrite (upd_step (set_lhost h2 s1) p n Hn). done. }
    split; [done|]. exists h2. split; [done|].
    destruct (Hc E) as (i & Hfd & _ & Hb). unfold node_content. by rewrite Hfd.
  - assert (Hneg : swrap32 (- diff) = - diff) by (apply swrap32_small; unfold is_int32; lia).
    rewrite Hneg.
    assert (Hsz1 : vi_size (linfo (set_lhost h2 s1)) = sz) by apply vi_size_sized.
    pose proof (update_volsize_step (set_lhost h2 s1) (- diff)) as Hup.
    cbv zeta in Hup. rewrite Hsz1 in Hup. replace (sz + - diff) with (vi_size (linfo s)) in Hup by lia.
    pose proof (info_ready_sized s h1 sz Hi Hsz Hpos) as [I1 I2 I3 _].
    assert (Hint : is_int32 (vi_size (linfo s))).
    { pose proof (ir_wf _ Hi) as (_ & _ & Hw & _). rewrite !Forall_cons in Hw. tauto. }
    specialize (Hup I1 I2 I3 Hint (ir_size _ Hi)).
    exists (if maxquota (linfo s) <? vi_size (linfo s) then set_lhost h2 s1 else
            set_lhost (match on_info (vld_update_volsize (- diff)) (set_lhost h2 s1) with
                       | Some (x, _) => lhost x | None => h2 end)
              (sized (vi_size (linfo s)) (set_lhost h2 s1))), (inl c).
    assert (Hmq : maxquota (linfo (set_lhost h2 s1)) = maxquota (linfo s)).
    { unfold s1, sized. simpl. by destruct (linfo s). }
    rewrite Hmq in Hup. unfold eignore. unfold ebind at 1.
    destruct (maxquota (linfo s) <? vi_size (linfo s)).
    + rewrite Hup. split; [done|]. split_and!; try done. lia.
    + destruct Hup as (h3 & r3 & Hr3). rewrite Hr3. split; [done|]. split_and!; try done. lia.
Qed.

Context (s : lstate) (p : Z) (n : mnode) (dirp : bool) (k : Z) (d : voldb) (fl : list Z).
Context (Hn : nodes (lm s) !! p = Some n) (Hfd : fdp n = true) (Hep : ep n = true).
Context (Hsb : sbp n = true) (Hat : vnode_at s (mfid n) dirp k d fl) (Hst : storable dirp (e n)).

(** The entry with the status that is stored. *)
Definition with_status (ss : option AFSStoreStatus) (x : voldb_entry) : option voldb_entry :=
  match ss with
  | Some ss => if Mask ss =? 0 then Some x else vld_storestatus_to_ent x ss
  | None => Some x
  end.

Lemma modify_status_step ss :
  match ss with Some ss => status_wf ss | None => True end ->
  exists x1, with_status ss (e n) = Some x1 /\ storable dirp x1 /\
    Length (fent x1) = Length (fent (e n)) /\
    (match ss with
     | Some ss => if Mask ss =? 0 then eret tt else
         x <-- eopt (vld_storestatus_to_ent (e n) ss) ;; on_mn (upd_node p (set_e x))
     | None => eret tt
     end) s = Some (with_node p (set_e x1 n) (lhost s) s, inr tt).
Proof.
  assert (Hid : with_node p (set_e (e n) n) (lhost s) s = s).
  { rewrite <- (with_node_id p n s Hn) at 3. by destruct n. }
  destruct ss as [ss|]; intros Hw; unfold with_status.
  - destruct (storestatus_storable dirp (e n) ss Hst Hw) as (x1 & Hx1 & Hs1 & Hl1).
    destruct (Z.eqb_spec (Mask ss) 0) as [E|E].
    + exists (e n). by rewrite Hid.
    + exists x1. split_and!; try done. rewrite Hx1. cbn [eopt]. rewrite ebind_ret.
      by rewrite (upd_step s p n Hn).
  - exists (e n). by rewrite Hid.
Qed.

(** The end of the change: the entry is stored and the status shown. *)
Lemma modify_store_step now flags s1 n1 x :
  nodes (lm s1) !! p = Some n1 -> ep n1 = true -> sbp n1 = true -> e n1 = x ->
  ldb dirp s1 = Some d -> storable dirp x ->
  let x' := modified now flags None x in
  exists h n', ((if writes flags then on_mn (upd_node p (fun n => set_e (upd_fent (touch now) (e n)) n))
                 else eret tt) ;;!
    n <-- on_mn (node p) ;;
    on_db (fst (dirp, k)) (voldb_put_entry (snd (dirp, k)) (e n)) ;;!
    on_mn (upd_node p (set_fsp false)) ;;!
    vld_ent_to_fetchstatus fstat_errno (e n) p) s1 =
      Some (with_node p n' h (set_ldb dirp (put_slot k (fent x') d) s1), inr tt) /\
    kept_identity n1 n' /\ ep n' = true /\ fsp n' = true /\ e n' = x' /\
    fs n' = fill_status (creationDate (linfo s1)) (fent x') (set_fs_Length (st_size n1) (fs n1)) /\
    (forall m, node_content h m = node_content (lhost s1) m) /\ mfd n' = mfd n1 /\ sbp n' = true /\ fdp n' = fdp n1.
Proof.
  intros Hn1 Hep1 Hsb1 Hx Hd1 Hs1 x'.
  assert (Hs' : storable dirp x') by (by apply storable_modified).
  set (n2 := set_e x' n1). unfold snd.
  assert (Hr2 : (if writes flags then on_mn (upd_node p (fun n => set_e (upd_fent (touch now) (e n)) n))
    else eret tt) s1 = Some (with_node p n2 (lhost s1) s1, inr tt)).
  { unfold n2, x', modified. rewrite <- Hx. destruct (writes flags).
    - by rewrite (upd_step s1 p n1 Hn1).
    - rewrite <- (with_node_id p n1 s1 Hn1) at 1. unfold eret. by destruct n1. }
  lrun Hr2. set (s2 := with_node p n2 (lhost s1) s1).
  lrun (node_step s2 p n2 (with_node_lookup _ _ _ _)).
  assert (He2 : e n2 = x') by (unfold n2; by destruct n1). rewrite He2. cbn [fst].
  pose proof (put_entry_run dirp d fl k x' (va_ok _ _ _ _ _ _ Hat) (va_kind _ _ _ _ _ _ Hat)
    (va_range _ _ _ _ _ _ Hat) Hs') as Hput.
  assert (Hd2 : ldb dirp s2 = Some d) by (rewrite <- Hd1; by destruct dirp).
  lrun (on_db_run dirp _ s2 d _ _ Hd2 Hput).
  set (s3 := set_ldb dirp (put_slot k (fent x') d) s2).
  assert (Hn3 : nodes (lm s3) !! p = Some n2) by apply with_node_lookup.
  lrun (upd_step s3 p n2 Hn3 (set_fsp false)). set (n3 := set_fsp false n2).
  assert (E3 : ep n3 = true /\ sbp n3 = true /\ fsp n3 = false /\ st_size n3 = st_size n1 /\
    fs n3 = fs n1 /\ mfd n3 = mfd n1 /\ e n3 = x' /\ fdp n3 = fdp n1 /\ kept_identity n1 n3).
  { unfold n3, n2, kept_identity. destruct n1; simpl in *. by split_and!. }
  destruct E3 as (E1 & E2 & E3 & E4 & E5 & E6 & E7 & E7' & E8).
  rewrite (ent_to_fetchstatus_cached fstat_errno _ p n3 x' (with_node_lookup _ _ _ _) E1 E2 E3 (st_typed _ _ Hs')).
  rewrite with_node_with_node.
  assert (Hw : forall m g, with_node p m g s3 =
    with_node p m g (set_ldb dirp (put_slot k (fent x') d) s1))
    by (intros m g; exact (with_node_with_node p n2 (lhost s1) m g (set_ldb dirp _ s1))).
  rewrite Hw. eexists _, _. split; [reflexivity|].
  assert (Hc : creationDate (linfo (with_node p n3 (lhost s3) s3)) = creationDate (linfo s1)) by done.
  unfold shown. rewrite Hc, E4, E5.
  set (f := fill_status (creationDate (linfo s1)) (fent x') (set_fs_Length (st_size n1) (fs n1))).
  assert (E9 : forall g, kept_identity n3 (set_fsp true (set_fs g n3)) /\
    ep (set_fsp true (set_fs g n3)) = ep n3 /\ fsp (set_fsp true (set_fs g n3)) = true /\
    e (set_fsp true (set_fs g n3)) = e n3 /\ fs (set_fsp true (set_fs g n3)) = g /\
    mfd (set_fsp true (set_fs g n3)) = mfd n3 /\ sbp (set_fsp true (set_fs g n3)) = sbp n3 /\
    fdp (set_fsp true (set_fs g n3)) = fdp n3) by (intros g; unfold kept_identity; by destruct n3).
  destruct (E9 f) as (F1 & -> & -> & -> & -> & -> & -> & ->).
  split_and!; try done; [by eapply kept_trans|].
  intros m. apply node_content_refresh.
Qed.

(** The length part of the change. *)
Lemma modify_len_step x1 len :
  storable dirp x1 -> Length (fent x1) = Length (fent (e n)) -> info_ready s ->
  let diff := match len with Some l => l / 1024 - Length (fent (e n)) / 1024 | None => 0 end in
  let sz := vi_size (linfo s) + diff in
  match len with Some l => 0 <= l < 2^31 | None => True end -> is_int32 sz -> 0 <= sz ->
  exists s' r, match len with Some l => modify_length p l | None => eret tt end
      (with_node p (set_e x1 n) (lhost s) s) = Some (s', r) /\
    match r with
    | inr _ => (is_Some len -> sz <= maxquota (linfo s)) /\ exists h n2,
        s' = with_node p n2 h (sized sz s) /\
        e n2 = modified 0 0 len x1 /\ ep n2 = true /\ sbp n2 = true /\ fdp n2 = true /\ fs n2 = fs n /\
        st_size n2 = default (st_size n) len /\ kept_identity n n2 /\
        match len with Some l => blen (node_content h n2) = l | None => True end
    | inl err => is_Some len /\ ldir s' = ldir s /\ lfile s' = lfile s /\
        (maxquota (linfo s) < sz -> err = VOVERQUOTA /\ linfo s' = linfo s)
    end.
Proof.
  intros Hs1 Hl1 Hi diff sz Hlen Hsz Hpos.
  set (n1 := set_e x1 n). set (s1 := with_node p n1 (lhost s) s).
  assert (E1 : e n1 = x1 /\ ep n1 = true /\ sbp n1 = true /\ fdp n1 = true /\ fs n1 = fs n /\ st_size n1 = st_size n /\
    mfd n1 = mfd n /\ kept_identity n n1) by (unfold n1, kept_identity; by destruct n).
  destruct E1 as (E1 & E2 & E3 & E3' & E4 & E5 & E6 & E7).
  destruct len as [l|].
  - assert (HL : is_uint32 (Length (fent (e n1)))).
    { rewrite E1. pose proof (st_wf _ _ Hs1) as [Hw _]. unfold entry_words in Hw.
      rewrite !Forall_cons in Hw. tauto. }
    assert (Hi1 : info_ready s1) by (destruct Hi; by split).
    pose proof (modify_length_step s1 p n1 l (with_node_lookup _ _ _ _) Hi1 Hlen HL) as Hm.
    cbv zeta in Hm. rewrite E1, Hl1 in Hm. fold diff in Hm. change (linfo s1) with (linfo s) in Hm.
    fold sz in Hm. destruct (Hm Hsz Hpos) as (s2 & r2 & Hr2 & Hres). clear Hm.
    exists s2, r2. split; [done|]. destruct r2 as [err|[]].
    { destruct Hres as (A & B & _ & D). split_and!; try done.
      intros Hq. by destruct (D Hq) as [-> ->]. }
    destruct Hres as (Hq & h2 & Hs2 & Hcont). split; [done|].
    set (n2 := set_sb (sbp n1) l (set_e (upd_fent (set_Length (uwrap32 l)) x1) n1)) in *.
    exists h2, n2. split.
    { rewrite Hs2. unfold s1. change (sized sz (with_node p n1 (lhost s) s))
        with (with_node p n1 (lhost s) (sized sz s)). by rewrite with_node_with_node. }
    assert (Hc2 : node_content h2 n2 = node_content h2 n1) by (unfold n2; by destruct n1).
    rewrite Hc2. clear Hc2 Hs2. revert E2 E3 E3' E4 E7. unfold n2, kept_identity. clear -Hcont.
    destruct n1, n; simpl in *. intros E2 E3 E3' E4 (? & ? & ? & ?). by split_and!.
  - exists s1, (inr tt). split; [done|]. split; [by intros []|]. exists (lhost s), n1.
    split_and!; try done. unfold s1, sz, diff. rewrite Z.add_0_r. unfold sized.
    destruct s as [? ? i ? ? ? ? ? ?]. simpl. by destruct i.
Qed.

(** The change as a run: on success the final state. *)
Lemma modify_run now flags ss len :
  info_ready s ->
  match ss with Some ss => status_wf ss | None => True end ->
  let diff := match len with Some l => l / 1024 - Length (fent (e n)) / 1024 | None => 0 end in
  let sz := vi_size (linfo s) + diff in
  match len with Some l => 0 <= l < 2^31 | None => True end -> is_int32 sz -> 0 <= sz ->
  exists x1, with_status ss (e n) = Some x1 /\
  let x' := modified now flags len x1 in
  storable dirp x' /\
  exists s' r, vld_modify_vnode fstat_errno now p flags ss len s = Some (s', r) /\
  match r with
  | inr _ => (is_Some len -> sz <= maxquota (linfo s)) /\
      exists h n', s' = with_node p n' h (set_ldb dirp (put_slot k (fent x') d) (sized sz s)) /\
        kept_identity n n' /\ e n' = x' /\ ep n' = true /\ fsp n' = true /\ sbp n' = true /\ fdp n' = true /\
        fs n' = fill_status (creationDate (linfo s)) (fent x')
                  (set_fs_Length (default (st_size n) len) (fs n)) /\
        match len with Some l => blen (node_content h n') = l | None => True end
  | inl err =>
      is_Some len /\ ldir s' = ldir s /\ lfile s' = lfile s /\
      (maxquota (linfo s) < sz -> err = VOVERQUOTA /\ linfo s' = linfo s)
  end.
Proof.
  intros Hi Hss diff sz Hlen Hsz Hpos.
  destruct (modify_status_step ss Hss) as (x1 & Hx1 & Hs1 & Hl1 & Hr1). exists x1. split; [done|].
  intros x'. split; [by apply storable_modified|].
  pose proof Hat as [Hnum Hdb Hok Hkd Hk Hf]. unfold vld_modify_vnode.
  lrun (node_step s p n Hn). rewrite Hfd, Hep. unfold eassert. rewrite !ebind_ret.
  rewrite (ebind_ok _ _ s s (dirp, k)) by (rewrite vnode_db_run; by rewrite Hnum). lrun Hr1.
  destruct (modify_len_step x1 len Hs1 Hl1 Hi Hlen Hsz Hpos) as (s2 & r2 & Hr2 & Hres).
  destruct r2 as [err|[]].
  { exists s2, (inl err). by rewrite (ebind_err _ _ _ _ _ Hr2). }
  lrun Hr2. destruct Hres as (Hq & h2 & n2 & -> & F1 & F2 & F3 & F3' & F4 & F5 & F7 & Hcont).
  set (s2 := with_node p n2 h2 (sized sz s)) in *.
  assert (Hs2' : storable dirp (modified 0 0 len x1)) by (by apply storable_modified).
  assert (Hd2 : ldb dirp s2 = Some d) by (rewrite <- Hdb; by destruct dirp).
  destruct (modify_store_step now flags s2 n2 _ (with_node_lookup _ _ _ _) F2 F3 F1 Hd2 Hs2')
    as (h3 & n3 & Hr3 & Hk3 & Hep3 & Hfsp3 & He3 & Hfs3 & Hc3 & Hm3 & Hsb3 & Hfd3).
  change (modified now flags None (modified 0 0 len x1)) with x' in *.
  assert (Hcr : creationDate (linfo s2) = creationDate (linfo s))
    by (unfold s2, sized; simpl; by destruct (linfo s)).
  eexists _, (inr tt). split; [exact Hr3|]. split; [done|]. exists h3, n3.
  split; [exact (with_node_with_node p n2 h2 n3 h3 (set_ldb dirp _ (sized sz s)))|].
  split_and!; try done.
  - by eapply kept_trans.
  - congruence.
  - by rewrite Hfs3, Hcr, F4, F5.
  - destruct len as [l|]; [|done]. rewrite <- Hcont, Hc3. unfold node_content. by rewrite Hm3.
Qed.

(** C3: A change of a vnode whose entry and status are cached.  It always
    returns.  When it succeeds the database has exactly the new entry in
    place of the old one (the status that was asked for, the new length, and
    for a write a data version that is one more and the time), the size of the
    volume has changed by the difference of the lengths in KiB and is within
    the quota, the host file has the new length, and the status that is shown
    is that of the new entry.  When it fails, which only a change of the
    length can, both databases are as they were, and over the quota the size
    of the volume is, too. *)
Theorem vld_modify_vnode_correct now flags ss len :
  info_ready s ->
  match ss with Some ss => status_wf ss | None => True end ->
  let diff := match len with Some l => l / 1024 - Length (fent (e n)) / 1024 | None => 0 end in
  let sz := vi_size (linfo s) + diff in
  match len with Some l => 0 <= l < 2^31 | None => True end -> is_int32 sz -> 0 <= sz ->
  exists x1, with_status ss (e n) = Some x1 /\
  let x' := modified now flags len x1 in
  exists s' r, vld_modify_vnode fstat_errno now p flags ss len s = Some (s', r) /\
  match r with
  | inr _ =>
      (exists d', ldb dirp s' = Some d' /\ voldb_ok d' fl /\ num d' = num d /\
         slot d' k = fent x' /\ (forall j, 0 <= j < num d -> j <> k -> slot d' j = slot d j)) /\
      ldb (negb dirp) s' = ldb (negb dirp) s /\
      vi_size (linfo s') = sz /\ (is_Some len -> sz <= maxquota (linfo s')) /\
      exists n', nodes (lm s') = <[p := n']> (nodes (lm s)) /\ kept_identity n n' /\
        e n' = x' /\ ep n' = true /\ fsp n' = true /\
        fs n' = fill_status (creationDate (linfo s)) (fent x')
                  (set_fs_Length (default (st_size n) len) (fs n)) /\
        match len with Some l => blen (node_content (lhost s') n') = l | None => True end
  | inl err =>
      is_Some len /\ ldir s' = ldir s /\ lfile s' = lfile s /\
      (maxquota (linfo s) < sz -> err = VOVERQUOTA /\ linfo s' = linfo s)
  end.
Proof.
  intros Hi Hss diff sz Hlen Hsz Hpos.
  destruct (modify_run now flags ss len Hi Hss Hlen Hsz Hpos) as (x1 & Hx1 & Hs3 & s' & r & Hr & Hres).
  exists x1. split; [done|]. intros x'. exists s', r. split; [done|]. destruct r as [err|[]]; [done|].
  destruct Hres as (Hq & h & n' & -> & Hk3 & He3 & Hep3 & Hfsp3 & _ & _ & Hfs3 & Hc3).
  pose proof Hat as [Hnum Hdb Hok Hkd Hk Hf]. pose proof (ok_wf _ _ Hok) as Hwf. pose proof (st_wf _ _ Hs3) as Hw3.
  split.
  { exists (put_slot k (fent x') d). split_and!.
    - by destruct dirp.
    - by apply put_slot_ok; [| | |apply Hw3|apply (st_next _ _ Hs3)].
    - by destruct d.
    - by apply slot_put_slot.
    - intros j Hj Hne. apply slot_put_slot_ne; [done..|apply Hw3|done|done]. }
  split; [by destruct dirp|]. split; [destruct dirp; apply vi_size_sized|].
  split; [intros Hl; destruct dirp; unfold sized; simpl; destruct (linfo s); by apply Hq|].
  exists n'. by split_and!.
Qed.
End Modify.
