(* ===== verification/VldKeep.v ===== *)
(** * The volume layer: the cache after a change

    What the databases answer for every vnode after one entry was stored, and
    that a cache which agreed with them still does after [vld_modify_vnode]. *)

From S2P Require Import Prelude Estate Buf Fdir Vnum Mdir Voldb VoldbRep VoldbFree VoldbOps.
From S2P Require Import VoldbCorrect VoldbSim Vrights Svol SvolCorrect Mnode MnodeCorrect Vinfo.
From S2P Require Import VinfoCorrect Vld VldCorrect VldModify.

Local Open Scope em_scope.

Section Entries.
Context `{OnodeCoderOk}.

(** What [voldb_get_entry] answers. *)
Definition read_at (k : Z) (d : voldb) : option voldb_entry :=
  match voldb_get_entry k d with Some (_, inr x) => Some x | _ => None end.
(** The entry in a slot. *)
Definition content (dirp : bool) (d : voldb) (k : Z) : voldb_entry :=
  if dirp then Entry TYPE_DIR (u_dir (DirEntry (slot d k) (fst (slot_acls d k)) (snd (slot_acls d k))))
  else Entry (swrap32 (FileType (slot d k))) (u_file (slot d k)).
Definition kind_db (dirp : bool) (d : voldb) : Prop := if dirp then is_dir_db d else is_file_db d.

Lemma read_at_slot dirp d k : voldb_wf d -> kind_db dirp d ->
  read_at k d = if decide (uwrap32 k < num d) then Some (content dirp d (uwrap32 k)) else None.
Proof.
  intros Hwf Hkd. pose proof (uwrap32_uint32 k) as [Hk0 _]. unfold read_at, voldb_get_entry. unfold vbind at 1, vget.
  unfold kind_db in Hkd. destruct dirp; pose proof Hkd as (_ & _ & Hf & Hd).
  - rewrite Hd. change (VOLDB_DIR =? VOLDB_DIR) with true. cbv iota. destruct (decide (uwrap32 k < num d)).
    + by rewrite (vbind_ok _ _ _ _ _ (get_dir_ok d (uwrap32 k) Hwf Hkd ltac:(lia))).
    + destruct (decide (uwrap32 k = num d)) as [E|].
      * unfold vbind. by rewrite E, (get_dir_past d Hwf Hkd).
      * unfold vbind. by rewrite (get_dir_beyond d (uwrap32 k) Hwf Hkd ltac:(lia)).
  - rewrite Hd, Hf. change (0 =? VOLDB_DIR) with false. change (VOLDB_FILE =? VOLDB_FILE) with true. cbv iota.
    destruct (decide (uwrap32 k < num d)).
    + by rewrite (vbind_ok _ _ _ _ _ (get_file_ok d (uwrap32 k) Hwf Hkd ltac:(lia))).
    + destruct (decide (uwrap32 k = num d)) as [E|].
      * unfold vbind. by rewrite E, (get_file_past d Hwf Hkd).
      * unfold vbind. by rewrite (get_file_beyond d (uwrap32 k) Hwf Hkd ltac:(lia)).
Qed.

Lemma slot_acls_put_slot d k e j : voldb_wf d -> is_dir_db d -> onode_wf (ino e) ->
  0 <= k < num d -> 0 <= j < num d -> slot_acls (put_slot k e d) j = slot_acls d j.
Proof.
  intros Hwf Hkd Ho Hk Hj. unfold slot_acls, put_slot. rewrite set_file_file, set_file_addr.
  pose proof (addr_range d k Hwf Hk) as Ak. pose proof (addr_range d j Hwf Hj) as Aj.
  destruct Hkd as (_ & Hks & _). assert (Es : esize d = 608) by (unfold esize; by rewrite Hks).
  assert (Hd : j = k \/ addr d j + 608 <= addr d k \/ addr d k + 608 <= addr d j).
  { destruct (decide (j = k)); [auto|]. right. rewrite <- Es. by apply (addr_disjoint d j k Hwf Hj Hk). }
  apply same_in_acls_at; [change VOLDB_FILE_SIZE with 480; lia|]. apply same_in_st.
  - change VOLDB_FILE_SIZE with 480. change acls_size with 128. lia.
  - rewrite blen_enc_entry by done. change VOLDB_FILE_SIZE with 480. change acls_size with 128.
    destruct Hd as [->|[?|?]]; lia.
Qed.

(** An entry of the type and with the lists of [x0]. *)
Definition refit (x0 x : voldb_entry) : Prop := x = upd_fent (fun _ => fent x) x0.
Lemma refit_refl x : refit x x.
Proof. destruct x as [t [[]|]]; done. Qed.
Lemma refit_upd x0 x f : refit x0 x -> refit x0 (upd_fent f x).
Proof. unfold refit. intros ->. destruct x0 as [t [[]|]]; done. Qed.

Lemma content_put dirp d k y j : voldb_wf d -> kind_db dirp d -> entry_wf y ->
  0 <= k < num d -> 0 <= j < num d -> j <> k -> content dirp (put_slot k y d) j = content dirp d j.
Proof.
  intros Hwf Hkd [Hy Ho] Hk Hj Hne. unfold content. rewrite slot_put_slot_ne by done.
  destruct dirp; [|done]. by rewrite slot_acls_put_slot.
Qed.
Lemma content_stored dirp d k x : voldb_wf d -> kind_db dirp d -> 0 <= k < num d ->
  storable dirp x -> refit (content dirp d k) x -> content dirp (put_slot k (fent x) d) k = x.
Proof.
  intros Hwf Hkd Hk [Hu Ht Hft Hw Hn] Hx. unfold content in *. rewrite slot_put_slot by done.
  destruct dirp.
  - rewrite slot_acls_put_slot by (done || apply Hw). unfold refit in Hx. by rewrite Hx.
  - unfold refit in Hx. destruct x as [t [y|y]]; [done|]. cbn in Hft, Ht |- *. rewrite Hft.
    f_equal. apply swrap32_small. unfold is_int32. by destruct Ht as [-> | ->].
Qed.

(** Two fids whose vnodes have the same slot of the same database. *)
Definition same_slot (g f : AFSFid) : Prop :=
  exists dirp k k', db_number g = Some (dirp, k) /\ db_number f = Some (dirp, k') /\ uwrap32 k = uwrap32 k'.

Lemma db_num_small d : voldb_wf d -> 0 <= num d < 2 ^ 32.
Proof.
  intros Hwf. pose proof (wf_size d Hwf). pose proof (wf_bound d Hwf). pose proof (wf_num d Hwf).
  pose proof (esize_bounds d Hwf). change VOLDB_HEADER_SIZE with 40 in *. nia.
Qed.

Lemma db_entry_read s f : db_entry s f = '(dirp, k) ← db_number f; d ← ldb dirp s; read_at k d.
Proof. done. Qed.

(** What the databases answer after an entry was stored. *)
Lemma db_entry_put s s' f dirp k d fl x0 x :
  vnode_at s f dirp k d fl -> storable dirp x -> db_entry s f = Some x0 -> refit x0 x ->
  ldb dirp s' = Some (put_slot k (fent x) d) -> ldb (negb dirp) s' = ldb (negb dirp) s ->
  db_entry s' f = Some x /\ forall g, ~ same_slot g f -> db_entry s' g = db_entry s g.
Proof.
  intros [Hnum Hdb Hok Hkd Hk Hf] Hst Hx0 Hx Hd' Hother. pose proof (ok_wf _ _ Hok) as Hwf.
  assert (Hkd' : kind_db dirp d) by done. pose proof (db_num_small d Hwf) as Hn.
  assert (Huk : uwrap32 k = k) by (apply uwrap32_small; unfold is_uint32; lia).
  pose proof (st_wf _ _ Hst) as Hw.
  assert (Hwf' : voldb_wf (put_slot k (fent x) d)) by (apply put_slot_wf; [done|apply Hw]).
  assert (Hkd2 : kind_db dirp (put_slot k (fent x) d)) by (by destruct d).
  assert (En : num (put_slot k (fent x) d) = num d) by (by destruct d).
  rewrite db_entry_read, Hnum in Hx0. cbn [mbind option_bind] in Hx0. rewrite Hdb in Hx0. cbn [mbind option_bind] in Hx0.
  rewrite (read_at_slot dirp d k Hwf Hkd'), Huk, decide_True in Hx0 by lia. injection Hx0 as <-. split.
  - rewrite db_entry_read, Hnum. cbn [mbind option_bind]. rewrite Hd'. cbn [mbind option_bind].
    rewrite (read_at_slot dirp _ k Hwf' Hkd2), Huk, En, decide_True by lia. f_equal. by apply content_stored.
  - intros g Hg. rewrite !db_entry_read. destruct (db_number g) as [[dp j]|] eqn:Eg; [|done]. cbn [mbind option_bind].
    destruct (decide (dp = dirp)) as [->|Hne].
    2:{ replace dp with (negb dirp) by (by destruct dp, dirp). by rewrite Hother. }
    rewrite Hd', Hdb. cbn [mbind option_bind]. rewrite (read_at_slot dirp _ j Hwf' Hkd2), (read_at_slot dirp d j Hwf Hkd'), En.
    destruct (decide (uwrap32 j < num d)); [|done]. f_equal. pose proof (uwrap32_uint32 j) as [? _].
    apply content_put; try done. intros E. apply Hg. exists dirp, j, k. by rewrite E, Huk.
Qed.
End Entries.

(** ** The change *)

Lemma with_status_refit ss x x1 : with_status ss x = Some x1 -> refit x x1.
Proof.
  assert (Hr : refit x x) by apply refit_refl. destruct ss as [ss|]; cbn; [|by intros [= <-]].
  destruct (Mask ss =? 0); [by intros [= <-]|]. destruct x as [t [d|f]]; cbn.
  - destruct (t =? TYPE_DIR); [|done]. intros [= <-]. by destruct d.
  - destruct ((t =? TYPE_FILE) || (t =? TYPE_LINK)); [|done]. by intros [= <-].
Qed.
Lemma modified_refit now flags len x0 x : refit x0 x -> refit x0 (modified now flags len x).
Proof.
  intros Hx. unfold modified. assert (H1 : refit x0 (match len with
    | Some l => upd_fent (set_Length (uwrap32 l)) x | None => x end)) by (destruct len; [by apply refit_upd|done]).
  destruct (writes flags); [by apply refit_upd|done].
Qed.

(** No other node of the volume that is in use has the slot of [f]. *)
Definition lone `{OnodeCoder} (dead : list AFSFid) (s : lstate) (p : Z) (f : AFSFid) : Prop :=
  forall q m, q <> p -> nodes (lm s) !! q = Some m -> Volume (mfid m) = lvol s -> mfid m ∉ dead ->
    ~ same_slot (mfid m) f.

Lemma modify_coherent `{OnodeCoderOk} dead s p n n' h dirp k d fl x0 x sz len :
  coherent dead s -> nodes (lm s) !! p = Some n -> mfid n' = mfid n -> vnode_at s (mfid n) dirp k d fl ->
  storable dirp x -> db_entry s (mfid n) = Some x0 -> refit x0 x -> lone dead s p (mfid n) ->
  e n' = x -> sbp n' = true -> fs n' = fill_status (creationDate (linfo s)) (fent x) (set_fs_Length len (fs n)) ->
  let s' := with_node p n' h (set_ldb dirp (put_slot k (fent x) d) (sized sz s)) in
  coherent dead s' /\ db_entry s' (mfid n) = Some x /\
  forall g, ~ same_slot g (mfid n) -> db_entry s' g = db_entry s g.
Proof.
  intros Hc Hn Hf Hat Hst Hx0 Hx Hl He Hsb Hfs s'.
  assert (Hd1 : ldb dirp s' = Some (put_slot k (fent x) d)) by (by destruct dirp).
  assert (Hd2 : ldb (negb dirp) s' = ldb (negb dirp) s) by (by destruct dirp).
  destruct (db_entry_put s s' (mfid n) dirp k d fl x0 x Hat Hst Hx0 Hx Hd1 Hd2) as [Hf1 Hf2].
  assert (Hcr : creationDate (linfo s') = creationDate (linfo s))
    by (unfold s', sized; destruct dirp; cbn; by destruct (linfo s)).
  assert (Hvol : lvol s' = lvol s) by (unfold s'; by destruct dirp).
  assert (Hns : nodes (lm s') = <[p := n']> (nodes (lm s))) by (unfold s'; by destruct dirp).
  split; [|done]. intros q m. rewrite Hns, Hvol. destruct (decide (q = p)) as [->|Hne].
  - rewrite lookup_insert_eq. intros [= <-] _ _. unfold shown_ok. rewrite Hf, Hf1, He. split; [done|].
    intros _. split; [done|]. exists x. split; [done|]. exists (fs n), len. by rewrite Hfs, Hcr.
  - rewrite lookup_insert_ne by done. intros Hm Hv Hd. destruct (Hc q m Hm Hv Hd) as [H1 H2].
    unfold shown_ok. rewrite (Hf2 _ (Hl q m Hne Hm Hv Hd)). split; [done|]. intros Hfp.
    destruct (H2 Hfp) as (? & y & Hy & f0 & l & E). split; [done|]. exists y. split; [done|].
    exists f0, l. by rewrite Hcr.
Qed.
