(* ===== verification/VldFiles.v ===== *)
(** * The volume layer: the file of a vnode in the cache

    What the nodes of the cache know of the file of one vnode: the descriptor
    is open on its inode and the sizes are those of its contents.  The
    operations by which a vnode is found, opened, checked and freed keep this,
    however they end. *)

From S2P Require Import Prelude Estate Buf Fdir Vnum Mdir Voldb VoldbRep Vrights VrightsCorrect.
From S2P Require Import Svol SvolCorrect Mnode MnodeCorrect Vinfo Vld VldCorrect.

Local Open Scope em_scope.

(** The inode that an opaque name of the partition [part] stands for. *)
Definition onode_inode (part : bytes) (o : onode_opaque) (h : hostfs) : option Z :=
  match local_opaque2ino o with
  | Some (inr (ino, _)) =>
      match local_create_name part ino with inr name => hnames h !! name | inl _ => None end
  | _ => None
  end.
Definition opened_host `{HostChoice} (i : Z) (h : hostfs) : hostfs :=
  Host (hdirs h) (hnames h) (hfiles h) (<[new_fd h := i]> (hfds h)) (hos h).

(** On a host without failures a file is opened or it is not there. *)
Lemma iopen_cases `{HostChoice} part o h h' r : hos h = [] -> svol_iopen part o h = Some (h', r) ->
  (exists e, r = inl e /\ h' = h) \/
  (exists i, onode_inode part o h = Some i /\ r = inr (new_fd h) /\ h' = opened_host i h).
Proof.
  intros Ho. unfold onode_inode, svol_iopen, local_open_file.
  destruct (local_opaque2ino o) as [[e|[ino o']]|]; [..|done]; unfold eopt; rewrite ebind_ret.
  { intros [= <- <-]. left. by exists e. }
  destruct (local_create_name part ino) as [e|name]; [intros [= <- <-]; left; by exists e|].
  unfold hopen. unfold ebind at 1 2. rewrite (hsys_ok h Ho). cbn [Z.eqb negb]. rewrite ebind_get.
  destruct (hnames h !! name) as [i|]; intros [= <- <-]; [right; by exists i|left; by eexists].
Qed.

Lemma iopen_file_run `{HostChoice} part o h i : hos h = [] -> onode_inode part o h = Some i ->
  svol_iopen part o h = Some (opened_host i h, inr (new_fd h)).
Proof.
  intros Ho Hi. unfold onode_inode in Hi. unfold svol_iopen, local_open_file.
  destruct (local_opaque2ino o) as [[e|[ino o']]|]; [done| |done]. unfold eopt. rewrite ebind_ret.
  destruct (local_create_name part ino) as [e|name]; [done|]. unfold hopen.
  unfold ebind at 1 2. rewrite (hsys_ok h Ho). cbn [Z.eqb negb]. by rewrite ebind_get, Hi.
Qed.

(** ** Runs that keep a property of the state *)

Definition preserves {S A} (P : S -> Prop) (m : EM S A) : Prop :=
  forall s s' r, P s -> m s = Some (s', r) -> P s'.

Section Keeps.
Context {S : Type} (P : S -> Prop).

Lemma preserves_from {A} (m : EM S A) s s' r : P s -> preserves P m -> m s = Some (s', r) -> P s'.
Proof. intros Hs Hm. by apply Hm. Qed.
Lemma preserves_bind {A B} (m : EM S A) (k : A -> EM S B) :
  preserves P m -> (forall a, preserves P (k a)) -> preserves P (ebind m k).
Proof.
  intros Hm Hk s s' r Hs Hr. apply ebind_inv in Hr as [(e & -> & Hr)|(a & s1 & H1 & H2)]; [by eapply Hm|].
  apply (Hk a s1 s' r); [by eapply Hm|done].
Qed.
Lemma preserves_ret {A} (a : A) : preserves P (eret a).
Proof. intros s s' r Hs. unfold eret. congruence. Qed.
Lemma preserves_fail {A} e : preserves P (efail (A := A) e).
Proof. intros s s' r Hs. unfold efail. congruence. Qed.
Lemma preserves_abort {A} : preserves P (eabort (A := A)).
Proof. intros s s' r _ [=]. Qed.
Lemma preserves_get : preserves P eget.
Proof. intros s s' r Hs. unfold eget. congruence. Qed.
Lemma preserves_mod f : (forall s, P s -> P (f s)) -> preserves P (emod f).
Proof. intros Hf s s' r Hs [= <- _]. auto. Qed.
Lemma preserves_opt {A} (o : option A) : preserves P (eopt o).
Proof. destruct o; [apply preserves_ret|apply preserves_abort]. Qed.
Lemma preserves_assert b : preserves P (eassert b).
Proof. destruct b; [apply preserves_ret|apply preserves_abort]. Qed.
Lemma preserves_onerr {A} (m : EM S A) c : preserves P m -> preserves P c -> preserves P (eonerr m c).
Proof.
  intros Hm Hc s s' r Hs. unfold eonerr. destruct (m s) as [[s1 [e|a]]|] eqn:E; [| |done].
  - destruct (c s1) as [[s2 x]|] eqn:E2; [|done]. intros [= <- _]. eapply Hc; [|exact E2]. by eapply Hm.
  - intros [= <- _]. by eapply Hm.
Qed.
Lemma preserves_try {A} (m : EM S A) : preserves P m -> preserves P (etry m).
Proof.
  intros Hm s s' r Hs. unfold etry. destruct (m s) as [[s1 x]|] eqn:E; [|done]. intros [= <- _]. by eapply Hm.
Qed.
Lemma preserves_lift {T A} (Q : T -> Prop) (get : S -> T) put (m : EM T A) : preserves Q m ->
  (forall s, P s -> Q (get s)) -> (forall s t, P s -> Q t -> P (put t s)) -> preserves P (elift get put m).
Proof.
  intros Hm Hg Hp s s' r Hs. unfold elift. destruct (m (get s)) as [[t x]|] eqn:E; [|done].
  intros [= <- _]. apply Hp; [done|]. eapply Hm; [|exact E]. auto.
Qed.
End Keeps.
Create HintDb preserves.
#[export] Hint Resolve preserves_ret preserves_fail preserves_abort preserves_get preserves_opt preserves_assert : preserves.
Ltac preserves_run :=
  repeat first [solve [eauto with preserves] | apply preserves_bind; [|intros ?] | case_match].

(** ** The file of one vnode *)

Section File.
Context {OC : OnodeCoder} {HC : HostChoice} {HK : HostChoiceOk} (fstat_errno : Z -> Z).
Context (f : AFSFid) (part : bytes) (o : onode_opaque) (i : Z) (b : bytes).

(** A node on the host [h]. *)
Record node_filed (h : hostfs) (n : mnode) : Prop := {
  nf_open : fdp n = true -> is_Some (hfds h !! mfd n);
  nf_fd : mfid n = f -> fdp n = true -> hfds h !! mfd n = Some i;
  nf_onode : mfid n = f -> ep n = true -> ino (fent (e n)) = o;
  nf_size : mfid n = f -> sbp n = true -> st_size n = blen b;
  nf_length : mfid n = f -> fsp n = true -> fs_Length (fs n) = blen b
}.
(** The host has the file. *)
Record host_filed (h : hostfs) : Prop := {
  hf_os : hos h = [];
  hf_inode : onode_inode part o h = Some i;
  hf_content : default [] (hfiles h !! i) = b
}.
Record filed (c : mstate) : Prop := {
  fl_host : host_filed (mhost c);
  fl_node p n : nodes c !! p = Some n -> node_filed (mhost c) n;
  fl_apart p q n m : nodes c !! p = Some n -> nodes c !! q = Some m -> fdp n = true -> fdp m = true ->
    mfd n = mfd m -> p = q
}.

(** The names and the contents of all files stay. *)
Definition same_files (h h' : hostfs) : Prop :=
  hos h' = hos h /\ hnames h' = hnames h /\
  forall j, default [] (hfiles h' !! j) = default [] (hfiles h !! j).
Lemma same_files_refl h : same_files h h.
Proof. done. Qed.
Lemma host_filed_same h h' : same_files h h' -> host_filed h -> host_filed h'.
Proof.
  intros (E1 & E2 & E3) [H1 H2 H3]. split; [congruence| |by rewrite E3].
  unfold onode_inode in *. by rewrite E2.
Qed.

(** A change of the node [p] and of its descriptor. *)
Lemma filed_change c c' p n' : filed c -> nodes c' = <[p := n']> (nodes c) ->
  same_files (mhost c) (mhost c') -> node_filed (mhost c') n' ->
  (forall q m, q <> p -> nodes c !! q = Some m -> fdp m = true ->
     hfds (mhost c') !! mfd m = hfds (mhost c) !! mfd m /\ (fdp n' = true -> mfd n' <> mfd m)) ->
  filed c'.
Proof.
  intros [F1 F2 F3] En Hh Hn Hq.
  assert (Hlook : forall q m, nodes c' !! q = Some m -> q = p /\ m = n' \/ q <> p /\ nodes c !! q = Some m).
  { intros q m. rewrite En. destruct (decide (q = p)) as [->|]; [rewrite lookup_insert_eq|rewrite lookup_insert_ne by done];
      [intros [= <-]; by left|by right]. }
  split.
  - by eapply host_filed_same.
  - intros q m Hm. destruct (Hlook q m Hm) as [[-> ->]|[Hne Hm0]]; [done|]. destruct (F2 q m Hm0).
    split; intros; try auto; by rewrite (proj1 (Hq q m Hne Hm0 ltac:(done))); auto.
  - intros q1 q2 n m H1 H2 Fn Fm E.
    destruct (Hlook q1 n H1) as [[-> ->]|[N1 G1]], (Hlook q2 m H2) as [[-> ->]|[N2 G2]]; [done|..|by eapply F3].
    + by destruct (Hq q2 m N2 G2 Fm) as [_ []].
    + by destruct (Hq q1 n N1 G1 Fn) as [_ []].
Qed.
(** The descriptor stays. *)
Lemma filed_node c c' p n n' : filed c -> nodes c !! p = Some n -> nodes c' = <[p := n']> (nodes c) ->
  same_files (mhost c) (mhost c') -> hfds (mhost c') = hfds (mhost c) -> node_filed (mhost c') n' ->
  (fdp n' = true -> fdp n = true /\ mfd n' = mfd n) -> filed c'.
Proof.
  intros F Hn En Hh Hfd Hn' Hk. apply (filed_change c c' p n'); try done. intros q m Hne Hm Fm.
  rewrite Hfd. split; [done|]. intros Fn' E. destruct (Hk Fn') as [Fn Em]. apply Hne.
  apply (fl_apart c F q p m n); congruence.
Qed.
(** The descriptor is closed. *)
Definition closed_host (fd : Z) (h : hostfs) : hostfs :=
  Host (hdirs h) (hnames h) (hfiles h) (delete fd (hfds h)) (hos h).
Lemma filed_closed c c' p n n' : filed c -> nodes c !! p = Some n -> fdp n = true ->
  nodes c' = <[p := n']> (nodes c) -> mhost c' = closed_host (mfd n) (mhost c) ->
  node_filed (mhost c') n' -> fdp n' = false -> filed c'.
Proof.
  intros F Hn Fn En Eh Hn' Fn'. apply (filed_change c c' p n'); try done; [by rewrite Eh|].
  intros q m Hne Hm Fm. split; [|congruence]. rewrite Eh. apply lookup_delete_ne. intros E.
  apply Hne. by apply (fl_apart c F q p m n).
Qed.
(** Nothing but the list, the table and the counter changes. *)
Lemma filed_same c c' : nodes c' = nodes c -> mhost c' = mhost c -> filed c -> filed c'.
Proof. intros En Eh [F1 F2 F3]. split; rewrite ?Eh, ?En; auto. Qed.

(** *** The cache *)

Local Abbreviation kept c := (preserves filed c).

Lemma node_filed_unset h n : fdp n = false -> ep n = false -> sbp n = false -> fsp n = false -> node_filed h n.
Proof. intros. split; intros; congruence. Qed.
Lemma node_filed_like h n n' : node_filed h n -> mfid n' = mfid n -> e n' = e n -> st_size n' = st_size n ->
  fs n' = fs n -> mfd n' = mfd n -> ep n' = ep n -> sbp n' = sbp n -> fsp n' = fsp n -> fdp n' = fdp n ->
  node_filed h n'.
Proof. intros [H1 H2 H3 H4 H5] E1 E2 E3 E4 E5 E6 E7 E8 E9. split; rewrite ?E1, ?E2, ?E3, ?E4, ?E5, ?E6, ?E7, ?E8, ?E9; auto. Qed.

Lemma node_inv p c c' r : node p c = Some (c', r) -> c' = c /\ exists n, r = inr n /\ nodes c !! p = Some n.
Proof.
  unfold node. rewrite ebind_get. destruct (nodes c !! p) as [n|]; [|done]. intros [= <- <-]. by eauto.
Qed.
Lemma kept_node p : kept (node p).
Proof. intros c c' r Hc Hr. by destruct (node_inv _ _ _ _ Hr) as [-> _]. Qed.
Lemma kept_upd p g : (forall h n, node_filed h n -> node_filed h (g n)) ->
  (forall n, fdp (g n) = true -> fdp n = true /\ mfd (g n) = mfd n) -> kept (upd_node p g).
Proof.
  intros Hg Hk c c' r Hc Hr. unfold upd_node in Hr.
  apply ebind_inv in Hr as [(e0 & -> & Hr)|(n & c1 & H1 & Hr)].
  { by destruct (node_inv _ _ _ _ Hr) as [-> _]. }
  destruct (node_inv _ _ _ _ H1) as (-> & n' & [= <-] & Hn). injection Hr as <- <-.
  apply (filed_node c _ p n (g n)); try done; [by apply Hg, (fl_node c Hc p)|apply Hk].
Qed.
Lemma kept_set_li p v : kept (upd_node p (set_li v)).
Proof. apply kept_upd; [intros h n Hn; by eapply node_filed_like; [exact Hn|destruct n..]|by intros []]. Qed.
Lemma kept_set_ref p g : kept (upd_node p (fun n => set_ref (g n) n)).
Proof. apply kept_upd; [intros h n Hn; by eapply node_filed_like; [exact Hn|destruct n..]|by intros []]. Qed.
Lemma kept_set_removedp p v : kept (upd_node p (set_removedp v)).
Proof. apply kept_upd; [intros h n Hn; by eapply node_filed_like; [exact Hn|destruct n..]|by intros []]. Qed.
Lemma kept_mod g : (forall c, nodes (g c) = nodes c) -> (forall c, mhost (g c) = mhost c) -> kept (emod g).
Proof. intros H1 H2. apply preserves_mod. intros c. by apply filed_same. Qed.
Hint Resolve kept_node kept_set_li kept_set_ref kept_set_removedp : preserves.
Hint Extern 1 (kept (emod _)) => apply kept_mod; done : preserves.
Lemma kept_lru_del p : kept (lru_del p).
Proof. unfold lru_del. preserves_run. Qed.
Hint Resolve kept_lru_del : preserves.
Lemma kept_lru_addhead p : kept (lru_addhead p).
Proof. unfold lru_addhead. preserves_run. Qed.
Lemma kept_lru_addtail p : kept (lru_addtail p).
Proof. unfold lru_addtail. preserves_run. Qed.
Lemma kept_lru_unlink p : kept (lru_unlink p).
Proof. unfold lru_unlink. preserves_run. Qed.
Lemma kept_htab_del g : kept (htab_del g).
Proof. unfold htab_del. preserves_run. Qed.
Lemma kept_htab_add g p : kept (htab_add g p).
Proof. unfold htab_add. preserves_run. Qed.
Lemma kept_lru_deltail : kept lru_deltail.
Proof. unfold lru_deltail. preserves_run. Qed.
Hint Resolve kept_lru_addhead kept_lru_addtail kept_lru_unlink kept_htab_del kept_htab_add kept_lru_deltail : preserves.

(** The descriptor of a node is closed, if it has one, and the node changed
    to one without. *)
Lemma closed_put p n n' c c' r : filed c -> nodes c !! p = Some n ->
  (if fdp n then on_host (hclose (mfd n)) else eret tt) c = Some (c', r) ->
  (forall h, node_filed h n') -> fdp n' = false ->
  r = inr tt /\ nodes c' = nodes c /\ filed (set_nodes (<[p := n']> (nodes c')) c').
Proof.
  intros Hc Hn Hr Hn' Fn'. destruct (fdp n) eqn:Fn.
  - injection Hr as <- <-. split_and!; [done..|]. by apply (filed_closed c _ p n n').
  - injection Hr as <- <-. split_and!; [done..|]. apply (filed_node c _ p n n'); try done. congruence.
Qed.
Lemma kept_close p g : (forall h h' n, node_filed h n -> node_filed h' (g n)) -> (forall n, fdp (g n) = false) ->
  kept (n <-- node p ;; (if fdp n then on_host (hclose (mfd n)) else eret tt) ;;! upd_node p g).
Proof.
  intros Hg Hf c c' r Hc Hr. apply ebind_inv in Hr as [(e0 & -> & Hr)|(n & c1 & H1 & Hr)].
  { by destruct (node_inv _ _ _ _ Hr) as [-> _]. }
  destruct (node_inv _ _ _ _ H1) as (-> & n' & [= <-] & Hn).
  apply ebind_inv in Hr as [(e0 & -> & Hr)|([] & c2 & H2 & Hr)];
    [destruct (closed_put p n (g n) c _ _ Hc Hn Hr) as ([=] & _)|destruct (closed_put p n (g n) c _ _ Hc Hn H2) as (_ & En & F)];
    try done; try (intros; by eapply Hg, (fl_node c Hc p)).
  erewrite upd_node_run in Hr by (rewrite En; exact Hn). by injection Hr as <- <-.
Qed.
Lemma kept_reset p g : kept (reset_node p g).
Proof.
  intros c c' r Hc Hr. unfold reset_node in Hr. apply ebind_inv in Hr as [(e0 & -> & Hr)|(n & c1 & H1 & Hr)].
  { by destruct (node_inv _ _ _ _ Hr) as [-> _]. }
  destruct (node_inv _ _ _ _ H1) as (-> & n' & [= <-] & Hn).
  destruct (ref n =? 0); [|done]. cbn [eassert] in Hr. rewrite ebind_ret in Hr.
  apply ebind_inv in Hr as [(e0 & -> & Hr)|([] & c2 & H2 & Hr)];
    [destruct (closed_put p n (set_mfid g zero_mnode) c _ _ Hc Hn Hr) as ([=] & _)
    |destruct (closed_put p n (set_mfid g zero_mnode) c _ _ Hc Hn H2) as (_ & En & F)];
    try done; try (intros; by apply node_filed_unset).
  by injection Hr as <- <-.
Qed.
Hint Resolve kept_reset : preserves.

Lemma find_filed fresh g c c' r : filed c -> (htab c !! g = None -> numfree c <> 0) ->
  mnode_find fresh g c = Some (c', r) -> filed c'.
Proof.
  intros Hc Hf Hr. unfold mnode_find in Hr. rewrite ebind_get in Hr. revert Hr.
  match goal with |- ebind ?m ?k _ = _ -> _ => assert (Hm : forall c1 r1, m c = Some (c1, r1) -> filed c1) end.
  { intros c1 r1. destruct (htab c !! g) as [p|].
    - apply (preserves_from _ _ _ _ _ Hc). preserves_run.
    - rewrite (proj2 (Z.eqb_neq _ _) (Hf eq_refl)). cbn [negb]. apply (preserves_from _ _ _ _ _ Hc). preserves_run. }
  intros Hr. apply ebind_inv in Hr as [(e0 & -> & Hr)|(p & c1 & H1 & Hr)]; [by eapply Hm|].
  apply Hm in H1. revert Hr. apply (preserves_from _ _ _ _ _ H1). preserves_run.
Qed.
Lemma free_filed p bad : kept (mnode_free p bad).
Proof.
  assert (Hrest : kept (upd_node p (fun n => set_ref (ref n - 1) n) ;;! n <-- node p ;;
    if ref n =? 0 then
      (if fdp n then on_host (hclose (mfd n)) ;;! upd_node p (set_fdp false) else eret tt) ;;!
      (if removedp n then htab_del (mfid n) ;;! upd_node p (set_removedp false) else eret tt) ;;!
      emod (fun s => set_numfree (numfree s + 1) s) ;;! lru_addtail p
    else lru_addhead p)).
  { apply preserves_bind; [auto with preserves|]. intros _ c c' r Hc Hr.
    apply ebind_inv in Hr as [(e0 & -> & Hr)|(n & c1 & H1 & Hr)].
    { by destruct (node_inv _ _ _ _ Hr) as [-> _]. }
    destruct (node_inv _ _ _ _ H1) as (-> & n' & [= <-] & Hn). revert Hr. destruct (ref n =? 0).
    2:{ apply (preserves_from _ _ _ _ _ Hc). auto with preserves. }
    intros Hr. apply ebind_inv in Hr as Hr'. assert (Hc1 : forall c1 r1,
      (if fdp n then on_host (hclose (mfd n)) ;;! upd_node p (set_fdp false) else eret tt) c = Some (c1, r1) -> filed c1).
    { intros c1 r1 E. destruct (fdp n) eqn:Fn; [|by injection E as <- _].
      apply (kept_close p (set_fdp false)) with (s := c) (r := r1); [|by intros []|done|].
      - intros h h' m [? ? ? ? ?]. destruct m. by split.
      - unfold ebind at 1. rewrite (node_run _ _ _ Hn), Fn. exact E. }
    destruct Hr' as [(e0 & -> & E)|([] & c1 & E & Hr')]; [by eapply Hc1|]. apply Hc1 in E.
    revert Hr'. apply (preserves_from _ _ _ _ _ E). preserves_run. }
  unfold mnode_free. apply preserves_bind; [auto with preserves|]. intros _. apply preserves_bind; [|intros _; exact Hrest].
  destruct bad; [|auto with preserves]. apply (kept_close p clear_flags); [|by intros []].
  intros h h' []. by split.
Qed.
(** *** The volume *)

(** The volume has the vnode and its file. *)
Record vol_filed (l : lstate) : Prop := {
  vf_cache : filed (lm l);
  vf_part : lpart l = part;
  vf_entry : exists x, db_entry l f = Some x /\ ino (fent x) = o
}.
Lemma vol_filed_lm l c : vol_filed l -> filed c -> vol_filed (set_lm c l).
Proof. intros [_ E Hx] Hc. by split. Qed.
Lemma kept_on_mn {A} (m : MM A) : kept m -> preserves vol_filed (on_mn m).
Proof. intros Hm. apply (preserves_lift _ filed); [done|apply vf_cache|]. intros. by apply vol_filed_lm. Qed.

Lemma on_node_inv p l l' r : on_mn (node p) l = Some (l', r) ->
  l' = l /\ exists n, r = inr n /\ nodes (lm l) !! p = Some n.
Proof.
  unfold on_mn, elift. destruct (node p (lm l)) as [[c x]|] eqn:E; [|done]. intros [= <- <-].
  destruct (node_inv _ _ _ _ E) as (-> & n & -> & Hn). split; [|by exists n]. by destruct l.
Qed.
Lemma get_entry_inv (d : bool) k l l' r : on_db d (voldb_get_entry k) l = Some (l', r) ->
  l' = l /\ forall x, r = inr x -> exists v, ldb d l = Some v /\ voldb_get_entry k v = Some (v, inr x).
Proof.
  unfold on_db. destruct (ldb d l) as [v|] eqn:Ev; [|done]. cbn [mbind option_bind].
  destruct (voldb_get_entry k v) as [[v' y]|] eqn:Eg; [|done]. cbn [mbind option_bind]. intros [= <- <-].
  pose proof (pure_get_entry _ _ _ _ Eg) as ->. split.
  - destruct l, d; cbn in *; by subst.
  - intros x ->. by exists v.
Qed.
Lemma vnode_db_inv g l l' r : vnode_db g l = Some (l', r) -> l' = l /\ exists x, r = inr x /\ db_number g = Some x.
Proof. rewrite vnode_db_run. destruct (db_number g) as [x|]; [|done]. intros [= <- <-]. by eauto. Qed.

(** The steps of opening, each from a node that is known. *)
Definition node_is (l : lstate) (p : Z) (P : mnode -> Prop) : Prop := exists n, nodes (lm l) !! p = Some n /\ P n.

Lemma filed_step l p n n' h : vol_filed l -> nodes (lm l) !! p = Some n -> same_files (lhost l) h ->
  hfds h = hfds (lhost l) -> node_filed h n' -> (fdp n' = true -> fdp n = true /\ mfd n' = mfd n) ->
  vol_filed (with_node p n' h l).
Proof.
  intros Hl Hn Hh Hf Hn' Hk. apply vol_filed_lm; [done|].
  by apply (filed_node (lm l) _ p n n'); [apply Hl|..].
Qed.

Lemma read_entry_filed l p n db l' r : vol_filed l -> nodes (lm l) !! p = Some n ->
  db_number (mfid n) = Some db -> read_entry p db l = Some (l', r) ->
  vol_filed l' /\ (r = inr tt -> node_is l' p (fun n' => mfid n' = mfid n /\ (mfid n = f -> ino (fent (e n')) = o))).
Proof.
  intros Hl Hn Hdb Hr. unfold read_entry in Hr. rewrite (ebind_ok _ _ _ _ _ (node_step l p n Hn)) in Hr.
  pose proof (fl_node _ (vf_cache _ Hl) p n Hn) as Hf. destruct (ep n) eqn:Hep.
  { injection Hr as <- <-. split; [done|]. intros _. exists n. split_and!; try done. intros E. by apply Hf. }
  apply ebind_inv in Hr as [(e0 & -> & Hr)|(x & l1 & H1 & Hr)]; [by destruct (get_entry_inv _ _ _ _ _ Hr) as [-> _]|].
  destruct (get_entry_inv _ _ _ _ _ H1) as [-> Hx]. destruct (Hx x eq_refl) as (v & Hv & Hg).
  rewrite (upd_step l p n Hn) in Hr. injection Hr as <- <-. split.
  - apply (filed_step l p n); try done; [|by destruct n]. destruct Hf. destruct n. split; try done. cbn in *. congruence.
  - intros _. exists (set_e x n). split; [apply with_node_lookup|]. split; [by destruct n|]. intros E.
    destruct (vf_entry _ Hl) as (y & Hy & <-). unfold db_entry in Hy. rewrite <- E, Hdb in Hy. destruct db as [d k].
    cbn in Hy, Hv, Hg. rewrite Hv in Hy. cbn in Hy. rewrite Hg in Hy. injection Hy as <-. by destruct n.
Qed.

Lemma iopen_filed l p n oo l' r : vol_filed l -> nodes (lm l) !! p = Some n -> (mfid n = f -> oo = o) ->
  volop_iopen oo p l = Some (l', r) ->
  vol_filed l' /\ (r = inr tt -> node_is l' p (fun n' => mfid n' = mfid n /\ fdp n' = true)).
Proof.
  intros Hl Hn Ho Hr. unfold volop_iopen in Hr. rewrite (ebind_ok _ _ _ _ _ (node_step l p n Hn)) in Hr.
  destruct (fdp n) eqn:Fn. { injection Hr as <- <-. split; [done|]. intros _. by exists n. }
  rewrite ebind_get in Hr. pose proof (vf_cache _ Hl) as Hc.
  unfold on_hostfs in Hr. unfold ebind at 1, elift in Hr.
  destruct (svol_iopen (lpart l) oo (lhost l)) as [[h x]|] eqn:E; [|done].
  destruct (iopen_cases _ _ _ _ _ (hf_os _ (fl_host _ Hc)) E) as [(e0 & -> & ->)|(j & Hj & -> & ->)].
  { injection Hr as <- <-. split; [|done]. by destruct l as [[] ? ? ? ? ? ? ? ?]. }
  change (set_lhost ?h l) with (set_lm (set_mhost h (lm l)) l) in Hr.
  set (h := opened_host j (lhost l)) in *. set (l1 := set_lm (set_mhost h (lm l)) l) in *.
  rewrite (upd_step l1 p n Hn) in Hr. injection Hr as <- <-.
  set (n' := set_fdp true (set_fd (new_fd (lhost l)) n)).
  assert (En : mfid n' = mfid n /\ fdp n' = true /\ mfd n' = new_fd (lhost l) /\ e n' = e n /\ ep n' = ep n /\
    sbp n' = sbp n /\ fsp n' = fsp n /\ st_size n' = st_size n /\ fs n' = fs n) by (unfold n'; by destruct n).
  destruct En as (E1 & E2 & E3 & E4 & E5 & E6 & E7 & E8 & E9).
  split; [|intros _; exists n'; split; [apply with_node_lookup|done]].
  refine (vol_filed_lm l (MState (<[p:=n']> (nodes (lm l))) (lru (lm l)) (htab (lm l)) (numfree (lm l)) h) Hl _).
  pose proof (new_fd_fresh (lhost l)) as Hnew.
  apply (filed_change (lm l) _ p n'); try done.
  - destruct (fl_node _ Hc p n Hn) as [? ? H3 H4 H5].
    split; rewrite ?E1, ?E3, ?E4, ?E5, ?E6, ?E7, ?E8, ?E9; try done.
    + intros _. unfold h, opened_host. cbn. rewrite lookup_insert_eq. eauto.
    + intros Ef _. cbn. rewrite lookup_insert_eq. rewrite (vf_part _ Hl), (Ho Ef) in Hj.
      pose proof (hf_inode _ (fl_host _ Hc)) as Hi. unfold lhost in Hj. congruence.
  - intros q m Hne Hm Fm. destruct (nf_open _ _ (fl_node _ Hc q m Hm) Fm) as [k Hk].
    assert (Hd : mfd m <> new_fd (lhost l)) by (intros Ed; unfold lhost in *; congruence).
    split; [by apply lookup_insert_ne|]. rewrite E3. auto.
Qed.
Lemma content_back_same h n : same_files h (host_content (mfd n) (node_content h n) h) /\
  hfds (host_content (mfd n) (node_content h n) h) = hfds h.
Proof.
  unfold same_files, host_content, node_content. destruct (hfds h !! mfd n) as [j|]; [|done].
  split_and!; try done. cbn. intros k.
  destruct (decide (k = j)) as [->|]; [by rewrite lookup_insert_eq|by rewrite lookup_insert_ne].
Qed.

Lemma on_mdir_run l p n op v x : nodes (lm l) !! p = Some n -> op (as_mdir (lhost l) n) = Some (v, x) ->
  on_mdir p op l =
    Some (with_node p (from_mdir x n) (host_content (mfd n) (Mdir.content x) (lhost l)) l, inr v).
Proof.
  intros Hn Hop. unfold on_mdir. lrun (node_step l p n Hn). rewrite ebind_get, Hop. unfold eopt.
  rewrite ebind_ret. cbn [fst snd]. unfold on_mn at 1. by lrun (elift_run lm set_lm _ _ _ _ (put_node_run p (from_mdir x n) (lm l))).
Qed.
Lemma on_mdir_inv l p n op l' r : nodes (lm l) !! p = Some n -> on_mdir p op l = Some (l', r) ->
  exists v x, op (as_mdir (lhost l) n) = Some (v, x) /\ r = inr v /\
    l' = with_node p (from_mdir x n) (host_content (mfd n) (Mdir.content x) (lhost l)) l.
Proof.
  intros Hn Hr. destruct (op (as_mdir (lhost l) n)) as [[v x]|] eqn:E.
  - rewrite (on_mdir_run l p n op v x Hn E) in Hr. injection Hr as <- <-. by exists v, x.
  - unfold on_mdir in Hr. rewrite (ebind_ok _ _ _ _ _ (node_step l p n Hn)), ebind_get, E in Hr. done.
Qed.

(** The size of a node is that of the file. *)
Lemma size_filed l p n l' r : vol_filed l -> nodes (lm l) !! p = Some n ->
  echeck (on_mdir p (mnode_update_size_cached fstat_errno)) l = Some (l', r) ->
  vol_filed l' /\ node_is l' p (fun n' => mfid n' = mfid n /\
    (r = inr tt -> mfid n = f -> fs_Length (fs n') = blen b)).
Proof.
  intros Hl Hn Hr. pose proof (fl_node _ (vf_cache _ Hl) p n Hn) as Hf.
  pose proof (hf_content _ (fl_host _ (vf_cache _ Hl))) as Hb.
  assert (Hop : forall l1 r1, on_mdir p (mnode_update_size_cached fstat_errno) l = Some (l1, r1) ->
    exists v, r1 = inr v /\ vol_filed l1 /\ node_is l1 p (fun n' => mfid n' = mfid n /\
      (v = 0 -> mfid n = f -> fs_Length (fs n') = blen b))).
  { intros l1 r1 E. destruct (on_mdir_inv _ _ _ _ _ _ Hn E) as (v & x & Hx & -> & ->). exists v. split; [done|].
    assert (Hcase : Mdir.content x = node_content (lhost l) n /\
      ((v <> 0 /\ from_mdir x n = n) \/
       exists z, v = 0 /\ from_mdir x n = set_fs (set_fs_Length z (fs n)) (set_sb true z n) /\ (mfid n = f -> z = blen b))).
    { revert Hx. unfold mnode_update_size_cached, mnode_update_size. cbn [as_mdir Mdir.sbp Mdir.fdp Mdir.fd Mdir.st_size].
      destruct (sbp n) eqn:Hs; [|destruct (fdp n) eqn:Fn; [cbn|done]].
      - intros [= <- <-]. split; [done|]. right. exists (st_size n). split_and!; [done..|]. intros Ef. by apply Hf.
      - destruct (fstat_errno (mfd n) =? 0) eqn:He; cbn; intros [= <- <-]; (split; [done|]).
        + right. exists (blen (node_content (lhost l) n)). split_and!; [done..|]. intros Ef. f_equal.
          unfold node_content. rewrite (nf_fd _ _ Hf Ef Fn : hfds (lhost l) !! _ = _). exact Hb.
        + left. zbool. split; [done|]. unfold from_mdir, as_mdir. cbn. rewrite Hs.
          destruct n as [? ? ? [] ? ? ? ? ? ? ? ?]; cbn in *; by subst. }
    destruct Hcase as [-> Hcase]. destruct (content_back_same (lhost l) n) as [Hsame Hfds].
    set (h := host_content (mfd n) (node_content (lhost l) n) (lhost l)) in *.
    assert (Hh : forall n', node_filed (lhost l) n' -> node_filed h n')
      by (intros n' [G1 G2 G3 G4 G5]; split; rewrite ?Hfds; assumption).
    destruct Hcase as [(Hv & ->)|(z & -> & -> & Hz)].
    - split; [apply (filed_step l p n); auto|]. exists n. split_and!; [apply with_node_lookup|done..].
    - set (n' := set_fs _ _). assert (En : mfid n' = mfid n /\ fdp n' = fdp n /\ mfd n' = mfd n /\ e n' = e n /\
        ep n' = ep n /\ sbp n' = true /\ fsp n' = fsp n /\ st_size n' = z /\ fs_Length (fs n') = z)
        by (unfold n'; destruct n as [? ? ? [] ? ? ? ? ? ? ? ?]; done).
      destruct En as (E1 & E2 & E3 & E4 & E5 & E6 & E7 & E8 & E9). split.
      + apply (filed_step l p n); try done; [|by rewrite E2, E3]. apply Hh.
        destruct Hf as [G1 G2 G3 G4 G5]. split; rewrite ?E1, ?E2, ?E3, ?E4, ?E5, ?E7, ?E8, ?E9; auto.
      + exists n'. split; [apply with_node_lookup|]. rewrite E9. auto. }
  unfold echeck in Hr. apply ebind_inv in Hr as [(e0 & -> & Hr)|(v & l1 & H1 & Hr)].
  { by destruct (Hop _ _ Hr) as (v & [=] & _). }
  destruct (Hop _ _ H1) as (v' & [= <-] & Hl1 & n' & Hn' & E1 & E2).
  destruct (Z.eqb_spec v 0) as [->|Hv]; injection Hr as <- <-; (split; [done|]); exists n'; split_and!; auto. done.
Qed.

Lemma fent_filed l p n x l' r : vol_filed l -> nodes (lm l) !! p = Some n ->
  vld_fent_to_fetchstatus fstat_errno x p l = Some (l', r) ->
  vol_filed l' /\ (r = inr tt -> node_is l' p (fun n' => mfid n' = mfid n /\
    (mfid n = f -> fs_Length (fs n') = blen b))).
Proof.
  intros Hl Hn Hr. unfold vld_fent_to_fetchstatus in Hr.
  apply ebind_inv in Hr as [(e0 & -> & Hr)|([] & l1 & H1 & Hr)].
  { split; [|done]. by destruct (size_filed _ _ _ _ _ Hl Hn Hr). }
  destruct (size_filed _ _ _ _ _ Hl Hn H1) as (Hl1 & n1 & Hn1 & E1 & Hlen). rewrite ebind_get in Hr.
  rewrite (upd_step l1 p n1 Hn1) in Hr. injection Hr as <- <-. set (n2 := set_fs _ n1).
  assert (En : mfid n2 = mfid n1 /\ fdp n2 = fdp n1 /\ mfd n2 = mfd n1 /\ e n2 = e n1 /\ ep n2 = ep n1 /\
    sbp n2 = sbp n1 /\ fsp n2 = fsp n1 /\ st_size n2 = st_size n1 /\ fs_Length (fs n2) = fs_Length (fs n1))
    by (unfold n2; destruct n1; done).
  destruct En as (G1 & G2 & G3 & G4 & G5 & G6 & G7 & G8 & G9). split.
  - apply (filed_step l1 p n1); try done; [|by rewrite G2, G3].
    pose proof (fl_node _ (vf_cache _ Hl1) p n1 Hn1) as [F1 F2 F3 F4 F5].
    split; rewrite ?G1, ?G2, ?G3, ?G4, ?G5, ?G6, ?G7, ?G8, ?G9; auto.
  - intros _. exists n2. split; [apply with_node_lookup|]. rewrite G1, G9, E1. auto.
Qed.
Lemma ent_filed l p n x l' r : vol_filed l -> nodes (lm l) !! p = Some n ->
  vld_ent_to_fetchstatus fstat_errno x p l = Some (l', r) -> vol_filed l'.
Proof.
  intros Hl Hn Hr. unfold vld_ent_to_fetchstatus in Hr. rewrite (ebind_ok _ _ _ _ _ (node_step l p n Hn)) in Hr.
  destruct (fsp n); [by injection Hr as <- _|]. destruct (ep n); [|done]. cbn [eassert] in Hr. rewrite ebind_ret in Hr.
  match type of Hr with ebind ?m ?k _ = _ => assert (Hm : forall l1 r1, m l = Some (l1, r1) ->
    exists y, vld_fent_to_fetchstatus fstat_errno y p l = Some (l1, r1)) end.
  { intros l1 r1. destruct (u x) as [d|y].
    - destruct (type x =? TYPE_DIR); [|done]. cbn [eassert]. rewrite ebind_ret. by exists (dfile d).
    - destruct ((type x =? TYPE_FILE) || (type x =? TYPE_LINK)); [|done]. cbn [eassert]. rewrite ebind_ret. by exists y. }
  apply ebind_inv in Hr as [(e0 & -> & Hr)|([] & l1 & H1 & Hr)].
  - destruct (Hm _ _ Hr) as [y Hy]. by destruct (fent_filed _ _ _ _ _ _ Hl Hn Hy).
  - destruct (Hm _ _ H1) as [y Hy]. destruct (fent_filed _ _ _ _ _ _ Hl Hn Hy) as [Hl1 Hn1].
    destruct (Hn1 eq_refl) as (n1 & Hn1' & E1 & Hlen). rewrite (upd_step l1 p n1 Hn1') in Hr. injection Hr as <- <-.
    apply (filed_step l1 p n1); try done; [|by destruct n1].
    pose proof (fl_node _ (vf_cache _ Hl1) p n1 Hn1') as [F1 F2 F3 F4 F5].
    destruct n1. split; cbn in *; auto. intros Ef _. apply Hlen. congruence.
Qed.

Lemma open_filed p flags : preserves vol_filed (vld_open_vnode fstat_errno p flags).
Proof.
  intros l l' r Hl Hr. unfold vld_open_vnode in Hr.
  apply ebind_inv in Hr as [(e0 & -> & Hr)|(n & l0 & H1 & Hr)]; [by destruct (on_node_inv _ _ _ _ Hr) as [-> _]|].
  destruct (on_node_inv _ _ _ _ H1) as (-> & n' & [= <-] & Hn).
  destruct ((Z.land flags VOLOP_GETSTATUS =? 0) && fsp n && ep n); [by injection Hr as <- _|].
  apply ebind_inv in Hr as [(e0 & -> & Hr)|(db & l0 & H1' & Hr)]; [by destruct (vnode_db_inv _ _ _ _ Hr) as [-> _]|].
  destruct (vnode_db_inv _ _ _ _ H1') as (-> & db' & [= <-] & Hdb).
  apply ebind_inv in Hr as [(e0 & -> & Hr)|([] & l1 & H2 & Hr)];
    [by destruct (read_entry_filed _ _ _ _ _ _ Hl Hn Hdb Hr)|].
  destruct (read_entry_filed _ _ _ _ _ _ Hl Hn Hdb H2) as (Hl1 & Hn1).
  destruct (Hn1 eq_refl) as (n1 & Hn1' & E1 & Ho1). clear Hn1.
  rewrite (ebind_ok _ _ _ _ _ (upd_step l1 p n1 Hn1' (set_ep true))) in Hr.
  set (n2 := set_ep true n1) in *. set (l2 := with_node p n2 (lhost l1) l1) in *.
  assert (E2 : mfid n2 = mfid n /\ e n2 = e n1) by (unfold n2; rewrite <- E1; by destruct n1).
  assert (Hl2 : vol_filed l2).
  { apply (filed_step l1 p n1); try done; [|by destruct n1].
    pose proof (fl_node _ (vf_cache _ Hl1) p n1 Hn1') as [F1 F2 F3 F4 F5].
    unfold n2. destruct n1. split; cbn in *; auto. intros Ef _. apply Ho1. congruence. }
  pose proof (with_node_lookup p n2 (lhost l1) l1) as Hn2. fold l2 in Hn2.
  rewrite (ebind_ok _ _ _ _ _ (node_step l2 p n2 Hn2)) in Hr.
  assert (Ho2 : mfid n2 = f -> ino (fent (e n2)) = o).
  { destruct E2 as [Ea ->]. rewrite Ea. exact Ho1. }
  apply ebind_inv in Hr as [(e0 & -> & Hr)|([] & l3 & H3 & Hr)]; [by destruct (iopen_filed _ _ _ _ _ _ Hl2 Hn2 Ho2 Hr)|].
  destruct (iopen_filed _ _ _ _ _ _ Hl2 Hn2 Ho2 H3) as (Hl3 & Hn3).
  destruct (Hn3 eq_refl) as (n3 & Hn3' & E3 & F3). clear Hn3.
  rewrite (ebind_ok _ _ _ _ _ (upd_step l3 p n3 Hn3' (set_fdp true))) in Hr.
  replace (set_fdp true n3) with n3 in Hr by (destruct n3; cbn in F3; by subst).
  rewrite with_node_id in Hr by done.
  destruct (Z.land flags VOLOP_GETSTATUS =? VOLOP_GETSTATUS); [|by injection Hr as <- _].
  rewrite (ebind_ok _ _ _ _ _ (node_step l3 p n3 Hn3')) in Hr. by apply (ent_filed l3 p n3 _ _ _ Hl3 Hn3' Hr).
Qed.

Lemma kept_map_err {A} g (m : LM A) : preserves vol_filed m -> preserves vol_filed (emap_err g m).
Proof. intros Hm. unfold emap_err. apply preserves_bind; [by apply preserves_try|]. intros []; auto with preserves. Qed.
Lemma kept_on_node p : preserves vol_filed (on_mn (node p)).
Proof. apply kept_on_mn, kept_node. Qed.
Lemma kept_on_free p bad : preserves vol_filed (on_mn (mnode_free p bad)).
Proof. apply kept_on_mn, free_filed. Qed.
Hint Resolve kept_map_err preserves_onerr kept_on_node kept_on_free open_filed : preserves.

Lemma rights_node_filed fresh p n l l' r : vol_filed l -> numfree (lm l) <> 0 ->
  rights_node fresh fstat_errno p n l = Some (l', r) -> vol_filed l'.
Proof.
  intros Hl Hf Hr. unfold rights_node in Hr. destruct (type (e n) =? TYPE_DIR); [by injection Hr as <- _|].
  match type of Hr with ebind ?m ?k _ = _ => assert (Hm : forall l1 r1, m l = Some (l1, r1) -> vol_filed l1) end.
  { intros l1 r1. unfold emap_err, etry, ebind, on_mn, elift.
    destruct (mnode_find _ _ (lm l)) as [[c x]|] eqn:E; [|done].
    assert (Hc : filed c) by (eapply find_filed; [apply Hl| |exact E]; auto).
    destruct x; intros [= <- _]; by apply vol_filed_lm. }
  apply ebind_inv in Hr as [(e0 & -> & Hr)|(q & l1 & H1 & Hr)]; [by eapply Hm|].
  apply Hm in H1. revert Hr. apply (preserves_from _ _ _ _ _ H1). preserves_run.
Qed.
Lemma check_filed fresh p m l l' r : vol_filed l -> numfree (lm l) <> 0 ->
  vld_check_rights fresh fstat_errno p m l = Some (l', r) -> vol_filed l'.
Proof.
  intros Hl Hf Hr. unfold vld_check_rights in Hr.
  apply ebind_inv in Hr as [(e0 & -> & Hr)|(n & l0 & H1 & Hr)]; [by destruct (on_node_inv _ _ _ _ Hr) as [-> _]|].
  destruct (on_node_inv _ _ _ _ H1) as (-> & n' & [= <-] & Hn).
  destruct (fsp n); [|done]. destruct (ep n); [|done]. destruct (loop m <=? 1); [|done]. cbn [eassert] in Hr.
  rewrite !ebind_ret in Hr. destruct (sec m) as [sc|]; [|done]. cbn [eopt] in Hr. rewrite ebind_ret in Hr.
  destruct (cps sc) as [ids|]; [|by injection Hr as <- _].
  apply ebind_inv in Hr as [(e0 & -> & Hr)|(q & l1 & H2 & Hr)]; [by eapply rights_node_filed|].
  eapply rights_node_filed in H2; [|done..]. revert Hr. apply (preserves_from _ _ _ _ _ H2). preserves_run.
Qed.
End File.
