(* ===== verification/VldRemove.v ===== *)
(** * The volume layer: links and removal

    [vld_adjust_linkcount] stores the new number of links, or removes the
    vnode when none is left: [vld_remove_node] takes it out of the cache and
    of its database, gives its blocks back to the volume and unlinks its
    host file. *)

From S2P Require Import Prelude Estate Buf Fdir Vnum Mdir Voldb VoldbRep VoldbFree VoldbOps.
From S2P Require Import VoldbCorrect VoldbSim Vrights Svol SvolCorrect Mnode MnodeCorrect Vinfo.
From S2P Require Import VinfoCorrect Vld VldCorrect VldModify.

Local Open Scope em_scope.

Lemma svol_unlink_total part o h : onode_wf o ->
  exists h' r, svol_unlink part o h = Some (h', r) /\
    match r with
    | inr _ => exists ino o' name, local_opaque2ino o = Some (inr (ino, o')) /\
        local_create_name part ino = inr name /\ hnames h' = delete name (hnames h)
    | inl _ => hnames h' = hnames h
    end.
Proof.
  intros Ho. unfold svol_unlink, local_unlink_file.
  destruct (local_opaque2ino_total o Ho) as [r Hr]. rewrite Hr. unfold eopt. rewrite ebind_ret.
  destruct r as [e0|[ino o']]; [by eexists _, _|].
  destruct (local_create_name part ino) as [e0|name] eqn:Hname; [by eexists _, _|].
  destruct (hcall_run (unlink_why name)
    (fun s => Host (hdirs s) (delete name (hnames s)) (hfiles s) (hfds s) (hos s)) h)
    as (c & Hc & _). unfold unlink. lrun Hc.
  destruct (c =? 0).
  - eexists _, (inr tt). split; [reflexivity|]. exists ino, o', name. done.
  - by eexists _, (inl c).
Qed.

Section Remove.
Context `{OnodeCoderOk} `{InfoCoderOk} `{HostChoice}.
Context (stack : voldb -> bytes) `{!StackOk stack}.
Context (num : nat) (s : lstate) (held : list Z) (dead : list AFSFid) (miss p : Z) (n : mnode).
Context (dirp : bool) (k : Z) (d : voldb) (fl : list Z).
Context (Hi : minv num (lm s) held dead miss) (Hp : p ∈ held) (Hn : nodes (lm s) !! p = Some n).
Context (Hat : vnode_at s (mfid n) dirp k d fl) (Hos : db_os d = []) (Hinfo : info_ready s).

(** The blocks of a vnode. *)
Definition blocks (x : voldb_entry) : Z := ENTRY_DISK_SIZE + Length (fent x) / 1024.

(** What a removal leaves. *)
Definition removed_from (s' : lstate) (r : Z + unit) : Prop :=
  let sz := vi_size (linfo s) - blocks (e n) in
  (exists d', ldb dirp s' = Some d' /\ voldb_ok d' (k :: fl) /\ db_os d' = [] /\
     vnode_step (kind_type d) (abs d fl) (EDel k (ino (slot d k))) (abs d' (k :: fl))) /\
  ldb (negb dirp) s' = ldb (negb dirp) s /\
  vi_size (linfo s') = (if maxquota (linfo s) <? sz then vi_size (linfo s) else sz) /\
  match r with
  | inr _ => exists ino' o' name, local_opaque2ino (ino (slot d k)) = Some (inr (ino', o')) /\
      local_create_name (lpart s) ino' = inr name /\ hnames (lhost s') !! name = None
  | inl _ => True
  end.

Lemma remove_node_step :
  0 <= Length (fent (e n)) < 2^31 ->
  0 <= vi_size (linfo s) - blocks (e n) ->
  exists s' r, vld_remove_node stack p s = Some (s', r) /\
    minv num (lm s') held (mfid n :: dead) miss /\ removed_from s' r.
Proof.
  intros HL Hsz. unfold removed_from. set (sz := vi_size (linfo s) - blocks (e n)) in *.
  pose proof Hat as [Hnum Hdb Hok Hkd Hk Hf]. pose proof (ok_wf _ _ Hok) as Hwf.
  pose proof (num_small d Hwf) as Hns. change VOLDB_ENTRY_USED with (2^32 - 2) in Hns.
  unfold vld_remove_node. rewrite ebind_get, (ir_infop _ Hinfo). unfold eassert. rewrite ebind_ret.
  lrun (node_step s p n Hn).
  destruct (mnode_remove_inv num (lm s) held dead miss (mfid n) Hi) as (m1 & Hr1 & Hi1 & _ & Hn1).
  { intros q Hq. destruct (mi_node _ _ _ _ _ Hi p n Hn) as (_ & _ & [Ho|(_ & Ho & _)] & _); [|done].
    congruence. }
  destruct (Hn1 p n Hn) as (n1 & Hn1' & He1 & _). clear Hn1.
  rewrite (ebind_ok _ _ s (set_lm m1 s) tt) by (unfold on_mn; by rewrite (elift_run lm set_lm _ _ _ _ Hr1)).
  set (s1 := set_lm m1 s).
  rewrite (ebind_ok _ _ s1 s1 (dirp, k)) by (rewrite vnode_db_run; by rewrite Hnum). cbn [fst snd].
  rewrite uwrap32_small by (unfold is_uint32; lia).
  assert (Hdel : voldb_del_entry stack k d = Some (deleted stack k d, inr (ino (slot d k)))).
  { unfold voldb_del_entry. rewrite func_ok by done. by apply (del_entry_run stack d k fl). }
  assert (Hd1 : ldb dirp s1 = Some d) by done.
  lrun (on_db_run dirp _ s1 d _ _ Hd1 Hdel). set (s2 := set_ldb dirp (deleted stack k d) s1).
  lrun (node_step s2 p n1 Hn1'). rewrite He1, swrap32_small by (unfold is_int32; lia).
  rewrite Z.quot_div_nonneg by lia. fold (blocks (e n)).
  assert (Hi2 : info_ready s2) by (destruct Hinfo; by split).
  assert (Hint : is_int32 sz).
  { pose proof (ir_wf _ Hinfo) as (_ & _ & Hw & _). rewrite !Forall_cons in Hw.
    assert (0 <= blocks (e n)).
    { unfold blocks. change ENTRY_DISK_SIZE with 1.
      pose proof (Z.div_pos (Length (fent (e n))) 1024 ltac:(lia) ltac:(lia)). lia. }
    assert (is_int32 (vi_size (linfo s))) by tauto. unfold is_int32 in *. unfold sz in *. lia. }
  pose proof (update_volsize_step s2 (- blocks (e n)) (ir_infop _ Hi2) (ir_wf _ Hi2) (ir_sino _ Hi2)) as Hup.
  cbv zeta in Hup. change (linfo s2) with (linfo s) in Hup.
  replace (vi_size (linfo s) + - blocks (e n)) with sz in Hup by (unfold sz; lia).
  specialize (Hup Hint Hsz).
  assert (Hup' : exists s3, eignore (on_info (vld_update_volsize (- blocks (e n)))) s2 = Some (s3, inr tt) /\
    nodes (lm s3) = nodes (lm s2) /\ (exists h, lm s3 = set_mhost h (lm s2)) /\
    ldb dirp s3 = Some (deleted stack k d) /\
    ldb (negb dirp) s3 = ldb (negb dirp) s /\ lpart s3 = lpart s /\
    vi_size (linfo s3) = if maxquota (linfo s) <? sz then vi_size (linfo s) else sz).
  { unfold eignore. destruct (maxquota (linfo s) <? sz).
    - rewrite Hup. exists s2. split_and!; try done; [|by destruct dirp..].
      exists (mhost (lm s2)). by destruct (lm s2).
    - destruct Hup as (h & r & ->). eexists. split; [reflexivity|].
      split_and!; try done; [by exists h|by destruct dirp..|apply vi_size_sized]. }
  destruct Hup' as (s3 & Hr3 & Hns3 & [h3 Hl3] & Hd3 & Hd3' & Hp3 & Hsz3). lrun Hr3.
  unfold volop_iunlink. rewrite ebind_get.
  assert (Ho : onode_wf (ino (slot d k))) by apply (slot_wf d k Hwf Hk).
  destruct (svol_unlink_total (lpart s3) (ino (slot d k)) (lhost s3) Ho) as (h4 & r4 & Hr4 & Hu).
  rewrite (set_lhost_run _ _ _ _ Hr4). exists (set_lhost h4 s3), r4. split; [done|].
  split.
  { simpl. rewrite Hl3. change (lm s2) with m1. destruct Hi1 as [A1 A2 A3 A4 A5 A6 A7]. by split. }
  split_and!; [|by destruct dirp|done|].
  - exists (deleted stack k d). split_and!; [by destruct dirp|by apply deleted_ok| |].
    + unfold deleted. rewrite commit_os. by destruct d.
    + by apply del_entry_step.
  - destruct r4 as [e4|[]]; [done|]. destruct Hu as (ino' & o' & name & A & B & C). rewrite Hp3 in B.
    exists ino', o', name. split_and!; try done.
    change (lhost (set_lhost h4 s3)) with h4. rewrite C. apply lookup_delete_eq.
Qed.

End Remove.

Section Adjust.
Context `{OnodeCoderOk} `{InfoCoderOk} `{HostChoice}.
Context (stack : voldb -> bytes) `{!StackOk stack}.
Context (num : nat) (s : lstate) (held : list Z) (dead : list AFSFid) (miss p : Z) (n : mnode).
Context (dirp : bool) (k : Z) (d : voldb) (fl : list Z).
Context (Hi : minv num (lm s) held dead miss) (Hp : p ∈ held) (Hn : nodes (lm s) !! p = Some n).
Context (Hat : vnode_at s (mfid n) dirp k d fl) (Hos : db_os d = []) (Hinfo : info_ready s).

End Adjust.
