(* ===== verification/VldCreate.v ===== *)
(** * The volume layer: creation of a vnode

    [vld_create_entry] takes an entry of the database and a node of the cache,
    creates a host file, fills a new directory, stores the entry with the
    access lists of the parent and charges the volume; what it has taken it
    gives back when a later step fails. *)

From S2P Require Import Prelude Estate Buf Fdir FdirRep FdirCorrect Vnum Mdir Voldb VoldbRep.
From S2P Require Import VoldbFree VoldbOps VoldbCorrect VoldbSim Vrights Svol SvolCorrect Mnode.
From S2P Require Import MnodeCorrect Vinfo VinfoCorrect Vld VldCorrect VldModify VldRemove.

Local Open Scope em_scope.

(** ** The access lists in the database *)

Section Acls.
Context `{OnodeCoderOk}.
Context (d : voldb) (fl : list Z) (k : Z) (e : voldb_dir_entry).
Context (Hok : voldb_ok d fl) (Hkd : is_dir_db d) (Hk : 0 <= k < num d).

Lemma put_slot_acls_header i : i + 4 <= 40 ->
  ld32 (db_file (put_slot_acls k e d)) i = ld32 (db_file d) i.
Proof.
  intros Hi. pose proof (addr_range d k (ok_wf _ _ Hok) Hk). unfold put_slot_acls.
  rewrite set_file_file. apply ld32_st_out. assert (0 <= VOLDB_FILE_SIZE) by done. lia.
Qed.

Lemma put_slot_acls_ok : voldb_ok (put_slot_acls k e d) fl.
Proof.
  pose proof Hok as [Hwf Hc Hnd Hu Hh].
  assert (Hs : forall j, 0 <= j < num d -> slot (put_slot_acls k e d) j = slot d j)
    by (intros j Hj; by apply put_slot_acls_slot).
  assert (Hn : num (put_slot_acls k e d) = num d) by (by destruct d).
  assert (Hf : the_freeptr (put_slot_acls k e d) = the_freeptr d) by (by destruct d).
  split.
  - apply set_file_wf; [done|apply blen_st|]. apply st_bytes; [apply (wf_bytes _ Hwf)|].
    apply words_bytes_bytes.
  - rewrite Hf. apply (free_chain_ext d); [lia| |done]. intros j Hj. rewrite Hs; [done|].
    by eapply free_chain_range.
  - done.
  - rewrite Hn. intros j Hj Hjf. rewrite Hs by done. by apply Hu.
  - destruct Hh as (H1' & H2' & H3' & H4'). unfold header_on_disk.
    change VOLDB_HEADER_HALF with 20 in *. rewrite !put_slot_acls_header by done.
    rewrite Hf. by destruct d.
Qed.

Lemma put_slot_acls_abs : abs (put_slot_acls k e d) fl = abs d fl.
Proof.
  apply map_eq. intros j. rewrite !lookup_abs.
  replace (num (put_slot_acls k e d)) with (num d) by (by destruct d).
  destruct (decide _) as [Hj|]; [|done]. unfold aslot_of.
  by rewrite put_slot_acls_slot by (done || apply Hok).
Qed.

Lemma put_acl_run : voldb_put_acl k e d = Some (put_slot_acls k e d, inr tt).
Proof.
  unfold voldb_put_acl. rewrite vbind_get. pose proof Hkd as (_ & _ & _ & ->).
  rewrite Z.eqb_refl. cbn [vassert]. rewrite vbind_ret, func_ok by apply Hok.
  apply put_acl_ok; [apply Hok|done..].
Qed.

Lemma slot_acls_put : acl_wf (negacl e) -> acl_wf (acl e) ->
  slot_acls (put_slot_acls k e d) k = (negacl e, acl e).
Proof.
  intros Hn Ha. pose proof (addr_range d k (ok_wf _ _ Hok) Hk) as Hr.
  pose proof (wf_len d (ok_wf _ _ Hok)) as Hl. pose proof Hkd as (_ & Hks & _).
  assert (Hsz : esize d = VOLDB_FILE_SIZE + acls_size) by (unfold esize; by rewrite Hks).
  unfold slot_acls, put_slot_acls. rewrite set_file_file.
  change (addr (set_file _ d) k) with (addr (put_slot_acls k e d) k).
  assert (Ha1 : addr (put_slot_acls k e d) k = addr d k) by (by destruct d). rewrite Ha1.
  unfold acls_at. assert (0 <= VOLDB_FILE_SIZE) by done.
  rewrite get_acls_at_st; [done|lia|lia|done|done].
Qed.
End Acls.

(** ** Names of inodes *)

Lemma ino2opaque_wf j o o' : onode_wf o -> local_ino2opaque j o = Some o' -> onode_wf o'.
Proof.
  intros (Hs & Hl & Hb) Ho. unfold local_ino2opaque in Ho.
  assert (Hw : forall b a bs b', length b = 100%nat -> Forall is_byte b -> Forall is_byte bs ->
    wr b a bs = Some b' -> length b' = 100%nat /\ Forall is_byte b').
  { intros b a bs b' Hl1 Hb1 Hb2 Hw. unfold wr in Hw. destruct (in_buf _ _ _); [|done].
    injection Hw as <-. split; [|by apply st_bytes].
    apply Nat2Z.inj. change (blen (st b a bs) = Z.of_nat 100). rewrite blen_st. unfold blen. lia. }
  destruct (wr (onode_data o) 0 [76]) as [d1|] eqn:E1; [|done]. simpl in Ho.
  destruct (wr d1 1 (le64 j)) as [d2|] eqn:E2; [|done]. injection Ho as <-.
  assert (Hle : Forall is_byte (le64 j)).
  { unfold le64, le32. apply Forall_app. split; apply Forall_rev, be32_bytes. }
  assert (H76 : Forall is_byte [76]) by (constructor; [unfold is_byte; lia|done]).
  destruct (Hw _ _ _ _ Hl Hb H76 E1) as [Hl1 Hb1].
  destruct (Hw _ _ _ _ Hl1 Hb1 Hle E2) as [Hl2 Hb2].
  split; [unfold is_int32; simpl; lia|]. done.
Qed.

(** ** Names and directories of the host *)

Definition same_names (h h' : hostfs) : Prop := hnames h' = hnames h /\ hdirs h' = hdirs h.
Lemma same_names_wf h h' : same_names h h' -> fs_wf h -> fs_wf h'.
Proof. intros [E1 E2] [H1 H2]. split; intros p; rewrite ?E1, ?E2; eauto. Qed.

(** The cache closes descriptors, it does nothing else to the host. *)
Definition keeps_names {A} (m : MM A) : Prop :=
  forall s s' r, m s = Some (s', r) -> same_names (mhost s) (mhost s').

Lemma kn_bind {A B} (m : MM A) (k : A -> MM B) :
  keeps_names m -> (forall a, keeps_names (k a)) -> keeps_names (ebind m k).
Proof.
  intros Hm Hk s s' r [(e & _ & Hr)|(a & s1 & Hr & Hr')]%ebind_inv; [by eapply Hm|].
  destruct (Hm _ _ _ Hr), (Hk a _ _ _ Hr'). split; congruence.
Qed.
Lemma kn_ret {A} (a : A) : keeps_names (eret a).
Proof. by intros s s' r [= <- <-]. Qed.
Lemma kn_fail {A} e : keeps_names (A := A) (efail e).
Proof. by intros s s' r [= <- <-]. Qed.
Lemma kn_get : keeps_names eget.
Proof. by intros s s' r [= <- <-]. Qed.
Lemma kn_opt {A} (o : option A) : keeps_names (eopt o).
Proof. destruct o; [apply kn_ret|by intros s s' r]. Qed.
Lemma kn_assert b : keeps_names (eassert b).
Proof. destruct b; [apply kn_ret|by intros s s' r]. Qed.
Lemma kn_mod f : (forall s, mhost (f s) = mhost s) -> keeps_names (emod f).
Proof. intros Hf s s' r [= <- <-]. by rewrite Hf. Qed.
Lemma kn_close fd : keeps_names (Mnode.on_host (hclose fd)).
Proof. by intros s s' r [= <- <-]. Qed.
Create HintDb kn.
#[export] Hint Resolve kn_ret kn_fail kn_get kn_opt kn_assert kn_close : kn.
Ltac kn_run := repeat first [apply kn_bind; [|intros ?] | solve [eauto with kn] | case_match
  | apply kn_mod; by intros []].

Lemma kn_node p : keeps_names (node p).
Proof. unfold node. kn_run. Qed.
Lemma kn_put p n : keeps_names (put_node p n).
Proof. unfold put_node. kn_run. Qed.
#[export] Hint Resolve kn_node kn_put : kn.
Lemma kn_upd p f : keeps_names (upd_node p f).
Proof. unfold upd_node. kn_run. Qed.
#[export] Hint Resolve kn_upd : kn.
Lemma kn_find fresh f : keeps_names (mnode_find fresh f).
Proof.
  unfold mnode_find, reset_node, htab_del, htab_add, lru_addhead, lru_del, lru_deltail. kn_run.
Qed.

(** ** The steps of the creation *)

(** A node for a vnode that is not in the cache. *)
Lemma find_new_step num fresh s held dead miss f :
  minv num (lm s) held dead miss -> htab (lm s) !! f = None -> f ∉ dead ->
  (exists q, q ∈ lru (lm s) /\ (q ∉ held)) ->
  exists s' p, on_mn (mnode_find fresh f) s = Some (s', inr p) /\
    minv num (lm s') (p :: held) dead (miss + 1) /\ same_volume s s' /\ (p ∉ held) /\
    nodes (lm s') = <[p := renewed f]> (nodes (lm s)) /\ same_names (lhost s) (lhost s').
Proof.
  intros Hi Hf Hd Hfree.
  destruct (find_miss_inv num fresh (lm s) held dead miss f Hi Hf Hd Hfree)
    as (m' & p & Hr & Hi' & Hp & Hns & _).
  exists (set_lm m' s), p. unfold on_mn. rewrite (elift_run lm set_lm _ _ _ _ Hr).
  split_and!; try done. exact (kn_find fresh f _ _ _ Hr).
Qed.

Section Steps.
Context `{HostChoiceOk} (junk : onode_opaque) (Hjunk : onode_wf junk).

(** The host file: the node has its descriptor, and it is empty. *)
Lemma volop_icreate_step s p n :
  nodes (lm s) !! p = Some n -> fs_wf (lhost s) -> blen (lpart s) + 12 < MAXPATHLEN ->
  exists h r n', volop_icreate junk p s = Some (with_node p n' h s, r) /\ fs_wf h /\
    kept_identity n n' /\ e n' = e n /\ ep n' = ep n /\ fsp n' = fsp n /\ fs n' = fs n /\
    match r with
    | inr o => onode_wf o /\ sbp n' = true /\ fdp n' = true /\ st_size n' = 0 /\
        node_content h n' = [] /\ exists i, hfds h !! mfd n' = Some i /\ hfiles h !! i = Some []
    | inl _ => True
    end.
Proof.
  intros Hn Hw Hfit. unfold volop_icreate. rewrite ebind_get.
  destruct (local_create_node_run (lpart s) Hfit (lhost s) junk Hw) as (h & c & r & Hr & Hok & Hres).
  { destruct Hjunk as (_ & Hl & _). lia. }
  lrun (host_step s p n Hn _ h _ Hr). cbn [fst snd].
  pose proof (proj1 Hok) as Hwf.
  set (n' := match c with Some (fd, size) => set_opened fd size n | None => n end).
  assert (Hstep : (match c with
    | Some (fd, size) => on_mn (upd_node p (set_opened fd size))
    | None => eret tt end) (with_node p n h s) = Some (with_node p n' h s, inr tt)).
  { unfold n'. destruct c as [[fd size]|]; [|done].
    by rewrite (upd_step _ p n (with_node_lookup _ _ _ _)), with_node_with_node. }
  lrun Hstep.
  assert (E : kept_identity n n' /\ e n' = e n /\ ep n' = ep n /\ fsp n' = fsp n /\ fs n' = fs n).
  { unfold n', kept_identity. destruct c as [[fd size]|]; by destruct n. }
  destruct E as (E1 & E2 & E3 & E4 & E5).
  destruct r as [err|o].
  - exists h, (inl err), n'. by split_and!.
  - exists h, (inr o), n'. destruct Hres as [(fd & i & -> & Hfd & Hi) (j & Hj)].
    assert (F : sbp n' = true /\ fdp n' = true /\ st_size n' = 0 /\ mfd n' = fd)
      by (unfold n'; by destruct n). destruct F as (F1 & F2 & F3 & F4).
    split_and!; try done; [by eapply ino2opaque_wf| |].
    + unfold node_content. by rewrite F4, Hfd, Hi.
    + exists i. by rewrite F4.
Qed.

Context (create_errno end_errno : Z -> Z -> Z) (truncate_errno : Z -> Z -> option Z)
  (fstat_errno : Z -> Z).
Context (Htrunc : forall fd len, truncate_errno fd len = Some 0).

(** The new directory: its file has the two entries when the status is 0. *)
Lemma mkdir_step s p n dot dot_dot i :
  nodes (lm s) !! p = Some n -> sbp n = true -> fdp n = true -> st_size n = 0 ->
  node_content (lhost s) n = [] -> hfds (lhost s) !! mfd n = Some i ->
  exists h n' c, on_mdir p (fun x => mdir_mkdir create_errno end_errno truncate_errno fstat_errno
      x dot dot_dot) s = Some (with_node p n' h s, inr c) /\
    same_names (lhost s) h /\ kept_identity n n' /\ e n' = e n /\ ep n' = ep n /\
    fsp n' = fsp n /\ sbp n' = true /\ fdp n' = true /\ mfd n' = mfd n /\
    (c = 0 -> exists b, fdir_mkdir (truncate_errno (mfd n)) [] dot dot_dot false = Some (0, b) /\
       node_content h n' = b /\ st_size n' = blen b).
Proof.
  intros Hn Hsb Hfd Hsz Hcont Hi. unfold on_mdir. lrun (node_step s p n Hn). rewrite ebind_get.
  set (x := as_mdir (lhost s) n).
  destruct (fdir_mkdir_correct (truncate_errno (mfd n)) {| Cell := 0; fid := dot |} dot dot_dot)
    as (b & Hb & _ & Hlen & _); [done|].
  assert (Hr : exists c y, mdir_mkdir create_errno end_errno truncate_errno fstat_errno x dot dot_dot =
      Some (c, y) /\ (y = x /\ c <> 0 \/ y = Mdir.set_size (set_content x b) true (blen b))).
  { unfold mdir_mkdir, change_dir, fbuf_create.
    change (Mdir.sbp x) with (sbp n). change (Mdir.fdp x) with (fdp n).
    change (Mdir.fd x) with (mfd n). change (Mdir.st_size x) with (st_size n).
    change (Mdir.content x) with (node_content (lhost s) n). rewrite Hsb, Hfd, Hsz, Hcont.
    rewrite !option_guard_True by done. cbn [mbind option_bind].
    destruct (Z.eqb_spec (create_errno (mfd n) 0) 0) as [E|E]; cbn [negb].
    - cbn [mbind option_bind]. rewrite Hb. cbn [mbind option_bind].
      rewrite swrap32_small by (unfold is_int32; rewrite Hlen; unfold AFSDIR_PAGESIZE; lia).
      assert (Hnode : mnode_update_size fstat_errno (set_content x b) (Some (blen b)) =
        Some (0, Mdir.set_size (set_content x b) true (blen b))).
      { unfold mnode_update_size. change (Mdir.sbp (set_content x b)) with (sbp n). by rewrite Hsb. }
      rewrite Hnode. cbn [mbind option_bind].
      destruct (negb (fbuf_end end_errno (Mdir.set_size (set_content x b) true (blen b)) b =? 0));
        eexists _, _; (split; [reflexivity|by right]).
    - eexists _, _. split; [reflexivity|]. left. done. }
  destruct Hr as (c & y & Hr & Hy). rewrite Hr. unfold eopt. rewrite ebind_ret. cbn [fst snd].
  rewrite (ebind_ok _ _ s (with_node p (from_mdir y n) (lhost s) s) tt).
  2:{ unfold on_mn. by rewrite (elift_run lm set_lm _ _ _ _ (put_node_run p (from_mdir y n) (lm s))). }
  rewrite ebind_mod.
  exists (host_content (mfd n) (Mdir.content y) (lhost s)), (from_mdir y n), c. split; [done|].
  assert (Hnames : same_names (lhost s) (host_content (mfd n) (Mdir.content y) (lhost s)))
    by (unfold host_content; rewrite Hi; done).
  assert (Hsby : Mdir.sbp y = true) by (destruct Hy as [[-> _]| ->]; [exact Hsb|done]).
  assert (E : kept_identity n (from_mdir y n) /\ e (from_mdir y n) = e n /\ ep (from_mdir y n) = ep n /\
    fsp (from_mdir y n) = fsp n /\ sbp (from_mdir y n) = Mdir.sbp y /\ fdp (from_mdir y n) = fdp n /\
    mfd (from_mdir y n) = mfd n /\ st_size (from_mdir y n) = Mdir.st_size y)
    by (unfold kept_identity; by destruct n).
  destruct E as (E1 & E2 & E3 & E4 & E5 & E6 & E7 & E8).
  split_and!; try done; try congruence. intros ->. destruct Hy as [[_ ?]| ->]; [done|].
  exists b. split; [done|]. split; [|by rewrite E8].
  unfold node_content, host_content. rewrite Hi. cbn [hfds hfiles]. rewrite E7, Hi.
  rewrite lookup_insert_eq. done.
Qed.
End Steps.

(** ** The entry that is stored *)

Definition stored_entry (now ty : Z) (o : onode_opaque) (pfid : AFSFid) (parent x : voldb_entry)
    (ss : AFSStoreStatus) (m : option msec) : option voldb_entry :=
  x ← new_vnode_entry ty o pfid parent x;
  x ← voldb_update_time x now;
  x ← vld_set_author x m;
  vld_storestatus_to_ent x ss.

Definition fid_wf (f : AFSFid) : Prop := is_uint32 (Vnode f) /\ is_uint32 (Unique f).
Definition vnode_type (ty : Z) : Prop := ty = TYPE_DIR \/ ty = TYPE_FILE \/ ty = TYPE_LINK.

(** What holds of the entry before the status is stored, and is kept by it. *)
Definition new_fields (ty : Z) (o : onode_opaque) (pfid : AFSFid) (old f : voldb_file_entry) : Prop :=
  ino f = o /\ FileType f = ty /\ LinkCount f = (if ty =? TYPE_DIR then 2 else 1) /\
  DataVersion f = 0 /\ ParentVnode f = Vnode pfid /\ ParentUnique f = Unique pfid /\
  unique f = unique old /\ Length f = Length old /\ nextptr f = nextptr old.

Section Stored.
Context `{OnodeCoderOk}.

Lemma store_fields_new mode ss ty o pfid old f :
  new_fields ty o pfid old f -> new_fields ty o pfid old (store_fields mode ss f).
Proof. unfold new_fields, store_fields, when. destruct f. intros H0'. by repeat case_match. Qed.

(** The entry of the free list once it is filled in. *)
Definition filled (now ty : Z) (o : onode_opaque) (pfid : AFSFid) (m : option msec)
    (f : voldb_file_entry) : voldb_file_entry :=
  let f := set_Parent (Vnode pfid) (Unique pfid) (set_DataVersion 0
    (set_LinkCount (if ty =? TYPE_DIR then 2 else 1) (set_FileType ty (set_ino o f)))) in
  let f := set_ServerModTime (uwrap32 now) f in
  match m with
  | Some m => match sec m with Some sc => set_Author (uwrap32 (uid sc)) f | None => f end
  | None => f
  end.

Lemma filled_new now ty o pfid m f : new_fields ty o pfid f (filled now ty o pfid m f).
Proof.
  unfold new_fields, filled. destruct f, m as [m|]; [destruct (sec m)|]; by split_and!.
Qed.

Lemma filled_wf now ty o pfid m f :
  vnode_type ty -> onode_wf o -> fid_wf pfid -> entry_wf f -> entry_wf (filled now ty o pfid m f).
Proof.
  intros Hty Ho [Hv Hu] Hf. assert (Ht : is_uint32 ty).
  { unfold is_uint32. destruct Hty as [-> |[-> | ->]]; unfold TYPE_DIR, TYPE_FILE, TYPE_LINK; lia. }
  assert (H0' : is_uint32 0) by (unfold is_uint32; lia).
  assert (Hl : is_uint32 (if ty =? TYPE_DIR then 2 else 1))
    by (unfold is_uint32; destruct (ty =? TYPE_DIR); lia).
  unfold filled. destruct m as [m|]; [destruct (sec m)|]; eauto 12 with entry_wf.
Qed.

(** The access lists a new directory gets. *)
Definition inherited (ty : Z) (parent x : voldb_entry) : Prop :=
  match u x, u parent with
  | u_dir d, u_dir q => ty = TYPE_DIR /\ negacl d = negacl q /\ acl d = acl q
  | u_dir _, u_file _ => False
  | u_file _, _ => ty <> TYPE_DIR
  end.

Lemma stored_entry_ok now ty o pfid parent x ss m :
  vnode_type ty -> onode_wf o -> fid_wf pfid -> status_wf ss ->
  match m with Some m => is_Some (sec m) | None => True end ->
  match u x with u_dir _ => ty = TYPE_DIR | u_file _ => ty <> TYPE_DIR end ->
  (ty = TYPE_DIR -> exists q, u parent = u_dir q) ->
  type x = ty -> entry_wf (fent x) -> nextptr (fent x) = VOLDB_ENTRY_USED ->
  exists x', stored_entry now ty o pfid parent x ss m = Some x' /\
    storable (ty =? TYPE_DIR) x' /\ new_fields ty o pfid (fent x) (fent x') /\
    inherited ty parent x'.
Proof.
  intros Hty Ho Hpf Hss Hm Hu Hpar Htx Hwf Hnx. unfold stored_entry.
  pose proof (filled_new now ty o pfid m (fent x)) as Hnew.
  pose proof (filled_wf now ty o pfid m (fent x) Hty Ho Hpf Hwf) as Hfw.
  set (f := filled now ty o pfid m (fent x)) in *.
  assert (Hmode : is_uint32 (8^4 - 1) /\ is_uint32 (8^3 - 1)) by (unfold is_uint32; lia).
  destruct x as [t ux]. simpl in Htx. subst t. destruct ux as [d|y]; cbn [u] in Hu.
  - subst ty. destruct (Hpar eq_refl) as [q Hq].
    unfold new_vnode_entry, inherited, upd_fent. rewrite Hq. cbn [u type]. rewrite !Z.eqb_refl.
    cbn [mbind option_bind].
    assert (Hrun : vld_set_author (Entry TYPE_DIR (u_dir (DirEntry (set_ServerModTime (uwrap32 now)
        (dfile (set_dfile (fun f => set_Parent (Vnode pfid) (Unique pfid) (set_DataVersion 0
        (set_LinkCount 2 (set_FileType TYPE_DIR (set_ino o f))))) d))) (negacl q) (acl q)))) m
      = Some (Entry TYPE_DIR (u_dir (DirEntry f (negacl q) (acl q))))).
    { unfold vld_set_author, f, filled. destruct m as [m|]; [|done].
      destruct Hm as [sc Hsc]. rewrite Hsc. cbn [mbind option_bind u type]. by rewrite Z.eqb_refl. }
    unfold voldb_update_time. cbn [u type dfile negacl acl]. rewrite Z.eqb_refl.
    cbn [mbind option_bind]. unfold dfile in Hrun |- *. cbn [negacl acl]. rewrite Hrun.
    cbn [mbind option_bind]. unfold vld_storestatus_to_ent. cbn [u type]. rewrite Z.eqb_refl.
    eexists. split; [reflexivity|]. unfold vld_storestatus_to_dent, set_dfile. cbn [dfile negacl acl].
    pose proof (store_fields_new (8^4 - 1) ss _ _ _ _ _ Hnew) as Hs.
    split; [|split; [exact Hs|by split_and!]].
    destruct Hs as (_ & Hs2 & _ & _ & _ & _ & _ & _ & Hs9).
    split; try done; [by apply store_fields_wf|].
    unfold fent at 1. cbn [u dfile]. congruence.
  - assert (Hne : (ty =? TYPE_DIR) = false) by (by apply Z.eqb_neq).
    unfold new_vnode_entry, inherited, upd_fent. rewrite Hne. cbn [u type].
    cbn [mbind option_bind].
    assert (Ht2 : (ty =? TYPE_FILE) || (ty =? TYPE_LINK) = true).
    { destruct Hty as [?|[-> | ->]]; done. }
    assert (Hrun : vld_set_author (Entry ty (u_file (set_ServerModTime (uwrap32 now)
        (set_Parent (Vnode pfid) (Unique pfid) (set_DataVersion 0
        (set_LinkCount 1 (set_FileType ty (set_ino o y)))))))) m = Some (Entry ty (u_file f))).
    { unfold vld_set_author, f, filled. rewrite Hne. destruct m as [m|]; [|done].
      destruct Hm as [sc Hsc]. rewrite Hsc. cbn [mbind option_bind u type]. by rewrite Ht2. }
    unfold voldb_update_time. cbn [u type]. rewrite Ht2. cbn [mbind option_bind]. rewrite Hrun.
    cbn [mbind option_bind]. unfold vld_storestatus_to_ent. cbn [u type]. rewrite Ht2.
    eexists. split; [reflexivity|]. unfold vld_storestatus_to_fent.
    pose proof (store_fields_new (8^3 - 1) ss _ _ _ _ _ Hnew) as Hs.
    split; [|split; [exact Hs|done]].
    destruct Hs as (_ & Hs2 & _ & _ & _ & _ & _ & _ & Hs9).
    split; try done; [|by apply store_fields_wf|unfold fent at 1; cbn [u]; congruence].
    unfold typed. cbn [u type]. destruct Hty as [?|?]; done.
Qed.
End Stored.

(** ** Filling the new vnode in *)

Lemma emap_err_ok {A} f (m : LM A) s s' a :
  m s = Some (s', inr a) -> emap_err f m s = Some (s', inr a).
Proof. intros Hm. unfold emap_err, etry, ebind. by rewrite Hm. Qed.
Lemma emap_err_err {A} f (m : LM A) s s' e0 :
  m s = Some (s', inl e0) -> emap_err f m s = Some (s', inl (f e0)).
Proof. intros Hm. unfold emap_err, etry, ebind. by rewrite Hm. Qed.

Definition parent_acls_wf (parent : voldb_entry) : Prop :=
  match u parent with u_dir q => acl_wf (negacl q) /\ acl_wf (acl q) | u_file _ => True end.

Section Fill.
Context `{OnodeCoderOk} `{InfoCoderOk} `{HostChoiceOk}.
Context (create_errno end_errno : Z -> Z -> Z) (truncate_errno : Z -> Z -> option Z)
  (fstat_errno : Z -> Z).
Context (Htrunc : forall fd len, truncate_errno fd len = Some 0).
Context (now : Z) (pfid : AFSFid) (parent : voldb_entry) (child : AFSFid) (k ty : Z)
  (x : voldb_entry) (o : onode_opaque) (ss : AFSStoreStatus) (m : option msec) (p : Z).
Context (d : voldb) (fl : list Z).
Context (Hok : voldb_ok d fl) (Hkd : if ty =? TYPE_DIR then is_dir_db d else is_file_db d)
  (Hk : 0 <= k < num d) (Hf : k ∉ fl) (Hos : db_os d = []).
Context (Hty : vnode_type ty) (Ho : onode_wf o) (Hpf : fid_wf pfid) (Hss : status_wf ss)
  (Hm : match m with Some m => is_Some (sec m) | None => True end)
  (Hux : match u x with u_dir _ => ty = TYPE_DIR | u_file _ => ty <> TYPE_DIR end)
  (Hpar : ty = TYPE_DIR -> exists q, u parent = u_dir q) (Hpa : parent_acls_wf parent)
  (Htx : type x = ty) (Hxf : fent x = slot d k).

Lemma fill_entry : exists x', stored_entry now ty o pfid parent x ss m = Some x' /\
  storable (ty =? TYPE_DIR) x' /\ new_fields ty o pfid (slot d k) (fent x') /\ inherited ty parent x'.
Proof.
  rewrite <- Hxf. apply stored_entry_ok; try done; rewrite Hxf.
  - apply slot_wf; [apply Hok|done].
  - by apply (ok_used _ _ Hok).
Qed.

(** The database with the new entry in it. *)
Definition entered (x' : voldb_entry) (d' : voldb) : Prop :=
  voldb_ok d' fl /\ db_os d' = [] /\ num d' = num d /\ hflags d' = hflags d /\
  abs d' fl = <[k := AUsed (content (fent x'))]> (abs d fl) /\ slot d' k = fent x' /\
  match u x' with u_dir D => slot_acls d' k = (negacl D, acl D) | u_file _ => True end.

Lemma fill_store_step s x' :
  ldb (ty =? TYPE_DIR) s = Some d -> storable (ty =? TYPE_DIR) x' -> inherited ty parent x' ->
  exists d', entered x' d' /\
    (emap_err (fun _ => EIO) (on_db (ty =? TYPE_DIR) (voldb_put_entry k x')) ;;!
     match u x' with
     | u_dir D => on_db (ty =? TYPE_DIR) (voldb_put_acl k D)
     | u_file _ => eret tt
     end) s = Some (set_ldb (ty =? TYPE_DIR) d' s, inr tt).
Proof.
  intros Hd Hst Hin. pose proof (ok_wf _ _ Hok) as Hwf. pose proof (st_wf _ _ Hst) as Hw.
  pose proof (put_entry_run (ty =? TYPE_DIR) d fl k x' Hok Hkd Hk Hst) as Hput.
  set (d1 := put_slot k (fent x') d) in *.
  assert (Hok1 : voldb_ok d1 fl) by (by apply put_slot_ok; [| | |apply Hw|apply (st_next _ _ Hst)]).
  assert (Hn1 : num d1 = num d) by (by destruct d).
  assert (Hs1 : slot d1 k = fent x') by (by apply slot_put_slot).
  assert (Habs1 : abs d1 fl = <[k := AUsed (content (fent x'))]> (abs d fl)).
  { rewrite (abs_insert d fl d1 fl k Hn1 Hk).
    - f_equal. unfold aslot_of. rewrite Hs1. by destruct (decide (k ∈ fl)).
    - intros j Hj Hne. split; [|done]. apply slot_put_slot_ne; [done..|apply Hw|done|done]. }
  rewrite (ebind_ok _ _ s (set_ldb (ty =? TYPE_DIR) d1 s) tt)
    by (apply emap_err_ok; by apply (on_db_run _ _ s d)).
  unfold inherited in Hin. destruct (u x') as [D|y] eqn:Hu'.
  - assert (Hdir : (ty =? TYPE_DIR) = true).
    { destruct (u parent); [|done]. apply Z.eqb_eq. apply Hin. }
    rewrite Hdir in *. assert (Hkd1 : is_dir_db d1) by (by destruct d).
    assert (Hacl : acl_wf (negacl D) /\ acl_wf (acl D)).
    { unfold parent_acls_wf in Hpa. destruct (u parent) as [q|]; [|done].
      destruct Hin as (_ & -> & ->). done. }
    exists (put_slot_acls k D d1). split.
    { unfold entered. rewrite Hu'. split_and!; [|by destruct d..| | |].
      - by apply put_slot_acls_ok; [| |rewrite Hn1].
      - rewrite put_slot_acls_abs; [done|done|done|by rewrite Hn1].
      - rewrite put_slot_acls_slot; [done|apply Hok1|done|by rewrite Hn1|by rewrite Hn1].
      - apply (slot_acls_put d1 fl); try done; [by rewrite Hn1|apply Hacl..]. }
    rewrite (on_db_run true _ _ d1 (put_slot_acls k D d1) (inr tt)); [done|done|].
    apply (put_acl_run d1 fl); [done..|by rewrite Hn1].
  - exists d1. split; [|done]. unfold entered. rewrite Hu'. split_and!; try done; by destruct d.
Qed.
(** [m && (m->flags & VOLOP_GETSTATUS) == VOLOP_GETSTATUS] *)
Definition asked : bool :=
  match m with Some m => Z.land (mflags m) VOLOP_GETSTATUS =? VOLOP_GETSTATUS | None => false end.

(** A change of the node, of the database and of the size, nothing else. *)
Record fill_frame (s s' : lstate) (n n' : mnode) : Prop := {
  ff_cache : exists h, lm s' = lm (with_node p n' h s);
  ff_kept : kept_identity n n';
  ff_other : ldb (negb (ty =? TYPE_DIR)) s' = ldb (negb (ty =? TYPE_DIR)) s;
  ff_part : lpart s' = lpart s
}.

(** The end of the work for a caller that wants the node. *)
Lemma fill_want_step s n x' d' :
  nodes (lm s) !! p = Some n -> ep n = false -> fsp n = false -> sbp n = true -> fdp n = true ->
  ldb (ty =? TYPE_DIR) s = Some d' -> entered x' d' -> storable (ty =? TYPE_DIR) x' ->
  info_ready s -> vi_size (linfo s) + 2^22 + 1 < 2^31 ->
  exists s' r n', (n <-- on_mn (node p) ;;
    (if ep n then eret tt else
     y <-- on_db (ty =? TYPE_DIR) (voldb_get_entry k) ;;
     on_mn (upd_node p (fun n => set_ep true (set_e y n)))) ;;!
    (if asked
     then n <-- on_mn (node p) ;; eassert (fdp n) ;;! vld_ent_to_fetchstatus fstat_errno x' p
     else eret tt) ;;!
    n <-- on_mn (node p) ;;
    on_info (vld_update_volsize (swrap32 (ENTRY_DISK_SIZE + Length (fent (e n)) / 1024)))) s
      = Some (s', r) /\
    fill_frame s s' n n' /\ ldb (ty =? TYPE_DIR) s' = Some d' /\
    match r with
    | inl _ => True
    | inr _ => fent (e n') = fent x' /\ ep n' = true /\
        (asked = true -> fsp n' = true /\ fs n' = fill_status (creationDate (linfo s)) (fent x')
           (set_fs_Length (st_size n) (fs n))) /\
        vi_size (linfo s') = vi_size (linfo s) + blocks x' /\
        vi_size (linfo s) + blocks x' <= maxquota (linfo s)
    end.
Proof.
  intros Hn Hep Hfsp Hsb Hfd Hd (Hok' & _ & Hn' & _ & _ & Hslot & _) Hst Hi Hsz.
  lrun (node_step s p n Hn). rewrite Hep. pose proof (ok_wf _ _ Hok') as Hwf'.
  assert (Hk31 : k < 2^31).
  { pose proof (wf_size d' Hwf') as H1'. pose proof (wf_bound d' Hwf').
    pose proof (esize_bounds d' Hwf'). change VOLDB_HEADER_SIZE with 40 in H1'. nia. }
  destruct (get_entry_ok d' k Hwf') as (y & Hy & Hfy); [lia|done|].
  change (entry_file y) with (fent y) in Hfy. rewrite Hslot in Hfy.
  set (n1 := set_ep true (set_e y n)). set (s1 := with_node p n1 (lhost s) s).
  assert (Hr1 : (y <-- on_db (ty =? TYPE_DIR) (voldb_get_entry k) ;;
     on_mn (upd_node p (fun n => set_ep true (set_e y n)))) s = Some (s1, inr tt)).
  { assert (Hsame : set_ldb (ty =? TYPE_DIR) d' s = s).
    { destruct s, (ty =? TYPE_DIR); simpl in *; by subst. }
    lrun (on_db_run _ _ s d' _ _ Hd Hy). rewrite Hsame. by rewrite (upd_step s p n Hn). }
  lrun Hr1.
  assert (E : e n1 = y /\ ep n1 = true /\ fsp n1 = false /\ sbp n1 = true /\ fdp n1 = true /\
    fs n1 = fs n /\ st_size n1 = st_size n /\ kept_identity n n1)
    by (unfold n1, kept_identity; by destruct n).
  destruct E as (E1 & E2 & E3 & E4 & E5 & E6 & E7 & E8).
  assert (Hn1 : nodes (lm s1) !! p = Some n1) by apply with_node_lookup.
  assert (Hr2 : exists h2 n2, (if asked
     then n <-- on_mn (node p) ;; eassert (fdp n) ;;! vld_ent_to_fetchstatus fstat_errno x' p
     else eret tt) s1 = Some (with_node p n2 h2 s, inr tt) /\ e n2 = y /\ ep n2 = true /\
     kept_identity n n2 /\
     (asked = true -> fsp n2 = true /\ fs n2 = fill_status (creationDate (linfo s)) (fent x')
           (set_fs_Length (st_size n) (fs n)))).
  { destruct asked.
    - lrun (node_step s1 p n1 Hn1). rewrite E5. unfold eassert. rewrite ebind_ret.
      rewrite (ent_to_fetchstatus_cached fstat_errno s1 p n1 x' Hn1 E2 E4 E3 (st_typed _ _ Hst)).
      assert (Hs1 : forall w g, with_node p w g s1 = with_node p w g s)
        by (intros w g; exact (with_node_with_node p n1 (lhost s) w g s)).
      rewrite Hs1. eexists _, _. split; [reflexivity|].
      unfold shown. change (linfo s1) with (linfo s). rewrite E6, E7.
      assert (F : forall g, e (set_fsp true (set_fs g n1)) = e n1 /\ ep (set_fsp true (set_fs g n1)) = ep n1 /\
        kept_identity n1 (set_fsp true (set_fs g n1)) /\ fsp (set_fsp true (set_fs g n1)) = true /\
        fs (set_fsp true (set_fs g n1)) = g) by (intros g; unfold kept_identity; by destruct n1).
      destruct (F (fill_status (creationDate (linfo s)) (fent x') (set_fs_Length (st_size n) (fs n))))
        as (-> & -> & F3 & -> & ->).
      split_and!; try done. by eapply kept_trans.
    - exists (lhost s), n1. by split_and!. }
  destruct Hr2 as (h2 & n2 & Hr2 & F1 & F2 & F3 & F4). lrun Hr2.
  set (s2 := with_node p n2 h2 s).
  lrun (node_step s2 p n2 (with_node_lookup _ _ _ _)). rewrite F1, Hfy.
  pose proof (st_wf _ _ Hst) as [Hw _]. unfold entry_words in Hw. rewrite !Forall_cons in Hw.
  assert (HL : is_uint32 (Length (fent x'))) by tauto. unfold is_uint32 in HL.
  assert (Hb : 1 <= blocks x' <= 2^22).
  { unfold blocks. change ENTRY_DISK_SIZE with 1.
    assert (0 <= Length (fent x') / 1024 <= 2^22 - 1); [|lia].
    split; [apply Z.div_pos; lia|]. apply Z.lt_succ_r. apply Z.div_lt_upper_bound; lia. }
  fold (blocks x'). rewrite swrap32_small by (unfold is_int32; lia).
  pose proof (ir_size _ Hi) as Hs0.
  pose proof (update_volsize_step s2 (blocks x') (ir_infop _ Hi) (ir_wf _ Hi) (ir_sino _ Hi)) as Hup.
  cbv zeta in Hup. change (linfo s2) with (linfo s) in Hup.
  specialize (Hup ltac:(unfold is_int32; lia) ltac:(lia)).
  assert (Hd2 : ldb (ty =? TYPE_DIR) s2 = Some d') by (rewrite <- Hd; by destruct (ty =? TYPE_DIR)).
  destruct (Z.ltb_spec (maxquota (linfo s)) (vi_size (linfo s) + blocks x')).
  - exists s2, (inl VOVERQUOTA), n2. split; [done|]. split; [|done].
    split; [by exists h2|done|by destruct (ty =? TYPE_DIR)|done].
  - destruct Hup as (h3 & r3 & Hr3). exists (set_lhost h3 (sized (vi_size (linfo s) + blocks x') s2)), r3, n2.
    split; [done|]. split; [split; [by exists h3|done|by destruct (ty =? TYPE_DIR)|done]|].
    split; [by destruct (ty =? TYPE_DIR)|]. destruct r3 as [|[]]; [done|].
    split_and!; [by rewrite F1|done|done| |lia].
    apply (vi_size_sized (vi_size (linfo s) + blocks x') s2).
Qed.
(** The whole of the work after the host file is created. *)
Lemma create_fill_step s n i want :
  nodes (lm s) !! p = Some n -> ep n = false -> fsp n = false -> sbp n = true -> fdp n = true ->
  st_size n = 0 -> node_content (lhost s) n = [] -> hfds (lhost s) !! mfd n = Some i ->
  ldb (ty =? TYPE_DIR) s = Some d -> info_ready s -> vi_size (linfo s) + 2^22 + 1 < 2^31 ->
  exists s' r n', create_fill create_errno end_errno truncate_errno fstat_errno now pfid parent child
      k ty x o ss m want p s = Some (s', r) /\
    fill_frame s s' n n' /\
    match r with
    | inl _ => exists d', ldb (ty =? TYPE_DIR) s' = Some d' /\
        (d' = d \/ exists x', entered x' d' /\ new_fields ty o pfid (slot d k) (fent x'))
    | inr _ => exists x' d', stored_entry now ty o pfid parent x ss m = Some x' /\
        storable (ty =? TYPE_DIR) x' /\ ldb (ty =? TYPE_DIR) s' = Some d' /\ entered x' d' /\
        new_fields ty o pfid (slot d k) (fent x') /\ inherited ty parent x' /\
        if want then
          fent (e n') = fent x' /\ ep n' = true /\
          (asked = true -> fsp n' = true /\ exists l,
             fs n' = fill_status (creationDate (linfo s)) (fent x') (set_fs_Length l (fs n'))) /\
          vi_size (linfo s') = vi_size (linfo s) + blocks x' /\
          vi_size (linfo s) + blocks x' <= maxquota (linfo s)
        else linfo s' = linfo s
    end.
Proof.
  intros Hn Hep Hfsp Hsb Hfd Hsz0 Hcont Hfdi Hd Hi Hsz.
  destruct fill_entry as (x' & Hx' & Hst & Hnew & Hin). unfold create_fill. rewrite ebind_get.
  assert (Hmk : exists h n1 r, (if ty =? TYPE_DIR then
     emap_err (fun _ => EIO) (echeck (on_mdir p (fun n =>
       mdir_mkdir create_errno end_errno truncate_errno fstat_errno n
         (Build_AFSFid (lvol s) (Vnode child) (Unique child))
         (Build_AFSFid (lvol s) (Vnode pfid) (Unique pfid))))) else eret tt) s =
     Some (with_node p n1 h s, r) /\ kept_identity n n1 /\ ep n1 = false /\ fsp n1 = false /\
     sbp n1 = true /\ fdp n1 = true).
  { destruct (ty =? TYPE_DIR).
    - destruct (mkdir_step create_errno end_errno truncate_errno fstat_errno Htrunc s p n
        (Build_AFSFid (lvol s) (Vnode child) (Unique child))
        (Build_AFSFid (lvol s) (Vnode pfid) (Unique pfid)) i Hn Hsb Hfd Hsz0 Hcont Hfdi)
        as (h & n1 & c & Hr & _ & Hk1 & _ & He1 & Hf1 & Hs1 & Hfd1 & _).
      destruct (Z.eqb_spec c 0) as [E|E].
      + exists h, n1, (inr tt). split; [|split_and!; congruence || done].
        apply emap_err_ok. unfold echeck. lrun Hr. by rewrite (proj2 (Z.eqb_eq _ _) E).
      + exists h, n1, (inl EIO). split; [|split_and!; congruence || done].
        apply (emap_err_err (fun _ => EIO) _ s _ c). unfold echeck. lrun Hr.
        by rewrite (proj2 (Z.eqb_neq _ _) E).
    - exists (lhost s), n, (inr tt). rewrite with_node_id by done. by split_and!. }
  destruct Hmk as (h1 & n1 & r1 & Hr1 & Hk1 & Hep1 & Hfsp1 & Hsb1 & Hfd1).
  set (s1 := with_node p n1 h1 s) in *.
  assert (Hd1 : ldb (ty =? TYPE_DIR) s1 = Some d) by (rewrite <- Hd; by destruct (ty =? TYPE_DIR)).
  assert (Hframe1 : fill_frame s s1 n n1) by (split; [by exists h1|done|by destruct (ty =? TYPE_DIR)|done]).
  destruct r1 as [err|[]].
  { exists s1, (inl err), n1. rewrite (ebind_err _ _ _ _ _ Hr1). split; [done|]. split; [done|].
    exists d. split; [done|by left]. }
  lrun Hr1. revert Hx'. unfold stored_entry.
  destruct (new_vnode_entry ty o pfid parent x) as [x1|]; [|done]. cbn [mbind option_bind eopt].
  destruct (voldb_update_time x1 now) as [x2|] eqn:Hx2; [|done]. cbn [mbind option_bind].
  destruct (vld_set_author x2 m) as [x3|] eqn:Hx3; [|done]. cbn [mbind option_bind].
  destruct (vld_storestatus_to_ent x3 ss) as [x4|] eqn:Hx4; [|done]. intros [= ->].
  rewrite ebind_ret, Hx2. cbn [eopt]. rewrite ebind_ret, Hx3. cbn [eopt]. rewrite ebind_ret, Hx4.
  cbn [eopt]. rewrite ebind_ret.
  destruct (fill_store_step s1 x' Hd1 Hst Hin) as (d' & Hent & Hr2).
  rewrite (ebind_two _ _ _ _ _ _ Hr2). set (s2 := set_ldb (ty =? TYPE_DIR) d' s1).
  assert (Hd2 : ldb (ty =? TYPE_DIR) s2 = Some d') by (by destruct (ty =? TYPE_DIR)).
  destruct want; cbn [negb].
  - assert (Hi2 : info_ready s2) by (destruct Hi; by split).
    destruct (fill_want_step s2 n1 x' d' (with_node_lookup _ _ _ _) Hep1 Hfsp1 Hsb1 Hfd1 Hd2 Hent Hst Hi2 Hsz)
      as (s3 & r3 & n3 & Hr3 & [[h3 F1] F2 F3 F4] & Hd3 & Hres).
    exists s3, r3, n3. split; [exact Hr3|].
    split.
    { split.
      - exists h3. rewrite F1. change (lm (with_node p n3 h3 s2)) with (lm (with_node p n3 h3 s1)).
        unfold s1. by rewrite with_node_with_node.
      - by eapply kept_trans.
      - rewrite F3. by destruct (ty =? TYPE_DIR).
      - by rewrite F4. }
    destruct r3 as [err|[]].
    + exists d'. split; [done|]. right. by exists x'.
    + destruct Hres as (R1 & R2 & R3 & R4 & R5).
      exists x', d'. split_and!; try done. intros Ha. destruct (R3 Ha) as [R6 R7]. split; [done|].
      exists (st_size n1). rewrite R7. by destruct (fs n1).
  - exists s2, (inr tt), n1. split; [done|]. split.
    { split; [by exists h1|done|by destruct (ty =? TYPE_DIR)|done]. }
    exists x', d'. by split_and!.
Qed.
End Fill.

(** ** The creation as a whole *)

Lemma minv_mhost num m h held dead miss :
  minv num m held dead miss -> minv num (set_mhost h m) held dead miss.
Proof. by intros [H1 H2 H3 H4 H5 H6 H7]; split. Qed.

Lemma same_volume_ldb b s s' : same_volume s s' -> ldb b s' = ldb b s.
Proof. intros (E1 & E2 & _). by destruct b. Qed.

Lemma info_ready_same `{InfoCoder} s s' : same_volume s s' -> info_ready s -> info_ready s'.
Proof. intros (_ & _ & E1 & E2 & E3 & _) [H1' H2' H3' H4']. split; congruence. Qed.

Lemma release_step num s held dead miss p bad :
  minv num (lm s) (p :: held) dead miss ->
  exists s', on_mn (mnode_free p bad) s = Some (s', inr tt) /\
    minv num (lm s') held dead miss /\ same_volume s s'.
Proof.
  intros Hi. destruct (mnode_free_inv num (lm s) (p :: held) dead miss p bad Hi)
    as (m' & n & n' & Hr & Hi' & _); [apply list_elem_of_here|].
  simpl in Hi'. rewrite decide_True in Hi' by done.
  exists (set_lm m' s). unfold on_mn. by rewrite (elift_run lm set_lm _ _ _ _ Hr).
Qed.

Lemma abs_used_inv `{OnodeCoderOk} d fl k e0 :
  abs d fl !! k = Some (AUsed e0) -> 0 <= k < num d /\ (k ∉ fl) /\ e0 = content (slot d k).
Proof.
  rewrite lookup_abs. destruct (decide _) as [Hk|]; [|done]. unfold aslot_of.
  destruct (decide (k ∈ fl)); [done|]. by intros [= <-].
Qed.

Lemma get_entry_union `{OnodeCoder} (dirp : bool) d k d' y :
  (if dirp then is_dir_db d else is_file_db d) -> voldb_get_entry k d = Some (d', inr y) ->
  match u y with u_dir _ => dirp = true | u_file _ => dirp = false end.
Proof.
  intros Hkd. unfold voldb_get_entry. rewrite vbind_get. destruct dirp.
  - destruct Hkd as (_ & _ & _ & ->). rewrite Z.eqb_refl. unfold vbind.
    destruct (voldb_get_dir _ d) as [[? []]|]; [done| |done]. by intros [= <- <-].
  - destruct Hkd as (_ & _ & -> & ->). change (0 =? VOLDB_DIR) with false. rewrite Z.eqb_refl.
    unfold vbind. destruct (voldb_get_file _ d) as [[? []]|]; [done| |done]. by intros [= <- <-].
Qed.

Lemma kind_same (dirp : bool) d d' : hflags d' = hflags d ->
  (if dirp then is_dir_db d else is_file_db d) -> if dirp then is_dir_db d' else is_file_db d'.
Proof. intros E. unfold is_dir_db, is_file_db, kind_size, kind_bits. by rewrite E. Qed.

Lemma kind_type_same d d' : hflags d' = hflags d -> kind_type d' = kind_type d.
Proof. unfold kind_type, kind_bits. by intros ->. Qed.

(** The events of a creation that failed: the entry that was taken is given
    back. *)
Definition undone (evs : list event) : Prop :=
  evs = [] \/ (exists k v o, evs = [ENew k v; EDel k o]) \/
  (exists k v f o, evs = [ENew k v; EPut k f; EDel k o]).

Section Create.
Context `{OnodeCoderOk} `{InfoCoderOk} `{HostChoiceOk}.
Context (stack : voldb -> bytes) `{!StackOk stack} (fresh : Z * mnode).
Context (create_errno end_errno : Z -> Z -> Z) (truncate_errno : Z -> Z -> option Z)
  (fstat_errno : Z -> Z).
Context (junk : onode_opaque) (Hjunk : onode_wf junk).
Context (Htrunc : forall fd len, truncate_errno fd len = Some 0).

(** Giving the entry back. *)
Lemma undo_step s (dirp : bool) k d fl v f0 evs ft :
  ldb dirp s = Some d -> voldb_ok d fl -> db_os d = [] -> 0 <= k < num d -> k ∉ fl ->
  kind_type d = ft -> vnode_run ft f0 evs (abs d fl) ->
  (evs = [ENew k v] \/ exists f, evs = [ENew k v; EPut k f]) ->
  exists s' d' fl' evs', eignore (on_db dirp (voldb_del_entry stack k)) s = Some (s', inr tt) /\
    lm s' = lm s /\ ldb dirp s' = Some d' /\ ldb (negb dirp) s' = ldb (negb dirp) s /\
    voldb_ok d' fl' /\ db_os d' = [] /\ undone evs' /\ vnode_run ft f0 evs' (abs d' fl').
Proof.
  intros Hd Hok Hos Hk Hf Hft Hrun Hev.
  assert (Hdel : voldb_del_entry stack k d = Some (deleted stack k d, inr (ino (slot d k)))).
  { unfold voldb_del_entry. rewrite func_ok by apply Hok. by apply (del_entry_run stack d k fl). }
  assert (Happ : forall l s1 s2 s3 ev, vnode_run ft s1 l s2 -> vnode_step ft s2 ev s3 ->
    vnode_run ft s1 (l ++ [ev]) s3).
  { intros l s1 s2 s3 ev Hl Hs. induction Hl; simpl; econstructor; eauto using vnode_run. }
  exists (set_ldb dirp (deleted stack k d) s), (deleted stack k d), (k :: fl),
    (evs ++ [EDel k (ino (slot d k))]).
  split; [unfold eignore; by rewrite (on_db_run dirp _ s d _ _ Hd Hdel)|].
  split_and!; [done|by destruct dirp|by destruct dirp|by apply deleted_ok| | |].
  - unfold deleted. rewrite commit_os. by destruct d.
  - destruct Hev as [-> |[f ->]]; simpl; [right; left|right; right]; eauto.
  - apply (Happ _ _ _ _ _ Hrun). rewrite <- Hft. by apply del_entry_step.
Qed.
(** The fid of the entry [k] with the uniquifier [v]. *)
Definition child_fid (ty : Z) (pfid : AFSFid) (k v : Z) : AFSFid :=
  Build_AFSFid (Volume pfid) (convert_local2afs (ty =? TYPE_DIR) k) v.

Context (now ty : Z) (ss : AFSStoreStatus) (m : option msec) (want : bool).
Context (num : nat) (held : list Z) (dead : list AFSFid) (q : Z) (nq : mnode).
Context (Hty : vnode_type ty) (Hpf : fid_wf (mfid nq)) (Hss : status_wf ss)
  (Hm : match m with Some m => is_Some (sec m) | None => True end)
  (Hpar : ty = TYPE_DIR -> exists d, u (e nq) = u_dir d) (Hpa : parent_acls_wf (e nq)).

(** What is returned for the new vnode: the entry, and for a caller that wants
    it the node, its status and the charge to the volume. *)
Definition created (s s' : lstate) (x' : voldb_entry) (res : option Z) : Prop :=
  if want then exists p n', res = Some p /\ nodes (lm s') !! p = Some n' /\
    fent (e n') = fent x' /\ ep n' = true /\
    (asked m = true -> fsp n' = true /\ exists l,
       fs n' = fill_status (creationDate (linfo s)) (fent x') (set_fs_Length l (fs n'))) /\
    vi_size (linfo s') = vi_size (linfo s) + blocks x' /\
    vi_size (linfo s) + blocks x' <= maxquota (linfo s)
  else res = None /\ linfo s' = linfo s.

(** From the entry that was taken to the result. *)
Lemma create_node_step s miss k v d fl :
  minv num (lm s) held dead miss -> nodes (lm s) !! q = Some nq ->
  (exists p, p ∈ lru (lm s) /\ (p ∉ held)) ->
  htab (lm s) !! child_fid ty (mfid nq) k v = None -> child_fid ty (mfid nq) k v ∉ dead ->
  fs_wf (lhost s) -> blen (lpart s) + 12 < MAXPATHLEN ->
  info_ready s -> vi_size (linfo s) + 2^22 + 1 < 2^31 ->
  ldb (ty =? TYPE_DIR) s = Some d -> voldb_ok d fl -> db_os d = [] ->
  (if ty =? TYPE_DIR then is_dir_db d else is_file_db d) -> 0 <= k < Voldb.num d -> k ∉ fl ->
  exists s' r miss', (
    x <-- on_db (ty =? TYPE_DIR) (voldb_get_entry (swrap32 k)) ;;
    parent <-- on_mn (node q) ;;
    let pfid := mfid parent in
    let child := Build_AFSFid (Volume pfid) (convert_local2afs (ty =? TYPE_DIR) k) v in
    p <-- on_mn (mnode_find fresh child) ;;
    o <-- eonerr (volop_icreate junk p) (on_mn (mnode_free p false)) ;;
    eonerr (create_fill create_errno end_errno truncate_errno fstat_errno now pfid (e parent) child
        k ty (set_type ty x) o ss m want p)
      (on_mn (mnode_free p true) ;;! eignore (volop_iunlink o)) ;;!
    if want then eret (child, Some p) else
    on_mn (mnode_free p false) ;;! eret (child, None)) s = Some (s', r) /\
  ldb (negb (ty =? TYPE_DIR)) s' = ldb (negb (ty =? TYPE_DIR)) s /\
  match r with
  | inl _ => minv num (lm s') held dead miss' /\ exists d', ldb (ty =? TYPE_DIR) s' = Some d' /\
      (d' = d \/ exists x', entered k d fl x' d' /\ unique (fent x') = unique (slot d k))
  | inr (child, res) => child = child_fid ty (mfid nq) k v /\
      minv num (lm s') (match res with Some p => p :: held | None => held end) dead miss' /\
      exists x' d' o, ldb (ty =? TYPE_DIR) s' = Some d' /\ entered k d fl x' d' /\
        new_fields ty o (mfid nq) (slot d k) (fent x') /\ inherited ty (e nq) x' /\
        created s s' x' res
  end.
Proof.
  intros Hi Hnq Hfree Hht Hdead Hhost Hfit Hinfo Hsz Hd Hok Hos Hkd Hk Hf.
  pose proof (ok_wf _ _ Hok) as Hwf.
  assert (Hk31 : k < 2^31).
  { pose proof (wf_size d Hwf) as H1'. pose proof (wf_bound d Hwf).
    pose proof (esize_bounds d Hwf). change VOLDB_HEADER_SIZE with 40 in H1'. nia. }
  rewrite swrap32_small by (unfold is_int32; lia).
  destruct (get_entry_ok d k Hwf Hk Hk31) as (x & Hx & Hxs). change (entry_file x) with (fent x) in Hxs.
  pose proof (get_entry_union _ d k d x Hkd Hx) as Hu.
  assert (Hsame : set_ldb (ty =? TYPE_DIR) d s = s).
  { destruct s, (ty =? TYPE_DIR); simpl in *; by subst. }
  rewrite (ebind_ok _ _ s s x) by (rewrite (on_db_run _ _ s d _ _ Hd Hx); by rewrite Hsame).
  lrun (node_step s q nq Hnq). cbv zeta. fold (child_fid ty (mfid nq) k v).
  destruct (find_new_step num fresh s held dead miss _ Hi Hht Hdead Hfree)
    as (s1 & p & Hr1 & Hi1 & Hv1 & Hp1 & Hns1 & Hnm1). lrun Hr1.
  set (n1 := renewed (child_fid ty (mfid nq) k v)) in *.
  assert (Hn1 : nodes (lm s1) !! p = Some n1) by (rewrite Hns1; apply lookup_insert_eq).
  assert (Hd1 : forall b, ldb b s1 = ldb b s) by (intros b; by apply same_volume_ldb).
  destruct (volop_icreate_step junk Hjunk s1 p n1 Hn1) as
    (h2 & r2 & n2 & Hr2 & Hw2 & Hk2 & _ & Hep2 & Hfsp2 & _ & Hres2).
  { by eapply same_names_wf. } { destruct Hv1 as (_ & _ & _ & _ & _ & -> & _). done. }
  set (s2 := with_node p n2 h2 s1) in *.
  assert (Hi2 : minv num (lm s2) (p :: held) dead (miss + 1)) by (by eapply minv_with_node).
  assert (Hd2 : forall b, ldb b s2 = ldb b s) by (intros b; rewrite <- Hd1; by destruct b).
  destruct r2 as [err|o].
  { destruct (release_step num s2 held dead _ p false Hi2) as (s3 & Hr3 & Hi3 & Hv3).
    exists s3, (inl err), (miss + 1).
    rewrite (ebind_err _ _ s1 s3 err) by exact (eonerr_err _ _ _ _ _ _ _ Hr2 Hr3).
    split; [done|]. split.
    - by rewrite (same_volume_ldb _ s2 s3).
    - split; [done|]. exists d. split; [|by left]. by rewrite (same_volume_ldb _ s2 s3), Hd2. }
  rewrite (ebind_ok _ _ s1 s2 o) by exact (eonerr_ok _ _ _ _ _ Hr2).
  destruct Hres2 as (Ho & Hsb2 & Hfd2 & Hsz2 & Hc2 & i & Hfdi & Hii).
  assert (Hep2' : ep n2 = false) by (by rewrite Hep2).
  assert (Hfsp2' : fsp n2 = false) by (by rewrite Hfsp2).
  assert (Hi2' : info_ready s2) by exact (info_ready_same s s2 Hv1 Hinfo).
  assert (Hsz2' : vi_size (linfo s2) + 2^22 + 1 < 2^31).
  { change (linfo s2) with (linfo s1). destruct Hv1 as (_ & _ & _ & -> & _). done. }
  assert (Hus : match u (set_type ty x) with u_dir _ => ty = TYPE_DIR | u_file _ => ty <> TYPE_DIR end).
  { unfold set_type. cbn [u]. destruct (u x); [by apply Z.eqb_eq|by apply Z.eqb_neq]. }
  assert (Hfx : fent (set_type ty x) = slot d k) by (rewrite <- Hxs; by destruct x).
  assert (Hd2' : ldb (ty =? TYPE_DIR) s2 = Some d) by (by rewrite Hd2).
  destruct (create_fill_step create_errno end_errno truncate_errno fstat_errno Htrunc now (mfid nq)
    (e nq) (child_fid ty (mfid nq) k v) k ty (set_type ty x) o ss m p d fl Hok Hkd Hk Hf Hos Hty Ho Hpf
    Hss Hm Hus Hpar Hpa eq_refl Hfx s2 n2 i want (with_node_lookup _ _ _ _) Hep2' Hfsp2' Hsb2 Hfd2
    Hsz2 Hc2 Hfdi Hd2' Hi2' Hsz2') as (s3 & r3 & n3 & Hr3 & [[h3 F1] F2 F3 F4] & Hres3).
  assert (Hi3 : minv num (lm s3) (p :: held) dead (miss + 1)).
  { rewrite F1. eapply minv_with_node; [exact Hi2|apply with_node_lookup|done]. }
  rewrite Hd2 in F3. destruct r3 as [err|[]].
  - destruct (release_step num s3 held dead _ p true Hi3) as (s4 & Hr4 & Hi4 & Hv4).
    destruct (svol_unlink_total (lpart s4) o (lhost s4) Ho) as (h5 & r5 & Hr5 & _).
    exists (set_lhost h5 s4), (inl err), (miss + 1).
    rewrite (ebind_err _ _ s2 (set_lhost h5 s4) err).
    2:{ unfold eonerr. rewrite Hr3. lrun Hr4. unfold eignore, volop_iunlink. rewrite ebind_get.
        by rewrite (set_lhost_run _ _ _ _ Hr5). }
    assert (Hv5 : forall b, ldb b (set_lhost h5 s4) = ldb b s3).
    { intros b. rewrite <- (same_volume_ldb b s3 s4) by done. by destruct b. }
    split; [done|]. split; [by rewrite Hv5|].
    split; [by apply minv_mhost|]. destruct Hres3 as (d' & Hd' & Hcase). exists d'.
    split; [by rewrite Hv5|]. destruct Hcase as [->|(x' & Hent & Hnew)]; [by left|].
    right. exists x'. split; [done|]. apply Hnew.
  - rewrite (ebind_ok _ _ s2 s3 tt) by exact (eonerr_ok _ _ _ _ _ Hr3).
    destruct Hres3 as (x' & d' & _ & _ & Hd' & Hent & Hnew & Hin & Hw).
    assert (Hl : linfo s2 = linfo s) by (by destruct Hv1 as (_ & _ & _ & ? & _)).
    rewrite Hl in Hw. destruct want eqn:Ewant.
    + exists s3, (inr (child_fid ty (mfid nq) k v, Some p)), (miss + 1).
      split; [done|]. split; [done|]. split; [done|]. split; [done|].
      exists x', d', o. split_and!; try done. unfold created. rewrite Ewant.
      exists p, n3. split; [done|]. split; [|done]. rewrite F1. apply with_node_lookup.
    + destruct (release_step num s3 held dead _ p false Hi3) as (s4 & Hr4 & Hi4 & Hv4).
      lrun Hr4. exists s4, (inr (child_fid ty (mfid nq) k v, None)), (miss + 1).
      split; [done|]. rewrite !(same_volume_ldb _ s3 s4) by done.
      split; [done|]. split; [done|]. split; [done|].
      exists x', d', o. split_and!; try done. unfold created. rewrite Ewant. split; [done|].
      destruct Hv4 as (_ & _ & _ & -> & _). done.
Qed.

(** The part of the volume the new vnode takes: its entry, and a block for the
    file of a directory. *)
Definition space_needed : Z := ENTRY_DISK_SIZE + if ty =? TYPE_DIR then DIR_DISK_SIZE else 0.

Lemma unique_content f : unique (content f) = unique f.
Proof. by destruct f. Qed.

Lemma check_quota_step s space :
  linfop s = true -> is_int32 (vi_size (linfo s) + space) ->
  on_info (vld_check_quota space) s = Some (s,
    if maxquota (linfo s) <? vi_size (linfo s) + space then inl VOVERQUOTA else inr tt).
Proof.
  intros Hp Hr. unfold on_info.
  rewrite (elift_run linfos set_linfos _ _ _ _ (vld_check_quota_correct (linfos s) space Hp Hr)).
  by destruct s as [[] ? ? ? ? ? ? ? ?].
Qed.

(** What the entry [k] held before it was taken. *)
Definition was_free (d : voldb) (fl : list Z) (k : Z) (old : voldb_file_entry) : Prop :=
  abs d fl !! k = Some (AFree old) \/ abs d fl !! k = None /\ old = zero_entry.

Lemma new_step_was_free ft d fl k v f1 : vnode_step ft (abs d fl) (ENew k v) f1 ->
  exists old, was_free d fl k old /\ f1 !! k = Some (AUsed (VoldbCorrect.fresh ft old)) /\ v = unique (VoldbCorrect.fresh ft old).
Proof.
  intros Hs. inversion Hs as [? s0 ? old Hs0 Hk| | | | |]; subst. exists old.
  split; [|by rewrite lookup_insert_eq]. unfold was_free. destruct Hs0 as [-> |[Hn Hg]]; [by left|].
  destruct (Hg k) as [E|[E1 E2]]; [left; congruence|right]. split; [done|]. congruence.
Qed.

(** The database after a creation that failed once the entry was taken. *)
Lemma failed_run k v d d1 d2 fl fl1 f :
  vnode_step (kind_type d) (abs d fl) (ENew k v) (abs d1 fl1) ->
  abs d1 fl1 !! k = Some (AUsed f) -> f = content (slot d1 k) ->
  voldb_ok d1 fl1 -> db_os d1 = [] -> 0 <= k < Voldb.num d1 -> kind_type d1 = kind_type d ->
  (d2 = d1 \/ exists x', entered k d1 fl1 x' d2 /\ unique (fent x') = unique (slot d1 k)) ->
  exists evs, vnode_run (kind_type d) (abs d fl) evs (abs d2 fl1) /\
    voldb_ok d2 fl1 /\ db_os d2 = [] /\ 0 <= k < Voldb.num d2 /\ kind_type d2 = kind_type d /\
    (evs = [ENew k v] \/ exists f, evs = [ENew k v; EPut k f]).
Proof.
  intros Hstep Hused Hcont Hok1 Hos1 Hk1 Hft [->|(x' & (E1 & E2 & E3 & E4 & E5 & _) & Hun)].
  - exists [ENew k v]. split_and!; try (done || lia); [|by left]. econstructor; [done|constructor].
  - exists [ENew k v; EPut k (content (fent x'))]. rewrite E3, (kind_type_same d1 d2) by done.
    split_and!; try (done || lia); [|right; eauto]. econstructor; [done|]. econstructor; [|constructor].
    rewrite E5. eapply step_put; [by rewrite Hused, Hcont|]. by rewrite !unique_content.
Qed.

(** A vnode was created: its entry [x'], stored as entry [k] with the
    uniquifier [v], and what is returned for it. *)
Definition vnode_created (s s' : lstate) (d d' : voldb) (fl : list Z) (evs : list event)
    (child : AFSFid) (res : option Z) : Prop :=
  exists k v x' o old f, child = child_fid ty (mfid nq) k v /\
    evs = [ENew k v; EPut k (content (fent x'))] /\
    was_free d fl k old /\ content f = VoldbCorrect.fresh (kind_type d) old /\
    new_fields ty o (mfid nq) f (fent x') /\ unique (fent x') = v /\
    slot d' k = fent x' /\ inherited ty (e nq) x' /\
    match u x' with u_dir D => slot_acls d' k = (negacl D, acl D) | u_file _ => True end /\
    created s s' x' res.

End Create.
