(* ===== verification/VldExamples.v ===== *)
(** * The volume layer: a concrete volume

    A volume with a directory and a file, both in the cache and held, on which
    the theorems about the operations on vnodes are instantiated, and a run
    with a fid that is no longer valid. *)

From S2P Require Import Prelude Estate Buf Fdir Vnum Mdir Voldb VoldbRep VoldbFree VoldbOps.
From S2P Require Import VoldbCorrect VoldbSim VoldbProps Vrights Svol SvolCorrect Mnode.
From S2P Require Import MnodeCorrect Vinfo VinfoCorrect Vld VldCorrect VldModify VldRemove VldCreate.

Local Open Scope em_scope.

Module World.
Import SvolCorrect.Witnesses VinfoCorrect.Witnesses.
#[local] Existing Instance demo_host.
#[local] Existing Instance demo_host_ok.
#[local] Existing Instance word_info.
#[local] Existing Instance word_info_ok.

(** ** The databases *)

(** The file is inode 8, the directory and the info inode 7. *)
Definition opaque8 : onode_opaque := default zero_onode (local_ino2opaque 8 zero_onode).
Definition name8 : bytes := file_name vicepa 8.

(** The directory: its owner may do everything. *)
Definition root_dir : voldb_dir_entry :=
  DirEntry
    (set_ino opaque7 (set_FileType TYPE_DIR (set_LinkCount 2 (set_unique 1 (new_ent 0 VOLDB_ENTRY_USED 0)))))
    (replicate 8 zero_acl) (AclEntry 7 127 :: replicate 7 zero_acl).
Definition root_entry : voldb_entry := Entry TYPE_DIR (u_dir root_dir).
(** A file of 3000 bytes in it. *)
Definition file_entry : voldb_entry :=
  Entry TYPE_FILE (u_file (set_Parent 1 1 (set_ino opaque8 (set_FileType TYPE_FILE
    (set_LinkCount 1 (set_Length 3000 (set_unique 1 (new_ent 0 VOLDB_ENTRY_USED 0)))))))).

Definition dir_db : voldb :=
  Eval vm_compute in after (voldb_put_acl 0 root_dir) (after (voldb_put_entry 0 root_entry) ddb1).
Definition file_db : voldb := Eval vm_compute in after (voldb_put_entry 0 file_entry) db1.
Lemma dir_db_eq : dir_db = after (voldb_put_acl 0 root_dir) (after (voldb_put_entry 0 root_entry) ddb1).
Proof. vm_compute. reflexivity. Qed.
Lemma file_db_eq : file_db = after (voldb_put_entry 0 file_entry) db1.
Proof. vm_compute. reflexivity. Qed.

Lemma used_not_free d fl k : voldb_ok d fl -> nextptr (slot d k) = VOLDB_ENTRY_USED -> k ∉ fl.
Proof.
  intros Hok Hu Hin. exact (free_chain_unused d _ _ k (ok_wf _ _ Hok) (ok_chain _ _ Hok) Hin Hu).
Qed.

Lemma put_stored (dirp : bool) d fl k x :
  voldb_ok d fl -> (if dirp then is_dir_db d else is_file_db d) -> 0 <= k < Voldb.num d ->
  nextptr (slot d k) = VOLDB_ENTRY_USED -> storable dirp x ->
  after (voldb_put_entry k x) d = put_slot k (fent x) d /\ voldb_ok (put_slot k (fent x) d) fl.
Proof.
  intros Hok Hkd Hk Hu Hst. unfold after. rewrite (put_entry_run dirp d fl k x Hok Hkd Hk Hst).
  split; [done|]. apply put_slot_ok; [done|done|by eapply used_not_free|apply (st_wf _ _ Hst)|].
  apply (st_next _ _ Hst).
Qed.

Lemma opaque7_wf : onode_wf opaque7.
Proof. apply (ino2opaque_wf 7 zero_onode); [apply empty_onode_wf|]. by vm_compute. Qed.
Lemma opaque8_wf : onode_wf opaque8.
Proof. apply (ino2opaque_wf 8 zero_onode); [apply empty_onode_wf|]. by vm_compute. Qed.

Lemma root_storable : storable true root_entry.
Proof.
  split; try done. split; [|exact opaque7_wf]. unfold entry_words. cbn.
  repeat (apply Forall_cons; split; [by vm_compute|]). done.
Qed.
Lemma file_storable : storable false file_entry.
Proof.
  split; try done; [by left|]. split; [|exact opaque8_wf]. unfold entry_words. cbn.
  repeat (apply Forall_cons; split; [by vm_compute|]). done.
Qed.

Lemma ddb1_start : Voldb.num ddb1 = 10 /\ nextptr (slot ddb1 0) = VOLDB_ENTRY_USED /\ is_dir_db ddb1.
Proof. vm_compute. repeat split. Qed.
Lemma db1_start : Voldb.num db1 = 10 /\ nextptr (slot db1 0) = VOLDB_ENTRY_USED /\ is_file_db db1.
Proof. vm_compute. repeat split. Qed.

Lemma put_acls_stored d fl k x D :
  voldb_ok d fl -> is_dir_db d -> 0 <= k < Voldb.num d ->
  nextptr (slot d k) = VOLDB_ENTRY_USED -> storable true x ->
  voldb_ok (after (voldb_put_acl k D) (after (voldb_put_entry k x) d)) fl.
Proof.
  intros Hok Hkd Hk Hu Hst. destruct (put_stored true d fl k x Hok Hkd Hk Hu Hst) as [-> Hok1].
  assert (Hkd1 : is_dir_db (put_slot k (fent x) d)) by (by destruct d).
  assert (Hk1 : 0 <= k < Voldb.num (put_slot k (fent x) d)) by (by destruct d).
  unfold after. rewrite (put_acl_run _ fl k D Hok1 Hkd1 Hk1). by apply put_slot_acls_ok.
Qed.

Lemma dir_db_ok : exists fl, voldb_ok dir_db fl /\ 0 ∉ fl.
Proof.
  destruct ddb1_ok as [[fl Hok] _], ddb1_start as (Hn & Hu & Hkd). exists fl.
  split; [|exact (used_not_free _ _ _ Hok Hu)].
  assert (Hk : 0 <= 0 < Voldb.num ddb1) by (rewrite Hn; lia).
  rewrite dir_db_eq. exact (put_acls_stored ddb1 fl 0 root_entry _ Hok Hkd Hk Hu root_storable).
Qed.
Lemma file_db_ok : exists fl, voldb_ok file_db fl /\ 0 ∉ fl.
Proof.
  destruct db1_ok as [[fl Hok] _], db1_start as (Hn & Hu & Hkd). exists fl.
  split; [|exact (used_not_free _ _ _ Hok Hu)].
  assert (Hk : 0 <= 0 < Voldb.num db1) by (rewrite Hn; lia).
  destruct (put_stored false db1 fl 0 file_entry Hok Hkd Hk Hu file_storable) as [E Hok1].
  rewrite file_db_eq, E. exact Hok1.
Qed.

(** ** The volume *)

Definition root_fid : AFSFid := Build_AFSFid 5 1 1.
Definition file_fid : AFSFid := Build_AFSFid 5 2 1.

(** The node of an open vnode whose status is shown. *)
Definition opened_as (x : voldb_entry) (fd size : Z) (n : mnode) : mnode :=
  set_fsp true (set_fs (fill_status 1000 (fent x) (fs n)) (set_ep true (set_e x (set_opened fd size n)))).

Definition cache_run : MM (Z * Z) :=
  p <-- mnode_find MnodeCorrect.Witnesses.memory root_fid ;;
  upd_node p (opened_as root_entry 3 124) ;;!
  q <-- mnode_find MnodeCorrect.Witnesses.memory file_fid ;;
  upd_node q (opened_as file_entry 4 3000) ;;!
  eret (p, q).
Definition up (p : bytes) : gset bytes :=
  {[dirname p; dirname (dirname p); dirname (dirname (dirname p))]}.
Definition opened_host : hostfs :=
  Host ({[vicepa]} ∪ up name7 ∪ up name8) {[name7 := 7; name8 := 8]}
    {[7 := replicate 124 0; 8 := replicate 3000 0]} {[3 := 7; 4 := 8]} [].
Definition cache : mstate :=
  match cache_run (mnode_init 3 opened_host) with Some (s, _) => s | None => mnode_init 3 opened_host end.

(** The nodes are those at 1 and 2. *)
Lemma cache_eq : cache_run (mnode_init 3 opened_host) = Some (cache, inr (1, 2)).
Proof. vm_compute. reflexivity. Qed.

(** 4 KiB are in use. *)
Definition volume5 : lstate :=
  LState cache true (set_vi_size 4 info7) opaque7 vicepa 5 true (Some dir_db) (Some file_db).

Lemma opened_as_identity x fd size : same_identity (opened_as x fd size).
Proof. by intros []. Qed.

Lemma cache_minv : exists miss, minv 3 cache [2; 1] [zero_fid] miss.
Proof.
  pose proof cache_eq as E. unfold cache_run in E.
  apply ebind_inv in E as [(? & [=] & _)|(p & m1 & E1 & E)].
  apply ebind_inv in E as [(? & [=] & _)|([] & m2 & E2 & E)].
  apply ebind_inv in E as [(? & [=] & _)|(q & m3 & E3 & E)].
  apply ebind_inv in E as [(? & [=] & _)|([] & m4 & E4 & E)].
  injection E as <- -> ->. eexists. apply reach_minv; [lia|].
  assert (R1 : forall f, f <> zero_fid -> f ∉ [zero_fid])
    by (intros f Hf [?|?%elem_of_nil]%elem_of_cons; done).
  pose proof (reach_find 3 _ _ _ _ _ root_fid _ _ (reach_init 3 opened_host) (R1 root_fid ltac:(discriminate)) E1) as R2.
  pose proof (reach_use 3 _ _ _ _ _ _ _ R2 (list_elem_of_here _ _) (opened_as_identity root_entry 3 124) E2) as R3.
  pose proof (reach_find 3 _ _ _ _ _ file_fid _ _ R3 (R1 file_fid ltac:(discriminate)) E3) as R4.
  exact (reach_use 3 _ _ _ _ _ _ _ R4 (list_elem_of_here _ _) (opened_as_identity file_entry 4 3000) E4).
Qed.

Lemma root_read : db_entry volume5 root_fid = Some root_entry.
Proof. vm_compute. reflexivity. Qed.
Lemma file_read : db_entry volume5 file_fid = Some file_entry.
Proof. vm_compute. reflexivity. Qed.

Definition root_node : mnode := default zero_mnode (nodes cache !! 1).
Definition file_node : mnode := default zero_mnode (nodes cache !! 2).
Lemma root_at : nodes cache !! 1 = Some root_node /\ mfid root_node = root_fid /\ e root_node = root_entry.
Proof. vm_compute. repeat split. Qed.
Lemma file_at : nodes cache !! 2 = Some file_node /\ mfid file_node = file_fid /\ e file_node = file_entry.
Proof. vm_compute. repeat split. Qed.
Lemma third_at : is_Some (nodes cache !! 3) /\ lru cache = [2; 1; 3] /\
  match nodes cache !! 3 with Some n => ep n = false /\ fsp n = false | None => True end.
Proof. vm_compute. split; [by eexists|by repeat split]. Qed.

Lemma shown_check s n x : db_entry s (mfid n) = Some x -> e n = x ->
  sbp n = true -> status_of s x (fs n) -> shown_ok s n.
Proof. intros Hx He Hb Hs. unfold shown_ok. rewrite He, Hx. split; [done|]. intros _. split; [done|]. by exists x. Qed.

Lemma volume5_coherent : coherent [zero_fid] volume5.
Proof.
  intros p n Hn _ _. change (lm volume5) with cache in Hn.
  destruct cache_minv as [miss Hi], third_at as (_ & Hl & H3).
  assert (Hp : p ∈ lru cache) by (apply (mi_nodes _ _ _ _ _ Hi); by exists n).
  rewrite Hl in Hp. apply elem_of_cons in Hp as [->|Hp].
  - destruct file_at as (E1 & E2 & E3). rewrite E1 in Hn. injection Hn as <-.
    apply (shown_check _ _ file_entry); [by rewrite E2; exact file_read|exact E3|by vm_compute|].
    exists (fs file_node), (fs_Length (fs file_node)). vm_compute. reflexivity.
  - apply elem_of_cons in Hp as [->|Hp].
    + destruct root_at as (E1 & E2 & E3). rewrite E1 in Hn. injection Hn as <-.
      apply (shown_check _ _ root_entry); [by rewrite E2; exact root_read|exact E3|by vm_compute|].
      exists (fs root_node), (fs_Length (fs root_node)). vm_compute. reflexivity.
    + apply elem_of_cons in Hp as [->|[]%elem_of_nil]. rewrite Hn in H3. destruct H3 as [H4 H5].
      split; intros E; congruence.
Qed.

(** ** The witnesses *)

Definition user7 (flags : Z) : msec := Msec (Some (SecCtx (Some [7; 9]) 7 false)) 0 0 flags 0.

Lemma vld_check_rights_correct_witness : exists s' r,
  vld_check_rights MnodeCorrect.Witnesses.memory (fun _ => 0) 2 (user7 VOLOP_WRITE) volume5 = Some (s', r) /\
  same_volume volume5 s' /\ (r = inr (set_access 127 0 (user7 VOLOP_WRITE)) \/ r = inl EACCES).
Proof.
  destruct cache_minv as [miss Hi], file_at as (E1 & E2 & E3), root_at as (E4 & E5 & _).
  destruct (vld_check_rights_correct MnodeCorrect.Witnesses.memory (fun _ => 0) 3 volume5 [2; 1] [zero_fid]
    miss 2 file_node Hi volume5_coherent (list_elem_of_here _ _) E1
    ltac:(rewrite E2; reflexivity) (user7 VOLOP_WRITE)
    (SecCtx (Some [7; 9]) 7 false) [7; 9] root_dir) as (s' & r & miss' & Hr & _ & _ & Hv & Hres).
  - vm_compute. reflexivity.
  - vm_compute. reflexivity.
  - done.
  - done.
  - done.
  - vm_compute. reflexivity.
  - exact opaque7_wf.
  - intros _. split; [|split].
    + intros [Hf|?%elem_of_nil]%elem_of_cons; [discriminate Hf|done].
    + vm_compute. discriminate.
    + left. exists 1. vm_compute. reflexivity.
  - exists s', r. split; [exact Hr|]. split; [exact Hv|].
    destruct Hres as [Hres|[_ Hres]]; [left|right; exact Hres].
    vm_compute in Hres. vm_compute. exact Hres.
Defined.

Lemma root_vnode_at : exists fl, vnode_at volume5 (mfid root_node) true 0 dir_db fl.
Proof.
  destruct dir_db_ok as (fl & Hok & Hf), root_at as (_ & E & _). exists fl. rewrite E.
  split; [vm_compute; reflexivity|reflexivity|exact Hok|vm_compute; repeat split; reflexivity| |exact Hf].
  vm_compute. split; [discriminate|reflexivity].
Qed.
Lemma file_vnode_at : exists fl, vnode_at volume5 (mfid file_node) false 0 file_db fl.
Proof.
  destruct file_db_ok as (fl & Hok & Hf), file_at as (_ & E & _). exists fl. rewrite E.
  split; [vm_compute; reflexivity|reflexivity|exact Hok|vm_compute; repeat split; reflexivity| |exact Hf].
  vm_compute. split; [discriminate|reflexivity].
Qed.

Lemma volume5_info : info_ready volume5.
Proof.
  split; [done| |exact opaque7_wf|done].
  split_and!; [by repeat constructor|simpl; unfold VNAMESIZE; lia|by repeat constructor|by repeat constructor].
Qed.

(** A write that makes the file 5000 bytes long. *)
Lemma vld_modify_vnode_correct_witness : exists s' r,
  vld_modify_vnode (fun _ => 0) 77 2 VOLOP_WRITE None (Some 5000) volume5 = Some (s', r) /\
  match r with
  | inr _ => vi_size (linfo s') = 6 /\ exists d', lfile s' = Some d' /\
      Length (slot d' 0) = 5000 /\ DataVersion (slot d' 0) = 1
  | inl _ => lfile s' = lfile volume5
  end.
Proof.
  destruct file_vnode_at as [fl Hat], file_at as (E1 & _ & E3).
  assert (Hst : storable false (e file_node)) by (rewrite E3; exact file_storable).
  destruct (vld_modify_vnode_correct (fun _ => 0) volume5 2 file_node false 0 file_db fl E1
    ltac:(vm_compute; reflexivity) ltac:(vm_compute; reflexivity) ltac:(vm_compute; reflexivity) Hat Hst
    77 VOLOP_WRITE None (Some 5000) volume5_info I)
    as (x1 & Hx1 & s' & r & Hr & Hres).
  - vm_compute. split; [discriminate|reflexivity].
  - rewrite E3. vm_compute. split; [discriminate|reflexivity].
  - rewrite E3. vm_compute. discriminate.
  - injection Hx1 as <-. rewrite E3 in Hres. exists s', r. split; [exact Hr|]. destruct r as [err|[]].
    + apply Hres.
    + destruct Hres as ((d' & Hd' & _ & _ & Hs & _) & _ & Hv & _).
      split; [rewrite Hv; vm_compute; reflexivity|]. exists d'. split; [exact Hd'|].
      rewrite Hs. vm_compute. split; reflexivity.
Defined.

Lemma db1_os : db_os db1 = [] /\ db_os file_db = [] /\ db_os dir_db = [].
Proof. vm_compute. repeat split. Qed.


Definition owner7 : AFSStoreStatus := StoreStatus SS_OWNER 0 7 0 0 0.
Lemma create_result : snd <$> vld_create_entry zero_stack MnodeCorrect.Witnesses.memory (fun _ _ => 0) (fun _ _ => 0)
    (fun _ _ => Some 0) (fun _ => 0) zero_onode 77 1 TYPE_FILE owner7 (Some (user7 VOLOP_GETSTATUS)) true volume5 = Some (inr (Build_AFSFid 5 4 1, Some 3)).
Proof. vm_compute. reflexivity. Qed.
Lemma next_entry : snd <$> voldb_new_entry zero_stack file_db = Some (inr (1, 1)).
Proof. vm_compute. reflexivity. Qed.


(** ** An old fid

    The file is removed and another one is created, which gets its entry.  The
    fid of the first file still opens a vnode, the second one: the uniquifier
    of a fid is not compared with the one in the database. *)
Definition stale_open : LM (Z * Z) :=
  vld_adjust_linkcount zero_stack 2 (-1) ;;!
  on_mn (mnode_free 2 false) ;;!
  r <-- vld_create_entry zero_stack MnodeCorrect.Witnesses.memory (fun _ _ => 0) (fun _ _ => 0)
    (fun _ _ => Some 0) (fun _ => 0) zero_onode 77 1 TYPE_FILE owner7 None true ;;
  p <-- on_mn (mnode_find MnodeCorrect.Witnesses.memory file_fid) ;;
  vld_open_vnode (fun _ => 0) p VOLOP_GETSTATUS ;;!
  n <-- on_mn (node p) ;;
  eret (Unique (fst r), unique (fent (e n))).

Lemma old_fid_opens : snd <$> stale_open volume5 = Some (inr (2, 2)) /\ Unique file_fid = 1.
Proof. vm_compute. split; reflexivity. Qed.
End World.
