(* ===== verification/Dpart.v ===== *)
(** * Partitions (milko/lib/dpart/dpart.c)

    The number and the path of a partition: [dp_create] makes the path from
    the number, [dp_parse] reads the number from a name.  [dp_find] looks for
    the next partition that is there, [dp_getstats] converts what [statvfs]
    answers to blocks of 1 KiB. *)

From S2P Require Import Prelude Estate.

Definition letters : Z := 25.                             (* 'z' - 'a' *)

(** [struct dp_part] without its counter *)
Record dp_part := DpPart { dp_name : bytes; dp_number : Z }.

Definition slash_vicep : bytes := [47; 118; 105; 99; 101; 112].

(** [root] is [dpart_root], [num] is unsigned.  The number of the structure is
    what is left of [num] after its first letter. *)
Definition dp_letters (num : Z) : bytes * Z :=
  if letters <? num then
    let ret := num / letters in
    let num := num - ret * letters in
    ([ret + 97; num + 97], num)
  else ([num + 97], num).
Definition dp_create (root : bytes) (num : Z) : Z + dp_part :=
  if letters * letters <? num then inl EINVAL else
  let '(str, num) := dp_letters num in
  inr (DpPart (root ++ slash_vicep ++ str) num).

(** The letters of a name without the path. *)
Definition is_letter (c : Z) : bool := (97 <=? c) && (c <=? 122).
Definition parse_letters (s : bytes) : Z + Z :=
  match s with
  | [b] => if is_letter b then inr (b - 97) else inl EINVAL
  | [a; b] =>
      if negb (is_letter a) then inl EINVAL else
      if negb (is_letter b) then inl EINVAL else
      inr (uwrap32 (letters * (a - 97 + 1) + (b - 97)))
  | _ => inl EINVAL
  end.
Definition dp_parse (s : bytes) : Z + Z :=
  if (6 <? length s)%nat && bool_decide (take 6 s = slash_vicep)
  then parse_letters (drop 6 s) else parse_letters s.

(** Null for an error. *)
Definition dp_getpart (root s : bytes) : option dp_part :=
  match dp_parse s with
  | inl _ => None
  | inr part => match dp_create root part with inl _ => None | inr dp => Some dp end
  end.

(** [isdir] is what [stat] and [S_ISDIR] say.  The search starts behind the
    number of the structure it is given and goes on until [dp_create] fails;
    [fuel] bounds the rounds. *)
Fixpoint find_from (root : bytes) (isdir : bytes -> bool) (fuel : nat) (num : Z)
    : option (Z + dp_part) :=
  match fuel with
  | O => None
  | S fuel =>
      let num := uwrap32 (num + 1) in
      match dp_create root num with
      | inl e => Some (inl e)
      | inr dp => if isdir (dp_name dp) then Some (inr dp) else find_from root isdir fuel num
      end
  end.
Definition find_fuel : nat := 700.
Definition dp_find (root : bytes) (isdir : bytes -> bool) (dp : option dp_part)
    : option (Z + dp_part) :=
  find_from root isdir find_fuel (match dp with None => -1 | Some d => uwrap32 (dp_number d) end).

(** What [statvfs] answers: the size of a block and the numbers of blocks, of
    free ones and of those that anybody can have. *)
Record statvfs := StatVfs { f_bsize : Z; f_blocks : Z; f_bfree : Z; f_bavail : Z }.
(** The available and the total number of blocks; [None] for a division by
    zero.  [reservedblocks] is an int, the others are unsigned longs. *)
Definition dp_getstats (r : Z + statvfs) : option (Z + Z * Z) :=
  match r with
  | inl e => Some (inl e)
  | inr sb =>
      let reserved := uwrap64 (swrap32 (uwrap64 (f_bfree sb - f_bavail sb))) in
      let total := uwrap64 (f_blocks sb - reserved) in
      if f_bsize sb <=? 1024 then
        if f_bsize sb =? 0 then None else
        let k := 1024 / f_bsize sb in
        Some (inr (swrap64 (f_bavail sb * k), swrap64 (total * k)))
      else
        let k := f_bsize sb / 1024 in
        Some (inr (swrap64 (f_bavail sb / k), swrap64 (total / k)))
  end.

(** ** Names and numbers *)

Lemma is_letter_spec c : is_letter c = true <-> 97 <= c <= 122.
Proof. unfold is_letter. lia. Qed.

Lemma dp_letters_one n : 0 <= n <= letters -> dp_letters n = ([n + 97], n).
Proof. intros Hn. unfold dp_letters. by destruct (Z.ltb_spec letters n); [lia|]. Qed.

Lemma dp_parse_path s : s <> [] -> dp_parse (slash_vicep ++ s) = parse_letters s.
Proof.
  intros Hs. unfold dp_parse. rewrite length_app.
  destruct (Nat.ltb_spec 6 (length slash_vicep + length s)) as [_|Hl].
  - by rewrite bool_decide_eq_true_2.
  - destruct s; [done|]. simpl in Hl. lia.
Qed.

(** The name of each of the first 26 partitions is read back as its number,
    with the path and without. *)
Lemma dp_parse_one n : 0 <= n <= letters ->
  dp_create [] n = inr (DpPart (slash_vicep ++ [n + 97]) n) /\
  dp_parse (slash_vicep ++ [n + 97]) = inr n /\ dp_parse [n + 97] = inr n.
Proof.
  intros Hn. assert (Hp : parse_letters [n + 97] = inr n).
  { unfold parse_letters. rewrite (proj2 (is_letter_spec (n + 97))) by (unfold letters in Hn; lia).
    f_equal. lia. }
  split; [|split; [by rewrite dp_parse_path|exact Hp]].
  unfold dp_create. rewrite dp_letters_one by done. unfold letters in *.
  by destruct (Z.ltb_spec (25 * 25) n); [lia|].
Qed.

(** The partitions with one letter have their numbers: what [dp_create]
    names, [dp_parse] reads, with the path and without.  A name with two
    letters is never the name of the number it is read as: the partition that
    [dp_getpart] gives for it is another one. *)
Theorem dp_names_numbers root s dp : dp_getpart root s = Some dp ->
  (exists n, 0 <= n <= letters /\ (s = [n + 97] \/ s = slash_vicep ++ [n + 97]) /\
     dp = DpPart (root ++ slash_vicep ++ [n + 97]) n) \/
  (exists a b, (s = [a; b] \/ s = slash_vicep ++ [a; b]) /\ dp_name dp <> root ++ slash_vicep ++ [a; b]).
Proof.
  unfold dp_getpart. intros Hg.
  assert (Hs : exists t, (s = t \/ s = slash_vicep ++ t) /\ dp_parse s = parse_letters t).
  { unfold dp_parse. destruct ((6 <? length s)%nat && bool_decide (take 6 s = slash_vicep)) eqn:E.
    - apply andb_true_iff in E as [_ E%bool_decide_eq_true]. exists (drop 6 s).
      split; [right; by rewrite <- E, take_drop|done].
    - exists s. auto. }
  destruct Hs as (t & Hs & Hp). rewrite Hp in Hg. destruct t as [|a [|b [|c t]]]; [done| | |done].
  - left. cbn in Hg. destruct (is_letter a) eqn:Ha; [|done]. apply is_letter_spec in Ha.
    exists (a - 97). replace (a - 97 + 97) with a by lia. split; [unfold letters; lia|]. split; [done|].
    unfold dp_create in Hg. rewrite dp_letters_one in Hg by (unfold letters; lia).
    replace (a - 97 + 97) with a in Hg by lia. unfold letters in Hg.
    destruct (Z.ltb_spec (25 * 25) (a - 97)); [lia|]. by injection Hg as <-.
  - right. exists a, b. split; [done|]. cbn [parse_letters] in Hg.
    destruct (is_letter a) eqn:Ha; [|done]. destruct (is_letter b) eqn:Hb; [|done]. cbn [negb] in Hg.
    apply is_letter_spec in Ha, Hb. unfold uwrap32, letters in Hg. rewrite Z.mod_small in Hg by lia.
    unfold dp_create, dp_letters, letters in Hg.
    destruct (Z.ltb_spec (25 * 25) (25 * (a - 97 + 1) + (b - 97))); [done|].
    destruct (Z.ltb_spec 25 (25 * (a - 97 + 1) + (b - 97))); injection Hg as <-; cbn [dp_name].
    + intros E. unfold slash_vicep in E. apply app_inv_head in E. cbn [app] in E. injection E as E _.
      pose proof (Z.div_mod (25 * (a - 97 + 1) + (b - 97)) 25). pose proof (Z.mod_pos_bound (25 * (a - 97 + 1) + (b - 97)) 25). lia.
    + intros E. by apply (f_equal length) in E; rewrite !length_app in E; simpl in E; lia.
Qed.

(** The search ends: [find_fuel] is enough for every start. *)
Lemma find_from_total root isdir fuel : forall num, -1 <= num <= letters * letters ->
  letters * letters - num < Z.of_nat fuel -> is_Some (find_from root isdir fuel num).
Proof.
  induction fuel as [|fuel IH]; intros num Hn Hf; [unfold letters in *; lia|].
  cbn [find_from]. unfold uwrap32. rewrite Z.mod_small by (unfold letters in *; lia).
  unfold dp_create. destruct (Z.ltb_spec (letters * letters) (num + 1)) as [_|Hle]; [by eexists|].
  destruct (dp_letters (num + 1)) as [str n]. cbn [dp_name].
  destruct (isdir _); [by eexists|]. apply IH; unfold letters in *; lia.
Qed.
Lemma dp_find_total root isdir dp : (forall d, dp = Some d -> 0 <= dp_number d <= letters) ->
  is_Some (dp_find root isdir dp).
Proof.
  intros Hd. unfold dp_find. apply find_from_total; [|unfold find_fuel, letters; destruct dp as [d|]].
  - destruct dp as [d|]; [|unfold letters; lia]. specialize (Hd d eq_refl). unfold letters, uwrap32 in *.
    rewrite Z.mod_small; lia.
  - specialize (Hd d eq_refl). unfold letters, uwrap32 in *. rewrite Z.mod_small; lia.
  - lia.
Qed.

(** With two letters the number is that of a partition with one: the search
    for the next partition after "bc" finds the one after "c". *)
Example dp_find_goes_back : let there := fun s => bool_decide (s = slash_vicep ++ [98; 99]) || bool_decide (s = slash_vicep ++ [100]) in
  dp_create [] 27 = inr (DpPart (slash_vicep ++ [98; 99]) 2) /\
  dp_find [] there (Some (DpPart (slash_vicep ++ [98; 99]) 2)) = Some (inr (DpPart (slash_vicep ++ [100]) 3)).
Proof. vm_compute. split; reflexivity. Qed.

Lemma dp_names_numbers_witness : dp_getpart [] [97; 97] = Some (DpPart (slash_vicep ++ [122]) 25) /\
  slash_vicep ++ [122] <> slash_vicep ++ [97; 97].
Proof.
  assert (E : dp_getpart [] [97; 97] = Some (DpPart (slash_vicep ++ [122]) 25)) by (vm_compute; reflexivity).
  split; [exact E|]. destruct (dp_names_numbers [] [97; 97] _ E) as [(n & _ & [Hs|Hs] & _)|(a & b & [Hs|Hs] & Hn)].
  - discriminate Hs.
  - discriminate Hs.
  - injection Hs as <- <-. exact Hn.
  - discriminate Hs.
Defined.
