(* ===== verification/Vtab.v ===== *)
(** * The table of volumes

    The functions of milko/lib/vld/vld.c over the volume handles of the
    server: finding, referencing, freeing, opening the databases of a volume
    with the list of those in use, creation and deletion; and the status file
    of a volume (milko/lib/vstatus/vstatus.c).

    A handle is known by its address.  The hash table of volumes is the finite
    map that [HashCorrect] shows it to be.  An item of [db_lru] has an identity.
    A database that is open has its file in its handle ([Voldb]); it is read
    from the host when it is opened and is there again when it is closed.

    The model is of the server, after [vld_init] has made the table, with
    volumes of the simple type ([Svol]), whose [open] and [free] do nothing. *)

From S2P Require Import Prelude Items Estate Buf Fdir Vnum Mdir Voldb Vrights Svol Mnode Vinfo Vld.

Local Open Scope em_scope.

Definition VLD_SVOL : Z := 0.
Definition VLD_FVOL : Z := 1.
Definition DB_LRU_HEADS : nat := 100.

(** ** State *)

(** [h_partnum] and [h_part] are the number and the path of [dp]. *)
Record volume_handle := Handle {
  h_voldbtype : Z; h_vol : Z; h_ref : Z; h_partnum : Z; h_part : bytes;
  h_info : volintInfo;
  h_infop : bool; h_voldbp : bool; h_offlinep : bool; h_salvaged : bool; h_attacherr : bool;
  h_sino : onode_opaque; h_dino : onode_opaque; h_fino : onode_opaque;
  h_dir : option voldb; h_file : option voldb;
  h_db_li : option Z
}.

Definition set_h_ref (v : Z) (h : volume_handle) : volume_handle :=
  let 'Handle a b _ d x f g i j k l m n o p q r := h in Handle a b v d x f g i j k l m n o p q r.
Definition set_h_voldbp (v : bool) (h : volume_handle) : volume_handle :=
  let 'Handle a b c d x f g _ j k l m n o p q r := h in Handle a b c d x f g v j k l m n o p q r.
Definition set_h_flags (off salv att : bool) (h : volume_handle) : volume_handle :=
  let 'Handle a b c d x f g i _ _ _ m n o p q r := h in
  Handle a b c d x f g i off salv att m n o p q r.
Definition set_h_inos (s d f : onode_opaque) (h : volume_handle) : volume_handle :=
  let 'Handle a b c e x y g i j k l _ _ _ p q r := h in Handle a b c e x y g i j k l s d f p q r.
Definition set_h_dir (v : option voldb) (h : volume_handle) : volume_handle :=
  let 'Handle a b c d x f g i j k l m n o _ q r := h in Handle a b c d x f g i j k l m n o v q r.
Definition set_h_file (v : option voldb) (h : volume_handle) : volume_handle :=
  let 'Handle a b c d x f g i j k l m n o p _ r := h in Handle a b c d x f g i j k l m n o p v r.
Definition set_h_db_li (v : option Z) (h : volume_handle) : volume_handle :=
  let 'Handle a b c d x f g i j k l m n o p q _ := h in Handle a b c d x f g i j k l m n o p q v.
(** [VLD_VOLH_DIR] and [VLD_VOLH_FILE] *)
Definition h_db (dirp : bool) (h : volume_handle) : option voldb :=
  if dirp then h_dir h else h_file h.
Definition set_h_db (dirp : bool) (v : option voldb) (h : volume_handle) : volume_handle :=
  if dirp then set_h_dir v h else set_h_file v h.

(** The handles by address, the table by volume number, the list of databases
    in use with the place holders of [vld_init], the list of volumes, the
    identity of the next item, the cache of nodes and the host. *)
Record vtab := Vtab {
  handles : gmap Z volume_handle;
  volume_htab : gmap Z Z;
  db_lru : list (Z * option Z);
  vol_list : list Z;
  nextitem : Z;
  vcache : mstate
}.
Definition set_handles (x : gmap Z volume_handle) (s : vtab) : vtab :=
  Vtab x (volume_htab s) (db_lru s) (vol_list s) (nextitem s) (vcache s).
Definition set_volume_htab (x : gmap Z Z) (s : vtab) : vtab :=
  Vtab (handles s) x (db_lru s) (vol_list s) (nextitem s) (vcache s).
Definition set_db_lru (x : list (Z * option Z)) (s : vtab) : vtab :=
  Vtab (handles s) (volume_htab s) x (vol_list s) (nextitem s) (vcache s).
Definition set_vol_list (x : list Z) (s : vtab) : vtab :=
  Vtab (handles s) (volume_htab s) (db_lru s) x (nextitem s) (vcache s).
Definition set_nextitem (x : Z) (s : vtab) : vtab :=
  Vtab (handles s) (volume_htab s) (db_lru s) (vol_list s) x (vcache s).
Definition set_vcache (x : mstate) (s : vtab) : vtab :=
  Vtab (handles s) (volume_htab s) (db_lru s) (vol_list s) (nextitem s) x.
Definition vt_host (s : vtab) : hostfs := mhost (vcache s).
Definition set_vt_host (h : hostfs) (s : vtab) : vtab := set_vcache (set_mhost h (vcache s)) s.

Definition VT : Type -> Type := EM vtab.

Definition handle (p : Z) : VT volume_handle := s <-- eget ;; eopt (handles s !! p).
Definition put_handle (p : Z) (h : volume_handle) : VT unit :=
  emod (fun s => set_handles (<[p := h]> (handles s)) s).
Definition upd_handle (p : Z) (f : volume_handle -> volume_handle) : VT unit :=
  h <-- handle p ;; put_handle p (f h).
Definition vt_on_host {A} (m : HM A) : VT A := elift vt_host set_vt_host m.
Definition vt_on_mn {A} (m : MM A) : VT A := elift vcache set_vcache m.

(** An operation of [Vld] on a volume. *)
Definition volume_view (h : volume_handle) (m : mstate) : lstate :=
  LState m (h_infop h) (h_info h) (h_sino h) (h_part h) (h_vol h) (h_voldbp h) (h_dir h) (h_file h).
Definition volume_back (l : lstate) (h : volume_handle) : volume_handle :=
  let 'Handle a _ c d _ _ _ _ j k x _ n o _ _ r := h in
  Handle a (lvol l) c d (lpart l) (linfo l) (linfop l) (lvoldbp l) j k x (lsino l) n o
    (ldir l) (lfile l) r.
Definition on_volume {A} (p : Z) (m : LM A) : VT A := fun s =>
  h ← handles s !! p;
  '(l, r) ← m (volume_view h (vcache s));
  Some (set_vcache (lm l) (set_handles (<[p := volume_back l h]> (handles s)) s), r).

(** [vld_init]: the table and the lists; the items of the place holders have
    the identities up to [DB_LRU_HEADS]. *)
Definition vtab_boot (m : mstate) : vtab :=
  Vtab ∅ ∅ (map (fun i => (i, None)) (rev (seqZ 1 (Z.of_nat DB_LRU_HEADS)))) []
    (Z.of_nat DB_LRU_HEADS + 1) m.

(** ** References *)

Definition vld_ref (p : Z) : VT unit :=
  h <-- handle p ;; eassert (negb (h_ref h =? 0)) ;;! put_handle p (set_h_ref (h_ref h + 1) h).

(** A key is compared by its number, which is unsigned. *)
Definition vld_find_vol (volid : Z) : VT Z :=
  s <-- eget ;;
  match volume_htab s !! uwrap32 volid with
  | None => efail ENOENT
  | Some p => vld_ref p ;;! eret p
  end.
Definition hashtabadd_vol (p : Z) : VT unit :=
  h <-- handle p ;;
  emod (fun s => match volume_htab s !! h_vol h with
                 | Some _ => s
                 | None => set_volume_htab (<[h_vol h := p]> (volume_htab s)) s
                 end).
Definition hashtabdel_vol (p : Z) : VT unit :=
  h <-- handle p ;; emod (fun s => set_volume_htab (delete (h_vol h) (volume_htab s)) s).

(** [voldb_close] of one database: it must be there; its file is what the
    mapping has. *)
Definition db_contents (d : voldb) (h : hostfs) : hostfs := host_content (db_fd d) (db_file d) h.
Definition close_db (dirp : bool) (p : Z) : VT unit :=
  h <-- handle p ;;
  d <-- eopt (h_db dirp h) ;;
  d' <-- eopt (match voldb_close d with Some (d', _) => Some d' | None => None end) ;;
  vt_on_host (emod (db_contents d') ;;! hclose (db_fd d')).

Definition no_dbs (h : volume_handle) : bool :=
  match h_dir h, h_file h with None, None => true | _, _ => false end.

Definition vld_free (p : Z) : VT unit :=
  upd_handle p (fun h => set_h_ref (h_ref h - 1) h) ;;!
  h <-- handle p ;;
  if negb (h_ref h =? 0) then eret tt else
  (if h_voldbp h then close_db true p ;;! close_db false p else eassert (no_dbs h)) ;;!
  emod (fun s => set_handles (delete p (handles s)) s).

(** [vld_iter_vol]: [func] is called with a reference and stops the iteration
    with a result that is not 0. *)
Fixpoint iter_vol (func : Z -> VT Z) (l : list Z) : VT unit :=
  match l with
  | [] => eret tt
  | p :: l =>
      vld_ref p ;;! r <-- func p ;; vld_free p ;;! if r =? 0 then iter_vol func l else eret tt
  end.
Definition vld_iter_vol (func : Z -> VT Z) : VT unit := s <-- eget ;; iter_vol func (vol_list s).

(** ** The status file of a volume (vstatus.c) *)

Definition VSTATUS_MAGIC : Z := 0xCAFE4711.
Definition VSTATUS_VERSION : Z := 4.

(** [struct vstatus] *)
Record vstatus := VStatus {
  vs_version : Z; vs_magic : Z; vs_volid : Z; vs_type : Z; vs_bstype : Z; vs_voldbtype : Z;
  volinfoinode : onode_opaque; dirinode : onode_opaque; fileinode : onode_opaque
}.

(** The generated coder, which encodes into [VSTATUS_SIZE] bytes or fails. *)
Class StatusCoder := {
  VSTATUS_SIZE : Z;
  ydr_encode_vstatus : vstatus -> option bytes
}.

Section Vtab.
Context `{OnodeCoder} `{InfoCoder} `{HostChoice} `{StatusCoder}.
(** The contexts of [Vld], the results of the system calls on the database
    behind a descriptor, the value [errno] has after calls that succeed, and
    the descriptor in the uninitialised [struct voldb] of
    [voldb_create_header]. *)
Context (stack : voldb -> bytes) (fresh : Z * mnode).
Context (create_errno end_errno : Z -> Z -> Z) (truncate_errno : Z -> Z -> option Z)
  (fstat_errno : Z -> Z).
Context (junk : onode_opaque) (dbos : Z -> list Z) (errno : Z) (stackfd : Z).

(** The call that decodes the buffer is commented out, so the test of the
    length that it would have set to 0 fails and [errno] is returned, with [v]
    as it was. *)
Definition vstatus_read (fd : Z) (v : vstatus) : HM Z :=
  r <-- hsys ;;                                           (* lseek *)
  if negb (r =? 0) then eret r else
  r <-- hread fd VSTATUS_SIZE ;;
  match r with
  | inl e => eret e
  | inr b =>
      if negb (blen b =? VSTATUS_SIZE) then eret errno else
      if negb (VSTATUS_SIZE =? 0) then eret errno else
      if negb (vs_magic v =? VSTATUS_MAGIC) || negb (vs_version v =? VSTATUS_VERSION)
      then eret EINVAL else eret 0
  end.

Definition vstatus_write (fd : Z) (v : vstatus) : HM unit :=
  let v := VStatus VSTATUS_VERSION VSTATUS_MAGIC (vs_volid v) (vs_type v) (vs_bstype v)
             (vs_voldbtype v) (volinfoinode v) (dirinode v) (fileinode v) in
  r <-- hsys ;;                                           (* lseek *)
  if negb (r =? 0) then efail r else
  match ydr_encode_vstatus v with
  | None => if errno =? 0 then eret tt else efail errno
  | Some b => r <-- hwrite fd b ;; if r =? 0 then eret tt else efail r
  end.

(** ** The databases of a volume *)

(** [VOLOP_IOPEN] and [voldb_init] of one database of [p]. *)
Definition file_of (fd : Z) (h : hostfs) : bytes :=
  match hfds h !! fd with Some i => default [] (hfiles h !! i) | None => [] end.
Definition init_db (dirp : bool) (p fd : Z) : VT unit :=
  h <-- handle p ;; s <-- eget ;;
  let d := Voldb 0 0 0 0 0 0 0 None (file_of fd (vt_host s)) (dbos fd) in
  r <-- eopt (voldb_init fd (h_voldbtype h) (swrap32 (h_vol h)) true d) ;;
  match r with
  | (d', inr _) => upd_handle p (set_h_db dirp (Some d'))
  | (_, inl e) => vt_on_host (hclose fd) ;;! efail e
  end.
Definition open_db (dirp : bool) (p : Z) : VT unit :=
  h <-- handle p ;;
  fd <-- vt_on_host (svol_iopen (h_part h) (if dirp then h_dino h else h_fino h)) ;;
  init_db dirp p fd.

Definition lru_addhead (p : Z) : VT unit :=
  s <-- eget ;;
  emod (fun s => set_nextitem (nextitem s + 1) (set_db_lru ((nextitem s, Some p) :: db_lru s) s)) ;;!
  upd_handle p (set_h_db_li (Some (nextitem s))).

(** The databases of the volume at the end of [db_lru] are closed.  Its flag
    [voldbp] stays. *)
Definition evict : VT unit :=
  s <-- eget ;;
  match last (db_lru s) with
  | None => eret tt                                       (* listemptyp *)
  | Some (_, o) =>
      emod (fun s => set_db_lru (removelast (db_lru s)) s) ;;!
      match o with
      | None => eret tt
      | Some old =>
          h <-- handle old ;;
          eassert (match h_dir h, h_file h with Some _, Some _ => true | _, _ => false end) ;;!
          close_db true old ;;! close_db false old ;;!
          upd_handle old (fun h => set_h_db_li None (set_h_file None (set_h_dir None h)))
      end
  end.

Definition vld_db_uptodate (p : Z) : VT unit :=
  h <-- handle p ;;
  if h_voldbp h then
    i <-- eopt (h_db_li h) ;;
    s <-- eget ;;
    l <-- eopt (item_del i (db_lru s)) ;;
    emod (set_db_lru l) ;;!
    lru_addhead p
  else
    eassert (no_dbs h) ;;!
    evict ;;!
    open_db true p ;;!
    eonerr (open_db false p) (close_db true p ;;! upd_handle p (set_h_dir None)) ;;!
    upd_handle p (set_h_voldbp true) ;;!
    lru_addhead p.

(** The table is there, so the volume is looked for in it. *)
Definition vld_open_volume_by_num (volid : Z) : VT Z := vld_find_vol volid.

(** [vld_vld2volsync] clears its argument; the other procedures that hold
    volumes by handle are those of [Vld] and [Vinfo]. *)
Definition vld_vld2volsync : list Z := replicate 6 0.

(** ** Deletion *)

(** One of the two loops of [delete_all_nodes].  The entry is looked at as
    that of a file, which starts that of a directory too. *)
Fixpoint delete_nodes (dirp : bool) (l : list Z) : LM unit :=
  match l with
  | [] => eret tt
  | i :: l =>
      r <-- etry (on_db dirp (voldb_get_entry i)) ;;
      match r with
      | inl _ => eret tt
      | inr x =>
          if negb (FileType (fent x) =? 0) && (nextptr (fent x) =? VOLDB_ENTRY_USED) then
            o <-- on_db dirp (voldb_del_entry stack i) ;; eignore (volop_iunlink o)
          else eret tt
      end ;;!
      delete_nodes dirp l
  end.
Definition delete_all_dbs : LM unit :=
  r <-- on_db false voldb_header_info ;;
  delete_nodes false (seqZ 0 (fst r)) ;;!
  r <-- on_db true voldb_header_info ;;
  delete_nodes true (seqZ 0 (fst r)).
Definition delete_all_nodes (p : Z) : VT unit :=
  vld_db_uptodate p ;;!
  on_volume p delete_all_dbs ;;!
  h <-- handle p ;;
  eignore (vt_on_host (svol_unlink (h_part h) (h_fino h))) ;;!
  eignore (vt_on_host (svol_unlink (h_part h) (h_dino h))) ;;!
  eignore (vt_on_host (svol_unlink (h_part h) (h_sino h))).

(** [root] is [dpart_root], [partnum] the number of the partition [dp]. *)
Definition vld_delete_volume (root : bytes) (partnum volid : Z) : VT unit :=
  p <-- vld_open_volume_by_num volid ;;
  eonerr (
    delete_all_nodes p ;;!
    hashtabdel_vol p ;;!
    match vol_getfullname root partnum volid MAXPATHLEN with
    | inl e => efail e
    | inr path => r <-- vt_on_host (unlink path) ;; if r =? 0 then eret tt else efail (-1)
    end) (vld_free p) ;;!
  vld_free p.

(** ** Creation *)

(** [open] with [O_CREAT]. *)
Definition hopen_creat (p : bytes) : HM (Z + Z) :=
  r <-- hsys ;;
  if negb (r =? 0) then eret (inl r) else
  s <-- eget ;;
  match hnames s !! p with
  | Some i =>
      emod (fun s => Host (hdirs s) (hnames s) (hfiles s) (<[new_fd s := i]> (hfds s)) (hos s)) ;;!
      eret (inr (new_fd s))
  | None =>
      if in_dirs p s then eret (inl EISDIR) else
      if negb (in_dirs (dirname p) s) then eret (inl ENOENT) else
      match new_ino s with
      | None => eret (inl ENOSPC)
      | Some i =>
          emod (fun s => Host (hdirs s) (<[p := i]> (hnames s)) (<[i := []]> (hfiles s))
                           (<[new_fd s := i]> (hfds s)) (hos s)) ;;!
          eret (inr (new_fd s))
      end
  end.

(** [VOLOP_ICREATE (vol, &ino, NODE_VOL, NULL)] *)
Definition icreate_vol (part : bytes) : VT onode_opaque :=
  r <-- vt_on_host (svol_icreate part zero_onode false) ;;
  match snd r with inl e => efail e | inr o => eret o end.
(** [VOLOP_IUNLINK] with its result dropped, of each in turn. *)
Fixpoint iunlink_all (part : bytes) (l : list onode_opaque) : VT unit :=
  match l with
  | [] => eret tt
  | o :: l => eignore (vt_on_host (svol_unlink part o)) ;;! iunlink_all part l
  end.
(** [if (ret) abort ();] *)
Definition must {A} (m : VT A) : VT A :=
  r <-- etry m ;; match r with inl _ => eabort | inr a => eret a end.

(** A database file with a header; the descriptor that is closed is not the
    one that was opened. *)
Definition create_db (part : bytes) (o : onode_opaque) (kind : Z) : VT unit :=
  fd <-- must (vt_on_host (svol_iopen part o)) ;;
  s <-- eget ;;
  let d := Voldb 0 0 0 0 0 stackfd 0 None (file_of fd (vt_host s)) (dbos fd) in
  r <-- eopt (voldb_create_header stack VOLDB_DEFAULT_TYPE kind d) ;;
  match r with
  | (d', inr _) => vt_on_host (emod (host_content fd (db_file d')) ;;! hclose stackfd)
  | (_, inl _) => eabort
  end.

(** The files of a volume: the two databases, the info and the status. *)
Definition create_files (now partnum : Z) (root part : bytes) (volid : Z) (name : bytes)
    (backstoretype voltype : Z) : VT (onode_opaque * onode_opaque * onode_opaque) :=
  fino <-- icreate_vol part ;;
  dino <-- eonerr (icreate_vol part) (iunlink_all part [fino]) ;;
  sino <-- eonerr (icreate_vol part) (iunlink_all part [fino; dino]) ;;
  fd <-- must (vt_on_host (svol_iopen part sino)) ;;
  eonerr (vt_on_host (vol_create now fd volid name voltype 0))
    (iunlink_all part [fino; dino; sino] ;;! vt_on_host (hclose fd)) ;;!
  vt_on_host (hclose fd) ;;!
  path <-- eonerr (match vol_getfullname root partnum volid MAXPATHLEN with
                   | inl e => efail e | inr path => eret path end)
             (iunlink_all part [fino; dino; sino]) ;;
  r <-- vt_on_host (hopen_creat path) ;;
  match r with
  | inl e => iunlink_all part [fino; dino; sino] ;;! efail e
  | inr fd =>
      eonerr (vt_on_host (vstatus_write fd
          (VStatus 0 0 volid voltype backstoretype VOLDB_DEFAULT_TYPE sino dino fino)))
        (iunlink_all part [fino; dino; sino] ;;! vt_on_host (hclose fd)) ;;!
      vt_on_host (hclose fd) ;;! eret (sino, dino, fino)
  end.

(** The node on the stack that stands for the parent of the root. *)
Definition root_acl : list acl_entry :=
  [AclEntry (uwrap32 PR_SYSADMINID)
     (Z.lor PRSFS_LOOKUP (Z.lor PRSFS_READ (Z.lor PRSFS_WRITE (Z.lor PRSFS_INSERT
       (Z.lor PRSFS_DELETE (Z.lor PRSFS_LOCK PRSFS_ADMINISTER))))));
   AclEntry (uwrap32 PR_ANYUSERID) (Z.lor PRSFS_LOOKUP PRSFS_READ)] ++ replicate 6 zero_acl.
Definition parent_n (vol : Z) : mnode :=
  Mnode.set_mfid (Build_AFSFid vol 1 1)
    (set_e (Entry TYPE_DIR (u_dir (DirEntry zero_entry (replicate FS_MAX_ACL zero_acl) root_acl)))
       zero_mnode).
Definition root_status : AFSStoreStatus := StoreStatus SS_MODEBITS 0 0 0 493 0.   (* 0755 *)

(** [sp] is the address of [parent_n] on the stack. *)
Definition create_root (now p sp : Z) : VT unit :=
  h <-- handle p ;;
  vt_on_mn (put_node sp (parent_n (h_vol h))) ;;!
  r <-- must (on_volume p (vld_create_entry stack fresh create_errno end_errno truncate_errno
                fstat_errno junk now sp TYPE_DIR root_status None true)) ;;
  vt_on_mn (emod (fun s => set_nodes (delete sp (nodes s)) s)) ;;!
  n <-- eopt (snd r) ;;
  vt_on_mn (mnode_free n false) ;;!
  eassert ((Fdir.Vnode (fst r) =? 1) && (Unique (fst r) =? 1)) ;;!
  must (on_volume p (vld_db_flush stack)).

(** [p] is the address [malloc] gives.  The handle of a volume whose creation
    fails is not freed. *)
Definition vld_create_volume (now p sp partnum : Z) (root part : bytes) (volid : Z) (name : bytes)
    (backstoretype voltype : Z) : VT unit :=
  if negb ((backstoretype =? VLD_SVOL) || (backstoretype =? VLD_FVOL)) then efail EINVAL else
  if negb (VLD_VALID_VOLNAME (Some name) =? 0) then efail EINVAL else
  r <-- etry (vld_find_vol volid) ;;
  match r with
  | inr q => vld_free q ;;! efail EEXIST
  | inl e => if negb (e =? ENOENT) then efail e else eret tt
  end ;;!
  eassert (backstoretype =? VLD_SVOL) ;;!
  r <-- create_files now partnum root part volid name backstoretype voltype ;;
  let '(sino, dino, fino) := r in
  put_handle p (Handle VOLDB_DEFAULT_TYPE (uwrap32 volid) 1 partnum part
    (VolInfo [] 0 0 0 0 0 0 0 0 0 0 0 0 0 0 0 0 0 0 0 0 0 0 0)
    false false false false false sino dino fino None None None) ;;!
  create_db part fino VOLDB_FILE ;;! create_db part dino VOLDB_DIR ;;!
  must (vld_db_uptodate p) ;;!
  create_root now p sp ;;!
  hashtabadd_vol p.

End Vtab.
