(* ===== verification/VtabCorrect.v ===== *)
(** * Correctness of the table of volumes

    References to the handles of the table, the two ways in which the
    databases of a volume are made ready, and what becomes of a volume whose
    databases were closed to make room for those of another. *)

From S2P Require Import Prelude Items Estate Buf Fdir Vnum Mdir Voldb VoldbRep VoldbFree VoldbOps.
From S2P Require Import VoldbCorrect Vrights Svol SvolCorrect Mnode Vinfo Vld Vtab.

Local Open Scope em_scope.

(** ** Running the operations *)

Lemma handle_run s p h : handles s !! p = Some h -> handle p s = Some (s, inr h).
Proof. intros Hp. unfold handle. by rewrite ebind_get, Hp. Qed.
Lemma put_handle_run s p h : put_handle p h s = Some (set_handles (<[p := h]> (handles s)) s, inr tt).
Proof. done. Qed.
Lemma upd_handle_run s p f h : handles s !! p = Some h ->
  upd_handle p f s = Some (set_handles (<[p := f h]> (handles s)) s, inr tt).
Proof. intros Hp. unfold upd_handle. by lrun (handle_run s p h Hp). Qed.
Lemma set_handles_twice x y s : set_handles y (set_handles x s) = set_handles y s.
Proof. done. Qed.
Lemma set_handles_same s : set_handles (handles s) s = s.
Proof. by destruct s. Qed.

Lemma h_fields v h : let h' := set_h_ref v h in
  h_vol h' = h_vol h /\ h_voldbp h' = h_voldbp h /\ h_db_li h' = h_db_li h /\ h_dir h' = h_dir h /\
  h_file h' = h_file h /\ h_ref h' = v.
Proof. by destruct h. Qed.
Lemma set_ref_back v w h : set_h_ref v (set_h_ref w h) = set_h_ref v h.
Proof. by destruct h. Qed.
Lemma set_ref_id h : set_h_ref (h_ref h) h = h.
Proof. by destruct h. Qed.

(** ** Well-formed tables *)

(** The numbers of the table name handles that are in use, the volumes whose
    databases are open are those of the items of [db_lru], and a handle with
    an item has its two databases. *)
Record vtab_ok (s : vtab) : Prop := {
  vt_items : items_ok (nextitem s) (db_lru s);
  vt_table num p : volume_htab s !! num = Some p ->
    exists h, handles s !! p = Some h /\ h_vol h = num /\ 1 <= h_ref h;
  vt_open p h i : handles s !! p = Some h -> h_db_li h = Some i ->
    (i, Some p) ∈ db_lru s /\ h_voldbp h = true /\ is_Some (h_dir h) /\ is_Some (h_file h);
  vt_item i p : (i, Some p) ∈ db_lru s ->
    exists h, handles s !! p = Some h /\ h_db_li h = Some i;
  vt_closed p h : handles s !! p = Some h -> h_db_li h = None -> h_dir h = None /\ h_file h = None
}.

(** A change of one handle that keeps its number, its item and which databases
    it has. *)
Definition same_open (d d' : option voldb) : Prop := is_Some d <-> is_Some d'.
Lemma same_open_refl d : same_open d d. Proof. done. Qed.
Lemma same_open_none d d' : same_open d d' -> d = None -> d' = None.
Proof. intros Hd ->. destruct d' as [x|]; [|done]. destruct (proj2 Hd) as [? [=]]. by eexists. Qed.
Lemma vtab_ok_change s p h h' : vtab_ok s -> handles s !! p = Some h ->
  h_vol h' = h_vol h -> 1 <= h_ref h' -> h_voldbp h' = h_voldbp h -> h_db_li h' = h_db_li h ->
  same_open (h_dir h) (h_dir h') -> same_open (h_file h) (h_file h') ->
  vtab_ok (set_handles (<[p := h']> (handles s)) s).
Proof.
  intros [I T O L C] Hp Hv Hr Hb Hl Hd Hf.
  assert (Hat : forall q x, handles s !! q = Some x -> exists x', <[p := h']> (handles s) !! q = Some x' /\
    h_vol x' = h_vol x /\ h_db_li x' = h_db_li x /\ (1 <= h_ref x -> 1 <= h_ref x')).
  { intros q x Hq. destruct (decide (q = p)) as [->|Hne].
    - simplify_eq. exists h'. by rewrite lookup_insert_eq.
    - exists x. by rewrite lookup_insert_ne. }
  assert (Hinv : forall q x, <[p := h']> (handles s) !! q = Some x -> exists x0, handles s !! q = Some x0 /\
    h_voldbp x = h_voldbp x0 /\ h_db_li x = h_db_li x0 /\ same_open (h_dir x0) (h_dir x) /\
    same_open (h_file x0) (h_file x)).
  { intros q x. destruct (decide (q = p)) as [->|Hne].
    - rewrite lookup_insert_eq. intros [= <-]. by exists h.
    - rewrite lookup_insert_ne by done. intros Hq. by exists x. }
  split; cbn [set_handles handles volume_htab db_lru nextitem]; [done| | | |].
  - intros num q Hq. destruct (T num q Hq) as (x & Hx & Hn & H1). destruct (Hat q x Hx) as (x' & ? & ? & ? & ?).
    exists x'. split; [done|]. split; [congruence|auto].
  - intros q x i Hq Hi. destruct (Hinv q x Hq) as (x0 & Hq0 & -> & E & S1 & S2).
    destruct (O q x0 i Hq0) as (? & ? & ? & ?); [congruence|].
    split_and!; [done|congruence|by apply S1|by apply S2].
  - intros i q Hi. destruct (L i q Hi) as (x & Hx & E). destruct (Hat q x Hx) as (x' & ? & ? & ? & ?).
    exists x'. split; congruence.
  - intros q x Hq Hn. destruct (Hinv q x Hq) as (x0 & Hq0 & _ & E & S1 & S2).
    destruct (C q x0 Hq0) as [C1 C2]; [congruence|]. eauto using same_open_none.
Qed.
Lemma vtab_ok_handle s p h h' : vtab_ok s -> handles s !! p = Some h ->
  h_vol h' = h_vol h -> 1 <= h_ref h' -> h_voldbp h' = h_voldbp h -> h_db_li h' = h_db_li h ->
  h_dir h' = h_dir h -> h_file h' = h_file h ->
  vtab_ok (set_handles (<[p := h']> (handles s)) s).
Proof. intros ? ? ? ? ? ? Hd Hf. apply (vtab_ok_change s p h); rewrite ?Hd, ?Hf; auto using same_open_refl. Qed.

(** ** References *)

Lemma vld_ref_run s p h : handles s !! p = Some h -> 1 <= h_ref h ->
  vld_ref p s = Some (set_handles (<[p := set_h_ref (h_ref h + 1) h]> (handles s)) s, inr tt).
Proof.
  intros Hp Hr. unfold vld_ref. lrun (handle_run s p h Hp).
  rewrite (proj2 (Z.eqb_neq (h_ref h) 0)) by lia. cbn [negb eassert]. by rewrite ebind_ret.
Qed.

Lemma vld_find_vol_run s volid p h : volume_htab s !! uwrap32 volid = Some p ->
  handles s !! p = Some h -> 1 <= h_ref h ->
  vld_find_vol volid s = Some (set_handles (<[p := set_h_ref (h_ref h + 1) h]> (handles s)) s, inr p).
Proof.
  intros Ht Hp Hr. unfold vld_find_vol. rewrite ebind_get, Ht. by lrun (vld_ref_run s p h Hp Hr).
Qed.

Lemma vld_free_run s p h : handles s !! p = Some h -> 2 <= h_ref h ->
  vld_free p s = Some (set_handles (<[p := set_h_ref (h_ref h - 1) h]> (handles s)) s, inr tt).
Proof.
  intros Hp Hr. unfold vld_free. lrun (upd_handle_run s p (fun h => set_h_ref (h_ref h - 1) h) h Hp).
  lrun (handle_run (set_handles (<[p := set_h_ref (h_ref h - 1) h]> (handles s)) s) p _ (lookup_insert_eq _ _ _)).
  destruct (h_fields (h_ref h - 1) h) as (_ & _ & _ & _ & _ & ->).
  by rewrite (proj2 (Z.eqb_neq (h_ref h - 1) 0)) by lia.
Qed.

(** ** A volume whose databases are open *)

(** Its item moves to the head of [db_lru]. *)
Definition touched (p : Z) (h : volume_handle) (l : list (Z * option Z)) (s : vtab) : vtab :=
  set_handles (<[p := set_h_db_li (Some (nextitem s)) h]> (handles s))
    (set_nextitem (nextitem s + 1) (set_db_lru ((nextitem s, Some p) :: l) s)).

Lemma db_lru_addhead_run s p h : handles s !! p = Some h ->
  lru_addhead p s = Some (touched p h (db_lru s) s, inr tt).
Proof.
  intros Hp. unfold lru_addhead. rewrite ebind_get, ebind_mod.
  set (s1 := set_nextitem _ _). exact (upd_handle_run s1 p (set_h_db_li (Some (nextitem s))) h Hp).
Qed.

Lemma uptodate_open_run dbos s p h i `{HostChoice} : vtab_ok s -> handles s !! p = Some h -> h_db_li h = Some i ->
  exists l1 l2, db_lru s = l1 ++ (i, Some p) :: l2 /\
    vld_db_uptodate dbos p s = Some (touched p h (l1 ++ l2) s, inr tt).
Proof.
  intros Hok Hp Hi. destruct (vt_open s Hok p h i Hp Hi) as (Hin & Hb & _).
  destruct (items_del _ _ _ _ (vt_items s Hok) Hin) as (l1 & l2 & El & Hd & _).
  exists l1, l2. split; [done|]. unfold vld_db_uptodate. lrun (handle_run s p h Hp). rewrite Hb, Hi.
  unfold eopt. rewrite ebind_ret, ebind_get, Hd, ebind_ret, ebind_mod.
  exact (db_lru_addhead_run (set_db_lru (l1 ++ l2) s) p h Hp).
Qed.

Lemma touched_ok s p h i l1 l2 : vtab_ok s -> handles s !! p = Some h -> h_db_li h = Some i ->
  db_lru s = l1 ++ (i, Some p) :: l2 -> vtab_ok (touched p h (l1 ++ l2) s).
Proof.
  intros [I T O L C] Hp Hi El. assert (Hin : (i, Some p) ∈ db_lru s) by (rewrite El; set_solver).
  destruct (items_del _ _ _ _ I Hin) as (m1 & m2 & Em & _ & _ & _).
  assert (Hl : items_ok (nextitem s) (l1 ++ l2) /\ forall q, (i, q) ∉ l1 ++ l2).
  { apply (items_tail_ok _ _ (Some p)). eapply items_perm; [|exact I]. rewrite El.
    symmetry. apply Permutation_middle. }
  destruct Hl as [Hl Hni]. clear m1 m2 Em.
  assert (Hback : forall j q, (j, Some q) ∈ l1 ++ l2 -> (j, Some q) ∈ db_lru s)
    by (intros j q; rewrite El, !elem_of_app, elem_of_cons; tauto).
  assert (Hout : forall j q, (j, Some q) ∈ db_lru s -> j = i \/ (j, Some q) ∈ l1 ++ l2).
  { intros j q. rewrite El, !elem_of_app, elem_of_cons. intros [?|[[= ? ?]|?]]; auto. }
  assert (Hne : forall j q, (j, Some q) ∈ l1 ++ l2 -> q <> p).
  { intros j q Hj ->. destruct (L j p (Hback _ _ Hj)) as (x & Hx & E). rewrite Hp in Hx. injection Hx as <-.
    rewrite Hi in E. injection E as ->. by apply (Hni (Some p)). }
  destruct (O p h i Hp Hi) as (_ & Hb & Hd & Hf).
  split; unfold touched; cbn [set_handles set_nextitem set_db_lru handles volume_htab db_lru nextitem].
  - by apply items_head.
  - intros num q Hq. destruct (T num q Hq) as (x & Hx & Hn & Hr). destruct (decide (q = p)) as [->|Hqp].
    + rewrite lookup_insert_eq. rewrite Hp in Hx. injection Hx as ->. eexists. split; [done|]. by destruct x.
    + rewrite lookup_insert_ne by done. eauto.
  - intros q x j. destruct (decide (q = p)) as [->|Hqp].
    + rewrite lookup_insert_eq. intros [= <-] Hj.
      assert (j = nextitem s) as -> by (destruct h; cbn in Hj; congruence).
      split; [left|]. by destruct h.
    + rewrite lookup_insert_ne by done. intros Hx Hj. destruct (O q x j Hx Hj) as (Hjin & ?).
      split; [|done]. right. destruct (Hout _ _ Hjin) as [->|]; [|done].
      by pose proof (items_unique _ _ _ _ _ I Hjin Hin) as [= ->].
  - intros j q [[= -> ->]|Hj]%elem_of_cons.
    + rewrite lookup_insert_eq. eexists. split; [done|]. by destruct h.
    + destruct (L j q (Hback _ _ Hj)) as (x & Hx & E). exists x.
      rewrite lookup_insert_ne by (apply not_eq_sym; by eapply Hne). done.
  - intros q x. destruct (decide (q = p)) as [->|Hqp].
    + rewrite lookup_insert_eq. intros [= <-] Hn. by destruct h.
    + rewrite lookup_insert_ne by done. apply C.
Qed.

(** ** Opening the databases *)

(** The file an opaque name stands for, and its inode. *)
Definition opaque_file (part : bytes) (o : onode_opaque) (h : hostfs) (i : Z) (b : bytes) : Prop :=
  exists ino o' name, local_opaque2ino o = Some (inr (ino, o')) /\
    local_create_name part ino = inr name /\ hnames h !! name = Some i /\ hfiles h !! i = Some b.

Lemma opaque_file_same part o h h' i b : hnames h' = hnames h -> hfiles h' = hfiles h ->
  opaque_file part o h i b -> opaque_file part o h' i b.
Proof. intros E1 E2 (ino & o' & name & ?). exists ino, o', name. by rewrite E1, E2. Qed.

Lemma svol_iopen_ok `{HostChoice} part o h i b : hos h = [] -> opaque_file part o h i b ->
  exists h' fd, svol_iopen part o h = Some (h', inr fd) /\ hfds h' !! fd = Some i /\
    hnames h' = hnames h /\ hfiles h' = hfiles h /\ hos h' = [].
Proof.
  intros Hos (ino & o' & name & Ho & Hname & Hn & _). unfold svol_iopen, local_open_file.
  rewrite Ho. unfold eopt. rewrite ebind_ret, Hname.
  unfold hopen. unfold ebind at 1 2. rewrite (hsys_ok h Hos). cbn [Z.eqb negb].
  rewrite ebind_get, Hn. eexists _, _. split_and!; [reflexivity|apply lookup_insert_eq|done..].
Qed.

Lemma on_host_run {A} (m : HM A) s h r : m (vt_host s) = Some (h, r) ->
  vt_on_host m s = Some (set_vt_host h s, r).
Proof. intros E. unfold vt_on_host. by rewrite (elift_run vt_host set_vt_host _ _ _ _ E). Qed.

(** The handle with a database of its own. *)
Definition has_db (dirp : bool) (d : voldb) (h h' : volume_handle) : Prop :=
  exists fd, h' = set_h_db dirp (Some (reopened fd (swrap32 (h_vol h)) d)) h.

Definition hinode (dirp : bool) (h : volume_handle) : onode_opaque := if dirp then h_dino h else h_fino h.

Lemma open_db_run `{OnodeCoderOk} `{HostChoice} dbos (dirp : bool) s p h d fl i :
  handles s !! p = Some h -> 0 <= h_voldbtype h < voltypes_bound -> voldb_ok d fl ->
  (forall fd, dbos fd = []) -> hos (vt_host s) = [] ->
  opaque_file (h_part h) (hinode dirp h) (vt_host s) i (db_file d) ->
  exists hs h', has_db dirp d h h' /\ hnames hs = hnames (vt_host s) /\ hfiles hs = hfiles (vt_host s) /\
    hos hs = [] /\
    open_db dbos dirp p s = Some (set_handles (<[p := h']> (handles s)) (set_vt_host hs s), inr tt).
Proof.
  intros Hp Hty Hok Hdb Hos Hof. unfold open_db. lrun (handle_run s p h Hp).
  destruct (svol_iopen_ok (h_part h) (hinode dirp h) (vt_host s) i (db_file d) Hos Hof)
    as (hs & fd & Hr & Hfd & Hn & Hf & Ho).
  rewrite (ebind_ok _ _ _ _ _ (on_host_run (svol_iopen (h_part h) (hinode dirp h)) s hs (inr fd) Hr)).
  set (s1 := set_vt_host hs s). assert (Hp1 : handles s1 !! p = Some h) by done.
  unfold init_db. lrun (handle_run s1 p h Hp1). rewrite ebind_get.
  assert (Hfile : file_of fd (vt_host s1) = db_file d).
  { change (vt_host s1) with hs. unfold file_of. rewrite Hfd, Hf. by destruct Hof as (? & ? & ? & _ & _ & _ & ->). }
  rewrite (init_run d fl fd (h_voldbtype h) (swrap32 (h_vol h))) by (try done; apply Hdb).
  unfold eopt. rewrite ebind_ret.
  exists hs, (set_h_db dirp (Some (reopened fd (swrap32 (h_vol h)) d)) h).
  split; [by exists fd|]. split_and!; try done. by rewrite (upd_handle_run s1 p _ h Hp1).
Qed.

Lemma has_db_fields dirp d h h' : has_db dirp d h h' ->
  h_db dirp h' <> None /\ h_db (negb dirp) h' = h_db (negb dirp) h /\ h_vol h' = h_vol h /\ h_ref h' = h_ref h /\
  h_db_li h' = h_db_li h /\ h_voldbtype h' = h_voldbtype h /\ h_part h' = h_part h /\
  h_dino h' = h_dino h /\ h_fino h' = h_fino h /\ h_offlinep h' = h_offlinep h /\
  h_infop h' = h_infop h /\ h_info h' = h_info h.
Proof. intros [fd ->]. by destruct dirp, h. Qed.

(** What the host has for a volume whose databases are closed. *)
Record openable `{OnodeCoder} (s : vtab) (h : volume_handle) (d f : voldb) (i j : Z) : Prop := {
  oa_type : 0 <= h_voldbtype h < voltypes_bound;
  oa_dok : exists fl, voldb_ok d fl;
  oa_fok : exists fl, voldb_ok f fl;
  oa_dir : opaque_file (h_part h) (h_dino h) (vt_host s) i (db_file d);
  oa_file : opaque_file (h_part h) (h_fino h) (vt_host s) j (db_file f)
}.

(** The volume with both databases open, with its item at the head. *)
Definition opened_with (p : Z) (d f : voldb) (h h' : volume_handle) (s s' : vtab) (l : list (Z * option Z)) : Prop :=
  handles s' = <[p := h']> (handles s) /\ volume_htab s' = volume_htab s /\ vol_list s' = vol_list s /\
  db_lru s' = (nextitem s, Some p) :: l /\ nextitem s' = nextitem s + 1 /\
  h_db_li h' = Some (nextitem s) /\ h_voldbp h' = true /\ h_vol h' = h_vol h /\ h_ref h' = h_ref h /\
  (exists fd, h_dir h' = Some (reopened fd (swrap32 (h_vol h)) d)) /\
  (exists fd, h_file h' = Some (reopened fd (swrap32 (h_vol h)) f)) /\
  nodes (vcache s') = nodes (vcache s) /\ lru (vcache s') = lru (vcache s) /\ htab (vcache s') = htab (vcache s).

(** The opening that follows the eviction. *)
Lemma open_both_run `{OnodeCoderOk} `{HostChoice} dbos s p h d f i j :
  handles s !! p = Some h -> openable s h d f i j -> (forall fd, dbos fd = []) -> hos (vt_host s) = [] ->
  exists s' h', opened_with p d f h h' s s' (db_lru s) /\
    (open_db dbos true p ;;!
     eonerr (open_db dbos false p) (close_db true p ;;! upd_handle p (set_h_dir None)) ;;!
     upd_handle p (set_h_voldbp true) ;;! lru_addhead p) s = Some (s', inr tt).
Proof.
  intros Hp [Hty [fl1 Hd] [fl2 Hf] Hof1 Hof2] Hdb Hos.
  destruct (open_db_run dbos true s p h d fl1 i Hp Hty Hd Hdb Hos Hof1) as (hs1 & h1 & Hh1 & E1 & E2 & E3 & Hr1).
  rewrite (ebind_ok _ _ _ _ _ Hr1). set (s1 := set_handles (<[p := h1]> (handles s)) (set_vt_host hs1 s)) in *.
  destruct (has_db_fields _ _ _ _ Hh1) as (_ & _ & V1 & R1 & L1 & T1 & P1 & _ & F1 & _).
  destruct (open_db_run dbos false s1 p h1 f fl2 j) as (hs2 & h2 & Hh2 & E4 & E5 & E6 & Hr2); try done.
  - apply lookup_insert_eq.
  - by rewrite T1.
  - cbn [hinode]. rewrite P1, F1. by apply (opaque_file_same _ _ (vt_host s)).
  - rewrite (ebind_ok _ _ _ _ _ (eonerr_ok _ _ _ _ _ Hr2)).
    set (s2 := set_handles (<[p := h2]> (handles s1)) (set_vt_host hs2 s1)).
    assert (Hp2 : handles s2 !! p = Some h2) by apply lookup_insert_eq.
    rewrite (ebind_ok _ _ _ _ _ (upd_handle_run s2 p (set_h_voldbp true) h2 Hp2)).
    set (s3 := set_handles (<[p := set_h_voldbp true h2]> (handles s2)) s2).
    assert (Hp3 : handles s3 !! p = Some (set_h_voldbp true h2)) by apply lookup_insert_eq.
    eexists _, (set_h_db_li (Some (nextitem s)) (set_h_voldbp true h2)).
    split; [|exact (db_lru_addhead_run s3 p _ Hp3)].
    unfold opened_with, touched, s3, s2, s1. cbn. rewrite !insert_insert_eq.
    destruct Hh1 as [fd1 ->], Hh2 as [fd2 ->]. destruct h. cbn in *. split_and!; eauto.
Qed.

Lemma opened_ok s s' p d f h h' l : vtab_ok s -> handles s !! p = Some h -> h_db_li h = None ->
  db_lru s = l -> opened_with p d f h h' s s' l -> vtab_ok s'.
Proof.
  intros [I T O L C] Hp Hn El (Eh & Et & _ & Ed & En & Hli & Hb & Hv & Hr & [fd Hd] & [fd' Hf] & _).
  subst l.
  assert (Hne : forall j q, (j, Some q) ∈ db_lru s -> q <> p).
  { intros j q Hj ->. destruct (L j p Hj) as (x & Hx & E). congruence. }
  split; rewrite ?Eh, ?Et, ?Ed, ?En.
  - by apply items_head.
  - intros num q Hq. destruct (T num q Hq) as (x & Hx & Hnum & Hx1). destruct (decide (q = p)) as [->|Hqp].
    + exists h'. rewrite lookup_insert_eq. simplify_eq. split; [done|]. rewrite Hv, Hr. done.
    + exists x. by rewrite lookup_insert_ne.
  - intros q x j. destruct (decide (q = p)) as [->|Hqp].
    + rewrite lookup_insert_eq. intros [= <-] Hj. rewrite Hli in Hj. injection Hj as <-.
      split; [left|]. rewrite Hd, Hf. by eauto.
    + rewrite lookup_insert_ne by done. intros Hx Hj. destruct (O q x j Hx Hj) as (? & ?). split; [by right|done].
  - intros j q [[= -> ->]|Hj]%elem_of_cons.
    + exists h'. by rewrite lookup_insert_eq.
    + destruct (L j q Hj) as (x & Hx & E). exists x.
      rewrite lookup_insert_ne by (apply not_eq_sym; by eapply Hne). done.
  - intros q x. destruct (decide (q = p)) as [->|Hqp].
    + rewrite lookup_insert_eq. intros [= <-] E. congruence.
    + rewrite lookup_insert_ne by done. apply C.
Qed.

(** ** Making room *)

(** The table without the last item of [db_lru]. *)
Definition dropped (l : list (Z * option Z)) (s : vtab) : vtab := set_db_lru l s.

Lemma evict_place_run s l i : db_lru s = l ++ [(i, None)] -> evict s = Some (dropped l s, inr tt).
Proof. intros El. unfold evict. rewrite ebind_get, El, last_snoc, ebind_mod. cbv beta. by rewrite El, removelast_last. Qed.

Lemma place_ok s l i : vtab_ok s -> db_lru s = l ++ [(i, None)] -> vtab_ok (dropped l s).
Proof.
  intros [I T O L C] El.
  assert (Hback : forall j q, (j, Some q) ∈ db_lru s <-> (j, Some q) ∈ l).
  { intros j q. rewrite El, elem_of_app, list_elem_of_singleton. split; [by intros [?|[=]]|auto]. }
  split; unfold dropped; cbn; try done.
  - rewrite El in I. by apply items_snoc in I as [? _].
  - intros q x j Hq Hj. rewrite <- Hback. eauto.
  - intros j q. rewrite <- Hback. eauto.
Qed.

(** A database that can be closed. *)
Definition closable `{OnodeCoder} (d : voldb) : Prop := voldb_wf d /\ db_os d = [].

Definition closed_host (d : voldb) (h : hostfs) : hostfs :=
  let h := db_contents d h in
  Host (hdirs h) (hnames h) (hfiles h) (delete (db_fd d) (hfds h)) (hos h).

Lemma close_db_run `{OnodeCoderOk} (dirp : bool) s q h d : handles s !! q = Some h -> h_db dirp h = Some d -> closable d ->
  close_db dirp q s = Some (set_vt_host (closed_host d (vt_host s)) s, inr tt).
Proof.
  intros Hq Hd [Hwf Hos]. unfold close_db. lrun (handle_run s q h Hq). rewrite Hd. unfold eopt.
  rewrite ebind_ret, (close_run d Hwf Hos), ebind_ret.
  apply on_host_run. unfold db_contents. rewrite ebind_mod. by destruct d.
Qed.

Definition evicted (q : Z) (hq : volume_handle) (d f : voldb) (l : list (Z * option Z)) (s : vtab) : vtab :=
  set_vt_host (closed_host f (closed_host d (vt_host s)))
    (set_handles (<[q := set_h_db_li None (set_h_file None (set_h_dir None hq))]> (handles s))
      (dropped l s)).

Lemma evict_volume_run `{OnodeCoderOk} s l i q hq d f : db_lru s = l ++ [(i, Some q)] -> handles s !! q = Some hq ->
  h_dir hq = Some d -> h_file hq = Some f -> closable d -> closable f ->
  evict s = Some (evicted q hq d f l s, inr tt).
Proof.
  intros El Hq Hd Hf Hcd Hcf. unfold evict. rewrite ebind_get, El, last_snoc, ebind_mod.
  cbv beta. rewrite El, removelast_last. change (set_db_lru l s) with (dropped l s).
  lrun (handle_run (dropped l s) q hq Hq). rewrite Hd, Hf. unfold eassert. rewrite ebind_ret.
  lrun (close_db_run true (dropped l s) q hq d Hq Hd Hcd).
  set (s1 := set_vt_host _ _). assert (Hq1 : handles s1 !! q = Some hq) by done.
  lrun (close_db_run false s1 q hq f Hq1 Hf Hcf).
  set (s2 := set_vt_host _ s1). assert (Hq2 : handles s2 !! q = Some hq) by done.
  by rewrite (upd_handle_run s2 q _ hq Hq2).
Qed.

Lemma evicted_ok s l i q hq d f : vtab_ok s -> db_lru s = l ++ [(i, Some q)] -> handles s !! q = Some hq ->
  vtab_ok (evicted q hq d f l s).
Proof.
  intros [I T O L C] El Hq.
  assert (Hin : (i, Some q) ∈ db_lru s) by (rewrite El; set_solver).
  destruct (L i q Hin) as (x & Hx & Hli). rewrite Hq in Hx. injection Hx as <-.
  pose proof I as Hl. rewrite El in Hl. apply items_snoc in Hl as [Hl Hni].
  assert (Hback : forall j r, (j, Some r) ∈ l -> (j, Some r) ∈ db_lru s /\ r <> q).
  { intros j r Hj. assert (Hj' : (j, Some r) ∈ db_lru s) by (rewrite El; set_solver). split; [done|].
    intros ->. destruct (L j q Hj') as (x & Hx & E). rewrite Hq in Hx. injection Hx as <-.
    rewrite Hli in E. injection E as ->. by apply (Hni (Some q)). }
  split; unfold evicted, dropped; cbn [set_vt_host set_vcache set_handles set_db_lru handles volume_htab db_lru nextitem].
  - done.
  - intros num r Hr. destruct (T num r Hr) as (x & Hx & Hn & H1). destruct (decide (r = q)) as [->|Hrq].
    + rewrite Hq in Hx. injection Hx as <-. eexists. rewrite lookup_insert_eq. split; [done|]. by destruct hq.
    + exists x. by rewrite lookup_insert_ne.
  - intros r x j. destruct (decide (r = q)) as [->|Hrq].
    + rewrite lookup_insert_eq. intros [= <-] Hj. destruct hq. discriminate Hj.
    + rewrite lookup_insert_ne by done. intros Hx Hj. destruct (O r x j Hx Hj) as (Hjr & ?). split; [|done].
      rewrite El in Hjr. apply elem_of_app in Hjr as [|[= -> ->]%list_elem_of_singleton]; done.
  - intros j r Hj. destruct (Hback j r Hj) as [Hj' Hrq]. rewrite lookup_insert_ne by done. by apply L.
  - intros r x. destruct (decide (r = q)) as [->|Hrq].
    + rewrite lookup_insert_eq. intros [= <-] _. by destruct hq.
    + rewrite lookup_insert_ne by done. apply C.
Qed.

(** The inodes that the databases of an evicted volume are stored in. *)
Definition stored_apart (h : hostfs) (dq fq : voldb) (i : Z) : Prop :=
  hfds h !! db_fd dq <> Some i /\ hfds h !! db_fd fq <> Some i.

Lemma closed_host_file d h i b : hfds h !! db_fd d <> Some i -> hfiles h !! i = Some b ->
  hfiles (closed_host d h) !! i = Some b.
Proof.
  intros Hn Hb. unfold closed_host, db_contents, host_content. cbn. destruct (hfds h !! db_fd d) as [x|]; cbn; [|done].
  rewrite lookup_insert_ne; [done|]. congruence.
Qed.
Lemma closed_host_names d h : hnames (closed_host d h) = hnames h /\ hos (closed_host d h) = hos h.
Proof. unfold closed_host, db_contents, host_content. by destruct (hfds h !! db_fd d). Qed.
Lemma closed_host_fds d h fd i : hfds (closed_host d h) !! fd = Some i -> hfds h !! fd = Some i.
Proof.
  unfold closed_host, db_contents, host_content. destruct (hfds h !! db_fd d); cbn; intros [_ E]%lookup_delete_Some; done.
Qed.

Lemma openable_evicted `{OnodeCoder} s h d f i j q hq dq fq l : openable s h d f i j ->
  stored_apart (vt_host s) dq fq i -> stored_apart (vt_host s) dq fq j ->
  openable (evicted q hq dq fq l s) h d f i j.
Proof.
  intros [Hty Hd Hf O1 O2] Hi Hj.
  assert (Hof : forall o k b, stored_apart (vt_host s) dq fq k -> opaque_file (h_part h) o (vt_host s) k b ->
    opaque_file (h_part h) o (vt_host (evicted q hq dq fq l s)) k b).
  { intros o k b [K1 K2] (ino & o' & name & ? & ? & Hn & Hb). exists ino, o', name.
    change (vt_host (evicted q hq dq fq l s)) with (closed_host fq (closed_host dq (vt_host s))).
    destruct (closed_host_names fq (closed_host dq (vt_host s))) as [-> _].
    destruct (closed_host_names dq (vt_host s)) as [-> _]. split_and!; [done..|].
    apply closed_host_file; [|by apply closed_host_file]. intros E. by apply K2, (closed_host_fds dq). }
  split; [done..|by apply Hof|by apply Hof].
Qed.

(** ** The theorems *)

(** C30: The databases of a volume are opened once: while [db_lru] has a place
    that was never used, [vld_db_uptodate] reads both databases of a volume as
    the host has them, puts the volume at the head and changes no other
    handle; the table stays in order, and every later call finds the databases
    open and only moves the volume to the head again. *)
Theorem vld_db_uptodate_opens `{OnodeCoderOk} `{HostChoice} dbos s p h d f i j l k :
  vtab_ok s -> handles s !! p = Some h -> h_voldbp h = false -> h_db_li h = None ->
  db_lru s = l ++ [(k, None)] -> openable s h d f i j -> (forall fd, dbos fd = []) -> hos (vt_host s) = [] ->
  exists s' h', vld_db_uptodate dbos p s = Some (s', inr tt) /\ vtab_ok s' /\
    opened_with p d f h h' (dropped l s) s' l /\
    exists l1 l2, db_lru s' = l1 ++ (nextitem s, Some p) :: l2 /\
      vld_db_uptodate dbos p s' = Some (touched p h' (l1 ++ l2) s', inr tt) /\
      vtab_ok (touched p h' (l1 ++ l2) s').
Proof.
  intros Hok Hp Hb Hn El Ho Hdb Hos. destruct (vt_closed s Hok p h Hp Hn) as [Hd Hf].
  set (s1 := dropped l s). pose proof (place_ok s l k Hok El) as Hok1.
  destruct (open_both_run dbos s1 p h d f i j Hp) as (s' & h' & Hw & Hr); [by destruct Ho|done|done|].
  assert (Hok' : vtab_ok s') by (by eapply (opened_ok s1 s' p d f h h')).
  exists s', h'. split.
  { unfold vld_db_uptodate. lrun (handle_run s p h Hp). rewrite Hb. unfold no_dbs at 1. rewrite Hd, Hf.
    unfold eassert. rewrite ebind_ret. lrun (evict_place_run s l k El). exact Hr. }
  split; [done|]. split; [done|]. destruct Hw as (Eh & _ & _ & _ & _ & Hli & _).
  assert (Hp' : handles s' !! p = Some h') by (rewrite Eh; apply lookup_insert_eq).
  destruct (uptodate_open_run dbos s' p h' _ Hok' Hp' Hli) as (l1 & l2 & E & Hr2).
  exists l1, l2. split; [exact E|]. split; [exact Hr2|]. by eapply touched_ok.
Qed.

(** C29: A volume whose databases were closed to make room is lost.  When
    [db_lru] has no free place, opening the databases of [p] closes those of
    the least recently used volume [q] and succeeds, but [q] stays marked as
    having its databases open: the next [vld_db_uptodate] of [q], with which
    every procedure on it starts, does not return, and neither does giving
    back its last reference. *)
Theorem vld_evicted_volume_lost `{OnodeCoderOk} `{HostChoice} dbos s p h d f i j l k q hq dq fq :
  vtab_ok s -> handles s !! p = Some h -> h_voldbp h = false -> h_db_li h = None ->
  db_lru s = l ++ [(k, Some q)] -> handles s !! q = Some hq ->
  h_dir hq = Some dq -> h_file hq = Some fq -> closable dq -> closable fq ->
  openable s h d f i j -> stored_apart (vt_host s) dq fq i -> stored_apart (vt_host s) dq fq j ->
  (forall fd, dbos fd = []) -> hos (vt_host s) = [] ->
  exists s' h' hq', vld_db_uptodate dbos p s = Some (s', inr tt) /\ vtab_ok s' /\
    handles s' = <[p := h']> (<[q := hq']> (handles s)) /\ h_ref hq' = h_ref hq /\
    vld_db_uptodate dbos q s' = None /\ (h_ref hq = 1 -> vld_free q s' = None).
Proof.
  intros Hok Hp Hb Hn El Hq Hdq Hfq Hcd Hcf Ho Hi Hj Hdb Hos.
  destruct (vt_closed s Hok p h Hp Hn) as [Hd Hf].
  destruct (vt_item s Hok k q) as (x & Hx & Hliq); [rewrite El; set_solver|].
  rewrite Hq in Hx. injection Hx as <-. destruct (vt_open s Hok q hq k Hq Hliq) as (_ & Hbq & _).
  assert (Hpq : p <> q) by congruence. set (s1 := evicted q hq dq fq l s).
  set (hq' := set_h_db_li None (set_h_file None (set_h_dir None hq))).
  assert (Hp1 : handles s1 !! p = Some h) by (unfold s1, evicted; cbn; by rewrite lookup_insert_ne).
  destruct (open_both_run dbos s1 p h d f i j Hp1) as (s' & h' & Hw & Hr);
    [by apply openable_evicted|done| |].
  { change (vt_host s1) with (closed_host fq (closed_host dq (vt_host s))).
    destruct (closed_host_names fq (closed_host dq (vt_host s))) as [_ ->].
    by destruct (closed_host_names dq (vt_host s)) as [_ ->]. }
  assert (Hok' : vtab_ok s').
  { eapply (opened_ok s1 s' p d f h h'); [by eapply evicted_ok|done..]. }
  destruct Hw as (Eh & _). change (handles s1) with (<[q := hq']> (handles s)) in Eh.
  assert (Hq' : handles s' !! q = Some hq') by (rewrite Eh, lookup_insert_ne by done; apply lookup_insert_eq).
  assert (Hf' : h_voldbp hq' = true /\ h_db_li hq' = None /\ h_ref hq' = h_ref hq /\ h_dir hq' = None)
    by (unfold hq'; destruct hq; done).
  destruct Hf' as (Hb' & Hl' & Hr' & Hd').
  exists s', h', hq'. split_and!; try done.
  - unfold vld_db_uptodate. lrun (handle_run s p h Hp). rewrite Hb. unfold no_dbs at 1. rewrite Hd, Hf.
    unfold eassert. rewrite ebind_ret. lrun (evict_volume_run s l k q hq dq fq El Hq Hdq Hfq Hcd Hcf). exact Hr.
  - unfold vld_db_uptodate. lrun (handle_run s' q hq' Hq'). by rewrite Hb', Hl'.
  - intros Hone. unfold vld_free. lrun (upd_handle_run s' q (fun h => set_h_ref (h_ref h - 1) h) hq' Hq').
    set (s2 := set_handles _ _).
    assert (Hq2 : handles s2 !! q = Some (set_h_ref (h_ref hq' - 1) hq')) by apply lookup_insert_eq.
    lrun (handle_run s2 q _ Hq2). destruct (h_fields (h_ref hq' - 1) hq') as (_ & Eb & _ & Ed & _ & Er).
    rewrite Er, Eb, Hb', Hr', Hone. change (negb (1 - 1 =? 0)) with false. cbv iota.
    apply ebind_none, ebind_none. unfold close_db. lrun (handle_run s2 q _ Hq2).
    change (h_db true ?x) with (h_dir x). by rewrite Ed, Hd'.
Qed.
