(* ===== verification/Vattach.v ===== *)
(** * Attaching the volumes of the partitions

    [vld_init] and what it calls for every file whose name starts with "vol"
    (milko/lib/vld/vld.c; [dp_findvol] of milko/lib/dpart/dpart.c): the status
    of the volume is read and its handle enters the table.  The status is
    never decoded ([vstatus_read] of [Vtab]), so that no volume is attached. *)

From S2P Require Import Prelude Estate Buf Svol SvolCorrect Vinfo Mnode Vtab VtabCorrect Dpart.

Local Open Scope em_scope.

Section Attach.
Context `{HostChoice} `{StatusCoder}.
(** The [errno] of the last call that failed, the [vstatus] on the stack of
    [register_vols_cb] before it is read, the address [malloc] gives, and what
    [readdir] lists of a directory that can be opened. *)
Context (errno : Z) (vs_junk : vstatus) (malloc : vtab -> Z) (readdir : bytes -> option (list bytes)).

Definition zero_info : volintInfo :=
  VolInfo [] 0 0 0 0 0 0 0 0 0 0 0 0 0 0 0 0 0 0 0 0 0 0 0.
Definition vstatus2volume_handle (vs : vstatus) (dp : dp_part) : volume_handle :=
  Handle (vs_voldbtype vs) (uwrap32 (vs_volid vs)) 1 (dp_number dp) (dp_name dp) zero_info
    false false false false false (volinfoinode vs) (dirinode vs) (fileinode vs) None None None.

(** Of the types of volumes the simple one, which always opens, is modelled. *)
Definition register_vols_cb (dp : dp_part) (fd : Z) : VT unit :=
  r <-- vt_on_host (vstatus_read errno fd vs_junk) ;;
  if negb (r =? 0) then eret tt else
  s <-- eget ;;
  let vol := malloc s in
  eassert (vs_bstype vs_junk =? VLD_SVOL) ;;!
  put_handle vol (set_h_flags true false false (vstatus2volume_handle vs_junk dp)) ;;!
  emod (fun s => set_vol_list (vol_list s ++ [vol]) s) ;;!
  hashtabadd_vol vol.

Definition vol_prefix : bytes := [118; 111; 108].
(** The names are relative to the directory; a file that cannot be opened ends
    the server. *)
Fixpoint findvol_loop (dir : bytes) (cb : Z -> VT unit) (names : list bytes) : VT unit :=
  match names with
  | [] => eret tt
  | e :: names =>
      if negb (bool_decide (take 3 e = vol_prefix)) then findvol_loop dir cb names else
      r <-- vt_on_host (hopen (dir ++ slash ++ e)) ;;
      match r with
      | inl _ => eabort
      | inr fd => cb fd ;;! vt_on_host (hclose fd) ;;! findvol_loop dir cb names
      end
  end.
Definition dp_findvol (d : dp_part) (cb : Z -> VT unit) : VT unit :=
  match readdir (dp_name d) with
  | None => eret tt
  | Some names => findvol_loop (dp_name d) cb names
  end.

(** The loop of [vld_init] over the numbers of the partitions. *)
Fixpoint attach_loop (root : bytes) (l : list Z) : VT unit :=
  match l with
  | [] => eret tt
  | partnum :: l =>
      match dp_create root partnum with
      | inl _ => eret tt
      | inr dp => dp_findvol dp (register_vols_cb dp)
      end ;;!
      attach_loop root l
  end.
Definition vld_init (root : bytes) (m : mstate) : option (vtab * (Z + unit)) :=
  attach_loop root (seqZ 0 letters) (vtab_boot m).

(** ** Nothing is attached *)

(** Two tables that differ in the open files of the host only. *)
Definition but_fds (s s' : vtab) : Prop :=
  exists h, s' = set_vt_host h s /\ hnames h = hnames (vt_host s) /\ hos h = hos (vt_host s).

Lemma but_fds_refl s : but_fds s s.
Proof. exists (vt_host s). by destruct s as [? ? ? ? ? []]. Qed.
Lemma but_fds_trans s1 s2 s3 : but_fds s1 s2 -> but_fds s2 s3 -> but_fds s1 s3.
Proof.
  intros (h1 & -> & Hn1 & Ho1) (h2 & -> & Hn2 & Ho2). exists h2.
  split; [done|]. split; [rewrite Hn2; exact Hn1|rewrite Ho2; exact Ho1].
Qed.
Lemma but_fds_host s h : hnames h = hnames (vt_host s) -> hos h = hos (vt_host s) ->
  but_fds s (set_vt_host h s).
Proof. intros. by exists h. Qed.

(** The result of reading a status is never 0 when [errno] is not. *)
Lemma vstatus_read_fails fd v h : hos h = [] -> 0 < VSTATUS_SIZE -> errno <> 0 ->
  exists r, vstatus_read errno fd v h = Some (h, inr r) /\ r <> 0.
Proof.
  intros Ho Hs He. unfold vstatus_read. rewrite (ebind_ok _ _ _ _ _ (hsys_ok h Ho)). cbn [Z.eqb negb].
  assert (Hr : exists r, hread fd VSTATUS_SIZE h = Some (h, inr r) /\ forall e, r = inl e -> e <> 0).
  { unfold hread. rewrite (ebind_ok _ _ _ _ _ (hsys_ok h Ho)). cbn [Z.eqb negb]. rewrite ebind_get.
    destruct (hfds h !! fd); eexists; (split; [reflexivity|]); [done|]. by intros e [= <-]. }
  destruct Hr as ([e|b] & Hr & He').
  - lrun Hr. exists e. split; [done|by apply He'].
  - lrun Hr. destruct (negb (blen b =? VSTATUS_SIZE)); [by exists errno|].
    rewrite (proj2 (Z.eqb_neq VSTATUS_SIZE 0)) by lia. by exists errno.
Qed.

Lemma register_nothing s dp fd : hos (vt_host s) = [] -> 0 < VSTATUS_SIZE -> errno <> 0 ->
  register_vols_cb dp fd s = Some (s, inr tt).
Proof.
  intros Ho Hs He. destruct (vstatus_read_fails fd vs_junk (vt_host s) Ho Hs He) as (r & Hr & Hr0).
  unfold register_vols_cb. rewrite (ebind_ok _ _ _ _ _ (on_host_run _ s _ _ Hr)).
  rewrite (proj2 (Z.eqb_neq r 0)) by done. by destruct s as [? ? ? ? ? []].
Qed.

(** What [readdir] lists is there. *)
Definition listed (h : hostfs) : Prop :=
  forall dir names e, readdir dir = Some names -> e ∈ names -> is_Some (hnames h !! (dir ++ slash ++ e)).

Lemma findvol_nothing dp s names : hos (vt_host s) = [] -> 0 < VSTATUS_SIZE -> errno <> 0 ->
  (forall e, e ∈ names -> is_Some (hnames (vt_host s) !! (dp_name dp ++ slash ++ e))) ->
  exists s', findvol_loop (dp_name dp) (register_vols_cb dp) names s = Some (s', inr tt) /\ but_fds s s'.
Proof.
  intros Ho Hs He. revert s Ho. induction names as [|e names IH]; intros s Ho Hin.
  { exists s. split; [done|apply but_fds_refl]. }
  cbn [findvol_loop]. destruct (negb _).
  { apply IH; [done|]. intros x Hx. apply Hin. by right. }
  destruct (Hin e) as [i Hi]; [left|].
  destruct (hopen_ok (vt_host s) (dp_name dp ++ slash ++ e) i Ho Hi) as (h1 & fd & Hr & _ & _ & Hn1).
  assert (Ho1 : hos h1 = []).
  { unfold hopen in Hr. rewrite (ebind_ok _ _ _ _ _ (hsys_ok _ Ho)) in Hr. cbn [Z.eqb negb] in Hr.
    rewrite ebind_get, Hi in Hr. by injection Hr as <- _. }
  rewrite (ebind_ok _ _ _ _ _ (on_host_run _ s _ _ Hr)). set (s1 := set_vt_host h1 s).
  lrun (register_nothing s1 dp fd Ho1 Hs He).
  set (h2 := Host (hdirs h1) (hnames h1) (hfiles h1) (delete fd (hfds h1)) (hos h1)).
  rewrite (ebind_ok _ _ s1 (set_vt_host h2 s1) tt) by done.
  destruct (IH (set_vt_host h2 s1)) as (s' & Hr' & Hb); [done| |].
  - intros x Hx. change (is_Some (hnames h1 !! (dp_name dp ++ slash ++ x))). rewrite Hn1. apply Hin. by right.
  - exists s'. split; [exact Hr'|]. eapply but_fds_trans; [|exact Hb]. exists h2.
    split; [done|]. cbn. by rewrite Hn1, Ho1, Ho.
Qed.

Lemma attach_nothing root l : forall s, hos (vt_host s) = [] -> 0 < VSTATUS_SIZE -> errno <> 0 ->
  listed (vt_host s) -> exists s', attach_loop root l s = Some (s', inr tt) /\ but_fds s s'.
Proof.
  induction l as [|n l IH]; intros s Ho Hs He Hl; [exists s; split; [done|apply but_fds_refl]|].
  cbn [attach_loop].
  assert (Hd : exists s', match dp_create root n with inl _ => eret tt
    | inr dp => dp_findvol dp (register_vols_cb dp) end s = Some (s', inr tt) /\ but_fds s s').
  { destruct (dp_create root n) as [e|dp]; [exists s; split; [done|apply but_fds_refl]|].
    unfold dp_findvol. destruct (readdir (dp_name dp)) as [names|] eqn:E;
      [|exists s; split; [done|apply but_fds_refl]].
    apply findvol_nothing; [done..|]. intros e. by apply Hl. }
  destruct Hd as (s1 & Hr1 & Hb1). lrun Hr1. pose proof Hb1 as (h & -> & Hn & Ho1).
  destruct (IH (set_vt_host h s)) as (s' & Hr & Hb); [cbn; congruence|done|done| |].
  - intros dir names e Hd He'. change (vt_host (set_vt_host h s)) with h. rewrite Hn. by apply (Hl dir names).
  - exists s'. split; [exact Hr|]. by eapply but_fds_trans.
Qed.

End Attach.
