(* ===== verification/VtabExamples.v ===== *)
(** * The table of volumes: two volumes and one place

    The witnesses of the theorems on [Vtab] and [Vattach]: a partition with
    the databases of two volumes, and a table whose list of open databases has
    one place. *)

From S2P Require Import Prelude Items Estate Buf Fdir Vnum Mdir Voldb VoldbRep VoldbFree VoldbOps.
From S2P Require Import VoldbCorrect VoldbSim VoldbProps Vrights Svol SvolCorrect Mnode MnodeCorrect.
From S2P Require Import Vinfo VinfoCorrect Vld VldCorrect VldExamples Vtab VtabCorrect Vattach.

Local Open Scope em_scope.

Module Two.
Import SvolCorrect.Witnesses.
#[local] Existing Instance demo_host.

Definition opaque (i : Z) : onode_opaque := default zero_onode (local_ino2opaque i zero_onode).
Definition path (i : Z) : bytes := file_name vicepa i.

(** The directories are the inodes 9 and 11, the files 10 and 12; those of the
    second volume are open. *)
Definition host : hostfs :=
  Host {[vicepa]} {[path 9 := 9; path 10 := 10; path 11 := 11; path 12 := 12]}
    {[9 := db_file ddb1; 10 := db_file db1; 11 := db_file ddb1; 12 := db_file db1]} {[3 := 11; 4 := 12]} [].
Definition handle_of (v dino fino : Z) (open : bool) (li : option Z) : volume_handle :=
  Handle VOLDB_DEFAULT_TYPE v 1 0 vicepa zero_info false open false false false zero_onode (opaque dino) (opaque fino)
    (if open then Some (reopened 3 v ddb1) else None) (if open then Some (reopened 4 v db1) else None) li.
Definition hp : volume_handle := handle_of 5 9 10 false None.
Definition hq : volume_handle := handle_of 6 11 12 true (Some 1).

(** The volumes 5 and 6 have their handles at 100 and 200. *)
Definition room : vtab := Vtab {[100 := hp]} {[5 := 100]} [(1, None)] [100] 2 (mnode_init 3 host).
Definition full : vtab := Vtab {[100 := hp; 200 := hq]} {[5 := 100; 6 := 200]} [(1, Some 200)] [100; 200] 2 (mnode_init 3 host).

Lemma room_ok : vtab_ok room.
Proof.
  split; cbn.
  - split; [apply NoDup_singleton|by repeat constructor].
  - intros num q [<- <-]%lookup_singleton_Some. exists hp. split; [apply lookup_singleton_eq|done].
  - by intros q h i [<- <-]%lookup_singleton_Some.
  - intros i q [[=]|[]%not_elem_of_nil]%elem_of_cons.
  - by intros q h [<- <-]%lookup_singleton_Some.
Qed.
Lemma full_ok : vtab_ok full.
Proof.
  split; cbn.
  - split; [apply NoDup_singleton|by repeat constructor].
  - intros num q [[<- <-]|[_ [<- <-]%lookup_singleton_Some]]%lookup_insert_Some.
    + exists hp. split; [apply lookup_insert_eq|done].
    + exists hq. split; [by rewrite lookup_insert_ne, lookup_singleton_eq|done].
  - intros q h i [[<- <-]|[_ [<- <-]%lookup_singleton_Some]]%lookup_insert_Some; [done|].
    intros [= <-]. split; [left|]. by eauto.
  - intros i q [[= -> ->]|[]%not_elem_of_nil]%elem_of_cons. exists hq.
    split; [by rewrite lookup_insert_ne, lookup_singleton_eq|done].
  - by intros q h [[<- <-]|[_ [<- <-]%lookup_singleton_Some]]%lookup_insert_Some.
Qed.

Lemma file_there i b : local_opaque2ino (opaque i) = Some (inr (i, opaque i)) ->
  local_create_name vicepa i = inr (path i) -> hnames host !! path i = Some i -> hfiles host !! i = Some b ->
  opaque_file vicepa (opaque i) host i b.
Proof. intros ? ? ? ?. by exists i, (opaque i), (path i). Qed.

Lemma hp_openable s : vt_host s = host -> openable s hp ddb1 db1 9 10.
Proof.
  intros Hs. destruct ddb1_ok as [Hd _], db1_ok as [Hf _]. split; [by vm_compute|exact Hd|exact Hf|..].
  - rewrite Hs. apply file_there; vm_compute; reflexivity.
  - rewrite Hs. apply file_there; vm_compute; reflexivity.
Qed.
Lemma reopened_closable fd vol d : (exists fl, voldb_ok d fl) -> closable (reopened fd vol d).
Proof. intros [fl Hok]. split; [apply reopened_wf, Hok|done]. Qed.

Lemma vld_db_uptodate_opens_witness : exists s' h',
  vld_db_uptodate (fun _ => []) 100 room = Some (s', inr tt) /\ handles s' !! 100 = Some h' /\
  h_voldbp h' = true /\ db_lru s' = [(2, Some 100)].
Proof.
  destruct (vld_db_uptodate_opens (fun _ => []) room 100 hp ddb1 db1 9 10 [] 1 room_ok)
    as (s' & h' & Hr & _ & (Eh & _ & _ & El & _ & _ & Hb & _) & _).
  - reflexivity.
  - reflexivity.
  - reflexivity.
  - reflexivity.
  - apply hp_openable. reflexivity.
  - reflexivity.
  - reflexivity.
  - exists s', h'. split; [exact Hr|]. split; [rewrite Eh; apply lookup_insert_eq|]. split; [exact Hb|exact El].
Defined.

Lemma vld_evicted_volume_lost_witness : exists s',
  vld_db_uptodate (fun _ => []) 100 full = Some (s', inr tt) /\
  vld_db_uptodate (fun _ => []) 200 s' = None /\ vld_free 200 s' = None.
Proof.
  destruct (vld_evicted_volume_lost (fun _ => []) full 100 hp ddb1 db1 9 10 [] 1 200 hq
    (reopened 3 6 ddb1) (reopened 4 6 db1) full_ok) as (s' & h' & hq' & Hr & _ & _ & _ & Hn & Hf).
  - reflexivity.
  - reflexivity.
  - reflexivity.
  - reflexivity.
  - reflexivity.
  - reflexivity.
  - reflexivity.
  - apply reopened_closable, ddb1_ok.
  - apply reopened_closable, db1_ok.
  - apply hp_openable. reflexivity.
  - split; vm_compute; discriminate.
  - split; vm_compute; discriminate.
  - reflexivity.
  - reflexivity.
  - exists s'. split; [exact Hr|]. split; [exact Hn|]. apply Hf. reflexivity.
Defined.

(** ** A server that starts *)

#[local] Instance status_bytes : StatusCoder := {| VSTATUS_SIZE := 4; ydr_encode_vstatus _ := Some [1; 2; 3; 4] |}.
Definition junk_status : vstatus := VStatus 0 0 0 0 0 0 zero_onode zero_onode zero_onode.
(** The partition "a" with the status file of a volume. *)
Definition partition_a : hostfs := Host {[vicepa]} {[vicepa ++ slash ++ [118; 111; 108; 53] := 1]} {[1 := [1; 2; 3; 4]]} ∅ [].
Definition list_a (dir : bytes) : option (list bytes) :=
  if bool_decide (dir = vicepa) then Some [[118; 111; 108; 53]] else None.

End Two.
