(* ===== verification/Rxcopy.v ===== *)
(** * Copying between a call and a file

    [copyrx2fd] and [copyfd2rx] of lib/bufdir/fbuf.c, in the version over
    [mmap]: the data of a call is read into, or written from, windows of the
    file of at most [mmap_max_size] bytes.

    The call is what is left to arrive of its data, the room it still takes
    data for, the error that [rx_GetCallError] reports, and what was sent: a
    read or a write that is cut short leaves the error as it is, since the end
    of the data is not an error of the call (rx_rdwr.c). *)

From S2P Require Import Prelude Estate Buf Svol Vinfo Vld.

Local Open Scope em_scope.

Definition mmap_max_size : Z := 10 * 1024 * 1024.

Record rxdata := RxData { rx_in : bytes; rx_room : Z; rx_err : Z; rx_out : bytes }.
Record rxfile := RxFile { rhost : hostfs; rdata : rxdata }.
Definition set_rhost (h : hostfs) (s : rxfile) : rxfile := RxFile h (rdata s).
Definition set_rdata (d : rxdata) (s : rxfile) : rxfile := RxFile (rhost s) d.

Definition XM : Type -> Type := EM rxfile.
Definition x_host {A} (m : HM A) : XM A := elift rhost set_rhost m.

(** The bytes that arrive, at most [n]. *)
Definition rx_Read (n : Z) : XM bytes :=
  s <-- eget ;;
  let d := rdata s in
  emod (set_rdata (RxData (drop (Z.to_nat n) (rx_in d)) (rx_room d) (rx_err d) (rx_out d))) ;;!
  eret (take (Z.to_nat n) (rx_in d)).
(** The number of bytes that are sent. *)
Definition rx_Write (b : bytes) : XM Z :=
  s <-- eget ;;
  let d := rdata s in
  let b := take (Z.to_nat (rx_room d)) b in
  emod (set_rdata (RxData (rx_in d) (rx_room d - blen b) (rx_err d) (rx_out d ++ b))) ;;!
  eret (blen b).

(** ** Errors of calls (fs_errors.h, lib/ko/uae.c) *)

Definition VICE_SPECIAL_ERRORS_MIN : Z := 101.
Definition VICE_SPECIAL_ERRORS_MAX : Z := 112.
Definition VRESTARTING : Z := -100.
Definition ARLA_SPECIAL_ERROR_ADD : Z := 4000.
Definition ARLA_SPECIAL2_ERROR_ADD : Z := 4600.
Definition ARLA_SPECIAL_RX_ERROR_ADD : Z := 4800.
Definition RX_MIN_ERROR : Z := -1.
Definition RX_MAX_ERROR : Z := -64.
Definition UAE_ERROR_base : Z := 49733376.

(** No program calls [uae_init]: [uae_array] is null and [uae_len] 0. *)
Definition uae_error_to_errno (error : Z) : option Z :=
  if (error <? UAE_ERROR_base) || (0 <? error - UAE_ERROR_base) then Some error else None.
Definition conv_to_arla_errno (error : Z) : option Z :=
  if (VICE_SPECIAL_ERRORS_MIN <=? error) && (error <=? VICE_SPECIAL_ERRORS_MAX)
  then Some (error + ARLA_SPECIAL_ERROR_ADD)
  else if error =? VRESTARTING then Some (ARLA_SPECIAL2_ERROR_ADD + VRESTARTING)
  else if (error <=? RX_MIN_ERROR) && (RX_MAX_ERROR <=? error)
  then Some (ARLA_SPECIAL_RX_ERROR_ADD - error)
  else uae_error_to_errno error.

Section Copy.
(** [getpagesize] *)
Context (pagesize : Z).

(** [mmap] at an offset of an open file. *)
Definition hmmap (fd off : Z) : HM unit :=
  r <-- hsys ;;
  if negb (r =? 0) then efail r else
  if negb (off mod pagesize =? 0) || (off <? 0) then efail EINVAL else
  s <-- eget ;;
  match hfds s !! fd with None => efail EBADF | Some _ => eret tt end.

(** The pages up to the end of the file can be accessed; what is stored
    behind the end is lost. *)
Definition pages (n : Z) : Z := (n + pagesize - 1) / pagesize * pagesize.
Definition content_of (fd : Z) (h : hostfs) : option (Z * bytes) :=
  i ← hfds h !! fd; Some (i, default [] (hfiles h !! i)).
Definition map_store (fd off : Z) (b : bytes) : HM unit :=
  s <-- eget ;;
  c <-- eopt (content_of fd s) ;;
  let '(i, c) := c in
  eassert ((blen b =? 0) || (off + blen b <=? pages (blen c))) ;;!
  let o := Z.to_nat off in
  let c' := take (length c) (take o c ++ b ++ drop (o + length b) c) in
  emod (host_content fd (if off <? blen c then c' else c)).
Definition map_load (fd off n : Z) : HM bytes :=
  s <-- eget ;;
  c <-- eopt (content_of fd s) ;;
  let '(_, c) := c in
  eassert ((n =? 0) || (off + n <=? pages (blen c))) ;;!
  eret (take (Z.to_nat n) (drop (Z.to_nat off) (c ++ replicate (Z.to_nat (pages (blen c) - blen c)) 0))).

(** [if (f (...)) ret = errno;] *)
Definition or_errno (ret : Z) : XM Z := r <-- x_host hsys ;; eret (if r =? 0 then ret else r).

(** One round: the number of bytes moved and [ret]. *)
Definition copyrx_round (fd off len adjust_off : Z) : XM (Z * Z) :=
  let size := Z.min (len + adjust_off) mmap_max_size in
  x_host (hmmap fd (off - adjust_off)) ;;!
  b <-- rx_Read (size - adjust_off) ;;
  x_host (map_store fd off b) ;;!
  s <-- eget ;;
  ret <-- (if blen b =? size - adjust_off then eret 0
           else eopt (conv_to_arla_errno (rx_err (rdata s)))) ;;
  ret <-- or_errno ret ;;                                 (* msync *)
  ret <-- or_errno ret ;;                                 (* munmap *)
  eret (blen b, ret).
Definition copyfd_round (fd off len adjust_off : Z) : XM (Z * Z) :=
  let size := Z.min (len + adjust_off) mmap_max_size in
  x_host (hmmap fd (off - adjust_off)) ;;!
  b <-- x_host (map_load fd off (size - adjust_off)) ;;
  n <-- rx_Write b ;;
  s <-- eget ;;
  ret <-- (if n =? size - adjust_off then eret 0
           else eopt (conv_to_arla_errno (rx_err (rdata s)))) ;;
  ret <-- or_errno ret ;;                                 (* munmap *)
  eret (n, ret).

(** The loop, at most [fuel] rounds. *)
Fixpoint copy_loop (round : Z -> Z -> Z -> XM (Z * Z)) (fuel : nat) (off len adjust_off : Z)
    : XM unit :=
  if len <=? 0 then eret tt else
  match fuel with
  | O => eabort
  | S fuel =>
      r <-- round off len adjust_off ;;
      if negb (snd r =? 0) then efail (snd r)
      else copy_loop round fuel (off + fst r) (len - fst r) 0
  end.

(** Rounds that move a byte are at most [len]. *)
Definition copy_fuel (len : Z) : nat := S (Z.to_nat len).
Definition copyrx2fd (fd off len : Z) : XM unit :=
  copy_loop (copyrx_round fd) (copy_fuel len) off len (Z.rem off pagesize).
Definition copyfd2rx (fd off len : Z) : XM unit :=
  copy_loop (copyfd_round fd) (copy_fuel len) off len (Z.rem off pagesize).
End Copy.
