(* ===== verification/Ropa.v ===== *)
(** * Callbacks (milko/lib/ropa/ropa.c)

    The promises of the file server to tell its clients when a file changes.
    A client is known by its addresses and its UUID; a callback is the set of
    clients that were promised to be told about a fid, a pair ([ccpair]) one
    such promise with its time.  Clients, callbacks and pairs are allocated
    once and reused in the order of lists; four hash tables find them and a
    heap has the pairs by time.  The structures point to each other, so the
    model has a heap of each.

    The hash tables of callbacks, pairs and UUIDs have keys that do not change
    while an entry is in the table and are the finite maps that [HashCorrect]
    shows such tables to be.  Two addresses compare equal when their clients
    share one, so the table of addresses is one of [Hash] itself.  An item of a
    list has an identity, since a structure can be on its list twice.

    What the clients answer and the time are part of the state.  A procedure
    runs here without being interrupted by another one in a call to a client:
    the model is of one procedure at a time. *)

From S2P Require Import Prelude Items Estate Hash Fdir.

Local Open Scope em_scope.

Definition AFS_MAX_INTERFACE_ADDR : nat := 32.
Definition AFSCBMAX : Z := 50.
Definition ROPA_MTU : Z := 1500.
Definition DEFAULT_TIMEOUT : Z := 600.
Definition CALLBACK_VERSION : Z := 1.
Definition CBSHARED : Z := 2.
Definition CBDROPPED : Z := 3.
Definition RWVOL : Z := 0.
Definition RX_CALL_DEAD : Z := -1.
Definition RXGEN_OPCODE : Z := -455.
Definition EINVAL : Z := 22.
Definition ENETDOWN : Z := 100.
Definition ROPAF_LOOKUP : Z := 1.
Definition ROPAF_WAITING : Z := 2.

(** ** State *)

Inductive ropa_state_t :=
  ROPAC_FREE | ROPAC_LOOKUP_U | ROPAC_LOOKUP | ROPAC_DEAD | ROPAC_PLAIN | ROPAC_UUID.
#[export] Instance ropa_state_t_eq_dec : EqDecision ropa_state_t.
Proof. solve_decision. Defined.

(** [addr_c]: is [c] not null?  It then points to the client of the address. *)
Record ropa_addr := Addr { addr_c : bool; addr_in : Z; subnetmask : Z; mtu : Z }.
Definition no_addr : ropa_addr := Addr false 0 0 0.

(** [conn]: none, a connection to a host and port, or one that was destroyed. *)
Inductive ropa_conn := NoConn | Conn (host port : Z) | GoneConn.

(** Of the UUID the part that is compared, [node]. *)
Record ropa_client := Client {
  state : ropa_state_t; cflags : Z; numberOfInterfaces : Z; uuid : list Z;
  addr : list ropa_addr; port : Z; conn : ropa_conn;
  callbacks : list Z;           (* pairs *)
  cref : Z; cli : option Z
}.
Record ropa_ccpair := Ccpair {
  client : option Z; cb : option Z;
  cb_li : option Z;             (* item on [ccpairs] of [cb] *)
  expire : Z; li : option Z
}.
Record ropa_cb := Cb {
  fid : AFSFid;
  ccpairs : list (Z * Z);       (* items: identity and pair *)
  ref : Z; cbli : option Z
}.

Record interfaceAddr := IfAddr {
  if_number : Z; if_uuid : list Z; if_addr : list ropa_addr
}.

(** The calls to clients. *)
Inductive message :=
  | WhoAreYou (host port : Z)
  | InitCallBackState (host port : Z)
  | InitCallBackState3 (host port : Z)
  | CallBack (host port : Z) (fids : list AFSFid).

(** An entry of the table of addresses: the address [i] of the client at [c];
    a search is for a host and a port. *)
Inductive ipent := Stored (c : Z) (i : nat) | Key (host port : Z).

Inductive which := Lclients | Lccpair | Lcallback.

Record ropa := Ropa {
  clients : gmap Z ropa_client; pairs : gmap Z ropa_ccpair; cbs : gmap Z ropa_cb;
  ht_clients_ip : Hashtab ipent;
  ht_clients_uuid : gmap (list Z) Z;
  ht_callbacks : gmap AFSFid Z;
  ht_ccpairs : gmap (Z * Z) Z;          (* callback and client *)
  lrus : which -> list (Z * Z);         (* items: identity and structure, head first *)
  heap_ccpairs : gset Z;
  nextli : Z;                           (* identity of the next item *)
  now : Z;
  replies : list (Z * interfaceAddr);   (* what clients will answer *)
  sent : list message                   (* last one first *)
}.
Definition RM : Type -> Type := EM ropa.

Definition set_clients x s := Ropa x (pairs s) (cbs s) (ht_clients_ip s) (ht_clients_uuid s)
  (ht_callbacks s) (ht_ccpairs s) (lrus s) (heap_ccpairs s) (nextli s) (now s) (replies s) (sent s).
Definition set_pairs x s := Ropa (clients s) x (cbs s) (ht_clients_ip s) (ht_clients_uuid s)
  (ht_callbacks s) (ht_ccpairs s) (lrus s) (heap_ccpairs s) (nextli s) (now s) (replies s) (sent s).
Definition set_cbs x s := Ropa (clients s) (pairs s) x (ht_clients_ip s) (ht_clients_uuid s)
  (ht_callbacks s) (ht_ccpairs s) (lrus s) (heap_ccpairs s) (nextli s) (now s) (replies s) (sent s).
Definition set_ht_ip x s := Ropa (clients s) (pairs s) (cbs s) x (ht_clients_uuid s)
  (ht_callbacks s) (ht_ccpairs s) (lrus s) (heap_ccpairs s) (nextli s) (now s) (replies s) (sent s).
Definition set_ht_uuid x s := Ropa (clients s) (pairs s) (cbs s) (ht_clients_ip s) x
  (ht_callbacks s) (ht_ccpairs s) (lrus s) (heap_ccpairs s) (nextli s) (now s) (replies s) (sent s).
Definition set_ht_callbacks x s := Ropa (clients s) (pairs s) (cbs s) (ht_clients_ip s)
  (ht_clients_uuid s) x (ht_ccpairs s) (lrus s) (heap_ccpairs s) (nextli s) (now s) (replies s) (sent s).
Definition set_ht_ccpairs x s := Ropa (clients s) (pairs s) (cbs s) (ht_clients_ip s)
  (ht_clients_uuid s) (ht_callbacks s) x (lrus s) (heap_ccpairs s) (nextli s) (now s) (replies s) (sent s).
Definition set_lru (w : which) (l : list (Z * Z)) s := Ropa (clients s) (pairs s) (cbs s)
  (ht_clients_ip s) (ht_clients_uuid s) (ht_callbacks s) (ht_ccpairs s)
  (fun v => match w, v with
            | Lclients, Lclients | Lccpair, Lccpair | Lcallback, Lcallback => l
            | _, _ => lrus s v end)
  (heap_ccpairs s) (nextli s) (now s) (replies s) (sent s).
Definition set_heap x s := Ropa (clients s) (pairs s) (cbs s) (ht_clients_ip s)
  (ht_clients_uuid s) (ht_callbacks s) (ht_ccpairs s) (lrus s) x (nextli s) (now s) (replies s) (sent s).
Definition set_nextli x s := Ropa (clients s) (pairs s) (cbs s) (ht_clients_ip s)
  (ht_clients_uuid s) (ht_callbacks s) (ht_ccpairs s) (lrus s) (heap_ccpairs s) x (now s) (replies s) (sent s).
Definition set_net r m s := Ropa (clients s) (pairs s) (cbs s) (ht_clients_ip s)
  (ht_clients_uuid s) (ht_callbacks s) (ht_ccpairs s) (lrus s) (heap_ccpairs s) (nextli s) (now s) r m.

(** Fields *)
Definition set_state v c := Client v (cflags c) (numberOfInterfaces c) (uuid c) (addr c) (port c)
  (conn c) (callbacks c) (cref c) (cli c).
Definition set_cflags v c := Client (state c) v (numberOfInterfaces c) (uuid c) (addr c) (port c)
  (conn c) (callbacks c) (cref c) (cli c).
Definition set_uuid v c := Client (state c) (cflags c) (numberOfInterfaces c) v (addr c) (port c)
  (conn c) (callbacks c) (cref c) (cli c).
Definition set_addrs n l c := Client (state c) (cflags c) n (uuid c) l (port c) (conn c)
  (callbacks c) (cref c) (cli c).
Definition set_port v c := Client (state c) (cflags c) (numberOfInterfaces c) (uuid c) (addr c) v
  (conn c) (callbacks c) (cref c) (cli c).
Definition set_conn v c := Client (state c) (cflags c) (numberOfInterfaces c) (uuid c) (addr c)
  (port c) v (callbacks c) (cref c) (cli c).
Definition set_cref v c := Client (state c) (cflags c) (numberOfInterfaces c) (uuid c) (addr c)
  (port c) (conn c) (callbacks c) v (cli c).
Definition set_cli v c := Client (state c) (cflags c) (numberOfInterfaces c) (uuid c) (addr c)
  (port c) (conn c) (callbacks c) (cref c) v.
Definition set_fid v b := Cb v (ccpairs b) (ref b) (cbli b).
Definition set_ccpairs v b := Cb (fid b) v (ref b) (cbli b).
Definition set_ref v b := Cb (fid b) (ccpairs b) v (cbli b).
Definition set_cbli v b := Cb (fid b) (ccpairs b) (ref b) v.
Definition set_client v p := Ccpair v (cb p) (cb_li p) (expire p) (li p).
Definition set_cb v p := Ccpair (client p) v (cb_li p) (expire p) (li p).
Definition set_cb_li v p := Ccpair (client p) (cb p) v (expire p) (li p).
Definition set_expire v p := Ccpair (client p) (cb p) (cb_li p) v (li p).
Definition set_li v p := Ccpair (client p) (cb p) (cb_li p) (expire p) v.

Definition the_client (c : Z) : RM ropa_client := s <-- eget ;; eopt (clients s !! c).
Definition the_pair (p : Z) : RM ropa_ccpair := s <-- eget ;; eopt (pairs s !! p).
Definition the_cb (b : Z) : RM ropa_cb := s <-- eget ;; eopt (cbs s !! b).
Definition upd_client (c : Z) (f : ropa_client -> ropa_client) : RM unit :=
  x <-- the_client c ;; emod (fun s => set_clients (<[c := f x]> (clients s)) s).
Definition upd_pair (p : Z) (f : ropa_ccpair -> ropa_ccpair) : RM unit :=
  x <-- the_pair p ;; emod (fun s => set_pairs (<[p := f x]> (pairs s)) s).
Definition upd_cb (b : Z) (f : ropa_cb -> ropa_cb) : RM unit :=
  x <-- the_cb b ;; emod (fun s => set_cbs (<[b := f x]> (cbs s)) s).

(** ** Lists *)

Definition new_item : RM Z := s <-- eget ;; emod (set_nextli (nextli s + 1)) ;;! eret (nextli s).
Definition lru_del (w : which) (i : Z) : RM unit :=
  s <-- eget ;; l <-- eopt (item_del i (lrus s w)) ;; emod (set_lru w l).
(** [if (x->li) listdel (lru, x->li);] *)
Definition lru_unlink (w : which) (i : option Z) : RM unit :=
  match i with Some i => lru_del w i | None => eret tt end.
Definition lru_addhead (w : which) (p : Z) : RM Z :=
  i <-- new_item ;; emod (fun s => set_lru w ((i, p) :: lrus s w) s) ;;! eret i.
Definition lru_addtail (w : which) (p : Z) : RM Z :=
  i <-- new_item ;; emod (fun s => set_lru w (lrus s w ++ [(i, p)]) s) ;;! eret i.
(** [listdeltail] of a list that is not empty (the answer is used). *)
Definition lru_deltail (w : which) : RM Z :=
  s <-- eget ;;
  x <-- eopt (last (lrus s w)) ;;
  emod (set_lru w (removelast (lrus s w))) ;;! eret (snd x).

(** ** The table of addresses *)

(** The addresses and the port of the client of an entry. *)
Definition ent_addrs (cs : gmap Z ropa_client) (x : ipent) : list Z * Z :=
  match x with
  | Key h p => ([h], p)
  | Stored c _ =>
      match cs !! c with
      | Some c => (map addr_in (take (Z.to_nat (numberOfInterfaces c)) (addr c)), port c)
      | None => ([], 0)
      end
  end.
Definition clients_cmp_ip (cs : gmap Z ropa_client) (x y : ipent) : Z :=
  let '(a1, p1) := ent_addrs cs x in
  let '(a2, p2) := ent_addrs cs y in
  if existsb (fun a => existsb (fun b => (a =? b) && (p1 =? p2)) a2) a1 then 0 else 1.
Definition ent_addr (cs : gmap Z ropa_client) (c : Z) (i : nat) : ropa_addr :=
  default no_addr (x ← cs !! c; addr x !! i).
Definition clients_hash_ip (cs : gmap Z ropa_client) (x : ipent) : Z :=
  match x with
  | Key h p => uwrap32 (h + p)
  | Stored c i => uwrap32 (addr_in (ent_addr cs c i) + from_option port 0 (cs !! c))
  end.

(** The comparison follows the [c] of the entries it meets. *)
Definition ent_live (cs : gmap Z ropa_client) (x : ipent) : bool :=
  match x with Key _ _ => true | Stored c i => addr_c (ent_addr cs c i) end.
Fixpoint chain_live (cs : gmap Z ropa_client) (k : ipent) (l : list ipent) : bool :=
  match l with
  | [] => true
  | x :: l => ent_live cs x && ((clients_cmp_ip cs k x =? 0) || chain_live cs k l)
  end.
Definition ip_check (k : ipent) : RM unit :=
  s <-- eget ;;
  let cs := clients s in
  let t := ht_clients_ip s in
  b <-- eopt (tab t !! Z.to_nat (slot (clients_hash_ip cs) t k)) ;;
  eassert (ent_live cs k && chain_live cs k (e b)).

Definition ip_search (k : ipent) : RM (option ipent) :=
  ip_check k ;;!
  s <-- eget ;;
  eopt (hashtabsearch (clients_cmp_ip (clients s)) (clients_hash_ip (clients s)) (ht_clients_ip s) k).
(** The tables do not grow; memory for an entry does not run out. *)
Definition ip_add (k : ipent) : RM unit :=
  ip_check k ;;!
  s <-- eget ;;
  r <-- eopt (hashtabadd (clients_cmp_ip (clients s)) (clients_hash_ip (clients s)) (fun _ => None)
                (fun _ => true) (fun _ => true) 1 (ht_clients_ip s) k) ;;
  emod (set_ht_ip (snd r)).
Definition ip_del (k : ipent) : RM Z :=
  ip_check k ;;!
  s <-- eget ;;
  r <-- eopt (_hashtabdel (clients_cmp_ip (clients s)) (clients_hash_ip (clients s)) (ht_clients_ip s) k) ;;
  emod (set_ht_ip (snd r)) ;;! eret (fst r).

(** ** The other tables: [hashtabadd] and [hashtabdel] *)

(** The comparisons and hash functions of these tables, whose keys are UUIDs,
    fids, and pairs of pointers to a callback and a client. *)
Definition uuid_magic_eq (u1 u2 : list Z) : Z := if decide (u1 = u2) then 0 else 1.
Definition clients_cmp_uuid (x y : ropa_client) : Z := uuid_magic_eq (uuid x) (uuid y).
Definition clients_hash_uuid (x : ropa_client) : Z :=
  let n i := nth i (uuid x) 0 in
  uwrap32 (n 0%nat + Z.shiftl (n 1%nat) 6 + Z.shiftl (n 2%nat) 12 + Z.shiftl (n 3%nat) 18 +
    Z.shiftl (n 4%nat) 24 + Z.land (Z.shiftl (n 5%nat) 30) 0x3).
Definition callbacks_cmp (f g : AFSFid) : Z :=
  if negb (uwrap32 (Volume f - Volume g) =? 0) || negb (uwrap32 (Fdir.Vnode f - Fdir.Vnode g) =? 0) ||
     negb (uwrap32 (Unique f - Unique g) =? 0) then 1 else 0.
Definition callbacks_hash (f : AFSFid) : Z := uwrap32 (Volume f + Fdir.Vnode f + Unique f).
Definition ccpairs_cmp (k k' : Z * Z) : Z :=
  if negb (fst k - fst k' =? 0) || negb (snd k - snd k' =? 0) then 1 else 0.
Definition ccpairs_hash (s : ropa) (k : Z * Z) : Z :=
  uwrap32 (snd k + callbacks_hash (from_option fid (Build_AFSFid 0 0 0) (cbs s !! fst k))).

Definition map_add {K} `{Countable K} (k : K) (v : Z) (m : gmap K Z) : gmap K Z :=
  match m !! k with Some _ => m | None => <[k := v]> m end.
Definition map_del {K} `{Countable K} (k : K) (m : gmap K Z) : Z * gmap K Z :=
  match m !! k with Some _ => (0, delete k m) | None => (-1, m) end.

Definition uuid_search (u : list Z) : RM (option Z) := s <-- eget ;; eret (ht_clients_uuid s !! u).
Definition uuid_add (c : Z) : RM unit :=
  x <-- the_client c ;; emod (fun s => set_ht_uuid (map_add (uuid x) c (ht_clients_uuid s)) s).
Definition uuid_del (c : Z) : RM Z :=
  x <-- the_client c ;;
  s <-- eget ;;
  let '(r, m) := map_del (uuid x) (ht_clients_uuid s) in
  emod (set_ht_uuid m) ;;! eret r.

(** ** Calls *)

(** The next answer; a client that has none left is dead. *)
Definition no_interfaces : interfaceAddr := IfAddr 0 (replicate 6 0) [].
Definition rpc (m : message) : RM (Z * interfaceAddr) :=
  s <-- eget ;;
  match replies s with
  | [] => emod (set_net [] (m :: sent s)) ;;! eret (RX_CALL_DEAD, no_interfaces)
  | r :: l => emod (set_net l (m :: sent s)) ;;! eret r
  end.

(** ** References *)

Definition client_ref (c : Z) : RM unit :=
  x <-- the_client c ;;
  eassert (0 <=? cref x) ;;!
  lru_unlink Lclients (cli x) ;;!
  upd_client c (set_cref (cref x + 1)) ;;!
  match cli x with
  | Some _ => i <-- lru_addhead Lclients c ;; upd_client c (set_cli (Some i))
  | None => eret tt
  end.

Definition callback_ref (b : Z) : RM unit :=
  x <-- the_cb b ;;
  eassert (0 <=? ref x) ;;!
  lru_unlink Lcallback (cbli x) ;;!
  upd_cb b (set_ref (ref x + 1)) ;;!
  match cbli x with
  | Some _ => i <-- lru_addhead Lcallback b ;; upd_cb b (set_cbli (Some i))
  | None => eret tt
  end.

(** A loop over the addresses [l] of a client. *)
Fixpoint each_addr (l : list nat) (f : nat -> RM unit) : RM unit :=
  match l with
  | [] => eret tt
  | i :: l => f i ;;! each_addr l f
  end.
Definition put_addr (c : Z) (i : nat) (a : ropa_addr) : RM unit :=
  upd_client c (fun x => set_addrs (numberOfInterfaces x) (<[i := a]> (addr x)) x).
Definition clear_addr (c : Z) (i : nat) : RM unit := put_addr c i no_addr.

(** [addr->numberOfInterfaces] is cut to the size of the array. *)
Definition client_update_interfaces (c host : Z) (a : interfaceAddr) : RM unit :=
  x <-- the_client c ;;
  let n := Z.to_nat (Z.min (if_number a) (Z.of_nat AFS_MAX_INTERFACE_ADDR)) in
  each_addr (seq 0 (Z.to_nat (numberOfInterfaces x))) (fun i => ip_del (Stored c i) ;;! eret tt) ;;!
  each_addr (seq 0 n) (fun i =>
    let y := nth i (if_addr a) no_addr in
    put_addr c i (Addr true (addr_in y) (subnetmask y) (mtu y)) ;;! ip_add (Stored c i)) ;;!
  let found := existsb (fun i => host =? addr_in (nth i (if_addr a) no_addr)) (seq 0 n) in
  n <-- (if negb found && (n <? AFS_MAX_INTERFACE_ADDR)%nat then
           put_addr c n (Addr true host 0xffffff00 ROPA_MTU) ;;! ip_add (Stored c n) ;;! eret (S n)
         else eret n) ;;
  upd_client c (fun x => set_addrs (Z.of_nat n) (addr x) x) ;;!
  each_addr (seq n (AFS_MAX_INTERFACE_ADDR - n)) (clear_addr c).

Definition client_init (c host pt : Z) (u : option (list Z)) (a : option interfaceAddr) : RM unit :=
  upd_client c (set_port pt) ;;!
  match a with
  | Some a => client_update_interfaces c host a
  | None =>
      x <-- the_client c ;;
      each_addr (seq 0 (Z.to_nat (numberOfInterfaces x))) (fun i => ip_del (Stored c i) ;;! eret tt) ;;!
      upd_client c (fun x => set_addrs 1 (addr x) x) ;;!
      put_addr c 0 (Addr true host 0xffffff00 ROPA_MTU) ;;!
      ip_add (Stored c 0)
  end ;;!
  match u with
  | Some u => upd_client c (set_uuid u) ;;! uuid_add c
  | None => eret tt
  end.

Definition disconnect_client (c : Z) : RM unit :=
  x <-- the_client c ;;
  eassert (cref x =? 0) ;;!
  lru_unlink Lclients (cli x) ;;!
  upd_client c (set_cli None) ;;!
  each_addr (seq 0 (Z.to_nat (numberOfInterfaces x)))
    (fun i => r <-- ip_del (Stored c i) ;; eassert (r =? 0) ;;! clear_addr c i) ;;!
  upd_client c (fun x => set_state ROPAC_FREE (set_port 0 (set_addrs 0 (addr x) x))) ;;!
  r <-- uuid_del c ;;
  eassert (r =? 0) ;;!
  i <-- lru_addtail Lclients c ;;
  upd_client c (set_cli (Some i)).

Definition client_deref (c : Z) : RM unit :=
  upd_client c (fun x => set_cref (cref x - 1) x) ;;!
  x <-- the_client c ;;
  if cref x =? 0 then disconnect_client c else eret tt.

Definition callback_deref (b : Z) : RM unit :=
  upd_cb b (fun x => set_ref (ref x - 1) x) ;;!
  x <-- the_cb b ;;
  if ref x =? 0 then
    s <-- eget ;;
    let '(r, m) := map_del (fid x) (ht_callbacks s) in
    emod (set_ht_callbacks m) ;;!
    eassert (r =? 0) ;;!
    lru_unlink Lcallback (cbli x) ;;!
    eassert (match ccpairs x with [] => true | _ => false end) ;;!
    upd_cb b (set_fid (Build_AFSFid 0 0 0)) ;;!
    i <-- lru_addtail Lcallback b ;;
    upd_cb b (set_cbli (Some i))
  else eret tt.

(** ** Breaking promises *)

(** The loop over the addresses: the first one that answers is kept. *)
Fixpoint notify_loop (c : Z) (fids : list AFSFid) (l : list nat) : RM unit :=
  match l with
  | [] => eret tt
  | i :: l =>
      x <-- the_client c ;;
      let h := addr_in (nth i (addr x) no_addr) in
      upd_client c (set_conn (Conn h (port x))) ;;!
      r <-- rpc (CallBack h (port x) fids) ;;
      if fst r =? 0 then eret tt
      else upd_client c (set_conn GoneConn) ;;! notify_loop c fids l
  end.
(** No caller looks at the result.  A connection that was destroyed is freed
    memory. *)
Definition notify_client (c : Z) (fids : list AFSFid) : RM unit :=
  x <-- the_client c ;;
  done <-- (match conn x with
            | GoneConn => eabort
            | NoConn => eret false
            | Conn h p => r <-- rpc (CallBack h p fids) ;; eret (fst r =? 0)
            end) ;;
  if (done : bool) then eret tt
  else notify_loop c fids (seq 0 (Z.to_nat (numberOfInterfaces x))).

Definition break_ccpair (p : Z) (notify : bool) : RM unit :=
  upd_pair p (set_expire 0) ;;!
  x <-- the_pair p ;;
  lru_unlink Lccpair (li x) ;;!
  b <-- eopt (cb x) ;; c <-- eopt (client x) ;;
  (if notify then y <-- the_cb b ;; notify_client c [fid y] else eret tt) ;;!
  match cb_li x with
  | Some i =>
      y <-- the_cb b ;; l <-- eopt (item_del i (ccpairs y)) ;;
      upd_cb b (set_ccpairs l) ;;! upd_pair p (set_cb_li None)
  | None => eret tt
  end ;;!
  s <-- eget ;;
  let '(r, m) := map_del (b, c) (ht_ccpairs s) in
  emod (set_ht_ccpairs m) ;;!
  eassert (r =? 0) ;;!
  client_deref c ;;! upd_pair p (set_client None) ;;!
  callback_deref b ;;! upd_pair p (set_cb None) ;;!
  emod (fun s => set_heap (heap_ccpairs s ∖ {[p]}) s) ;;!
  i <-- lru_addtail Lccpair p ;;
  upd_pair p (set_li (Some i)).

(** [listdelhead] until the list is empty, at most [fuel] times; the answer is
    the caller's own pair if it is kept. *)
Fixpoint break_loop (fuel : nat) (b : Z) (caller : option Z) (break_own : bool) (own : option Z)
    : RM (option Z) :=
  match fuel with
  | O => eabort
  | S fuel =>
      x <-- the_cb b ;;
      match ccpairs x with
      | [] => eret own
      | (_, p) :: l =>
          upd_cb b (set_ccpairs l) ;;!
          y <-- the_pair p ;;
          eassert (bool_decide (cb y = Some b)) ;;!
          upd_pair p (set_cb_li None) ;;!
          let mine := bool_decide (client y = caller) in
          if break_own then break_ccpair p (negb mine) ;;! break_loop fuel b caller break_own own
          else if mine then break_loop fuel b caller break_own (Some p)
          else break_ccpair p true ;;! break_loop fuel b caller break_own own
      end
  end.

Definition break_callback (b : Z) (caller : option Z) (break_own : bool) : RM unit :=
  callback_ref b ;;!
  match caller with Some c => client_ref c | None => eret tt end ;;!
  x <-- the_cb b ;;
  own <-- break_loop (S (length (ccpairs x))) b caller break_own None ;;
  match own with
  | Some p =>
      i <-- new_item ;;
      upd_cb b (fun x => set_ccpairs ((i, p) :: ccpairs x) x) ;;! upd_pair p (set_cb_li (Some i))
  | None => eret tt
  end ;;!
  callback_deref b ;;!
  match caller with Some c => client_deref c | None => eret tt end.

(** The list [callbacks] of a client is never added to; with a pair on it
    [add_to_cb] would write behind the one byte that it allocates. *)
Definition break_ccpairs (c : Z) (notify : bool) : RM unit :=
  x <-- the_client c ;;
  match callbacks x with
  | [] => if notify then notify_client c [] else eret tt
  | _ :: _ => eabort
  end.
Definition break_client (c : Z) (notify : bool) : RM unit :=
  client_ref c ;;! break_ccpairs c notify ;;! client_deref c.

(** ** Clients *)

Definition uuid_init_simple (host : Z) : list Z :=
  [Z.land 0xff host; Z.land 0xff (Z.shiftr host 8); Z.land 0xff (Z.shiftr host 16);
   Z.land 0xff (Z.shiftr host 24); 0xaa; 0x77].

Definition client_query_notalkback (host pt : Z) : RM (option Z) :=
  r <-- ip_search (Key host pt) ;;
  match r with
  | Some (Stored c _) =>
      x <-- the_client c ;; eassert (negb (numberOfInterfaces x =? 0)) ;;! eret (Some c)
  | _ => eret None
  end.

Definition client_inuse_p (x : ropa_client) : bool :=
  match state x with
  | ROPAC_FREE => false
  | ROPAC_DEAD => negb (match callbacks x with [] => true | _ => false end)
  | _ => true
  end.

Definition obtain_client : RM Z :=
  c <-- lru_deltail Lclients ;;
  upd_client c (set_cli None) ;;!
  x <-- the_client c ;;
  (if client_inuse_p x then break_client c true else eret tt) ;;!
  x <-- the_client c ;;
  lru_unlink Lclients (cli x) ;;!
  upd_client c (set_cli None) ;;!
  eret c.

(** The cases of the [switch] of [client_query], with the client to go on with
    and [ret]. *)
Definition query_dead (c : Z) : RM (Z * Z) :=
  i <-- lru_addtail Lclients c ;; upd_client c (set_cli (Some i)) ;;! eret (c, ENETDOWN).
Definition query_lookup (c host pt : Z) : RM (Z * Z) :=
  r <-- rpc (InitCallBackState host pt) ;;
  if fst r =? RX_CALL_DEAD then upd_client c (set_state ROPAC_DEAD) ;;! query_dead c else
  client_init c host pt (Some (uuid_init_simple host)) None ;;!
  eret (c, fst r).
Definition query_lookup_u (c host pt : Z) : RM (Z * Z) :=
  r <-- rpc (WhoAreYou host pt) ;;
  let '(ret, remote) := r in
  if ret =? RXGEN_OPCODE then upd_client c (set_state ROPAC_LOOKUP) ;;! query_lookup c host pt
  else if ret =? RX_CALL_DEAD then upd_client c (set_state ROPAC_DEAD) ;;! query_dead c
  else
    c_new <-- uuid_search (if_uuid remote) ;;
    match c_new with
    | None =>
        client_init c host pt (Some (if_uuid remote)) None ;;!
        r <-- rpc (InitCallBackState3 host pt) ;; eret (c, fst r)
    | Some c' =>
        client_update_interfaces c' host remote ;;!
        disconnect_client c ;;!
        x <-- the_client c' ;;
        i <-- eopt (cli x) ;; lru_del Lclients i ;;! upd_client c' (set_cli None) ;;!
        eret (c', ret)
    end.

(** A client that another procedure is looking up would be waited for. *)
Definition client_query (host pt : Z) : RM (option Z) :=
  r <-- client_query_notalkback host pt ;;
  match r with
  | None =>
      c <-- obtain_client ;;
      x <-- the_client c ;;
      eassert (bool_decide (state x = ROPAC_FREE) && bool_decide (cli x = None)) ;;!
      upd_client c (fun x => set_cflags (Z.lor (cflags x) ROPAF_LOOKUP) (set_state ROPAC_LOOKUP_U x)) ;;!
      client_init c host pt None None ;;!
      r <-- query_lookup_u c host pt ;;
      let '(c, ret) := r in
      upd_client c (fun x => set_cflags (Z.land (cflags x) (Z.lnot (Z.lor ROPAF_LOOKUP ROPAF_WAITING))) x) ;;!
      x <-- the_client c ;;
      if negb (ret =? 0) then eassert (bool_decide (cli x <> None)) ;;! eret None else
      eassert (bool_decide (cli x = None)) ;;!
      i <-- lru_addhead Lclients c ;; upd_client c (set_cli (Some i)) ;;!
      eret (Some c)
  | Some c =>
      x <-- the_client c ;;
      (if negb (Z.land (cflags x) ROPAF_LOOKUP =? 0) then eabort else eret tt) ;;!
      eassert (bool_decide (cli x <> None)) ;;!
      eret (Some c)
  end.

(** ** Making promises *)

Record AFSCallBack := CallBackInfo { CallBackVersion : Z; ExpirationTime : Z; CallBackType : Z }.
Definition update_callback_time (time ty : Z) : AFSCallBack := CallBackInfo CALLBACK_VERSION (uwrap32 time) ty.
Definition update_callback (p ty : Z) : RM AFSCallBack :=
  x <-- the_pair p ;; s <-- eget ;; eret (update_callback_time (swrap32 (expire x - now s)) ty).

Definition ccpairs_inuse_p (x : ropa_ccpair) : bool := match client x with Some _ => true | None => false end.

Definition add_client (b c : Z) : RM Z :=
  s <-- eget ;;
  match ht_ccpairs s !! (b, c) with
  | Some p =>
      x <-- the_pair p ;;
      i <-- eopt (li x) ;; lru_del Lccpair i ;;!
      i <-- lru_addhead Lccpair p ;; upd_pair p (set_li (Some i)) ;;!
      eret p
  | None =>
      callback_ref b ;;! client_ref c ;;!
      p <-- lru_deltail Lccpair ;;
      upd_pair p (set_li None) ;;!
      x <-- the_pair p ;;
      (if ccpairs_inuse_p x then break_ccpair p true else eret tt) ;;!
      s <-- eget ;;
      upd_pair p (set_expire (now s + 3600)) ;;!
      emod (fun s => set_heap ({[p]} ∪ heap_ccpairs s) s) ;;!
      i <-- new_item ;;
      upd_cb b (fun x => set_ccpairs (ccpairs x ++ [(i, p)]) x) ;;!
      upd_pair p (set_cb_li (Some i)) ;;!
      upd_pair p (set_client (Some c)) ;;!
      upd_pair p (set_cb (Some b)) ;;!
      i <-- lru_addhead Lccpair p ;; upd_pair p (set_li (Some i)) ;;!
      emod (fun s => set_ht_ccpairs (map_add (b, c) p (ht_ccpairs s)) s) ;;!
      eret p
  end.

(** The callback for a fid, with a reference. *)
Definition obtain_callback (f : AFSFid) : RM Z :=
  s <-- eget ;;
  match ht_callbacks s !! f with
  | Some b => callback_ref b ;;! eret b
  | None =>
      b <-- lru_deltail Lcallback ;;
      upd_cb b (set_cbli None) ;;!
      x <-- the_cb b ;;
      match ccpairs x with
      | _ :: _ => break_callback b None false ;;! callback_ref b
      | [] =>
          callback_ref b ;;!
          i <-- lru_addhead Lcallback b ;; upd_cb b (set_cbli (Some i))
      end ;;!
      upd_cb b (set_fid f) ;;!
      emod (fun s => set_ht_callbacks (map_add f b (ht_callbacks s)) s) ;;!
      eret b
  end.

(** A volume that can be written to has a callback for each vnode, any other
    one for all of it. *)
Definition callback_fid (f : AFSFid) (voltype : Z) : AFSFid :=
  if voltype =? RWVOL then f else Build_AFSFid (Volume f) 0 0.

Definition ropa_getcallback (host pt : Z) (f : AFSFid) (voltype : Z) : RM AFSCallBack :=
  c <-- client_query host pt ;;
  match c with
  | None => eret (update_callback_time DEFAULT_TIMEOUT CBSHARED)
  | Some c =>
      b <-- obtain_callback (callback_fid f voltype) ;;
      p <-- add_client b c ;;
      callback_deref b ;;!
      update_callback p CBSHARED
  end.

(** ** The calls that break promises *)

Definition break_fid (f : AFSFid) (c : option Z) (break_own : bool) : RM Z :=
  s <-- eget ;;
  match ht_callbacks s !! f with
  | None => eret (-1)
  | Some b => break_callback b c break_own ;;! eret 0
  end.
Definition ropa_break_callback (host pt : Z) (f : AFSFid) (break_own : bool) : RM unit :=
  c <-- client_query_notalkback host pt ;;
  match c with
  | None => eret tt
  | Some c => break_fid f (Some c) break_own ;;! eret tt
  end.
Definition ropa_break_volume_callback (volume : Z) : RM unit :=
  break_fid (Build_AFSFid (uwrap32 volume) 0 0) None false ;;! eret tt.

Fixpoint drop_loop (c : Z) (l : list AFSFid) : RM unit :=
  match l with
  | [] => eret tt
  | f :: l =>
      s <-- eget ;;
      match ht_callbacks s !! f with
      | Some b =>
          match ht_ccpairs s !! (b, c) with
          | Some p => break_ccpair p false
          | None => eret tt
          end
      | None => eret tt
      end ;;! drop_loop c l
  end.
Definition ropa_drop_callbacks (host pt : Z) (fids : list AFSFid) : RM Z :=
  if AFSCBMAX <? Z.of_nat (length fids) then eret EINVAL else
  c <-- client_query host pt ;;
  match c with
  | None => eret 0
  | Some c => drop_loop c fids ;;! eret 0
  end.

Definition ropa_break_client (host pt : Z) : RM unit :=
  c <-- client_query host pt ;;
  match c with None => eret tt | Some c => break_client c true end.

(** ** Expiry *)

(** What [heap_head] promises: an element with a least key. *)
Class ExpiryHeap := heap_head : (Z -> Z) -> gset Z -> option Z.
Class ExpiryHeapOk `{ExpiryHeap} : Prop := {
  heap_head_empty key h : heap_head key h = None <-> h = ∅;
  heap_head_least key h p : heap_head key h = Some p -> p ∈ h /\ forall q, q ∈ h -> key p <= key q
}.

Definition expire_of (s : ropa) (p : Z) : Z := from_option expire 0 (pairs s !! p).

(** The inner loop of [heapcleaner] until it waits: for a pair to be added, or
    for the time of the next one. *)
Fixpoint heapcleaner `{ExpiryHeap} (fuel : nat) : RM unit :=
  match fuel with
  | O => eabort
  | S fuel =>
      s <-- eget ;;
      match heap_head (expire_of s) (heap_ccpairs s) with
      | None => eret tt
      | Some p => if now s <? expire_of s p then eret tt else break_ccpair p true ;;! heapcleaner fuel
      end
  end.

(** ** Start *)

(** The items are numbered as they are added. *)
Definition created (first : Z) (n : nat) : list (Z * Z) :=
  map (fun i => (first + i, i)) (seqZ 1 (Z.of_nat n)).
Definition new_client (i : Z) : ropa_client :=
  Client ROPAC_FREE 0 0 (replicate 6 0) (replicate AFS_MAX_INTERFACE_ADDR no_addr) 0 NoConn [] 0 (Some i).

(** [ropa_init]: the memory for the structures is there; the size of the table
    of addresses is not 0. *)
Definition ropa_init (num_cb num_cli num_cc : nat) (hashsz_cli : Z) : ropa :=
  let n1 := Z.of_nat num_cli in
  let n2 := n1 + Z.of_nat num_cb in
  let n3 := n2 + Z.of_nat num_cc in
  Ropa (list_to_map (map (fun i => (i, new_client i)) (seqZ 1 (Z.of_nat num_cli))))
    (list_to_map (map (fun i => (i, Ccpair None None None 0 (Some (n2 + i)))) (seqZ 1 (Z.of_nat num_cc))))
    (list_to_map (map (fun i => (i, Cb (Build_AFSFid 0 0 0) [] 0 (Some (n1 + i)))) (seqZ 1 (Z.of_nat num_cb))))
    {| flags := 0; sz := hashsz_cli; maxbucketlen := HASHTAB_MAX_BUCKET_LEN;
       tab := replicate (Z.to_nat hashsz_cli) {| e := []; len := 0 |} |}
    ∅ ∅ ∅
    (fun w => match w with
              | Lclients => created 0 num_cli | Lcallback => created n1 num_cb
              | Lccpair => created n2 num_cc end)
    ∅ (n3 + 1) 0 [] [].
