(* ===== verification/RopaIp.v ===== *)
(** * Callbacks: the table of addresses

    While each client has one address the comparison of the table is the
    equality of an address and a port, and the table is a map from these to
    clients. *)

From S2P Require Import Prelude Estate Hash HashCorrect Fdir Ropa.

Local Open Scope em_scope.

(** ** Keys *)

Definition ip_key (cs : gmap Z ropa_client) (x : ipent) : Z * Z :=
  match x with
  | Key h p => (h, p)
  | Stored c i => (addr_in (ent_addr cs c i), from_option port 0 (cs !! c))
  end.
Definition ideal_cmp (cs : gmap Z ropa_client) (x y : ipent) : Z :=
  if decide (ip_key cs x = ip_key cs y) then 0 else 1.

(** One address, which is in use. *)
Definition one_addr (x : ropa_client) : Prop :=
  numberOfInterfaces x = 1 /\ exists a l, addr x = a :: l /\ addr_c a = true.
Definition good (cs : gmap Z ropa_client) (x : ipent) : Prop :=
  match x with
  | Key _ _ => True
  | Stored c i => i = 0%nat /\ exists y, cs !! c = Some y /\ one_addr y
  end.

Section Keys.
Context (cs : gmap Z ropa_client).

Lemma hash_key x : clients_hash_ip cs x = uwrap32 (fst (ip_key cs x) + snd (ip_key cs x)).
Proof. by destruct x. Qed.
Lemma hash_key_eq x y : ip_key cs x = ip_key cs y -> clients_hash_ip cs x = clients_hash_ip cs y.
Proof. rewrite !hash_key. by intros ->. Qed.
Lemma ideal_cmp_key x y : ideal_cmp cs x y = 0 <-> ip_key cs x = ip_key cs y.
Proof. unfold ideal_cmp. by case_decide. Qed.

Lemma good_addrs x : good cs x -> ent_addrs cs x = ([fst (ip_key cs x)], snd (ip_key cs x)).
Proof.
  destruct x as [c i|h p]; [|done]. intros (-> & y & Hy & Hn & a & l & Ha & _).
  unfold ent_addrs, ip_key, ent_addr. rewrite Hy. cbn. by rewrite Hn, Ha.
Qed.
Lemma good_live x : good cs x -> ent_live cs x = true.
Proof.
  destruct x as [c i|h p]; [|done]. intros (-> & y & Hy & _ & a & l & Ha & Hc).
  unfold ent_live, ent_addr. rewrite Hy. cbn. by rewrite Ha.
Qed.

Lemma cmp_good x y : good cs x -> good cs y -> clients_cmp_ip cs x y = ideal_cmp cs x y.
Proof.
  intros Hx Hy. unfold clients_cmp_ip, ideal_cmp. rewrite (good_addrs x Hx), (good_addrs y Hy).
  cbn [existsb]. rewrite !orb_false_r. destruct (ip_key cs x) as [a p], (ip_key cs y) as [b q].
  cbn [fst snd]. destruct (Z.eqb_spec a b), (Z.eqb_spec p q); case_decide; simplify_eq; done.
Qed.

Lemma chain_good k l : good cs k -> Forall (good cs) l ->
  chain_search (clients_cmp_ip cs) k l = chain_search (ideal_cmp cs) k l /\
  delete_entry (clients_cmp_ip cs) k l = delete_entry (ideal_cmp cs) k l /\
  chain_live cs k l = true.
Proof.
  intros Hk Hl. induction Hl as [|x l Hx Hl (IH1 & IH2 & IH3)]; [done|].
  cbn [chain_search delete_entry chain_live]. rewrite cmp_good by done.
  rewrite IH1, IH2, IH3, good_live by done. by rewrite orb_true_r.
Qed.
End Keys.

(** ** The map *)

Definition N : Z := 2^31.
Definition ip_rep (cs : gmap Z ropa_client) (t : Hashtab ipent) (m : gmap (Z * Z) ipent) : Prop :=
  rep (ip_key cs) (clients_hash_ip cs) N t m /\ Hash.flags t = 0 /\
  forall k x, m !! k = Some x -> good cs x.

Lemma ip_rep_agree cs cs' t m :
  ip_rep cs t m -> (forall k x, m !! k = Some x -> good cs' x /\ ip_key cs' x = ip_key cs x) ->
  ip_rep cs' t m.
Proof.
  intros ([(Hsz & Hlen & Hb) Hm] & Hf & _) Ha.
  assert (Hin : forall x, x ∈ elems (tab t) -> ip_key cs' x = ip_key cs x).
  { intros x Hx. destruct (proj2 (Hm (ip_key cs x) x)) as []; [done|]. by apply (Ha (ip_key cs x)), Hm. }
  assert (Hbin : forall i b x, tab t !! i = Some b -> x ∈ e b -> x ∈ elems (tab t)).
  { intros i b x Hl Hx. unfold elems. apply list_elem_of_bind. exists b. split; [done|].
    by eapply list_elem_of_lookup_2. }
  split; [|split; [done|intros k x Hk; by apply (Ha k)]].
  split; [split; [done|split; [done|]]|].
  - intros i b Hl. destruct (Hb i b Hl) as (H1 & H2 & H3). split; [done|split].
    + erewrite list_fmap_ext; [exact H2|]. intros j x Hx%list_elem_of_lookup_2. eauto.
    + apply Forall_forall. intros x Hx. rewrite Forall_forall in H3. rewrite <- (H3 x Hx).
      unfold slot. rewrite !hash_key, Hin; [done|]. eauto.
  - intros k x. rewrite Hm. split; intros [Hx Hk]; (split; [done|]); rewrite <- Hk;
      [|symmetry]; auto.
Qed.

Section Ops.
Context (s : ropa) (m : gmap (Z * Z) ipent) (k : ipent).
Context (Hrep : ip_rep (clients s) (ht_clients_ip s) m) (Hk : good (clients s) k).
#[local] Abbreviation cs := (clients s).
#[local] Abbreviation t := (ht_clients_ip s).

Lemma ip_bucket : exists b, tab t !! Z.to_nat (slot (clients_hash_ip cs) t k) = Some b /\
  Forall (good cs) (e b) /\ bucket_ok (ip_key cs) (clients_hash_ip cs) t (Z.to_nat (slot (clients_hash_ip cs) t k)) b.
Proof.
  pose proof Hrep as (Hr & _ & Hg).
  destruct (rep_bucket (ip_key cs) (ideal_cmp cs) (clients_hash_ip cs) N (ideal_cmp_key cs)
    (hash_key_eq cs) t m k Hr) as (b & Hl & Hb & _).
  exists b. split; [done|]. split; [|done]. apply Forall_forall. intros x Hx.
  apply (Hg (ip_key cs x)). apply Hr. split; [|done]. unfold elems. apply list_elem_of_bind.
  exists b. split; [done|]. by eapply list_elem_of_lookup_2.
Qed.

Lemma ip_check_run : ip_check k s = Some (s, inr tt).
Proof.
  destruct ip_bucket as (b & Hl & Hb & _). unfold ip_check. rewrite ebind_get. cbv zeta.
  rewrite Hl. cbn [eopt]. rewrite ebind_ret.
  destruct (chain_good cs k (e b) Hk Hb) as (_ & _ & ->). by rewrite good_live.
Qed.

Lemma ip_search_eq : _search (clients_cmp_ip cs) (clients_hash_ip cs) t k = Some (m !! ip_key cs k).
Proof.
  destruct ip_bucket as (b & Hl & Hb & _).
  rewrite <- (search_lookup (ip_key cs) (ideal_cmp cs) (clients_hash_ip cs) N (ideal_cmp_key cs)
    (hash_key_eq cs) t m k (proj1 Hrep)).
  unfold _search. rewrite Hl. cbn [mbind option_bind].
  by destruct (chain_good cs k (e b) Hk Hb) as (-> & _).
Qed.

Lemma ip_search_run : ip_search k s = Some (s, inr (m !! ip_key cs k)).
Proof.
  unfold ip_search. rewrite (ebind_ok _ _ _ _ _ ip_check_run), ebind_get. unfold hashtabsearch.
  by rewrite ip_search_eq.
Qed.

Lemma ip_del_run : exists t', ip_del k s =
    Some (set_ht_ip t' s, inr (match m !! ip_key cs k with Some _ => 0 | None => -1 end)) /\
  ip_rep cs t' (delete (ip_key cs k) m).
Proof.
  destruct ip_bucket as (b & Hl & Hb & _).
  destruct (del_delete (ip_key cs) (ideal_cmp cs) (clients_hash_ip cs) N (ideal_cmp_key cs)
    (hash_key_eq cs) t m k (proj1 Hrep)) as (t' & Hd & Hr').
  assert (Hd' : _hashtabdel (clients_cmp_ip cs) (clients_hash_ip cs) t k =
    _hashtabdel (ideal_cmp cs) (clients_hash_ip cs) t k).
  { unfold _hashtabdel, _search. rewrite Hl. cbn [mbind option_bind].
    by destruct (chain_good cs k (e b) Hk Hb) as (-> & -> & _). }
  exists t'. unfold ip_del. rewrite (ebind_ok _ _ _ _ _ ip_check_run), ebind_get, Hd', Hd.
  cbn [eopt]. rewrite ebind_ret, ebind_mod. cbn [fst snd]. split; [done|].
  split; [done|]. split.
  - destruct Hrep as (_ & Hf & _). unfold _hashtabdel, _search in Hd. rewrite Hl in Hd.
    cbn [mbind option_bind] in Hd. by destruct (chain_search _ _ _); simplify_eq/=.
  - intros k' x [_ Hx]%lookup_delete_Some. by eapply Hrep.
Qed.

Lemma ip_add_run : m !! ip_key cs k = None -> exists t', ip_add k s = Some (set_ht_ip t' s, inr tt) /\
  ip_rep cs t' (<[ip_key cs k := k]> m).
Proof.
  intros Hm. destruct ip_bucket as (b & Hl & Hb & Hlen & Hnd & Hf).
  pose proof ip_search_eq as Hs. rewrite Hm in Hs. pose proof Hrep as (Hr & Hfl & Hg).
  set (t' := set_chain t (slot (clients_hash_ip cs) t k) {| e := k :: e b; len := len b + 1 |}).
  exists t'. unfold ip_add. rewrite (ebind_ok _ _ _ _ _ ip_check_run), ebind_get.
  assert (Ha : hashtabadd (clients_cmp_ip cs) (clients_hash_ip cs) (fun _ => None) (fun _ => true)
    (fun _ => true) 1 t k = Some (true, t')).
  { unfold hashtabadd. cbn [_add]. rewrite Hs, Hl. cbn [mbind option_bind negb].
    replace (grows (Hash.flags (set_chain t _ _))) with false; [done|]. by cbn; rewrite Hfl. }
  rewrite Ha. cbn [eopt]. rewrite ebind_ret. split; [done|]. split; [|split; [done|]].
  - apply (rep_store (ip_key cs) (clients_hash_ip cs) N (hash_key_eq cs) t m k b); [done|done| | |].
    + cbn [length]. lia.
    + cbn. apply NoDup_cons. split; [|done]. intros (x & Hkx & Hx)%list_elem_of_fmap.
      assert (Hx' : m !! ip_key cs k = Some x); [|congruence].
      apply Hr. split; [|done]. unfold elems. apply list_elem_of_bind. exists b. split; [done|].
      by eapply list_elem_of_lookup_2.
    + intros x. rewrite elem_of_cons. split; [intros [->|Hx]; [by left|right]|tauto].
      split; [done|]. intros Hkx.
      assert (Hx' : m !! ip_key cs k = Some x); [|congruence].
      apply Hr. split; [|done]. unfold elems. apply list_elem_of_bind. exists b. split; [done|].
      by eapply list_elem_of_lookup_2.
  - intros k' x [[_ <-]|[_ Hx]]%lookup_insert_Some; [done|by eapply Hg].
Qed.
End Ops.

(** ** The other tables *)

Definition fid32 (f : AFSFid) : Prop :=
  0 <= Volume f < 2^32 /\ 0 <= Fdir.Vnode f < 2^32 /\ 0 <= Unique f < 2^32.

Lemma uwrap32_zero a b : 0 <= a < 2^32 -> 0 <= b < 2^32 -> uwrap32 (a - b) = 0 <-> a = b.
Proof. intros Ha Hb. unfold uwrap32. split; [|intros ->; by rewrite Z.sub_diag].
  intros [k Hk]%Z.mod_divide; [|done]. change (2^32) with 4294967296 in *. lia.
Qed.

(** Entries compare equal exactly when their keys are equal, and then have one
    hash: what makes the tables finite maps. *)
Lemma uuid_table x y : (clients_cmp_uuid x y = 0 <-> uuid x = uuid y) /\
  (uuid x = uuid y -> clients_hash_uuid x = clients_hash_uuid y).
Proof.
  split; [unfold clients_cmp_uuid, uuid_magic_eq; by case_decide|]. unfold clients_hash_uuid. by intros ->.
Qed.
Lemma callbacks_table f g : fid32 f -> fid32 g -> (callbacks_cmp f g = 0 <-> f = g).
Proof.
  intros (F1 & F2 & F3) (G1 & G2 & G3). unfold callbacks_cmp. split; [|intros ->; by rewrite !Z.sub_diag].
  destruct (Z.eqb_spec (uwrap32 (Volume f - Volume g)) 0) as [E1|]; [|done].
  destruct (Z.eqb_spec (uwrap32 (Fdir.Vnode f - Fdir.Vnode g)) 0) as [E2|]; [|done].
  destruct (Z.eqb_spec (uwrap32 (Unique f - Unique g)) 0) as [E3|]; [|done]. intros _.
  apply (uwrap32_zero _ _ F1 G1) in E1. apply (uwrap32_zero _ _ F2 G2) in E2. apply (uwrap32_zero _ _ F3 G3) in E3.
  destruct f, g. cbn in *. congruence.
Qed.
Lemma ccpairs_table k k' : ccpairs_cmp k k' = 0 <-> k = k'.
Proof.
  destruct k as [b c], k' as [b' c']. unfold ccpairs_cmp. cbn [fst snd].
  split; [|intros [= -> ->]; by rewrite !Z.sub_diag].
  destruct (Z.eqb_spec (b - b') 0) as [E1|]; [|done]. destruct (Z.eqb_spec (c - c') 0) as [E2|]; [|done].
  intros _. f_equal; lia.
Qed.
