(* ===== verification/RopaInv.v ===== *)
(** * Callbacks: the state in order

    What holds between the calls of the module, in three parts that share no
    structure: the clients with their two tables, the callbacks with theirs, and
    the pairs that connect them.  The counters of clients and callbacks are
    those of the pairs and of the running procedure. *)

From S2P Require Import Prelude Items Estate Hash HashCorrect Fdir Ropa RopaIp.

Local Open Scope em_scope.

(** ** The parts of the state *)

Record same_clients (s s' : ropa) : Prop := {
  sc_clients : clients s' = clients s;
  sc_ip : ht_clients_ip s' = ht_clients_ip s;
  sc_uuid : ht_clients_uuid s' = ht_clients_uuid s;
  sc_lru : lrus s' Lclients = lrus s Lclients
}.
Record same_cbs (s s' : ropa) : Prop := {
  sb_cbs : cbs s' = cbs s;
  sb_tab : ht_callbacks s' = ht_callbacks s;
  sb_lru : lrus s' Lcallback = lrus s Lcallback
}.
Record same_pairs (s s' : ropa) : Prop := {
  sp_pairs : pairs s' = pairs s;
  sp_tab : ht_ccpairs s' = ht_ccpairs s;
  sp_heap : heap_ccpairs s' = heap_ccpairs s;
  sp_lru : lrus s' Lccpair = lrus s Lccpair
}.
(** Nothing was sent. *)
Record same_net (s s' : ropa) : Prop := {
  sn_now : now s' = now s;
  sn_replies : replies s' = replies s;
  sn_sent : sent s' = sent s;
  sn_next : nextli s <= nextli s'
}.

Lemma same_clients_trans s1 s2 s3 : same_clients s1 s2 -> same_clients s2 s3 -> same_clients s1 s3.
Proof. intros [] []. split; congruence. Qed.
Lemma same_cbs_trans s1 s2 s3 : same_cbs s1 s2 -> same_cbs s2 s3 -> same_cbs s1 s3.
Proof. intros [] []. split; congruence. Qed.
Lemma same_pairs_trans s1 s2 s3 : same_pairs s1 s2 -> same_pairs s2 s3 -> same_pairs s1 s3.
Proof. intros [] []. split; congruence. Qed.
Lemma same_net_trans s1 s2 s3 : same_net s1 s2 -> same_net s2 s3 -> same_net s1 s3.
Proof. intros [] []. split; try congruence. lia. Qed.
Create HintDb ropa.
#[export] Hint Resolve same_clients_trans same_cbs_trans same_pairs_trans same_net_trans : ropa.

(** ** Clients *)

Definition registered (s : ropa) (c : Z) (x : ropa_client) : Prop :=
  state x <> ROPAC_FREE /\ one_addr x /\ ht_clients_uuid s !! uuid x = Some c.
Definition unused (x : ropa_client) : Prop := state x = ROPAC_FREE /\ numberOfInterfaces x = 0.
Definition in_ip (s : ropa) (k : Z * Z) (x : ipent) : Prop :=
  exists c y, x = Stored c 0 /\ clients s !! c = Some y /\ state y <> ROPAC_FREE /\ one_addr y /\
    ip_key (clients s) x = k.

(** [rc] has the counters; [loose] is a client that is not on the list. *)
Record client_inv (s : ropa) (rc : Z -> Z) (loose : option Z) : Prop := {
  ci_items : items_ok (nextli s) (lrus s Lclients);
  ci_cli c x : clients s !! c = Some x ->
    match cli x with Some i => (i, c) ∈ lrus s Lclients | None => loose = Some c end;
  ci_item i c : (i, c) ∈ lrus s Lclients -> exists x, clients s !! c = Some x /\ cli x = Some i;
  ci_ref c x : clients s !! c = Some x -> cref x = rc c /\ 0 <= rc c;
  ci_kind c x : clients s !! c = Some x ->
    callbacks x = [] /\ cflags x = 0 /\ length (addr x) = AFS_MAX_INTERFACE_ADDR /\
    (registered s c x \/ unused x /\ rc c = 0);
  ci_uuid u c : ht_clients_uuid s !! u = Some c ->
    exists x, clients s !! c = Some x /\ uuid x = u /\ registered s c x;
  ci_ip : exists m, ip_rep (clients s) (ht_clients_ip s) m /\ forall k x, m !! k = Some x <-> in_ip s k x
}.

Lemma client_inv_same s s' rc l : same_clients s s' -> nextli s <= nextli s' ->
  client_inv s rc l -> client_inv s' rc l.
Proof.
  intros [E1 E2 E3 E4] Hn [H1 H2 H3 H4 H5 H6 H7].
  split; unfold in_ip, registered in *; rewrite ?E1, ?E2, ?E3, ?E4; try done.
  by eapply items_mono.
Qed.
Lemma client_inv_ext s rc rc' l : (forall c, rc c = rc' c) -> client_inv s rc l -> client_inv s rc' l.
Proof.
  intros E [H1 H2 H3 H4 H5 H6 H7]. split; try done; intros c x Hc; rewrite <- E; auto.
Qed.

Definition bump (c d : Z) (r : Z -> Z) : Z -> Z := fun x => if x =? c then r x + d else r x.

(** What a change of the counter, the list item, the connection of a client
    keeps. *)
Definition kept_client (x x' : ropa_client) : Prop :=
  state x' = state x /\ cflags x' = cflags x /\ numberOfInterfaces x' = numberOfInterfaces x /\
  uuid x' = uuid x /\ addr x' = addr x /\ port x' = port x /\ callbacks x' = callbacks x.

Lemma kept_key cs c x x' : cs !! c = Some x -> kept_client x x' ->
  forall e, ip_key (<[c := x']> cs) e = ip_key cs e /\ (good (<[c := x']> cs) e <-> good cs e).
Proof.
  intros Hc (_ & _ & E3 & _ & E5 & E6 & _) [c' i|h p]; [|done].
  unfold ip_key, good, ent_addr, one_addr. destruct (decide (c' = c)) as [->|].
  - rewrite lookup_insert_eq, Hc. cbn. rewrite E5, E6. split; [done|].
    split; intros (-> & y & [= <-] & Hy); (split; [done|]); eexists; (split; [reflexivity|]);
      by rewrite ?E3, ?E5 in *.
  - by rewrite lookup_insert_ne.
Qed.

(** A change of one client that keeps its identity. *)
Lemma client_inv_update s s' rc rc' l l' c x x' :
  client_inv s rc l -> clients s !! c = Some x -> clients s' = <[c := x']> (clients s) ->
  kept_client x x' -> ht_clients_ip s' = ht_clients_ip s -> ht_clients_uuid s' = ht_clients_uuid s ->
  items_ok (nextli s') (lrus s' Lclients) ->
  match cli x' with Some i => (i, c) ∈ lrus s' Lclients | None => l' = Some c end ->
  (forall i c', c' <> c -> (i, c') ∈ lrus s' Lclients <-> (i, c') ∈ lrus s Lclients) ->
  (forall i, (i, c) ∈ lrus s' Lclients -> cli x' = Some i) ->
  (forall c', c' <> c -> l' = Some c' <-> l = Some c') ->
  cref x' = rc' c -> 0 <= rc' c -> (forall c', c' <> c -> rc' c' = rc c') ->
  (rc' c = 0 \/ registered s c x) -> client_inv s' rc' l'.
Proof.
  intros [H1 H2 H3 H4 H5 H6 H7] Hc Hcs Hk Hip Huu Hit Hcli Hoth Hown Hl Href Hr0 Hrc Hreg.
  pose proof Hk as (K1 & K2 & K3 & K4 & K5 & K6 & K7).
  assert (Hone : one_addr x' <-> one_addr x) by (unfold one_addr; by rewrite K3, K5).
  assert (Hregx : registered s' c x' <-> registered s c x).
  { unfold registered. by rewrite Huu, K1, K4, Hone. }
  assert (Hlk : forall c', c' <> c -> clients s' !! c' = clients s !! c')
    by (intros c' Hne; by rewrite Hcs, lookup_insert_ne).
  assert (Hlc : clients s' !! c = Some x') by (rewrite Hcs; apply lookup_insert_eq).
  split; [done|..].
  - intros c' y Hy. destruct (decide (c' = c)) as [->|Hne].
    + rewrite Hlc in Hy. injection Hy as <-. done.
    + rewrite Hlk in Hy by done. specialize (H2 c' y Hy). destruct (cli y); [by apply Hoth|by apply Hl].
  - intros i c' Hi. destruct (decide (c' = c)) as [->|Hne].
    + exists x'. split; [done|]. by apply Hown.
    + rewrite Hlk by done. apply H3. by apply Hoth.
  - intros c' y Hy. destruct (decide (c' = c)) as [->|Hne].
    + rewrite Hlc in Hy. injection Hy as <-. done.
    + rewrite Hlk in Hy by done. rewrite Hrc by done. by apply H4.
  - intros c' y Hy. destruct (decide (c' = c)) as [->|Hne].
    + rewrite Hlc in Hy. injection Hy as <-. destruct (H5 c x Hc) as (A1 & A2 & A3 & A4).
      split_and!; [congruence..|]. rewrite Hregx. unfold unused. rewrite K1, K3.
      destruct A4 as [?|[? ?]]; [by left|]. destruct Hreg as [?|?]; [by right|by left].
    + rewrite Hlk in Hy by done. rewrite Hrc by done. unfold registered in *. rewrite Huu. by apply H5.
  - intros u c' Hu. rewrite Huu in Hu. destruct (H6 u c' Hu) as (y & Hy & Hyu & Hyr).
    destruct (decide (c' = c)) as [->|Hne].
    + rewrite Hc in Hy. injection Hy as <-. exists x'. split; [done|]. split; [congruence|]. by apply Hregx.
    + exists y. rewrite Hlk by done. split_and!; try done. unfold registered in *. by rewrite Huu.
  - destruct H7 as (m & Hm & Hin). exists m. rewrite Hip. split.
    + apply (ip_rep_agree (clients s)); [done|]. intros k e He. rewrite Hcs.
      destruct (kept_key (clients s) c x x' Hc Hk e) as (-> & Hg). split; [|done]. apply Hg.
      by eapply Hm.
    + intros k e. rewrite Hin. unfold in_ip. rewrite Hcs.
      destruct (kept_key (clients s) c x x' Hc Hk e) as (-> & _).
      split; intros (c' & y & -> & Hy & Hs & Ho & Hkk); exists c'.
      * destruct (decide (c' = c)) as [->|Hne].
        -- rewrite Hc in Hy. injection Hy as <-. exists x'. rewrite lookup_insert_eq, Hone, K1. done.
        -- exists y. by rewrite lookup_insert_ne.
      * destruct (decide (c' = c)) as [->|Hne].
        -- rewrite lookup_insert_eq in Hy. injection Hy as <-. exists x. by rewrite <- Hone, <- K1.
        -- exists y. by rewrite lookup_insert_ne in Hy.
Qed.

(** ** Runs *)

Section Runs.
Context (s : ropa).

Lemma the_client_run c x : clients s !! c = Some x -> the_client c s = Some (s, inr x).
Proof. intros H. unfold the_client. rewrite ebind_get, H. done. Qed.
Lemma the_pair_run p x : pairs s !! p = Some x -> the_pair p s = Some (s, inr x).
Proof. intros H. unfold the_pair. rewrite ebind_get, H. done. Qed.
Lemma the_cb_run b x : cbs s !! b = Some x -> the_cb b s = Some (s, inr x).
Proof. intros H. unfold the_cb. rewrite ebind_get, H. done. Qed.
Lemma upd_client_run c x f : clients s !! c = Some x ->
  upd_client c f s = Some (set_clients (<[c := f x]> (clients s)) s, inr tt).
Proof. intros H. unfold upd_client. by rewrite (ebind_ok _ _ _ _ _ (the_client_run c x H)). Qed.
Lemma upd_pair_run p x f : pairs s !! p = Some x ->
  upd_pair p f s = Some (set_pairs (<[p := f x]> (pairs s)) s, inr tt).
Proof. intros H. unfold upd_pair. by rewrite (ebind_ok _ _ _ _ _ (the_pair_run p x H)). Qed.
Lemma upd_cb_run b x f : cbs s !! b = Some x ->
  upd_cb b f s = Some (set_cbs (<[b := f x]> (cbs s)) s, inr tt).
Proof. intros H. unfold upd_cb. by rewrite (ebind_ok _ _ _ _ _ (the_cb_run b x H)). Qed.

Lemma ropa_lidel_run w i l : item_del i (lrus s w) = Some l -> lru_del w i s = Some (set_lru w l s, inr tt).
Proof. intros H. unfold lru_del. rewrite ebind_get, H. done. Qed.
Lemma ropa_addhead_run w p :
  lru_addhead w p s =
    Some (set_lru w ((nextli s, p) :: lrus s w) (set_nextli (nextli s + 1) s), inr (nextli s)).
Proof. done. Qed.
Lemma ropa_addtail_run w p :
  lru_addtail w p s =
    Some (set_lru w (lrus s w ++ [(nextli s, p)]) (set_nextli (nextli s + 1) s), inr (nextli s)).
Proof. done. Qed.
End Runs.

(** ** Operations on clients *)

(** Only the client [c] changes, and lists and tables of clients. *)
Record client_step (s s' : ropa) (c : Z) (x' : ropa_client) : Prop := {
  cs_cbs : same_cbs s s';
  cs_pairs : same_pairs s s';
  cs_map : clients s' = <[c := x']> (clients s)
}.

Section Clients.
Context (s : ropa) (rc : Z -> Z) (l : option Z) (c : Z) (x : ropa_client).
Context (Hi : client_inv s rc l) (Hc : clients s !! c = Some x).

Lemma client_ref_run i : cli x = Some i -> registered s c x ->
  exists s' x', client_ref c s = Some (s', inr tt) /\ client_inv s' (bump c 1 rc) l /\
    client_step s s' c x' /\ same_net s s' /\ kept_client x x' /\ conn x' = conn x.
Proof.
  intros Hcli Hreg. destruct (ci_ref _ _ _ Hi c x Hc) as [Href Hr0].
  pose proof (ci_cli _ _ _ Hi c x Hc) as Hin. rewrite Hcli in Hin.
  destruct (items_del _ _ _ _ (ci_items _ _ _ Hi) Hin) as (l1 & l2 & Hl & Hd & Hok & Hx).
  unfold client_ref. lrun (the_client_run s c x Hc).
  rewrite (proj2 (Z.leb_le 0 (cref x))) by lia. cbn [eassert]. rewrite ebind_ret, Hcli.
  cbn [lru_unlink]. lrun (ropa_lidel_run s Lclients i _ Hd).
  set (s1 := set_lru Lclients (l1 ++ l2) s).
  lrun (upd_client_run s1 c x (set_cref (cref x + 1)) Hc).
  set (s2 := set_clients _ s1). lrun (ropa_addhead_run s2 Lclients c).
  set (s3 := set_lru Lclients _ _).
  assert (Hc3 : clients s3 !! c = Some (set_cref (cref x + 1) x)) by apply lookup_insert_eq.
  rewrite (upd_client_run s3 c _ (set_cli (Some (nextli s2))) Hc3).
  set (x' := set_cli (Some (nextli s2)) (set_cref (cref x + 1) x)).
  eexists _, x'. split; [reflexivity|].
  assert (Hcs : <[c:=x']> (clients s3) = <[c:=x']> (clients s)) by apply insert_insert_eq.
  assert (Hstep : client_step s (set_clients (<[c := x']> (clients s3)) s3) c x') by (split; done).
  assert (Hnet : same_net s (set_clients (<[c := x']> (clients s3)) s3)) by (split; try done; cbn; lia).
  split; [|by split_and!].
  apply (client_inv_update s _ rc _ l l c x x' Hi Hc); try done.
  - cbn. by apply items_head.
  - cbn. left.
  - intros j c' Hne. cbn. rewrite elem_of_cons, Hx, Hl. split.
    + intros [[= -> ->]|[? _]]; done.
    + intros Hj. right. split; [done|]. cbn. intros ->. rewrite <- Hl in Hj.
      by rewrite (items_unique _ _ _ _ _ (ci_items _ _ _ Hi) Hj Hin) in Hne.
  - intros j. cbn. rewrite elem_of_cons, Hx. intros [[= ->]|[Hj Hne]]; [done|].
    destruct (ci_item _ _ _ Hi j c Hj) as (y & Hy & Hyj). by simplify_eq/=.
  - unfold bump. rewrite Z.eqb_refl. cbn. lia.
  - unfold bump. rewrite Z.eqb_refl. lia.
  - intros c' Hne. unfold bump. by rewrite (proj2 (Z.eqb_neq c' c)).
  - by right.
Qed.

Lemma in_use_registered : rc c <> 0 -> registered s c x.
Proof. intros Hr. destruct (ci_kind _ _ _ Hi c x Hc) as (_ & _ & _ & [?|[_ ?]]); done. Qed.

(** What the table of addresses has for a registered client. *)
Lemma registered_ip (m : gmap (Z * Z) ipent) : registered s c x ->
  (forall k e, m !! k = Some e <-> in_ip s k e) ->
  good (clients s) (Stored c 0) /\ m !! ip_key (clients s) (Stored c 0) = Some (Stored c 0).
Proof.
  intros (Hs & Ho & Hu) Hm. split; [split; [done|]; by exists x|].
  apply Hm. exists c, x. done.
Qed.

(** The client without its address, as [disconnect_client] leaves it. *)
Definition cleared (i : Z) (y : ropa_client) : ropa_client :=
  set_cli (Some i) (set_state ROPAC_FREE (set_port 0 (set_addrs 0 (<[0%nat := no_addr]> (addr y)) y))).
End Clients.

(** A registered client leaves both tables. *)
Lemma client_inv_clear s s' rc l c x i t m :
  client_inv s rc l -> clients s !! c = Some x -> registered s c x -> rc c = 0 ->
  (forall k e, m !! k = Some e <-> in_ip s k e) ->
  clients s' = <[c := cleared i x]> (clients s) -> ht_clients_ip s' = t ->
  ip_rep (clients s) t (delete (ip_key (clients s) (Stored c 0)) m) ->
  ht_clients_uuid s' = delete (uuid x) (ht_clients_uuid s) ->
  items_ok (nextli s') (lrus s' Lclients) ->
  (forall j c', (j, c') ∈ lrus s' Lclients <-> (c' <> c /\ (j, c') ∈ lrus s Lclients) \/ (j = i /\ c' = c)) ->
  client_inv s' rc l.
Proof.
  intros [H1 H2 H3 H4 H5 H6 H7] Hc Hreg Hrc Hm Hcs Ht Hrep Huu Hit Hin.
  assert (Hlk : forall c', c' <> c -> clients s' !! c' = clients s !! c')
    by (intros c' Hne; by rewrite Hcs, lookup_insert_ne).
  assert (Hlc : clients s' !! c = Some (cleared i x)) by (rewrite Hcs; apply lookup_insert_eq).
  assert (Hkey : forall e, (forall j, e <> Stored c j) -> ip_key (clients s') e = ip_key (clients s) e /\
    (good (clients s) e -> good (clients s') e)).
  { intros [c' j|h p] He; [|done]. assert (c' <> c) by (intros ->; by destruct (He j)).
    unfold ip_key, good, ent_addr. by rewrite !Hlk. }
  assert (Hregs : forall c' y, c' <> c -> registered s c' y -> registered s' c' y).
  { intros c' y Hne (A & B & Hu). split_and!; [done..|]. rewrite Huu, lookup_delete_ne; [done|].
    intros E. destruct Hreg as (_ & _ & Hu'). rewrite E in Hu'. congruence. }
  split; [done|..].
  - intros c' y Hy. destruct (decide (c' = c)) as [->|Hne].
    + rewrite Hlc in Hy. injection Hy as <-. cbn. apply Hin. by right.
    + rewrite Hlk in Hy by done. specialize (H2 c' y Hy). destruct (cli y); [|done]. apply Hin. by left.
  - intros j c' Hj. apply Hin in Hj as [[Hne Hj]|[-> ->]].
    + rewrite Hlk by done. by apply H3.
    + by exists (cleared i x).
  - intros c' y Hy. destruct (decide (c' = c)) as [->|Hne].
    + rewrite Hlc in Hy. injection Hy as <-. cbn. by apply H4.
    + rewrite Hlk in Hy by done. by apply H4.
  - intros c' y Hy. destruct (decide (c' = c)) as [->|Hne].
    + rewrite Hlc in Hy. injection Hy as <-. destruct (H5 c x Hc) as (A1 & A2 & A3 & _). cbn.
      rewrite length_insert. split_and!; try done. by right.
    + rewrite Hlk in Hy by done. destruct (H5 c' y Hy) as (A1 & A2 & A3 & A4). split_and!; try done.
      destruct A4; [left; by apply Hregs|by right].
  - intros u c' Hu. rewrite Huu in Hu. apply lookup_delete_Some in Hu as [Hne Hu].
    destruct (H6 u c' Hu) as (y & Hy & Hyu & Hyr).
    assert (Hne' : c' <> c) by (intros ->; simplify_eq).
    exists y. rewrite Hlk by done. split_and!; [done..|]. by apply Hregs.
  - exists (delete (ip_key (clients s) (Stored c 0)) m).
    assert (Hdel : forall k e, delete (ip_key (clients s) (Stored c 0)) m !! k = Some e ->
      exists c', e = Stored c' 0 /\ c' <> c /\ in_ip s k e).
    { intros k e [Hk He]%lookup_delete_Some. apply Hm in He. pose proof He as (c' & y & -> & Hy & _ & _ & E).
      exists c'. split_and!; [done| |done]. intros ->. by destruct Hk. }
    rewrite Ht. split.
    + apply (ip_rep_agree (clients s)); [done|]. intros k e He.
      destruct (Hdel k e He) as (c' & -> & Hne & _).
      destruct (Hkey (Stored c' 0)) as [-> Hg]; [by intros j [= ->]|]. split; [|done]. apply Hg.
      by eapply Hrep.
    + intros k e. split.
      * intros He. destruct (Hdel k e He) as (c' & -> & Hne & (c2 & y & [= <-] & Hy & A & B & E)).
        exists c', y. rewrite Hlk by done. split_and!; try done.
        destruct (Hkey (Stored c' 0)) as [-> _]; [by intros j [= ->]|done].
      * intros (c' & y & -> & Hy & A & B & E).
        assert (Hne : c' <> c) by (intros ->; rewrite Hlc in Hy; injection Hy as <-; done).
        rewrite Hlk in Hy by done.
        destruct (Hkey (Stored c' 0)) as [Ek _]; [by intros j [= ->]|]. rewrite Ek in E.
        apply lookup_delete_Some. split; [|apply Hm; by exists c', y].
        intros Hkk. destruct (registered_ip s c x Hc m Hreg Hm) as [_ Hx].
        assert (Hy' : m !! k = Some (Stored c' 0)) by (apply Hm; by exists c', y).
        rewrite Hkk in Hx. rewrite Hx in Hy'. congruence.
Qed.

(** What a change of the counter and the list item of a client leaves of the
    table of addresses. *)
Lemma ip_rep_kept cs t m c x x' : cs !! c = Some x -> kept_client x x' -> ip_rep cs t m ->
  ip_rep (<[c := x']> cs) t m /\ (forall e, ip_key (<[c := x']> cs) e = ip_key cs e) /\
  (forall e, good cs e -> good (<[c := x']> cs) e).
Proof.
  intros Hc Hk Hm. split_and!.
  - apply (ip_rep_agree cs); [done|]. intros k e He.
    destruct (kept_key cs c x x' Hc Hk e) as (-> & Hg). split; [apply Hg; by eapply Hm|done].
  - intros e. apply (kept_key cs c x x' Hc Hk e).
  - intros e. apply (kept_key cs c x x' Hc Hk e).
Qed.

Section Deref.
Context (s : ropa) (rc : Z -> Z) (l : option Z) (c : Z) (x : ropa_client).
Context (Hi : client_inv s rc l) (Hc : clients s !! c = Some x).

Lemma disconnect_run i : cli x = Some i -> registered s c x -> rc c = 0 ->
  exists s' x', disconnect_client c s = Some (s', inr tt) /\ client_inv s' rc l /\
    client_step s s' c x' /\ same_net s s' /\ unused x' /\ conn x' = conn x /\
    ht_clients_uuid s' = delete (uuid x) (ht_clients_uuid s).
Proof.
  intros Hcli Hreg Hrc. destruct (ci_ref _ _ _ Hi c x Hc) as [Href _].
  pose proof (ci_cli _ _ _ Hi c x Hc) as Hin. rewrite Hcli in Hin.
  destruct (items_del _ _ _ _ (ci_items _ _ _ Hi) Hin) as (l1 & l2 & Hl & Hd & Hok & Hx).
  destruct (ci_ip _ _ _ Hi) as (m & Hrep & Hm).
  destruct (registered_ip s c x Hc m Hreg Hm) as [Hgood Hmc].
  pose proof Hreg as (_ & (Hnum & _) & Huu).
  unfold disconnect_client. lrun (the_client_run s c x Hc).
  rewrite Href, Hrc. cbn [Z.eqb eassert]. rewrite ebind_ret, Hcli, Hnum.
  cbn [lru_unlink]. lrun (ropa_lidel_run s Lclients i _ Hd).
  set (s1 := set_lru Lclients (l1 ++ l2) s).
  lrun (upd_client_run s1 c x (set_cli None) Hc).
  set (x2 := set_cli None x). set (s2 := set_clients (<[c := x2]> (clients s1)) s1).
  assert (Hc2 : clients s2 !! c = Some x2) by apply lookup_insert_eq.
  destruct (ip_rep_kept (clients s) (ht_clients_ip s) m c x x2 Hc) as (Hrep2 & Hk2 & Hg2); [done|done|].
  change (<[c:=x2]> (clients s)) with (clients s2) in Hrep2, Hk2, Hg2.
  destruct (ip_del_run s2 m (Stored c 0) Hrep2 (Hg2 _ Hgood)) as (t' & Hr3 & Hrep3).
  rewrite Hk2, Hmc in Hr3. rewrite Hk2 in Hrep3.
  set (s3 := set_ht_ip t' s2) in *.
  assert (Hr4 : each_addr [0%nat] (fun i => r <-- ip_del (Stored c i) ;; eassert (r =? 0) ;;! clear_addr c i) s2 =
    Some (set_clients (<[c := set_addrs 1 (<[0%nat := no_addr]> (addr x)) x2]> (clients s3)) s3, inr tt)).
  { cbn [each_addr]. unfold ebind at 1. lrun Hr3. cbn [Z.eqb eassert]. rewrite ebind_ret.
    unfold clear_addr, put_addr. rewrite (upd_client_run s3 c x2 _ Hc2).
    change (numberOfInterfaces x2) with (numberOfInterfaces x). by rewrite Hnum. }
  lrun Hr4. set (x4 := set_addrs 1 _ x2). set (s4 := set_clients _ s3).
  lrun (upd_client_run s4 c x4 (fun x => set_state ROPAC_FREE (set_port 0 (set_addrs 0 (addr x) x)))
    (lookup_insert_eq _ _ _)).
  set (x5 := set_state _ _). set (s5 := set_clients _ s4).
  assert (Hr6 : uuid_del c s5 = Some (set_ht_uuid (delete (uuid x) (ht_clients_uuid s)) s5, inr 0)).
  { unfold uuid_del. lrun (the_client_run s5 c x5 (lookup_insert_eq _ _ _)). rewrite ebind_get.
    change (uuid x5) with (uuid x). change (ht_clients_uuid s5) with (ht_clients_uuid s).
    unfold map_del. by rewrite Huu. }
  lrun Hr6. cbn [Z.eqb eassert]. rewrite ebind_ret. set (s6 := set_ht_uuid _ s5).
  lrun (ropa_addtail_run s6 Lclients c). set (s7 := set_lru Lclients _ _).
  assert (Hc7 : clients s7 !! c = Some x5) by apply lookup_insert_eq.
  rewrite (upd_client_run s7 c x5 (set_cli (Some (nextli s6))) Hc7).
  set (s8 := set_clients _ s7). exists s8, (cleared (nextli s6) x). split; [done|].
  assert (Hcs : clients s8 = <[c := cleared (nextli s6) x]> (clients s)).
  { unfold s8, s7, s6, s5, s4, s3, s2, s1. cbn. rewrite !insert_insert_eq. done. }
  assert (Hstep : client_step s s8 c (cleared (nextli s6) x)) by (split; done).
  assert (Hnet : same_net s s8) by (split; try done; cbn; lia).
  split; [|by split_and!].
  apply (client_inv_clear s s8 rc l c x (nextli s6) t' m Hi Hc Hreg Hrc Hm Hcs); try done.
  - apply (ip_rep_agree (clients s2)); [done|]. intros k e [_ He]%lookup_delete_Some.
    split; [by eapply Hrep|done].
  - cbn. by apply items_tail.
  - intros j c'. cbn. rewrite elem_of_app, Hx, Hl. split.
    + intros [[Hj Hne]|[= -> ->]%list_elem_of_singleton]; [left|by right]. split; [|done].
      intros ->. destruct (ci_item _ _ _ Hi j c) as (y & Hy & Hyj); [by rewrite Hl|].
      rewrite Hc in Hy. injection Hy as <-. rewrite Hcli in Hyj. by injection Hyj as ->.
    + intros [[Hne Hj]|[-> ->]]; [left|right; by apply list_elem_of_singleton]. split; [done|]. cbn.
      intros ->. rewrite <- Hl in Hj. by rewrite (items_unique _ _ _ _ _ (ci_items _ _ _ Hi) Hj Hin) in Hne.
Qed.
End Deref.

Lemma bump_eq c d r : bump c d r c = r c + d.
Proof. unfold bump. by rewrite Z.eqb_refl. Qed.
Lemma bump_ne c d r c' : c' <> c -> bump c d r c' = r c'.
Proof. intros Hne. unfold bump. by rewrite (proj2 (Z.eqb_neq c' c)). Qed.

Lemma client_deref_run s rc l c x i :
  client_inv s rc l -> clients s !! c = Some x -> cli x = Some i -> 1 <= rc c ->
  exists s' x', client_deref c s = Some (s', inr tt) /\ client_inv s' (bump c (-1) rc) l /\
    client_step s s' c x' /\ same_net s s' /\ conn x' = conn x /\
    if rc c =? 1 then unused x' /\ ht_clients_uuid s' = delete (uuid x) (ht_clients_uuid s)
    else kept_client x x' /\ ht_clients_uuid s' = ht_clients_uuid s.
Proof.
  intros Hi Hc Hcli Hrc. destruct (ci_ref _ _ _ Hi c x Hc) as [Href _].
  assert (Hreg : registered s c x) by (apply (in_use_registered s rc l c x Hi Hc); lia).
  unfold client_deref. lrun (upd_client_run s c x (fun x => set_cref (cref x - 1) x) Hc).
  set (x1 := set_cref (cref x - 1) x). set (s1 := set_clients (<[c := x1]> (clients s)) s).
  assert (Hc1 : clients s1 !! c = Some x1) by apply lookup_insert_eq.
  assert (Hi1 : client_inv s1 (bump c (-1) rc) l).
  { apply (client_inv_update s s1 rc _ l l c x x1 Hi Hc); try done.
    - apply (ci_items _ _ _ Hi).
    - pose proof (ci_cli _ _ _ Hi c x Hc) as Hin. rewrite Hcli in Hin. unfold x1. cbn. by rewrite Hcli.
    - intros j Hj. destruct (ci_item _ _ _ Hi j c Hj) as (y & Hy & Hyj). unfold x1. cbn. congruence.
    - rewrite bump_eq. unfold x1. cbn. lia.
    - rewrite bump_eq. lia.
    - intros c' Hne. by apply bump_ne.
    - by right. }
  lrun (the_client_run s1 c x1 Hc1). change (cref x1) with (cref x - 1).
  destruct (Z.eqb_spec (rc c) 1) as [E|E].
  - rewrite (proj2 (Z.eqb_eq (cref x - 1) 0)) by lia.
    destruct (disconnect_run s1 (bump c (-1) rc) l c x1 Hi1 Hc1 i Hcli Hreg)
      as (s' & x' & Hr & Hi' & Hst & Hn & Hun & Hconn & Hu); [rewrite bump_eq; lia|].
    assert (Hstep : client_step s s' c x').
    { destruct Hst as [[] [] C]. split; [by split..|]. rewrite C. apply insert_insert_eq. }
    assert (Hnet : same_net s s') by (destruct Hn; by split).
    exists s', x'. by split_and!.
  - rewrite (proj2 (Z.eqb_neq (cref x - 1) 0)) by lia.
    assert (Hstep : client_step s s1 c x1) by (split; done).
    assert (Hnet : same_net s s1) by (split; try done; cbn; lia).
    exists s1, x1. by split_and!.
Qed.
