(* ===== verification/RopaCb.v ===== *)
(** * Callbacks: operations on callbacks and pairs

    The counters of callbacks, as [RopaInv] has those of clients, and the pairs
    that connect callbacks and clients. *)

From S2P Require Import Prelude Items Estate Hash HashCorrect Fdir Ropa RopaIp RopaInv.

Local Open Scope em_scope.

(** ** Callbacks *)

Record cb_inv (s : ropa) (rb : Z -> Z) (loose : option Z) : Prop := {
  bi_items : items_ok (nextli s) (lrus s Lcallback);
  bi_li b y : cbs s !! b = Some y ->
    match cbli y with Some i => (i, b) ∈ lrus s Lcallback | None => loose = Some b end;
  bi_item i b : (i, b) ∈ lrus s Lcallback -> exists y, cbs s !! b = Some y /\ cbli y = Some i;
  bi_ref b y : cbs s !! b = Some y -> ref y = rb b /\ 0 <= rb b;
  bi_tab b y : cbs s !! b = Some y -> rb b <> 0 -> ht_callbacks s !! fid y = Some b;
  bi_key f b : ht_callbacks s !! f = Some b ->
    exists y, cbs s !! b = Some y /\ fid y = f /\ rb b <> 0
}.

Lemma cb_inv_same s s' rb l : same_cbs s s' -> nextli s <= nextli s' -> cb_inv s rb l -> cb_inv s' rb l.
Proof.
  intros [E1 E2 E3] Hn [H1 H2 H3 H4 H5 H6]. split; rewrite ?E1, ?E2, ?E3; try done.
  by eapply items_mono.
Qed.
Lemma cb_inv_ext s rb rb' l : (forall b, rb b = rb' b) -> cb_inv s rb l -> cb_inv s rb' l.
Proof.
  intros E [H1 H2 H3 H4 H5 H6]. split; try done.
  - intros b y Hb. rewrite <- E. auto.
  - intros b y Hb. rewrite <- E. auto.
  - intros f b Hf. rewrite <- E. auto.
Qed.

(** Only the callback [b] changes, and lists and tables of callbacks. *)
Record cb_step (s s' : ropa) (b : Z) (y' : ropa_cb) : Prop := {
  bs_clients : same_clients s s';
  bs_pairs : same_pairs s s';
  bs_map : cbs s' = <[b := y']> (cbs s)
}.

(** A change of one callback; [tab]: is it in the table afterwards? *)
Lemma cb_inv_update s s' rb rb' l l' b y y' :
  cb_inv s rb l -> cbs s !! b = Some y -> cbs s' = <[b := y']> (cbs s) ->
  items_ok (nextli s') (lrus s' Lcallback) ->
  match cbli y' with Some i => (i, b) ∈ lrus s' Lcallback | None => l' = Some b end ->
  (forall i b', b' <> b -> (i, b') ∈ lrus s' Lcallback <-> (i, b') ∈ lrus s Lcallback) ->
  (forall i, (i, b) ∈ lrus s' Lcallback -> cbli y' = Some i) ->
  (forall b', b' <> b -> l' = Some b' <-> l = Some b') ->
  ref y' = rb' b -> 0 <= rb' b -> (forall b', b' <> b -> rb' b' = rb b') ->
  (if decide (rb' b = 0) then forall f, ht_callbacks s' !! f <> Some b
   else ht_callbacks s' !! fid y' = Some b /\ forall f, ht_callbacks s' !! f = Some b -> f = fid y') ->
  (forall f b', b' <> b -> ht_callbacks s' !! f = Some b' <-> ht_callbacks s !! f = Some b') ->
  cb_inv s' rb' l'.
Proof.
  intros [H1 H2 H3 H4 H5 H6] Hb Hcs Hit Hli Hoth Hown Hl Href Hr0 Hrb Htab Hto.
  assert (Hlk : forall b', b' <> b -> cbs s' !! b' = cbs s !! b')
    by (intros b' Hne; by rewrite Hcs, lookup_insert_ne).
  assert (Hlb : cbs s' !! b = Some y') by (rewrite Hcs; apply lookup_insert_eq).
  split; [done|..].
  - intros b' z Hz. destruct (decide (b' = b)) as [->|Hne].
    + rewrite Hlb in Hz. by injection Hz as <-.
    + rewrite Hlk in Hz by done. specialize (H2 b' z Hz). destruct (cbli z); [by apply Hoth|by apply Hl].
  - intros i b' Hi. destruct (decide (b' = b)) as [->|Hne].
    + exists y'. split; [done|]. by apply Hown.
    + rewrite Hlk by done. apply H3. by apply Hoth.
  - intros b' z Hz. destruct (decide (b' = b)) as [->|Hne].
    + rewrite Hlb in Hz. by injection Hz as <-.
    + rewrite Hlk in Hz by done. rewrite Hrb by done. by apply H4.
  - intros b' z Hz Hr. destruct (decide (b' = b)) as [->|Hne].
    + rewrite Hlb in Hz. injection Hz as <-. rewrite decide_False in Htab by done. apply Htab.
    + rewrite Hlk in Hz by done. rewrite Hrb in Hr by done. apply Hto; [done|]. by apply H5.
  - intros f b' Hf. destruct (decide (b' = b)) as [->|Hne].
    + exists y'. split; [done|]. destruct (decide (rb' b = 0)); [by destruct (Htab f)|].
      destruct Htab as [_ Ht]. by rewrite (Ht f Hf).
    + apply Hto in Hf; [|done]. destruct (H6 f b' Hf) as (z & Hz & Hzf & Hr).
      exists z. by rewrite Hlk, Hrb.
Qed.

Section Cbs.
Context (s : ropa) (rb : Z -> Z) (l : option Z) (b : Z) (y : ropa_cb).
Context (Hi : cb_inv s rb l) (Hb : cbs s !! b = Some y).

Lemma cb_table_own : rb b <> 0 ->
  ht_callbacks s !! fid y = Some b /\ forall f, ht_callbacks s !! f = Some b -> f = fid y.
Proof.
  intros Hr. split; [by apply (bi_tab _ _ _ Hi)|]. intros f Hf.
  destruct (bi_key _ _ _ Hi f b Hf) as (z & Hz & <- & _). congruence.
Qed.
Lemma cb_table_none : rb b = 0 -> forall f, ht_callbacks s !! f <> Some b.
Proof. intros Hr f Hf. by destruct (bi_key _ _ _ Hi f b Hf) as (_ & _ & _ & ?). Qed.

(** The item of [b] on the list of callbacks, taken out. *)
Lemma cb_unlink i : cbli y = Some i ->
  exists l1 l2, lrus s Lcallback = l1 ++ (i, b) :: l2 /\
    item_del i (lrus s Lcallback) = Some (l1 ++ l2) /\ items_ok (nextli s) (l1 ++ l2) /\
    forall j b', (j, b') ∈ l1 ++ l2 <-> (j, b') ∈ lrus s Lcallback /\ b' <> b.
Proof.
  intros Hli. pose proof (bi_li _ _ _ Hi b y Hb) as Hin. rewrite Hli in Hin.
  destruct (items_del _ _ _ _ (bi_items _ _ _ Hi) Hin) as (l1 & l2 & Hl & Hd & Hok & Hx).
  exists l1, l2. split_and!; try done; try apply Hok. intros j b'. rewrite Hx. cbn.
  split; intros [Hj Hne]; (split; [done|]); intros ->.
  - destruct (bi_item _ _ _ Hi j b Hj) as (z & Hz & Hzj). congruence.
  - by rewrite (items_unique _ _ _ _ _ (bi_items _ _ _ Hi) Hj Hin) in Hne.
Qed.

Lemma callback_ref_run i : cbli y = Some i ->
  exists s' y', callback_ref b s = Some (s', inr tt) /\ cb_step s s' b y' /\ same_net s s' /\
    fid y' = fid y /\ ccpairs y' = ccpairs y /\ (exists j, cbli y' = Some j) /\
    ht_callbacks s' = ht_callbacks s /\
    (rb b <> 0 -> cb_inv s' (bump b 1 rb) l) /\
    ref y' = ref y + 1 /\ items_ok (nextli s') (lrus s' Lcallback) /\
    (forall j b', (j, b') ∈ lrus s' Lcallback <-> (b' <> b /\ (j, b') ∈ lrus s Lcallback) \/ (b' = b /\ cbli y' = Some j)).
Proof.
  intros Hli. destruct (bi_ref _ _ _ Hi b y Hb) as [Href Hr0].
  destruct (cb_unlink i Hli) as (l1 & l2 & Hl & Hd & Hok & Hx).
  unfold callback_ref. lrun (the_cb_run s b y Hb).
  rewrite (proj2 (Z.leb_le 0 (ref y))) by lia. cbn [eassert]. rewrite ebind_ret, Hli.
  cbn [lru_unlink]. lrun (ropa_lidel_run s Lcallback i _ Hd).
  set (s1 := set_lru Lcallback (l1 ++ l2) s).
  lrun (upd_cb_run s1 b y (set_ref (ref y + 1)) Hb). set (s2 := set_cbs _ s1).
  lrun (ropa_addhead_run s2 Lcallback b). set (s3 := set_lru Lcallback _ _).
  assert (Hb3 : cbs s3 !! b = Some (set_ref (ref y + 1) y)) by apply lookup_insert_eq.
  rewrite (upd_cb_run s3 b _ (set_cbli (Some (nextli s2))) Hb3).
  set (y' := set_cbli (Some (nextli s2)) (set_ref (ref y + 1) y)). set (s4 := set_cbs _ s3).
  assert (Hcs : cbs s4 = <[b := y']> (cbs s)) by apply insert_insert_eq.
  assert (Hstep : cb_step s s4 b y') by (split; done).
  assert (Hnet : same_net s s4) by (split; try done; cbn; lia).
  assert (Hlru : forall j b', (j, b') ∈ lrus s4 Lcallback <->
    (b' <> b /\ (j, b') ∈ lrus s Lcallback) \/ (b' = b /\ cbli y' = Some j)).
  { intros j b'. cbn. rewrite elem_of_cons, Hx. split.
    - intros [[= -> ->]|[? ?]]; [by right|by left].
    - intros [[? ?]|[-> [= <-]]]; [by right|by left]. }
  assert (Hit : items_ok (nextli s4) (lrus s4 Lcallback)) by (cbn; by apply items_head).
  exists s4, y'. split_and!; try done; [by eexists|].
  intros Hr. apply (cb_inv_update s s4 rb _ l l b y y' Hi Hb Hcs Hit); try done.
  - cbn. left.
  - intros j b' Hne. rewrite Hlru. split; [intros [[_ ?]|[? _]]; done|auto].
  - intros j Hj. apply Hlru in Hj as [[? _]|[_ ?]]; done.
  - rewrite bump_eq. unfold y'. cbn. lia.
  - rewrite bump_eq. lia.
  - intros b' Hne. by apply bump_ne.
  - rewrite bump_eq. rewrite decide_False by lia. by apply cb_table_own.
Qed.

Lemma callback_deref_run i : cbli y = Some i -> 1 <= rb b -> (rb b = 1 -> ccpairs y = []) ->
  exists s' y', callback_deref b s = Some (s', inr tt) /\ cb_inv s' (bump b (-1) rb) l /\
    cb_step s s' b y' /\ same_net s s' /\ ccpairs y' = ccpairs y /\
    if rb b =? 1 then ht_callbacks s' = delete (fid y) (ht_callbacks s)
    else fid y' = fid y /\ ht_callbacks s' = ht_callbacks s.
Proof.
  intros Hli Hr Hcc. destruct (bi_ref _ _ _ Hi b y Hb) as [Href Hr0].
  destruct (cb_table_own ltac:(lia)) as [Htab Hown].
  unfold callback_deref. lrun (upd_cb_run s b y (fun x => set_ref (ref x - 1) x) Hb).
  set (y1 := set_ref (ref y - 1) y). set (s1 := set_cbs (<[b := y1]> (cbs s)) s).
  assert (Hb1 : cbs s1 !! b = Some y1) by apply lookup_insert_eq.
  lrun (the_cb_run s1 b y1 Hb1). change (ref y1) with (ref y - 1).
  destruct (Z.eqb_spec (rb b) 1) as [E|E].
  - rewrite (proj2 (Z.eqb_eq (ref y - 1) 0)) by lia. rewrite ebind_get.
    change (ht_callbacks s1) with (ht_callbacks s). change (fid y1) with (fid y).
    unfold map_del. rewrite Htab, ebind_mod. cbn [Z.eqb eassert]. rewrite ebind_ret.
    change (cbli y1) with (cbli y). rewrite Hli. cbn [lru_unlink].
    destruct (cb_unlink i Hli) as (l1 & l2 & Hl & Hd & Hok & Hx).
    set (s2 := set_ht_callbacks (delete (fid y) (ht_callbacks s)) s1).
    lrun (ropa_lidel_run s2 Lcallback i _ Hd). set (s3 := set_lru Lcallback (l1 ++ l2) s2).
    change (ccpairs y1) with (ccpairs y). rewrite (Hcc E). cbn [eassert]. rewrite ebind_ret.
    lrun (upd_cb_run s3 b y1 (set_fid (Build_AFSFid 0 0 0)) Hb1). set (y4 := set_fid _ y1).
    set (s4 := set_cbs _ s3). lrun (ropa_addtail_run s4 Lcallback b). set (s5 := set_lru Lcallback _ _).
    assert (Hb5 : cbs s5 !! b = Some y4) by apply lookup_insert_eq.
    rewrite (upd_cb_run s5 b y4 (set_cbli (Some (nextli s4))) Hb5).
    set (y' := set_cbli (Some (nextli s4)) y4). set (s6 := set_cbs _ s5).
    assert (Hcs : cbs s6 = <[b := y']> (cbs s)).
    { unfold s6, s5, s4, s3, s2, s1. cbn. by rewrite !insert_insert_eq. }
    assert (Hstep : cb_step s s6 b y') by (split; done).
    assert (Hnet : same_net s s6) by (split; try done; cbn; lia).
    assert (Hempty : ccpairs y' = []) by exact (Hcc E).
    exists s6, y'. split; [done|]. split; [|by split_and!].
    apply (cb_inv_update s s6 rb _ l l b y y' Hi Hb Hcs); try done.
    + cbn. by apply items_tail.
    + cbn. apply elem_of_app. right. by apply list_elem_of_singleton.
    + intros j b' Hne. cbn. rewrite elem_of_app, Hx, list_elem_of_singleton. split.
      * by intros [[? _]|[= _ ->]].
      * intros Hj. by left.
    + intros j. cbn. rewrite elem_of_app, Hx, list_elem_of_singleton. by intros [[_ []]|[= ->]].
    + rewrite bump_eq. unfold y', y4, y1. cbn. lia.
    + rewrite bump_eq. lia.
    + intros b' Hne. by apply bump_ne.
    + rewrite bump_eq, decide_True by lia. intros f. cbn. intros [Hne Hf]%lookup_delete_Some.
      by destruct Hne; rewrite (Hown f Hf).
    + intros f b' Hne. cbn. rewrite lookup_delete_Some. split; [by intros [_ ?]|].
      intros Hf. split; [|done]. intros <-. congruence.
  - rewrite (proj2 (Z.eqb_neq (ref y - 1) 0)) by lia.
    assert (Hstep : cb_step s s1 b y1) by (split; done).
    assert (Hnet : same_net s s1) by (split; try done; cbn; lia).
    exists s1, y1. split; [done|]. split; [|by split_and!].
    apply (cb_inv_update s s1 rb _ l l b y y1 Hi Hb eq_refl); try done.
    + apply (bi_items _ _ _ Hi).
    + pose proof (bi_li _ _ _ Hi b y Hb) as Hin. rewrite Hli in Hin. unfold y1. cbn. by rewrite Hli.
    + intros j Hj. destruct (bi_item _ _ _ Hi j b Hj) as (z & Hz & Hzj). unfold y1. cbn. congruence.
    + rewrite bump_eq. unfold y1. cbn. lia.
    + rewrite bump_eq. lia.
    + intros b' Hne. by apply bump_ne.
    + rewrite bump_eq, decide_False by lia. exact (conj Htab Hown).
Qed.
End Cbs.
