(* ===== verification/RopaPair.v ===== *)
(** * Callbacks: pairs and messages

    The pairs of callbacks and clients with their table, list and heap; the
    state of the module as a whole; and what a client is told. *)

From S2P Require Import Prelude Items Estate Hash HashCorrect Fdir Ropa RopaIp RopaInv RopaCb.

Local Open Scope em_scope.

(** ** Counting pairs *)

(** The pairs of the table whose callback ([fst]) or client ([snd]) is [x]. *)
Definition nof (f : Z * Z -> Z) (m : gmap (Z * Z) Z) (x : Z) : Z :=
  Z.of_nat (size (filter (fun kv => f (fst kv) = x) m)).

Lemma nof_nonneg f m x : 0 <= nof f m x.
Proof. unfold nof. lia. Qed.
Lemma nof_delete (f : Z * Z -> Z) (m : gmap (Z * Z) Z) (k : Z * Z) (p x : Z) : m !! k = Some p ->
  nof f (delete k m) x = nof f m x - (if decide (f k = x) then 1 else 0).
Proof.
  intros Hk. unfold nof. rewrite map_filter_delete. case_decide as E.
  - assert (Hf : filter (fun kv => f (fst kv) = x) m !! k = Some p) by (by apply map_lookup_filter_Some).
    rewrite map_size_delete, Hf. cbn.
    assert (size (filter (fun kv => f (fst kv) = x) m) <> 0%nat).
    { intros Hz%map_size_empty_inv. by rewrite Hz in Hf. }
    lia.
  - rewrite delete_id; [lia|]. apply map_lookup_filter_None. right. intros v _. done.
Qed.
Lemma nof_insert (f : Z * Z -> Z) (m : gmap (Z * Z) Z) (k : Z * Z) (p x : Z) : m !! k = None ->
  nof f (<[k := p]> m) x = nof f m x + (if decide (f k = x) then 1 else 0).
Proof.
  intros Hk. pose proof (nof_delete f (<[k := p]> m) k p x (lookup_insert_eq _ _ _)) as H.
  rewrite delete_insert_id in H by done. lia.
Qed.
Lemma nof_pos (f : Z * Z -> Z) (m : gmap (Z * Z) Z) (k : Z * Z) (p : Z) : m !! k = Some p -> 1 <= nof f m (f k).
Proof.
  intros Hk. pose proof (nof_delete f m k p (f k) Hk) as H. rewrite decide_True in H by done.
  pose proof (nof_nonneg f (delete k m) (f k)). lia.
Qed.
Lemma nof_one (f : Z * Z -> Z) (m : gmap (Z * Z) Z) (k k' : Z * Z) (p p' : Z) : m !! k = Some p -> nof f m (f k) = 1 ->
  m !! k' = Some p' -> f k' = f k -> k' = k.
Proof.
  intros Hk H1 Hk' E. destruct (decide (k' = k)) as [|Hne]; [done|].
  pose proof (nof_delete f m k p (f k) Hk) as H. rewrite decide_True in H by done.
  assert (Hd : delete k m !! k' = Some p') by (by rewrite lookup_delete_ne).
  pose proof (nof_pos f _ _ _ Hd). rewrite E in *. lia.
Qed.

(** ** Pairs *)

(** The pairs of [det] are off the list of their callback for the moment; the
    pair [loose] is off the list of pairs.  A pair can have left items behind
    on that list. *)
Record pair_inv (s : ropa) (det : gset Z) (loose : option Z) : Prop := {
  pi_items : items_ok (nextli s) (lrus s Lccpair);
  pi_li p x : pairs s !! p = Some x ->
    match li x with Some i => (i, p) ∈ lrus s Lccpair | None => loose = Some p end;
  pi_item i p : (i, p) ∈ lrus s Lccpair -> exists x, pairs s !! p = Some x;
  pi_pair p x : pairs s !! p = Some x ->
    match client x, cb x with
    | Some c, Some b => ht_ccpairs s !! (b, c) = Some p /\ p ∈ heap_ccpairs s /\
        (exists y, clients s !! c = Some y) /\
        exists y, cbs s !! b = Some y /\
          match cb_li x with Some i => (i, p) ∈ ccpairs y | None => p ∈ det end
    | None, None => (p ∉ heap_ccpairs s) /\ cb_li x = None
    | _, _ => False
    end;
  pi_tab b c p : ht_ccpairs s !! (b, c) = Some p ->
    exists x, pairs s !! p = Some x /\ cb x = Some b /\ client x = Some c;
  pi_heap p : p ∈ heap_ccpairs s -> exists x c, pairs s !! p = Some x /\ client x = Some c;
  pi_list b y : cbs s !! b = Some y -> items_ok (nextli s) (ccpairs y) /\
    forall i p, (i, p) ∈ ccpairs y -> exists x, pairs s !! p = Some x /\ cb x = Some b /\ cb_li x = Some i
}.

(** The state as a whole; [hc] and [hb] count the references that the running
    procedure has of its own. *)
Record rinv (s : ropa) (hc hb : Z -> Z) (det : gset Z) (loose : option Z) : Prop := {
  ri_cli : client_inv s (fun c => nof snd (ht_ccpairs s) c + hc c) None;
  ri_cb : cb_inv s (fun b => nof fst (ht_ccpairs s) b + hb b) None;
  ri_pair : pair_inv s det loose;
  ri_hc c : 0 <= hc c;
  ri_hb b : 0 <= hb b
}.
Definition none_held : Z -> Z := fun _ => 0.
(** Between two procedures *)
Definition quiet (s : ropa) : Prop := rinv s none_held none_held ∅ None.

Section Pairs.
Context (s : ropa) (hc hb : Z -> Z) (det : gset Z) (l : option Z) (H : rinv s hc hb det l).

(** A pair of the table is in use. *)
Lemma tab_pair b c p : ht_ccpairs s !! (b, c) = Some p ->
  exists x xc y, pairs s !! p = Some x /\ client x = Some c /\ cb x = Some b /\
    clients s !! c = Some xc /\ cbs s !! b = Some y /\ p ∈ heap_ccpairs s.
Proof.
  intros Ht. destruct (pi_tab _ _ _ (ri_pair _ _ _ _ _ H) _ _ _ Ht) as (x & Hx & Hb & Hc).
  pose proof (pi_pair _ _ _ (ri_pair _ _ _ _ _ H) p x Hx) as Hp. rewrite Hb, Hc in Hp.
  destruct Hp as (_ & Hh & (xc & Hxc) & y & Hy & _). by exists x, xc, y.
Qed.
Lemma pair_tab p x c : pairs s !! p = Some x -> client x = Some c ->
  exists b, cb x = Some b /\ ht_ccpairs s !! (b, c) = Some p.
Proof.
  intros Hx Hc. pose proof (pi_pair _ _ _ (ri_pair _ _ _ _ _ H) p x Hx) as Hp. rewrite Hc in Hp.
  destruct (cb x) as [b|]; [|done]. exists b. split; [done|]. apply Hp.
Qed.
Lemma tab_inj k k' p : ht_ccpairs s !! k = Some p -> ht_ccpairs s !! k' = Some p -> k = k'.
Proof.
  destruct k as [b c], k' as [b' c']. intros H1 H2.
  destruct (tab_pair _ _ _ H1) as (x & _ & _ & Hx & E1 & E2 & _).
  destruct (tab_pair _ _ _ H2) as (x' & _ & _ & Hx' & E3 & E4 & _). congruence.
Qed.
Lemma client_item c x : clients s !! c = Some x -> exists i, cli x = Some i /\ (i, c) ∈ lrus s Lclients.
Proof.
  intros Hc. pose proof (ci_cli _ _ _ (ri_cli _ _ _ _ _ H) c x Hc) as Hi.
  destruct (cli x) as [i|]; [by exists i|done].
Qed.
Lemma cb_item b y : cbs s !! b = Some y -> exists i, cbli y = Some i.
Proof.
  intros Hb. pose proof (bi_li _ _ _ (ri_cb _ _ _ _ _ H) b y Hb) as Hi.
  destruct (cbli y) as [i|]; [by exists i|done].
Qed.
Lemma paired_registered b c p x : ht_ccpairs s !! (b, c) = Some p -> clients s !! c = Some x ->
  registered s c x.
Proof.
  intros Ht Hc. apply (in_use_registered s _ _ c x (ri_cli _ _ _ _ _ H) Hc).
  pose proof (nof_pos snd _ _ _ Ht). pose proof (ri_hc _ _ _ _ _ H c). cbn [snd] in *. lia.
Qed.
End Pairs.

(** ** What a client is told *)

(** The calls that [notify_client] can make: over the connection that there
    is, and to the address of the client. *)
Definition own_call (x : ropa_client) (fids : list AFSFid) : message :=
  CallBack (addr_in (nth 0 (addr x) no_addr)) (port x) fids.
Definition first_call (x : ropa_client) (fids : list AFSFid) : message :=
  match conn x with Conn h p => CallBack h p fids | _ => own_call x fids end.
Definition reachable (x : ropa_client) : Prop := conn x <> GoneConn.

(** Every message of [l] is a call to [x], and there is one. *)
Definition told (x : ropa_client) (fids : list AFSFid) (l : list message) : Prop :=
  first_call x fids ∈ l /\ forall m, m ∈ l -> m = first_call x fids \/ m = own_call x fids.

Lemma rpc_run m s : exists r n, rpc m s = Some (set_net r (m :: sent s) s, inr n) /\
  forall n' r', replies s = n' :: r' -> n = n' /\ r = r'.
Proof.
  unfold rpc. rewrite ebind_get. destruct (replies s) as [|n r]; eexists _, _; (split; [reflexivity|]).
  - done.
  - by intros n' r' [= -> ->].
Qed.

Record told_step (s s' : ropa) (c : Z) (x x' : ropa_client) (m : list message) : Prop := {
  ts_cbs : same_cbs s s';
  ts_pairs : same_pairs s s';
  ts_map : clients s' = <[c := x']> (clients s);
  ts_ip : ht_clients_ip s' = ht_clients_ip s;
  ts_uuid : ht_clients_uuid s' = ht_clients_uuid s;
  ts_lru : lrus s' Lclients = lrus s Lclients;
  ts_now : now s' = now s;
  ts_next : nextli s' = nextli s;
  ts_kept : kept_client x x';
  ts_cref : cref x' = cref x;
  ts_cli : cli x' = cli x;
  ts_sent : sent s' = m ++ sent s;
  ts_answer : (replies s' = replies s /\ conn x' = conn x) \/
    forall r l, replies s = r :: l -> fst r = 0 -> replies s' = l /\ reachable x'
}.

Lemma notify_loop_run c s x fids : clients s !! c = Some x ->
  exists s' x', notify_loop c fids [0%nat] s = Some (s', inr tt) /\ told_step s s' c x x' [own_call x fids].
Proof.
  intros Hc. cbn [notify_loop]. lrun (the_client_run s c x Hc).
  lrun (upd_client_run s c x (set_conn (Conn (addr_in (nth 0 (addr x) no_addr)) (port x))) Hc).
  set (x1 := set_conn _ x). set (s1 := set_clients _ s).
  destruct (rpc_run (own_call x fids) s1) as (r & n & Hr & Hans). lrun Hr. set (s2 := set_net r _ s1).
  assert (Hc2 : clients s2 !! c = Some x1) by apply lookup_insert_eq.
  destruct (fst n =? 0) eqn:E0.
  - exists s2, x1. split; [done|]. split; try done. right. intros n' l Hl _.
    by destruct (Hans n' l Hl) as [_ ->].
  - rewrite (ebind_ok _ _ _ _ _ (upd_client_run s2 c x1 (set_conn GoneConn) Hc2)).
    eexists _, (set_conn GoneConn x1). split; [reflexivity|]. split; try done; [apply insert_insert_eq|].
    right. intros n' l Hl E. destruct (Hans n' l Hl) as [-> _]. by rewrite E in E0.
Qed.

Lemma notify_client_run c s x fids : clients s !! c = Some x -> numberOfInterfaces x = 1 -> reachable x ->
  exists s' x' m, notify_client c fids s = Some (s', inr tt) /\ told_step s s' c x x' m /\ told x fids m.
Proof.
  intros Hc Hn Hg. unfold notify_client. lrun (the_client_run s c x Hc). rewrite Hn.
  change (seq 0 (Z.to_nat 1)) with [0%nat].
  destruct (conn x) as [|h p|] eqn:Ec; [| |done].
  - rewrite ebind_ret. destruct (notify_loop_run c s x fids Hc) as (s' & x' & Hr & Hst).
    exists s', x', [own_call x fids]. split; [done|]. split; [done|]. unfold told, first_call. rewrite Ec.
    split; [left|]. intros m ->%list_elem_of_singleton. by right.
  - destruct (rpc_run (CallBack h p fids) s) as (r & n & Hr & Hans).
    unfold ebind at 1. rewrite (ebind_ok _ _ _ _ _ Hr). cbn [eret]. set (s1 := set_net r _ s).
    destruct (fst n =? 0) eqn:E0.
    + exists s1, x, [CallBack h p fids]. split; [done|]. split.
      * split; try done; [symmetry; by apply insert_id|]. right. intros n' l Hl _.
        destruct (Hans n' l Hl) as [_ ->]. split; [done|]. unfold reachable. by rewrite Ec.
      * unfold told, first_call. rewrite Ec. split; [left|]. intros m ->%list_elem_of_singleton. by left.
    + destruct (notify_loop_run c s1 x fids Hc) as (s' & x' & Hr' & []).
      exists s', x', [own_call x fids; CallBack h p fids]. split; [done|]. split.
      * destruct ts_cbs0, ts_pairs0. split; try done; [by split..|]. right. intros n' l Hl E.
        destruct (Hans n' l Hl) as [-> _]. by rewrite E in E0.
      * unfold told, first_call. rewrite Ec. split; [by right; left|]. intros m.
        rewrite !elem_of_cons, elem_of_nil. intros [->|[->|[]]]; auto.
Qed.

Lemma told_client_inv s s' rc l c x x' m : client_inv s rc l -> clients s !! c = Some x ->
  (rc c = 0 \/ registered s c x) -> told_step s s' c x x' m -> client_inv s' rc l.
Proof.
  intros Hi Hc Hreg []. destruct (ci_ref _ _ _ Hi c x Hc).
  apply (client_inv_update s s' rc rc l l c x x' Hi Hc); try done.
  - rewrite ts_lru0, ts_next0. apply (ci_items _ _ _ Hi).
  - rewrite ts_lru0, ts_cli0. by apply (ci_cli _ _ _ Hi c x Hc).
  - intros i c' _. by rewrite ts_lru0.
  - intros i. rewrite ts_lru0, ts_cli0. intros Hx. destruct (ci_item _ _ _ Hi i c Hx) as (y & Hy & Hyi).
    congruence.
  - by rewrite ts_cref0.
Qed.
