(* ===== verification/RopaBreak.v ===== *)
(** * Callbacks: breaking a promise

    [break_ccpair] of a pair in use always returns, leaves the state in order
    and has told the client if it was to be told. *)

From S2P Require Import Prelude Items Estate Hash HashCorrect Fdir Ropa RopaIp RopaInv RopaCb RopaPair.

Local Open Scope em_scope.

(** ** The parts of [break_ccpair] *)

Record unlink_step (s s' : ropa) (li : option Z) : Prop := {
  us_clients : same_clients s s';
  us_cbs : same_cbs s s';
  us_net : same_net s s';
  us_next : nextli s' = nextli s;
  us_pairs : pairs s' = pairs s;
  us_tab : ht_ccpairs s' = ht_ccpairs s;
  us_heap : heap_ccpairs s' = heap_ccpairs s;
  us_ok : items_ok (nextli s) (lrus s' Lccpair);
  us_in z : z ∈ lrus s' Lccpair <-> z ∈ lrus s Lccpair /\ li <> Some (fst z)
}.
Lemma unlink_run s p li : items_ok (nextli s) (lrus s Lccpair) ->
  match li with Some i => (i, p) ∈ lrus s Lccpair | None => True end ->
  exists s', lru_unlink Lccpair li s = Some (s', inr tt) /\ unlink_step s s' li.
Proof.
  intros Hok Hin. destruct li as [i|]; cbn [lru_unlink].
  - destruct (items_del _ _ _ _ Hok Hin) as (l1 & l2 & Hl & Hd & Hok' & Hx).
    rewrite (ropa_lidel_run s Lccpair i _ Hd). eexists. split; [reflexivity|].
    assert (Hnet : same_net s (set_lru Lccpair (l1 ++ l2) s)) by (split; try done; cbn; lia).
    split; try done. intros z. cbn. rewrite Hx. split; (intros [? Hz]; split; [done|]); congruence.
  - exists s. split; [done|]. assert (Hnet : same_net s s) by (split; try done; lia).
    split; try done. intros z. by split; [|intros []].
Qed.

Definition detached (s : ropa) (b p : Z) (y : ropa_cb) (x : ropa_ccpair) (l : list (Z * Z)) : ropa :=
  set_pairs (<[p := set_cb_li None x]> (pairs s)) (set_cbs (<[b := set_ccpairs l y]> (cbs s)) s).
Lemma detach_run s b p y x n : cbs s !! b = Some y -> pairs s !! p = Some x -> items_ok n (ccpairs y) ->
  match cb_li x with Some i => (i, p) ∈ ccpairs y | None => True end ->
  exists l, (match cb_li x with
    | Some i =>
        y <-- the_cb b ;; l <-- eopt (item_del i (ccpairs y)) ;;
        upd_cb b (set_ccpairs l) ;;! upd_pair p (set_cb_li None)
    | None => eret tt
    end) s = Some (detached s b p y x l, inr tt) /\
    items_ok n l /\ (forall z, z ∈ l <-> z ∈ ccpairs y /\ cb_li x <> Some (fst z)) /\
    (cb_li x = None -> l = ccpairs y).
Proof.
  intros Hb Hp Hok Hin. destruct (cb_li x) as [i|] eqn:E.
  - destruct (items_del _ _ _ _ Hok Hin) as (l1 & l2 & Hl & Hd & Hok' & Hx).
    exists (l1 ++ l2). split; [|split; [done|]]; [|split; [|done]].
    + lrun (the_cb_run s b y Hb). rewrite Hd. cbn [eopt]. rewrite ebind_ret.
      lrun (upd_cb_run s b y (set_ccpairs (l1 ++ l2)) Hb).
      by rewrite (upd_pair_run (set_cbs (<[b:=set_ccpairs (l1 ++ l2) y]> (cbs s)) s) p x _ Hp).
    + intros z. rewrite Hx. split; (intros [? Hz]; split; [done|]); congruence.
  - exists (ccpairs y). split; [|split; [done|]]; [|split; [|done]].
    + unfold detached. assert (set_cb_li None x = x) as -> by (unfold set_cb_li; destruct x; cbn in *; congruence).
      assert (set_ccpairs (ccpairs y) y = y) as -> by by destruct y.
      rewrite !insert_id by done. by destruct s.
    + intros z. by split; [|intros []].
Qed.

(** The end of [break_ccpair]: the references go. *)
Record release_step (s s' : ropa) (rc rb : Z -> Z) (p b c : Z)
    (x : ropa_ccpair) (y y' : ropa_cb) (xc xc' : ropa_client) (n : Z) : Prop := {
  re_cli : client_inv s' (bump c (-1) rc) None;
  re_cb : cb_inv s' (bump b (-1) rb) None;
  re_pairs : pairs s' = <[p := set_li (Some n) (set_cb None (set_client None x))]> (pairs s);
  re_tab : ht_ccpairs s' = ht_ccpairs s;
  re_heap : heap_ccpairs s' = heap_ccpairs s ∖ {[p]};
  re_lru : lrus s' Lccpair = lrus s Lccpair ++ [(n, p)];
  re_n : nextli s <= n < nextli s';
  re_clients : clients s' = <[c := xc']> (clients s);
  re_cbs : cbs s' = <[b := y']> (cbs s);
  re_ccpairs : ccpairs y' = ccpairs y;
  re_net : same_net s s';
  re_client : if rc c =? 1 then unused xc' else kept_client xc xc';
  re_uuid : ht_clients_uuid s' = if rc c =? 1 then delete (uuid xc) (ht_clients_uuid s) else ht_clients_uuid s;
  re_conn : conn xc' = conn xc;
  re_cbtab : ht_callbacks s' = if rb b =? 1 then delete (fid y) (ht_callbacks s) else ht_callbacks s;
  re_fid : rb b <> 1 -> fid y' = fid y
}.
Definition release (p b c : Z) : RM unit :=
  client_deref c ;;! upd_pair p (set_client None) ;;!
  callback_deref b ;;! upd_pair p (set_cb None) ;;!
  emod (fun s => set_heap (heap_ccpairs s ∖ {[p]}) s) ;;!
  i <-- lru_addtail Lccpair p ;; upd_pair p (set_li (Some i)).
Lemma release_run s rc rb p b c x y xc : client_inv s rc None -> cb_inv s rb None ->
  pairs s !! p = Some x -> cbs s !! b = Some y -> clients s !! c = Some xc ->
  1 <= rc c -> 1 <= rb b -> (rb b = 1 -> ccpairs y = []) ->
  exists s' y' xc' n, release p b c s = Some (s', inr tt) /\
    release_step s s' rc rb p b c x y y' xc xc' n.
Proof.
  intros Hic Hib Hp Hb Hc Hrc Hrb Hempty. unfold release.
  pose proof (ci_cli _ _ _ Hic c xc Hc) as Hli. destruct (cli xc) as [i|] eqn:Ei; [|done].
  destruct (client_deref_run s rc None c xc i Hic Hc Ei Hrc)
    as (s1 & xc' & Hr1 & Hic1 & [[B1 B2 B3] [P1 P2 P3 P4] M1] & [N1 N2 N3 N4] & Hconn & Hun).
  lrun Hr1. assert (Hp1 : pairs s1 !! p = Some x) by (by rewrite P1).
  lrun (upd_pair_run s1 p x (set_client None) Hp1). set (x2 := set_client None x). set (s2 := set_pairs _ s1).
  assert (Hib2 : cb_inv s2 rb None) by (apply (cb_inv_same s); [by split|done|done]).
  assert (Hb2 : cbs s2 !! b = Some y) by (cbn; by rewrite B1).
  pose proof (bi_li _ _ _ Hib b y Hb) as Hlb. destruct (cbli y) as [j|] eqn:Ej; [|done].
  destruct (callback_deref_run s2 rb None b y Hib2 Hb2 j Ej Hrb Hempty)
    as (s3 & y' & Hr3 & Hib3 & [[C1 C2 C3 C4] [Q1 Q2 Q3 Q4] M3] & [O1 O2 O3 O4] & Hcc & Hcb).
  lrun Hr3. assert (Hp3 : pairs s3 !! p = Some x2) by (rewrite Q1; apply lookup_insert_eq).
  lrun (upd_pair_run s3 p x2 (set_cb None) Hp3). set (x4 := set_cb None x2). set (s4 := set_pairs _ s3).
  rewrite ebind_mod. set (s5 := set_heap _ s4). lrun (ropa_addtail_run s5 Lccpair p).
  set (s6 := set_lru _ _ _). assert (Hp6 : pairs s6 !! p = Some x4) by apply lookup_insert_eq.
  rewrite (upd_pair_run s6 p x4 _ Hp6). set (s7 := set_pairs _ s6).
  exists s7, y', xc', (nextli s3). split; [done|].
  assert (Hic7 : client_inv s7 (bump c (-1) rc) None).
  { apply (client_inv_same s1); [by split| |done]. change (nextli s1 <= nextli s3 + 1). cbn in O4. lia. }
  assert (Hib7 : cb_inv s7 (bump b (-1) rb) None).
  { apply (cb_inv_same s3); [by split| |done]. change (nextli s3 <= nextli s3 + 1). lia. }
  split; try done.
  - unfold s7, s6, s5, s4. cbn. rewrite Q1. cbn. by rewrite P1, !insert_insert_eq.
  - by cbn; rewrite Q2; cbn.
  - by cbn; rewrite Q3; cbn; rewrite P3.
  - by cbn; rewrite Q4; cbn; rewrite P4.
  - cbn. cbn in O4. lia.
  - by cbn; rewrite C1; cbn.
  - cbn. rewrite M3. cbn. by rewrite B1.
  - split; cbn; cbn in *; try congruence. lia.
  - by destruct (rc c =? 1); destruct Hun.
  - cbn. rewrite C3. cbn. by destruct (rc c =? 1); destruct Hun.
  - cbn. cbn in Hcb. rewrite B2 in Hcb. by destruct (rb b =? 1); [|destruct Hcb].
  - intros Hne. apply Z.eqb_neq in Hne. rewrite Hne in Hcb. by destruct Hcb.
Qed.

(** ** The state after it *)

Definition free_pair (n : Z) : ropa_ccpair := Ccpair None None None 0 (Some n).

Section Broken.
Context (s s' : ropa) (det : gset Z) (l : option Z) (p b c n : Z)
  (x : ropa_ccpair) (y y' : ropa_cb).
Context (Hi : pair_inv s det l) (Hl : l = None \/ l = Some p)
  (Hp : pairs s !! p = Some x) (Hxb : cb x = Some b) (Hxc : client x = Some c) (Hb : cbs s !! b = Some y)
  (Hpairs : pairs s' = <[p := free_pair n]> (pairs s))
  (Htab : ht_ccpairs s' = delete (b, c) (ht_ccpairs s))
  (Hheap : heap_ccpairs s' = heap_ccpairs s ∖ {[p]})
  (Hok : items_ok (nextli s') (lrus s' Lccpair))
  (Hlru : forall z, z ∈ lrus s' Lccpair <-> (z ∈ lrus s Lccpair /\ li x <> Some (fst z)) \/ z = (n, p))
  (Hcs : forall c' xc, clients s !! c' = Some xc -> exists xc', clients s' !! c' = Some xc')
  (Hcbs : cbs s' = <[b := y']> (cbs s))
  (Hokb : items_ok (nextli s') (ccpairs y'))
  (Hccp : forall z, z ∈ ccpairs y' <-> z ∈ ccpairs y /\ cb_li x <> Some (fst z))
  (Hnext : nextli s <= nextli s').

Lemma broken_pair_ne q z : q <> p -> pairs s' !! q = Some z -> pairs s !! q = Some z.
Proof. intros Hne. by rewrite Hpairs, lookup_insert_ne. Qed.
Lemma broken_tab_old : ht_ccpairs s !! (b, c) = Some p.
Proof. pose proof (pi_pair _ _ _ Hi p x Hp) as H. rewrite Hxb, Hxc in H. apply H. Qed.

Lemma broken_pair q z : q <> p -> pairs s !! q = Some z ->
  match client z, cb z with
  | Some c', Some b' => ht_ccpairs s' !! (b', c') = Some q /\ q ∈ heap_ccpairs s' /\
      (exists xc, clients s' !! c' = Some xc) /\
      exists w, cbs s' !! b' = Some w /\
        match cb_li z with Some i => (i, q) ∈ ccpairs w | None => q ∈ det ∖ {[p]} end
  | None, None => (q ∉ heap_ccpairs s') /\ cb_li z = None
  | _, _ => False
  end.
Proof.
  intros Hne Hq. pose proof (pi_pair _ _ _ Hi q z Hq) as H.
  destruct (client z) as [c'|], (cb z) as [b'|]; try done.
  - destruct H as (H1 & H2 & (xc & H3) & w & Hw & H4).
    split; [|split; [|split; [by eapply Hcs|]]].
    + rewrite Htab, lookup_delete_ne; [done|]. intros E. rewrite <- E, broken_tab_old in H1. congruence.
    + rewrite Hheap. set_solver.
    + rewrite Hcbs. destruct (decide (b' = b)) as [->|Hnb].
      * exists y'. rewrite lookup_insert_eq. split; [done|]. assert (w = y) as -> by congruence.
        destruct (cb_li z) as [i|]; [|set_solver]. apply Hccp. split; [done|]. intros E.
        pose proof (pi_pair _ _ _ Hi p x Hp) as Hx. rewrite Hxb, Hxc in Hx.
        destruct Hx as (_ & _ & _ & y2 & Hy2 & Hx). assert (y2 = y) as -> by congruence.
        rewrite E in Hx. destruct (pi_list _ _ _ Hi b y Hb) as [Hoy _].
        by rewrite (items_unique _ _ _ _ _ Hoy H4 Hx) in Hne.
      * exists w. rewrite lookup_insert_ne by done. split; [done|]. destruct (cb_li z); [done|set_solver].
  - rewrite Hheap. set_solver.
Qed.

Lemma broken_list b' w : cbs s' !! b' = Some w -> items_ok (nextli s') (ccpairs w) /\
  forall i q, (i, q) ∈ ccpairs w -> exists z, pairs s' !! q = Some z /\ cb z = Some b' /\ cb_li z = Some i.
Proof.
  rewrite Hcbs. intros Hw. destruct (decide (b' = b)) as [->|Hnb].
  - rewrite lookup_insert_eq in Hw. injection Hw as <-. split; [done|]. intros i q [Hq Hx]%Hccp.
    destruct (pi_list _ _ _ Hi b y Hb) as [_ Hy]. destruct (Hy i q Hq) as (z & Hz & Hzb & Hzi).
    exists z. rewrite Hpairs, lookup_insert_ne; [done|]. intros <-. rewrite Hp in Hz.
    injection Hz as <-. done.
  - rewrite lookup_insert_ne in Hw by done. destruct (pi_list _ _ _ Hi b' w Hw) as [Ho Hy].
    split; [by eapply items_mono|]. intros i q Hq. destruct (Hy i q Hq) as (z & Hz & Hzb & Hzi).
    exists z. rewrite Hpairs, lookup_insert_ne; [done|]. intros <-. congruence.
Qed.

Lemma pair_inv_broken : pair_inv s' (det ∖ {[p]}) None.
Proof.
  assert (Hnew : pairs s' !! p = Some (free_pair n)) by (rewrite Hpairs; apply lookup_insert_eq).
  split; [done|..].
  - intros q z Hq. destruct (decide (q = p)) as [->|Hne].
    + rewrite Hnew in Hq. injection Hq as <-. cbn. apply Hlru. by right.
    + apply broken_pair_ne in Hq; [|done]. pose proof (pi_li _ _ _ Hi q z Hq) as Hz.
      destruct (li z) as [i|]; [|destruct Hl; congruence]. apply Hlru. left. split; [done|]. intros E.
      pose proof (pi_li _ _ _ Hi p x Hp) as Hx. rewrite E in Hx.
      by rewrite (items_unique _ _ _ _ _ (pi_items _ _ _ Hi) Hz Hx) in Hne.
  - intros i q Hq. apply Hlru in Hq as [[Hq _]|[= -> ->]]; [|by eexists].
    destruct (pi_item _ _ _ Hi i q Hq) as (z & Hz). rewrite Hpairs.
    destruct (decide (q = p)) as [->|Hne]; [rewrite lookup_insert_eq|rewrite lookup_insert_ne by done]; by eexists.
  - intros q z Hq. destruct (decide (q = p)) as [->|Hne].
    + rewrite Hnew in Hq. injection Hq as <-. cbn. rewrite Hheap. set_solver.
    + apply broken_pair; [done|]. by apply broken_pair_ne.
  - intros b' c' q Hq. rewrite Htab in Hq. apply lookup_delete_Some in Hq as [Hk Hq].
    destruct (pi_tab _ _ _ Hi b' c' q Hq) as (z & Hz & Hzb & Hzc). exists z.
    rewrite Hpairs, lookup_insert_ne; [done|]. intros <-. rewrite Hp in Hz. injection Hz as <-. congruence.
  - intros q Hq. rewrite Hheap in Hq. apply elem_of_difference in Hq as [Hq Hne].
    destruct (pi_heap _ _ _ Hi q Hq) as (z & c' & Hz & Hc'). exists z, c'.
    rewrite Hpairs, lookup_insert_ne; [done|]. set_solver.
  - apply broken_list.
Qed.
End Broken.

(** ** [break_ccpair] *)

Lemma break_notify_run s c xc b y (notify : bool) : clients s !! c = Some xc -> cbs s !! b = Some y ->
  numberOfInterfaces xc = 1 -> (notify = true -> reachable xc) ->
  exists s' xc' m, (if notify then y <-- the_cb b ;; notify_client c [fid y] else eret tt) s = Some (s', inr tt) /\
    told_step s s' c xc xc' m /\ if notify then told xc [fid y] m else m = [].
Proof.
  intros Hc Hb Hn Hr. destruct notify.
  - destruct (notify_client_run c s xc [fid y] Hc Hn (Hr eq_refl)) as (s' & xc' & m & Hrun & Hst & Ht).
    exists s', xc', m. split; [|done]. by lrun (the_cb_run s b y Hb).
  - exists s, xc, []. split; [done|]. split; [|done]. split; try done; [symmetry; by apply insert_id|by left].
Qed.

Lemma cb_inv_detach s s' rb l b y k : cb_inv s rb l -> cbs s !! b = Some y ->
  cbs s' = <[b := set_ccpairs k y]> (cbs s) -> ht_callbacks s' = ht_callbacks s ->
  lrus s' Lcallback = lrus s Lcallback -> nextli s <= nextli s' -> cb_inv s' rb l.
Proof.
  intros Hi Hb Hcs Ht Hl Hn. destruct (bi_ref _ _ _ Hi b y Hb).
  apply (cb_inv_update s s' rb rb l l b y (set_ccpairs k y) Hi Hb Hcs); rewrite ?Ht, ?Hl; try done.
  - eapply items_mono; [done|]. apply (bi_items _ _ _ Hi).
  - apply (bi_li _ _ _ Hi b y Hb).
  - intros i Hin. destruct (bi_item _ _ _ Hi i b Hin) as (z & Hz & Hzi). cbn. congruence.
  - case_decide as E; [exact (cb_table_none s rb l b Hi E)|exact (cb_table_own s rb l b y Hi Hb E)].
Qed.

(** With the last reference of a callback its last pair goes. *)
Lemma last_pair s hc hb det l p b c y x k : rinv s hc hb det l ->
  ht_ccpairs s !! (b, c) = Some p -> pairs s !! p = Some x -> cbs s !! b = Some y ->
  (forall z, z ∈ k <-> z ∈ ccpairs y /\ cb_li x <> Some (fst z)) ->
  nof fst (ht_ccpairs s) b + hb b = 1 -> k = [].
Proof.
  intros H Ht Hp Hb Hk H1. destruct k as [|[i q] k]; [done|exfalso].
  pose proof (nof_pos fst _ _ _ Ht) as Hpos. pose proof (ri_hb _ _ _ _ _ H b) as Hh. cbn [fst] in Hpos.
  destruct (proj1 (Hk (i, q)) ltac:(left)) as [Hin Hne].
  destruct (pi_list _ _ _ (ri_pair _ _ _ _ _ H) b y Hb) as [_ Hy].
  destruct (Hy i q Hin) as (z & Hz & Hzb & Hzi).
  pose proof (pi_pair _ _ _ (ri_pair _ _ _ _ _ H) q z Hz) as Hq. rewrite Hzb in Hq.
  destruct (client z) as [c'|]; [|done]. destruct Hq as (Hq & _).
  pose proof (nof_one fst _ _ _ _ _ Ht ltac:(cbn [fst]; lia) Hq eq_refl) as [= ->].
  rewrite Ht in Hq. injection Hq as <-. rewrite Hp in Hz. injection Hz as <-. by destruct Hne.
Qed.

(** The counters without the pair *)
Lemma nof_gone (f : Z * Z -> Z) (m : gmap (Z * Z) Z) (k : Z * Z) (p : Z) (h : Z -> Z) : m !! k = Some p ->
  forall z, bump (f k) (-1) (fun z => nof f m z + h z) z = nof f (delete k m) z + h z.
Proof.
  intros Hk z. rewrite (nof_delete f m k p z Hk). destruct (Z.eq_dec z (f k)) as [->|Hne].
  - rewrite bump_eq, decide_True by done. lia.
  - rewrite bump_ne, decide_False by congruence. lia.
Qed.

(** What [break_ccpair] changes. *)
Record break_step (s s' : ropa) (p b c : Z) (x : ropa_ccpair) (y y' : ropa_cb) (xc xc' : ropa_client)
    (hc hb : Z -> Z) (m : list message) : Prop := {
  bk_pairs : exists n, pairs s' = <[p := free_pair n]> (pairs s);
  bk_tab : ht_ccpairs s' = delete (b, c) (ht_ccpairs s);
  bk_heap : heap_ccpairs s' = heap_ccpairs s ∖ {[p]};
  bk_clients : clients s' = <[c := xc']> (clients s);
  bk_client : if nof snd (ht_ccpairs s) c + hc c =? 1 then unused xc' else kept_client xc xc';
  bk_cbs : cbs s' = <[b := y']> (cbs s);
  bk_ccpairs : cb_li x = None -> ccpairs y' = ccpairs y;
  bk_fid : nof fst (ht_ccpairs s) b + hb b <> 1 -> fid y' = fid y;
  bk_cbtab : ht_callbacks s' = if nof fst (ht_ccpairs s) b + hb b =? 1
    then delete (fid y) (ht_callbacks s) else ht_callbacks s;
  bk_now : now s' = now s;
  bk_sent : sent s' = m ++ sent s;
  bk_answer : (replies s' = replies s /\ conn xc' = conn xc) \/
    forall r l, replies s = r :: l -> fst r = 0 -> replies s' = l /\ reachable xc'
}.

(** Up to the release of the references: the pair is off the lists, out of the
    table, and the client has been told. *)
Record begun (s s' : ropa) (rc rb : Z -> Z) (p b c : Z) (x : ropa_ccpair) (y : ropa_cb)
    (xc xc' : ropa_client) (k : list (Z * Z)) (m : list message) : Prop := {
  bg_cli : client_inv s' rc None;
  bg_cb : cb_inv s' rb None;
  bg_pairs : pairs s' = <[p := set_cb_li None (set_expire 0 x)]> (pairs s);
  bg_tab : ht_ccpairs s' = delete (b, c) (ht_ccpairs s);
  bg_heap : heap_ccpairs s' = heap_ccpairs s;
  bg_ok : items_ok (nextli s) (lrus s' Lccpair);
  bg_lru z : z ∈ lrus s' Lccpair <-> z ∈ lrus s Lccpair /\ li x <> Some (fst z);
  bg_next : nextli s' = nextli s;
  bg_clients : clients s' = <[c := xc']> (clients s);
  bg_kept : kept_client xc xc';
  bg_cbs : cbs s' = <[b := set_ccpairs k y]> (cbs s);
  bg_cbtab : ht_callbacks s' = ht_callbacks s;
  bg_okk : items_ok (nextli s) k;
  bg_k z : z ∈ k <-> z ∈ ccpairs y /\ cb_li x <> Some (fst z);
  bg_k_same : cb_li x = None -> k = ccpairs y;
  bg_now : now s' = now s;
  bg_sent : sent s' = m ++ sent s;
  bg_answer : (replies s' = replies s /\ conn xc' = conn xc) \/
    forall r l, replies s = r :: l -> fst r = 0 -> replies s' = l /\ reachable xc'
}.

Lemma break_begin_run s rc rb det l p x b c y xc (notify : bool) :
  client_inv s rc None -> cb_inv s rb None -> pair_inv s det l -> registered s c xc ->
  pairs s !! p = Some x -> cb x = Some b -> client x = Some c -> cbs s !! b = Some y -> clients s !! c = Some xc ->
  (notify = true -> reachable xc) ->
  exists s' xc' k m, break_ccpair p notify s = release p b c s' /\
    begun s s' rc rb p b c x y xc xc' k m /\ if notify then told xc [fid y] m else m = [].
Proof.
  intros Hic Hib Hip Hreg Hp Hxb Hxc Hb Hc Hr.
  pose proof (pi_pair _ _ _ Hip p x Hp) as Hx. rewrite Hxb, Hxc in Hx.
  destruct Hx as (Ht & _ & _ & y0 & Hy0 & Hcl). assert (y0 = y) as -> by congruence.
  unfold break_ccpair. lrun (upd_pair_run s p x (set_expire 0) Hp).
  set (x1 := set_expire 0 x). set (s1 := set_pairs _ s).
  lrun (the_pair_run s1 p x1 (lookup_insert_eq _ _ _)). change (li x1) with (li x).
  destruct (unlink_run s1 p (li x) (pi_items _ _ _ Hip)) as (s2 & Hr2 & U).
  { pose proof (pi_li _ _ _ Hip p x Hp) as Hli. by destruct (li x). }
  destruct U as [[U1 U2 U3 U4] [V1 V2 V3] [N1 N2 N3 _] U7 U8 U9 U10 U11 U12]. lrun Hr2.
  change (cb x1) with (cb x). change (client x1) with (client x). rewrite Hxb, Hxc. cbn [eopt]. rewrite !ebind_ret.
  assert (Hc2 : clients s2 !! c = Some xc) by (by rewrite U1).
  destruct (break_notify_run s2 c xc b y notify Hc2) as (s3 & xc3 & m & Hr3 & T & Hm);
    [by rewrite V1|apply Hreg|done|]. lrun Hr3.
  assert (Hic3 : client_inv s3 rc None).
  { apply (told_client_inv s2 s3 rc None c xc xc3 m); [|done| |done].
    - apply (client_inv_same s); [by split| |done]. rewrite U7. done.
    - right. destruct Hreg as (? & ? & ?). split_and!; try done. by rewrite U3. }
  destruct T as [[T1 T2 T3] [T4 T5 T6 T7] T8 T9 T10 T11 T12 T13 T14 T15 T16 T17 T18].
  assert (Hp3 : pairs s3 !! p = Some x1) by (rewrite T4, U8; apply lookup_insert_eq).
  assert (Hb3 : cbs s3 !! b = Some y) by (by rewrite T1, V1).
  destruct (detach_run s3 b p y x1 (nextli s) Hb3 Hp3) as (k & Hr4 & Hokk & Hk & Hk0).
  { by apply (pi_list _ _ _ Hip b). } { change (cb_li x1) with (cb_li x). by destruct (cb_li x). }
  lrun Hr4. set (s4 := detached _ _ _ _ _ _). rewrite ebind_get.
  change (ht_ccpairs s4) with (ht_ccpairs s3). rewrite T5, U9. change (ht_ccpairs s1) with (ht_ccpairs s).
  unfold map_del. rewrite Ht, ebind_mod. cbn [Z.eqb eassert]. rewrite ebind_ret. set (s5 := set_ht_ccpairs _ s4).
  assert (Hn5 : nextli s5 = nextli s) by (change (nextli s3 = nextli s); rewrite T13, U7; done).
  exists s5, xc3, k, m. split; [reflexivity|]. split; [|done]. split; try done.
  - by apply (client_inv_same s3).
  - apply (cb_inv_detach s s5 rb None b y k); [done|done| | | |lia]; cbn.
    + by rewrite T1, V1.
    + by rewrite T2, V2.
    + by rewrite T3, V3.
  - cbn. rewrite T4, U8. apply insert_insert_eq.
  - cbn. by rewrite T6, U10.
  - cbn. by rewrite T7.
  - intros z. cbn. rewrite T7. apply U12.
  - cbn. by rewrite T8, U1.
  - cbn. by rewrite T1, V1.
  - cbn. by rewrite T2, V2.
  - cbn. by rewrite T12, N1.
  - cbn. by rewrite T17, N3.
  - cbn. rewrite N2 in T18. exact T18.
Qed.

Lemma kept_client_trans x1 x2 x3 : kept_client x1 x2 -> kept_client x2 x3 -> kept_client x1 x3.
Proof. intros (?&?&?&?&?&?&?) (?&?&?&?&?&?&?). split_and!; congruence. Qed.

Lemma break_ccpair_run s hc hb det l p x b c y xc (notify : bool) :
  rinv s hc hb det l -> (l = None \/ l = Some p) ->
  pairs s !! p = Some x -> cb x = Some b -> client x = Some c -> cbs s !! b = Some y -> clients s !! c = Some xc ->
  (notify = true -> reachable xc) ->
  exists s' y' xc' m, break_ccpair p notify s = Some (s', inr tt) /\ rinv s' hc hb (det ∖ {[p]}) None /\
    break_step s s' p b c x y y' xc xc' hc hb m /\ if notify then told xc [fid y] m else m = [].
Proof.
  intros H Hl Hp Hxb Hxc Hb Hc Hr. pose proof H as [Hic Hib Hip Hhc Hhb].
  set (rc := fun c => nof snd (ht_ccpairs s) c + hc c) in *. set (rb := fun b => nof fst (ht_ccpairs s) b + hb b) in *.
  assert (Ht : ht_ccpairs s !! (b, c) = Some p) by by apply (broken_tab_old s det l p b c x Hip Hp).
  pose proof (paired_registered s hc hb det l H b c p xc Ht Hc) as Hreg.
  pose proof (nof_pos snd _ _ _ Ht) as Hpc. pose proof (nof_pos fst _ _ _ Ht) as Hpb. cbn [fst snd] in Hpc, Hpb.
  destruct (break_begin_run s rc rb det l p x b c y xc notify) as (s5 & xc3 & k & m & Hr5 & G & Hm); try done.
  destruct G as [Hic5 Hib5 G1 G2 G3 G4 G5 G6 G7 G8 G9 G10 G11 G12 G13 G14 G15 G16].
  specialize (Hhc c) as Hhc'. specialize (Hhb b) as Hhb'.
  destruct (release_run s5 rc rb p b c (set_cb_li None (set_expire 0 x)) (set_ccpairs k y) xc3 Hic5 Hib5)
    as (s' & y' & xc' & n & Hr6 & R).
  { rewrite G1. apply lookup_insert_eq. } { rewrite G9. apply lookup_insert_eq. }
  { rewrite G7. apply lookup_insert_eq. } { unfold rc. lia. } { unfold rb. lia. }
  { intros E. cbn. by apply (last_pair s hc hb det l p b c y x). }
  destruct R as [R1 R2 R3 R4 R5 R6 R7 R8 R9 R10 [W1 W2 W3 W4] R11 R12 R13 R14 R15].
  exists s', y', xc', m. rewrite Hr5. split; [exact Hr6|].
  assert (Hpairs : pairs s' = <[p := free_pair n]> (pairs s)) by (rewrite R3, G1; apply insert_insert_eq).
  assert (Htab : ht_ccpairs s' = delete (b, c) (ht_ccpairs s)) by (by rewrite R4).
  assert (Hheap : heap_ccpairs s' = heap_ccpairs s ∖ {[p]}) by (by rewrite R5, G3).
  assert (Hcs : clients s' = <[c := xc']> (clients s)) by (rewrite R8, G7; apply insert_insert_eq).
  assert (Hcb : cbs s' = <[b := y']> (cbs s)) by (rewrite R9, G9; apply insert_insert_eq).
  split; [split; try done|split; [split; try done|]].
  - rewrite Htab. apply (client_inv_ext s' (bump c (-1) rc)); [|done]. apply (nof_gone snd _ (b, c) p hc Ht).
  - rewrite Htab. apply (cb_inv_ext s' (bump b (-1) rb)); [|done]. apply (nof_gone fst _ (b, c) p hb Ht).
  - apply (pair_inv_broken s s' det l p b c n x y y'); try done.
    + rewrite R6. apply (items_mono (n + 1)); [lia|]. apply items_tail. by apply (items_mono (nextli s)); [lia|].
    + intros z. by rewrite R6, elem_of_app, G5, list_elem_of_singleton.
    + intros c' z Hz. rewrite Hcs. destruct (decide (c' = c)) as [->|];
        [rewrite lookup_insert_eq|rewrite lookup_insert_ne by done]; by eexists.
    + rewrite R10. by apply (items_mono (nextli s)); [lia|].
    + intros z. rewrite R10. apply G12.
    + lia.
  - by exists n.
  - change (nof snd (ht_ccpairs s) c + hc c) with (rc c).
    destruct (rc c =? 1); [done|]. by apply (kept_client_trans xc xc3).
  - intros E. rewrite R10. by apply G13.
  - change (nof fst (ht_ccpairs s) b + hb b) with (rb b). by rewrite R14, G10.
  - by rewrite W1.
  - by rewrite W3.
  - unfold reachable. rewrite W2, R13. exact G16.
  - done.
Qed.
