(* ===== verification/RopaLoop.v ===== *)
(** * Callbacks: breaking all promises of a callback

    The references that a procedure takes, and the loop of [break_callback]. *)

From S2P Require Import Prelude Items Estate Hash HashCorrect Fdir Ropa RopaIp RopaInv RopaCb RopaPair.
From S2P Require Import RopaBreak.

Local Open Scope em_scope.

(** ** References of a procedure *)

Lemma pair_inv_frame s s' det l : pair_inv s det l -> same_pairs s s' -> nextli s <= nextli s' ->
  (forall c x, clients s !! c = Some x -> exists x', clients s' !! c = Some x') ->
  (forall b y, cbs s !! b = Some y -> exists y', cbs s' !! b = Some y' /\ ccpairs y' = ccpairs y) ->
  (forall b y', cbs s' !! b = Some y' -> exists y, cbs s !! b = Some y /\ ccpairs y' = ccpairs y) ->
  pair_inv s' det l.
Proof.
  intros [H1 H2 H3 H4 H5 H6 H7] [E1 E2 E3 E4] Hn Hc Hb Hb'. split; rewrite ?E1, ?E2, ?E3, ?E4; try done.
  - by eapply items_mono.
  - intros p x Hp. specialize (H4 p x Hp). destruct (client x) as [c|], (cb x) as [b|]; try done.
    destruct H4 as (? & ? & (xc & Hxc) & y & Hy & Hyl). destruct (Hb b y Hy) as (y' & Hy' & E).
    split_and!; try done; [by eapply Hc|]. exists y'. by rewrite E.
  - intros b y' Hy'. destruct (Hb' b y' Hy') as (y & Hy & E). rewrite E. destruct (H7 b y Hy) as [Ho Hl].
    split; [by eapply items_mono|done].
Qed.

Lemma bump_add (n h : Z -> Z) c d z : bump c d (fun x => n x + h x) z = n z + bump c d h z.
Proof. unfold bump. case_match; lia. Qed.
Lemma bump_nonneg c d h : (forall z, 0 <= h z) -> 0 <= h c + d -> forall z, 0 <= bump c d h z.
Proof. intros H Hd z. unfold bump. case_match; [|done]. assert (z = c) as -> by lia. done. Qed.

Section Holds.
Context (s : ropa) (hc hb : Z -> Z) (det : gset Z) (l : option Z) (H : rinv s hc hb det l).

(** Another step on one callback or client only. *)
Lemma rinv_cb_step s' hb' b y y' : cbs s !! b = Some y -> cb_step s s' b y' -> same_net s s' ->
  ccpairs y' = ccpairs y -> cb_inv s' (fun b => nof fst (ht_ccpairs s) b + hb' b) None ->
  (forall z, 0 <= hb' z) -> rinv s' hc hb' det l.
Proof.
  intros Hb [Sc Sp Sm] [_ _ _ Hn] E Hi Hh. pose proof Sp as [P1 P2 P3 P4].
  split; [| | |apply (ri_hc _ _ _ _ _ H)|done]; rewrite ?P2.
  - by apply (client_inv_same s); [| |apply (ri_cli _ _ _ _ _ H)].
  - done.
  - apply (pair_inv_frame s); [apply (ri_pair _ _ _ _ _ H)|done|done|..]; rewrite ?Sm.
    + rewrite (sc_clients _ _ Sc). by eexists.
    + intros b' z Hz. destruct (decide (b' = b)) as [->|]; [rewrite lookup_insert_eq|rewrite lookup_insert_ne by done].
      * exists y'. split; [done|]. congruence.
      * by exists z.
    + intros b' z. destruct (decide (b' = b)) as [->|]; [rewrite lookup_insert_eq|rewrite lookup_insert_ne by done].
      * intros [= <-]. by exists y.
      * by exists z.
Qed.
Lemma rinv_client_step s' hc' c x x' : clients s !! c = Some x -> client_step s s' c x' -> nextli s <= nextli s' ->
  client_inv s' (fun c => nof snd (ht_ccpairs s) c + hc' c) None ->
  (forall z, 0 <= hc' z) -> rinv s' hc' hb det l.
Proof.
  intros Hc [Sb Sp Sm] Hn Hi Hh. pose proof Sp as [P1 P2 P3 P4]. pose proof Sb as [B1 _ _].
  split; [| | |done|apply (ri_hb _ _ _ _ _ H)]; rewrite ?P2.
  - done.
  - by apply (cb_inv_same s); [| |apply (ri_cb _ _ _ _ _ H)].
  - apply (pair_inv_frame s); [apply (ri_pair _ _ _ _ _ H)|done|done|..]; rewrite ?Sm, ?B1.
    + intros c' z Hz. destruct (decide (c' = c)) as [->|]; [rewrite lookup_insert_eq|rewrite lookup_insert_ne by done];
        by eexists.
    + by eexists.
    + by eexists.
Qed.

Lemma hold_cb_run b y : cbs s !! b = Some y -> nof fst (ht_ccpairs s) b + hb b <> 0 ->
  exists s' y', callback_ref b s = Some (s', inr tt) /\ rinv s' hc (bump b 1 hb) det l /\
    cb_step s s' b y' /\ same_net s s' /\ fid y' = fid y /\ ccpairs y' = ccpairs y /\
    ht_callbacks s' = ht_callbacks s.
Proof.
  intros Hb Hr. destruct (cb_item s hc hb det l H b y Hb) as (i & Ei).
  destruct (callback_ref_run s _ None b y (ri_cb _ _ _ _ _ H) Hb i Ei)
    as (s' & y' & Hrun & Hst & Hn & Hf & Hcc & _ & Ht & Hi & _).
  exists s', y'. split; [done|]. split; [|by split_and!].
  apply (rinv_cb_step s' (bump b 1 hb) b y y'); try done.
  - by apply (cb_inv_ext s' _ _ None (bump_add _ hb b 1)), Hi.
  - apply bump_nonneg; [apply (ri_hb _ _ _ _ _ H)|]. pose proof (ri_hb _ _ _ _ _ H b). lia.
Qed.

Lemma hold_client_run c x : clients s !! c = Some x -> registered s c x ->
  exists s' x', client_ref c s = Some (s', inr tt) /\ rinv s' (bump c 1 hc) hb det l /\
    client_step s s' c x' /\ same_net s s' /\ kept_client x x' /\ conn x' = conn x.
Proof.
  intros Hc Hr. destruct (client_item s hc hb det l H c x Hc) as (i & Ei & _).
  destruct (client_ref_run s _ None c x (ri_cli _ _ _ _ _ H) Hc i Ei Hr)
    as (s' & x' & Hrun & Hi & Hst & Hn & Hk & Hcn).
  exists s', x'. split; [done|]. split; [|by split_and!].
  apply (rinv_client_step s' (bump c 1 hc) c x x'); try done; [apply Hn|..].
  - exact (client_inv_ext s' _ _ None (bump_add _ hc c 1) Hi).
  - apply bump_nonneg; [apply (ri_hc _ _ _ _ _ H)|]. pose proof (ri_hc _ _ _ _ _ H c). lia.
Qed.

(** A callback that only the procedure refers to has no pairs. *)
Lemma held_cb_empty b y : cbs s !! b = Some y -> nof fst (ht_ccpairs s) b = 0 -> ccpairs y = [].
Proof.
  intros Hb Hz. destruct (ccpairs y) as [|[i p] k] eqn:E; [done|exfalso].
  destruct (pi_list _ _ _ (ri_pair _ _ _ _ _ H) b y Hb) as [_ Hl].
  destruct (Hl i p) as (x & Hx & Hxb & _); [rewrite E; left|].
  pose proof (pi_pair _ _ _ (ri_pair _ _ _ _ _ H) p x Hx) as Hp. rewrite Hxb in Hp.
  destruct (client x) as [c|]; [|done]. destruct Hp as (Hp & _).
  pose proof (nof_pos fst _ _ _ Hp). cbn [fst] in *. lia.
Qed.

Lemma drop_cb_run b y : cbs s !! b = Some y -> 1 <= hb b ->
  exists s' y', callback_deref b s = Some (s', inr tt) /\ rinv s' hc (bump b (-1) hb) det l /\
    cb_step s s' b y' /\ same_net s s' /\ ccpairs y' = ccpairs y /\
    if nof fst (ht_ccpairs s) b + hb b =? 1 then ht_callbacks s' = delete (fid y) (ht_callbacks s)
    else fid y' = fid y /\ ht_callbacks s' = ht_callbacks s.
Proof.
  intros Hb Hh. destruct (cb_item s hc hb det l H b y Hb) as (i & Ei).
  pose proof (nof_nonneg fst (ht_ccpairs s) b) as Hn0.
  destruct (callback_deref_run s _ None b y (ri_cb _ _ _ _ _ H) Hb i Ei) as (s' & y' & Hrun & Hi & Hst & Hn & Hcc & Ht).
  { cbn. lia. } { cbn. intros E. apply (held_cb_empty b y Hb). lia. }
  exists s', y'. split; [done|]. split; [|by split_and!].
  apply (rinv_cb_step s' (bump b (-1) hb) b y y'); try done.
  - exact (cb_inv_ext s' _ _ None (bump_add _ hb b (-1)) Hi).
  - apply bump_nonneg; [apply (ri_hb _ _ _ _ _ H)|]. lia.
Qed.

Lemma drop_client_run c x : clients s !! c = Some x -> 1 <= hc c ->
  exists s' x', client_deref c s = Some (s', inr tt) /\ rinv s' (bump c (-1) hc) hb det l /\
    client_step s s' c x' /\ same_net s s' /\
    (nof snd (ht_ccpairs s) c + hc c <> 1 -> kept_client x x').
Proof.
  intros Hc Hh. destruct (client_item s hc hb det l H c x Hc) as (i & Ei & _).
  pose proof (nof_nonneg snd (ht_ccpairs s) c) as Hn0.
  destruct (client_deref_run s _ None c x i (ri_cli _ _ _ _ _ H) Hc Ei) as (s' & x' & Hrun & Hi & Hst & Hn & Hcn & Ht).
  { cbn. lia. }
  exists s', x'. split; [done|]. split; [|split_and!; try done].
  - apply (rinv_client_step s' (bump c (-1) hc) c x x'); try done; [apply Hn|..].
    + exact (client_inv_ext s' _ _ None (bump_add _ hc c (-1)) Hi).
    + apply bump_nonneg; [apply (ri_hc _ _ _ _ _ H)|]. lia.
  - intros Hne. cbn in Ht. rewrite (proj2 (Z.eqb_neq _ _) Hne) in Ht. by destruct Ht.
Qed.
End Holds.

(** ** A pair off the head of its list *)

Lemma rinv_detached s hc hb det l b y i p k x : rinv s hc hb det l -> cbs s !! b = Some y ->
  ccpairs y = (i, p) :: k -> pairs s !! p = Some x -> cb x = Some b -> cb_li x = Some i ->
  rinv (detached s b p y x k) hc hb (det ∪ {[p]}) l.
Proof.
  intros [Hc Hb Hp Hhc Hhb] Hby Ek Hx Hxb Hxi. destruct (pi_list _ _ _ Hp b y Hby) as [Hok Hin].
  rewrite Ek in Hok, Hin. destruct (items_tail_ok _ _ _ _ Hok) as [Hokk Hnot].
  split; [by apply (client_inv_same s)|by apply (cb_inv_detach s _ _ None b y k)| |done..].
  destruct Hp as [H1 H2 H3 H4 H5 H6 H7].
  assert (Hold : forall q z, pairs (detached s b p y x k) !! q = Some z ->
    exists z0, pairs s !! q = Some z0 /\ client z = client z0 /\ cb z = cb z0 /\ li z = li z0 /\
      (q = p -> cb_li z = None) /\ (q <> p -> z = z0)).
  { intros q z. cbn. destruct (decide (q = p)) as [->|Hne].
    - rewrite lookup_insert_eq. intros [= <-]. by exists x.
    - rewrite lookup_insert_ne by done. intros Hq. by exists z. }
  assert (Hnew : forall q z, pairs s !! q = Some z -> exists z', pairs (detached s b p y x k) !! q = Some z' /\
    client z' = client z /\ cb z' = cb z /\ (q <> p -> z' = z)).
  { intros q z Hq. cbn. destruct (decide (q = p)) as [->|Hne].
    - rewrite lookup_insert_eq. exists (set_cb_li None x). rewrite Hx in Hq. by injection Hq as <-.
    - rewrite lookup_insert_ne by done. by exists z. }
  split; try done.
  - intros q z Hq. destruct (Hold q z Hq) as (z0 & Hz0 & _ & _ & -> & _). by apply H2.
  - intros j q Hq. destruct (H3 j q Hq) as (z & Hz). destruct (Hnew q z Hz) as (z' & Hz' & _). by exists z'.
  - intros q z Hq. destruct (Hold q z Hq) as (z0 & Hz0 & -> & -> & _ & Hz & Hne). specialize (H4 q z0 Hz0).
    destruct (client z0) as [c|], (cb z0) as [b'|]; try done.
    + destruct H4 as (? & ? & ? & w & Hw & Hl). split_and!; try done. cbn.
      destruct (decide (b' = b)) as [->|Hnb]; [rewrite lookup_insert_eq|rewrite lookup_insert_ne by done].
      * eexists. split; [done|]. assert (w = y) as -> by congruence. cbn.
        destruct (decide (q = p)) as [->|Hq']; [rewrite Hz by done; set_solver|].
        rewrite Hne by done. destruct (cb_li z0) as [j|]; [|set_solver].
        rewrite Ek in Hl. apply elem_of_cons in Hl as [[= -> ->]|Hl]; done.
      * exists w. split; [done|]. destruct (decide (q = p)) as [->|Hq']; [rewrite Hz by done; set_solver|].
        rewrite Hne by done. destruct (cb_li z0); [done|set_solver].
    + destruct H4 as [? Hli]. split; [done|]. destruct (decide (q = p)) as [->|Hq']; [by apply Hz|].
      by rewrite Hne.
  - intros b' c q Hq. destruct (H5 b' c q Hq) as (z & Hz & Ez). destruct (Hnew q z Hz) as (z' & Hz' & E1 & E2 & _).
    exists z'. by rewrite E1, E2.
  - intros q Hq. destruct (H6 q Hq) as (z & c & Hz & Ez). destruct (Hnew q z Hz) as (z' & Hz' & E1 & _).
    exists z', c. by rewrite E1.
  - intros b' w. cbn. destruct (decide (b' = b)) as [->|Hnb];
      [rewrite lookup_insert_eq; intros [= <-]; split; [done|]|rewrite lookup_insert_ne by done; intros Hw].
    + intros j q Hj. cbn in Hj. destruct (Hin j q ltac:(by right)) as (z & Hz & E1 & E2).
      destruct (Hnew q z Hz) as (z' & Hz' & _ & _ & Hne). exists z'.
      assert (z' = z) as ->; [|done]. apply Hne. intros ->. rewrite Hx in Hz. injection Hz as <-.
      rewrite Hxi in E2. injection E2 as <-. by apply (Hnot p).
    + destruct (H7 b' w Hw) as [Ho Hl]. split; [done|]. intros j q Hj. destruct (Hl j q Hj) as (z & Hz & E1 & E2).
      destruct (Hnew q z Hz) as (z' & Hz' & _ & _ & Hne). exists z'.
      assert (z' = z) as ->; [|done]. apply Hne. intros ->. congruence.
Qed.

(** ** The loop of [break_callback] *)

Definition breaks (caller : option Z) (break_own : bool) (c : Z) : Prop := break_own = true \/ Some c <> caller.
(** The client [c] has the pair [p] of [l]. *)
Definition listed (s : ropa) (b : Z) (l : list Z) (c p : Z) : Prop := ht_ccpairs s !! (b, c) = Some p /\ p ∈ l.

(** From [s] to [s'], [l] being the pairs of the callback [b]. *)
Record loop_step (s s' : ropa) (b : Z) (y y' : ropa_cb) (l : list Z) (caller : option Z) (break_own : bool)
    (hc : Z -> Z) (m : list message) : Prop := {
  lp_cbs : cbs s' = <[b := y']> (cbs s);
  lp_empty : ccpairs y' = [];
  lp_fid : fid y' = fid y;
  lp_cbtab : ht_callbacks s' = ht_callbacks s;
  lp_now : now s' = now s;
  lp_sent : sent s' = m ++ sent s;
  lp_tab k p : ht_ccpairs s' !! k = Some p <->
    ht_ccpairs s !! k = Some p /\ ~ (p ∈ l /\ breaks caller break_own (snd k));
  lp_exp k p : ht_ccpairs s' !! k = Some p -> expire_of s' p = expire_of s p;
  lp_client c x : clients s !! c = Some x -> (forall p, ~ listed s b l c p) -> clients s' !! c = Some x;
  lp_held c x : clients s !! c = Some x -> 1 <= hc c -> exists x', clients s' !! c = Some x' /\ kept_client x x';
  lp_told c p x : listed s b l c p -> clients s !! c = Some x -> Some c <> caller -> first_call x [fid y] ∈ m;
  lp_only a : a ∈ m -> exists c p x, listed s b l c p /\ clients s !! c = Some x /\ Some c <> caller /\
    (a = first_call x [fid y] \/ a = own_call x [fid y])
}.

Lemma kept_client_refl x : kept_client x x.
Proof. by split_and!. Qed.

Lemma loop_step_nil s b y caller bo hc : cbs s !! b = Some y -> ccpairs y = [] ->
  loop_step s s b y y [] caller bo hc [].
Proof.
  intros Hb He. split; try done.
  - symmetry. by apply insert_id.
  - intros k p. split; [intros Hk; split; [done|]; by intros [?%not_elem_of_nil _]|by intros [? _]].
  - intros c x Hc _. exists x. split; [done|]. apply kept_client_refl.
  - intros c p x [_ []%not_elem_of_nil].
  - intros a []%not_elem_of_nil.
Qed.

(** The caller's pair is taken off the list and kept for later. *)
Lemma loop_step_keep s s' b y y' p k l caller hc x m :
  cbs s !! b = Some y -> pairs s !! p = Some x -> client x = caller ->
  (forall c, ht_ccpairs s !! (b, c) = Some p -> Some c = caller) ->
  (forall k', ht_ccpairs s !! k' = Some p -> fst k' = b) ->
  loop_step (detached s b p y x k) s' b (set_ccpairs k y) y' l caller false hc m ->
  loop_step s s' b y y' (p :: l) caller false hc m.
Proof.
  intros Hb Hp Hc Hmine Hfst [L1 L2 L3 L4 L5 L6 L7 L8 L9 L10 L11 L12].
  assert (Hiff : forall c q, Some c <> caller -> listed s b (p :: l) c q <-> listed (detached s b p y x k) b l c q).
  { intros c q Hne. unfold listed. cbn. rewrite elem_of_cons. split; intros [Ht Hq]; (split; [done|]); [|by right].
    destruct Hq as [->|]; [|done]. by destruct (Hne (Hmine c Ht)). }
  assert (Hlist : forall c q, listed (detached s b p y x k) b l c q -> listed s b (p :: l) c q)
    by (intros c q [? ?]; split; [done|by right]).
  split; try done.
  - rewrite L1. apply insert_insert_eq.
  - intros k' q. rewrite L7. cbn. rewrite elem_of_cons. split; intros [Hk Hn]; (split; [done|]); intros [Hq Hbr];
      apply Hn; (split; [|done]); [|by right].
    destruct Hq as [->|]; [|done]. destruct k' as [b' c]. pose proof (Hfst _ Hk) as E. cbn in E. subst b'.
    destruct Hbr as [?|Hne]; [done|]. by destruct (Hne (Hmine c Hk)).
  - intros k' q Hk. rewrite (L8 k' q Hk). unfold expire_of. cbn.
    destruct (decide (q = p)) as [->|]; [by rewrite lookup_insert_eq, Hp|by rewrite lookup_insert_ne].
  - intros c z Hz Hn. apply L9; [done|]. intros q Hq. by apply (Hn q), Hlist.
  - intros c q z Hq Hz Hne. apply (L11 c q z); try done. by apply Hiff.
  - intros a Ha. destruct (L12 a Ha) as (c & q & z & Hq & Hz & Hne & E). exists c, q, z. split_and!; try done.
    by apply Hlist.
Qed.

(** A promise is broken on the way. *)
Lemma loop_step_break s s2 s' b c y y2 y' p k l caller bo hc hb x xc xc' m1 m :
  cbs s !! b = Some y -> clients s !! c = Some xc -> client x = Some c ->
  (forall k', ht_ccpairs s !! k' = Some p <-> k' = (b, c)) -> (p ∉ l) ->
  (bo = true \/ Some c <> caller) -> 1 <= nof snd (ht_ccpairs s) c ->
  nof fst (ht_ccpairs s) b + hb b <> 1 ->
  break_step (detached s b p y x k) s2 p b c (set_cb_li None x) (set_ccpairs k y) y2 xc xc' hc hb m1 ->
  (if negb (bool_decide (client x = caller)) then told xc [fid y] m1 else m1 = []) ->
  loop_step s2 s' b y2 y' l caller bo hc m ->
  loop_step s s' b y y' (p :: l) caller bo hc (m ++ m1).
Proof.
  intros Hb Hc Hxc Hkey Hnot Hbo Hpos Hn1 [(n & B1) B2 B3 B4 B5 B6 B7 B8 B9 B10 B11 _] Hm
    [L1 L2 L3 L4 L5 L6 L7 L8 L9 L10 L11 L12]. cbn in B1, B2, B4, B6, B9, B10, B11.
  assert (Hf : fid y2 = fid y) by (apply B8; exact Hn1).
  assert (Hcs : forall c', c' <> c -> clients s2 !! c' = clients s !! c')
    by (intros c' Hne; by rewrite B4, lookup_insert_ne).
  assert (Hold : forall c' q, listed s2 b l c' q <-> listed s b l c' q).
  { intros c' q. unfold listed. rewrite B2, lookup_delete_Some. split; [by intros [[_ ?] ?]|].
    intros [Ht Hq]. split_and!; try done. intros [= <-]. assert (q = p) as ->; [|done].
    pose proof (proj2 (Hkey (b, c)) eq_refl). congruence. }
  assert (Hne_c : forall c' q, listed s b l c' q -> c' <> c).
  { intros c' q [Ht Hq] ->. pose proof (proj2 (Hkey (b, c)) eq_refl). congruence. }
  assert (Hpl : listed s b (p :: l) c p) by (split; [by apply Hkey|left]).
  assert (Hcons : forall c' q, listed s b l c' q -> listed s b (p :: l) c' q)
    by (intros c' q [? ?]; split; [done|by right]).
  split; try congruence.
  - rewrite L1, B6, !insert_insert_eq. done.
  - rewrite L4, B9. cbn. by rewrite (proj2 (Z.eqb_neq _ _) Hn1).
  - rewrite L6, B11. by rewrite app_assoc.
  - intros k' q. rewrite L7, B2, lookup_delete_Some, elem_of_cons. split.
    + intros [[Hne Hk] Hn]. split; [done|]. intros [[->|Hq] Hbr]; [|by apply Hn].
      by apply Hkey in Hk as ->.
    + intros [Hk Hn]. split; [|intros [Hq Hbr]; apply Hn; by split; [right|]]. split; [|done].
      intros <-. apply Hn. split; [|done]. left. pose proof (proj2 (Hkey (b, c)) eq_refl). congruence.
  - intros k' q Hk. rewrite (L8 k' q Hk). apply L7 in Hk as [Hk _]. rewrite B2 in Hk.
    apply lookup_delete_Some in Hk as [Hne Hk]. assert (q <> p) by (intros ->; by apply Hkey in Hk as ->).
    unfold expire_of. rewrite B1. cbn. by rewrite !lookup_insert_ne.
  - intros c' z Hz Hn. assert (c' <> c) by (intros ->; by apply (Hn p)).
    apply L9; [by rewrite Hcs|]. intros q Hq. apply (Hn q), Hcons. by apply Hold.
  - intros c' z Hz Hh. destruct (decide (c' = c)) as [->|Hne]; [|apply L10; [by rewrite Hcs|done]].
    assert (z = xc) as -> by congruence. cbn in B5. rewrite (proj2 (Z.eqb_neq _ _)) in B5 by lia.
    destruct (L10 c xc') as (x' & Hx' & Hk'); [rewrite B4; apply lookup_insert_eq|done|].
    exists x'. split; [done|]. by apply (kept_client_trans xc xc').
  - intros c' q z [Ht Hq] Hz Hne. apply elem_of_app. apply elem_of_cons in Hq as [->|Hq].
    + apply Hkey in Ht. injection Ht as ->. right. rewrite bool_decide_eq_false_2 in Hm by congruence.
      assert (z = xc) as -> by congruence. apply Hm.
    + left. rewrite <- Hf. assert (Hl : listed s b l c' q) by done. apply (L11 c' q z); [by apply Hold| |done].
      rewrite Hcs; [done|]. by apply (Hne_c c' q).
  - intros a [Ha|Ha]%elem_of_app.
    + destruct (L12 a Ha) as (c' & q & z & Hq & Hz & Hne & E). rewrite Hf in E. apply Hold in Hq.
      exists c', q, z. split_and!; try done; [by apply Hcons|]. rewrite <- Hcs; [done|]. by apply (Hne_c c' q).
    + case_bool_decide as Emine; cbn [negb] in Hm; [subst m1; by apply not_elem_of_nil in Ha|].
      exists c, p, xc. split_and!; try done; [congruence|]. by apply Hm.
Qed.

Definition own_set (own : option Z) : gset Z := match own with Some p => {[p]} | None => ∅ end.
(** The pair that the loop holds for the end. *)
Definition own_ok (s : ropa) (b : Z) (caller own : option Z) : Prop :=
  forall q, own = Some q ->
    exists x, pairs s !! q = Some x /\ client x = caller /\ cb x = Some b /\ cb_li x = None.
Definition reach_all (s : ropa) (b : Z) (l : list Z) (caller : option Z) : Prop :=
  forall c p xc, listed s b l c p -> Some c <> caller -> clients s !! c = Some xc -> reachable xc.

Section Loop.
Context (b : Z) (caller : option Z) (bo : bool) (hc hb : Z -> Z).

(** The head of the list is taken off. *)
Lemma break_loop_head fuel own s y i p k x c : rinv s hc hb (own_set own) None ->
  cbs s !! b = Some y -> ccpairs y = (i, p) :: k -> pairs s !! p = Some x -> cb x = Some b -> client x = Some c ->
  break_loop (S fuel) b caller bo own s =
    (let mine := bool_decide (client x = caller) in
     if bo then break_ccpair p (negb mine) ;;! break_loop fuel b caller bo own
     else if mine then break_loop fuel b caller bo (Some p)
     else break_ccpair p true ;;! break_loop fuel b caller bo own) (detached s b p y x k).
Proof.
  intros H Hb Ek Hp Hxb Hxc. cbn [break_loop]. lrun (the_cb_run s b y Hb). rewrite Ek.
  lrun (upd_cb_run s b y (set_ccpairs k) Hb). set (s1 := set_cbs _ s).
  lrun (the_pair_run s1 p x Hp). rewrite bool_decide_eq_true_2 by done. cbn [eassert]. rewrite ebind_ret.
  by lrun (upd_pair_run s1 p x (set_cb_li None) Hp).
Qed.

Definition loop_goal (fuel : nat) (own : option Z) (s : ropa) (y : ropa_cb) (l : list Z) : Prop :=
  exists s' y' own' m, break_loop fuel b caller bo own s = Some (s', inr own') /\
    rinv s' hc hb (own_set own') None /\ loop_step s s' b y y' l caller bo hc m /\
    own_ok s' b caller own' /\ (bo = true -> own' = None).
Definition loop_pre (own : option Z) (s : ropa) (y : ropa_cb) (l : list Z) : Prop :=
  rinv s hc hb (own_set own) None /\ cbs s !! b = Some y /\ map snd (ccpairs y) = l /\
  own_ok s b caller own /\ (bo = true -> own = None) /\ reach_all s b l caller.

(** The first pair of the list *)
Lemma loop_first own s y p l : loop_pre own s y (p :: l) -> exists i k x c xc,
  ccpairs y = (i, p) :: k /\ map snd k = l /\ pairs s !! p = Some x /\ cb x = Some b /\ cb_li x = Some i /\
  client x = Some c /\ clients s !! c = Some xc /\ ht_ccpairs s !! (b, c) = Some p /\
  (forall k', ht_ccpairs s !! k' = Some p <-> k' = (b, c)) /\ (p ∉ l) /\ own <> Some p.
Proof.
  intros (H & Hb & El & Hown & _). destruct (ccpairs y) as [|[i p'] k] eqn:Ek; [done|]. injection El as -> El.
  destruct (pi_list _ _ _ (ri_pair _ _ _ _ _ H) b y Hb) as [Hok Hin]. rewrite Ek in Hok, Hin.
  destruct (Hin i p (list_elem_of_here _ _)) as (x & Hp & Hxb & Hxi).
  pose proof (pi_pair _ _ _ (ri_pair _ _ _ _ _ H) p x Hp) as Hpp. rewrite Hxb in Hpp.
  destruct (client x) as [c|] eqn:Hxc; [|done]. destruct Hpp as (Ht & _ & (xc & Hc) & _).
  exists i, k, x, c, xc. do 8 (split; [done|]). split; [|split].
  - intros k'. split; [|by intros ->]. intros Hk'. by apply (tab_inj s hc hb _ None H _ _ p).
  - rewrite <- El. intros ([j q] & -> & Hj)%list_elem_of_fmap. cbn in *.
    destruct (Hin j q ltac:(by right)) as (x2 & Hx2 & _ & E2). assert (j = i) as -> by congruence.
    by apply (items_tail_ok _ _ _ _ Hok) in Hj.
  - intros Eo. destruct (Hown p Eo) as (x2 & Hx2 & _ & _ & E2). congruence.
Qed.

Lemma break_loop_run l : 1 <= hb b -> forall fuel own s y,
  (length l < fuel)%nat -> loop_pre own s y l -> loop_goal fuel own s y l.
Proof.
  intros Hhb. induction l as [|p l IH]; intros [|fuel] own s y Hlen (H & Hb & El & Hown & Hbo & Hreach);
    try (cbn in Hlen; lia).
  { apply map_eq_nil in El. exists s, y, own, []. split; [|split; [done|split; [by apply loop_step_nil|done]]].
    cbn [break_loop]. lrun (the_cb_run s b y Hb). by rewrite El. }
  destruct (loop_first own s y p l) as (i & k & x & c & xc & Ek & El' & Hp & Hxb & Hxi & Hxc & Hc & Ht & Hkey & Hnot & Hownp);
    [done|]. clear El.
  pose proof (rinv_detached s hc hb _ None b y i p k x H Hb Ek Hp Hxb Hxi) as H1.
  set (s1 := detached s b p y x k) in *.
  assert (Hp1 : pairs s1 !! p = Some (set_cb_li None x)) by apply lookup_insert_eq.
  assert (Hb1 : cbs s1 !! b = Some (set_ccpairs k y)) by apply lookup_insert_eq.
  assert (Hown1 : own_ok s1 b caller own).
  { intros q Hq. destruct (Hown q Hq) as (x2 & Hx2 & E2). exists x2. split; [|done].
    cbn. rewrite lookup_insert_ne; [done|congruence]. }
  unfold loop_goal. rewrite (break_loop_head fuel own s y i p k x c H Hb Ek Hp Hxb Hxc). fold s1. cbn zeta.
  set (run := if bo then _ else _).
  assert (Hdone : (bo = false /\ client x = caller /\ run = break_loop fuel b caller bo (Some p)) \/
    ((bo = true \/ Some c <> caller) /\
     run = (break_ccpair p (negb (bool_decide (client x = caller))) ;;! break_loop fuel b caller bo own))).
  { unfold run. rewrite Hxc. destruct bo; [right; by split; [left|]|].
    case_bool_decide as E; [by left|right]. split; [by right|done]. }
  destruct Hdone as [(Ebo & Emine & ->)|[Hbr ->]].
  - assert (own = None) as ->.
    { destruct own as [q|]; [|done]. destruct (Hown q eq_refl) as (x2 & Hx2 & E2 & E3 & _).
      assert (E4 : client x2 = Some c) by congruence.
      destruct (pair_tab s hc hb _ None H q x2 c Hx2 E4) as (b2 & E5 & E6). congruence. }
    destruct (IH fuel (Some p) s1 (set_ccpairs k y)) as (s' & y' & own' & m & Hr & Hi & Hs & Ho & Hb').
    { cbn in Hlen. lia. }
    { split_and!; try done.
      - cbn [own_set] in *. by rewrite (left_id_L ∅ (∪)) in H1.
      - intros q [= <-]. by exists (set_cb_li None x).
      - congruence.
      - intros c' q z [Hl Hq]. apply (Hreach c' q z). by split; [|right]. }
    exists s', y', own', m. split_and!; try done.
    rewrite Ebo in Hs |- *. apply (loop_step_keep s s' b y y' p k l caller hc x m); try done; [|by intros k' ->%Hkey].
    intros c' [= ->]%Hkey. congruence.
  - destruct (break_ccpair_run s1 hc hb _ None p (set_cb_li None x) b c (set_ccpairs k y) xc
      (negb (bool_decide (client x = caller))) H1 (or_introl eq_refl) Hp1 Hxb Hxc Hb1 Hc)
      as (s2 & y2 & xc' & m1 & Hr1 & H2 & Hst & Hm).
    { rewrite Hxc. case_bool_decide as E; [done|]. intros _. apply (Hreach c p xc); [split; [done|left]|done|done]. }
    lrun Hr1. pose proof Hst as [(n & B1) B2 _ B4 _ B6 B7 _ _ _ _ _].
    assert (Hhb0 : nof fst (ht_ccpairs s) b + hb b <> 1) by (pose proof (nof_pos fst _ _ _ Ht); cbn in *; lia).
    destruct (IH fuel own s2 y2) as (s' & y' & own' & m & Hr & Hi & Hs & Ho & Hb').
    { cbn in Hlen. lia. }
    { split_and!; try done.
      - assert (E : (own_set own ∪ {[p]}) ∖ {[p]} = own_set own); [|by rewrite <- E].
        destruct own as [q|]; cbn [own_set]; [assert (q <> p) by congruence|]; set_solver.
      - rewrite B6. apply lookup_insert_eq.
      - by rewrite B7.
      - intros q Hq. destruct (Hown1 q Hq) as (x2 & Hx2 & E2). exists x2. split; [|done].
        rewrite B1, lookup_insert_ne; [done|congruence].
      - intros c' q z [Hl Hq] Hne. rewrite B2 in Hl. apply lookup_delete_Some in Hl as [Hk Hl].
        rewrite B4, lookup_insert_ne by congruence. apply (Hreach c' q z); [split; [done|by right]|done]. }
    exists s', y', own', (m ++ m1). split_and!; try done.
    apply (loop_step_break s s2 s' b c y y2 y' p k l caller bo hc hb x xc xc' m1 m); try done.
    apply (nof_pos snd _ _ _ Ht).
Qed.
End Loop.
