(* ===== verification/RopaCorrect.v ===== *)
(** * Callbacks: what the procedures do to the promises

    A promise is the time until which a client may rely on being told about a
    fid.  The procedures of the module are shown against the map of promises. *)

From S2P Require Import Prelude Items Estate Hash HashCorrect Fdir Ropa RopaIp RopaInv RopaCb RopaPair.
From S2P Require Import RopaBreak RopaLoop.

Local Open Scope em_scope.

(** ** Promises *)

Definition promise (s : ropa) (f : AFSFid) (c : Z) : option Z :=
  b ← ht_callbacks s !! f; p ← ht_ccpairs s !! (b, c); Some (expire_of s p).

(** The client in use that has the address. *)
Definition at_address (s : ropa) (host pt c : Z) : Prop :=
  exists x, clients s !! c = Some x /\ state x <> ROPAC_FREE /\ one_addr x /\
    addr_in (nth 0 (addr x) no_addr) = host /\ port x = pt.
Definition nobody_at (s : ropa) (host pt : Z) : Prop := forall c, ~ at_address s host pt c.

Lemma nth_lookup_addr x i : nth i (addr x) no_addr = default no_addr (addr x !! i).
Proof. by rewrite nth_lookup. Qed.

Lemma in_ip_at s host pt c : in_ip s (host, pt) (Stored c 0) <-> at_address s host pt c.
Proof.
  unfold in_ip, at_address, ip_key, ent_addr. split.
  - intros (c' & x & [= <-] & Hx & Hs & Ho & Hk). exists x. rewrite Hx in Hk. cbn in Hk.
    rewrite nth_lookup_addr. split_and!; try done; congruence.
  - intros (x & Hx & Hs & Ho & Ha & Hp). exists c, x. rewrite Hx. cbn. rewrite <- nth_lookup_addr.
    split_and!; try done. congruence.
Qed.

Lemma notalkback_known s rc l host pt c : client_inv s rc l -> at_address s host pt c ->
  client_query_notalkback host pt s = Some (s, inr (Some c)).
Proof.
  intros Hi Hat. destruct (ci_ip _ _ _ Hi) as (m & Hrep & Hm).
  assert (Hk : m !! (host, pt) = Some (Stored c 0)) by (by apply Hm, in_ip_at).
  destruct Hat as (x & Hx & _ & (Hn & _) & _).
  unfold client_query_notalkback. lrun (ip_search_run s m (Key host pt) Hrep I).
  change (ip_key (clients s) (Key host pt)) with (host, pt). rewrite Hk.
  lrun (the_client_run s c x Hx). by rewrite Hn.
Qed.
Lemma notalkback_unknown s rc l host pt : client_inv s rc l -> nobody_at s host pt ->
  client_query_notalkback host pt s = Some (s, inr None).
Proof.
  intros Hi Hno. destruct (ci_ip _ _ _ Hi) as (m & Hrep & Hm).
  unfold client_query_notalkback. lrun (ip_search_run s m (Key host pt) Hrep I).
  change (ip_key (clients s) (Key host pt)) with (host, pt).
  destruct (m !! (host, pt)) as [e|] eqn:E; [|done]. apply Hm in E as E'.
  destruct E' as (c & x & -> & _). apply Hm, in_ip_at in E. by destruct (Hno c).
Qed.

Lemma at_registered s rc l host pt c x : client_inv s rc l -> at_address s host pt c ->
  clients s !! c = Some x -> registered s c x.
Proof.
  intros Hi (y & Hy & Hs & _) Hx. assert (y = x) as -> by congruence.
  destruct (ci_kind _ _ _ Hi c x Hx) as (_ & _ & _ & [?|[[? _] _]]); done.
Qed.

(** A known client is the answer at once, except while it is looked up. *)
Lemma client_query_known s hc hb det l host pt c : rinv s hc hb det l -> at_address s host pt c ->
  client_query host pt s = Some (s, inr (Some c)).
Proof.
  intros H Hat. unfold client_query. lrun (notalkback_known s _ None host pt c (ri_cli _ _ _ _ _ H) Hat).
  destruct Hat as (x & Hx & _). lrun (the_client_run s c x Hx).
  destruct (ci_kind _ _ _ (ri_cli _ _ _ _ _ H) c x Hx) as (_ & -> & _).
  destruct (client_item s hc hb det l H c x Hx) as (i & Ei & _).
  rewrite Z.land_0_l. cbn [Z.eqb negb]. rewrite ebind_ret, Ei, bool_decide_eq_true_2 by done. done.
Qed.

(** ** [break_callback] *)

(** The pair that was held goes back to the list. *)
Lemma rinv_reattach s hc hb b y q x : rinv s hc hb {[q]} None -> cbs s !! b = Some y -> ccpairs y = [] ->
  pairs s !! q = Some x -> cb x = Some b -> cb_li x = None ->
  exists s' i, (i <-- new_item ;;
    upd_cb b (fun x => set_ccpairs ((i, q) :: ccpairs x) x) ;;! upd_pair q (set_cb_li (Some i))) s =
      Some (s', inr tt) /\ rinv s' hc hb ∅ None /\
    s' = set_pairs (<[q := set_cb_li (Some i) x]> (pairs s))
      (set_cbs (<[b := set_ccpairs [(i, q)] y]> (cbs s)) (set_nextli (nextli s + 1) s)).
Proof.
  intros [Hc Hb Hp Hhc Hhb] Hby Hemp Hx Hxb Hxi. set (i := nextli s). set (s1 := set_nextli (i + 1) s).
  eexists _, i. split; [|split; [|reflexivity]].
  { assert (Hr : new_item s = Some (s1, inr i)) by done. lrun Hr.
    lrun (upd_cb_run s1 b y (fun x => set_ccpairs ((i, q) :: ccpairs x) x) Hby).
    rewrite Hemp. set (s2 := set_cbs _ s1). by rewrite (upd_pair_run s2 q x _ Hx). }
  set (s3 := set_pairs _ _). assert (Hn : nextli s <= nextli s3) by (cbn; lia).
  split; [by apply (client_inv_same s)|by apply (cb_inv_detach s _ _ None b y [(i, q)])| |done..].
  destruct Hp as [H1 H2 H3 H4 H5 H6 H7].
  assert (Hok1 : items_ok (i + 1) [(i, q)]) by (apply (items_head i [] q); split; constructor).
  split; try done.
  - by eapply items_mono.
  - intros p z. cbn. destruct (decide (p = q)) as [->|Hne];
      [rewrite lookup_insert_eq; intros [= <-]|rewrite lookup_insert_ne by done; apply H2]. by apply (H2 q x).
  - intros j p Hj. destruct (H3 j p Hj) as (z & Hz). cbn. destruct (decide (p = q)) as [->|Hne];
      [rewrite lookup_insert_eq|rewrite lookup_insert_ne by done]; by eexists.
  - intros p z. cbn. destruct (decide (p = q)) as [->|Hne];
      [rewrite lookup_insert_eq; intros [= <-]|rewrite lookup_insert_ne by done; intros Hz].
    + specialize (H4 q x Hx). cbn. rewrite Hxb in *. destruct (client x); [|done].
      destruct H4 as (? & ? & ? & _). split_and!; try done. rewrite lookup_insert_eq. eexists. split; [done|left].
    + specialize (H4 p z Hz). destruct (client z), (cb z) as [b'|]; try done.
      destruct H4 as (? & ? & ? & w & Hw & Hl). split_and!; try done.
      destruct (decide (b' = b)) as [->|Hnb]; [rewrite lookup_insert_eq|rewrite lookup_insert_ne by done].
      * assert (w = y) as -> by congruence. rewrite Hemp in Hl.
        destruct (cb_li z); [by apply not_elem_of_nil in Hl|set_solver].
      * exists w. split; [done|]. destruct (cb_li z); [done|set_solver].
  - intros b' c p Hp. destruct (H5 b' c p Hp) as (z & Hz & Ez). cbn. destruct (decide (p = q)) as [->|Hne];
      [rewrite lookup_insert_eq|rewrite lookup_insert_ne by done; by exists z].
    eexists. split; [done|]. cbn. assert (z = x) as -> by congruence. done.
  - intros p Hp. destruct (H6 p Hp) as (z & c & Hz & Ez). cbn. destruct (decide (p = q)) as [->|Hne];
      [rewrite lookup_insert_eq|rewrite lookup_insert_ne by done; by exists z, c].
    eexists _, c. split; [done|]. cbn. congruence.
  - intros b' w. cbn. destruct (decide (b' = b)) as [->|Hnb];
      [rewrite lookup_insert_eq; intros [= <-]|rewrite lookup_insert_ne by done; intros Hw].
    + split; [done|]. intros j p [= -> ->]%list_elem_of_singleton. rewrite lookup_insert_eq. by eexists.
    + destruct (H7 b' w Hw) as [Ho Hl]. split; [by apply (items_mono (nextli s)); [lia|]|].
      intros j p Hj. destruct (Hl j p Hj) as (z & Hz & E1 & E2). exists z.
      rewrite lookup_insert_ne; [done|]. intros <-. congruence.
Qed.

Lemma rinv_ext s hc hc' hb hb' det l : (forall z, hc z = hc' z) -> (forall z, hb z = hb' z) ->
  rinv s hc hb det l -> rinv s hc' hb' det l.
Proof.
  intros E1 E2 [H1 H2 H3 H4 H5]. split; [| |done|intros z; rewrite <- E1; done|intros z; rewrite <- E2; done].
  - eapply client_inv_ext; [|exact H1]. intros z. by rewrite <- E1.
  - eapply cb_inv_ext; [|exact H2]. intros z. by rewrite <- E2.
Qed.
Lemma bump_back c h z : bump c (-1) (bump c 1 h) z = h z.
Proof. unfold bump. case_match; lia. Qed.

(** The reference to the caller *)
Definition held (caller : option Z) : Z -> Z :=
  match caller with Some c => bump c 1 none_held | None => none_held end.
Definition known (s : ropa) (caller : option Z) : Prop :=
  forall c, caller = Some c -> exists x, clients s !! c = Some x /\ registered s c x.
Record caller_step (s s' : ropa) (caller : option Z) : Prop := {
  cl_cbs : same_cbs s s';
  cl_pairs : same_pairs s s';
  cl_net : same_net s s';
  cl_other c : Some c <> caller -> clients s' !! c = clients s !! c
}.

Lemma caller_ref_run s caller hb : rinv s none_held hb ∅ None -> known s caller ->
  exists s', (match caller with Some c => client_ref c | None => eret tt end) s = Some (s', inr tt) /\
    rinv s' (held caller) hb ∅ None /\ caller_step s s' caller /\
    forall c, caller = Some c -> exists x, clients s' !! c = Some x.
Proof.
  intros H Hk. destruct caller as [c|].
  - destruct (Hk c eq_refl) as (x & Hx & Hreg).
    destruct (hold_client_run s _ _ _ _ H c x Hx Hreg) as (s' & x' & Hr & Hi & [] & Hn & _).
    exists s'. split_and!; [done|done|split; try done|].
    + intros c' Hne. rewrite cs_map. apply lookup_insert_ne. congruence.
    + intros c' [= <-]. rewrite cs_map, lookup_insert_eq. by eexists.
  - exists s. by split_and!.
Qed.
Lemma caller_deref_run s caller hb : rinv s (held caller) hb ∅ None ->
  (forall c, caller = Some c -> exists x, clients s !! c = Some x) ->
  exists s', (match caller with Some c => client_deref c | None => eret tt end) s = Some (s', inr tt) /\
    rinv s' none_held hb ∅ None /\ caller_step s s' caller.
Proof.
  intros H Hk. destruct caller as [c|].
  - destruct (Hk c eq_refl) as (x & Hx).
    destruct (drop_client_run s _ _ _ _ H c x Hx) as (s' & x' & Hr & Hi & [] & Hn & _).
    { cbn. rewrite bump_eq. unfold none_held. lia. }
    exists s'. split_and!; [done| |split; try done].
    + eapply rinv_ext; [apply bump_back|done|exact Hi].
    + intros c' Hne. rewrite cs_map. apply lookup_insert_ne. congruence.
  - exists s. by split_and!.
Qed.

(** The pairs of the table and those of the list *)
Lemma pair_listed s hc hb l b c p y : rinv s hc hb ∅ l -> ht_ccpairs s !! (b, c) = Some p -> cbs s !! b = Some y ->
  p ∈ map snd (ccpairs y).
Proof.
  intros H Ht Hb. destruct (pi_tab _ _ _ (ri_pair _ _ _ _ _ H) b c p Ht) as (x & Hx & Exb & Exc).
  pose proof (pi_pair _ _ _ (ri_pair _ _ _ _ _ H) p x Hx) as Hp. rewrite Exb, Exc in Hp.
  destruct Hp as (_ & _ & _ & w & Hw & Hl). assert (w = y) as -> by congruence.
  destruct (cb_li x) as [i|]; [|set_solver]. apply list_elem_of_fmap. by exists (i, p).
Qed.
Lemma listed_pair s hc hb det l b c k p y : rinv s hc hb det l -> cbs s !! b = Some y -> p ∈ map snd (ccpairs y) ->
  ht_ccpairs s !! (k, c) = Some p -> k = b.
Proof.
  intros H Hb ([i q] & -> & Hl)%list_elem_of_fmap Ht. cbn in *.
  destruct (pi_list _ _ _ (ri_pair _ _ _ _ _ H) b y Hb) as [_ Hin]. destruct (Hin i q Hl) as (x & Hx & Exb & _).
  destruct (pi_tab _ _ _ (ri_pair _ _ _ _ _ H) k c q Ht) as (z & Hz & Ezb & _). congruence.
Qed.

(** What [break_callback] of [b] with the fid [f] does. *)
Record broken_step (s s' : ropa) (b : Z) (f : AFSFid) (caller : option Z) (break_own : bool) (m : list message) : Prop := {
  br_tab k p : ht_ccpairs s' !! k = Some p <->
    ht_ccpairs s !! k = Some p /\ ~ (fst k = b /\ breaks caller break_own (snd k));
  br_exp k p : ht_ccpairs s' !! k = Some p -> expire_of s' p = expire_of s p;
  br_cbtab : ht_callbacks s' = ht_callbacks s \/
    (ht_callbacks s' = delete f (ht_callbacks s) /\ forall c, ht_ccpairs s' !! (b, c) = None);
  br_now : now s' = now s;
  br_sent : sent s' = m ++ sent s;
  br_told c p x : ht_ccpairs s !! (b, c) = Some p -> clients s !! c = Some x -> Some c <> caller ->
    first_call x [f] ∈ m;
  br_only a : a ∈ m -> exists c p x, ht_ccpairs s !! (b, c) = Some p /\ clients s !! c = Some x /\
    Some c <> caller /\ (a = first_call x [f] \/ a = own_call x [f])
}.

Record own_step (s s' : ropa) (b : Z) (y : ropa_cb) : Prop := {
  ow_clients : same_clients s s';
  ow_cbtab : ht_callbacks s' = ht_callbacks s;
  ow_tab : ht_ccpairs s' = ht_ccpairs s;
  ow_now : now s' = now s;
  ow_sent : sent s' = sent s;
  ow_exp p : expire_of s' p = expire_of s p;
  ow_cb : exists y', cbs s' !! b = Some y' /\ fid y' = fid y
}.
Lemma finish_own_run s hc hb b y caller own : rinv s hc hb (own_set own) None -> cbs s !! b = Some y ->
  ccpairs y = [] -> own_ok s b caller own ->
  exists s', (match own with
    | Some p =>
        i <-- new_item ;;
        upd_cb b (fun x => set_ccpairs ((i, p) :: ccpairs x) x) ;;! upd_pair p (set_cb_li (Some i))
    | None => eret tt
    end) s = Some (s', inr tt) /\ rinv s' hc hb ∅ None /\ own_step s s' b y.
Proof.
  intros H Hb He Hown. destruct own as [q|].
  - destruct (Hown q eq_refl) as (x & Hx & _ & Exb & Exi).
    destruct (rinv_reattach s hc hb b y q x H Hb He Hx Exb Exi) as (s' & i & Hr & Hi & ->).
    eexists. split; [exact Hr|]. split; [done|]. split; try done.
    + intros p. unfold expire_of. cbn. destruct (decide (p = q)) as [->|];
        [by rewrite lookup_insert_eq, Hx|by rewrite lookup_insert_ne].
    + eexists. split; [apply lookup_insert_eq|done].
  - exists s. split_and!; try done. split; try done. by exists y.
Qed.

Lemma break_callback_run s b caller bo y : quiet s -> cbs s !! b = Some y -> ht_callbacks s !! fid y = Some b ->
  known s caller -> reach_all s b (map snd (ccpairs y)) caller ->
  exists s' m, break_callback b caller bo s = Some (s', inr tt) /\ quiet s' /\
    broken_step s s' b (fid y) caller bo m.
Proof.
  intros H Hb Htab Hknown Hreach. unfold break_callback.
  destruct (hold_cb_run s _ _ _ _ H b y Hb) as (s1 & y1 & Hr1 & H1 & [C1 [P1 P2 P3 P4] M1] & [N1 _ N3 _] & Hf1 & Hc1 & Ht1).
  { by destruct (bi_key _ _ _ (ri_cb _ _ _ _ _ H) _ _ Htab) as (_ & _ & _ & ?). }
  lrun Hr1. pose proof C1 as [K1 K2 K3 K4].
  destruct (caller_ref_run s1 caller _ H1) as (s2 & Hr2 & H2 & [[B1 B2 B3] [Q1 Q2 Q3 Q4] [O1 _ O3 _] Hoth2] & Hcl2).
  { intros c E. destruct (Hknown c E) as (x & Hx & Hreg). exists x. unfold registered. by rewrite K1, K3. }
  lrun Hr2. assert (Hb2 : cbs s2 !! b = Some y1) by (rewrite B1, M1; apply lookup_insert_eq).
  lrun (the_cb_run s2 b y1 Hb2).
  assert (Htab2 : ht_ccpairs s2 = ht_ccpairs s) by congruence.
  assert (Hcs2 : forall c, Some c <> caller -> clients s2 !! c = clients s !! c).
  { intros c Hne. rewrite Hoth2 by done. by rewrite K1. }
  destruct (break_loop_run b caller bo (held caller) (bump b 1 none_held) (map snd (ccpairs y1)) ltac:(by rewrite bump_eq)
    (S (length (ccpairs y1))) None s2 y1) as (s3 & y3 & own & m & Hr3 & H3 & L & Hown & Hbo).
  { rewrite length_map. lia. }
  { split_and!; try done. intros c p xc [Hl Hp] Hne. rewrite Hcs2 by done. rewrite Htab2 in Hl. rewrite Hc1 in Hp.
    by apply (Hreach c p xc). }
  lrun Hr3. destruct L as [L1 L2 L3 L4 L5 L6 L7 L8 L9 L10 L11 L12].
  assert (Hb3 : cbs s3 !! b = Some y3) by (rewrite L1; apply lookup_insert_eq).
  destruct (finish_own_run s3 _ _ b y3 caller own H3 Hb3 L2 Hown) as (s4 & Hr4 & H4 & [[F1 F2 F3 F4] W2 W3 W4 W5 W6 (y4 & Hb4 & Hf4)]).
  lrun Hr4.
  destruct (drop_cb_run s4 _ _ _ _ H4 b y4 Hb4) as (s5 & y5 & Hr5 & H5 & [[D1 D2 D3 D4] [E1 E2 E3 E4] M5] & [G1 _ G3 _] & _ & Ht5).
  { by rewrite bump_eq. }
  lrun Hr5.
  destruct (caller_deref_run s5 caller none_held) as (s6 & Hr6 & H6 & [[U1 U2 U3] [V1 V2 V3 V4] [X1 _ X3 _] _]).
  { by apply (rinv_ext s5 (held caller) _ (bump b (-1) (bump b 1 none_held)) _ _ _ (fun z => eq_refl) (bump_back b none_held)). }
  { intros c ->. destruct (Hcl2 c eq_refl) as (x & Hx).
    destruct (L10 c x Hx) as (x' & Hx' & _); [cbn; by rewrite bump_eq|]. exists x'. by rewrite D1, F1. }
  exists s6, m. split; [exact Hr6|]. split; [exact H6|].
  assert (Htab6 : ht_ccpairs s6 = ht_ccpairs s3) by congruence.
  assert (Hlist : forall k c p, ht_ccpairs s !! (k, c) = Some p -> p ∈ map snd (ccpairs y1) <-> k = b).
  { rewrite Hc1. intros k c p Hk. split; [intros Hl; by eapply (listed_pair s)|].
    intros ->. by eapply (pair_listed s). }
  assert (Hfid : fid y1 = fid y) by done. rewrite Hfid in L11, L12.
  split.
  - intros [k c] p. rewrite Htab6, L7, Htab2. cbn [fst snd]. split; intros [Hk Hn]; (split; [done|]); intros [Hq Hbr];
      apply Hn; (split; [|done]); by apply (Hlist k c p Hk).
  - intros k p Hk. unfold expire_of. rewrite V1, E1. fold (expire_of s4 p). rewrite W6.
    rewrite (L8 k p) by (by rewrite <- Htab6). unfold expire_of. by rewrite Q1, P1.
  - rewrite U2. destruct (Z.eqb_spec (nof fst (ht_ccpairs s4) b + bump b 1 none_held b) 1) as [E|E].
    + right. rewrite Ht5, Hf4, L3, Hfid. split; [congruence|]. intros c. rewrite Htab6, <- W3.
      destruct (ht_ccpairs s4 !! (b, c)) as [p|] eqn:Ep; [|done].
      pose proof (nof_pos fst _ _ _ Ep). rewrite bump_eq in E. unfold none_held in E. cbn in *. lia.
    + left. destruct Ht5 as [_ ->]. congruence.
  - congruence.
  - congruence.
  - intros c p x Hk Hx Hne. apply (L11 c p x); [|by rewrite Hcs2|done]. split; [by rewrite Htab2|]. by apply (Hlist b c p Hk).
  - intros a Ha. destruct (L12 a Ha) as (c & p & x & [Hl Hp] & Hx & Hne & Ea). exists c, p, x.
    rewrite Htab2 in Hl. rewrite Hcs2 in Hx by done. done.
Qed.

(** ** The promises afterwards *)

Definition promised (s : ropa) (f : AFSFid) (c : Z) : Prop := promise s f c <> None.
(** The clients with a promise for the fid, the caller apart, can be called. *)
Definition others_reachable (s : ropa) (f : AFSFid) (caller : option Z) : Prop :=
  forall c x, promised s f c -> Some c <> caller -> clients s !! c = Some x -> reachable x.
(** The messages [m] tell exactly the other clients with a promise for the fid. *)
Record told_others (s : ropa) (f : AFSFid) (caller : option Z) (m : list message) : Prop := {
  to_told c x : promised s f c -> Some c <> caller -> clients s !! c = Some x -> first_call x [f] ∈ m;
  to_only a : a ∈ m -> exists c x, promised s f c /\ Some c <> caller /\ clients s !! c = Some x /\
    (a = first_call x [f] \/ a = own_call x [f])
}.

Lemma promised_pair s f b c : ht_callbacks s !! f = Some b ->
  promised s f c <-> exists p, ht_ccpairs s !! (b, c) = Some p.
Proof.
  intros Hf. unfold promised, promise. rewrite Hf. cbn. destruct (ht_ccpairs s !! (b, c)) as [p|]; cbn.
  - split; [by exists p|done].
  - split; [done|by intros []].
Qed.

Lemma promise_broken s s' b f caller bo m : quiet s -> ht_callbacks s !! f = Some b ->
  broken_step s s' b f caller bo m -> forall f' c,
  promise s' f' c = if decide (f' = f /\ (bo = true \/ Some c <> caller)) then None else promise s f' c.
Proof.
  intros H Hf [B1 B2 B3 _ _ _ _] f' c. destruct (bi_key _ _ _ (ri_cb _ _ _ _ _ H) f b Hf) as (y & Hy & Hyf & _).
  assert (Hlook : forall b', ht_callbacks s !! f' = Some b' -> f' = f <-> b' = b).
  { intros b' Hb'. split; [intros ->; congruence|]. intros ->.
    destruct (bi_key _ _ _ (ri_cb _ _ _ _ _ H) f' b Hb') as (y' & Hy' & Hyf' & _). congruence. }
  assert (Hpair : forall b', (ht_ccpairs s' !! (b', c)) =
    if decide (b' = b /\ (bo = true \/ Some c <> caller)) then None else ht_ccpairs s !! (b', c)).
  { intros b'. apply option_eq. intros p. rewrite B1. cbn. case_decide as E; [|by split; [intros [? _]|]].
    split; [|done]. by intros [_ []]. }
  unfold promise. destruct B3 as [->|[-> Hnone]].
  - destruct (ht_callbacks s !! f') as [b'|] eqn:Hb'; [cbn|by destruct (decide _)].
    specialize (Hlook b' eq_refl). rewrite Hpair.
    destruct (decide (f' = f /\ (bo = true \/ Some c <> caller))) as [E|E];
      [by rewrite decide_True by tauto|rewrite decide_False by tauto].
    destruct (ht_ccpairs s !! (b', c)) as [p|] eqn:Hp; [|done]. cbn. rewrite (B2 (b', c) p); [done|].
    rewrite Hpair. by rewrite decide_False by tauto.
  - destruct (decide (f' = f)) as [->|Hne].
    + rewrite lookup_delete_eq, Hf. destruct (decide (f = f /\ _)) as [E1|E1]; [done|]. cbn.
      specialize (Hpair b). rewrite Hnone, decide_False in Hpair by tauto. by rewrite <- Hpair.
    + rewrite lookup_delete_ne by done. rewrite decide_False by tauto.
      destruct (ht_callbacks s !! f') as [b'|] eqn:Hb'; [|done]. cbn. specialize (Hlook b' eq_refl).
      rewrite Hpair, decide_False by tauto. destruct (ht_ccpairs s !! (b', c)) as [p|] eqn:Hp; [|done].
      cbn. rewrite (B2 (b', c) p); [done|]. rewrite Hpair. by rewrite decide_False by tauto.
Qed.

(** What the procedures that break promises have in common. *)
Lemma break_fid_run s f caller bo : quiet s -> known s caller -> others_reachable s f caller ->
  exists s' m r, break_fid f caller bo s = Some (s', inr r) /\ quiet s' /\ sent s' = m ++ sent s /\
    (forall f' c, promise s' f' c =
       if decide (f' = f /\ (bo = true \/ Some c <> caller)) then None else promise s f' c) /\
    told_others s f caller m /\ r = (if decide (is_Some (ht_callbacks s !! f)) then 0 else -1).
Proof.
  intros H Hk Hr. unfold break_fid. rewrite ebind_get. destruct (ht_callbacks s !! f) as [b|] eqn:Hf.
  - destruct (bi_key _ _ _ (ri_cb _ _ _ _ _ H) f b Hf) as (y & Hy & Hyf & _).
    destruct (break_callback_run s b caller bo y H Hy) as (s' & m & Hrun & H' & Hst); [by rewrite Hyf|done| |].
    { intros c p xc [Ht _] Hne Hc. apply (Hr c xc); try done. apply (promised_pair s f b c Hf). by exists p. }
    lrun Hrun. rewrite Hyf in Hst. exists s', m, 0. split; [done|]. split; [done|]. split; [apply Hst|].
    split; [by apply (promise_broken s s' b f caller bo m)|]. split; [|by rewrite decide_True by done].
    split.
    + intros c x [p Hp]%(promised_pair s f b c Hf) Hne Hc. by apply (br_told _ _ _ _ _ _ _ Hst c p x).
    + intros a Ha. destruct (br_only _ _ _ _ _ _ _ Hst a Ha) as (c & p & x & Hp & Hx & Hne & E).
      exists c, x. split_and!; try done. apply (promised_pair s f b c Hf). by exists p.
  - exists s, [], (-1). assert (Hno : forall c, promise s f c = None) by (intros c; unfold promise; by rewrite Hf).
    split; [done|]. split; [done|]. split; [done|]. split; [|split].
    + intros f' c. by case_decide as E; [destruct E as [-> _]; rewrite Hno|].
    + split; [intros c x Hp; by destruct Hp|]. by intros a ?%not_elem_of_nil.
    + by rewrite decide_False by by intros [].
Qed.

Lemma ropa_break_callback_run s host pt f c (break_own : bool) :
  quiet s -> at_address s host pt c -> others_reachable s f (Some c) ->
  exists s' m, ropa_break_callback host pt f break_own s = Some (s', inr tt) /\ quiet s' /\
    (forall f' c', promise s' f' c' =
       if decide (f' = f /\ (break_own = true \/ c' <> c)) then None else promise s f' c') /\
    sent s' = m ++ sent s /\ told_others s f (Some c) m.
Proof.
  intros H Hat Hr. destruct (break_fid_run s f (Some c) break_own H) as (s' & m & r & Hrun & H' & Hm & Hp & Ht & _);
    [|done|].
  { intros c' [= <-]. pose proof Hat as (x & Hx & _). exists x. split; [done|].
    by apply (at_registered s _ None host pt c x (ri_cli _ _ _ _ _ H)). }
  exists s', m. unfold ropa_break_callback. lrun (notalkback_known s _ None host pt c (ri_cli _ _ _ _ _ H) Hat).
  lrun Hrun. split_and!; try done. intros f' c'. rewrite Hp.
  assert (Hiff : Some c' <> Some c <-> c' <> c) by (split; congruence).
  apply decide_ext; tauto.
Qed.

(** C12: When a known client changes a file, the server breaks the promises of
    all other clients for that fid, each of which is called (at first over the
    connection there is, if there is one), and no other promise; the caller's
    own goes only if the call asks for that.  No message goes to anybody else.
    The procedure returns and leaves the tables of clients, callbacks and pairs
    in order. *)
Theorem ropa_break_callback_correct s host pt f c (break_own : bool) :
  quiet s -> at_address s host pt c -> others_reachable s f (Some c) ->
  exists s' m, ropa_break_callback host pt f break_own s = Some (s', inr tt) /\ quiet s' /\
    (forall f' c', promise s' f' c' =
       if decide (f' = f /\ (break_own = true \/ c' <> c)) then None else promise s f' c') /\
    sent s' = m ++ sent s /\ told_others s f (Some c) m.
Proof. apply ropa_break_callback_run. Qed.

(** Breaking the promises for a volume breaks every promise for its fid
    [(volume, 0, 0)], the one that clients of a read-only volume have, and no
    other; each of the clients is called. *)
Theorem ropa_break_volume_callback_correct s volume :
  let f := Build_AFSFid (uwrap32 volume) 0 0 in
  quiet s -> others_reachable s f None ->
  exists s' m, ropa_break_volume_callback volume s = Some (s', inr tt) /\ quiet s' /\
    (forall f' c, promise s' f' c = if decide (f' = f) then None else promise s f' c) /\
    sent s' = m ++ sent s /\ told_others s f None m.
Proof.
  intros f H Hr. destruct (break_fid_run s f None false H) as (s' & m & r & Hrun & H' & Hm & Hp & Ht & _); [done|done|].
  exists s', m. unfold ropa_break_volume_callback. lrun Hrun. split_and!; try done. intros f' c. rewrite Hp.
  assert (Hne : Some c <> None) by done.
  apply decide_ext; tauto.
Qed.

(** A caller whose address is not known breaks nobody's promise: the file
    it has changed stays promised to all other clients. *)
Theorem ropa_break_callback_unknown s host pt f break_own :
  quiet s -> nobody_at s host pt -> ropa_break_callback host pt f break_own s = Some (s, inr tt).
Proof.
  intros H Hno. unfold ropa_break_callback.
  by lrun (notalkback_unknown s _ None host pt (ri_cli _ _ _ _ _ H) Hno).
Qed.
