(* ===== verification/RopaProps.v ===== *)
(** * Callbacks: dropping promises, expiry and the start

    The procedures that break promises one pair at a time, [heapcleaner] for
    those whose time is over, and the state that [ropa_init] sets up. *)

From S2P Require Import Prelude Items Estate Hash HashCorrect Fdir Ropa RopaIp RopaInv RopaCb RopaPair.
From S2P Require Import RopaBreak RopaLoop RopaCorrect.

Local Open Scope em_scope.

(** ** One promise *)

Lemma quiet_again s (p : Z) : rinv s none_held none_held (∅ ∖ {[p]}) None -> quiet s.
Proof. by rewrite (subseteq_empty_difference_L ∅ {[p]}) by set_solver. Qed.

(** The fid of a pair of the table *)
Lemma pair_fid s hc hb det l b c p y : rinv s hc hb det l -> ht_ccpairs s !! (b, c) = Some p -> cbs s !! b = Some y ->
  ht_callbacks s !! fid y = Some b /\ promise s (fid y) c = Some (expire_of s p).
Proof.
  intros H Ht Hb.
  assert (Hf : ht_callbacks s !! fid y = Some b).
  { apply (bi_tab _ _ _ (ri_cb _ _ _ _ _ H) b y Hb). pose proof (nof_pos fst _ _ _ Ht). cbn in *.
    pose proof (ri_hb _ _ _ _ _ H b). lia. }
  split; [done|]. unfold promise. rewrite Hf. cbn. by rewrite Ht.
Qed.

Lemma promise_pair_broken s s' hc hb det l p b c x y y' xc xc' m : rinv s hc hb det l -> ht_ccpairs s !! (b, c) = Some p ->
  cbs s !! b = Some y -> break_step s s' p b c x y y' xc xc' hc hb m ->
  forall f' c', promise s' f' c' = if decide (f' = fid y /\ c' = c) then None else promise s f' c'.
Proof.
  intros H Ht Hb Hst f' c'. destruct (pair_fid s hc hb det l b c p y H Ht Hb) as [Hf _].
  destruct Hst as [(n & B1) B2 _ _ _ _ _ _ B9 _ _ _].
  assert (Hkey : forall b', ht_callbacks s !! f' = Some b' -> f' = fid y <-> b' = b).
  { intros b' Hb'. split; [intros ->; congruence|]. intros ->.
    destruct (bi_key _ _ _ (ri_cb _ _ _ _ _ H) f' b Hb') as (z & Hz & Hzf & _). congruence. }
  assert (Hexp : forall k q, k <> (b, c) -> ht_ccpairs s !! k = Some q -> expire_of s' q = expire_of s q).
  { intros k q Hk Hq. unfold expire_of. rewrite B1, lookup_insert_ne; [done|]. intros <-.
    by apply Hk, (tab_inj s _ _ _ _ H _ _ p). }
  assert (Hrest : forall b', ht_callbacks s !! f' = Some b' ->
    (p ← ht_ccpairs s' !! (b', c'); Some (expire_of s' p)) =
    if decide (f' = fid y /\ c' = c) then None else p ← ht_ccpairs s !! (b', c'); Some (expire_of s p)).
  { intros b' Hb'. specialize (Hkey b' Hb'). rewrite B2. destruct (decide (f' = fid y /\ c' = c)) as [[E ->]|E].
    - apply Hkey in E as ->. by rewrite lookup_delete_eq.
    - assert (Hne : (b', c') <> (b, c)) by (intros [= -> ->]; tauto).
      rewrite lookup_delete_ne by done. destruct (ht_ccpairs s !! (b', c')) as [q|] eqn:Eq; [|done]. cbn.
      by rewrite (Hexp _ _ Hne Eq). }
  unfold promise. rewrite B9. pose proof (nof_pos fst _ _ _ Ht) as Hpos. cbn in Hpos. pose proof (ri_hb _ _ _ _ _ H b) as Hhb.
  destruct (Z.eqb_spec (nof fst (ht_ccpairs s) b + hb b) 1) as [E1|E1]; [destruct (decide (f' = fid y)) as [->|Hne]|].
  - rewrite lookup_delete_eq. cbn. specialize (Hrest b Hf). rewrite Hf. cbn.
    destruct (decide (fid y = fid y /\ c' = c)) as [|Hc]; [done|].
    destruct (ht_ccpairs s !! (b, c')) as [q|] eqn:Eq; [|done].
    pose proof (nof_one fst _ _ _ _ _ Ht ltac:(cbn; lia) Eq eq_refl) as [= ->]. tauto.
  - rewrite lookup_delete_ne by done. destruct (ht_callbacks s !! f') as [b'|] eqn:Eb; [by apply Hrest|].
    by destruct (decide _).
  - destruct (ht_callbacks s !! f') as [b'|] eqn:Eb; [by apply Hrest|]. by destruct (decide _).
Qed.

(** ** [ropa_drop_callbacks] *)

Lemma drop_loop_run c l : forall s, quiet s ->
  exists s', drop_loop c l s = Some (s', inr tt) /\ quiet s' /\ sent s' = sent s /\
    forall f' c', promise s' f' c' = if decide (f' ∈ l /\ c' = c) then None else promise s f' c'.
Proof.
  induction l as [|f l IH]; intros s H.
  { exists s. by split_and!. }
  assert (Hone : exists s1, (match ht_callbacks s !! f with
      | Some b => match ht_ccpairs s !! (b, c) with Some p => break_ccpair p false | None => eret tt end
      | None => eret tt end) s = Some (s1, inr tt) /\ quiet s1 /\ sent s1 = sent s /\
    forall f' c', promise s1 f' c' = if decide (f' = f /\ c' = c) then None else promise s f' c').
  { assert (Hnop : promise s f c = None -> forall f' c',
      promise s f' c' = if decide (f' = f /\ c' = c) then None else promise s f' c').
    { intros Hn f' c'. destruct (decide (f' = f /\ c' = c)) as [[-> ->]|]; done. }
    destruct (ht_callbacks s !! f) as [b|] eqn:Hf; [|exists s; split_and!; try done; apply Hnop; unfold promise; by rewrite Hf].
    destruct (ht_ccpairs s !! (b, c)) as [p|] eqn:Hp;
      [|exists s; split_and!; try done; apply Hnop; unfold promise; rewrite Hf; cbn; by rewrite Hp].
    destruct (tab_pair s _ _ _ _ H _ _ _ Hp) as (x & xc & y & Hx & Exc & Exb & Hxc & Hy & _).
    destruct (break_ccpair_run s _ _ _ _ p x b c y xc false H (or_introl eq_refl) Hx Exb Exc Hy Hxc)
      as (s1 & y' & xc' & m & Hr & H1 & Hst & ->); [done|].
    exists s1. split; [done|]. split; [by eapply quiet_again|].
    split; [by rewrite (bk_sent _ _ _ _ _ _ _ _ _ _ _ _ _ Hst)|].
    destruct (bi_key _ _ _ (ri_cb _ _ _ _ _ H) f b Hf) as (z & Hz & Ezf & _).
    assert (Efy : fid y = f) by congruence. rewrite <- Efy. by eapply promise_pair_broken. }
  destruct Hone as (s1 & Hr1 & H1 & Hs1 & Hp1). destruct (IH s1 H1) as (s2 & Hr2 & H2 & Hs2 & Hp2).
  exists s2. cbn [drop_loop]. rewrite ebind_get. rewrite (ebind_ok _ _ _ _ _ Hr1), Hr2.
  split_and!; try done; [congruence|]. intros f' c'. rewrite Hp2, Hp1.
  destruct (decide (f' ∈ l /\ c' = c)) as [E|E].
  - rewrite decide_True; [done|]. rewrite elem_of_cons. tauto.
  - destruct (decide (f' = f /\ c' = c)) as [E'|E']; [rewrite decide_True|rewrite decide_False]; try done;
      rewrite elem_of_cons; tauto.
Qed.

(** A known client that gives up its promises for some fids loses exactly
    those, is not called back, and nobody else's promise changes; a list that
    is too long is refused with [EINVAL] and nothing happens. *)
Theorem ropa_drop_callbacks_correct s host pt c fids :
  quiet s -> at_address s host pt c ->
  exists s', ropa_drop_callbacks host pt fids s =
      Some (s', inr (if AFSCBMAX <? Z.of_nat (length fids) then EINVAL else 0)) /\
    quiet s' /\ sent s' = sent s /\
    forall f' c', promise s' f' c' =
      if decide (Z.of_nat (length fids) <= AFSCBMAX /\ f' ∈ fids /\ c' = c) then None else promise s f' c'.
Proof.
  intros H Hat. unfold ropa_drop_callbacks. destruct (Z.ltb_spec AFSCBMAX (Z.of_nat (length fids))) as [Hl|Hl].
  - exists s. split_and!; try done. intros f' c'. by rewrite decide_False by lia.
  - lrun (client_query_known s _ _ _ _ host pt c H Hat).
    destruct (drop_loop_run c fids s H) as (s' & Hr & H' & Hs & Hp). lrun Hr.
    exists s'. split_and!; try done. intros f' c'. rewrite Hp. apply decide_ext. tauto.
Qed.

(** ** [heapcleaner] *)

(** Everybody answers: no connection was given up, no call fails, and there is
    an answer for each of [n] calls. *)
Definition answering (s : ropa) (n : nat) : Prop :=
  (forall c x, clients s !! c = Some x -> reachable x) /\
  Forall (fun r => fst r = 0) (replies s) /\ (n <= length (replies s))%nat.

Lemma answering_break s s' p b c x y y' xc xc' m n : answering s (S n) -> clients s !! c = Some xc ->
  break_step s s' p b c x y y' xc xc' none_held none_held m -> answering s' n.
Proof.
  intros (Hr & Hf & Hn) Hc [_ _ _ B4 _ _ _ _ _ _ _ B12].
  assert (Hnew : reachable xc' /\ Forall (fun r => fst r = 0) (replies s') /\ (n <= length (replies s'))%nat).
  { destruct B12 as [[-> E]|Hans].
    - split_and!; [|done|lia]. unfold reachable. rewrite E. by apply (Hr c).
    - destruct (replies s) as [|r l]; [cbn in Hn; lia|]. apply Forall_cons in Hf as [Hr0 Hf].
      destruct (Hans r l eq_refl Hr0) as [-> ?]. split_and!; try done. cbn in Hn. lia. }
  destruct Hnew as (Hx & Hf' & Hn'). split_and!; try done.
  intros c' z. rewrite B4. destruct (decide (c' = c)) as [->|];
    [rewrite lookup_insert_eq; by intros [= <-]|rewrite lookup_insert_ne by done; apply Hr].
Qed.

(** The promises whose time is not over *)
Definition unexpired (t : Z) (o : option Z) : option Z := e ← o; if e <=? t then None else Some e.

Lemma heap_promise s p : quiet s -> p ∈ heap_ccpairs s ->
  exists x b c y xc, pairs s !! p = Some x /\ cb x = Some b /\ client x = Some c /\ cbs s !! b = Some y /\
    clients s !! c = Some xc /\ ht_ccpairs s !! (b, c) = Some p.
Proof.
  intros H Hp. destruct (pi_heap _ _ _ (ri_pair _ _ _ _ _ H) p Hp) as (x & c & Hx & Exc).
  destruct (pair_tab s _ _ _ _ H p x c Hx Exc) as (b & Exb & Ht).
  destruct (tab_pair s _ _ _ _ H _ _ _ Ht) as (x' & xc & y & Hx' & _ & _ & Hxc & Hy & _).
  by exists x, b, c, y, xc.
Qed.
Lemma promise_heap s f c t : quiet s -> promise s f c = Some t ->
  exists p, p ∈ heap_ccpairs s /\ expire_of s p = t.
Proof.
  intros H. unfold promise. destruct (ht_callbacks s !! f) as [b|]; [|done]. cbn.
  destruct (ht_ccpairs s !! (b, c)) as [p|] eqn:Hp; [|done]. cbn. intros [= <-]. exists p. split; [|done].
  by destruct (tab_pair s _ _ _ _ H _ _ _ Hp) as (x & xc & y & _ & _ & _ & _ & _ & ?).
Qed.

Section Expiry.
Context `{ExpiryHeapOk}.

Lemma heapcleaner_run fuel : forall s, quiet s -> (size (heap_ccpairs s) < fuel)%nat ->
  answering s (size (heap_ccpairs s)) ->
  exists s', heapcleaner fuel s = Some (s', inr tt) /\ quiet s' /\ now s' = now s /\
    forall f c, promise s' f c = unexpired (now s) (promise s f c).
Proof.
  induction fuel as [|fuel IH]; intros s Hq Hfuel Hans; [lia|]. cbn [heapcleaner]. rewrite ebind_get.
  destruct (heap_head (expire_of s) (heap_ccpairs s)) as [p|] eqn:Ehd.
  - destruct (heap_head_least _ _ _ Ehd) as [Hp Hleast].
    destruct (heap_promise s p Hq Hp) as (x & b & c & y & xc & Hx & Exb & Exc & Hy & Hxc & Ht).
    destruct (Z.ltb_spec (now s) (expire_of s p)) as [Hlt|Hle].
    + exists s. split_and!; try done. intros f c'. destruct (promise s f c') as [t|] eqn:Et; [|done].
      destruct (promise_heap s f c' t Hq Et) as (q & Hqh & <-). specialize (Hleast q Hqh). cbn.
      by rewrite (proj2 (Z.leb_gt _ _)) by lia.
    + destruct (break_ccpair_run s _ _ _ _ p x b c y xc true Hq (or_introl eq_refl) Hx Exb Exc Hy Hxc)
        as (s1 & y' & xc' & m & Hr & H1 & Hst & _); [intros _; by apply (proj1 Hans c)|].
      assert (Hsz : size (heap_ccpairs s) = S (size (heap_ccpairs s1))).
      { rewrite (bk_heap _ _ _ _ _ _ _ _ _ _ _ _ _ Hst), size_difference by set_solver.
        rewrite size_singleton. assert (size (heap_ccpairs s) <> 0%nat); [|lia].
        intros E0%size_empty_inv. set_solver. }
      lrun Hr. destruct (IH s1) as (s2 & Hr2 & H2 & Hn2 & Hp2).
      * by eapply quiet_again.
      * lia.
      * eapply answering_break; [|done|done]. by rewrite <- Hsz.
      * exists s2. rewrite Hr2. rewrite (bk_now _ _ _ _ _ _ _ _ _ _ _ _ _ Hst) in Hn2, Hp2.
        split_and!; try done. intros f c'. rewrite Hp2.
        rewrite (promise_pair_broken s s1 _ _ _ _ p b c x y y' xc xc' m Hq Ht Hy Hst).
        destruct (decide (f = fid y /\ c' = c)) as [[-> ->]|]; [|done].
        destruct (pair_fid s _ _ _ _ b c p y Hq Ht Hy) as [_ ->]. cbn. by rewrite (proj2 (Z.leb_le _ _)).
  - apply heap_head_empty in Ehd. exists s. split_and!; try done.
    intros f c. destruct (promise s f c) as [t|] eqn:Et; [|done].
    destruct (promise_heap s f c t Hq Et) as (q & Hqh & _). rewrite Ehd in Hqh. set_solver.
Qed.

(** C14: The cleaner ends, whatever order the heap has for equal times, and
    leaves exactly the promises whose time is not over: a client that relies on
    its promise until then is never let down.  All clients answer. *)
Theorem heapcleaner_correct s : quiet s -> answering s (size (heap_ccpairs s)) ->
  exists s', heapcleaner (S (size (heap_ccpairs s))) s = Some (s', inr tt) /\ quiet s' /\
    forall f c, promise s' f c = unexpired (now s) (promise s f c).
Proof.
  intros Hq Ha. destruct (heapcleaner_run (S (size (heap_ccpairs s))) s Hq ltac:(lia) Ha) as (s' & Hr & H' & _ & Hp).
  by exists s'.
Qed.
End Expiry.

(** ** [ropa_break_client] *)

(** To break the promises of a client, after a failed call to it or when it
    restarts, breaks none: the client is called with an empty list, and all
    promises, its own included, stay. *)
Theorem ropa_break_client_breaks_nothing s host pt c x :
  quiet s -> at_address s host pt c -> clients s !! c = Some x -> reachable x ->
  exists s' m, ropa_break_client host pt s = Some (s', inr tt) /\ quiet s' /\
    (forall f c', promise s' f c' = promise s f c') /\ sent s' = m ++ sent s /\
    first_call x [] ∈ m /\ forall a, a ∈ m -> exists h p, a = CallBack h p [].
Proof.
  intros H Hat Hx Hreach. pose proof (at_registered s _ None host pt c x (ri_cli _ _ _ _ _ H) Hat Hx) as Hreg.
  unfold ropa_break_client. lrun (client_query_known s _ _ _ _ host pt c H Hat). unfold break_client.
  destruct (hold_client_run s _ _ _ _ H c x Hx Hreg) as (s1 & x1 & Hr1 & H1 & [S1 S2 S3] & [N1 N2 N3 N4] & Hk & Hcn).
  lrun Hr1. assert (Hx1 : clients s1 !! c = Some x1) by (rewrite S3; apply lookup_insert_eq).
  destruct (ci_kind _ _ _ (ri_cli _ _ _ _ _ H) c x Hx) as (Hcb & _ & _ & _).
  pose proof Hk as (K1 & K2 & K3 & K4 & K5 & K6 & K7).
  destruct (notify_client_run c s1 x1 [] Hx1) as (s2 & x2 & m & Hr2 & T & Ht).
  { rewrite K3. apply Hreg. } { unfold reachable. by rewrite Hcn. }
  assert (Hr2' : break_ccpairs c true s1 = Some (s2, inr tt)).
  { unfold break_ccpairs. lrun (the_client_run s1 c x1 Hx1). by rewrite K7, Hcb. }
  lrun Hr2'. pose proof T as [[T1 T2 T3] [T4 T5 T6 T7] T8 T9 T10 T11 T12 T13 T14 T15 T16 T17 _].
  assert (Hn1 : 1 <= nof snd (ht_ccpairs s1) c + bump c 1 none_held c).
  { rewrite bump_eq. pose proof (nof_nonneg snd (ht_ccpairs s1) c). unfold none_held. lia. }
  assert (H2 : rinv s2 (bump c 1 none_held) none_held ∅ None).
  { apply (rinv_client_step s1 _ _ _ _ H1 s2 _ c x1 x2); try done; [lia| |apply (ri_hc _ _ _ _ _ H1)].
    apply (told_client_inv s1 s2 _ None c x1 x2 m (ri_cli _ _ _ _ _ H1) Hx1); [|done].
    right. apply (in_use_registered s1 _ None c x1 (ri_cli _ _ _ _ _ H1) Hx1). cbn. lia. }
  assert (Hx2 : clients s2 !! c = Some x2) by (rewrite T8; apply lookup_insert_eq).
  destruct (drop_client_run s2 _ _ _ _ H2 c x2 Hx2) as (s3 & x3 & Hr3 & H3 & [D1 D2 D3] & [M1 M2 M3 M4] & _).
  { rewrite bump_eq. unfold none_held. lia. }
  exists s3, m. split; [exact Hr3|]. split; [|split; [|split; [|split]]].
  - exact (rinv_ext s3 _ _ _ _ _ _ (bump_back c none_held) (fun z => eq_refl) H3).
  - destruct S1 as [A1 A2 A3], S2 as [A4 A5 A6 A7], D1 as [D4 D5 D6], D2 as [D7 D8 D9 D10].
    intros f c'. unfold promise, expire_of. by rewrite D5, D8, D7, T2, T5, T4, A2, A5, A4.
  - by rewrite M3, T17, N3.
  - destruct Ht as [Ht _]. unfold first_call, own_call in *. by rewrite Hcn, K5, K6 in Ht.
  - destruct Ht as [_ Ht]. intros a Ha. unfold first_call, own_call in *.
    destruct (Ht a Ha) as [->| ->]; [destruct (conn x1)|]; by eexists _, _.
Qed.

(** ** [ropa_init] *)

Lemma init_lookup {A} (f : Z -> A) n c x :
  (list_to_map (map (fun i => (i, f i)) (seqZ 1 n)) : gmap Z A) !! c = Some x <-> 1 <= c <= n /\ x = f c.
Proof.
  rewrite <- elem_of_list_to_map.
  - rewrite list_elem_of_fmap. split.
    + intros (i & [= -> ->] & Hi%elem_of_seqZ). split; [lia|done].
    + intros [Hc ->]. exists c. split; [done|]. apply elem_of_seqZ. lia.
  - rewrite <- list_fmap_compose. rewrite list_fmap_id. apply NoDup_seqZ.
Qed.
Lemma init_item_in first n i p : (i, p) ∈ created first n <-> 1 <= p <= Z.of_nat n /\ i = first + p.
Proof.
  unfold created. rewrite list_elem_of_fmap. split.
  - intros (j & [= -> ->] & Hj%elem_of_seqZ). split; [lia|done].
  - intros [Hp ->]. exists p. split; [done|]. apply elem_of_seqZ. lia.
Qed.
Lemma init_items_ok first n m : first + Z.of_nat n < m -> items_ok m (created first n).
Proof.
  intros Hm. split.
  - unfold created. rewrite map_map. apply NoDup_fmap_2; [intros i j; cbn; lia|]. apply NoDup_seqZ.
  - apply Forall_forall. intros [i p] [Hp ->]%init_item_in. cbn. lia.
Qed.
Lemma nof_empty (f : Z * Z -> Z) x : nof f ∅ x = 0.
Proof. unfold nof. by rewrite map_filter_empty. Qed.

Lemma init_quiet num_cb num_cli num_cc hashsz : 0 < hashsz < 2 ^ 31 ->
  quiet (ropa_init num_cb num_cli num_cc hashsz).
Proof.
  intros Hsz. set (s := ropa_init _ _ _ _).
  assert (E0 : forall f x, nof f (ht_ccpairs s) x = 0) by (intros; apply nof_empty).
  assert (Hc : forall c x, clients s !! c = Some x <-> 1 <= c <= Z.of_nat num_cli /\ x = new_client c)
    by apply init_lookup.
  set (n1 := Z.of_nat num_cli). set (n2 := n1 + Z.of_nat num_cb).
  assert (Hb : forall b y, cbs s !! b = Some y <-> 1 <= b <= Z.of_nat num_cb /\ y = Cb (Build_AFSFid 0 0 0) [] 0 (Some (n1 + b)))
    by apply init_lookup.
  assert (Hp : forall p x, pairs s !! p = Some x <-> 1 <= p <= Z.of_nat num_cc /\ x = Ccpair None None None 0 (Some (n2 + p)))
    by apply init_lookup.
  split; [split|split|split|done|done].
  - cbn. apply init_items_ok. lia.
  - intros c x [Hin ->]%Hc. cbn. by apply init_item_in.
  - intros i c [Hin ->]%init_item_in. exists (new_client c). split; [by apply Hc|done].
  - intros c x [Hin ->]%Hc. cbv beta. by rewrite E0.
  - intros c x [Hin ->]%Hc. cbv beta. rewrite E0. split_and!; try done. right. by split; [split|].
  - done.
  - exists ∅. split.
    + split; [by apply rep_new|]. split; [done|]. intros k x. by rewrite lookup_empty.
    + intros k x. rewrite lookup_empty. split; [done|]. intros (c & y & _ & [_ ->]%Hc & Hs & _). done.
  - cbn. apply init_items_ok. lia.
  - intros b y [Hin ->]%Hb. cbn. by apply init_item_in.
  - intros i b [Hin ->]%init_item_in. eexists. split; [by apply Hb|done].
  - intros b y [Hin ->]%Hb. cbv beta. by rewrite E0.
  - intros b y _. cbv beta. by rewrite E0.
  - done.
  - cbn. apply init_items_ok. lia.
  - intros p x [Hin ->]%Hp. cbn. by apply init_item_in.
  - intros i p [Hin ->]%init_item_in. eexists. by apply Hp.
  - intros p x [Hin ->]%Hp. cbn. set_solver.
  - done.
  - done.
  - intros b y [Hin ->]%Hb. split; [by split; constructor|]. by intros i p ?%not_elem_of_nil.
Qed.

(** C40: The tables, lists and structures that [ropa_init] sets up are in
    order, with no promise made and nobody known. *)
Theorem ropa_init_correct num_cb num_cli num_cc hashsz : 0 < hashsz < 2 ^ 31 ->
  quiet (ropa_init num_cb num_cli num_cc hashsz) /\
  (forall f c, promise (ropa_init num_cb num_cli num_cc hashsz) f c = None) /\
  forall host pt, nobody_at (ropa_init num_cb num_cli num_cc hashsz) host pt.
Proof.
  intros Hsz. split; [by apply init_quiet|]. split; [done|].
  intros host pt c (x & Hx & Hs & _). by apply (init_lookup new_client) in Hx as [_ ->].
Qed.
