(* ===== verification/RopaGet.v ===== *)
(** * Callbacks: making a promise

    [ropa_getcallback] for a client that is known: the callback of the fid is
    found or a free one taken, the pair is found, or made from the least
    recently used one. *)

From S2P Require Import Prelude Items Estate Hash HashCorrect Fdir Ropa RopaIp RopaInv RopaCb RopaPair.
From S2P Require Import RopaBreak RopaLoop RopaCorrect RopaProps.

Local Open Scope em_scope.

(** ** The tail of a list *)

Lemma deltail_run s w l i p : lrus s w = l ++ [(i, p)] -> lru_deltail w s = Some (set_lru w l s, inr p).
Proof.
  intros E. unfold lru_deltail. rewrite ebind_get, E, last_snoc. cbn [eopt]. rewrite ebind_ret, removelast_last.
  done.
Qed.
(** ** [obtain_callback] *)

Lemma nof_zero (m : gmap (Z * Z) Z) b : (forall c, m !! (b, c) = None) -> nof fst m b = 0.
Proof.
  intros Hm. unfold nof. assert (filter (fun kv => fst (fst kv) = b) m = ∅) as ->; [|by rewrite map_size_empty].
  apply map_empty. intros [b' c]. apply map_lookup_filter_None. right. cbn. intros p Hp ->. by rewrite Hm in Hp.
Qed.

(** A callback without pairs, at the end of the list *)
Record free_cb (s : ropa) (l : list (Z * Z)) (i b : Z) (y : ropa_cb) : Prop := {
  fc_lru : lrus s Lcallback = l ++ [(i, b)];
  fc_cb : cbs s !! b = Some y;
  fc_empty : ccpairs y = []
}.
Lemma free_no_pair s hc hb l0 l i b y : rinv s hc hb ∅ l0 -> free_cb s l i b y -> forall c, ht_ccpairs s !! (b, c) = None.
Proof.
  intros H [_ Hb He] c. destruct (ht_ccpairs s !! (b, c)) as [p|] eqn:E; [|done].
  pose proof (pair_listed s hc hb l0 b c p y H E Hb) as Hp. rewrite He in Hp. by apply not_elem_of_nil in Hp.
Qed.

Lemma obtain_free_run s l i b y f : quiet s -> ht_callbacks s !! f = None -> free_cb s l i b y ->
  exists s' y', obtain_callback f s = Some (s', inr b) /\ rinv s' none_held (bump b 1 none_held) ∅ None /\
    cbs s' = <[b := y']> (cbs s) /\ same_clients s s' /\ same_pairs s s' /\ same_net s s' /\
    ht_callbacks s' = <[f := b]> (ht_callbacks s) /\ fid y' = f.
Proof.
  intros H Hf Hfree. pose proof (free_no_pair s _ _ _ l i b y H Hfree) as Hno. destruct Hfree as [Hl Hb He].
  pose proof (nof_zero _ b Hno) as Hz. pose proof (ri_cb _ _ _ _ _ H) as Hi.
  destruct (bi_ref _ _ _ Hi b y Hb) as [Href _]. cbv beta in Href. rewrite Hz in Href. change (ref y = 0) in Href.
  pose proof (bi_items _ _ _ Hi) as Hok. rewrite Hl in Hok. destruct (items_snoc _ _ _ _ Hok) as [Hokl Hout].
  unfold obtain_callback. rewrite ebind_get, Hf. lrun (deltail_run s Lcallback l i b Hl). set (s1 := set_lru _ _ _).
  lrun (upd_cb_run s1 b y (set_cbli None) Hb). set (y1 := set_cbli None y). set (s2 := set_cbs _ s1).
  assert (Hb2 : cbs s2 !! b = Some y1) by apply lookup_insert_eq.
  lrun (the_cb_run s2 b y1 Hb2). change (ccpairs y1) with (ccpairs y). rewrite He.
  set (y3 := set_ref (ref y1 + 1) y1). set (s3 := set_cbs (<[b := y3]> (cbs s2)) s2).
  assert (Hr3 : callback_ref b s2 = Some (s3, inr tt)).
  { unfold callback_ref. lrun (the_cb_run s2 b y1 Hb2). change (ref y1) with (ref y). rewrite Href.
    change (0 <=? 0) with true. cbn [eassert]. rewrite ebind_ret. change (cbli y1) with (@None Z).
    cbn [lru_unlink]. rewrite ebind_ret. rewrite (ebind_ok _ _ _ _ _ (upd_cb_run s2 b y1 _ Hb2)). unfold s3, y3.
    change (ref y1) with (ref y). by rewrite Href. }
  set (s4 := set_lru Lcallback ((nextli s3, b) :: lrus s3 Lcallback) (set_nextli (nextli s3 + 1) s3)).
  set (y5 := set_cbli (Some (nextli s3)) y3). set (s5 := set_cbs (<[b := y5]> (cbs s4)) s4).
  assert (Hr5 : (callback_ref b ;;! i <-- lru_addhead Lcallback b ;; upd_cb b (set_cbli (Some i))) s2 = Some (s5, inr tt)).
  { lrun Hr3. lrun (ropa_addhead_run s3 Lcallback b). by apply (upd_cb_run s4 b y3), lookup_insert_eq. }
  lrun Hr5. lrun (upd_cb_run s5 b y5 (set_fid f) (lookup_insert_eq _ _ _)). set (y6 := set_fid f y5). set (s6 := set_cbs _ s5).
  rewrite ebind_mod. unfold map_add. change (ht_callbacks s6) with (ht_callbacks s). rewrite Hf.
  set (s7 := set_ht_callbacks _ s6). exists s7, y6. split; [done|].
  assert (Hcs : cbs s7 = <[b := y6]> (cbs s)).
  { unfold s7, s6, s5, s4, s3, s2, s1. cbn. by rewrite !insert_insert_eq. }
  assert (Hnet : same_net s s7) by (split; try done; cbn; lia).
  split; [|by split_and!].
  assert (Hlru : lrus s7 Lcallback = (nextli s, b) :: l) by done.
  apply (rinv_cb_step s _ _ _ _ H s7 _ b y y6 Hb); try done.
  - apply (cb_inv_update s s7 _ _ None None b y y6 Hi Hb Hcs); try done; rewrite ?Hlru.
    + by apply items_head.
    + left.
    + intros j b' Hne. rewrite Hl, elem_of_cons, elem_of_app, list_elem_of_singleton. split.
      * intros [[= -> ->]|?]; [done|by left].
      * intros [?|[= -> ->]]; [by right|done].
    + intros j [[= ->]|Hj]%elem_of_cons; [done|]. exfalso.
      assert (Hj' : (j, b) ∈ lrus s Lcallback) by (rewrite Hl; apply elem_of_app; by left).
      assert (Hi' : (i, b) ∈ lrus s Lcallback) by (rewrite Hl; apply elem_of_app; right; by apply list_elem_of_singleton).
      destruct (bi_item _ _ _ Hi _ _ Hj') as (z & Hz1 & Hz2). destruct (bi_item _ _ _ Hi _ _ Hi') as (z' & Hz3 & Hz4).
      apply (Hout b). congruence.
    + rewrite Hz, bump_eq. change (ref y6) with (ref y + 1). by rewrite Href.
    + rewrite Hz, bump_eq. done.
    + intros b' Hne. by rewrite bump_ne.
    + rewrite decide_False by (rewrite Hz, bump_eq; done). cbn. rewrite lookup_insert_eq. split; [done|].
      intros g. destruct (decide (g = f)) as [->|Hne]; [done|]. rewrite lookup_insert_ne by done. intros Hg.
      by destruct (cb_table_none s _ None b Hi ltac:(cbv beta; by rewrite Hz) g).
    + intros g b' Hne. cbn. destruct (decide (g = f)) as [->|Hg]; [|by rewrite lookup_insert_ne].
      rewrite lookup_insert_eq, Hf. split; [|done]. by intros [= <-].
  - by apply bump_nonneg.
Qed.

(** ** A pair for a new promise *)

(** Only the item of the pair [p] changes, and the list of pairs. *)
Lemma rinv_li s s' hc hb l l' p x v : rinv s hc hb ∅ l -> (l = None \/ l = Some p) -> pairs s !! p = Some x ->
  same_clients s s' -> same_cbs s s' -> ht_ccpairs s' = ht_ccpairs s -> heap_ccpairs s' = heap_ccpairs s ->
  nextli s <= nextli s' -> pairs s' = <[p := set_li v x]> (pairs s) ->
  items_ok (nextli s') (lrus s' Lccpair) ->
  (forall i q, (i, q) ∈ lrus s' Lccpair -> (i, q) ∈ lrus s Lccpair \/ q = p) ->
  (forall i q, q <> p -> (i, q) ∈ lrus s Lccpair -> (i, q) ∈ lrus s' Lccpair) ->
  match v with Some i => (i, p) ∈ lrus s' Lccpair | None => l' = Some p end -> rinv s' hc hb ∅ l'.
Proof.
  intros [Hc Hb [H1 H2 H3 H4 H5 H6 H7] Hhc Hhb] Hl Hx Sc Sb Et Eh Hn Ep Hok Hin Hout Hv.
  assert (Hold : forall q z, pairs s' !! q = Some z -> exists z0, pairs s !! q = Some z0 /\ client z = client z0 /\
    cb z = cb z0 /\ cb_li z = cb_li z0).
  { intros q z. rewrite Ep. destruct (decide (q = p)) as [->|]; [rewrite lookup_insert_eq|rewrite lookup_insert_ne by done].
    - intros [= <-]. by exists x.
    - intros Hq. by exists z. }
  assert (Hnew : forall q z0, pairs s !! q = Some z0 -> exists z, pairs s' !! q = Some z /\ client z = client z0 /\
    cb z = cb z0 /\ cb_li z = cb_li z0).
  { intros q z. rewrite Ep. destruct (decide (q = p)) as [->|]; [rewrite lookup_insert_eq|rewrite lookup_insert_ne by done].
    - intros Hq. exists (set_li v x). rewrite Hx in Hq. by injection Hq as <-.
    - intros Hq. by exists z. }
  split; rewrite ?Et; [by apply (client_inv_same s)|by apply (cb_inv_same s)| |done..].
  split; rewrite ?Et, ?Eh, ?(sc_clients _ _ Sc), ?(sb_cbs _ _ Sb); try done.
  - intros q z. rewrite Ep. destruct (decide (q = p)) as [->|Hne];
      [rewrite lookup_insert_eq; by intros [= <-]|rewrite lookup_insert_ne by done].
    intros Hq. specialize (H2 q z Hq). destruct (li z) as [j|]; [by apply Hout|]. destruct Hl; congruence.
  - intros j q Hj. destruct (Hin j q Hj) as [Hj'| ->]; [destruct (H3 j q Hj') as (z & Hz)|];
      [destruct (Hnew q z Hz) as (z' & Hz' & _)|destruct (Hnew p x Hx) as (z' & Hz' & _)]; by exists z'.
  - intros q z Hq. destruct (Hold q z Hq) as (z0 & Hz0 & -> & -> & ->). by apply (H4 q z0).
  - intros b c q Hq. destruct (H5 b c q Hq) as (z & Hz & E). destruct (Hnew q z Hz) as (z' & Hz' & E1 & E2 & _).
    exists z'. by rewrite E1, E2.
  - intros q Hq. destruct (H6 q Hq) as (z & c & Hz & E). destruct (Hnew q z Hz) as (z' & Hz' & E1 & _).
    exists z', c. by rewrite E1.
  - intros b y Hy. destruct (H7 b y Hy) as [Ho Hi]. split; [by apply (items_mono (nextli s))|]. intros j q Hj.
    destruct (Hi j q Hj) as (z & Hz & E1 & E2). destruct (Hnew q z Hz) as (z' & Hz' & _ & E3 & E4).
    exists z'. by rewrite E3, E4.
Qed.

(** The pair is taken off the end of the list. *)
Lemma rinv_loose s hc hb i p l x : rinv s hc hb ∅ None -> lrus s Lccpair = l ++ [(i, p)] -> pairs s !! p = Some x ->
  rinv (set_pairs (<[p := set_li None x]> (pairs s)) (set_lru Lccpair l s)) hc hb ∅ (Some p).
Proof.
  intros H Hl Hx. pose proof (pi_items _ _ _ (ri_pair _ _ _ _ _ H)) as Hok. rewrite Hl in Hok.
  apply (rinv_li s _ hc hb None _ p x None H); try done; [by left|by apply (items_snoc _ l i p)|..]; rewrite Hl.
  - intros j q Hj. left. apply elem_of_app. by left.
  - intros j q Hne. by intros [?|[= -> ->]%list_elem_of_singleton]%elem_of_app.
Qed.

(** Whose promise the pair is *)
Definition victim (s : ropa) (p : Z) : option (AFSFid * Z) :=
  x ← pairs s !! p; b ← cb x; y ← cbs s !! b; c ← client x; Some (fid y, c).

Record evict_step (s s' : ropa) (hc hb : Z -> Z) (p : Z) (x' : ropa_ccpair) (m : list message) : Prop := {
  ev_pair : pairs s' !! p = Some x';
  ev_free : client x' = None /\ cb x' = None /\ cb_li x' = None;
  ev_now : now s' = now s;
  ev_sent : sent s' = m ++ sent s;
  ev_promise f c : promise s' f c = if decide (victim s p = Some (f, c)) then None else promise s f c;
  ev_none k : ht_ccpairs s !! k = None -> ht_ccpairs s' !! k = None;
  ev_cb b y : cbs s !! b = Some y -> 1 <= hb b -> exists y', cbs s' !! b = Some y' /\ fid y' = fid y;
  ev_client c xc : clients s !! c = Some xc -> exists xc', clients s' !! c = Some xc';
  ev_told : match victim s p with
    | Some (f, c) => exists xc, clients s !! c = Some xc /\ told xc [f] m
    | None => m = []
    end
}.

Lemma evict_run s hc hb p x : rinv s hc hb ∅ (Some p) -> pairs s !! p = Some x ->
  (forall c xc, client x = Some c -> clients s !! c = Some xc -> reachable xc) ->
  exists s' l x' m, (if ccpairs_inuse_p x then break_ccpair p true else eret tt) s = Some (s', inr tt) /\
    rinv s' hc hb ∅ l /\ (l = None \/ l = Some p) /\ evict_step s s' hc hb p x' m.
Proof.
  intros H Hx Hreach. unfold ccpairs_inuse_p. destruct (client x) as [c|] eqn:Exc.
  - destruct (pair_tab s _ _ _ _ H p x c Hx Exc) as (b & Exb & Ht).
    destruct (tab_pair s _ _ _ _ H _ _ _ Ht) as (x0 & xc & y & _ & _ & _ & Hxc & Hy & _).
    assert (Hv : victim s p = Some (fid y, c)) by (unfold victim; rewrite Hx; cbn; by rewrite Exb; cbn; rewrite Hy; cbn; rewrite Exc).
    destruct (break_ccpair_run s _ _ _ _ p x b c y xc true H (or_intror eq_refl) Hx Exb Exc Hy Hxc)
      as (s' & y' & xc' & m & Hr & H' & Hst & Hm); [intros _; by apply (Hreach c)|].
    pose proof (promise_pair_broken s s' _ _ _ _ p b c x y y' xc xc' m H Ht Hy Hst) as Hp.
    destruct Hst as [(n & B1) B2 _ B4 _ B6 _ B8 _ B10 B11 _].
    exists s', None, (free_pair n), m. split; [done|]. split; [|split; [by left|]].
    { by rewrite (subseteq_empty_difference_L ∅ {[p]}) in H' by set_solver. }
    split; try done.
    + rewrite B1. apply lookup_insert_eq.
    + intros f c'. rewrite Hp, Hv. apply decide_ext. split; [by intros [-> ->]|by intros [= -> ->]].
    + intros k Hk. rewrite B2. apply lookup_delete_None. by right.
    + intros b' z Hz Hh. rewrite B6. destruct (decide (b' = b)) as [->|Hne];
        [rewrite lookup_insert_eq|rewrite lookup_insert_ne by done; by exists z].
      exists y'. split; [done|]. rewrite B8; [congruence|]. pose proof (nof_pos fst _ _ _ Ht). cbn in *. lia.
    + intros c' z Hz. rewrite B4. destruct (decide (c' = c)) as [->|Hne];
        [rewrite lookup_insert_eq; by eexists|rewrite lookup_insert_ne by done; by exists z].
    + rewrite Hv. by exists xc.
  - assert (Hv : victim s p = None).
    { unfold victim. rewrite Hx. cbn. destruct (cb x) as [b|]; [|done]. cbn. destruct (cbs s !! b); [|done].
      cbn. by rewrite Exc. }
    pose proof (pi_pair _ _ _ (ri_pair _ _ _ _ _ H) p x Hx) as Hp. rewrite Exc in Hp.
    exists s, (Some p), x, []. split; [done|]. split; [done|]. split; [by right|]. split; try done.
    + destruct (cb x); [done|]. by destruct Hp.
    + intros f c. by rewrite Hv, decide_False.
    + intros b y Hy _. by exists y.
    + intros c xc Hxc. by exists xc.
    + by rewrite Hv.
Qed.

Definition made (c b i : Z) (t n : Z) : ropa_ccpair := Ccpair (Some c) (Some b) (Some i) t (Some n).
(** The end of [add_client]. *)
Definition fill (b c p : Z) : RM Z :=
  s <-- eget ;;
  upd_pair p (set_expire (now s + 3600)) ;;!
  emod (fun s => set_heap ({[p]} ∪ heap_ccpairs s) s) ;;!
  i <-- new_item ;;
  upd_cb b (fun x => set_ccpairs (ccpairs x ++ [(i, p)]) x) ;;!
  upd_pair p (set_cb_li (Some i)) ;;!
  upd_pair p (set_client (Some c)) ;;!
  upd_pair p (set_cb (Some b)) ;;!
  i <-- lru_addhead Lccpair p ;; upd_pair p (set_li (Some i)) ;;!
  emod (fun s => set_ht_ccpairs (map_add (b, c) p (ht_ccpairs s)) s) ;;!
  eret p.
Definition filled (s : ropa) (b c p : Z) (y : ropa_cb) : ropa :=
  let n := nextli s in
  set_ht_ccpairs (<[(b, c) := p]> (ht_ccpairs s))
    (set_pairs (<[p := made c b n (now s + 3600) (n + 1)]> (pairs s))
      (set_lru Lccpair ((n + 1, p) :: lrus s Lccpair)
        (set_nextli (n + 1 + 1)
          (set_cbs (<[b := set_ccpairs (ccpairs y ++ [(n, p)]) y]> (cbs s))
            (set_heap ({[p]} ∪ heap_ccpairs s) s))))).

Lemma ropa_ext s s' : clients s = clients s' -> pairs s = pairs s' -> cbs s = cbs s' ->
  ht_clients_ip s = ht_clients_ip s' -> ht_clients_uuid s = ht_clients_uuid s' -> ht_callbacks s = ht_callbacks s' ->
  ht_ccpairs s = ht_ccpairs s' -> lrus s = lrus s' -> heap_ccpairs s = heap_ccpairs s' -> nextli s = nextli s' ->
  now s = now s' -> replies s = replies s' -> sent s = sent s' -> s = s'.
Proof. destruct s, s'. cbn. intros. by subst. Qed.
Lemma fill_eq s b c p x y : pairs s !! p = Some x -> cbs s !! b = Some y -> ht_ccpairs s !! (b, c) = None ->
  fill b c p s = Some (filled s b c p y, inr p).
Proof.
  intros Hp Hb Ht. unfold fill. rewrite ebind_get. lrun (upd_pair_run s p x (set_expire (now s + 3600)) Hp).
  set (s1 := set_pairs _ s). rewrite ebind_mod. set (s2 := set_heap _ s1).
  assert (Hr3 : new_item s2 = Some (set_nextli (nextli s2 + 1) s2, inr (nextli s2))) by done. lrun Hr3.
  set (s3 := set_nextli _ s2). lrun (upd_cb_run s3 b y (fun x => set_ccpairs (ccpairs x ++ [(nextli s2, p)]) x) Hb).
  set (s4 := set_cbs _ s3). set (x1 := set_expire (now s + 3600) x).
  lrun (upd_pair_run s4 p x1 (set_cb_li (Some (nextli s2))) (lookup_insert_eq _ _ _)). set (s5 := set_pairs _ s4).
  lrun (upd_pair_run s5 p _ (set_client (Some c)) (lookup_insert_eq _ _ _)). set (s6 := set_pairs _ s5).
  lrun (upd_pair_run s6 p _ (set_cb (Some b)) (lookup_insert_eq _ _ _)). set (s7 := set_pairs _ s6).
  lrun (ropa_addhead_run s7 Lccpair p). set (s8 := set_lru _ _ _).
  lrun (upd_pair_run s8 p _ (set_li (Some (nextli s7))) (lookup_insert_eq _ _ _)). set (s9 := set_pairs _ s8).
  rewrite ebind_mod. unfold map_add. change (ht_ccpairs s9) with (ht_ccpairs s). rewrite Ht.
  unfold eret. do 2 f_equal. apply ropa_ext; try done.
  cbn [pairs set_ht_ccpairs s9 s8 s7 s6 s5 s4 s3 s2 s1 set_pairs set_lru set_nextli set_cbs set_heap filled].
  by rewrite !insert_insert_eq.
Qed.

Lemma nof_more (f : Z * Z -> Z) (m : gmap (Z * Z) Z) (k : Z * Z) (p : Z) (h : Z -> Z) : m !! k = None ->
  forall z, nof f m z + bump (f k) 1 h z = nof f (<[k := p]> m) z + h z.
Proof.
  intros Hk z. rewrite (nof_insert f m k p z Hk). destruct (Z.eq_dec z (f k)) as [->|Hne].
  - rewrite bump_eq, decide_True by done. lia.
  - rewrite bump_ne, decide_False by congruence. lia.
Qed.

Section Filled.
Context (s : ropa) (hc hb : Z -> Z) (l : option Z) (b c p : Z) (x : ropa_ccpair) (y : ropa_cb) (xc : ropa_client).
Context (H : rinv s (bump c 1 hc) (bump b 1 hb) ∅ l) (Hl : l = None \/ l = Some p)
  (Hp : pairs s !! p = Some x) (Hfree : client x = None /\ cb x = None /\ cb_li x = None)
  (Hb : cbs s !! b = Some y) (Hc : clients s !! c = Some xc) (Ht : ht_ccpairs s !! (b, c) = None)
  (Hhc : forall z, 0 <= hc z) (Hhb : forall z, 0 <= hb z).

#[local] Abbreviation s' := (filled s b c p y).

Lemma filled_ne q z : q <> p -> pairs s' !! q = Some z <-> pairs s !! q = Some z.
Proof. intros Hne. cbn. by rewrite lookup_insert_ne. Qed.
Lemma fill_new : pairs s' !! p = Some (made c b (nextli s) (now s + 3600) (nextli s + 1)).
Proof. apply lookup_insert_eq. Qed.

Lemma filled_pair q z : pairs s' !! q = Some z ->
  match client z, cb z with
  | Some c', Some b' => ht_ccpairs s' !! (b', c') = Some q /\ q ∈ heap_ccpairs s' /\
      (exists xc, clients s' !! c' = Some xc) /\
      exists w, cbs s' !! b' = Some w /\ match cb_li z with Some i => (i, q) ∈ ccpairs w | None => q ∈ (∅ : gset Z) end
  | None, None => (q ∉ heap_ccpairs s') /\ cb_li z = None
  | _, _ => False
  end.
Proof.
  destruct (decide (q = p)) as [->|Hne].
  - rewrite fill_new. intros [= <-]. cbn. rewrite !lookup_insert_eq. split_and!; [done|set_solver|by exists xc|].
    eexists. split; [done|]. cbn. apply elem_of_app. right. by apply list_elem_of_singleton.
  - rewrite filled_ne by done. intros Hq. pose proof (pi_pair _ _ _ (ri_pair _ _ _ _ _ H) q z Hq) as Hz.
    destruct (client z) as [c'|], (cb z) as [b'|]; try done; [|cbn; set_solver].
    destruct Hz as (H1 & H2 & H3 & w & Hw & H4). cbn. split_and!; [|set_solver|done|].
    + rewrite lookup_insert_ne; [done|]. intros [= <- <-]. by rewrite Ht in H1.
    + destruct (decide (b' = b)) as [->|Hnb]; [rewrite lookup_insert_eq|rewrite lookup_insert_ne by done; by exists w].
      assert (w = y) as -> by congruence. eexists. split; [done|]. cbn.
      destruct (cb_li z); [apply elem_of_app; by left|done].
Qed.

Lemma filled_list b' w : cbs s' !! b' = Some w -> items_ok (nextli s') (ccpairs w) /\
  forall i q, (i, q) ∈ ccpairs w -> exists z, pairs s' !! q = Some z /\ cb z = Some b' /\ cb_li z = Some i.
Proof.
  assert (Hold : forall w b', cbs s !! b' = Some w -> items_ok (nextli s) (ccpairs w) /\
    forall i q, (i, q) ∈ ccpairs w -> exists z, pairs s' !! q = Some z /\ cb z = Some b' /\ cb_li z = Some i).
  { clear w b'. intros w b' Hw. destruct (pi_list _ _ _ (ri_pair _ _ _ _ _ H) b' w Hw) as [Ho Hin]. split; [done|].
    intros i q Hq. destruct (Hin i q Hq) as (z & Hz & E1 & E2). exists z. split; [|done].
    apply filled_ne; [|done]. intros ->. destruct Hfree as (_ & ? & _). congruence. }
  cbn [cbs set_cbs filled set_ht_ccpairs set_pairs set_lru set_nextli nextli].
  destruct (decide (b' = b)) as [->|Hnb];
    [rewrite lookup_insert_eq; intros [= <-]|rewrite lookup_insert_ne by done; intros Hw].
  - destruct (Hold y b Hb) as [Ho Hin]. split.
    + apply (items_mono (nextli s + 1)); [lia|]. by apply items_tail.
    + intros i q [Hq|[= -> ->]%list_elem_of_singleton]%elem_of_app; [by apply Hin|].
      eexists. split; [apply fill_new|done].
  - destruct (Hold w b' Hw) as [Ho Hin]. split; [|done]. by apply (items_mono (nextli s)); [lia|].
Qed.

Lemma rinv_filled : rinv s' hc hb ∅ None.
Proof.
  pose proof H as [Hic Hib Hip _ _]. split; [| | |done..].
  - apply (client_inv_ext _ _ _ _ (nof_more snd _ (b, c) p hc Ht)). apply (client_inv_same s); [by split|cbn; lia|done].
  - apply (cb_inv_ext _ _ _ _ (nof_more fst _ (b, c) p hb Ht)).
    apply (cb_inv_detach s _ _ _ b y (ccpairs y ++ [(nextli s, p)])); [done|done|done|done|done|cbn; lia].
  - pose proof Hip as [H1 H2 H3 H4 H5 H6 H7]. split.
    + cbn. apply items_head. by apply (items_mono (nextli s)); [lia|].
    + intros q z Hq. destruct (decide (q = p)) as [->|Hne].
      * rewrite fill_new in Hq. injection Hq as <-. cbn. left.
      * apply filled_ne in Hq; [|done]. specialize (H2 q z Hq). destruct (li z); [cbn; by right|].
        destruct Hl; congruence.
    + intros i q. cbn [lrus filled set_ht_ccpairs set_pairs set_lru]. intros [[= -> ->]|Hi]%elem_of_cons.
      * eexists. apply fill_new.
      * destruct (H3 i q Hi) as (z & Hz). destruct (decide (q = p)) as [->|Hne]; [eexists; apply fill_new|].
        exists z. by apply filled_ne.
    + apply filled_pair.
    + intros b' c' q. cbn [ht_ccpairs filled set_ht_ccpairs]. destruct (decide ((b', c') = (b, c))) as [[= -> ->]|Hne].
      * rewrite lookup_insert_eq. intros [= <-]. eexists. split; [apply fill_new|done].
      * rewrite lookup_insert_ne by congruence. intros Hq. destruct (H5 b' c' q Hq) as (z & Hz & E1 & E2).
        exists z. split; [|done]. apply filled_ne; [|done]. intros ->. destruct Hfree as (? & _). congruence.
    + intros q. cbn [heap_ccpairs filled set_ht_ccpairs set_pairs set_lru set_nextli set_cbs set_heap].
      intros [->%elem_of_singleton|Hq]%elem_of_union; [eexists _, c; split; [apply fill_new|done]|].
      destruct (H6 q Hq) as (z & c' & Hz & E). exists z, c'. split; [|done]. apply filled_ne; [|done].
      intros ->. destruct Hfree as (? & _). congruence.
    + apply filled_list.
Qed.

Lemma promise_filled f : ht_callbacks s !! f = Some b -> forall f' c',
  promise s' f' c' = if decide (f' = f /\ c' = c) then Some (now s + 3600) else promise s f' c'.
Proof.
  intros Hf f' c'. unfold promise. change (ht_callbacks s') with (ht_callbacks s).
  destruct (ht_callbacks s !! f') as [b'|] eqn:Hf'; cbn [mbind option_bind].
  - assert (Hiff : f' = f <-> b' = b).
    { split; [intros ->; congruence|]. intros ->.
      destruct (bi_key _ _ _ (ri_cb _ _ _ _ _ H) f b Hf) as (w & Hw & E & _).
      destruct (bi_key _ _ _ (ri_cb _ _ _ _ _ H) f' b Hf') as (w' & Hw' & E' & _). congruence. }
    cbn [ht_ccpairs filled set_ht_ccpairs]. destruct (decide (f' = f /\ c' = c)) as [[E ->]|Hne].
    + apply Hiff in E as ->. rewrite lookup_insert_eq. cbn [mbind option_bind]. unfold expire_of. by rewrite fill_new.
    + rewrite lookup_insert_ne by (intros [= -> ->]; tauto).
      destruct (ht_ccpairs s !! (b', c')) as [q|] eqn:Hq; [|done]. cbn [mbind option_bind].
      unfold expire_of. cbn. rewrite lookup_insert_ne; [done|]. intros <-.
      destruct (pi_tab _ _ _ (ri_pair _ _ _ _ _ H) b' c' p Hq) as (z & Hz & _ & E). destruct Hfree. congruence.
  - rewrite decide_False; [done|]. intros [-> _]. congruence.
Qed.
End Filled.

(** ** [add_client] *)

Lemma promise_same s s' : ht_callbacks s' = ht_callbacks s -> ht_ccpairs s' = ht_ccpairs s ->
  (forall p, expire_of s' p = expire_of s p) -> forall f c, promise s' f c = promise s f c.
Proof.
  intros E1 E2 E3 f c. unfold promise. rewrite E1, E2. destruct (ht_callbacks s !! f) as [b|]; [|done]. cbn.
  destruct (ht_ccpairs s !! (b, c)) as [p|]; [|done]. cbn. by rewrite E3.
Qed.
Lemma victim_same s s' p : pairs s' !! p = pairs s !! p -> (forall b, fid <$> cbs s' !! b = fid <$> cbs s !! b) ->
  victim s' p = victim s p.
Proof.
  intros E1 E2. unfold victim. rewrite E1. destruct (pairs s !! p) as [x|]; [|done]. cbn.
  destruct (cb x) as [b|]; [|done]. cbn. specialize (E2 b).
  destruct (cbs s' !! b), (cbs s !! b); cbn in *; try done. injection E2 as E2. by rewrite E2.
Qed.

(** The pair is there: it goes to the head of its list. *)
Lemma add_client_old_run s hc hb b c p : rinv s hc hb ∅ None -> ht_ccpairs s !! (b, c) = Some p ->
  exists s', add_client b c s = Some (s', inr p) /\ rinv s' hc hb ∅ None /\ same_clients s s' /\ same_cbs s s' /\
    same_net s s' /\ ht_ccpairs s' = ht_ccpairs s /\ forall q, expire_of s' q = expire_of s q.
Proof.
  intros H Ht. destruct (tab_pair s _ _ _ _ H _ _ _ Ht) as (x & _ & _ & Hx & _).
  pose proof (pi_li _ _ _ (ri_pair _ _ _ _ _ H) p x Hx) as Hli. destruct (li x) as [i|] eqn:Ei; [|done].
  destruct (items_del _ _ _ _ (pi_items _ _ _ (ri_pair _ _ _ _ _ H)) Hli) as (l1 & l2 & Hl & Hd & Hok & Hin).
  unfold add_client. rewrite ebind_get, Ht. lrun (the_pair_run s p x Hx). rewrite Ei. cbn [eopt]. rewrite ebind_ret.
  lrun (ropa_lidel_run s Lccpair i _ Hd). set (s1 := set_lru _ _ s). lrun (ropa_addhead_run s1 Lccpair p).
  set (s2 := set_lru _ _ _). lrun (upd_pair_run s2 p x (set_li (Some (nextli s1))) Hx). set (s3 := set_pairs _ s2).
  exists s3. split; [done|].
  assert (Hnet : same_net s s3) by (split; try done; cbn; lia).
  split; [|split; [done|]; split; [done|]; split; [done|]; split; [done|]].
  - apply (rinv_li s s3 hc hb None None p x (Some (nextli s1)) H); try done; try by left.
    + cbn. lia.
    + cbn. by apply items_head.
    + intros j q. cbn. rewrite elem_of_cons, Hin. intros [[= -> ->]|[? _]]; auto.
    + intros j q Hne Hj. cbn. rewrite elem_of_cons, Hin. right. split; [done|]. cbn. intros ->.
      by rewrite (items_unique _ _ _ _ _ (pi_items _ _ _ (ri_pair _ _ _ _ _ H)) Hj Hli) in Hne.
  - intros q. unfold expire_of. cbn. destruct (decide (q = p)) as [->|];
      [by rewrite lookup_insert_eq, Hx|by rewrite lookup_insert_ne].
Qed.

(** The pair that is next to be used, and whose client can be called *)
Definition next_pair (s : ropa) (p : Z) : Prop := exists l i, lrus s Lccpair = l ++ [(i, p)].
Definition victim_reachable (s : ropa) (p : Z) : Prop :=
  forall x c xc, pairs s !! p = Some x -> client x = Some c -> clients s !! c = Some xc -> reachable xc.

(** What a call made by this server to [xc] about the victim's fid is; the
    clients are those of the state [s]. *)
Definition told_victim (s : ropa) (p : Z) (m : list message) : Prop :=
  match victim s p with
  | Some (f, c) => exists xc, clients s !! c = Some xc /\ told xc [f] m
  | None => m = []
  end.

Record add_step (s s' : ropa) (f : AFSFid) (b c p : Z) (m : list message) : Prop := {
  ad_promise f' c' : promise s' f' c' = if decide (f' = f /\ c' = c) then Some (now s + 3600)
    else if decide (victim s p = Some (f', c')) then None else promise s f' c';
  ad_now : now s' = now s;
  ad_sent : sent s' = m ++ sent s;
  ad_exp : expire_of s' p = now s + 3600;
  ad_pair : ht_ccpairs s' !! (b, c) = Some p;
  ad_cb : exists y, cbs s' !! b = Some y;
  ad_told : told_victim s p m
}.

Lemma told_kept x x' f m : kept_client x x' -> conn x' = conn x -> told x' f m -> told x f m.
Proof.
  intros (_ & _ & _ & _ & E5 & E6 & _) E Ht. unfold told, first_call, own_call in *. by rewrite E, E5, E6 in Ht.
Qed.

(** The references of a new pair *)
Lemma add_refs_run s hc hb b c y xc : rinv s hc hb ∅ None -> 1 <= hb b -> cbs s !! b = Some y ->
  clients s !! c = Some xc -> registered s c xc ->
  exists s' y' xc', (forall k : RM Z, (callback_ref b ;;! client_ref c ;;! k) s = k s') /\
    rinv s' (bump c 1 hc) (bump b 1 hb) ∅ None /\ same_pairs s s' /\ same_net s s' /\
    ht_callbacks s' = ht_callbacks s /\ cbs s' = <[b := y']> (cbs s) /\ fid y' = fid y /\
    clients s' = <[c := xc']> (clients s) /\ kept_client xc xc' /\ conn xc' = conn xc.
Proof.
  intros H Hh Hb Hc Hreg.
  destruct (hold_cb_run s _ _ _ _ H b y Hb) as (s1 & y1 & Hr1 & H1 & [[A1 A2 A3 A4] P1 M1] & N1 & Ef & _ & Et).
  { pose proof (nof_nonneg fst (ht_ccpairs s) b). lia. }
  destruct (hold_client_run s1 _ _ _ _ H1 c xc) as (s2 & xc' & Hr2 & H2 & [[B1 B2 B3] P2 M2] & N2 & Hk & Ecn).
  { by rewrite A1. } { unfold registered. by rewrite A3. }
  exists s2, y1, xc'. split; [|split; [done|]].
  { intros k. rewrite (ebind_ok _ _ _ _ _ Hr1). by rewrite (ebind_ok _ _ _ _ _ Hr2). }
  split; [by eapply same_pairs_trans|]. split; [by eapply same_net_trans|].
  split_and!; try done; [congruence|by rewrite B1, M1|by rewrite M2, A1].
Qed.

Lemma add_client_new_run s hc hb b c y xc p : rinv s hc hb ∅ None -> 1 <= hb b ->
  ht_callbacks s !! fid y = Some b -> cbs s !! b = Some y -> clients s !! c = Some xc -> registered s c xc ->
  ht_ccpairs s !! (b, c) = None -> next_pair s p -> victim_reachable s p ->
  exists s' m, add_client b c s = Some (s', inr p) /\ rinv s' hc hb ∅ None /\ add_step s s' (fid y) b c p m.
Proof.
  intros H Hh Hf Hb Hc Hreg Ht (l & i & Hl) Hreach.
  destruct (add_refs_run s hc hb b c y xc H Hh Hb Hc Hreg)
    as (s2 & y2 & xc2 & Hr2 & H2 & [P1 P2 P3 P4] & [N1 N2 N3 N4] & Et2 & Ec2 & Ef2 & Em2 & Hk2 & Ecn2).
  rewrite <- P4 in Hl.
  destruct (pi_item _ _ _ (ri_pair _ _ _ _ _ H2) i p) as (x & Hx); [rewrite Hl; apply elem_of_app; right; left|].
  pose proof (rinv_loose s2 _ _ i p l x H2 Hl Hx) as H3. set (s3 := set_pairs _ _) in H3.
  assert (Hx3 : pairs s3 !! p = Some (set_li None x)) by apply lookup_insert_eq.
  assert (Hv : victim s3 p = victim s p).
  { transitivity (victim s2 p).
    - unfold victim. rewrite Hx3, Hx. done.
    - apply victim_same; [by rewrite P1|]. intros b'. rewrite Ec2. destruct (decide (b' = b)) as [->|];
        [rewrite lookup_insert_eq, Hb; cbn; congruence|by rewrite lookup_insert_ne]. }
  assert (Hp3 : forall f c', promise s3 f c' = promise s f c').
  { apply promise_same; [done|done|]. intros q. unfold expire_of. cbn. rewrite P1.
    destruct (decide (q = p)) as [->|]; [|by rewrite lookup_insert_ne]. rewrite lookup_insert_eq, <- P1, Hx. done. }
  destruct (evict_run s3 _ _ p _ H3 Hx3) as (s4 & l4 & x4 & m & Hr4 & H4 & Hl4 & [V1 V2 V3 V4 V5 V6 V7 V8 V9]).
  { intros c0 xc0 Exc Hxc0. change (client (set_li None x)) with (client x) in Exc. change (clients s3) with (clients s2) in Hxc0.
    rewrite Em2 in Hxc0. rewrite P1 in Hx. destruct (decide (c0 = c)) as [->|Hne].
    - rewrite lookup_insert_eq in Hxc0. injection Hxc0 as <-. unfold reachable. rewrite Ecn2. by apply (Hreach x c).
    - rewrite lookup_insert_ne in Hxc0 by done. by apply (Hreach x c0). }
  destruct (V7 b y2) as (y4 & Hy4 & Ef4).
  { change (cbs s2 !! b = Some y2). rewrite Ec2. apply lookup_insert_eq. }
  { rewrite bump_eq. lia. }
  destruct (V8 c xc2) as (xc4 & Hxc4); [change (clients s2 !! c = Some xc2); rewrite Em2; apply lookup_insert_eq|].
  assert (Ht4 : ht_ccpairs s4 !! (b, c) = None) by (apply V6; change (ht_ccpairs s2 !! (b, c) = None); by rewrite P2).
  assert (Hf4 : ht_callbacks s4 !! fid y = Some b).
  { rewrite <- Ef2, <- Ef4. apply (bi_tab _ _ _ (ri_cb _ _ _ _ _ H4) b y4 Hy4). rewrite bump_eq.
    pose proof (nof_nonneg fst (ht_ccpairs s4) b). lia. }
  pose proof (ri_hc _ _ _ _ _ H) as Hhc. pose proof (ri_hb _ _ _ _ _ H) as Hhb.
  exists (filled s4 b c p y4), m. split; [|split].
  - unfold add_client. rewrite ebind_get, Ht, Hr2. lrun (deltail_run s2 Lccpair l i p Hl).
    lrun (upd_pair_run (set_lru Lccpair l s2) p x (set_li None) Hx). fold s3.
    lrun (the_pair_run s3 p _ Hx3). lrun Hr4. exact (fill_eq s4 b c p x4 y4 V1 Hy4 Ht4).
  - by apply (rinv_filled s4 hc hb l4 b c p x4 y4 xc4).
  - assert (Enow : now s4 = now s) by (rewrite V3; exact N1). split; try done.
    + intros f' c'. rewrite (promise_filled s4 hc hb l4 b c p x4 y4 xc4 H4 Hl4 V1 V2 Hy4 Hxc4 Ht4 (fid y) Hf4).
      rewrite Enow, V5, Hv, Hp3. done.
    + cbn. rewrite V4. by rewrite <- N3.
    + unfold expire_of. rewrite fill_new. cbn. by rewrite Enow.
    + cbn. apply lookup_insert_eq.
    + eexists. cbn. apply lookup_insert_eq.
    + unfold told_victim. rewrite Hv in V9. destruct (victim s p) as [[f0 c0]|]; [|done].
      destruct V9 as (xc0 & Hxc0 & Htold). change (clients s3) with (clients s2) in Hxc0. rewrite Em2 in Hxc0.
      destruct (decide (c0 = c)) as [->|Hne].
      * rewrite lookup_insert_eq in Hxc0. injection Hxc0 as <-. exists xc. split; [done|]. by eapply told_kept.
      * rewrite lookup_insert_ne in Hxc0 by done. by exists xc0.
Qed.

(** ** [ropa_getcallback] *)

Lemma promise_obtained s s' b f : ht_callbacks s !! f = None -> (forall c, ht_ccpairs s !! (b, c) = None) ->
  ht_callbacks s' = <[f := b]> (ht_callbacks s) -> same_pairs s s' -> forall f' c, promise s' f' c = promise s f' c.
Proof.
  intros Hf Hno Et [E1 E2 _ _] f' c. unfold promise. rewrite Et, E2.
  destruct (decide (f' = f)) as [->|Hne].
  - rewrite lookup_insert_eq, Hf. cbn. by rewrite Hno.
  - rewrite lookup_insert_ne by done. destruct (ht_callbacks s !! f') as [b'|]; [|done]. cbn.
    destruct (ht_ccpairs s !! (b', c)) as [p|]; [|done]. cbn. unfold expire_of. by rewrite E1.
Qed.

(** A callback for the fid: the one it has, or one without pairs to take. *)
Definition callback_at_hand (s : ropa) (f : AFSFid) : Prop :=
  (exists b, ht_callbacks s !! f = Some b) \/ exists l i b y, free_cb s l i b y.

Lemma obtain_callback_run s f : quiet s -> callback_at_hand s f ->
  exists s' b y, obtain_callback f s = Some (s', inr b) /\ rinv s' none_held (bump b 1 none_held) ∅ None /\
    ht_callbacks s' !! f = Some b /\ cbs s' !! b = Some y /\ fid y = f /\ same_clients s s' /\ same_pairs s s' /\
    same_net s s' /\ (forall f' c, promise s' f' c = promise s f' c) /\ (forall p, victim s' p = victim s p).
Proof.
  intros H Hand. destruct (ht_callbacks s !! f) as [b|] eqn:Hf.
  - destruct (bi_key _ _ _ (ri_cb _ _ _ _ _ H) f b Hf) as (y & Hy & Ef & Hr).
    destruct (hold_cb_run s _ _ _ _ H b y Hy Hr) as (s' & y' & Hrun & H' & [[C1 C2 C3 C4] Sp Em] & Hn & Ef' & _ & Et).
    exists s', b, y'. split; [|split; [done|]].
    { unfold obtain_callback. rewrite ebind_get, Hf. by lrun Hrun. }
    pose proof Sp as [E1 E2 _ _]. split_and!; try done; [by rewrite Et|by rewrite Em; apply lookup_insert_eq|congruence|..].
    + apply promise_same; [done|done|]. intros q. unfold expire_of. by rewrite E1.
    + intros p. apply victim_same; [by rewrite E1|]. intros b'. rewrite Em.
      destruct (decide (b' = b)) as [->|]; [rewrite lookup_insert_eq, Hy; cbn; congruence|by rewrite lookup_insert_ne].
  - destruct Hand as [(b & Hb)|(l & i & b & y & Hfree)]; [congruence|].
    pose proof (free_no_pair s _ _ _ l i b y H Hfree) as Hno.
    destruct (obtain_free_run s l i b y f H Hf Hfree) as (s' & y' & Hrun & H' & Em & Sc & Sp & Hn & Et & Ef').
    exists s', b, y'. split; [done|]. split; [done|]. split_and!; try done.
    + rewrite Et. apply lookup_insert_eq.
    + rewrite Em. apply lookup_insert_eq.
    + by apply (promise_obtained s s' b f).
    + intros p. destruct Sp as [E1 E2 _ _]. unfold victim. rewrite E1, Em.
      destruct (pairs s !! p) as [x|] eqn:Ex; [|done]. cbn. destruct (cb x) as [b'|] eqn:Exb; [|done]. cbn.
      destruct (decide (b' = b)) as [->|]; [|by rewrite lookup_insert_ne].
      pose proof (pi_pair _ _ _ (ri_pair _ _ _ _ _ H) p x Ex) as Hp. rewrite Exb in Hp.
      destruct (client x) as [c|]; [|done]. destruct Hp as (Hp & _). by rewrite Hno in Hp.
Qed.

(** The time a promise has left, as the client gets it *)
Definition time_left (s : ropa) (t : Z) : AFSCallBack := update_callback_time (swrap32 (t - now s)) CBSHARED.

(** The end of [ropa_getcallback] *)
Lemma get_end_run s b c q y : rinv s none_held (bump b 1 none_held) ∅ None -> ht_ccpairs s !! (b, c) = Some q ->
  cbs s !! b = Some y ->
  exists s', (callback_deref b ;;! update_callback q CBSHARED) s = Some (s', inr (time_left s (expire_of s q))) /\
    quiet s' /\ (forall f' c', promise s' f' c' = promise s f' c') /\ sent s' = sent s.
Proof.
  intros H Hq Hy.
  destruct (drop_cb_run s _ _ _ _ H b y Hy) as (s' & y' & Hr & H' & [Sc [Q1 Q2 Q3 Q4] _] & [O1 _ O3 _] & _ & Ht).
  { by rewrite bump_eq. }
  assert (Hquiet : quiet s') by exact (rinv_ext s' _ _ _ _ _ _ (fun z => eq_refl) (bump_back b none_held) H').
  exists s'. split; [|split; [done|split; [|done]]].
  - destruct (tab_pair s' _ _ _ _ Hquiet b c q) as (x & _ & _ & Hx & _); [congruence|].
    lrun Hr. unfold update_callback. lrun (the_pair_run s' q x Hx). rewrite ebind_get. unfold time_left.
    unfold expire_of. rewrite <- Q1, Hx, O1. done.
  - rewrite bump_eq in Ht. pose proof (nof_pos fst _ _ _ Hq) as Hpos. cbn [fst] in Hpos.
    rewrite (proj2 (Z.eqb_neq _ _)) in Ht by (unfold none_held; lia). destruct Ht as [_ Et].
    apply promise_same; [done|done|]. intros r. unfold expire_of. by rewrite Q1.
Qed.

(** What the call does, for a known client *)
Definition get_spec (s : ropa) (host pt c : Z) (f : AFSFid) (voltype p : Z) : Prop :=
  let g := callback_fid f voltype in
  let t := default (now s + 3600) (promise s g c) in
  let evicted := match promise s g c with Some _ => None | None => victim s p end in
  exists s' m, ropa_getcallback host pt f voltype s = Some (s', inr (time_left s t)) /\ quiet s' /\
    (forall f' c', promise s' f' c' = if decide (f' = g /\ c' = c) then Some t
       else if decide (evicted = Some (f', c')) then None else promise s f' c') /\
    sent s' = m ++ sent s /\ if evicted is Some _ then told_victim s p m else m = [].

Lemma getcallback_run s host pt c f voltype p : let g := callback_fid f voltype in
  quiet s -> at_address s host pt c -> callback_at_hand s g -> next_pair s p -> victim_reachable s p ->
  get_spec s host pt c f voltype p.
Proof.
  intros g H Hat Hand (l & i & Hl) Hreach. unfold get_spec. fold g. set (t := default _ _).
  set (evicted := match promise s g c with Some _ => None | None => victim s p end).
  destruct (obtain_callback_run s g H Hand)
    as (s1 & b & y & Hr1 & H1 & Hf1 & Hb1 & Ef & [C1 C2 C3 C4] & [P1 P2 P3 P4] & [N1 N2 N3 N4] & Hp1 & Hv1).
  assert (Hprom : promise s g c = q ← ht_ccpairs s !! (b, c); Some (expire_of s q)).
  { rewrite <- Hp1. unfold promise. rewrite Hf1. cbn. rewrite P2.
    destruct (ht_ccpairs s !! (b, c)); [|done]. cbn. unfold expire_of. by rewrite P1. }
  unfold ropa_getcallback. lrun (client_query_known s _ _ _ _ host pt c H Hat). fold g. lrun Hr1.
  destruct (ht_ccpairs s !! (b, c)) as [q|] eqn:Hq; cbn in Hprom.
  - assert (Hq1 : ht_ccpairs s1 !! (b, c) = Some q) by congruence.
    destruct (add_client_old_run s1 _ _ b c q H1 Hq1) as (s2 & Hr2 & H2 & Sc & [D1 D2 _] & [O1 _ O3 _] & Et & Ex).
    lrun Hr2. destruct (get_end_run s2 b c q y H2) as (s3 & Hr3 & H3 & Hp3 & Es3); [congruence|congruence|].
    assert (Ht : t = expire_of s2 q).
    { unfold t. rewrite Hprom. cbn. rewrite Ex. unfold expire_of. by rewrite P1. }
    exists s3, []. rewrite Hr3. split; [|split; [done|split; [|split; [cbn; congruence|]]]].
    + unfold time_left. by rewrite Ht, O1, N1.
    + intros f' c'. rewrite Hp3, (promise_same s1 s2 D2 Et Ex), Hp1. unfold evicted. rewrite Hprom.
      destruct (decide (f' = g /\ c' = c)) as [[-> ->]|]; [|by rewrite decide_False].
      rewrite Hprom, Ht, Ex. unfold expire_of. by rewrite P1.
    + unfold evicted. by rewrite Hprom.
  - pose proof Hat as (xc & Hxc & _).
    pose proof (at_registered s _ None host pt c xc (ri_cli _ _ _ _ _ H) Hat Hxc) as Hreg.
    destruct (add_client_new_run s1 _ _ b c y xc p H1) as (s2 & m & Hr2 & H2 & [A1 A2 A3 A4 A5 (y2 & A6) A7]).
    { by rewrite bump_eq. } { congruence. } { done. } { congruence. }
    { unfold registered. by rewrite C3. } { congruence. } { exists l, i. by rewrite P4. }
    { intros x0 c0 xc0. rewrite P1, C1. apply Hreach. }
    lrun Hr2. destruct (get_end_run s2 b c p y2 H2 A5 A6) as (s3 & Hr3 & H3 & Hp3 & Es3).
    assert (Ht : t = expire_of s2 p) by (unfold t; rewrite Hprom, A4, N1; done).
    exists s3, m. rewrite Hr3. split; [|split; [done|split; [|split; [congruence|]]]].
    + unfold time_left. by rewrite Ht, A2, N1.
    + intros f' c'. rewrite Hp3, A1, Ef, Hv1, Hp1, N1. unfold evicted, t. by rewrite Hprom.
    + unfold evicted. rewrite Hprom. unfold told_victim in A7 |- *. rewrite Hv1, C1 in A7.
      by destruct (victim s p).
Qed.

(** C13: A known client that asks for a promise has it when the call returns:
    for an hour from now if it had none for the fid, and until the time it was
    promised before otherwise; that time is what it is told.  No other promise
    changes, but for the least recently used one if it is needed to make room,
    whose client is told. *)
Theorem ropa_getcallback_correct s host pt c f voltype p :
  let g := callback_fid f voltype in
  let t := default (now s + 3600) (promise s g c) in
  let evicted := match promise s g c with Some _ => None | None => victim s p end in
  quiet s -> at_address s host pt c -> callback_at_hand s g -> next_pair s p -> victim_reachable s p ->
  exists s' m, ropa_getcallback host pt f voltype s = Some (s', inr (time_left s t)) /\ quiet s' /\
    (forall f' c', promise s' f' c' = if decide (f' = g /\ c' = c) then Some t
       else if decide (evicted = Some (f', c')) then None else promise s f' c') /\
    sent s' = m ++ sent s /\ if evicted is Some _ then told_victim s p m else m = [].
Proof. intros g t evicted. exact (getcallback_run s host pt c f voltype p). Qed.
