(* ===== verification/RopaQuery.v ===== *)
(** * Callbacks: a new client

    [client_query] for an address that nobody has: the least recently used
    client structure, when it is free, becomes the client that answers at the
    address under a UUID that is new. *)

From S2P Require Import Prelude Items Estate Hash HashCorrect Fdir Ropa RopaIp RopaInv RopaCb RopaPair.
From S2P Require Import RopaBreak RopaLoop RopaCorrect RopaProps RopaGet.

Local Open Scope em_scope.

(** ** The table of addresses *)

(** The entries of [m] are of other clients than [c]. *)
Definition without (c : Z) (m : gmap (Z * Z) ipent) : Prop :=
  forall k e, m !! k = Some e -> exists c', e = Stored c' 0 /\ c' <> c.

Lemma other_key cs cs' c c' : c' <> c -> (forall c', c' <> c -> cs' !! c' = cs !! c') ->
  ip_key cs' (Stored c' 0) = ip_key cs (Stored c' 0) /\ (good cs (Stored c' 0) -> good cs' (Stored c' 0)).
Proof. intros Hne Hcs. unfold ip_key, good, ent_addr. by rewrite Hcs. Qed.

Lemma ip_rep_other cs cs' t m c : ip_rep cs t m -> without c m -> (forall c', c' <> c -> cs' !! c' = cs !! c') ->
  ip_rep cs' t m.
Proof.
  intros H Hw Hcs. apply (ip_rep_agree cs); [done|]. intros k e He. destruct (Hw k e He) as (c' & -> & Hne).
  destruct (other_key cs cs' c c' Hne Hcs) as [-> Hg]. split; [|done]. apply Hg. by eapply H.
Qed.

(** A client with the one address. *)
Definition addressed (host : Z) (x : ropa_client) : ropa_client :=
  set_addrs 1 (<[0%nat := Addr true host 0xffffff00 ROPA_MTU]> (addr x)) x.
Lemma addressed_one host x : (0 < length (addr x))%nat -> one_addr (addressed host x).
Proof. intros Hl. split; [done|]. destruct (addr x) as [|a l] eqn:E; [cbn in Hl; lia|]. cbn. rewrite E. by eexists _, l. Qed.
Lemma addressed_key cs c host x : (0 < length (addr x))%nat -> cs !! c = Some (addressed host x) ->
  ip_key cs (Stored c 0) = (host, port x) /\ good cs (Stored c 0).
Proof.
  intros Hl Hc. unfold ip_key, good, ent_addr. rewrite Hc. split.
  - destruct (addr x) as [|a l] eqn:E; [cbn in Hl; lia|]. cbn. by rewrite E.
  - split; [done|]. eexists. split; [done|]. by apply addressed_one.
Qed.

(** The addresses that the client has leave the table. *)
Lemma del_addrs_run s c x m mc host pt : clients s !! c = Some x -> without c m -> ip_rep (clients s) (ht_clients_ip s) mc ->
  m !! (host, pt) = None ->
  (numberOfInterfaces x = 0 /\ mc = m \/
   mc = <[(host, pt) := Stored c 0]> m /\ one_addr x /\ ip_key (clients s) (Stored c 0) = (host, pt)) ->
  exists t', each_addr (seq 0 (Z.to_nat (numberOfInterfaces x))) (fun i => ip_del (Stored c i) ;;! eret tt) s =
    Some (set_ht_ip t' s, inr tt) /\ ip_rep (clients s) t' m.
Proof.
  intros Hc Hw Hrep Hnone [[-> ->]|(-> & Hone & Hk)].
  - exists (ht_clients_ip s). split; [by destruct s|done].
  - pose proof Hone as [-> _]. change (seq 0 (Z.to_nat 1)) with [0%nat]. cbn [each_addr].
    assert (Hg : good (clients s) (Stored c 0)) by (split; [done|by exists x]).
    destruct (ip_del_run s _ (Stored c 0) Hrep Hg) as (t' & Hr & Hrep'). rewrite Hk in Hrep'.
    rewrite delete_insert_id in Hrep' by done. exists t'. split; [|done].
    assert (Hr' : (ip_del (Stored c 0) ;;! eret tt) s = Some (set_ht_ip t' s, inr tt)) by (by rewrite (ebind_ok _ _ _ _ _ Hr)).
    by rewrite (ebind_ok _ _ _ _ _ Hr').
Qed.

Lemma client_init_run s c x m mc host pt (u : option (list Z)) : clients s !! c = Some x ->
  length (addr x) = AFS_MAX_INTERFACE_ADDR -> without c m -> m !! (host, pt) = None ->
  ip_rep (clients s) (ht_clients_ip s) mc ->
  (numberOfInterfaces x = 0 /\ mc = m \/
   mc = <[(host, pt) := Stored c 0]> m /\ one_addr x /\ port x = pt /\ ip_key (clients s) (Stored c 0) = (host, pt)) ->
  (forall v, u = Some v -> ht_clients_uuid s !! v = None) ->
  exists s', client_init c host pt u None s = Some (s', inr tt) /\ same_cbs s s' /\ same_pairs s s' /\ same_net s s' /\
    let x' := from_option set_uuid id u (addressed host (set_port pt x)) in
    clients s' = <[c := x']> (clients s) /\
    ht_clients_uuid s' = from_option (fun v => <[v := c]>) id u (ht_clients_uuid s) /\
    lrus s' Lclients = lrus s Lclients /\ nextli s' = nextli s /\
    ip_rep (clients s') (ht_clients_ip s') (<[(host, pt) := Stored c 0]> m).
Proof.
  intros Hc Hlen Hw Hnone Hrep Hcase Hu. unfold client_init.
  lrun (upd_client_run s c x (set_port pt) Hc). set (x1 := set_port pt x). set (s1 := set_clients _ s).
  assert (Hc1 : clients s1 !! c = Some x1) by apply lookup_insert_eq.
  assert (Hcs1 : forall c', c' <> c -> clients s1 !! c' = clients s !! c') by (intros c' Hne; cbn; by rewrite lookup_insert_ne).
  assert (Hrep1 : ip_rep (clients s1) (ht_clients_ip s1) mc).
  { apply (ip_rep_agree (clients s)); [done|]. intros k e He.
    assert (Hsame : (exists c', e = Stored c' 0 /\ c' <> c) \/ e = Stored c 0 /\ x1 = x).
    { destruct Hcase as [[_ ->]|(-> & _ & Ep & _)]; [left; by apply (Hw k)|].
      apply lookup_insert_Some in He as [[_ <-]|[_ He]]; [right; split; [done|]|left; by apply (Hw k)].
      unfold x1. rewrite <- Ep. by destruct x. }
    destruct Hsame as [(c' & -> & Hne)|[-> E]].
    - destruct (other_key (clients s) (clients s1) c c' Hne Hcs1) as [-> Hg]. split; [|done]. apply Hg. by eapply Hrep.
    - assert (Ecs : clients s1 = clients s) by (cbn; rewrite E; by apply insert_id). rewrite Ecs. split; [|done].
      by eapply Hrep. }
  destruct (del_addrs_run s1 c x1 m mc host pt Hc1 Hw Hrep1 Hnone) as (t2 & Hr2 & Hrep2).
  { destruct Hcase as [?|(? & ? & Ep & Ek)]; [by left|right]. split; [done|]. split; [done|].
    unfold ip_key, ent_addr in *. rewrite Hc in Ek. rewrite Hc1. exact (eq_trans Ek eq_refl) || (cbn in *; congruence). }
  set (s2 := set_ht_ip t2 s1). set (x3 := set_addrs 1 (addr x1) x1). set (s3 := set_clients (<[c := x3]> (clients s2)) s2).
  set (x4 := addressed host x1). set (s4 := set_clients (<[c := x4]> (clients s3)) s3).
  assert (Hc4 : clients s4 !! c = Some x4) by apply lookup_insert_eq.
  assert (Hrep4 : ip_rep (clients s4) (ht_clients_ip s4) m).
  { apply (ip_rep_other (clients s1) _ _ _ c Hrep2 Hw). intros c' Hne. cbn. by rewrite !lookup_insert_ne. }
  destruct (addressed_key (clients s4) c host x1) as [Hk4 Hg4]; [cbn; rewrite Hlen; unfold AFS_MAX_INTERFACE_ADDR; lia|done|].
  destruct (ip_add_run s4 m (Stored c 0) Hrep4 Hg4) as (t5 & Hr5 & Hrep5); [rewrite Hk4; exact Hnone|].
  set (s5 := set_ht_ip t5 s4).
  assert (Hrun : (x <-- the_client c ;;
      each_addr (seq 0 (Z.to_nat (numberOfInterfaces x))) (fun i => ip_del (Stored c i) ;;! eret tt) ;;!
      upd_client c (fun x => set_addrs 1 (addr x) x) ;;!
      put_addr c 0 (Addr true host 0xffffff00 ROPA_MTU) ;;!
      ip_add (Stored c 0)) s1 = Some (s5, inr tt)).
  { lrun (the_client_run s1 c x1 Hc1). lrun Hr2. lrun (upd_client_run s2 c x1 (fun x => set_addrs 1 (addr x) x) Hc1).
    assert (Hr4 : put_addr c 0 (Addr true host 0xffffff00 ROPA_MTU) s3 = Some (s4, inr tt)).
    { unfold put_addr. by rewrite (upd_client_run s3 c x3 _ (lookup_insert_eq _ _ _)). }
    fold x3 s3. lrun Hr4. exact Hr5. }
  lrun Hrun.
  assert (Hcs5 : clients s5 = <[c := x4]> (clients s)) by (cbn; by rewrite !insert_insert_eq).
  rewrite Hk4 in Hrep5. destruct u as [v|].
  - lrun (upd_client_run s5 c x4 (set_uuid v) Hc4). set (x6 := set_uuid v x4). set (s6 := set_clients _ s5).
    assert (Hc6 : clients s6 !! c = Some x6) by apply lookup_insert_eq.
    exists (set_ht_uuid (<[v := c]> (ht_clients_uuid s6)) s6). split.
    { unfold uuid_add. lrun (the_client_run s6 c x6 Hc6). unfold emod, map_add.
      change (ht_clients_uuid s6 !! uuid x6) with (ht_clients_uuid s !! v). by rewrite (Hu v eq_refl). }
    split; [done|]. split; [done|]. split; [by split|]. cbn [from_option].
    split; [cbn; by rewrite !insert_insert_eq|]. split; [done|]. split; [done|]. split; [done|].
    apply (ip_rep_agree (clients s4)); [exact Hrep5|]. intros k e He.
    assert (Hkg : ip_key (clients s6) e = ip_key (clients s4) e /\ (good (clients s4) e -> good (clients s6) e)).
    { destruct e as [c' j|h p]; [|done]. unfold ip_key, good, ent_addr. cbn [clients s6 set_clients s5 set_ht_ip].
      destruct (decide (c' = c)) as [->|Hne]; [rewrite lookup_insert_eq, Hc4|by rewrite lookup_insert_ne].
      split; [done|]. intros (-> & y & [= <-] & Ho). split; [done|]. by exists x6. }
    destruct Hkg as [E Hg]. split; [|exact E]. apply Hg. by eapply Hrep5.
  - exists s5. split; [done|]. split; [done|]. split; [done|]. split; [by split|]. cbn [from_option id].
    split; [exact Hcs5|]. by split_and!.
Qed.

(** ** The new client *)

Lemma unused_without s c x m : clients s !! c = Some x -> unused x ->
  (forall k e, m !! k = Some e <-> in_ip s k e) -> without c m.
Proof.
  intros Hc [Hs _] Hm k e He. apply Hm in He as (c' & y & -> & Hy & Hys & _). exists c'. split; [done|].
  intros ->. congruence.
Qed.

Lemma client_inv_new s s' rc i c l x x' n host pt m : client_inv s rc None -> rc c = 0 ->
  lrus s Lclients = l ++ [(i, c)] -> clients s !! c = Some x -> unused x ->
  (forall k e, m !! k = Some e <-> in_ip s k e) -> m !! (host, pt) = None ->
  clients s' = <[c := x']> (clients s) -> state x' <> ROPAC_FREE -> one_addr x' -> callbacks x' = [] -> cflags x' = 0 ->
  length (addr x') = AFS_MAX_INTERFACE_ADDR -> cref x' = 0 -> cli x' = Some n ->
  lrus s' Lclients = (n, c) :: l -> nextli s <= n < nextli s' ->
  ht_clients_uuid s !! uuid x' = None -> ht_clients_uuid s' = <[uuid x' := c]> (ht_clients_uuid s) ->
  ip_key (clients s') (Stored c 0) = (host, pt) ->
  ip_rep (clients s') (ht_clients_ip s') (<[(host, pt) := Stored c 0]> m) -> client_inv s' rc None.
Proof.
  intros [H1 H2 H3 H4 H5 H6 H7] Hrc Hl Hc Hun Hm Hnone Hcs Hst Hone Hcb Hfl Hlen Hcr Hcli Hl' Hn Hu Huu Hkey Hrep.
  pose proof (unused_without s c x m Hc Hun Hm) as Hw. rewrite Hl in H1. destruct (items_snoc _ _ _ _ H1) as [Hokl Hout].
  assert (Hlk : forall c', c' <> c -> clients s' !! c' = clients s !! c') by (intros c' Hne; by rewrite Hcs, lookup_insert_ne).
  assert (Hlc : clients s' !! c = Some x') by (rewrite Hcs; apply lookup_insert_eq).
  assert (Hreg : registered s' c x').
  { split; [done|]. split; [done|]. rewrite Huu. apply lookup_insert_eq. }
  assert (Hregs : forall c' y, registered s c' y -> registered s' c' y).
  { intros c' y (A & B & Hy). split; [done|]. split; [done|]. rewrite Huu, lookup_insert_ne; [done|]. congruence. }
  assert (Hlc_out : forall j, (j, c) ∉ l).
  { intros j Hj. assert (Hj' : (j, c) ∈ lrus s Lclients) by (rewrite Hl; apply elem_of_app; by left).
    assert (Hi' : (i, c) ∈ lrus s Lclients) by (rewrite Hl; apply elem_of_app; right; by apply list_elem_of_singleton).
    destruct (H3 _ _ Hj') as (z & Hz1 & Hz2), (H3 _ _ Hi') as (z' & Hz3 & Hz4). apply (Hout c). congruence. }
  split.
  - rewrite Hl'. apply (items_mono (n + 1)); [lia|]. apply items_head. by apply (items_mono (nextli s)); [lia|].
  - intros c' y Hy. destruct (decide (c' = c)) as [->|Hne].
    + rewrite Hlc in Hy. injection Hy as <-. rewrite Hcli, Hl'. left.
    + rewrite Hlk in Hy by done. specialize (H2 c' y Hy). destruct (cli y) as [j|]; [|done]. rewrite Hl', elem_of_cons. right.
      rewrite Hl in H2. apply elem_of_app in H2 as [?|[= _ ->]%list_elem_of_singleton]; done.
  - intros j c' Hj. rewrite Hl' in Hj. apply elem_of_cons in Hj as [[= -> ->]|Hj]; [by exists x'|].
    rewrite Hlk by (intros ->; by apply (Hlc_out j)). apply H3. rewrite Hl. apply elem_of_app. by left.
  - intros c' y Hy. destruct (decide (c' = c)) as [->|Hne].
    + rewrite Hlc in Hy. injection Hy as <-. lia.
    + rewrite Hlk in Hy by done. by apply H4.
  - intros c' y Hy. destruct (decide (c' = c)) as [->|Hne].
    + rewrite Hlc in Hy. injection Hy as <-. split_and!; try done. by left.
    + rewrite Hlk in Hy by done. destruct (H5 c' y Hy) as (A1 & A2 & A3 & A4). split_and!; try done.
      destruct A4 as [?|?]; [left; by apply Hregs|by right].
  - intros u c' Hu'. rewrite Huu in Hu'. apply lookup_insert_Some in Hu' as [[<- <-]|[Hne Hu']]; [by exists x'|].
    destruct (H6 u c' Hu') as (y & Hy & Hyu & Hyr). exists y. rewrite Hlk; [split_and!; try done; by apply Hregs|].
    intros ->. assert (y = x) as -> by congruence. destruct Hyr as [Hs _], Hun. done.
  - exists (<[(host, pt) := Stored c 0]> m). split; [done|]. intros k e. rewrite lookup_insert_Some, Hm. split.
    + intros [[<- <-]|[_ Hk]]; [by exists c, x'|]. pose proof Hk as (c' & y & -> & Hy & A & B & E).
      assert (Hne : c' <> c) by (intros ->; destruct Hun; congruence).
      exists c', y. rewrite Hlk by done. destruct (other_key (clients s) (clients s') c c' Hne Hlk) as [-> _]. done.
    + intros (c' & y & -> & Hy & A & B & E). destruct (decide (c' = c)) as [->|Hne]; [left; split; congruence|right].
      rewrite Hlk in Hy by done. destruct (other_key (clients s) (clients s') c c' Hne Hlk) as [Ek _]. rewrite Ek in E.
      assert (Hk : in_ip s k (Stored c' 0)) by (by exists c', y). split; [|done]. intros <-. apply Hm in Hk. congruence.
Qed.

(** A client structure that is free, at the end of the list *)
Record free_client (s : ropa) (l : list (Z * Z)) (i c : Z) (x : ropa_client) : Prop := {
  fr_lru : lrus s Lclients = l ++ [(i, c)];
  fr_client : clients s !! c = Some x;
  fr_unused : unused x
}.
(** The client that [obtain_client] and the first [client_init] make of it *)
Definition looked_up (host pt : Z) (x : ropa_client) : ropa_client :=
  addressed host (set_port pt (set_cflags ROPAF_LOOKUP (set_state ROPAC_LOOKUP_U (set_cli None x)))).

Lemma obtain_client_run s l i c x : free_client s l i c x ->
  exists s', obtain_client s = Some (s', inr c) /\ same_cbs s s' /\ same_pairs s s' /\ same_net s s' /\
    nextli s' = nextli s /\ lrus s' Lclients = l /\ clients s' = <[c := set_cli None x]> (clients s) /\
    ht_clients_ip s' = ht_clients_ip s /\ ht_clients_uuid s' = ht_clients_uuid s.
Proof.
  intros [Hl Hc [Hs _]]. unfold obtain_client. lrun (deltail_run s Lclients l i c Hl). set (s1 := set_lru _ _ s).
  lrun (upd_client_run s1 c x (set_cli None) Hc). set (x1 := set_cli None x). set (s2 := set_clients _ s1).
  assert (Hc2 : clients s2 !! c = Some x1) by apply lookup_insert_eq.
  lrun (the_client_run s2 c x1 Hc2). assert (Hu : client_inuse_p x1 = false) by (unfold client_inuse_p; cbn; by rewrite Hs).
  rewrite Hu, ebind_ret. lrun (the_client_run s2 c x1 Hc2). change (cli x1) with (@None Z). cbn [lru_unlink].
  rewrite ebind_ret. lrun (upd_client_run s2 c x1 (set_cli None) Hc2). set (s3 := set_clients _ s2).
  assert (Hcs : clients s3 = <[c := x1]> (clients s)) by (cbn; by rewrite insert_insert_eq).
  assert (Hnet : same_net s s3) by (split; try done; cbn; lia).
  exists s3. by split_and!.
Qed.

(** The answer of the client: its interfaces, and that it has dropped its
    promises.  Any other error than these two codes counts as an answer. *)
Definition answers (s : ropa) (remote : interfaceAddr) : Prop :=
  exists r1 r2 l, replies s = (r1, remote) :: (0, r2) :: l /\ r1 <> RXGEN_OPCODE /\ r1 <> RX_CALL_DEAD.

Lemma rpc_next m s r l : replies s = r :: l -> rpc m s = Some (set_net l (m :: sent s) s, inr r).
Proof. intros E. unfold rpc. by rewrite ebind_get, E. Qed.

Record lookup_step (s s' : ropa) (host pt c : Z) (u : list Z) (x : ropa_client) (m : gmap (Z * Z) ipent) : Prop := {
  lk_cbs : same_cbs s s';
  lk_pairs : same_pairs s s';
  lk_now : now s' = now s;
  lk_next : nextli s' = nextli s;
  lk_clients : clients s' = <[c := set_uuid u (addressed host (set_port pt x))]> (clients s);
  lk_uuid : ht_clients_uuid s' = <[u := c]> (ht_clients_uuid s);
  lk_lru : lrus s' Lclients = lrus s Lclients;
  lk_ip : ip_rep (clients s') (ht_clients_ip s') (<[(host, pt) := Stored c 0]> m);
  lk_sent : sent s' = [InitCallBackState3 host pt; WhoAreYou host pt] ++ sent s
}.

(** The two [client_init]s and the calls between them *)
Lemma lookup_run s c x m host pt remote : clients s !! c = Some x -> numberOfInterfaces x = 0 ->
  length (addr x) = AFS_MAX_INTERFACE_ADDR -> without c m -> m !! (host, pt) = None ->
  ip_rep (clients s) (ht_clients_ip s) m -> ht_clients_uuid s !! if_uuid remote = None -> answers s remote ->
  exists s', (client_init c host pt None None ;;! query_lookup_u c host pt) s = Some (s', inr (c, 0)) /\
    lookup_step s s' host pt c (if_uuid remote) x m.
Proof.
  intros Hc Hn Hlen Hw Hnone Hrep Hu (r1 & r2 & rl & Hrl & Hop & Hdead).
  destruct (client_init_run s c x m m host pt None Hc Hlen Hw Hnone Hrep) as (s1 & Hr1 & C1 & P1 & [N1 N2 N3 _] & Hcs1 & U1 & L1 & X1 & Hrep1);
    [by left|done|]. lrun Hr1. cbn [from_option id] in Hcs1, U1. set (x1 := addressed host (set_port pt x)) in *.
  unfold query_lookup_u. rewrite <- N2 in Hrl. lrun (rpc_next (WhoAreYou host pt) s1 _ _ Hrl).
  set (s2 := set_net _ _ s1). rewrite (proj2 (Z.eqb_neq _ _) Hop), (proj2 (Z.eqb_neq _ _) Hdead).
  unfold uuid_search. cbv beta. assert (Hr3 : (s <-- eget ;; eret (ht_clients_uuid s !! if_uuid remote)) s2 = Some (s2, inr None)).
  { rewrite ebind_get. change (ht_clients_uuid s2) with (ht_clients_uuid s1). by rewrite U1, Hu. }
  lrun Hr3. assert (Hc2 : clients s2 !! c = Some x1) by (cbn; rewrite Hcs1; apply lookup_insert_eq).
  destruct (client_init_run s2 c x1 m (<[(host, pt) := Stored c 0]> m) host pt (Some (if_uuid remote)) Hc2)
    as (s3 & Hr4 & C3 & P3 & [M1 M2 M3 _] & Hcs3 & U3 & L3 & X3 & Hrep3); try done.
  { cbn. by rewrite length_insert. }
  { right. split; [done|]. split; [apply addressed_one; cbn; rewrite Hlen; unfold AFS_MAX_INTERFACE_ADDR; lia|].
    split; [done|]. apply (addressed_key _ c host (set_port pt x)); [cbn; rewrite Hlen; unfold AFS_MAX_INTERFACE_ADDR; lia|done]. }
  { intros v [= <-]. change (ht_clients_uuid s2) with (ht_clients_uuid s1). by rewrite U1. }
  lrun Hr4. change (replies s2) with ((0, r2) :: rl) in M2. lrun (rpc_next (InitCallBackState3 host pt) s3 _ _ M2).
  set (s4 := set_net _ _ s3). exists s4. split; [done|]. cbn [from_option] in Hcs3, U3.
  assert (Eadd : set_uuid (if_uuid remote) (addressed host (set_port pt x1)) = set_uuid (if_uuid remote) (addressed host (set_port pt x))).
  { unfold x1, addressed, set_uuid, set_port. cbn. by rewrite list_insert_insert_eq. }
  split.
  - destruct C1, C3. split; cbn in *; congruence.
  - destruct P1, P3. split; cbn in *; congruence.
  - cbn in *. congruence.
  - cbn in *. congruence.
  - change (clients s4) with (clients s3). rewrite Hcs3, Eadd. change (clients s2) with (clients s1).
    by rewrite Hcs1, insert_insert_eq.
  - change (ht_clients_uuid s4) with (ht_clients_uuid s3). rewrite U3. change (ht_clients_uuid s2) with (ht_clients_uuid s1).
    by rewrite U1.
  - change (lrus s4) with (lrus s3). by rewrite L3.
  - exact Hrep3.
  - cbn. rewrite M3. cbn. by rewrite N3.
Qed.

Lemma client_query_new_run s host pt l i c x remote :
  quiet s -> nobody_at s host pt -> free_client s l i c x -> answers s remote ->
  ht_clients_uuid s !! if_uuid remote = None ->
  exists s', client_query host pt s = Some (s', inr (Some c)) /\ quiet s' /\ at_address s' host pt c /\
    (forall f c', promise s' f c' = promise s f c') /\
    sent s' = [InitCallBackState3 host pt; WhoAreYou host pt] ++ sent s.
Proof.
  intros H Hno Hfree Hans Hu. pose proof (ri_cli _ _ _ _ _ H) as Hi. pose proof Hfree as [Hl Hc Hun].
  destruct (ci_kind _ _ _ Hi c x Hc) as (Hcb & Hfl & Hlen & [[Hs _]|[_ Hrc]]); [by destruct Hun|].
  destruct (ci_ip _ _ _ Hi) as (m & Hrep & Hm). pose proof (unused_without s c x m Hc Hun Hm) as Hw.
  assert (Hnone : m !! (host, pt) = None).
  { destruct (m !! (host, pt)) as [e|] eqn:E; [|done]. destruct (Hw _ _ E) as (c' & -> & _).
    apply Hm, in_ip_at in E. by destruct (Hno c'). }
  unfold client_query. lrun (notalkback_unknown s _ None host pt Hi Hno).
  destruct (obtain_client_run s l i c x Hfree) as (s1 & Hr1 & C1 & P1 & [N1 N2 N3 _] & X1 & L1 & Hcs1 & I1 & U1).
  lrun Hr1. set (x1 := set_cli None x) in *. assert (Hc1 : clients s1 !! c = Some x1) by (rewrite Hcs1; apply lookup_insert_eq).
  lrun (the_client_run s1 c x1 Hc1). rewrite !bool_decide_eq_true_2 by (done || apply Hun). cbn [andb eassert]. rewrite ebind_ret.
  lrun (upd_client_run s1 c x1 (fun x => set_cflags (Z.lor (cflags x) ROPAF_LOOKUP) (set_state ROPAC_LOOKUP_U x)) Hc1).
  set (x2 := set_cflags _ _). set (s2 := set_clients _ s1).
  assert (Hrep2 : ip_rep (clients s2) (ht_clients_ip s2) m).
  { change (ht_clients_ip s2) with (ht_clients_ip s1). rewrite I1. apply (ip_rep_other (clients s) _ _ _ c Hrep Hw).
    intros c' Hne. cbn. rewrite Hcs1. by rewrite !lookup_insert_ne. }
  destruct (lookup_run s2 c x2 m host pt remote) as (s3 & Hr3 & [C3 P3 N3' X3 Hcs3 U3 L3 Hrep3 S3]); try done.
  { apply lookup_insert_eq. } { apply Hun. } { change (ht_clients_uuid s1 !! if_uuid remote = None). by rewrite U1. }
  { destruct Hans as (r1 & r2 & rl & E & ?). exists r1, r2, rl. split; [|done]. cbn. by rewrite N2. }
  set (x3 := set_uuid _ _) in Hcs3. assert (Hc3 : clients s3 !! c = Some x3) by (rewrite Hcs3; apply lookup_insert_eq).
  destruct (ebind_inv _ _ _ _ _ Hr3) as [(e & ? & _)|(v & s25 & Hr25 & Hr3')]; [done|]. destruct v.
  rewrite (ebind_ok _ _ _ _ _ Hr25), (ebind_ok _ _ _ _ _ Hr3').
  lrun (upd_client_run s3 c x3 (fun x => set_cflags (Z.land (cflags x) (Z.lnot (Z.lor ROPAF_LOOKUP ROPAF_WAITING))) x) Hc3).
  set (x4 := set_cflags _ x3). set (s4 := set_clients _ s3). assert (Hc4 : clients s4 !! c = Some x4) by apply lookup_insert_eq.
  lrun (the_client_run s4 c x4 Hc4). cbn [Z.eqb negb]. change (cli x4) with (@None Z).
  rewrite bool_decide_eq_true_2 by done. cbn [eassert]. rewrite ebind_ret. lrun (ropa_addhead_run s4 Lclients c).
  set (s5 := set_lru _ _ _). lrun (upd_client_run s5 c x4 (set_cli (Some (nextli s4))) Hc4).
  set (x6 := set_cli _ x4). set (s6 := set_clients _ s5). exists s6. split; [done|].
  assert (Hpr : same_pairs s s6) by (destruct P1, P3; split; cbn in *; congruence).
  assert (Hcbs : same_cbs s s6) by (destruct C1, C3; split; cbn in *; congruence).
  assert (Hcs6 : clients s6 = <[c := x6]> (clients s)).
  { cbn. rewrite Hcs3. cbn. by rewrite Hcs1, !insert_insert_eq. }
  assert (Hlen2 : (0 < length (addr (set_port pt x2)))%nat) by (cbn; rewrite Hlen; unfold AFS_MAX_INTERFACE_ADDR; lia).
  assert (Hfl6 : cflags x6 = 0) by (cbn; by rewrite Hfl).
  assert (Hone : one_addr x6) by exact (addressed_one host (set_port pt x2) Hlen2).
  assert (Hlook : clients s6 !! c = Some x6) by (rewrite Hcs6; apply lookup_insert_eq).
  assert (Haddr : addr x6 !! 0%nat = Some (Addr true host 0xffffff00 ROPA_MTU)).
  { cbn. revert Hlen. by destruct (addr x). }
  assert (Hkey : ip_key (clients s6) (Stored c 0) = (host, pt)).
  { unfold ip_key, ent_addr. rewrite Hlook. cbn [mbind option_bind]. by rewrite Haddr. }
  assert (Hnext : nextli s6 = nextli s + 1).
  { change (nextli s6) with (nextli s3 + 1). rewrite X3. cbn. by rewrite X1. }
  assert (Hi6 : client_inv s6 (fun c => nof snd (ht_ccpairs s) c + none_held c) None).
  { apply (client_inv_new s s6 _ i c l x x6 (nextli s4) host pt m Hi Hrc Hl Hc Hun Hm Hnone Hcs6); try done.
    - cbn. by rewrite length_insert.
    - cbn. destruct (ci_ref _ _ _ Hi c x Hc) as [-> _]. exact Hrc.
    - change (lrus s6 Lclients) with ((nextli s4, c) :: lrus s3 Lclients). rewrite L3. cbn. by rewrite L1.
    - assert (E4 : nextli s4 = nextli s) by (change (nextli s3 = nextli s); rewrite X3; exact X1). lia.
    - change (ht_clients_uuid s6) with (ht_clients_uuid s3). rewrite U3. cbn. by rewrite U1.
    - apply (ip_rep_agree (clients s3)); [exact Hrep3|]. intros k e He.
      apply lookup_insert_Some in He as [[_ <-]|[_ He]].
      + split; [split; [done|by exists x6]|]. rewrite Hkey. unfold ip_key, ent_addr. rewrite Hc3.
        cbn [mbind option_bind]. change (addr x3) with (addr x6). by rewrite Haddr.
      + destruct (Hw k e He) as (c' & -> & Hne).
        assert (E : forall c', c' <> c -> clients s6 !! c' = clients s3 !! c').
        { intros d Hd. cbn. by rewrite !lookup_insert_ne. }
        destruct (other_key (clients s3) (clients s6) c c' Hne E) as [-> Hg]. split; [|done]. apply Hg.
        destruct (other_key (clients s) (clients s3) c c' Hne) as [_ Hg3].
        { intros d Hd. rewrite Hcs3. cbn. rewrite Hcs1. by rewrite !lookup_insert_ne. }
        apply Hg3. by eapply Hrep. }
  assert (Hq6 : quiet s6).
  { apply (rinv_client_step s _ _ _ _ H s6 none_held c x x6 Hc); [by split|lia|done|done]. }
  split; [exact Hq6|]. split; [|split].
  - exists x6. split; [done|]. split; [done|]. split; [done|]. by rewrite nth_lookup_addr, Haddr.
  - destruct Hcbs as [_ E1 _], Hpr as [E2 E3 _ _]. apply promise_same; [done|done|]. intros p. unfold expire_of. by rewrite E2.
  - change (sent s6) with (sent s3). rewrite S3. cbn. by rewrite N3.
Qed.

(** An address that nobody has: the server asks who is there and, of a
    client with a UUID it does not know, that it drops its promises; from then
    on the client is known at the address.  No promise is made or broken, and
    nothing else is sent. *)
Theorem client_query_new s host pt l i c x remote :
  quiet s -> nobody_at s host pt -> free_client s l i c x -> answers s remote ->
  ht_clients_uuid s !! if_uuid remote = None ->
  exists s', client_query host pt s = Some (s', inr (Some c)) /\ quiet s' /\ at_address s' host pt c /\
    (forall f c', promise s' f c' = promise s f c') /\
    sent s' = [InitCallBackState3 host pt; WhoAreYou host pt] ++ sent s.
Proof. exact (client_query_new_run s host pt l i c x remote). Qed.
