(* ===== verification/RopaExamples.v ===== *)
(** * Callbacks: a small server

    Two clients that come to know the server and hold promises, with the
    witnesses of the theorems; an expiry heap; and runs of the cases that the
    code does not get through. *)

From S2P Require Import Prelude Items Estate Hash HashCorrect Fdir Ropa RopaIp RopaInv RopaCb RopaPair.
From S2P Require Import RopaBreak RopaLoop RopaCorrect RopaProps RopaGet RopaQuery.

Local Open Scope em_scope.

(** ** Checks of the hypotheses *)

Definition addressb (host pt : Z) (x : ropa_client) : bool :=
  bool_decide (state x <> ROPAC_FREE) && (numberOfInterfaces x =? 1) &&
  match addr x with a :: _ => addr_c a && (addr_in a =? host) | [] => false end && (port x =? pt).
Lemma at_check s host pt c :
  match clients s !! c with Some x => addressb host pt x | None => false end = true -> at_address s host pt c.
Proof.
  destruct (clients s !! c) as [x|] eqn:E; [|done]. unfold addressb. rewrite !andb_true_iff.
  intros [[[Hs%bool_decide_eq_true Hn%Z.eqb_eq] Ha] Hp%Z.eqb_eq]. exists x.
  destruct (addr x) as [|a l] eqn:Ea; [done|]. apply andb_true_iff in Ha as [Hac Hai%Z.eqb_eq].
  split_and!; try done. split; [done|]. by exists a, l.
Qed.
Definition for_clients (P : ropa_client -> bool) (s : ropa) : bool :=
  forallb (fun cx => P (snd cx)) (map_to_list (clients s)).
Lemma clients_check P s : for_clients P s = true -> forall c x, clients s !! c = Some x -> P x = true.
Proof.
  unfold for_clients. rewrite forallb_forall. intros H c x Hx. apply (H (c, x)).
  apply list_elem_of_In. by apply elem_of_map_to_list.
Qed.
Lemma nobody_check s host pt :
  for_clients (fun x => bool_decide (state x = ROPAC_FREE) || negb (addr_in (nth 0 (addr x) no_addr) =? host) ||
    negb (port x =? pt)) s = true -> nobody_at s host pt.
Proof.
  intros H c (x & Hx & Hs & _ & Ha & Hp). pose proof (clients_check _ _ H c x Hx) as Hc. cbv beta in Hc.
  rewrite Ha, Hp, !Z.eqb_refl, bool_decide_eq_false_2 in Hc by done. done.
Qed.
Definition reachableb (x : ropa_client) : bool := match conn x with GoneConn => false | _ => true end.
Lemma reach_check s : for_clients reachableb s = true -> forall c x, clients s !! c = Some x -> reachable x.
Proof.
  intros H c x Hx. pose proof (clients_check _ _ H c x Hx) as Hc. unfold reachableb in Hc. unfold reachable.
  by destruct (conn x).
Qed.

(** ** A heap *)

Fixpoint least (key : Z -> Z) (l : list Z) : option Z :=
  match l with
  | [] => None
  | p :: l => match least key l with Some q => Some (if key p <=? key q then p else q) | None => Some p end
  end.
Definition list_heap : ExpiryHeap := fun key h => least key (elements h).
Lemma least_spec key l : match least key l with
  | Some p => p ∈ l /\ forall q, q ∈ l -> key p <= key q
  | None => l = [] end.
Proof.
  induction l as [|a l IH]; [done|]. cbn. destruct (least key l) as [q|].
  - destruct IH as [Hq Hle]. destruct (Z.leb_spec (key a) (key q)).
    + split; [left|]. intros r [->|Hr]%elem_of_cons; [lia|]. specialize (Hle r Hr). lia.
    + split; [by right|]. intros r [->|Hr]%elem_of_cons; [lia|by apply Hle].
  - rewrite IH. split; [left|]. intros r [->|?%not_elem_of_nil]%elem_of_cons; [lia|done].
Qed.
Lemma list_heap_ok : @ExpiryHeapOk list_heap.
Proof.
  split; intros key h; unfold heap_head, list_heap; pose proof (least_spec key (elements h)) as H.
  - destruct (least key (elements h)) as [p|].
    + split; [done|]. intros ->. rewrite elements_empty in H. by destruct H as [?%not_elem_of_nil _].
    + split; [|done]. intros _. by apply elements_empty_inv in H; apply leibniz_equiv.
  - intros p Hp. rewrite Hp in H. destruct H as [Hin Hle]. split; [by apply elem_of_elements|].
    intros q Hq. apply Hle. by apply elem_of_elements.
Qed.

(** ** The server *)

Module World.

Definition answer (u : Z) : list (Z * interfaceAddr) := [(0, IfAddr 0 [u; 0; 0; 0; 0; 0] []); (0, no_interfaces)].
Definition yes : Z * interfaceAddr := (0, no_interfaces).
Definition F (n : Z) : AFSFid := Build_AFSFid 1 n 1.
Definition run {A} (m : RM A) (s : ropa) : ropa := match m s with Some (s', _) => s' | None => s end.
Definition at_time (t : Z) (r : list (Z * interfaceAddr)) (s : ropa) : ropa :=
  Ropa (clients s) (pairs s) (cbs s) (ht_clients_ip s) (ht_clients_uuid s) (ht_callbacks s) (ht_ccpairs s)
    (lrus s) (heap_ccpairs s) (nextli s) t r [].

Definition boot : ropa := at_time 100 (answer 1 ++ answer 2 ++ replicate 4 yes) (ropa_init 4 3 4 17).
Definition w1 : ropa := run (client_query 1 7001) boot.
Definition w2 : ropa := run (client_query 2 7001) w1.
Definition w3 : ropa := run (ropa_getcallback 1 7001 (F 2) 0) w2.
Definition w4 : ropa := run (ropa_getcallback 2 7001 (F 2) 0) w3.

Lemma quiet_at t r s : quiet s -> quiet (at_time t r s).
Proof.
  intros [H1 H2 H3 H4 H5]. split; try done; [by apply (client_inv_same s)|by apply (cb_inv_same s)|].
  apply (pair_inv_frame s); try done; cbn; eauto.
Qed.
Lemma run_quiet {A} (m : RM A) s (P : ropa -> Prop) : (exists s' r, m s = Some (s', r) /\ P s') -> P (run m s).
Proof. intros (s' & r & E & H). unfold run. by rewrite E. Qed.

Lemma quiet_boot : quiet boot.
Proof. apply quiet_at, init_quiet. lia. Qed.
Lemma free_boot : free_client boot [(1, 1); (2, 2)] 3 3 (new_client 3).
Proof. split; [by vm_compute|by vm_compute|by split]. Qed.
Lemma quiet_w1 : quiet w1.
Proof.
  apply (run_quiet (client_query 1 7001) boot quiet).
  destruct (client_query_new_run boot 1 7001 [(1, 1); (2, 2)] 3 3 (new_client 3) (IfAddr 0 [1; 0; 0; 0; 0; 0] []) quiet_boot) as (s' & Hr & Hq & _).
  - apply nobody_check. by vm_compute.
  - exact free_boot.
  - exists 0, no_interfaces, (answer 2 ++ replicate 4 yes). done.
  - done.
  - exists s', (inr (Some 3)). exact (conj Hr Hq).
Qed.
Lemma quiet_w2 : quiet w2.
Proof.
  apply (run_quiet (client_query 2 7001) w1 quiet).
  destruct (client_query_new_run w1 2 7001 [(12, 3); (1, 1)] 2 2 (new_client 2) (IfAddr 0 [2; 0; 0; 0; 0; 0] []) quiet_w1)
    as (s' & Hr & Hq & _).
  - apply nobody_check. by vm_compute.
  - split; [by vm_compute|by vm_compute|by split].
  - exists 0, no_interfaces, (replicate 4 yes). split; [by vm_compute|done].
  - by vm_compute.
  - exists s', (inr (Some 2)). exact (conj Hr Hq).
Qed.

Lemma at_w2 : at_address w2 1 7001 3 /\ at_address w2 2 7001 2.
Proof. split; apply at_check; by vm_compute. Qed.
Lemma hand_w2 : callback_at_hand w2 (F 2).
Proof.
  right. exists [(4, 1); (5, 2); (6, 3)], 7, 4, (Cb (Build_AFSFid 0 0 0) [] 0 (Some 7)).
  split; by vm_compute.
Qed.
Lemma next_w2 : next_pair w2 4.
Proof. exists [(8, 1); (9, 2); (10, 3)], 11. by vm_compute. Qed.
Lemma victim_check s p : for_clients reachableb s = true -> victim_reachable s p.
Proof. intros H x c xc _ _. by apply (reach_check s H). Qed.
Lemma quiet_w3 : quiet w3.
Proof.
  apply (run_quiet (ropa_getcallback 1 7001 (F 2) 0) w2 quiet).
  destruct (getcallback_run w2 1 7001 3 (F 2) 0 4 quiet_w2 (proj1 at_w2) hand_w2 next_w2) as (s' & m & Hr & Hq & _).
  - apply victim_check. by vm_compute.
  - eexists s', _. exact (conj Hr Hq).
Qed.
Lemma quiet_w4 : quiet w4.
Proof.
  apply (run_quiet (ropa_getcallback 2 7001 (F 2) 0) w3 quiet).
  destruct (getcallback_run w3 2 7001 2 (F 2) 0 3 quiet_w3) as (s' & m & Hr & Hq & _).
  - apply at_check. by vm_compute.
  - left. exists 4. by vm_compute.
  - exists [(18, 4); (8, 1); (9, 2)], 10. by vm_compute.
  - apply victim_check. by vm_compute.
  - eexists s', _. exact (conj Hr Hq).
Qed.

(** Two promises for the fid, to the clients 3 and 2. *)
Lemma at_w4 : at_address w4 1 7001 3.
Proof. apply at_check. by vm_compute. Qed.
Lemma reach_w4 caller : others_reachable w4 (F 2) caller.
Proof. intros c x _ _. apply reach_check. by vm_compute. Qed.
Lemma promises_w4 : promise w4 (F 2) 3 = Some 3700 /\ promise w4 (F 2) 2 = Some 3700 /\ promise w4 (F 4) 3 = None.
Proof. by vm_compute. Qed.

Lemma ropa_break_callback_correct_witness :
  exists s' m, ropa_break_callback 1 7001 (F 2) false w4 = Some (s', inr tt) /\ quiet s' /\
    (forall f' c', promise s' f' c' =
       if decide (f' = F 2 /\ (false = true \/ c' <> 3)) then None else promise w4 f' c') /\
    sent s' = m ++ sent w4 /\ told_others w4 (F 2) (Some 3) m.
Proof. exact (ropa_break_callback_correct w4 1 7001 (F 2) 3 false quiet_w4 at_w4 (reach_w4 _)). Defined.

Lemma ropa_drop_callbacks_correct_witness :
  exists s', ropa_drop_callbacks 1 7001 [F 2; F 4] w4 =
      Some (s', inr (if AFSCBMAX <? Z.of_nat (length [F 2; F 4]) then EINVAL else 0)) /\
    quiet s' /\ sent s' = sent w4 /\
    forall f' c', promise s' f' c' =
      if decide (Z.of_nat (length [F 2; F 4]) <= AFSCBMAX /\ f' ∈ [F 2; F 4] /\ c' = 3) then None else promise w4 f' c'.
Proof. exact (ropa_drop_callbacks_correct w4 1 7001 3 [F 2; F 4] quiet_w4 at_w4). Defined.

(** At 4000 both promises are over. *)
Definition late : ropa := at_time 4000 (replicate 2 yes) w4.
Lemma quiet_late : quiet late.
Proof. exact (quiet_at 4000 (replicate 2 yes) w4 quiet_w4). Qed.
Lemma answering_late : answering late (size (heap_ccpairs late)).
Proof.
  split; [apply reach_check; by vm_compute|]. split; [by repeat constructor|]. by vm_compute; repeat constructor.
Qed.
Lemma heapcleaner_correct_witness :
  exists s', @heapcleaner list_heap (S (size (heap_ccpairs late))) late = Some (s', inr tt) /\ quiet s' /\
    forall f c, promise s' f c = unexpired (now late) (promise late f c).
Proof. exact (@heapcleaner_correct list_heap list_heap_ok late quiet_late answering_late). Defined.

Lemma client_w4 : exists x, clients w4 !! 3 = Some x.
Proof. destruct at_w4 as (x & Hx & _). by exists x. Qed.
Lemma ropa_break_client_breaks_nothing_witness : exists x, clients w4 !! 3 = Some x /\
  exists s' m, ropa_break_client 1 7001 w4 = Some (s', inr tt) /\ quiet s' /\
    (forall f c', promise s' f c' = promise w4 f c') /\ sent s' = m ++ sent w4 /\
    first_call x [] ∈ m /\ forall a, a ∈ m -> exists h p, a = CallBack h p [].
Proof.
  destruct client_w4 as (x & Hx). exists x. split; [exact Hx|].
  refine (ropa_break_client_breaks_nothing w4 1 7001 3 x quiet_w4 at_w4 Hx _).
  refine (reach_check w4 _ 3 x Hx). vm_compute. reflexivity.
Defined.

Lemma ropa_init_correct_witness : 0 < 17 < 2 ^ 31 /\ quiet (ropa_init 4 3 4 17) /\
  (forall f c, promise (ropa_init 4 3 4 17) f c = None) /\ forall host pt, nobody_at (ropa_init 4 3 4 17) host pt.
Proof. split; [lia|]. apply (ropa_init_correct 4 3 4 17). lia. Defined.

Lemma hand_w2' : callback_at_hand w2 (callback_fid (F 2) 0).
Proof. exact hand_w2. Qed.
Lemma victim_w2 : victim_reachable w2 4.
Proof. apply victim_check. by vm_compute. Qed.
Lemma ropa_getcallback_correct_witness : get_spec w2 1 7001 3 (F 2) 0 4.
Proof. exact (ropa_getcallback_correct w2 1 7001 3 (F 2) 0 4 quiet_w2 (proj1 at_w2) hand_w2' next_w2 victim_w2). Defined.

Lemma nobody_boot : nobody_at boot 1 7001.
Proof. apply nobody_check. by vm_compute. Qed.
Definition interfaces1 : interfaceAddr := IfAddr 0 [1; 0; 0; 0; 0; 0] [].
Lemma answers_boot : answers boot interfaces1.
Proof. exists 0, no_interfaces, (answer 2 ++ replicate 4 yes). done. Qed.
Lemma client_query_new_witness :
  exists s', client_query 1 7001 boot = Some (s', inr (Some 3)) /\ quiet s' /\ at_address s' 1 7001 3 /\
    (forall f c', promise s' f c' = promise boot f c') /\
    sent s' = [InitCallBackState3 1 7001; WhoAreYou 1 7001] ++ sent boot.
Proof.
  exact (client_query_new boot 1 7001 [(1, 1); (2, 2)] 3 3 (new_client 3) interfaces1 quiet_boot nobody_boot
    free_boot answers_boot eq_refl).
Defined.
End World.

(** ** What the code does not get through *)

Module Faults.
Import World.

(** [None] is the end of the server by a failed assertion or the use of freed
    memory. *)
Definition start (r : list (Z * interfaceAddr)) (ncli ncc : nat) : ropa := at_time 100 r (ropa_init 9 ncli ncc 17).
Definition result {A} (m : RM A) (s : ropa) : option (Z + A) := option_map snd (m s).

(** A client that comes back from another address, known by its UUID: the
    structure just taken is disconnected without having had a UUID. *)
Lemma known_uuid_aborts :
  result (client_query 1 7001 ;;! client_query 2 7001) (start (answer 1 ++ answer 1) 3 3) = None.
Proof. by vm_compute. Qed.

(** The second call, for the client to drop its promises, fails. *)
Lemma init_callback_state_fails_aborts :
  result (client_query 1 7001) (start [(0, interfaces1); (5, no_interfaces)] 3 3) = None.
Proof. by vm_compute. Qed.

(** A client that is dead is put where the next one is taken from, and is not
    [ROPAC_FREE]. *)
Lemma dead_client_aborts :
  result (client_query 1 7001) (start [(RX_CALL_DEAD, no_interfaces)] 3 3) = Some (inr None) /\
  result (client_query 1 7001 ;;! client_query 2 7001) (start ((RX_CALL_DEAD, no_interfaces) :: answer 1) 3 3) = None.
Proof. by vm_compute. Qed.

(** Every client structure is in use. *)
Lemma clients_full_aborts :
  result (ropa_getcallback 1 7001 (F 2) 0 ;;! ropa_getcallback 2 7001 (F 4) 0) (start (answer 1 ++ answer 2) 1 3) = None.
Proof. by vm_compute. Qed.

(** An error of [WhoAreYou] that is not one of two counts as an answer. *)
Lemma other_error_counts :
  result (client_query 1 7001) (start [(-5, no_interfaces); (0, no_interfaces)] 3 3) = Some (inr (Some 3)).
Proof. by vm_compute. Qed.

(** Both calls to a client failed: its connection is destroyed, and used the
    next time it is to be told. *)
Definition told_and_gone : RM unit :=
  ropa_getcallback 1 7001 (F 2) 0 ;;! ropa_getcallback 2 7001 (F 2) 0 ;;!
  ropa_getcallback 2 7001 (F 4) 0 ;;! ropa_break_callback 1 7001 (F 2) false.
Lemma destroyed_connection_used :
  let s := start (answer 1 ++ answer 2 ++ [(-1, no_interfaces)] ++ replicate 9 yes) 3 5 in
  result told_and_gone s = Some (inr tt) /\
  result (told_and_gone ;;! ropa_break_callback 1 7001 (F 4) false) s = None.
Proof. by vm_compute. Qed.

(** The connection stays with a client structure: what the client at address 5
    was promised goes to address 2, which had it before. *)
Lemma callback_to_old_address :
  let s := start (answer 1 ++ answer 2 ++ [yes] ++ answer 5 ++ replicate 9 yes) 2 5 in
  match (ropa_getcallback 1 7001 (F 2) 0 ;;! ropa_getcallback 2 7001 (F 2) 0 ;;!
         ropa_break_callback 1 7001 (F 2) false ;;! ropa_getcallback 1 7001 (F 2) 0 ;;!
         ropa_getcallback 5 7001 (F 2) 0 ;;! ropa_break_callback 1 7001 (F 2) false) s with
  | Some (s', inr _) => head (sent s')
  | _ => None
  end = Some (CallBack 2 7001 [F 2]).
Proof. by vm_compute. Qed.

(** Three pairs, four promises and more: the pair that the fourth took is on
    its list twice, and is taken again for the fifth and the sixth, although the
    first two have not been used for longer. *)
Lemma same_pair_taken_again :
  let s := start (answer 1 ++ replicate 9 yes) 3 3 in
  match (ropa_getcallback 1 7001 (F 2) 0 ;;! ropa_getcallback 1 7001 (F 4) 0 ;;! ropa_getcallback 1 7001 (F 6) 0 ;;!
         ropa_getcallback 1 7001 (F 8) 0 ;;! ropa_getcallback 1 7001 (F 10) 0 ;;! ropa_getcallback 1 7001 (F 12) 0) s with
  | Some (s', _) => map (fun n => bool_decide (promise s' (F n) 3 = None)) [2; 4; 6; 8; 10; 12]
  | None => []
  end = [true; false; false; true; true; false].
Proof. by vm_compute. Qed.
End Faults.
