(* ===== verification/Fsacl.v ===== *)
(** * Access lists as text

    Clients see the access lists of a directory as text: the numbers of
    positive and negative entries, a line each, and a line with name and rights
    per entry.  [SRXAFS_FetchACL] of milko/fs/fsprocs.c prints it and
    [SRXAFS_StoreACL] scans it.

    The library functions [printf] and [sscanf] are modelled for the formats
    that are used. *)

From S2P Require Import Prelude Buf Voldb Vrights Vinfo.

Definition PR_ANONYMOUSID : Z := 32766.
Definition AFSOPAQUEMAX : Z := 1024.

(** ** Formats *)

(** [%d] *)
Definition dec (z : Z) : bytes := if z <? 0 then 45 :: digits 11 (- z) else digits 11 z.

(** [isspace] in the C locale *)
Definition isspace (c : Z) : bool := ((9 <=? c) && (c <=? 13)) || (c =? 32).
Definition isdigit (c : Z) : bool := (48 <=? c) && (c <=? 57).

Fixpoint skip_ws (l : bytes) : bytes :=
  match l with
  | c :: l' => if isspace c then skip_ws l' else l
  | [] => []
  end.
(** The digits at the start, as a number after [acc], and the rest. *)
Fixpoint scan_digits (acc : Z) (l : bytes) : Z * bytes :=
  match l with
  | c :: l' => if isdigit c then scan_digits (10 * acc + (c - 48)) l' else (acc, l)
  | [] => (acc, [])
  end.
(** [strtol] stays within 64 bits, the [int] has the lower 32. *)
Definition to_int (v : Z) : Z := swrap32 (Z.max (- 2^63) (Z.min v (2^63 - 1))).
Definition scan_unsigned (neg : bool) (l : bytes) : option (Z * bytes) :=
  match l with
  | c :: _ =>
      if isdigit c then let '(v, r) := scan_digits 0 l in Some (to_int (if neg then - v else v), r)
      else None
  | [] => None
  end.
(** The conversion [%d] of [sscanf]. *)
Definition scan_int (l : bytes) : option (Z * bytes) :=
  match skip_ws l with
  | 45 :: l => scan_unsigned true l
  | 43 :: l => scan_unsigned false l
  | l => scan_unsigned false l
  end.
Fixpoint word (n : nat) (l : bytes) : bytes * bytes :=
  match n, l with
  | S n, c :: l' => if isspace c then ([], l) else let '(w, r) := word n l' in (c :: w, r)
  | _, _ => ([], l)
  end.
(** The conversion [%63s]. *)
Definition scan_word (l : bytes) : option (bytes * bytes) :=
  match skip_ws l with
  | [] => None
  | l => Some (word 63 l)
  end.

(** ** Printing *)

Definition acl_line (x : bytes * acl_entry) : bytes :=
  fst x ++ [32] ++ dec (swrap32 (flags (snd x))) ++ [10].
Definition acl_text (pos neg : list (bytes * acl_entry)) : bytes :=
  dec (Z.of_nat (length pos)) ++ [10] ++ dec (Z.of_nat (length neg)) ++ [10] ++
  concat (map acl_line pos) ++ concat (map acl_line neg).

(** The loops over [i] while there is an owner. *)
Fixpoint owned (l : list acl_entry) : list acl_entry :=
  match l with
  | x :: l => if owner x =? 0 then [] else x :: owned l
  | [] => []
  end.

(** [i2nlist]: a number as a name, in a buffer of [PR_MAXNAMELEN]. *)
Definition i2nlist (ilist : list Z) : list bytes := map (fun i => dec (swrap32 i)) ilist.

(** The opaque that is sent: its length is at least [AFSOPAQUEMAX], and its
    last byte is set to 0, in a string that was allocated for its own length. *)
Definition acl_opaque (text : bytes) : option bytes :=
  let len := Z.max (blen text) AFSOPAQUEMAX in
  b ← wr (text ++ [0]) (len - 1) [0];
  Some (take (Z.to_nat len) b).

(** ** Scanning *)

(** The rest after the next newline, which is looked for until it is found:
    there is none left in the buffer when the answer is [None]. *)
Fixpoint skipline (l : bytes) : option bytes :=
  match l with
  | [] => None
  | c :: l => if c =? 10 then Some l else skipline l
  end.

(** The string at the start of a buffer. *)
Fixpoint cstring (b : bytes) : bytes :=
  match b with
  | [] => []
  | c :: b => if c =? 0 then [] else c :: cstring b
  end.

(** What [sscanf (curptr, "%63s %d", name, &flags)] stores. *)
Definition scan_entry (cur : bytes) : option bytes * option Z :=
  match scan_word (cstring cur) with
  | None => (None, None)
  | Some (w, r) => (Some w, match scan_int r with Some (v, _) => Some v | None => None end)
  end.
Fixpoint scan_lines (n : nat) (cur : bytes) : option (list (option bytes * option Z) * bytes) :=
  match n with
  | O => Some ([], cur)
  | S n =>
      let x := scan_entry cur in
      cur ← skipline cur;
      '(l, cur) ← scan_lines n cur;
      Some (x :: l, cur)
  end.

Record acl_parse := AclParse { ap_pos : list (bytes * Z); ap_neg : list (bytes * Z) }.

(** [buf] is the opaque.  [None]: its last byte is set outside of it, a newline
    is missing, a number of entries is negative, or there are more than the
    arrays [acl] and [negacl] have.  [Some None]: there are no two numbers.
    What is not converted is 0, or the bytes [unset] that the name has. *)
Definition scan_acl (unset : bytes) (buf : bytes) : option (option acl_parse) :=
  buf ← wr buf (blen buf - 1) [0];
  match scan_int (cstring buf) with
  | None => Some None
  | Some (num_posacl, r) =>
      match scan_int (skip_ws r) with
      | None => Some None
      | Some (num_negacl, _) =>
          cur ← skipline buf;
          cur ← skipline cur;
          if (num_posacl <? 0) || (num_negacl <? 0) then None else
          if (Z.of_nat FS_MAX_ACL <? num_posacl) || (Z.of_nat FS_MAX_ACL <? num_negacl) then None
          else
          '(pos, cur) ← scan_lines (Z.to_nat num_posacl) cur;
          '(neg, _) ← scan_lines (Z.to_nat num_negacl) cur;
          let fill := map (fun x : option bytes * option Z =>
                             (default unset (fst x), default 0 (snd x))) in
          Some (Some (AclParse (fill pos) (fill neg)))
      end
  end.
