(* ===== verification/Connsec.v ===== *)
(** * Security contexts of connections (milko/fs/connsec.c)

    Who the caller of a procedure is: the name of the principal, the id and
    the groups that the protection servers give for it, kept with the
    connection.  The calls to the protection servers are parameters: the
    answers of the servers in the order in which they are asked, in each of two
    attempts.  The name of a principal is what [sec_getname] gives, the realm
    of the server what [netinit_getrealm] returns, null without Kerberos. *)

From S2P Require Import Prelude Estate Vrights Fsacl.

Local Open Scope em_scope.

Definition ARLA_CALL_DEAD : Z := 4801.
Definition UNOTSYNC : Z := 5377.
Definition ENETDOWN : Z := 100.
Definition RXKADEXPIRED : Z := 19270409.
Definition PR_MAXNAMELEN : nat := 64.

(** ** The protection servers *)

(** [arlalib_try_next_db] (lib/arla/arlalib.c) *)
Definition arlalib_try_next_db (error : Z) : bool :=
  (error =? ARLA_CALL_DEAD) || (error =? UNOTSYNC) || (error =? ENETDOWN).

(** The loop over the servers, from the error at hand. *)
Fixpoint try_dbs {A} (error : Z) (answers : list (Z + A)) : Z + A :=
  match answers with
  | [] => inl error
  | r :: l =>
      if arlalib_try_next_db error
      then match r with inr a => inr a | inl e => try_dbs e l end
      else inl error
  end.
(** With the second attempt when a ticket is expired. *)
Definition retry_dbs {A} (answers : nat -> list (Z + A)) : Z + A :=
  match try_dbs ARLA_CALL_DEAD (answers 0%nat) with
  | inl e => if e =? RXKADEXPIRED then try_dbs e (answers 1%nat) else inl e
  | r => r
  end.

Definition fs_connsec_nametoid (PR_NameToID : nat -> list bytes -> list (Z + list Z))
    (nlist : list bytes) : Z + list Z := retry_dbs (fun n => PR_NameToID n nlist).
Definition fs_connsec_idtoname (PR_IDToName : nat -> list Z -> list (Z + list bytes))
    (ilist : list Z) : Z + list bytes := retry_dbs (fun n => PR_IDToName n ilist).

(** ** Names of principals *)

Definition at_sign : Z := 64.
(** The part before the last [c]: [strrchr]. *)
Fixpoint before_last (c : Z) (s : bytes) : option bytes :=
  match s with
  | [] => None
  | x :: s =>
      match before_last c s with
      | Some l => Some (x :: l)
      | None => if x =? c then Some [] else None
      end
  end.

(** User and realm, or -1.  What is incremented at the end is the pointer to
    the result and not the result: the realm starts at the 0 that was put in
    place of the last "@", and is empty. *)
Definition fs_connsec_split_principal (principal : bytes) : Z + (bytes * bytes) :=
  match before_last at_sign principal with
  | None => inl (-1)
  | Some user => inr (user, [])
  end.

Definition tolower (c : Z) : Z := if (65 <=? c) && (c <=? 90) then c + 32 else c.
Definition strcasecmp_eq (a b : bytes) : bool := bool_decide (map tolower a = map tolower b).

(** [None]: [strcasecmp] with null. *)
Definition fs_connsec_get_user (name : Z + bytes) (realm : option bytes) (size : nat)
    : option (Z + bytes) :=
  match name with
  | inl e => Some (inl e)
  | inr fullname =>
      match fs_connsec_split_principal fullname with
      | inl e => Some (inl e)
      | inr (user, r) =>
          local ← realm;
          let rname := if strcasecmp_eq r local then user else user ++ [at_sign] ++ map tolower r in
          Some (if (size <=? length rname)%nat then inl (-1) else inr rname)
      end
  end.

(** ** Contexts *)

(** A context with its counter; the connections that have one. *)
Record connsec := ConnSec { contexts : gmap Z (fs_security_context * Z); rocks : gmap Z Z }.
Definition CM : Type -> Type := EM connsec.
Definition set_context (p : Z) (x : fs_security_context * Z) : CM unit :=
  emod (fun s => ConnSec (<[p := x]> (contexts s)) (rocks s)).

Definition anonymous : fs_security_context :=
  SecCtx (Some [PR_ANYUSERID; PR_ANONYMOUSID]) PR_ANONYMOUSID false.

Section Conn.
(** The answer of the protection server that knew the name, and the address
    that [malloc] gives.  Memory is never short. *)
Context (PR_NameToID : bytes -> list (Z + list Z)) (PR_GetCPS : Z -> Z + list Z) (malloc : connsec -> Z).
Context (realm : option bytes).

(** What is found out of the caller. *)
Definition caller_context (name : Z + bytes) : option fs_security_context :=
  r ← fs_connsec_get_user name realm PR_MAXNAMELEN;
  match r with
  | inl _ => Some anonymous
  | inr rname =>
      match try_dbs ARLA_CALL_DEAD (PR_NameToID rname) with
      | inl _ => Some anonymous
      | inr ids =>
          id ← head ids;
          match PR_GetCPS id with
          | inl _ => Some anonymous
          | inr l => Some (SecCtx (Some l) id (existsb (fun i => i =? PR_SYSADMINID) l))
          end
      end
  end.

(** [conn] with the name of its principal. *)
Definition fs_connsec_createconn (conn : Z) (name : Z + bytes) : CM unit :=
  s <-- eget ;;
  match rocks s !! conn with
  | Some _ => eret tt
  | None =>
      let p := malloc s in
      sc <-- eopt (caller_context name) ;;
      emod (fun s => ConnSec (<[p := (sc, 1)]> (contexts s)) (<[conn := p]> (rocks s)))
  end.

Definition fs_connsec_context_get (conn : Z) (name : Z + bytes) : CM fs_security_context :=
  fs_connsec_createconn conn name ;;!
  s <-- eget ;;
  p <-- eopt (rocks s !! conn) ;;
  x <-- eopt (contexts s !! p) ;;
  set_context p (fst x, snd x + 1) ;;!
  eret (fst x).
Definition fs_connsec_context_put (p : Z) : CM unit :=
  s <-- eget ;;
  x <-- eopt (contexts s !! p) ;;
  eassert (0 <? snd x) ;;!
  if snd x - 1 =? 0 then emod (fun s => ConnSec (delete p (contexts s)) (rocks s))
  else set_context p (fst x, snd x - 1).
Definition fs_connsec_destroyconn (conn : Z) : CM unit :=
  s <-- eget ;;
  match rocks s !! conn with
  | None => eret tt
  | Some p =>
      fs_connsec_context_put p ;;! emod (fun s => ConnSec (contexts s) (delete conn (rocks s)))
  end.

(** ** Properties *)

Lemma try_expired {A} (l : list (Z + A)) : try_dbs RXKADEXPIRED l = inl RXKADEXPIRED.
Proof. by destruct l. Qed.

(** The second attempt asks no server: the loop starts with the error of the
    first, after which no further server is tried. *)
Lemma retry_asks_nobody {A} (answers : nat -> list (Z + A)) :
  retry_dbs answers = try_dbs ARLA_CALL_DEAD (answers 0%nat).
Proof.
  unfold retry_dbs. destruct (try_dbs ARLA_CALL_DEAD (answers 0%nat)) as [e|a]; [|done].
  destruct (Z.eqb_spec e RXKADEXPIRED) as [->|]; [by rewrite try_expired|done].
Qed.

Lemma before_last_none c s : c ∉ s -> before_last c s = None.
Proof.
  induction s as [|x s IH]; [done|]. intros [Hx Hs]%not_elem_of_cons. cbn. rewrite IH by done.
  by rewrite (proj2 (Z.eqb_neq x c)).
Qed.
Lemma before_last_app c u r : c ∉ r -> before_last c (u ++ c :: r) = Some u.
Proof.
  intros Hr. induction u as [|x u IH]; cbn; [|by rewrite IH].
  by rewrite before_last_none, Z.eqb_refl.
Qed.

(** A principal is known by its user alone, with an "@" behind it. *)
Lemma get_user_run user r local size : at_sign ∉ r -> local <> [] ->
  fs_connsec_get_user (inr (user ++ at_sign :: r)) (Some local) size =
    Some (if (size <=? S (length user))%nat then inl (-1) else inr (user ++ [at_sign])).
Proof.
  intros Hr Hl. unfold fs_connsec_get_user, fs_connsec_split_principal. rewrite before_last_app by done.
  cbn [mbind option_bind]. unfold strcasecmp_eq. rewrite bool_decide_eq_false_2.
  - cbn [map]. rewrite app_nil_r, length_app. cbn [length]. by rewrite Nat.add_1_r.
  - cbn. destruct local; [done|]. discriminate.
Qed.

(** The realm of a caller is lost: whatever realms two principals with
    the same user name come from, the server looks up the same name for them,
    the user name with an "@" behind it, and gives them the same rights; the
    name of a user of the server's own realm is not looked up at all. *)
Theorem fs_connsec_realm_lost user r1 r2 local : at_sign ∉ r1 -> at_sign ∉ r2 -> local <> [] ->
  realm = Some local ->
  caller_context (inr (user ++ at_sign :: r1)) = caller_context (inr (user ++ at_sign :: r2)) /\
  forall rname, fs_connsec_get_user (inr (user ++ at_sign :: r1)) realm PR_MAXNAMELEN = Some (inr rname) ->
    rname = user ++ [at_sign] /\ rname <> user.
Proof.
  intros H1 H2 Hl Hr. unfold caller_context. rewrite Hr, !get_user_run by done. split; [done|].
  intros rname. destruct (_ <=? _)%nat; intros [= <-]. split; [done|].
  intros E. apply (f_equal length) in E. rewrite length_app in E. simpl in E. lia.
Qed.

(** The context of a connection is never freed once a procedure has used
    it: every [fs_connsec_context_get] counts, the end of the connection gives
    one reference back, and nothing else does.  After the connection is gone
    its context is still allocated and no connection has it. *)
Theorem fs_connsec_context_leaks conn name s : rocks s !! conn = None -> is_Some (caller_context name) ->
  exists sc s1 s2, fs_connsec_context_get conn name s = Some (s1, inr sc) /\ caller_context name = Some sc /\
    fs_connsec_destroyconn conn s1 = Some (s2, inr tt) /\
    contexts s2 = <[malloc s := (sc, 1)]> (contexts s) /\ rocks s2 = rocks s.
Proof.
  intros Hc [sc Hsc]. exists sc.
  set (s1 := ConnSec (<[malloc s := (sc, 2)]> (contexts s)) (<[conn := malloc s]> (rocks s))).
  exists s1, (ConnSec (<[malloc s := (sc, 1)]> (contexts s)) (rocks s)). split_and!; [|done| |done|done].
  - unfold fs_connsec_context_get, fs_connsec_createconn.
    set (s0 := ConnSec (<[malloc s := (sc, 1)]> (contexts s)) (<[conn := malloc s]> (rocks s))).
    rewrite (ebind_ok _ _ s s0 tt) by (rewrite ebind_get, Hc, Hsc; done).
    rewrite ebind_get. unfold s0. cbn [rocks contexts]. rewrite lookup_insert_eq. unfold eopt at 1. rewrite ebind_ret.
    rewrite lookup_insert_eq. unfold eopt. rewrite ebind_ret. unfold set_context. rewrite ebind_mod. cbn.
    unfold s1. by rewrite insert_insert_eq.
  - unfold fs_connsec_destroyconn. rewrite ebind_get. unfold s1. cbn [rocks]. rewrite lookup_insert_eq.
    unfold fs_connsec_context_put.
    rewrite (ebind_ok _ _ _ (ConnSec (<[malloc s := (sc, 1)]> (contexts s)) (<[conn := malloc s]> (rocks s))) tt).
    + unfold emod. cbn. by rewrite delete_insert_id.
    + rewrite ebind_get. cbn [contexts]. rewrite lookup_insert_eq. unfold eopt, eassert, set_context, emod. cbn [fst snd].
      change (0 <? 2) with true. cbn. unfold ebind, eret. cbn.
      change (2 - 1 =? 0) with false. change (2 - 1) with 1. cbn. by rewrite insert_insert_eq.
Qed.
End Conn.

(** ** A caller *)

Definition demo_ids (n : bytes) : list (Z + list Z) := [inl 4801; inr [7]].
Lemma fs_connsec_realm_lost_witness :
  caller_context demo_ids (fun _ => inr [7; 9]) (Some [115; 101]) (inr [117; 64; 115; 101]) =
    caller_context demo_ids (fun _ => inr [7; 9]) (Some [115; 101]) (inr [117; 64; 110; 111]) /\
  fs_connsec_get_user (inr [117; 64; 115; 101]) (Some [115; 101]) PR_MAXNAMELEN = Some (inr [117; 64]).
Proof.
  destruct (fs_connsec_realm_lost demo_ids (fun _ => inr [7; 9]) (Some [115; 101]) [117] [115; 101] [110; 111] [115; 101])
    as [H _].
  - intros Hin. repeat (apply elem_of_cons in Hin as [Hin|Hin]; [discriminate Hin|]). by apply not_elem_of_nil in Hin.
  - intros Hin. repeat (apply elem_of_cons in Hin as [Hin|Hin]; [discriminate Hin|]). by apply not_elem_of_nil in Hin.
  - discriminate.
  - reflexivity.
  - split; [exact H|]. vm_compute. reflexivity.
Defined.

Lemma fs_connsec_context_leaks_witness : exists s1 s2,
  let s := ConnSec ∅ ∅ in
  fs_connsec_context_get demo_ids (fun _ => inr [7; 9]) (fun _ => 1) (Some [115; 101]) 4 (inr [117; 64; 115; 101]) s =
    Some (s1, inr (SecCtx (Some [7; 9]) 7 false)) /\
  fs_connsec_destroyconn 4 s1 = Some (s2, inr tt) /\ rocks s2 = ∅ /\ size (contexts s2) = 1%nat.
Proof.
  destruct (fs_connsec_context_leaks demo_ids (fun _ => inr [7; 9]) (fun _ => 1) (Some [115; 101]) 4
    (inr [117; 64; 115; 101]) (ConnSec ∅ ∅)) as (sc & s1 & s2 & Hg & Hsc & Hd & Hc & Hr).
  - reflexivity.
  - eexists. vm_compute. reflexivity.
  - vm_compute in Hsc. injection Hsc as <-. exists s1, s2. cbv zeta. split; [exact Hg|]. split; [exact Hd|].
    split; [exact Hr|]. rewrite Hc. vm_compute. reflexivity.
Defined.
