(* ===== verification/Fsprocs.v ===== *)
(** * The procedures of the file server (milko/fs/fsprocs.c)

    What a client can ask for: each procedure finds the volume and the node,
    checks the caller's rights, works on the vnodes of the volume and keeps the
    promises to the clients.  They are the composition of the table of volumes
    ([Vtab]) with the vnode operations ([Vld]) and the cache, the callbacks
    ([Ropa]), the transactions ([Vtrans]) and the data of the call ([Rxcopy]);
    the clock is that of [Ropa].

    A procedure answers what it stores through its output pointers when its
    result is 0. *)

From S2P Require Import Prelude Estate Buf Fdir Vnum Mdir Voldb Vrights Svol Mnode Vinfo Vld.
From S2P Require Import Vtab Vtrans Rxcopy Fsacl Connsec.
From S2P Require Ropa.

Local Open Scope em_scope.

Definition EXDEV : Z := 18.
Definition ENOTDIR : Z := 20.
Definition EROFS : Z := 30.
Definition VSALVAGE : Z := 101.
Definition VOLOP_NOCHECK : Z := 0x100.
Definition VOLOP_MODIFY : Z :=
  Z.lor VOLOP_ADMIN (Z.lor VOLOP_DELETE (Z.lor VOLOP_WRITE (Z.lor VOLOP_INSERT VOLOP_LOCK))).
Definition RWVOL : Z := 0.
Definition AFSNAMEMAX : nat := 256.

(** ** State *)

Record fserver := FServer { fvt : vtab; fropa : Ropa.ropa; ftrans : tstate; fdata : rxdata }.
Definition set_fvt (x : vtab) (s : fserver) : fserver := FServer x (fropa s) (ftrans s) (fdata s).
Definition set_fropa (x : Ropa.ropa) (s : fserver) : fserver :=
  FServer (fvt s) x (ftrans s) (fdata s).
Definition set_ftrans (x : tstate) (s : fserver) : fserver :=
  FServer (fvt s) (fropa s) x (fdata s).
Definition fs_host (s : fserver) : hostfs := vt_host (fvt s).
Definition as_rxfile (s : fserver) : rxfile := RxFile (fs_host s) (fdata s).
Definition set_rxfile (x : rxfile) (s : fserver) : fserver :=
  FServer (set_vt_host (rhost x) (fvt s)) (fropa s) (ftrans s) (rdata x).

Definition FM : Type -> Type := EM fserver.
Definition on_vt {A} (m : VT A) : FM A := elift fvt set_fvt m.
Definition on_vol {A} (p : Z) (m : LM A) : FM A := on_vt (on_volume p m).
Definition on_cache {A} (m : MM A) : FM A := on_vt (vt_on_mn m).
Definition on_ropa {A} (m : Ropa.RM A) : FM A := elift fropa set_fropa m.
Definition on_trans {A} (m : TM A) : FM A := elift ftrans set_ftrans m.
Definition on_rx {A} (m : XM A) : FM A := elift as_rxfile set_rxfile m.
Definition fclock : FM Z := s <-- eget ;; eret (Ropa.now (fropa s)).

(** The caller: its address and what [fs_connsec_context_get] of [Connsec]
    knows of it, which is never null. *)
Record rx_call := RxCall { GETHOST : Z; GETPORT : Z; call_sec : fs_security_context }.

(** ** Callers and status *)

(** All of [m] but its flags. *)
Definition fs_init_msec (call : rx_call) (flags : Z) : msec := Msec (Some (call_sec call)) 0 0 flags 0.
Definition set_mflags (v : Z) (m : msec) : msec :=
  Msec (sec m) (caller_access m) (anonymous_access m) v (loop m).
Definition set_loop (v : Z) (m : msec) : msec :=
  Msec (sec m) (caller_access m) (anonymous_access m) (mflags m) v.

Definition with_access (c a : Z) (f : AFSFetchStatus) : AFSFetchStatus :=
  let 'FetchStatus x1 x2 x3 x4 x5 x6 x7 _ _ x10 x11 x12 x13 x14 x15 x16 x17 x18 x19 x20 x21 := f in
  FetchStatus x1 x2 x3 x4 x5 x6 x7 c a x10 x11 x12 x13 x14 x15 x16 x17 x18 x19 x20 x21.
Definition fs_update_fs (n : mnode) (m : msec) : AFSFetchStatus :=
  with_access (uwrap32 (caller_access m)) (uwrap32 (anonymous_access m)) (fs n).
Definition status_of_node (p : Z) (m : msec) : FM AFSFetchStatus :=
  n <-- on_cache (node p) ;; eret (fs_update_fs n m).

(** [m->sec] is dereferenced. *)
Definition super_user (m : msec) : option bool := superuser <$> sec m.

Definition set_store_owner (o : Z) (ss : AFSStoreStatus) : AFSStoreStatus :=
  StoreStatus (Z.lor (Mask ss) SS_OWNER) (ClientModTime ss) o (ss_Group ss) (ss_UnixModeBits ss)
    (ss_SegSize ss).
(** The status, with the owner set, or the error. *)
Definition check_ss_bits (m : msec) (ss : AFSStoreStatus) (createp : bool) : FM AFSStoreStatus :=
  sc <-- eopt (sec m) ;;
  ss <-- (if masked ss SS_OWNER
          then if negb (ss_Owner ss =? uwrap32 (uid sc)) && negb (superuser sc)
               then efail EPERM else eret ss
          else eret (if createp then set_store_owner (uwrap32 (uid sc)) ss else ss)) ;;
  if masked ss SS_MODEBITS && negb (Z.land 3584 (ss_UnixModeBits ss) =? 0) && negb (superuser sc)
  then efail EPERM else eret ss.                          (* 07000 *)

Section Fs.
Context `{OnodeCoder} `{InfoCoder} `{HostChoice}.
(** The contexts of [Vtab] and [Rxcopy], and the fid that [victim] holds when
    it is not set.  A procedure that ends with an [errno] of 0 returns 0 and
    leaves its output as it was: its result is [inl 0]. *)
Context (stack : voldb -> bytes) (fresh : Z * mnode).
Context (create_errno end_errno : Z -> Z -> Z) (truncate_errno : Z -> Z -> option Z)
  (fstat_errno : Z -> Z).
Context (junk : onode_opaque) (dbos : Z -> list Z) (errno pagesize : Z) (junkfid : AFSFid).
(** The answers of the protection servers, as in [Connsec], as many names or
    ids as were asked for, and the bytes of a name that is not set. *)
Context (PR_IDToName : nat -> list Z -> list (Z + list bytes)).
Context (PR_NameToID : nat -> list bytes -> list (Z + list Z)) (unset : bytes).

(** ** Opening a node *)

Definition free_node (p : Z) (bad : bool) : FM unit := on_cache (mnode_free p bad).
Definition free_vol (p : Z) : FM unit := on_vt (vld_free p).

(** The node and what is known of the caller's access. *)
Definition fs_open_node (f : AFSFid) (vol : Z) (m : msec) : FM (Z * msec) :=
  n <-- on_cache (mnode_find fresh f) ;;
  m <-- eonerr (on_vol vol (vld_open_vnode fstat_errno n (mflags m)) ;;!
                on_vol vol (vld_check_rights fresh fstat_errno n m))
          (free_node n false) ;;
  eret (n, m).

(** The volume, when it may be worked on: [withn] is [n != NULL]. *)
Definition offline_error (h : volume_handle) : Z :=
  if h_attacherr h then VOFFLINE else if h_salvaged h then VSALVAGE else VOFFLINE.
Definition init_volume (flags : Z) (withn : bool) (vol : Z) : FM unit :=
  h <-- on_vt (handle vol) ;;
  if withn && h_offlinep h then efail (offline_error h) else
  on_vol vol (on_info vld_info_uptodatep) ;;!
  h <-- on_vt (handle vol) ;;
  if negb (vi_type (h_info h) =? RWVOL) && negb (Z.land flags VOLOP_MODIFY =? 0)
  then efail EROFS
  else on_vt (vld_db_uptodate dbos vol).

Definition fs_init_vol (f : AFSFid) (flags : Z) (withn : bool) : FM Z :=
  on_trans (vld_check_busy (swrap32 (Volume f)) (-1)) ;;!
  vol <-- on_vt (vld_find_vol (swrap32 (Volume f))) ;;
  eonerr (init_volume flags withn vol) (free_vol vol) ;;!
  eret vol.

(** [fs_init_req] with a node: the volume, the node and [m]. *)
Definition fs_init_req (f : AFSFid) (flags : Z) (call : rx_call) : FM (Z * Z * msec) :=
  vol <-- fs_init_vol f flags true ;;
  r <-- eonerr (fs_open_node f vol (fs_init_msec call flags)) (free_vol vol) ;;
  eret (vol, fst r, snd r).

(** ** Shared parts of the procedures *)

Definition finish (vol n : Z) : FM unit := free_node n false ;;! free_vol vol.

Definition get_promise (call : rx_call) (vol : Z) (f : AFSFid) : FM Ropa.AFSCallBack :=
  h <-- on_vt (handle vol) ;;
  on_ropa (Ropa.ropa_getcallback (GETHOST call) (GETPORT call) f (vi_type (h_info h))).
Definition break_promises (call : rx_call) (f : AFSFid) (break_own : bool) : FM unit :=
  on_ropa (Ropa.ropa_break_callback (GETHOST call) (GETPORT call) f break_own).
Definition drop_promises (call : rx_call) (l : list AFSFid) : FM unit :=
  eignore (on_ropa (Ropa.ropa_drop_callbacks (GETHOST call) (GETPORT call) l)).
Definition modify (vol n : Z) (m : msec) (ss : option AFSStoreStatus) (len : option Z) : FM unit :=
  now <-- fclock ;; on_vol vol (vld_modify_vnode fstat_errno now n (mflags m) ss len).
Definition adjust (vol n a : Z) : FM unit := on_vol vol (vld_adjust_linkcount stack n a).

(** The operations of [Mdir] on a node. *)
Definition dir_lookup (vol n : Z) (name : bytes) : FM AFSFid :=
  on_vol vol (
    x <-- on_mn (node n) ;; s <-- eget ;;
    r <-- eopt (mdir_lookup create_errno end_errno (as_mdir (lhost s) x) name) ;;
    if negb (fst r =? 0) then efail (fst r) else eopt (snd r)).
Definition dir_emptyp (vol n : Z) : FM Z :=
  on_vol vol (
    x <-- on_mn (node n) ;; s <-- eget ;;
    eopt (mdir_emptyp create_errno end_errno (as_mdir (lhost s) x))).
Definition dir_creat (vol n : Z) (name : bytes) (f : AFSFid) : FM unit :=
  on_vol vol (echeck (on_mdir n (fun x =>
    mdir_creat create_errno end_errno truncate_errno fstat_errno x name f))).
Definition dir_remove (vol n : Z) (name : bytes) : FM unit :=
  on_vol vol (echeck (on_mdir n (fun x =>
    mdir_remove create_errno end_errno truncate_errno fstat_errno x name))).
Definition dir_changefid (vol n : Z) (name : bytes) (f : AFSFid) : FM unit :=
  on_vol vol (echeck (on_mdir n (fun x =>
    mdir_changefid create_errno end_errno fstat_errno x name f))).
(** [n->sb.st_size] as the length of the directory. *)
Definition dir_size (vol n : Z) : FM Z := x <-- on_cache (node n) ;; eret (swrap32 (st_size x)).
(** ** Reading *)

(** [min] of an int and an unsigned number. *)
Definition umin (a b : Z) : Z := if uwrap32 a <? b then uwrap32 a else b.

(** Whether there is data, and its length. *)
Definition fetch_len (Length offset want : Z) : bool * Z :=
  if Length <? uwrap32 offset then (false, 0)
  else (true, swrap32 (umin want (uwrap32 (Length - uwrap32 offset)))).

Definition SRXAFS_FetchData (call : rx_call) (f : AFSFid) (offset want : Z)
    : FM (AFSFetchStatus * Ropa.AFSCallBack) :=
  r <-- fs_init_req f (Z.lor VOLOP_GETSTATUS VOLOP_READ) call ;;
  let '(vol, n, m) := r in
  efinally (
    x <-- on_cache (node n) ;;
    let '(haveData, len) := fetch_len (fs_Length (fs x)) offset want in
    w <-- on_rx (rx_Write (be32 (uwrap32 len))) ;;
    (if negb (w =? 4) then efail errno else eret tt) ;;!
    (if haveData then on_rx (copyfd2rx pagesize (mfd x) offset len) else eret tt) ;;!
    st <-- status_of_node n m ;;
    on_vol vol (on_info vld_info_uptodatep) ;;!
    cb <-- get_promise call vol f ;;
    eret (st, cb)) (finish vol n).

Definition SRXAFS_FetchStatus (call : rx_call) (f : AFSFid)
    : FM (AFSFetchStatus * Ropa.AFSCallBack) :=
  r <-- fs_init_req f VOLOP_GETSTATUS call ;;
  let '(vol, n, m) := r in
  efinally (
    st <-- status_of_node n m ;;
    on_vol vol (on_info vld_info_uptodatep) ;;!
    cb <-- get_promise call vol f ;;
    eret (st, cb)) (finish vol n).

(** ** Changing a node *)

(** The length the file will have, when it changes. *)
Definition store_len (Length offset count total : Z) : option (option Z) :=
  let len := swrap32 (umin total Length) in
  if negb ((- 2^31 <=? offset + count) && (offset + count <? 2^31)) then None else
  let len := if len <? offset + count then offset + count else len in
  Some (if uwrap32 len =? Length then None else Some len).

(** A directory is refused with the volume still referenced. *)
Definition SRXAFS_StoreData (call : rx_call) (f : AFSFid) (ss : AFSStoreStatus)
    (offset count total : Z) : FM AFSFetchStatus :=
  r <-- fs_init_req f (Z.lor VOLOP_WRITE VOLOP_GETSTATUS) call ;;
  let '(vol, n, m) := r in
  x <-- on_cache (node n) ;;
  if fs_FileType (fs x) =? TYPE_DIR then free_node n false ;;! efail EPERM else
  efinally (
    len <-- eopt (store_len (fs_Length (fs x)) offset count total) ;;
    ss <-- check_ss_bits m ss false ;;
    r <-- etry (
      modify vol n m (Some ss) len ;;!
      (if count =? 0 then eret tt else
       x <-- on_cache (node n) ;; on_rx (copyrx2fd pagesize (mfd x) offset count)) ;;!
      status_of_node n m) ;;
    break_promises call f false ;;!
    match r with inl e => efail e | inr st => eret st end) (finish vol n).

(** The change needs no right to write, and the owner becomes the caller when
    none is given. *)
Definition SRXAFS_StoreStatus (call : rx_call) (f : AFSFid) (ss : AFSStoreStatus)
    : FM AFSFetchStatus :=
  r <-- fs_init_req f VOLOP_GETSTATUS call ;;
  let '(vol, n, m) := r in
  efinally (
    ss <-- check_ss_bits m ss true ;;
    r <-- etry (modify vol n m (Some ss) None ;;! status_of_node n m) ;;
    break_promises call f false ;;!
    match r with inl e => efail e | inr st => eret st end) (finish vol n).

(** ** Removing an entry of a directory *)

(** What is freed when a call on two open nodes fails. *)
Definition drop_both (vol n child_n : Z) : FM unit :=
  free_node n false ;;! free_node child_n false ;;! free_vol vol.

(** The name is removed and its node loses its links. *)
Definition remove_child (vol n child_n : Z) (name : bytes) (dirp : bool) : FM unit :=
  (if dirp then
     e <-- dir_emptyp vol child_n ;; if e =? 0 then efail EEXIST else eret tt
   else eret tt) ;;!
  dir_remove vol n name ;;!
  adjust vol child_n (if dirp then -2 else -1).

(** [child_linkcount] is that of the directory.  The status is answered
    whatever the last change of the directory gives. *)
Definition removenode (call : rx_call) (d : AFSFid) (name : bytes) (dirp : bool)
    : FM AFSFetchStatus :=
  r <-- fs_init_req d (Z.lor VOLOP_GETSTATUS VOLOP_DELETE) call ;;
  let '(vol, n, m) := r in
  x <-- on_cache (node n) ;;
  eassert (fdp x) ;;! eassert (fsp x) ;;!
  if negb (fs_FileType (fs x) =? TYPE_DIR) then free_node n false ;;! efail ENOTDIR else
  let pm := set_loop (loop m + 1)
    (fs_init_msec call (Z.lor VOLOP_GETSTATUS (Z.lor VOLOP_READ VOLOP_NOCHECK))) in
  r <-- eonerr (
    f <-- dir_lookup vol n name ;;
    (if negb (Bool.eqb (afs_dir_p (swrap32 (Fdir.Vnode f))) dirp)
     then efail (if dirp then ENOTDIR else EISDIR) else eret tt) ;;!
    c <-- fs_open_node f vol pm ;; eret (f, fst c)) (finish vol n) ;;
  let '(f, child_n) := r in
  eonerr (remove_child vol n child_n name dirp) (drop_both vol n child_n) ;;!
  x <-- on_cache (node n) ;;
  let child_linkcount := fs_LinkCount (fs x) in
  free_node child_n false ;;!
  (if dirp then eonerr (adjust vol n (-1)) (finish vol n) else eret tt) ;;!
  len <-- dir_size vol n ;;
  ret <-- ecode (modify vol n m None (Some len)) ;;
  st <-- status_of_node n m ;;
  (if ret =? 0 then
     let f := Build_AFSFid (Volume d) (Fdir.Vnode f) (Unique f) in
     (if negb (child_linkcount =? 0) then break_promises call f true
      else drop_promises call [f]) ;;!
     break_promises call d false
   else eret tt) ;;!
  finish vol n ;;!
  if ret =? 0 then eret st else efail ret.

Definition SRXAFS_RemoveFile (call : rx_call) (d : AFSFid) (name : bytes) : FM AFSFetchStatus :=
  removenode call d name false.
Definition SRXAFS_RemoveDir (call : rx_call) (d : AFSFid) (name : bytes) : FM AFSFetchStatus :=
  removenode call d name true.
(** ** Making an entry of a directory *)

Definition new_entry (vol n ty : Z) (ss : AFSStoreStatus) (m : msec) : FM (AFSFid * Z) :=
  now <-- fclock ;;
  r <-- on_vol vol (vld_create_entry stack fresh create_errno end_errno truncate_errno fstat_errno
          junk now n ty ss (Some m) true) ;;
  c <-- eopt (snd r) ;; eret (fst r, c).

(** The child: a new one, or an existing one with one link more. *)
Definition obtain_child (vol n : Z) (m child_m : msec) (d : AFSFid) (name : bytes)
    (Contents : option bytes) (InStatus : option AFSStoreStatus) (ExistingFid : option AFSFid)
    : FM (AFSFid * Z * msec) :=
  match InStatus with
  | Some ss =>
      ss <-- check_ss_bits m ss true ;;
      r <-- etry (dir_lookup vol n name) ;;
      match r with
      | inr _ => efail EEXIST
      | inl e => if e =? ENOENT then eret tt else efail e
      end ;;!
      r <-- new_entry vol n (match Contents with Some _ => TYPE_LINK | None => TYPE_FILE end)
              ss child_m ;;
      eret (fst r, snd r, child_m)
  | None =>
      f <-- eopt ExistingFid ;;
      r <-- fs_open_node f vol child_m ;;
      eonerr (
        x <-- on_cache (node (fst r)) ;;
        if negb (fs_ParentVnode (fs x) =? Fdir.Vnode d) || negb (fs_ParentUnique (fs x) =? Unique d)
        then efail EXDEV else adjust vol (fst r) 1) (free_node (fst r) false) ;;!
      eret (f, fst r, snd r)
  end.

(** The name is entered and the contents of a symbolic link are written. *)
Definition enter_child (vol n child_n : Z) (m child_m : msec) (name : bytes) (child : AFSFid)
    (Contents : option bytes) : FM unit :=
  dir_creat vol n name child ;;!
  len <-- dir_size vol n ;;
  modify vol n m None (Some len) ;;!
  match Contents with
  | None => eret tt
  | Some b =>
      x <-- on_cache (node child_n) ;;
      eassert (fdp x) ;;!
      r <-- on_vol vol (on_hostfs (hwrite (mfd x) b)) ;;
      if negb (r =? 0) then efail r else modify vol child_n child_m None (Some (blen b))
  end.

Definition createentry (call : rx_call) (d : AFSFid) (name : bytes) (Contents : option bytes)
    (InStatus : option AFSStoreStatus) (ExistingFid : option AFSFid) (callback : bool)
    : FM (AFSFid * AFSFetchStatus * AFSFetchStatus * option Ropa.AFSCallBack) :=
  r <-- fs_init_req d (Z.lor VOLOP_GETSTATUS VOLOP_INSERT) call ;;
  let '(vol, n, m) := r in
  x <-- on_cache (node n) ;;
  eassert (fdp x) ;;! eassert (fsp x) ;;!
  if negb (fs_FileType (fs x) =? TYPE_DIR) then finish vol n ;;! efail EPERM else
  let child_m := set_access (caller_access m) (anonymous_access m)
                   (fs_init_msec call VOLOP_GETSTATUS) in
  r <-- eonerr (obtain_child vol n m child_m d name Contents InStatus ExistingFid)
          (finish vol n) ;;
  let '(child, child_n, child_m) := r in
  eonerr (enter_child vol n child_n m child_m name child Contents)
    (eignore (dir_remove vol n name) ;;! eignore (adjust vol child_n (-1)) ;;!
     free_node n true ;;! free_node child_n true ;;! free_vol vol) ;;!
  efinally (
    st <-- status_of_node child_n child_m ;;
    dst <-- status_of_node n m ;;
    on_vol vol (on_info vld_info_uptodatep) ;;!
    cb <-- (if callback then c <-- get_promise call vol child ;; eret (Some c) else eret None) ;;
    break_promises call d false ;;!
    eret (child, st, dst, cb)) (free_node child_n false ;;! finish vol n).

Definition SRXAFS_CreateFile (call : rx_call) (d : AFSFid) (name : bytes) (ss : AFSStoreStatus) :=
  createentry call d name None (Some ss) None true.
Definition SRXAFS_Symlink (call : rx_call) (d : AFSFid) (name contents : bytes)
    (ss : AFSStoreStatus) :=
  createentry call d name (Some contents) (Some ss) None false.
Definition SRXAFS_Link (call : rx_call) (d : AFSFid) (name : bytes) (f : AFSFid) :=
  if afs_dir_p (swrap32 (Fdir.Vnode f)) then efail EISDIR
  else createentry call d name None None (Some f) false.

(** What [SRXAFS_MakeDir] does when it fails with both nodes open; a directory
    has two links, so its node stays. *)
Definition undo_makedir (vol n child_n : Z) : FM unit :=
  eignore (adjust vol n (-1)) ;;! eignore (adjust vol child_n (-1)) ;;!
  free_node n false ;;! free_node child_n true ;;! free_vol vol.
Definition copy_acls (from to : mnode) : option mnode :=
  match u (e from), u (e to) with
  | u_dir p, u_dir c =>
      Some (set_e (Entry (type (e to)) (u_dir (DirEntry (dfile c) (negacl p) (acl p)))) to)
  | _, _ => None
  end.

Definition SRXAFS_MakeDir (call : rx_call) (d : AFSFid) (name : bytes) (ss : AFSStoreStatus)
    : FM (AFSFid * AFSFetchStatus * AFSFetchStatus * Ropa.AFSCallBack) :=
  r <-- fs_init_req d (Z.lor VOLOP_WRITE (Z.lor VOLOP_INSERT VOLOP_GETSTATUS)) call ;;
  let '(vol, n, m) := r in
  x <-- on_cache (node n) ;;
  if negb (fs_FileType (fs x) =? TYPE_DIR) then free_node n false ;;! efail EPERM else
  let child_m := fs_init_msec call VOLOP_GETSTATUS in
  r <-- eonerr (ss <-- check_ss_bits m ss true ;; new_entry vol n TYPE_DIR ss child_m)
          (finish vol n) ;;
  let '(child, child_n) := r in
  eonerr (adjust vol n 1) (drop_both vol n child_n) ;;!
  eonerr (
    dir_creat vol n name child ;;! len <-- dir_size vol n ;; modify vol n m None (Some len))
    (undo_makedir vol n child_n) ;;!
  dst <-- status_of_node n m ;;
  st <-- status_of_node child_n m ;;
  x <-- on_cache (node n) ;;
  c <-- on_cache (node child_n) ;;
  c <-- eopt (copy_acls x c) ;;
  on_cache (put_node child_n c) ;;!
  eonerr (on_vol vol (vld_put_acl fstat_errno child_n (mflags child_m)))
    (undo_makedir vol n child_n) ;;!
  efinally (
    break_promises call d false ;;!
    on_vol vol (on_info vld_info_uptodatep) ;;!
    cb <-- get_promise call vol child ;;
    eret (child, st, dst, cb)) (free_node child_n false ;;! finish vol n).
(** ** Rename *)

(** [mdir_rename] on two nodes or within one: the status and the lengths. *)
Definition dir_rename (vol p1 : Z) (name1 : bytes) (p2 : Z) (name2 : bytes)
    : FM (Z * option Z * option Z) :=
  on_vol vol (
    x1 <-- on_mn (node p1) ;; x2 <-- on_mn (node p2) ;; s <-- eget ;;
    r <-- eopt (mdir_rename create_errno truncate_errno (as_mdir (lhost s) x1) name1
                  (if p1 =? p2 then None else Some (as_mdir (lhost s) x2)) name2) ;;
    let '(ret, len1, len2, y1, y2) := r in
    on_mn (put_node p1 (from_mdir y1 x1)) ;;!
    emod (fun s => set_lhost (host_content (mfd x1) (Mdir.content y1) (lhost s)) s) ;;!
    match y2 with
    | None => eret tt
    | Some y2 =>
        on_mn (put_node p2 (from_mdir y2 x2)) ;;!
        emod (fun s => set_lhost (host_content (mfd x2) (Mdir.content y2) (lhost s)) s)
    end ;;!
    eret (ret, len1, len2)).

Definition links_of (dirp : bool) : Z := if dirp then 2 else 1.

(** The target directory; when the caller may not delete in it, without the
    right to replace an entry. *)
Definition open_target (call : rx_call) (f : AFSFid) (vol : Z) : FM (Z * msec) :=
  let flags := Z.lor VOLOP_GETSTATUS VOLOP_INSERT in
  r <-- etry (fs_open_node f vol (fs_init_msec call (Z.lor flags VOLOP_DELETE))) ;;
  match r with
  | inr x => eret x
  | inl _ => fs_open_node f vol (fs_init_msec call flags)
  end.

(** What is to be replaced: its fid and node.  Of the two counts of links the
    code tests that of the child again. *)
Definition open_victim (vol new_n child_n : Z) (new_m : msec) (name : bytes) (dirp : bool)
    : FM (option (AFSFid * Z) * msec) :=
  r <-- etry (dir_lookup vol new_n name) ;;
  match r with
  | inl _ => eret (None, new_m)
  | inr f =>
      if (Z.land (mflags new_m) VOLOP_DELETE =? 0) ||
         negb (Bool.eqb (afs_dir_p (swrap32 (Fdir.Vnode f))) dirp) then efail EPERM else
      r <-- fs_open_node f vol new_m ;;
      v <-- on_cache (node (fst r)) ;;
      eassert (fsp v) ;;!
      c <-- on_cache (node child_n) ;;
      if negb (fs_LinkCount (fs c) =? links_of dirp)
      then free_node (fst r) false ;;! efail EPERM
      else eret (Some (f, fst r), snd r)
  end.

(** Whether the victim is gone, or the error of taking a link from it. *)
Definition drop_victim (vol : Z) (victim : option (AFSFid * Z)) : FM (bool * Z) :=
  match victim with
  | None => eret (false, 0)
  | Some (f, p) =>
      ret <-- ecode (adjust vol p (- links_of (afs_dir_p (swrap32 (Fdir.Vnode f))))) ;;
      x <-- on_cache (node p) ;;
      free_node p false ;;! eret (fs_LinkCount (fs x) =? 0, ret)
  end.

Record rename_args := RenameArgs {
  ra_vol : Z; ra_orig : Z; ra_new : Z; ra_child : Z; ra_child_fid : AFSFid; ra_same : bool
}.

(** From [mdir_rename] on, up to the label [out1]: [ret] and the status of the
    directories.  The result of [mdir_changefid] is [ret] until another call
    sets it. *)
Definition rename_work (call : rx_call) (a : rename_args) (orig_m new_m : msec)
    (d1 : AFSFid) (name1 : bytes) (d2 : AFSFid) (name2 : bytes) (victim : option (AFSFid * Z))
    : FM (Z * AFSFetchStatus * AFSFetchStatus) :=
  let dirp := afs_dir_p (swrap32 (Fdir.Vnode (ra_child_fid a))) in
  let vol := ra_vol a in
  r <-- dir_rename vol (ra_orig a) name1 (ra_new a) name2 ;;
  let '(ret, len1, len2) := r in
  if negb (ret =? 0) then
    match victim with Some (_, p) => free_node p false | None => eret tt end ;;! efail ret
  else
  ret <-- (if dirp then ecode (dir_changefid vol (ra_child a) [46; 46] d2) else eret 0) ;;
  v <-- drop_victim vol victim ;;
  let '(victim_deleted, e) := v in
  if negb (e =? 0) then efail e else
  let ret := match victim with Some _ => 0 | None => ret end in
  ret <-- (if dirp && negb (ra_same a)
           then eignore (adjust vol (ra_orig a) (-1)) ;;! ecode (adjust vol (ra_new a) 1)
           else eret ret) ;;
  len1 <-- eopt len1 ;;
  eignore (modify vol (ra_orig a) orig_m None (Some len1)) ;;!
  (if ra_same a then eret tt else
   len2 <-- eopt len2 ;; eignore (modify vol (ra_new a) new_m None (Some len2))) ;;!
  st1 <-- status_of_node (ra_orig a) orig_m ;;
  st2 <-- status_of_node (ra_new a) new_m ;;
  break_promises call d1 false ;;!
  (if ra_same a then eret tt else
   break_promises call d2 false ;;!
   if dirp then break_promises call (ra_child_fid a) false else eret tt) ;;!
  let vfid := match victim with Some (f, _) => f | None => junkfid end in
  (if victim_deleted then drop_promises call [vfid] else break_promises call vfid true) ;;!
  eret (ret, st1, st2).

(** [orig_m] and [new_m] are one within a directory. *)
Definition SRXAFS_Rename (call : rx_call) (d1 : AFSFid) (name1 : bytes) (d2 : AFSFid)
    (name2 : bytes) : FM (AFSFetchStatus * AFSFetchStatus) :=
  if negb (Volume d1 =? Volume d2) then efail EXDEV else
  if negb (afs_dir_p (swrap32 (Fdir.Vnode d1))) || negb (afs_dir_p (swrap32 (Fdir.Vnode d2)))
  then efail EPERM else
  let same := (Fdir.Vnode d1 =? Fdir.Vnode d2) && (Unique d1 =? Unique d2) in
  r <-- fs_init_req d1 (Z.lor VOLOP_GETSTATUS
          (if same then Z.lor VOLOP_INSERT VOLOP_DELETE else VOLOP_DELETE)) call ;;
  let '(vol, orig_n, orig_m) := r in
  x <-- on_cache (node orig_n) ;;
  eassert (fdp x) ;;! eassert (fsp x) ;;!
  (* the volume stays referenced *)
  r <-- eonerr (child <-- dir_lookup vol orig_n name1 ;;
                r <-- fs_open_node child vol orig_m ;; eret (child, r)) (free_node orig_n false) ;;
  let '(child, (child_n, orig_m)) := r in
  c <-- on_cache (node child_n) ;;
  eassert (fsp c) ;;!
  let dirp := afs_dir_p (swrap32 (Fdir.Vnode child)) in
  let out1 := free_node orig_n false ;;! free_node child_n false in
  if negb same && negb (fs_LinkCount (fs c) =? links_of dirp)
  then out1 ;;! free_vol vol ;;! efail EXDEV else
  (* the child stays referenced *)
  r <-- (if same then eret (orig_n, orig_m)
         else eonerr (open_target call d2 vol) (finish vol orig_n)) ;;
  let '(new_n, new_m) := r in
  efinally (
    v <-- open_victim vol new_n child_n new_m name2 dirp ;;
    let '(victim, new_m) := v in
    r <-- rename_work call (RenameArgs vol orig_n new_n child_n child same)
            (if same then new_m else orig_m) new_m d1 name1 d2 name2 victim ;;
    let '(ret, st1, st2) := r in
    if ret =? 0 then eret (st1, st2) else efail ret)
    (out1 ;;! (if same then eret tt else free_node new_n false) ;;! free_vol vol).

(** ** Other procedures *)

Definition SRXAFS_GiveUpCallBacks (call : rx_call) (fids : list AFSFid) : FM Z :=
  on_ropa (Ropa.ropa_drop_callbacks (GETHOST call) (GETPORT call) fids).

(** [stats] is the answer of [dp_getstats].  The volume stays referenced. *)
Definition SRXAFS_GetVolumeStatus (call : rx_call) (volid : Z) (vtype : Z) (stats : Z + Z * Z)
    : FM (AFSFetchVolumeStatus * bytes) :=
  vol <-- fs_init_vol (Build_AFSFid (uwrap32 volid) 0 0) VOLOP_GETSTATUS false ;;
  h <-- on_vt (handle vol) ;;
  on_vol vol (on_info (vld_get_volstats (h_vol h) vtype (h_offlinep h) stats)).

(** When the volume is not found [volh] is not set and freed all the same;
    when it is found and [fs_init_req] fails it is freed twice. *)
Definition SRXAFS_SetVolumeStatus (call : rx_call) (volid mask maxq : Z) : FM unit :=
  let f := Build_AFSFid (uwrap32 volid) 1 1 in
  r <-- etry (on_trans (vld_check_busy (swrap32 (Volume f)) (-1)) ;;!
              on_vt (vld_find_vol (swrap32 (Volume f)))) ;;
  match r with
  | inl _ => eabort
  | inr vol =>
      efinally (
        eonerr (init_volume 0 false vol) (free_vol vol) ;;!
        b <-- eopt (super_user (fs_init_msec call 0)) ;;
        if negb b then efail EPERM else on_vol vol (on_info (vld_set_volstats mask maxq)))
        (free_vol vol)
  end.

Definition root_cell : bytes := [114; 111; 111; 116; 46; 99; 101; 108; 108].
Definition SRXAFS_GetRootVolume : bytes := strlcpy AFSNAMEMAX root_cell.
(** Seconds and microseconds. *)
Definition SRXAFS_GetTime (usec : Z) : FM (Z * Z) := now <-- fclock ;; eret (uwrap32 now, uwrap32 usec).

(** The procedures that are refused: FetchData64, StoreData64, NGetVolumeInfo,
    SetLock, ExtendLock, ReleaseLock, FlushCPS, GiveUpAllCallBacks and
    GetCapabilities. *)
Definition SRXAFS_refused {A} : FM A := efail EPERM.

(** The loop of [SRXAFS_BulkStatus]: the volume at hand and its number, which
    are -1 and none at the start; the error of a procedure in [vld_info_uptodatep]
    ends the loop with 0. *)
Fixpoint bulk_loop (call : rx_call) (m : msec) (old : Z) (volh : option Z) (l : list AFSFid)
    : FM (list (AFSFetchStatus * option Ropa.AFSCallBack)) :=
  match l with
  | [] => vol <-- eopt volh ;; free_vol vol ;;! eret []
  | f :: l =>
      vol <-- (if Volume f =? uwrap32 old then eopt volh else
        match volh with Some v => free_vol v | None => eret tt end ;;!
        vol <-- on_vt (vld_find_vol (swrap32 (Volume f))) ;;
        h <-- on_vt (handle vol) ;;
        if h_offlinep h then free_vol vol ;;! efail VOFFLINE else
        eonerr (on_vt (vld_db_uptodate dbos vol)) (free_vol vol) ;;! eret vol) ;;
      r <-- eonerr (fs_open_node f vol m) (free_vol vol) ;;
      let '(n, m) := r in
      st <-- status_of_node n m ;;
      free_node n false ;;!
      r <-- etry (on_vol vol (on_info vld_info_uptodatep)) ;;
      match r with
      | inl _ => free_vol vol ;;! eret [(st, None)]
      | inr _ =>
          cb <-- get_promise call vol f ;;
          rest <-- bulk_loop call m (swrap32 (Volume f)) (Some vol) l ;;
          eret ((st, Some cb) :: rest)
      end
  end.
Definition SRXAFS_BulkStatus (call : rx_call) (fids : list AFSFid)
    : FM (list (AFSFetchStatus * option Ropa.AFSCallBack)) :=
  match fids with
  | [] => eret []
  | _ => bulk_loop call (fs_init_msec call VOLOP_GETSTATUS) (-1) None fids
  end.
(** ** Access lists *)

Definition RX_CALL_DEAD : Z := -1.

Definition acl_names (ids : list Z) : Z + list bytes :=
  match fs_connsec_idtoname PR_IDToName ids with
  | inr names => inr names
  | inl e => if (e =? ENETDOWN) || (e =? RX_CALL_DEAD) then inr (i2nlist ids) else inl e
  end.
(** The opaque of the lists of a directory. *)
Definition acl_answer (d : voldb_dir_entry) : Z + option bytes :=
  let pos := owned (acl d) in
  let neg := owned (negacl d) in
  match acl_names (map (fun x => swrap32 (owner x)) (pos ++ neg)) with
  | inl e => inl e
  | inr names =>
      inr (acl_opaque (acl_text (zip names pos) (zip (drop (length pos) names) neg)))
  end.

(** A node that is no directory is refused with the volume still referenced. *)
Definition SRXAFS_FetchACL (call : rx_call) (f : AFSFid) : FM (bytes * AFSFetchStatus) :=
  r <-- fs_init_req f VOLOP_GETSTATUS call ;;
  let '(vol, n, m) := r in
  st <-- status_of_node n m ;;
  x <-- on_cache (node n) ;;
  eassert (ep x) ;;! eassert (fsp x) ;;!
  if negb (fs_FileType (fs x) =? TYPE_DIR) then free_node n false ;;! efail EPERM else
  efinally (
    d <-- eopt (match u (e x) with u_dir d => Some d | u_file _ => None end) ;;
    match acl_answer d with
    | inl e => efail e
    | inr o => b <-- eopt o ;; eret (b, st)
    end) (finish vol n).

(** The two lists with the ids of the names put in, padded with zeros; or the
    error. *)
Definition acl_list (l : list (bytes * Z)) (ids : list Z) : list acl_entry :=
  let r := zip_with (fun id (x : bytes * Z) => AclEntry (uwrap32 id) (uwrap32 (snd x))) ids l in
  r ++ replicate (FS_MAX_ACL - length r) zero_acl.
Definition resolve_acl (p : acl_parse) : Z + option (list acl_entry * list acl_entry) :=
  match fs_connsec_nametoid PR_NameToID (map fst (ap_pos p ++ ap_neg p)) with
  | inl e => inl e
  | inr ids =>
      if negb (length ids =? length (ap_pos p ++ ap_neg p))%nat then inr None else
      if existsb (fun id => id =? PR_ANONYMOUSID) ids then inl ENOENT else
      inr (Some (acl_list (ap_pos p) ids, acl_list (ap_neg p) (drop (length (ap_pos p)) ids)))
  end.

(** A text without the two numbers is answered with 0. *)
Definition SRXAFS_StoreACL (call : rx_call) (f : AFSFid) (text : bytes) : FM AFSFetchStatus :=
  r <-- fs_init_req f (Z.lor VOLOP_GETSTATUS VOLOP_ADMIN) call ;;
  let '(vol, n, m) := r in
  x <-- on_cache (node n) ;;
  eassert (ep x) ;;!
  efinally (
    if negb (type (e x) =? TYPE_DIR) then efail EINVAL else
    p <-- eopt (scan_acl unset text) ;;
    match p with
    | None => efail 0
    | Some p =>
        match resolve_acl p with
        | inl e => efail e
        | inr o =>
            l <-- eopt o ;;
            d <-- eopt (match u (e x) with u_dir d => Some d | u_file _ => None end) ;;
            on_cache (put_node n (set_e (Entry (type (e x)) (u_dir (DirEntry (dfile d) (snd l) (fst l)))) x)) ;;!
            on_vol vol (vld_put_acl fstat_errno n (mflags m)) ;;!
            st <-- status_of_node n m ;;
            break_promises call f false ;;!
            eret st
        end
    end) (finish vol n).
End Fs.
