(* ===== verification/Dump.v ===== *)
(** * Dumps of volumes

    milko/fs/dump.c, which writes a volume to a call and reads it back, with
    the functions of milko/lib/vld/vld.c it is built on: [vld_foreach_dir],
    [vld_foreach_file], [restore_file] and [vld_rebuild].

    What arrives and what is sent is the data of the call ([Rxcopy]), the
    volume is a handle of the table ([Vtab]).  A value that is read is passed
    on where the code leaves it in a variable. *)

From S2P Require Import Prelude Estate Buf Fdir Vnum Mdir Voldb Vrights Svol Mnode Vinfo Vld.
From S2P Require Import Vtab Vtrans Rxcopy Fsacl Connsec Fsprocs.

Local Open Scope em_scope.

Definition VOLSERFAILEDOP : Z := 1492325137.

Definition DUMPVERSION : Z := 1.
Definition DUMPBEGINMAGIC : Z := 0xb3a11322.
Definition DUMPENDMAGIC : Z := 0x3a214b6e.
Definition TAG_DUMPHEADER : Z := 1.
Definition TAG_VOLHEADER : Z := 2.
Definition TAG_VNODE : Z := 3.
Definition TAG_DUMPEND : Z := 4.

(** The characters of the tags of the header of the dump (DHTAG), of the
    volume (VHTAG) and of a vnode (VTAG). *)
Definition DHTAG_VOLNAME : Z := 110.
Definition DHTAG_VOLID : Z := 118.
Definition DHTAG_DUMPTIMES : Z := 116.

Definition VHTAG_VOLID : Z := 105.
Definition VHTAG_VERS : Z := 118.
Definition VHTAG_VOLNAME : Z := 110.
Definition VHTAG_INSERV : Z := 115.
Definition VHTAG_BLESSED : Z := 98.
Definition VHTAG_VUNIQ : Z := 117.
Definition VHTAG_TYPE : Z := 116.
Definition VHTAG_PARENT : Z := 112.
Definition VHTAG_CLONE : Z := 99.
Definition VHTAG_MAXQUOTA : Z := 113.
Definition VHTAG_MINQUOTA : Z := 109.
Definition VHTAG_DISKUSED : Z := 100.
Definition VHTAG_FILECNT : Z := 102.
Definition VHTAG_ACCOUNT : Z := 97.
Definition VHTAG_OWNER : Z := 111.
Definition VHTAG_CREAT : Z := 67.
Definition VHTAG_ACCESS : Z := 65.
Definition VHTAG_UPDATE : Z := 85.
Definition VHTAG_EXPIRE : Z := 69.
Definition VHTAG_BACKUP : Z := 66.
Definition VHTAG_OFFLINE : Z := 79.
Definition VHTAG_MOTD : Z := 77.
Definition VHTAG_WEEKUSE : Z := 87.
Definition VHTAG_DUDATE : Z := 68.
Definition VHTAG_DAYUSE : Z := 90.

Definition VTAG_TYPE : Z := 116.
Definition VTAG_NLINKS : Z := 108.
Definition VTAG_DVERS : Z := 118.
Definition VTAG_CLIENT_DATE : Z := 109.
Definition VTAG_AUTHOR : Z := 97.
Definition VTAG_OWNER : Z := 111.
Definition VTAG_GROUP : Z := 103.
Definition VTAG_MODE : Z := 98.
Definition VTAG_PARENT : Z := 112.
Definition VTAG_SERVER_DATE : Z := 115.
Definition VTAG_ACL : Z := 65.
Definition VTAG_DATA : Z := 102.

Definition SIZEOF_ACL : Z := 256 - 64.
Definition GOT_ALL_FILE : Z := 0x03F7.

(** ** Values *)

Definition rx_get (n : Z) : FM bytes :=
  b <-- on_rx (rx_Read n) ;; if blen b =? n then eret b else efail VOLSERFAILEDOP.
Definition readbyte : FM Z := b <-- rx_get 1 ;; eret (of_be b).
Definition readint32 : FM Z := b <-- rx_get 4 ;; eret (of_be b).
Definition readint16 : FM Z := b <-- rx_get 2 ;; eret (of_be b).

Definition rx_put (b : bytes) : FM unit :=
  n <-- on_rx (rx_Write b) ;; if n =? blen b then eret tt else efail VOLSERFAILEDOP.
Definition writebyte (b : Z) : FM unit := rx_put [uwrap8 b].
Definition writeint32 (d : Z) : FM unit := rx_put (be32 d).
Definition writeint16 (d : Z) : FM unit := rx_put (be16 d).
(** With the NUL. *)
Definition writestring (s : bytes) : FM unit := rx_put (s ++ [0]).
Definition writebyte_tag (tag b : Z) : FM unit := writebyte tag ;;! writebyte b.
Definition writeint16_tag (tag d : Z) : FM unit := writebyte tag ;;! writeint16 d.
Definition writeint32_tag (tag d : Z) : FM unit := writebyte tag ;;! writeint32 d.
Definition writestring_tag (tag : Z) (s : bytes) : FM unit := writebyte tag ;;! writestring s.

(** A loop that reads a byte in every round ends when nothing arrives. *)
Definition in_fuel : FM nat := s <-- eget ;; eret (S (length (rx_in (fdata s)))).

(** ** The vnodes of a volume (vld.c) *)

(** What [vld_foreach_dir] tells of a vnode and [restore_file] is told. *)
Record vnode_data := VnodeData {
  va_vnode : Z; va_uniq : Z; va_length : Z; va_dataversion : Z; va_author : Z; va_owner : Z;
  va_group : Z; va_parent : Z; va_client_date : Z; va_server_date : Z;
  va_nlinks : Z; va_mode : Z; va_type : Z; va_acl : option bytes
}.

(** The entries before the first one without an owner; what lies behind a
    full list would be read too. *)
Fixpoint acl_used (l : list acl_entry) : option (list acl_entry) :=
  match l with
  | [] => None
  | x :: l => if owner x =? 0 then Some [] else cons x <$> acl_used l
  end.
(** The array [acl] as the bytes in memory. *)
Definition acl_disk (d : voldb_dir_entry) : option bytes :=
  pos ← acl_used (acl d);
  neg ← acl_used (negacl d);
  let total := Z.of_nat (length pos + length neg) in
  let words := [SIZEOF_ACL; 1; total; Z.of_nat (length pos); Z.of_nat (length neg)] ++
               flat_map (fun x => [owner x; flags x]) (pos ++ neg) in
  Some (flat_map be32 (words ++ replicate (48 - length words) 0)).

Definition entry_data (dirp : bool) (i : Z) (x : voldb_file_entry) (l : option bytes) : vnode_data :=
  VnodeData (uwrap32 (if dirp then dir_local2afs i else file_local2afs i)) (unique x) (Length x)
    (DataVersion x) (Author x) (Owner x) (Group x) (ParentVnode x) (ServerModTime x) (ServerModTime x)
    (uwrap16 (LinkCount x)) (uwrap16 (UnixModeBits x)) (uwrap8 (FileType x)) l.

Section Dump.
Context `{OnodeCoder} `{InfoCoder} `{HostChoice}.
(** The contexts of [Fsprocs]; and whether so many bytes of memory can be
    had. *)
Context (stack : voldb -> bytes) (fresh : Z * mnode) (junk : onode_opaque).
Context (dbos : Z -> list Z) (pagesize : Z) (alloc : Z -> bool).

(** [func] is given an open descriptor. *)
Definition visit (dirp : bool) (vol : Z) (func : Z -> vnode_data -> FM unit) (i : Z)
    (x : voldb_entry) : FM unit :=
  l <-- (match u x with
         | u_dir d => l <-- eopt (acl_disk d) ;; eret (Some l)
         | u_file _ => eret None
         end) ;;
  let f := fent x in
  if negb (FileType f =? 0) && (nextptr f =? VOLDB_ENTRY_USED) then
    h <-- on_vt (handle vol) ;;
    fd <-- on_vt (vt_on_host (svol_iopen (h_part h) (ino f))) ;;
    efinally (func fd (entry_data dirp i f l)) (on_vt (vt_on_host (hclose fd)))
  else eret tt.
(** An entry that cannot be read is passed over. *)
Fixpoint foreach_loop (dirp : bool) (vol : Z) (func : Z -> vnode_data -> FM unit) (l : list Z)
    : FM unit :=
  match l with
  | [] => eret tt
  | i :: l =>
      r <-- etry (on_vol vol (on_db dirp (voldb_get_entry i))) ;;
      match r with inl _ => eret tt | inr x => visit dirp vol func i x end ;;!
      foreach_loop dirp vol func l
  end.
Definition vld_foreach (dirp : bool) (vol : Z) (func : Z -> vnode_data -> FM unit) : FM unit :=
  on_vt (vld_db_uptodate dbos vol) ;;!
  r <-- on_vol vol (on_db dirp voldb_header_info) ;;
  foreach_loop dirp vol func (seqZ 0 (fst r)).
Definition vld_foreach_dir := vld_foreach true.
Definition vld_foreach_file := vld_foreach false.

(** ** Restoring a vnode (vld.c) *)

Definition acl_word (b : bytes) (i : Z) : option Z :=
  if (0 <=? i) && (i <? SIZEOF_ACL / 4)
  then Some (of_be (take 4 (drop (Z.to_nat (4 * i)) b))) else None.
(** [n] entries from the one of number [i] on, where [i] can be negative. *)
Definition acl_entries (b : bytes) (i n : Z) : option (list acl_entry) :=
  l ← mapM (fun j => o ← acl_word b ((j + i) * 2 + 5); f ← acl_word b ((j + i) * 2 + 6);
                     Some (AclEntry o f)) (seqZ 0 n);
  Some (l ++ replicate (FS_MAX_ACL - length l) zero_acl).
(** [acl] and [negacl] of the entry from those of the dump. *)
Definition disk_acl (b : bytes) : option (list acl_entry * list acl_entry) :=
  positive ← swrap32 <$> acl_word b 3;
  negative ← swrap32 <$> acl_word b 4;
  if (positive <=? Z.of_nat FS_MAX_ACL) && (negative <=? Z.of_nat FS_MAX_ACL) then
    p ← acl_entries b 0 positive; n ← acl_entries b positive negative; Some (p, n)
  else Some (replicate FS_MAX_ACL zero_acl, replicate FS_MAX_ACL zero_acl).

(** The fields that are set; [unique] stays what the entry had. *)
Definition restored_file (dirp : bool) (a : vnode_data) (o : onode_opaque) (f : voldb_file_entry)
    : voldb_file_entry :=
  let 'FileEntry _ un _ s2 _ _ _ _ s3 _ _ _ _ _ _ seg _ s4 _ s5 := f in
  FileEntry VOLDB_ENTRY_USED un o s2 1 (va_type a) (va_nlinks a) (va_length a) s3
    (va_dataversion a) (va_author a) (va_owner a)
    (if dirp then Z.lor 0x40000 (va_mode a) else va_mode a)
    (va_parent a) 0 seg (va_server_date a) s4 (va_group a) s5.
(** A directory needs an access list: the null pointer is followed. *)
Definition restored_entry (a : vnode_data) (o : onode_opaque) (x : voldb_entry) : option voldb_entry :=
  match u x with
  | u_dir d =>
      b ← va_acl a;
      '(p, n) ← disk_acl b;
      Some (Entry (va_type a) (u_dir (DirEntry (restored_file true a o (dfile d)) n p)))
  | u_file f => Some (Entry (va_type a) (u_file (restored_file false a o f)))
  end.

Definition restore_kind (ty : Z) : option bool :=
  if ty =? TYPE_DIR then Some true
  else if (ty =? TYPE_FILE) || (ty =? TYPE_LINK) then Some false else None.

(** [ftruncate] with its errno. *)
Definition hftruncate_errno (fd len : Z) : HM unit :=
  r <-- hsys ;;
  if negb (r =? 0) then efail r else
  s <-- eget ;;
  match hfds s !! fd with
  | None => efail EBADF
  | Some i => emod (host_content fd (resize (default [] (hfiles s !! i)) len))
  end.

(** The databases are those the handle has: a null pointer is followed.  The
    entry of the vnode, which is free or is freed. *)
Definition clear_entry (vol : Z) (dirp : bool) (k : Z) : FM voldb_entry :=
  on_vol vol (on_db dirp (voldb_expand stack k)) ;;!
  x <-- on_vol vol (on_db dirp (voldb_get_entry k)) ;;
  (if nextptr (fent x) =? VOLDB_ENTRY_USED
   then o <-- on_vol vol (on_db dirp (voldb_del_entry stack (uwrap32 k))) ;;
        eignore (on_vol vol (volop_iunlink o))
   else eret tt) ;;!
  eret x.
Definition put_restored (vol : Z) (dirp : bool) (k : Z) (x : voldb_entry) : FM unit :=
  match u x with
  | u_dir d => on_vol vol (on_db true (voldb_put_acl (uwrap32 k) d))
  | u_file _ => eret tt
  end ;;!
  on_vol vol (on_db dirp (voldb_put_entry k x)).
(** The node and its descriptor, before the data is read. *)
Definition restore_node (vol : Z) (a : vnode_data) : FM (Z * Z) :=
  dirp <-- eopt (restore_kind (va_type a)) ;;
  k <-- eopt ((if dirp then dir_afs2local else file_afs2local) (swrap32 (va_vnode a))) ;;
  h <-- on_vt (handle vol) ;;
  x <-- clear_entry vol dirp k ;;
  n <-- on_cache (mnode_find fresh (Build_AFSFid (h_vol h) (va_vnode a) (va_uniq a))) ;;
  o <-- on_vol vol (volop_icreate junk n) ;;
  x <-- eopt (restored_entry a o x) ;;
  put_restored vol dirp k x ;;!
  on_vol vol (on_info (vld_update_volsize (swrap32 (ENTRY_DISK_SIZE + va_length a / 1024)))) ;;!
  nd <-- on_cache (node n) ;;
  on_vt (vt_on_host (hftruncate_errno (mfd nd) (va_length a))) ;;!
  eret (n, mfd nd).
Definition restore_file (vol : Z) (a : vnode_data) : FM unit :=
  r <-- restore_node vol a ;;
  on_rx (copyrx2fd pagesize (snd r) 0 (va_length a)) ;;!
  free_node (fst r) false.

Definition vld_rebuild (vol : Z) : FM unit :=
  h <-- on_vt (handle vol) ;;
  eassert (h_voldbp h) ;;!
  on_vol vol (on_db true voldb_rebuild) ;;! on_vol vol (on_db false voldb_rebuild).

(** ** Reading a dump *)

Fixpoint read_chars (fuel : nat) (malloc_size : Z) (s : bytes) : FM bytes :=
  match fuel with
  | O => eabort
  | S fuel =>
      size <-- (if malloc_size <=? blen s then
                  eassert (malloc_size * 2 <? 2^31) ;;!
                  if alloc (malloc_size * 2) then eret (malloc_size * 2) else efail ENOMEM
                else eret malloc_size) ;;
      b <-- on_rx (rx_Read 1) ;;
      match b with
      | [c] => if c =? 0 then eret s else read_chars fuel size (s ++ [c])
      | _ => efail VOLSERFAILEDOP
      end
  end.
Definition readstring : FM bytes :=
  if alloc 10 then fuel <-- in_fuel ;; read_chars fuel 10 [] else efail ENOMEM.

(** One item of the header: whether the tag was one of its tags. *)
Definition dumpheader_item (tag : Z) : FM bool :=
  if tag =? DHTAG_VOLNAME then readstring ;;! eret true
  else if tag =? DHTAG_VOLID then readint32 ;;! eret true
  else if tag =? DHTAG_DUMPTIMES then
    count <-- readint16 ;;
    if negb (count =? 2) then efail VOLSERFAILEDOP
    else readint32 ;;! readint32 ;;! eret true
  else eret false.
Fixpoint dumpheader_loop (fuel : nat) : FM Z :=
  match fuel with
  | O => eabort
  | S fuel =>
      tag <-- readbyte ;;
      more <-- dumpheader_item tag ;;
      if more then dumpheader_loop fuel else eret tag
  end.
(** The tag behind the header. *)
Definition read_dumpheader : FM Z :=
  magic <-- readint32 ;;
  version <-- readint32 ;;
  if negb (magic =? DUMPBEGINMAGIC) then efail VOLSERFAILEDOP else
  if negb (version =? DUMPVERSION) then efail VOLSERFAILEDOP else
  fuel <-- in_fuel ;; dumpheader_loop fuel.

(** What an item of the header of a volume holds. *)
Inductive vh_value :=
  | VInt (w : Z)
  | VString (s : bytes)
  | VByte (b : Z)
  | VWords.
Definition vh_ints : list Z :=
  [VHTAG_VOLID; VHTAG_VERS; VHTAG_VUNIQ; VHTAG_PARENT; VHTAG_CLONE; VHTAG_MAXQUOTA; VHTAG_MINQUOTA;
   VHTAG_DISKUSED; VHTAG_FILECNT; VHTAG_ACCOUNT; VHTAG_OWNER; VHTAG_DAYUSE; VHTAG_CREAT;
   VHTAG_ACCESS; VHTAG_UPDATE; VHTAG_EXPIRE; VHTAG_BACKUP; VHTAG_DUDATE].
Definition tag_in (tag : Z) (l : list Z) : bool := existsb (Z.eqb tag) l.

Fixpoint read_words (n : nat) : FM unit :=
  match n with O => eret tt | S n => readint32 ;;! read_words n end.
(** None for a tag that is none of the header's. *)
Definition vh_read (tag : Z) : FM (option vh_value) :=
  if tag_in tag vh_ints then w <-- readint32 ;; eret (Some (VInt w))
  else if tag_in tag [VHTAG_VOLNAME; VHTAG_OFFLINE; VHTAG_MOTD]
  then s <-- readstring ;; eret (Some (VString s))
  else if tag_in tag [VHTAG_INSERV; VHTAG_BLESSED; VHTAG_TYPE]
  then b <-- readbyte ;; eret (Some (VByte b))
  else if tag =? VHTAG_WEEKUSE then
    count <-- readint16 ;;
    (if alloc (4 * count) then eret tt else efail ENOMEM) ;;!
    read_words (Z.to_nat count) ;;! eret (Some VWords)
  else eret None.

Definition set_vi_name (v : bytes) (i : volintInfo) : volintInfo :=
  let 'VolInfo _ b c d e f g h j k l m n o p q r s t w x y z aa := i in
  VolInfo v b c d e f g h j k l m n o p q r s t w x y z aa.
Definition set_vi_type (v : Z) (i : volintInfo) : volintInfo :=
  let 'VolInfo a b _ d e f g h j k l m n o p q r s t w x y z aa := i in
  VolInfo a b v d e f g h j k l m n o p q r s t w x y z aa.
(** [backupID], [parentID] and [cloneID]. *)
Definition set_vi_ids (b p c : Z) (i : volintInfo) : volintInfo :=
  let 'VolInfo a1 a2 a3 _ _ _ g h j k l m n o q r s t w x y z aa bb := i in
  VolInfo a1 a2 a3 b p c g h j k l m n o q r s t w x y z aa bb.
(** The dates of creation, access, update and backup. *)
Definition set_vi_dates (c a u b : Z) (i : volintInfo) : volintInfo :=
  let 'VolInfo a1 a2 a3 d e f g h j k l _ _ _ _ q r s t w x y z aa := i in
  VolInfo a1 a2 a3 d e f g h j k l c a u b q r s t w x y z aa.
Definition set_dayUse (v : Z) (i : volintInfo) : volintInfo :=
  let 'VolInfo a b c d e f g h j k l m n o p _ r s t w x y z aa := i in
  VolInfo a b c d e f g h j k l m n o p v r s t w x y z aa.

Definition vh_store_int (tag w : Z) (i : volintInfo) : volintInfo :=
  if tag =? VHTAG_PARENT then set_vi_ids (backupID i) w (cloneID i) i
  else if tag =? VHTAG_CLONE then set_vi_ids (backupID i) (parentID i) w i
  else if tag =? VHTAG_MAXQUOTA then set_maxquota w i
  else if tag =? VHTAG_DAYUSE then set_dayUse w i
  else if tag =? VHTAG_CREAT then set_vi_dates w (accessDate i) (updateDate i) (backupDate i) i
  else if tag =? VHTAG_ACCESS then set_vi_dates (creationDate i) w (updateDate i) (backupDate i) i
  else if tag =? VHTAG_UPDATE then set_vi_dates (creationDate i) (accessDate i) w (backupDate i) i
  else if tag =? VHTAG_BACKUP then set_vi_dates (creationDate i) (accessDate i) (updateDate i) w i
  else i.
Definition vh_store (tag : Z) (v : vh_value) (i : volintInfo) : volintInfo :=
  match v with
  | VInt w => vh_store_int tag (swrap32 w) i
  | VString s => if tag =? VHTAG_VOLNAME then set_vi_name (strlcpy VNAMESIZE s) i else i
  | VByte b => if tag =? VHTAG_TYPE then set_vi_type b i else i
  | VWords => i
  end.
Definition on_vhinfo (vol : Z) (f : volintInfo -> volintInfo) : FM unit :=
  on_vol vol (on_info (emod (fun v => set_info (f (info v)) v))).

Fixpoint volumeheader_loop (fuel : nat) (vol tag : Z) : FM Z :=
  match fuel with
  | O => eabort
  | S fuel =>
      v <-- vh_read tag ;;
      match v with
      | None => eret tag
      | Some v => on_vhinfo vol (vh_store tag v) ;;! tag <-- readbyte ;; volumeheader_loop fuel vol tag
      end
  end.
Definition read_volumeheader (vol tag : Z) : FM Z :=
  fuel <-- in_fuel ;; volumeheader_loop fuel vol tag.

(** The items of a vnode: what has come of it and the bits [GOT_VTAG]. *)
Definition vn_ints : list Z :=
  [VTAG_DVERS; VTAG_AUTHOR; VTAG_OWNER; VTAG_GROUP; VTAG_PARENT; VTAG_CLIENT_DATE; VTAG_SERVER_DATE].
Definition got_bit (tag : Z) : Z :=
  if tag =? VTAG_DVERS then 0x0001 else if tag =? VTAG_AUTHOR then 0x0002
  else if tag =? VTAG_OWNER then 0x0004 else if tag =? VTAG_GROUP then 0x0008
  else if tag =? VTAG_PARENT then 0x0010 else if tag =? VTAG_CLIENT_DATE then 0x0020
  else if tag =? VTAG_SERVER_DATE then 0x0040 else if tag =? VTAG_NLINKS then 0x0080
  else if tag =? VTAG_MODE then 0x0100 else if tag =? VTAG_TYPE then 0x0200 else 0x0400.
Definition vn_store (tag w : Z) (a : vnode_data) : vnode_data :=
  let 'VnodeData vn un len dv au ow gr pa cd sd nl mo ty ac := a in
  if tag =? VTAG_DVERS then VnodeData vn un len w au ow gr pa cd sd nl mo ty ac
  else if tag =? VTAG_AUTHOR then VnodeData vn un len dv w ow gr pa cd sd nl mo ty ac
  else if tag =? VTAG_OWNER then VnodeData vn un len dv au w gr pa cd sd nl mo ty ac
  else if tag =? VTAG_GROUP then VnodeData vn un len dv au ow w pa cd sd nl mo ty ac
  else if tag =? VTAG_PARENT then VnodeData vn un len dv au ow gr w cd sd nl mo ty ac
  else if tag =? VTAG_CLIENT_DATE then VnodeData vn un len dv au ow gr pa w sd nl mo ty ac
  else if tag =? VTAG_SERVER_DATE then VnodeData vn un len dv au ow gr pa cd w nl mo ty ac
  else if tag =? VTAG_NLINKS then VnodeData vn un len dv au ow gr pa cd sd w mo ty ac
  else if tag =? VTAG_MODE then VnodeData vn un len dv au ow gr pa cd sd nl w ty ac
  else VnodeData vn un len dv au ow gr pa cd sd nl mo w ac.
Definition set_va_acl (b : bytes) (a : vnode_data) : vnode_data :=
  let 'VnodeData vn un len dv au ow gr pa cd sd nl mo ty _ := a in
  VnodeData vn un len dv au ow gr pa cd sd nl mo ty (Some b).
Definition set_va_length (len : Z) (a : vnode_data) : vnode_data :=
  let 'VnodeData vn un _ dv au ow gr pa cd sd nl mo ty ac := a in
  VnodeData vn un len dv au ow gr pa cd sd nl mo ty ac.

(** The item of [tag], when it is one before the data. *)
Definition vn_read (tag : Z) (a : vnode_data) : FM (option vnode_data) :=
  if tag_in tag vn_ints then w <-- readint32 ;; eret (Some (vn_store tag w a))
  else if tag_in tag [VTAG_NLINKS; VTAG_MODE] then w <-- readint16 ;; eret (Some (vn_store tag w a))
  else if tag =? VTAG_TYPE then w <-- readbyte ;; eret (Some (vn_store tag w a))
  else if tag =? VTAG_ACL then
    eassert (alloc SIZEOF_ACL) ;;! b <-- rx_get SIZEOF_ACL ;; eret (Some (set_va_acl b a))
  else eret None.
(** [GOT_ALL_FILE] leaves out the group and the access list. *)
Fixpoint vnodeheader_loop (fuel : nat) (vol : Z) (a : vnode_data) (got tag : Z) : FM Z :=
  match fuel with
  | O => eabort
  | S fuel =>
      r <-- vn_read tag a ;;
      match r with
      | Some a =>
          next <-- readbyte ;; vnodeheader_loop fuel vol a (Z.lor got (got_bit tag)) next
      | None =>
          if negb (tag =? VTAG_DATA) then eret tag else
          len <-- readint32 ;;
          if Z.land got GOT_ALL_FILE =? GOT_ALL_FILE
          then restore_file vol (set_va_length len a) ;;! readbyte
          else efail VOLSERFAILEDOP
      end
  end.
Definition read_vnodeheader (vol : Z) : FM Z :=
  vnode <-- readint32 ;;
  uniq <-- readint32 ;;
  tag <-- readbyte ;;
  fuel <-- in_fuel ;;
  vnodeheader_loop fuel vol (VnodeData vnode uniq 0 0 0 0 0 0 0 0 0 0 0 None) 0 tag.

Fixpoint parse_loop (fuel : nat) (vol tag : Z) : FM unit :=
  match fuel with
  | O => eabort
  | S fuel =>
      if tag =? TAG_DUMPHEADER then
        tag <-- read_dumpheader ;; parse_loop fuel vol tag
      else if tag =? TAG_VOLHEADER then
        tag <-- readbyte ;; tag <-- read_volumeheader vol tag ;; parse_loop fuel vol tag
      else if tag =? TAG_VNODE then
        tag <-- read_vnodeheader vol ;; parse_loop fuel vol tag
      else if tag =? TAG_DUMPEND then
        dumpendmagic <-- readint32 ;;
        if negb (dumpendmagic =? DUMPENDMAGIC) then efail VOLSERFAILEDOP else eret tt
      else on_rx (rx_Read 2048) ;;! efail VOLSERFAILEDOP
  end.
Definition parse_dump (vol : Z) : FM unit :=
  tag <-- readbyte ;; fuel <-- in_fuel ;; parse_loop fuel vol tag.

(** ** Writing a dump *)

Fixpoint write_all (l : list (FM unit)) : FM unit :=
  match l with [] => eret tt | m :: l => m ;;! write_all l end.
Definition vh_info (vol : Z) : FM volintInfo := h <-- on_vt (handle vol) ;; eret (h_info h).

Definition write_dumpheader (i : volintInfo) : FM unit :=
  write_all [writebyte TAG_DUMPHEADER; writeint32 DUMPBEGINMAGIC; writeint32 DUMPVERSION;
    writestring_tag DHTAG_VOLNAME (vi_name i); writeint32_tag DHTAG_VOLID (vi_volid i);
    writebyte DHTAG_DUMPTIMES; writeint16 2; writeint32 0; writeint32 0].

(** Of the seven words of the last item the results are not looked at. *)
Definition write_volheader (i : volintInfo) : FM unit :=
  write_all ([writebyte TAG_VOLHEADER; writeint32_tag VHTAG_VOLID (vi_volid i);
    writeint32_tag VHTAG_VERS 1; writeint32_tag VHTAG_VUNIQ 0;
    writeint32_tag VHTAG_PARENT (parentID i); writeint32_tag VHTAG_CLONE (cloneID i);
    writeint32_tag VHTAG_MAXQUOTA (maxquota i); writeint32_tag VHTAG_MINQUOTA 0;
    writeint32_tag VHTAG_DISKUSED (vi_size i); writeint32_tag VHTAG_FILECNT 0;
    writeint32_tag VHTAG_ACCOUNT 0; writeint32_tag VHTAG_OWNER 0;
    writeint32_tag VHTAG_DAYUSE (dayUse i); writeint32_tag VHTAG_CREAT (creationDate i);
    writeint32_tag VHTAG_ACCESS (accessDate i); writeint32_tag VHTAG_UPDATE (updateDate i);
    writeint32_tag VHTAG_EXPIRE 0; writeint32_tag VHTAG_BACKUP (backupDate i);
    writeint32_tag VHTAG_DUDATE 0; writestring_tag VHTAG_VOLNAME (vi_name i);
    writestring_tag VHTAG_OFFLINE []; writestring_tag VHTAG_MOTD [];
    writebyte_tag VHTAG_INSERV 0; writebyte_tag VHTAG_BLESSED 0;
    writebyte_tag VHTAG_TYPE (vi_type i); writeint16_tag VHTAG_WEEKUSE 7]
    ++ replicate 7 (eignore (writeint32 0))).

Definition write_vnode (fd : Z) (a : vnode_data) : FM unit :=
  write_all [writebyte TAG_VNODE; writeint32 (va_vnode a); writeint32 (va_uniq a);
    writeint32_tag VTAG_DVERS (va_dataversion a); writeint32_tag VTAG_AUTHOR (va_author a);
    writeint32_tag VTAG_OWNER (va_owner a); writeint32_tag VTAG_GROUP (va_group a);
    writeint32_tag VTAG_PARENT (va_parent a); writeint32_tag VTAG_CLIENT_DATE (va_client_date a);
    writeint32_tag VTAG_SERVER_DATE (va_server_date a); writeint16_tag VTAG_NLINKS (va_nlinks a);
    writeint16_tag VTAG_MODE (va_mode a); writebyte_tag VTAG_TYPE (va_type a);
    match va_acl a with Some b => writebyte VTAG_ACL ;;! rx_put b | None => eret tt end;
    writeint32_tag VTAG_DATA (va_length a);
    on_rx (copyfd2rx pagesize fd 0 (va_length a))].

Definition generate_dump (vol : Z) : FM unit :=
  i <-- vh_info vol ;;
  write_dumpheader i ;;!
  write_volheader i ;;!
  vld_foreach_dir vol write_vnode ;;!
  vld_foreach_file vol write_vnode ;;!
  writebyte TAG_DUMPEND ;;!
  writeint32 DUMPENDMAGIC.
End Dump.
