(* ===== verification/Volser.v ===== *)
(** * The procedures of the volume server (milko/fs/volprocs.c)

    What a volume administrator can ask for: a transaction on a volume is made
    and ended, and in between the volume is created, deleted, dumped, restored,
    shown and changed.  The state is that of the file server ([Fsprocs]).

    A procedure answers what it stores through its output pointers when its
    result is 0; the memory for the lists of volumes can be had. *)

From S2P Require Import Prelude Estate Buf Fdir Vnum Mdir Voldb Vrights Svol Mnode Vinfo Vld.
From S2P Require Import Vtab Dpart Vattach Vtrans Rxcopy Fsacl Connsec Fsprocs Dump.
From S2P Require Ropa.

Local Open Scope em_scope.

Definition VOLSERILLEGAL_PARTITION : Z := 1492325125.
Definition VOLSERBAD_ACCESS : Z := 1492325127.
Definition VNOVOL : Z := 103.
Definition VTDeleteOnSalvage : Z := 1.
Definition VOK : Z := 2.

(** ** Names of partitions (lib/ko/part.c) *)

Definition vicep : bytes := [118; 105; 99; 101; 112].
Definition tolower (c : Z) : Z := if (65 <=? c) && (c <=? 90) then c + 32 else c.
Definition isalpha (c : Z) : bool := (97 <=? tolower c) && (tolower c <=? 122).
Definition partition_name2num (name : bytes) : Z :=
  let name :=
    if bool_decide (take 6 name = 47 :: vicep) then drop 6 name
    else if bool_decide (take 5 name = vicep) then drop 5 name else name in
  match name with
  | [a] => if isalpha a then tolower a - 97 else -1
  | [a; b] =>
      if isalpha a && isalpha b then
        let ret := 26 * (tolower a - 97 + 1) + tolower b - 97 in if 255 <? ret then -1 else ret
      else -1
  | _ => -1
  end.

(** ** Data *)

(** [struct volser_status] without the fields that are set to 0. *)
Record volser_status := VolserStatus {
  s_volID : Z; s_type : Z; s_parentID : Z; s_cloneID : Z; s_backupID : Z; s_maxQuota : Z;
  s_creationDate : Z; s_accessDate : Z; s_updateDate : Z; s_backupDate : Z
}.
Definition status_of_info (i : volintInfo) : volser_status :=
  VolserStatus (vi_volid i) (vi_type i) (parentID i) (cloneID i) (backupID i) (maxquota i)
    (creationDate i) (accessDate i) (updateDate i) (backupDate i).

(** [struct diskPartition] without the fields that are 0. *)
Record diskPartition := DiskPartition { dk_name : bytes; dk_free : Z }.

(** [struct xvolintInfo] without its counters, which are 0. *)
Record xvolintInfo := XVolInfo {
  xv_name : bytes; xv_volid : Z; xv_type : Z; xv_backupID : Z; xv_parentID : Z; xv_cloneID : Z;
  xv_status : Z; xv_copyDate : Z; xv_inUse : Z; xv_creationDate : Z; xv_accessDate : Z;
  xv_updateDate : Z; xv_backupDate : Z; xv_dayUse : Z; xv_filecount : Z; xv_maxquota : Z; xv_size : Z
}.

Definition set_destroyMe (v : Z) (i : volintInfo) : volintInfo :=
  let 'VolInfo a b c d e f g h j k _ m n o p q r s t w x y z aa := i in
  VolInfo a b c d e f g h j k v m n o p q r s t w x y z aa.

(** The fields of [v] that say something. *)
Definition given (v old : Z) : Z := if v =? 0 then old else v.
Definition given1 (v old : Z) : Z := if v =? -1 then old else v.
Definition set_info_from (v i : volintInfo) : volintInfo :=
  VolInfo (match vi_name v with [] => vi_name i | name => strlcpy VNAMESIZE name end)
    (given (vi_volid v) (vi_volid i)) (given (vi_type v) (vi_type i))
    (given (backupID v) (backupID i)) (given (parentID v) (parentID i))
    (given (cloneID v) (cloneID i)) (given (vi_status v) (vi_status i))
    (given (copyDate v) (copyDate i)) (given (inUse v) (inUse i)) (needsSalvaged i) (destroyMe i)
    (given (creationDate v) (creationDate i)) (accessDate i) (updateDate i)
    (given (backupDate v) (backupDate i)) (given1 (dayUse v) (dayUse i))
    (given (filecount v) (filecount i)) (given1 (maxquota v) (maxquota i))
    (given (vi_size v) (vi_size i)) (vi_flags i)
    (Vinfo.spare0 i) (Vinfo.spare1 i) (Vinfo.spare2 i) (Vinfo.spare3 i).

(** [copy_volumeinfo], for a structure of zeros; [busy] is what
    [vld_check_busy] says. *)
Definition info_status (busy : Z) : Z := if busy =? 0 then VOK else VBUSY.
Definition copied_info (busy : Z) (i : volintInfo) : volintInfo :=
  VolInfo (strlcpy VNAMESIZE (vi_name i)) (vi_volid i) (vi_type i) (backupID i) (parentID i)
    (cloneID i) (info_status busy) (copyDate i) (inUse i) 0 0 (creationDate i) (accessDate i)
    (updateDate i) (backupDate i) (dayUse i) (filecount i) (maxquota i) (vi_size i) 0 0 0 0 0.
Definition xcopied_info (busy : Z) (i : volintInfo) : xvolintInfo :=
  XVolInfo (strlcpy VNAMESIZE (vi_name i)) (vi_volid i) (vi_type i) (backupID i) (parentID i)
    (cloneID i) (info_status busy) (copyDate i) (inUse i) (creationDate i) (accessDate i)
    (updateDate i) (backupDate i) (dayUse i) (filecount i) (maxquota i) (vi_size i).

Section Volser.
Context `{OnodeCoder} `{InfoCoder} `{HostChoice} `{StatusCoder}.
(** The contexts of [Vtab], [Fsprocs] and [Dump]; [dpart_root]; the addresses
    [malloc] gives for a handle and for a transaction, if any, and that of a
    node on the stack; the [vstatus] on the stack before it is read; the
    volumes of the table in the order the hash table has them. *)
Context (stack : voldb -> bytes) (fresh : Z * mnode).
Context (create_errno end_errno : Z -> Z -> Z) (truncate_errno : Z -> Z -> option Z)
  (fstat_errno : Z -> Z).
Context (junk : onode_opaque) (dbos : Z -> list Z) (errno stackfd pagesize : Z).
Context (alloc : Z -> bool) (root : bytes) (malloc stacknode : vtab -> Z).
Context (trans_malloc : tstate -> option Z) (vs_junk : vstatus).
Context (in_order : gmap Z Z -> list Z).

(** [super] is [sec_is_superuser (call)]. *)
Definition superusers {A} (super : bool) (m : FM A) : FM A :=
  if super then m else efail VOLSERBAD_ACCESS.

(** ** Volumes and transactions *)

Definition dpart_of (partition : Z) : Z + dp_part := dp_create root (uwrap32 partition).

(** The structure [dp] is used by no caller. *)
Definition volser_fetch_vh (partition volid : Z) : FM Z :=
  match dpart_of partition with
  | inl _ => efail VOLSERILLEGAL_PARTITION
  | inr _ =>
      r <-- etry (on_vt (vld_open_volume_by_num volid)) ;;
      match r with
      | inl e => efail (if e =? ENOENT then VNOVOL else e)
      | inr vh =>
          r <-- ecode (on_vol vh (on_info vld_info_uptodatep)) ;;
          if r =? 0 then eret vh else free_vol vh ;;! efail VOLSERFAILEDOP
      end
  end.
(** The volume is freed when [f] is done with it. *)
Definition with_vh {A} (partition volid : Z) (f : Z -> FM A) : FM A :=
  vh <-- volser_fetch_vh partition volid ;; efinally (f vh) (free_vol vh).

(** [f] gets the partition and the volume of the transaction, which is put
    back whatever comes. *)
Definition with_trans {A} (transid : Z) (f : Z -> Z -> FM A) : FM A :=
  on_trans (vld_verify_trans transid) ;;!
  p <-- on_trans (vld_get_trans transid) ;;
  t <-- on_trans (deref p) ;;
  efinally (f (partition t) (volid t)) (on_trans (vld_put_trans p)).

Definition new_trans (partition volid : Z) : FM Z :=
  now <-- fclock ;; s <-- eget ;;
  on_trans (vld_create_trans now (trans_malloc (ftrans s)) partition volid).
Definition drop_trans (transid : Z) : FM unit := eignore (on_trans (vld_end_trans transid)).

(** The transaction that is made stays when its flags cannot be set; the
    parent is not used. *)
Definition SVOLSER_AFSVolCreateVolume (super : bool) (partition : Z) (name : bytes)
    (type volid : Z) : FM Z :=
  superusers super (
    trans <-- new_trans partition volid ;;
    on_trans (vld_trans_set_iflags trans ITCreate) ;;!
    eonerr (
      match dpart_of partition with
      | inl e => efail e
      | inr dp =>
          now <-- fclock ;; s <-- eget ;;
          on_vt (vld_create_volume stack fresh create_errno end_errno truncate_errno fstat_errno
                   junk dbos errno stackfd now (malloc (fvt s)) (stacknode (fvt s))
                   (dp_number dp) root (dp_name dp) volid name VLD_SVOL type)
      end) (drop_trans trans) ;;!
    eret trans).

Definition SVOLSER_AFSVolDeleteVolume (super : bool) (transid : Z) : FM unit :=
  superusers super (with_trans transid (fun partition volid =>
    match dpart_of partition with
    | inl e => efail e
    | inr dp => on_vt (vld_delete_volume stack dbos root (dp_number dp) volid)
    end)).

(** The volume is not freed. *)
Definition SVOLSER_AFSVolDump (super : bool) (fromTrans fromDate : Z) : FM unit :=
  superusers super (with_trans fromTrans (fun partition volid =>
    vh <-- volser_fetch_vh partition volid ;;
    if negb (fromDate =? 0) then efail VOLSERFAILEDOP else generate_dump dbos pagesize vh)).

(** The result of [vld_info_write] is not looked at. *)
Definition info_write (vh : Z) : FM unit := eignore (on_vol vh (on_info vld_info_write)).
Definition SVOLSER_AFSVolRestore (super : bool) (transid : Z) : FM unit :=
  superusers super (with_trans transid (fun partition volid =>
    with_vh partition volid (fun vh =>
      parse_dump stack fresh junk pagesize alloc vh ;;!
      ret <-- ecode (vld_rebuild vh) ;;
      info_write vh ;;!
      if ret =? 0 then eret tt else efail ret))).

(** The procedures of superusers that are not there: NukeVolume, SignalRestore,
    Forward, Clone, ReClone, SetForwarding, GetName and ForwardMultiple; and
    those that anybody may call: GetNthVolume, Monitor and XListVolumes. *)
Definition SVOLSER_failed {A} (super : bool) : FM A := superusers super (efail VOLSERFAILEDOP).
Definition SVOLSER_failed_anyway {A} : FM A := efail VOLSERFAILEDOP.

Definition SVOLSER_AFSVolTransCreate (super : bool) (volume partition flags : Z) : FM Z :=
  superusers super (
    with_vh partition volume (fun _ => eret tt) ;;!
    trans <-- new_trans partition volume ;;
    eonerr (on_trans (vld_trans_set_iflags trans flags)) (drop_trans trans) ;;!
    eret trans).

(** The code of the transaction, which [vld_end_trans] stores. *)
Definition SVOLSER_AFSVolEndTrans (super : bool) (transid : Z) : FM Z :=
  superusers super (
    with_trans transid (fun _ volid =>
      eignore (on_ropa (Ropa.ropa_break_volume_callback volid))) ;;!
    on_trans (vld_end_trans transid)).

Definition SVOLSER_AFSVolGetFlags (super : bool) (trans : Z) : FM Z :=
  superusers super (
    on_trans (vld_verify_trans trans) ;;! on_trans (vld_trans_get_vflags trans)).

(** A change of the info, which is written back. *)
Definition change_info (transid : Z) (f : volintInfo -> volintInfo) : FM unit :=
  with_trans transid (fun partition volid =>
    with_vh partition volid (fun vh => on_vhinfo vh f ;;! info_write vh)).

Definition SVOLSER_AFSVolSetFlags (super : bool) (transid flags : Z) : FM unit :=
  superusers super (
    change_info transid
      (set_destroyMe (if Z.land flags VTDeleteOnSalvage =? 0 then 0 else 115)) ;;!
    on_trans (vld_trans_set_vflags transid flags)).

Definition SVOLSER_AFSVolGetStatus (super : bool) (transid : Z) : FM volser_status :=
  superusers super (with_trans transid (fun partition volid =>
    with_vh partition volid (fun vh => i <-- vh_info vh ;; eret (status_of_info i)))).

Definition SVOLSER_AFSVolSetIdsTypes (super : bool) (transid : Z) (name : bytes)
    (type parent clone backup : Z) : FM unit :=
  superusers super (change_info transid (fun i =>
    set_vi_ids backup parent clone (set_vi_type type (set_vi_name (strlcpy VNAMESIZE name) i)))).

Definition SVOLSER_AFSVolSetDate (super : bool) (transid newDate : Z) : FM unit :=
  superusers super (change_info transid (fun i =>
    set_vi_dates newDate (accessDate i) (updateDate i) (backupDate i) i)).

Definition SVOLSER_AFSVolSetInfo (super : bool) (transid : Z) (volinfo : volintInfo) : FM unit :=
  superusers super (change_info transid (set_info_from volinfo)).

(** ** Partitions *)

(** The loop over the partitions that are there, at most 26 rounds: the numbers
    of their structures.  The search fails with the structure null. *)
Fixpoint find_parts (h : hostfs) (n : nat) (dp : option dp_part) : option (list Z) :=
  match n with
  | O => Some []
  | S n =>
      r ← dp_find root (fun p => in_dirs p h) dp;
      match r with
      | inl _ => Some []
      | inr dp => cons (dp_number dp) <$> find_parts h n (Some dp)
      end
  end.
Definition parts_there : FM (list Z) := s <-- eget ;; eopt (find_parts (fs_host s) 26 None).

Definition SVOLSER_AFSVolListPartitions : FM (list Z) :=
  l <-- parts_there ;; eret (l ++ replicate (26 - length l) (-1)).
Definition SVOLSER_AFSVolXListPartitions : FM (list Z) := parts_there.

Definition SVOLSER_AFSVolPartitionInfo (name : bytes) : FM diskPartition :=
  let num := partition_name2num name in
  if num =? -1 then efail VOLSERILLEGAL_PARTITION else
  match dp_create root (uwrap32 num) with
  | inl e => efail e
  | inr dp => eret (DiskPartition (strlcpy 32 (dp_name dp)) 1000)
  end.

(** ** Lists of volumes *)

(** The volume is referenced; the handle that is made from the status, which
    is never read, is lost. *)
Definition vld_open_volume_by_handle (dp : dp_part) (p : Z) : VT unit :=
  vld_ref p ;;!
  h <-- handle p ;;
  match vol_getfullname root (dp_number dp) (h_vol h) MAXPATHLEN with
  | inl e => efail e
  | inr path =>
      r <-- vt_on_host (hopen path) ;;
      match r with
      | inl e => efail e
      | inr fd =>
          r <-- vt_on_host (vstatus_read errno fd vs_junk) ;;
          vt_on_host (hclose fd) ;;!
          if negb (r =? 0) then efail r else
          s <-- eget ;;
          eassert (vs_bstype vs_junk =? VLD_SVOL) ;;!
          put_handle (malloc s) (vstatus2volume_handle vs_junk dp)
      end
  end.
Fixpoint collect_volumes (dp : dp_part) (l : list Z) : VT unit :=
  match l with
  | [] => eret tt
  | p :: l => eignore (vld_open_volume_by_handle dp p) ;;! collect_volumes dp l
  end.
(** All volumes of the table, those of other partitions too. *)
Definition vld_list_volumes (dp : dp_part) : VT (list Z) :=
  s <-- eget ;;
  let vollist := in_order (volume_htab s) in
  collect_volumes dp vollist ;;! eret vollist.

Definition busy_code (volid partID : Z) : FM Z := ecode (on_trans (vld_check_busy volid partID)).
Definition copy_volumeinfo (vh partID : Z) : FM volintInfo :=
  i <-- vh_info vh ;; b <-- busy_code (vi_volid i) partID ;; eret (copied_info b i).

Fixpoint list_infos (partID : Z) (l : list Z) : FM (list volintInfo) :=
  match l with
  | [] => eret []
  | vh :: l =>
      r <-- ecode (on_vol vh (on_info vld_info_uptodatep)) ;;
      eassert (r =? 0) ;;!
      i <-- copy_volumeinfo vh partID ;;
      free_vol vh ;;!
      rest <-- list_infos partID l ;; eret (i :: rest)
  end.
Definition SVOLSER_AFSVolListVolumes (partID : Z) : FM (list volintInfo) :=
  match dpart_of partID with
  | inl e => efail e
  | inr dp => l <-- on_vt (vld_list_volumes dp) ;; list_infos partID l
  end.

Definition SVOLSER_AFSVolListOneVolume (partID volid : Z) : FM volintInfo :=
  with_vh partID volid (fun vh => copy_volumeinfo vh partID).
Definition SVOLSER_AFSVolXListOneVolume (partID volid : Z) : FM xvolintInfo :=
  with_vh partID volid (fun vh =>
    i <-- vh_info vh ;; b <-- busy_code volid partID ;; eret (xcopied_info b i)).
End Volser.
