(* ===== verification/RxcopyCorrect.v ===== *)
(** * Copying between a call and a file: correctness

    With data enough the loops move exactly the bytes that were asked for,
    window by window; a call whose data ends early is read from for ever. *)

From S2P Require Import Prelude Estate Buf Svol SvolCorrect Vinfo Vld Rxcopy.

Local Open Scope em_scope.

(** ** Runs of bytes *)

Lemma st_nil c a : st c a [] = c.
Proof. unfold st. case_match; [|done]. cbn [length app]. by rewrite Nat.add_0_r, take_drop. Qed.

Lemma blen_take n (l : bytes) : 0 <= n <= blen l -> blen (take (Z.to_nat n) l) = n.
Proof. intros Hn. unfold blen in *. rewrite length_take. lia. Qed.
Lemma blen_drop n (l : bytes) : 0 <= n <= blen l -> blen (drop (Z.to_nat n) l) = blen l - n.
Proof. intros Hn. unfold blen in *. rewrite length_drop. lia. Qed.

(** What was stored is there. *)
Lemma st_read c a x len : 0 <= a -> a + blen x <= blen c -> blen x = len ->
  take (Z.to_nat len) (drop (Z.to_nat a) (st c a x)) = x.
Proof.
  intros Ha Hc Hl. rewrite st_splice by done.
  rewrite drop_app_length' by (rewrite length_take; unfold blen in *; lia).
  apply take_app_length'. unfold blen in *. lia.
Qed.

(** ** One round *)

(** A host without failures on which [fd] is open and its file has [c]. *)
Record open_file (h : hostfs) (fd i : Z) (c : bytes) : Prop := {
  of_os : hos h = [];
  of_fd : hfds h !! fd = Some i;
  of_content : default [] (hfiles h !! i) = c
}.

Section Copy.
Context (pagesize : Z) (Hpage : 0 < pagesize) (Hmax : mmap_max_size mod pagesize = 0).

Lemma pages_ge n : n <= pages pagesize n.
Proof.
  unfold pages. rewrite Z.mul_comm. pose proof (Z.div_mod (n + pagesize - 1) pagesize ltac:(lia)).
  pose proof (Z.mod_pos_bound (n + pagesize - 1) pagesize Hpage). lia.
Qed.

Lemma page_le_max : pagesize <= mmap_max_size.
Proof.
  apply Z.mod_divide in Hmax; [|lia]. assert (Hm : 0 < mmap_max_size) by reflexivity.
  by apply (Z.divide_pos_le _ _ Hm).
Qed.

Lemma hmmap_run fd i c h off : open_file h fd i c -> off mod pagesize = 0 -> 0 <= off ->
  hmmap pagesize fd off h = Some (h, inr tt).
Proof.
  intros [Ho Hf _] Hm Ho0. unfold hmmap. lrun (hsys_ok h Ho). rewrite Hm. cbn [Z.eqb negb orb].
  rewrite (proj2 (Z.ltb_ge off 0) Ho0), ebind_get, Hf. done.
Qed.

Lemma host_content_open h fd i c c' : open_file h fd i c -> open_file (host_content fd c' h) fd i c'.
Proof.
  intros [Ho Hf Hc]. unfold host_content. rewrite Hf. split; cbn; [done..|].
  by rewrite lookup_insert_eq.
Qed.

Lemma map_store_run fd i c h off b : open_file h fd i c -> 0 <= off -> off + blen b <= blen c ->
  map_store pagesize fd off b h = Some (host_content fd (st c off b) h, inr tt).
Proof.
  intros [Ho Hf Hc] H0 Hb. unfold map_store. rewrite ebind_get. unfold content_of. rewrite Hf.
  cbn [mbind option_bind]. rewrite Hc. unfold eopt. rewrite ebind_ret.
  pose proof (pages_ge (blen c)). pose proof (blen_nonneg b).
  rewrite (proj2 (Z.leb_le _ _) (Z.le_trans _ _ _ Hb H)), orb_true_r. unfold eassert.
  rewrite ebind_ret. unfold emod. f_equal. f_equal. f_equal.
  destruct (off <? blen c) eqn:Hlt; zbool.
  - rewrite st_splice by done. apply take_ge. rewrite !length_app, length_take, length_drop.
    unfold blen in *. lia.
  - assert (b = []) as -> by (destruct b; [done|rewrite blen_cons in *; pose proof (blen_nonneg b); lia]).
    by rewrite st_nil.
Qed.

Lemma map_load_run fd i c h off n : open_file h fd i c -> 0 <= off -> 0 <= n -> off + n <= blen c ->
  map_load pagesize fd off n h = Some (h, inr (take (Z.to_nat n) (drop (Z.to_nat off) c))).
Proof.
  intros [Ho Hf Hc] H0 Hn Hb. unfold map_load. rewrite ebind_get. unfold content_of. rewrite Hf.
  cbn [mbind option_bind]. rewrite Hc. unfold eopt. rewrite ebind_ret.
  pose proof (pages_ge (blen c)).
  rewrite (proj2 (Z.leb_le _ _) (Z.le_trans _ _ _ Hb H)), orb_true_r. unfold eassert.
  rewrite ebind_ret. unfold eret. f_equal. f_equal. f_equal.
  rewrite drop_app_le by (unfold blen in *; lia).
  rewrite take_app_le; [done|]. rewrite length_drop. unfold blen in *. lia.
Qed.

Lemma or_errno_run r h d : hos h = [] -> or_errno r (RxFile h d) = Some (RxFile h d, inr r).
Proof.
  intros Ho. unfold or_errno. unfold x_host.
  rewrite (ebind_ok _ _ _ _ _ (elift_run rhost set_rhost _ (RxFile h d) _ _ (hsys_ok h Ho))). done.
Qed.

Lemma x_host_run {A} (m : HM A) h d h' r :
  m h = Some (h', r) -> x_host m (RxFile h d) = Some (RxFile h' d, r).
Proof. intros Hm. unfold x_host. by rewrite (elift_run rhost set_rhost m (RxFile h d) _ _ Hm). Qed.

(** The window of a round. *)
Definition window (off len adj : Z) : Z := Z.min (len + adj) mmap_max_size - adj.

Lemma copyrx_round_run fd i c h d off len adj : open_file h fd i c ->
  (off - adj) mod pagesize = 0 -> 0 <= adj < pagesize -> 0 <= off - adj -> 0 < len ->
  let k := window off len adj in
  k <= blen (rx_in d) -> off + k <= blen c -> 
  copyrx_round pagesize fd off len adj (RxFile h d) =
    Some (RxFile (host_content fd (st c off (take (Z.to_nat k) (rx_in d))) h)
            (RxData (drop (Z.to_nat k) (rx_in d)) (rx_room d) (rx_err d) (rx_out d)), inr (k, 0)).
Proof.
  intros Hf Hm Ha H0 Hl k Hk Hc. pose proof page_le_max.
  assert (Hk0 : 0 < k) by (unfold k, window; lia).
  unfold copyrx_round. fold (window off len adj). change (Z.min (len + adj) mmap_max_size - adj) with k.
  lrun (x_host_run _ _ d _ _ (hmmap_run fd i c h _ Hf Hm H0)).
  rewrite (ebind_ok (rx_Read k) _ (RxFile h d)
    (RxFile h (RxData (drop (Z.to_nat k) (rx_in d)) (rx_room d) (rx_err d) (rx_out d)))
    (take (Z.to_nat k) (rx_in d)) eq_refl).
  set (d' := RxData _ _ _ _). set (b := take _ _).
  assert (Hb : blen b = k) by (apply blen_take; lia).
  lrun (x_host_run _ h d' _ _ (map_store_run fd i c h off b Hf ltac:(lia) ltac:(lia))).
  rewrite ebind_get, Hb, Z.eqb_refl, ebind_ret.
  assert (Ho : hos (host_content fd (st c off b) h) = [])
    by apply (of_os _ _ _ _ (host_content_open h fd i c (st c off b) Hf)).
  lrun (or_errno_run 0 _ d' Ho). lrun (or_errno_run 0 _ d' Ho). done.
Qed.

Lemma copyfd_round_run fd i c h d off len adj : open_file h fd i c ->
  (off - adj) mod pagesize = 0 -> 0 <= adj < pagesize -> 0 <= off - adj -> 0 < len ->
  let k := window off len adj in
  k <= rx_room d -> off + k <= blen c ->
  copyfd_round pagesize fd off len adj (RxFile h d) =
    Some (RxFile h (RxData (rx_in d) (rx_room d - k) (rx_err d)
      (rx_out d ++ take (Z.to_nat k) (drop (Z.to_nat off) c))), inr (k, 0)).
Proof.
  intros Hf Hm Ha H0 Hl k Hk Hc. pose proof page_le_max.
  assert (Hk0 : 0 < k) by (unfold k, window; lia).
  unfold copyfd_round. change (Z.min (len + adj) mmap_max_size - adj) with k.
  lrun (x_host_run _ _ d _ _ (hmmap_run fd i c h _ Hf Hm H0)).
  lrun (x_host_run _ h d _ _ (map_load_run fd i c h off k Hf ltac:(lia) ltac:(lia) Hc)).
  set (b := take (Z.to_nat k) _).
  assert (Hb : blen b = k) by (apply blen_take; rewrite blen_drop; lia).
  assert (Ht : take (Z.to_nat (rx_room d)) b = b) by (apply take_ge; unfold blen in *; lia).
  rewrite (ebind_ok (rx_Write b) _ (RxFile h d)
    (RxFile h (RxData (rx_in d) (rx_room d - k) (rx_err d) (rx_out d ++ b))) k).
  2:{ unfold rx_Write. rewrite ebind_get. cbn [rdata]. rewrite Ht, ebind_mod, Hb. done. }
  rewrite ebind_get, Z.eqb_refl, ebind_ret.
  lrun (or_errno_run 0 h (RxData (rx_in d) (rx_room d - k) (rx_err d) (rx_out d ++ b)) (of_os _ _ _ _ Hf)).
  done.
Qed.

(** ** The loops *)

(** All but the contents of inode [i] is as it was. *)
Record same_but_file (h h' : hostfs) (i : Z) : Prop := {
  sf_names : hnames h' = hnames h;
  sf_dirs : hdirs h' = hdirs h;
  sf_fds : hfds h' = hfds h;
  sf_files j : j <> i -> hfiles h' !! j = hfiles h !! j
}.
Lemma same_but_file_refl h i : same_but_file h h i.
Proof. by split. Qed.
Lemma same_but_file_trans h1 h2 h3 i :
  same_but_file h1 h2 i -> same_but_file h2 h3 i -> same_but_file h1 h3 i.
Proof.
  intros [] []. split; try congruence. intros j Hj. by rewrite sf_files1, sf_files0.
Qed.
Lemma host_content_same fd i c c' h : open_file h fd i c -> same_but_file h (host_content fd c' h) i.
Proof.
  intros [_ Hf _]. unfold host_content. rewrite Hf. split; cbn; [done..|].
  intros j Hj. by rewrite lookup_insert_ne.
Qed.

(** What is left after a round, and where the next one starts. *)
Lemma next_window off len adj : (off - adj) mod pagesize = 0 -> 0 <= adj < pagesize -> 0 < len ->
  let k := window off len adj in
  0 < k <= len /\ (k < len -> (off + k - 0) mod pagesize = 0).
Proof.
  intros Hm Ha Hl k. pose proof page_le_max. unfold k, window. split; [lia|]. intros Hk.
  rewrite Z.min_r in * by lia. replace (off + (mmap_max_size - adj) - 0) with ((off - adj) + mmap_max_size) by lia.
  by rewrite <- Zplus_mod_idemp_l, Hm, Z.add_0_l.
Qed.

Lemma copy_loop_done round fuel off len adj s : len <= 0 -> copy_loop round fuel off len adj s = Some (s, inr tt).
Proof. intros Hl. destruct fuel; cbn; by rewrite (proj2 (Z.leb_le len 0) Hl). Qed.

Lemma copy_loop_step round fuel off len adj s s' k : 0 < len ->
  round off len adj s = Some (s', inr (k, 0)) ->
  copy_loop round (S fuel) off len adj s = copy_loop round fuel (off + k) (len - k) 0 s'.
Proof. intros Hl Hr. cbn. rewrite (proj2 (Z.leb_gt len 0) Hl). by lrun Hr. Qed.

Lemma copyrx_loop_run fd i fuel : forall h d c off len adj, open_file h fd i c ->
  (off - adj) mod pagesize = 0 \/ len = 0 -> 0 <= adj < pagesize -> 0 <= off - adj ->
  0 <= len <= Z.of_nat fuel -> len <= blen (rx_in d) -> off + len <= blen c ->
  exists h', copy_loop (copyrx_round pagesize fd) fuel off len adj (RxFile h d) =
      Some (RxFile h' (RxData (drop (Z.to_nat len) (rx_in d)) (rx_room d) (rx_err d) (rx_out d)), inr tt) /\
    open_file h' fd i (st c off (take (Z.to_nat len) (rx_in d))) /\ same_but_file h h' i.
Proof.
  induction fuel as [|fuel IH]; intros h d c off len adj Hf Hm Ha H0 Hl Hd Hc.
  all: destruct (decide (len = 0)) as [->|Hn]; [|try lia].
  1, 2: exists h; rewrite copy_loop_done by done; change (take (Z.to_nat 0) (rx_in d)) with ([] : bytes);
    rewrite st_nil; split_and!; [by destruct d|done|apply same_but_file_refl].
  destruct Hm as [Hm|]; [|done].
  assert (Hl0 : 0 < len) by lia. set (k := window off len adj).
  destruct (next_window off len adj Hm Ha Hl0) as [Hk Hm']. fold k in Hk, Hm'.
  assert (Hkd : k <= blen (rx_in d)) by lia. assert (Hkc : off + k <= blen c) by lia.
  pose proof (copyrx_round_run fd i c h d off len adj Hf Hm Ha H0 Hl0 Hkd Hkc) as Hr.
  fold k in Hr. set (b := take (Z.to_nat k) (rx_in d)) in *.
  set (h1 := host_content fd (st c off b) h) in *. set (d1 := RxData (drop (Z.to_nat k) (rx_in d)) _ _ _) in *.
  assert (Hf1 : open_file h1 fd i (st c off b)) by (by eapply host_content_open).
  destruct (IH h1 d1 (st c off b) (off + k) (len - k) 0 Hf1) as (h2 & Hr2 & Hf2 & Hs2).
  { destruct (decide (k < len)); [left; auto|right; lia]. }
  { lia. } { lia. } { lia. } { cbn. rewrite blen_drop; lia. } { rewrite blen_st. lia. }
  assert (Hb : blen b = k) by (apply blen_take; lia).
  exists h2. rewrite (copy_loop_step _ _ _ _ _ _ _ _ Hl0 Hr), Hr2. cbn [rx_in rx_room rx_err rx_out d1].
  assert (Hcat : b ++ take (Z.to_nat (len - k)) (drop (Z.to_nat k) (rx_in d)) = take (Z.to_nat len) (rx_in d)).
  { unfold b. rewrite take_take_drop. f_equal. lia. }
  split_and!.
  - rewrite drop_drop. do 4 f_equal. f_equal. lia.
  - assert (Hbl : blen (take (Z.to_nat len) (rx_in d)) = len) by (apply blen_take; lia).
    rewrite <- Hcat in Hbl. rewrite <- Hcat, <- st_app by (rewrite blen_app in *; lia). by rewrite Hb.
  - eapply same_but_file_trans; [|done]. by eapply host_content_same.
Qed.

Lemma copyfd_loop_run fd i c fuel : forall h d off len adj, open_file h fd i c ->
  (off - adj) mod pagesize = 0 \/ len = 0 -> 0 <= adj < pagesize -> 0 <= off - adj ->
  0 <= len <= Z.of_nat fuel -> len <= rx_room d -> off + len <= blen c ->
  copy_loop (copyfd_round pagesize fd) fuel off len adj (RxFile h d) =
    Some (RxFile h (RxData (rx_in d) (rx_room d - len) (rx_err d)
      (rx_out d ++ take (Z.to_nat len) (drop (Z.to_nat off) c))), inr tt).
Proof.
  induction fuel as [|fuel IH]; intros h d off len adj Hf Hm Ha H0 Hl Hd Hc.
  all: destruct (decide (len = 0)) as [->|Hn]; [|try lia].
  1, 2: rewrite copy_loop_done by done; destruct d; cbn; by rewrite app_nil_r, Z.sub_0_r.
  destruct Hm as [Hm|]; [|done].
  assert (Hl0 : 0 < len) by lia. set (k := window off len adj).
  destruct (next_window off len adj Hm Ha Hl0) as [Hk Hm']. fold k in Hk, Hm'.
  assert (Hkd : k <= rx_room d) by lia. assert (Hkc : off + k <= blen c) by lia.
  pose proof (copyfd_round_run fd i c h d off len adj Hf Hm Ha H0 Hl0 Hkd Hkc) as Hr.
  fold k in Hr. rewrite (copy_loop_step _ _ _ _ _ _ _ _ Hl0 Hr).
  rewrite (IH h _ (off + k) (len - k) 0 Hf); cbn [rx_in rx_room rx_err rx_out].
  - f_equal. f_equal. f_equal. f_equal; [lia|]. rewrite <- app_assoc. f_equal.
    replace (Z.to_nat (off + k)) with (Z.to_nat off + Z.to_nat k)%nat by lia.
    rewrite <- drop_drop, take_take_drop. f_equal. lia.
  - destruct (decide (k < len)); [left; auto|right; lia].
  - lia.
  - lia.
  - lia.
  - lia.
  - lia.
Qed.

(** ** Data that ends early *)

(** A read that is cut short by the end of the data is no error. *)
Lemma copyrx_round_short fd i c h d off len adj : open_file h fd i c ->
  (off - adj) mod pagesize = 0 -> 0 <= adj -> 0 <= off - adj -> rx_err d = 0 ->
  let k := window off len adj in
  blen (rx_in d) < k -> off + blen (rx_in d) <= blen c ->
  copyrx_round pagesize fd off len adj (RxFile h d) =
    Some (RxFile (host_content fd (st c off (rx_in d)) h) (RxData [] (rx_room d) 0 (rx_out d)),
          inr (blen (rx_in d), 0)).
Proof.
  intros Hf Hm Ha H0 He k Hk Hc.
  unfold copyrx_round. change (Z.min (len + adj) mmap_max_size - adj) with k.
  lrun (x_host_run _ _ d _ _ (hmmap_run fd i c h _ Hf Hm H0)).
  rewrite (ebind_ok (rx_Read k) _ (RxFile h d) (RxFile h (RxData [] (rx_room d) 0 (rx_out d))) (rx_in d)).
  2:{ unfold rx_Read. rewrite ebind_get, ebind_mod. unfold eret. cbn [rdata]. unfold set_rdata. cbn [rhost].
      assert (Hn : (length (rx_in d) <= Z.to_nat k)%nat) by (unfold blen in Hk; lia).
      by rewrite (drop_ge _ _ Hn), (take_ge _ _ Hn), He. }
  set (d' := RxData _ _ _ _).
  lrun (x_host_run _ h d' _ _ (map_store_run fd i c h off (rx_in d) Hf ltac:(lia) Hc)).
  rewrite ebind_get, (proj2 (Z.eqb_neq _ _) (Z.lt_neq _ _ Hk)).
  change (eopt (conv_to_arla_errno (rx_err (rdata _)))) with (eret (S := rxfile) 0). rewrite ebind_ret.
  assert (Ho : hos (host_content fd (st c off (rx_in d)) h) = [])
    by apply (of_os _ _ _ _ (host_content_open h fd i c (st c off (rx_in d)) Hf)).
  lrun (or_errno_run 0 _ d' Ho). lrun (or_errno_run 0 _ d' Ho). done.
Qed.

Lemma starving fd i fuel : forall h c d off len, open_file h fd i c ->
  off mod pagesize = 0 -> 0 <= off <= blen c -> 0 < len -> rx_in d = [] -> rx_err d = 0 ->
  copy_loop (copyrx_round pagesize fd) fuel off len 0 (RxFile h d) = None.
Proof.
  induction fuel as [|fuel IH]; intros h c d off len Hf Hm H0 Hl Hd He.
  - cbn. by rewrite (proj2 (Z.leb_gt len 0) Hl).
  - pose proof page_le_max. pose proof (copyrx_round_short fd i c h d off len 0 Hf) as Hr.
    rewrite Z.sub_0_r, Hd in Hr. specialize (Hr Hm (Z.le_refl 0) ltac:(lia) He).
    rewrite blen_nil, st_nil in Hr. specialize (Hr ltac:(unfold window; lia) ltac:(lia)).
    rewrite (copy_loop_step _ _ _ _ _ _ _ _ Hl Hr), Z.add_0_r, Z.sub_0_r.
    apply (IH _ c); try done. by apply (host_content_open h fd i c c).
Qed.

Lemma copyrx_short_run fd i fuel : forall h c d off len adj, open_file h fd i c ->
  (off - adj) mod pagesize = 0 -> 0 <= adj < pagesize -> 0 <= off - adj ->
  blen (rx_in d) < len -> off + len <= blen c -> rx_err d = 0 ->
  (off + blen (rx_in d)) mod pagesize = 0 ->
  copy_loop (copyrx_round pagesize fd) fuel off len adj (RxFile h d) = None.
Proof.
  induction fuel as [|fuel IH]; intros h c d off len adj Hf Hm Ha H0 Hl Hc He Hend;
    pose proof (blen_nonneg (rx_in d)) as Hn; assert (Hl0 : 0 < len) by lia.
  { cbn. by rewrite (proj2 (Z.leb_gt len 0) Hl0). }
  destruct (next_window off len adj Hm Ha Hl0) as [Hk Hm']. set (k := window off len adj) in *.
  destruct (decide (k <= blen (rx_in d))) as [Hkd|Hkd].
  - assert (Hkc : off + k <= blen c) by lia.
    pose proof (copyrx_round_run fd i c h d off len adj Hf Hm Ha H0 Hl0 Hkd Hkc) as Hr.
    fold k in Hr. rewrite (copy_loop_step _ _ _ _ _ _ _ _ Hl0 Hr).
    assert (Hm2 : (off + k - 0) mod pagesize = 0) by (apply Hm'; lia).
    assert (Hend2 : (off + k + (blen (rx_in d) - k)) mod pagesize = 0) by (rewrite <- Hend; f_equal; lia).
    eapply (IH _ (st c off (take (Z.to_nat k) (rx_in d)))); cbn [rx_in rx_err];
      rewrite ?blen_st, ?blen_drop by lia; try done; try lia.
    by eapply host_content_open.
  - pose proof (copyrx_round_short fd i c h d off len adj Hf Hm ltac:(lia) H0 He) as Hr.
    fold k in Hr. specialize (Hr ltac:(lia) ltac:(lia)).
    rewrite (copy_loop_step _ _ _ _ _ _ _ _ Hl0 Hr).
    eapply starving; [by eapply host_content_open|..]; rewrite ?blen_st; try done; lia.
Qed.

(** ** The properties *)

(** On a host without failures [copyrx2fd] stores the bytes of the call
    where they belong and nowhere else and leaves the rest of the call to be
    read, and [copyfd2rx] sends them back. *)
Theorem copy_store_fetch fd i c h d off len : open_file h fd i c ->
  0 <= off -> 0 <= len -> off + len <= blen c -> len <= blen (rx_in d) -> len <= rx_room d ->
  let b := take (Z.to_nat len) (rx_in d) in
  let d' := RxData (drop (Z.to_nat len) (rx_in d)) (rx_room d) (rx_err d) (rx_out d) in
  exists h', copyrx2fd pagesize fd off len (RxFile h d) = Some (RxFile h' d', inr tt) /\
    open_file h' fd i (st c off b) /\ same_but_file h h' i /\
    copyfd2rx pagesize fd off len (RxFile h' d') =
      Some (RxFile h' (RxData (rx_in d') (rx_room d - len) (rx_err d) (rx_out d ++ b)), inr tt).
Proof.
  intros Hf H0 Hl Hc Hd Hr b d'. unfold copyrx2fd, copyfd2rx, copy_fuel.
  rewrite Z.rem_mod_nonneg by lia. pose proof (Z.mod_pos_bound off pagesize Hpage) as Hb.
  assert (Hm : (off - off mod pagesize) mod pagesize = 0)
    by (rewrite Zminus_mod_idemp_r, Z.sub_diag; apply Zmod_0_l).
  assert (Hle : off mod pagesize <= off) by (apply Z.mod_le; lia).
  destruct (copyrx_loop_run fd i (S (Z.to_nat len)) h d c off len (off mod pagesize) Hf)
    as (h' & Hrun & Hf' & Hs); [by left|done|lia..|].
  exists h'. split; [exact Hrun|]. split; [exact Hf'|]. split; [exact Hs|].
  fold b in Hf'.
  rewrite (copyfd_loop_run fd i (st c off b) (S (Z.to_nat len)) h' d' off len (off mod pagesize) Hf');
    [|by left|done|lia|lia|done|by rewrite blen_st].
  rewrite st_read by (rewrite ?blen_take; unfold b; rewrite ?blen_take; lia). done.
Qed.

(** When a client sends less data than it has announced and its data ends
    at a page of the file, the server reads from the call for ever: no number
    of rounds is enough. *)
Theorem copyrx2fd_never_returns fd i c h d off len fuel : open_file h fd i c ->
  0 <= off -> off + len <= blen c -> blen (rx_in d) < len -> rx_err d = 0 ->
  (off + blen (rx_in d)) mod pagesize = 0 ->
  copy_loop (copyrx_round pagesize fd) fuel off len (Z.rem off pagesize) (RxFile h d) = None.
Proof.
  intros Hf H0 Hc Hd He Hm. rewrite Z.rem_mod_nonneg by lia.
  apply (copyrx_short_run fd i _ h c); try done.
  - rewrite Zminus_mod_idemp_r, Z.sub_diag. apply Zmod_0_l.
  - by apply Z.mod_pos_bound.
  - pose proof (Z.mod_le off pagesize H0 Hpage). lia.
Qed.
End Copy.
