(* ===== verification/FsaclCorrect.v ===== *)
(** * Access lists as text: correctness

    What is printed is scanned back; and what happens to texts that are not
    printed by the server. *)

From S2P Require Import Prelude Buf Voldb Vrights Vinfo Fsacl.

(** ** Numbers *)

Definition no_digit (r : bytes) : Prop := match r with c :: _ => isdigit c = false | [] => True end.

Lemma scan_digits_end acc r : no_digit r -> scan_digits acc r = (acc, r).
Proof. destruct r as [|c r]; cbn; [done|]. by intros ->. Qed.

Lemma isdigit_digit d : 0 <= d < 10 -> isdigit (48 + d) = true.
Proof. intros Hd. unfold isdigit. rewrite !(proj2 (Z.leb_le _ _)) by lia. done. Qed.

Lemma scan_digits_app fuel : forall n acc r, 0 <= n < 10 ^ Z.of_nat fuel ->
  exists k, 0 <= k /\ n < 10 ^ k /\
    scan_digits acc (digits fuel n ++ r) = scan_digits (acc * 10 ^ k + n) r.
Proof.
  induction fuel as [|fuel IH]; intros n acc r Hn.
  { assert (n = 0) as -> by (cbn in Hn; lia). exists 0. cbn. split_and!; try lia.
    by rewrite Z.mul_1_r, Z.add_0_r. }
  cbn [digits]. destruct (n <? 10) eqn:Hlt; zbool.
  - exists 1. cbn [app scan_digits]. rewrite isdigit_digit by lia. split_and!; try lia. f_equal; lia.
  - assert (Hq : 0 <= n / 10 < 10 ^ Z.of_nat fuel).
    { split; [apply Z.div_pos; lia|]. apply Z.div_lt_upper_bound; [lia|].
      rewrite Nat2Z.inj_succ, Z.pow_succ_r in Hn by lia. lia. }
    destruct (IH (n / 10) acc ([48 + n mod 10] ++ r) Hq) as (k & Hk & Hnk & Hs).
    exists (k + 1). rewrite <- app_assoc, Hs. cbn [app scan_digits].
    pose proof (Z.mod_pos_bound n 10 ltac:(lia)). pose proof (Z.div_mod n 10 ltac:(lia)).
    rewrite isdigit_digit by lia. rewrite Z.pow_add_r by lia. split_and!; try lia. f_equal. lia.
Qed.

Lemma digits_first fuel n r : (0 < fuel)%nat -> 0 <= n ->
  exists c l, digits fuel n ++ r = c :: l /\ isdigit c = true.
Proof.
  revert n r. induction fuel as [|fuel IH]; intros n r Hf Hn; [lia|]. cbn [digits].
  destruct (n <? 10) eqn:Hlt; zbool.
  - eexists _, _. split; [done|]. by apply isdigit_digit.
  - destruct fuel as [|fuel].
    + eexists _, _. split; [done|]. apply isdigit_digit. by apply Z.mod_pos_bound.
    + rewrite <- app_assoc. apply IH; [lia|]. by apply Z.div_pos.
Qed.

Lemma digit_no_space c : isdigit c = true -> isspace c = false.
Proof.
  unfold isdigit, isspace. intros H. zbool.
  by rewrite (proj2 (Z.leb_gt c 13)), andb_false_r, (proj2 (Z.eqb_neq c 32)) by lia.
Qed.

Lemma to_int_id z : is_int32 z -> to_int z = z.
Proof.
  intros Hz. unfold to_int, is_int32 in *.
  rewrite Z.min_l, Z.max_r by lia. by apply swrap32_small.
Qed.

Lemma skip_ws_no c l : isspace c = false -> skip_ws (c :: l) = c :: l.
Proof. cbn. by intros ->. Qed.

Lemma scan_unsigned_digits neg n r : 0 <= n -> is_int32 (if neg : bool then - n else n) -> no_digit r ->
  scan_unsigned neg (digits 11 n ++ r) = Some (if neg then - n else n, r).
Proof.
  intros Hn Hi Hr. destruct (digits_first 11 n r ltac:(lia) Hn) as (c & l & E & Hc).
  assert (Hb : 0 <= n < 10 ^ Z.of_nat 11) by (unfold is_int32 in Hi; destruct neg; cbn; lia).
  destruct (scan_digits_app 11 n 0 r Hb) as (k & _ & _ & Hs).
  rewrite (scan_digits_end _ r Hr) in Hs. rewrite Z.mul_0_l, Z.add_0_l, E in Hs.
  unfold scan_unsigned. rewrite E, Hc, Hs. by rewrite to_int_id.
Qed.

(** [%d] reads what [%d] prints. *)
Lemma scan_int_dec z r : is_int32 z -> no_digit r -> scan_int (dec z ++ r) = Some (z, r).
Proof.
  intros Hz Hr. unfold dec. destruct (z <? 0) eqn:Hs; zbool.
  - cbn [app]. unfold scan_int. rewrite skip_ws_no by done.
    assert (Hi : is_int32 (- - z)) by (by rewrite Z.opp_involutive).
    rewrite (scan_unsigned_digits true (- z) r) by (done || lia). by rewrite Z.opp_involutive.
  - destruct (digits_first 11 z r ltac:(lia) Hs) as (c & l & E & Hc).
    pose proof (scan_unsigned_digits false z r Hs Hz Hr) as Hd. rewrite E in *.
    unfold scan_int. rewrite skip_ws_no by (by apply digit_no_space).
    unfold isdigit in Hc. zbool.
    assert (Hcs : c ∈ seqZ 48 10) by (apply elem_of_seqZ; lia). cbn in Hcs.
    repeat (apply elem_of_cons in Hcs as [->|Hcs]; [exact Hd|]). by apply not_elem_of_nil in Hcs.
Qed.

Lemma scan_int_space c l : isspace c = true -> scan_int (c :: l) = scan_int l.
Proof. intros Hc. unfold scan_int. cbn [skip_ws]. by rewrite Hc. Qed.

Lemma skip_ws_idem l : skip_ws (skip_ws l) = skip_ws l.
Proof.
  induction l as [|c l IH]; [done|]. cbn [skip_ws]. destruct (isspace c) eqn:Hc; [done|].
  by apply skip_ws_no.
Qed.
Lemma scan_int_skip l : scan_int (skip_ws l) = scan_int l.
Proof. unfold scan_int. by rewrite skip_ws_idem. Qed.

(** The characters of a number are digits or a sign. *)
Lemma dec_chars z : Forall (fun c => c <> 0 /\ c <> 10) (dec z).
Proof.
  assert (Hd : forall fuel n, 0 <= n -> Forall (fun c => c <> 0 /\ c <> 10) (digits fuel n)).
  { induction fuel as [|fuel IH]; intros n Hn; cbn; [done|]. destruct (n <? 10) eqn:Hlt; zbool.
    - constructor; [lia|done].
    - apply Forall_app. split; [apply IH; by apply Z.div_pos|]. constructor; [|done].
      pose proof (Z.mod_pos_bound n 10 ltac:(lia)). lia. }
  unfold dec. destruct (z <? 0) eqn:Hs; zbool; [constructor; [lia|]|]; apply Hd; lia.
Qed.

(** ** Lines *)

(** A name that can be in a line: it has no space and fits its buffer. *)
Definition name_ok (w : bytes) : Prop :=
  Forall (fun c => isspace c = false /\ c <> 0) w /\ w <> [] /\ (length w <= 63)%nat.

Lemma word_run n w r : Forall (fun c => isspace c = false /\ c <> 0) w -> (length w <= n)%nat ->
  word n (w ++ 32 :: r) = (w, 32 :: r).
Proof.
  revert n. induction w as [|c w IH]; intros n Hw Hl; cbn [app].
  - by destruct n.
  - destruct n as [|n]; [cbn in Hl; lia|]. apply Forall_cons in Hw as [[Hc _] Hw].
    cbn [word]. rewrite Hc, IH; [done|done|cbn in Hl; lia].
Qed.

Lemma space_not_newline c : isspace c = false -> c <> 10.
Proof. by intros Hc ->. Qed.

Lemma skipline_run l r : Forall (fun c => c <> 10) l -> skipline (l ++ 10 :: r) = Some r.
Proof.
  induction l as [|c l IH]; intros Hl; cbn [app skipline]; [done|].
  apply Forall_cons in Hl as [Hc Hl]. by rewrite (proj2 (Z.eqb_neq c 10) Hc), IH.
Qed.

Lemma cstring_run t r : Forall (fun c => c <> 0) t -> cstring (t ++ 0 :: r) = t.
Proof.
  induction t as [|c t IH]; intros Ht; cbn [app cstring]; [done|].
  apply Forall_cons in Ht as [Hc Ht]. by rewrite (proj2 (Z.eqb_neq c 0) Hc), IH.
Qed.

Definition line_ok (x : bytes * acl_entry) : Prop := name_ok (fst x).
Definition scanned (x : bytes * acl_entry) : bytes * Z := (fst x, swrap32 (flags (snd x))).

Lemma line_chars x : line_ok x -> Forall (fun c => c <> 0) (acl_line x).
Proof.
  intros (Hw & _). unfold acl_line. repeat rewrite Forall_app. split_and!.
  - eapply Forall_impl; [exact Hw|]. by intros c [_ Hc].
  - by constructor.
  - eapply Forall_impl; [apply dec_chars|]. by intros c [Hc _].
  - by constructor.
Qed.
Lemma lines_chars l : Forall line_ok l -> Forall (fun c => c <> 0) (concat (map acl_line l)).
Proof.
  induction l as [|x l IH]; intros Hl; cbn; [done|]. apply Forall_cons in Hl as [Hx Hl].
  apply Forall_app. split; [by apply line_chars|by apply IH].
Qed.

Lemma scan_line_run x t : line_ok x -> Forall (fun c => c <> 0) t ->
  scan_entry (acl_line x ++ t ++ [0]) = (Some (fst x), Some (swrap32 (flags (snd x)))) /\
  skipline (acl_line x ++ t ++ [0]) = Some (t ++ [0]).
Proof.
  intros Hx Ht. destruct Hx as (Hw & Hne & Hl) eqn:E. clear E. split.
  - unfold scan_entry. rewrite app_assoc, cstring_run
      by (apply Forall_app; split; [by apply line_chars|done]).
    unfold acl_line. rewrite <- !app_assoc. destruct (fst x) as [|c w] eqn:Ew; [done|].
    apply Forall_cons in Hw as Hcw. destruct Hcw as [[Hc _] _]. unfold scan_word.
    cbn [app]. rewrite skip_ws_no by done. 
    pose proof (word_run 63 (c :: w) (dec (swrap32 (flags (snd x))) ++ 10 :: t) Hw Hl) as Hr.
    cbn [app] in Hr. rewrite Hr, scan_int_space by done.
    by rewrite scan_int_dec by (apply swrap32_range || done).
  - unfold acl_line. rewrite <- !app_assoc. cbn [app].
    rewrite (app_assoc (fst x)), (app_assoc (fst x ++ _)) || idtac.
    replace (fst x ++ 32 :: dec (swrap32 (flags (snd x))) ++ 10 :: t ++ [0])
      with ((fst x ++ 32 :: dec (swrap32 (flags (snd x)))) ++ 10 :: t ++ [0]) by (by rewrite <- app_assoc).
    apply skipline_run. apply Forall_app. split.
    + eapply Forall_impl; [exact Hw|]. intros c [Hc _]. by apply space_not_newline.
    + constructor; [done|]. eapply Forall_impl; [apply dec_chars|]. by intros c [_ Hc].
Qed.

Lemma scan_lines_run l t : Forall line_ok l -> Forall (fun c => c <> 0) t ->
  scan_lines (length l) (concat (map acl_line l) ++ t ++ [0]) =
    Some (map (fun x => (Some (fst (scanned x)), Some (snd (scanned x)))) l, t ++ [0]).
Proof.
  induction l as [|x l IH]; intros Hl Ht; [done|]. apply Forall_cons in Hl as [Hx Hl].
  cbn [length scan_lines map concat]. rewrite <- app_assoc.
  destruct (scan_line_run x (concat (map acl_line l) ++ t) Hx) as [He Hs].
  { apply Forall_app. split; [by apply lines_chars|done]. }
  rewrite <- !app_assoc in He, Hs. rewrite He, Hs. cbn [mbind option_bind].
  rewrite (IH Hl Ht). done.
Qed.

Lemma wr_last t c : wr (t ++ [c]) (blen (t ++ [c]) - 1) [0] = Some (t ++ [0]).
Proof.
  rewrite blen_app. change (blen [c]) with 1. replace (blen t + 1 - 1) with (blen t) by lia.
  pose proof (blen_nonneg t). rewrite wr_in by (rewrite ?blen_app; change (blen [c]) with 1; change (blen [0]) with 1; lia).
  f_equal. unfold st. rewrite in_buf_true
    by (rewrite ?blen_app; change (blen [c]) with 1; change (blen [0]) with 1; lia).
  unfold blen. rewrite Nat2Z.id, take_app_length, drop_ge, app_nil_r; [done|].
  rewrite length_app. cbn. lia.
Qed.

Lemma number_int32 (n : nat) : (n <= 8)%nat -> is_int32 (Z.of_nat n).
Proof. unfold is_int32. lia. Qed.

(** The text of access lists of at most eight entries each, whose names
    have no spaces and at most 63 characters, is scanned as these entries, in
    whatever way the last byte of the opaque is overwritten. *)
Theorem acl_text_scan unset pos neg c : Forall line_ok pos -> Forall line_ok neg ->
  (length pos <= FS_MAX_ACL)%nat -> (length neg <= FS_MAX_ACL)%nat ->
  scan_acl unset (acl_text pos neg ++ [c]) =
    Some (Some (AclParse (map scanned pos) (map scanned neg))).
Proof.
  intros Hp Hn Lp Ln. unfold scan_acl. rewrite wr_last. cbn [mbind option_bind].
  set (t := concat (map acl_line pos) ++ concat (map acl_line neg)).
  assert (Ht : Forall (fun c => c <> 0) t) by (apply Forall_app; split; by apply lines_chars).
  set (a := dec (Z.of_nat (length pos))). set (b := dec (Z.of_nat (length neg))).
  assert (Htext : acl_text pos neg = a ++ [10] ++ b ++ [10] ++ t) by done. rewrite Htext.
  assert (Hc : cstring ((a ++ [10] ++ b ++ [10] ++ t) ++ [0]) = a ++ [10] ++ b ++ [10] ++ t).
  { apply cstring_run. repeat rewrite Forall_app. split_and!; try done; try by constructor.
    all: eapply Forall_impl; [apply dec_chars|]; by intros x [Hx _]. }
  rewrite Hc. pose proof (scan_int_dec (Z.of_nat (length pos)) ([10] ++ b ++ [10] ++ t)
    (number_int32 _ Lp) eq_refl) as Ha. fold a in Ha. rewrite Ha.
  pose proof (scan_int_dec (Z.of_nat (length neg)) ([10] ++ t) (number_int32 _ Ln) eq_refl) as Hb.
  fold b in Hb. rewrite scan_int_skip. change ([10] ++ b ++ [10] ++ t) with (10 :: b ++ [10] ++ t).
  rewrite scan_int_space, Hb by done.
  assert (Hda : Forall (fun c => c <> 10) a /\ Forall (fun c => c <> 10) b).
  { split; eapply Forall_impl; [apply dec_chars| |apply dec_chars|]; by intros x [_ Hx]. }
  rewrite <- !app_assoc. cbn [app]. rewrite skipline_run by apply Hda. cbn [mbind option_bind].
  rewrite <- !app_assoc. cbn [app]. rewrite skipline_run by apply Hda. cbn [mbind option_bind].
  rewrite !(proj2 (Z.ltb_ge _ _)) by (unfold FS_MAX_ACL in *; lia). cbn [orb].
  rewrite !Nat2Z.id. unfold t. rewrite <- app_assoc.
  rewrite scan_lines_run by (done || by apply lines_chars). cbn [mbind option_bind].
  pose proof (scan_lines_run neg [] Hn (Forall_nil_2 _)) as Hl. cbn [app] in Hl. rewrite Hl.
  cbn [mbind option_bind]. by rewrite !map_map.
Qed.

(** ** Texts that the code does not get through *)

(** A text of less than 1023 bytes, as nearly all are, is answered by a store
    outside of it. *)
Theorem acl_opaque_overflows text : blen text < AFSOPAQUEMAX - 1 -> acl_opaque text = None.
Proof.
  intros Hl. unfold acl_opaque, wr, in_buf. rewrite blen_app. change (blen [0]) with 1.
  rewrite Z.max_r by lia. change (blen [0]) with 1.
  by rewrite (proj2 (Z.leb_gt _ (blen text + 1))), andb_false_r by lia.
Qed.

(** Nine positive entries overflow the array [acl]; a text without numbers is
    accepted; one without the lines it announces is read past its end. *)
Example acl_nine : scan_acl [] (dec 9 ++ [10; 48; 10] ++
  concat (replicate 9 [117; 32; 49; 10]) ++ [0]) = None.
Proof. reflexivity. Qed.
Example acl_no_numbers : scan_acl [] [120; 10; 0] = Some None.
Proof. reflexivity. Qed.
Example acl_no_lines : scan_acl [] [49; 10; 48; 10; 117; 0] = None.
Proof. reflexivity. Qed.
