(* ===== verification/FsRun.v ===== *)
(** * Running the procedures of the file server

    The shared parts of the procedures as runs: opening a vnode with the check
    of the caller's rights, finding and freeing the volume.  A procedure that
    only reads changes the cache of nodes, the position of the volume in the
    list of open databases and the promises, and nothing else of the server. *)

From S2P Require Import Prelude Items Estate Buf Fdir Vnum Mdir Voldb VoldbRep Vrights VrightsCorrect.
From S2P Require Import Svol SvolCorrect Mnode MnodeCorrect Vinfo Vld VldCorrect Vtab VtabCorrect.
From S2P Require Import Vtrans VtransCorrect Rxcopy Fsacl Connsec Fsprocs.

Local Open Scope em_scope.

(** ** One volume and the cache *)

Definition with_cache (c : mstate) (s : fserver) : fserver := set_fvt (set_vcache c (fvt s)) s.
(** The volume with the handle [h] as [Vld] has it. *)
Definition view (h : volume_handle) (s : fserver) : lstate := volume_view h (vcache (fvt s)).

Lemma with_cache_twice c1 c2 s : with_cache c2 (with_cache c1 s) = with_cache c2 s.
Proof. done. Qed.
Lemma with_cache_id s : with_cache (vcache (fvt s)) s = s.
Proof. by destruct s as [[] ? ? ?]. Qed.

Lemma same_volume_lm s s' : same_volume s s' -> s' = set_lm (lm s') s.
Proof.
  destruct s, s'. unfold same_volume, set_lm. cbn. intros (-> & -> & -> & -> & -> & -> & -> & ->). done.
Qed.
Lemma view_with_cache h l s : same_volume (view h s) l -> view h (with_cache (lm l) s) = l.
Proof. intros Hv. by rewrite (same_volume_lm _ _ Hv). Qed.
Lemma volume_back_same h c l : same_volume (volume_view h c) l -> volume_back l h = h.
Proof.
  destruct h, l. unfold same_volume. cbn. intros (-> & -> & -> & -> & -> & -> & -> & ->). done.
Qed.

Lemma on_cache_run {A} (m : MM A) h s l r :
  on_mn m (view h s) = Some (l, r) -> on_cache m s = Some (with_cache (lm l) s, r).
Proof.
  unfold on_mn, on_cache, on_vt, vt_on_mn, elift, view. cbn [lm volume_view].
  destruct (m (vcache (fvt s))) as [[c x]|]; [|done]. by intros [= <- <-].
Qed.
Lemma on_vol_run {A} p (m : LM A) h s l r :
  handles (fvt s) !! p = Some h -> m (view h s) = Some (l, r) -> same_volume (view h s) l ->
  on_vol p m s = Some (with_cache (lm l) s, r).
Proof.
  intros Hp Hm Hv. unfold on_vol, on_vt, elift, on_volume. rewrite Hp. cbn [mbind option_bind].
  unfold view in Hm, Hv. rewrite Hm. cbn [mbind option_bind].
  rewrite (volume_back_same _ _ _ Hv), insert_id by done. by destruct s as [[] ? ? ?].
Qed.
Lemma handle_fs_run p h s : handles (fvt s) !! p = Some h -> on_vt (handle p) s = Some (s, inr h).
Proof.
  intros Hp. unfold on_vt. rewrite (elift_run _ _ _ _ _ _ (handle_run _ _ _ Hp)). by destruct s.
Qed.

(** The fids of the cache are those of before and those of [l]. *)
Definition cache_fids (l : list AFSFid) (c c' : mstate) : Prop := forall q m, nodes c' !! q = Some m ->
  mfid m ∈ l \/ exists q0 m0, nodes c !! q0 = Some m0 /\ mfid m0 = mfid m.
Lemma cache_fids_refl l c : cache_fids l c c.
Proof. intros q m Hm. right. by eauto. Qed.
Lemma cache_fids_trans l1 l2 l c1 c2 c3 : cache_fids l1 c1 c2 -> cache_fids l2 c2 c3 -> l1 ⊆ l -> l2 ⊆ l ->
  cache_fids l c1 c3.
Proof.
  intros H1 H2 S1 S2 q m Hm. destruct (H2 q m Hm) as [?|(q0 & m0 & Hm0 & <-)]; [by left; apply S2|].
  destruct (H1 q0 m0 Hm0) as [?|?]; [by left; apply S1|by right].
Qed.

(** Two nodes that nobody holds. *)
Definition spare (held : list Z) (c : mstate) : Prop :=
  exists q1 q2, q1 <> q2 /\ q1 ∈ lru c /\ q2 ∈ lru c /\ (q1 ∉ held) /\ (q2 ∉ held).
Lemma spare_one held c : spare held c -> exists q, q ∈ lru c /\ (q ∉ held).
Proof. intros (q & _ & _ & ? & _ & ? & _). by exists q. Qed.
Lemma spare_next num held dead miss miss' c c' q : spare held c ->
  minv num c held dead miss -> minv num c' (q :: held) dead miss' ->
  exists q', q' ∈ lru c' /\ (q' ∉ q :: held).
Proof.
  intros (q1 & q2 & Hne & H1 & H2 & N1 & N2) Hi Hi'.
  rewrite (mi_perm _ _ _ _ _ Hi) in H1, H2. setoid_rewrite (mi_perm _ _ _ _ _ Hi').
  destruct (decide (q1 = q)) as [->|].
  - exists q2. rewrite not_elem_of_cons. auto.
  - exists q1. rewrite not_elem_of_cons. auto.
Qed.

(** ** Opening a vnode *)

Section Nodes.
Context `{OnodeCoder} `{HostChoice} (fresh : Z * mnode) (fstat_errno : Z -> Z).
Context (num : nat) (dead : list AFSFid) (vol : Z) (h : volume_handle).

(** The cache is in order and agrees with the databases of the volume. *)
Record agrees (held : list Z) (s : fserver) : Prop := {
  ag_inv : exists miss, minv num (vcache (fvt s)) held dead miss;
  ag_coherent : coherent dead (view h s);
  ag_handle : handles (fvt s) !! vol = Some h
}.

(** A run that changes the cache only and leaves it in order. *)
Definition cache_step {A} (m : FM A) (s : fserver) (held : list Z) (r : Z + A) (l : list AFSFid)
    (P : mstate -> Prop) : Prop :=
  exists c, m s = Some (with_cache c s, r) /\ agrees held (with_cache c s) /\
    cache_fids l (vcache (fvt s)) c /\ P c.

Lemma agrees_view held s l miss : handles (fvt s) !! vol = Some h -> same_volume (view h s) l ->
  minv num (lm l) held dead miss -> coherent dead l -> agrees held (with_cache (lm l) s).
Proof.
  intros Hp Hv Hi Hc. split; [by exists miss| |done]. by rewrite view_with_cache.
Qed.

Lemma free_node_run held s p bad : agrees (p :: held) s ->
  cache_step (free_node p bad) s held (inr tt) [] (fun _ => True).
Proof.
  intros [[miss Hi] Hc Hp]. destruct (free_step num (view h s) held dead miss p bad Hi Hc)
    as (l & _ & _ & Hr & Hi' & Hc' & Hv & _ & _ & _ & Hw). exists (lm l).
  split; [exact (on_cache_run _ h s l _ Hr)|]. split; [by eapply agrees_view|]. split; [exact Hw|done].
Qed.

Lemma find_node_run held s f : agrees held s -> f ∉ dead -> spare held (vcache (fvt s)) ->
  exists p n, cache_step (on_cache (mnode_find fresh f)) s (p :: held) (inr p) [f]
    (fun c => nodes c !! p = Some n /\ mfid n = f).
Proof.
  intros [[miss Hi] Hc Hp] Hd Hs.
  destruct (find_step num fresh (view h s) held dead miss f Hi Hc Hd) as
    (l & q & n & miss' & Hr & Hi' & Hc' & Hv & Hns & Hf & _); [right; by apply spare_one|].
  exists q, n, (lm l). split; [exact (on_cache_run _ h s l _ Hr)|].
  split; [by eapply agrees_view|]. rewrite Hns, lookup_insert_eq. split; [|done].
  intros q' m. rewrite Hns. destruct (decide (q' = q)) as [->|].
  - rewrite lookup_insert_eq. intros [= <-]. left. rewrite Hf. left.
  - rewrite lookup_insert_ne by done. right. by eauto.
Qed.

(** The entry [x] of [f], whose rights are those of the directory entry [d]. *)
Definition parent_of (f : AFSFid) (x : voldb_entry) : AFSFid :=
  Build_AFSFid (Volume f) (ParentVnode (fent x)) (ParentUnique (fent x)).
Definition parents (f : AFSFid) (x : voldb_entry) : list AFSFid :=
  if type x =? TYPE_DIR then [] else [parent_of f x].
Definition rights_from (l : lstate) (f : AFSFid) (x : voldb_entry) (d : voldb_dir_entry) : Prop :=
  if type x =? TYPE_DIR then x = Entry TYPE_DIR (u_dir d) else
  parent_of f x <> f /\ (parent_of f x ∉ dead) /\ db_entry l (parent_of f x) = Some (Entry TYPE_DIR (u_dir d)).
Record vnode_is (l : lstate) (f : AFSFid) (x : voldb_entry) (d : voldb_dir_entry) : Prop := {
  vn_volume : Volume f = lvol l;
  vn_alive : f ∉ dead;
  vn_entry : db_entry l f = Some x;
  vn_typed : typed x;
  vn_file : onode_wf (ino (fent x));
  vn_rights : rights_from l f x d;
  vn_lists : onode_wf (ino (dfile d))
}.
Lemma vnode_is_same l l' f x d : same_volume l l' -> vnode_is l f x d -> vnode_is l' f x d.
Proof.
  intros Hv [H1 H2 H3 H4 H5 H6 H7]. split; try done.
  - rewrite H1. symmetry. apply Hv.
  - by rewrite (db_entry_same l l').
  - unfold rights_from in *. destruct (type x =? TYPE_DIR); [done|]. by rewrite (db_entry_same l l').
Qed.

(** The open node of [f]: its status is that of the entry. *)
Definition node_open (s : fserver) (f : AFSFid) (x : voldb_entry) (n : mnode) : Prop :=
  mfid n = f /\ e n = x /\ ep n = true /\ fsp n = true /\ fdp n = true /\ sbp n = true /\
  status_of (view h s) x (fs n).

Lemma open_node_run held s p n f x d flags : agrees (p :: held) s -> nodes (vcache (fvt s)) !! p = Some n ->
  mfid n = f -> vnode_is (view h s) f x d -> Z.land flags VOLOP_GETSTATUS = VOLOP_GETSTATUS ->
  exists r n', cache_step (on_vol vol (vld_open_vnode fstat_errno p flags)) s (p :: held) r []
    (fun c => nodes c !! p = Some n' /\ (r = inr tt -> node_open s f x n')).
Proof.
  intros [[miss Hi] Hc Hp] Hn Hf [V1 V2 V3 V4 V5 V6 V7] Hfl. subst f.
  pose proof (Hc p n Hn V1 V2) as Hsh.
  destruct (open_vnode_step fstat_errno (view h s) p flags n x Hn V3 V4 V5) as
    (hh & r & n' & Hr & Hk & Hep & He & Hres & Hst).
  { intros Hep. rewrite (proj1 Hsh Hep) in V3. by injection V3. }
  set (l := with_node p n' hh (view h s)) in *. exists r, n', (lm l).
  assert (Hv : same_volume (view h s) l) by apply same_volume_set_lm.
  assert (Hc' : coherent dead l).
  { apply (coherent_change dead (view h s) l p n'); [done..|]. intros _ _. by eapply shown_opened. }
  split; [exact (on_vol_run _ _ _ _ _ _ Hp Hr Hv)|]. split.
  { apply (agrees_view _ _ _ miss Hp Hv); [|done]. by eapply minv_with_node. }
  split.
  { apply (new_fids_insert [] (view h s) l p n'); [done|]. right. exists n. split; [done|apply Hk]. }
  split; [apply with_node_lookup|]. intros ->. destruct (Hres eq_refl Hfl) as [Hfs Hfd].
  unfold node_open. destruct Hk as (Hk & _). split_and!; try done.
  - destruct (Hst Hfs) as [(_ & Hn0 & ->)|[_ ?]]; [|done]. by destruct (proj2 Hsh Hn0).
  - destruct (Hst Hfs) as [(-> & Hn0 & _)|[? _]]; [|done]. destruct (proj2 Hsh Hn0) as (_ & y & Hy & ?). congruence.
Qed.

Lemma parent_of_node n f x l : mfid n = f -> status_of l x (fs n) -> parent_fid n = parent_of f x.
Proof. intros <- (f0 & len & E). unfold parent_fid. by rewrite E. Qed.

Lemma rights_run held s p n f x d m sc ids : agrees (p :: held) s -> nodes (vcache (fvt s)) !! p = Some n ->
  node_open s f x n -> vnode_is (view h s) f x d ->
  (exists q, q ∈ lru (vcache (fvt s)) /\ (q ∉ p :: held)) ->
  loop m <= 1 -> sec m = Some sc -> cps sc = Some ids ->
  exists r, cache_step (on_vol vol (vld_check_rights fresh fstat_errno p m)) s (p :: held) r (parents f x)
    (fun c => nodes c !! p = Some n /\
       forall m', r = inr m' -> check_dir_rights d ids m (superuser sc) = (m', 0)).
Proof.
  intros [[miss Hi] Hc Hp] Hn (Hf & He & Hep & Hfs & Hfd & Hsb & Hst) [V1 V2 V3 V4 V5 V6 V7] Hroom Hl Hsec Hcps.
  pose proof (parent_of_node _ _ _ _ Hf Hst) as Epar. subst f x.
  destruct (check_rights_run fresh fstat_errno num (view h s) (p :: held) dead miss p n Hi Hc
    (list_elem_of_here _ _) Hn V1 m sc ids d Hep Hfs Hl Hsec Hcps) as (l & r & miss' & Hr & Hi' & Hc' & Hv & Hn' & Hw & Hres).
  - unfold governing. unfold rights_from in V6. destruct (type (e n) =? TYPE_DIR); [by rewrite V6|].
    rewrite Epar. apply V6.
  - done.
  - intros Ht. unfold rights_from in V6. rewrite (proj2 (Z.eqb_neq _ _) Ht) in V6.
    rewrite Epar. destruct V6 as (? & ? & ?). split_and!; [done|done|by right].
  - exists r, (lm l). split; [exact (on_vol_run _ _ _ _ _ _ Hp Hr Hv)|].
    split; [by eapply agrees_view|]. split; [by rewrite Epar in Hw|]. split; [done|]. intros m' ->.
    destruct Hres as [Hres|[_ [=]]]. destruct (check_dir_rights d ids m (superuser sc)) as [m2 e2].
    destruct (Z.eqb_spec e2 0) as [E|]; [|done]. injection Hres as ->. by rewrite E.
Qed.
End Nodes.

(** ** A request *)

Section Requests.
Context `{OnodeCoder} `{HostChoice} `{InfoCoder} (fresh : Z * mnode) (fstat_errno : Z -> Z) (dbos : Z -> list Z).
Context (num : nat) (dead : list AFSFid) (vol : Z).

Lemma open_checked_run h held s f x d m sc ids : agrees num dead vol h held s ->
  spare held (vcache (fvt s)) -> vnode_is dead (view h s) f x d ->
  Z.land (mflags m) VOLOP_GETSTATUS = VOLOP_GETSTATUS -> loop m <= 1 -> sec m = Some sc -> cps sc = Some ids ->
  exists r held', cache_step num dead vol h (fs_open_node fresh fstat_errno f vol m) s held' r (f :: parents f x) (fun c =>
    match r with
    | inl _ => held' = held
    | inr (p, m') => held' = p :: held /\ check_dir_rights d ids m (superuser sc) = (m', 0) /\
        exists n, nodes c !! p = Some n /\ node_open h s f x n
    end).
Proof.
  intros Ha Hsp Hv Hfl Hl Hsec Hcps. pose proof (ag_inv _ _ _ _ _ _ Ha) as [miss0 Hi0].
  destruct (find_node_run fresh num dead vol h held s f Ha (vn_alive _ _ _ _ _ Hv) Hsp)
    as (p & n & c1 & Hr1 & Ha1 & W1 & Hn1 & Hf1).
  assert (Hv1 : vnode_is dead (view h (with_cache c1 s)) f x d)
    by (eapply vnode_is_same; [|exact Hv]; apply same_volume_set_lm).
  destruct (ag_inv _ _ _ _ _ _ Ha1) as [miss1 Hi1]. pose proof (spare_next _ _ _ _ _ _ _ _ Hsp Hi0 Hi1) as Hq1.
  destruct (open_node_run fstat_errno num dead vol h held _ p n f x d (mflags m) Ha1 Hn1 Hf1 Hv1 Hfl)
    as (r2 & n2 & c2 & Hr2 & Ha2 & W2 & Hn2 & Ho2).
  rewrite with_cache_twice in Hr2, Ha2.
  set (k := m' <-- eonerr (on_vol vol (vld_open_vnode fstat_errno p (mflags m)) ;;!
    on_vol vol (vld_check_rights fresh fstat_errno p m)) (free_node p false) ;; eret (p, m')).
  assert (E : fs_open_node fresh fstat_errno f vol m s = k (with_cache c1 s))
    by (unfold fs_open_node; by lrun Hr1).
  assert (Hend : forall e c, (on_vol vol (vld_open_vnode fstat_errno p (mflags m)) ;;!
      on_vol vol (vld_check_rights fresh fstat_errno p m)) (with_cache c1 s) = Some (with_cache c s, inl e) ->
    agrees num dead vol h (p :: held) (with_cache c s) -> cache_fids (f :: parents f x) (vcache (fvt s)) c ->
    exists c', fs_open_node fresh fstat_errno f vol m s = Some (with_cache c' s, inl e) /\ agrees num dead vol h held (with_cache c' s) /\
      cache_fids (f :: parents f x) (vcache (fvt s)) c').
  { intros e0 c Hr Ha0 W. destruct (free_node_run num dead vol h held _ p false Ha0) as (c' & Hr' & Ha' & W' & _).
    exists c'. rewrite E. unfold k. rewrite (ebind_err _ _ _ _ _ (eonerr_err _ _ _ _ _ _ _ Hr Hr')). split_and!; [done..|].
    apply (cache_fids_trans (f :: parents f x) [] _ _ c); try done. set_solver. }
  assert (W12 : cache_fids (f :: parents f x) (vcache (fvt s)) c2)
    by (apply (cache_fids_trans [f] [] _ _ c1); [exact W1|exact W2|set_solver..]).
  destruct r2 as [e2|[]].
  { destruct (Hend e2 c2) as (c' & Hr & Ha' & W'); [by rewrite (ebind_err _ _ _ _ _ Hr2)|done|done|].
    exists (inl e2), held, c'. done. }
  assert (Hq2 : exists q, q ∈ lru c2 /\ (q ∉ p :: held)).
  { destruct (ag_inv _ _ _ _ _ _ Ha2) as [miss2 Hi2]. destruct Hq1 as (q & Hq & ?). exists q. split; [|done].
    rewrite (mi_perm _ _ _ _ _ Hi1) in Hq. by rewrite (mi_perm _ _ _ _ _ Hi2). }
  destruct (rights_run fresh fstat_errno num dead vol h held (with_cache c2 s) p n2 f x d m sc ids Ha2 Hn2 (Ho2 eq_refl))
    as (r3 & c3 & Hr3 & Ha3 & W3 & Hn3 & Hres); [|exact Hq2|done..|].
  { eapply vnode_is_same; [|exact Hv]; apply same_volume_set_lm. }
  rewrite with_cache_twice in Hr3, Ha3.
  assert (W13 : cache_fids (f :: parents f x) (vcache (fvt s)) c3)
    by (apply (cache_fids_trans (f :: parents f x) (parents f x) _ _ c2); [exact W12|exact W3|set_solver..]).
  destruct r3 as [e3|m'].
  - destruct (Hend e3 c3) as (c' & Hr & Ha' & W'); [by lrun Hr2|done|done|]. exists (inl e3), held, c'. done.
  - exists (inr (p, m')), (p :: held), c3. split.
    { rewrite E. unfold k. erewrite ebind_ok; [|apply eonerr_ok; lrun Hr2; exact Hr3]. done. }
    split; [exact Ha3|]. split; [exact W13|]. split; [done|]. split; [by apply Hres|]. exists n2. split; [exact Hn3|exact (Ho2 eq_refl)].
Qed.

(** *** The volume *)

Lemma uwrap32_swrap32_id z : 0 <= z < 2 ^ 32 -> uwrap32 (swrap32 z) = z.
Proof.
  intros Hz. unfold uwrap32, swrap32. destruct (decide (z < 2 ^ 31)).
  - rewrite (Z.mod_small (z + 2 ^ 31)) by lia. rewrite Z.mod_small; lia.
  - rewrite <- (Z.mod_unique (z + 2 ^ 31) (2 ^ 32) 1 (z - 2 ^ 31)) by lia.
    rewrite <- (Z.mod_unique (z - 2 ^ 31 - 2 ^ 31) (2 ^ 32) (-1) z) by lia. done.
Qed.


(** The handle with [k] references more and its place in the list. *)
Definition in_hand (k : Z) (li : option Z) (h : volume_handle) : volume_handle :=
  set_h_db_li li (set_h_ref (h_ref h + k) h).
Lemma in_hand_view k li h s : view (in_hand k li h) s = view h s.
Proof. unfold view, in_hand. by destruct h. Qed.
Lemma in_hand_id h : in_hand 0 (h_db_li h) h = h.
Proof. unfold in_hand. rewrite Z.add_0_r. by destruct h. Qed.
Lemma in_hand_fields k li h : h_ref (in_hand k li h) = h_ref h + k /\ h_vol (in_hand k li h) = h_vol h /\
  h_voldbp (in_hand k li h) = h_voldbp h /\ h_dir (in_hand k li h) = h_dir h /\
  h_file (in_hand k li h) = h_file h /\ h_db_li (in_hand k li h) = li /\ h_infop (in_hand k li h) = h_infop h /\
  h_info (in_hand k li h) = h_info h.
Proof. by destruct h. Qed.
Lemma in_hand_twice j k li li' h : in_hand j li' (in_hand k li h) = in_hand (k + j) li' h.
Proof. destruct h. unfold in_hand. cbn. f_equal. lia. Qed.

(** What a request does to the table: the handle of the volume changes. *)
Record volume_step (h' : volume_handle) (s s' : fserver) : Prop := {
  vs_table : vtab_ok (fvt s');
  vs_handles : handles (fvt s') = <[vol := h']> (handles (fvt s));
  vs_htab : volume_htab (fvt s') = volume_htab (fvt s);
  vs_trans : ftrans s' = ftrans s;
  vs_data : fdata s' = fdata s
}.
Lemma vtab_ok_cache c t : vtab_ok t -> vtab_ok (set_vcache c t).
Proof. intros []. by split. Qed.
Lemma volume_step_cache h' s s' c : volume_step h' s s' -> volume_step h' s (with_cache c s').
Proof. intros []. split; try done. by apply vtab_ok_cache. Qed.
Lemma volume_step_trans h1 h2 s s1 s2 : volume_step h1 s s1 -> volume_step h2 s1 s2 -> volume_step h2 s s2.
Proof.
  intros [A1 A2 A3 A4 A5] [B1 B2 B3 B4 B5]. split; try congruence. by rewrite B2, A2, insert_insert_eq.
Qed.
Lemma volume_step_handle h' s s' : volume_step h' s s' -> handles (fvt s') !! vol = Some h'.
Proof. intros [_ -> _ _ _]. apply lookup_insert_eq. Qed.
Lemma volume_step_refl h s : vtab_ok (fvt s) -> handles (fvt s) !! vol = Some h -> volume_step h s s.
Proof. intros. split; try done. by rewrite insert_id. Qed.

Lemma agrees_step h k li held s s' : agrees num dead vol h held s -> volume_step (in_hand k li h) s s' ->
  vcache (fvt s') = vcache (fvt s) -> agrees num dead vol (in_hand k li h) held s'.
Proof.
  intros [[miss Hi] Hc Hp] Hs Ec. split; [exists miss; by rewrite Ec| |by eapply volume_step_handle].
  rewrite in_hand_view. unfold view. rewrite Ec. exact Hc.
Qed.
Lemma info_ready_run h s : handles (fvt s) !! vol = Some h -> h_infop h = true ->
  on_vol vol (on_info vld_info_uptodatep) s = Some (s, inr tt).
Proof.
  intros Hp Hi. rewrite <- (with_cache_id s) at 2.
  apply (on_vol_run _ _ h s (view h s)); [done| |by split_and!].
  unfold on_info, elift, vld_info_uptodatep. rewrite ebind_get.
  change (infop (linfos (view h s))) with (h_infop h). rewrite Hi. unfold view.
  by destruct h, (vcache (fvt s)).
Qed.

(** The last but the first reference is given back. *)
Lemma free_vol_run k li h s : vtab_ok (fvt s) -> handles (fvt s) !! vol = Some (in_hand k li h) ->
  2 <= h_ref h + k ->
  exists s', free_vol vol s = Some (s', inr tt) /\ volume_step (in_hand (k - 1) li h) s s' /\
    vcache (fvt s') = vcache (fvt s) /\ fropa s' = fropa s.
Proof.
  intros Hok Hp Hr. set (h1 := in_hand k li h). pose proof (in_hand_fields k li h) as (E1 & _). fold h1 in E1, Hp.
  assert (E : set_h_ref (h_ref h1 - 1) h1 = in_hand (k - 1) li h).
  { unfold h1, in_hand. destruct h. cbn. f_equal. lia. }
  eexists. unfold free_vol, on_vt. rewrite (elift_run _ _ _ _ _ _ (vld_free_run (fvt s) vol h1 Hp ltac:(lia))).
  split; [reflexivity|]. rewrite E. split; [|done]. split; try done.
  apply (vtab_ok_handle _ _ h1); try done; unfold h1; destruct h; try done. cbn in *. lia.
Qed.
Lemma find_vol_run f h s : vtab_ok (fvt s) -> volume_htab (fvt s) !! Volume f = Some vol ->
  0 <= Volume f < 2 ^ 32 -> handles (fvt s) !! vol = Some h ->
  exists s', on_vt (vld_find_vol (swrap32 (Volume f))) s = Some (s', inr vol) /\
    volume_step (in_hand 1 (h_db_li h) h) s s' /\ vcache (fvt s') = vcache (fvt s) /\ fropa s' = fropa s /\
    1 <= h_ref h.
Proof.
  intros Hok Ht Hf Hp. destruct (vt_table _ Hok _ _ Ht) as (h0 & Hh0 & _ & Hr).
  rewrite Hp in Hh0. injection Hh0 as <-.
  assert (Hu : uwrap32 (swrap32 (Volume f)) = Volume f) by (apply uwrap32_swrap32_id; lia).
  assert (E : set_h_ref (h_ref h + 1) h = in_hand 1 (h_db_li h) h) by (by destruct h).
  eexists. unfold on_vt. erewrite elift_run; [|apply (vld_find_vol_run (fvt s) _ vol h); [by rewrite Hu|done..]].
  split; [reflexivity|]. rewrite E. split; [|done]. split; try done.
  apply (vtab_ok_handle _ _ h); try done; destruct h; try done. cbn in *. lia.
Qed.
Lemma db_open_run h i s : vtab_ok (fvt s) -> handles (fvt s) !! vol = Some h -> h_db_li h = Some i ->
  exists s' j, on_vt (vld_db_uptodate dbos vol) s = Some (s', inr tt) /\
    volume_step (in_hand 0 (Some j) h) s s' /\ vcache (fvt s') = vcache (fvt s) /\ fropa s' = fropa s.
Proof.
  intros Hok Hp Hi. destruct (uptodate_open_run dbos (fvt s) vol h i Hok Hp Hi) as (l1 & l2 & El & Hr).
  exists (set_fvt (touched vol h (l1 ++ l2) (fvt s)) s), (nextitem (fvt s)).
  unfold on_vt. rewrite (elift_run _ _ _ _ _ _ Hr). split; [done|].
  assert (E : set_h_db_li (Some (nextitem (fvt s))) h = in_hand 0 (Some (nextitem (fvt s))) h)
    by (unfold in_hand; rewrite Z.add_0_r; by destruct h).
  split; [|done]. split; try done; [by apply (touched_ok _ _ _ i)|]. unfold touched. by rewrite E.
Qed.

(** *** The whole request *)

(** A volume in the table with its databases open, and a vnode of it. *)
Record request (h : volume_handle) (held : list Z) (s : fserver) (f : AFSFid) (x : voldb_entry)
    (d : voldb_dir_entry) : Prop := {
  rq_trans : exists ht, tinv (ftrans s) ht;
  rq_table : vtab_ok (fvt s);
  rq_volume : volume_htab (fvt s) !! Volume f = Some vol;
  rq_number : 0 <= Volume f < 2 ^ 32;
  rq_info : h_infop h = true;
  rq_open : is_Some (h_db_li h);
  rq_cache : agrees num dead vol h held s;
  rq_spare : spare held (vcache (fvt s));
  rq_vnode : vnode_is dead (view h s) f x d
}.
(** The answer of a request that is refused before the vnode is looked at. *)
Definition refusal (h : volume_handle) (s : fserver) (f : AFSFid) (flags : Z) : option Z :=
  match vld_check_busy (swrap32 (Volume f)) (-1) (ftrans s) with
  | Some (_, inl e) => Some e
  | _ => if h_offlinep h then Some (offline_error h)
         else if negb (vi_type (h_info h) =? RWVOL) && negb (Z.land flags VOLOP_MODIFY =? 0)
         then Some EROFS else None
  end.

Lemma init_vol_run h held s f x d flags : request h held s f x d ->
  exists s' j, vcache (fvt s') = vcache (fvt s) /\ fropa s' = fropa s /\
    match refusal h s f flags with
    | Some e => fs_init_vol dbos f flags true s = Some (s', inl e) /\ volume_step (in_hand 0 (Some j) h) s s'
    | None => fs_init_vol dbos f flags true s = Some (s', inr vol) /\ volume_step (in_hand 1 (Some j) h) s s'
    end.
Proof.
  intros [[ht Ht] Hok Hv Hn Hi [i Hl] [_ _ Hp] _ _]. unfold refusal, fs_init_vol.
  assert (Hsame : volume_step (in_hand 0 (Some i) h) s s)
    by (rewrite <- Hl, in_hand_id; by apply volume_step_refl).
  destruct (find_busy_run (ftrans s) ht (swrap32 (Volume f)) (-1) Ht) as [(k & y & Hb & _)|[Hb _]]; rewrite Hb; unfold on_trans.
  { exists s, i. split_and!; try done. erewrite ebind_err; [|by rewrite (elift_run _ _ _ _ _ _ Hb)]. by destruct s. }
  assert (Hb' : elift ftrans set_ftrans (vld_check_busy (swrap32 (Volume f)) (-1)) s = Some (s, inr tt))
    by (rewrite (elift_run _ _ _ _ _ _ Hb); by destruct s).
  lrun Hb'. destruct (find_vol_run f h s Hok Hv Hn Hp) as (s1 & Hr1 & Hs1 & Ec1 & Er1 & Href). lrun Hr1.
  pose proof (volume_step_handle _ _ _ Hs1) as Hp1. rewrite Hl in Hs1, Hp1. set (h1 := in_hand 1 (Some i) h) in *.
  destruct (free_vol_run 1 (Some i) h s1 (vs_table _ _ _ Hs1) Hp1 ltac:(lia)) as (s0 & Hr0 & Hs0 & Ec0 & Er0).
  assert (Hback : volume_step (in_hand 0 (Some i) h) s s0) by (by eapply volume_step_trans).
  assert (Hfail : forall e, init_volume dbos flags true vol s1 = Some (s1, inl e) ->
    (eonerr (init_volume dbos flags true vol) (free_vol vol) ;;! eret vol) s1 = Some (s0, inl e)).
  { intros e Hr. by rewrite (ebind_err _ _ _ _ _ (eonerr_err _ _ _ _ _ _ _ Hr Hr0)). }
  assert (Hf1 : h_offlinep h1 = h_offlinep h /\ offline_error h1 = offline_error h) by (by destruct h).
  destruct Hf1 as [Eo Ee]. destruct (in_hand_fields 1 (Some i) h) as (_ & _ & _ & _ & _ & Hl1 & Ei & Ef).
  fold h1 in Hl1, Ei, Ef.
  destruct (h_offlinep h) eqn:Hoff.
  { exists s0, i. rewrite Ec0, Er0. split_and!; try done. apply Hfail. unfold init_volume.
    lrun (handle_fs_run _ _ _ Hp1). by rewrite Eo, Ee. }
  assert (Hinit : init_volume dbos flags true vol s1 =
    (if negb (vi_type (h_info h) =? RWVOL) && negb (Z.land flags VOLOP_MODIFY =? 0) then efail EROFS
     else on_vt (vld_db_uptodate dbos vol)) s1).
  { unfold init_volume. lrun (handle_fs_run _ _ _ Hp1). rewrite Eo. cbn [andb].
    lrun (info_ready_run h1 s1 Hp1 ltac:(congruence)). lrun (handle_fs_run _ _ _ Hp1). by rewrite Ef. }
  destruct (negb (vi_type (h_info h) =? RWVOL) && negb (Z.land flags VOLOP_MODIFY =? 0)).
  { exists s0, i. rewrite Ec0, Er0. split_and!; try done. apply Hfail. by rewrite Hinit. }
  destruct (db_open_run h1 i s1 (vs_table _ _ _ Hs1) Hp1 Hl1) as (s2 & j & Hr2 & Hs2 & Ec2 & Er2).
  exists s2, j. rewrite Ec2, Er2. split_and!; try done.
  - rewrite <- Hinit in Hr2. erewrite ebind_ok; [|by apply eonerr_ok]. done.
  - unfold h1 in Hs2. rewrite in_hand_twice in Hs2. exact (volume_step_trans _ _ _ _ _ Hs1 Hs2).
Qed.

Lemma request_has_ref h held s f x d : request h held s f x d -> 1 <= h_ref h.
Proof.
  intros Hq. destruct (vt_table _ (rq_table _ _ _ _ _ _ Hq) _ _ (rq_volume _ _ _ _ _ _ Hq)) as (h0 & Hh0 & _ & ?).
  rewrite (ag_handle _ _ _ _ _ _ (rq_cache _ _ _ _ _ _ Hq)) in Hh0. congruence.
Qed.

(** What [fs_init_req] leaves: an open node and a reference to the volume when
    it succeeds, the references of before when it does not. *)
Definition request_made (h : volume_handle) (held : list Z) (s : fserver) (f : AFSFid) (x : voldb_entry)
    (d : voldb_dir_entry) (flags : Z) (call : rx_call) (ids : list Z) (s' : fserver) (r : Z + Z * Z * msec) : Prop :=
  fropa s' = fropa s /\ cache_fids (f :: parents f x) (vcache (fvt s)) (vcache (fvt s')) /\ exists j,
  match r with
  | inl _ => volume_step (in_hand 0 (Some j) h) s s' /\ agrees num dead vol (in_hand 0 (Some j) h) held s'
  | inr (v, p, m) =>
      v = vol /\ refusal h s f flags = None /\
      check_dir_rights d ids (fs_init_msec call flags) (superuser (call_sec call)) = (m, 0) /\
      volume_step (in_hand 1 (Some j) h) s s' /\ agrees num dead vol (in_hand 1 (Some j) h) (p :: held) s' /\
      exists n, nodes (vcache (fvt s')) !! p = Some n /\ node_open h s f x n
  end.

Lemma init_req_run h held s f x d flags call ids : request h held s f x d ->
  Z.land flags VOLOP_GETSTATUS = VOLOP_GETSTATUS -> cps (call_sec call) = Some ids ->
  exists s' r, fs_init_req fresh fstat_errno dbos f flags call s = Some (s', r) /\
    request_made h held s f x d flags call ids s' r /\
    (forall e, refusal h s f flags = Some e -> r = inl e).
Proof.
  intros Hq Hfl Hcps. destruct (init_vol_run h held s f x d flags Hq) as (s1 & j & Ec1 & Er1 & Hr1).
  pose proof (request_has_ref _ _ _ _ _ _ Hq) as Href. destruct Hq as [_ _ _ _ _ _ Ha Hsp Hvn].
  unfold fs_init_req, request_made. destruct (refusal h s f flags) as [e|].
  { destruct Hr1 as [Hr1 Hs1]. exists s1, (inl e). rewrite (ebind_err _ _ _ _ _ Hr1).
    split_and!; [done|done|rewrite Ec1; apply cache_fids_refl| |congruence].
    exists j. split; [done|]. by eapply agrees_step. }
  destruct Hr1 as [Hr1 Hs1]. lrun Hr1. set (h1 := in_hand 1 (Some j) h) in *.
  assert (Ha1 : agrees num dead vol h1 held s1) by (by eapply agrees_step).
  assert (Ev1 : view h1 s1 = view h s) by (unfold h1; rewrite in_hand_view; unfold view; by rewrite Ec1).
  destruct (open_checked_run h1 held s1 f x d (fs_init_msec call flags) (call_sec call) ids Ha1)
    as (r2 & held2 & c2 & Hr2 & Ha2 & W2 & Hres); [by rewrite Ec1|by rewrite Ev1|done..|].
  rewrite Ec1 in W2. pose proof (volume_step_cache _ _ _ c2 Hs1) as Hs2. destruct r2 as [e|[p m']].
  - subst held2. destruct (free_vol_run 1 (Some j) h _ (vs_table _ _ _ Hs2) (ag_handle _ _ _ _ _ _ Ha2) ltac:(lia))
      as (s3 & Hr3 & Hs3 & Ec3 & Er3).
    exists s3, (inl e). rewrite (ebind_err _ _ _ _ _ (eonerr_err _ _ _ _ _ _ _ Hr2 Hr3)).
    split; [done|]. split; [|congruence]. split; [by rewrite Er3|]. split; [by rewrite Ec3|]. exists j.
    split; [by eapply volume_step_trans|].
    change (in_hand (1 - 1) (Some j) h) with (in_hand (0 + 0) (Some j) h) in Hs3.
    assert (Hs3' : volume_step (in_hand (-1) (Some j) h1) (with_cache c2 s1) s3)
      by (unfold h1; by rewrite in_hand_twice).
    pose proof (agrees_step _ _ _ _ _ _ Ha2 Hs3' Ec3) as Ha3. unfold h1 in Ha3. by rewrite in_hand_twice in Ha3.
  - destruct Hres as (-> & Hch & n & Hn & Hon). exists (with_cache c2 s1), (inr (vol, p, m')).
    erewrite ebind_ok; [|by apply eonerr_ok]. split; [done|]. split; [|congruence].
    split; [done|]. split; [done|]. exists j.
    split_and!; try done. exists n. split; [done|]. unfold node_open in *. by rewrite Ev1 in Hon.
Qed.

(** The end of a procedure gives back the node and the volume. *)
Lemma finish_run h k j p held s : vtab_ok (fvt s) -> agrees num dead vol (in_hand k (Some j) h) (p :: held) s ->
  2 <= h_ref h + k ->
  exists s', finish vol p s = Some (s', inr tt) /\ volume_step (in_hand (k - 1) (Some j) h) s s' /\
    agrees num dead vol (in_hand (k - 1) (Some j) h) held s' /\ fropa s' = fropa s /\
    cache_fids [] (vcache (fvt s)) (vcache (fvt s')).
Proof.
  intros Hok Ha Hr. destruct (free_node_run num dead vol _ held s p false Ha) as (c & Hr1 & Ha1 & W1 & _).
  assert (Hs1 : volume_step (in_hand k (Some j) h) s (with_cache c s))
    by (apply volume_step_cache, volume_step_refl; [done|apply Ha]).
  destruct (free_vol_run k (Some j) h _ (vs_table _ _ _ Hs1) (ag_handle _ _ _ _ _ _ Ha1) Hr)
    as (s2 & Hr2 & Hs2 & Ec2 & Er2).
  exists s2. unfold finish. lrun Hr1. split; [done|]. split; [by eapply volume_step_trans|].
  split; [|split; [by rewrite Er2|by rewrite Ec2]]. assert (Hs2' : volume_step (in_hand (-1) (Some j) (in_hand k (Some j) h)) (with_cache c s) s2)
    by (by rewrite in_hand_twice).
  pose proof (agrees_step _ _ _ _ _ _ Ha1 Hs2' Ec2) as Ha2. by rewrite in_hand_twice in Ha2.
Qed.
End Requests.
