(* ===== verification/DumpCorrect.v ===== *)
(** * Dumps: correctness

    What [generate_dump] sends is the stream [dump_bytes] of the volume's info
    and of its vnodes, and [parse_dump] of this stream restores the info and
    calls [restore_file] with each of these vnodes, in their order. *)

From S2P Require Import Prelude Items Estate Buf Fdir Vnum Mdir Voldb VoldbRep VoldbFree VoldbOps Vrights.
From S2P Require Import Svol SvolCorrect Mnode Vinfo VinfoCorrect Vld VldCorrect VldKeep VldFiles Vtab VtabCorrect.
From S2P Require Import Vtrans Rxcopy RxcopyCorrect Fsacl Connsec Fsprocs FsRun Dump.

Local Open Scope em_scope.

(** ** The data of the call *)

Definition with_data (d : rxdata) (s : fserver) : fserver := FServer (fvt s) (fropa s) (ftrans s) d.
(** With [b] left to arrive; with [b] sent. *)
Definition with_in (b : bytes) (s : fserver) : fserver :=
  with_data (RxData b (rx_room (fdata s)) (rx_err (fdata s)) (rx_out (fdata s))) s.
Definition sent (b : bytes) (s : fserver) : fserver :=
  with_data (RxData (rx_in (fdata s)) (rx_room (fdata s) - blen b) (rx_err (fdata s))
    (rx_out (fdata s) ++ b)) s.

Lemma with_in_same s : with_in (rx_in (fdata s)) s = s.
Proof. by destruct s as [? ? ? []]. Qed.
Lemma sent_nil s : sent [] s = s.
Proof. destruct s as [? ? ? []]. unfold sent, with_data. cbn. by rewrite app_nil_r, Z.sub_0_r. Qed.
Lemma sent_app a b s : sent b (sent a s) = sent (a ++ b) s.
Proof. unfold sent, with_data. cbn. rewrite blen_app, <- app_assoc. do 2 f_equal. lia. Qed.

Lemma on_rx_data {A} (m : XM A) s d r :
  m (as_rxfile s) = Some (RxFile (fs_host s) d, r) -> on_rx m s = Some (with_data d s, r).
Proof.
  intros Hm. unfold on_rx. rewrite (elift_run _ _ _ _ _ _ Hm). unfold set_rxfile, with_data. cbn.
  unfold fs_host. by destruct s as [[? ? ? ? ? []] ? ? ?].
Qed.
Lemma rx_write_run b s : blen b <= rx_room (fdata s) -> on_rx (rx_Write b) s = Some (sent b s, inr (blen b)).
Proof.
  intros Hb. apply (on_rx_data _ _ _ (inr (blen b))). unfold rx_Write. rewrite ebind_get. cbn [rdata as_rxfile].
  rewrite take_ge by (unfold blen in Hb; lia). done.
Qed.
Lemma rx_read_run n s : on_rx (rx_Read n) s =
  Some (with_in (drop (Z.to_nat n) (rx_in (fdata s))) s, inr (take (Z.to_nat n) (rx_in (fdata s)))).
Proof. apply on_rx_data. done. Qed.

(** ** Operations that send *)

Section Sends.
Context (P : hostfs -> Prop).

(** With room enough [m] sends [b] and does nothing else. *)
Definition sends (m : FM unit) (b : bytes) : Prop := forall s,
  P (fs_host s) -> blen b <= rx_room (fdata s) -> m s = Some (sent b s, inr tt).

Lemma sends_ret : sends (eret tt) [].
Proof. intros s _ _. by rewrite sent_nil. Qed.
Lemma sends_bind m k a b : sends m a -> sends k b -> sends (m ;;! k) (a ++ b).
Proof.
  intros Hm Hk s Hp Hb. rewrite blen_app in Hb. pose proof (blen_nonneg b).
  lrun (Hm s Hp ltac:(lia)). rewrite Hk; [by rewrite sent_app|done|]. cbn. lia.
Qed.
Lemma sends_put b : sends (rx_put b) b.
Proof. intros s _ Hb. unfold rx_put. lrun (rx_write_run b s Hb). by rewrite Z.eqb_refl. Qed.
Lemma sends_ignore m b : sends m b -> sends (eignore m) b.
Proof. intros Hm s Hp Hb. unfold eignore. by rewrite (Hm s Hp Hb). Qed.
Lemma sends_all l bs : Forall2 sends l bs -> sends (write_all l) (concat bs).
Proof. induction 1; cbn; [apply sends_ret|by apply sends_bind]. Qed.

Lemma sends_byte b : 0 <= b < 256 -> sends (writebyte b) [b].
Proof.
  intros Hb. pose proof (sends_put [uwrap8 b]) as H. unfold uwrap8 in *. rewrite Z.mod_small in H by lia.
  unfold writebyte, uwrap8. by rewrite Z.mod_small by lia.
Qed.
Lemma sends_int32 w : sends (writeint32 w) (be32 w).
Proof. apply sends_put. Qed.
Lemma sends_int16 w : sends (writeint16 w) (be16 w).
Proof. apply sends_put. Qed.
Lemma sends_int32_tag t w : 0 <= t < 256 -> sends (writeint32_tag t w) (t :: be32 w).
Proof. intros. apply (sends_bind _ _ [t]); [by apply sends_byte|apply sends_put]. Qed.
Lemma sends_int16_tag t w : 0 <= t < 256 -> sends (writeint16_tag t w) (t :: be16 w).
Proof. intros. apply (sends_bind _ _ [t]); [by apply sends_byte|apply sends_put]. Qed.
Lemma sends_byte_tag t w : 0 <= t < 256 -> sends (writebyte_tag t w) [t; uwrap8 w].
Proof. intros. apply (sends_bind _ _ [t]); [by apply sends_byte|apply sends_put]. Qed.
Lemma sends_string_tag t w : 0 <= t < 256 -> sends (writestring_tag t w) (t :: w ++ [0]).
Proof. intros. apply (sends_bind _ _ [t]); [by apply sends_byte|apply sends_put]. Qed.
End Sends.
#[export] Hint Resolve sends_ret sends_put sends_ignore sends_byte sends_int32 sends_int16 sends_int32_tag
  sends_int16_tag sends_byte_tag sends_string_tag : milko.
#[export] Hint Extern 1 (0 <= _ < 256) => (split; [discriminate|reflexivity]) : milko.
(** A list of operations that send the parts of a stream. *)
Ltac send_parts :=
  apply sends_all; repeat (apply Forall2_cons; split; [auto with milko|]); try apply Forall2_nil_2.

(** ** Operations that read *)

(** [m] reads [b] and answers [v]. *)
Definition gets {A} (m : FM A) (b : bytes) (v : A) : Prop := forall s rest,
  rx_in (fdata s) = b ++ rest -> m s = Some (with_in rest s, inr v).

Lemma gets_ret {A} (v : A) : gets (eret v) [] v.
Proof. intros s rest H. cbn in H. rewrite <- H. by rewrite with_in_same. Qed.
Lemma gets_bind {A B} (m : FM A) (k : A -> FM B) a b v w :
  gets m a v -> gets (k v) b w -> gets (x <-- m ;; k x) (a ++ b) w.
Proof.
  intros Hm Hk s rest Hs. rewrite <- app_assoc in Hs. lrun (Hm s _ Hs).
  by rewrite (Hk _ rest).
Qed.
Lemma gets_map {A B} (m : FM A) (f : A -> B) a v : gets m a v -> gets (x <-- m ;; eret (f x)) a (f v).
Proof. intros Hm. rewrite <- (app_nil_r a). exact (gets_bind _ _ _ _ _ _ Hm (gets_ret (f v))). Qed.
Lemma gets_get n b : blen b = n -> gets (rx_get n) b b.
Proof.
  intros Hb s rest Hs. unfold rx_get. lrun (rx_read_run n s). rewrite Hs. unfold blen in Hb.
  rewrite drop_app_length', take_app_length' by lia. unfold blen. by rewrite (proj2 (Z.eqb_eq _ _) Hb).
Qed.
Lemma gets_byte c : gets readbyte [c] c.
Proof.
  pose proof (gets_map _ of_be _ _ (gets_get 1 [c] eq_refl)) as H. unfold of_be in H. cbn in H.
  exact H.
Qed.
Lemma gets_int32 w : gets readint32 (be32 w) (uwrap32 w).
Proof. rewrite <- of_be_be32. by apply gets_map, gets_get. Qed.
Lemma gets_int16 w : gets readint16 (be16 w) (uwrap16 w).
Proof. rewrite <- of_be_be16. by apply gets_map, gets_get. Qed.

Lemma in_fuel_run s : in_fuel s = Some (s, inr (S (length (rx_in (fdata s))))).
Proof. done. Qed.

Section Strings.
Context (alloc : Z -> bool) (Halloc : forall n, 0 <= n < 2 ^ 31 -> alloc n = true).

Lemma read_chars_run fuel : forall size acc s w rest, is_cstr w -> (length w < fuel)%nat ->
  0 < size -> blen acc <= size -> blen acc + blen w < 2 ^ 30 -> rx_in (fdata s) = w ++ 0 :: rest ->
  read_chars alloc fuel size acc s = Some (with_in rest s, inr (acc ++ w)).
Proof.
  induction fuel as [|fuel IH]; intros size acc s w rest Hw Hf H0 Hs Hl Hin; [lia|]. cbn [read_chars].
  pose proof (blen_nonneg w). pose proof (blen_nonneg acc).
  assert (Hsize : exists size', 0 < size' /\ blen acc < size' /\
    (if size <=? blen acc then
       eassert (size * 2 <? 2 ^ 31) ;;! (if alloc (size * 2) then eret (size * 2) else efail ENOMEM)
     else eret size) s = Some (s, inr size')).
  { destruct (Z.leb_spec size (blen acc)); [|by exists size]. exists (size * 2). split_and!; [lia|lia|].
    rewrite (proj2 (Z.ltb_lt (size * 2) (2 ^ 31))) by lia. cbn [eassert]. rewrite ebind_ret.
    by rewrite Halloc by lia. }
  destruct Hsize as (size' & H0' & Hs' & Hr). lrun Hr. lrun (rx_read_run 1 s). rewrite Hin. change (Z.to_nat 1) with 1%nat.
  destruct w as [|c w]; cbn [app drop take].
  - rewrite app_nil_r. reflexivity.
  - apply Forall_cons in Hw as [Hc Hw]. cbv beta iota; rewrite (proj2 (Z.eqb_neq c 0)) by lia. rewrite blen_cons in Hl.
    rewrite (IH size' (acc ++ [c]) _ w rest); try done.
    + by rewrite <- app_assoc.
    + cbn in Hf. lia.
    + rewrite blen_app, blen_cons, blen_nil. lia.
    + rewrite blen_app, blen_cons, blen_nil. lia.
Qed.
Lemma gets_string w : is_cstr w -> blen w < 2 ^ 30 -> gets (readstring alloc) (w ++ [0]) w.
Proof.
  intros Hw Hl s rest Hs. unfold readstring. rewrite Halloc by lia. rewrite <- app_assoc in Hs.
  lrun (in_fuel_run s). apply (read_chars_run _ 10 []); try done.
  rewrite Hs, length_app. lia.
Qed.
End Strings.

(** ** The stream of a dump *)

(** Items of the headers: the tag, the bytes behind it and what they say. *)
Definition item_bytes {A} (x : Z * bytes * A) : bytes := let '(t, b, _) := x in t :: b.
Definition int_item (t w : Z) : Z * bytes * vh_value := (t, be32 w, VInt (uwrap32 w)).
Definition string_item (t : Z) (s : bytes) : Z * bytes * vh_value := (t, s ++ [0], VString s).
Definition byte_item (t b : Z) : Z * bytes * vh_value := (t, [uwrap8 b], VByte (uwrap8 b)).
Definition vol_items (i : volintInfo) : list (Z * bytes * vh_value) :=
  [int_item VHTAG_VOLID (vi_volid i); int_item VHTAG_VERS 1; int_item VHTAG_VUNIQ 0;
   int_item VHTAG_PARENT (parentID i); int_item VHTAG_CLONE (cloneID i);
   int_item VHTAG_MAXQUOTA (maxquota i); int_item VHTAG_MINQUOTA 0; int_item VHTAG_DISKUSED (vi_size i);
   int_item VHTAG_FILECNT 0; int_item VHTAG_ACCOUNT 0; int_item VHTAG_OWNER 0;
   int_item VHTAG_DAYUSE (dayUse i); int_item VHTAG_CREAT (creationDate i);
   int_item VHTAG_ACCESS (accessDate i); int_item VHTAG_UPDATE (updateDate i); int_item VHTAG_EXPIRE 0;
   int_item VHTAG_BACKUP (backupDate i); int_item VHTAG_DUDATE 0; string_item VHTAG_VOLNAME (vi_name i);
   string_item VHTAG_OFFLINE []; string_item VHTAG_MOTD []; byte_item VHTAG_INSERV 0;
   byte_item VHTAG_BLESSED 0; byte_item VHTAG_TYPE (vi_type i);
   (VHTAG_WEEKUSE, be16 7 ++ concat (replicate 7 (be32 0)), VWords)].
Definition head_items (i : volintInfo) : list (Z * bytes * unit) :=
  [(DHTAG_VOLNAME, vi_name i ++ [0], tt); (DHTAG_VOLID, be32 (vi_volid i), tt);
   (DHTAG_DUMPTIMES, be16 2 ++ be32 0 ++ be32 0, tt)].
Definition vn_item (t : Z) (b : bytes) (w : Z) : Z * bytes * (vnode_data -> vnode_data) := (t, b, vn_store t w).
Definition vnode_items (a : vnode_data) : list (Z * bytes * (vnode_data -> vnode_data)) :=
  [vn_item VTAG_DVERS (be32 (va_dataversion a)) (uwrap32 (va_dataversion a));
   vn_item VTAG_AUTHOR (be32 (va_author a)) (uwrap32 (va_author a));
   vn_item VTAG_OWNER (be32 (va_owner a)) (uwrap32 (va_owner a));
   vn_item VTAG_GROUP (be32 (va_group a)) (uwrap32 (va_group a));
   vn_item VTAG_PARENT (be32 (va_parent a)) (uwrap32 (va_parent a));
   vn_item VTAG_CLIENT_DATE (be32 (va_client_date a)) (uwrap32 (va_client_date a));
   vn_item VTAG_SERVER_DATE (be32 (va_server_date a)) (uwrap32 (va_server_date a));
   vn_item VTAG_NLINKS (be16 (va_nlinks a)) (uwrap16 (va_nlinks a));
   vn_item VTAG_MODE (be16 (va_mode a)) (uwrap16 (va_mode a));
   vn_item VTAG_TYPE [uwrap8 (va_type a)] (uwrap8 (va_type a))] ++
  match va_acl a with Some b => [(VTAG_ACL, b, set_va_acl b)] | None => [] end.

Definition dump_head (i : volintInfo) : bytes :=
  TAG_DUMPHEADER :: be32 DUMPBEGINMAGIC ++ be32 DUMPVERSION ++ flat_map item_bytes (head_items i).
Definition vol_head (i : volintInfo) : bytes := TAG_VOLHEADER :: flat_map item_bytes (vol_items i).
Definition vnode_head (a : vnode_data) : bytes :=
  TAG_VNODE :: be32 (va_vnode a) ++ be32 (va_uniq a) ++ flat_map item_bytes (vnode_items a) ++
  VTAG_DATA :: be32 (va_length a).
Definition vnode_bytes (x : vnode_data * bytes) : bytes := vnode_head (fst x) ++ snd x.
Definition vnodes_bytes (l : list (vnode_data * bytes)) : bytes := flat_map vnode_bytes l.
Definition dump_end : bytes := TAG_DUMPEND :: be32 DUMPENDMAGIC.
(** The dump of a volume with the info [i] and the vnodes [l] with their data. *)
Definition dump_bytes (i : volintInfo) (l : list (vnode_data * bytes)) : bytes :=
  dump_head i ++ vol_head i ++ vnodes_bytes l ++ dump_end.

Lemma vnodes_one x : vnodes_bytes (option_list (Some x)) = vnode_bytes x.
Proof. apply app_nil_r. Qed.

(** ** Writing *)

Section Write.
Context (pagesize : Z) (Hpage : 0 < pagesize) (Hmax : mmap_max_size mod pagesize = 0).

Lemma dumpheader_sends P i : sends P (write_dumpheader i) (dump_head i).
Proof.
  change (dump_head i) with (concat [[TAG_DUMPHEADER]; be32 DUMPBEGINMAGIC; be32 DUMPVERSION;
    DHTAG_VOLNAME :: vi_name i ++ [0]; DHTAG_VOLID :: be32 (vi_volid i); [DHTAG_DUMPTIMES];
    be16 2; be32 0; be32 0]).
  send_parts.
Qed.
Lemma volheader_sends P i : sends P (write_volheader i) (vol_head i).
Proof.
  change (vol_head i) with (concat ([[TAG_VOLHEADER]; VHTAG_VOLID :: be32 (vi_volid i);
    VHTAG_VERS :: be32 1; VHTAG_VUNIQ :: be32 0; VHTAG_PARENT :: be32 (parentID i);
    VHTAG_CLONE :: be32 (cloneID i); VHTAG_MAXQUOTA :: be32 (maxquota i); VHTAG_MINQUOTA :: be32 0;
    VHTAG_DISKUSED :: be32 (vi_size i); VHTAG_FILECNT :: be32 0; VHTAG_ACCOUNT :: be32 0;
    VHTAG_OWNER :: be32 0; VHTAG_DAYUSE :: be32 (dayUse i); VHTAG_CREAT :: be32 (creationDate i);
    VHTAG_ACCESS :: be32 (accessDate i); VHTAG_UPDATE :: be32 (updateDate i); VHTAG_EXPIRE :: be32 0;
    VHTAG_BACKUP :: be32 (backupDate i); VHTAG_DUDATE :: be32 0; VHTAG_VOLNAME :: vi_name i ++ [0];
    VHTAG_OFFLINE :: [] ++ [0]; VHTAG_MOTD :: [] ++ [0]; [VHTAG_INSERV; uwrap8 0];
    [VHTAG_BLESSED; uwrap8 0]; [VHTAG_TYPE; uwrap8 (vi_type i)]; VHTAG_WEEKUSE :: be16 7] ++
    replicate 7 (be32 0))).
  send_parts.
Qed.

(** The file of [fd] has the data. *)
Definition has_data (fd : Z) (b : bytes) (h : hostfs) : Prop :=
  exists i c, open_file h fd i c /\ blen b <= blen c /\ take (length b) c = b.
Lemma copy_sends fd b : sends (has_data fd b) (on_rx (copyfd2rx pagesize fd 0 (blen b))) b.
Proof.
  intros s (i & c & Hf & Hb & Ht) Hr. pose proof (blen_nonneg b).
  rewrite (on_rx_data (copyfd2rx pagesize fd 0 (blen b)) s
    (RxData (rx_in (fdata s)) (rx_room (fdata s) - blen b) (rx_err (fdata s)) (rx_out (fdata s) ++ b)) (inr tt)).
  - done.
  - unfold copyfd2rx. rewrite Z.rem_0_l by lia. unfold as_rxfile.
    rewrite (copyfd_loop_run pagesize Hpage Hmax fd i c); try done; try lia.
    + change (Z.to_nat 0) with 0%nat. rewrite drop_0. unfold blen. by rewrite Nat2Z.id, Ht.
    + left. apply Z.mod_0_l. lia.
    + unfold copy_fuel, blen in *. lia.
Qed.
Lemma vnode_sends fd a b : va_length a = blen b ->
  sends (has_data fd b) (write_vnode pagesize fd a) (vnode_bytes (a, b)).
Proof.
  intros Hl. pose proof (copy_sends fd b) as Hc.
  assert (Ha : sends (has_data fd b)
    match va_acl a with Some l => writebyte VTAG_ACL ;;! rx_put l | None => eret tt end
    match va_acl a with Some l => VTAG_ACL :: l | None => [] end).
  { destruct (va_acl a); [|apply sends_ret]. apply (sends_bind _ _ _ [VTAG_ACL]); auto with milko. }
  assert (E : vnode_bytes (a, b) = concat [[TAG_VNODE]; be32 (va_vnode a); be32 (va_uniq a);
    VTAG_DVERS :: be32 (va_dataversion a); VTAG_AUTHOR :: be32 (va_author a);
    VTAG_OWNER :: be32 (va_owner a); VTAG_GROUP :: be32 (va_group a); VTAG_PARENT :: be32 (va_parent a);
    VTAG_CLIENT_DATE :: be32 (va_client_date a); VTAG_SERVER_DATE :: be32 (va_server_date a);
    VTAG_NLINKS :: be16 (va_nlinks a); VTAG_MODE :: be16 (va_mode a); [VTAG_TYPE; uwrap8 (va_type a)];
    match va_acl a with Some l => VTAG_ACL :: l | None => [] end; VTAG_DATA :: be32 (va_length a); b]).
  { unfold vnode_bytes, vnode_head, vnode_items. cbn [fst snd]. destruct (va_acl a) as [l|]; cbn [app flat_map item_bytes vn_item concat].
    all: rewrite ?app_nil_r, <- ?app_assoc; cbn [app]; rewrite ?app_nil_r; repeat (f_equal; rewrite <- ?app_assoc; cbn [app]). }
  rewrite E. unfold write_vnode. rewrite <- Hl in Hc. send_parts.
Qed.
End Write.

(** ** The vnodes of a volume *)

(** The contents of the host file of an opaque name. *)
Definition onode_file (part : bytes) (o : onode_opaque) (h : hostfs) : option bytes :=
  i ← onode_inode part o h; hfiles h !! i.

(** The vnodes that a dump has. *)
Definition listed (x : voldb_entry) : bool :=
  negb (FileType (fent x) =? 0) && (nextptr (fent x) =? VOLDB_ENTRY_USED).
Definition entry_acl (x : voldb_entry) : option bytes :=
  match u x with u_dir d => acl_disk d | u_file _ => None end.
Definition dumped_vnode `{OnodeCoder} (dirp : bool) (part : bytes) (h : hostfs) (d : voldb) (k : Z)
    : option (vnode_data * bytes) :=
  x ← read_at k d;
  if listed x then
    c ← onode_file part (ino (fent x)) h;
    Some (entry_data dirp k (fent x) (entry_acl x), take (Z.to_nat (Length (fent x))) c)
  else None.
Definition dumped `{OnodeCoder} (dirp : bool) (part : bytes) (h : hostfs) (d : voldb)
    : list (vnode_data * bytes) := omap (dumped_vnode dirp part h d) (seqZ 0 (num d)).

(** A database whose vnodes can be dumped: no access list is full, and the
    files have their length. *)
Record readable `{OnodeCoder} (dirp : bool) (part : bytes) (h : hostfs) (d : voldb) : Prop := {
  rd_wf : voldb_wf d;
  rd_kind : kind_db dirp d;
  rd_acl k x e : 0 <= k < num d -> read_at k d = Some x -> u x = u_dir e -> is_Some (acl_disk e);
  rd_file k x : 0 <= k < num d -> read_at k d = Some x -> listed x = true ->
    exists c, onode_file part (ino (fent x)) h = Some c /\ 0 <= Length (fent x) <= blen c
}.

Definition with_host (h : hostfs) (s : fserver) : fserver := set_fvt (set_vt_host h (fvt s)) s.

Lemma host_fs_run {A} (m : HM A) s h r : m (fs_host s) = Some (h, r) ->
  on_vt (vt_on_host m) s = Some (with_host h s, r).
Proof.
  intros Hm. unfold on_vt. rewrite (elift_run _ _ _ _ _ _ (on_host_run m (fvt s) h r Hm)). done.
Qed.

Section Foreach.
Context `{OnodeCoderOk} `{HostChoiceOk} (pagesize : Z) (dbos : Z -> list Z).
Context (Hpage : 0 < pagesize) (Hmax : mmap_max_size mod pagesize = 0).

Lemma db_same dirp vol (h : volume_handle) (d : voldb) s {A} (m : VM A) r :
  handles (fvt s) !! vol = Some h -> h_db dirp h = Some d -> m d = Some (d, r) ->
  on_vol vol (on_db dirp m) s = Some (s, r).
Proof.
  intros Hp Hd Hm. rewrite <- (with_cache_id s) at 2. apply (on_vol_run _ _ h s (view h s)); [done| |by split_and!].
  unfold on_db. assert (El : ldb dirp (view h s) = Some d) by (by destruct dirp).
  rewrite El. cbn [mbind option_bind]. rewrite Hm. cbn [mbind option_bind]. f_equal. f_equal.
  unfold view, set_ldb. destruct dirp, h; cbn in Hd |- *; by rewrite Hd.
Qed.
Lemma get_entry_same dirp vol h d s k x : handles (fvt s) !! vol = Some h -> h_db dirp h = Some d ->
  read_at k d = Some x -> on_vol vol (on_db dirp (voldb_get_entry k)) s = Some (s, inr x).
Proof.
  intros Hp Hd Hx. apply (db_same dirp vol h d); [done..|]. unfold read_at in Hx.
  destruct (voldb_get_entry k d) as [[d' [e|y]]|] eqn:E; try done. injection Hx as ->.
  by rewrite (pure_get_entry k _ _ _ E).
Qed.

Lemma visit_run dirp vol h d s k x : handles (fvt s) !! vol = Some h -> h_db dirp h = Some d ->
  hos (fs_host s) = [] -> readable dirp (h_part h) (fs_host s) d -> 0 <= k < num d ->
  read_at k d = Some x ->
  let b := vnodes_bytes (option_list (dumped_vnode dirp (h_part h) (fs_host s) d k)) in
  blen b <= rx_room (fdata s) ->
  visit dirp vol (write_vnode pagesize) k x s = Some (sent b s, inr tt).
Proof.
  intros Hp Hd Ho Hrd Hk Hx b Hb. unfold visit.
  assert (Eb : b = vnodes_bytes (option_list (dumped_vnode dirp (h_part h) (fs_host s) d k))) by done. clearbody b.
  assert (Hl : (match u x with
     | u_dir e => l <-- eopt (acl_disk e) ;; eret (Some l) | u_file _ => eret None end) s = Some (s, inr (entry_acl x))).
  { unfold entry_acl. destruct (u x) as [e|] eqn:Eu; [|done].
    destruct (rd_acl _ _ _ _ Hrd k x e Hk Hx Eu) as [l Hl]. by rewrite Hl. }
  lrun Hl. unfold dumped_vnode in Eb. rewrite Hx in Eb. cbn [mbind option_bind] in Eb. unfold listed in Eb.
  destruct (negb (FileType (fent x) =? 0) && (nextptr (fent x) =? VOLDB_ENTRY_USED)) eqn:El.
  2:{ rewrite Eb. cbn. by rewrite sent_nil. }
  destruct (rd_file _ _ _ _ Hrd k x Hk Hx El) as (c & Hc & Hlen). rewrite Hc in Eb.
  cbn [mbind option_bind] in Eb. rewrite vnodes_one in Eb.
  unfold onode_file in Hc. destruct (onode_inode (h_part h) (ino (fent x)) (fs_host s)) as [i|] eqn:Hi; [|done].
  cbn in Hc. lrun (handle_fs_run vol h s Hp).
  lrun (host_fs_run _ s _ _ (iopen_file_run _ _ _ _ Ho Hi)).
  set (s1 := with_host (opened_host i (fs_host s)) s). set (data := take (Z.to_nat (Length (fent x))) c) in *.
  assert (Hdl : blen data = Length (fent x)) by (apply blen_take; lia).
  assert (Hhas : has_data (new_fd (fs_host s)) data (fs_host s1)).
  { exists i, c. split; [split; [exact Ho|apply lookup_insert_eq|]|split; [lia|]].
    - change (hfiles (fs_host s1)) with (hfiles (fs_host s)). by rewrite Hc.
    - f_equal. unfold blen in Hdl. lia. }
  rewrite (efinally_run _ _ _ (sent b s1) (sent b s) (inr tt) (inr tt)); [done| |].
  - rewrite Eb in *. apply (vnode_sends pagesize Hpage Hmax (new_fd (fs_host s)) _ data); [by rewrite Hdl|done|done].
  - rewrite (host_fs_run _ _ _ _ (eq_refl : hclose (new_fd (fs_host s)) (fs_host (sent b s1)) = Some (_, _))).
    f_equal. f_equal. unfold with_host, sent, with_data, s1, opened_host. cbn.
    rewrite delete_insert_id by apply new_fd_fresh. unfold fs_host, vt_host, set_vt_host, set_vcache, set_mhost.
    by destruct s as [[? ? ? ? ? [? ? ? ? []]] ? ? ?].
Qed.
Lemma foreach_run dirp vol h d ks : forall s, handles (fvt s) !! vol = Some h -> h_db dirp h = Some d ->
  hos (fs_host s) = [] -> readable dirp (h_part h) (fs_host s) d -> Forall (fun k => 0 <= k < num d) ks ->
  let b := vnodes_bytes (omap (dumped_vnode dirp (h_part h) (fs_host s) d) ks) in
  blen b <= rx_room (fdata s) ->
  foreach_loop dirp vol (write_vnode pagesize) ks s = Some (sent b s, inr tt).
Proof.
  induction ks as [|k ks IH]; intros s Hp Hd Ho Hrd Hks b Hb; [by rewrite sent_nil|].
  apply Forall_cons in Hks as [Hk Hks]. cbn [foreach_loop].
  pose proof (db_num_small d (rd_wf _ _ _ _ Hrd)) as Hn.
  assert (Hx : exists x, read_at k d = Some x).
  { rewrite (read_at_slot dirp d k (rd_wf _ _ _ _ Hrd) (rd_kind _ _ _ _ Hrd)).
    rewrite uwrap32_small by (unfold is_uint32; lia). rewrite decide_True by lia. by eexists. }
  destruct Hx as [x Hx]. pose proof (get_entry_same dirp vol h d s k x Hp Hd Hx) as Hr.
  assert (Hr' : etry (on_vol vol (on_db dirp (voldb_get_entry k))) s = Some (s, inr (inr x)))
    by (unfold etry; by rewrite Hr).
  lrun Hr'. set (b1 := vnodes_bytes (option_list (dumped_vnode dirp (h_part h) (fs_host s) d k))).
  set (b2 := vnodes_bytes (omap (dumped_vnode dirp (h_part h) (fs_host s) d) ks)).
  assert (Eb : b = b1 ++ b2).
  { unfold b, b1, b2. cbn [omap list_omap]. destruct (dumped_vnode _ _ _ _ k); [|done].
    cbn. by rewrite app_nil_r. }
  rewrite Eb, blen_app in Hb. pose proof (blen_nonneg b2). pose proof (blen_nonneg b1).
  assert (Hb1 : blen b1 <= rx_room (fdata s)) by lia.
  assert (Hb2 : blen b2 <= rx_room (fdata (sent b1 s))) by (cbn; lia).
  lrun (visit_run dirp vol h d s k x Hp Hd Ho Hrd Hk Hx Hb1).
  rewrite Eb, <- sent_app. exact (IH (sent b1 s) Hp Hd Ho Hrd Hks Hb2).
Qed.
End Foreach.

(** ** The whole dump *)

Section Generate.
Context `{OnodeCoderOk} `{HostChoiceOk} (pagesize : Z) (dbos : Z -> list Z) (vol : Z).
Context (Hpage : 0 < pagesize) (Hmax : mmap_max_size mod pagesize = 0).

Lemma volume_step_sent h b s s' : volume_step vol h s s' -> volume_step vol h (sent b s) (sent b s').
Proof. intros [? ? ? Ht Hd]. split; try done. unfold sent, with_data. cbn. by rewrite Hd. Qed.

Lemma in_hand_db dirp k li h : h_db dirp (in_hand k li h) = h_db dirp h /\ h_part (in_hand k li h) = h_part h.
Proof. by destruct dirp, h. Qed.

Lemma vld_foreach_run dirp h i d s : vtab_ok (fvt s) -> handles (fvt s) !! vol = Some h ->
  h_db_li h = Some i -> h_db dirp h = Some d -> hos (fs_host s) = [] ->
  readable dirp (h_part h) (fs_host s) d ->
  let b := vnodes_bytes (dumped dirp (h_part h) (fs_host s) d) in
  blen b <= rx_room (fdata s) ->
  exists s' j, vld_foreach dbos dirp vol (write_vnode pagesize) s = Some (s', inr tt) /\
    volume_step vol (in_hand 0 (Some j) h) (sent b s) s' /\ vcache (fvt s') = vcache (fvt s) /\
    fropa s' = fropa s.
Proof.
  intros Hok Hp Hi Hd Ho Hrd b Hb.
  destruct (db_open_run dbos vol h i s Hok Hp Hi) as (s1 & j & Hr1 & Hs1 & Ec1 & Er1).
  set (h1 := in_hand 0 (Some j) h) in *. destruct (in_hand_db dirp 0 (Some j) h) as [Ed Ep]. fold h1 in Ed, Ep.
  pose proof (volume_step_handle _ _ _ _ Hs1) as Hp1.
  assert (Eh : fs_host s1 = fs_host s) by (unfold fs_host, vt_host; by rewrite Ec1).
  pose proof (vs_data _ _ _ _ Hs1) as Edata.
  exists (sent b s1), j. unfold vld_foreach. lrun Hr1.
  lrun (db_same dirp vol h1 d s1 voldb_header_info (inr (num d, hflags d)) Hp1 (eq_trans Ed Hd) eq_refl).
  split; [|split; [by apply volume_step_sent|done]]. cbn [fst].
  pose proof (foreach_run pagesize Hpage Hmax dirp vol h1 d (seqZ 0 (num d)) s1 Hp1 (eq_trans Ed Hd)) as Hrun.
  rewrite Ep, Eh, Edata in Hrun. apply Hrun; [done|done| |exact Hb].
  apply Forall_forall. intros k Hk%elem_of_seqZ. lia.
Qed.

Lemma generate_run s h i d f : vtab_ok (fvt s) -> handles (fvt s) !! vol = Some h ->
  h_db_li h = Some i -> h_dir h = Some d -> h_file h = Some f -> hos (fs_host s) = [] ->
  readable true (h_part h) (fs_host s) d -> readable false (h_part h) (fs_host s) f ->
  let b := dump_bytes (h_info h)
    (dumped true (h_part h) (fs_host s) d ++ dumped false (h_part h) (fs_host s) f) in
  blen b <= rx_room (fdata s) ->
  exists s' j, generate_dump dbos pagesize vol s = Some (s', inr tt) /\
    volume_step vol (in_hand 0 (Some j) h) (sent b s) s' /\ vcache (fvt s') = vcache (fvt s) /\
    fropa s' = fropa s.
Proof.
  intros Hok Hp Hi Hd Hf Ho Rd Rf b Hb.
  set (b1 := dump_head (h_info h)). set (b2 := vol_head (h_info h)).
  set (b3 := vnodes_bytes (dumped true (h_part h) (fs_host s) d)).
  set (b4 := vnodes_bytes (dumped false (h_part h) (fs_host s) f)).
  assert (Eb : b = b1 ++ b2 ++ b3 ++ b4 ++ dump_end).
  { unfold b, dump_bytes, vnodes_bytes. by rewrite flat_map_app, <- !app_assoc. }
  clearbody b. subst b. rewrite !blen_app in Hb. pose proof (blen_nonneg b1). pose proof (blen_nonneg b2).
  pose proof (blen_nonneg b3). pose proof (blen_nonneg b4). pose proof (blen_nonneg dump_end).
  unfold generate_dump, vh_info. rewrite (ebind_ok _ _ s s (h_info h)).
  2:{ by lrun (handle_fs_run vol h s Hp). }
  rewrite (ebind_ok _ _ s (sent b1 s) tt) by (apply (dumpheader_sends (fun _ => True)); [done|change (blen b1 <= rx_room (fdata s)); lia]).
  rewrite (ebind_ok _ _ _ (sent b2 (sent b1 s)) tt)
    by (apply (volheader_sends (fun _ => True)); [done|change (blen b2 <= rx_room (fdata s) - blen b1); lia]).
  rewrite sent_app. set (s0 := sent (b1 ++ b2) s).
  assert (Hroom : forall x, rx_room (fdata (sent x s)) = rx_room (fdata s) - blen x) by done.
  destruct (vld_foreach_run true h i d s0) as (s1 & j & Hr1 & Hs1 & Ec1 & Er1); try done.
  { change (blen b3 <= rx_room (fdata s) - blen (b1 ++ b2)). rewrite blen_app. lia. }
  unfold vld_foreach_dir. lrun Hr1. set (h1 := in_hand 0 (Some j) h) in *.
  destruct (in_hand_db false 0 (Some j) h) as [Ef Ep]. fold h1 in Ef, Ep.
  assert (Eh : fs_host s1 = fs_host s) by (unfold fs_host, vt_host; by rewrite Ec1).
  assert (Ed1 : fdata s1 = fdata (sent (b1 ++ b2 ++ b3) s)).
  { rewrite (vs_data _ _ _ _ Hs1). fold b3. unfold s0. by rewrite sent_app, <- app_assoc. }
  destruct (vld_foreach_run false h1 j f s1) as (s2 & j2 & Hr2 & Hs2 & Ec2 & Er2); rewrite ?Ep, ?Eh; try done.
  - apply Hs1.
  - by eapply volume_step_handle.
  - unfold h1. by destruct h.
  - by rewrite Ef.
  - fold b4. rewrite Ed1, Hroom, !blen_app. lia.
  - unfold vld_foreach_file. lrun Hr2. rewrite Ep, Eh in Hs2. fold b4 in Hs2.
    unfold h1 in Hs2. rewrite in_hand_twice in Hs2.
    assert (Ed2 : fdata s2 = fdata (sent (b1 ++ b2 ++ b3 ++ b4) s)).
    { rewrite (vs_data _ _ _ _ Hs2). unfold sent, with_data. cbn [fdata]. rewrite Ed1. cbn [sent with_data fdata rx_in rx_room rx_err rx_out].
      rewrite !blen_app, <- !app_assoc. f_equal. lia. }
    assert (Hend : sends (fun _ => True) (writebyte TAG_DUMPEND ;;! writeint32 DUMPENDMAGIC) dump_end)
      by (apply (sends_bind _ _ _ [TAG_DUMPEND]); auto with milko).
    rewrite Hend; [|done|rewrite Ed2, Hroom, !blen_app; lia].
    exists (sent dump_end s2), j2. split; [done|]. split; [|split; [exact (eq_trans Ec2 Ec1)|exact (eq_trans Er2 Er1)]].
    assert (Hs : volume_step vol (in_hand 0 (Some j2) h) (sent (b1 ++ b2 ++ b3 ++ b4) s) s2).
    { split; [apply Hs2|rewrite (vs_handles _ _ _ _ Hs2)|rewrite (vs_htab _ _ _ _ Hs2)|rewrite (vs_trans _ _ _ _ Hs2)|done].
      - cbn. rewrite (vs_handles _ _ _ _ Hs1), insert_insert_eq. done.
      - apply Hs1.
      - apply Hs1. }
    apply (volume_step_sent _ dump_end) in Hs. by rewrite sent_app, <- !app_assoc in Hs.
Qed.
End Generate.

(** ** Reading the headers *)

(** Where the items start and what follows the tag of the first; [t] is the
    tag behind them. *)
Definition first_tag {A} (l : list (Z * bytes * A)) (t : Z) : Z :=
  match l with [] => t | (t1, _, _) :: _ => t1 end.
Fixpoint after_tag {A} (l : list (Z * bytes * A)) (t : Z) : bytes :=
  match l with [] => [] | (_, b, _) :: l => b ++ first_tag l t :: after_tag l t end.
Lemma first_after {A} (l : list (Z * bytes * A)) t :
  flat_map item_bytes l ++ [t] = first_tag l t :: after_tag l t.
Proof.
  induction l as [|[[t1 b] x] l IH]; [done|]. cbn. rewrite <- app_assoc. f_equal. by rewrite IH.
Qed.
Lemma item_count {A} (l : list (Z * bytes * A)) t : (length l <= length (after_tag l t))%nat.
Proof. induction l as [|[[t1 b] x] l IH]; cbn; [lia|]. rewrite length_app. cbn. lia. Qed.

(** The volume with its info changed. *)
Definition set_h_info (i : volintInfo) (h : volume_handle) : volume_handle :=
  let 'Handle a b c d e _ g j k l m n o p q r s := h in Handle a b c d e i g j k l m n o p q r s.
Definition with_info (vol : Z) (f : volintInfo -> volintInfo) (s : fserver) : fserver :=
  match handles (fvt s) !! vol with
  | Some h => set_fvt (set_handles (<[vol := set_h_info (f (h_info h)) h]> (handles (fvt s))) (fvt s)) s
  | None => s
  end.
Lemma with_info_handle vol f s h : handles (fvt s) !! vol = Some h ->
  handles (fvt (with_info vol f s)) !! vol = Some (set_h_info (f (h_info h)) h).
Proof. intros Hp. unfold with_info. rewrite Hp. apply lookup_insert_eq. Qed.
Lemma with_info_twice vol f g s : with_info vol g (with_info vol f s) = with_info vol (fun i => g (f i)) s.
Proof.
  unfold with_info at 2. destruct (handles (fvt s) !! vol) as [h|] eqn:Hp.
  2:{ unfold with_info. by rewrite Hp. }
  unfold with_info. cbn. rewrite lookup_insert_eq, Hp. unfold set_fvt, set_handles. cbn.
  rewrite insert_insert_eq. by destruct h.
Qed.
Lemma with_info_id vol s : with_info vol (fun i => i) s = s.
Proof.
  unfold with_info. destruct (handles (fvt s) !! vol) as [h|] eqn:Hp; [|done].
  rewrite insert_id; [by destruct s as [[] ? ? ?]|]. rewrite Hp. by destruct h.
Qed.
Lemma with_in_info vol f b s : with_in b (with_info vol f s) = with_info vol f (with_in b s).
Proof. unfold with_info. change (fvt (with_in b s)) with (fvt s). by destruct (handles (fvt s) !! vol). Qed.
Lemma with_info_data vol f s : fdata (with_info vol f s) = fdata s.
Proof. unfold with_info. by destruct (handles (fvt s) !! vol). Qed.

Section Headers.
Context (alloc : Z -> bool) (Halloc : forall n, 0 <= n < 2 ^ 31 -> alloc n = true) (vol : Z).

Lemma vhinfo_run f s h : handles (fvt s) !! vol = Some h ->
  on_vhinfo vol f s = Some (with_info vol f s, inr tt).
Proof.
  intros Hp. unfold on_vhinfo, on_vol, on_vt, elift, on_volume, with_info. rewrite Hp.
  cbn [mbind option_bind]. unfold on_info, elift, emod. cbn [mbind option_bind]. f_equal. f_equal.
  destruct h, s as [[? ? ? ? ? []] ? ? ?]. done.
Qed.

(** The items are stored one after the other. *)
Definition stored_items (l : list (Z * bytes * vh_value)) (i : volintInfo) : volintInfo :=
  fold_left (fun i x => let '(t, _, v) := x in vh_store t v i) l i.
Definition vh_item_ok (x : Z * bytes * vh_value) : Prop :=
  let '(t, b, v) := x in gets (vh_read alloc t) b (Some v).
Lemma volumeheader_run l : forall fuel s h t rest, Forall vh_item_ok l ->
  gets (vh_read alloc t) [] None -> (length l < fuel)%nat -> handles (fvt s) !! vol = Some h ->
  rx_in (fdata s) = after_tag l t ++ rest ->
  volumeheader_loop alloc fuel vol (first_tag l t) s =
    Some (with_in rest (with_info vol (stored_items l) s), inr t).
Proof.
  induction l as [|[[t1 b] v] l IH]; intros fuel s h t rest Hl Ht Hf Hp Hs; (destruct fuel as [|fuel]; [cbn in Hf; lia|]).
  - cbn [volumeheader_loop first_tag]. lrun (Ht s rest Hs). change (stored_items []) with (fun i : volintInfo => i). by rewrite with_info_id.
  - apply Forall_cons in Hl as [Hi Hl]. cbn [volumeheader_loop first_tag]. cbn [after_tag] in Hs.
    rewrite <- app_assoc in Hs. cbn [app] in Hs. lrun (Hi s _ Hs). set (s1 := with_in _ s).
    assert (Hp1 : handles (fvt s1) !! vol = Some h) by done.
    lrun (vhinfo_run (vh_store t1 v) s1 h Hp1).
    set (s2 := with_info vol (vh_store t1 v) s1).
    assert (Hin : rx_in (fdata s2) = [first_tag l t] ++ (after_tag l t ++ rest))
      by (unfold s2; by rewrite with_info_data).
    lrun (gets_byte (first_tag l t) s2 _ Hin).
    rewrite (IH _ _ (set_h_info (vh_store t1 v (h_info h)) h) t rest); [|done|done|cbn in Hf; lia| |done].
    + unfold s2, s1. rewrite !with_in_info, with_info_twice. done.
    + apply (with_info_handle vol (vh_store t1 v) s1 h Hp1).
Qed.

Lemma int_item_ok t w : tag_in t vh_ints = true -> vh_item_ok (int_item t w).
Proof.
  intros Ht. unfold vh_item_ok, int_item, vh_read. rewrite Ht.
  exact (gets_map _ (fun w => Some (VInt w)) _ _ (gets_int32 w)).
Qed.
Lemma string_item_ok t w : tag_in t vh_ints = false ->
  tag_in t [VHTAG_VOLNAME; VHTAG_OFFLINE; VHTAG_MOTD] = true -> is_cstr w -> blen w < 2 ^ 30 ->
  vh_item_ok (string_item t w).
Proof.
  intros Hi Ht Hw Hl. unfold vh_item_ok, string_item, vh_read. rewrite Hi, Ht.
  exact (gets_map _ (fun s => Some (VString s)) _ _ (gets_string alloc Halloc w Hw Hl)).
Qed.
Lemma byte_item_ok t b : tag_in t vh_ints = false ->
  tag_in t [VHTAG_VOLNAME; VHTAG_OFFLINE; VHTAG_MOTD] = false ->
  tag_in t [VHTAG_INSERV; VHTAG_BLESSED; VHTAG_TYPE] = true -> vh_item_ok (byte_item t b).
Proof.
  intros Hi Hs Ht. unfold vh_item_ok, byte_item, vh_read. rewrite Hi, Hs, Ht.
  exact (gets_map _ (fun b => Some (VByte b)) _ _ (gets_byte (uwrap8 b))).
Qed.
Lemma gets_words n w : gets (read_words n) (concat (replicate n (be32 w))) tt.
Proof.
  induction n as [|n IH]; [apply gets_ret|]. exact (gets_bind _ _ _ _ _ _ (gets_int32 w) IH).
Qed.
Lemma week_item_ok : vh_item_ok (VHTAG_WEEKUSE, be16 7 ++ concat (replicate 7 (be32 0)), VWords).
Proof.
  apply (gets_bind readint16 _ _ _ (uwrap16 7)); [apply gets_int16|].
  change (4 * uwrap16 7) with 28. rewrite Halloc by lia. change (Z.to_nat (uwrap16 7)) with 7%nat.
  exact (gets_map _ (fun _ => Some VWords) _ _ (gets_words 7 0)).
Qed.

Definition name_ok (i : volintInfo) : Prop := is_cstr (vi_name i) /\ blen (vi_name i) < 2 ^ 30.
Lemma vol_items_ok i : name_ok i -> Forall vh_item_ok (vol_items i).
Proof.
  intros [Hn Hl]. assert (He : is_cstr []) by constructor. unfold vol_items.
  repeat (apply Forall_cons; split); try (by apply int_item_ok); try (by apply byte_item_ok);
    [by apply string_item_ok..|apply week_item_ok|constructor].
Qed.

(** What a dump of a volume with the info [i] makes of the info [i0]. *)
Definition restored_info (i i0 : volintInfo) : volintInfo :=
  VolInfo (strlcpy VNAMESIZE (vi_name i)) (vi_volid i0) (uwrap8 (vi_type i)) (backupID i0) (parentID i)
    (cloneID i) (vi_status i0) (copyDate i0) (inUse i0) (needsSalvaged i0) (destroyMe i0)
    (creationDate i) (accessDate i) (updateDate i) (backupDate i) (dayUse i) (filecount i0)
    (maxquota i) (vi_size i0) (vi_flags i0) (Vinfo.spare0 i0) (Vinfo.spare1 i0) (Vinfo.spare2 i0) (Vinfo.spare3 i0).
Definition fields_ok (i : volintInfo) : Prop := Forall is_int32
  [parentID i; cloneID i; maxquota i; dayUse i; creationDate i; accessDate i; updateDate i; backupDate i].
Lemma stored_vol_items i i0 : fields_ok i -> stored_items (vol_items i) i0 = restored_info i i0.
Proof.
  unfold fields_ok. rewrite !Forall_cons. intros (H1 & H2 & H3 & H4 & H5 & H6 & H7 & H8 & _).
  destruct i0. unfold stored_items, vol_items. cbn [fold_left int_item string_item byte_item].
  cbn -[swrap32 uwrap32 uwrap8 strlcpy]. unfold restored_info. cbn -[swrap32 uwrap32 uwrap8 strlcpy].
  rewrite !swrap32_uwrap32, !swrap32_small by done. done.
Qed.

(** The header of the dump. *)
Definition head_item_ok (x : Z * bytes * unit) : Prop :=
  let '(t, b, _) := x in gets (dumpheader_item alloc t) b true.
Lemma dumpheader_run l : forall fuel s t rest, Forall head_item_ok l ->
  gets (dumpheader_item alloc t) [] false -> (length l < fuel)%nat ->
  rx_in (fdata s) = first_tag l t :: after_tag l t ++ rest ->
  dumpheader_loop alloc fuel s = Some (with_in rest s, inr t).
Proof.
  induction l as [|[[t1 b] v] l IH]; intros fuel s t rest Hl Ht Hf Hs; (destruct fuel as [|fuel]; [cbn in Hf; lia|]).
  - cbn [dumpheader_loop]. lrun (gets_byte t s rest Hs).
    rewrite (ebind_ok _ _ _ _ _ (Ht (with_in rest s) rest eq_refl)). done.
  - apply Forall_cons in Hl as [Hi Hl]. cbn [dumpheader_loop]. cbn [first_tag after_tag] in Hs.
    lrun (gets_byte t1 s _ Hs). rewrite <- app_assoc. cbn [app].
    rewrite (ebind_ok _ _ _ _ _ (Hi (with_in _ s) _ eq_refl)).
    rewrite (IH fuel _ t rest); [done|done|done|cbn in Hf; lia|done].
Qed.
Lemma head_items_ok i : name_ok i -> Forall head_item_ok (head_items i).
Proof.
  intros [Hn Hl]. unfold head_items. repeat (apply Forall_cons; split); [..|constructor].
  - exact (gets_map _ (fun _ => true) _ _ (gets_string alloc Halloc _ Hn Hl)).
  - exact (gets_map _ (fun _ => true) _ _ (gets_int32 _)).
  - apply (gets_bind readint16 _ _ _ (uwrap16 2)); [apply gets_int16|].
    apply (gets_bind readint32 _ _ _ (uwrap32 0)); [apply gets_int32|].
    exact (gets_map _ (fun _ => true) _ _ (gets_int32 _)).
Qed.
Lemma read_dumpheader_run i t s rest : name_ok i -> gets (dumpheader_item alloc t) [] false ->
  rx_in (fdata s) = be32 DUMPBEGINMAGIC ++ be32 DUMPVERSION ++ flat_map item_bytes (head_items i) ++ t :: rest ->
  read_dumpheader alloc s = Some (with_in rest s, inr t).
Proof.
  intros Hn Ht Hs. unfold read_dumpheader. lrun (gets_int32 DUMPBEGINMAGIC s _ Hs).
  rewrite (ebind_ok _ _ _ _ _ (gets_int32 DUMPVERSION (with_in _ s) _ eq_refl)).
  change (uwrap32 DUMPBEGINMAGIC =? DUMPBEGINMAGIC) with true.
  change (uwrap32 DUMPVERSION =? DUMPVERSION) with true. cbn [negb].
  erewrite ebind_ok; [|apply in_fuel_run].
  assert (E : flat_map item_bytes (head_items i) ++ t :: rest =
    first_tag (head_items i) t :: after_tag (head_items i) t ++ rest).
  { change (t :: rest) with ([t] ++ rest). rewrite app_assoc, first_after. done. }
  cbn [with_in with_data fdata rx_in]. rewrite E.
  rewrite (dumpheader_run (head_items i) _ _ t rest); [done|by apply head_items_ok|done| |done].
  pose proof (item_count (head_items i) t). cbn [length]. rewrite length_app. lia.
Qed.
Lemma read_volumeheader_run i t s h rest : name_ok i -> fields_ok i -> gets (vh_read alloc t) [] None ->
  handles (fvt s) !! vol = Some h ->
  rx_in (fdata s) = after_tag (vol_items i) t ++ rest ->
  read_volumeheader alloc vol VHTAG_VOLID s =
    Some (with_in rest (with_info vol (restored_info i) s), inr t).
Proof.
  intros Hn Hf Ht Hp Hs. unfold read_volumeheader. lrun (in_fuel_run s).
  change VHTAG_VOLID with (first_tag (vol_items i) t).
  rewrite (volumeheader_run (vol_items i) _ s h t rest); [|by apply vol_items_ok|done| |done|done].
  - do 3 f_equal. unfold with_info. rewrite Hp. by rewrite stored_vol_items.
  - pose proof (item_count (vol_items i) t). rewrite Hs, length_app. lia.
Qed.
End Headers.

(** ** What restoring a vnode reads *)

(** Operations that do not touch the data of the call. *)
Definition keeps_data {A} (m : FM A) : Prop := forall s s' r, m s = Some (s', r) -> fdata s' = fdata s.
Lemma kd_bind {A B} (m : FM A) (k : A -> FM B) :
  keeps_data m -> (forall a, keeps_data (k a)) -> keeps_data (ebind m k).
Proof.
  intros Hm Hk s s' r [(e & -> & H)|(a & s1 & H1 & H2)]%ebind_inv; [by eapply Hm|].
  rewrite (Hk a _ _ _ H2). by eapply Hm.
Qed.
Lemma kd_ret {A} (a : A) : keeps_data (eret a).
Proof. by intros s s' r [= <- _]. Qed.
Lemma kd_opt {A} (o : option A) : keeps_data (eopt o).
Proof. destruct o; [apply kd_ret|]. by intros s s' r. Qed.
Lemma kd_vt {A} (m : VT A) : keeps_data (on_vt m).
Proof. unfold on_vt, elift. intros s s' r. destruct (m (fvt s)) as [[t x]|]; [|done]. by intros [= <- _]. Qed.
Lemma kd_vol {A} p (m : LM A) : keeps_data (on_vol p m).
Proof. apply kd_vt. Qed.
Lemma kd_cache {A} (m : MM A) : keeps_data (on_cache m).
Proof. apply kd_vt. Qed.
Lemma kd_ignore {A} (m : FM A) : keeps_data m -> keeps_data (eignore m).
Proof.
  intros Hm s s' r. unfold eignore. destruct (m s) as [[s1 x]|] eqn:E; [|done]. intros [= <- _]. by eapply Hm.
Qed.
#[local] Hint Resolve kd_ret kd_opt kd_vt kd_vol kd_cache kd_ignore : milko.

(** A copy that ends well has read what it was to read. *)
Lemma x_host_data {A} (m : HM A) s s' r : x_host m s = Some (s', r) -> rdata s' = rdata s.
Proof. unfold x_host, elift. destruct (m (rhost s)) as [[h x]|]; [|done]. by intros [= <- _]. Qed.
Lemma copyrx_round_reads pagesize fd off len adj s s' n ret :
  copyrx_round pagesize fd off len adj s = Some (s', inr (n, ret)) ->
  0 <= n <= Z.max 0 (window off len adj) /\ rx_in (rdata s') = drop (Z.to_nat n) (rx_in (rdata s)).
Proof.
  unfold copyrx_round. set (k := window off len adj).
  change (Z.min (len + adj) mmap_max_size - adj) with k.
  intros [(? & ? & _)|(x0 & s0 & H0 & H)]%ebind_inv; [done|]. apply x_host_data in H0.
  apply ebind_inv in H as [(? & ? & _)|(b & s1 & H1 & H)]; [done|].
  unfold rx_Read in H1. rewrite ebind_get, ebind_mod in H1. injection H1 as <- <-. rewrite H0 in H.
  set (d := rdata s) in *. set (b := take (Z.to_nat k) (rx_in d)) in *.
  apply ebind_inv in H as [(? & ? & _)|(x2 & s2 & H2 & H)]; [done|]. apply x_host_data in H2.
  rewrite ebind_get in H.
  apply ebind_inv in H as [(? & ? & _)|(x3 & s3 & H3 & H)]; [done|].
  assert (E3 : s3 = s2).
  { destruct (blen b =? k); [by injection H3|]. destruct (conv_to_arla_errno _); [by injection H3|done]. }
  subst s3.
  apply ebind_inv in H as [(? & ? & _)|(x4 & s4 & H4 & H)]; [done|].
  apply ebind_inv in H as [(? & ? & _)|(x5 & s5 & H5 & H)]; [done|].
  assert (Hor : forall v t t' w, or_errno v t = Some (t', inr w) -> rdata t' = rdata t).
  { unfold or_errno. intros v t t' w [(? & ? & _)|(y & t1 & Hy & Ht)]%ebind_inv; [done|].
    injection Ht as <- _. by apply x_host_data in Hy. }
  apply Hor in H4, H5. injection H as <- <- _. rewrite H5, H4, H2. cbn [rdata set_rdata rx_in].
  assert (Hb : blen b = Z.min (Z.max 0 k) (blen (rx_in d))) by (unfold b, blen; rewrite length_take; lia).
  pose proof (blen_nonneg (rx_in d)). split; [lia|]. unfold blen in *.
  destruct (decide (Z.to_nat k <= length (rx_in d))%nat).
  - f_equal. lia.
  - rewrite !drop_ge by lia. done.
Qed.
Lemma copyrx_reads pagesize fd : 0 < pagesize -> forall fuel off len adj s s', 0 <= len -> 0 <= adj ->
  copy_loop (copyrx_round pagesize fd) fuel off len adj s = Some (s', inr tt) ->
  rx_in (rdata s') = drop (Z.to_nat len) (rx_in (rdata s)).
Proof.
  intros Hp. induction fuel as [|fuel IH]; intros off len adj s s' Hl Ha; cbn [copy_loop].
  all: destruct (Z.leb_spec len 0); [intros [= <-]; by replace len with 0 by lia|].
  { done. }
  intros [(? & ? & _)|([n ret] & s1 & Hr & H1)]%ebind_inv; [done|]. cbn [fst snd] in H1.
  destruct (negb (ret =? 0)); [done|]. apply copyrx_round_reads in Hr as [Hn Hin].
  unfold window in Hn. rewrite (IH (off + n) (len - n) 0 s1 s' ltac:(lia) ltac:(lia) H1), Hin, drop_drop. f_equal. lia.
Qed.

Section Restore.
Context `{OnodeCoder} `{InfoCoder} `{HostChoice} (stack : voldb -> bytes) (fresh : Z * mnode).
Context (junk : onode_opaque) (pagesize : Z) (Hpage : 0 < pagesize).

Lemma restore_node_data vol a : keeps_data (restore_node stack fresh junk vol a).
Proof.
  unfold restore_node, clear_entry, put_restored.
  repeat match goal with
    | |- keeps_data (ebind _ _) => apply kd_bind; [|intros]
    | |- keeps_data (if ?b then _ else _) => destruct b
    | |- keeps_data (match ?b with _ => _ end) => destruct b
    end; auto with milko.
Qed.
Lemma restore_reads vol a s s' : 0 <= va_length a ->
  restore_file stack fresh junk pagesize vol a s = Some (s', inr tt) ->
  rx_in (fdata s') = drop (Z.to_nat (va_length a)) (rx_in (fdata s)).
Proof.
  intros Hl [(? & ? & _)|([n fd] & s1 & R1 & R2)]%ebind_inv; [done|]. apply restore_node_data in R1.
  apply ebind_inv in R2 as [(? & ? & _)|([] & s2 & R2 & R3)]; [done|]. cbn [fst snd] in *.
  apply kd_cache in R3. rewrite R3, <- R1. unfold on_rx, elift in R2.
  destruct (copyrx2fd pagesize fd 0 (va_length a) (as_rxfile s1)) as [[t r]|] eqn:E; [|done].
  injection R2 as <- ->. apply (copyrx_reads pagesize fd Hpage) in E; [exact E|lia|].
  rewrite Z.rem_0_l; lia.
Qed.

(** ** Reading the vnodes *)

Context (alloc : Z -> bool) (Halloc : forall n, 0 <= n < 2 ^ 31 -> alloc n = true) (vol : Z).

Record data_ok (a : vnode_data) : Prop := {
  do_words : Forall is_uint32 [va_vnode a; va_uniq a; va_length a; va_dataversion a; va_author a;
    va_owner a; va_group a; va_parent a; va_client_date a; va_server_date a];
  do_halves : 0 <= va_nlinks a < 2 ^ 16 /\ 0 <= va_mode a < 2 ^ 16 /\ 0 <= va_type a < 2 ^ 8;
  do_acl b : va_acl a = Some b -> blen b = SIZEOF_ACL
}.

Definition vn_item_ok (x : Z * bytes * (vnode_data -> vnode_data)) : Prop :=
  let '(t, b, f) := x in forall a, gets (vn_read alloc t a) b (Some (f a)).
Definition stored_vnode (l : list (Z * bytes * (vnode_data -> vnode_data))) (a : vnode_data) : vnode_data :=
  fold_left (fun a x => let '(_, _, f) := x in f a) l a.
Definition got_items {A} (l : list (Z * bytes * A)) (got : Z) : Z :=
  fold_left (fun g x => let '(t, _, _) := x in Z.lor g (got_bit t)) l got.

Lemma vnodeheader_run l : forall fuel s a got len rest, Forall vn_item_ok l -> (length l < fuel)%nat ->
  rx_in (fdata s) = after_tag l VTAG_DATA ++ be32 len ++ rest ->
  Z.land (got_items l got) GOT_ALL_FILE = GOT_ALL_FILE ->
  vnodeheader_loop stack fresh junk pagesize alloc fuel vol a got (first_tag l VTAG_DATA) s =
    (restore_file stack fresh junk pagesize vol (set_va_length (uwrap32 len) (stored_vnode l a)) ;;!
     readbyte) (with_in rest s).
Proof.
  induction l as [|[[t1 b] f] l IH]; intros fuel s a got len rest Hl Hf Hs Hg;
    (destruct fuel as [|fuel]; [cbn in Hf; lia|]); cbn [vnodeheader_loop first_tag].
  - rewrite (ebind_ok _ _ s s None) by done. change (VTAG_DATA =? VTAG_DATA) with true. cbn [negb].
    lrun (gets_int32 len s rest Hs). cbn in Hg. by rewrite Hg, Z.eqb_refl.
  - apply Forall_cons in Hl as [Hi Hl]. cbn [after_tag] in Hs. rewrite <- app_assoc in Hs. cbn [app] in Hs.
    lrun (Hi a s _ Hs). erewrite ebind_ok; [|by apply gets_byte].
    rewrite (IH fuel _ (f a) (Z.lor got (got_bit t1)) len rest); [done|done|cbn in Hf; lia|done|done].
Qed.

Lemma vn_items_ok a : data_ok a -> Forall vn_item_ok (vnode_items a).
Proof.
  intros Ha. unfold vnode_items. apply Forall_app. split.
  - repeat (apply Forall_cons; split); [..|constructor]; intros x.
    1-7: exact (gets_map _ (fun w => Some (vn_store _ w x)) _ _ (gets_int32 _)).
    1-2: exact (gets_map _ (fun w => Some (vn_store _ w x)) _ _ (gets_int16 _)).
    exact (gets_map _ (fun w => Some (vn_store _ w x)) _ _ (gets_byte _)).
  - destruct (va_acl a) as [b|] eqn:Eb; [|constructor]. apply Forall_singleton. intros x.
    unfold vn_read. change (tag_in VTAG_ACL vn_ints) with false.
    change (tag_in VTAG_ACL [VTAG_NLINKS; VTAG_MODE]) with false. change (VTAG_ACL =? VTAG_TYPE) with false.
    change (VTAG_ACL =? VTAG_ACL) with true. cbv iota. rewrite Halloc by (unfold SIZEOF_ACL; lia).
    intros s rest Hs. rewrite (ebind_ok _ _ s s tt) by done.
    exact (gets_map _ (fun w => Some (set_va_acl w x)) _ _ (gets_get SIZEOF_ACL b (do_acl _ Ha b Eb)) s rest Hs).
Qed.
Lemma stored_vnode_items a : data_ok a ->
  set_va_length (uwrap32 (va_length a)) (stored_vnode (vnode_items a)
    (VnodeData (uwrap32 (va_vnode a)) (uwrap32 (va_uniq a)) 0 0 0 0 0 0 0 0 0 0 0 None)) = a.
Proof.
  intros [Hw (H2 & H3 & H4) _]. rewrite !Forall_cons in Hw.
  destruct Hw as (W1 & W2 & W3 & W4 & W5 & W6 & W7 & W8 & W9 & W10 & _).
  destruct a as [x1 x2 x3 x4 x5 x6 x7 x8 x9 x10 x11 x12 x13 l].
  unfold stored_vnode, vnode_items. cbn -[uwrap32 uwrap16 uwrap8] in *.
  unfold uwrap8, uwrap16. rewrite !uwrap32_small, !Z.mod_small by done. by destruct l.
Qed.
Lemma got_vnode_items a : Z.land (got_items (vnode_items a) 0) GOT_ALL_FILE = GOT_ALL_FILE.
Proof. unfold vnode_items, got_items. by destruct (va_acl a). Qed.

(** One vnode: it is restored with what it was dumped with. *)
Lemma read_vnode_run a s rest : data_ok a -> TAG_VNODE :: rx_in (fdata s) = vnode_head a ++ rest ->
  read_vnodeheader stack fresh junk pagesize alloc vol s =
    (restore_file stack fresh junk pagesize vol a ;;! readbyte) (with_in rest s).
Proof.
  intros Ha Hin. assert (Hs : rx_in (fdata s) = be32 (va_vnode a) ++ be32 (va_uniq a) ++
    flat_map item_bytes (vnode_items a) ++ (VTAG_DATA :: be32 (va_length a)) ++ rest).
  { apply (f_equal tail) in Hin. cbn [tail] in Hin. rewrite Hin. unfold vnode_head. cbn [app tail].
    by rewrite <- !app_assoc. }
  unfold read_vnodeheader.
  lrun (gets_int32 (va_vnode a) s _ Hs).
  rewrite (ebind_ok _ _ _ _ _ (gets_int32 (va_uniq a) (with_in _ s) _ eq_refl)).
  assert (E : flat_map item_bytes (vnode_items a) ++ (VTAG_DATA :: be32 (va_length a)) ++ rest =
    [first_tag (vnode_items a) VTAG_DATA] ++ after_tag (vnode_items a) VTAG_DATA ++ be32 (va_length a) ++ rest).
  { change ((VTAG_DATA :: be32 (va_length a)) ++ rest) with ([VTAG_DATA] ++ be32 (va_length a) ++ rest).
    rewrite app_assoc, first_after. done. }
  erewrite ebind_ok; [|apply gets_byte; cbn [with_in with_data fdata rx_in]; exact E].
  erewrite ebind_ok; [|apply in_fuel_run].
  rewrite (vnodeheader_run (vnode_items a) _ _ _ 0 (va_length a) rest).
  - by rewrite stored_vnode_items.
  - by apply vn_items_ok.
  - pose proof (item_count (vnode_items a) VTAG_DATA). cbn [with_in with_data fdata rx_in].
    rewrite length_app. lia.
  - done.
  - apply got_vnode_items.
Qed.

(** The vnodes in turn, each with its data and what is behind it left to
    arrive; after the last one [rest] is left. *)
Fixpoint restore_all (l : list (vnode_data * bytes)) (rest : bytes) : FM unit :=
  match l with
  | [] => emod (with_in rest)
  | (a, b) :: l =>
      emod (with_in (b ++ vnodes_bytes l ++ dump_end ++ rest)) ;;!
      restore_file stack fresh junk pagesize vol a ;;!
      restore_all l rest
  end.
Lemma restore_all_in l rest x s : restore_all l rest (with_in x s) = restore_all l rest s.
Proof. by destruct l as [|[a b] l]. Qed.

Definition pair_ok (x : vnode_data * bytes) : Prop := data_ok (fst x) /\ va_length (fst x) = blen (snd x).
Definition lead (l : list (vnode_data * bytes)) : Z := match l with [] => TAG_DUMPEND | _ => TAG_VNODE end.
Definition stream_tail (l : list (vnode_data * bytes)) : bytes := tail (vnodes_bytes l ++ dump_end).
Lemma stream_lead l : vnodes_bytes l ++ dump_end = lead l :: stream_tail l.
Proof. by destruct l as [|[a b] l]. Qed.

Lemma vnodes_count l : (length l <= length (vnodes_bytes l))%nat.
Proof.
  induction l as [|x l IH]; [done|]. change (vnodes_bytes (x :: l)) with (vnode_bytes x ++ vnodes_bytes l).
  change (vnode_bytes x) with (TAG_VNODE :: tail (vnode_bytes x)). cbn [length app]. rewrite length_app. lia.
Qed.

Lemma parse_vnodes l : forall fuel s rest, Forall pair_ok l -> (length l < fuel)%nat ->
  rx_in (fdata s) = stream_tail l ++ rest ->
  parse_loop stack fresh junk pagesize alloc fuel vol (lead l) s = restore_all l rest s.
Proof.
  induction l as [|[a b] l IH]; intros fuel s rest Hl Hf Hs; (destruct fuel as [|fuel]; [cbn in Hf; lia|]);
    cbn [parse_loop lead].
  - cbn. lrun (gets_int32 DUMPENDMAGIC s rest Hs). done.
  - apply Forall_cons in Hl as [[Ha Hb] Hl]. cbn [fst snd] in Ha, Hb.
    change (TAG_VNODE =? TAG_DUMPHEADER) with false. change (TAG_VNODE =? TAG_VOLHEADER) with false.
    change (TAG_VNODE =? TAG_VNODE) with true. cbv iota.
    set (rest1 := b ++ vnodes_bytes l ++ dump_end ++ rest).
    assert (Hin : TAG_VNODE :: rx_in (fdata s) = vnode_head a ++ rest1).
    { rewrite Hs. change (TAG_VNODE :: stream_tail ((a, b) :: l) ++ rest)
        with ((vnodes_bytes ((a, b) :: l) ++ dump_end) ++ rest).
      change (vnodes_bytes ((a, b) :: l)) with ((vnode_head a ++ b) ++ vnodes_bytes l).
      unfold rest1. by rewrite <- !app_assoc. }
    unfold ebind at 1. rewrite (read_vnode_run a s rest1 Ha Hin). cbn [restore_all].
    rewrite ebind_mod. fold rest1. set (s1 := with_in rest1 s). unfold ebind.
    destruct (restore_file stack fresh junk pagesize vol a s1) as [[s2 [e|[]]]|] eqn:Hr; [done| |done].
    apply restore_reads in Hr; [|rewrite Hb; apply blen_nonneg].
    assert (Hin2 : rx_in (fdata s2) = [lead l] ++ (stream_tail l ++ rest)).
    { rewrite Hr, Hb. change (rx_in (fdata s1)) with rest1. unfold rest1, blen. rewrite Nat2Z.id, drop_app_length.
      by rewrite app_assoc, stream_lead. }
    rewrite (gets_byte (lead l) s2 _ Hin2). rewrite (IH fuel _ rest Hl); [|cbn in Hf; lia|done].
    apply restore_all_in.
Qed.

Lemma parse_run i l s h rest : name_ok i -> fields_ok i -> Forall pair_ok l ->
  handles (fvt s) !! vol = Some h -> rx_in (fdata s) = dump_bytes i l ++ rest ->
  parse_dump stack fresh junk pagesize alloc vol s =
    restore_all l rest (with_info vol (restored_info i) s).
Proof.
  intros Hn Hf Hl Hp Hs. set (tl := stream_tail l ++ rest).
  set (head := be32 DUMPBEGINMAGIC ++ be32 DUMPVERSION ++ flat_map item_bytes (head_items i)).
  assert (Hin : rx_in (fdata s) = [TAG_DUMPHEADER] ++ head ++ TAG_VOLHEADER :: VHTAG_VOLID ::
    after_tag (vol_items i) (lead l) ++ tl).
  { rewrite Hs. unfold dump_bytes. rewrite stream_lead.
    change (dump_head i) with ([TAG_DUMPHEADER] ++ head).
    change (vol_head i) with ([TAG_VOLHEADER] ++ flat_map item_bytes (vol_items i)).
    change (lead l :: stream_tail l) with ([lead l] ++ stream_tail l).
    rewrite <- !app_assoc. fold tl. by rewrite (app_assoc (flat_map _ _) [lead l]), first_after. }
  unfold parse_dump. lrun (gets_byte TAG_DUMPHEADER s _ Hin). set (s1 := with_in _ s).
  lrun (in_fuel_run s1). cbn [parse_loop]. change (TAG_DUMPHEADER =? TAG_DUMPHEADER) with true. cbv iota.
  erewrite ebind_ok.
  2:{ apply (read_dumpheader_run alloc Halloc i TAG_VOLHEADER s1 (VHTAG_VOLID :: after_tag (vol_items i) (lead l) ++ tl) Hn).
      - apply (gets_ret false).
      - unfold s1, head. cbn [with_in with_data fdata rx_in]. by rewrite <- !app_assoc. }
  assert (Hlen : (length l + 1 < length (rx_in (fdata s1)))%nat).
  { change (rx_in (fdata s1)) with (head ++ TAG_VOLHEADER :: VHTAG_VOLID ::
      after_tag (vol_items i) (lead l) ++ tl). unfold tl, stream_tail.
    rewrite length_app. cbn [length]. rewrite !length_app, length_tl, length_app.
    pose proof (vnodes_count l). change (length dump_end) with 5%nat. lia. }
  destruct (length (rx_in (fdata s1))) as [|m]; [lia|]. cbn [parse_loop]. change (TAG_VOLHEADER =? TAG_DUMPHEADER) with false.
  change (TAG_VOLHEADER =? TAG_VOLHEADER) with true. cbv iota.
  erewrite ebind_ok; [|apply (gets_byte VHTAG_VOLID); reflexivity].
  set (s2 := with_in _ (with_in _ s1)).
  erewrite ebind_ok; [|apply (read_volumeheader_run alloc Halloc vol i (lead l) s2 h tl Hn Hf); [|done|done]].
  - rewrite (parse_vnodes l _ _ rest); [|done|lia|done]. rewrite restore_all_in.
    unfold s2, s1. rewrite <- !with_in_info. by rewrite !restore_all_in.
  - destruct l as [|[a b] l']; apply (gets_ret None).
Qed.
End Restore.

(** ** The round trip *)

Lemma acl_used_short l r : acl_used l = Some r -> (length r < length l)%nat.
Proof.
  revert r. induction l as [|x l IH]; intros r; [done|]. cbn. destruct (owner x =? 0).
  - intros [= <-]. cbn. lia.
  - destruct (acl_used l) as [y|]; [|done]. intros [= <-]. specialize (IH y eq_refl). cbn. lia.
Qed.
Lemma length_flat_map_const {A B} n (f : A -> list B) l : (forall x, length (f x) = n) ->
  length (flat_map f l) = (n * length l)%nat.
Proof. intros Hf. induction l as [|x l IH]; cbn; [lia|]. rewrite length_app, Hf, IH. lia. Qed.
Lemma acl_disk_size d b : acl_wf (acl d) -> acl_wf (negacl d) -> acl_disk d = Some b -> blen b = SIZEOF_ACL.
Proof.
  intros [Hp _] [Hn _]. unfold acl_disk. destruct (acl_used (acl d)) as [p|] eqn:Ep; [|done].
  cbn [mbind option_bind]. destruct (acl_used (negacl d)) as [n|] eqn:En; [|done]. cbn [mbind option_bind].
  cbv zeta. intros Hb. apply (inj Some) in Hb. rewrite <- Hb. clear Hb. apply acl_used_short in Ep, En. rewrite Hp in Ep. rewrite Hn in En.
  change FS_MAX_ACL with 8%nat in *. set (w := flat_map _ (p ++ n)).
  assert (Hw : (length w <= 28)%nat).
  { unfold w. rewrite (length_flat_map_const 2) by done. rewrite length_app. lia. }
  unfold blen. rewrite (length_flat_map_const 4) by (intros; apply length_be32).
  rewrite length_app, length_replicate. fold w. cbn [app length]. unfold SIZEOF_ACL. lia.
Qed.

Section RoundTrip.
Context `{OnodeCoderOk} `{InfoCoder} `{HostChoiceOk}.

Lemma slot_acls_wf d k : voldb_wf d -> is_dir_db d -> 0 <= k < num d ->
  acl_wf (fst (slot_acls d k)) /\ acl_wf (snd (slot_acls d k)).
Proof.
  intros Hwf (_ & Hks & _ & _) Hk. pose proof (addr_range d k Hwf Hk) as Ha. unfold slot_acls.
  assert (Es : esize d = 608) by (unfold esize; by rewrite Hks). rewrite Es in Ha.
  apply get_acls_at_in; [change VOLDB_FILE_SIZE with 480; lia| |apply (wf_bytes d Hwf)].
  change VOLDB_FILE_SIZE with 480. change acls_size with 128. lia.
Qed.
Lemma content_fent dirp d k : fent (content dirp d k) = slot d k.
Proof. by destruct dirp. Qed.
Lemma dumped_ok dirp part h d x : readable dirp part h d -> x ∈ dumped dirp part h d -> pair_ok x.
Proof.
  intros Hrd Hx. unfold dumped in Hx. apply list_elem_of_omap in Hx as (k & Hk%elem_of_seqZ & Hv).
  pose proof (rd_wf _ _ _ _ Hrd) as Hwf. pose proof (db_num_small d Hwf) as Hn. unfold dumped_vnode in Hv.
  assert (Hread : read_at k d = Some (content dirp d k)).
  { rewrite (read_at_slot dirp d k Hwf (rd_kind _ _ _ _ Hrd)).
    rewrite uwrap32_small by (unfold is_uint32; lia). by rewrite decide_True by lia. }
  rewrite Hread in Hv. cbn [mbind option_bind] in Hv. destruct (listed (content dirp d k)) eqn:El; [|done].
  destruct (rd_file _ _ _ _ Hrd k _ ltac:(lia) Hread El) as (c & Hc & Hlen). rewrite Hc in Hv.
  injection Hv as <-. rewrite content_fent in *. pose proof (slot_wf d k Hwf ltac:(lia)) as [Hw _].
  rewrite !Forall_cons in Hw. destruct Hw as (_ & Hu & Hw). unfold entry_words in Hw.
  split; [split|].
  - cbn [fst entry_data va_vnode va_uniq va_length va_dataversion va_author va_owner va_group va_parent
      va_client_date va_server_date]. repeat (apply Forall_cons; split); try apply Forall_nil_2; try done.
    all: rewrite ?Forall_cons in Hw; first [tauto|by apply Z.mod_pos_bound].
  - cbn. unfold uwrap16, uwrap8. repeat split; apply Z.mod_pos_bound; done.
  - cbn [fst va_acl entry_data]. unfold entry_acl. intros b Hb.
    destruct dirp; [|done]. cbn [content u] in Hb. eapply acl_disk_size; [| |exact Hb].
    all: apply (slot_acls_wf d k Hwf (rd_kind _ _ _ _ Hrd)); lia.
  - cbn [fst snd entry_data va_length]. symmetry. by apply blen_take.
Qed.

(** A volume whose databases are open and can be dumped. *)
Record dumpable (vol : Z) (h : volume_handle) (d f : voldb) (s : fserver) : Prop := {
  dm_table : vtab_ok (fvt s);
  dm_handle : handles (fvt s) !! vol = Some h;
  dm_open : is_Some (h_db_li h);
  dm_dir : h_dir h = Some d;
  dm_file : h_file h = Some f;
  dm_os : hos (fs_host s) = [];
  dm_dirs : readable true (h_part h) (fs_host s) d;
  dm_files : readable false (h_part h) (fs_host s) f;
  dm_name : name_ok (h_info h);
  dm_fields : fields_ok (h_info h)
}.
(** Its vnodes, the directories first. *)
Definition volume_vnodes (h : volume_handle) (d f : voldb) (s : fserver) : list (vnode_data * bytes) :=
  dumped true (h_part h) (fs_host s) d ++ dumped false (h_part h) (fs_host s) f.

(** C10: Dump and restore: a volume whose databases are open is dumped without
    a change of the server but the place of the volume in the list of open
    databases, and whatever server parses what was sent, into a volume [w] of
    its own, takes over the info and restores exactly the vnodes in use, the
    directories first, each with the status, access list and data it was
    dumped with, and stops behind the dump. *)
Theorem dump_round_trip pagesize dbos vol h d f s :
  0 < pagesize -> mmap_max_size mod pagesize = 0 -> dumpable vol h d f s ->
  let l := volume_vnodes h d f s in
  let b := dump_bytes (h_info h) l in
  blen b <= rx_room (fdata s) ->
  exists s' j, generate_dump dbos pagesize vol s = Some (s', inr tt) /\
    volume_step vol (in_hand 0 (Some j) h) (sent b s) s' /\ vcache (fvt s') = vcache (fvt s) /\
    fropa s' = fropa s /\
    forall stack fresh junk alloc w hw t rest, (forall n, 0 <= n < 2 ^ 31 -> alloc n = true) ->
      handles (fvt t) !! w = Some hw -> rx_in (fdata t) = b ++ rest ->
      parse_dump stack fresh junk pagesize alloc w t =
        restore_all stack fresh junk pagesize w l rest (with_info w (restored_info (h_info h)) t).
Proof.
  intros Hpage Hmax Hdm l b Hb. destruct Hdm as [Hok Hp [i Hi] Hd Hf Ho Rd Rf Hn Hfl].
  destruct (generate_run pagesize dbos vol Hpage Hmax s h i d f Hok Hp Hi Hd Hf Ho Rd Rf Hb)
    as (s' & j & Hr & Hs & Hc & Hro).
  exists s', j. split_and!; try done. intros stack fresh junk alloc w hw t rest Ha Hw Hin.
  apply (parse_run stack fresh junk pagesize Hpage alloc Ha w (h_info h) l t hw rest); try done.
  apply Forall_app. split; apply Forall_forall; intros x Hx.
  - exact (dumped_ok _ _ _ _ _ Rd Hx).
  - exact (dumped_ok _ _ _ _ _ Rf Hx).
Qed.
End RoundTrip.
