(* ===== verification/VolserCorrect.v ===== *)
(** * The procedures of the volume server: correctness

    A procedure on a transaction holds the transaction and the volume for the
    time it runs and puts both back: [with_trans_run] and [with_vh_run].  What
    a procedure stores in the info of a volume is what the next one tells, and
    is on the disk when the write succeeded. *)

From S2P Require Import Prelude Estate Buf Fdir Vnum Mdir Voldb VoldbRep Vrights Svol SvolCorrect Mnode.
From S2P Require Import Vinfo VinfoCorrect Vld VldCorrect VldFiles Vtab VtabCorrect Dpart Vattach Vtrans VtransCorrect.
From S2P Require Import Rxcopy Fsacl Connsec Fsprocs FsRun Dump Volser DumpCorrect.
From S2P Require Ropa.

Local Open Scope em_scope.

Lemma on_trans_run {A} (m : TM A) s t r : m (ftrans s) = Some (t, r) ->
  on_trans m s = Some (set_ftrans t s, r).
Proof. intros Hm. unfold on_trans. by rewrite (elift_run _ _ _ _ _ _ Hm). Qed.
Lemma set_ftrans_id s : set_ftrans (ftrans s) s = s.
Proof. by destruct s. Qed.

Lemma etry_run {A} (m : FM A) s s' r : m s = Some (s', r) -> etry m s = Some (s', inr r).
Proof. unfold etry. by intros ->. Qed.
Lemma ecode_run {A} (m : FM A) s s' a : m s = Some (s', inr a) -> ecode m s = Some (s', inr 0).
Proof. unfold ecode. by intros ->. Qed.
Lemma eignore_run {A} (m : FM A) s s' r : m s = Some (s', r) -> eignore m s = Some (s', inr tt).
Proof. unfold eignore. by intros ->. Qed.

(** ** A procedure on a transaction *)

Lemma with_trans_run s held k i : tinv (ftrans s) held -> Z.of_nat (length held) < max_held ->
  VtransCorrect.abs (ftrans s) !! k = Some i ->
  exists t1, forall A (f : Z -> Z -> FM A) s2 r,
    f (i_part i) (i_vol i) (set_ftrans t1 s) = Some (s2, r) -> ftrans s2 = t1 ->
    with_trans k f s = Some (set_ftrans (ftrans s) s2, r).
Proof.
  intros Hi Hb Hk. destruct (find_tid_run _ held k Hi)
    as [(j & p & t & l1 & l2 & Hr & _ & _ & Hp & _ & _ & Ha)|[_ Ha]]; [|congruence].
  rewrite Ha in Hk. injection Hk as <-.
  destruct (refs_bound _ held p t Hi ltac:(lia) Hp) as [Hr1 Hr2].
  set (t' := set_refCount (refCount t + 1) t).
  set (t1 := set_theap (<[p := t']> (theap (ftrans s))) (ftrans s)).
  exists t1. intros A f s2 r Hf Ht. unfold with_trans.
  assert (Hv : on_trans (vld_verify_trans k) s = Some (s, inr tt)).
  { rewrite <- (set_ftrans_id s) at 2. apply on_trans_run. unfold vld_verify_trans. by lrun Hr. }
  lrun Hv.
  assert (Hg : on_trans (vld_get_trans k) s = Some (set_ftrans t1 s, inr p)).
  { apply on_trans_run. unfold vld_get_trans. lrun Hr. lrun (deref_run _ p t Hp).
    rewrite swrap16_small by (unfold max_held in Hb; lia). done. }
  lrun Hg.
  assert (Hd : on_trans (deref p) (set_ftrans t1 s) = Some (set_ftrans t1 s, inr t')).
  { apply (on_trans_run (deref p) (set_ftrans t1 s) t1). apply deref_run. apply lookup_insert_eq. }
  lrun Hd. unfold t' at 1 2. rewrite partition_set_refCount, volid_set_refCount.
  change (partition t) with (i_part (info t)). change (volid t) with (i_vol (info t)).
  apply (efinally_run _ _ _ s2 _ _ (inr tt) Hf). apply on_trans_run. rewrite Ht.
  rewrite (put_run t1 p t') by apply lookup_insert_eq. f_equal. f_equal. unfold put_heap, t1, set_theap.
  cbn [theap transactions perm_tid]. unfold t'. rewrite !refCount_set_refCount.
  replace (refCount t + 1 - 1) with (refCount t) by lia.
  assert (Hw : swrap16 (refCount t) = refCount t) by (apply swrap16_small; unfold max_held in Hb; lia).
  rewrite !Hw.
  assert (E : set_refCount (refCount t) (set_refCount (refCount t + 1) t) = t) by (by destruct t).
  rewrite E, (proj2 (Z.ltb_ge (refCount t) 1)) by lia. rewrite insert_insert_eq, insert_id by done.
  by destruct (ftrans s).
Qed.

(** ** The end of a transaction *)

(** Without superuser rights it is refused, an unknown id answers ENOENT, and
    otherwise the promises on the volume are broken, exactly this transaction
    leaves the table and its code is told. *)
Theorem volser_end_trans (super : bool) k s held : tinv (ftrans s) held -> Z.of_nat (length held) < max_held ->
  match super, VtransCorrect.abs (ftrans s) !! k with
  | false, _ => SVOLSER_AFSVolEndTrans super k s = Some (s, inl VOLSERBAD_ACCESS)
  | true, None => SVOLSER_AFSVolEndTrans super k s = Some (s, inl ENOENT)
  | true, Some i => forall w x, Ropa.ropa_break_volume_callback (i_vol i) (fropa s) = Some (w, x) ->
      exists t, SVOLSER_AFSVolEndTrans super k s = Some (set_ftrans t (set_fropa w s), inr (i_rcode i)) /\
        tinv t held /\ VtransCorrect.abs t = delete k (VtransCorrect.abs (ftrans s))
  end.
Proof.
  intros Hi Hb. destruct super; [|done]. unfold SVOLSER_AFSVolEndTrans, superusers.
  destruct (VtransCorrect.abs (ftrans s) !! k) as [i|] eqn:Hk.
  - intros w x Hw. destruct (with_trans_run s held k i Hi Hb Hk) as (t1 & Htr).
    erewrite ebind_ok.
    2:{ apply (Htr unit _ (set_fropa w (set_ftrans t1 s)) (inr tt)); [|done].
        exact (eignore_run _ _ _ _ (elift_run fropa set_fropa _ (set_ftrans t1 s) w x Hw)). }
    destruct (end_run (ftrans s) held k Hi ltac:(lia)) as [(t & y & p & Hr & Ht & _ & Hx & Hd & _)|[_ Hn]]; [|congruence].
    rewrite Hx in Hk. injection Hk as <-. exists t. split; [|done].
    exact (on_trans_run (vld_end_trans k) (set_ftrans (ftrans s) (set_fropa w (set_ftrans t1 s))) t _ Hr).
  - destruct (find_tid_run _ held k Hi) as [(j & p & t & l1 & l2 & _ & _ & _ & _ & _ & _ & Ha)|[Hr _]]; [congruence|].
    apply ebind_err, ebind_err. rewrite <- (set_ftrans_id s) at 2. apply on_trans_run.
    unfold vld_verify_trans. by lrun Hr.
Qed.

(** ** A procedure on a volume *)

Section Volume.
Context `{InfoCoder} `{HostChoice} (root : bytes) (vol : Z).

Lemma with_vh_run s h part v : (exists dp, dpart_of root part = inr dp) -> vtab_ok (fvt s) ->
  volume_htab (fvt s) !! uwrap32 v = Some vol -> handles (fvt s) !! vol = Some h -> h_infop h = true ->
  exists s1, volume_step vol (in_hand 1 (h_db_li h) h) s s1 /\ vcache (fvt s1) = vcache (fvt s) /\
    fropa s1 = fropa s /\ 1 <= h_ref h /\
    forall A (g : Z -> FM A) s2 r h2, g vol s1 = Some (s2, r) -> vtab_ok (fvt s2) ->
      handles (fvt s2) !! vol = Some (in_hand 1 (h_db_li h) h2) -> 1 <= h_ref h2 ->
      exists s3, with_vh root part v g s = Some (s3, r) /\
        volume_step vol (in_hand 0 (h_db_li h) h2) s2 s3 /\ vcache (fvt s3) = vcache (fvt s2) /\
        fropa s3 = fropa s2.
Proof.
  intros [dp Hdp] Hok Ht Hp Hi. destruct (vt_table _ Hok _ _ Ht) as (h0 & Hh0 & _ & Href).
  rewrite Hp in Hh0. injection Hh0 as <-.
  assert (E : set_h_ref (h_ref h + 1) h = in_hand 1 (h_db_li h) h) by (by destruct h).
  set (h1 := in_hand 1 (h_db_li h) h) in *.
  set (s1 := set_fvt (set_handles (<[vol := h1]> (handles (fvt s))) (fvt s)) s).
  assert (Hs1 : volume_step vol h1 s s1).
  { split; try done. apply (vtab_ok_handle _ _ h); try done; unfold h1; destruct h; try done. cbn in *. lia. }
  pose proof (volume_step_handle _ _ _ _ Hs1) as Hp1.
  exists s1. split_and!; try done. intros A g s2 r h2 Hg Hok2 Hp2 Hr2.
  destruct (free_vol_run vol 1 (h_db_li h) h2 s2 Hok2 Hp2 ltac:(lia)) as (s3 & Hr3 & Hs3 & Hc3 & Ho3).
  exists s3. split; [|done]. unfold with_vh, volser_fetch_vh. rewrite Hdp.
  assert (Hf : on_vt (vld_open_volume_by_num v) s = Some (s1, inr vol)).
  { unfold on_vt, s1. rewrite <- E. apply (elift_run fvt set_fvt).
    exact (vld_find_vol_run (fvt s) v vol h Ht Hp Href). }
  assert (Hfetch : (r <-- etry (on_vt (vld_open_volume_by_num v)) ;;
      match r with
      | inl e => efail (if e =? ENOENT then VNOVOL else e)
      | inr vh =>
          r <-- ecode (on_vol vh (on_info vld_info_uptodatep)) ;;
          if r =? 0 then eret vh else free_vol vh ;;! efail VOLSERFAILEDOP
      end) s = Some (s1, inr vol)).
  { lrun (etry_run _ _ _ _ Hf).
    assert (Hi1 : h_infop h1 = true) by (unfold h1; by destruct h).
    lrun (ecode_run _ _ _ _ (info_ready_run vol h1 s1 Hp1 Hi1)). done. }
  lrun Hfetch. by apply (efinally_run _ _ _ s2 _ _ (inr tt)).
Qed.
End Volume.

(** ** The info of a volume *)

(** When no call of the system fails, the info of a volume that can be read
    can be written. *)
Lemma info_write_ok `{InfoCoder} `{!InfoCoderOk} `{HostChoice} s : vinfo_ok s -> hos (vhost s) = [] ->
  is_Some (on_disk s) -> exists s', vld_info_write s = Some (s', inr tt).
Proof.
  intros [Hwf _ _] Ho [old Hd]. unfold on_disk, disk_info in Hd.
  assert (Hi : exists i, onode_inode (vpart s) (Vinfo.sino s) (vhost s) = Some i).
  { unfold onode_inode. destruct (local_opaque2ino (Vinfo.sino s)) as [[e|[ino o']]|]; try discriminate Hd. cbn in Hd.
    destruct (local_create_name (vpart s) ino) as [e|name]; [discriminate Hd|].
    destruct (hnames (vhost s) !! name) as [i|]; [by exists i|discriminate Hd]. }
  destruct Hi as [i Hi]. pose proof (iopen_file_run (vpart s) (Vinfo.sino s) (vhost s) i Ho Hi) as Hop.
  set (h1 := opened_host i (vhost s)) in Hop. destruct (info_encode_ok (Vinfo.info s) Hwf) as (b & Hb & _ & _).
  assert (Ho1 : hos h1 = []) by exact Ho.
  assert (Hw : exists h2, vol_write_header (new_fd (vhost s)) (Vinfo.info s) h1 = Some (h2, inr tt)).
  { unfold vol_write_header. lrun (hsys_ok h1 Ho1). cbn [Z.eqb negb]. rewrite Hb. unfold eopt. rewrite ebind_ret.
    assert (Hh : exists h2, hwrite (new_fd (vhost s)) b h1 = Some (h2, inr 0)).
    { unfold hwrite. lrun (hsys_ok h1 Ho1). cbn [Z.eqb negb]. rewrite ebind_get.
      change (hfds h1) with (<[new_fd (vhost s) := i]> (hfds (vhost s))). rewrite lookup_insert_eq. by eexists. }
    destruct Hh as [h2 Hh]. exists h2. by lrun Hh. }
  destruct Hw as [h2 Hw]. unfold vld_info_write, with_sino, ihost. rewrite !ebind_get.
  lrun (elift_run vhost set_vhost _ s _ _ Hop).
  pose proof (elift_run vhost set_vhost _ (set_vhost h1 s) h2 (inr tt) Hw) as Hw'.
  unfold etry, ebind. rewrite Hw'. by eexists.
Qed.

Section Admin.
Context `{InfoCoder} `{!InfoCoderOk} `{HostChoice} (root : bytes).
Context (held : list Z) (k : Z) (i : tinfo) (vol : Z).

(** Transaction [k] is on the volume with the handle [h], whose info has been
    read. *)
Record administered (h : volume_handle) (s : fserver) : Prop := {
  ad_trans : tinv (ftrans s) held;
  ad_room : Z.of_nat (length held) < max_held;
  ad_id : VtransCorrect.abs (ftrans s) !! k = Some i;
  ad_part : exists dp, dpart_of root (i_part i) = inr dp;
  ad_table : vtab_ok (fvt s);
  ad_volume : volume_htab (fvt s) !! uwrap32 (i_vol i) = Some vol;
  ad_handle : handles (fvt s) !! vol = Some h;
  ad_info : h_infop h = true;
  ad_file : vinfo_ok (linfos (view h s))
}.
Definition info_on_disk (h : volume_handle) (s : fserver) : option volintInfo := on_disk (linfos (view h s)).

(** A server that has changed in the handle of the volume and its files. *)
Lemma administered_step h h' s s' : administered h s -> volume_step vol h' s s' ->
  h_infop h' = h_infop h -> vinfo_ok (linfos (view h' s')) -> administered h' s'.
Proof.
  intros [A1 A2 A3 A4 A5 A6 A7 A8 A9] [S1 S2 S3 S4 S5] Hi Hf. split; try congruence; try done.
  rewrite S2. apply lookup_insert_eq.
Qed.

(** A procedure on a transaction and its volume; [s1] is the server with both
    referenced. *)
Lemma with_both_run h s : administered h s ->
  exists t1 s1, volume_step vol (in_hand 1 (h_db_li h) h) (set_ftrans t1 s) s1 /\
    vcache (fvt s1) = vcache (fvt s) /\ fropa s1 = fropa s /\
    forall A (g : Z -> FM A) s2 r h2, g vol s1 = Some (s2, r) ->
      volume_step vol (in_hand 1 (h_db_li h) h2) s1 s2 -> 1 <= h_ref h2 -> h_db_li h2 = h_db_li h ->
      exists s3, with_trans k (fun part v => with_vh root part v g) s = Some (s3, r) /\
        volume_step vol h2 s s3 /\ vcache (fvt s3) = vcache (fvt s2) /\ fropa s3 = fropa s2.
Proof.
  intros [A1 A2 A3 A4 A5 A6 A7 A8 A9].
  destruct (with_trans_run s held k i A1 A2 A3) as (t1 & Htr).
  destruct (with_vh_run root vol (set_ftrans t1 s) h (i_part i) (i_vol i) A4 A5 A6 A7 A8)
    as (s1 & Hs1 & Hc1 & Ho1 & _ & Hvh).
  exists t1, s1. split_and!; try done. intros A g s2 r h2 Hg Hs2 Hr2 Hl2.
  destruct (Hvh A g s2 r h2 Hg (vs_table _ _ _ _ Hs2) (volume_step_handle _ _ _ _ Hs2) Hr2)
    as (s3 & Hr3 & Hs3 & Hc3 & Ho3).
  pose proof (volume_step_trans vol _ _ _ _ _ Hs1 (volume_step_trans vol _ _ _ _ _ Hs2 Hs3)) as Hs.
  rewrite <- Hl2, in_hand_id in Hs.
  exists (set_ftrans (ftrans s) s3). split; [exact (Htr A _ s3 r Hr3 (vs_trans _ _ _ _ Hs))|].
  split; [|done]. destruct Hs as [T1 T2 T3 T4 T5]. by split.
Qed.

Lemma change_info_run h s f : administered h s -> info_wf (f (h_info h)) ->
  let h' := set_h_info (f (h_info h)) h in
  exists s', change_info root k f s = Some (s', inr tt) /\ volume_step vol h' s s' /\
    fropa s' = fropa s /\ administered h' s' /\
    (info_on_disk h' s' = Some (f (h_info h)) \/ info_on_disk h' s' = info_on_disk h s) /\
    (hos (fs_host s) = [] -> is_Some (info_on_disk h s) -> info_on_disk h' s' = Some (f (h_info h))).
Proof.
  intros Ha Hw h'. destruct (with_both_run h s Ha) as (t1 & s1 & Hs1 & Hc1 & Ho1 & Hboth).
  pose proof (volume_step_handle _ _ _ _ Hs1) as Hp1. set (h1 := in_hand 1 (h_db_li h) h) in *.
  destruct (vt_table _ (ad_table _ _ Ha) _ _ (ad_volume _ _ Ha)) as (h0 & Hh0 & _ & Href).
  rewrite (ad_handle _ _ Ha) in Hh0. injection Hh0 as <-.
  assert (E1 : set_h_info (f (h_info h1)) h1 = in_hand 1 (h_db_li h) h') by (unfold h1, h'; by destruct h).
  set (s2 := with_info vol f s1).
  assert (Hs2 : volume_step vol (in_hand 1 (h_db_li h) h') s1 s2).
  { unfold s2, with_info. rewrite Hp1, E1. split; try done.
    apply (vtab_ok_handle _ _ h1); try done; try (by apply Hs1); unfold h1, h'; destruct h; try done. cbn in *. lia. }
  pose proof (volume_step_handle _ _ _ _ Hs2) as Hp2.
  assert (Hc2 : vcache (fvt s2) = vcache (fvt s)) by (unfold s2, with_info; by rewrite Hp1).
  set (h2 := in_hand 1 (h_db_li h) h') in *.
  assert (Hv : linfos (view h2 s2) = set_info (f (h_info h)) (linfos (view h s))).
  { unfold view. rewrite Hc2. unfold h2, h'. by destruct h. }
  assert (Hok2 : vinfo_ok (linfos (view h2 s2))).
  { rewrite Hv. destruct (ad_file _ _ Ha) as [_ Hsi Hfi]. by split. }
  destruct (info_write_run _ Hok2) as (hh & r & Hr & _ & Hfile & Hdisk).
  set (l := set_linfos (set_vhost hh (linfos (view h2 s2))) (view h2 s2)).
  assert (Hwr : on_vol vol (on_info vld_info_write) s2 = Some (with_cache (lm l) s2, r)).
  { apply (on_vol_run _ _ h2 s2 l); [exact Hp2| |by split_and!].
    unfold on_info. exact (elift_run linfos set_linfos _ _ _ _ Hr). }
  set (s3 := with_cache (lm l) s2) in *.
  destruct (Hboth unit (fun vh => on_vhinfo vh f ;;! info_write vh) s3 (inr tt) h') as (s4 & Hr4 & Hs4 & Hc4 & Ho4).
  { lrun (vhinfo_run vol f s1 h1 Hp1). exact (eignore_run _ _ _ _ Hwr). }
  { by apply volume_step_cache. }
  { unfold h'. destruct h. done. }
  { unfold h'. by destruct h. }
  assert (Hend : linfos (view h' s4) = set_vhost hh (linfos (view h2 s2))).
  { unfold view. rewrite Hc4. unfold h2, h'. by destruct h. }
  exists s4. split; [exact Hr4|]. split; [exact Hs4|]. split.
  { rewrite Ho4. unfold s3, s2, with_info. rewrite Hp1. exact Ho1. }
  split.
  - apply (administered_step h h' s s4 Ha Hs4); [unfold h'; by destruct h|]. rewrite Hend, Hv.
    destruct Hok2 as [Hw2 Hsi2 _]. rewrite Hv in Hw2, Hsi2, Hfile. by split.
  - assert (Hnew : info_on_disk h' s4 = match r with inr _ => Some (f (h_info h)) | inl _ => info_on_disk h s end).
    { unfold info_on_disk. rewrite Hend. unfold on_disk in Hdisk |- *. cbn [vpart vhost Vinfo.sino set_vhost].
      rewrite Hv in Hdisk |- *. exact Hdisk. }
    rewrite Hnew. split; [destruct r; auto|]. intros Hos Hold.
    destruct (info_write_ok (linfos (view h2 s2))) as (s0 & Hr0); [done| | |].
    + rewrite Hv. exact Hos.
    + rewrite Hv. exact Hold.
    + rewrite Hr in Hr0. by injection Hr0 as _ ->.
Qed.

Lemma get_status_run h s : administered h s ->
  exists s', SVOLSER_AFSVolGetStatus root true k s = Some (s', inr (status_of_info (h_info h))) /\
    volume_step vol h s s' /\ vcache (fvt s') = vcache (fvt s) /\ fropa s' = fropa s.
Proof.
  intros Ha. destruct (with_both_run h s Ha) as (t1 & s1 & Hs1 & Hc1 & Ho1 & Hboth).
  pose proof (volume_step_handle _ _ _ _ Hs1) as Hp1.
  destruct (vt_table _ (ad_table _ _ Ha) _ _ (ad_volume _ _ Ha)) as (h0 & Hh0 & _ & Href).
  rewrite (ad_handle _ _ Ha) in Hh0. injection Hh0 as <-.
  destruct (Hboth _ (fun vh => j <-- vh_info vh ;; eret (status_of_info j)) s1 (inr (status_of_info (h_info h))) h)
    as (s4 & Hr4 & Hs4 & Hc4 & Ho4); try done.
  - unfold vh_info. erewrite ebind_ok; [|lrun (handle_fs_run vol _ s1 Hp1); reflexivity]. by destruct h.
  - apply volume_step_refl; [apply Hs1|done].
  - exists s4. split; [exact Hr4|]. split; [exact Hs4|]. split; congruence.
Qed.
End Admin.

(** ** What is stored is told *)

(** The changes of the info that can be asked for. *)
Inductive info_request :=
  | SetIdsTypes (name : bytes) (type parent clone backup : Z)
  | SetDate (newDate : Z)
  | SetInfo (volinfo : volintInfo).
Definition run_request `{InfoCoder} `{HostChoice} (root : bytes) (super : bool) (k : Z) (r : info_request)
    : FM unit :=
  match r with
  | SetIdsTypes name type parent clone backup =>
      SVOLSER_AFSVolSetIdsTypes root super k name type parent clone backup
  | SetDate newDate => SVOLSER_AFSVolSetDate root super k newDate
  | SetInfo volinfo => SVOLSER_AFSVolSetInfo root super k volinfo
  end.
Definition info_after (r : info_request) (i : volintInfo) : volintInfo :=
  match r with
  | SetIdsTypes name type parent clone backup =>
      set_vi_ids backup parent clone (set_vi_type type (set_vi_name (strlcpy VNAMESIZE name) i))
  | SetDate newDate => set_vi_dates newDate (accessDate i) (updateDate i) (backupDate i) i
  | SetInfo volinfo => set_info_from volinfo i
  end.
(** The status with what was asked for: SetInfo leaves out the fields of [v]
    that are 0, or -1 for the quota, and the dates of access and update. *)
Definition status_after (r : info_request) (st : volser_status) : volser_status :=
  let 'VolserStatus id ty pa cl ba mq cr ac up bd := st in
  match r with
  | SetIdsTypes _ type parent clone backup => VolserStatus id type parent clone backup mq cr ac up bd
  | SetDate newDate => VolserStatus id ty pa cl ba mq newDate ac up bd
  | SetInfo v =>
      VolserStatus (given (vi_volid v) id) (given (vi_type v) ty) (given (parentID v) pa)
        (given (cloneID v) cl) (given (backupID v) ba) (given1 (maxquota v) mq)
        (given (creationDate v) cr) ac up (given (backupDate v) bd)
  end.
(** Names without NUL and words of 32 bits. *)
Definition request_ok (r : info_request) : Prop :=
  match r with
  | SetIdsTypes name type parent clone backup =>
      is_cstr name /\ Forall is_int32 [type; parent; clone; backup]
  | SetDate newDate => is_int32 newDate
  | SetInfo v => info_wf v
  end.

Lemma strlcpy_cstr n s : is_cstr s -> is_cstr (strlcpy n s).
Proof. unfold strlcpy, is_cstr. intros Hs. by apply Forall_take. Qed.
Lemma given_int32 v old : is_int32 v -> is_int32 old -> is_int32 (given v old) /\ is_int32 (given1 v old).
Proof. intros. unfold given, given1. by split; case_match. Qed.

Lemma info_after_wf r i : request_ok r -> info_wf i -> info_wf (info_after r i).
Proof.
  intros Hr (Hn & Hl & Hw & Hc). rewrite !Forall_cons in Hw. rewrite !Forall_cons in Hc.
  destruct r as [name ty pa cl ba|d|v]; cbn [request_ok] in Hr; cbn [info_after].
  - destruct Hr as [Hs Hr]. rewrite !Forall_cons in Hr. destruct i. split_and!; cbn -[strlcpy] in *.
    + by apply strlcpy_cstr.
    + apply strlcpy_length. unfold VNAMESIZE. lia.
    + rewrite !Forall_cons. tauto.
    + rewrite !Forall_cons. tauto.
  - destruct i. split_and!; cbn in *; try done; rewrite !Forall_cons; tauto.
  - destruct Hr as (Vn & Vl & Vw & Vc). rewrite !Forall_cons in Vw. rewrite !Forall_cons in Vc.
    destruct i, v. split_and!; cbn -[strlcpy given given1] in *.
    + case_match; [done|by apply strlcpy_cstr].
    + case_match; [done|apply strlcpy_length; unfold VNAMESIZE; lia].
    + repeat (apply Forall_cons; split); try apply Forall_nil_2; try (apply given_int32); tauto.
    + repeat (apply Forall_cons; split); try apply Forall_nil_2; try tauto. unfold given. case_match; tauto.
Qed.
Lemma status_after_info r i : status_of_info (info_after r i) = status_after r (status_of_info i).
Proof. destruct i, r; reflexivity. Qed.
Lemma run_request_change `{InfoCoder} `{HostChoice} root k r :
  run_request root true k r = change_info root k (info_after r).
Proof. by destruct r. Qed.

