(* ===== verification/FsCorrect.v ===== *)
(** * Correctness of the procedures of the file server

    The guard that every procedure starts with, and a status or data that is
    fetched: the table of volumes, the cache with the file of the vnode, the
    rights, the copy of the file to the call and the callbacks together. *)

From S2P Require Import Prelude Items Estate Buf Fdir Vnum Mdir Voldb VoldbRep Vrights VrightsCorrect.
From S2P Require Import Svol SvolCorrect Mnode MnodeCorrect Vinfo Vld VldCorrect VldFiles Vtab VtabCorrect.
From S2P Require Import Ropa RopaPair RopaCorrect RopaGet.
From S2P Require Import Vtrans VtransCorrect Rxcopy RxcopyCorrect Fsacl Connsec Fsprocs FsRun DumpCorrect.

Local Open Scope em_scope.

Section Procedures.
Context `{OnodeCoder} `{HostChoice} `{InfoCoder} (fresh : Z * Mnode.mnode) (fstat_errno : Z -> Z) (dbos : Z -> list Z).
Context (num : nat) (dead : list AFSFid) (vol : Z).

(** C7: Every procedure on a vnode starts with [fs_init_req], and it lets
    only those pass who may.  On a volume of the table whose databases are
    open it always returns.  It succeeds only if no transaction has the
    volume, the volume is online, it is a writable one when the operation
    writes, and the lists of the directory that governs the vnode give the
    caller the rights of the operation; the caller then has one reference to
    the volume and an open node with the entry and the status of the database.
    Else the references of the volume and of all nodes are what they were, and
    the reasons that come before the vnode is looked at are answered with
    their errors.  The callbacks, the transactions and the data of the call
    are not touched, the table stays in order and the cache agrees with the
    databases. *)
Theorem fs_init_req_correct h held s f x d flags call ids :
  request num dead vol h held s f x d ->
  Z.land flags VOLOP_GETSTATUS = VOLOP_GETSTATUS -> cps (call_sec call) = Some ids ->
  exists s' r, fs_init_req fresh fstat_errno dbos f flags call s = Some (s', r) /\
    request_made num dead vol h held s f x d flags call ids s' r /\
    (forall e, refusal h s f flags = Some e -> r = inl e).
Proof. apply init_req_run. Qed.

(** What a client is told of a vnode. *)
Definition status_told (h : volume_handle) (x : voldb_entry) (m : msec) (len : Z) : AFSFetchStatus :=
  with_access (uwrap32 (caller_access m)) (uwrap32 (anonymous_access m))
    (fill_status (creationDate (h_info h)) (fent x) (set_fs_Length len zero_status)).

Lemma status_shown h s x n m : status_of (view h s) x (fs n) ->
  exists len, fs_update_fs n m = status_told h x m len.
Proof. intros (f0 & l & E). exists l. unfold fs_update_fs, status_told. rewrite E. by destruct f0. Qed.

Lemma status_of_node_run s p n m : nodes (vcache (fvt s)) !! p = Some n ->
  status_of_node p m s = Some (s, inr (fs_update_fs n m)).
Proof.
  intros Hn. unfold status_of_node, on_cache, on_vt, vt_on_mn.
  rewrite (ebind_ok _ _ s s n); [done|]. unfold elift. rewrite (node_run _ _ _ Hn). by destruct s as [[] ? ? ?].
Qed.

Definition set_ropa (s : fserver) (y : ropa) : fserver := set_fropa y s.
Lemma get_promise_run call h s f cb y : handles (fvt s) !! vol = Some h ->
  ropa_getcallback (GETHOST call) (GETPORT call) f (vi_type (h_info h)) (fropa s) = Some (y, inr cb) ->
  get_promise call vol f s = Some (set_fropa y s, inr cb).
Proof.
  intros Hp Hr. unfold get_promise. lrun (handle_fs_run _ _ _ Hp). unfold on_ropa.
  by rewrite (elift_run _ _ _ _ _ _ Hr).
Qed.

(** The state of the callbacks in which a client can be given a promise. *)
Record can_promise (s : ropa) (call : rx_call) (g : AFSFid) (c p : Z) : Prop := {
  cp_quiet : quiet s;
  cp_client : at_address s (GETHOST call) (GETPORT call) c;
  cp_callback : callback_at_hand s g;
  cp_pair : next_pair s p;
  cp_victim : victim_reachable s p
}.

(** C9: FetchStatus.  For a client that is known the call always returns,
    with the references to the volume and the nodes as before.  When it
    answers a status, the caller was let pass, the status is that of the
    entry in the database with the caller's rights in it, and the client is
    promised to be told of changes for an hour or for as long as it was
    promised already, which is the time it is told.  When it answers an error
    nobody has a new promise. *)
Theorem SRXAFS_FetchStatus_correct h held s f x d call ids c p :
  let g := callback_fid f (vi_type (h_info h)) in
  let t := default (now (fropa s) + 3600) (promise (fropa s) g c) in
  request num dead vol h held s f x d -> cps (call_sec call) = Some ids -> can_promise (fropa s) call g c p ->
  exists s' r j, SRXAFS_FetchStatus fresh fstat_errno dbos call f s = Some (s', r) /\
    volume_step vol (in_hand 0 (Some j) h) s s' /\ agrees num dead vol (in_hand 0 (Some j) h) held s' /\
    match r with
    | inl e => fropa s' = fropa s
    | inr (st, cb) => refusal h s f VOLOP_GETSTATUS = None /\
        (exists m len, check_dir_rights d ids (fs_init_msec call VOLOP_GETSTATUS) (superuser (call_sec call)) = (m, 0) /\
           st = status_told h x m len) /\
        cb = time_left (fropa s) t /\ quiet (fropa s') /\ promise (fropa s') g c = Some t
    end.
Proof.
  intros g t Hq Hcps [P1 P2 P3 P4 P5]. pose proof (request_has_ref _ _ _ _ _ _ _ _ _ Hq) as Href.
  destruct (init_req_run fresh fstat_errno dbos num dead vol h held s f x d VOLOP_GETSTATUS call ids Hq eq_refl Hcps)
    as (s1 & r & Hr & (Er & W1 & j & Hmade) & _). unfold SRXAFS_FetchStatus.
  destruct r as [e|[[v q] m]].
  { destruct Hmade as [Hs Ha]. exists s1, (inl e), j. by rewrite (ebind_err _ _ _ _ _ Hr). }
  destruct Hmade as (-> & Href0 & Hch & Hs1 & Ha1 & n & Hn & Hon). lrun Hr.
  set (h1 := in_hand 1 (Some j) h) in *. pose proof (ag_handle _ _ _ _ _ _ Ha1) as Hp1.
  destruct (in_hand_fields 1 (Some j) h) as (_ & _ & _ & _ & _ & _ & Ei & Ef). fold h1 in Ei, Ef.
  destruct (getcallback_run (fropa s) (GETHOST call) (GETPORT call) c f (vi_type (h_info h)) p P1 P2 P3 P4 P5)
    as (y & msgs & Hg & Hy & Hprom & _). fold g in Hg, Hprom. fold t in Hg, Hprom.
  assert (Hg1 : get_promise call vol f s1 = Some (set_fropa y s1, inr (time_left (fropa s) t))).
  { apply (get_promise_run call h1); [done|]. by rewrite Ef, Er. }
  destruct (finish_run num dead vol h 1 j q held (set_fropa y s1)) as (s2 & Hr2 & Hs2 & Ha2 & Er2 & _);
    [apply Hs1|split; apply Ha1|lia|].
  exists s2, (inr (fs_update_fs n m, time_left (fropa s) t)), j. split.
  { eapply efinally_run; [|exact Hr2]. lrun (status_of_node_run s1 q n m Hn).
    lrun (info_ready_run vol h1 s1 Hp1 ltac:(rewrite Ei; apply Hq)). by lrun Hg1. }
  split; [eapply volume_step_trans; [|exact Hs2]; by destruct Hs1|]. split; [exact Ha2|].
  destruct Hon as (_ & _ & _ & _ & _ & _ & Hst). destruct (status_shown _ _ _ _ m Hst) as [len Elen].
  split_and!; try done; [by exists m, len|by rewrite Er2|]. rewrite Er2. cbn [fropa set_fropa]. rewrite Hprom.
  by rewrite decide_True.
Qed.
End Procedures.

(** ** What the cache knows of the file *)


(** A spare node is counted as free. *)
Lemma spare_free num c held dead miss : minv num c held dead miss ->
  (exists q, q ∈ lru c /\ (q ∉ held)) -> numfree c <> 0.
Proof.
  intros Hi Hs. destruct (free_at_tail _ _ _ _ _ Hi Hs) as (l & q & _ & _ & _ & u & v & _ & _ & _ & E).
  pose proof (mi_miss _ _ _ _ _ Hi) as [Hm _]. lia.
Qed.

Lemma eonerr_inv {S A} (m : EM S A) (k : EM S unit) s s' r : eonerr m k s = Some (s', r) ->
  (exists a, r = inr a /\ m s = Some (s', inr a)) \/
  (exists e s1 x, r = inl e /\ m s = Some (s1, inl e) /\ k s1 = Some (s', x)).
Proof.
  unfold eonerr. destruct (m s) as [[s1 [e|a]]|]; [..|done].
  - destruct (k s1) as [[s2 x]|] eqn:E; [|done]. intros [= <- <-]. right. by exists e, s1, x.
  - intros [= <- <-]. left. by exists a.
Qed.

Section Files.
Context {OC : OnodeCoder} {HC : HostChoice} {HK : HostChoiceOk} {IC : InfoCoder}.
Context (fresh : Z * Mnode.mnode) (fstat_errno : Z -> Z) (dbos : Z -> list Z).
Context (num : nat) (dead : list AFSFid) (vol : Z).
Context (f : AFSFid) (part : bytes) (o : onode_opaque) (i : Z) (b : bytes).

(** The volume of the table has the vnode [f] and its file. *)
Definition fs_filed (s : fserver) : Prop :=
  exists h, handles (fvt s) !! vol = Some h /\ vol_filed f part o i b (view h s).

Lemma on_vol_filed {A} (m : LM A) s s' r : fs_filed s ->
  (forall l l' r', vol_filed f part o i b l -> numfree (lm l) = numfree (vcache (fvt s)) ->
     m l = Some (l', r') -> vol_filed f part o i b l') ->
  on_vol vol m s = Some (s', r) -> fs_filed s'.
Proof.
  intros (h & Hp & Hl) Hm. unfold on_vol, on_vt, elift, on_volume. rewrite Hp. cbn [mbind option_bind].
  destruct (m _) as [[l x]|] eqn:E; [|done]. cbn [mbind option_bind]. intros [= <- _].
  exists (volume_back l h). split; [apply lookup_insert_eq|].
  replace (view _ _) with l by (unfold view; destruct h, l; done). by eapply Hm.
Qed.
Lemma on_cache_filed {A} (m : MM A) s s' r : fs_filed s ->
  (forall c r', m (vcache (fvt s)) = Some (c, r') -> filed f part o i b c) ->
  on_cache m s = Some (s', r) -> fs_filed s'.
Proof.
  intros (h & Hp & Hl) Hm. unfold on_cache, on_vt, vt_on_mn, elift.
  destruct (m _) as [[c x]|] eqn:E; [|done]. intros [= <- _]. exists h. split; [done|].
  refine (vol_filed_lm _ _ _ _ _ (view h s) c Hl _). by eapply Hm.
Qed.
Lemma free_node_filed p bad s s' r : fs_filed s -> free_node p bad s = Some (s', r) -> fs_filed s'.
Proof.
  intros Hs. unfold free_node. apply on_cache_filed; [done|]. intros c r' E.
  destruct Hs as (h & Hp & Hl). eapply free_filed; [|exact E]. apply Hl.
Qed.

Lemma open_node_filed h held s x d m sc ids s' r : agrees num dead vol h held s ->
  spare held (vcache (fvt s)) -> vnode_is dead (view h s) f x d ->
  Z.land (mflags m) VOLOP_GETSTATUS = VOLOP_GETSTATUS -> loop m <= 1 -> sec m = Some sc -> cps sc = Some ids ->
  fs_filed s -> fs_open_node fresh fstat_errno f vol m s = Some (s', r) -> fs_filed s'.
Proof.
  intros Ha Hsp Hv Hfl Hl Hsec Hcps Hs Hr. destruct (ag_inv _ _ _ _ _ _ Ha) as [miss0 Hi0].
  pose proof (spare_free _ _ _ _ _ Hi0 (spare_one _ _ Hsp)) as Hnf.
  destruct (find_node_run fresh num dead vol h held s f Ha (vn_alive _ _ _ _ _ Hv) Hsp)
    as (p & n & c1 & Hr1 & Ha1 & _ & Hn1 & Hf1).
  assert (Hs1 : fs_filed (with_cache c1 s)).
  { apply (on_cache_filed _ _ _ _ Hs) in Hr1 as ?; [done|]. intros c r' E. destruct Hs as (h0 & _ & Hl0).
    eapply find_filed; [apply Hl0| |exact E]. by intros _. }
  assert (Hv1 : vnode_is dead (view h (with_cache c1 s)) f x d)
    by (eapply vnode_is_same; [|exact Hv]; apply same_volume_set_lm).
  destruct (ag_inv _ _ _ _ _ _ Ha1) as [miss1 Hi1]. pose proof (spare_next _ _ _ _ _ _ _ _ Hsp Hi0 Hi1) as Hq1.
  destruct (open_node_run fstat_errno num dead vol h held _ p n f x d (mflags m) Ha1 Hn1 Hf1 Hv1 Hfl)
    as (r2 & n2 & c2 & Hr2 & Ha2 & _ & Hn2 & Ho2).
  assert (Hs2 : fs_filed (with_cache c2 (with_cache c1 s))).
  { apply (on_vol_filed _ _ _ _ Hs1) in Hr2 as ?; [done|]. intros l l' r' Hl' _. by apply open_filed. }
  unfold fs_open_node in Hr. rewrite (ebind_ok _ _ _ _ _ Hr1) in Hr.
  assert (Hm : forall s3 r3, (on_vol vol (vld_open_vnode fstat_errno p (mflags m)) ;;!
      on_vol vol (vld_check_rights fresh fstat_errno p m)) (with_cache c1 s) = Some (s3, r3) -> fs_filed s3).
  { intros s3 r3. destruct r2 as [e2|[]]; [rewrite (ebind_err _ _ _ _ _ Hr2); by intros [= <- _]|].
    rewrite (ebind_ok _ _ _ _ _ Hr2). apply on_vol_filed; [done|]. intros l l' r' Hl' Enf. apply check_filed; [done|].
    rewrite Enf. destruct (ag_inv _ _ _ _ _ _ Ha2) as [miss2 Hi2]. apply (spare_free _ _ _ _ _ Hi2).
    destruct Hq1 as (q & Hq & ?). exists q. split; [|done].
    rewrite (mi_perm _ _ _ _ _ Hi1) in Hq. by rewrite (mi_perm _ _ _ _ _ Hi2). }
  assert (Hend : forall s3 r3, eonerr (on_vol vol (vld_open_vnode fstat_errno p (mflags m)) ;;!
      on_vol vol (vld_check_rights fresh fstat_errno p m)) (free_node p false) (with_cache c1 s) = Some (s3, r3) ->
    fs_filed s3).
  { intros s3 r3 E. apply eonerr_inv in E as [(a & _ & E)|(e0 & s4 & y & _ & E & E4)]; [by apply Hm in E|].
    apply Hm in E. by eapply free_node_filed. }
  apply ebind_inv in Hr as [(e0 & -> & Hr)|(m' & s3 & H3 & Hr)]; [by eapply Hend|].
  injection Hr as <- _. by eapply Hend.
Qed.

Lemma fs_filed_step h h' s s' : handles (fvt s) !! vol = Some h -> fs_filed s ->
  handles (fvt s') !! vol = Some h' -> (forall t, view h' t = view h t) -> vcache (fvt s') = vcache (fvt s) ->
  fs_filed s'.
Proof.
  intros Hp (h0 & Hp0 & Hl) Hp' Hv Ec. rewrite Hp in Hp0. injection Hp0 as <-. exists h'. split; [done|].
  rewrite Hv. unfold view. by rewrite Ec.
Qed.

Lemma init_req_filed h held s x d flags call ids s' r : request num dead vol h held s f x d ->
  Z.land flags VOLOP_GETSTATUS = VOLOP_GETSTATUS -> cps (call_sec call) = Some ids ->
  fs_filed s -> fs_init_req fresh fstat_errno dbos f flags call s = Some (s', r) -> fs_filed s'.
Proof.
  intros Hq Hfl Hcps Hs Hr. destruct (init_vol_run dbos num dead vol h held s f x d flags Hq) as (s1 & j & Ec1 & Er1 & Hr1).
  pose proof (request_has_ref _ _ _ _ _ _ _ _ _ Hq) as Href. destruct Hq as [_ _ _ _ _ _ Ha Hsp Hvn].
  pose proof (ag_handle _ _ _ _ _ _ Ha) as Hp. unfold fs_init_req in Hr.
  assert (Hstep : forall k s2, volume_step vol (in_hand k (Some j) h) s s2 -> vcache (fvt s2) = vcache (fvt s) -> fs_filed s2).
  { intros k s2 H2 E2. apply (fs_filed_step h (in_hand k (Some j) h) s); try done; [by eapply volume_step_handle|].
    intros. apply in_hand_view. }
  destruct (refusal h s f flags) as [e0|].
  { destruct Hr1 as [Hr1 Hs1]. rewrite (ebind_err _ _ _ _ _ Hr1) in Hr. injection Hr as <- _. by eapply Hstep. }
  destruct Hr1 as [Hr1 Hs1]. rewrite (ebind_ok _ _ _ _ _ Hr1) in Hr. set (h1 := in_hand 1 (Some j) h) in *.
  assert (Hf1 : fs_filed s1) by (by eapply Hstep).
  assert (Ha1 : agrees num dead vol h1 held s1) by (by eapply agrees_step).
  assert (Ev1 : view h1 s1 = view h s) by (unfold h1; rewrite in_hand_view; unfold view; by rewrite Ec1).
  destruct (open_checked_run fresh fstat_errno dbos num dead vol h1 held s1 f x d (fs_init_msec call flags) (call_sec call) ids Ha1)
    as (r2 & held2 & c2 & Hr2 & Ha2 & _ & Hres); [by rewrite Ec1|by rewrite Ev1|done..|].
  assert (Hf2 : fs_filed (with_cache c2 s1)).
  { eapply (open_node_filed h1 held s1 x d); [exact Ha1|by rewrite Ec1|by rewrite Ev1|..|exact Hr2]; done. }
  pose proof (volume_step_cache _ _ _ _ c2 Hs1) as Hs2.
  destruct (free_vol_run vol 1 (Some j) h _ (vs_table _ _ _ _ Hs2) (ag_handle _ _ _ _ _ _ Ha2) ltac:(lia))
    as (s3 & Hr3 & Hs3 & Ec3 & _).
  assert (Hf3 : fs_filed s3).
  { apply (fs_filed_step h1 (in_hand (1 - 1) (Some j) h) (with_cache c2 s1)); try done;
      [by apply (ag_handle _ _ _ _ _ _ Ha2)|by eapply volume_step_handle|]. intros. unfold h1. by rewrite !in_hand_view. }
  assert (Hend : forall s4 r4, eonerr (fs_open_node fresh fstat_errno f vol (fs_init_msec call flags)) (free_vol vol) s1 =
    Some (s4, r4) -> fs_filed s4).
  { intros s4 r4 E. apply eonerr_inv in E as [(a & _ & E)|(e0 & s5 & y & _ & E & E5)]; rewrite Hr2 in E.
    - by injection E as <- _.
    - injection E as <- _. rewrite Hr3 in E5. by injection E5 as <- _. }
  apply ebind_inv in Hr as [(e0 & -> & Hr)|(m' & s4 & H4 & Hr)]; [by eapply Hend|].
  injection Hr as <- _. by eapply Hend.
Qed.
Lemma finish_filed h k j p held s s' : vtab_ok (fvt s) ->
  agrees num dead vol (in_hand k (Some j) h) (p :: held) s -> 2 <= h_ref h + k -> fs_filed s ->
  finish vol p s = Some (s', inr tt) -> filed f part o i b (vcache (fvt s')).
Proof.
  intros Hok Ha Hr Hs Hf. destruct (free_node_run num dead vol _ held s p false Ha) as (c & Hr1 & Ha1 & _ & _).
  destruct (free_node_filed _ _ _ _ _ Hs Hr1) as (h2 & _ & Hv).
  destruct (free_vol_run vol k (Some j) h (with_cache c s)) as (s2 & Hr2 & _ & Ec2 & _);
    [by apply vtab_ok_cache|apply Ha1|done|].
  unfold finish in Hf. rewrite (ebind_ok _ _ _ _ _ Hr1), Hr2 in Hf. injection Hf as <-. rewrite Ec2. apply Hv.
Qed.
End Files.

(** ** The data *)

Lemma on_cache_node_run p n s : nodes (vcache (fvt s)) !! p = Some n -> on_cache (node p) s = Some (s, inr n).
Proof.
  intros Hn. unfold on_cache, on_vt, vt_on_mn. unfold elift. rewrite (node_run _ _ _ Hn). by destruct s as [[] ? ? ?].
Qed.

(** What a client is sent of a file: its part from [offset] on, at most [want]
    bytes. *)
Definition fetched (b : bytes) (offset want : Z) : bytes := take (Z.to_nat want) (drop (Z.to_nat offset) b).
Lemma fetched_len b offset want : 0 <= offset < 2 ^ 31 -> 0 <= want < 2 ^ 31 -> blen b < 2 ^ 32 ->
  fetch_len (blen b) offset want = (negb (blen b <? offset), blen (fetched b offset want)).
Proof.
  intros Ho Hw Hb. unfold fetch_len, fetched. pose proof (blen_nonneg b).
  assert (E : uwrap32 offset = offset) by (apply Z.mod_small; lia). rewrite E.
  destruct (Z.ltb_spec (blen b) offset) as [Hlt|Hge]; cbn [negb].
  - rewrite drop_ge by (unfold blen in Hlt; lia). by rewrite take_nil.
  - f_equal. unfold umin. rewrite !(fun z Hz => Z.mod_small z (2 ^ 32) Hz : uwrap32 z = z) by lia.
    unfold blen. rewrite length_take, length_drop. unfold blen in *.
    destruct (Z.ltb_spec want (Z.of_nat (length b) - offset));
      (unfold swrap32; rewrite Z.mod_small by lia; lia).
Qed.

Lemma take_own_length n (l : bytes) : take (length (take n l)) l = take n l.
Proof.
  rewrite length_take. destruct (Nat.min_spec n (length l)) as [[_ ->]|[H ->]]; [done|]. by rewrite !take_ge.
Qed.

Section Fetch.
Context {OC : OnodeCoder} {HC : HostChoice} {HK : HostChoiceOk} {IC : InfoCoder}.
Context (fresh : Z * Mnode.mnode) (fstat_errno : Z -> Z) (dbos : Z -> list Z) (errno pagesize : Z).
Context (Hpage : 0 < pagesize) (Hmax : mmap_max_size mod pagesize = 0).
Context (num : nat) (dead : list AFSFid) (vol : Z).

Lemma fetch_copy_run fd i b s offset want : open_file (fs_host s) fd i b -> 0 <= offset <= blen b -> 0 <= want ->
  let data := fetched b offset want in blen data <= rx_room (fdata s) ->
  on_rx (copyfd2rx pagesize fd offset (blen data)) s = Some (sent data s, inr tt).
Proof.
  intros Hf Ho Hw data Hr. pose proof (blen_nonneg data) as H0.
  assert (Hd : offset + blen data <= blen b).
  { unfold data, fetched, blen in *. rewrite length_take, length_drop. lia. }
  apply on_rx_data. unfold copyfd2rx, as_rxfile. rewrite Z.rem_mod_nonneg by lia.
  pose proof (Z.mod_pos_bound offset pagesize Hpage) as Hb. pose proof (Z.mod_le offset pagesize ltac:(lia) Hpage) as Hle.
  rewrite (copyfd_loop_run pagesize Hpage Hmax fd i b); try done; try lia.
  - unfold blen at 2. rewrite Nat2Z.id. unfold data at 2 4, fetched. by rewrite take_own_length.
  - left. rewrite Zminus_mod_idemp_r, Z.sub_diag. apply Z.mod_0_l. lia.
  - unfold copy_fuel. lia.
Qed.

End Fetch.
