(* ===== verification/FsStore.v ===== *)
(** * The file server: a status that is stored

    StoreStatus as the composition of the guard, the change of the vnode and
    its database, and the promises of the other clients. *)

From S2P Require Import Prelude Items Estate Buf Fdir Vnum Mdir Voldb VoldbRep VoldbFree VoldbSim Vrights VrightsCorrect.
From S2P Require Import Svol SvolCorrect Mnode MnodeCorrect Vinfo VinfoCorrect Vld VldCorrect VldModify VldKeep.
From S2P Require Import Vtab VtabCorrect Vtrans VtransCorrect Rxcopy Fsacl Connsec Fsprocs FsRun FsCorrect.
From S2P Require Ropa RopaPair RopaCorrect RopaGet.

Local Open Scope em_scope.

(** ** What a caller may set *)

(** The status that is stored; [None] for what needs the superuser. *)
Definition allowed (sc : fs_security_context) (ss : AFSStoreStatus) (createp : bool) : option AFSStoreStatus :=
  let owner := uwrap32 (uid sc) in
  let ss' := if createp && negb (masked ss SS_OWNER) then set_store_owner owner ss else ss in
  if superuser sc then Some ss' else
  if masked ss SS_OWNER && negb (ss_Owner ss =? owner) then None else
  if masked ss' SS_MODEBITS && negb (Z.land 3584 (ss_UnixModeBits ss') =? 0) then None else Some ss'.

Lemma check_ss_bits_run m sc ss createp s : sec m = Some sc ->
  check_ss_bits m ss createp s =
    Some (s, match allowed sc ss createp with Some ss' => inr ss' | None => inl EPERM end).
Proof.
  intros Hsec. unfold check_ss_bits, allowed. rewrite Hsec. unfold eopt at 1. rewrite ebind_ret.
  destruct (superuser sc), (masked ss SS_OWNER) eqn:Ho, createp, (ss_Owner ss =? uwrap32 (uid sc));
    unfold ebind, eret, efail; cbn [andb negb]; rewrite ?andb_true_r, ?andb_false_r; try done; by case_match.
Qed.

Lemma allowed_wf sc ss createp ss' : status_wf ss -> allowed sc ss createp = Some ss' -> status_wf ss'.
Proof.
  intros Hss. unfold allowed.
  assert (Hw : status_wf (if createp && negb (masked ss SS_OWNER)
    then set_store_owner (uwrap32 (uid sc)) ss else ss)).
  { destruct (createp && _); [|done]. destruct ss. unfold status_wf in *. cbn in *.
    pose proof (uwrap32_uint32 (uid sc)). intuition. }
  repeat case_match; intros [=]; by subst.
Qed.

(** ** The change of a vnode *)

Lemma on_vol_change {A} p (m : LM A) h s l r : handles (fvt s) !! p = Some h -> m (view h s) = Some (l, r) ->
  on_vol p m s =
    Some (set_fvt (set_vcache (lm l) (set_handles (<[p := volume_back l h]> (handles (fvt s))) (fvt s))) s, r).
Proof.
  intros Hp Hm. unfold on_vol, on_vt, elift, on_volume. rewrite Hp. cbn [mbind option_bind].
  unfold view in Hm. by rewrite Hm.
Qed.

(** The handle with the database [d]. *)
Definition with_db (dirp : bool) (d : voldb) (h : volume_handle) : volume_handle := set_h_db dirp (Some d) h.
Lemma with_db_in_hand dirp d k li h : with_db dirp d (in_hand k li h) = in_hand k li (with_db dirp d h).
Proof. by destruct dirp, h. Qed.
Lemma with_db_fields dirp d h : let h' := with_db dirp d h in
  h_ref h' = h_ref h /\ h_vol h' = h_vol h /\ h_voldbp h' = h_voldbp h /\ h_db_li h' = h_db_li h /\
  h_info h' = h_info h /\ h_infop h' = h_infop h.
Proof. by destruct dirp, h. Qed.
Lemma view_db h s dirp : ldb dirp (view h s) = h_db dirp h.
Proof. by destruct dirp, h. Qed.

Lemma sized_same s : sized (vi_size (linfo s) + 0) s = s.
Proof. rewrite Z.add_0_r. destruct s as [? ? [] ? ? ? ? ? ?]. done. Qed.
Lemma volume_back_db p n g dirp d h c : volume_back (with_node p n g (set_ldb dirp d (volume_view h c))) h = with_db dirp d h.
Proof. by destruct dirp, h. Qed.
Lemma view_back p n g dirp d h c :
  volume_view (with_db dirp d h) (lm (with_node p n g (set_ldb dirp d (volume_view h c)))) =
    with_node p n g (set_ldb dirp d (volume_view h c)).
Proof. by destruct dirp, h. Qed.

Lemma vnode_at_same `{OnodeCoderOk} s s' f dirp k d fl : same_volume s s' -> vnode_at s f dirp k d fl -> vnode_at s' f dirp k d fl.
Proof.
  intros Hv [H1 H2 H3 H4 H5 H6]. split; try done. rewrite <- H2. destruct dirp; apply Hv.
Qed.
Lemma info_ready_volume `{OnodeCoderOk} s s' : same_volume s s' -> info_ready s -> info_ready s'.
Proof.
  intros (_ & _ & E1 & E2 & E3 & _) [H1 H2 H3 H4]. by split; rewrite ?E1, ?E2, ?E3.
Qed.

Section Store.
Context `{OnodeCoderOk} `{InfoCoderOk} `{HostChoice}.
Context (fresh : Z * Mnode.mnode) (fstat_errno : Z -> Z) (dbos : Z -> list Z).
Context (num : nat) (dead : list AFSFid) (vol : Z).

Lemma modify_vnode_run h held s p n f x now flags ss dirp k d fl :
  vtab_ok (fvt s) -> 1 <= h_ref h -> agrees num dead vol h (p :: held) s -> nodes (vcache (fvt s)) !! p = Some n ->
  node_open h s f x n -> vnode_at (view h s) f dirp k d fl -> storable dirp x -> db_entry (view h s) f = Some x ->
  info_ready (view h s) -> lone dead (view h s) p f -> status_wf ss ->
  exists x1, with_status (Some ss) x = Some x1 /\ let x' := modified now flags None x1 in
  let h' := with_db dirp (put_slot k (fent x') d) h in
  exists s' n', on_vol vol (vld_modify_vnode fstat_errno now p flags (Some ss) None) s = Some (s', inr tt) /\
    volume_step vol h' s s' /\ fropa s' = fropa s /\ agrees num dead vol h' (p :: held) s' /\
    nodes (vcache (fvt s')) !! p = Some n' /\ node_open h' s' f x' n' /\ storable dirp x' /\
    db_entry (view h' s') f = Some x' /\
    (forall g, ~ same_slot g f -> db_entry (view h' s') g = db_entry (view h s) g).
Proof.
  intros Hok Href [[miss Hi] Hc Hp] Hn (Hf & He & Hep & Hfs & Hfd & Hsb & _) Hat Hst Hx Hinfo Hl Hss. subst f x.
  assert (Hsz : is_int32 (vi_size (linfo (view h s)) + 0) /\ 0 <= vi_size (linfo (view h s)) + 0).
  { rewrite Z.add_0_r. split; [|apply Hinfo].
    pose proof (ir_wf _ Hinfo) as (_ & _ & Hw & _). rewrite !Forall_cons in Hw. tauto. }
  destruct (modify_run fstat_errno (view h s) p n dirp k d fl Hn Hfd Hep Hsb Hat Hst now flags (Some ss) None
    Hinfo Hss I (proj1 Hsz) (proj2 Hsz)) as (x1 & Hx1 & Hst' & l & r & Hr & Hres).
  exists x1. split; [done|]. intros x' h'. fold x' in Hst', Hres.
  destruct r as [err|[]]; [by destruct Hres as [[? [=]] _]|].
  destruct Hres as (_ & g & n' & -> & Hk & He' & Hep' & Hfsp' & Hsb' & Hfd' & Hfs' & _).
  rewrite sized_same in Hr. set (l := with_node p n' g (set_ldb dirp (put_slot k (fent x') d) (view h s))) in *.
  assert (Hrefit : refit (e n) x') by (by apply modified_refit, with_status_refit with (Some ss)).
  destruct (modify_coherent dead (view h s) p n n' g dirp k d fl (e n) x'
    (vi_size (linfo (view h s)) + 0) (st_size n) Hc Hn (proj1 Hk) Hat Hst' Hx Hrefit
    Hl He' Hsb' Hfs') as (Hc' & Hx' & Hother).
  rewrite sized_same in Hc', Hx', Hother. fold l in Hc', Hx', Hother.
  pose proof (on_vol_change _ _ _ _ _ _ Hp Hr) as Hrun. unfold l, view in Hrun.
  rewrite volume_back_db in Hrun. fold h' in Hrun. eexists _, n'. split; [exact Hrun|].
  match goal with |- volume_step _ _ _ ?s1 /\ _ => set (s' := s1) end.
  assert (Ev : view h' s' = l) by apply view_back.
  assert (Hs : volume_step vol h' s s').
  { pose proof (with_db_fields dirp (put_slot k (fent x') d) h) as F. cbv zeta in F. fold h' in F.
    destruct F as (E1 & E2 & E3 & E4 & _). pose proof (va_db _ _ _ _ _ _ Hat) as Hdb. rewrite view_db in Hdb.
    split; try done. apply vtab_ok_cache. apply (vtab_ok_change _ _ h); try done; [by rewrite E1|..].
    all: unfold h', same_open; destruct dirp, h; cbn in *; subst; split; intros; eauto. }
  assert (Ha : agrees num dead vol h' (p :: held) s').
  { split; [|by rewrite Ev|by eapply volume_step_handle]. exists miss.
    assert (Hi' : minv num (lm (with_node p n' g (view h s))) (p :: held) dead miss) by (by eapply minv_with_node).
    replace (vcache (fvt s')) with (lm (with_node p n' g (view h s))); [done|]. by destruct dirp. }
  split; [done|]. split; [done|]. split; [done|]. split; [apply lookup_insert_eq|].
  rewrite Ev. split; [|done]. unfold node_open. rewrite Ev.
  destruct Hk as (-> & _). split_and!; try done. exists (fs n), (default (st_size n) None). rewrite Hfs'.
  by destruct dirp.
Qed.

Lemma lone_found h held s0 s p n f x : agrees num dead vol h (p :: held) s ->
  nodes (vcache (fvt s)) !! p = Some n -> mfid n = f -> f ∉ dead ->
  cache_fids (f :: parents f x) (vcache (fvt s0)) (vcache (fvt s)) ->
  (forall g, g ∈ parents f x -> ~ same_slot g f) ->
  (forall q m, nodes (vcache (fvt s0)) !! q = Some m -> Volume (mfid m) = h_vol h -> mfid m ∉ dead ->
     mfid m <> f -> ~ same_slot (mfid m) f) -> lone dead (view h s) p f.
Proof.
  intros [[miss Hi] _ _] Hn Hf Hfd Hw Hpar Hother q m Hq Hm Hv Hd.
  assert (Hmf : mfid m <> f).
  { intros E. apply Hq. destruct (mi_node _ _ _ _ _ Hi q m Hm) as (_ & _ & Hm1 & _).
    destruct (mi_node _ _ _ _ _ Hi p n Hn) as (_ & _ & Hn1 & _). rewrite E in Hm1. rewrite Hf in Hn1.
    destruct Hm1 as [Hm1|(_ & _ & ?)]; [|done]. destruct Hn1 as [Hn1|(_ & _ & ?)]; [|done]. congruence. }
  destruct (Hw q m Hm) as [[?|Hp]%elem_of_cons|(q0 & m0 & Hm0 & E)]; [done|by apply Hpar|].
  rewrite <- E in *. by apply (Hother q0 m0).
Qed.

(** The part of the procedure between the guard and the end, for a status that
    may be set: the vnode changes and the other clients are told. *)
Definition store_work (call : rx_call) (f : AFSFid) (ss : AFSStoreStatus) (q : Z) (m : msec) : FM AFSFetchStatus :=
  ss <-- check_ss_bits m ss true ;;
  r <-- etry (modify fstat_errno vol q m (Some ss) None ;;! status_of_node q m) ;;
  break_promises call f false ;;!
  match r with inl e => efail e | inr st => eret st end.
Record others_told (s s' : fserver) (f : AFSFid) (c : Z) : Prop := {
  ot_quiet : RopaPair.quiet (fropa s');
  ot_promise f' c' : RopaCorrect.promise (fropa s') f' c' =
    if decide (f' = f /\ c' <> c) then None else RopaCorrect.promise (fropa s) f' c';
  ot_sent : exists msgs, Ropa.sent (fropa s') = msgs ++ Ropa.sent (fropa s) /\
    RopaCorrect.told_others (fropa s) f (Some c) msgs
}.

Lemma store_work_run h held s p n f x m call c ss ss' dirp k d fl : vtab_ok (fvt s) -> 1 <= h_ref h ->
  agrees num dead vol h (p :: held) s -> nodes (vcache (fvt s)) !! p = Some n ->
  node_open h s f x n -> vnode_at (view h s) f dirp k d fl -> storable dirp x -> db_entry (view h s) f = Some x ->
  info_ready (view h s) -> lone dead (view h s) p f -> status_wf ss -> writes (mflags m) = false ->
  sec m = Some (call_sec call) -> allowed (call_sec call) ss true = Some ss' ->
  RopaPair.quiet (fropa s) -> RopaCorrect.at_address (fropa s) (GETHOST call) (GETPORT call) c ->
  RopaCorrect.others_reachable (fropa s) f (Some c) ->
  exists x', with_status (Some ss') x = Some x' /\ let h' := with_db dirp (put_slot k (fent x') d) h in
  exists s' len, store_work call f ss p m s = Some (s', inr (status_told h x' m len)) /\
    volume_step vol h' s s' /\ agrees num dead vol h' (p :: held) s' /\ others_told s s' f c /\
    db_entry (view h' s') f = Some x' /\
    (forall g, ~ same_slot g f -> db_entry (view h' s') g = db_entry (view h s) g).
Proof.
  intros Hok Href Ha Hn Hon Hat Hst Hx Hinfo Hl Hss Hw Hsec Hal Q1 Q2 Q3.
  destruct (modify_vnode_run h held s p n f x (Ropa.now (fropa s)) (mflags m) ss' dirp k d fl Hok Href Ha Hn Hon
    Hat Hst Hx Hinfo Hl (allowed_wf _ _ _ _ Hss Hal)) as (x' & Hx' & Hmod). exists x'. split; [done|].
  unfold modified in Hmod. rewrite Hw in Hmod. set (d' := put_slot k (fent x') d) in *.
  destruct Hmod as (s2 & n2 & Hr2 & Hs2 & Er2 & Ha2 & Hn2 & Hon2 & _ & Hdb & Hoth). cbv zeta.
  destruct (RopaCorrect.ropa_break_callback_run (fropa s2) (GETHOST call) (GETPORT call) f c false)
    as (y & msgs & Hg & Hy & Hprom & Hsent & Htold); [by rewrite Er2..|].
  rewrite Er2 in Hprom, Hsent, Htold. destruct Hon2 as (_ & _ & _ & _ & _ & _ & Hst2).
  destruct (status_shown _ _ _ _ m Hst2) as [len Elen].
  assert (Et : status_told (with_db dirp d' h) x' m len = status_told h x' m len) by (by destruct dirp, h).
  exists (set_fropa y s2), len. split; [|split; [by destruct Hs2|split; [by split; apply Ha2|split; [|done]]]].
  - unfold store_work. pose proof (check_ss_bits_run m (call_sec call) ss true s Hsec) as Hck.
    rewrite Hal in Hck. lrun Hck.
    assert (Htry : etry (modify fstat_errno vol p m (Some ss') None ;;! status_of_node p m) s
      = Some (s2, inr (inr (fs_update_fs n2 m)))).
    { unfold etry, modify. unfold ebind at 1. unfold ebind at 1. unfold fclock, eget, eret. unfold ebind at 1.
      rewrite Hr2. by rewrite (status_of_node_run s2 p n2 m Hn2). }
    lrun Htry. unfold break_promises, on_ropa. lrun (elift_run fropa set_fropa _ s2 _ _ Hg). by rewrite Elen, Et.
  - split; cbn [fropa set_fropa]; [done| |by exists msgs].
    intros f' c'. rewrite Hprom. apply decide_ext. intuition. discriminate.
Qed.

(** C6: StoreStatus.  For a client that is known the call always returns,
    with the references to the volume and the nodes as before.  When it
    answers a status, the entry of the vnode in its database is the one of
    before with the status that was asked for (and with the caller as owner
    when no owner was given), no other vnode's entry has changed, the cache
    agrees with the databases again, and every other client with a promise for
    the vnode has been told while nobody else has lost one.  What the caller
    needs for this is the right to read: no right to write is asked for.  When
    it answers an error nothing has changed in the databases and the
    promises. *)
Theorem SRXAFS_StoreStatus_correct h held s f x d call ids c dirp k db fl ss :
  request num dead vol h held s f x d -> cps (call_sec call) = Some ids ->
  RopaPair.quiet (fropa s) -> RopaCorrect.at_address (fropa s) (GETHOST call) (GETPORT call) c ->
  RopaCorrect.others_reachable (fropa s) f (Some c) ->
  vnode_at (view h s) f dirp k db fl -> storable dirp x -> info_ready (view h s) -> status_wf ss ->
  (forall g, g ∈ parents f x -> ~ same_slot g f) ->
  (forall q m, nodes (vcache (fvt s)) !! q = Some m -> Volume (mfid m) = h_vol h -> mfid m ∉ dead ->
     mfid m <> f -> ~ same_slot (mfid m) f) ->
  exists s' r j, SRXAFS_StoreStatus fresh fstat_errno dbos call f ss s = Some (s', r) /\
  match r with
  | inl e =>
      volume_step vol (in_hand 0 (Some j) h) s s' /\ agrees num dead vol (in_hand 0 (Some j) h) held s' /\
      fropa s' = fropa s
  | inr st => exists ss' x',
      let h' := in_hand 0 (Some j) (with_db dirp (put_slot k (fent x') db) h) in
      refusal h s f VOLOP_GETSTATUS = None /\ allowed (call_sec call) ss true = Some ss' /\
      with_status (Some ss') x = Some x' /\
      (exists m len, check_dir_rights d ids (fs_init_msec call VOLOP_GETSTATUS) (superuser (call_sec call)) = (m, 0) /\
         st = status_told h x' m len) /\
      volume_step vol h' s s' /\ agrees num dead vol h' held s' /\
      db_entry (view h' s') f = Some x' /\
      (forall g, ~ same_slot g f -> db_entry (view h' s') g = db_entry (view h s) g) /\
      others_told s s' f c
  end.
Proof.
  intros Hq Hcps Q1 Q2 Q3 Hat Hst Hinfo Hss Hpar Hother.
  pose proof (request_has_ref _ _ _ _ _ _ _ _ _ Hq) as Href.
  destruct (init_req_run fresh fstat_errno dbos num dead vol h held s f x d VOLOP_GETSTATUS call ids Hq eq_refl Hcps)
    as (s1 & r & Hr & (Er & W1 & j & Hmade) & _). unfold SRXAFS_StoreStatus.
  destruct r as [e|[[v q] m]].
  { destruct Hmade as [Hs Ha]. exists s1, (inl e), j. by rewrite (ebind_err _ _ _ _ _ Hr). }
  destruct Hmade as (-> & Href0 & Hch & Hs1 & Ha1 & n & Hn & Hon). lrun Hr.
  set (h1 := in_hand 1 (Some j) h) in *.
  destruct (in_hand_fields 1 (Some j) h) as (Eref & Evol & _). fold h1 in Eref, Evol.
  assert (Hm : sec m = Some (call_sec call) /\ writes (mflags m) = false).
  { unfold check_dir_rights in Hch. destruct (dir_access _ _ _). by injection Hch as <-. }
  destruct Hm as [Hsec Hwr].
  assert (Hv1 : same_volume (view h s) (view h1 s1)) by (unfold h1; rewrite in_hand_view; by split_and!).
  destruct (allowed (call_sec call) ss true) as [ss'|] eqn:Hal.
  2:{ destruct (finish_run num dead vol h 1 j q held s1) as (s2 & Hr2 & Hs2 & Ha2 & Er2 & _); [apply Hs1|done|lia|].
      exists s2, (inl EPERM), j. split; [|split; [by eapply volume_step_trans|split; [done|congruence]]].
      eapply efinally_run; [|exact Hr2]. apply ebind_err. by rewrite (check_ss_bits_run m _ ss true s1 Hsec), Hal. }
  assert (Hl : lone dead (view h1 s1) q f).
  { apply (lone_found h1 held s s1 q n f x); try done; [apply Hon|apply Hq|].
    intros q0 m0 Hm0 Hvol. apply (Hother q0 m0 Hm0). congruence. }
  destruct (store_work_run h1 held s1 q n f x m call c ss ss' dirp k db fl) as
    (x' & Hx' & s2 & len & Hr2 & Hs2 & Ha2 & [T1 T2 T3] & Hdb & Hoth); try done; try (by rewrite Er).
  { apply Hs1. } { lia. } { unfold node_open in *. unfold h1. by rewrite in_hand_view. } { by eapply vnode_at_same. }
  { rewrite (db_entry_same _ _ _ Hv1). apply Hq. } { by eapply info_ready_volume. }
  rewrite Er in T2, T3. set (db' := put_slot k (fent x') db) in *.
  assert (E1 : with_db dirp db' h1 = in_hand 1 (Some j) (with_db dirp db' h)) by (unfold h1; apply with_db_in_hand).
  rewrite E1 in *.
  destruct (finish_run num dead vol (with_db dirp db' h) 1 j q held s2) as (s3 & Hr3 & Hs3 & Ha3 & Er3 & _);
    [apply Hs2|done|destruct (with_db_fields dirp db' h) as (-> & _); lia|].
  assert (Hv3 : same_volume (view (in_hand 1 (Some j) (with_db dirp db' h)) s2)
    (view (in_hand 0 (Some j) (with_db dirp db' h)) s3)) by (rewrite !in_hand_view; by split_and!).
  assert (Et : status_told h1 x' m len = status_told h x' m len) by (unfold h1; by destruct h).
  exists s3, (inr (status_told h1 x' m len)), j.
  split; [exact (efinally_run (store_work call f ss q m) _ _ _ _ _ _ Hr2 Hr3)|]. exists ss', x'. cbv zeta. fold db'.
  split_and!; try done.
  - by exists m, len.
  - eapply volume_step_trans; [|exact Hs3]. by eapply volume_step_trans.
  - by rewrite (db_entry_same _ _ _ Hv3).
  - intros g0 Hg0. by rewrite (db_entry_same _ _ _ Hv3), Hoth, (db_entry_same _ _ _ Hv1).
  - split; by rewrite Er3.
Qed.
End Store.
