(* ===== verification/FsExamples.v ===== *)
(** * The file server: runs

    A server with one volume, a directory and a file in it, on which the
    theorems of [FsCorrect] are instantiated; and runs of a server whose
    volume was made by [vld_create_volume], in which procedures do what they
    are not meant to. *)

From S2P Require Import Prelude Items Estate Buf Fdir Vnum Mdir Voldb VoldbRep VoldbFree VoldbProps Vrights.
From S2P Require Import Svol SvolCorrect Mnode MnodeCorrect Vinfo VinfoCorrect Vld VldCorrect VldExamples.
From S2P Require Import VldModify VldKeep Vtab VtabCorrect Vtrans VtransCorrect Rxcopy Fsacl Connsec Fsprocs.
From S2P Require Import FsRun DumpCorrect FsCorrect FsStore VldFiles.
From S2P Require Ropa RopaPair RopaCorrect RopaGet RopaExamples.

Local Open Scope em_scope.

Module World.
Import SvolCorrect.Witnesses VinfoCorrect.Witnesses VldExamples.World.
#[local] Existing Instance demo_host.
#[local] Existing Instance demo_host_ok.
#[local] Existing Instance word_info.
#[local] Existing Instance word_info_ok.

Definition host5 : hostfs :=
  Host ({[vicepa]} ∪ up name7 ∪ up name8) {[name7 := 7; name8 := 8]}
    {[7 := replicate 124 0; 8 := replicate 2990 0 ++ seqZ 1 10]} ∅ [].
Definition h5 : volume_handle :=
  Handle 0 5 1 0 vicepa (set_vi_size 4 info7) true true false false false opaque7 zero_onode zero_onode
    (Some dir_db) (Some file_db) (Some 1).
Definition table5 : vtab := Vtab {[100 := h5]} {[5 := 100]} [(1, Some 100)] [100] 2 (mnode_init 5 host5).
Definition server5 : fserver := FServer table5 RopaExamples.World.w2 trans_boot (RxData [] 0 0 []).
(** The owner of the directory at the address of a known client. *)
Definition user : rx_call := RxCall 1 7001 (SecCtx (Some [7; 9]) 7 false).

Lemma table5_ok : vtab_ok table5.
Proof.
  split; cbn.
  - split; [apply NoDup_singleton|by repeat constructor].
  - intros num q [<- <-]%lookup_singleton_Some. exists h5. split; [apply lookup_singleton_eq|done].
  - intros q h i [<- <-]%lookup_singleton_Some. intros [= <-]. split; [left|]. by eauto.
  - intros i q [[= -> ->]|[]%not_elem_of_nil]%elem_of_cons. exists h5. split; [apply lookup_singleton_eq|done].
  - by intros q h [<- <-]%lookup_singleton_Some.
Qed.

Lemma init_node num h p n : nodes (mnode_init num h) !! p = Some n -> n = set_li true zero_mnode.
Proof.
  unfold mnode_init. cbn [nodes]. intros Hn%elem_of_list_to_map_2.
  apply list_elem_of_fmap in Hn as (q & [= _ ->] & _). done.
Qed.

Lemma same5 : same_volume volume5 (view h5 server5).
Proof. by split_and!. Qed.
Lemma agrees5 : agrees 5 [zero_fid] 100 h5 [] server5.
Proof.
  split; [exists 0; apply minv_init| |reflexivity].
  intros p n Hn _ _. apply init_node in Hn as ->. by split.
Qed.
Lemma spare5 : spare [] (vcache (fvt server5)).
Proof.
  exists 1, 2. split; [done|]. change (lru (vcache (fvt server5))) with [5; 4; 3; 2; 1].
  split_and!; try apply not_elem_of_nil; set_solver.
Qed.

Lemma file5 : vnode_is [zero_fid] (view h5 server5) file_fid file_entry root_dir.
Proof.
  apply (vnode_is_same _ volume5); [exact same5|]. split.
  - reflexivity.
  - by intros [?|?%elem_of_nil]%elem_of_cons.
  - exact file_read.
  - by left.
  - exact opaque8_wf.
  - split; [discriminate|]. split; [by intros [?|?%elem_of_nil]%elem_of_cons|]. exact root_read.
  - exact opaque7_wf.
Qed.
Lemma request5 : request 5 [zero_fid] 100 h5 [] server5 file_fid file_entry root_dir.
Proof.
  split; try done.
  - exists []. apply tinv_boot.
  - exact table5_ok.
  - exact agrees5.
  - exact spare5.
  - exact file5.
Qed.

(** The data of the call does not matter to a request. *)
Lemma request_data num dead vol h held s f x d y : request num dead vol h held s f x d ->
  request num dead vol h held (with_data y s) f x d.
Proof. intros [Q1 Q2 Q3 Q4 Q5 Q6 [A1 A2 A3] Q8 Q9]. by split. Qed.

Lemma promise5 : can_promise (fropa server5) user file_fid 3 4.
Proof.
  split.
  - exact RopaExamples.World.quiet_w2.
  - exact (proj1 RopaExamples.World.at_w2).
  - right. exists [(4, 1); (5, 2); (6, 3)], 7, 4, (Ropa.Cb (Build_AFSFid 0 0 0) [] 0 (Some 7)). split; by vm_compute.
  - exact RopaExamples.World.next_w2.
  - apply RopaExamples.World.victim_check. by vm_compute.
Qed.

Definition pass5 := fs_init_req MnodeCorrect.Witnesses.memory (fun _ => 0) (fun _ => []).
Lemma pass_result : snd <$> pass5 file_fid VOLOP_GETSTATUS user server5 =
  Some (inr (100, 1, set_access 127 0 (fs_init_msec user VOLOP_GETSTATUS))).
Proof. vm_compute. reflexivity. Qed.
(** The caller has no right to the directory, or is let pass. *)
Lemma fs_init_req_correct_witness : exists s' m,
  pass5 file_fid VOLOP_GETSTATUS user server5 = Some (s', inr (100, 1, m)) /\ caller_access m = 127 /\
  h_ref <$> (handles (fvt s') !! 100) = Some 2.
Proof.
  destruct (fs_init_req_correct MnodeCorrect.Witnesses.memory (fun _ => 0) (fun _ => []) 5 [zero_fid] 100 h5 []
    server5 file_fid file_entry root_dir VOLOP_GETSTATUS user [7; 9] request5 eq_refl eq_refl)
    as (s' & r & Hr & (_ & _ & j & Hmade) & _).
  pose proof pass_result as E. unfold pass5 in *. rewrite Hr in E. injection E as ->.
  destruct Hmade as (_ & _ & _ & Hs & _). exists s', (set_access 127 0 (fs_init_msec user VOLOP_GETSTATUS)).
  split; [exact Hr|]. split; [reflexivity|]. rewrite (vs_handles _ _ _ _ Hs), lookup_insert_eq. reflexivity.
Defined.

Definition status5 := SRXAFS_FetchStatus MnodeCorrect.Witnesses.memory (fun _ => 0) (fun _ => []) user file_fid.
Lemma status_result : match snd <$> status5 server5 with
  | Some (inr (st, cb)) => fs_LinkCount st = 1 /\ fs_CallerAccess st = 127 | _ => False end.
Proof. vm_compute. split; reflexivity. Qed.
Lemma SRXAFS_FetchStatus_correct_witness : exists s' st cb,
  status5 server5 = Some (s', inr (st, cb)) /\ fs_CallerAccess st = 127 /\
  RopaCorrect.promise (fropa s') file_fid 3 = Some 3700 /\ h_ref <$> (handles (fvt s') !! 100) = Some 1.
Proof.
  destruct (SRXAFS_FetchStatus_correct MnodeCorrect.Witnesses.memory (fun _ => 0) (fun _ => []) 5 [zero_fid] 100 h5 []
    server5 file_fid file_entry root_dir user [7; 9] 3 4 request5 eq_refl promise5)
    as (s' & r & j & Hr & Hs & _ & Hres).
  pose proof status_result as E. unfold status5 in *. rewrite Hr in E. cbn [fmap option_fmap option_map snd] in E.
  destruct r as [e|[st cb]]; [destruct E|]. destruct E as [_ E]. destruct Hres as (_ & _ & _ & _ & Hp).
  exists s', st, cb. split; [exact Hr|]. split; [exact E|]. split.
  - etransitivity; [exact Hp|]. vm_compute. reflexivity.
  - rewrite (vs_handles _ _ _ _ Hs), lookup_insert_eq. reflexivity.
Defined.

(** ** Data that is fetched *)

Definition bytes5 : bytes := replicate 2990 0 ++ seqZ 1 10.
Lemma filed5 : filed file_fid vicepa opaque8 8 bytes5 (vcache (fvt server5)).
Proof.
  split.
  - split; [reflexivity|by vm_compute|reflexivity].
  - intros p n Hn. apply init_node in Hn as ->. by split.
  - intros p q n m Hn _. apply init_node in Hn as ->. discriminate.
Qed.
(** The same server in a call that may send 100 bytes. *)
Definition caller5 : fserver := with_data (RxData [] 100 0 []) server5.
Definition fetch5 := SRXAFS_FetchData MnodeCorrect.Witnesses.memory (fun _ => 0) (fun _ => []) 0 4096 user file_fid.
Lemma fetch_result : match snd <$> fetch5 2993 50 caller5 with Some (inr (st, _)) => fs_Length st = 3000 | _ => False end.
Proof. vm_compute. reflexivity. Qed.

(** ** A status that is stored *)

Definition mode644 : AFSStoreStatus := StoreStatus SS_MODEBITS 0 0 0 420 0.
Lemma file5_at : exists fl, vnode_at (view h5 server5) file_fid false 0 file_db fl.
Proof.
  destruct file_vnode_at as [fl Hat], file_at as (_ & E & _). rewrite E in Hat. exists fl.
  eapply vnode_at_same; [exact same5|exact Hat].
Qed.
Definition store5 := SRXAFS_StoreStatus MnodeCorrect.Witnesses.memory (fun _ => 0) (fun _ => []) user file_fid mode644.
Lemma store_result : match snd <$> store5 server5 with
  | Some (inr st) => fs_Owner st = 7 /\ fs_UnixModeBits st = 420 | _ => False end.
Proof. vm_compute. split; reflexivity. Qed.
(** The mode is set and the caller has become the owner. *)
Lemma SRXAFS_StoreStatus_correct_witness : exists s' st d',
  store5 server5 = Some (s', inr st) /\ fs_Owner st = 7 /\ fs_UnixModeBits st = 420 /\
  match handles (fvt s') !! 100 with Some h => h_file h | None => None end = Some d' /\
  Owner (slot d' 0) = 7.
Proof.
  destruct file5_at as [fl Hat].
  destruct (SRXAFS_StoreStatus_correct MnodeCorrect.Witnesses.memory (fun _ => 0) (fun _ => []) 5 [zero_fid] 100 h5 []
    server5 file_fid file_entry root_dir user [7; 9] 3 false 0 file_db fl mode644 request5 eq_refl
    RopaExamples.World.quiet_w2 (proj1 RopaExamples.World.at_w2)) as (s' & r & j & Hr & Hres).
  - intros c x _ _ Hx. apply (RopaExamples.reach_check RopaExamples.World.w2) with c; [by vm_compute|exact Hx].
  - exact Hat.
  - exact file_storable.
  - eapply info_ready_volume; [exact same5|exact volume5_info].
  - unfold status_wf, is_uint32, mode644. cbn. lia.
  - intros g Hg (dp & k & k' & E1 & E2 & _). apply list_elem_of_singleton in Hg as ->.
    vm_compute in E1, E2. injection E1 as E1 _. injection E2 as E2 _. rewrite <- E2 in E1. discriminate E1.
  - intros q m Hm Hv. apply init_node in Hm as ->. discriminate Hv.
  - pose proof store_result as E. unfold store5 in *. rewrite Hr in E. cbn [fmap option_fmap option_map snd] in E.
    destruct r as [e|st]; [destruct E|]. destruct E as [E1 E2].
    destruct Hres as (ss' & x' & _ & Hal & Hx' & _ & Hs & _).
    vm_compute in Hal. injection Hal as <-. vm_compute in Hx'. injection Hx' as <-.
    exists s', st. eexists. split; [exact Hr|]. split; [exact E1|]. split; [exact E2|].
    rewrite (vs_handles _ _ _ _ Hs), lookup_insert_eq. split; [reflexivity|]. vm_compute. reflexivity.
Defined.
End World.

(** ** A server from its creation

    A partition without files, a volume made by [vld_create_volume] and calls
    of its owner and of another user. *)

Module Created.
Import SvolCorrect.Witnesses VinfoCorrect.Witnesses.
#[local] Existing Instance word_info.
#[local] Instance status_bytes : StatusCoder := {| VSTATUS_SIZE := 4; ydr_encode_vstatus _ := Some [1; 2; 3; 4] |}.
(** Inodes in steps of 256. *)
#[local] Instance spread_host : HostChoice := {
  tmpname s t := find (fun q => negb (name_used s q))
    (map (fun c => take (length t - 6) t ++ [c; 97; 97; 97; 97; 97]) (seqZ 97 26));
  new_ino s := find (fun i => negb (ino_usedb s i)) (map (fun i => 256 * i) (seqZ 1 60));
  new_fd s := fresh (dom (hfds s) : gset Z)
}.
Definition no_errno (_ : Z) : Z := 0.
Definition no_errno2 (_ _ : Z) : Z := 0.
Definition resized (_ _ : Z) : option Z := Some 0.
Definition mem : Z * mnode := (99, zero_mnode).
Definition empty : vtab := vtab_boot (mnode_init 5 (Host {[vicepa]} ∅ ∅ ∅ [])).
Definition create_run : option (vtab * (Z + unit)) :=
  vld_create_volume zero_stack mem no_errno2 no_errno2 resized no_errno zero_onode (fun _ => []) 0 77
    500 100 98 0 [] vicepa 5 [118; 111; 108] VLD_SVOL RWVOL empty.
Definition table : vtab := Eval vm_compute in match create_run with Some (s, _) => s | None => empty end.
Lemma table_eq : create_run = Some (table, inr tt).
Proof. vm_compute. reflexivity. Qed.
Definition server : fserver := FServer table RopaExamples.World.w2 trans_boot (RxData [] 0 0 []).
Definition owner : rx_call := RxCall 1 7001 (SecCtx (Some [-204; 7]) 7 true).
Definition other : rx_call := RxCall 2 7001 (SecCtx (Some [-101; 9]) 9 false).
Definition root : AFSFid := Build_AFSFid 5 1 1.
Definition file2 : AFSFid := Build_AFSFid 5 2 1.
Definition a : bytes := [97].
Definition b : bytes := [98].
Definition mode644 : AFSStoreStatus := StoreStatus SS_MODEBITS 0 0 0 420 0.

Definition fetchstatus := SRXAFS_FetchStatus mem no_errno (fun _ => []).
Definition storestatus := SRXAFS_StoreStatus mem no_errno (fun _ => []).
Definition createfile :=
  SRXAFS_CreateFile zero_stack mem no_errno2 no_errno2 resized no_errno zero_onode (fun _ => []).
Definition link := SRXAFS_Link zero_stack mem no_errno2 no_errno2 resized no_errno zero_onode (fun _ => []).
Definition makedir := SRXAFS_MakeDir zero_stack mem no_errno2 no_errno2 resized no_errno zero_onode (fun _ => []).
Definition removefile := SRXAFS_RemoveFile zero_stack mem no_errno2 no_errno2 resized no_errno (fun _ => []).
Definition removedir := SRXAFS_RemoveDir zero_stack mem no_errno2 no_errno2 resized no_errno (fun _ => []).
Definition rename :=
  SRXAFS_Rename zero_stack mem no_errno2 no_errno2 resized no_errno (fun _ => []) (Build_AFSFid 7 7 7).
Definition lookup (d : AFSFid) (name : bytes) : FM (Z + AFSFid) :=
  r <-- fs_init_req mem no_errno (fun _ => []) d VOLOP_GETSTATUS owner ;;
  let '(vol, n, m) := r in
  r <-- etry (dir_lookup no_errno2 no_errno2 vol n name) ;; finish vol n ;;! eret r.
Definition code {A} (r : Z + A) : Z := match r with inl e => e | inr _ => 0 end.

(** The state after a run. *)
Definition after_run {A} (m : FM A) (s : fserver) : fserver := match m s with Some (s', _) => s' | None => s end.
Definition coded {A} (m : FM A) (s : fserver) : option (fserver * Z) := (fun x => (x.1, code x.2)) <$> m s.
Definition result_at {A} (s : fserver) (m : FM A) : option (Z + A) := snd <$> m s.
(** The server after a file was made in the root, and after a directory was. *)
Definition with_file : fserver := Eval vm_compute in after_run (createfile owner root a mode644) server.
Lemma with_file_eq : coded (createfile owner root a mode644) server = Some (with_file, 0).
Proof. vm_compute. reflexivity. Qed.
Definition with_dir : fserver := Eval vm_compute in after_run (makedir owner root a mode644) server.
Lemma with_dir_eq : coded (makedir owner root a mode644) server = Some (with_dir, 0).
Proof. vm_compute. reflexivity. Qed.

(** A file is removed. *)
Lemma remove_file_run : result_at with_file (
  x <-- lookup root a ;; removefile owner root a ;;!
  y <-- lookup root a ;; r <-- etry (fetchstatus owner file2) ;; eret (x, y, code r)) =
  Some (inr (inr file2, inl ENOENT, EINVAL)).
Proof. vm_compute. reflexivity. Qed.
(** A directory is removed; the links of the root are as before. *)
Lemma removedir_run : result_at with_dir (
  st <-- fetchstatus owner root ;; r <-- etry (removedir owner root a) ;;
  y <-- lookup root a ;; st' <-- fetchstatus owner root ;;
  eret (fs_LinkCount (fst st), code r, y, fs_LinkCount (fst st'))) =
  Some (inr (3, 0, inl ENOENT, 2)).
Proof. vm_compute. reflexivity. Qed.
Lemma rename_file_run : result_at with_file (
  r <-- etry (rename owner root a root b) ;;
  x <-- lookup root a ;; y <-- lookup root b ;; eret (code r, x, y)) = Some (inr (0, inl ENOENT, inr file2)).
Proof. vm_compute. reflexivity. Qed.

(** To link a file under a name that is taken is refused, and the name is gone. *)
Lemma link_over_existing : result_at with_file (
  createfile owner root b mode644 ;;!
  r <-- etry (link owner root b file2) ;; x <-- lookup root b ;; y <-- lookup root a ;; eret (code r, x, y)) =
  Some (inr (EEXIST, inl ENOENT, inr file2)).
Proof. vm_compute. reflexivity. Qed.
(** A directory under a name that is taken is refused; a vnode stays behind. *)
Lemma makedir_over_existing : result_at with_dir (
  r <-- etry (makedir owner root a mode644) ;;
  st <-- fetchstatus owner root ;; x <-- makedir owner root b mode644 ;; f <-- lookup root b ;;
  eret (code r, fs_LinkCount (fst st), f)) =
  Some (inr (EEXIST, 3, inr (Build_AFSFid 5 7 1))).
Proof. vm_compute. reflexivity. Qed.
(** A user with rights to read only sets the mode of a file of the owner and
    becomes its owner. *)
Lemma reader_takes_file : result_at with_file (
  r <-- etry (storestatus other file2 (StoreStatus SS_MODEBITS 0 0 0 511 0)) ;; st <-- fetchstatus owner file2 ;;
  eret (code r, fs_Owner (fst st), fs_UnixModeBits (fst st))) = Some (inr (0, 9, 511)).
Proof. vm_compute. reflexivity. Qed.
End Created.
