(* ===== verification/DumpExamples.v ===== *)
(** * Dumps: runs

    The volume of [FsExamples.World] is dumped and read back, which
    instantiates the theorem of [DumpCorrect]; and runs of the procedures of
    [Volser] on a volume made by [vld_create_volume]. *)

From S2P Require Import Prelude Items Estate Buf Fdir Vnum Mdir Voldb VoldbRep VoldbFree VoldbOps VoldbProps.
From S2P Require Import Vrights Svol SvolCorrect Mnode MnodeCorrect Vinfo VinfoCorrect Vld VldCorrect VldExamples.
From S2P Require Import VldKeep Dpart Vtab VtabCorrect Vattach Vtrans Rxcopy Fsacl Connsec Fsprocs FsRun FsExamples.
From S2P Require Import Dump Volser DumpCorrect VtransCorrect VolserCorrect.
From S2P Require RopaExamples.

Local Open Scope em_scope.

Module Sent.
Import SvolCorrect.Witnesses VinfoCorrect.Witnesses VldExamples.World FsExamples.World.
#[local] Existing Instance demo_host.
#[local] Existing Instance demo_host_ok.
#[local] Existing Instance word_info.
#[local] Existing Instance word_info_ok.

(** The server with room for the dump. *)
Definition sender : fserver := FServer table5 RopaExamples.World.w2 trans_boot (RxData [] 100000 0 []).

(** The conditions of [readable] on a row. *)
Definition row_ok (part : bytes) (h : hostfs) (d : voldb) (k : Z) : bool :=
  match read_at k d with
  | None => true
  | Some x =>
      match u x with u_dir e => bool_decide (is_Some (acl_disk e)) | u_file _ => true end &&
      (if listed x then
         match onode_file part (ino (fent x)) h with
         | Some c => (0 <=? Length (fent x)) && (Length (fent x) <=? blen c)
         | None => false
         end
       else true)
  end.
Lemma readable_check dirp part h d : voldb_wf d -> kind_db dirp d ->
  forallb (row_ok part h d) (seqZ 0 (num d)) = true -> readable dirp part h d.
Proof.
  intros Hwf Hk Hc. rewrite forallb_forall in Hc.
  assert (Hrow : forall k, 0 <= k < num d -> row_ok part h d k = true).
  { intros k Hkn. apply Hc, list_elem_of_In, elem_of_seqZ. lia. }
  split; try done.
  - intros k x e Hkn Hx Hu. specialize (Hrow k Hkn). unfold row_ok in Hrow. rewrite Hx, Hu in Hrow.
    by apply andb_prop in Hrow as [?%bool_decide_eq_true _].
  - intros k x Hkn Hx Hl. specialize (Hrow k Hkn). unfold row_ok in Hrow. rewrite Hx, Hl in Hrow.
    apply andb_prop in Hrow as [_ Hrow]. destruct (onode_file part (ino (fent x)) h) as [c|]; [|discriminate Hrow].
    exists c. split; [done|]. lia.
Qed.

Lemma dumpable5 : dumpable 100 h5 dir_db file_db sender.
Proof.
  destruct dir_db_ok as (fl & [Hd _] & _), file_db_ok as (fl' & [Hf _] & _).
  split; try exact eq_refl.
  - exact table5_ok.
  - eexists. reflexivity.
  - apply readable_check; [exact Hd| |vm_compute; reflexivity]. vm_compute. repeat split.
  - apply readable_check; [exact Hf| |vm_compute; reflexivity]. vm_compute. repeat split.
  - split; [|vm_compute; reflexivity]. vm_compute. repeat constructor; intros E; discriminate E.
  - unfold fields_ok. cbn. repeat (apply Forall_cons; split; [by vm_compute|]). apply Forall_nil_2.
Qed.
Definition vnodes5 : list (vnode_data * bytes) := Eval vm_compute in volume_vnodes h5 dir_db file_db sender.
Lemma vnodes5_eq : volume_vnodes h5 dir_db file_db sender = vnodes5.
Proof. vm_compute. reflexivity. Qed.
Definition dump5 : bytes := Eval vm_compute in dump_bytes (h_info h5) vnodes5.
Lemma dump5_eq : dump_bytes (h_info h5) vnodes5 = dump5.
Proof. vm_compute. reflexivity. Qed.
(** The server the dump is sent to. *)
Definition receiver : fserver := FServer table5 RopaExamples.World.w2 trans_boot (RxData dump5 0 0 []).
Definition restore5 := restore_all zero_stack MnodeCorrect.Witnesses.memory zero_onode 4096 100.

Lemma sent_out b s : rx_out (fdata s) = [] -> rx_out (fdata (sent b s)) = b.
Proof. intros Hs. unfold sent. cbn. by rewrite Hs. Qed.
(** What is sent has the directory and the file with its 3000 bytes. *)
Lemma dump_round_trip_witness : exists s',
  generate_dump (fun _ => []) 4096 100 sender = Some (s', inr tt) /\ rx_out (fdata s') = dump5 /\
  map (fun x => (va_vnode (fst x), blen (snd x))) vnodes5 = [(1, 0); (2, 3000)] /\ blen dump5 = 3477 /\
  parse_dump zero_stack MnodeCorrect.Witnesses.memory zero_onode 4096 (fun _ => true) 100 receiver =
    restore5 vnodes5 [] (with_info 100 (restored_info (h_info h5)) receiver).
Proof.
  destruct (dump_round_trip 4096 (fun _ => []) 100 h5 dir_db file_db sender eq_refl eq_refl dumpable5)
    as (s' & j & Hr & Hs & _ & _ & Hparse).
  - rewrite vnodes5_eq, dump5_eq. vm_compute. intros E. discriminate E.
  - rewrite vnodes5_eq in Hs, Hparse. rewrite dump5_eq in Hs. exists s'. split; [exact Hr|]. split.
    { rewrite (vs_data _ _ _ _ Hs). apply sent_out. reflexivity. }
    split; [vm_compute; reflexivity|]. split; [vm_compute; reflexivity|].
    apply (Hparse zero_stack MnodeCorrect.Witnesses.memory zero_onode (fun _ => true) 100 h5 receiver []).
    + intros n _. reflexivity.
    + apply lookup_singleton_eq.
    + rewrite dump5_eq. symmetry. apply app_nil_r.
Defined.

(** A transaction on the volume. *)
Definition trans5 : tstate := (VtransCorrect.Witnesses.ran [CCreate 500 (Some 1) 0 5]).1.
Definition office : fserver := FServer table5 RopaExamples.World.w2 trans5 (RxData [] 0 0 []).
Lemma file7_ok : info_file_ok vicepa opaque7 host5.
Proof.
  intros ino o' name i Ho Hname Hi. vm_compute in Ho. injection Ho as <- <-.
  vm_compute in Hname. injection Hname as <-. vm_compute in Hi. injection Hi as <-. vm_compute. reflexivity.
Qed.
Lemma administered5 : administered [] [] 1 (TInfo 5 0 0 0 0) 100 h5 office.
Proof.
  split; try exact eq_refl.
  - exact (proj1 (reach_inv _ _ (VtransCorrect.Witnesses.ran_reach [CCreate 500 (Some 1) 0 5] eq_refl))).
  - eexists. reflexivity.
  - exact table5_ok.
  - split.
    + apply info_wf_size; [exact (vo_wf _ handle7_ok)|]. by vm_compute.
    + exact (vo_sino _ handle7_ok).
    + exact file7_ok.
Qed.
Definition wanted : info_request := SetIdsTypes [118; 50] 1 11 12 13.
End Sent.

(** ** A volume that is moved

    Volume 5 is dumped and restored into volume 9, which is made for it. *)

Module Moved.
Import SvolCorrect.Witnesses VinfoCorrect.Witnesses FsExamples.Created.
#[local] Existing Instance word_info.
#[local] Existing Instance status_bytes.
(** Inodes whose directories are not there. *)
#[local] Instance next_host : HostChoice := {
  tmpname := @tmpname spread_host;
  new_ino h := Some (256 * Z.of_nat (base.size (hdirs h)));
  new_fd := @new_fd spread_host
}.
Definition create_run : option (vtab * (Z + unit)) :=
  vld_create_volume zero_stack mem no_errno2 no_errno2 resized no_errno zero_onode (fun _ => []) 0 77
    500 100 98 0 [] vicepa 5 [118; 111; 108] VLD_SVOL RWVOL empty.
Definition table : vtab := Eval vm_compute in match create_run with Some (s, _) => s | None => empty end.
Lemma start_table_eq : create_run = Some (table, inr tt).
Proof. vm_compute. reflexivity. Qed.
Definition start : fserver := FServer table RopaExamples.World.w2 trans_boot (RxData [] 100000 0 []).

Definition createfile :=
  SRXAFS_CreateFile zero_stack mem no_errno2 no_errno2 resized no_errno zero_onode (fun _ => []).
Definition storedata := SRXAFS_StoreData mem no_errno (fun _ => []) 4096 owner.
Definition fetchdata := SRXAFS_FetchData mem no_errno (fun _ => []) 0 4096 owner.

Definition trans_at (s : tstate) : option Z := Some (perm_tid s).
Definition transcreate (volume : Z) : FM Z := SVOLSER_AFSVolTransCreate [] trans_at true volume 0 0.
Definition endtrans := SVOLSER_AFSVolEndTrans true.
Definition getstatus := SVOLSER_AFSVolGetStatus [] true.
Definition setidstypes := SVOLSER_AFSVolSetIdsTypes [] true.
Definition dump := SVOLSER_AFSVolDump (fun _ => []) 4096 [] true.
Definition restore := SVOLSER_AFSVolRestore zero_stack mem zero_onode 4096 (fun _ => true) [] true.
Definition createvolume := SVOLSER_AFSVolCreateVolume zero_stack mem no_errno2 no_errno2 resized no_errno
  zero_onode (fun _ => []) 0 77 [] (fun _ => 200) (fun _ => 98) trans_at true.

(** The data that arrives; what was sent arrives. *)
Definition arrive (l : bytes) : FM unit := emod (with_in l).
Definition turn : FM unit := emod (fun s => with_data (RxData (rx_out (fdata s)) 100000 0 []) s).
(** Volume 5 is sent to where volume 9 is made for it, and restored there. *)
Definition send : FM Z :=
  t <-- transcreate 5 ;; dump t 0 ;;! endtrans t ;;! turn ;;!
  t <-- createvolume 0 [119; 111; 108] RWVOL 9 ;; endtrans t ;;! transcreate 9.
Definition receive (t : Z) : FM (Z + unit) := r <-- etry (restore t) ;; endtrans t ;;! turn ;;! eret r.
Definition root9 : AFSFid := Build_AFSFid 9 1 1.
Definition file9 : AFSFid := Build_AFSFid 9 2 1.
Definition hello : bytes := [104; 101; 108; 108; 111].
Definition unique_at (h : option volume_handle) : option Z :=
  h ← h; d ← h_file h; Some (unique (slot d 0)).

(** A file is made in the root and gets data, which promises nobody anything:
    the callbacks are left as they were.  Then the volume is moved. *)
Definition made : fserver := Eval vm_compute in after_run (createfile owner root a mode644 ;;! arrive hello) start.
Lemma made_eq : (createfile owner root a mode644 ;;! arrive hello) start = Some (made, inr tt).
Proof. vm_compute. reflexivity. Qed.
Definition store : FM AFSFetchStatus := storedata file2 mode644 0 5 5.
Definition edited : fserver := Eval vm_compute in
  let s := after_run store made in FServer (fvt s) (fropa made) (ftrans s) (fdata s).
Lemma edited_eq : (fun x => (fvt x.1, ftrans x.1, fdata x.1, code x.2)) <$> store made =
  Some (fvt edited, ftrans edited, fdata edited, 0).
Proof. vm_compute. reflexivity. Qed.
Definition waiting : fserver := Eval vm_compute in after_run send edited.
Lemma waiting_eq : send edited = Some (waiting, inr 3).
Proof. vm_compute. reflexivity. Qed.
Definition moved : fserver := Eval vm_compute in after_run (receive 3) waiting.
Lemma moved_eq : receive 3 waiting = Some (moved, inr (inr tt)).
Proof. vm_compute. reflexivity. Qed.

(** The file of the moved volume is found by its name and has its data. *)
Lemma moved_file_run : result_at moved (
  f <-- lookup root9 a ;; st <-- fetchdata file9 0 5 ;; s <-- eget ;;
  eret (f, fs_Owner (fst st), fs_UnixModeBits (fst st), rx_out (fdata s))) =
  Some (inr (inr file9, 7, 420, [0; 0; 0; 5] ++ hello)).
Proof. vm_compute. reflexivity. Qed.
(** The mode of the directory has got a bit that the code means to be 040000. *)
Lemma moved_directory_mode : result_at moved (
  st <-- fetchstatus owner root ;; st' <-- fetchstatus owner root9 ;;
  eret (fs_UnixModeBits (fst st), fs_UnixModeBits (fst st'))) =
  Some (inr (493, 262144 + 493)).
Proof. vm_compute. reflexivity. Qed.
(** The directory names the file with its unique number, which its entry has lost. *)
Lemma moved_unique_lost : result_at moved (
  f <-- lookup root9 a ;; s <-- eget ;;
  eret (f, unique_at (handles (fvt s) !! 100), unique_at (handles (fvt s) !! 200))) =
  Some (inr (inr file9, Some 1, Some 0)).
Proof. vm_compute. reflexivity. Qed.

(** A node that is still in the cache keeps the entry from before the restore,
    whose inode is removed: the directory cannot be opened. *)
Definition waiting0 : fserver := Eval vm_compute in after_run send start.
Lemma waiting0_eq : send start = Some (waiting0, inr 3).
Proof. vm_compute. reflexivity. Qed.
Lemma moved_node_stale : result_at waiting0 (
  receive 3 ;;! st <-- etry (fetchstatus owner root9) ;; eret (code st)) = Some (inr ENOENT).
Proof. vm_compute. reflexivity. Qed.

(** To restore a symbolic link, here the only vnode of the dump, aborts the server. *)
Definition link_vnode : vnode_data := VnodeData 2 1 1 1 7 7 0 1 0 0 1 511 TYPE_LINK None.
Definition link_dump : bytes := Eval vm_compute in
  match handles (fvt start) !! 100 with Some h => dump_bytes (h_info h) [(link_vnode, b)] | None => [] end.
Lemma moved_symlink_aborts : (t <-- transcreate 5 ;; restore t) (with_in link_dump made) = None.
Proof. vm_compute. reflexivity. Qed.

(** A dump keeps its reference to the volume, to ask for the status does not. *)
Lemma dump_keeps_reference : result_at start (
  t <-- transcreate 5 ;; getstatus t ;;! s <-- eget ;; dump t 0 ;;! s' <-- eget ;;
  eret (h_ref <$> handles (fvt s) !! 100, h_ref <$> handles (fvt s') !! 100)) = Some (inr (Some 1, Some 2)).
Proof. vm_compute. reflexivity. Qed.
(** The name of a volume and its ids are set, the info is written. *)
Lemma setidstypes_run : result_at start (
  t <-- transcreate 5 ;; setidstypes t hello 2 1 2 3 ;;! st <-- getstatus t ;;
  eret (s_type st, s_parentID st, s_cloneID st, s_backupID st)) = Some (inr (2, 1, 2, 3)).
Proof. vm_compute. reflexivity. Qed.
End Moved.
